(* ===== verification/_CoqProject ===== *)
-Q . S2P
Prelude.v
PyText.v
Json.v
Identity.v
IdentityProofs.v
JsonCanon.v
StateMachine.v
Lifecycles.v
Aggregates.v
LifecycleProofs.v
Graphs.v
Plans.v
PlanProofs.v
PlanExecutions.v
PlanExecutionProofs.v
Stacks.v
StackProofs.v
Scheduler.v
SchedulerProofs.v
Regex.v
Redaction.v
Ledger.v
LedgerProofs.v
LedgerTheorems.v
Coordinator.v
CoordinatorProofs.v
NodeLeases.v
Serialization.v
Runtime.v
LedgerCalls.v
PlanCoordinator.v
PlanCoordinatorProofs.v
StackCoordinator.v
Evidence.v
Policy.v
PolicyProofs.v
VersionRange.v
Schemas.v
SchemaProofs.v
Manifests.v
Closures.v
ClosureProofs.v
Locks.v
LockProofs.v
Resolver.v
ResolverProofs.v
Approvals.v
ShellGuard.v
ShellGuardProofs.v
Checks.v
Workflows.v
WorkflowProofs.v
Records.v
RecordProofs.v
HumanDecisions.v
DecisionLedger.v
DecisionProofs.v
OperatorControl.v
Workers.v
Workspaces.v
RuntimeNodes.v
WorkerProofs.v
EngineHistory.v
NodeRecords.v
RuntimeNodeProofs.v
TickProofs.v
Incidents.v
IncidentProofs.v
IncidentHistory.v
Outcomes.v
OutcomeProofs.v
PullRequests.v
MergeReady.v
Selections.v
SelectionProofs.v
ProtectedPaths.v
Runners.v
Behavior.v
BehaviorProofs.v
RunProgress.v
