(* ===== verification/Prelude.v ===== *)
(** * Enginery: a verification development (root file)

    Enginery is a control plane for software work carried out by agents: plans are
    split into milestones, milestones run as workflows whose nodes are leased to
    workers, and every fact goes through one SQLite ledger under policy and evidence
    checks.  The sources are under [src/src/enginery/]; paths below are relative to
    it.  This library models the parts that decide what may happen ([domain], [plans],
    [engine], [ledger], [policy], [evidence], [capabilities], [incidents],
    [evaluation], and of [application] and [workflows] the values and decisions) as
    executable definitions and proves what they promise.

    ** Reading order, and what each file models

    - [Prelude] (this file): failure classes and exceptions ([domain/errors.py],
      [ledger/errors.py], as classes; only the message of a hard-rule error is kept,
      because it is stored), the error monad [result], [raise_when b as e ;; k] for
      [if b: raise e], list traversals with their inversion lemmas, and the [raises]
      automation.
    - [PyText]: the Python built-ins the sources use on text, enumerations, integers
      and datetimes; [Json], [JsonCanon]: JSON values, Python dictionaries as
      association lists with unique keys, Python equality, canonical form and its
      laws; [Regex]: the matcher for the sources' regular expressions.
    - [Identity], [IdentityProofs]: digests, canonical JSON text, identifiers and
      derived operation identities ([domain/digests.py], [domain/ids.py]).
    - [StateMachine]: the guarded transition tables of [domain/state_machine.py];
      [Lifecycles]: the seven tables and their enumerations; [Aggregates]: the
      records and operations of runs, node attempts, work items, factory changes,
      incidents and observations; [LifecycleProofs]: their theorems.
    - [Graphs]: the two worklist loops over dependency graphs; [Plans], [PlanProofs]:
      [plans/model.py] on top of them.
    - [PlanExecutions], [PlanExecutionProofs]: [domain/plan_execution.py];
      [Stacks], [StackProofs]: [domain/stack.py]; [Serialization], [Records],
      [RecordProofs]: the stored forms of [domain/serialization.py], the first for plan
      executions and stacks, the others for every other record.
    - [Scheduler], [SchedulerProofs]: [engine/scheduler.py].
    - [Redaction]: the credential patterns and payload scan of [ledger/redaction.py].
    - [Ledger]: the tables of [ledger/schema.py] as one record and the operations of
      [ledger/events.py], [process_manager.py], [projections.py], [leases.py],
      [inbox.py], [outbox.py], [artifacts.py], [artifact_store.py] and
      [commit_cursors.py] as computations [tx] on it; [LedgerProofs] says what each
      primitive does and what keeps the ledger well formed, [LedgerTheorems] the
      effect of an append and the theorems over histories.
    - [Coordinator], [CoordinatorProofs]: [engine/coordinator.py] on the ledger;
      [NodeLeases]: [engine/leases.py] and [engine/results.py] on the coordinator;
      [Runtime]: the guarded append the engine's modules share and the registration
      of runs; [LedgerCalls]: the calls and histories of the services outside it.
    - [PlanCoordinator], [PlanCoordinatorProofs], [StackCoordinator]: the process
      managers of a plan's execution and of a stack.
    - [OperatorControl] ([engine/operator_control.py]), [Workers]
      ([engine/supervisor.py], [engine/host_identity.py], [engine/recovery.py]'s
      assessments), [Workspaces] ([engine/workspace.py], [engine/recovery.py]'s
      operations), [RuntimeNodes] ([engine/runtime.py]): the running engine.
      [WorkerProofs]: what each call can write; [EngineHistory]: the workers' records
      over any calls; [NodeRecords], [RuntimeNodeProofs], [TickProofs]: the nodes'
      records, the nodes over any calls and the scheduling tick.
    - [Evidence]: [domain/evidence.py], [domain/principal.py],
      [evidence/evaluator.py]; [Policy], [PolicyProofs]: [policy/] and
      [domain/policy_decision.py].
    - [HumanDecisions], [DecisionLedger], [DecisionProofs]: human decisions, their
      challenges and their store.
    - [VersionRange], [Schemas], [Manifests], [Closures], [Locks], [Resolver],
      [Approvals] with their proofs: the capability packages of [capabilities/].
    - [ShellGuard], [Checks], [Workflows] with their proofs: the shell guard and the
      workflow manifests of [domain/workflow/].
    - [Incidents], [IncidentProofs], [IncidentHistory]: [incidents/];
      [Outcomes], [OutcomeProofs]: [evaluation/outcomes.py].
    - [PullRequests], [MergeReady]: what a pull request's evidence shows, the terminal
      bundle, merging a stack and publishing a release ([workflows/pull_request.py],
      [review.py], [evidence.py], [verification.py], [merge_policy.py],
      [plan_to_release.py]).
    - [Selections], [SelectionProofs]: [domain/execution_catalog.py] and
      [domain/execution_selection.py]; [ProtectedPaths]:
      [application/branch_publication.py]; [Runners]: [domain/runner.py].
    - [Behavior], [BehaviorProofs]: declared checks, evidence receipts, calibration
      and the behavioural evaluator; [RunProgress]: [workflows/run_lifecycle.py]'s
      derivation of the next action and the choice of an implementation's attempt.

    ** How state and operations correspond

    A frozen dataclass is a record; its [__post_init__] is a definition
    [..._post_init] that every modelled constructor call runs; an operation that
    returns a new value is a function into [result].  The ledger is mutable: a
    statement sequence is a [tx A := Ledger -> Ledger * result A], whose writes
    survive an exception, and [transaction] restores the earlier ledger on an
    exception, as the connection's context manager does.  The coordinator, the
    leases and the registry keep their object's fields as arguments.  Fresh
    identifiers, the clock and the caller's instant are arguments; the ledger's own
    time stamps share one clock text per call.  A [Path] is its text.  What the
    operating system and the repositories answer to a call of the engine is an
    argument of that call ([Host], [TaskRepository]), one answer per question.  The
    calls [MergeReady] makes on the hosts are a trace, and what a host answers may
    depend on the calls made so far.  A history is any list of calls, each with the
    arguments and the answers of its own, returned or raised; what is proved over
    histories restricts the calls only where the statement says so.

    ** What the theorems show

    - Ledger: an append is all or nothing and has one effect on every table
      ([append_all_or_nothing]); histories of any calls keep the ledger well formed
      and append-only ([ledger_histories_sound]); a committed command never commits
      again; projections can be rebuilt from the events.
    - Coordination: a stale guard never commits ([stale_coordinator_fenced]);
      one owner per epoch; superseded workers cannot report
      ([superseded_result_refused]).
    - The engine: a tick launches only ready agent nodes of admitted runs, never over
      the limits ([tick_launches_safe]); a worker's process identity stays on record
      until the process is shown gone, or a heartbeat or human wait reports another
      one, and no second worker starts meanwhile ([worker_kept_until_gone]); nodes move
      only along the steps the operations allow from their status
      ([runtime_node_history]); stored requests read back ([stored_request_roundtrip]).
    - Runs: an advancing action rests on the recorded results of its generation
      ([progression_rests_on_record]), and a dispatch finds the attempt the derivation
      asked for ([repair_dispatch_agrees]).
    - Plans, executions and stacks: codecs round-trip, roll-ups are characterised,
      stored histories refine the domain's operations, a plan whose outcomes arrive
      ends, and one held back by a failed milestone is ended by cancelling the rest
      ([plan_progress]), stacks merge from the root.
    - Pull requests and releases: [merge_ready] is characterised
      ([evaluate_pull_request_spec]); the terminal bundle needs two equal reads and
      the reconciled work ledger ([verify_sound]); merging asks for the next slice
      only and ends ([merge_next_sound], [merge_all_sound]); publishing rests on a
      human's approval of the very artifacts ([publish_rests_on_human]).
    - Lifecycles: success passes through evidence, no table has a dead end.
    - Scheduler: safety of the limits, work conservation with reasons, independence
      of the input's order.
    - Policy, evidence and human decisions: what an allow decision, a passing
      evaluation and a consumed decision rest on; a challenge is used once; a changed
      subject retires its decisions.
    - Behavioural acceptance: what a pass and a failure rest on, and that the
      evaluation always answers ([evaluate_behavioral_sound]).
    - Incidents and outcomes: the broker is consulted only under a human's digest-bound
      approval ([broker_rests_on_approval]); both services' records stay readable and
      move only by the aggregates' operations.
    - Runners, selections, protected paths: the reported container is compared exactly
      ([isolated_launch_contained]), launch records read back, a selection honours its
      layers, and the held paths are those the patterns match.
    - Capabilities: a closure digest binds the packaged bytes, a lock holds what was
      verified and approved, pins never move, versions and schemas are checked
      exactly.
    - Workflow manifests: validation is exact, mappings round-trip, no check reaches
      a shell.

    ** Bounds and fuel

    Python integers are [Z] without a width; CPython's limit of 4300 digits between
    integers and text is modelled where an integer is read from text and where a
    schema's instance is written, elsewhere writing an integer is total.  Times are
    microseconds in [Z] (the range limits of Python's datetime are not modelled);
    floats are [spec_float].
    Loops that are not structural take fuel: [visit_loop] and [order_loop] the
    number of nodes plus one, [reach_loop] the number of edges plus two, [rounds] the
    number of scheduled nodes plus one, [merge_loop] the number of slices plus one, the
    shell guard's [skip_loop] the length of the argument vector, walks over JSON its
    size, dependency resolution the depth limit the source itself enforces; in each
    case a theorem shows the loop returns with it.

    ** Parameters and what is not modelled

    [PyRuntime] holds SHA-256 and [float.__repr__] (relied on: the shape of a hex
    digest), [IsoCodec] the standard library's ISO text of instants (relied on:
    decoding inverts encoding), [JsonDecoder] and [JsonReader] the JSON reader,
    [PatternEngine] the regular expressions of a catalog's patterns, [PyValues] [str]
    of a value and the float seconds of a duration (relied on: exact up to 270 years,
    as documented), [UrlReader] [urllib.parse] and [ipaddress],
    [Ports] the hosts and the policy behind merging; the texts of known licenses, the
    package sources, the deployment broker and the probes of installed harnesses are
    arguments.  Strings hold code points up to U+00FF, so normalisation and case rules
    beyond them are out of scope.  Opening, migrating and backing up the database file,
    publishing artifact files, the processes behind [Host], the clones behind
    [TaskRepository], the adapters, the command line, the scripts that carry out one
    workflow node and the decoding of a stored run request are not modelled. *)
From stdpp Require Export base tactics option list gmap strings sorting pretty.
From Stdlib Require Export ZArith Lia.

(** ** Failure classes and exceptions

    [FailureClass] is [domain/errors.py]'s closed taxonomy; [exn] lists the
    Python exception classes of the sources: the [EngineryError] hierarchy, the
    subclasses of the ledger ([ledger/errors.py]), the policy and evidence errors,
    those of the capability packages ([capabilities/errors.py]) and of human decisions
    ([application/human_decisions.py]), and the builtins some code paths let escape.  Only [HardRuleError]
    carries its message, because only its text is stored (a policy decision's
    rationale); every other message is diagnostic text no code branches on. *)
Inductive FailureClass :=
| INVALID_INPUT | MISSING_PREREQUISITE | POLICY_DENIAL | HUMAN_ACTION_REQUIRED
| TRANSIENT_PROVIDER_FAILURE | AUTHENTICATION_FAILURE | RATE_LIMIT
| EXTERNAL_CONFLICT | STALE_EVIDENCE | WORKER_FAILURE | VALIDATION_FAILURE
| TIMEOUT | CANCELLATION | AMBIGUOUS_EXTERNAL_SIDE_EFFECT
| INTERNAL_INVARIANT_VIOLATION.

Inductive exn :=
| InvalidInputError | MissingPrerequisiteError | PolicyDenialError
| HumanActionRequiredError | TransientProviderFailureError
| AuthenticationFailureError | RateLimitError | ExternalConflictError
| StaleEvidenceError | WorkerFailureError | ValidationFailureError
| OperationTimeoutError | CancellationError | AmbiguousExternalSideEffectError
| InternalInvariantViolationError
| ExpectedVersionConflictError | MigrationFailedError
| SchemaVersionUnsupportedError | CorruptedEventError | ArtifactMissingError
| ArtifactDigestMismatchError | RawCredentialDetectedError
| ActionSchemaError | HardRuleError (message : string) | EvidenceEvaluationError
| CapabilityNotFoundError | CapabilityDigestMismatchError | CapabilityLockDriftError
| CapabilityIntegrityError | CapabilityApprovalRequiredError | CapabilityLicenseMismatchError
| CapabilityLicenseHoldError | CapabilityPathError | CapabilitySymlinkError
| CapabilityAssetTypeError | CapabilityClosureLimitError | CapabilityManifestError
| CapabilityDependencyError | CapabilityLegacyLockError | CapabilityInputSchemaError
| CapabilityCommandNotRunnableError | CapabilityCommandTimeoutError
| CapabilityCommandFailedError | CapabilityCommandOutputError | CapabilityNotInstalledError
| CapabilityInstallConflictError | CapabilityIncompatibleError | CapabilitySourceError
| HumanDecisionError | AuthenticationError | PrincipalMismatchError | ActionMismatchError
| SubjectMismatchError | StaleSubjectError | UnknownChallengeError | ExpiredChallengeError
| ReplayedChallengeError | MissingDecisionError | ExpiredDecisionError
| SupersededDecisionError | DeploymentGrantExpiredError
| PyValueError | PyKeyError | PyIndexError | PyTypeError | PyAttributeError
| PyAssertionError | PyPermissionError | PyOverflowError
| SqliteIntegrityError | SqliteOperationalError.

#[export] Instance FailureClass_eq_dec : EqDecision FailureClass.
Proof. solve_decision. Defined.
#[export] Instance exn_eq_dec : EqDecision exn.
Proof. solve_decision. Defined.

(** The [failure_class] class attribute, inherited along the Python hierarchy;
    [None] for a builtin exception, which carries no class. *)
Definition failure_class (e : exn) : option FailureClass :=
  match e with
  | InvalidInputError | ActionSchemaError | HardRuleError _
  | EvidenceEvaluationError
  | HumanDecisionError | AuthenticationError | PrincipalMismatchError | ActionMismatchError
  | SubjectMismatchError | StaleSubjectError | UnknownChallengeError | ExpiredChallengeError
  | ReplayedChallengeError | MissingDecisionError | ExpiredDecisionError
  | SupersededDecisionError | DeploymentGrantExpiredError => Some INVALID_INPUT
  | MissingPrerequisiteError | ArtifactMissingError
  | CapabilityNotFoundError | CapabilityLockDriftError | CapabilityNotInstalledError
  | CapabilitySourceError => Some MISSING_PREREQUISITE
  | PolicyDenialError => Some POLICY_DENIAL
  | HumanActionRequiredError | CapabilityApprovalRequiredError => Some HUMAN_ACTION_REQUIRED
  | TransientProviderFailureError => Some TRANSIENT_PROVIDER_FAILURE
  | AuthenticationFailureError => Some AUTHENTICATION_FAILURE
  | RateLimitError => Some RATE_LIMIT
  | ExternalConflictError | ExpectedVersionConflictError
  | CapabilityInstallConflictError => Some EXTERNAL_CONFLICT
  | StaleEvidenceError => Some STALE_EVIDENCE
  | WorkerFailureError | CapabilityCommandFailedError => Some WORKER_FAILURE
  | ValidationFailureError | ArtifactDigestMismatchError
  | RawCredentialDetectedError
  | CapabilityDigestMismatchError | CapabilityIntegrityError | CapabilityLicenseMismatchError
  | CapabilityLicenseHoldError | CapabilityPathError | CapabilitySymlinkError
  | CapabilityAssetTypeError | CapabilityClosureLimitError | CapabilityManifestError
  | CapabilityDependencyError | CapabilityLegacyLockError | CapabilityInputSchemaError
  | CapabilityCommandNotRunnableError | CapabilityCommandOutputError
  | CapabilityIncompatibleError => Some VALIDATION_FAILURE
  | OperationTimeoutError | CapabilityCommandTimeoutError => Some TIMEOUT
  | CancellationError => Some CANCELLATION
  | AmbiguousExternalSideEffectError => Some AMBIGUOUS_EXTERNAL_SIDE_EFFECT
  | InternalInvariantViolationError | MigrationFailedError
  | SchemaVersionUnsupportedError | CorruptedEventError =>
      Some INTERNAL_INVARIANT_VIOLATION
  | PyValueError | PyKeyError | PyIndexError | PyTypeError | PyAttributeError
  | PyAssertionError | PyPermissionError | PyOverflowError
  | SqliteIntegrityError | SqliteOperationalError => None
  end.

(** ** The error monad *)
Inductive result (A : Type) :=
| Ok (a : A)
| Err (e : exn).
Arguments Ok {A} a.
Arguments Err {A} e.

#[export] Instance result_ret : MRet result := fun A a => Ok a.
#[export] Instance result_bind : MBind result := fun A B f r =>
  match r with Ok a => f a | Err e => Err e end.
#[export] Instance result_fmap : FMap result := fun A B f r =>
  match r with Ok a => Ok (f a) | Err e => Err e end.

Declare Scope enginery_scope.
Delimit Scope enginery_scope with enginery.
Open Scope enginery_scope.

(** [raise_if b e;; k] is Python's [if b: raise e] followed by [k]. *)
Definition raise_if (b : bool) (e : exn) : result () :=
  if b then Err e else Ok ().
Notation "'raise_when' b 'as' e ';;' k" :=
  (mbind (M:=result) (fun _ : () => k) (raise_if b e))
  (at level 100, b at level 99, e at level 99, k at level 200, right associativity)
  : enginery_scope.

Definition is_ok {A} (r : result A) : bool :=
  match r with Ok _ => true | Err _ => false end.
Definition from_option_err {A} (e : exn) (o : option A) : result A :=
  match o with Some a => Ok a | None => Err e end.

Lemma raise_if_Ok {A} b e (k : result A) a :
  (raise_when b as e ;; k) = Ok a <-> b = false /\ k = Ok a.
Proof. unfold raise_if. destruct b; cbn; naive_solver. Qed.
Lemma raise_if_Err {A} b e (k : result A) e' :
  (raise_when b as e ;; k) = Err e' <-> (b = true /\ e' = e) \/ (b = false /\ k = Err e').
Proof. unfold raise_if. destruct b; cbn; naive_solver. Qed.
Lemma bind_Ok {A B} (f : A -> result B) r b :
  mbind f r = Ok b <-> exists a, r = Ok a /\ f a = Ok b.
Proof. destruct r; cbn; naive_solver. Qed.
Lemma bind_Err {A B} (f : A -> result B) r e :
  mbind f r = Err e <-> r = Err e \/ exists a, r = Ok a /\ f a = Err e.
Proof. destruct r; cbn; naive_solver. Qed.

(** A list traversal in the error monad: the first exception wins. *)
Fixpoint mapM_result {A B} (f : A -> result B) (l : list A) : result (list B) :=
  match l with
  | [] => Ok []
  | x :: l => y ← f x; ys ← mapM_result f l; Ok (y :: ys)
  end.

Lemma mapM_result_Ok {A B} (f : A -> result B) l k :
  mapM_result f l = Ok k <-> Forall2 (fun x y => f x = Ok y) l k.
Proof.
  revert k; induction l as [|x l IH]; intros k; cbn.
  - split; [intros [= <-]; constructor | by inversion 1].
  - rewrite bind_Ok; split.
    + intros (y & Hy & (ys & Hys & [= <-])%bind_Ok). constructor; [done|by apply IH].
    + inversion 1 as [|? y ? ys Hy Hys]; subst. exists y; split; [done|].
      apply bind_Ok. exists ys; split; [by apply IH|done].
Qed.

Lemma bind_unit_Ok {A} (r : result ()) (k : result A) a :
  (_ ← r; k) = Ok a <-> r = Ok () /\ k = Ok a.
Proof. rewrite bind_Ok. split; [by intros ([] & ? & ?)|]. intros [? ?]. by exists (). Qed.
(** Decoding what was encoded, element by element. *)
Lemma mapM_result_map {A B} (f : B -> result A) (g : A -> B) l :
  Forall (fun x => f (g x) = Ok x) l -> mapM_result f (map g l) = Ok l.
Proof. induction 1 as [|x l Hx _ IH]; cbn; [done|]. by rewrite Hx, IH. Qed.

(** A computation that returns. *)
Definition returns {A} (r : result A) : Prop := exists x, r = Ok x.
Lemma returns_bind {A B} (r : result A) (f : A -> result B) :
  returns r -> (forall x, r = Ok x -> returns (f x)) -> returns (x ← r; f x).
Proof. intros [x ->] Hf. by apply Hf. Qed.
Lemma returns_mapM {A B} (f : A -> result B) l : (forall x, x ∈ l -> returns (f x)) -> returns (mapM_result f l).
Proof.
  induction l as [|x l IH]; intros Hf; [by exists []|].
  cbn. apply returns_bind; [apply Hf; left|]. intros y _.
  apply returns_bind; [apply IH; intros z Hz; apply Hf; by right|]. intros ys _. by exists (y :: ys).
Qed.

(** [for x in l: f(x)]: the first exception stops the loop. *)
Fixpoint each_result {A} (f : A -> result ()) (l : list A) : result () :=
  match l with
  | [] => Ok ()
  | x :: l => _ ← f x; each_result f l
  end.
Lemma each_result_Ok {A} (f : A -> result ()) l :
  each_result f l = Ok () <-> Forall (fun x => f x = Ok ()) l.
Proof.
  induction l as [|x l IH]; cbn; [split; [constructor|done]|].
  by rewrite bind_unit_Ok, Forall_cons, <- IH.
Qed.

(** A left fold in the error monad ([for x in l: s = f(s, x)]). *)
Fixpoint foldM_result {A S} (f : S -> A -> result S) (l : list A) (s : S) : result S :=
  match l with
  | [] => Ok s
  | x :: l => s' ← f s x; foldM_result f l s'
  end.

(** An invariant [I] and a relation [R n] between the states [n] successful rounds
    apart, established round by round. *)
Lemma foldM_rounds {A S} (f : S -> A -> result S) (Q : A -> Prop) (I : S -> Prop)
    (R : nat -> S -> S -> Prop) :
  (forall s, I s -> R 0 s s) ->
  (forall s x s' n t, I s -> Q x -> f s x = Ok s' -> I s' /\ (R n s' t -> R (1 + n) s t)) ->
  forall l s t, Forall Q l -> I s -> foldM_result f l s = Ok t -> I t /\ R (length l) s t.
Proof.
  intros H0 H1 l s t Hl. revert s. induction Hl as [|x l Hx _ IH]; intros s Hs; cbn.
  - intros [= <-]. auto.
  - rewrite bind_Ok. intros (s' & Hf & Hrun).
    destruct (H1 s x s' (length l) t Hs Hx Hf) as [Hs' HR].
    destruct (IH s' Hs' Hrun) as [? ?]. auto.
Qed.

(** ** Which exceptions a computation can raise

    [raises_only P r]: every exception [r] ends with satisfies [P].  The [raises]
    hint database proves it structurally; each component adds its operations. *)
Definition raises_only {A} (P : exn -> Prop) (r : result A) : Prop :=
  forall e, r = Err e -> P e.

Lemma raises_only_Ok {A} P (a : A) : raises_only P (Ok a).
Proof. by intros e. Qed.
Lemma raises_only_Err {A} (P : exn -> Prop) e : P e -> raises_only P (@Err A e).
Proof. by intros ? ? [= <-]. Qed.
Lemma raises_only_bind {A B} P (r : result A) (f : A -> result B) :
  raises_only P r -> (forall a, raises_only P (f a)) -> raises_only P (mbind f r).
Proof. intros Hr Hf e [He|(a & _ & He)]%bind_Err; [by apply Hr|by apply (Hf a)]. Qed.
Lemma raises_only_if (P : exn -> Prop) b e : P e -> raises_only P (raise_if b e).
Proof. intros He. destruct b; [by apply raises_only_Err|by apply raises_only_Ok]. Qed.
Lemma raises_only_option {A} (P : exn -> Prop) e (o : option A) :
  P e -> raises_only P (from_option_err e o).
Proof. intros He. destruct o; [by apply raises_only_Ok|by apply raises_only_Err]. Qed.
Lemma raises_only_mapM {A B} P (f : A -> result B) l :
  (forall x, raises_only P (f x)) -> raises_only P (mapM_result f l).
Proof.
  intros Hf. induction l as [|x l IH]; cbn; [apply raises_only_Ok|].
  apply raises_only_bind; [done|]. intros y. apply raises_only_bind; [done|].
  intros ys. apply raises_only_Ok.
Qed.
Lemma raises_only_each {A} P (f : A -> result ()) l :
  Forall (fun x => raises_only P (f x)) l -> raises_only P (each_result f l).
Proof.
  induction 1 as [|x l Hx _ IH]; cbn; [apply raises_only_Ok|]. by apply raises_only_bind.
Qed.
Lemma raises_only_foldM {A S} P (f : S -> A -> result S) l s :
  (forall s x, raises_only P (f s x)) -> raises_only P (foldM_result f l s).
Proof.
  intros Hf. revert s. induction l as [|x l IH]; intros s; cbn; [apply raises_only_Ok|].
  apply raises_only_bind; [done|]. intros y. apply IH.
Qed.
Lemma raises_only_weaken {A} (P Q : exn -> Prop) (r : result A) :
  raises_only P r -> (forall e, P e -> Q e) -> raises_only Q r.
Proof. intros Hr HPQ e He. by apply HPQ, Hr. Qed.

Create HintDb raises.
#[export] Hint Resolve raises_only_Ok raises_only_Err raises_only_bind raises_only_if
  raises_only_option raises_only_mapM raises_only_foldM : raises.

(** [raises]: walks the monadic structure and the case analyses of a computation. *)
Ltac raises :=
  repeat match goal with
  | |- forall _, _ => intro
  | |- raises_only _ (mbind _ _) => apply raises_only_bind
  | |- raises_only _ (Ok _) => apply raises_only_Ok
  | |- raises_only _ (Err _) => apply raises_only_Err
  | |- raises_only _ (raise_if _ _) => apply raises_only_if
  | |- raises_only _ (from_option_err _ _) => apply raises_only_option
  | |- raises_only _ (mapM_result _ _) => apply raises_only_mapM
  | |- raises_only _ (foldM_result _ _ _) => apply raises_only_foldM
  | |- raises_only _ (match ?x with _ => _ end) => destruct x
  | |- raises_only _ _ => solve [eauto 3 with raises]
  end; try done.

(** ** Counting from one *)
(** [list(range(1, n + 1))] *)
Definition range1 (n : nat) : list Z := map Z.of_nat (seq 1 n).
Lemma range1_S n : range1 (S n) = range1 n ++ [Z.of_nat (S n)].
Proof. unfold range1. by rewrite seq_S, map_app. Qed.
Lemma range1_bound n z : z ∈ range1 n -> (1 <= z <= Z.of_nat n)%Z.
Proof. unfold range1. intros (k & -> & Hk%elem_of_seq)%list_elem_of_fmap. lia. Qed.

(** The boolean filter of the Standard Library under stdpp's relations. *)
Lemma elem_of_bfilter {A} (f : A -> bool) l x : x ∈ List.filter f l <-> x ∈ l /\ f x = true.
Proof. by rewrite !list_elem_of_In, List.filter_In. Qed.
Lemma bfilter_sublist {A} (f : A -> bool) l : sublist (List.filter f l) l.
Proof. induction l as [|x l IH]; [constructor|]. cbn. destruct (f x); by constructor. Qed.

Lemma existsb_false {A} (f : A -> bool) l : existsb f l = false <-> forall x, x ∈ l -> f x = false.
Proof.
  induction l as [|x l IH]; cbn; [split; [by intros _ ? ?%not_elem_of_nil|done]|].
  rewrite orb_false_iff, IH. set_solver.
Qed.
(** A key that is unique in a list names one element. *)
Lemma NoDup_map_inj {A B} (f : A -> B) l x y :
  NoDup (map f l) -> x ∈ l -> y ∈ l -> f x = f y -> x = y.
Proof.
  intros Hd Hx Hy He. induction l as [|z l IH]; [by apply not_elem_of_nil in Hx|].
  cbn in Hd. apply NoDup_cons in Hd as [Hz Hd].
  apply elem_of_cons in Hx as [->|Hx]; apply elem_of_cons in Hy as [->|Hy]; [done| | |by apply IH].
  - destruct Hz. rewrite He. apply list_elem_of_fmap. by exists y.
  - destruct Hz. rewrite <- He. apply list_elem_of_fmap. by exists x.
Qed.

(** ** Automation

    [inv_ok] turns a successful monadic computation in the context into its
    passed guards and intermediate values; [inv_err] does one step of a failing
    one. *)
Ltac inv_ok :=
  repeat match goal with
  | H : mbind (fun _ => _) (raise_if _ _) = Ok _ |- _ => apply raise_if_Ok in H as [? H]
  | H : mbind _ _ = Ok _ |- _ => apply bind_Ok in H as (? & ? & H)
  | H : Ok _ = Ok _ |- _ => injection H as H; try subst
  | H : Err _ = Ok _ |- _ => discriminate H
  end.
Ltac inv_err H :=
  first [ apply raise_if_Err in H as [[? H]|[? H]]
        | apply bind_Err in H as [H|(? & ? & H)] ].
