(* ===== verification/PyText.v ===== *)
(** * Python values the whole program uses: text, closed enums, datetimes

    A Python [str] is a Rocq [string] whose characters are the code points
    U+0000..U+00FF; whitespace and printability follow Python's tables on that
    range.  An [enum.Enum] with string values is a [PyEnum] instance.  A
    [datetime] carries its awareness, because the code checks [tzinfo]. *)
From S2P Require Import Prelude.

(** ** Characters and strings *)
Definition code (c : Ascii.ascii) : N := Ascii.N_of_ascii c.

(** [str.isspace] / the set [str.strip] removes. *)
Definition py_isspace (c : Ascii.ascii) : bool :=
  let n := code c in
  ((9 <=? n) && (n <=? 13) || (28 <=? n) && (n <=? 32) || (n =? 133) || (n =? 160))%N.

(** [str.isprintable] on one character. *)
Definition py_isprintable (c : Ascii.ascii) : bool :=
  let n := code c in
  ((32 <=? n) && (n <=? 126) || (161 <=? n) && (n <=? 172) || (174 <=? n))%N.

Abbreviation chars := String.list_ascii_of_string.
Abbreviation of_chars := String.string_of_list_ascii.

Fixpoint drop_spaces (l : list Ascii.ascii) : list Ascii.ascii :=
  match l with
  | [] => []
  | c :: l' => if py_isspace c then drop_spaces l' else l
  end.
Definition py_strip (s : string) : string :=
  of_chars (reverse (drop_spaces (reverse (drop_spaces (chars s))))).

(** [not s.strip()] *)
Definition blank (s : string) : bool := String.eqb (py_strip s) "".

Arguments py_strip : simpl never.
Arguments blank : simpl never.

Definition py_len (s : string) : Z := Z.of_nat (String.length s).
(** The decimal digits CPython converts between text and [int] at most. *)
Definition MAX_INT_DIGITS : nat := 4300.

Lemma chars_of_chars l : chars (of_chars l) = l.
Proof. apply String.list_ascii_of_string_of_list_ascii. Qed.
Lemma of_chars_chars s : of_chars (chars s) = s.
Proof. apply String.string_of_list_ascii_of_string. Qed.
Lemma chars_inj s t : chars s = chars t -> s = t.
Proof. intros H. by rewrite <- (of_chars_chars s), H, of_chars_chars. Qed.
Lemma chars_app s t : chars (s +:+ t) = chars s ++ chars t.
Proof. induction s as [|c s IH]; [done|]. change (c :: chars (s +:+ t) = c :: (chars s ++ chars t)). by rewrite IH. Qed.
Lemma app_string_assoc s t u : (s +:+ t) +:+ u = s +:+ (t +:+ u).
Proof. apply chars_inj. by rewrite !chars_app, (assoc_L (++)). Qed.

Lemma length_chars s : length (chars s) = String.length s.
Proof. induction s; cbn; congruence. Qed.

Lemma drop_spaces_nil l :
  drop_spaces l = [] <-> Forall (fun c => py_isspace c = true) l.
Proof.
  induction l as [|c l IH]; cbn; [split; [constructor|done]|].
  rewrite Forall_cons. destruct (py_isspace c); [rewrite IH|]; naive_solver.
Qed.
Lemma drop_spaces_head l :
  match drop_spaces l with [] => True | c :: _ => py_isspace c = false end.
Proof.
  induction l as [|c l IH]; cbn; [done|]. by destruct (py_isspace c) eqn:E.
Qed.
Lemma drop_spaces_id l :
  match l with [] => True | c :: _ => py_isspace c = false end -> drop_spaces l = l.
Proof. destruct l as [|c l]; cbn; [done|]. by intros ->. Qed.

(** Text without white space strips to itself. *)
Lemma strip_spaceless l : Forall (fun c => py_isspace c = false) l -> py_strip (of_chars l) = of_chars l.
Proof.
  intros Hl. unfold py_strip. rewrite chars_of_chars.
  assert (Hd : forall k, Forall (fun c => py_isspace c = false) k -> drop_spaces k = k).
  { intros k Hk. apply drop_spaces_id. by destruct Hk. }
  rewrite (Hd l), (Hd (reverse l)), reverse_involutive; [done|by apply Forall_reverse|done].
Qed.

(** [not s.strip()] holds exactly of the all-whitespace strings. *)
Lemma blank_spec s :
  blank s = true <-> Forall (fun c => py_isspace c = true) (chars s).
Proof.
  unfold blank, py_strip. rewrite String.eqb_eq. split.
  - intros H. apply (f_equal chars) in H. rewrite chars_of_chars in H; cbn in H.
    apply (f_equal reverse) in H. rewrite reverse_involutive in H; cbn in H.
    apply drop_spaces_nil in H.
    pose proof (drop_spaces_head (chars s)) as Hh.
    destruct (drop_spaces (chars s)) as [|c l] eqn:E.
    + by apply drop_spaces_nil.
    + rewrite Forall_forall in H.
      rewrite (H c) in Hh; [done|]. rewrite reverse_cons. set_solver.
  - intros H%drop_spaces_nil. by rewrite H.
Qed.

(** A string with a leading non-space character is not blank. *)
Lemma nonblank_cons c s : py_isspace c = false -> blank (String c s) = false.
Proof.
  intros Hc. apply not_true_iff_false. rewrite blank_spec. cbn.
  intros H. inversion H; congruence.
Qed.
Lemma nonblank_app s t : blank s = false -> blank (s +:+ t) = false.
Proof.
  rewrite <- !not_true_iff_false, !blank_spec, chars_app, Forall_app. tauto.
Qed.

(** [value.partition(sep)] for a one-character separator: the text before the
    first separator and the text after it. *)
Fixpoint partition_chars (sep : Ascii.ascii) (l : list Ascii.ascii)
  : list Ascii.ascii * option (list Ascii.ascii) :=
  match l with
  | [] => ([], None)
  | c :: l' =>
      if decide (c = sep) then ([], Some l')
      else let '(a, b) := partition_chars sep l' in (c :: a, b)
  end.
Definition py_partition (sep : Ascii.ascii) (s : string) : string * option string :=
  let '(a, b) := partition_chars sep (chars s) in (of_chars a, of_chars <$> b).

Lemma partition_chars_app sep l r :
  sep ∉ l -> partition_chars sep (l ++ sep :: r) = (l, Some r).
Proof.
  induction l as [|c l IH]; cbn; intros Hn.
  - by rewrite decide_True by done.
  - rewrite decide_False by set_solver. rewrite IH by set_solver. done.
Qed.

(** [text.split(sep)] for separators given by a test; [re.split] of one class. *)
Fixpoint split_on {A} (sep : A -> bool) (l : list A) : list (list A) :=
  match l with
  | [] => [[]]
  | x :: l =>
      if sep x then [] :: split_on sep l
      else match split_on sep l with w :: ws => (x :: w) :: ws | [] => [[x]] end
  end.
(** [text.split()]: the words between runs of whitespace. *)
Definition py_split (s : string) : list string :=
  map of_chars (List.filter (fun w => negb (bool_decide (w = []))) (split_on py_isspace (chars s))).
(** [text.startswith(prefix)] *)
Definition py_startswith (prefix s : string) : bool :=
  bool_decide (chars prefix `prefix_of` chars s).

(** ** Closed enumerations *)
Class PyEnum (A : Type) := {
  members : list A;
  enum_value : A -> string;
  enum_value_inj : Inj (=) (=) enum_value;
  members_complete : forall x, x ∈ members;
}.
#[export] Existing Instance enum_value_inj.
Arguments members A {_}.

(** [E(value)]: the member with that value; a plain [ValueError] otherwise. *)
Definition enum_of_value {A} `{PyEnum A} (s : string) : result A :=
  from_option_err PyValueError
    (snd <$> list_find (fun x => enum_value x = s) (members A)).

Lemma enum_of_value_of `{PyEnum A} (x : A) : enum_of_value (enum_value x) = Ok x.
Proof.
  unfold enum_of_value.
  destruct (list_find _ (members A)) as [[i y]|] eqn:E.
  - apply list_find_Some in E as (_ & Hy & _). cbn. f_equal. by apply (inj enum_value).
  - apply list_find_None in E. rewrite Forall_forall in E.
    destruct (E x); [apply members_complete|done].
Qed.
Lemma enum_of_value_Ok `{PyEnum A} s (x : A) : enum_of_value s = Ok x -> enum_value x = s.
Proof.
  unfold enum_of_value. destruct (list_find _ _) as [[i y]|] eqn:E; [|done].
  apply list_find_Some in E as (_ & Hy & _). by intros [= <-].
Qed.
Lemma enum_of_value_Err `{PyEnum A} s e : @enum_of_value A _ s = Err e -> e = PyValueError.
Proof.
  unfold enum_of_value. destruct (list_find _ _) as [[i y]|]; cbn; congruence.
Qed.

(** Closes the two laws of a [PyEnum] instance given by its members and values. *)
Ltac solve_enum :=
  first [ by intros [] []
        | by intros [];
          repeat first [ apply list_elem_of_here | apply list_elem_of_further ] ].

(** ** Datetimes and timedeltas

    A [datetime] is an instant in microseconds with its awareness; comparing an
    aware and a naive one raises [TypeError].  A [timedelta] is a microsecond
    count. *)
Inductive datetime :=
| Aware (us : Z)
| Naive (us : Z).
Abbreviation timedelta := Z (only parsing).

#[export] Instance datetime_eq_dec : EqDecision datetime.
Proof. solve_decision. Defined.

Definition tz_aware (d : datetime) : bool :=
  match d with Aware _ => true | Naive _ => false end.
Definition micros (d : datetime) : Z := match d with Aware u | Naive u => u end.
Definition dt_add (d : datetime) (t : timedelta) : datetime :=
  match d with Aware u => Aware (u + t) | Naive u => Naive (u + t) end.
Definition dt_lt (d e : datetime) : result bool :=
  if Bool.eqb (tz_aware d) (tz_aware e) then Ok (micros d <? micros e)%Z
  else Err PyTypeError.

(** The text form of aware datetimes is [isoformat]/[fromisoformat] of the
    standard library: decoding inverts encoding, and the text is not blank. *)
Class IsoCodec := {
  isoformat : datetime -> string;
  fromisoformat : string -> option datetime;
  fromisoformat_isoformat : forall us, fromisoformat (isoformat (Aware us)) = Some (Aware us);
  isoformat_nonblank : forall us, blank (isoformat (Aware us)) = false;
}.

(** ** Sorting

    [sorted(l, key=...)] keeps the order of elements whose keys are equal.  The sort is
    an insertion from the right, with the facts that characterise a stable sort. *)
Section PySort.
Context {A : Type} (R : relation A) `{!forall x y, Decision (R x y)}.

Fixpoint sort_insert (x : A) (l : list A) : list A :=
  match l with
  | [] => [x]
  | y :: l => if decide (R x y) then x :: y :: l else y :: sort_insert x l
  end.
Definition py_sort (l : list A) : list A := foldr sort_insert [] l.

Lemma sort_insert_perm x l : sort_insert x l ≡ₚ x :: l.
Proof.
  induction l as [|y l IH]; cbn; [done|]. case_decide; [done|]. by rewrite IH, Permutation_swap.
Qed.
Lemma py_sort_perm l : py_sort l ≡ₚ l.
Proof. induction l as [|x l IH]; cbn; [done|]. by rewrite sort_insert_perm, IH. Qed.
Lemma elem_of_py_sort x l : x ∈ py_sort l <-> x ∈ l.
Proof. by rewrite py_sort_perm. Qed.
Lemma py_sort_nil l : py_sort l = [] <-> l = [].
Proof.
  split; [|by intros ->]. intros Hs. apply Permutation_nil. by rewrite <- Hs, py_sort_perm.
Qed.

(** What is sorted stays as it is. *)
Lemma sort_insert_head x l : Forall (R x) l -> sort_insert x l = x :: l.
Proof. destruct l as [|y l]; [done|]. cbn. intros [? _]%Forall_cons. by rewrite decide_True. Qed.
Lemma py_sort_sorted l : StronglySorted R l -> py_sort l = l.
Proof.
  induction 1 as [|x l Hl IH Hx]; [done|]. change (sort_insert x (py_sort l) = x :: l).
  by rewrite IH, sort_insert_head.
Qed.

Context `{!Total R, !Transitive R}.
Lemma sort_insert_strongly x l : StronglySorted R l -> StronglySorted R (sort_insert x l).
Proof.
  induction 1 as [|y l Hl IH Hy]; cbn; [by repeat constructor|]. case_decide as Hxy.
  - constructor; [by constructor|]. constructor; [done|].
    eapply Forall_impl; [exact Hy|]. intros z Hz. by transitivity y.
  - constructor; [done|]. rewrite sort_insert_perm. constructor; [|done].
    by destruct (total R x y).
Qed.
Lemma py_sort_strongly l : StronglySorted R (py_sort l).
Proof. induction l as [|x l IH]; cbn; [constructor|]. by apply sort_insert_strongly. Qed.
Lemma py_sort_idempotent l : py_sort (py_sort l) = py_sort l.
Proof. apply py_sort_sorted, py_sort_strongly. Qed.

(** Stability: elements no comparison separates keep their order. *)
Lemma sort_insert_filter (p : A -> bool) x l : StronglySorted R l ->
  (p x = true -> forall y, y ∈ l -> p y = true -> R x y) ->
  List.filter p (sort_insert x l) = List.filter p (x :: l).
Proof.
  induction 1 as [|y l Hl IH Hy]; intros Hx; cbn [sort_insert]; [done|]. case_decide as Hxy; [done|].
  cbn [List.filter]. rewrite IH by (intros Hp z Hz; apply (Hx Hp); by right). cbn [List.filter].
  destruct (p x) eqn:Ex, (p y) eqn:Ey; try done. destruct Hxy. apply Hx; [done|left|done].
Qed.
Lemma py_sort_stable (p : A -> bool) l :
  (forall x y, x ∈ l -> y ∈ l -> p x = true -> p y = true -> R x y) ->
  List.filter p (py_sort l) = List.filter p l.
Proof.
  induction l as [|x l IH]; intros Hp; cbn [py_sort foldr]; [done|].
  change (foldr sort_insert [] l) with (py_sort l). rewrite sort_insert_filter.
  - cbn [List.filter]. by rewrite IH by (intros a b Ha Hb; apply Hp; by right).
  - apply py_sort_strongly.
  - intros Hx y Hy. apply Hp; [left|right; by apply elem_of_py_sort|done].
Qed.
(** Two sorted orders of one list whose keys separate are the same. *)
Lemma py_sort_unique l k : (forall x y, x ∈ l -> y ∈ l -> R x y -> R y x -> x = y) ->
  l ≡ₚ k -> py_sort l = py_sort k.
Proof.
  intros Ha Hp. apply (Sorted_unique_strong R).
  - intros x y. rewrite !elem_of_py_sort, <- Hp. apply Ha.
  - apply StronglySorted_Sorted, py_sort_strongly.
  - apply StronglySorted_Sorted, py_sort_strongly.
  - by rewrite !py_sort_perm.
Qed.
End PySort.
