(* ===== verification/Json.v ===== *)
(** * JSON-shaped Python values and their canonical encoding

    The values event payloads, process-manager states and raw mappings are made
    of; Python's [==] on them; the sorted-key canonical form the ledger stores
    ([json.dumps(..., sort_keys=True)] followed by [json.loads]); and the
    compact ASCII text whose bytes [Digest.of_json] hashes. *)
From S2P Require Import Prelude PyText.
From Stdlib Require Import SpecFloat.

(** A Python [float] is an IEEE datum; a dict is its items in insertion order
    (keys are unique, see [wf_json]); lists and tuples are both [JList]. *)
#[warnings="-register-all"]
Inductive json :=
| JNull
| JBool (b : bool)
| JInt (z : Z)
| JFloat (f : spec_float)
| JStr (s : string)
| JList (l : list json)
| JObj (m : list (string * json)).

(** Induction with hypotheses for the elements of lists and objects. *)
Section json_ind.
Variable P : json -> Prop.
Hypothesis Hnull : P JNull.
Hypothesis Hbool : forall b, P (JBool b).
Hypothesis Hint : forall z, P (JInt z).
Hypothesis Hfloat : forall f, P (JFloat f).
Hypothesis Hstr : forall s, P (JStr s).
Hypothesis Hlist : forall l, Forall P l -> P (JList l).
Hypothesis Hobj : forall m, Forall (fun kv => P kv.2) m -> P (JObj m).
Fixpoint json_rec' (j : json) : P j :=
  match j with
  | JNull => Hnull | JBool b => Hbool b | JInt z => Hint z
  | JFloat f => Hfloat f | JStr s => Hstr s
  | JList l => Hlist l
      ((fix go l := match l return Forall P l with
        | [] => @List.Forall_nil _ P
        | x :: l => @List.Forall_cons _ P x l (json_rec' x) (go l) end) l)
  | JObj m => Hobj m
      ((fix go m := match m return Forall (fun kv => P kv.2) m with
        | [] => @List.Forall_nil _ (fun kv => P kv.2)
        | kv :: m => @List.Forall_cons _ (fun kv => P kv.2) kv m (json_rec' kv.2) (go m) end) m)
  end.
End json_ind.

(** ** Dictionaries *)
(** [d.get(k)] *)
Fixpoint dict_get {V} (k : string) (m : list (string * V)) : option V :=
  match m with
  | [] => None
  | (k', v) :: m => if String.eqb k k' then Some v else dict_get k m
  end.
(** [d[k] = v]: in place for a present key, appended otherwise. *)
Fixpoint dict_set {V} (k : string) (v : V) (m : list (string * V)) : list (string * V) :=
  match m with
  | [] => [(k, v)]
  | (k', v') :: m => if String.eqb k k' then (k, v) :: m else (k', v') :: dict_set k v m
  end.
(** [d.update(e)] *)
Definition dict_update {V} (d e : list (string * V)) : list (string * V) :=
  foldl (fun d '(k, v) => dict_set k v d) d e.

Lemma dict_get_cons {V} k k' (v : V) m :
  dict_get k ((k', v) :: m) = if decide (k = k') then Some v else dict_get k m.
Proof. cbn. destruct (String.eqb_spec k k'); by case_decide. Qed.
Lemma dict_get_set {V} k k' (v : V) m :
  dict_get k' (dict_set k v m) = if decide (k' = k) then Some v else dict_get k' m.
Proof.
  induction m as [|[k2 v2] m IH].
  - cbn [dict_set]. apply dict_get_cons.
  - cbn [dict_set]. destruct (String.eqb_spec k k2) as [->|Hn]; rewrite !dict_get_cons.
    + by destruct (decide (k' = k2)).
    + rewrite IH. destruct (decide (k' = k2)), (decide (k' = k)); congruence.
Qed.
Lemma dict_get_Some_elem {V} k (v : V) m : dict_get k m = Some v -> (k, v) ∈ m.
Proof.
  induction m as [|[k2 v2] m IH]; [done|]. rewrite dict_get_cons.
  case_decide; intros ?; simplify_eq; set_solver.
Qed.
Lemma dict_get_key {V} k (v : V) m : dict_get k m = Some v -> k ∈ m.*1.
Proof.
  intros H%dict_get_Some_elem. apply list_elem_of_fmap. by exists (k, v).
Qed.
Lemma dict_get_elem {V} k (v : V) m :
  NoDup m.*1 -> (k, v) ∈ m -> dict_get k m = Some v.
Proof.
  induction m as [|[k2 v2] m IH]; [set_solver|]. rewrite dict_get_cons, fmap_cons.
  intros [Hn Hd]%NoDup_cons Hin.
  apply elem_of_cons in Hin as [[= -> ->]|Hin]; [by rewrite decide_True|].
  rewrite decide_False; [by apply IH|]. intros ->. apply Hn.
  apply list_elem_of_fmap. by exists (k2, v).
Qed.
Lemma dict_get_None {V} k (m : list (string * V)) : dict_get k m = None <-> k ∉ m.*1.
Proof.
  induction m as [|[k2 v2] m IH]; [set_solver|]. rewrite dict_get_cons, fmap_cons.
  case_decide; [subst; set_solver|]. rewrite IH. set_solver.
Qed.

Lemma dict_set_keys {V} k (v : V) m : k ∈ m.*1 -> (dict_set k v m).*1 = m.*1.
Proof.
  induction m as [|[k' v'] m IH]; [intros []%not_elem_of_nil|].
  cbn [dict_set]. destruct (String.eqb_spec k k') as [->|Hn]; [done|].
  rewrite !fmap_cons. intros [->|H]%elem_of_cons; [done|]. by rewrite IH.
Qed.
Lemma dict_set_fresh {V} k (v : V) m : k ∉ m.*1 -> dict_set k v m = m ++ [(k, v)].
Proof.
  induction m as [|[k' v'] m IH]; [done|]. rewrite fmap_cons. intros Hn. cbn [dict_set].
  rewrite (proj2 (String.eqb_neq k k')) by set_solver. cbn. f_equal. apply IH. set_solver.
Qed.
Lemma dict_set_Forall {V} (P : string * V -> Prop) k v m :
  P (k, v) -> Forall P m -> Forall P (dict_set k v m).
Proof.
  intros Hk. induction 1 as [|[k' v'] m Hx Hm IH]; cbn [dict_set]; [by repeat constructor|].
  destruct (String.eqb k k'); by constructor.
Qed.
Lemma dict_set_nonempty {V} k (v : V) m : dict_set k v m <> [].
Proof. destruct m as [|[k' v'] m]; cbn; [done|]. by destruct (String.eqb k k'). Qed.

(** Keys are unique in every nested object. *)
Fixpoint wf_json (j : json) : bool :=
  match j with
  | JList l => forallb wf_json l
  | JObj m => bool_decide (NoDup m.*1) && forallb (fun kv => wf_json kv.2) m
  | _ => true
  end.

(** ** Python equality *)
(** Exact comparison of an integer with a float. *)
Definition float_eq_int (f : spec_float) (z : Z) : bool :=
  match f with
  | S754_zero _ => (z =? 0)%Z
  | S754_finite s m e =>
      let v := if s then Zneg m else Zpos m in
      if (0 <=? e)%Z then (v * 2 ^ e =? z)%Z else (v =? z * 2 ^ (- e))%Z
  | _ => false
  end.
(** The number a bool or an int denotes ([True == 1]). *)
Definition int_of (j : json) : option Z :=
  match j with JBool b => Some (if b then 1%Z else 0%Z) | JInt z => Some z | _ => None end.

Fixpoint json_eqb (a b : json) {struct a} : bool :=
  match a, b with
  | JNull, JNull => true
  | JFloat f, JFloat g => SFeqb f g
  | JStr s, JStr t => String.eqb s t
  | JList l, JList k =>
      (fix go l k := match l, k with
       | [], [] => true
       | x :: l, y :: k => json_eqb x y && go l k
       | _, _ => false end) l k
  | JObj m, JObj n =>
      Nat.eqb (length m) (length n) &&
      forallb (fun kv => match dict_get kv.1 n with
                         | Some y => json_eqb kv.2 y
                         | None => false end) m
  | _, _ =>
      match int_of a, int_of b with
      | Some x, Some y => (x =? y)%Z
      | Some x, None => match b with JFloat g => float_eq_int g x | _ => false end
      | None, Some y => match a with JFloat f => float_eq_int f y | _ => false end
      | None, None => false
      end
  end.

(** ** Canonical form: keys sorted at every level *)
Definition key_le {V} (x y : string * V) : Prop := String.le x.1 y.1.
#[export] Instance key_le_dec {V} (x y : string * V) : Decision (key_le x y).
Proof. unfold key_le. apply _. Defined.
#[export] Instance key_le_total {V} : Total (@key_le V).
Proof. intros x y. apply (total String.le). Qed.
#[export] Instance key_le_trans {V} : Transitive (@key_le V).
Proof. intros x y z. apply (transitivity (R:=String.le)). Qed.

Fixpoint canon (j : json) : json :=
  match j with
  | JList l => JList (map canon l)
  | JObj m => JObj (merge_sort key_le (map (fun kv => (kv.1, canon kv.2)) m))
  | _ => j
  end.
