(* ===== verification/Identity.v ===== *)
(** * Content digests and identifiers ([domain/digests.py], [domain/ids.py])

    SHA-256 and [float.__repr__] are interpreter code: they are the fields of
    [PyRuntime].  Everything built on them (the canonical JSON text, the digest
    checks, the identifier checks, the operation-id payload) is defined here. *)
From S2P Require Import Prelude PyText Json.
From Stdlib Require Import SpecFloat.

(** ** Hexadecimal text *)
Definition is_hex (c : Ascii.ascii) : bool :=
  let n := code c in ((48 <=? n) && (n <=? 57) || (97 <=? n) && (n <=? 102))%N.
(** [re.compile("^[0-9a-f]{64}$").fullmatch] *)
Definition hex64 (s : string) : bool :=
  Nat.eqb (String.length s) 64 && forallb is_hex (chars s).

Class PyRuntime := {
  sha256_hex : list N -> string;
  sha256_hex_shape : forall b, hex64 (sha256_hex b) = true;
  float_repr : spec_float -> string;
}.

(** ** UTF-8 bytes of a string of code points U+0000..U+00FF *)
Definition utf8_char (c : Ascii.ascii) : list N :=
  let n := code c in
  if (n <? 128)%N then [n] else [192 + n / 64; 128 + n mod 64]%N.
Definition utf8 (s : string) : list N := concat (map utf8_char (chars s)).

(** ** Canonical JSON text: sorted keys, compact separators, ASCII only *)
Definition chr (n : N) : Ascii.ascii := Ascii.ascii_of_N n.
Definition colon : Ascii.ascii := chr 58.
Definition quote : string := String (chr 34) "".
Definition backslash : string := String (chr 92) "".
Definition hex_digit (n : N) : Ascii.ascii :=
  chr (if (n <? 10)%N then 48 + n else 87 + n)%N.
Definition escape_char (c : Ascii.ascii) : string :=
  let n := code c in
  if (n =? 34)%N then backslash +:+ quote
  else if (n =? 92)%N then backslash +:+ backslash
  else if (n =? 10)%N then backslash +:+ "n"
  else if (n =? 13)%N then backslash +:+ "r"
  else if (n =? 9)%N then backslash +:+ "t"
  else if (n =? 12)%N then backslash +:+ "f"
  else if (n =? 8)%N then backslash +:+ "b"
  else if ((32 <=? n) && (n <=? 126))%N then String c ""
  else backslash +:+ "u00" +:+ String (hex_digit (n / 16)) (String (hex_digit (n mod 16)) "").
Definition json_string (s : string) : string :=
  quote +:+ foldr (fun c acc => escape_char c +:+ acc) quote (chars s).

(** [sep.join(parts)] *)
Fixpoint py_join (sep : string) (parts : list string) : string :=
  match parts with
  | [] => ""
  | [p] => p
  | p :: ps => p +:+ sep +:+ py_join sep ps
  end.

Section Digests.
Context `{rt : PyRuntime}.

(** The text of a value whose object keys are already sorted. *)
Fixpoint json_text (j : json) : string :=
  match j with
  | JNull => "null"
  | JBool true => "true"
  | JBool false => "false"
  | JInt z => pretty z
  | JFloat f => float_repr f
  | JStr s => json_string s
  | JList l => "[" +:+ py_join "," (map json_text l) +:+ "]"
  | JObj m =>
      "{" +:+ py_join "," (map (fun kv => json_string kv.1 +:+ ":" +:+ json_text kv.2) m)
          +:+ "}"
  end.
(** [json.dumps(payload, sort_keys=True, separators=(",", ":"), ensure_ascii=True)] *)
Definition json_dumps (j : json) : string := json_text (canon j).

(** ** [Digest] *)
Record Digest := { algorithm : string; hex_value : string }.

#[export] Instance Digest_eq_dec : EqDecision Digest.
Proof. solve_decision. Defined.

(** The dataclass constructor with its [__post_init__] checks. *)
Definition mk_digest (algorithm hex_value : string) : result Digest :=
  raise_when negb (String.eqb algorithm "sha256") as InvalidInputError ;;
  raise_when negb (hex64 hex_value) as InvalidInputError ;;
  Ok {| algorithm := algorithm; hex_value := hex_value |}.

(** [__str__] *)
Definition digest_str (d : Digest) : string := algorithm d +:+ ":" +:+ hex_value d.

Definition digest_of_bytes (data : list N) : result Digest :=
  mk_digest "sha256" (sha256_hex data).
Definition digest_of_json (payload : json) : result Digest :=
  digest_of_bytes (utf8 (json_dumps payload)).

(** The decoder the domain modules share: [algorithm, _, hex = value.partition(":")],
    after a check that a colon is present. *)
Definition digest_of_str (value : string) : result Digest :=
  match py_partition colon value with
  | (_, None) => Err InvalidInputError
  | (a, Some h) => mk_digest a h
  end.

Definition wf_digest (d : Digest) : Prop :=
  algorithm d = "sha256" /\ hex64 (hex_value d) = true.

Lemma mk_digest_Ok a h d :
  mk_digest a h = Ok d <->
  d = {| algorithm := a; hex_value := h |} /\ a = "sha256" /\ hex64 h = true.
Proof.
  unfold mk_digest. rewrite !raise_if_Ok, !negb_false_iff, String.eqb_eq.
  naive_solver.
Qed.
Lemma mk_digest_wf a h d : mk_digest a h = Ok d -> wf_digest d.
Proof. rewrite mk_digest_Ok. intros (-> & -> & ?). by split. Qed.
Lemma mk_digest_of_wf d : wf_digest d -> mk_digest (algorithm d) (hex_value d) = Ok d.
Proof. destruct d. intros [??]. by apply mk_digest_Ok. Qed.
Lemma mk_digest_Err a h e : mk_digest a h = Err e -> e = InvalidInputError.
Proof. unfold mk_digest. rewrite !raise_if_Err. naive_solver. Qed.

(** [Digest.of_bytes] never trips its own validation. *)
Lemma digest_of_bytes_Ok b :
  digest_of_bytes b = Ok {| algorithm := "sha256"; hex_value := sha256_hex b |}.
Proof. apply mk_digest_Ok. split_and!; [done..|apply sha256_hex_shape]. Qed.

Lemma digest_of_str_str d : wf_digest d -> digest_of_str (digest_str d) = Ok d.
Proof.
  intros [Ha Hh]. unfold digest_of_str, digest_str, py_partition.
  rewrite !chars_app, Ha. change (chars ":") with [colon]. cbn [app].
  rewrite partition_chars_app by (vm_compute; set_solver). cbn [fmap option_fmap option_map].
  rewrite !of_chars_chars. rewrite <- Ha. by apply mk_digest_of_wf.
Qed.
Lemma digest_of_str_Err s e : digest_of_str s = Err e -> e = InvalidInputError.
Proof.
  unfold digest_of_str. destruct (py_partition _ _) as [a [h|]]; [apply mk_digest_Err|].
  by intros [= <-].
Qed.
Lemma digest_of_str_wf s d : digest_of_str s = Ok d -> wf_digest d.
Proof.
  unfold digest_of_str. destruct (py_partition _ _) as [a [h|]]; [apply mk_digest_wf|done].
Qed.

(** ** Identifiers *)
(** [_validate_identifier_value] as the constructor of every identifier type. *)
Definition mk_identifier (value : string) : result string :=
  raise_when String.eqb value "" as InvalidInputError ;;
  raise_when (128 <? py_len value)%Z as InvalidInputError ;;
  raise_when negb (String.eqb value (py_strip value)) as InvalidInputError ;;
  raise_when existsb (fun c => negb (py_isprintable c)) (chars value) as InvalidInputError ;;
  Ok value.

Definition valid_identifier (s : string) : Prop := mk_identifier s = Ok s.

Lemma mk_identifier_Ok s t : mk_identifier s = Ok t -> t = s /\ valid_identifier s.
Proof.
  intros H0. assert (t = s) as ->; [|done].
  unfold mk_identifier in H0. rewrite !raise_if_Ok in H0. naive_solver.
Qed.
Lemma mk_identifier_Err s e : mk_identifier s = Err e -> e = InvalidInputError.
Proof. unfold mk_identifier. rewrite !raise_if_Err. naive_solver. Qed.
Lemma valid_identifier_printable s :
  valid_identifier s -> Forall (fun c => py_isprintable c = true) (chars s).
Proof.
  unfold valid_identifier, mk_identifier. rewrite !raise_if_Ok.
  intros (_ & _ & _ & Hp & _). apply Forall_forall. intros c Hc.
  destruct (py_isprintable c) eqn:E; [done|]. exfalso.
  assert (existsb (fun c => negb (py_isprintable c)) (chars s) = true); [|congruence].
  apply existsb_exists. exists c. rewrite E. split; [by apply list_elem_of_In|done].
Qed.
Lemma valid_identifier_nonempty s : valid_identifier s -> s <> "".
Proof.
  unfold valid_identifier, mk_identifier. rewrite !raise_if_Ok.
  intros (Hn & _) ->. done.
Qed.
Lemma valid_identifier_nonblank s : valid_identifier s -> blank s = false.
Proof.
  intros Hv. pose proof (valid_identifier_nonempty s Hv) as Hne.
  unfold valid_identifier, mk_identifier in Hv. rewrite !raise_if_Ok in Hv.
  destruct Hv as (_ & _ & Hs & _).
  apply negb_false_iff, String.eqb_eq in Hs. unfold blank. rewrite <- Hs.
  by apply String.eqb_neq.
Qed.

Arguments mk_identifier : simpl never.

(** The unit separator U+001F that joins identity payloads. *)
Definition unit_sep : Ascii.ascii := chr 31.

(** The text [OperationId.derive] hashes. *)
Definition operation_payload (run_id node_id side_effect_kind target_scope : string)
    (ordinal : Z) : string :=
  py_join (String unit_sep "")
    [run_id; node_id; side_effect_kind; target_scope; pretty ordinal].

(** [OperationId.derive] *)
Definition operation_id_derive (run_id node_id side_effect_kind target_scope : string)
    (ordinal : Z) : result string :=
  raise_when blank side_effect_kind as InvalidInputError ;;
  raise_when blank target_scope as InvalidInputError ;;
  raise_when (ordinal <? 0)%Z as InvalidInputError ;;
  mk_identifier
    (sha256_hex (utf8 (operation_payload run_id node_id side_effect_kind target_scope ordinal))).
End Digests.
Arguments mk_digest : simpl never.
Arguments digest_of_str : simpl never.
Arguments digest_str : simpl never.
