(* ===== verification/IdentityProofs.v ===== *)
(** * Operation identities

    [OperationId.derive] never trips its own validation, and the payload it
    hashes determines its inputs: only a SHA-256 collision can give two logical
    operations one identity. *)
From S2P Require Import Prelude PyText Json Identity.

(** ** UTF-8 is injective *)
Lemma code_inj c d : code c = code d -> c = d.
Proof.
  intros H%(f_equal Ascii.ascii_of_N). unfold code in H.
  by rewrite !Ascii.ascii_N_embedding in H.
Qed.
Lemma code_lt c : (code c < 256)%N.
Proof. unfold code. apply Ascii.N_ascii_bounded. Qed.

(** The first byte tells how long a character is, and the bytes tell which. *)
Lemma utf8_char_app_inj c d l k :
  utf8_char c ++ l = utf8_char d ++ k -> c = d /\ l = k.
Proof.
  unfold utf8_char. pose proof (code_lt c). pose proof (code_lt d).
  destruct (N.ltb_spec (code c) 128), (N.ltb_spec (code d) 128); cbn.
  - intros [= Hc ->]. split; [by apply code_inj|done].
  - intros [= Hc _]. pose proof (N.le_0_l (code d / 64)). lia.
  - intros [= Hc _]. pose proof (N.le_0_l (code c / 64)). lia.
  - intros [= Hq Hm ->]. split; [apply code_inj|done].
    rewrite (N.div_mod (code c) 64), (N.div_mod (code d) 64) by lia. lia.
Qed.
Lemma utf8_char_nonempty c l : utf8_char c ++ l <> [].
Proof. unfold utf8_char. by destruct (code c <? 128)%N. Qed.

#[export] Instance utf8_inj : Inj (=) (=) utf8.
Proof.
  intros s t. unfold utf8. intros H. apply chars_inj.
  revert H. generalize (chars s) as l, (chars t) as k.
  induction l as [|c l IH]; intros [|d k]; cbn; [done|..].
  - intros H. by destruct (utf8_char_nonempty d (concat (map utf8_char k))).
  - intros H. by destruct (utf8_char_nonempty c (concat (map utf8_char l))).
  - intros [-> H%IH]%utf8_char_app_inj. by subst.
Qed.

(** ** Decimal text holds no separator *)
Definition is_decimal (c : Ascii.ascii) : bool :=
  ((48 <=? code c) && (code c <=? 57) || (code c =? 45))%N.

Lemma pretty_N_char_decimal n : is_decimal (pretty_N_char n) = true.
Proof. unfold pretty_N_char. by repeat case_match. Qed.
Lemma pretty_N_go_decimal x s :
  Forall (fun c => is_decimal c = true) (chars s) ->
  Forall (fun c => is_decimal c = true) (chars (pretty_N_go x s)).
Proof.
  revert s. induction (N.lt_wf_0 x) as [x _ IH]; intros s Hs.
  assert (x = 0 \/ 0 < x)%N as [->|Hx] by lia; [done|].
  rewrite pretty_N_go_step by done. apply IH; [by apply N.div_lt|].
  constructor; [apply pretty_N_char_decimal|done].
Qed.
Lemma pretty_Z_decimal (z : Z) : Forall (fun c => is_decimal c = true) (chars (pretty z)).
Proof.
  assert (Hn : forall n : N, Forall (fun c => is_decimal c = true) (chars (pretty n))).
  { intros n. unfold pretty, pretty_N. case_decide; [by repeat constructor|].
    apply pretty_N_go_decimal. constructor. }
  destruct z as [|p|p]; [by repeat constructor|apply (Hn (N.pos p))|].
  constructor; [done|apply (Hn (N.pos p))].
Qed.

(** ** Splitting at separators *)
Lemma split_first {A} (sep : A) l1 l2 k1 k2 :
  sep ∉ l1 -> sep ∉ k1 -> l1 ++ sep :: l2 = k1 ++ sep :: k2 -> l1 = k1 /\ l2 = k2.
Proof.
  revert k1. induction l1 as [|x l1 IH]; intros [|y k1] Hl Hk; cbn.
  - by intros [= ->].
  - intros [= <- _]. set_solver.
  - intros [= -> _]. set_solver.
  - intros [= <- H]. apply IH in H as [-> ->]; [done|set_solver..].
Qed.
Lemma split_last {A} (sep : A) l1 l2 k1 k2 :
  sep ∉ l2 -> sep ∉ k2 -> l1 ++ sep :: l2 = k1 ++ sep :: k2 -> l1 = k1 /\ l2 = k2.
Proof.
  intros Hl Hk H. apply (f_equal reverse) in H.
  rewrite !reverse_app, !reverse_cons, <- !(assoc_L (++)) in H. cbn in H.
  apply split_first in H as [->%(inj reverse) ->%(inj reverse)]; [done|set_solver..].
Qed.

Section OperationIds.
Context `{rt : PyRuntime}.

Lemma operation_payload_chars r n k t o :
  chars (operation_payload r n k t o) =
  chars r ++ unit_sep :: chars n ++ unit_sep :: chars k ++ unit_sep :: chars t
    ++ unit_sep :: chars (pretty o).
Proof.
  unfold operation_payload, py_join. rewrite !chars_app. done.
Qed.

Lemma identifier_no_unit_sep s : valid_identifier s -> unit_sep ∉ chars s.
Proof.
  intros Hv%valid_identifier_printable Hin. rewrite Forall_forall in Hv.
  by specialize (Hv _ Hin).
Qed.
Lemma pretty_no_unit_sep (z : Z) : unit_sep ∉ chars (pretty z).
Proof.
  intros Hin. pose proof (pretty_Z_decimal z) as H. rewrite Forall_forall in H.
  by specialize (H _ Hin).
Qed.

(** A lower-case 64-digit hexadecimal text is a valid identifier. *)
Lemma hex_not_space c : is_hex c = true -> py_isspace c = false /\ py_isprintable c = true.
Proof.
  by destruct c as [[] [] [] [] [] [] [] []].
Qed.
Lemma hex64_valid_identifier s : hex64 s = true -> valid_identifier s.
Proof.
  unfold hex64. rewrite andb_true_iff, Nat.eqb_eq. intros [Hl Hh].
  assert (Hall : Forall (fun c => is_hex c = true) (chars s)).
  { apply Forall_forall. intros c Hc. rewrite forallb_forall in Hh.
    apply Hh. by apply list_elem_of_In. }
  assert (Hne : chars s <> []) by (destruct s; [done|by cbn]).
  assert (Hstrip : py_strip s = s).
  { unfold py_strip. rewrite (drop_spaces_id (chars s)).
    - rewrite (drop_spaces_id (reverse (chars s))).
      + by rewrite reverse_involutive, of_chars_chars.
      + destruct (reverse (chars s)) as [|c l] eqn:E; [done|].
        apply hex_not_space. rewrite Forall_forall in Hall. apply Hall.
        apply elem_of_reverse. rewrite E. left.
    - destruct (chars s) as [|c l]; [done|]. apply hex_not_space. by inversion Hall. }
  unfold valid_identifier, mk_identifier. rewrite Hstrip, String.eqb_refl. unfold py_len.
  rewrite Hl. rewrite (proj2 (String.eqb_neq s "")) by (intros ->; done). cbn.
  replace (existsb _ _) with false; [done|]. symmetry. apply not_true_iff_false.
  intros (c & Hc%list_elem_of_In & Hp)%existsb_exists.
  rewrite Forall_forall in Hall. destruct (hex_not_space c (Hall c Hc)) as [_ E].
  by rewrite E in Hp.
Qed.

(** Every pair of byte strings with one SHA-256 is equal. *)
Definition sha256_collision_free : Prop :=
  forall b b', sha256_hex b = sha256_hex b' -> b = b'.

(** [OperationId.derive] succeeds exactly when the kind and scope are non-blank
    and the ordinal is not negative (its own identifier check never fails), with
    the digest of the payload; and two derivations over valid run and node
    identifiers whose kinds hold no unit separator give the same identity only
    for the same five inputs, or exhibit a SHA-256 collision. *)
Theorem operation_id_derive_identity (r n k t : string) (o : Z) (r' n' k' t' : string) (o' : Z)
    (id : string)
    (Hr : valid_identifier r) (Hn : valid_identifier n)
    (Hr' : valid_identifier r') (Hn' : valid_identifier n')
    (Hk : unit_sep ∉ chars k) (Hk' : unit_sep ∉ chars k') :
  (is_ok (operation_id_derive r n k t o) =
     negb (blank k) && negb (blank t) && negb (o <? 0)%Z) /\
  (operation_id_derive r n k t o = Ok id -> operation_id_derive r' n' k' t' o' = Ok id ->
     (r, n, k, t, o) = (r', n', k', t', o') \/
     exists b b', b <> b' /\ sha256_hex b = id /\ sha256_hex b' = id).
Proof.
  assert (Hid : forall b, mk_identifier (sha256_hex b) = Ok (sha256_hex b)).
  { intros b. apply hex64_valid_identifier, sha256_hex_shape. }
  unfold operation_id_derive. split.
  - rewrite Hid. by destruct (blank k), (blank t), (o <? 0)%Z.
  - rewrite !Hid, !raise_if_Ok. intros (_ & _ & _ & [= H1]) (_ & _ & _ & [= H2]).
    destruct (decide (utf8 (operation_payload r n k t o) = utf8 (operation_payload r' n' k' t' o')))
      as [He|He]; [left|right; by eauto].
    apply (inj utf8), (f_equal chars) in He. rewrite !operation_payload_chars in He.
    apply split_first in He as [->%chars_inj He]; [|by apply identifier_no_unit_sep..].
    apply split_first in He as [->%chars_inj He]; [|by apply identifier_no_unit_sep..].
    apply split_first in He as [->%chars_inj He]; [|done..].
    apply split_last in He as [->%chars_inj He%chars_inj]; [|apply pretty_no_unit_sep..].
    apply (inj pretty) in He. by subst.
Qed.
End OperationIds.

(** A concrete (weak) hash in the shape of SHA-256, for evaluating examples. *)
Definition toy_hex (b : list N) : string :=
  of_chars (replicate 63 (chr 48) ++ [hex_digit (foldl N.add 0 b mod 16)])%N.
Program Definition toy_runtime : PyRuntime := {|
  sha256_hex := toy_hex; float_repr _ := "0.0" |}.
Next Obligation.
  intros b. unfold toy_hex, hex64. rewrite chars_of_chars.
  generalize (foldl N.add 0 b)%N as n. intros n.
  assert (Hlt : (n mod 16 < 16)%N) by (apply N.mod_lt; lia).
  set (m := (n mod 16)%N) in *. clearbody m.
  destruct m as [|p]; [done|].
  do 4 (try destruct p as [p|p|]); solve [done | lia].
Qed.

(** A concrete codec for evaluating examples: the sign and the bits of the instant. *)
Fixpoint bits_of (p : positive) : string :=
  match p with xH => "" | xO p => String (chr 48) (bits_of p) | xI p => String (chr 49) (bits_of p) end.
Fixpoint of_bits (s : string) : positive :=
  match s with
  | "" => xH
  | String c s => if Ascii.eqb c (chr 48) then xO (of_bits s) else xI (of_bits s)
  end.
Lemma of_bits_of p : of_bits (bits_of p) = p.
Proof. induction p as [p IH|p IH|]; cbn; by rewrite ?IH. Qed.
Definition toy_isoformat (d : datetime) : string :=
  match d with
  | Aware 0 => "0" | Aware (Zpos p) => "+" +:+ bits_of p | Aware (Zneg p) => "-" +:+ bits_of p
  | Naive _ => "naive"
  end.
Definition toy_fromisoformat (s : string) : option datetime :=
  match s with
  | String c s =>
      if Ascii.eqb c (chr 48) then Some (Aware 0)
      else if Ascii.eqb c (chr 43) then Some (Aware (Zpos (of_bits s)))
      else if Ascii.eqb c (chr 45) then Some (Aware (Zneg (of_bits s))) else None
  | "" => None
  end.
Program Definition toy_iso : IsoCodec := {|
  isoformat := toy_isoformat; fromisoformat := toy_fromisoformat |}.
Next Obligation.
  intros [|p|p]; [done| |].
  - change (Some (Aware (Zpos (of_bits (bits_of p)))) = Some (Aware (Zpos p))). by rewrite of_bits_of.
  - change (Some (Aware (Zneg (of_bits (bits_of p)))) = Some (Aware (Zneg p))). by rewrite of_bits_of.
Qed.
Next Obligation. intros [|p|p]; by apply nonblank_cons. Qed.

#[local] Existing Instance toy_runtime.
Lemma operation_id_derive_identity_witness :
  is_ok (operation_id_derive "run-1" "publish" "git-push" "owner/repo" 0) = true.
Proof.
  rewrite (proj1 (operation_id_derive_identity "run-1" "publish" "git-push" "owner/repo" 0
    "run-1" "publish" "git-push" "owner/repo" 1 "x" eq_refl eq_refl eq_refl eq_refl
    ltac:(vm_compute; set_solver) ltac:(vm_compute; set_solver))).
  reflexivity.
Defined.
