(* ===== verification/JsonCanon.v ===== *)
(** * Canonical JSON: key order and text

    Facts about dictionaries sorted by key, and the theorem that the canonical text
    of a value without floats determines its canonical form, so that a digest binds
    every field of what it hashes. *)
From S2P Require Import Prelude PyText Json Identity IdentityProofs.

(** ** Dictionaries sorted by key *)
Section Sorted.
Context {V : Type}.
Implicit Types m : list (string * V).

Lemma sort_keys_perm m : merge_sort key_le m ≡ₚ m.
Proof. apply merge_sort_Permutation. Qed.
Lemma sort_keys_nodup m : NoDup m.*1 -> NoDup (merge_sort key_le m).*1.
Proof. by rewrite sort_keys_perm. Qed.
Lemma dict_get_perm k m m' : NoDup m.*1 -> m ≡ₚ m' -> dict_get k m = dict_get k m'.
Proof.
  intros Hd Hp. destruct (dict_get k m') as [v|] eqn:Hv.
  - apply dict_get_elem; [done|]. rewrite Hp. by apply dict_get_Some_elem.
  - apply dict_get_None. apply dict_get_None in Hv. by rewrite Hp.
Qed.
Lemma dict_get_sort k m : NoDup m.*1 -> dict_get k (merge_sort key_le m) = dict_get k m.
Proof. intros Hd. symmetry. apply dict_get_perm; [done|]. by rewrite sort_keys_perm. Qed.

(** Two key-sorted orders of one dictionary are the same. *)
Lemma sorted_keys_unique m m' : NoDup m.*1 -> Sorted key_le m -> Sorted key_le m' ->
  m ≡ₚ m' -> m = m'.
Proof.
  intros Hd Hs Hs' Hp. apply (Sorted_unique_strong key_le); [|done..].
  intros [k1 v1] [k2 v2] Hx Hy Hxy Hyx. unfold key_le in *. cbn in *.
  assert (k1 = k2) as -> by (by apply (anti_symm String.le)).
  rewrite <- Hp in Hy. apply (dict_get_elem _ _ _ Hd) in Hx, Hy. congruence.
Qed.
Lemma sort_sorted m : NoDup m.*1 -> Sorted key_le m -> merge_sort key_le m = m.
Proof.
  intros Hd Hs. apply sorted_keys_unique; [by apply sort_keys_nodup| |done|apply sort_keys_perm].
  apply (Sorted_merge_sort _).
Qed.
End Sorted.

Lemma sorted_same_keys {V} (m m' : list (string * V)) :
  m'.*1 = m.*1 -> Sorted key_le m -> Sorted key_le m'.
Proof.
  intros Hk Hs. revert m' Hk. induction Hs as [|[k v] m Hs IH Hh]; intros m' Hk.
  { destruct m'; [constructor|done]. }
  destruct m' as [|[k' v'] m']; [done|]. cbn in Hk. injection Hk as -> Hk.
  constructor; [by apply IH|].
  destruct Hh as [|[k2 v2] m Hle]; destruct m' as [|[k3 v3] m']; try done; constructor.
  cbn in Hk. injection Hk as -> _. exact Hle.
Qed.
Lemma Sorted_map_values {V W} (g : V -> W) (m : list (string * V)) :
  Sorted key_le m -> Sorted key_le (map (fun kv => (kv.1, g kv.2)) m).
Proof.
  induction 1 as [|[k v] m Hs IH Hh]; cbn; [constructor|]. constructor; [done|].
  destruct Hh as [|[k' v'] m Hkv]; cbn; by constructor.
Qed.
Lemma map_values_keys {V W} (g : V -> W) (m : list (string * V)) :
  (map (fun kv => (kv.1, g kv.2)) m).*1 = m.*1.
Proof. induction m as [|[k v] m IH]; [done|]. cbn. by f_equal. Qed.
Lemma sort_map_values {V W} (g : V -> W) (m : list (string * V)) : NoDup m.*1 ->
  merge_sort key_le (map (fun kv => (kv.1, g kv.2)) m) =
  map (fun kv => (kv.1, g kv.2)) (merge_sort key_le m).
Proof.
  intros Hd. apply sorted_keys_unique.
  - apply sort_keys_nodup. by rewrite map_values_keys.
  - apply (Sorted_merge_sort _).
  - apply Sorted_map_values, (Sorted_merge_sort _).
  - by rewrite !sort_keys_perm.
Qed.
(** Encoding the values of a dictionary, then bringing it into canonical form. *)
Lemma canon_dict {V} (g : V -> json) (m : list (string * V)) : NoDup m.*1 ->
  canon (JObj (map (fun kv => (kv.1, g kv.2)) m)) =
  JObj (map (fun kv => (kv.1, canon (g kv.2))) (merge_sort key_le m)).
Proof.
  intros Hd. cbn [canon]. f_equal. rewrite map_map. cbn [fst snd].
  by apply (sort_map_values (fun v => canon (g v))).
Qed.

(** What a reader finds in the canonical form of a dictionary. *)
Definition canon_items (m : list (string * json)) : list (string * json) :=
  merge_sort key_le (map (fun kv => (kv.1, canon kv.2)) m).
Lemma canon_obj m : canon (JObj m) = JObj (canon_items m).
Proof. done. Qed.
Lemma canon_items_keys m : (canon_items m).*1 ≡ₚ m.*1.
Proof. unfold canon_items. by rewrite sort_keys_perm, map_values_keys. Qed.
Lemma canon_items_nodup m : NoDup m.*1 -> NoDup (canon_items m).*1.
Proof. by rewrite canon_items_keys. Qed.
Lemma dict_get_map_values {V W} (g : V -> W) k (m : list (string * V)) :
  dict_get k (map (fun kv => (kv.1, g kv.2)) m) = g <$> dict_get k m.
Proof. induction m as [|[k' v] m IH]; [done|]. cbn. by destruct (String.eqb k k'). Qed.
Lemma canon_items_get k m : NoDup m.*1 -> dict_get k (canon_items m) = canon <$> dict_get k m.
Proof.
  intros Hd. unfold canon_items. rewrite dict_get_sort by by rewrite map_values_keys.
  apply dict_get_map_values.
Qed.
Lemma dict_set_nodup {V} k (v : V) m : NoDup m.*1 -> NoDup (dict_set k v m).*1.
Proof.
  intros Hd. destruct (decide (k ∈ m.*1)) as [Hk|Hk]; [by rewrite dict_set_keys|].
  rewrite dict_set_fresh, fmap_app by done. apply NoDup_app. split_and!; [done| |].
  - intros x Hx. cbn. intros ->%list_elem_of_singleton. done.
  - apply NoDup_singleton.
Qed.
Lemma dict_update_nodup {V} (d e : list (string * V)) : NoDup d.*1 -> NoDup (dict_update d e).*1.
Proof.
  unfold dict_update. revert d. induction e as [|[k v] e IH]; intros d Hd; [done|].
  cbn [foldl]. apply IH. by apply dict_set_nodup.
Qed.
(** A key an update does not name keeps its value. *)
Lemma dict_update_get_other {V} k (d e : list (string * V)) : k ∉ e.*1 ->
  dict_get k (dict_update d e) = dict_get k d.
Proof.
  unfold dict_update. revert d. induction e as [|[k' v] e IH]; intros d; [done|].
  rewrite fmap_cons. intros [Hk He]%not_elem_of_cons. cbn [foldl]. rewrite IH by done.
  rewrite dict_get_set. by rewrite decide_False.
Qed.

(** ** The text determines the value *)
(** No float occurs: [float.__repr__] is the interpreter's. *)
Fixpoint no_floats (j : json) : bool :=
  match j with
  | JFloat _ => false
  | JList l => forallb no_floats l
  | JObj m => forallb (fun kv => no_floats kv.2) m
  | _ => true
  end.

Definition comma_char : Ascii.ascii := chr 44.
Definition list_end : Ascii.ascii := chr 93.
Definition object_end : Ascii.ascii := chr 125.
(** What can follow a value inside a document. *)
Definition delimited (l : list Ascii.ascii) : Prop :=
  match l with [] => True | c :: _ => c ∈ [comma_char; list_end; object_end] end.

(** Reading back one escaped character. *)
Definition hex_val (c : Ascii.ascii) : N :=
  if (code c <=? 57)%N then (code c - 48)%N else (code c - 87)%N.
Definition unescape (l : list Ascii.ascii) : option (Ascii.ascii * list Ascii.ascii) :=
  match l with
  | [] => None
  | c :: rest =>
      if (code c =? 92)%N then
        match rest with
        | d :: rest =>
            if (code d =? 110)%N then Some (chr 10, rest)
            else if (code d =? 114)%N then Some (chr 13, rest)
            else if (code d =? 116)%N then Some (chr 9, rest)
            else if (code d =? 102)%N then Some (chr 12, rest)
            else if (code d =? 98)%N then Some (chr 8, rest)
            else if (code d =? 117)%N then
              match rest with
              | _ :: _ :: h :: k :: rest => Some (chr (16 * hex_val h + hex_val k), rest)
              | _ => None
              end
            else Some (d, rest)
        | [] => None
        end
      else Some (c, rest)
  end.
Lemma unescape_escape c l : unescape (chars (escape_char c) ++ l) = Some (c, l).
Proof. by destruct c as [[] [] [] [] [] [] [] []]. Qed.
Lemma escape_not_quote c l : head (chars (escape_char c) ++ l) <> Some (chr 34).
Proof. by destruct c as [[] [] [] [] [] [] [] []]. Qed.

Definition string_body (s : string) : list Ascii.ascii :=
  concat (map (fun c => chars (escape_char c)) (chars s)).
Lemma json_string_chars s : chars (json_string s) = chr 34 :: string_body s ++ [chr 34].
Proof.
  unfold json_string, string_body. change (chars (quote +:+ ?t)) with (chr 34 :: chars t). f_equal.
  induction (chars s) as [|c l IH]; [done|]. cbn [foldr map concat].
  by rewrite chars_app, IH, (assoc_L (++)).
Qed.
Lemma json_string_app_inj s t l k :
  chars (json_string s) ++ l = chars (json_string t) ++ k -> s = t /\ l = k.
Proof.
  rewrite !json_string_chars. cbn [app]. intros [= H]. rewrite <- !(assoc_L (++)) in H. cbn [app] in H.
  enough (chars s = chars t /\ l = k) as [->%chars_inj ->] by done.
  revert H. unfold string_body. generalize (chars s) as cs, (chars t) as ct.
  induction cs as [|c cs IH]; intros [|d ct]; cbn [map concat app].
  - by intros [= ->].
  - rewrite <- (assoc_L (++)). intros H. exfalso. eapply escape_not_quote. by rewrite <- H.
  - rewrite <- (assoc_L (++)). intros H. exfalso. eapply escape_not_quote. by rewrite H.
  - rewrite <- !(assoc_L (++)). intros H. apply (f_equal unescape) in H.
    rewrite !unescape_escape in H. injection H as -> H. by apply IH in H as [-> ->].
Qed.

(** Maximal runs of one class of characters. *)
Lemma run_inj (P : Ascii.ascii -> Prop) l1 l2 x y :
  Forall P l1 -> Forall P l2 -> (forall c, head x = Some c -> ~ P c) ->
  (forall c, head y = Some c -> ~ P c) -> l1 ++ x = l2 ++ y -> l1 = l2 /\ x = y.
Proof.
  intros H1. revert l2. induction H1 as [|c l1 Hc _ IH]; intros [|d l2] H2 Hx Hy; cbn.
  - done.
  - intros ->. apply Forall_cons in H2 as [Hd _]. by destruct (Hx d eq_refl).
  - intros <-. by destruct (Hy c eq_refl).
  - intros [= <- H]. apply Forall_cons in H2 as [_ H2]. apply IH in H as [-> ->]; done.
Qed.
Lemma pretty_app_inj (z w : Z) x y : delimited x -> delimited y ->
  chars (pretty z) ++ x = chars (pretty w) ++ y -> z = w /\ x = y.
Proof.
  intros Hx Hy H.
  assert (Hdel : forall l, delimited l -> forall c, head l = Some c -> is_decimal c <> true).
  { intros [|d l] Hl c [= <-]. cbn in Hl. rewrite !elem_of_cons in Hl.
    repeat destruct Hl as [->|Hl]; try done. by apply not_elem_of_nil in Hl. }
  apply (run_inj (fun c => is_decimal c = true)) in H as [Hp ->];
    eauto using pretty_Z_decimal. split; [|done]. by apply chars_inj, (inj pretty) in Hp.
Qed.

Section Text.
Context `{rt : PyRuntime}.
Implicit Types a b : json.

Definition text (j : json) : list Ascii.ascii := chars (json_text j).

(** The list and object bodies, separator first after the head. *)
Fixpoint tail_text {A} (f : A -> list Ascii.ascii) (l : list A) : list Ascii.ascii :=
  match l with [] => [] | x :: l => comma_char :: f x ++ tail_text f l end.
Definition body_text {A} (f : A -> list Ascii.ascii) (l : list A) : list Ascii.ascii :=
  match l with [] => [] | x :: l => f x ++ tail_text f l end.
Lemma join_text {A} (f : A -> string) l :
  chars (py_join "," (map f l)) = body_text (fun x => chars (f x)) l.
Proof.
  destruct l as [|x l]; [done|]. cbn [map body_text]. revert x.
  induction l as [|y l IH]; intros x; [by rewrite app_nil_r|].
  change (py_join "," (f x :: map f (y :: l)))
    with (f x +:+ "," +:+ py_join "," (map f (y :: l))).
  rewrite !chars_app. cbn [map]. rewrite IH. done.
Qed.
Definition entry_text (kv : string * json) : list Ascii.ascii :=
  chars (json_string kv.1) ++ colon :: text kv.2.
Lemma text_list l : text (JList l) = chr 91 :: body_text text l ++ [list_end].
Proof. unfold text at 1. cbn [json_text]. by rewrite !chars_app, join_text. Qed.
Lemma text_obj m : text (JObj m) = chr 123 :: body_text entry_text m ++ [object_end].
Proof.
  unfold text. cbn [json_text]. rewrite !chars_app, join_text. cbn. do 2 f_equal.
  assert (forall kv, chars (json_string kv.1 +:+ ":" +:+ json_text kv.2) = entry_text kv) as He.
  { intros kv. by rewrite !chars_app. }
  destruct m as [|kv m]; [done|]. cbn. rewrite He. f_equal.
  induction m as [|kv' m IH]; [done|]. cbn. by rewrite He, IH.
Qed.

(** Two elements of a body that can be told apart with what follows them. *)
Definition separable {A} (f : A -> list Ascii.ascii) (Q : A -> Prop) (x : A) : Prop :=
  forall y u v, Q y -> delimited u -> delimited v -> f x ++ u = f y ++ v -> x = y /\ u = v.
Lemma tail_inj {A} (f : A -> list Ascii.ascii) (Q : A -> Prop) (e : Ascii.ascii) l k x y :
  e ∈ [list_end; object_end] -> Forall (separable f Q) l -> Forall Q k ->
  tail_text f l ++ e :: x = tail_text f k ++ e :: y -> l = k /\ x = y.
Proof.
  intros He Hl. revert k. induction Hl as [|a l Ha _ IH]; intros [|b k] Hq; cbn.
  - by intros [= ->].
  - intros [= -> _]. exfalso. revert He. vm_compute. set_solver.
  - intros [= <- _]. exfalso. revert He. vm_compute. set_solver.
  - rewrite <- !(assoc_L (++)). intros [= H].
    assert (Hd : forall w z, delimited (tail_text f w ++ e :: z)).
    { intros [|? ?] z; cbn; [|left]. revert He. rewrite !elem_of_cons. tauto. }
    apply Forall_cons in Hq as [Hb Hq].
    apply Ha in H as [-> H]; [|done..]. by apply IH in H as [-> ->].
Qed.
Lemma body_inj {A} (f : A -> list Ascii.ascii) (Q : A -> Prop) (e : Ascii.ascii) l k x y :
  e ∈ [list_end; object_end] -> Forall (separable f Q) l -> Forall Q k ->
  (forall (a : A) u, Q a -> head (f a ++ u) <> Some e) -> Forall Q l ->
  body_text f l ++ e :: x = body_text f k ++ e :: y -> l = k /\ x = y.
Proof.
  intros He Hl Hk Hh Hq H. destruct l as [|a l], k as [|b k]; cbn in H.
  - by injection H as ->.
  - exfalso. rewrite <- (assoc_L (++)) in H. apply Forall_cons in Hk as [Hb _].
    apply (Hh b (tail_text f k ++ e :: y) Hb). by rewrite <- H.
  - exfalso. rewrite <- (assoc_L (++)) in H. apply Forall_cons in Hq as [Ha _].
    apply (Hh a (tail_text f l ++ e :: x) Ha). by rewrite H.
  - rewrite <- !(assoc_L (++)) in H. apply Forall_cons in Hl as [Ha Hl], Hk as [Hb Hk].
    assert (Hd : forall w z, delimited (tail_text f w ++ e :: z)).
    { intros [|? ?] z; cbn; [|left]. revert He. rewrite !elem_of_cons. tauto. }
    apply Ha in H as [-> H]; [|done..]. by apply (tail_inj f Q) in H as [-> ->].
Qed.

(** The first character tells the kind of a value. *)
Definition head_class (j : json) (c : Ascii.ascii) : Prop :=
  match j with
  | JNull => c = chr 110 | JBool true => c = chr 116 | JBool false => c = chr 102
  | JInt _ => is_decimal c = true | JStr _ => c = chr 34
  | JList _ => c = chr 91 | JObj _ => c = chr 123 | JFloat _ => False
  end.
Lemma pretty_go_nonempty x c s : pretty_N_go x (String c s) <> "".
Proof.
  revert c s. induction (N.lt_wf_0 x) as [x _ IH]; intros c s.
  assert (x = 0 \/ 0 < x)%N as [->|Hx] by lia; [done|].
  rewrite pretty_N_go_step by done. apply IH. by apply N.div_lt.
Qed.
Lemma pretty_pos_nonempty p : chars (pretty (Z.pos p)) <> [].
Proof.
  intros E%(f_equal of_chars). rewrite of_chars_chars in E. revert E.
  change (pretty_N_go (N.pos p) "" <> ""). rewrite pretty_N_go_step by done.
  apply pretty_go_nonempty.
Qed.
Lemma text_head j : no_floats j = true -> exists c l, text j = c :: l /\ head_class j c.
Proof.
  destruct j as [|[]|z|f|s|l|m]; cbn [no_floats head_class]; intros Hf; try done;
    try (by do 2 eexists).
  - pose proof (pretty_Z_decimal z) as Hd. unfold text. cbn [json_text].
    destruct (chars (pretty z)) as [|c l] eqn:E; [|apply Forall_cons in Hd as [Hd _]; by eauto].
    exfalso. destruct z as [|p|p]; try discriminate E. by apply (pretty_pos_nonempty p).
Qed.
Lemma text_no_end j u e : no_floats j = true -> e ∈ [list_end; object_end] ->
  head (text j ++ u) <> Some e.
Proof.
  intros Hf He. destruct (text_head j Hf) as (c & l & -> & Hc). cbn. intros [= ->].
  rewrite !elem_of_cons in He. destruct He as [->|[->|[]%not_elem_of_nil]];
    destruct j as [|[]| | | | |]; cbn in Hc; try done; by vm_compute in Hc.
Qed.
Lemma entry_no_end kv u e : e ∈ [list_end; object_end] -> head (entry_text kv ++ u) <> Some e.
Proof.
  intros He. unfold entry_text. rewrite json_string_chars. cbn. intros [= <-].
  revert He. vm_compute. set_solver.
Qed.

(** The kinds of values and of first characters. *)
Definition json_tag (j : json) : nat :=
  match j with
  | JNull => 0 | JBool true => 1 | JBool false => 2 | JInt _ => 3 | JStr _ => 4
  | JList _ => 5 | JObj _ => 6 | JFloat _ => 7
  end.
Definition char_tag (c : Ascii.ascii) : nat :=
  if is_decimal c then 3
  else match code c with 110%N => 0 | 116%N => 1 | 102%N => 2 | 34%N => 4 | 91%N => 5 | 123%N => 6
       | _ => 7 end.
Lemma head_class_tag j c : head_class j c -> char_tag c = json_tag j.
Proof. destruct j as [|[]| | | | |]; cbn; intros Hc; try (by subst c); [by unfold char_tag; rewrite Hc|done]. Qed.
Lemma text_tag a b u v : no_floats a = true -> no_floats b = true -> text a ++ u = text b ++ v ->
  json_tag a = json_tag b.
Proof.
  intros Ha Hb H. destruct (text_head a Ha) as (c & t & Ht & <-%head_class_tag).
  destruct (text_head b Hb) as (d & t' & Ht' & <-%head_class_tag).
  rewrite Ht, Ht' in H. by injection H as -> _.
Qed.

(** A value is read back from its text, whatever follows it. *)
Lemma text_separable a : no_floats a = true -> separable text (fun b => no_floats b = true) a.
Proof.
  induction a as [|a|z|f|s|l IH|m IH] using json_rec'; intros Ha b u v Hb Hu Hv H;
    pose proof (text_tag _ _ _ _ Ha Hb H) as Htag;
    destruct b as [|[]|w|g|s'|k|n]; try (by destruct a); try done.
  - by injection H as ->.
  - destruct a; [by injection H as ->|done].
  - destruct a; [done|by injection H as ->].
  - unfold text in H. cbn [json_text] in H. by apply pretty_app_inj in H as [-> ->].
  - unfold text in H. cbn [json_text] in H. by apply json_string_app_inj in H as [-> ->].
  - rewrite !text_list in H. cbn [app] in H. injection H as H.
    rewrite <- !(assoc_L (++)) in H. cbn [app] in H. cbn in Ha, Hb.
    rewrite forallb_forall in Ha, Hb.
    apply (body_inj text (fun b => no_floats b = true)) in H as [-> ->].
    + done.
    + by left.
    + rewrite Forall_forall in IH |- *. intros x Hx. apply IH; [done|].
      by apply Ha, list_elem_of_In.
    + apply Forall_forall. intros x Hx. by apply Hb, list_elem_of_In.
    + intros x w Hx. apply text_no_end; [done|by left].
    + apply Forall_forall. intros x Hx. by apply Ha, list_elem_of_In.
  - rewrite !text_obj in H. cbn [app] in H. injection H as H.
    rewrite <- !(assoc_L (++)) in H. cbn [app] in H. cbn in Ha, Hb.
    rewrite forallb_forall in Ha, Hb.
    apply (body_inj entry_text (fun kv => no_floats kv.2 = true)) in H as [-> ->].
    + done.
    + right. by left.
    + rewrite Forall_forall in IH |- *. intros [k1 v1] Hx [k2 v2] w z Hy Hw Hz.
      pose proof (Ha _ (proj1 (list_elem_of_In _ _) Hx)) as Hf. unfold entry_text; cbn [fst snd]. rewrite <- !(assoc_L (++)). cbn [app].
      intros [-> [= He]]%json_string_app_inj.
      apply (IH _ Hx Hf) in He as [He ->]; [|done..]. cbn in He. by subst.
    + apply Forall_forall. intros x Hx. by apply Hb, list_elem_of_In.
    + intros x w _. apply entry_no_end. right. by left.
    + apply Forall_forall. intros x Hx. by apply Ha, list_elem_of_In.
Qed.
Lemma json_text_inj a b : no_floats a = true -> no_floats b = true ->
  json_text a = json_text b -> a = b.
Proof.
  intros Ha Hb H. destruct (text_separable a Ha b [] [] Hb) as [-> _]; [done..| |done].
  unfold text. by rewrite H.
Qed.
Lemma no_floats_canon a : no_floats a = true -> no_floats (canon a) = true.
Proof.
  induction a as [| | | | |l IH|m IH] using json_rec'; try done; cbn [canon no_floats];
    rewrite !forallb_forall; intros Ha.
  - intros x (y & <- & Hy)%in_map_iff. rewrite Forall_forall in IH.
    apply IH; [by apply list_elem_of_In|by apply Ha].
  - intros [k x] Hx%list_elem_of_In. rewrite (merge_sort_Permutation key_le) in Hx.
    apply list_elem_of_fmap in Hx as ([k' y] & [= -> ->] & Hy). rewrite Forall_forall in IH.
    apply (IH _ Hy), (Ha (k', y)). by apply list_elem_of_In.
Qed.

Lemma digest_str_inj d d' : wf_digest d -> wf_digest d' -> digest_str d = digest_str d' -> d = d'.
Proof.
  intros Hd%digest_of_str_str Hd'%digest_of_str_str He. rewrite He in Hd. congruence.
Qed.

(** Equal digests mean equal canonical values, or a SHA-256 collision. *)
Definition sha256_collision : Prop :=
  exists x y : list N, x <> y /\ sha256_hex x = sha256_hex y.
Lemma digest_of_json_inj a b d : no_floats a = true -> no_floats b = true ->
  digest_of_json a = Ok d -> digest_of_json b = Ok d -> canon a = canon b \/ sha256_collision.
Proof.
  intros Ha Hb. unfold digest_of_json. rewrite !digest_of_bytes_Ok. intros [= <-] [= H].
  destruct (decide (utf8 (json_dumps a) = utf8 (json_dumps b))) as [He|He].
  - left. apply (inj utf8) in He. apply json_text_inj in He; auto using no_floats_canon.
  - right. by exists (utf8 (json_dumps a)), (utf8 (json_dumps b)).
Qed.
End Text.
