(* ===== verification/StateMachine.v ===== *)
(** * The guarded transition table ([domain/state_machine.py])

    One generic [TransitionTable] serves every lifecycle.  [edges] is a dict
    (items in insertion order, unique keys), a [frozenset] is a list.  The
    worklist of [reachable_terminals] runs on fuel; [reach_fuel] is enough for
    every table and source ([reachable_terminals_total]). *)
From S2P Require Import Prelude.

Section TransitionTable.
Context {St : Type} `{EqDecision St}.

Record TransitionTable := { edges : list (St * list St); terminal_states : list St }.

Definition declared (t : TransitionTable) (s : St) : bool :=
  bool_decide (s ∈ (edges t).*1).
(** [self.edges.get(state, frozenset())] *)
Fixpoint get_targets (es : list (St * list St)) (s : St) : list St :=
  match es with
  | [] => []
  | (k, ts) :: es => if decide (s = k) then ts else get_targets es s
  end.
Definition targets (t : TransitionTable) : St -> list St := get_targets (edges t).

Definition is_terminal (t : TransitionTable) (state : St) : bool :=
  bool_decide (state ∈ terminal_states t).

(** [__post_init__] *)
Definition mk_transition_table (edges0 : list (St * list St)) (terminals : list St)
    : result TransitionTable :=
  let t := {| edges := edges0; terminal_states := terminals |} in
  raise_when existsb (is_terminal t) edges0.*1 as InternalInvariantViolationError ;;
  raise_when existsb (fun s => negb (declared t s) && negb (is_terminal t s))
                     (concat edges0.*2) as InvalidInputError ;;
  raise_when bool_decide (terminals = []) as InvalidInputError ;;
  Ok t.

Definition allows (t : TransitionTable) (source target : St) : bool :=
  if is_terminal t source then false else bool_decide (target ∈ targets t source).

Definition require (t : TransitionTable) (source target : St) : result () :=
  raise_when negb (allows t source target) as InvalidInputError ;; Ok ().

(** The worklist: [frontier] is the stack (top first), [seen] the visited
    states, [terminals] the terminal ones found. *)
Fixpoint reach_loop (fuel : nat) (t : TransitionTable) (frontier seen terminals : list St)
    : option (list St) :=
  match fuel with
  | 0 => None
  | S fuel =>
      match frontier with
      | [] => Some terminals
      | state :: frontier =>
          if decide (state ∈ seen) then reach_loop fuel t frontier seen terminals
          else if is_terminal t state
          then reach_loop fuel t frontier (state :: seen) (state :: terminals)
          else reach_loop fuel t (targets t state ++ frontier) (state :: seen) terminals
      end
  end.

Definition pending_edges (es : list (St * list St)) (seen : list St) : nat :=
  sum_list_with (fun e => if decide (e.1 ∈ seen) then 0 else length e.2) es.
Definition reach_fuel (t : TransitionTable) : nat := 2 + pending_edges (edges t) [].
Definition reachable_terminals (t : TransitionTable) (source : St) : list St :=
  default [] (reach_loop (reach_fuel t) t [source] [] []).

(** ** Steps and traces *)
(** One legal transition, and the states visited after the first one. *)
Definition tstep (t : TransitionTable) (s s' : St) : Prop := allows t s s' = true.

Inductive trace (t : TransitionTable) : St -> list St -> St -> Prop :=
| trace_refl s : trace t s [] s
| trace_step s s' l s'' : tstep t s s' -> trace t s' l s'' -> trace t s (s' :: l) s''.

Definition wf_table (t : TransitionTable) : Prop :=
  (forall s, is_terminal t s = true -> s ∉ (edges t).*1) /\
  (forall s s', s' ∈ targets t s -> declared t s' = true \/ is_terminal t s' = true) /\
  terminal_states t <> [].

Lemma get_targets_in es s s' : s' ∈ get_targets es s -> s ∈ es.*1 /\ s' ∈ concat es.*2.
Proof.
  induction es as [|[k ts] es IH]; cbn; [set_solver|].
  case_decide as Hk; [subst|]; rewrite elem_of_app; set_solver.
Qed.

Lemma mk_transition_table_wf es ts t : mk_transition_table es ts = Ok t -> wf_table t.
Proof.
  unfold mk_transition_table. rewrite !raise_if_Ok.
  intros (H1 & H2 & H3 & [= <-]). split_and!.
  - intros s Hs Hin. enough (existsb (is_terminal {| edges := es; terminal_states := ts |}) es.*1 = true) by congruence.
    apply existsb_exists. exists s. by rewrite <- list_elem_of_In.
  - intros s s' [_ Hin]%get_targets_in.
    destruct (declared _ s') eqn:Hd, (is_terminal _ s') eqn:Ht; [by left..|by right|].
    exfalso. enough (existsb (fun s => negb (declared {| edges := es; terminal_states := ts |} s)
        && negb (is_terminal {| edges := es; terminal_states := ts |} s)) (concat es.*2) = true) by congruence.
    apply existsb_exists. exists s'. rewrite <- list_elem_of_In, Hd, Ht. done.
  - cbn. by apply bool_decide_eq_false in H3.
Qed.

Lemma require_Ok t s s' u : require t s s' = Ok u <-> tstep t s s'.
Proof. unfold require, tstep. rewrite raise_if_Ok, negb_false_iff. destruct u; naive_solver. Qed.
Lemma require_Err t s s' e : require t s s' = Err e <-> ~ tstep t s s' /\ e = InvalidInputError.
Proof.
  unfold require, tstep. rewrite raise_if_Err, negb_true_iff, negb_false_iff.
  destruct (allows t s s'); naive_solver.
Qed.

Lemma tstep_terminal t s s' : is_terminal t s = true -> ~ tstep t s s'.
Proof. unfold tstep, allows. by intros ->. Qed.
Lemma tstep_nonterminal t s s' :
  is_terminal t s = false -> tstep t s s' <-> s' ∈ targets t s.
Proof. unfold tstep, allows. intros ->. apply bool_decide_eq_true. Qed.

Lemma trace_app t s l s' l' s'' :
  trace t s l s' -> trace t s' l' s'' -> trace t s (l ++ l') s''.
Proof. induction 1; cbn; eauto using trace. Qed.
Lemma trace_terminal t s l s' :
  is_terminal t s = true -> trace t s l s' -> l = [] /\ s' = s.
Proof. intros Ht. inversion 1; subst; [done|]. by edestruct tstep_terminal. Qed.

(** ** The worklist explores exactly the reachable states *)
Definition reaches (t : TransitionTable) (s s' : St) : Prop := exists l, trace t s l s'.

Record reach_inv (t : TransitionTable) (source : St) (frontier seen terms : list St) : Prop := {
  ri_reach : forall s, s ∈ frontier \/ s ∈ seen -> reaches t source s;
  ri_source : source ∈ frontier \/ source ∈ seen;
  ri_closed : forall s s', s ∈ seen -> tstep t s s' -> s' ∈ frontier \/ s' ∈ seen;
  ri_terms : forall s, s ∈ terms <-> s ∈ seen /\ is_terminal t s = true;
}.

Lemma reach_inv_init t s : reach_inv t s [s] [] [].
Proof.
  split; [|by left; left|set_solver|set_solver].
  intros x [->%list_elem_of_singleton|?%not_elem_of_nil]; [|done].
  exists []. constructor.
Qed.

Lemma reach_inv_seen t src s fr seen terms :
  s ∈ seen -> reach_inv t src (s :: fr) seen terms -> reach_inv t src fr seen terms.
Proof. intros Hs [H1 H2 H3 H4]. split; [set_solver..|done]. Qed.

Lemma reach_inv_terminal t src s fr seen terms :
  is_terminal t s = true -> reach_inv t src (s :: fr) seen terms ->
  reach_inv t src fr (s :: seen) (s :: terms).
Proof.
  intros Ht [H1 H2 H3 H4]. split; [set_solver..| |].
  - intros x y [->|Hx]%elem_of_cons Hst; [by edestruct tstep_terminal|].
    specialize (H3 x y Hx Hst). set_solver.
  - intros x. rewrite !elem_of_cons, H4. split; [|naive_solver].
    intros [->|[??]]; naive_solver.
Qed.

Lemma reach_inv_expand t src s fr seen terms :
  is_terminal t s = false -> reach_inv t src (s :: fr) seen terms ->
  reach_inv t src (targets t s ++ fr) (s :: seen) terms.
Proof.
  intros Ht [H1 H2 H3 H4]. split.
  - intros x Hx. destruct (decide (x ∈ targets t s)) as [Hin|Hn]; [|set_solver].
    destruct (H1 s) as [l Hl]; [set_solver|].
    exists (l ++ [x]). eapply trace_app; [done|].
    econstructor; [by apply tstep_nonterminal|constructor].
  - set_solver.
  - intros x y [->|Hx]%elem_of_cons Hst.
    + apply tstep_nonterminal in Hst; [set_solver|done].
    + specialize (H3 x y Hx Hst). set_solver.
  - intros x. rewrite H4, elem_of_cons. split; [naive_solver|].
    intros [[->|?] ?]; [congruence|done].
Qed.

Lemma reach_loop_inv fuel t src fr seen terms res :
  reach_inv t src fr seen terms -> reach_loop fuel t fr seen terms = Some res ->
  exists seen', reach_inv t src [] seen' res.
Proof.
  revert fr seen terms; induction fuel as [|fuel IH]; intros fr seen terms Hi; cbn; [done|].
  destruct fr as [|s fr]; [intros [= <-]; by eexists|].
  destruct (decide (s ∈ seen)); [by apply IH, (reach_inv_seen _ _ s)|].
  destruct (is_terminal t s) eqn:Ht.
  - by apply IH, reach_inv_terminal.
  - by apply IH, reach_inv_expand.
Qed.

Lemma pending_edges_le es s seen : pending_edges es (s :: seen) <= pending_edges es seen.
Proof.
  unfold pending_edges. induction es as [|[k ts] es IH]; cbn; [lia|].
  destruct (decide (k ∈ seen)); [rewrite decide_True by set_solver; lia|].
  case_decide; lia.
Qed.
Lemma pending_edges_expand es s seen :
  s ∉ seen -> length (get_targets es s) + pending_edges es (s :: seen) <= pending_edges es seen.
Proof.
  intros Hs. unfold pending_edges. induction es as [|[k ts] es IH]; cbn; [lia|].
  destruct (decide (s = k)) as [<-|Hne].
  - rewrite decide_True by set_solver. rewrite (decide_False (P:=s ∈ seen)) by done.
    pose proof (pending_edges_le es s seen). unfold pending_edges in *. lia.
  - destruct (decide (k ∈ seen)).
    + rewrite decide_True by set_solver. lia.
    + rewrite decide_False by set_solver. lia.
Qed.

Lemma reach_loop_total fuel t fr seen terms :
  length fr + pending_edges (edges t) seen < fuel ->
  is_Some (reach_loop fuel t fr seen terms).
Proof.
  revert fr seen terms; induction fuel as [|fuel IH]; intros fr seen terms Hf; [lia|].
  cbn. destruct fr as [|s fr]; [by eexists|]. cbn in Hf.
  destruct (decide (s ∈ seen)); [apply IH; lia|].
  pose proof (pending_edges_le (edges t) s seen).
  pose proof (pending_edges_expand (edges t) s seen ltac:(done)).
  destruct (is_terminal t s); apply IH; [lia|].
  rewrite length_app. unfold targets. lia.
Qed.

Lemma reachable_terminals_run t s :
  reach_loop (reach_fuel t) t [s] [] [] = Some (reachable_terminals t s).
Proof.
  destruct (reach_loop_total (reach_fuel t) t [s] [] []) as [r Hr].
  { unfold reach_fuel. cbn. lia. }
  unfold reachable_terminals. by rewrite Hr.
Qed.

Lemma elem_of_reachable_terminals t s s' :
  s' ∈ reachable_terminals t s <-> is_terminal t s' = true /\ reaches t s s'.
Proof.
  destruct (reach_loop_inv _ _ _ _ _ _ _ (reach_inv_init t s) (reachable_terminals_run t s))
    as [seen [H1 H2 H3 H4]].
  rewrite H4. split; [intros [Hs Ht]; split; [done|apply H1; by right]|].
  intros [Ht [l Hl]]. split; [|done]. clear Ht.
  assert (Hgen : forall a, a ∈ seen -> trace t a l s' -> s' ∈ seen).
  { clear Hl. induction l as [|x l IH]; intros a Ha; inversion 1; subst; [done|].
    eapply IH; [|done]. destruct (H3 a x) as [?%not_elem_of_nil|]; done. }
  eapply Hgen; [|done]. destruct H2 as [?%not_elem_of_nil|]; done.
Qed.

(** ** States every path must visit *)
(** The table with every edge into [via] removed. *)
Definition cut (via : St) (t : TransitionTable) : TransitionTable := {|
  edges := map (fun e => (e.1, filter (fun x => x <> via) e.2)) (edges t);
  terminal_states := terminal_states t |}.

Lemma get_targets_cut via es s s' :
  s' ∈ get_targets es s -> s' <> via ->
  s' ∈ get_targets (map (fun e => (e.1, filter (fun x => x <> via) e.2)) es) s.
Proof.
  intros Hin Hne. induction es as [|[k ts] es IH]; cbn in *; [done|].
  case_decide; [by apply list_elem_of_filter|auto].
Qed.
Lemma trace_cut via t s l s' : trace t s l s' -> via ∉ l -> trace (cut via t) s l s'.
Proof.
  induction 1 as [|s1 s2 l s3 Hst _ IH]; intros Hn; [constructor|].
  econstructor; [|apply IH; set_solver].
  destruct (is_terminal t s1) eqn:Ht; [by edestruct tstep_terminal|].
  apply tstep_nonterminal in Hst; [|done]. apply tstep_nonterminal; [done|].
  apply get_targets_cut; [done|set_solver].
Qed.

(** A terminal state the cut table cannot reach is reached only through [via]. *)
Lemma must_visit via t s l s' :
  is_terminal t s' = true -> s' ∉ reachable_terminals (cut via t) s ->
  trace t s l s' -> via ∈ l.
Proof.
  intros Ht Hn Htr. destruct (decide (via ∈ l)) as [|Hv]; [done|].
  destruct Hn. apply elem_of_reachable_terminals. split; [done|].
  exists l. by apply trace_cut.
Qed.
End TransitionTable.
Arguments TransitionTable St : clear implicits.
#[export] Hint Constructors trace : lifecycle.
