(* ===== verification/Lifecycles.v ===== *)
(** * The lifecycle tables of the domain aggregates

    Each closed state vocabulary with its wire values and its transition table:
    [domain/run.py], [work_item.py], [node_attempt.py], [factory_change.py],
    [incident.py], [plan_execution.py], [stack.py], [observation.py]. *)
From S2P Require Import Prelude PyText StateMachine.

(** ** Run ([domain/run.py]) *)
Inductive RunState :=
| RUN_CREATED | RUN_PREFLIGHT | RUN_AWAITING_POLICY | RUN_QUEUED | RUN_RUNNING
| RUN_AWAITING_HUMAN | RUN_RECONCILING | RUN_EVIDENCE_VERIFICATION
| RUN_SUCCEEDED | RUN_BLOCKED | RUN_REJECTED | RUN_CANCELLED | RUN_FAILED
| RUN_SUPERSEDED.
#[export] Instance RunState_eq_dec : EqDecision RunState.
Proof. solve_decision. Defined.
#[export] Program Instance RunState_enum : PyEnum RunState := {|
  members := [RUN_CREATED; RUN_PREFLIGHT; RUN_AWAITING_POLICY; RUN_QUEUED; RUN_RUNNING;
    RUN_AWAITING_HUMAN; RUN_RECONCILING; RUN_EVIDENCE_VERIFICATION; RUN_SUCCEEDED;
    RUN_BLOCKED; RUN_REJECTED; RUN_CANCELLED; RUN_FAILED; RUN_SUPERSEDED];
  enum_value s := match s with
    | RUN_CREATED => "created" | RUN_PREFLIGHT => "preflight"
    | RUN_AWAITING_POLICY => "awaiting_policy" | RUN_QUEUED => "queued"
    | RUN_RUNNING => "running" | RUN_AWAITING_HUMAN => "awaiting_human"
    | RUN_RECONCILING => "reconciling"
    | RUN_EVIDENCE_VERIFICATION => "evidence_verification"
    | RUN_SUCCEEDED => "succeeded" | RUN_BLOCKED => "blocked"
    | RUN_REJECTED => "rejected" | RUN_CANCELLED => "cancelled"
    | RUN_FAILED => "failed" | RUN_SUPERSEDED => "superseded" end |}.
Next Obligation. solve_enum. Qed.
Next Obligation. solve_enum. Qed.

Definition RUN_TRANSITIONS : TransitionTable RunState := {|
  edges := [
    (RUN_CREATED, [RUN_PREFLIGHT]);
    (RUN_PREFLIGHT, [RUN_AWAITING_POLICY; RUN_QUEUED; RUN_BLOCKED; RUN_REJECTED;
                     RUN_SUPERSEDED]);
    (RUN_AWAITING_POLICY, [RUN_QUEUED; RUN_AWAITING_HUMAN; RUN_REJECTED; RUN_SUPERSEDED]);
    (RUN_QUEUED, [RUN_RUNNING; RUN_CANCELLED; RUN_SUPERSEDED]);
    (RUN_RUNNING, [RUN_AWAITING_POLICY; RUN_AWAITING_HUMAN; RUN_RECONCILING;
                   RUN_EVIDENCE_VERIFICATION; RUN_BLOCKED; RUN_CANCELLED; RUN_FAILED;
                   RUN_SUPERSEDED]);
    (RUN_AWAITING_HUMAN, [RUN_QUEUED; RUN_RUNNING; RUN_RECONCILING; RUN_REJECTED;
                          RUN_CANCELLED; RUN_SUPERSEDED]);
    (RUN_RECONCILING, [RUN_QUEUED; RUN_RUNNING; RUN_EVIDENCE_VERIFICATION;
                       RUN_AWAITING_HUMAN; RUN_BLOCKED; RUN_FAILED; RUN_SUPERSEDED]);
    (RUN_EVIDENCE_VERIFICATION, [RUN_RUNNING; RUN_RECONCILING; RUN_AWAITING_HUMAN;
                                 RUN_SUCCEEDED; RUN_BLOCKED; RUN_FAILED; RUN_SUPERSEDED])];
  terminal_states := [RUN_SUCCEEDED; RUN_BLOCKED; RUN_REJECTED; RUN_CANCELLED; RUN_FAILED;
                      RUN_SUPERSEDED] |}.

(** ** Work item ([domain/work_item.py]) *)
Inductive WorkItemState :=
| WI_NEW | WI_QUALIFYING | WI_READY | WI_ACTIVE | WI_BLOCKED | WI_OUTCOME_PENDING
| WI_COMPLETED | WI_REJECTED | WI_CANCELLED | WI_FAILED.
#[export] Instance WorkItemState_eq_dec : EqDecision WorkItemState.
Proof. solve_decision. Defined.
#[export] Program Instance WorkItemState_enum : PyEnum WorkItemState := {|
  members := [WI_NEW; WI_QUALIFYING; WI_READY; WI_ACTIVE; WI_BLOCKED; WI_OUTCOME_PENDING;
    WI_COMPLETED; WI_REJECTED; WI_CANCELLED; WI_FAILED];
  enum_value s := match s with
    | WI_NEW => "new" | WI_QUALIFYING => "qualifying" | WI_READY => "ready"
    | WI_ACTIVE => "active" | WI_BLOCKED => "blocked"
    | WI_OUTCOME_PENDING => "outcome_pending" | WI_COMPLETED => "completed"
    | WI_REJECTED => "rejected" | WI_CANCELLED => "cancelled" | WI_FAILED => "failed" end |}.
Next Obligation. solve_enum. Qed.
Next Obligation. solve_enum. Qed.

Definition WORK_ITEM_TRANSITIONS : TransitionTable WorkItemState := {|
  edges := [
    (WI_NEW, [WI_QUALIFYING]);
    (WI_QUALIFYING, [WI_READY; WI_BLOCKED; WI_REJECTED]);
    (WI_READY, [WI_ACTIVE; WI_CANCELLED]);
    (WI_ACTIVE, [WI_OUTCOME_PENDING; WI_BLOCKED; WI_CANCELLED; WI_FAILED]);
    (WI_BLOCKED, [WI_QUALIFYING; WI_ACTIVE; WI_REJECTED; WI_CANCELLED]);
    (WI_OUTCOME_PENDING, [WI_COMPLETED; WI_BLOCKED; WI_FAILED])];
  terminal_states := [WI_COMPLETED; WI_REJECTED; WI_CANCELLED; WI_FAILED] |}.

(** ** Node attempt ([domain/node_attempt.py]) *)
Inductive NodeAttemptState :=
| NA_PENDING | NA_LEASED | NA_RUNNING | NA_RECONCILING | NA_OUTPUT_PENDING
| NA_EVIDENCE_PENDING | NA_PASSED | NA_FAILED | NA_CANCELLED | NA_TIMED_OUT.
#[export] Instance NodeAttemptState_eq_dec : EqDecision NodeAttemptState.
Proof. solve_decision. Defined.
#[export] Program Instance NodeAttemptState_enum : PyEnum NodeAttemptState := {|
  members := [NA_PENDING; NA_LEASED; NA_RUNNING; NA_RECONCILING; NA_OUTPUT_PENDING;
    NA_EVIDENCE_PENDING; NA_PASSED; NA_FAILED; NA_CANCELLED; NA_TIMED_OUT];
  enum_value s := match s with
    | NA_PENDING => "pending" | NA_LEASED => "leased" | NA_RUNNING => "running"
    | NA_RECONCILING => "reconciling" | NA_OUTPUT_PENDING => "output_pending"
    | NA_EVIDENCE_PENDING => "evidence_pending" | NA_PASSED => "passed"
    | NA_FAILED => "failed" | NA_CANCELLED => "cancelled" | NA_TIMED_OUT => "timed_out" end |}.
Next Obligation. solve_enum. Qed.
Next Obligation. solve_enum. Qed.

Inductive ReconciliationResult :=
| REC_NOT_FOUND | REC_FOUND_MATCHING | REC_FOUND_CONFLICTING | REC_INDETERMINATE.
#[export] Instance ReconciliationResult_eq_dec : EqDecision ReconciliationResult.
Proof. solve_decision. Defined.
#[export] Program Instance ReconciliationResult_enum : PyEnum ReconciliationResult := {|
  members := [REC_NOT_FOUND; REC_FOUND_MATCHING; REC_FOUND_CONFLICTING; REC_INDETERMINATE];
  enum_value s := match s with
    | REC_NOT_FOUND => "not_found" | REC_FOUND_MATCHING => "found_matching"
    | REC_FOUND_CONFLICTING => "found_conflicting"
    | REC_INDETERMINATE => "indeterminate" end |}.
Next Obligation. solve_enum. Qed.
Next Obligation. solve_enum. Qed.

Inductive EvidenceResult := EV_PASS | EV_FAIL | EV_INDETERMINATE.
#[export] Instance EvidenceResult_eq_dec : EqDecision EvidenceResult.
Proof. solve_decision. Defined.
#[export] Program Instance EvidenceResult_enum : PyEnum EvidenceResult := {|
  members := [EV_PASS; EV_FAIL; EV_INDETERMINATE];
  enum_value s := match s with
    | EV_PASS => "pass" | EV_FAIL => "fail" | EV_INDETERMINATE => "indeterminate" end |}.
Next Obligation. solve_enum. Qed.
Next Obligation. solve_enum. Qed.

Definition NODE_ATTEMPT_TRANSITIONS : TransitionTable NodeAttemptState := {|
  edges := [
    (NA_PENDING, [NA_LEASED; NA_CANCELLED]);
    (NA_LEASED, [NA_RUNNING; NA_CANCELLED; NA_TIMED_OUT]);
    (NA_RUNNING, [NA_OUTPUT_PENDING; NA_RECONCILING; NA_FAILED; NA_CANCELLED; NA_TIMED_OUT]);
    (NA_RECONCILING, [NA_OUTPUT_PENDING; NA_FAILED; NA_CANCELLED; NA_TIMED_OUT]);
    (NA_OUTPUT_PENDING, [NA_EVIDENCE_PENDING; NA_FAILED; NA_CANCELLED; NA_TIMED_OUT]);
    (NA_EVIDENCE_PENDING, [NA_PASSED; NA_FAILED; NA_CANCELLED; NA_TIMED_OUT])];
  terminal_states := [NA_PASSED; NA_FAILED; NA_CANCELLED; NA_TIMED_OUT] |}.

(** [_RECONCILIATION_OUTCOME_STATE] *)
Definition RECONCILIATION_OUTCOME_STATE (r : ReconciliationResult) : NodeAttemptState :=
  match r with
  | REC_FOUND_MATCHING => NA_OUTPUT_PENDING
  | REC_NOT_FOUND => NA_FAILED
  | REC_FOUND_CONFLICTING => NA_FAILED
  | REC_INDETERMINATE => NA_FAILED
  end.

(** ** Factory change ([domain/factory_change.py]) *)
Inductive FactoryChangeState :=
| FC_PROPOSED | FC_EVALUATION_READY | FC_EVALUATING | FC_REVIEW_REQUIRED | FC_CANARY_READY
| FC_CANARYING | FC_PROMOTED | FC_RETAINED | FC_ROLLED_BACK | FC_REJECTED.
#[export] Instance FactoryChangeState_eq_dec : EqDecision FactoryChangeState.
Proof. solve_decision. Defined.
#[export] Program Instance FactoryChangeState_enum : PyEnum FactoryChangeState := {|
  members := [FC_PROPOSED; FC_EVALUATION_READY; FC_EVALUATING; FC_REVIEW_REQUIRED;
    FC_CANARY_READY; FC_CANARYING; FC_PROMOTED; FC_RETAINED; FC_ROLLED_BACK; FC_REJECTED];
  enum_value s := match s with
    | FC_PROPOSED => "proposed" | FC_EVALUATION_READY => "evaluation_ready"
    | FC_EVALUATING => "evaluating" | FC_REVIEW_REQUIRED => "review_required"
    | FC_CANARY_READY => "canary_ready" | FC_CANARYING => "canarying"
    | FC_PROMOTED => "promoted" | FC_RETAINED => "retained"
    | FC_ROLLED_BACK => "rolled_back" | FC_REJECTED => "rejected" end |}.
Next Obligation. solve_enum. Qed.
Next Obligation. solve_enum. Qed.

Definition FACTORY_CHANGE_TRANSITIONS : TransitionTable FactoryChangeState := {|
  edges := [
    (FC_PROPOSED, [FC_EVALUATION_READY; FC_REJECTED]);
    (FC_EVALUATION_READY, [FC_EVALUATING]);
    (FC_EVALUATING, [FC_REVIEW_REQUIRED]);
    (FC_REVIEW_REQUIRED, [FC_CANARY_READY; FC_REJECTED]);
    (FC_CANARY_READY, [FC_CANARYING]);
    (FC_CANARYING, [FC_PROMOTED; FC_RETAINED; FC_ROLLED_BACK]);
    (FC_RETAINED, [FC_EVALUATION_READY; FC_CANARY_READY; FC_REJECTED])];
  terminal_states := [FC_PROMOTED; FC_REJECTED; FC_ROLLED_BACK] |}.

(** ** Incident ([domain/incident.py]) *)
Inductive IncidentState :=
| INC_INTAKE | INC_CLASSIFIED | INC_CONTAINING | INC_REPRODUCING | INC_REMEDIATING
| INC_DEPLOYING | INC_OBSERVING | INC_ROLLING_BACK | INC_HOTFIX_READY | INC_MITIGATED
| INC_RESOLVED | INC_ROLLED_BACK | INC_BLOCKED | INC_CANCELLED | INC_FAILED.
#[export] Instance IncidentState_eq_dec : EqDecision IncidentState.
Proof. solve_decision. Defined.
#[export] Program Instance IncidentState_enum : PyEnum IncidentState := {|
  members := [INC_INTAKE; INC_CLASSIFIED; INC_CONTAINING; INC_REPRODUCING; INC_REMEDIATING;
    INC_DEPLOYING; INC_OBSERVING; INC_ROLLING_BACK; INC_HOTFIX_READY; INC_MITIGATED;
    INC_RESOLVED; INC_ROLLED_BACK; INC_BLOCKED; INC_CANCELLED; INC_FAILED];
  enum_value s := match s with
    | INC_INTAKE => "intake" | INC_CLASSIFIED => "classified"
    | INC_CONTAINING => "containing" | INC_REPRODUCING => "reproducing"
    | INC_REMEDIATING => "remediating" | INC_DEPLOYING => "deploying"
    | INC_OBSERVING => "observing" | INC_ROLLING_BACK => "rolling_back"
    | INC_HOTFIX_READY => "hotfix_ready" | INC_MITIGATED => "mitigated"
    | INC_RESOLVED => "resolved" | INC_ROLLED_BACK => "rolled_back"
    | INC_BLOCKED => "blocked" | INC_CANCELLED => "cancelled" | INC_FAILED => "failed" end |}.
Next Obligation. solve_enum. Qed.
Next Obligation. solve_enum. Qed.

Definition INCIDENT_TRANSITIONS : TransitionTable IncidentState := {|
  edges := [
    (INC_INTAKE, [INC_CLASSIFIED; INC_BLOCKED; INC_CANCELLED]);
    (INC_CLASSIFIED, [INC_CONTAINING; INC_REPRODUCING; INC_BLOCKED; INC_CANCELLED]);
    (INC_CONTAINING, [INC_MITIGATED; INC_REPRODUCING; INC_BLOCKED; INC_FAILED]);
    (INC_REPRODUCING, [INC_REMEDIATING; INC_BLOCKED; INC_FAILED]);
    (INC_REMEDIATING, [INC_DEPLOYING; INC_HOTFIX_READY; INC_BLOCKED; INC_FAILED]);
    (INC_DEPLOYING, [INC_OBSERVING; INC_BLOCKED; INC_FAILED]);
    (INC_OBSERVING, [INC_RESOLVED; INC_ROLLING_BACK; INC_BLOCKED]);
    (INC_ROLLING_BACK, [INC_ROLLED_BACK; INC_FAILED])];
  terminal_states := [INC_HOTFIX_READY; INC_MITIGATED; INC_RESOLVED; INC_ROLLED_BACK;
                      INC_BLOCKED; INC_CANCELLED; INC_FAILED] |}.

(** ** Milestone links of a plan execution ([domain/plan_execution.py]) *)
Inductive MilestoneRunState :=
| MS_PENDING | MS_REGISTERED | MS_SUCCEEDED | MS_BLOCKED | MS_FAILED | MS_CANCELLED.
#[export] Instance MilestoneRunState_eq_dec : EqDecision MilestoneRunState.
Proof. solve_decision. Defined.
#[export] Program Instance MilestoneRunState_enum : PyEnum MilestoneRunState := {|
  members := [MS_PENDING; MS_REGISTERED; MS_SUCCEEDED; MS_BLOCKED; MS_FAILED; MS_CANCELLED];
  enum_value s := match s with
    | MS_PENDING => "pending" | MS_REGISTERED => "registered" | MS_SUCCEEDED => "succeeded"
    | MS_BLOCKED => "blocked" | MS_FAILED => "failed" | MS_CANCELLED => "cancelled" end |}.
Next Obligation. solve_enum. Qed.
Next Obligation. solve_enum. Qed.

Definition MILESTONE_RUN_TRANSITIONS : TransitionTable MilestoneRunState := {|
  edges := [
    (MS_PENDING, [MS_REGISTERED; MS_CANCELLED]);
    (MS_REGISTERED, [MS_SUCCEEDED; MS_BLOCKED; MS_FAILED; MS_CANCELLED])];
  terminal_states := [MS_SUCCEEDED; MS_BLOCKED; MS_FAILED; MS_CANCELLED] |}.

(** ** Stack slices ([domain/stack.py]) *)
Inductive StackSliceState :=
| SL_PENDING | SL_PUBLISHED | SL_MERGE_READY | SL_STALE | SL_MERGED | SL_ABANDONED.
#[export] Instance StackSliceState_eq_dec : EqDecision StackSliceState.
Proof. solve_decision. Defined.
#[export] Program Instance StackSliceState_enum : PyEnum StackSliceState := {|
  members := [SL_PENDING; SL_PUBLISHED; SL_MERGE_READY; SL_STALE; SL_MERGED; SL_ABANDONED];
  enum_value s := match s with
    | SL_PENDING => "pending" | SL_PUBLISHED => "published"
    | SL_MERGE_READY => "merge_ready" | SL_STALE => "stale" | SL_MERGED => "merged"
    | SL_ABANDONED => "abandoned" end |}.
Next Obligation. solve_enum. Qed.
Next Obligation. solve_enum. Qed.

Definition STACK_SLICE_TRANSITIONS : TransitionTable StackSliceState := {|
  edges := [
    (SL_PENDING, [SL_PUBLISHED; SL_ABANDONED]);
    (SL_PUBLISHED, [SL_PUBLISHED; SL_MERGE_READY; SL_STALE; SL_ABANDONED]);
    (SL_MERGE_READY, [SL_PUBLISHED; SL_STALE; SL_MERGED; SL_ABANDONED]);
    (SL_STALE, [SL_PUBLISHED; SL_ABANDONED])];
  terminal_states := [SL_MERGED; SL_ABANDONED] |}.

(** ** Every table passes its own construction checks *)
Lemma RUN_TRANSITIONS_checked :
  mk_transition_table (edges RUN_TRANSITIONS) (terminal_states RUN_TRANSITIONS)
  = Ok RUN_TRANSITIONS.
Proof. reflexivity. Qed.
Lemma WORK_ITEM_TRANSITIONS_checked :
  mk_transition_table (edges WORK_ITEM_TRANSITIONS) (terminal_states WORK_ITEM_TRANSITIONS)
  = Ok WORK_ITEM_TRANSITIONS.
Proof. reflexivity. Qed.
Lemma NODE_ATTEMPT_TRANSITIONS_checked :
  mk_transition_table (edges NODE_ATTEMPT_TRANSITIONS)
    (terminal_states NODE_ATTEMPT_TRANSITIONS) = Ok NODE_ATTEMPT_TRANSITIONS.
Proof. reflexivity. Qed.
Lemma FACTORY_CHANGE_TRANSITIONS_checked :
  mk_transition_table (edges FACTORY_CHANGE_TRANSITIONS)
    (terminal_states FACTORY_CHANGE_TRANSITIONS) = Ok FACTORY_CHANGE_TRANSITIONS.
Proof. reflexivity. Qed.
Lemma INCIDENT_TRANSITIONS_checked :
  mk_transition_table (edges INCIDENT_TRANSITIONS) (terminal_states INCIDENT_TRANSITIONS)
  = Ok INCIDENT_TRANSITIONS.
Proof. reflexivity. Qed.
Lemma MILESTONE_RUN_TRANSITIONS_checked :
  mk_transition_table (edges MILESTONE_RUN_TRANSITIONS)
    (terminal_states MILESTONE_RUN_TRANSITIONS) = Ok MILESTONE_RUN_TRANSITIONS.
Proof. reflexivity. Qed.
Lemma STACK_SLICE_TRANSITIONS_checked :
  mk_transition_table (edges STACK_SLICE_TRANSITIONS)
    (terminal_states STACK_SLICE_TRANSITIONS) = Ok STACK_SLICE_TRANSITIONS.
Proof. reflexivity. Qed.
