(* ===== verification/Aggregates.v ===== *)
(** * Domain aggregates and their guarded operations

    [domain/work_item.py], [run.py], [node_attempt.py], [factory_change.py],
    [incident.py] and [observation.py].  A dataclass is a record; its
    [__post_init__] is a check that returns the value or the exception, run by
    every constructor call and by every [dataclasses.replace]. *)
From S2P Require Import Prelude PyText Json Identity StateMachine Lifecycles.
From Stdlib Require Import SpecFloat.

(** ** Shared closed enumerations ([domain/enums.py]) *)
Inductive WorkKind := WK_ISSUE | WK_PLAN | WK_MILESTONE | WK_INCIDENT | WK_FACTORY_CHANGE.
#[export] Instance WorkKind_eq_dec : EqDecision WorkKind.
Proof. solve_decision. Defined.
#[export] Program Instance WorkKind_enum : PyEnum WorkKind := {|
  members := [WK_ISSUE; WK_PLAN; WK_MILESTONE; WK_INCIDENT; WK_FACTORY_CHANGE];
  enum_value k := match k with
    | WK_ISSUE => "issue" | WK_PLAN => "plan" | WK_MILESTONE => "milestone"
    | WK_INCIDENT => "incident" | WK_FACTORY_CHANGE => "factory_change" end |}.
Next Obligation. solve_enum. Qed.
Next Obligation. solve_enum. Qed.

Inductive RiskClass := RISK_LOW | RISK_MEDIUM | RISK_HIGH.
#[export] Instance RiskClass_eq_dec : EqDecision RiskClass.
Proof. solve_decision. Defined.
#[export] Program Instance RiskClass_enum : PyEnum RiskClass := {|
  members := [RISK_LOW; RISK_MEDIUM; RISK_HIGH];
  enum_value r := match r with
    | RISK_LOW => "low" | RISK_MEDIUM => "medium" | RISK_HIGH => "high" end |}.
Next Obligation. solve_enum. Qed.
Next Obligation. solve_enum. Qed.

(** [_require_non_blank] *)
Definition require_non_blank (s : string) : result () :=
  raise_when blank s as InvalidInputError ;; Ok ().

(** ** [WorkItem] *)
Record WorkItem := {
  wi_id : string; wi_work_kind : WorkKind; wi_source_provider : string;
  wi_external_reference : string; wi_source_snapshot_reference : string;
  wi_title : string; wi_objective : string; wi_acceptance_criteria : list string;
  wi_constraints : list string; wi_risk_class : RiskClass;
  wi_repository_targets : list string; wi_dependencies : list string;
  wi_state : WorkItemState; wi_aggregate_version : Z }.

Definition work_item_post_init (w : WorkItem) : result WorkItem :=
  _ ← require_non_blank (wi_source_provider w);
  _ ← require_non_blank (wi_external_reference w);
  _ ← require_non_blank (wi_source_snapshot_reference w);
  _ ← require_non_blank (wi_title w);
  _ ← require_non_blank (wi_objective w);
  raise_when bool_decide (wi_acceptance_criteria w = []) as InvalidInputError ;;
  raise_when bool_decide (wi_repository_targets w = []) as InvalidInputError ;;
  raise_when bool_decide (wi_id w ∈ wi_dependencies w) as InvalidInputError ;;
  raise_when (wi_aggregate_version w <? 0)%Z as InvalidInputError ;;
  Ok w.

Definition wi_with_state (w : WorkItem) (s : WorkItemState) (v : Z) : WorkItem := {|
  wi_id := wi_id w; wi_work_kind := wi_work_kind w;
  wi_source_provider := wi_source_provider w;
  wi_external_reference := wi_external_reference w;
  wi_source_snapshot_reference := wi_source_snapshot_reference w; wi_title := wi_title w;
  wi_objective := wi_objective w; wi_acceptance_criteria := wi_acceptance_criteria w;
  wi_constraints := wi_constraints w; wi_risk_class := wi_risk_class w;
  wi_repository_targets := wi_repository_targets w; wi_dependencies := wi_dependencies w;
  wi_state := s; wi_aggregate_version := v |}.

Definition work_item_transition_to (w : WorkItem) (target : WorkItemState)
    : result WorkItem :=
  _ ← require WORK_ITEM_TRANSITIONS (wi_state w) target;
  work_item_post_init (wi_with_state w target (wi_aggregate_version w + 1)).

Definition json_strs (l : list string) : json := JList (map JStr l).

(** [bound_field_digest]: the fields rechecked for source supersession. *)
Definition bound_field_digest `{PyRuntime} (w : WorkItem) : result Digest :=
  digest_of_json (JObj [
    ("objective", JStr (wi_objective w));
    ("acceptance_criteria", json_strs (wi_acceptance_criteria w));
    ("constraints", json_strs (wi_constraints w));
    ("dependencies", json_strs (wi_dependencies w));
    ("repository_targets", json_strs (wi_repository_targets w))]).

(** ** [Run] *)
Record Run := {
  run_id : string; run_work_item_id : string; run_work_item_snapshot_digest : Digest;
  run_workflow_definition_id : string; run_workflow_definition_digest : Digest;
  run_repository : string; run_base_revision : string; run_policy_set_version : string;
  run_adapter_versions : list (string * string);
  run_adapter_fingerprints : list (string * Digest);
  run_capability_lock_digest : Digest; run_environment_manifest_digest : Digest;
  run_configuration_snapshot_digest : Digest;
  run_state : RunState; run_aggregate_version : Z }.

Definition run_post_init (r : Run) : result Run :=
  _ ← require_non_blank (run_repository r);
  _ ← require_non_blank (run_base_revision r);
  _ ← require_non_blank (run_policy_set_version r);
  raise_when (run_aggregate_version r <? 0)%Z as InvalidInputError ;;
  raise_when existsb (fun kv => blank kv.1 || blank kv.2) (run_adapter_versions r)
    as InvalidInputError ;;
  raise_when existsb (fun kv => blank kv.1) (run_adapter_fingerprints r)
    as InvalidInputError ;;
  Ok r.

Definition run_with_state (r : Run) (s : RunState) (v : Z) : Run := {|
  run_id := run_id r; run_work_item_id := run_work_item_id r;
  run_work_item_snapshot_digest := run_work_item_snapshot_digest r;
  run_workflow_definition_id := run_workflow_definition_id r;
  run_workflow_definition_digest := run_workflow_definition_digest r;
  run_repository := run_repository r; run_base_revision := run_base_revision r;
  run_policy_set_version := run_policy_set_version r;
  run_adapter_versions := run_adapter_versions r;
  run_adapter_fingerprints := run_adapter_fingerprints r;
  run_capability_lock_digest := run_capability_lock_digest r;
  run_environment_manifest_digest := run_environment_manifest_digest r;
  run_configuration_snapshot_digest := run_configuration_snapshot_digest r;
  run_state := s; run_aggregate_version := v |}.

Definition run_transition_to (r : Run) (target : RunState) : result Run :=
  _ ← require RUN_TRANSITIONS (run_state r) target;
  run_post_init (run_with_state r target (run_aggregate_version r + 1)).

(** ** [NodeAttempt] *)
Record NodeAttempt := {
  na_id : string; na_run_id : string; na_node_id : string; na_attempt_number : Z;
  na_actor : string; na_input_digest : Digest; na_state : NodeAttemptState;
  na_lease_owner : option string; na_lease_expires_at : option datetime;
  na_started_at : option datetime; na_completed_at : option datetime;
  na_emitted_event_range : option (Z * Z); na_output_artifact_ids : list string;
  na_evidence_result : option EvidenceResult; na_cost_amount : option spec_float;
  na_duration_seconds : option spec_float; na_failure_class : option FailureClass;
  na_reconciliation_result : option ReconciliationResult; na_schema_version : Z }.

(** [_require_aware] on an optional datetime *)
Definition require_aware_opt (d : option datetime) : result () :=
  raise_when negb (from_option tz_aware true d) as InvalidInputError ;; Ok ().
(** [x is not None and x < 0] on an optional float (false for NaN) *)
Definition negative_opt (f : option spec_float) : bool :=
  from_option (fun x => SFltb x (S754_zero false)) false f.

Definition node_attempt_post_init (a : NodeAttempt) : result NodeAttempt :=
  raise_when (na_attempt_number a <? 1)%Z as InvalidInputError ;;
  raise_when blank (na_actor a) as InvalidInputError ;;
  _ ← require_aware_opt (na_lease_expires_at a);
  _ ← require_aware_opt (na_started_at a);
  _ ← require_aware_opt (na_completed_at a);
  raise_when from_option (fun '(s, e) => (s <? 0) || (e <? s))%Z false
    (na_emitted_event_range a) as InvalidInputError ;;
  raise_when negative_opt (na_cost_amount a) as InvalidInputError ;;
  raise_when negative_opt (na_duration_seconds a) as InvalidInputError ;;
  raise_when (na_schema_version a <? 1)%Z as InvalidInputError ;;
  Ok a.

Definition na_with_state (a : NodeAttempt) (s : NodeAttemptState)
    (rec : option ReconciliationResult) : NodeAttempt := {|
  na_id := na_id a; na_run_id := na_run_id a; na_node_id := na_node_id a;
  na_attempt_number := na_attempt_number a; na_actor := na_actor a;
  na_input_digest := na_input_digest a; na_state := s;
  na_lease_owner := na_lease_owner a; na_lease_expires_at := na_lease_expires_at a;
  na_started_at := na_started_at a; na_completed_at := na_completed_at a;
  na_emitted_event_range := na_emitted_event_range a;
  na_output_artifact_ids := na_output_artifact_ids a;
  na_evidence_result := na_evidence_result a; na_cost_amount := na_cost_amount a;
  na_duration_seconds := na_duration_seconds a; na_failure_class := na_failure_class a;
  na_reconciliation_result := rec; na_schema_version := na_schema_version a |}.

Definition node_attempt_transition_to (a : NodeAttempt) (target : NodeAttemptState)
    : result NodeAttempt :=
  _ ← require NODE_ATTEMPT_TRANSITIONS (na_state a) target;
  node_attempt_post_init (na_with_state a target (na_reconciliation_result a)).

Definition resolve_reconciliation (a : NodeAttempt) (r : ReconciliationResult)
    : result NodeAttempt :=
  let target := RECONCILIATION_OUTCOME_STATE r in
  _ ← require NODE_ATTEMPT_TRANSITIONS (na_state a) target;
  node_attempt_post_init (na_with_state a target (Some r)).

(** ** [FactoryChange] *)
Record FactoryChange := {
  fc_id : string; fc_affected_asset : string; fc_baseline_version : string;
  fc_problem_statement : string; fc_hypothesis : string; fc_candidate_version : string;
  fc_state : FactoryChangeState; fc_evaluation_set_digest : option string;
  fc_comparison_result : option (list (string * json)); fc_approval_state : option string;
  fc_canary_cohort : list string; fc_promotion_result : option string;
  fc_aggregate_version : Z }.

Definition factory_change_post_init (c : FactoryChange) : result FactoryChange :=
  _ ← require_non_blank (fc_affected_asset c);
  _ ← require_non_blank (fc_baseline_version c);
  _ ← require_non_blank (fc_problem_statement c);
  _ ← require_non_blank (fc_hypothesis c);
  _ ← require_non_blank (fc_candidate_version c);
  raise_when String.eqb (fc_candidate_version c) (fc_baseline_version c)
    as InvalidInputError ;;
  raise_when (fc_aggregate_version c <? 0)%Z as InvalidInputError ;;
  Ok c.

Definition fc_with_state (c : FactoryChange) (s : FactoryChangeState) (v : Z)
    : FactoryChange := {|
  fc_id := fc_id c; fc_affected_asset := fc_affected_asset c;
  fc_baseline_version := fc_baseline_version c;
  fc_problem_statement := fc_problem_statement c; fc_hypothesis := fc_hypothesis c;
  fc_candidate_version := fc_candidate_version c; fc_state := s;
  fc_evaluation_set_digest := fc_evaluation_set_digest c;
  fc_comparison_result := fc_comparison_result c; fc_approval_state := fc_approval_state c;
  fc_canary_cohort := fc_canary_cohort c; fc_promotion_result := fc_promotion_result c;
  fc_aggregate_version := v |}.

Definition factory_change_transition_to (c : FactoryChange) (target : FactoryChangeState)
    : result FactoryChange :=
  _ ← require FACTORY_CHANGE_TRANSITIONS (fc_state c) target;
  factory_change_post_init (fc_with_state c target (fc_aggregate_version c + 1)).

(** ** [Incident] *)
Inductive IncidentSeverity := SEV_LOW | SEV_MEDIUM | SEV_HIGH | SEV_CRITICAL.
#[export] Instance IncidentSeverity_eq_dec : EqDecision IncidentSeverity.
Proof. solve_decision. Defined.

Definition severity_risk_class (s : IncidentSeverity) : RiskClass :=
  match s with
  | SEV_HIGH | SEV_CRITICAL => RISK_HIGH
  | SEV_MEDIUM => RISK_MEDIUM
  | SEV_LOW => RISK_LOW
  end.

Record ReleaseLineage := {
  rl_service : string; rl_affected_revision : string;
  rl_known_good_revision : option string }.
Definition release_lineage_post_init (l : ReleaseLineage) : result ReleaseLineage :=
  raise_when blank (rl_service l) as InvalidInputError ;;
  raise_when blank (rl_affected_revision l) as InvalidInputError ;;
  raise_when from_option blank false (rl_known_good_revision l) as InvalidInputError ;;
  raise_when bool_decide (rl_known_good_revision l = Some (rl_affected_revision l))
    as InvalidInputError ;;
  Ok l.

Record ContainmentAction := { ca_description : string; ca_rationale : string }.
Definition containment_action_post_init (a : ContainmentAction) : result ContainmentAction :=
  raise_when blank (ca_description a) as InvalidInputError ;;
  raise_when blank (ca_rationale a) as InvalidInputError ;;
  Ok a.

Inductive ReproductionOutcome := REPRO_REPRODUCED | REPRO_UNAVAILABLE | REPRO_ERRORED.
Record ReproductionRecord := { rr_outcome : ReproductionOutcome; rr_detail : string }.
Definition reproduction_record_post_init (r : ReproductionRecord)
    : result ReproductionRecord :=
  raise_when blank (rr_detail r) as InvalidInputError ;; Ok r.

Record Incident := {
  inc_id : string; inc_work_item_id : string; inc_severity : IncidentSeverity;
  inc_state : IncidentState; inc_summary : string;
  inc_release_lineage : option ReleaseLineage; inc_containment : option ContainmentAction;
  inc_reproduction : option ReproductionRecord; inc_aggregate_version : Z }.

Definition incident_post_init (i : Incident) : result Incident :=
  raise_when blank (inc_summary i) as InvalidInputError ;;
  raise_when (inc_aggregate_version i <? 0)%Z as InvalidInputError ;;
  Ok i.

(** [replace(self, ..., aggregate_version=self.aggregate_version + 1)] on the
    fields the operations below change. *)
Definition inc_replace (i : Incident) (sev : IncidentSeverity) (s : IncidentState)
    (l : option ReleaseLineage) (c : option ContainmentAction)
    (r : option ReproductionRecord) : result Incident :=
  incident_post_init {|
    inc_id := inc_id i; inc_work_item_id := inc_work_item_id i; inc_severity := sev;
    inc_state := s; inc_summary := inc_summary i; inc_release_lineage := l;
    inc_containment := c; inc_reproduction := r;
    inc_aggregate_version := inc_aggregate_version i + 1 |}.

Definition incident_risk_class (i : Incident) : RiskClass :=
  severity_risk_class (inc_severity i).

Definition bind_release_lineage (i : Incident) (l : ReleaseLineage) : result Incident :=
  raise_when negb (bool_decide (inc_state i = INC_CLASSIFIED)) as InvalidInputError ;;
  inc_replace i (inc_severity i) (inc_state i) (Some l) (inc_containment i)
    (inc_reproduction i).

Definition apply_containment (i : Incident) (a : ContainmentAction) : result Incident :=
  raise_when negb (bool_decide (inc_state i = INC_CLASSIFIED)) as InvalidInputError ;;
  inc_replace i (inc_severity i) INC_CONTAINING (inc_release_lineage i) (Some a)
    (inc_reproduction i).

Definition reproduction_target (o : ReproductionOutcome) : IncidentState :=
  match o with
  | REPRO_REPRODUCED => INC_REMEDIATING
  | REPRO_UNAVAILABLE => INC_BLOCKED
  | REPRO_ERRORED => INC_FAILED
  end.
Definition record_reproduction (i : Incident) (r : ReproductionRecord) : result Incident :=
  raise_when negb (bool_decide (inc_state i = INC_REPRODUCING)) as InvalidInputError ;;
  let target := reproduction_target (rr_outcome r) in
  _ ← require INCIDENT_TRANSITIONS (inc_state i) target;
  inc_replace i (inc_severity i) target (inc_release_lineage i) (inc_containment i) (Some r).

Definition reclassify (i : Incident) (severity : IncidentSeverity) : result Incident :=
  raise_when negb (bool_decide (inc_state i ∈ [INC_INTAKE; INC_CLASSIFIED]))
    as InvalidInputError ;;
  inc_replace i severity (inc_state i) (inc_release_lineage i) (inc_containment i)
    (inc_reproduction i).

Definition incident_transition (i : Incident) (target : IncidentState) : result Incident :=
  _ ← require INCIDENT_TRANSITIONS (inc_state i) target;
  inc_replace i (inc_severity i) target (inc_release_lineage i) (inc_containment i)
    (inc_reproduction i).

(** One call of any [Incident] operation. *)
Inductive incident_op :=
| OpBindLineage (l : ReleaseLineage)
| OpContain (a : ContainmentAction)
| OpReproduce (r : ReproductionRecord)
| OpReclassify (s : IncidentSeverity)
| OpTransition (t : IncidentState).
Definition incident_apply (i : Incident) (o : incident_op) : result Incident :=
  match o with
  | OpBindLineage l => bind_release_lineage i l
  | OpContain a => apply_containment i a
  | OpReproduce r => record_reproduction i r
  | OpReclassify s => reclassify i s
  | OpTransition t => incident_transition i t
  end.

(** ** [ObservationRequest] *)
Inductive ObservationState := OBS_PENDING | OBS_CAPTURED | OBS_INDETERMINATE.
#[export] Instance ObservationState_eq_dec : EqDecision ObservationState.
Proof. solve_decision. Defined.

(** [OutcomeKind] ([domain/outcome.py]) *)
Inductive OutcomeKind :=
| OUT_PR_ACCEPTED | OUT_PR_REJECTED | OUT_PR_ABANDONED | OUT_MERGE_RESULT
| OUT_CI_STABILITY | OUT_RELEASE_RESULT | OUT_DEPLOYMENT_RESULT | OUT_ROLLBACK
| OUT_REOPENED_ISSUE | OUT_ESCAPED_DEFECT | OUT_USER_RATED_QUALITY.

Record ObservationRequest := {
  obs_id : string; obs_work_item_id : string; obs_run_id : string; obs_kind : OutcomeKind;
  obs_opened_at : datetime; obs_window : timedelta;
  obs_state : ObservationState; obs_resolved_at : option datetime;
  obs_outcome_id : option string; obs_detail : list (string * json);
  obs_schema_version : Z }.

Definition observation_post_init (o : ObservationRequest) : result ObservationRequest :=
  raise_when negb (tz_aware (obs_opened_at o)) as InvalidInputError ;;
  raise_when (obs_window o <=? 0)%Z as InvalidInputError ;;
  _ ← match obs_state o with
      | OBS_PENDING =>
          raise_when bool_decide (is_Some (obs_resolved_at o)) as InvalidInputError ;;
          raise_when bool_decide (is_Some (obs_outcome_id o)) as InvalidInputError ;;
          Ok ()
      | _ =>
          match obs_resolved_at o with
          | None => Err InvalidInputError
          | Some d =>
              raise_when negb (tz_aware d) as InvalidInputError ;;
              early ← dt_lt d (obs_opened_at o);
              raise_when early as InvalidInputError ;;
              Ok ()
          end
      end;
  raise_when bool_decide (obs_state o = OBS_CAPTURED /\ obs_outcome_id o = None)
    as InvalidInputError ;;
  raise_when bool_decide (obs_state o = OBS_INDETERMINATE /\ is_Some (obs_outcome_id o))
    as InvalidInputError ;;
  raise_when (obs_schema_version o <? 1)%Z as InvalidInputError ;;
  Ok o.

Definition obs_due_at (o : ObservationRequest) : datetime :=
  dt_add (obs_opened_at o) (obs_window o).

(** [is_overdue]: the clock comparison runs only for a pending observation. *)
Definition is_overdue (o : ObservationRequest) (reference_time : datetime) : result bool :=
  if bool_decide (obs_state o = OBS_PENDING)
  then early ← dt_lt reference_time (obs_due_at o); Ok (negb early)
  else Ok false.

Definition obs_resolve (o : ObservationRequest) (s : ObservationState) (at_ : datetime)
    (outcome : option string) : result ObservationRequest :=
  observation_post_init {|
    obs_id := obs_id o; obs_work_item_id := obs_work_item_id o; obs_run_id := obs_run_id o;
    obs_kind := obs_kind o; obs_opened_at := obs_opened_at o; obs_window := obs_window o;
    obs_state := s; obs_resolved_at := Some at_; obs_outcome_id := outcome;
    obs_detail := obs_detail o; obs_schema_version := obs_schema_version o |}.

Definition resolve_captured (o : ObservationRequest) (outcome_id : string)
    (resolved_at : datetime) : result ObservationRequest :=
  raise_when negb (bool_decide (obs_state o = OBS_PENDING)) as InvalidInputError ;;
  obs_resolve o OBS_CAPTURED resolved_at (Some outcome_id).

Definition resolve_indeterminate (o : ObservationRequest) (resolved_at : datetime)
    : result ObservationRequest :=
  raise_when negb (bool_decide (obs_state o = OBS_PENDING)) as InvalidInputError ;;
  early ← dt_lt resolved_at (obs_due_at o);
  raise_when early as InvalidInputError ;;
  obs_resolve o OBS_INDETERMINATE resolved_at (obs_outcome_id o).
