(* ===== verification/LifecycleProofs.v ===== *)
(** * Lifecycle theorems

    What the transition tables guarantee about whole histories of guarded
    operations: no dead ends, absorbing terminal states, the gates in front of
    the success states, and the authority an incident freezes. *)
From S2P Require Import Prelude PyText Json Identity StateMachine Lifecycles Aggregates.

(** ** Histories of a guarded operation *)
Section History.
Context {A St Op : Type} `{EqDecision St} (t : TransitionTable St).
Context (get_state : A -> St) (step : A -> Op -> result A) (visit : A -> Op -> St).
Hypothesis step_visit : forall a o a', step a o = Ok a' -> get_state a' = visit a o.
Hypothesis step_legal : forall a o a', step a o = Ok a' ->
  tstep t (get_state a) (get_state a') \/ get_state a' = get_state a.

(** The states seen after each operation of a history. *)
Fixpoint visited (a : A) (os : list Op) : list St :=
  match os with
  | [] => []
  | o :: os => visit a o ::
      match step a o with Ok a' => visited a' os | Err _ => [] end
  end.

Lemma history_trace os a a' :
  foldM_result step os a = Ok a' ->
  exists l, trace t (get_state a) l (get_state a') /\ l ⊆ visited a os.
Proof.
  revert a; induction os as [|o os IH]; intros a; cbn.
  - intros [= <-]. exists []. split; [constructor|set_solver].
  - rewrite bind_Ok. intros (b & Hb & (l & Hl & Hsub)%IH). rewrite Hb.
    destruct (step_legal _ _ _ Hb) as [Hs|Hs].
    + exists (get_state b :: l). split; [by econstructor|].
      rewrite <- (step_visit _ _ _ Hb). set_solver.
    + exists l. rewrite <- Hs. split; [done|set_solver].
Qed.

Lemma history_must_visit os a a' via :
  foldM_result step os a = Ok a' -> is_terminal t (get_state a') = true ->
  bool_decide (get_state a' ∈ reachable_terminals (cut via t) (get_state a)) = false ->
  via ∈ visited a os.
Proof.
  intros (l & Hl & Hsub)%history_trace Ht Hn%bool_decide_eq_false.
  apply Hsub. by eapply must_visit.
Qed.

Lemma history_terminal os a a' :
  foldM_result step os a = Ok a' -> is_terminal t (get_state a) = true ->
  get_state a' = get_state a.
Proof.
  intros (l & Hl & _)%history_trace Ht. by destruct (trace_terminal _ _ _ _ Ht Hl).
Qed.
End History.

(** ** Every operation is a legal step of its table *)
Lemma run_transition_to_Ok r s r' :
  run_transition_to r s = Ok r' ->
  tstep RUN_TRANSITIONS (run_state r) s /\
  r' = run_with_state r s (run_aggregate_version r + 1).
Proof.
  unfold run_transition_to. rewrite bind_Ok. intros (u & Hu%require_Ok & H).
  split; [done|]. unfold run_post_init, require_non_blank in H. by inv_ok.
Qed.
Lemma work_item_transition_to_Ok w s w' :
  work_item_transition_to w s = Ok w' ->
  tstep WORK_ITEM_TRANSITIONS (wi_state w) s /\
  w' = wi_with_state w s (wi_aggregate_version w + 1).
Proof.
  unfold work_item_transition_to. rewrite bind_Ok. intros (u & Hu%require_Ok & H).
  split; [done|]. unfold work_item_post_init, require_non_blank in H. by inv_ok.
Qed.
Lemma node_attempt_post_init_Ok a a' : node_attempt_post_init a = Ok a' -> a' = a.
Proof.
  unfold node_attempt_post_init, require_aware_opt. intros H. by inv_ok.
Qed.
Lemma factory_change_transition_to_Ok c s c' :
  factory_change_transition_to c s = Ok c' ->
  tstep FACTORY_CHANGE_TRANSITIONS (fc_state c) s /\
  c' = fc_with_state c s (fc_aggregate_version c + 1).
Proof.
  unfold factory_change_transition_to. rewrite bind_Ok. intros (u & Hu%require_Ok & H).
  split; [done|]. unfold factory_change_post_init, require_non_blank in H. by inv_ok.
Qed.

(** ** Exact histories: every call changes the state it names *)
Section ExactHistory.
Context {A St Op : Type} `{EqDecision St} (t : TransitionTable St).
Context (get_state : A -> St) (step : A -> Op -> result A) (dest : Op -> St).
Hypothesis step_exact : forall a o a', step a o = Ok a' ->
  tstep t (get_state a) (dest o) /\ get_state a' = dest o.

Lemma exact_history_trace os a a' :
  foldM_result step os a = Ok a' -> trace t (get_state a) (map dest os) (get_state a').
Proof.
  revert a; induction os as [|o os IH]; intros a; cbn.
  - intros [= <-]. constructor.
  - rewrite bind_Ok. intros (b & [Hs Hd]%step_exact & Ht%IH).
    econstructor; [done|]. by rewrite <- Hd.
Qed.
End ExactHistory.

Lemma trace_snoc_inv {St} `{EqDecision St} (t : TransitionTable St) s l x s' :
  trace t s (l ++ [x]) s' -> s' = x /\ exists m, trace t s l m /\ tstep t m x.
Proof.
  revert s; induction l as [|y l IH]; intros s; cbn.
  - inversion 1 as [|? ? ? ? Hs Ht]; subst. inversion Ht; subst.
    split; [done|]. exists s; split; [constructor|done].
  - inversion 1 as [|? ? ? ? Hs Ht]; subst.
    apply IH in Ht as (-> & m & Hm & Hx). split; [done|].
    exists m. split; [by econstructor|done].
Qed.
Lemma trace_last {St} `{EqDecision St} (t : TransitionTable St) s l s' :
  trace t s l s' -> (l = [] /\ s' = s) \/ exists l', l = l' ++ [s'].
Proof.
  destruct l as [|x l _] using rev_ind; [inversion 1; by left|].
  intros [-> _]%trace_snoc_inv. right. by eexists.
Qed.

Lemma run_history ts r r' :
  foldM_result run_transition_to ts r = Ok r' ->
  trace RUN_TRANSITIONS (run_state r) ts (run_state r') /\
  run_aggregate_version r' = (run_aggregate_version r + Z.of_nat (length ts))%Z.
Proof.
  intros H. split.
  - rewrite <- (list_fmap_id ts) at 1.
    eapply (exact_history_trace RUN_TRANSITIONS run_state run_transition_to id); [|done].
    intros a o a' [Hs ->]%run_transition_to_Ok. done.
  - revert r H. induction ts as [|s ts IH]; intros r; cbn.
    + intros [= <-]. lia.
    + rewrite bind_Ok. intros (b & [_ ->]%run_transition_to_Ok & ->%IH). cbn. lia.
Qed.

(** a run created fresh reaches [succeeded] only as the direct continuation
    of [evidence_verification], and its aggregate version then counts exactly
    the transitions made. *)
Theorem run_succeeds_only_from_evidence (r r' : Run) (ts : list RunState)
    (Hnew : run_state r = RUN_CREATED)
    (Hrun : foldM_result run_transition_to ts r = Ok r')
    (Hok : run_state r' = RUN_SUCCEEDED) :
  (exists ts0, ts = ts0 ++ [RUN_EVIDENCE_VERIFICATION; RUN_SUCCEEDED]) /\
  run_aggregate_version r' = (run_aggregate_version r + Z.of_nat (length ts))%Z.
Proof.
  destruct (run_history _ _ _ Hrun) as [Ht Hv]. split; [|done].
  rewrite Hnew, Hok in Ht.
  destruct (trace_last _ _ _ _ Ht) as [[_ ?]|[l ->]]; [done|].
  apply trace_snoc_inv in Ht as (_ & m & Hm & Hs).
  assert (m = RUN_EVIDENCE_VERIFICATION) as -> by (destruct m; done).
  destruct (trace_last _ _ _ _ Hm) as [[_ ?]|[l' ->]]; [done|].
  exists l'. by rewrite <- (assoc_L (++)).
Qed.

Definition sample_digest : Digest := {|
  algorithm := "sha256";
  hex_value := "0000000000000000000000000000000000000000000000000000000000000000" |}.
Definition sample_run : Run := {|
  run_id := "run-1"; run_work_item_id := "wi-1";
  run_work_item_snapshot_digest := sample_digest; run_workflow_definition_id := "wf";
  run_workflow_definition_digest := sample_digest; run_repository := "owner/repo";
  run_base_revision := "abc"; run_policy_set_version := "1";
  run_adapter_versions := [("git", "1")]; run_adapter_fingerprints := [];
  run_capability_lock_digest := sample_digest;
  run_environment_manifest_digest := sample_digest;
  run_configuration_snapshot_digest := sample_digest;
  run_state := RUN_CREATED; run_aggregate_version := 0 |}.
Definition sample_run_path : list RunState :=
  [RUN_PREFLIGHT; RUN_QUEUED; RUN_RUNNING; RUN_EVIDENCE_VERIFICATION; RUN_SUCCEEDED].

Lemma run_succeeds_only_from_evidence_witness :
  exists r', foldM_result run_transition_to sample_run_path sample_run = Ok r' /\
    run_aggregate_version r' = 5%Z.
Proof.
  eexists. split; [reflexivity|].
  eapply (run_succeeds_only_from_evidence sample_run _ sample_run_path);
    [reflexivity|reflexivity|reflexivity].
Defined.

(** ** Node attempts: the evidence gate and reconciliation *)
Inductive attempt_op :=
| AttTransition (s : NodeAttemptState)
| AttResolve (r : ReconciliationResult).
Definition attempt_apply (a : NodeAttempt) (o : attempt_op) : result NodeAttempt :=
  match o with
  | AttTransition s => node_attempt_transition_to a s
  | AttResolve r => resolve_reconciliation a r
  end.
Definition attempt_dest (o : attempt_op) : NodeAttemptState :=
  match o with AttTransition s => s | AttResolve r => RECONCILIATION_OUTCOME_STATE r end.

Lemma attempt_apply_Ok a o a' :
  attempt_apply a o = Ok a' ->
  tstep NODE_ATTEMPT_TRANSITIONS (na_state a) (attempt_dest o) /\
  na_state a' = attempt_dest o.
Proof.
  destruct o as [s|r]; cbn; unfold node_attempt_transition_to, resolve_reconciliation;
    rewrite bind_Ok; intros (u & Hu%require_Ok & ->%node_attempt_post_init_Ok); done.
Qed.

(** Undoes the last step of a trace: the predecessor is one of the states whose
    targets hold the last one. *)
Ltac trace_back H :=
  let l := fresh "l" in let Hm := fresh "Hm" in let Hs := fresh "Hs" in
  let m := fresh "m" in
  destruct (trace_last _ _ _ _ H) as [[? ?]|[l ?]]; [simplify_eq|];
  simplify_eq; apply trace_snoc_inv in H as (_ & m & Hm & Hs);
  destruct m; try discriminate Hs; clear Hs.

Lemma passed_trace l :
  trace NODE_ATTEMPT_TRANSITIONS NA_PENDING l NA_PASSED ->
  l = [NA_LEASED; NA_RUNNING; NA_OUTPUT_PENDING; NA_EVIDENCE_PENDING; NA_PASSED] \/
  l = [NA_LEASED; NA_RUNNING; NA_RECONCILING; NA_OUTPUT_PENDING; NA_EVIDENCE_PENDING;
       NA_PASSED].
Proof.
  intros H. trace_back H. trace_back Hm. trace_back Hm0.
  - trace_back Hm. trace_back Hm0.
    destruct (trace_last _ _ _ _ Hm) as [[-> _]|[l' ->]]; [by left|].
    apply trace_snoc_inv in Hm as (_ & m & _ & Hs). by destruct m.
  - trace_back Hm. trace_back Hm0. trace_back Hm.
    destruct (trace_last _ _ _ _ Hm0) as [[-> _]|[l' ->]]; [by right|].
    apply trace_snoc_inv in Hm0 as (_ & m & _ & Hs). by destruct m.
Qed.

(** a pending attempt reaches [passed] along exactly two histories, both
    through [output_pending] and [evidence_pending]; a reconciliation result on
    the way was [found_matching], so absence, conflict and indeterminacy never
    count as success. *)
Theorem attempt_passes_only_through_evidence (a a' : NodeAttempt) (os : list attempt_op)
    (Hnew : na_state a = NA_PENDING)
    (Hrun : foldM_result attempt_apply os a = Ok a')
    (Hok : na_state a' = NA_PASSED) :
  (map attempt_dest os =
     [NA_LEASED; NA_RUNNING; NA_OUTPUT_PENDING; NA_EVIDENCE_PENDING; NA_PASSED] \/
   map attempt_dest os =
     [NA_LEASED; NA_RUNNING; NA_RECONCILING; NA_OUTPUT_PENDING; NA_EVIDENCE_PENDING;
      NA_PASSED]) /\
  (forall r, AttResolve r ∈ os -> r = REC_FOUND_MATCHING).
Proof.
  pose proof (exact_history_trace _ _ _ _ attempt_apply_Ok _ _ _ Hrun) as Ht.
  rewrite Hnew, Hok in Ht. apply passed_trace in Ht as Hp. split; [done|].
  intros r Hr. assert (NA_FAILED ∉ map attempt_dest os) as Hf.
  { destruct Hp as [-> | ->]; set_solver. }
  destruct r; [|done|..]; exfalso; apply Hf; by eapply (list_elem_of_fmap_2' attempt_dest).
Qed.

Definition sample_attempt : NodeAttempt := {|
  na_id := "att-1"; na_run_id := "run-1"; na_node_id := "build"; na_attempt_number := 1;
  na_actor := "worker"; na_input_digest := sample_digest; na_state := NA_PENDING;
  na_lease_owner := None; na_lease_expires_at := None; na_started_at := None;
  na_completed_at := None; na_emitted_event_range := None; na_output_artifact_ids := [];
  na_evidence_result := None; na_cost_amount := None; na_duration_seconds := None;
  na_failure_class := None; na_reconciliation_result := None; na_schema_version := 1 |}.

Lemma attempt_passes_only_through_evidence_witness :
  exists a', foldM_result attempt_apply
    [AttTransition NA_LEASED; AttTransition NA_RUNNING; AttTransition NA_RECONCILING;
     AttResolve REC_FOUND_MATCHING; AttTransition NA_EVIDENCE_PENDING;
     AttTransition NA_PASSED] sample_attempt = Ok a' /\
    na_reconciliation_result a' = Some REC_FOUND_MATCHING /\
    (forall r, AttResolve r ∈ [AttResolve REC_FOUND_MATCHING] -> r = REC_FOUND_MATCHING).
Proof.
  eexists. split; [reflexivity|]. split; [reflexivity|]. intros r Hr.
  eapply (attempt_passes_only_through_evidence sample_attempt _
    [AttTransition NA_LEASED; AttTransition NA_RUNNING; AttTransition NA_RECONCILING;
     AttResolve REC_FOUND_MATCHING; AttTransition NA_EVIDENCE_PENDING;
     AttTransition NA_PASSED]); [reflexivity|reflexivity|reflexivity|].
  apply list_elem_of_singleton in Hr as ->. do 3 right. left.
Defined.

Lemma node_attempt_post_init_with_state a s r :
  node_attempt_post_init a = Ok a ->
  node_attempt_post_init (na_with_state a s r) = Ok (na_with_state a s r).
Proof.
  intros Hwf.
  enough (node_attempt_post_init (na_with_state a s r)
          = (fun _ => na_with_state a s r) <$> node_attempt_post_init a) as ->
    by (by rewrite Hwf).
  destruct a. clear Hwf. unfold node_attempt_post_init, require_aware_opt. cbn -[raise_if].
  repeat match goal with
  | |- context [raise_if ?b _] => destruct (raise_if b InvalidInputError); cbn -[raise_if]; [|done]
  end. done.
Qed.

(** Which states accept which reconciliation result. *)
Definition accepts_reconciliation (s : NodeAttemptState) (r : ReconciliationResult) : bool :=
  match r with
  | REC_FOUND_MATCHING => bool_decide (s ∈ [NA_RUNNING; NA_RECONCILING])
  | _ => bool_decide (s ∈ [NA_RUNNING; NA_RECONCILING; NA_OUTPUT_PENDING;
                           NA_EVIDENCE_PENDING])
  end.

(** [resolve_reconciliation] on a well-formed attempt succeeds exactly in the
    states whose table row holds the fixed outcome state, records the result and
    changes nothing else; otherwise it raises [InvalidInputError].  The method
    does not itself check that the attempt is [reconciling]. *)
Theorem resolve_reconciliation_spec (a : NodeAttempt) (r : ReconciliationResult)
    (Hwf : node_attempt_post_init a = Ok a) :
  resolve_reconciliation a r =
    if accepts_reconciliation (na_state a) r
    then Ok (na_with_state a (RECONCILIATION_OUTCOME_STATE r) (Some r))
    else Err InvalidInputError.
Proof.
  pose proof (node_attempt_post_init_with_state a (RECONCILIATION_OUTCOME_STATE r) (Some r)
    Hwf) as Hpi.
  unfold resolve_reconciliation.
  destruct (na_state a), r; cbn [accepts_reconciliation] in *; try exact Hpi; reflexivity.
Qed.

Lemma resolve_reconciliation_spec_witness :
  resolve_reconciliation (na_with_state sample_attempt NA_RUNNING None) REC_INDETERMINATE
  = Ok (na_with_state sample_attempt NA_FAILED (Some REC_INDETERMINATE)).
Proof.
  exact (resolve_reconciliation_spec (na_with_state sample_attempt NA_RUNNING None)
    REC_INDETERMINATE eq_refl).
Defined.

(** ** Incidents *)
Definition incident_visit (i : Incident) (o : incident_op) : IncidentState :=
  match o with
  | OpBindLineage _ | OpReclassify _ => inc_state i
  | OpContain _ => INC_CONTAINING
  | OpReproduce r => reproduction_target (rr_outcome r)
  | OpTransition t => t
  end.

Lemma inc_replace_Ok i sev s l c r i' :
  inc_replace i sev s l c r = Ok i' ->
  inc_state i' = s /\ inc_severity i' = sev /\ inc_release_lineage i' = l /\
  inc_containment i' = c /\ inc_aggregate_version i' = (inc_aggregate_version i + 1)%Z.
Proof.
  unfold inc_replace, incident_post_init. rewrite !raise_if_Ok.
  by intros (_ & _ & [= <-]).
Qed.

(** What a successful call did: its state change is a legal step or none, and the
    classification fields change only in [intake] and [classified]. *)
Lemma incident_apply_Ok i o i' :
  incident_apply i o = Ok i' ->
  inc_state i' = incident_visit i o /\
  (tstep INCIDENT_TRANSITIONS (inc_state i) (inc_state i') \/ inc_state i' = inc_state i) /\
  inc_aggregate_version i' = (inc_aggregate_version i + 1)%Z /\
  (inc_state i ∉ [INC_INTAKE; INC_CLASSIFIED] ->
     inc_severity i' = inc_severity i /\ inc_release_lineage i' = inc_release_lineage i /\
     inc_containment i' = inc_containment i).
Proof.
  destruct o; cbn; unfold bind_release_lineage, apply_containment, record_reproduction,
    reclassify, incident_transition; rewrite ?raise_if_Ok, ?bind_Ok.
  - intros [Hs (-> & -> & -> & -> & ->)%inc_replace_Ok].
    apply negb_false_iff, bool_decide_eq_true in Hs. rewrite Hs. set_solver.
  - intros [Hs (-> & -> & -> & -> & ->)%inc_replace_Ok].
    apply negb_false_iff, bool_decide_eq_true in Hs. rewrite Hs.
    split_and!; [done|by left|done|set_solver].
  - intros [Hs (u & Hu%require_Ok & (-> & -> & -> & -> & ->)%inc_replace_Ok)].
    split_and!; [done|by left|done|done].
  - intros [Hs (-> & -> & -> & -> & ->)%inc_replace_Ok].
    apply negb_false_iff, bool_decide_eq_true in Hs.
    split_and!; [done|by right|done|done].
  - intros (u & Hu%require_Ok & (-> & -> & -> & -> & ->)%inc_replace_Ok).
    split_and!; [done|by left|done|done].
Qed.

(** An incident opened in [intake] that any history of operations brings to
    [resolved] was classified, reproduced, remediated, deployed and observed on
    the way. *)
Theorem incident_resolved_visits (i i' : Incident) (os : list incident_op)
    (Hnew : inc_state i = INC_INTAKE)
    (Hrun : foldM_result incident_apply os i = Ok i')
    (Hok : inc_state i' = INC_RESOLVED) :
  Forall (fun s => s ∈ visited incident_apply incident_visit i os)
    [INC_CLASSIFIED; INC_REPRODUCING; INC_REMEDIATING; INC_DEPLOYING; INC_OBSERVING].
Proof.
  assert (Hv : forall via,
    bool_decide (INC_RESOLVED ∈ reachable_terminals (cut via INCIDENT_TRANSITIONS) INC_INTAKE)
      = false -> via ∈ visited incident_apply incident_visit i os).
  { intros via Hc.
    eapply (history_must_visit INCIDENT_TRANSITIONS inc_state);
      [by intros ??? (? & _)%incident_apply_Ok
      |by intros ??? (_ & ? & _)%incident_apply_Ok|done|by rewrite Hok|].
    by rewrite Hok, Hnew. }
  repeat (constructor; [by apply Hv|]). constructor.
Qed.

Definition sample_incident : Incident := {|
  inc_id := "inc-1"; inc_work_item_id := "wi-1"; inc_severity := SEV_LOW;
  inc_state := INC_INTAKE; inc_summary := "checkout is failing";
  inc_release_lineage := None; inc_containment := None; inc_reproduction := None;
  inc_aggregate_version := 0 |}.
Definition sample_incident_ops : list incident_op :=
  [OpReclassify SEV_HIGH; OpTransition INC_CLASSIFIED;
   OpTransition INC_REPRODUCING;
   OpReproduce {| rr_outcome := REPRO_REPRODUCED; rr_detail := "seen on staging" |};
   OpTransition INC_DEPLOYING; OpTransition INC_OBSERVING; OpTransition INC_RESOLVED].
Lemma incident_resolved_visits_witness :
  INC_DEPLOYING ∈ visited incident_apply incident_visit sample_incident sample_incident_ops.
Proof.
  pose proof (incident_resolved_visits sample_incident
    {| inc_id := "inc-1"; inc_work_item_id := "wi-1"; inc_severity := SEV_HIGH;
       inc_state := INC_RESOLVED; inc_summary := "checkout is failing";
       inc_release_lineage := None; inc_containment := None;
       inc_reproduction := Some {| rr_outcome := REPRO_REPRODUCED;
                                   rr_detail := "seen on staging" |};
       inc_aggregate_version := 7 |} sample_incident_ops eq_refl eq_refl eq_refl) as H.
  rewrite Forall_forall in H. apply H. do 3 right. left.
Defined.

(** Once an incident has left [intake] and [classified], no history of
    operations changes its severity, its release lineage or its containment
    action, or returns it to those states; every call still counts one version. *)
Theorem incident_authority_frozen (os : list incident_op) (i i' : Incident)
    (Hleft : inc_state i ∉ [INC_INTAKE; INC_CLASSIFIED])
    (Hrun : foldM_result incident_apply os i = Ok i') :
  inc_severity i' = inc_severity i /\ inc_release_lineage i' = inc_release_lineage i /\
  inc_containment i' = inc_containment i /\
  inc_state i' ∉ [INC_INTAKE; INC_CLASSIFIED] /\
  inc_aggregate_version i' = (inc_aggregate_version i + Z.of_nat (length os))%Z.
Proof.
  revert i Hleft Hrun. induction os as [|o os IH]; intros i Hleft; cbn.
  - intros [= <-]. split_and!; [done..|]. lia.
  - rewrite bind_Ok. intros (j & (_ & Hs & Hv & Hf)%incident_apply_Ok & Hrun).
    destruct (Hf Hleft) as (Hf1 & Hf2 & Hf3).
    assert (inc_state j ∉ [INC_INTAKE; INC_CLASSIFIED]) as Hj.
    { destruct Hs as [Hs| ->]; [|done].
      destruct (inc_state i), (inc_state j); try discriminate Hs; set_solver. }
    destruct (IH j Hj Hrun) as (-> & -> & -> & ? & ->).
    split_and!; [done..|]. rewrite Hv. lia.
Qed.

Lemma incident_authority_frozen_witness :
  exists i', foldM_result incident_apply
    [OpTransition INC_MITIGATED]
    {| inc_id := "inc-1"; inc_work_item_id := "wi-1"; inc_severity := SEV_HIGH;
       inc_state := INC_CONTAINING; inc_summary := "s"; inc_release_lineage := None;
       inc_containment := None; inc_reproduction := None; inc_aggregate_version := 3 |}
    = Ok i' /\ inc_severity i' = SEV_HIGH.
Proof.
  eexists. split; [reflexivity|].
  eapply (incident_authority_frozen [OpTransition INC_MITIGATED]
    {| inc_id := "inc-1"; inc_work_item_id := "wi-1"; inc_severity := SEV_HIGH;
       inc_state := INC_CONTAINING; inc_summary := "s"; inc_release_lineage := None;
       inc_containment := None; inc_reproduction := None; inc_aggregate_version := 3 |});
    [set_solver|reflexivity].
Defined.

(** ** Observations *)
Definition obs_resolved_with (o : ObservationRequest) (s : ObservationState) (at_ : datetime)
    (outcome : option string) : ObservationRequest := {|
  obs_id := obs_id o; obs_work_item_id := obs_work_item_id o; obs_run_id := obs_run_id o;
  obs_kind := obs_kind o; obs_opened_at := obs_opened_at o; obs_window := obs_window o;
  obs_state := s; obs_resolved_at := Some at_; obs_outcome_id := outcome;
  obs_detail := obs_detail o; obs_schema_version := obs_schema_version o |}.

(** A well-formed pending observation is overdue exactly from
    [opened_at + window] on, resolves as indeterminate exactly at an aware
    instant when it is overdue, resolves as captured at any aware instant from its
    opening on, and once resolved refuses every further resolution. *)
Theorem observation_resolution (o : ObservationRequest) (t : Z) (outcome : string)
    (Hwf : observation_post_init o = Ok o) (Hpend : obs_state o = OBS_PENDING) :
  let due := (micros (obs_opened_at o) + obs_window o)%Z in
  is_overdue o (Aware t) = Ok (due <=? t)%Z /\
  resolve_indeterminate o (Aware t) =
    (if (due <=? t)%Z then Ok (obs_resolved_with o OBS_INDETERMINATE (Aware t) None)
     else Err InvalidInputError) /\
  resolve_captured o outcome (Aware t) =
    (if (micros (obs_opened_at o) <=? t)%Z
     then Ok (obs_resolved_with o OBS_CAPTURED (Aware t) (Some outcome))
     else Err InvalidInputError) /\
  (forall s d oc d' oc', s <> OBS_PENDING ->
     resolve_indeterminate (obs_resolved_with o s d oc) d' = Err InvalidInputError /\
     resolve_captured (obs_resolved_with o s d oc) oc' d' = Err InvalidInputError /\
     is_overdue (obs_resolved_with o s d oc) d' = Ok false).
Proof.
  unfold observation_post_init in Hwf. rewrite Hpend in Hwf.
  rewrite !raise_if_Ok in Hwf. destruct Hwf as (Ha & Hw & Hwf).
  rewrite bind_Ok in Hwf. destruct Hwf as (u & Hu & Hwf).
  rewrite !raise_if_Ok in Hu. rewrite !raise_if_Ok in Hwf. destruct Hu as (_ & Hoc & _), Hwf as (_ & _ & Hsv & _).
  apply bool_decide_eq_false, eq_None_not_Some in Hoc.
  destruct o as [id wi run kind [opened|opened] window st res oc detail sv]; cbn in *; [|done].
  subst st oc. split_and!.
  - unfold is_overdue, dt_lt; cbn. f_equal. lia.
  - unfold resolve_indeterminate, dt_lt; cbn.
    destruct (Z.ltb_spec t (opened + window)).
    + by rewrite (proj2 (Z.leb_gt (opened + window) t)) by lia.
    + rewrite (proj2 (Z.leb_le (opened + window) t)) by lia.
      rewrite Hw, (proj2 (Z.ltb_ge t opened)) by lia. cbn. by rewrite Hsv.
  - unfold resolve_captured, obs_resolve, observation_post_init, dt_lt; cbn. rewrite Hw; cbn.
    destruct (Z.ltb_spec t opened).
    + by rewrite (proj2 (Z.leb_gt opened t)) by lia.
    + rewrite (proj2 (Z.leb_le opened t)) by lia. cbn. by rewrite Hsv.
  - intros s d oc d' oc' Hs. unfold resolve_indeterminate, resolve_captured, is_overdue. cbn.
    by destruct s.
Qed.

Definition sample_observation : ObservationRequest := {|
  obs_id := "obs-1"; obs_work_item_id := "wi-1"; obs_run_id := "run-1";
  obs_kind := OUT_MERGE_RESULT; obs_opened_at := Aware 100; obs_window := 50;
  obs_state := OBS_PENDING; obs_resolved_at := None; obs_outcome_id := None;
  obs_detail := []; obs_schema_version := 1 |}.
Lemma observation_resolution_witness :
  resolve_indeterminate sample_observation (Aware 150)
    = Ok (obs_resolved_with sample_observation OBS_INDETERMINATE (Aware 150) None) /\
  resolve_indeterminate sample_observation (Aware 149) = Err InvalidInputError.
Proof.
  split.
  - exact (proj1 (proj2 (observation_resolution sample_observation 150 "o" eq_refl eq_refl))).
  - exact (proj1 (proj2 (observation_resolution sample_observation 149 "o" eq_refl eq_refl))).
Defined.

(** ** Liveness of the tables *)
(** From every state some sequence of legal transitions ends in a terminal one. *)
Definition can_finish {St} `{EqDecision St} (t : TransitionTable St) : Prop :=
  forall s, exists l s', trace t s l s' /\ is_terminal t s' = true.

Lemma can_finish_by_search {St} `{EqDecision St} (t : TransitionTable St) :
  (forall s, reachable_terminals t s <> []) -> can_finish t.
Proof.
  intros H s. specialize (H s). destruct (reachable_terminals t s) as [|s' ss] eqn:E; [done|].
  assert (Hin : s' ∈ reachable_terminals t s) by (rewrite E; left).
  apply elem_of_reachable_terminals in Hin as [Ht [l Hl]]. by exists l, s'.
Qed.

(** None of the seven lifecycle tables has a dead end: every state of every
    aggregate can still reach a terminal state by legal transitions, and no
    transition leaves a terminal state. *)
Theorem lifecycles_can_finish :
  can_finish RUN_TRANSITIONS /\ can_finish WORK_ITEM_TRANSITIONS /\
  can_finish NODE_ATTEMPT_TRANSITIONS /\ can_finish FACTORY_CHANGE_TRANSITIONS /\
  can_finish INCIDENT_TRANSITIONS /\ can_finish MILESTONE_RUN_TRANSITIONS /\
  can_finish STACK_SLICE_TRANSITIONS /\
  (forall (r : Run) s, is_terminal RUN_TRANSITIONS (run_state r) = true ->
     run_transition_to r s = Err InvalidInputError) /\
  (forall (w : WorkItem) s, is_terminal WORK_ITEM_TRANSITIONS (wi_state w) = true ->
     work_item_transition_to w s = Err InvalidInputError) /\
  (forall (c : FactoryChange) s, is_terminal FACTORY_CHANGE_TRANSITIONS (fc_state c) = true ->
     factory_change_transition_to c s = Err InvalidInputError).
Proof.
  split_and!; try (apply can_finish_by_search; by intros []).
  - intros r s Ht. unfold run_transition_to, require, allows. by rewrite Ht.
  - intros w s Ht. unfold work_item_transition_to, require, allows. by rewrite Ht.
  - intros c s Ht. unfold factory_change_transition_to, require, allows. by rewrite Ht.
Qed.

(** The worklist of [reachable_terminals] always returns (its fuel, the
    number of edges plus two, is enough for every table), and returns exactly the
    terminal states some sequence of legal transitions reaches. *)
Theorem reachable_terminals_exact {St} `{EqDecision St} (t : TransitionTable St) (s : St) :
  reach_loop (reach_fuel t) t [s] [] [] = Some (reachable_terminals t s) /\
  (forall s', s' ∈ reachable_terminals t s <->
     is_terminal t s' = true /\ exists l, trace t s l s').
Proof. split; [apply reachable_terminals_run|apply elem_of_reachable_terminals]. Qed.
