(* ===== verification/Graphs.v ===== *)
(** * Dependency graphs: the ready-count traversal

    The loop [plans/model.py] ([_validate_milestone_graph],
    [Plan.topological_order]) and [domain/workflow/manifest.py] share: every node
    keeps a count of unprocessed dependencies, a node enters the frontier when its
    count drops to zero.  A graph is its node identifiers and its edges
    [(dependency, node)], in declaration order; a node may repeat a dependency. *)
From S2P Require Import Prelude.
From stdpp Require Import relations.

(** ** The loop *)
Abbreviation edge_list := (list (string * string)).

(** [forward[k]]: the nodes that declare [k] as a dependency, in order. *)
Definition forward (E : edge_list) (k : string) : list string :=
  (filter (fun e => e.1 = k) E).*2.

(** One [remaining[s] -= 1; if remaining[s] == 0: ready.append(s)]. *)
Definition decrement (st : gmap string Z * list string) (s : string)
    : gmap string Z * list string :=
  let d := (default 0 (st.1 !! s) - 1)%Z in
  (<[s := d]> st.1, if decide (d = 0%Z) then st.2 ++ [s] else st.2).
(** All successors of one node: the new counts and the newly ready nodes. *)
Definition settle (remaining : gmap string Z) (succs : list string)
    : gmap string Z * list string := foldl decrement (remaining, []) succs.

(** The validator's loop: [frontier] is the Python list with its end first
    ([pop()] takes the head); [visited] grows to the left. *)
Fixpoint visit_loop (fuel : nat) (E : edge_list) (remaining : gmap string Z)
    (frontier visited : list string) : option (list string) :=
  match fuel with
  | 0 => None
  | S fuel =>
      match frontier with
      | [] => Some visited
      | current :: frontier =>
          if decide (current ∈ visited) then visit_loop fuel E remaining frontier visited
          else
            let '(remaining, ready) := settle remaining (forward E current) in
            visit_loop fuel E remaining (reverse ready ++ frontier) (current :: visited)
      end
  end.

(** The ordering loop: the frontier is kept sorted, [pop(0)] takes the least. *)
Fixpoint order_loop (fuel : nat) (E : edge_list) (remaining : gmap string Z)
    (frontier ordered : list string) : option (list string) :=
  match fuel with
  | 0 => None
  | S fuel =>
      match frontier with
      | [] => Some ordered
      | current :: frontier =>
          let '(remaining, ready) :=
            settle remaining (merge_sort String.le (forward E current)) in
          order_loop fuel E remaining (merge_sort String.le (frontier ++ ready))
            (ordered ++ [current])
      end
  end.

(** ** Specification *)
Section Kahn.
Context (ids : list string) (E : edge_list).
Hypothesis ids_nodup : NoDup ids.
Hypothesis E_ids : forall d k, (d, k) ∈ E -> d ∈ ids /\ k ∈ ids.

Definition depends_on (d k : string) : Prop := (d, k) ∈ E.
(** No chain of dependencies leads from a node to itself. *)
Definition acyclic : Prop := forall x, ~ tc depends_on x x.

(** Number of dependencies of [k] outside [processed]. *)
Definition unmet (processed : list string) (k : string) : nat :=
  length (filter (fun e => e.2 = k /\ e.1 ∉ processed) E).
(** Every element comes after all of its dependencies. *)
Definition ordered_by (l : list string) : Prop :=
  forall pre x post, l = pre ++ x :: post -> forall d, depends_on d x -> d ∈ pre.
(** Among the nodes ready at each position the least is chosen. *)
Definition least_first (l : list string) : Prop :=
  forall pre x post, l = pre ++ x :: post ->
  forall y, y ∈ post -> (forall d, depends_on d y -> d ∈ pre) -> String.le x y.

Lemma unmet_zero processed k :
  unmet processed k = 0 <-> forall d, depends_on d k -> d ∈ processed.
Proof.
  unfold unmet, depends_on. rewrite length_zero_iff_nil. split.
  - intros H d Hd. destruct (decide (d ∈ processed)) as [|Hn]; [done|].
    assert (Hin : (d, k) ∈ @nil (string * string)); [|by apply not_elem_of_nil in Hin].
    rewrite <- H. by apply list_elem_of_filter.
  - intros H. destruct (filter _ E) as [|[d k'] l] eqn:Hf; [done|].
    assert (Hin : (d, k') ∈ filter (fun e => e.2 = k /\ e.1 ∉ processed) E)
      by (rewrite Hf; left).
    apply list_elem_of_filter in Hin as [[<- Hn] Hin]. by destruct Hn; apply H.
Qed.

(** How often [k] declares [c]. *)
Definition declared (c k : string) : nat := length (filter (fun e => e = (c, k)) E).
Lemma declared_pos c k : 0 < declared c k <-> depends_on c k.
Proof.
  unfold declared, depends_on. split.
  - intros H. destruct (filter _ E) as [|e l] eqn:Hf; [cbn in H; lia|].
    assert (Hin : e ∈ filter (fun e => e = (c, k)) E) by (rewrite Hf; left).
    apply list_elem_of_filter in Hin as [-> Hin]. done.
  - intros H. destruct (filter _ E) as [|e l] eqn:Hf; [|cbn; lia].
    assert (Hin : (c, k) ∈ @nil (string * string)); [|by apply not_elem_of_nil in Hin].
    rewrite <- Hf. by apply list_elem_of_filter.
Qed.
Lemma unmet_snoc processed c k :
  c ∉ processed -> unmet processed k = unmet (processed ++ [c]) k + declared c k.
Proof.
  intros Hc. unfold unmet, declared. clear E_ids. induction E as [|[d k'] E' IH]; [done|].
  rewrite !filter_cons. cbn.
  destruct (decide (k' = k)) as [->|Hk]; cycle 1.
  { rewrite !(decide_False (P := k' = k /\ _)) by naive_solver.
    rewrite (decide_False (P := (d, k') = (c, k))) by congruence. done. }
  destruct (decide (d = c)) as [->|Hdc].
  - rewrite decide_True by done. rewrite decide_False by set_solver.
    rewrite decide_True by done. cbn. lia.
  - rewrite (decide_False (P := (d, k) = (c, k))) by congruence.
    destruct (decide (d ∈ processed)).
    + rewrite !(decide_False (P := k = k /\ _)) by set_solver. done.
    + rewrite !(decide_True (P := k = k /\ _)) by set_solver. cbn. lia.
Qed.

Lemma elem_of_forward c k : k ∈ forward E c <-> depends_on c k.
Proof.
  unfold forward, depends_on. rewrite list_elem_of_fmap. split.
  - intros ([d k'] & -> & [Hd Hin]%list_elem_of_filter). cbn in *. by subst.
  - intros Hin. exists (c, k). split; [done|]. by apply list_elem_of_filter.
Qed.
(** How often a node occurs in a list. *)
Definition count (k : string) (l : list string) : nat := length (filter (fun x => x = k) l).
Lemma count_snoc k l s : count k (l ++ [s]) = count k l + if decide (s = k) then 1 else 0.
Proof.
  unfold count. rewrite filter_app, length_app. f_equal.
  rewrite filter_cons, filter_nil. by case_decide.
Qed.
Lemma count_zero k l : k ∉ l -> count k l = 0.
Proof.
  intros Hk. unfold count. destruct (filter _ l) as [|x k'] eqn:Hf; [done|]. destruct Hk.
  assert (x ∈ filter (fun x => x = k) l) as [-> ?]%list_elem_of_filter by (rewrite Hf; left). done.
Qed.
Lemma count_forward c k : count k (forward E c) = declared c k.
Proof.
  unfold count, declared, forward. clear E_ids. induction E as [|[d k'] E' IH]; [done|].
  rewrite !filter_cons. cbn [fst]. destruct (decide (d = c)) as [->|Hd].
  - rewrite fmap_cons, filter_cons. cbn [snd]. destruct (decide (k' = k)) as [->|Hk].
    + rewrite decide_True by done. cbn. by rewrite IH.
    + rewrite decide_False by congruence. done.
  - rewrite decide_False by congruence. done.
Qed.

(** What one round of decrements does, when no count drops below zero. *)
Lemma settle_spec succs rem :
  (forall k, k ∈ succs -> (Z.of_nat (count k succs) <= default 0 (rem !! k))%Z) ->
  (forall k, (settle rem succs).1 !! k =
     if decide (k ∈ succs) then Some (default 0 (rem !! k) - Z.of_nat (count k succs))%Z
     else rem !! k) /\
  NoDup (settle rem succs).2 /\
  (forall k, k ∈ (settle rem succs).2 <->
     k ∈ succs /\ default 0%Z (rem !! k) = Z.of_nat (count k succs)).
Proof.
  unfold settle. induction succs as [|s succs IH] using rev_ind; intros Hle.
  { split_and!; [|constructor|set_solver]. intros k. by rewrite decide_False by set_solver. }
  destruct IH as (IH1 & IH2 & IH3).
  { intros k Hk. specialize (Hle k). rewrite count_snoc in Hle.
    assert (k ∈ succs ++ [s]) by set_solver. destruct (decide (s = k)); lia || (specialize (Hle H); lia). }
  rewrite foldl_app. cbn. set (st := foldl decrement (rem, []) succs) in *.
  assert (Hs : default 0%Z (st.1 !! s) = (default 0 (rem !! s) - Z.of_nat (count s succs))%Z).
  { rewrite IH1. case_decide as Hin; [done|]. rewrite (count_zero s succs Hin). cbn. lia. }
  unfold decrement. cbn. rewrite Hs.
  pose proof (Hle s ltac:(set_solver)) as Hles. rewrite count_snoc, decide_True in Hles by done.
  split_and!.
  - intros k. rewrite count_snoc. destruct (decide (k = s)) as [->|Hk].
    + rewrite lookup_insert_eq, decide_True by set_solver. rewrite decide_True by done. f_equal. lia.
    + rewrite lookup_insert_ne, IH1 by done. rewrite (decide_False (P := s = k)) by done.
      rewrite Nat.add_0_r. destruct (decide (k ∈ succs)).
      * by rewrite decide_True by set_solver.
      * by rewrite decide_False by set_solver.
  - case_decide as Hz; [|done]. apply NoDup_app. split_and!; [done| |apply NoDup_singleton].
    intros k [Hk Hrem]%IH3 ->%list_elem_of_singleton. lia.
  - intros k. rewrite count_snoc. destruct (decide (s = k)) as [<-|Hk].
    + split.
      * intros Hin. split; [set_solver|]. case_decide as Hz; [lia|].
        apply IH3 in Hin as [_ Hrem]. lia.
      * intros [_ Hrem]. rewrite decide_True by lia. set_solver.
    + rewrite Nat.add_0_r. transitivity (k ∈ st.2); [case_decide; set_solver|].
      rewrite IH3. set_solver.
Qed.

(** ** The loop invariant *)
Record kahn_inv (rem : gmap string Z) (frontier processed : list string) : Prop := {
  ki_nodup : NoDup processed;
  ki_ids : processed ⊆ ids;
  ki_count : forall k, k ∈ ids -> rem !! k = Some (Z.of_nat (unmet processed k));
  ki_fnodup : NoDup frontier;
  ki_frontier : forall k, k ∈ frontier <->
    k ∈ ids /\ k ∉ processed /\ unmet processed k = 0;
  ki_ordered : ordered_by processed;
}.

Lemma ordered_by_snoc l c :
  ordered_by l -> (forall d, depends_on d c -> d ∈ l) -> ordered_by (l ++ [c]).
Proof.
  intros Ho Hc pre x post Heq d Hd.
  destruct post as [|y post _] using rev_ind.
  - apply app_inj_tail in Heq as [-> ->]. by apply Hc.
  - rewrite app_comm_cons, (assoc_L (++)) in Heq. apply app_inj_tail in Heq as [-> ->].
    by eapply Ho.
Qed.

Lemma kahn_step rem c frontier processed succs frontier' :
  kahn_inv rem (c :: frontier) processed -> succs ≡ₚ forward E c ->
  frontier' ≡ₚ frontier ++ (settle rem succs).2 ->
  kahn_inv (settle rem succs).1 frontier' (processed ++ [c]).
Proof.
  intros [H1 H2 H3 H4 H5 H6] Hs Hf.
  destruct (proj1 (H5 c)) as (Hc & Hcn & Hc0); [left|].
  apply NoDup_cons in H4 as [Hcf Hfd].
  assert (Hin : forall k, k ∈ succs <-> depends_on c k)
    by (intros k; rewrite Hs; apply elem_of_forward).
  assert (Hcount : forall k, count k succs = declared c k).
  { intros k. rewrite <- count_forward. unfold count. by rewrite Hs. }
  assert (Hu : forall k, unmet processed k = unmet (processed ++ [c]) k + declared c k)
    by (intros k; by apply unmet_snoc).
  assert (Hrem : forall k, depends_on c k -> rem !! k = Some (Z.of_nat (unmet processed k))).
  { intros k Hd. destruct (E_ids _ _ Hd) as [_ Hk]. by apply H3. }
  destruct (settle_spec succs rem) as (Hl & Hrd & Hr).
  { intros k Hk%Hin. rewrite (Hrem k Hk), Hcount. cbn. specialize (Hu k). lia. }
  assert (Hready : forall k, k ∈ (settle rem succs).2 <->
     depends_on c k /\ unmet (processed ++ [c]) k = 0).
  { intros k. rewrite Hr, Hin, Hcount. specialize (Hu k). split.
    - intros [Hd Hz]. split; [done|]. rewrite (Hrem k Hd) in Hz. cbn in Hz. lia.
    - intros [Hd Hz]. split; [done|]. rewrite (Hrem k Hd). cbn. lia. }
  assert (Hpos : forall k, depends_on c k -> unmet processed k <> 0).
  { intros k Hd Hz. rewrite unmet_zero in Hz. by apply Hcn, Hz. }
  assert (Hold : forall k, k ∈ processed -> unmet processed k = 0).
  { intros k Hk. apply unmet_zero. intros d Hd.
    apply list_elem_of_split in Hk as (pre & post & ->).
    rewrite (elem_of_app pre). left. by eapply H6. }
  split.
  - apply NoDup_app. split_and!; [done|set_solver|apply NoDup_singleton].
  - set_solver.
  - intros k Hk. rewrite Hl. specialize (Hu k).
    destruct (decide (k ∈ succs)) as [Hks|Hks]; rewrite Hin in Hks.
    + rewrite (H3 k Hk), Hcount. cbn. f_equal. lia.
    + rewrite (H3 k Hk). f_equal. rewrite <- declared_pos in Hks. lia.
  - rewrite Hf. apply NoDup_app. split_and!; [done| |done].
    intros k Hk [Hd _]%Hready. apply (Hpos k Hd). by apply H5; right.
  - intros k. rewrite Hf, elem_of_app, Hready. split.
    + intros [Hk|[Hd Hz]].
      * destruct (proj1 (H5 k)) as (? & ? & Hz); [by right|]. split_and!; [done|set_solver|].
        specialize (Hu k). lia.
      * destruct (E_ids _ _ Hd) as [_ Hk]. split_and!; [done| |done].
        intros [Hp|Hp]%elem_of_app; [by apply (Hpos k Hd), Hold|].
        apply list_elem_of_singleton in Hp as ->. by apply (Hpos c Hd).
    + intros (Hk & Hn & Hz). specialize (Hu k).
      destruct (decide ((c, k) ∈ E)) as [Hd|Hd]; [by right|]. left. change (~ depends_on c k) in Hd.
      rewrite <- declared_pos in Hd.
      assert (Hkf : k ∈ c :: frontier) by (apply H5; split_and!; [done|set_solver|lia]).
      set_solver.
  - apply ordered_by_snoc; [done|]. by apply unmet_zero.
Qed.

Lemma unmet_permutation l k d : l ≡ₚ k -> unmet l d = unmet k d.
Proof.
  intros Hp. unfold unmet. f_equal. apply list_filter_iff.
  intros e. by rewrite Hp.
Qed.
Lemma kahn_length rem frontier processed :
  kahn_inv rem frontier processed -> length frontier + length processed <= length ids.
Proof.
  intros [H1 H2 H3 H4 H5 H6]. rewrite <- length_app.
  apply submseteq_length, NoDup_submseteq; [|set_solver].
  apply NoDup_app. split_and!; [done| |done]. set_solver.
Qed.

(** *** Termination, soundness and completeness *)
Lemma visit_loop_spec fuel rem frontier visited :
  kahn_inv rem frontier (reverse visited) ->
  S (length ids) <= fuel + length visited ->
  exists visited' rem', visit_loop fuel E rem frontier visited = Some visited' /\
    kahn_inv rem' [] (reverse visited').
Proof.
  revert rem frontier visited. induction fuel as [|fuel IH]; intros rem frontier visited Hi Hf.
  - apply kahn_length in Hi. rewrite length_reverse in Hi. lia.
  - cbn. destruct frontier as [|c frontier]; [by eauto|].
    assert (Hn : c ∉ visited).
    { destruct Hi as [_ _ _ _ H5 _]. destruct (proj1 (H5 c)) as (_ & Hn & _); [left|].
      by rewrite elem_of_reverse in Hn. }
    rewrite decide_False by done.
    pose proof (kahn_step rem c frontier (reverse visited) (forward E c)
      (reverse (settle rem (forward E c)).2 ++ frontier) Hi ltac:(done)) as Hstep.
    destruct (settle rem (forward E c)) as [rem' ready] eqn:Es. cbn in *.
    apply IH; [|cbn; lia]. rewrite reverse_cons. apply Hstep.
    rewrite (reverse_Permutation ready). apply (comm (++)).
Qed.

Lemma order_loop_spec fuel rem frontier ordered :
  kahn_inv rem frontier ordered -> Sorted String.le frontier -> least_first ordered ->
  (forall pre x post, ordered = pre ++ x :: post -> forall y, y ∈ ids -> y ∉ ordered ->
     (forall d, depends_on d y -> d ∈ pre) -> String.le x y) ->
  S (length ids) <= fuel + length ordered ->
  exists ordered' rem', order_loop fuel E rem frontier ordered = Some ordered' /\
    kahn_inv rem' [] ordered' /\ least_first ordered'.
Proof.
  revert rem frontier ordered.
  induction fuel as [|fuel IH]; intros rem frontier ordered Hi Hso Hl Hl' Hf.
  - apply kahn_length in Hi. lia.
  - cbn. destruct frontier as [|c frontier]; [by eauto|].
    pose proof Hi as [_ _ _ _ H5 _].
    destruct (proj1 (H5 c)) as (Hcid & Hcn & Hc0); [left|].
    assert (Hmin : forall y, y ∈ c :: frontier -> String.le c y).
    { apply Sorted_StronglySorted in Hso; [|apply _]. inversion Hso as [|?? _ Hall]; subst.
      rewrite Forall_forall in Hall. intros y [->|Hy]%elem_of_cons; [done|by apply Hall]. }
    pose proof (kahn_step rem c frontier ordered (merge_sort String.le (forward E c))
      (merge_sort String.le (frontier ++ (settle rem (merge_sort String.le (forward E c))).2))
      Hi (merge_sort_Permutation _ _) (merge_sort_Permutation _ _)) as Hstep.
    destruct (settle rem (merge_sort String.le (forward E c))) as [rem' ready] eqn:Es.
    cbn in Hstep. apply IH; [done|by apply (Sorted_merge_sort _)| | |rewrite length_app; cbn; lia].
    + intros pre x post Heq y Hy Hd.
      destruct post as [|z post _] using rev_ind; [by apply not_elem_of_nil in Hy|].
      rewrite app_comm_cons, (assoc_L (++)) in Heq. apply app_inj_tail in Heq as [Heq ->].
      apply elem_of_app in Hy as [Hy|Hy%list_elem_of_singleton]; [by eapply Hl|subst y].
      by eapply Hl'.
    + intros pre x post Heq y Hy Hn Hd.
      destruct post as [|z post _] using rev_ind.
      * apply app_inj_tail in Heq as [-> ->]. apply Hmin, H5.
        split_and!; [done|set_solver|by apply unmet_zero].
      * rewrite app_comm_cons, (assoc_L (++)) in Heq. apply app_inj_tail in Heq as [Heq ->].
        eapply Hl'; [done|done|set_solver|done].
Qed.

(** An ordering of all nodes rules out cycles ... *)
Lemma ordered_acyclic l : (forall k, k ∈ ids -> k ∈ l) -> ordered_by l -> acyclic.
Proof.
  intros Hall Ho.
  assert (Hacc : forall x y, tc depends_on x y -> forall pre post, l = pre ++ y :: post ->
    x ∈ pre).
  { induction 1 as [x y Hd|x y z Hd Ht IH]; intros pre post Heq; [by eapply Ho|].
    specialize (IH _ _ Heq). apply list_elem_of_split in IH as (p1 & p2 & ->).
    rewrite (elem_of_app p1). left. eapply (Ho p1 y (p2 ++ z :: post)); [|done].
    by rewrite Heq, <- (assoc_L (++)). }
  intros x Hx. assert (Hxi : x ∈ ids).
  { inversion Hx as [? ? Hd|? ? ? Hd ?]; subst; by apply E_ids in Hd as []. }
  destruct (list_elem_of_split_l l x (Hall x Hxi)) as (pre & post & -> & Hn).
  by apply Hn, (Hacc x x Hx pre post).
Qed.

(** ... and an acyclic graph leaves nothing unprocessed. *)
Lemma kahn_complete rem processed : kahn_inv rem [] processed -> acyclic -> processed ≡ₚ ids.
Proof.
  intros [H1 H2 H3 H4 H5 H6] Hac.
  assert (Hacc : forall x, x ∈ ids -> x ∈ processed).
  { intros x. assert (Hsn : Acc depends_on x).
    { change (Acc (flip (flip depends_on)) x). apply tc_finite_sn.
      - intros y Hy. apply (Hac y). clear -Hy.
        assert (Hf : forall a b, tc (flip depends_on) a b -> tc depends_on b a).
        { induction 1 as [a b ?|a b c ? ? IH]; [by apply tc_once|].
          eapply tc_r; [done|done]. }
        by apply Hf.
      - exists ids. intros y Hy. clear -Hy E_ids.
        induction Hy as [a b Hd|a b c ? ? IH]; [by apply E_ids in Hd as []|done]. }
    induction Hsn as [x _ IH]. intros Hx.
    destruct (decide (x ∈ processed)) as [|Hn]; [done|].
    assert (Hxf : x ∈ @nil string); [|by apply not_elem_of_nil in Hxf].
    apply H5. split_and!; [done|done|]. apply unmet_zero.
    intros d Hd. apply IH; [done|]. by apply E_ids in Hd as []. }
  apply NoDup_Permutation; [done..|]. intros x. split; [apply H2|apply Hacc].
Qed.

Lemma kahn_processed_all rem processed :
  kahn_inv rem [] processed -> length processed = length ids -> processed ≡ₚ ids.
Proof.
  intros [H1 H2 _ _ _ _] Hl. apply submseteq_length_Permutation; [|lia].
  by apply NoDup_submseteq.
Qed.

(** The least-first ordering is unique. *)
Lemma least_first_unique l k :
  l ≡ₚ k -> NoDup l -> ordered_by l -> ordered_by k -> least_first l -> least_first k -> l = k.
Proof using Type.
  clear ids_nodup E_ids ids.
  intros Hp Hnd Hol Hok Hll Hlk.
  assert (Hgo : forall pre a b, l = pre ++ a -> k = pre ++ b -> a ≡ₚ b -> a = b).
  { intros pre a. revert pre. induction a as [|x a IH]; intros pre b Hl Hk Hab.
    - by apply Permutation_nil_l in Hab.
    - destruct b as [|y b]; [by apply Permutation_nil_r in Hab|].
      assert (x = y) as <-.
      { destruct (decide (x = y)) as [|Hne]; [done|].
        assert (Hya : y ∈ a).
        { assert (y ∈ x :: a) by (rewrite Hab; left). set_solver. }
        assert (Hxb : x ∈ b).
        { assert (x ∈ y :: b) by (rewrite <- Hab; left). set_solver. }
        apply (anti_symm String.le).
        - eapply Hll; [exact Hl|done|]. intros d Hd. by eapply Hok.
        - eapply Hlk; [exact Hk|done|]. intros d Hd. by eapply Hol. }
      f_equal. apply (IH (pre ++ [x])).
      + by rewrite <- (assoc_L (++)).
      + by rewrite <- (assoc_L (++)).
      + by apply Permutation_cons_inv in Hab. }
  by apply (Hgo [] l k).
Qed.
End Kahn.

(** ** Graphs of declared dependencies

    Both validators build the same graph: every item has an identifier and declares
    the identifiers it depends on. *)
Section Declared.
Context {A : Type} (key : A -> string) (deps : A -> list string).

(** Edges [(dependency, item)] in the order the [forward] lists are filled. *)
Definition edges_of (l : list A) : edge_list :=
  concat (map (fun m => map (fun d => (d, key m)) (deps m)) l).
(** [in_degree[id] = len(dependencies)] *)
Definition in_degree_of (l : list A) : gmap string Z :=
  foldl (fun d m => <[key m := Z.of_nat (length (deps m))]> d) ∅ l.
(** The items of degree 0, in declaration order. *)
Definition entries_of (l : list A) : list string := map key (filter (fun m => deps m = []) l).
(** Some dependency names no item. *)
Definition undeclared (l : list A) : bool :=
  existsb (fun m => existsb (fun d => negb (bool_decide (d ∈ map key l))) (deps m)) l.
(** The visited items, newest first; each item enters the frontier once. *)
Definition visited_of (l : list A) : list string :=
  default [] (visit_loop (S (length l)) (edges_of l) (in_degree_of l) (reverse (entries_of l)) []).

Definition resolved (l : list A) : Prop := forall m d, m ∈ l -> d ∈ deps m -> d ∈ map key l.
Lemma undeclared_false l : undeclared l = false <-> resolved l.
Proof.
  unfold undeclared. rewrite <- not_true_iff_false, existsb_exists. split.
  - intros Hn m d Hm Hd. destruct (decide (d ∈ map key l)) as [|Hnd]; [done|].
    destruct Hn. exists m. split; [by apply list_elem_of_In|].
    apply existsb_exists. exists d. split; [by apply list_elem_of_In|].
    by rewrite bool_decide_eq_false_2.
  - intros Hr (m & Hm%list_elem_of_In & Hd). apply existsb_exists in Hd as (d & Hd%list_elem_of_In & Hn).
    by rewrite bool_decide_eq_true_2 in Hn by (by eapply Hr).
Qed.
Lemma elem_of_edges l d k : (d, k) ∈ edges_of l <-> exists m, m ∈ l /\ key m = k /\ d ∈ deps m.
Proof.
  unfold edges_of. rewrite list_elem_of_In, in_concat. setoid_rewrite in_map_iff. split.
  - intros (t & (m & <- & Hm) & (d' & [= -> <-] & Hd)%in_map_iff).
    exists m. by rewrite !list_elem_of_In.
  - intros (m & Hm & <- & Hd). exists (map (fun d => (d, key m)) (deps m)).
    split; [exists m; by rewrite <- list_elem_of_In|].
    apply in_map_iff. exists d. by rewrite <- list_elem_of_In.
Qed.
Lemma resolved_edges l : resolved l -> forall d k, (d, k) ∈ edges_of l ->
  d ∈ map key l /\ k ∈ map key l.
Proof.
  intros Hr d k (m & Hm & <- & Hd)%elem_of_edges. split; [by eapply Hr|].
  apply list_elem_of_fmap. by exists m.
Qed.

Lemma unmet_app E1 E2 l k : unmet (E1 ++ E2) l k = unmet E1 l k + unmet E2 l k.
Proof using Type. unfold unmet. by rewrite filter_app, length_app. Qed.
Lemma unmet_own (ds : list string) i k :
  unmet (map (fun d => (d, i)) ds) [] k = if decide (i = k) then length ds else 0.
Proof using Type.
  unfold unmet. induction ds as [|d ds IH]; [cbn; by case_decide|].
  cbn [map]. rewrite filter_cons. cbn [fst snd]. destruct (decide (i = k)).
  - rewrite decide_True by set_solver. cbn. lia.
  - rewrite decide_False by naive_solver. done.
Qed.
Lemma declared_unmet l m : NoDup (map key l) -> m ∈ l ->
  unmet (edges_of l) [] (key m) = length (deps m).
Proof.
  unfold edges_of. induction l as [|m' l IH]; [by intros _ ?%not_elem_of_nil|].
  cbn [map concat]. intros [Hn Hd]%NoDup_cons Hm. rewrite unmet_app, unmet_own.
  apply elem_of_cons in Hm as [->|Hm].
  - rewrite decide_True by done.
    rewrite (proj2 (unmet_zero _ [] (key m'))); [lia|].
    intros d (m & Hm & Heq & _)%elem_of_edges. exfalso. apply Hn. rewrite <- Heq.
    apply list_elem_of_fmap. by exists m.
  - rewrite decide_False; [by rewrite IH|]. intros Heq. apply Hn. rewrite Heq.
    apply list_elem_of_fmap. by exists m.
Qed.
Lemma in_degree_lookup l m : NoDup (map key l) -> m ∈ l ->
  in_degree_of l !! key m = Some (Z.of_nat (length (deps m))).
Proof.
  unfold in_degree_of. generalize (∅ : gmap string Z) as d0.
  induction l as [|m' l IH] using rev_ind; intros d0; [by intros _ ?%not_elem_of_nil|].
  rewrite map_app, foldl_app. intros (Hd & Hn & _)%NoDup_app. cbn.
  intros [Hm|Hm%list_elem_of_singleton]%elem_of_app.
  - rewrite lookup_insert_ne; [by apply IH|]. intros Heq.
    apply (Hn (key m)); [apply list_elem_of_fmap; by exists m|]. rewrite <- Heq. left.
  - subst. by rewrite lookup_insert_eq.
Qed.

(** The loops start in the invariant. *)
Lemma declared_kahn_inv l frontier : NoDup (map key l) -> frontier ≡ₚ entries_of l ->
  kahn_inv (map key l) (edges_of l) (in_degree_of l) frontier [].
Proof.
  intros Hids Hf. split; [constructor|set_solver| | | |].
  - intros k (m & -> & Hm)%list_elem_of_fmap.
    by rewrite declared_unmet, in_degree_lookup.
  - rewrite Hf. unfold entries_of. clear -Hids. induction l as [|m' l IH]; [constructor|].
    rewrite filter_cons. apply NoDup_cons in Hids as [Hn Hd].
    case_decide; [|by apply IH]. cbn. constructor; [|by apply IH].
    intros (m & Heq & [_ Hm]%list_elem_of_filter)%list_elem_of_fmap. apply Hn. rewrite Heq.
    apply list_elem_of_fmap. by exists m.
  - intros k. rewrite Hf. unfold entries_of. rewrite list_elem_of_fmap. split.
    + intros (m & -> & [Hd Hm]%list_elem_of_filter). split_and!.
      * apply list_elem_of_fmap. by exists m.
      * apply not_elem_of_nil.
      * rewrite declared_unmet by done. by rewrite Hd.
    + intros ((m & -> & Hm)%list_elem_of_fmap & _ & Hz). exists m. split; [done|].
      apply list_elem_of_filter. split; [|done].
      rewrite declared_unmet in Hz by done. by apply length_zero_iff_nil.
  - intros pre x post Heq. by destruct pre.
Qed.
Lemma declared_visits l : NoDup (map key l) -> resolved l -> exists visited rem,
  visit_loop (S (length l)) (edges_of l) (in_degree_of l) (reverse (entries_of l)) [] = Some visited /\
  kahn_inv (map key l) (edges_of l) rem [] (reverse visited).
Proof.
  intros Hids Hr. apply (visit_loop_spec (map key l)).
  - done.
  - by apply resolved_edges.
  - apply declared_kahn_inv; [done|apply reverse_Permutation].
  - rewrite length_map. cbn. lia.
Qed.

(** The check the validators make: an entry item exists and every item is visited,
    exactly when no chain of dependencies closes. *)
Lemma visits_all_iff l : NoDup (map key l) -> resolved l -> l <> [] ->
  entries_of l <> [] /\ length (visited_of l) = length l <-> acyclic (edges_of l).
Proof.
  intros Hids Hr Hne. unfold visited_of.
  destruct (declared_visits l Hids Hr) as (v & rem & Hv & Hi). rewrite Hv. cbn. split.
  - intros [_ Hlen].
    apply (ordered_acyclic (map key l) _ (resolved_edges l Hr) (reverse v)).
    + intros k Hk. rewrite (kahn_processed_all _ _ _ _ Hi); [done|].
      by rewrite length_reverse, length_map.
    + by destruct Hi.
  - intros Hac. pose proof (kahn_complete _ _ Hids (resolved_edges l Hr) _ _ Hi Hac) as Hp.
    rewrite <- (length_reverse v), Hp, length_map. split; [|done].
    intros He. rewrite He in Hv. cbn in Hv.
    injection Hv as <-. apply Permutation_nil_l in Hp. destruct l; [done|discriminate Hp].
Qed.
(** Visiting as many items as there are visits all of them. *)
Lemma visited_all l k : NoDup (map key l) -> resolved l -> length (visited_of l) = length l ->
  k ∈ map key l -> k ∈ visited_of l.
Proof.
  intros Hids Hr. unfold visited_of. destruct (declared_visits l Hids Hr) as (v & rem & Hv & Hi).
  rewrite Hv. cbn. intros Hlen Hk. rewrite <- elem_of_reverse.
  rewrite (kahn_processed_all _ _ _ _ Hi); [done|].
  by rewrite length_reverse, length_map.
Qed.
End Declared.
(** Cycles depend on the set of edges only. *)
Lemma acyclic_ext E E' : (forall d k, (d, k) ∈ E' -> (d, k) ∈ E) -> acyclic E -> acyclic E'.
Proof.
  intros HE Hac x Hx. apply (Hac x). revert Hx. generalize x at 1 3 as y. intros y Hy.
  induction Hy as [a b Hab|a b c Hab _ IH]; [by apply tc_once, HE|]. apply (tc_l _ a b c); [by apply HE|done].
Qed.
