(* ===== verification/Plans.v ===== *)
(** * Plans ([plans/model.py])

    A plan is a validated milestone graph.  Raw mappings are [json] objects; a
    [frozenset] of keys is a list; [PlanMilestoneId] values are strings that
    passed [mk_identifier]. *)
From S2P Require Import Prelude PyText Json Identity StateMachine Lifecycles Aggregates Graphs.

(** ** Reading raw mappings *)
Definition PLAN_KEYS : list string :=
  ["id"; "source_provider"; "external_reference"; "source_snapshot_reference"; "milestones"].
Definition MILESTONE_KEYS : list string :=
  ["id"; "title"; "objective"; "acceptance_criteria"; "repository"; "risk_class";
   "dependencies"].

(** [set(raw) - KEYS] is not empty *)
Definition has_unknown_keys (raw : list (string * json)) (keys : list string) : bool :=
  existsb (fun k => negb (bool_decide (k ∈ keys))) raw.*1.

(** [_require_non_blank] on a looked-up value *)
Definition require_non_blank_value (v : option json) : result string :=
  match v with
  | Some (JStr s) => raise_when blank s as InvalidInputError ;; Ok s
  | _ => Err InvalidInputError
  end.

Definition json_str (j : json) : option string :=
  match j with JStr s => Some s | _ => None end.

(** [_require_str_tuple] *)
Definition require_str_tuple (raw : list (string * json)) (key : string) (required : bool)
    : result (list string) :=
  let value := match dict_get key raw with
               | Some v => v
               | None => if required then JNull else JList [] end in
  match value with
  | JList l => from_option_err InvalidInputError (mapM json_str l)
  | _ => Err InvalidInputError
  end.

(** ** Milestones *)
Record PlanMilestone := {
  pm_id : string; pm_title : string; pm_objective : string;
  pm_acceptance_criteria : list string; pm_repository : string; pm_risk_class : RiskClass;
  pm_dependencies : list string }.

Definition plan_milestone_post_init (m : PlanMilestone) : result PlanMilestone :=
  _ ← require_non_blank (pm_title m);
  _ ← require_non_blank (pm_objective m);
  _ ← require_non_blank (pm_repository m);
  raise_when bool_decide (pm_acceptance_criteria m = []) as InvalidInputError ;;
  raise_when bool_decide (pm_id m ∈ pm_dependencies m) as InvalidInputError ;;
  raise_when negb (Nat.eqb (length (remove_dups (pm_dependencies m)))
                           (length (pm_dependencies m))) as InvalidInputError ;;
  Ok m.

(** [RiskClass(raw)] with its [ValueError] turned into [InvalidInputError]. *)
Definition parse_risk_class (s : string) : result RiskClass :=
  match enum_of_value s with Ok r => Ok r | Err _ => Err InvalidInputError end.

Definition plan_milestone_from_mapping (raw : list (string * json)) : result PlanMilestone :=
  raise_when has_unknown_keys raw MILESTONE_KEYS as InvalidInputError ;;
  id_text ← require_non_blank_value (dict_get "id" raw);
  milestone_id ← mk_identifier id_text;
  title ← require_non_blank_value (dict_get "title" raw);
  objective ← require_non_blank_value (dict_get "objective" raw);
  repository ← require_non_blank_value (dict_get "repository" raw);
  risk_class_raw ← from_option_err InvalidInputError (dict_get "risk_class" raw ≫= json_str);
  risk_class ← parse_risk_class risk_class_raw;
  acceptance_criteria ← require_str_tuple raw "acceptance_criteria" true;
  dependency_texts ← require_str_tuple raw "dependencies" false;
  dependencies ← mapM_result mk_identifier dependency_texts;
  plan_milestone_post_init {|
    pm_id := milestone_id; pm_title := title; pm_objective := objective;
    pm_acceptance_criteria := acceptance_criteria; pm_repository := repository;
    pm_risk_class := risk_class; pm_dependencies := dependencies |}.

Definition plan_milestone_to_mapping (m : PlanMilestone) : list (string * json) := [
  ("id", JStr (pm_id m)); ("title", JStr (pm_title m)); ("objective", JStr (pm_objective m));
  ("acceptance_criteria", json_strs (pm_acceptance_criteria m));
  ("repository", JStr (pm_repository m));
  ("risk_class", JStr (enum_value (pm_risk_class m)));
  ("dependencies", json_strs (pm_dependencies m))].

(** ** The milestone graph *)
(** Edges [(dependency, milestone)] in the order the [forward] lists are filled. *)
Definition milestone_edges (ms : list PlanMilestone) : edge_list :=
  edges_of pm_id pm_dependencies ms.
(** [in_degree[milestone.id] = len(milestone.dependencies)] *)
Definition milestone_in_degree (ms : list PlanMilestone) : gmap string Z :=
  in_degree_of pm_id pm_dependencies ms.
(** The milestones of degree 0, in declaration order. *)
Definition entry_milestones (ms : list PlanMilestone) : list string :=
  entries_of pm_id pm_dependencies ms.
(** Each milestone enters the frontier once. *)
Definition milestone_fuel (ms : list PlanMilestone) : nat := S (length ms).

Definition validate_milestone_graph (ms : list PlanMilestone) : result () :=
  raise_when undeclared pm_id pm_dependencies ms as InvalidInputError ;;
  raise_when bool_decide (entry_milestones ms = []) as InvalidInputError ;;
  let visited := default [] (visit_loop (milestone_fuel ms) (milestone_edges ms)
    (milestone_in_degree ms) (reverse (entry_milestones ms)) []) in
  raise_when negb (Nat.eqb (length visited) (length ms)) as InvalidInputError ;;
  Ok ().

(** ** Plans *)
Record Plan := {
  plan_id : string; plan_source_provider : string; plan_external_reference : string;
  plan_source_snapshot_reference : string; plan_milestones : list PlanMilestone }.

(** The [seen]/[duplicates] loop of [Plan.__post_init__]. *)
Definition duplicate_ids (ids : list string) : list string :=
  (foldl (fun '(seen, dups) i =>
     (i :: seen, if decide (i ∈ seen) then i :: dups else dups)) ([], []) ids).2.

Definition plan_post_init (p : Plan) : result Plan :=
  _ ← require_non_blank (plan_source_provider p);
  _ ← require_non_blank (plan_external_reference p);
  _ ← require_non_blank (plan_source_snapshot_reference p);
  raise_when bool_decide (plan_milestones p = []) as InvalidInputError ;;
  raise_when negb (bool_decide (duplicate_ids (map pm_id (plan_milestones p)) = []))
    as InvalidInputError ;;
  _ ← validate_milestone_graph (plan_milestones p);
  Ok p.

Definition plan_to_mapping (p : Plan) : list (string * json) := [
  ("id", JStr (plan_id p)); ("source_provider", JStr (plan_source_provider p));
  ("external_reference", JStr (plan_external_reference p));
  ("source_snapshot_reference", JStr (plan_source_snapshot_reference p));
  ("milestones", JList (map (fun m => JObj (plan_milestone_to_mapping m)) (plan_milestones p)))].

Definition milestone_entry (entry : json) : result PlanMilestone :=
  match entry with
  | JObj raw => plan_milestone_from_mapping raw
  | _ => Err InvalidInputError
  end.

Definition plan_from_mapping (raw : list (string * json)) : result Plan :=
  raise_when has_unknown_keys raw PLAN_KEYS as InvalidInputError ;;
  id_text ← require_non_blank_value (dict_get "id" raw);
  pid ← mk_identifier id_text;
  source_provider ← require_non_blank_value (dict_get "source_provider" raw);
  external_reference ← require_non_blank_value (dict_get "external_reference" raw);
  source_snapshot_reference ← require_non_blank_value (dict_get "source_snapshot_reference" raw);
  milestones ← match dict_get "milestones" raw with
    | Some (JList ((_ :: _) as entries)) => mapM_result milestone_entry entries
    | _ => Err InvalidInputError
    end;
  plan_post_init {|
    plan_id := pid; plan_source_provider := source_provider;
    plan_external_reference := external_reference;
    plan_source_snapshot_reference := source_snapshot_reference;
    plan_milestones := milestones |}.

Definition content_digest `{PyRuntime} (p : Plan) : result Digest :=
  digest_of_json (JObj (plan_to_mapping p)).

(** [Plan.milestone] *)
Definition plan_milestone (p : Plan) (milestone_id : string) : result PlanMilestone :=
  from_option_err InvalidInputError
    (snd <$> list_find (fun m => pm_id m = milestone_id) (plan_milestones p)).

Definition topological_order (p : Plan) : result (list string) :=
  let ms := plan_milestones p in
  let ordered := default [] (order_loop (milestone_fuel ms) (milestone_edges ms)
    (milestone_in_degree ms) (merge_sort String.le (entry_milestones ms)) []) in
  raise_when negb (Nat.eqb (length ordered) (length (remove_dups (map pm_id ms))))
    as PyAssertionError ;;
  Ok ordered.

(** ** The graph of a plan meets the traversal's assumptions *)
Definition milestone_ok (m : PlanMilestone) : Prop :=
  valid_identifier (pm_id m) /\ Forall valid_identifier (pm_dependencies m) /\
  plan_milestone_post_init m = Ok m.

Lemma remove_dups_length_eq (l : list string) :
  length (remove_dups l) = length l <-> NoDup l.
Proof.
  split.
  - intros Hl. induction l as [|x l IH]; cbn in *; [constructor|].
    assert (Hle : length (remove_dups l) <= length l).
    { apply submseteq_length, NoDup_submseteq; [apply NoDup_remove_dups|].
      intros y. by rewrite elem_of_remove_dups. }
    destruct (decide_rel (∈) x l); cbn in Hl; [lia|]. constructor; [done|]. apply IH. lia.
  - intros Hd. apply Permutation_length, NoDup_Permutation; [apply NoDup_remove_dups|done|].
    intros y. apply elem_of_remove_dups.
Qed.

Lemma plan_milestone_post_init_Ok m m' :
  plan_milestone_post_init m = Ok m' <->
  m' = m /\ blank (pm_title m) = false /\ blank (pm_objective m) = false /\
  blank (pm_repository m) = false /\ pm_acceptance_criteria m <> [] /\
  pm_id m ∉ pm_dependencies m /\ NoDup (pm_dependencies m).
Proof.
  unfold plan_milestone_post_init, require_non_blank, raise_if. rewrite <- remove_dups_length_eq.
  destruct (blank (pm_title m)), (blank (pm_objective m)), (blank (pm_repository m));
    cbn; try naive_solver.
  repeat case_bool_decide; cbn; try naive_solver.
  destruct (Nat.eqb_spec (length (remove_dups (pm_dependencies m)))
    (length (pm_dependencies m))); cbn; naive_solver.
Qed.
Lemma milestone_ok_nodup m : milestone_ok m -> NoDup (pm_dependencies m).
Proof. intros (_ & _ & H%plan_milestone_post_init_Ok). naive_solver. Qed.

Lemma duplicate_ids_nil ids : duplicate_ids ids = [] <-> NoDup ids.
Proof.
  unfold duplicate_ids.
  assert (Hgo : forall seen dups,
    (foldl (fun '(seen, dups) i =>
       (i :: seen, if decide (i ∈ seen) then i :: dups else dups)) (seen, dups) ids).2 = [] <->
    dups = [] /\ NoDup ids /\ (forall i, i ∈ ids -> i ∉ seen)).
  { induction ids as [|i ids IH]; intros seen dups; cbn.
    { split; [intros ->; split_and!; [done|constructor|set_solver]|by intros []]. }
    rewrite IH, NoDup_cons. destruct (decide (i ∈ seen)); set_solver. }
  rewrite Hgo. split; [by intros (_ & ? & _)|]. intros; split_and!; [done|done|set_solver].
Qed.
