(* ===== verification/PlanProofs.v ===== *)
(** * Plan theorems

    The milestone-graph check accepts exactly the resolved acyclic graphs; the
    topological order is a least-first dependency order that does not depend on
    the declaration order; a plan survives its mapping form. *)
From S2P Require Import Prelude PyText Json Identity StateMachine Lifecycles Aggregates Graphs.
From S2P Require Import Plans.
From stdpp Require Import relations.

(** What construction guarantees about a plan value. *)
Definition wf_plan (p : Plan) : Prop :=
  valid_identifier (plan_id p) /\ Forall milestone_ok (plan_milestones p) /\
  plan_post_init p = Ok p.

(** Milestone [k] declares [d] as a dependency. *)
Abbreviation milestone_depends ms := (depends_on (milestone_edges ms)).
Definition dependencies_resolved (ms : list PlanMilestone) : Prop := resolved pm_id pm_dependencies ms.

Section ValidGraph.
Context (ms : list PlanMilestone).
Hypothesis Hids : NoDup (map pm_id ms).
Hypothesis Hres : dependencies_resolved ms.

Lemma orders_all : acyclic (milestone_edges ms) ->
  exists ordered, order_loop (milestone_fuel ms) (milestone_edges ms)
    (milestone_in_degree ms) (merge_sort String.le (entry_milestones ms)) [] = Some ordered /\
  ordered ≡ₚ map pm_id ms /\ ordered_by (milestone_edges ms) ordered /\
  least_first (milestone_edges ms) ordered.
Proof.
  intros Hac. pose proof (resolved_edges pm_id pm_dependencies ms Hres) as Hedges.
  destruct (order_loop_spec (map pm_id ms) (milestone_edges ms) Hids Hedges
    (milestone_fuel ms) (milestone_in_degree ms)
    (merge_sort String.le (entry_milestones ms)) []) as (o & rem & Ho & Hi & Hl).
  - apply declared_kahn_inv; [done|apply merge_sort_Permutation].
  - apply (Sorted_merge_sort _).
  - intros pre x post Heq. by destruct pre.
  - intros pre x post Heq. by destruct pre.
  - unfold milestone_fuel. rewrite length_map. cbn. lia.
  - exists o. split_and!; [done| |by destruct Hi|done].
    by eapply (kahn_complete _ _ Hids Hedges).
Qed.
End ValidGraph.

Lemma validate_milestone_graph_iff ms :
  NoDup (map pm_id ms) -> ms <> [] ->
  validate_milestone_graph ms = Ok () <->
  dependencies_resolved ms /\ acyclic (milestone_edges ms).
Proof.
  intros Hids Hne. unfold validate_milestone_graph.
  rewrite !raise_if_Ok, undeclared_false, negb_false_iff, Nat.eqb_eq, bool_decide_eq_false.
  change (default [] _) with (visited_of pm_id pm_dependencies ms). split.
  - intros (Hr & He & Hlen & _). split; [done|].
    by apply (visits_all_iff pm_id pm_dependencies ms Hids Hr Hne).
  - intros [Hr Hac]. split; [done|].
    apply (visits_all_iff pm_id pm_dependencies ms Hids Hr Hne) in Hac as [? ?]. done.
Qed.

(** The milestone-graph check of a plan (unique identifiers) passes exactly when
    every dependency names a declared milestone and no chain of dependencies leads from
    a milestone to itself; it fails only with [InvalidInputError], and its loop always ends within its fuel. *)
Theorem validate_milestone_graph_spec (ms : list PlanMilestone)
    (Hids : NoDup (map pm_id ms)) (Hne : ms <> []) :
  (validate_milestone_graph ms = Ok () <->
     dependencies_resolved ms /\ forall x, ~ tc (milestone_depends ms) x x) /\
  (forall e, validate_milestone_graph ms = Err e -> e = InvalidInputError) /\
  (dependencies_resolved ms ->
     is_Some (visit_loop (milestone_fuel ms) (milestone_edges ms) (milestone_in_degree ms)
       (reverse (entry_milestones ms)) [])).
Proof.
  split_and!.
  - by apply validate_milestone_graph_iff.
  - intros e. unfold validate_milestone_graph. rewrite !raise_if_Err. naive_solver.
  - intros Hr. destruct (declared_visits pm_id pm_dependencies ms Hids Hr) as (v & rem & Hv & _).
    exists v. exact Hv.
Qed.

Definition sample_milestone (i : string) (deps : list string) : PlanMilestone := {|
  pm_id := i; pm_title := "t"; pm_objective := "o"; pm_acceptance_criteria := ["a"];
  pm_repository := "owner/repo"; pm_risk_class := RISK_LOW; pm_dependencies := deps |}.
Definition sample_milestones : list PlanMilestone :=
  [sample_milestone "m3" ["m1"; "m2"]; sample_milestone "m2" ["m1"]; sample_milestone "m1" []].

Lemma sample_milestones_ok : Forall milestone_ok sample_milestones.
Proof. repeat constructor. Qed.
Lemma sample_ids_nodup : NoDup (map pm_id sample_milestones).
Proof. apply (bool_decide_unpack _). reflexivity. Qed.

Lemma validate_milestone_graph_spec_witness :
  (forall x, ~ tc (milestone_depends sample_milestones) x x) /\
  validate_milestone_graph
    [sample_milestone "a" ["b"]; sample_milestone "b" ["a"]; sample_milestone "c" []]
  = Err InvalidInputError.
Proof.
  split; [|reflexivity].
  apply (validate_milestone_graph_spec sample_milestones sample_ids_nodup
    ltac:(discriminate)). reflexivity.
Defined.

(** ** The topological order *)
Lemma plan_post_init_Ok p p' : plan_post_init p = Ok p' <->
  p' = p /\ blank (plan_source_provider p) = false /\
  blank (plan_external_reference p) = false /\
  blank (plan_source_snapshot_reference p) = false /\ plan_milestones p <> [] /\
  NoDup (map pm_id (plan_milestones p)) /\
  validate_milestone_graph (plan_milestones p) = Ok ().
Proof.
  unfold plan_post_init, require_non_blank, raise_if.
  rewrite <- duplicate_ids_nil.
  destruct (blank (plan_source_provider p)), (blank (plan_external_reference p)),
    (blank (plan_source_snapshot_reference p)); cbn; try naive_solver.
  repeat case_bool_decide; cbn; try naive_solver.
  destruct (validate_milestone_graph (plan_milestones p)) as [[]|]; cbn; naive_solver.
Qed.

Lemma wf_plan_graph p : wf_plan p ->
  NoDup (map pm_id (plan_milestones p)) /\ Forall milestone_ok (plan_milestones p) /\
  dependencies_resolved (plan_milestones p) /\ acyclic (milestone_edges (plan_milestones p)).
Proof.
  intros (_ & Hok & (_ & _ & _ & _ & Hne & Hd & Hv)%plan_post_init_Ok).
  split_and!; [done..| |]; by apply validate_milestone_graph_iff.
Qed.

Lemma topological_order_ok p : wf_plan p ->
  exists order, topological_order p = Ok order /\
  order ≡ₚ map pm_id (plan_milestones p) /\
  ordered_by (milestone_edges (plan_milestones p)) order /\
  least_first (milestone_edges (plan_milestones p)) order.
Proof.
  intros (Hd & Hok & Hr & Hac)%wf_plan_graph.
  destruct (orders_all _ Hd Hr Hac) as (o & Ho & Hp & Hob & Hlf).
  exists o. split_and!; [|done..].
  unfold topological_order. rewrite Ho. cbn.
  rewrite (proj2 (remove_dups_length_eq _) Hd), (Permutation_length Hp), Nat.eqb_refl. done.
Qed.

(** The topological order of every constructed plan exists (the closing
    assertion never fails), lists every milestone once, after all of its
    dependencies, and picks the least identifier among the ready ones. *)
Theorem topological_order_spec (p : Plan) (Hwf : wf_plan p) :
  exists order, topological_order p = Ok order /\
  order ≡ₚ map pm_id (plan_milestones p) /\
  (forall pre x post d, order = pre ++ x :: post ->
     milestone_depends (plan_milestones p) d x -> d ∈ pre) /\
  (forall pre x post y, order = pre ++ x :: post -> y ∈ post ->
     (forall d, milestone_depends (plan_milestones p) d y -> d ∈ pre) -> String.le x y).
Proof.
  destruct (topological_order_ok p Hwf) as (o & Ho & Hp & Hob & Hlf).
  exists o. split_and!; [done|done| |].
  - intros pre x post d Heq. by apply (Hob pre x post).
  - intros pre x post y Heq. by apply (Hlf pre x post).
Qed.

Definition sample_plan : Plan := {|
  plan_id := "plan-1"; plan_source_provider := "github"; plan_external_reference := "ref";
  plan_source_snapshot_reference := "snap"; plan_milestones := sample_milestones |}.
Lemma sample_plan_wf : wf_plan sample_plan.
Proof. split_and!; [reflexivity|apply sample_milestones_ok|reflexivity]. Qed.

Lemma topological_order_spec_witness :
  topological_order sample_plan = Ok ["m1"; "m2"; "m3"] /\
  ["m1"; "m2"; "m3"] ≡ₚ map pm_id sample_milestones.
Proof.
  destruct (topological_order_spec sample_plan sample_plan_wf) as (o & Ho & Hp & _).
  assert (Hc : topological_order sample_plan = Ok ["m1"; "m2"; "m3"]) by reflexivity.
  split; [exact Hc|]. rewrite Hc in Ho. injection Ho as <-. exact Hp.
Defined.

Lemma milestone_edges_perm ms ms' :
  ms ≡ₚ ms' -> milestone_edges ms ≡ₚ milestone_edges ms'.
Proof.
  intros Hp. unfold milestone_edges, edges_of.
  induction Hp as [| |x y l|]; cbn; [done|by f_equiv| |by etrans].
  rewrite !(assoc_L (++)). f_equiv. apply (comm (++)).
Qed.

(** Two constructed plans with the same milestones in any declaration order
    have the same topological order. *)
Theorem topological_order_declaration_independent (p p' : Plan)
    (Hwf : wf_plan p) (Hwf' : wf_plan p')
    (Hsame : plan_milestones p ≡ₚ plan_milestones p') :
  topological_order p = topological_order p'.
Proof.
  destruct (topological_order_ok p Hwf) as (o & Ho & Hp & Hob & Hlf).
  destruct (topological_order_ok p' Hwf') as (o' & Ho' & Hp' & Hob' & Hlf').
  rewrite Ho, Ho'. f_equal.
  assert (Hdep : forall d k, milestone_depends (plan_milestones p) d k <->
    milestone_depends (plan_milestones p') d k).
  { intros d k. unfold depends_on. by rewrite (milestone_edges_perm _ _ Hsame). }
  apply (least_first_unique (milestone_edges (plan_milestones p))).
  - rewrite Hp, Hp', Hsame. done.
  - rewrite Hp. by destruct (wf_plan_graph p Hwf).
  - done.
  - intros pre x post Heq d Hd. by eapply Hob', Hdep.
  - done.
  - intros pre x post Heq y Hy Hd. eapply Hlf'; [done|done|].
    intros d Hdy. by apply Hd, Hdep.
Qed.

Lemma topological_order_declaration_independent_witness :
  topological_order sample_plan =
  topological_order {|
    plan_id := "plan-2"; plan_source_provider := "p"; plan_external_reference := "r";
    plan_source_snapshot_reference := "s"; plan_milestones := reverse sample_milestones |}.
Proof.
  apply (topological_order_declaration_independent sample_plan {|
    plan_id := "plan-2"; plan_source_provider := "p"; plan_external_reference := "r";
    plan_source_snapshot_reference := "s"; plan_milestones := reverse sample_milestones |}).
  - exact sample_plan_wf.
  - split_and!; [reflexivity|repeat constructor|reflexivity].
  - symmetry. apply reverse_Permutation.
Defined.

(** ** Mapping round trip *)
Lemma mapM_json_str l : mapM json_str (map JStr l) = Some l.
Proof. induction l as [|s l IH]; [done|]. cbn. by rewrite IH. Qed.
Lemma mapM_identifiers l : Forall valid_identifier l -> mapM_result mk_identifier l = Ok l.
Proof. intros H. apply mapM_result_Ok. induction H; by constructor. Qed.

Lemma plan_milestone_roundtrip m :
  milestone_ok m -> plan_milestone_from_mapping (plan_milestone_to_mapping m) = Ok m.
Proof.
  intros (Hid & Hds & Hpi). apply plan_milestone_post_init_Ok in Hpi as Hf.
  destruct Hf as (_ & Ht & Ho & Hr & _). destruct m as [i t o ac r rc ds].
  cbn [pm_id pm_title pm_objective pm_repository pm_dependencies] in *.
  unfold plan_milestone_from_mapping, plan_milestone_to_mapping.
  cbn [pm_id pm_title pm_objective pm_acceptance_criteria pm_repository pm_risk_class
       pm_dependencies].
  pose proof (enum_of_value_of rc) as Hrc. revert Hrc. generalize (enum_value rc).
  intros rv Hrc. match goal with |- context [has_unknown_keys ?l ?k] =>
    change (has_unknown_keys l k) with false end.
  cbn -[mapM mapM_result plan_milestone_post_init parse_risk_class].
  rewrite (valid_identifier_nonblank _ Hid). cbn -[mapM mapM_result plan_milestone_post_init parse_risk_class].
  rewrite Hid. cbn -[mapM mapM_result plan_milestone_post_init parse_risk_class].
  rewrite Ht. cbn -[mapM mapM_result plan_milestone_post_init parse_risk_class].
  rewrite Ho. cbn -[mapM mapM_result plan_milestone_post_init parse_risk_class].
  rewrite Hr. cbn -[mapM mapM_result plan_milestone_post_init parse_risk_class].
  unfold parse_risk_class. rewrite Hrc.
  cbn -[mapM mapM_result plan_milestone_post_init]. rewrite !mapM_json_str.
  cbn -[mapM_result plan_milestone_post_init]. by rewrite mapM_identifiers.
Qed.

Abbreviation only_invalid_input := (raises_only (eq InvalidInputError)).

Lemma mk_identifier_raises s : only_invalid_input (mk_identifier s).
Proof. by intros e ->%mk_identifier_Err. Qed.
Lemma require_non_blank_value_raises v : only_invalid_input (require_non_blank_value v).
Proof. unfold require_non_blank_value. raises. Qed.
Lemma require_str_tuple_raises raw k b : only_invalid_input (require_str_tuple raw k b).
Proof. unfold require_str_tuple. destruct (dict_get k raw), b; raises. Qed.
#[export] Hint Resolve mk_identifier_raises require_non_blank_value_raises
  require_str_tuple_raises : raises.

Lemma plan_milestone_from_mapping_raises raw :
  only_invalid_input (plan_milestone_from_mapping raw).
Proof.
  unfold plan_milestone_from_mapping, parse_risk_class, plan_milestone_post_init,
    require_non_blank. raises.
Qed.
#[export] Hint Resolve plan_milestone_from_mapping_raises : raises.

Lemma mapM_identifiers_valid l k :
  mapM_result mk_identifier l = Ok k -> Forall valid_identifier k.
Proof.
  intros H%mapM_result_Ok. induction H as [|x y l k Hx _ IH]; constructor; [|done].
  by apply mk_identifier_Ok in Hx as [-> ?].
Qed.

Lemma plan_milestone_from_mapping_ok raw m :
  plan_milestone_from_mapping raw = Ok m -> milestone_ok m.
Proof.
  unfold plan_milestone_from_mapping. intros H. inv_ok.
  apply plan_milestone_post_init_Ok in H as Hf. destruct Hf as [-> _].
  split_and!; [|by eapply mapM_identifiers_valid|done].
  match goal with H : mk_identifier _ = Ok _ |- _ => by apply mk_identifier_Ok in H as [-> ?] end.
Qed.

Lemma milestone_entries_ok l ms :
  mapM_result milestone_entry l = Ok ms -> Forall milestone_ok ms.
Proof.
  intros H%mapM_result_Ok. induction H as [|x y l k Hx _ IH]; constructor; [|done].
  destruct x; try done. by eapply plan_milestone_from_mapping_ok.
Qed.
Lemma milestone_entries_roundtrip ms :
  Forall milestone_ok ms ->
  mapM_result milestone_entry (map (fun m => JObj (plan_milestone_to_mapping m)) ms) = Ok ms.
Proof.
  intros H. apply mapM_result_Ok. induction H as [|m ms Hm _ IH]; constructor; [|done].
  by apply plan_milestone_roundtrip.
Qed.

(** Decoding the mapping of a constructed plan gives the plan back; every
    plan decoding accepts is well formed (so its order exists); decoding fails
    only with [InvalidInputError]. *)
Theorem plan_mapping_roundtrip (p : Plan) (raw : list (string * json)) (Hwf : wf_plan p) :
  plan_from_mapping (plan_to_mapping p) = Ok p /\
  (forall q, plan_from_mapping raw = Ok q -> wf_plan q) /\
  only_invalid_input (plan_from_mapping raw).
Proof.
  split_and!.
  - destruct Hwf as (Hid & Hms & Hpi).
    apply plan_post_init_Ok in Hpi as Hf. destruct Hf as (_ & H1 & H2 & H3 & Hne & _).
    destruct p as [i sp er ss ms]. cbn in *. unfold plan_from_mapping.
    pose proof (milestone_entries_roundtrip ms Hms) as Hrt. revert Hrt.
    assert (Hes : map (fun m => JObj (plan_milestone_to_mapping m)) ms <> []) by (by destruct ms).
    revert Hes. unfold plan_to_mapping. cbn [plan_id plan_source_provider plan_external_reference
      plan_source_snapshot_reference plan_milestones].
    generalize (map (fun m => JObj (plan_milestone_to_mapping m)) ms). intros es Hes Hrt.
    cbn -[mapM_result plan_post_init]. rewrite (valid_identifier_nonblank _ Hid).
    cbn -[mapM_result plan_post_init]. rewrite Hid. cbn -[mapM_result plan_post_init].
    rewrite H1. cbn -[mapM_result plan_post_init]. rewrite H2.
    cbn -[mapM_result plan_post_init]. rewrite H3. cbn -[mapM_result plan_post_init].
    destruct es as [|e es]; [done|]. by rewrite Hrt.
  - intros q. unfold plan_from_mapping. intros H. inv_ok.
    apply plan_post_init_Ok in H as Hf. destruct Hf as [-> _].
    split_and!; [| |done].
    + match goal with H : mk_identifier _ = Ok _ |- _ => by apply mk_identifier_Ok in H as [-> ?] end.
    + cbn. match goal with H : match dict_get _ _ with _ => _ end = Ok _ |- _ =>
        revert H; destruct (dict_get "milestones" raw) as [[| | | | |[|]|]|]; try done;
        apply milestone_entries_ok end.
  - unfold plan_from_mapping, plan_post_init, validate_milestone_graph, require_non_blank,
      milestone_entry. raises.
Qed.

Lemma plan_mapping_roundtrip_witness :
  plan_from_mapping (plan_to_mapping sample_plan) = Ok sample_plan.
Proof. exact (proj1 (plan_mapping_roundtrip sample_plan [] sample_plan_wf)). Defined.
