(* ===== verification/PlanExecutions.v ===== *)
(** * Plan executions ([domain/plan_execution.py])

    The fan-out/join state of one running plan: a dict from milestone to its run
    link, kept as items in insertion order with unique keys. *)
From S2P Require Import Prelude PyText Json Identity StateMachine Lifecycles Aggregates Plans.

(** ** Milestone links *)
Record MilestoneRunLink := {
  ml_milestone_id : string; ml_state : MilestoneRunState; ml_run_id : option string }.
#[export] Instance MilestoneRunLink_eq_dec : EqDecision MilestoneRunLink.
Proof. solve_decision. Defined.

Definition BOUND_RUN_STATES : list MilestoneRunState :=
  [MS_REGISTERED; MS_SUCCEEDED; MS_BLOCKED; MS_FAILED].

Definition link_post_init (l : MilestoneRunLink) : result MilestoneRunLink :=
  raise_when bool_decide (ml_state l ∈ BOUND_RUN_STATES) && bool_decide (ml_run_id l = None)
    as InvalidInputError ;;
  raise_when bool_decide (ml_state l = MS_PENDING) && negb (bool_decide (ml_run_id l = None))
    as InvalidInputError ;;
  Ok l.

Definition link_transition_to (l : MilestoneRunLink) (target : MilestoneRunState)
    (run_id : option string) : result MilestoneRunLink :=
  _ ← require MILESTONE_RUN_TRANSITIONS (ml_state l) target;
  link_post_init {|
    ml_milestone_id := ml_milestone_id l; ml_state := target;
    ml_run_id := match run_id with Some _ => run_id | None => ml_run_id l end |}.

(** ** The execution *)
Inductive PlanExecutionState := PES_RUNNING | PES_SUCCEEDED | PES_BLOCKED | PES_FAILED | PES_CANCELLED.
#[export] Instance PlanExecutionState_eq_dec : EqDecision PlanExecutionState.
Proof. solve_decision. Defined.

Record PlanExecution := {
  pe_id : string; pe_plan_id : string; pe_plan_digest : Digest;
  pe_milestones : list (string * MilestoneRunLink); pe_aggregate_version : Z }.

Definition plan_execution_post_init (p : PlanExecution) : result PlanExecution :=
  raise_when bool_decide (pe_milestones p = []) as InvalidInputError ;;
  raise_when existsb (fun kv => negb (String.eqb (ml_milestone_id kv.2) kv.1)) (pe_milestones p)
    as InvalidInputError ;;
  raise_when (pe_aggregate_version p <? 0)%Z as InvalidInputError ;;
  Ok p.

(** [{link.state for link in self.milestones.values()}] *)
Definition pe_statuses (p : PlanExecution) : list MilestoneRunState :=
  map (fun kv => ml_state kv.2) (pe_milestones p).
Definition settled_states : list MilestoneRunState := [MS_SUCCEEDED; MS_CANCELLED].

(** The [state] property. *)
Definition pe_state (p : PlanExecution) : PlanExecutionState :=
  let statuses := pe_statuses p in
  if bool_decide (MS_FAILED ∈ statuses) then PES_FAILED
  else if bool_decide (MS_BLOCKED ∈ statuses) then PES_BLOCKED
  else if existsb (fun s => negb (bool_decide (s ∈ settled_states))) statuses then PES_RUNNING
  else if bool_decide (MS_CANCELLED ∈ statuses) then PES_CANCELLED
  else PES_SUCCEEDED.

Definition pe_link (p : PlanExecution) (milestone_id : string) : result MilestoneRunLink :=
  from_option_err InvalidInputError (dict_get milestone_id (pe_milestones p)).

Definition run_id_for (p : PlanExecution) (milestone_id : string) : result (option string) :=
  l ← pe_link p milestone_id; Ok (ml_run_id l).

Definition with_milestone (p : PlanExecution) (l : MilestoneRunLink) : result PlanExecution :=
  raise_when negb (bool_decide (ml_milestone_id l ∈ (pe_milestones p).*1))
    as InvalidInputError ;;
  plan_execution_post_init {|
    pe_id := pe_id p; pe_plan_id := pe_plan_id p; pe_plan_digest := pe_plan_digest p;
    pe_milestones := dict_set (ml_milestone_id l) l (pe_milestones p);
    pe_aggregate_version := pe_aggregate_version p + 1 |}.

Definition pending_link (milestone_id : string) : MilestoneRunLink :=
  {| ml_milestone_id := milestone_id; ml_state := MS_PENDING; ml_run_id := None |}.

(** [PlanExecution.initial] *)
Definition pe_initial (plan_execution_id plan_id : string) (plan_digest : Digest)
    (milestone_ids : list string) : result PlanExecution :=
  plan_execution_post_init {|
    pe_id := plan_execution_id; pe_plan_id := plan_id; pe_plan_digest := plan_digest;
    pe_milestones := foldl (fun d i => dict_set i (pending_link i) d) [] milestone_ids;
    pe_aggregate_version := 0 |}.

(** ** Mapping form *)
(** [str(x) if x is not None else None] *)
Definition opt_str (o : option string) : json :=
  match o with Some s => JStr s | None => JNull end.
Definition link_to_mapping (l : MilestoneRunLink) : json := JObj [
  ("milestone_id", JStr (ml_milestone_id l));
  ("state", JStr (enum_value (ml_state l)));
  ("run_id", opt_str (ml_run_id l))].
Definition pe_to_mapping (p : PlanExecution) : list (string * json) := [
  ("id", JStr (pe_id p)); ("plan_id", JStr (pe_plan_id p));
  ("plan_digest", JStr (digest_str (pe_plan_digest p)));
  ("milestones", JObj (map (fun kv => (kv.1, link_to_mapping kv.2)) (pe_milestones p)));
  ("aggregate_version", JInt (pe_aggregate_version p))].

(** [_str] *)
Definition mapping_str (raw : list (string * json)) (key : string) : result string :=
  require_non_blank_value (dict_get key raw).

Definition link_from_entry (entry : json) : result MilestoneRunLink :=
  match entry with
  | JObj entry =>
      id_text ← mapping_str entry "milestone_id";
      milestone_id ← mk_identifier id_text;
      state_text ← mapping_str entry "state";
      state ← enum_of_value state_text;
      run_id ← match dict_get "run_id" entry with
               | Some (JStr r) => Some <$> mk_identifier r
               | _ => Ok None
               end;
      link_post_init {| ml_milestone_id := milestone_id; ml_state := state; ml_run_id := run_id |}
  | _ => Err InvalidInputError
  end.

(** One iteration of the [milestones_raw.items()] loop: Python evaluates the value
    before the key. *)
Definition pe_add_entry (milestones : list (string * MilestoneRunLink)) (kv : string * json)
    : result (list (string * MilestoneRunLink)) :=
  link ← link_from_entry kv.2;
  key ← mk_identifier kv.1;
  Ok (dict_set key link milestones).

Definition pe_from_mapping (raw : list (string * json)) : result PlanExecution :=
  id_text ← mapping_str raw "id"; plan_execution_id ← mk_identifier id_text;
  plan_text ← mapping_str raw "plan_id"; pid ← mk_identifier plan_text;
  digest_text ← mapping_str raw "plan_digest"; plan_digest ← digest_of_str digest_text;
  milestones ← match dict_get "milestones" raw with
               | Some (JObj m) => foldM_result pe_add_entry m []
               | _ => Err InvalidInputError
               end;
  version ← match dict_get "aggregate_version" raw with
            | Some (JInt z) => Ok z
            | _ => Err InvalidInputError
            end;
  plan_execution_post_init {|
    pe_id := plan_execution_id; pe_plan_id := pid; pe_plan_digest := plan_digest;
    pe_milestones := milestones; pe_aggregate_version := version |}.

(** ** Well-formed executions *)
Definition link_ok (l : MilestoneRunLink) : Prop :=
  valid_identifier (ml_milestone_id l) /\
  (forall r, ml_run_id l = Some r -> valid_identifier r) /\ link_post_init l = Ok l.
Record wf_plan_execution (p : PlanExecution) : Prop := {
  wpe_id : valid_identifier (pe_id p);
  wpe_plan : valid_identifier (pe_plan_id p);
  wpe_digest : wf_digest (pe_plan_digest p);
  wpe_keys : NoDup (pe_milestones p).*1;
  wpe_links : Forall (fun kv => link_ok kv.2) (pe_milestones p);
  wpe_init : plan_execution_post_init p = Ok p;
}.

Lemma link_post_init_Ok l l' : link_post_init l = Ok l' <->
  l' = l /\ (ml_state l ∈ BOUND_RUN_STATES -> ml_run_id l <> None) /\
  (ml_state l = MS_PENDING -> ml_run_id l = None).
Proof.
  unfold link_post_init. rewrite !raise_if_Ok, !andb_false_iff, negb_false_iff.
  rewrite !bool_decide_eq_false, bool_decide_eq_true.
  destruct (ml_run_id l); [|].
  - split; [naive_solver|]. intros (-> & _ & Hp). split_and!; [by right| |done].
    left. intros H. by apply Hp in H.
  - split; [intros (? & ? & [= <-]); naive_solver|].
    intros (-> & Hb & _). split_and!; [|by right|done]. left. intros H. by apply Hb.
Qed.
Lemma plan_execution_post_init_Ok p p' : plan_execution_post_init p = Ok p' <->
  p' = p /\ pe_milestones p <> [] /\ (0 <= pe_aggregate_version p)%Z /\
  Forall (fun kv => ml_milestone_id kv.2 = kv.1) (pe_milestones p).
Proof.
  unfold plan_execution_post_init. rewrite !raise_if_Ok, bool_decide_eq_false, Z.ltb_ge.
  rewrite <- not_true_iff_false, existsb_exists, Forall_forall. split.
  - intros (Hne & Hk & Hv & [= <-]). split_and!; [done..|]. intros [k l] Hin.
    destruct (String.eqb_spec (ml_milestone_id l) k) as [|Hn]; [done|]. destruct Hk.
    exists (k, l). split; [by apply list_elem_of_In|]. cbn. by apply String.eqb_neq in Hn as ->.
  - intros (-> & Hne & Hv & Hk). split_and!; [done| |done|done].
    intros ([k l] & Hin%list_elem_of_In & Hn). cbn in Hn. apply Hk in Hin. cbn in Hin.
    by rewrite Hin, String.eqb_refl in Hn.
Qed.
