(* ===== verification/PlanExecutionProofs.v ===== *)
(** * Plan execution theorems

    The roll-up precedence, the mapping round trip, and what any sequence of link
    advances preserves and how long it can be. *)
From S2P Require Import Prelude PyText Json Identity StateMachine Lifecycles Aggregates Plans.
From S2P Require Import PlanExecutions.

(** ** Roll-up *)
Lemma elem_of_statuses p s :
  s ∈ pe_statuses p <-> exists k l, (k, l) ∈ pe_milestones p /\ ml_state l = s.
Proof.
  unfold pe_statuses. rewrite list_elem_of_fmap. split.
  - intros ([k l] & -> & Hin). by exists k, l.
  - intros (k & l & Hin & <-). by exists (k, l).
Qed.
Lemma unsettled_check (l : list MilestoneRunState) :
  existsb (fun s => negb (bool_decide (s ∈ settled_states))) l = true <->
  exists s, s ∈ l /\ s ∉ settled_states.
Proof.
  rewrite existsb_exists. split.
  - intros (s & Hs%list_elem_of_In & Hn). exists s. split; [done|].
    by apply negb_true_iff, bool_decide_eq_false in Hn.
  - intros (s & Hs & Hn). exists s. split; [by apply list_elem_of_In|].
    by apply negb_true_iff, bool_decide_eq_false.
Qed.

(** The roll-up: [failed] exactly when some milestone failed; [blocked] exactly
    when none failed and one is blocked; [running] exactly when none failed or is
    blocked and one is not settled; [succeeded] exactly when every milestone
    succeeded; [cancelled] in the remaining case, when all are settled and one was
    cancelled. *)
Theorem plan_rollup_spec (p : PlanExecution) :
  let has s := exists k l, (k, l) ∈ pe_milestones p /\ ml_state l = s in
  let all P := forall k l, (k, l) ∈ pe_milestones p -> P (ml_state l) in
  (pe_state p = PES_FAILED <-> has MS_FAILED) /\
  (pe_state p = PES_BLOCKED <-> ~ has MS_FAILED /\ has MS_BLOCKED) /\
  (pe_state p = PES_RUNNING <->
     ~ has MS_FAILED /\ ~ has MS_BLOCKED /\ (has MS_PENDING \/ has MS_REGISTERED)) /\
  (pe_state p = PES_SUCCEEDED <-> all (fun s => s = MS_SUCCEEDED)) /\
  (pe_state p = PES_CANCELLED <->
     all (fun s => s = MS_SUCCEEDED \/ s = MS_CANCELLED) /\ has MS_CANCELLED).
Proof.
  intros has all.
  assert (Hhas : forall s, has s <-> s ∈ pe_statuses p)
    by (intros s; symmetry; apply elem_of_statuses).
  assert (Hall : forall P : MilestoneRunState -> Prop,
    all P <-> forall s, s ∈ pe_statuses p -> P s).
  { intros P. split.
    - intros H s (k & l & Hin & <-)%elem_of_statuses. by eapply H.
    - intros H k l Hin. apply H, elem_of_statuses. by exists k, l. }
  rewrite !Hall, !Hhas. clearbody has all. clear Hhas Hall. unfold pe_state.
  generalize (pe_statuses p) as l. clear. intros l.
  destruct (existsb (fun s => negb (bool_decide (s ∈ settled_states))) l) eqn:Hu.
  - apply unsettled_check in Hu as (s & Hs & Hn).
    assert (Hns : s <> MS_SUCCEEDED /\ s <> MS_CANCELLED) by set_solver.
    assert (Hrun : MS_FAILED ∉ l -> MS_BLOCKED ∉ l -> MS_PENDING ∈ l \/ MS_REGISTERED ∈ l)
      by (destruct s; intuition).
    clear Hn. repeat case_bool_decide; split_and!; split; try done; intros;
      repeat match goal with
             | H : _ /\ _ |- _ => destruct H
             | H : forall s, s ∈ l -> _ |- _ => specialize (H s Hs)
             end;
      intuition congruence.
  - assert (Hset : forall s, s ∈ l -> s ∈ settled_states).
    { intros s Hs. destruct (decide (s ∈ settled_states)) as [|Hn]; [done|].
      assert (existsb (fun s => negb (bool_decide (s ∈ settled_states))) l = true); [|congruence].
      apply unsettled_check. by exists s. }
    assert (Hset' : forall s, s ∈ l -> s = MS_SUCCEEDED \/ s = MS_CANCELLED) by set_solver.
    assert (Hno : MS_FAILED ∉ l /\ MS_BLOCKED ∉ l /\ MS_PENDING ∉ l /\ MS_REGISTERED ∉ l)
      by (split_and!; intros Hin%Hset'; by destruct Hin).
    clear Hu Hset. destruct Hno as (Hf & Hb & Hp & Hr).
    assert (Hall : MS_CANCELLED ∉ l -> forall s, s ∈ l -> s = MS_SUCCEEDED)
      by (intros Hc s Hs; destruct (Hset' s Hs) as [Hx|Hx]; [done|by rewrite Hx in Hs]).
    assert (Hcan : (forall s, s ∈ l -> s = MS_SUCCEEDED) -> MS_CANCELLED ∉ l)
      by (intros H Hin; by apply H in Hin).
    rewrite (bool_decide_eq_false_2 _ Hf), (bool_decide_eq_false_2 _ Hb).
    case_bool_decide; intuition congruence.
Qed.

(** ** Mapping round trip *)
Lemma nonblank_roundtrip s :
  blank s = false -> require_non_blank_value (Some (JStr s)) = Ok s.
Proof. cbn. by intros ->. Qed.
Lemma enum_value_milestone_nonblank (s : MilestoneRunState) : blank (enum_value s) = false.
Proof. by destruct s. Qed.
Lemma digest_str_nonblank d : wf_digest d -> blank (digest_str d) = false.
Proof. intros [Ha _]. unfold digest_str. apply nonblank_app. by rewrite Ha. Qed.

(** A link's entry is read by key, whatever the order of its keys. *)
Lemma link_from_fields l entry : link_ok l ->
  dict_get "milestone_id" entry = Some (JStr (ml_milestone_id l)) ->
  dict_get "state" entry = Some (JStr (enum_value (ml_state l))) ->
  dict_get "run_id" entry = Some (opt_str (ml_run_id l)) ->
  link_from_entry (JObj entry) = Ok l.
Proof.
  intros (Hid & Hrun & Hpi) H1 H2 H3. destruct l as [i s r]. cbn [ml_milestone_id ml_state ml_run_id] in *.
  unfold link_from_entry, mapping_str. rewrite H1, H2, H3.
  rewrite (nonblank_roundtrip i) by (by apply valid_identifier_nonblank).
  cbn [mbind result_bind]. rewrite Hid. cbn [mbind result_bind].
  rewrite (nonblank_roundtrip (enum_value s)) by apply enum_value_milestone_nonblank.
  cbn [mbind result_bind]. rewrite enum_of_value_of. cbn [mbind result_bind].
  destruct r as [r|]; cbn -[link_post_init]; [|done]. by rewrite (Hrun r eq_refl).
Qed.
Lemma link_roundtrip l : link_ok l -> link_from_entry (link_to_mapping l) = Ok l.
Proof. intros Hl. by apply link_from_fields. Qed.

Lemma pe_add_entry_Ok j l acc : link_from_entry j = Ok l -> link_ok l ->
  pe_add_entry acc (ml_milestone_id l, j) = Ok (dict_set (ml_milestone_id l) l acc).
Proof.
  intros Hj [Hid _]. unfold pe_add_entry. cbn [fst snd]. rewrite Hj. cbn [mbind result_bind].
  by rewrite Hid.
Qed.
(** The loop over the entries, for any encoding [g] of links that decodes. *)
Lemma pe_entries_roundtrip (g : MilestoneRunLink -> json) m acc :
  (forall l, link_ok l -> link_from_entry (g l) = Ok l) ->
  NoDup (acc ++ m).*1 -> Forall (fun kv => link_ok kv.2) m ->
  Forall (fun kv => ml_milestone_id kv.2 = kv.1) m ->
  foldM_result pe_add_entry (map (fun kv => (kv.1, g kv.2)) m) acc = Ok (acc ++ m).
Proof.
  intros Hg. revert acc. induction m as [|[k l] m IH]; intros acc Hd Hl Hk.
  { by rewrite app_nil_r. }
  inversion Hl as [|?? Hl1 Hl2]; inversion Hk as [|?? Hk1 Hk2]; subst. cbn [fst snd] in *.
  subst k. cbn [map foldM_result fst snd].
  rewrite (pe_add_entry_Ok _ l acc (Hg l Hl1) Hl1). cbn [mbind result_bind].
  rewrite dict_set_fresh.
  - rewrite IH; [by rewrite <- (assoc_L (++))| |done|done].
    by rewrite <- (assoc_L (++)).
  - rewrite fmap_app, fmap_cons in Hd. cbn in Hd. apply NoDup_app in Hd. set_solver.
Qed.

(** An execution is read by key too. *)
Lemma pe_from_fields p raw em : wf_plan_execution p ->
  dict_get "id" raw = Some (JStr (pe_id p)) ->
  dict_get "plan_id" raw = Some (JStr (pe_plan_id p)) ->
  dict_get "plan_digest" raw = Some (JStr (digest_str (pe_plan_digest p))) ->
  dict_get "milestones" raw = Some (JObj em) ->
  foldM_result pe_add_entry em [] = Ok (pe_milestones p) ->
  dict_get "aggregate_version" raw = Some (JInt (pe_aggregate_version p)) ->
  pe_from_mapping raw = Ok p.
Proof.
  intros [H1 H2 H3 H4 H5 H6] G1 G2 G3 G4 G5 G6. unfold pe_from_mapping, mapping_str.
  rewrite G1, G2, G3, G4, G5, G6.
  rewrite (nonblank_roundtrip (pe_id p)) by (by apply valid_identifier_nonblank).
  cbn [mbind result_bind]. rewrite H1. cbn [mbind result_bind].
  rewrite (nonblank_roundtrip (pe_plan_id p)) by (by apply valid_identifier_nonblank).
  cbn [mbind result_bind]. rewrite H2. cbn [mbind result_bind].
  rewrite (nonblank_roundtrip (digest_str _)) by (by apply digest_str_nonblank).
  cbn [mbind result_bind]. rewrite (digest_of_str_str _ H3). cbn [mbind result_bind].
  by destruct p.
Qed.

(** Decoding the mapping of a well-formed plan execution gives it back. *)
Theorem plan_execution_roundtrip (p : PlanExecution) (Hwf : wf_plan_execution p) :
  pe_from_mapping (pe_to_mapping p) = Ok p.
Proof.
  destruct Hwf as [H1 H2 H3 H4 H5 H6] eqn:Hw. clear Hw.
  apply plan_execution_post_init_Ok in H6 as Hf. destruct Hf as (_ & _ & _ & Hk).
  eapply pe_from_fields; [done|reflexivity..| |reflexivity].
  by rewrite (pe_entries_roundtrip link_to_mapping _ [] link_roundtrip).
Qed.

Definition sample_plan_execution : PlanExecution := {|
  pe_id := "pe-1"; pe_plan_id := "plan-1";
  pe_plan_digest := {| algorithm := "sha256"; hex_value :=
    "0000000000000000000000000000000000000000000000000000000000000000" |};
  pe_milestones := [("m1", {| ml_milestone_id := "m1"; ml_state := MS_REGISTERED;
                              ml_run_id := Some "run-1" |}); ("m2", pending_link "m2")];
  pe_aggregate_version := 1 |}.
Lemma sample_plan_execution_wf : wf_plan_execution sample_plan_execution.
Proof.
  split; [reflexivity|reflexivity|split; reflexivity| | |reflexivity].
  - apply (bool_decide_unpack _). reflexivity.
  - repeat constructor; intros r [= <-]; reflexivity.
Qed.
Lemma plan_execution_roundtrip_witness :
  pe_from_mapping (pe_to_mapping sample_plan_execution) = Ok sample_plan_execution.
Proof. exact (plan_execution_roundtrip sample_plan_execution sample_plan_execution_wf). Defined.

(** ** Advancing links *)
(** [execution.with_milestone(execution.link(m).transition_to(target, run_id=r))],
    the only way the coordinator changes an execution. *)
Definition advance_op : Type := string * MilestoneRunState * option string.
Definition pe_advance (p : PlanExecution) (o : advance_op) : result PlanExecution :=
  let '(m, target, r) := o in
  l ← pe_link p m;
  l' ← link_transition_to l target r;
  with_milestone p l'.

Definition link_terminal (s : MilestoneRunState) : bool :=
  is_terminal MILESTONE_RUN_TRANSITIONS s.
(** How many transitions a link can still make. *)
Definition link_budget (s : MilestoneRunState) : nat :=
  match s with MS_PENDING => 2 | MS_REGISTERED => 1 | _ => 0 end.
Definition pe_budget (p : PlanExecution) : nat :=
  sum_list_with (fun kv => link_budget (ml_state kv.2)) (pe_milestones p).

Lemma link_transition_to_Ok l t r l' : link_transition_to l t r = Ok l' ->
  tstep MILESTONE_RUN_TRANSITIONS (ml_state l) t /\ ml_state l' = t /\
  ml_milestone_id l' = ml_milestone_id l /\ link_post_init l' = Ok l' /\
  ml_run_id l' = match r with Some _ => r | None => ml_run_id l end.
Proof.
  unfold link_transition_to. rewrite bind_Ok. intros (u & Hu%require_Ok & H).
  apply link_post_init_Ok in H as Hf. destruct Hf as [-> _]. done.
Qed.
Lemma link_budget_step s t :
  tstep MILESTONE_RUN_TRANSITIONS s t -> link_budget t < link_budget s.
Proof. destruct s, t; try discriminate; intros _; cbn; lia. Qed.

Lemma dict_set_budget k l l' m :
  dict_get k m = Some l ->
  sum_list_with (fun kv : string * MilestoneRunLink => link_budget (ml_state kv.2))
    (dict_set k l' m) + link_budget (ml_state l) =
  sum_list_with (fun kv => link_budget (ml_state kv.2)) m + link_budget (ml_state l').
Proof.
  induction m as [|[k2 l2] m IH]; [done|]. rewrite dict_get_cons. cbn [dict_set].
  destruct (String.eqb_spec k k2) as [->|Hn].
  - rewrite decide_True by done. intros [= ->]. cbn. lia.
  - rewrite decide_False by done. intros H%IH. cbn in *. lia.
Qed.

Lemma pe_advance_Ok p m t r p' :
  wf_plan_execution p -> pe_advance p (m, t, r) = Ok p' ->
  exists l l', dict_get m (pe_milestones p) = Some l /\
    link_transition_to l t r = Ok l' /\ ml_milestone_id l = m /\
    pe_milestones p' = dict_set m l' (pe_milestones p) /\
    pe_id p' = pe_id p /\ pe_plan_id p' = pe_plan_id p /\
    pe_plan_digest p' = pe_plan_digest p /\
    pe_aggregate_version p' = (pe_aggregate_version p + 1)%Z /\
    plan_execution_post_init p' = Ok p'.
Proof.
  intros [_ _ _ _ _ Hpi] H. apply plan_execution_post_init_Ok in Hpi as (_ & _ & _ & Hk).
  unfold pe_advance, pe_link in H. apply bind_Ok in H as (l & Hl & H).
  apply bind_Ok in H as (l' & Hl' & H). destruct (dict_get m _) as [l0|] eqn:Hg; [|done].
  injection Hl as ->. assert (Hm : ml_milestone_id l = m).
  { apply dict_get_Some_elem in Hg. rewrite Forall_forall in Hk. by apply (Hk (m, l)). }
  apply link_transition_to_Ok in Hl' as Hf. destruct Hf as (_ & _ & Hid & _).
  unfold with_milestone in H. apply raise_if_Ok in H as [_ H].
  apply plan_execution_post_init_Ok in H as Hf. destruct Hf as [-> _].
  exists l, l'. cbn [pe_milestones]. rewrite Hid, Hm in *. split_and!; done.
Qed.

Lemma pe_advance_wf p o p' :
  (forall r, o.2 = Some r -> valid_identifier r) ->
  wf_plan_execution p -> pe_advance p o = Ok p' -> wf_plan_execution p'.
Proof.
  destruct o as [[m t] r]. cbn. intros Hr Hwf H.
  destruct (pe_advance_Ok _ _ _ _ _ Hwf H)
    as (l & l' & Hg & Hl' & Hm & Hms & Hi & Hp & Hd & _ & Hpi).
  destruct Hwf as [H1 H2 H3 H4 H5 H6]. split; rewrite ?Hi, ?Hp, ?Hd; try done.
  - rewrite Hms, dict_set_keys; [done|]. by eapply dict_get_key.
  - rewrite Hms. apply dict_set_Forall; [|done]. cbn.
    apply dict_get_Some_elem in Hg. rewrite Forall_forall in H5.
    destruct (H5 _ Hg) as (Hv & Hrun & _).
    apply link_transition_to_Ok in Hl' as (_ & _ & Hid & Hpil & Hrid). cbn in *.
    split_and!; [by rewrite Hid| |done]. intros r'. rewrite Hrid. destruct r; eauto.
Qed.

Definition op_valid (o : advance_op) : Prop := forall r, o.2 = Some r -> valid_identifier r.

(** What [n] advances from [p] to [p'] preserve. *)
Record advanced (n : nat) (p p' : PlanExecution) : Prop := {
  adv_keys : (pe_milestones p').*1 = (pe_milestones p).*1;
  adv_version : pe_aggregate_version p' = (pe_aggregate_version p + Z.of_nat n)%Z;
  adv_settled : forall m l, dict_get m (pe_milestones p) = Some l ->
    link_terminal (ml_state l) = true -> dict_get m (pe_milestones p') = Some l;
  adv_budget : n + pe_budget p' <= pe_budget p;
}.

Lemma advanced_step n p q p' o :
  wf_plan_execution p -> pe_advance p o = Ok q -> advanced n q p' -> advanced (1 + n) p p'.
Proof.
  intros Hwf Hq [Hk Hv Hs Hb]. destruct o as [[m t] r].
  destruct (pe_advance_Ok _ _ _ _ _ Hwf Hq)
    as (l & l' & Hg & Hl' & _ & Hms & _ & _ & _ & Hver & _).
  apply link_transition_to_Ok in Hl' as (Hst & Ht & _). split.
  - rewrite Hk, Hms. apply dict_set_keys. by eapply dict_get_key.
  - lia.
  - intros m0 l0 Hg0 Ht0. apply Hs; [|done]. rewrite Hms, dict_get_set.
    case_decide as Hmm; [|done]. subst m0. rewrite Hg in Hg0. injection Hg0 as ->.
    by apply tstep_terminal in Hst.
  - apply link_budget_step in Hst. pose proof (dict_set_budget m l l' _ Hg) as Hb'.
    unfold pe_budget in *. rewrite Hms in Hb. rewrite Ht in Hb'. lia.
Qed.

Lemma bound_links p m l :
  wf_plan_execution p -> dict_get m (pe_milestones p) = Some l ->
  ml_state l = MS_PENDING \/ ml_state l = MS_CANCELLED \/ is_Some (ml_run_id l).
Proof.
  intros [_ _ _ _ Hl _] Hg%dict_get_Some_elem. rewrite Forall_forall in Hl.
  destruct (Hl _ Hg) as (_ & _ & (_ & Hb & _)%link_post_init_Ok). cbn in Hb.
  rewrite <- not_eq_None_Some.
  destruct (ml_state l); [by left|..|by right; left]; right; right; apply Hb; set_solver.
Qed.
Lemma pe_budget_bound p : pe_budget p <= 2 * length (pe_milestones p).
Proof.
  unfold pe_budget. induction (pe_milestones p) as [|[k l] ms IH]; cbn; [lia|].
  destruct (ml_state l); cbn; lia.
Qed.

(** Along any sequence of advances of a well-formed plan execution the state
    stays well formed and keeps its milestones in order, the version counts the
    advances, a milestone that has settled keeps its link (so a sibling's failure
    never rewrites a success), every milestone past pending that was not cancelled
    is bound to a run, and at most two advances per milestone succeed. *)
Theorem plan_execution_advances (p p' : PlanExecution) (os : list advance_op)
    (Hwf : wf_plan_execution p) (Hos : Forall op_valid os)
    (Hrun : foldM_result pe_advance os p = Ok p') :
  wf_plan_execution p' /\ (pe_milestones p').*1 = (pe_milestones p).*1 /\
  pe_aggregate_version p' = (pe_aggregate_version p + Z.of_nat (length os))%Z /\
  (forall m l, dict_get m (pe_milestones p) = Some l -> link_terminal (ml_state l) = true ->
     dict_get m (pe_milestones p') = Some l) /\
  (forall m l, dict_get m (pe_milestones p') = Some l ->
     ml_state l = MS_PENDING \/ ml_state l = MS_CANCELLED \/ is_Some (ml_run_id l)) /\
  length os <= 2 * length (pe_milestones p).
Proof.
  destruct (foldM_rounds pe_advance op_valid wf_plan_execution advanced) with (4 := Hwf) (5 := Hrun)
    as [Hwf' [Hk Hv Hs Hb]]; [|..|done|].
  - intros q _. split; [done|lia|done|lia].
  - intros q o q' n t Hq Ho Hadv. split; [by eapply pe_advance_wf|by eapply advanced_step].
  - split_and!; [done|done|done|done|by intros; eapply bound_links|].
    pose proof (pe_budget_bound p). lia.
Qed.

Definition sample_advances : list advance_op :=
  [("m1", MS_SUCCEEDED, None); ("m2", MS_REGISTERED, Some "run-2"); ("m2", MS_FAILED, None)].
Lemma plan_execution_advances_witness :
  exists p', foldM_result pe_advance sample_advances sample_plan_execution = Ok p' /\
    pe_state p' = PES_FAILED /\ pe_aggregate_version p' = 4%Z.
Proof.
  eexists. split; [reflexivity|]. split; [reflexivity|].
  eapply (plan_execution_advances sample_plan_execution _ sample_advances);
    [exact sample_plan_execution_wf| |reflexivity].
  repeat constructor; intros r Hr; first [discriminate Hr | injection Hr as <-; reflexivity].
Defined.
