(* ===== verification/Stacks.v ===== *)
(** * Branch stacks ([domain/stack.py])

    A stack is a dict of slices (items in insertion order, unique keys) whose
    positions are exactly 1..N. *)
From S2P Require Import Prelude PyText Json Identity StateMachine Lifecycles Aggregates Plans.
From S2P Require Import PlanExecutions.

(** ** Slices *)
Record StackSlice := {
  sl_milestone_id : string; sl_position : Z; sl_base_ref : string; sl_branch_ref : string;
  sl_state : StackSliceState; sl_head_revision : option string;
  sl_ci_evidence_digest : option Digest }.
#[export] Instance StackSlice_eq_dec : EqDecision StackSlice.
Proof. solve_decision. Defined.

Definition slice_post_init (s : StackSlice) : result StackSlice :=
  raise_when (sl_position s <? 1)%Z as InvalidInputError ;;
  _ ← require_non_blank (sl_base_ref s);
  _ ← require_non_blank (sl_branch_ref s);
  raise_when negb (bool_decide (sl_state s = SL_PENDING)) &&
             bool_decide (sl_head_revision s = None) as InvalidInputError ;;
  raise_when bool_decide (sl_state s = SL_PENDING) &&
             negb (bool_decide (sl_head_revision s = None)) as InvalidInputError ;;
  raise_when bool_decide (sl_state s = SL_MERGE_READY) &&
             bool_decide (sl_ci_evidence_digest s = None) as InvalidInputError ;;
  Ok s.

(** [replace(self, state=..., head_revision=..., ci_evidence_digest=...)] *)
Definition sl_with (s : StackSlice) (st : StackSliceState) (head : option string)
    (ci : option Digest) : StackSlice := {|
  sl_milestone_id := sl_milestone_id s; sl_position := sl_position s;
  sl_base_ref := sl_base_ref s; sl_branch_ref := sl_branch_ref s; sl_state := st;
  sl_head_revision := head; sl_ci_evidence_digest := ci |}.

Definition slice_publish (s : StackSlice) (head_revision : string) : result StackSlice :=
  _ ← require STACK_SLICE_TRANSITIONS (sl_state s) SL_PUBLISHED;
  _ ← require_non_blank head_revision;
  slice_post_init (sl_with s SL_PUBLISHED (Some head_revision) None).

Definition slice_mark_merge_ready (s : StackSlice) (head_revision : string)
    (ci_evidence_digest : Digest) : result StackSlice :=
  _ ← require STACK_SLICE_TRANSITIONS (sl_state s) SL_MERGE_READY;
  raise_when negb (bool_decide (sl_head_revision s = Some head_revision))
    as InvalidInputError ;;
  slice_post_init (sl_with s SL_MERGE_READY (sl_head_revision s) (Some ci_evidence_digest)).

Definition slice_mark_stale (s : StackSlice) : result StackSlice :=
  if bool_decide (sl_state s = SL_PENDING) then Ok s
  else
    _ ← require STACK_SLICE_TRANSITIONS (sl_state s) SL_STALE;
    slice_post_init (sl_with s SL_STALE (sl_head_revision s) None).

Definition slice_mark_merged (s : StackSlice) : result StackSlice :=
  _ ← require STACK_SLICE_TRANSITIONS (sl_state s) SL_MERGED;
  slice_post_init (sl_with s SL_MERGED (sl_head_revision s) (sl_ci_evidence_digest s)).

Definition slice_abandon (s : StackSlice) : result StackSlice :=
  _ ← require STACK_SLICE_TRANSITIONS (sl_state s) SL_ABANDONED;
  slice_post_init (sl_with s SL_ABANDONED (sl_head_revision s) (sl_ci_evidence_digest s)).

Definition slice_to_mapping (s : StackSlice) : list (string * json) := [
  ("milestone_id", JStr (sl_milestone_id s)); ("position", JInt (sl_position s));
  ("base_ref", JStr (sl_base_ref s)); ("branch_ref", JStr (sl_branch_ref s));
  ("state", JStr (enum_value (sl_state s))); ("head_revision", opt_str (sl_head_revision s));
  ("ci_evidence_digest", opt_str (digest_str <$> sl_ci_evidence_digest s))].

(** An [int] that is not a [bool]. *)
Definition require_int (v : option json) : result Z :=
  match v with Some (JInt z) => Ok z | _ => Err InvalidInputError end.

Definition slice_from_mapping (raw : list (string * json)) : result StackSlice :=
  position ← require_int (dict_get "position" raw);
  id_text ← mapping_str raw "milestone_id"; milestone_id ← mk_identifier id_text;
  base_ref ← mapping_str raw "base_ref";
  branch_ref ← mapping_str raw "branch_ref";
  state_text ← mapping_str raw "state"; state ← enum_of_value state_text;
  ci ← match dict_get "ci_evidence_digest" raw with
       | Some (JStr d) => Some <$> digest_of_str d
       | _ => Ok None
       end;
  slice_post_init {|
    sl_milestone_id := milestone_id; sl_position := position; sl_base_ref := base_ref;
    sl_branch_ref := branch_ref; sl_state := state;
    sl_head_revision := dict_get "head_revision" raw ≫= json_str;
    sl_ci_evidence_digest := ci |}.

(** ** Stacks *)
Record Stack := {
  st_id : string; st_plan_id : string; st_base_ref : string;
  st_slices : list (string * StackSlice); st_aggregate_version : Z }.

Definition st_positions (slices : list (string * StackSlice)) : list Z :=
  map (fun kv => sl_position kv.2) slices.
Definition stack_post_init (s : Stack) : result Stack :=
  raise_when bool_decide (st_slices s = []) as InvalidInputError ;;
  _ ← require_non_blank (st_base_ref s);
  raise_when existsb (fun kv => negb (String.eqb (sl_milestone_id kv.2) kv.1)) (st_slices s)
    as InvalidInputError ;;
  raise_when negb (bool_decide (merge_sort Z.le (st_positions (st_slices s)) =
                                range1 (length (st_slices s)))) as InvalidInputError ;;
  raise_when (st_aggregate_version s <? 0)%Z as InvalidInputError ;;
  Ok s.

Definition slice_le (x y : StackSlice) : Prop := (sl_position x <= sl_position y)%Z.
#[export] Instance slice_le_dec (x y : StackSlice) : Decision (slice_le x y).
Proof. unfold slice_le. apply _. Defined.
#[export] Instance slice_le_total : Total slice_le.
Proof. intros x y. unfold slice_le. lia. Qed.
#[export] Instance slice_le_trans : Transitive slice_le.
Proof. intros x y z. unfold slice_le. lia. Qed.

Definition ordered_slices (s : Stack) : list StackSlice :=
  merge_sort slice_le (map snd (st_slices s)).

Arguments ordered_slices : simpl never.

(** [Stack.slice] *)
Definition stack_slice (s : Stack) (milestone_id : string) : result StackSlice :=
  from_option_err InvalidInputError (dict_get milestone_id (st_slices s)).

Definition with_slice (s : Stack) (updated : StackSlice) : result Stack :=
  raise_when negb (bool_decide (sl_milestone_id updated ∈ (st_slices s).*1))
    as InvalidInputError ;;
  stack_post_init {|
    st_id := st_id s; st_plan_id := st_plan_id s; st_base_ref := st_base_ref s;
    st_slices := dict_set (sl_milestone_id updated) updated (st_slices s);
    st_aggregate_version := st_aggregate_version s + 1 |}.

(** One round of the loop of [reconcile_after_publish]. *)
Definition stale_later (position : Z) (current : Stack) (later : StackSlice) : result Stack :=
  if (position <? sl_position later)%Z
  then updated ← slice_mark_stale later; with_slice current updated
  else Ok current.

Definition reconcile_after_publish (s : Stack) (milestone_id head_revision : string)
    : result Stack :=
  target ← stack_slice s milestone_id;
  published ← slice_publish target head_revision;
  current ← with_slice s published;
  foldM_result (stale_later (sl_position target)) (ordered_slices current) current.

(** The loop of [next_mergeable] over the ordered slices. *)
Fixpoint first_mergeable (l : list StackSlice) : option string :=
  match l with
  | [] => None
  | s :: l =>
      if bool_decide (sl_state s = SL_MERGED) then first_mergeable l
      else if bool_decide (sl_state s = SL_MERGE_READY) then Some (sl_milestone_id s)
      else None
  end.
Definition next_mergeable (s : Stack) : option string := first_mergeable (ordered_slices s).

Definition stack_mark_merged (s : Stack) (milestone_id : string) : result Stack :=
  target ← stack_slice s milestone_id;
  raise_when existsb (fun earlier => (sl_position earlier <? sl_position target)%Z &&
                        negb (bool_decide (sl_state earlier = SL_MERGED))) (ordered_slices s)
    as InvalidInputError ;;
  merged ← slice_mark_merged target;
  with_slice s merged.

(** The [enumerate] loop of [Stack.initial]. *)
Fixpoint initial_slices (position : Z) (previous_branch : string)
    (ordered_milestones : list (string * string)) (slices : list (string * StackSlice))
    : result (list (string * StackSlice)) :=
  match ordered_milestones with
  | [] => Ok slices
  | (milestone_id, branch_ref) :: rest =>
      s ← slice_post_init {|
        sl_milestone_id := milestone_id; sl_position := position;
        sl_base_ref := previous_branch; sl_branch_ref := branch_ref; sl_state := SL_PENDING;
        sl_head_revision := None; sl_ci_evidence_digest := None |};
      initial_slices (position + 1) branch_ref rest (dict_set milestone_id s slices)
  end.
Definition stack_initial (stack_id plan_id base_ref : string)
    (ordered_milestones : list (string * string)) : result Stack :=
  slices ← initial_slices 1 base_ref ordered_milestones [];
  stack_post_init {| st_id := stack_id; st_plan_id := plan_id; st_base_ref := base_ref;
                     st_slices := slices; st_aggregate_version := 0 |}.

Definition stack_to_mapping (s : Stack) : list (string * json) := [
  ("id", JStr (st_id s)); ("plan_id", JStr (st_plan_id s)); ("base_ref", JStr (st_base_ref s));
  ("slices", JObj (map (fun kv => (kv.1, JObj (slice_to_mapping kv.2))) (st_slices s)));
  ("aggregate_version", JInt (st_aggregate_version s))].

Definition st_add_entry (slices : list (string * StackSlice)) (kv : string * json)
    : result (list (string * StackSlice)) :=
  s ← match kv.2 with JObj entry => slice_from_mapping entry | _ => Err InvalidInputError end;
  key ← mk_identifier kv.1;
  Ok (dict_set key s slices).

Definition stack_from_mapping (raw : list (string * json)) : result Stack :=
  slices ← match dict_get "slices" raw with
           | Some (JObj m) => foldM_result st_add_entry m []
           | _ => Err InvalidInputError
           end;
  version ← require_int (dict_get "aggregate_version" raw);
  id_text ← mapping_str raw "id"; stack_id ← mk_identifier id_text;
  plan_text ← mapping_str raw "plan_id"; pid ← mk_identifier plan_text;
  base_ref ← mapping_str raw "base_ref";
  stack_post_init {| st_id := stack_id; st_plan_id := pid; st_base_ref := base_ref;
                     st_slices := slices; st_aggregate_version := version |}.

(** ** Well-formed slices and stacks *)
Lemma slice_post_init_Ok s s' : slice_post_init s = Ok s' <->
  s' = s /\ (1 <= sl_position s)%Z /\ blank (sl_base_ref s) = false /\
  blank (sl_branch_ref s) = false /\ (sl_state s = SL_PENDING <-> sl_head_revision s = None) /\
  (sl_state s = SL_MERGE_READY -> sl_ci_evidence_digest s <> None).
Proof.
  unfold slice_post_init, require_non_blank, raise_if.
  destruct (Z.ltb_spec (sl_position s) 1); cbn; [split; [done|intros; lia]|].
  destruct (blank (sl_base_ref s)), (blank (sl_branch_ref s)); cbn; try naive_solver.
  repeat case_bool_decide; cbn; naive_solver.
Qed.

Record wf_stack (s : Stack) : Prop := {
  wst_id : valid_identifier (st_id s);
  wst_plan : valid_identifier (st_plan_id s);
  wst_keys : NoDup (st_slices s).*1;
  wst_slices : Forall (fun kv => valid_identifier (sl_milestone_id kv.2) /\
    (forall d, sl_ci_evidence_digest kv.2 = Some d -> wf_digest d) /\
    slice_post_init kv.2 = Ok kv.2) (st_slices s);
  wst_init : stack_post_init s = Ok s;
}.

Lemma stack_post_init_Ok s s' : stack_post_init s = Ok s' <->
  s' = s /\ st_slices s <> [] /\ blank (st_base_ref s) = false /\
  Forall (fun kv => sl_milestone_id kv.2 = kv.1) (st_slices s) /\
  merge_sort Z.le (st_positions (st_slices s)) = range1 (length (st_slices s)) /\
  (0 <= st_aggregate_version s)%Z.
Proof.
  assert (Hk : existsb (fun kv => negb (String.eqb (sl_milestone_id kv.2) kv.1)) (st_slices s)
    = false <-> Forall (fun kv => sl_milestone_id kv.2 = kv.1) (st_slices s)).
  { induction (st_slices s) as [|[k l] m IH]; cbn; [split; [constructor|done]|].
    rewrite Forall_cons, <- IH, orb_false_iff, negb_false_iff, String.eqb_eq. done. }
  unfold stack_post_init, require_non_blank, raise_if. rewrite <- Hk.
  destruct (existsb _ (st_slices s)), (blank (st_base_ref s)); cbn;
    repeat case_bool_decide; cbn; try naive_solver.
  destruct (Z.ltb_spec (st_aggregate_version s) 0); cbn; [|naive_solver].
  split; [done|]. intros (_ & _ & _ & _ & _ & ?). lia.
Qed.
