(* ===== verification/StackProofs.v ===== *)
(** * Stack theorems

    Root-to-leaf merging, what republishing a slice does to the ones above it, and
    the invariant every operation keeps. *)
From S2P Require Import Prelude PyText Json Identity StateMachine Lifecycles Aggregates Plans.
From S2P Require Import PlanExecutions Stacks.

(** ** Slices of a well-formed stack *)
Lemma dict_get_map_set {V W} (f : V -> W) k (v v' : V) m :
  dict_get k m = Some v -> f v' = f v ->
  map (fun kv => f kv.2) (dict_set k v' m) = map (fun kv => f kv.2) m.
Proof.
  intros Hg Hf. induction m as [|[k2 v2] m IH]; [done|]. rewrite dict_get_cons in Hg.
  cbn [dict_set]. destruct (String.eqb_spec k k2) as [->|Hn].
  - rewrite decide_True in Hg by done. injection Hg as ->. cbn. by rewrite Hf.
  - rewrite decide_False in Hg by done. cbn. by rewrite IH.
Qed.
Lemma dict_set_length {V} k (v v' : V) m :
  dict_get k m = Some v -> length (dict_set k v' m) = length m.
Proof.
  intros Hg. pose proof (dict_get_map_set (fun _ => ()) k v v' m Hg eq_refl) as H.
  apply (f_equal length) in H. by rewrite !length_map in H.
Qed.

Lemma wf_get s k sl : wf_stack s -> dict_get k (st_slices s) = Some sl ->
  sl_milestone_id sl = k /\ valid_identifier k /\
  (forall d, sl_ci_evidence_digest sl = Some d -> wf_digest d) /\ slice_post_init sl = Ok sl.
Proof.
  intros [_ _ _ Hs Hi] Hg%dict_get_Some_elem.
  apply stack_post_init_Ok in Hi as (_ & _ & _ & Hk & _).
  rewrite Forall_forall in Hk, Hs. specialize (Hk _ Hg). specialize (Hs _ Hg). cbn in *.
  subst k. destruct Hs as (? & ? & ?). done.
Qed.

(** The replacement every operation makes. *)
Definition st_set (s : Stack) (u : StackSlice) : Stack := {|
  st_id := st_id s; st_plan_id := st_plan_id s; st_base_ref := st_base_ref s;
  st_slices := dict_set (sl_milestone_id u) u (st_slices s);
  st_aggregate_version := st_aggregate_version s + 1 |}.

(** Replacing a slice by a valid one at the same position always succeeds. *)
Lemma with_slice_ok s sl u :
  wf_stack s -> dict_get (sl_milestone_id u) (st_slices s) = Some sl ->
  sl_position u = sl_position sl -> slice_post_init u = Ok u ->
  (forall d, sl_ci_evidence_digest u = Some d -> wf_digest d) ->
  with_slice s u = Ok (st_set s u) /\ wf_stack (st_set s u).
Proof.
  intros Hwf Hg Hpos Hpi Hci. pose proof (wf_get _ _ _ Hwf Hg) as (Hid & Hv & _).
  destruct Hwf as [H1 H2 H3 H4 H5].
  assert (Hin : sl_milestone_id u ∈ (st_slices s).*1).
  { by eapply dict_get_key. }
  apply stack_post_init_Ok in H5 as (_ & Hne & Hb & Hk & Hp & Hver).
  assert (Hpi' : stack_post_init (st_set s u) = Ok (st_set s u)).
  { apply stack_post_init_Ok. cbn. split_and!; [done|apply dict_set_nonempty|done| | |lia].
    - by apply dict_set_Forall.
    - unfold st_positions in *.
      by rewrite (dict_get_map_set sl_position _ sl), (dict_set_length _ sl). }
  split.
  - unfold with_slice. by rewrite bool_decide_eq_true_2.
  - split; [done|done| | |done].
    + cbn. by rewrite dict_set_keys.
    + by apply dict_set_Forall.
Qed.

Lemma Sorted_positions l : Sorted slice_le l -> Sorted Z.le (map sl_position l).
Proof.
  induction 1 as [|x l Hl IH Hh]; cbn; constructor; [done|].
  destruct Hh as [|y l Hxy]; cbn; by constructor.
Qed.

Section Ordered.
Context (s : Stack) (Hwf : wf_stack s).

Lemma ordered_slices_perm : ordered_slices s ≡ₚ map snd (st_slices s).
Proof. apply merge_sort_Permutation. Qed.

Lemma elem_of_ordered sl :
  sl ∈ ordered_slices s <-> dict_get (sl_milestone_id sl) (st_slices s) = Some sl.
Proof using Hwf.
  rewrite ordered_slices_perm, list_elem_of_fmap. pose proof Hwf as [_ _ Hd _ Hi].
  apply stack_post_init_Ok in Hi as (_ & _ & _ & Hk & _). rewrite Forall_forall in Hk. split.
  - intros ([k x] & -> & Hin). apply dict_get_elem; [done|].
    specialize (Hk _ Hin). cbn in *. by rewrite Hk.
  - intros Hg%dict_get_Some_elem. by exists (sl_milestone_id sl, sl).
Qed.

(** Positions in order are exactly 1..N. *)
Lemma ordered_positions :
  map sl_position (ordered_slices s) = range1 (length (st_slices s)).
Proof using Hwf.
  pose proof Hwf as [_ _ _ _ Hi]. apply stack_post_init_Ok in Hi as (_ & _ & _ & _ & Hp & _).
  rewrite <- Hp. apply (Sorted_unique Z.le).
  - apply Sorted_positions, (Sorted_merge_sort _).
  - apply (Sorted_merge_sort _).
  - rewrite merge_sort_Permutation. unfold st_positions.
    rewrite (Permutation_map sl_position ordered_slices_perm), map_map. done.
Qed.

Lemma range1_sorted n m : StronglySorted Z.lt (map Z.of_nat (seq m n)).
Proof.
  revert m. induction n as [|n IH]; intros m; cbn; constructor; [apply IH|].
  apply Forall_forall. intros z (k & -> & Hk)%list_elem_of_fmap.
  apply elem_of_seq in Hk. lia.
Qed.
Lemma ordered_strict : StronglySorted (fun x y => (sl_position x < sl_position y)%Z)
  (ordered_slices s).
Proof using Hwf.
  assert (H : StronglySorted Z.lt (map sl_position (ordered_slices s))).
  { rewrite ordered_positions. apply range1_sorted. }
  revert H. generalize (ordered_slices s). intros l. clear.
  induction l as [|x l IH]; [constructor|].
  intros H. inversion H as [|?? Hl Hall]; subst. constructor; [by apply IH|].
  apply Forall_forall. rewrite Forall_forall in Hall.
  intros y Hy. apply Hall, list_elem_of_fmap. by exists y.
Qed.

Lemma NoDup_ordered_ids : NoDup (map sl_milestone_id (ordered_slices s)).
Proof using Hwf.
  rewrite (Permutation_map sl_milestone_id ordered_slices_perm), map_map.
  pose proof Hwf as [_ _ Hd _ Hi]. apply stack_post_init_Ok in Hi as (_ & _ & _ & Hk & _).
  replace (map (fun x => sl_milestone_id x.2) (st_slices s)) with (st_slices s).*1; [done|].
  clear Hd. induction Hk as [|[k x] m Hx _ IH]; [done|]. cbn in *. by rewrite Hx, IH.
Qed.
End Ordered.

(** ** Republishing *)
Definition stale_of (x : StackSlice) : StackSlice :=
  if bool_decide (sl_state x = SL_PENDING) then x
  else sl_with x SL_STALE (sl_head_revision x) None.
(** The states in which a base that moves is recorded. *)
Definition can_stale (x : StackSlice) : bool :=
  bool_decide (sl_state x ∈ [SL_PENDING; SL_PUBLISHED; SL_MERGE_READY]).

Lemma sl_with_valid x st head ci :
  slice_post_init x = Ok x -> st <> SL_PENDING -> head <> None ->
  (st = SL_MERGE_READY -> ci <> None) ->
  slice_post_init (sl_with x st head ci) = Ok (sl_with x st head ci).
Proof.
  intros (_ & Hp & Hb & Hbr & _)%slice_post_init_Ok Hst Hh Hci.
  apply slice_post_init_Ok. cbn. split_and!; done.
Qed.
Lemma slice_head x : slice_post_init x = Ok x -> sl_state x <> SL_PENDING ->
  sl_head_revision x <> None.
Proof. intros (_ & _ & _ & _ & Hh & _)%slice_post_init_Ok Hn He. by apply Hn, Hh. Qed.

Lemma slice_mark_stale_eq x : slice_post_init x = Ok x ->
  slice_mark_stale x = (if can_stale x then Ok (stale_of x) else Err InvalidInputError) /\
  slice_post_init (stale_of x) = Ok (stale_of x).
Proof.
  intros Hx. assert (Hs : sl_state x <> SL_PENDING ->
    slice_post_init (sl_with x SL_STALE (sl_head_revision x) None)
    = Ok (sl_with x SL_STALE (sl_head_revision x) None)).
  { intros Hn. apply sl_with_valid; [done|done|by apply slice_head|done]. }
  unfold slice_mark_stale, can_stale, stale_of.
  destruct (sl_state x) eqn:E; cbn -[slice_post_init]; split;
    first [done | by rewrite Hs | by apply Hs].
Qed.

Lemma stale_of_id x : sl_milestone_id (stale_of x) = sl_milestone_id x.
Proof. unfold stale_of. by case_bool_decide. Qed.

(** One round of the loop. *)
Lemma stale_later_eq pos s x :
  wf_stack s -> dict_get (sl_milestone_id x) (st_slices s) = Some x ->
  stale_later pos s x =
    (if (pos <? sl_position x)%Z
     then if can_stale x then Ok (st_set s (stale_of x)) else Err InvalidInputError
     else Ok s) /\
  wf_stack (st_set s (stale_of x)).
Proof.
  intros Hwf Hx. destruct (wf_get _ _ _ Hwf Hx) as (_ & Hv & Hci & Hpi).
  destruct (slice_mark_stale_eq x Hpi) as [Hms Hpi'].
  destruct (with_slice_ok s x (stale_of x)) as [Hws Hwf'];
    [done|by rewrite stale_of_id|unfold stale_of; by case_bool_decide|done| |].
  { unfold stale_of. case_bool_decide; [done|]. cbn. done. }
  split; [|done]. unfold stale_later. rewrite Hms.
  destruct (pos <? sl_position x)%Z; [|done]. by destruct (can_stale x).
Qed.

(** The loop that marks later slices, over any part of the snapshot. *)
Definition later (pos : Z) (x : StackSlice) : bool := (pos <? sl_position x)%Z.
Definition restaled (pos : Z) (l : list StackSlice) (x : StackSlice) : StackSlice :=
  if bool_decide (x ∈ l) && later pos x then stale_of x else x.

Lemma restaled_cons pos x l y :
  y <> x \/ later pos x = false -> restaled pos (x :: l) y = restaled pos l y.
Proof.
  unfold restaled. destruct (decide (y = x)) as [->|Hne].
  - intros [|Hl]; [done|]. by rewrite Hl, !andb_false_r.
  - intros _. rewrite (bool_decide_ext (y ∈ x :: l) (y ∈ l)); [done|]. set_solver.
Qed.

Lemma stale_loop pos l s :
  wf_stack s -> NoDup (map sl_milestone_id l) ->
  (forall x, x ∈ l -> dict_get (sl_milestone_id x) (st_slices s) = Some x) ->
  if forallb (fun x => negb (later pos x) || can_stale x) l then
    exists s', foldM_result (stale_later pos) l s = Ok s' /\ wf_stack s' /\
      st_aggregate_version s' =
        (st_aggregate_version s + Z.of_nat (length (List.filter (later pos) l)))%Z /\
      (forall k, dict_get k (st_slices s') = restaled pos l <$> dict_get k (st_slices s))
  else foldM_result (stale_later pos) l s = Err InvalidInputError.
Proof.
  intros Hwf Hd Hin. revert s Hwf Hin. induction l as [|x l IH]; intros s Hwf Hin.
  { cbn. exists s. split_and!; [done|done|lia|]. intros k. by destruct (dict_get k _). }
  cbn [map] in Hd. apply NoDup_cons in Hd as [Hxl Hd]. specialize (IH Hd).
  assert (Hx : dict_get (sl_milestone_id x) (st_slices s) = Some x) by (apply Hin; left).
  destruct (stale_later_eq pos s x Hwf Hx) as [Hsl Hwf'].
  assert (Hxn : forall y, y ∈ l -> sl_milestone_id y <> sl_milestone_id x).
  { intros y Hy Heq. apply Hxl. rewrite <- Heq. apply list_elem_of_fmap. by exists y. }
  assert (Hxl' : stale_of x ∉ l) by (intros Hy; by apply (Hxn _ Hy), stale_of_id).
  cbn [forallb foldM_result List.filter]. rewrite Hsl. fold (later pos x).
  destruct (later pos x) eqn:Hl; cbn [negb orb].
  - destruct (can_stale x); cbn [andb mbind result_bind]; [|done].
    assert (Hin' : forall y, y ∈ l -> dict_get (sl_milestone_id y)
       (st_slices (st_set s (stale_of x))) = Some y).
    { intros y Hy. cbn. rewrite dict_get_set, stale_of_id, decide_False by auto.
      apply Hin. by right. }
    specialize (IH _ Hwf' Hin'). destruct (forallb _ l); [|done].
    destruct IH as (s' & Hrun & Hwf2 & Hver & Hget). exists s'. split_and!; [done|done| |].
    + rewrite Hver. cbn. lia.
    + intros k. rewrite Hget. cbn [st_set st_slices]. rewrite dict_get_set, stale_of_id.
      case_decide as Hk; [subst k; rewrite Hx; cbn; f_equal|].
      * unfold restaled. rewrite (bool_decide_eq_false_2 (stale_of x ∈ l)) by done.
        rewrite bool_decide_eq_true_2 by left. by rewrite Hl.
      * destruct (dict_get k (st_slices s)) as [y|] eqn:Hy; [|done]. cbn. f_equal.
        symmetry. apply restaled_cons. left. intros ->. apply Hk.
        by destruct (wf_get _ _ _ Hwf Hy).
  - assert (Hin' : forall y, y ∈ l -> dict_get (sl_milestone_id y) (st_slices s) = Some y)
      by (intros y Hy; apply Hin; by right).
    cbn [andb mbind result_bind]. specialize (IH _ Hwf Hin'). destruct (forallb _ l); [|done].
    destruct IH as (s' & Hrun & Hwf2 & Hver & Hget). exists s'. split_and!; [done|done|done|].
    intros k. rewrite Hget. destruct (dict_get k (st_slices s)) as [y|]; [|done].
    cbn. f_equal. symmetry. apply restaled_cons. by right.
Qed.

(** The states a push is legal from. *)
Definition can_publish (x : StackSlice) : bool :=
  bool_decide (sl_state x ∈ [SL_PENDING; SL_PUBLISHED; SL_MERGE_READY; SL_STALE]).

Lemma slice_publish_eq x head : slice_post_init x = Ok x ->
  slice_publish x head =
    (if can_publish x && negb (blank head)
     then Ok (sl_with x SL_PUBLISHED (Some head) None) else Err InvalidInputError) /\
  slice_post_init (sl_with x SL_PUBLISHED (Some head) None)
    = Ok (sl_with x SL_PUBLISHED (Some head) None).
Proof.
  intros Hx. assert (Hp : slice_post_init (sl_with x SL_PUBLISHED (Some head) None)
    = Ok (sl_with x SL_PUBLISHED (Some head) None)) by (by apply sl_with_valid).
  split; [|done]. unfold slice_publish, can_publish, require_non_blank. rewrite Hp.
  destruct (sl_state x), (blank head); reflexivity.
Qed.

Lemma count_later p n : (0 <= p)%Z ->
  Z.of_nat (length (List.filter (fun z => p <? z)%Z (range1 n))) = Z.max 0 (Z.of_nat n - p).
Proof.
  intros Hp. induction n as [|n IH]; [cbn; lia|].
  rewrite range1_S, List.filter_app, length_app, Nat2Z.inj_add, IH. cbn [List.filter].
  destruct (Z.ltb_spec p (Z.of_nat (S n))); cbn [length]; lia.
Qed.
Lemma filter_later_length p l :
  length (List.filter (later p) l) = length (List.filter (fun z => p <? z)%Z (map sl_position l)).
Proof.
  induction l as [|x l IH]; [done|]. cbn. unfold later at 1.
  by destruct (p <? sl_position x)%Z; cbn; rewrite IH.
Qed.
Lemma positions_bound s x : wf_stack s -> dict_get (sl_milestone_id x) (st_slices s) = Some x ->
  (1 <= sl_position x <= Z.of_nat (length (st_slices s)))%Z.
Proof.
  intros Hwf Hx%(elem_of_ordered s Hwf).
  assert (Hin : sl_position x ∈ range1 (length (st_slices s))).
  { rewrite <- (ordered_positions s Hwf). apply list_elem_of_fmap. by exists x. }
  apply list_elem_of_fmap in Hin as (k & -> & Hk%elem_of_seq). lia.
Qed.

(** What republishing [m] with [head] turns each slice into. *)
Definition republished (m : string) (pos : Z) (head : string) (x : StackSlice) : StackSlice :=
  if String.eqb (sl_milestone_id x) m then sl_with x SL_PUBLISHED (Some head) None
  else if later pos x then stale_of x else x.

(** When republishing [x] is accepted. *)
Definition publishable (s : Stack) (x : StackSlice) (head : string) : Prop :=
  can_publish x = true /\ blank head = false /\
  forall k y, dict_get k (st_slices s) = Some y -> (sl_position x < sl_position y)%Z ->
    can_stale y = true.

Section Republish.
Context (s : Stack) (x : StackSlice) (head : string).
Hypothesis Hwf : wf_stack s.
Hypothesis Hx : dict_get (sl_milestone_id x) (st_slices s) = Some x.
Abbreviation u := (sl_with x SL_PUBLISHED (Some head) None).
Abbreviation published := (st_set s u).
Abbreviation stale_check := (forallb (fun y => negb (later (sl_position x) y) || can_stale y)
  (ordered_slices published)).

Lemma published_wf : wf_stack published.
Proof.
  destruct (wf_get _ _ _ Hwf Hx) as (_ & _ & _ & Hpi).
  destruct (slice_publish_eq x head Hpi) as [_ Hpi'].
  by destruct (with_slice_ok s x u) as [_ ?].
Qed.
Lemma published_get k : dict_get k (st_slices published) =
  if decide (k = sl_milestone_id x) then Some u else dict_get k (st_slices s).
Proof. apply dict_get_set. Qed.

Lemma reconcile_unfold : reconcile_after_publish s (sl_milestone_id x) head =
  if can_publish x && negb (blank head)
  then foldM_result (stale_later (sl_position x)) (ordered_slices published) published
  else Err InvalidInputError.
Proof.
  destruct (wf_get _ _ _ Hwf Hx) as (_ & _ & _ & Hpi).
  destruct (slice_publish_eq x head Hpi) as [Hpub Hpi'].
  destruct (with_slice_ok s x u) as [Hws _]; [done..|].
  unfold reconcile_after_publish, stack_slice. rewrite Hx. cbn [from_option_err mbind result_bind].
  rewrite Hpub. destruct (can_publish x && negb (blank head)); [|done].
  cbn [mbind result_bind]. by rewrite Hws.
Qed.

Lemma stale_check_spec : stale_check = true <->
  forall k y, dict_get k (st_slices s) = Some y -> (sl_position x < sl_position y)%Z ->
    can_stale y = true.
Proof.
  pose proof published_wf as Hwf1. rewrite forallb_forall. split.
  - intros H k y Hy Hlt. destruct (wf_get _ _ _ Hwf Hy) as (<- & _).
    specialize (H y). unfold later in H. rewrite (proj2 (Z.ltb_lt _ _) Hlt) in H.
    apply H, list_elem_of_In, elem_of_ordered; [done|]. rewrite published_get, decide_False; [done|].
    intros Heq. rewrite Heq, Hx in Hy. injection Hy as ->. lia.
  - intros H y Hy. apply list_elem_of_In, (elem_of_ordered _ Hwf1) in Hy. rewrite published_get in Hy.
    unfold later. destruct (Z.ltb_spec (sl_position x) (sl_position y)); [|done]. cbn.
    case_decide; [|by eapply H]. injection Hy as <-. cbn in *. lia.
Qed.

Lemma restaled_published k :
  restaled (sl_position x) (ordered_slices published) <$> dict_get k (st_slices published) =
  republished (sl_milestone_id x) (sl_position x) head <$> dict_get k (st_slices s).
Proof.
  rewrite published_get. unfold republished. case_decide as Hk; cbn.
  - subst k. rewrite Hx. cbn. rewrite String.eqb_refl. f_equal. unfold restaled, later. cbn.
    by rewrite Z.ltb_irrefl, andb_false_r.
  - destruct (dict_get k (st_slices s)) as [y|] eqn:Hy; [|done]. cbn. f_equal.
    destruct (wf_get _ _ _ Hwf Hy) as (<- & _).
    rewrite (proj2 (String.eqb_neq _ _)) by done. unfold restaled.
    rewrite bool_decide_eq_true_2; [done|]. apply elem_of_ordered; [apply published_wf|].
    by rewrite published_get, decide_False.
Qed.

Lemma reconcile_cases :
  exists accepted : bool, (accepted = true <-> publishable s x head) /\
  if accepted then
    exists s', reconcile_after_publish s (sl_milestone_id x) head = Ok s' /\ wf_stack s' /\
      (forall k, dict_get k (st_slices s') =
         republished (sl_milestone_id x) (sl_position x) head <$> dict_get k (st_slices s)) /\
      st_aggregate_version s' = (st_aggregate_version s + 1 +
        (Z.of_nat (length (st_slices s)) - sl_position x))%Z
  else reconcile_after_publish s (sl_milestone_id x) head = Err InvalidInputError.
Proof.
  pose proof published_wf as Hwf1.
  pose proof (stale_loop (sl_position x) (ordered_slices published) published Hwf1
    (NoDup_ordered_ids _ Hwf1) (fun y => proj1 (elem_of_ordered _ Hwf1 y))) as Hloop.
  exists (can_publish x && negb (blank head) && stale_check). split.
  { unfold publishable. rewrite !andb_true_iff, negb_true_iff, stale_check_spec. tauto. }
  rewrite reconcile_unfold. destruct (can_publish x && negb (blank head)); [|done].
  cbn [andb]. destruct stale_check; [|done].
  destruct Hloop as (s' & -> & Hwf' & Hver & Hget). exists s'. split_and!; [done|done| |].
  - intros k. by rewrite Hget, restaled_published.
  - rewrite Hver, filter_later_length, ordered_positions by done. cbn [st_set st_slices].
    rewrite (dict_set_length _ x) by done. pose proof (positions_bound s x Hwf Hx).
    rewrite count_later by lia. cbn. lia.
Qed.
End Republish.

(** [reconcile_after_publish] on a tracked slice of a well-formed stack: when
    the slice can be published and every later slice is pending, published or
    merge-ready, it publishes the slice without CI evidence, makes every later
    published slice stale without evidence, leaves the others alone, and adds one
    version for each slice from it upwards; in every other case (a later slice
    that is already stale included) it raises [InvalidInputError]. *)
Theorem reconcile_after_publish_spec (s : Stack) (m head : string) (x : StackSlice)
    (Hwf : wf_stack s) (Hx : dict_get m (st_slices s) = Some x) :
  (publishable s x head ->
     exists s', reconcile_after_publish s m head = Ok s' /\ wf_stack s' /\
       (forall k, dict_get k (st_slices s') =
          republished m (sl_position x) head <$> dict_get k (st_slices s)) /\
       st_aggregate_version s' = (st_aggregate_version s + 1 +
         (Z.of_nat (length (st_slices s)) - sl_position x))%Z) /\
  (~ publishable s x head -> reconcile_after_publish s m head = Err InvalidInputError).
Proof.
  destruct (wf_get _ _ _ Hwf Hx) as (<- & _).
  destruct (reconcile_cases s x head Hwf Hx) as ([|] & Hacc & Hres); split; intros Hp;
    [done|by destruct Hp; apply Hacc| |done]. by apply Hacc in Hp.
Qed.

Definition sample_slice (m : string) (pos : Z) (base branch : string) (st : StackSliceState)
    (head : option string) (ci : option Digest) : StackSlice := {|
  sl_milestone_id := m; sl_position := pos; sl_base_ref := base; sl_branch_ref := branch;
  sl_state := st; sl_head_revision := head; sl_ci_evidence_digest := ci |}.
Definition sample_ci : Digest := {| algorithm := "sha256"; hex_value :=
  "0000000000000000000000000000000000000000000000000000000000000000" |}.
Definition sample_stack (second : StackSliceState) (ci : option Digest) : Stack := {|
  st_id := "stack-1"; st_plan_id := "plan-1"; st_base_ref := "main";
  st_slices := [
    ("m1", sample_slice "m1" 1 "main" "b1" SL_PUBLISHED (Some "h1") None);
    ("m2", sample_slice "m2" 2 "b1" "b2" second (Some "h2") ci)];
  st_aggregate_version := 4 |}.
Lemma sample_stack_wf second :
  second <> SL_PENDING -> wf_stack (sample_stack second (Some sample_ci)).
Proof.
  intros Hs. split; [reflexivity|reflexivity| | |reflexivity].
  - apply (bool_decide_unpack _). reflexivity.
  - constructor; [|constructor; [|constructor]]; split_and!; try reflexivity.
    + intros d Hd. discriminate Hd.
    + intros d [= <-]. split; reflexivity.
    + by destruct second.
Qed.
Lemma reconcile_after_publish_spec_witness :
  exists s', reconcile_after_publish (sample_stack SL_MERGE_READY (Some sample_ci)) "m1" "h9"
      = Ok s' /\ st_aggregate_version s' = 6%Z.
Proof.
  destruct (proj1 (reconcile_after_publish_spec (sample_stack SL_MERGE_READY (Some sample_ci))
    "m1" "h9" (sample_slice "m1" 1 "main" "b1" SL_PUBLISHED (Some "h1") None)
    (sample_stack_wf SL_MERGE_READY ltac:(discriminate)) eq_refl))
    as (s' & Hs' & _ & _ & Hv).
  - split_and!; [reflexivity|reflexivity|]. intros k y Hy _.
    apply dict_get_Some_elem in Hy. cbn in Hy.
    apply elem_of_cons in Hy as [Hy|Hy]; [by simplify_eq|].
    apply elem_of_cons in Hy as [Hy|Hy]; [by simplify_eq|]. by apply not_elem_of_nil in Hy.
  - exists s'. split; [exact Hs'|]. rewrite Hv. reflexivity.
Defined.

(** Republishing the root again after its dependent went stale is refused, although
    nothing stands in the way of recording the new head: a stale slice cannot be
    made stale a second time. *)
Lemma republish_over_stale_refused :
  exists s, reconcile_after_publish (sample_stack SL_MERGE_READY (Some sample_ci)) "m1" "h3" = Ok s /\
    reconcile_after_publish s "m1" "h4" = Err InvalidInputError.
Proof. eexists. split; reflexivity. Qed.

(** ** Root-to-leaf merging *)
Lemma first_mergeable_spec l m :
  StronglySorted (fun x y => (sl_position x < sl_position y)%Z) l ->
  first_mergeable l = Some m <->
  exists x, x ∈ l /\ sl_milestone_id x = m /\ sl_state x = SL_MERGE_READY /\
    forall y, y ∈ l -> (sl_position y < sl_position x)%Z -> sl_state y = SL_MERGED.
Proof.
  induction 1 as [|x l Hl IH Hall]; cbn.
  { split; [done|]. intros (x & Hx%not_elem_of_nil & _). done. }
  rewrite Forall_forall in Hall.
  case_bool_decide as Hm; [rewrite IH; split|case_bool_decide as Hr; split].
  - intros (y & Hy & Hid & Hs & Hlt). exists y. split_and!; [by right|done|done|].
    intros z [->|Hz]%elem_of_cons Hz'; [done|by apply Hlt].
  - intros (y & [->|Hy]%elem_of_cons & Hid & Hs & Hlt); [congruence|].
    exists y. split_and!; [done..|]. intros z Hz. apply Hlt. by right.
  - intros [= <-]. exists x. split_and!; [left|done|done|].
    intros z [->|Hz]%elem_of_cons Hz'; [lia|]. apply Hall in Hz. lia.
  - intros (y & [->|Hy]%elem_of_cons & Hid & Hs & Hlt); [by rewrite Hid|].
    exfalso. apply Hm. apply Hlt; [left|by apply Hall].
  - done.
  - intros (y & [->|Hy]%elem_of_cons & Hid & Hs & Hlt); [done|].
    exfalso. apply Hm. apply Hlt; [left|by apply Hall].
Qed.

Lemma slice_mark_merged_eq x : slice_post_init x = Ok x ->
  slice_mark_merged x =
    (if bool_decide (sl_state x = SL_MERGE_READY)
     then Ok (sl_with x SL_MERGED (sl_head_revision x) (sl_ci_evidence_digest x))
     else Err InvalidInputError).
Proof.
  intros Hx. assert (Hm : sl_state x <> SL_PENDING ->
    slice_post_init (sl_with x SL_MERGED (sl_head_revision x) (sl_ci_evidence_digest x))
    = Ok (sl_with x SL_MERGED (sl_head_revision x) (sl_ci_evidence_digest x))).
  { intros Hn. by apply sl_with_valid; [|..|apply slice_head|]. }
  unfold slice_mark_merged. destruct (sl_state x) eqn:E; try reflexivity.
  cbn -[slice_post_init]. by rewrite Hm.
Qed.

(** Slice [m] is merge-ready and everything below it is merged. *)
Definition mergeable (s : Stack) (m : string) (x : StackSlice) : Prop :=
  dict_get m (st_slices s) = Some x /\ sl_state x = SL_MERGE_READY /\
  forall k y, dict_get k (st_slices s) = Some y -> (sl_position y < sl_position x)%Z ->
    sl_state y = SL_MERGED.

Lemma next_mergeable_iff s m : wf_stack s ->
  next_mergeable s = Some m <-> exists x, mergeable s m x.
Proof.
  intros Hwf. unfold next_mergeable. rewrite first_mergeable_spec by (by apply ordered_strict).
  split.
  - intros (x & Hx%elem_of_ordered & Hid & Hs & Hlt); [|done]. subst m. exists x.
    split_and!; [done|done|]. intros k y Hy Hpos. apply Hlt; [|done].
    apply elem_of_ordered; [done|]. by destruct (wf_get _ _ _ Hwf Hy) as (-> & _).
  - intros (x & Hx & Hs & Hlt). destruct (wf_get _ _ _ Hwf Hx) as (<- & _). exists x.
    split_and!; [by apply elem_of_ordered|done|done|].
    intros y Hy%elem_of_ordered Hpos; [|done]. by eapply Hlt.
Qed.

Lemma stack_mark_merged_eq s m x :
  wf_stack s -> dict_get m (st_slices s) = Some x ->
  (mergeable s m x -> stack_mark_merged s m =
     Ok (st_set s (sl_with x SL_MERGED (sl_head_revision x) (sl_ci_evidence_digest x)))) /\
  (~ mergeable s m x -> stack_mark_merged s m = Err InvalidInputError).
Proof.
  intros Hwf Hx. destruct (wf_get _ _ _ Hwf Hx) as (<- & Hv & Hci & Hpi).
  assert (Hex : existsb (fun earlier => (sl_position earlier <? sl_position x)%Z &&
      negb (bool_decide (sl_state earlier = SL_MERGED))) (ordered_slices s) = false <->
    forall k y, dict_get k (st_slices s) = Some y -> (sl_position y < sl_position x)%Z ->
      sl_state y = SL_MERGED).
  { rewrite <- not_true_iff_false, existsb_exists. split.
    - intros Hn k y Hy Hlt. destruct (decide (sl_state y = SL_MERGED)) as [|Hns]; [done|].
      destruct Hn. exists y. split.
      + apply list_elem_of_In, elem_of_ordered; [done|].
        by destruct (wf_get _ _ _ Hwf Hy) as (-> & _).
      + rewrite (proj2 (Z.ltb_lt _ _) Hlt). by rewrite bool_decide_eq_false_2.
    - intros H (y & Hy & Hb). apply list_elem_of_In, (elem_of_ordered s Hwf) in Hy.
      apply andb_prop in Hb as [Hlt%Z.ltb_lt Hn%negb_true_iff].
      apply bool_decide_eq_false in Hn. by eapply Hn, H. }
  unfold stack_mark_merged, stack_slice, mergeable. rewrite Hx. cbn [from_option_err mbind result_bind].
  rewrite (slice_mark_merged_eq x Hpi). split.
  - intros (_ & Hs & Hlt%Hex). rewrite Hlt, bool_decide_eq_true_2 by done.
    cbn [raise_if mbind result_bind].
    destruct (with_slice_ok s x (sl_with x SL_MERGED (sl_head_revision x) (sl_ci_evidence_digest x)))
      as [-> _]; [done|done|done| |done|done].
    apply sl_with_valid; [done|done|apply slice_head; [done|congruence]|done].
  - intros Hn. destruct (existsb _ _) eqn:He; [done|]. cbn [raise_if mbind result_bind].
    rewrite bool_decide_eq_false_2; [done|]. intros Hs. apply Hn. split_and!; [done|done|].
    by apply Hex.
Qed.

(** Root-to-leaf merging: on a well-formed stack [mark_merged] of a tracked
    slice succeeds exactly when [next_mergeable] names that slice, which is the one
    merge-ready slice whose predecessors are all merged; it then changes only that
    slice's state; in every other case it raises [InvalidInputError]. *)
Theorem merge_root_to_leaf (s : Stack) (m : string) (x : StackSlice)
    (Hwf : wf_stack s) (Hx : dict_get m (st_slices s) = Some x) :
  stack_mark_merged s m =
    (if bool_decide (next_mergeable s = Some m)
     then Ok (st_set s (sl_with x SL_MERGED (sl_head_revision x) (sl_ci_evidence_digest x)))
     else Err InvalidInputError) /\
  (next_mergeable s = Some m <->
     sl_state x = SL_MERGE_READY /\
     forall k y, dict_get k (st_slices s) = Some y -> (sl_position y < sl_position x)%Z ->
       sl_state y = SL_MERGED).
Proof.
  assert (Hiff : next_mergeable s = Some m <-> mergeable s m x).
  { rewrite next_mergeable_iff by done. split; [|by exists x].
    intros (y & Hy & Hr). rewrite Hx in Hy. injection Hy as <-. by split. }
  destruct (stack_mark_merged_eq s m x Hwf Hx) as [Hok Herr]. split.
  - case_bool_decide as Hn; [by apply Hok, Hiff|]. apply Herr. by rewrite <- Hiff.
  - rewrite Hiff. unfold mergeable. naive_solver.
Qed.

Lemma merge_root_to_leaf_witness :
  stack_mark_merged (sample_stack SL_MERGE_READY (Some sample_ci)) "m2" = Err InvalidInputError.
Proof.
  rewrite (proj1 (merge_root_to_leaf (sample_stack SL_MERGE_READY (Some sample_ci)) "m2"
    (sample_slice "m2" 2 "b1" "b2" SL_MERGE_READY (Some "h2") (Some sample_ci))
    (sample_stack_wf SL_MERGE_READY ltac:(discriminate)) eq_refl)).
  reflexivity.
Defined.

(** ** Histories of a stack *)
Inductive stack_op :=
| StPublish (m head : string)
| StReady (m head : string) (ci : Digest)
| StMerged (m : string)
| StAbandon (m : string).
(** The coordinator's steps: publish, record CI evidence, record a merge, abandon. *)
Definition stack_apply (s : Stack) (o : stack_op) : result Stack :=
  match o with
  | StPublish m head => reconcile_after_publish s m head
  | StReady m head ci =>
      x ← stack_slice s m; x' ← slice_mark_merge_ready x head ci; with_slice s x'
  | StMerged m => stack_mark_merged s m
  | StAbandon m => x ← stack_slice s m; x' ← slice_abandon x; with_slice s x'
  end.
Definition stack_op_valid (o : stack_op) : Prop :=
  match o with StReady _ _ ci => wf_digest ci | _ => True end.

(** The merged slices form a prefix of the stack, and a merge-ready slice is bound
    to a head and to CI evidence. *)
Definition merged_prefix (s : Stack) : Prop :=
  forall k1 x k2 y, dict_get k1 (st_slices s) = Some x -> dict_get k2 (st_slices s) = Some y ->
    (sl_position x < sl_position y)%Z -> sl_state y = SL_MERGED -> sl_state x = SL_MERGED.

(** An operation on one slice that keeps its position and neither makes nor unmakes a
    merge keeps the prefix. *)
Lemma st_set_prefix s m x u :
  merged_prefix s -> dict_get m (st_slices s) = Some x -> sl_milestone_id u = m ->
  sl_position u = sl_position x -> (sl_state u = SL_MERGED <-> sl_state x = SL_MERGED) ->
  merged_prefix (st_set s u).
Proof.
  intros Hp Hx Hid Hpos Hst k1 y k2 z. cbn. rewrite !dict_get_set, Hid.
  case_decide; case_decide; intros Hy Hz; simplify_eq.
  - lia.
  - intros Hlt Hz'. apply Hst. eapply Hp; [exact Hx|exact Hz|lia|done].
  - intros Hlt Hz'. eapply Hp; [exact Hy|exact Hx|lia|by apply Hst].
  - by eapply Hp.
Qed.
Lemma merged_not_publishable x : can_publish x = true -> sl_state x <> SL_MERGED.
Proof. unfold can_publish. by destruct (sl_state x). Qed.

Lemma ready_step s m x head ci s' :
  wf_stack s -> wf_digest ci -> dict_get m (st_slices s) = Some x ->
  (x' ← slice_mark_merge_ready x head ci; with_slice s x') = Ok s' ->
  exists u, s' = st_set s u /\ wf_stack s' /\ sl_milestone_id u = m /\
    sl_position u = sl_position x /\ sl_state u = SL_MERGE_READY /\ sl_state x <> SL_MERGED.
Proof.
  intros Hwf Hci Hx H. destruct (wf_get _ _ _ Hwf Hx) as (Hid & _).
  apply bind_Ok in H as (u & Hu & Hws). unfold slice_mark_merge_ready in Hu.
  apply bind_Ok in Hu as (? & Hr%require_Ok & Hu). apply raise_if_Ok in Hu as [_ Hu].
  apply slice_post_init_Ok in Hu as Hf. destruct Hf as [-> _].
  destruct (with_slice_ok s x (sl_with x SL_MERGE_READY (sl_head_revision x) (Some ci)))
    as [Hok Hwf']; [done|cbn; by rewrite Hid|done|done| |].
  { cbn. by intros d [= <-]. }
  rewrite Hok in Hws. injection Hws as <-. eexists. split_and!; [done|done|done|done|done|].
  intros Hm. rewrite Hm in Hr. by apply tstep_terminal in Hr.
Qed.
Lemma abandon_step s m x s' :
  wf_stack s -> dict_get m (st_slices s) = Some x ->
  (x' ← slice_abandon x; with_slice s x') = Ok s' ->
  exists u, s' = st_set s u /\ wf_stack s' /\ sl_milestone_id u = m /\
    sl_position u = sl_position x /\ sl_state u = SL_ABANDONED /\ sl_state x <> SL_MERGED.
Proof.
  intros Hwf Hx H. destruct (wf_get _ _ _ Hwf Hx) as (Hid & _ & Hci & _).
  apply bind_Ok in H as (u & Hu & Hws). unfold slice_abandon in Hu.
  apply bind_Ok in Hu as (? & Hr%require_Ok & Hu).
  apply slice_post_init_Ok in Hu as Hf. destruct Hf as [-> _].
  destruct (with_slice_ok s x (sl_with x SL_ABANDONED (sl_head_revision x)
    (sl_ci_evidence_digest x))) as [Hok Hwf']; [done|cbn; by rewrite Hid|done|done|done|].
  rewrite Hok in Hws. injection Hws as <-. eexists. split_and!; [done|done|done|done|done|].
  intros Hm. rewrite Hm in Hr. by apply tstep_terminal in Hr.
Qed.

Lemma republished_state m pos head x :
  sl_position (republished m pos head x) = sl_position x /\
  (sl_state (republished m pos head x) = SL_MERGED ->
     sl_state x = SL_MERGED /\ later pos x = false).
Proof.
  unfold republished. destruct (String.eqb _ _); [done|].
  destruct (later pos x); [|done]. unfold stale_of. case_bool_decide as Hp; [|done].
  split; [done|]. by rewrite Hp.
Qed.

Lemma publish_step s m head x s' :
  wf_stack s -> merged_prefix s -> dict_get m (st_slices s) = Some x ->
  reconcile_after_publish s m head = Ok s' ->
  wf_stack s' /\ merged_prefix s' /\
  (forall k y, dict_get k (st_slices s) = Some y -> sl_state y = SL_MERGED ->
     dict_get k (st_slices s') = Some y).
Proof.
  intros Hwf Hp Hx H. destruct (wf_get _ _ _ Hwf Hx) as (<- & _).
  destruct (reconcile_cases s x head Hwf Hx) as ([|] & Hacc & Hres); [|congruence].
  destruct Hres as (s2 & Hs2 & Hwf' & Hget & _). rewrite H in Hs2. injection Hs2 as <-.
  destruct (proj1 Hacc eq_refl) as (Hcp & _ & Hst).
  assert (Hback : forall k y', dict_get k (st_slices s') = Some y' -> exists y,
    dict_get k (st_slices s) = Some y /\
    y' = republished (sl_milestone_id x) (sl_position x) head y).
  { intros k y' Hy'. rewrite Hget in Hy'. destruct (dict_get k (st_slices s)) as [y|]; [|done].
    injection Hy' as <-. by exists y. }
  assert (Hkeep : forall k y, dict_get k (st_slices s) = Some y -> sl_state y = SL_MERGED ->
    republished (sl_milestone_id x) (sl_position x) head y = y).
  { intros k y Hy Hm. unfold republished. destruct (String.eqb_spec (sl_milestone_id y)
      (sl_milestone_id x)) as [He|_].
    - destruct (wf_get _ _ _ Hwf Hy) as (Hk & _). rewrite <- Hk, He, Hx in Hy.
      injection Hy as <-. by apply merged_not_publishable in Hcp.
    - destruct (later (sl_position x) y) eqn:Hl; [|done].
      apply Z.ltb_lt in Hl. specialize (Hst _ _ Hy Hl). unfold can_stale in Hst.
      by rewrite Hm in Hst. }
  split_and!; [done| |].
  - intros k1 y1 k2 y2 Hy1 Hy2 Hlt Hm.
    apply Hback in Hy1 as (z1 & Hz1 & ->). apply Hback in Hy2 as (z2 & Hz2 & ->).
    destruct (republished_state (sl_milestone_id x) (sl_position x) head z1) as [Hp1 _].
    destruct (republished_state (sl_milestone_id x) (sl_position x) head z2) as [Hp2 Hm2].
    rewrite Hp1, Hp2 in Hlt. apply Hm2 in Hm as [Hm _].
    assert (Hm1 : sl_state z1 = SL_MERGED) by (by eapply Hp).
    by rewrite (Hkeep _ _ Hz1 Hm1).
  - intros k y Hy Hm. rewrite Hget, Hy. cbn. by rewrite (Hkeep k y).
Qed.

(** A successful replacement of an unmerged slice keeps the merged ones. *)
Lemma st_set_keeps s m x u : dict_get m (st_slices s) = Some x -> sl_milestone_id u = m ->
  sl_state x <> SL_MERGED ->
  forall k y, dict_get k (st_slices s) = Some y -> sl_state y = SL_MERGED ->
    dict_get k (st_slices (st_set s u)) = Some y.
Proof.
  intros Hx Hid Hn k y Hy Hm. cbn. rewrite dict_get_set, Hid.
  case_decide; [|done]. subst k. by simplify_eq.
Qed.

Lemma merge_step s m x s' :
  wf_stack s -> merged_prefix s -> dict_get m (st_slices s) = Some x ->
  stack_mark_merged s m = Ok s' ->
  wf_stack s' /\ merged_prefix s' /\
  (forall k y, dict_get k (st_slices s) = Some y -> sl_state y = SL_MERGED ->
     dict_get k (st_slices s') = Some y).
Proof.
  intros Hwf Hp Hx H. destruct (stack_mark_merged_eq s m x Hwf Hx) as [Hok Herr].
  assert (Hmg : mergeable s m x).
  { unfold stack_mark_merged, stack_slice in H. rewrite Hx in H. cbn [from_option_err mbind result_bind] in H.
    destruct (decide (next_mergeable s = Some m)) as [Hn|Hn].
    - apply next_mergeable_iff in Hn as (y & Hy & Hr); [|done].
      rewrite Hx in Hy. injection Hy as <-. by split.
    - exfalso. assert (Hno : ~ mergeable s m x).
      { intros Hy. apply Hn, next_mergeable_iff; [done|by exists x]. }
      specialize (Herr Hno). unfold stack_mark_merged, stack_slice in Herr.
      rewrite Hx in Herr. cbn [from_option_err mbind result_bind] in Herr. congruence. }
  rewrite (Hok Hmg) in H. injection H as <-. destruct Hmg as (_ & Hs & Hlt).
  destruct (wf_get _ _ _ Hwf Hx) as (Hid & _ & Hci & Hpi).
  set (u := sl_with x SL_MERGED (sl_head_revision x) (sl_ci_evidence_digest x)).
  destruct (with_slice_ok s x u) as [_ Hwf']; [done|cbn; by rewrite Hid|done| |done|].
  { apply sl_with_valid; [done|done|apply slice_head; [done|congruence]|done]. }
  split_and!; [done| |].
  - intros k1 y k2 z. cbn. rewrite !dict_get_set, Hid.
    case_decide; case_decide; intros Hy Hz; simplify_eq; intros Hpos Hz'.
    + done.
    + done.
    + by eapply Hlt.
    + by eapply Hp.
  - apply (st_set_keeps s m x); [done|done|congruence].
Qed.

Lemma stack_apply_step s o s' :
  wf_stack s -> merged_prefix s -> stack_op_valid o -> stack_apply s o = Ok s' ->
  wf_stack s' /\ merged_prefix s' /\
  (forall k x, dict_get k (st_slices s) = Some x -> sl_state x = SL_MERGED ->
     dict_get k (st_slices s') = Some x).
Proof.
  intros Hwf Hp Hv H. assert (Hno : forall m, dict_get m (st_slices s) = None ->
    stack_slice s m = Err InvalidInputError) by (intros m Hm; unfold stack_slice; by rewrite Hm).
  destruct o as [m head|m head ci|m|m]; cbn [stack_apply stack_op_valid] in *;
    destruct (dict_get m (st_slices s)) as [x|] eqn:Hx.
  - by eapply publish_step.
  - unfold reconcile_after_publish in H. by rewrite (Hno m Hx) in H.
  - unfold stack_slice in H. rewrite Hx in H.
    destruct (ready_step _ _ _ _ _ _ Hwf Hv Hx H) as (u & -> & Hwf' & Hid & Hpos & Hu & Hn).
    split_and!; [done| |by eapply st_set_keeps].
    eapply st_set_prefix; [done|done|done|done|]. by rewrite Hu.
  - by rewrite (Hno m Hx) in H.
  - by eapply merge_step.
  - unfold stack_mark_merged in H. by rewrite (Hno m Hx) in H.
  - unfold stack_slice in H. rewrite Hx in H.
    destruct (abandon_step _ _ _ _ Hwf Hx H) as (u & -> & Hwf' & Hid & Hpos & Hu & Hn).
    split_and!; [done| |by eapply st_set_keeps].
    eapply st_set_prefix; [done|done|done|done|]. by rewrite Hu.
  - by rewrite (Hno m Hx) in H.
Qed.

(** along every sequence of coordinator steps on a well-formed stack whose
    merged slices form a prefix (such as any fresh stack), the stack stays well
    formed, the merged slices stay a prefix (no slice is merged over an unmerged
    one), and a merged slice is never touched again. *)
Theorem stack_history_merges_prefix (s s' : Stack) (os : list stack_op)
    (Hwf : wf_stack s) (Hp : merged_prefix s) (Hos : Forall stack_op_valid os)
    (Hrun : foldM_result stack_apply os s = Ok s') :
  wf_stack s' /\ merged_prefix s' /\
  (forall k x, dict_get k (st_slices s) = Some x -> sl_state x = SL_MERGED ->
     dict_get k (st_slices s') = Some x).
Proof.
  destruct (foldM_rounds stack_apply stack_op_valid (fun s => wf_stack s /\ merged_prefix s)
    (fun _ s s' => forall k x, dict_get k (st_slices s) = Some x -> sl_state x = SL_MERGED ->
       dict_get k (st_slices s') = Some x)) with (4 := conj Hwf Hp) (5 := Hrun)
    as [[Hwf' Hp'] Hk]; [done| |done|done].
  intros t o t' n w [Hw Hm] Ho Ht. destruct (stack_apply_step _ _ _ Hw Hm Ho Ht) as (? & ? & Hk).
  split; [done|]. auto.
Qed.

Lemma sample_prefix second ci : second <> SL_MERGED -> merged_prefix (sample_stack second ci).
Proof.
  intros Hs k1 x k2 y Hx Hy _ Hm. apply dict_get_Some_elem in Hy. cbn in Hy.
  apply elem_of_cons in Hy as [Hy|Hy]; [by simplify_eq|].
  apply elem_of_cons in Hy as [Hy|Hy]; [by simplify_eq|]. by apply not_elem_of_nil in Hy.
Qed.
Lemma stack_history_merges_prefix_witness :
  exists s', foldM_result stack_apply
    [StReady "m1" "h1" sample_ci; StMerged "m1"; StReady "m2" "h2" sample_ci; StMerged "m2"]
    (sample_stack SL_PUBLISHED (Some sample_ci)) = Ok s' /\ merged_prefix s'.
Proof.
  eexists. split; [reflexivity|].
  eapply (stack_history_merges_prefix (sample_stack SL_PUBLISHED (Some sample_ci)) _
    [StReady "m1" "h1" sample_ci; StMerged "m1"; StReady "m2" "h2" sample_ci; StMerged "m2"]).
  - apply sample_stack_wf. discriminate.
  - apply sample_prefix. discriminate.
  - repeat constructor.
  - reflexivity.
Defined.
