(* ===== verification/Scheduler.v ===== *)
(** * Readiness scheduling ([engine/scheduler.py])

    Queue times are aware datetimes, taken as their microsecond instants.  The
    node index is the input list itself: the index keeps insertion order, and
    indexing refuses duplicate keys. *)
From S2P Require Import Prelude PyText.

(** ** Nodes and limits *)
Inductive SchedulableState :=
| SS_QUEUED | SS_LEASED | SS_RUNNING | SS_AWAITING_HUMAN | SS_SUCCEEDED | SS_FAILED
| SS_CANCELLED | SS_BLOCKED.
#[export] Instance SchedulableState_eq_dec : EqDecision SchedulableState.
Proof. solve_decision. Defined.
#[export] Program Instance SchedulableState_enum : PyEnum SchedulableState := {|
  members := [SS_QUEUED; SS_LEASED; SS_RUNNING; SS_AWAITING_HUMAN; SS_SUCCEEDED; SS_FAILED;
    SS_CANCELLED; SS_BLOCKED];
  enum_value s := match s with
    | SS_QUEUED => "queued" | SS_LEASED => "leased" | SS_RUNNING => "running"
    | SS_AWAITING_HUMAN => "awaiting_human" | SS_SUCCEEDED => "succeeded"
    | SS_FAILED => "failed" | SS_CANCELLED => "cancelled" | SS_BLOCKED => "blocked" end |}.
Next Obligation. solve_enum. Qed.
Next Obligation. solve_enum. Qed.

Record NodeKey := { nk_run_id : string; nk_node_id : string }.
#[export] Instance NodeKey_eq_dec : EqDecision NodeKey.
Proof. solve_decision. Defined.
Definition node_key_post_init (k : NodeKey) : result NodeKey :=
  raise_when blank (nk_run_id k) || blank (nk_node_id k) as InvalidInputError ;; Ok k.

Record SchedulableNode := {
  sn_key : NodeKey; sn_dependencies : list NodeKey; sn_state : SchedulableState;
  sn_repository_id : option string; sn_requirements_satisfied : bool;
  sn_queued_since : option Z }.
#[export] Instance SchedulableNode_eq_dec : EqDecision SchedulableNode.
Proof. solve_decision. Defined.
Definition schedulable_node_post_init (n : SchedulableNode) : result SchedulableNode :=
  raise_when bool_decide (sn_key n ∈ sn_dependencies n) as InvalidInputError ;;
  raise_when from_option blank false (sn_repository_id n) as InvalidInputError ;;
  Ok n.

Record SchedulingLimits := { global_concurrency : Z; per_repository_concurrency : Z }.
Definition scheduling_limits_post_init (l : SchedulingLimits) : result SchedulingLimits :=
  raise_when (global_concurrency l <? 1)%Z as InvalidInputError ;;
  raise_when (per_repository_concurrency l <? 1)%Z as InvalidInputError ;;
  Ok l.

Inductive DeferralReason :=
| DR_GLOBAL_CAPACITY | DR_REPOSITORY_CAPACITY | DR_DEPENDENCIES | DR_DEPENDENCY_FAILED
| DR_REQUIREMENTS | DR_CAPACITY_RESERVED | DR_EXECUTION_HOLD.
#[export] Instance DeferralReason_eq_dec : EqDecision DeferralReason.
Proof. solve_decision. Defined.

Record SchedulingPlan := {
  sp_selected : list NodeKey; sp_deferred : list (NodeKey * DeferralReason) }.

(** Dataclass order of [NodeKey]: by run, then by node. *)
Definition nk_le (a b : NodeKey) : Prop :=
  (nk_run_id a <> nk_run_id b /\ String.le (nk_run_id a) (nk_run_id b)) \/
  (nk_run_id a = nk_run_id b /\ String.le (nk_node_id a) (nk_node_id b)).
Definition node_le (x y : SchedulableNode) : Prop := nk_le (sn_key x) (sn_key y).
#[export] Instance node_le_dec (x y : SchedulableNode) : Decision (node_le x y).
Proof. unfold node_le, nk_le. apply _. Defined.
Definition sorted_nodes (nodes : list SchedulableNode) : list SchedulableNode :=
  merge_sort node_le nodes.

(** ** Indexing and readiness *)
Fixpoint has_duplicate_keys (nodes : list SchedulableNode) : bool :=
  match nodes with
  | [] => false
  | n :: nodes => bool_decide (sn_key n ∈ map sn_key nodes) || has_duplicate_keys nodes
  end.
Definition index_nodes (nodes : list SchedulableNode) : result (list SchedulableNode) :=
  raise_when has_duplicate_keys nodes as InvalidInputError ;;
  raise_when existsb (fun n => existsb (fun d => negb (bool_decide (d ∈ map sn_key nodes)))
                                 (sn_dependencies n)) nodes as InvalidInputError ;;
  Ok nodes.
(** [nodes[key].state]; every looked-up key was checked by [index_nodes]. *)
Fixpoint state_of (nodes : list SchedulableNode) (key : NodeKey) : option SchedulableState :=
  match nodes with
  | [] => None
  | n :: nodes => if decide (sn_key n = key) then Some (sn_state n) else state_of nodes key
  end.

Definition node_active (n : SchedulableNode) : bool :=
  bool_decide (sn_state n ∈ [SS_LEASED; SS_RUNNING]).
(** [_is_ready] *)
Definition node_ready (nodes : list SchedulableNode) (n : SchedulableNode) : bool :=
  bool_decide (sn_state n = SS_QUEUED) && sn_requirements_satisfied n &&
  forallb (fun d => bool_decide (state_of nodes d = Some SS_SUCCEEDED)) (sn_dependencies n).

(** [_repository_load]; a [defaultdict(int)] reads 0 for an absent key. *)
Definition load_of (load : gmap string Z) (r : string) : Z := default 0%Z (load !! r).
Definition add_load (load : gmap string Z) (n : SchedulableNode) : gmap string Z :=
  match sn_repository_id n with
  | Some r => <[r := (load_of load r + 1)%Z]> load
  | None => load
  end.
Definition repository_load (active : list SchedulableNode) : gmap string Z :=
  foldl add_load ∅ active.

(** ** Run order *)
Definition queue_of (queues : gmap string (list SchedulableNode)) (r : string)
    : list SchedulableNode := default [] (queues !! r).
(** [ready_by_run[node.key.run_id].append(node)] *)
Definition enqueue (queues : gmap string (list SchedulableNode)) (n : SchedulableNode)
    : gmap string (list SchedulableNode) :=
  <[nk_run_id (sn_key n) := queue_of queues (nk_run_id (sn_key n)) ++ [n]]> queues.

Record run_rank := { rk_untimed : bool; rk_time : Z; rk_run_id : string }.
Definition rank_of (queues : gmap string (list SchedulableNode)) (r : string) : run_rank :=
  match omap sn_queued_since (queue_of queues r) with
  | [] => {| rk_untimed := true; rk_time := 0; rk_run_id := r |}
  | t :: ts => {| rk_untimed := false; rk_time := foldl Z.min t ts; rk_run_id := r |}
  end.
(** Tuple order ([False < True]). *)
Definition rank_le (a b : run_rank) : Prop :=
  (rk_untimed a = false /\ rk_untimed b = true) \/
  (rk_untimed a = rk_untimed b /\
   ((rk_time a < rk_time b)%Z \/
    (rk_time a = rk_time b /\ String.le (rk_run_id a) (rk_run_id b)))).
Definition run_le (queues : gmap string (list SchedulableNode)) (r1 r2 : string) : Prop :=
  rank_le (rank_of queues r1) (rank_of queues r2).
#[export] Instance run_le_dec queues r1 r2 : Decision (run_le queues r1 r2).
Proof. unfold run_le, rank_le. apply _. Defined.
(** [_oldest_first_run_order]; the runs are the keys of [ready_by_run]. *)
Definition oldest_first_run_order (queues : gmap string (list SchedulableNode))
    (runs : list string) : list string := merge_sort (run_le queues) runs.

(** ** Selection *)
Definition allowed (load : gmap string Z) (limit : Z) (n : SchedulableNode) : bool :=
  match sn_repository_id n with Some r => (load_of load r <? limit)%Z | None => true end.
(** [_next_allowed_candidate]: the candidate and the queue without it. *)
Fixpoint next_allowed_candidate (queue : list SchedulableNode) (load : gmap string Z)
    (limit : Z) : option (SchedulableNode * list SchedulableNode) :=
  match queue with
  | [] => None
  | c :: queue =>
      if allowed load limit c then Some (c, queue)
      else '(c', queue') ← next_allowed_candidate queue load limit; Some (c', c :: queue')
  end.

(** [run_order.remove(run_id)] *)
Fixpoint remove_first (r : string) (l : list string) : list string :=
  match l with
  | [] => []
  | x :: l => if decide (x = r) then l else x :: remove_first r l
  end.

Record sched := {
  sc_slots : Z; sc_load : gmap string Z; sc_queues : gmap string (list SchedulableNode);
  sc_order : list string; sc_selected : list SchedulableNode }.

(** The body of the inner loop: [None] when the run has no allowed candidate. *)
Definition visit_run (limit : Z) (r : string) (s : sched) : option sched :=
  '(c, queue) ← next_allowed_candidate (queue_of (sc_queues s) r) (sc_load s) limit;
  Some {| sc_slots := sc_slots s - 1; sc_load := add_load (sc_load s) c;
          sc_queues := <[r := queue]> (sc_queues s);
          sc_order := if decide (queue = []) then remove_first r (sc_order s) else sc_order s;
          sc_selected := sc_selected s ++ [c] |}.
Definition drop_run (r : string) (s : sched) : sched := {|
  sc_slots := sc_slots s; sc_load := sc_load s; sc_queues := sc_queues s;
  sc_order := remove_first r (sc_order s); sc_selected := sc_selected s |}.

(** [for run_id in tuple(run_order)], with the [progressed] flag. *)
Fixpoint round (limit : Z) (runs : list string) (s : sched) (progressed : bool)
    : sched * bool :=
  match runs with
  | [] => (s, progressed)
  | r :: runs =>
      match visit_run limit r s with
      | None => round limit runs (drop_run r s) progressed
      | Some s => if (sc_slots s =? 0)%Z then (s, true) else round limit runs s true
      end
  end.

(** [while available_slots > 0 and run_order] *)
Fixpoint rounds (fuel : nat) (limit : Z) (s : sched) : option sched :=
  match fuel with
  | 0 => None
  | S fuel =>
      if (sc_slots s <=? 0)%Z || bool_decide (sc_order s = []) then Some s
      else
        let '(s, progressed) := round limit (sc_order s) s false in
        if progressed then rounds fuel limit s else Some s
  end.

Definition is_dead (s : option SchedulableState) : bool :=
  bool_decide (s ∈ [Some SS_FAILED; Some SS_CANCELLED; Some SS_BLOCKED]).
(** [_deferral_reason] *)
Definition deferral_reason (nodes : list SchedulableNode) (load : gmap string Z) (limit : Z)
    (n : SchedulableNode) : DeferralReason :=
  let dependency_states := map (state_of nodes) (sn_dependencies n) in
  if negb (sn_requirements_satisfied n) then DR_REQUIREMENTS
  else if existsb is_dead dependency_states then DR_DEPENDENCY_FAILED
  else if existsb (fun s => negb (bool_decide (s = Some SS_SUCCEEDED))) dependency_states
  then DR_DEPENDENCIES
  else if negb (allowed load limit n) then DR_REPOSITORY_CAPACITY
  else DR_GLOBAL_CAPACITY.

(** The state the selection starts from. *)
Definition ready_nodes (nodes : list SchedulableNode) (slots : Z) : list SchedulableNode :=
  if (0 <? slots)%Z then List.filter (node_ready nodes) (sorted_nodes nodes) else [].
Definition sched_init (nodes : list SchedulableNode) (limits : SchedulingLimits) : sched :=
  let active := List.filter node_active nodes in
  let slots := (global_concurrency limits - Z.of_nat (length active))%Z in
  let ready := ready_nodes nodes slots in
  let queues := foldl enqueue ∅ ready in
  {| sc_slots := slots; sc_load := repository_load active; sc_queues := queues;
     sc_order := oldest_first_run_order queues
       (remove_dups (map (fun n => nk_run_id (sn_key n)) ready));
     sc_selected := [] |}.
Definition sched_final (nodes : list SchedulableNode) (limits : SchedulingLimits) : sched :=
  default (sched_init nodes limits)
    (rounds (S (length nodes)) (per_repository_concurrency limits) (sched_init nodes limits)).

(** [ReadinessScheduler.plan] *)
Definition scheduler_plan (nodes : list SchedulableNode) (limits : SchedulingLimits)
    : result SchedulingPlan :=
  by_key ← index_nodes nodes;
  let final := sched_final by_key limits in
  let selected := map sn_key (sc_selected final) in
  Ok {| sp_selected := selected;
        sp_deferred :=
          map (fun n => (sn_key n, deferral_reason by_key (sc_load final)
                                     (per_repository_concurrency limits) n))
            (List.filter (fun n => bool_decide (sn_state n = SS_QUEUED) &&
                                   negb (bool_decide (sn_key n ∈ selected)))
               (sorted_nodes by_key)) |}.
