(* ===== verification/SchedulerProofs.v ===== *)
(** * Scheduling theorems

    Capacity, readiness, work conservation with exact deferral reasons, fairness
    of the first slot, and independence from the input order. *)
From S2P Require Import Prelude PyText Scheduler.

Definition run_of (n : SchedulableNode) : string := nk_run_id (sn_key n).
Definition of_run (r : string) (l : list SchedulableNode) : list SchedulableNode :=
  List.filter (fun n => String.eqb (run_of n) r) l.
Definition in_repo (repo : string) (n : SchedulableNode) : bool :=
  bool_decide (sn_repository_id n = Some repo).
(** How many nodes of [l] use [repo]. *)
Definition repo_count (repo : string) (l : list SchedulableNode) : Z :=
  Z.of_nat (length (List.filter (in_repo repo) l)).

Lemma repo_count_app repo l k : repo_count repo (l ++ k) = (repo_count repo l + repo_count repo k)%Z.
Proof. unfold repo_count. rewrite List.filter_app, length_app. lia. Qed.
Lemma repo_count_nonneg repo l : (0 <= repo_count repo l)%Z.
Proof. unfold repo_count. lia. Qed.

Lemma repo_count_one repo n :
  repo_count repo [n] = if decide (sn_repository_id n = Some repo) then 1%Z else 0%Z.
Proof. unfold repo_count, in_repo. cbn [List.filter]. case_decide; by case_bool_decide. Qed.

Lemma load_of_add load n repo :
  load_of (add_load load n) repo = (load_of load repo + repo_count repo [n])%Z.
Proof.
  unfold add_load, repo_count, in_repo, load_of. cbn [List.filter].
  destruct (sn_repository_id n) as [r|]; case_bool_decide as Hr; simplify_eq; cbn [length].
  - by rewrite lookup_insert_eq.
  - rewrite lookup_insert_ne by congruence. lia.
  - lia.
Qed.
Lemma load_of_foldl load l repo :
  load_of (foldl add_load load l) repo = (load_of load repo + repo_count repo l)%Z.
Proof.
  revert load. induction l as [|n l IH]; intros load; cbn [foldl].
  - unfold repo_count. cbn. lia.
  - rewrite IH, load_of_add, (repo_count_app repo [n] l : repo_count repo (n :: l) = _). lia.
Qed.
Lemma repository_load_spec l repo : load_of (repository_load l) repo = repo_count repo l.
Proof. unfold repository_load. by rewrite load_of_foldl. Qed.

(** A fuller load allows less. *)
Lemma allowed_mono load load' limit n :
  (forall repo, (load_of load repo <= load_of load' repo)%Z) ->
  allowed load limit n = false -> allowed load' limit n = false.
Proof.
  unfold allowed. destruct (sn_repository_id n) as [r|]; [|done].
  intros H. specialize (H r). rewrite !Z.ltb_ge. lia.
Qed.

Lemma next_allowed_Some queue load limit c queue' :
  next_allowed_candidate queue load limit = Some (c, queue') ->
  exists pre post, queue = pre ++ c :: post /\ queue' = pre ++ post /\
    allowed load limit c = true /\ Forall (fun n => allowed load limit n = false) pre.
Proof.
  revert queue'. induction queue as [|n queue IH]; intros queue'; cbn; [done|].
  destruct (allowed load limit n) eqn:Ha.
  - intros [= <- <-]. by exists [], queue.
  - intros H. apply bind_Some in H as ([c' q'] & Hq & [= -> <-]).
    destruct (IH _ Hq) as (pre & post & -> & -> & Hc & Hpre).
    exists (n :: pre), post. split_and!; [done|done|done|by constructor].
Qed.
Lemma next_allowed_None queue load limit :
  next_allowed_candidate queue load limit = None ->
  Forall (fun n => allowed load limit n = false) queue.
Proof.
  induction queue as [|n queue IH]; cbn; [constructor|].
  destruct (allowed load limit n) eqn:Ha; [done|].
  destruct (next_allowed_candidate queue load limit) as [[]|]; [done|]. constructor; auto.
Qed.

Lemma remove_first_elem x r l : NoDup l -> x ∈ remove_first r l <-> x ∈ l /\ x <> r.
Proof.
  induction l as [|y l IH]; cbn; [set_solver|]. intros [Hn Hd]%NoDup_cons.
  destruct (decide (y = r)) as [->|Hy]; [|rewrite !elem_of_cons, IH by done];
    [set_solver|naive_solver].
Qed.
Lemma remove_first_nodup r l : NoDup l -> NoDup (remove_first r l).
Proof.
  induction l as [|y l IH]; cbn; [done|]. intros [Hn Hd]%NoDup_cons. case_decide; [done|].
  constructor; [|by apply IH]. by intros [? _]%remove_first_elem.
Qed.

(** ** The invariant of the selection *)
Section Selection.
Context (R : list SchedulableNode) (avail limit : Z) (load0 : gmap string Z).

Record sinv (s : sched) : Prop := {
  si_slots : sc_slots s = (avail - Z.of_nat (length (sc_selected s)))%Z;
  si_nonneg : (Z.min 0 avail <= sc_slots s)%Z;
  si_parts : forall r, queue_of (sc_queues s) r ++ of_run r (sc_selected s) ≡ₚ of_run r R;
  si_load : forall repo, load_of (sc_load s) repo =
    (load_of load0 repo + repo_count repo (sc_selected s))%Z;
  si_cap : forall repo, (0 < repo_count repo (sc_selected s))%Z ->
    (load_of (sc_load s) repo <= limit)%Z;
  si_order : NoDup (sc_order s);
  si_dropped : forall r, r ∉ sc_order s ->
    Forall (fun n => allowed (sc_load s) limit n = false) (queue_of (sc_queues s) r);
}.

Lemma of_run_elem r l n : n ∈ of_run r l <-> n ∈ l /\ run_of n = r.
Proof.
  unfold of_run. rewrite !list_elem_of_In, List.filter_In, String.eqb_eq. done.
Qed.
Lemma sinv_queue s r n : sinv s -> n ∈ queue_of (sc_queues s) r -> n ∈ R /\ run_of n = r.
Proof.
  intros [_ _ Hp _ _ _ _] Hn. apply of_run_elem. rewrite <- (Hp r), elem_of_app. by left.
Qed.

Lemma drop_run_inv r s : sinv s ->
  Forall (fun n => allowed (sc_load s) limit n = false) (queue_of (sc_queues s) r) ->
  sinv (drop_run r s).
Proof.
  intros [H1 H2 H3 H4 H5 H6 H7] Hr. split; cbn; [done..|by apply remove_first_nodup|].
  intros r'. rewrite remove_first_elem by done. intros Hn.
  destruct (decide (r' = r)) as [->|Hne]; [done|]. apply H7. naive_solver.
Qed.

Lemma visit_run_inv r s s' : sinv s -> (0 < sc_slots s)%Z -> visit_run limit r s = Some s' ->
  sinv s' /\ exists c, sc_selected s' = sc_selected s ++ [c].
Proof.
  intros Hs Hpos Hv. unfold visit_run in Hv.
  apply bind_Some in Hv as ([c q'] & Hq & [= <-]).
  apply next_allowed_Some in Hq as (pre & post & Hq & -> & Hc & Hpre).
  pose proof Hs as [H1 H2 H3 H4 H5 H6 H7].
  assert (Hcr : run_of c = r).
  { eapply (sinv_queue s r c Hs). rewrite Hq. set_solver. }
  assert (Hro : r ∈ sc_order s).
  { destruct (decide (r ∈ sc_order s)) as [|Hn]; [done|]. specialize (H7 r Hn).
    rewrite Hq, Forall_app, Forall_cons in H7. destruct H7 as (_ & Hf & _). congruence. }
  assert (Hq' : forall r', queue_of (<[r := pre ++ post]> (sc_queues s)) r' =
     if decide (r' = r) then pre ++ post else queue_of (sc_queues s) r').
  { intros r'. unfold queue_of. case_decide; [subst; by rewrite lookup_insert_eq|].
    by rewrite lookup_insert_ne. }
  split; [|by eexists]. split; cbn [sc_slots sc_load sc_queues sc_order sc_selected].
  - rewrite length_app. cbn. lia.
  - lia.
  - intros r'. rewrite Hq'. unfold of_run. rewrite List.filter_app. cbn [List.filter].
    fold (of_run r' (sc_selected s)). fold (of_run r' R).
    case_decide as Hr'; [subst r'|].
    + rewrite Hcr, String.eqb_refl, <- (H3 r), Hq. solve_Permutation.
    + rewrite Hcr, (proj2 (String.eqb_neq r r')) by done. by rewrite app_nil_r.
  - intros repo. rewrite load_of_add, H4, repo_count_app. lia.
  - intros repo. rewrite load_of_add, repo_count_app. intros Hcnt.
    rewrite repo_count_one in *. case_decide as Hrc.
    + unfold allowed in Hc. rewrite Hrc in Hc. apply Z.ltb_lt in Hc. lia.
    + specialize (H5 repo). lia.
  - case_decide; [by apply remove_first_nodup|done].
  - intros r' Hr'. rewrite Hq'. destruct (decide (r' = r)) as [Heq|Heq].
    + subst r'. case_decide as Hnil; [by rewrite Hnil|done].
    + assert (Hn : r' ∉ sc_order s).
      { revert Hr'. case_decide; [|done]. rewrite remove_first_elem by done. naive_solver. }
      eapply Forall_impl; [by apply H7|]. intros n. apply allowed_mono.
      intros repo. rewrite load_of_add. pose proof (repo_count_nonneg repo [c]). lia.
Qed.

Lemma visit_run_None r s : visit_run limit r s = None ->
  Forall (fun n => allowed (sc_load s) limit n = false) (queue_of (sc_queues s) r).
Proof.
  unfold visit_run. destruct (next_allowed_candidate _ _ _) as [[c q]|] eqn:E; [done|].
  intros _. by apply next_allowed_None.
Qed.

Lemma round_inv runs s p s' p' :
  sinv s -> (0 < sc_slots s)%Z -> round limit runs s p = (s', p') ->
  sinv s' /\ (exists l, sc_selected s' = sc_selected s ++ l /\ (p' = true -> p = true \/ l <> [])) /\
  (p' = false -> p = false /\ (forall r, r ∈ runs -> r ∉ sc_order s') /\
     (forall r, r ∈ sc_order s' -> r ∈ sc_order s)).
Proof.
  revert s p. induction runs as [|r runs IH]; intros s p Hs Hpos; cbn.
  { intros [= <- <-]. split_and!; [done| |].
    - exists []. rewrite app_nil_r. split; [done|by left].
    - intros ->. split_and!; [done|by intros r Hr%not_elem_of_nil|done]. }
  destruct (visit_run limit r s) as [t|] eqn:Hv.
  - destruct (visit_run_inv r s t Hs Hpos Hv) as (Ht & c & Hc).
    destruct (Z.eqb_spec (sc_slots t) 0) as [Hz|Hz].
    + intros [= <- <-]. split_and!; [done| |done]. exists [c]. split; [done|by right].
    + assert (Hpt : (0 < sc_slots t)%Z).
      { destruct Hs as [Hs1 _ _ _ _ _ _], Ht as [Ht1 _ _ _ _ _ _].
        rewrite Hc, length_app in Ht1. cbn in Ht1. lia. }
      intros Hr. destruct (IH t true Ht Hpt Hr) as (Hs' & (l & Hl & _) & Hp). split_and!; [done| |].
      * exists (c :: l). rewrite Hl, Hc, <- (assoc_L (++)). split; [done|by right].
      * intros ->. by destruct (Hp eq_refl).
  - intros Hr. pose proof (drop_run_inv r s Hs (visit_run_None r s Hv)) as Hd.
    destruct (IH _ p Hd Hpos Hr) as (Hs' & Hl & Hp). split_and!; [done|done|].
    intros Hf. destruct (Hp Hf) as (-> & Hn & Hsub). pose proof Hs as [_ _ _ _ _ Hno _].
    split_and!; [done| |].
    + intros r' [->|Hr']%elem_of_cons; [|by apply Hn].
      intros Hin%Hsub. cbn in Hin. by apply remove_first_elem in Hin as [_ ?].
    + intros r' Hin%Hsub. cbn in Hin. by apply remove_first_elem in Hin as [? _].
Qed.

Lemma selected_in_R s n : sinv s -> n ∈ sc_selected s -> n ∈ R.
Proof.
  intros [_ _ Hp _ _ _ _] Hn. apply (of_run_elem (run_of n)).
  rewrite <- (Hp (run_of n)), elem_of_app. right. by apply of_run_elem.
Qed.
Lemma selected_length s : NoDup R -> sinv s ->
  NoDup (sc_selected s) /\ length (sc_selected s) <= length R.
Proof.
  intros Hd Hs. assert (Hnd : NoDup (sc_selected s)).
  { pose proof Hs as [_ _ Hp _ _ _ _].
    assert (Hr : forall r, NoDup (of_run r (sc_selected s))).
    { intros r. assert (Hndr : NoDup (of_run r R)).
      { unfold of_run. clear -Hd. induction Hd as [|x l Hx _ IH]; cbn; [constructor|].
        case_match; [|done]. constructor; [|done]. intros Hin. apply Hx.
        apply list_elem_of_In, List.filter_In in Hin as [? _]. by apply list_elem_of_In. }
      rewrite <- (Hp r), NoDup_app in Hndr. tauto. }
    clear -Hr. induction (sc_selected s) as [|x l IH]; [constructor|].
    assert (Hl : forall r, NoDup (of_run r l)).
    { intros r. specialize (Hr r). cbn in Hr. case_match; [|done]. by inversion Hr. }
    constructor; [|by apply IH]. intros Hin. specialize (Hr (run_of x)). cbn in Hr.
    rewrite String.eqb_refl in Hr. inversion Hr as [|?? Hn _]; subst. apply Hn.
    by apply of_run_elem. }
  split; [done|]. apply submseteq_length, NoDup_submseteq; [done|].
  intros n. by apply selected_in_R.
Qed.

(** The loop ends, with no slot left or no run left. *)
Lemma rounds_spec fuel s : NoDup R -> sinv s ->
  length R - length (sc_selected s) < fuel ->
  exists s', rounds fuel limit s = Some s' /\ sinv s' /\
    ((sc_slots s' <= 0)%Z \/ sc_order s' = []) /\
    exists l, sc_selected s' = sc_selected s ++ l.
Proof.
  intros Hd. revert s. induction fuel as [|fuel IH]; intros s Hs Hf; [lia|]. cbn.
  assert (Hend : sc_selected s = sc_selected s ++ []) by (by rewrite app_nil_r).
  destruct (Z.leb_spec (sc_slots s) 0) as [Hz|Hz]; cbn; [by eauto 10|].
  case_bool_decide as Ho; [by eauto 10|].
  destruct (round limit (sc_order s) s false) as [t p] eqn:Hr.
  destruct (round_inv _ _ _ _ _ Hs ltac:(lia) Hr) as (Ht & (l & Hl & Hp) & Hn).
  destruct p.
  - destruct (Hp eq_refl) as [?|Hne]; [done|].
    assert (Hlen : length (sc_selected s) < length (sc_selected t)).
    { rewrite Hl, length_app. destruct l; [done|]. cbn. lia. }
    pose proof (selected_length t Hd Ht) as [_ Hb].
    destruct (IH t Ht ltac:(lia)) as (s' & Hrun & Hs' & Hfin & l' & Hl').
    exists s'. split_and!; [done..|]. exists (l ++ l'). by rewrite Hl', Hl, <- (assoc_L (++)).
  - destruct (Hn eq_refl) as (_ & Hno & Hsub). exists t. split_and!; [done|done| |by eauto].
    right. destruct (sc_order t) as [|r o] eqn:E; [done|]. exfalso.
    apply (Hno r); [apply Hsub; left|left].
Qed.
End Selection.

(** ** Sorted, indexed input *)
#[export] Instance node_le_total : Total node_le.
Proof.
  intros x y. unfold node_le, nk_le.
  destruct (decide (nk_run_id (sn_key x) = nk_run_id (sn_key y))) as [He|He].
  - destruct (total String.le (nk_node_id (sn_key x)) (nk_node_id (sn_key y))); naive_solver.
  - destruct (total String.le (nk_run_id (sn_key x)) (nk_run_id (sn_key y))); naive_solver.
Qed.
#[export] Instance node_le_trans : Transitive node_le.
Proof.
  intros x y z. unfold node_le, nk_le.
  destruct (sn_key x) as [r1 n1], (sn_key y) as [r2 n2], (sn_key z) as [r3 n3]. cbn.
  intros [[H1 L1]|[-> L1]] [[H2 L2]|[-> L2]]; [|by left|by left|].
  - left. split; [|by etrans]. intros ->. apply H1. by apply (anti_symm String.le).
  - right. split; [done|by etrans].
Qed.
Lemma node_le_antisym x y : node_le x y -> node_le y x -> sn_key x = sn_key y.
Proof.
  unfold node_le, nk_le. destruct (sn_key x) as [r1 n1], (sn_key y) as [r2 n2]. cbn.
  intros [[H1 L1]|[-> L1]] [[H2 L2]|[He L2]]; try congruence.
  - destruct H1. by apply (anti_symm String.le).
  - f_equal. by apply (anti_symm String.le).
Qed.

Lemma filter_perm {A} (f : A -> bool) l k : l ≡ₚ k -> List.filter f l ≡ₚ List.filter f k.
Proof.
  induction 1 as [|x l k _ IH|x y l|l k m _ IH1 _ IH2]; cbn; [done| | |by etrans].
  - by destruct (f x); [constructor|].
  - destruct (f x), (f y); [apply perm_swap|done..].
Qed.
Lemma NoDup_bfilter {A} (f : A -> bool) (l : list A) : NoDup l -> NoDup (List.filter f l).
Proof.
  induction 1 as [|x l Hx _ IH]; cbn; [constructor|]. destruct (f x); [|done].
  constructor; [|done]. by intros [? _]%elem_of_bfilter.
Qed.

Lemma has_duplicate_keys_spec nodes :
  has_duplicate_keys nodes = false <-> NoDup (map sn_key nodes).
Proof.
  induction nodes as [|n nodes IH]; cbn; [split; [constructor|done]|].
  rewrite orb_false_iff, IH, bool_decide_eq_false, NoDup_cons. done.
Qed.
(** The input the index accepts. *)
Definition deps_known (nodes : list SchedulableNode) : Prop :=
  forall n d, n ∈ nodes -> d ∈ sn_dependencies n -> d ∈ map sn_key nodes.
Lemma index_nodes_Ok nodes nodes' : index_nodes nodes = Ok nodes' <->
  nodes' = nodes /\ NoDup (map sn_key nodes) /\ deps_known nodes.
Proof.
  unfold index_nodes. rewrite !raise_if_Ok, has_duplicate_keys_spec.
  rewrite <- (not_true_iff_false (existsb _ _)), existsb_exists. split.
  - intros (Hd & Hk & [= <-]). split_and!; [done|done|]. intros n d Hn Hdn.
    destruct (decide (d ∈ map sn_key nodes)) as [|Hnd]; [done|]. destruct Hk.
    exists n. split; [by apply list_elem_of_In|]. apply existsb_exists.
    exists d. split; [by apply list_elem_of_In|]. by rewrite bool_decide_eq_false_2.
  - intros (-> & Hd & Hk). split_and!; [done| |done].
    intros (n & Hn%list_elem_of_In & He). apply existsb_exists in He as (d & Hdn%list_elem_of_In & Hb).
    by rewrite bool_decide_eq_true_2 in Hb by (by eapply Hk).
Qed.

Lemma NoDup_of_keys nodes : NoDup (map sn_key nodes) -> NoDup nodes.
Proof. apply NoDup_fmap_1. Qed.
Lemma elem_of_keys n nodes : n ∈ nodes -> sn_key n ∈ map sn_key nodes.
Proof. intros Hn. apply list_elem_of_fmap. by exists n. Qed.
Lemma key_inj nodes n m : NoDup (map sn_key nodes) -> n ∈ nodes -> m ∈ nodes ->
  sn_key n = sn_key m -> n = m.
Proof. apply NoDup_map_inj. Qed.

Section Init.
Context (nodes : list SchedulableNode) (limits : SchedulingLimits).
Hypothesis Hkeys : NoDup (map sn_key nodes).
Abbreviation active := (List.filter node_active nodes).
Abbreviation avail := (global_concurrency limits - Z.of_nat (length active))%Z.
Abbreviation limit := (per_repository_concurrency limits).
Abbreviation R := (ready_nodes nodes avail).

Lemma elem_of_ready n : n ∈ R <-> (0 < avail)%Z /\ n ∈ nodes /\ node_ready nodes n = true.
Proof.
  unfold ready_nodes. destruct (Z.ltb_spec 0 avail).
  - rewrite elem_of_bfilter. unfold sorted_nodes. rewrite merge_sort_Permutation. tauto.
  - split; [by intros ?%not_elem_of_nil|intros (? & _); lia].
Qed.
Lemma ready_nodup : NoDup R.
Proof.
  unfold ready_nodes. case_match; [|constructor]. apply NoDup_bfilter.
  unfold sorted_nodes. rewrite merge_sort_Permutation. by apply NoDup_of_keys.
Qed.
Lemma ready_length : length R <= length nodes.
Proof.
  apply submseteq_length, NoDup_submseteq; [apply ready_nodup|].
  intros n Hn. by apply elem_of_ready in Hn as (_ & ? & _).
Qed.

Lemma enqueue_queue queues n r :
  queue_of (enqueue queues n) r =
    queue_of queues r ++ (if String.eqb (run_of n) r then [n] else []).
Proof.
  unfold enqueue, run_of, queue_of.
  destruct (String.eqb_spec (nk_run_id (sn_key n)) r) as [<-|Hne].
  - by rewrite lookup_insert_eq.
  - by rewrite lookup_insert_ne, app_nil_r.
Qed.
Lemma queue_of_enqueue queues l r :
  queue_of (foldl enqueue queues l) r = queue_of queues r ++ of_run r l.
Proof.
  revert queues. induction l as [|n l IH]; intros queues; cbn [foldl]; [by rewrite app_nil_r|].
  rewrite IH, enqueue_queue, <- (assoc_L (++)). f_equal.
  unfold of_run. cbn [List.filter]. by destruct (String.eqb (run_of n) r).
Qed.
Lemma init_queue r : queue_of (sc_queues (sched_init nodes limits)) r = of_run r R.
Proof. cbn. by rewrite queue_of_enqueue. Qed.
Lemma init_order r : r ∈ sc_order (sched_init nodes limits) <-> of_run r R <> [].
Proof.
  cbn. unfold oldest_first_run_order. rewrite merge_sort_Permutation, elem_of_remove_dups.
  rewrite list_elem_of_fmap. split.
  - intros (n & -> & Hn). assert (Hin : n ∈ of_run (run_of n) R) by (by apply of_run_elem).
    intros He. unfold run_of in *. rewrite He in Hin. by apply not_elem_of_nil in Hin.
  - destruct (of_run r R) as [|n l] eqn:E; [done|]. intros _.
    assert (Hin : n ∈ of_run r R) by (rewrite E; left).
    apply of_run_elem in Hin as [Hn <-]. by exists n.
Qed.

Lemma sched_init_inv :
  sinv R avail limit (repository_load active) (sched_init nodes limits).
Proof.
  split.
  - cbn. lia.
  - cbn. lia.
  - intros r. rewrite init_queue. cbn. by rewrite app_nil_r.
  - intros repo. cbn. unfold repo_count at 1. cbn. lia.
  - intros repo. cbn. unfold repo_count. cbn. lia.
  - cbn. unfold oldest_first_run_order. rewrite merge_sort_Permutation. apply NoDup_remove_dups.
  - intros r. rewrite init_order, init_queue. intros Hn.
    destruct (of_run r R); [constructor|]. by destruct Hn.
Qed.

Lemma sched_final_spec :
  rounds (S (length nodes)) limit (sched_init nodes limits) = Some (sched_final nodes limits) /\
  sinv R avail limit (repository_load active) (sched_final nodes limits) /\
  ((sc_slots (sched_final nodes limits) <= 0)%Z \/ sc_order (sched_final nodes limits) = []).
Proof.
  destruct (rounds_spec R avail limit (repository_load active) (S (length nodes))
    (sched_init nodes limits) ready_nodup sched_init_inv) as (s & Hs & Hi & Hfin & _).
  { pose proof ready_length. lia. }
  unfold sched_final. rewrite Hs. done.
Qed.

Lemma final_selected_ready n :
  n ∈ sc_selected (sched_final nodes limits) -> n ∈ nodes /\ node_ready nodes n = true.
Proof.
  destruct sched_final_spec as (_ & Hi & _). intros Hn.
  eapply selected_in_R in Hn; [|exact Hi]. by apply elem_of_ready in Hn as (_ & ? & ?).
Qed.
Lemma final_keys n : n ∈ nodes ->
  sn_key n ∈ map sn_key (sc_selected (sched_final nodes limits)) <->
  n ∈ sc_selected (sched_final nodes limits).
Proof.
  intros Hn. split; [|by apply elem_of_keys].
  intros (m & He & Hm)%list_elem_of_fmap.
  rewrite (key_inj nodes n m Hkeys Hn); [done| |done].
  by apply final_selected_ready in Hm as [? _].
Qed.
Lemma final_nodup : NoDup (map sn_key (sc_selected (sched_final nodes limits))).
Proof.
  destruct sched_final_spec as (_ & Hi & _).
  destruct (selected_length _ _ _ _ _ ready_nodup Hi) as [Hnd _].
  apply NoDup_fmap_2_strong; [|done]. intros x y Hx Hy.
  apply final_selected_ready in Hx as [Hx _], Hy as [Hy _]. by apply key_inj with (nodes := nodes).
Qed.
(** A ready node left over after a free slot has a full repository. *)
Lemma final_maximal n : n ∈ nodes -> node_ready nodes n = true ->
  n ∉ sc_selected (sched_final nodes limits) ->
  (0 < sc_slots (sched_final nodes limits))%Z ->
  allowed (sc_load (sched_final nodes limits)) limit n = false.
Proof.
  intros Hn Hr Hns Hpos. destruct sched_final_spec as (_ & Hi & [Hz|Ho]); [lia|].
  pose proof Hi as [H1 H2 H3 H4 H5 H6 H7].
  assert (HR : n ∈ R) by (apply elem_of_ready; split_and!; [lia|done|done]).
  assert (Hq : n ∈ queue_of (sc_queues (sched_final nodes limits)) (run_of n)).
  { assert (Hin : n ∈ of_run (run_of n) R) by (by apply of_run_elem).
    rewrite <- (H3 (run_of n)), elem_of_app in Hin. destruct Hin as [|Hin]; [done|].
    by apply of_run_elem in Hin as [? _]. }
  specialize (H7 (run_of n)). rewrite Ho in H7.
  specialize (H7 ltac:(apply not_elem_of_nil)). rewrite Forall_forall in H7. by apply H7.
Qed.
End Init.

(** The nodes a plan selects. *)
Definition chosen (nodes : list SchedulableNode) (p : SchedulingPlan) : list SchedulableNode :=
  List.filter (fun n => bool_decide (sn_key n ∈ sp_selected p)) nodes.
Definition active_nodes (nodes : list SchedulableNode) : list SchedulableNode :=
  List.filter node_active nodes.

Section Planned.
Context (nodes : list SchedulableNode) (limits : SchedulingLimits) (p : SchedulingPlan).
Hypothesis Hplan : scheduler_plan nodes limits = Ok p.

Lemma plan_inv : NoDup (map sn_key nodes) /\ deps_known nodes /\
  sp_selected p = map sn_key (sc_selected (sched_final nodes limits)) /\
  sp_deferred p = map (fun n => (sn_key n, deferral_reason nodes
      (sc_load (sched_final nodes limits)) (per_repository_concurrency limits) n))
    (List.filter (fun n => bool_decide (sn_state n = SS_QUEUED) &&
       negb (bool_decide (sn_key n ∈ sp_selected p))) (sorted_nodes nodes)).
Proof.
  unfold scheduler_plan in Hplan. apply bind_Ok in Hplan as (ns & Hi & Hp).
  apply index_nodes_Ok in Hi as (-> & Hd & Hk). injection Hp as <-. done.
Qed.

Lemma chosen_selected : chosen nodes p ≡ₚ sc_selected (sched_final nodes limits).
Proof.
  destruct plan_inv as (Hd & _ & Hs & _).
  destruct (sched_final_spec nodes limits Hd) as (_ & Hi & _).
  apply NoDup_Permutation.
  - by apply NoDup_bfilter, NoDup_of_keys.
  - by apply (selected_length _ _ _ _ _ (ready_nodup nodes limits Hd) Hi).
  - intros n. unfold chosen. rewrite elem_of_bfilter, bool_decide_eq_true, Hs. split.
    + intros [Hn Hk]. by apply final_keys in Hk.
    + intros Hn. apply final_selected_ready in Hn as Hr; [|done]. destruct Hr as [Hin _].
      split; [done|]. by apply elem_of_keys.
Qed.
Lemma chosen_length : length (sp_selected p) = length (chosen nodes p).
Proof.
  destruct plan_inv as (_ & _ & Hs & _). rewrite Hs, length_map.
  by rewrite (Permutation_length chosen_selected).
Qed.
Lemma chosen_repo repo :
  repo_count repo (chosen nodes p) = repo_count repo (sc_selected (sched_final nodes limits)).
Proof.
  unfold repo_count. by rewrite (Permutation_length (filter_perm (in_repo repo) _ _ chosen_selected)).
Qed.
Lemma final_load repo : load_of (sc_load (sched_final nodes limits)) repo =
  (repo_count repo (active_nodes nodes) + repo_count repo (chosen nodes p))%Z.
Proof.
  destruct plan_inv as (Hd & _). destruct (sched_final_spec nodes limits Hd) as (_ & Hi & _).
  destruct Hi as [_ _ _ Hl _ _ _]. rewrite Hl, repository_load_spec, chosen_repo. done.
Qed.
(** The two limits, against what was active before. *)
Lemma plan_capacity :
  (Z.of_nat (length (active_nodes nodes) + length (sp_selected p)) <=
     Z.max (Z.of_nat (length (active_nodes nodes))) (global_concurrency limits))%Z /\
  (forall repo, (repo_count repo (active_nodes nodes) + repo_count repo (chosen nodes p) <=
     Z.max (repo_count repo (active_nodes nodes)) (per_repository_concurrency limits))%Z).
Proof.
  destruct plan_inv as (Hd & _ & Hs & _). destruct (sched_final_spec nodes limits Hd) as (_ & Hi & _). split.
  - destruct Hi as [H1 H2 _ _ _ _ _]. rewrite Hs, length_map. unfold active_nodes. lia.
  - intros repo. rewrite <- final_load.
    destruct Hi as [_ _ _ Hl Hc _ _]. specialize (Hl repo). specialize (Hc repo).
    rewrite repository_load_spec in Hl. unfold active_nodes.
    pose proof (repo_count_nonneg repo (sc_selected (sched_final nodes limits))). lia.
Qed.
End Planned.

Lemma dead_none nodes ds :
  forallb (fun d => bool_decide (state_of nodes d = Some SS_SUCCEEDED)) ds = true ->
  existsb is_dead (map (state_of nodes) ds) = false.
Proof.
  induction ds as [|d ds IH]; cbn; [done|]. intros [Hd%bool_decide_eq_true H]%andb_true_iff.
  by rewrite Hd, IH.
Qed.
Lemma unsucceeded_none nodes ds :
  forallb (fun d => bool_decide (state_of nodes d = Some SS_SUCCEEDED)) ds = true ->
  existsb (fun s => negb (bool_decide (s = Some SS_SUCCEEDED))) (map (state_of nodes) ds) = false.
Proof.
  induction ds as [|d ds IH]; cbn; [done|]. intros [Hd%bool_decide_eq_true H]%andb_true_iff.
  by rewrite Hd, IH.
Qed.

(** A selected key names a queued node of the input with its requirements met and
    its dependencies succeeded. *)
Lemma selected_node nodes limits p k : scheduler_plan nodes limits = Ok p -> k ∈ sp_selected p ->
  exists n, n ∈ nodes /\ sn_key n = k /\ sn_state n = SS_QUEUED /\
    sn_requirements_satisfied n = true /\
    forall d, d ∈ sn_dependencies n -> state_of nodes d = Some SS_SUCCEEDED.
Proof.
  intros Hplan. destruct (plan_inv nodes limits p Hplan) as (Hd & _ & -> & _).
  intros (n & -> & Hn)%list_elem_of_fmap.
  apply final_selected_ready in Hn as [Hin Hr]; [|done]. exists n.
  unfold node_ready in Hr. rewrite !andb_true_iff, forallb_forall, bool_decide_eq_true in Hr.
  destruct Hr as [[Hq Hreq] Hdep]. split_and!; [done..|].
  intros d Hdd. specialize (Hdep d ltac:(by apply list_elem_of_In)).
  by apply bool_decide_eq_true in Hdep.
Qed.

(** C35: a plan selects distinct nodes of the input, each queued with its
    requirements and every dependency succeeded; with the nodes already leased or
    running it stays within the global limit, and within the per-repository limit
    of every repository it selects from. *)
Theorem scheduler_plan_safe (nodes : list SchedulableNode) (limits : SchedulingLimits)
    (p : SchedulingPlan) (Hplan : scheduler_plan nodes limits = Ok p) :
  NoDup (sp_selected p) /\
  (forall k, k ∈ sp_selected p -> exists n, n ∈ nodes /\ sn_key n = k /\
     sn_state n = SS_QUEUED /\ sn_requirements_satisfied n = true /\
     forall d, d ∈ sn_dependencies n -> state_of nodes d = Some SS_SUCCEEDED) /\
  (Z.of_nat (length (active_nodes nodes) + length (sp_selected p)) <=
     Z.max (Z.of_nat (length (active_nodes nodes))) (global_concurrency limits))%Z /\
  (forall repo, (repo_count repo (active_nodes nodes) + repo_count repo (chosen nodes p) <=
     Z.max (repo_count repo (active_nodes nodes)) (per_repository_concurrency limits))%Z).
Proof.
  destruct (plan_inv nodes limits p Hplan) as (Hd & _ & Hs & _).
  split_and!.
  - rewrite Hs. by apply final_nodup.
  - intros k. by apply selected_node with (limits := limits).
  - apply (plan_capacity nodes limits p Hplan).
  - apply (plan_capacity nodes limits p Hplan).
Qed.

Lemma decided_once nodes limits p : scheduler_plan nodes limits = Ok p ->
  sp_selected p ++ map fst (sp_deferred p) ≡ₚ
    map sn_key (List.filter (fun n => bool_decide (sn_state n = SS_QUEUED)) nodes).
Proof.
  intros Hplan. destruct (plan_inv nodes limits p Hplan) as (Hd & _ & Hs & Hdef).
  rewrite Hdef, map_map. cbn [fst]. unfold sorted_nodes.
  rewrite (Permutation_map sn_key (filter_perm _ _ _ (merge_sort_Permutation node_le nodes))).
  rewrite Hs at 1. rewrite <- (Permutation_map sn_key (chosen_selected nodes limits p Hplan)).
  rewrite <- map_app. apply Permutation_map. unfold chosen.
  assert (Hq : forall n, n ∈ nodes -> sn_key n ∈ sp_selected p -> sn_state n = SS_QUEUED).
  { intros n Hn. rewrite Hs, final_keys by done. intros Hsel.
    apply final_selected_ready in Hsel as [_ Hr]; [|done]. unfold node_ready in Hr.
    rewrite !andb_true_iff, bool_decide_eq_true in Hr. tauto. }
  clear -Hq. induction nodes as [|n ns IH]; [done|]. cbn [List.filter].
  assert (IH' := IH (fun m Hm => Hq m (list_elem_of_further _ _ _ Hm))). clear IH.
  specialize (Hq n ltac:(left)).
  destruct (decide (sn_key n ∈ sp_selected p)) as [Hk|Hk].
  + rewrite bool_decide_eq_true_2 by done. rewrite (bool_decide_eq_true_2 (_ = SS_QUEUED)) by auto.
    cbn. by constructor.
  + rewrite bool_decide_eq_false_2 by done. case_bool_decide; cbn [andb negb]; [|done].
    rewrite <- Permutation_middle. by constructor.
Qed.

(** C36: a plan decides every queued node exactly once, selected or deferred; a
    ready node is deferred only because its repository is at the limit or because
    every global slot is taken (no slot is left idle while an admissible node
    waits), and the recorded reason says which. *)
Theorem scheduler_plan_work_conserving (nodes : list SchedulableNode)
    (limits : SchedulingLimits) (p : SchedulingPlan)
    (Hplan : scheduler_plan nodes limits = Ok p) :
  sp_selected p ++ map fst (sp_deferred p) ≡ₚ
    map sn_key (List.filter (fun n => bool_decide (sn_state n = SS_QUEUED)) nodes) /\
  (forall n, n ∈ nodes -> node_ready nodes n = true ->
     sn_key n ∈ sp_selected p \/
     ((sn_key n, DR_GLOBAL_CAPACITY) ∈ sp_deferred p /\
      (global_concurrency limits <=
         Z.of_nat (length (active_nodes nodes) + length (sp_selected p)))%Z) \/
     (exists repo, (sn_key n, DR_REPOSITORY_CAPACITY) ∈ sp_deferred p /\
      sn_repository_id n = Some repo /\
      (per_repository_concurrency limits <=
         repo_count repo (active_nodes nodes) + repo_count repo (chosen nodes p))%Z)).
Proof.
  destruct (plan_inv nodes limits p Hplan) as (Hd & _ & Hs & Hdef).
  assert (Hdefer : forall n, n ∈ nodes -> sn_state n = SS_QUEUED -> sn_key n ∉ sp_selected p ->
    (sn_key n, deferral_reason nodes (sc_load (sched_final nodes limits))
       (per_repository_concurrency limits) n) ∈ sp_deferred p).
  { intros n Hn Hq Hns. rewrite Hdef. apply list_elem_of_fmap. exists n. split; [done|].
    apply elem_of_bfilter. unfold sorted_nodes. rewrite merge_sort_Permutation.
    by rewrite bool_decide_eq_true_2, bool_decide_eq_false_2. }
  split.
  - by eapply decided_once.
  - intros n Hn Hr.
    destruct (decide (sn_key n ∈ sp_selected p)) as [|Hns]; [by left|right].
    assert (Hq : sn_state n = SS_QUEUED).
    { unfold node_ready in Hr. rewrite !andb_true_iff, bool_decide_eq_true in Hr. tauto. }
    specialize (Hdefer n Hn Hq Hns). revert Hdefer. unfold deferral_reason.
    unfold node_ready in Hr. apply andb_true_iff in Hr as Hr'.
    destruct Hr' as [Hr1 Hdep]. apply andb_true_iff in Hr1 as [_ ->]. cbn [negb].
    rewrite (dead_none _ _ Hdep), (unsucceeded_none _ _ Hdep).
    destruct (allowed (sc_load (sched_final nodes limits)) (per_repository_concurrency limits) n)
      eqn:Ha; cbn [negb]; intros Hin.
    + left. split; [done|]. destruct (sched_final_spec nodes limits Hd) as (_ & Hi & _).
      assert (Hz : ~ (0 < sc_slots (sched_final nodes limits))%Z).
      { intros Hpos. rewrite Hs, final_keys in Hns by done.
        pose proof (final_maximal nodes limits Hd n Hn Hr Hns Hpos). congruence. }
      destruct Hi as [H1 _ _ _ _ _ _]. rewrite Hs, length_map. unfold active_nodes. lia.
    + right. unfold allowed in Ha. destruct (sn_repository_id n) as [repo|]; [|done].
      exists repo. split_and!; [done|done|]. apply Z.ltb_ge in Ha.
      by rewrite (final_load nodes limits p Hplan) in Ha.
Qed.

(** ** Independence from the input order *)
Lemma state_of_Some nodes k st : NoDup (map sn_key nodes) ->
  state_of nodes k = Some st <-> exists n, n ∈ nodes /\ sn_key n = k /\ sn_state n = st.
Proof.
  intros Hd. induction nodes as [|n nodes IH]; cbn.
  { split; [done|]. by intros (n & Hn%not_elem_of_nil & _). }
  cbn in Hd. apply NoDup_cons in Hd as [Hn Hd]. destruct (decide (sn_key n = k)) as [Hk|Hk].
  - split; [intros [= <-]; exists n; split_and!; [left|done|done]|].
    intros (m & [->|Hm]%elem_of_cons & Hmk & <-); [done|].
    destruct Hn. rewrite Hk, <- Hmk. by apply elem_of_keys.
  - rewrite (IH Hd). split; intros (m & Hm & Hmk & Hst); exists m; split_and!; [by right|done..| |done|done].
    apply elem_of_cons in Hm as [->|Hm]; [done|done].
Qed.
Lemma load_lookup load l r :
  foldl add_load load l !! r =
    if decide (0 < repo_count r l)%Z then Some (load_of load r + repo_count r l)%Z else load !! r.
Proof.
  revert load. induction l as [|n l IH]; intros load; cbn [foldl].
  { unfold repo_count. cbn. by rewrite decide_False by lia. }
  rewrite IH, load_of_add, (repo_count_app r [n] l : repo_count r (n :: l) = _).
  pose proof (repo_count_nonneg r l). pose proof (repo_count_nonneg r [n]).
  rewrite repo_count_one in *. unfold add_load. destruct (sn_repository_id n) as [r'|].
  - destruct (decide (Some r' = Some r)) as [[= ->]|Hne].
    + rewrite lookup_insert_eq. rewrite (decide_True (P := (0 < 1 + _)%Z)) by lia.
      case_decide; f_equal; lia.
    + rewrite lookup_insert_ne by congruence. rewrite !Z.add_0_l, Z.add_0_r. done.
  - rewrite (decide_False (P := None = Some r)) by done.
    rewrite !Z.add_0_l, Z.add_0_r. done.
Qed.

Section Permuted.
Context (nodes nodes' : list SchedulableNode) (limits : SchedulingLimits).
Hypothesis Hperm : nodes ≡ₚ nodes'.
Hypothesis Hkeys : NoDup (map sn_key nodes).

Lemma permuted_keys : NoDup (map sn_key nodes').
Proof. by rewrite <- (Permutation_map sn_key Hperm). Qed.
Lemma permuted_states k : state_of nodes k = state_of nodes' k.
Proof.
  apply option_eq. intros st. rewrite !state_of_Some by (try apply permuted_keys; done).
  by setoid_rewrite Hperm.
Qed.
Lemma permuted_sorted : sorted_nodes nodes = sorted_nodes nodes'.
Proof.
  unfold sorted_nodes. apply (Sorted_unique_strong node_le).
  - intros x y Hx Hy Hxy Hyx. rewrite merge_sort_Permutation in Hx, Hy.
    rewrite <- Hperm in Hy. by apply (key_inj nodes); [..|apply node_le_antisym].
  - apply (Sorted_merge_sort _).
  - apply (Sorted_merge_sort _).
  - by rewrite !merge_sort_Permutation.
Qed.
Lemma permuted_ready n : node_ready nodes n = node_ready nodes' n.
Proof.
  unfold node_ready. f_equal. induction (sn_dependencies n) as [|d ds IH]; cbn; [done|].
  by rewrite permuted_states, IH.
Qed.
Lemma permuted_load :
  repository_load (List.filter node_active nodes) = repository_load (List.filter node_active nodes').
Proof.
  apply map_eq. intros r. unfold repository_load. rewrite !load_lookup.
  assert (Hc : repo_count r (List.filter node_active nodes) =
               repo_count r (List.filter node_active nodes')).
  { unfold repo_count. f_equal. apply Permutation_length. by do 2 apply filter_perm. }
  by rewrite Hc.
Qed.
Lemma permuted_init : sched_init nodes limits = sched_init nodes' limits.
Proof.
  unfold sched_init, ready_nodes.
  rewrite (Permutation_length (filter_perm node_active _ _ Hperm)), permuted_load, permuted_sorted.
  rewrite (List.filter_ext _ _ permuted_ready). done.
Qed.
Lemma permuted_final : sched_final nodes limits = sched_final nodes' limits.
Proof. unfold sched_final. by rewrite permuted_init, (Permutation_length Hperm). Qed.
Lemma permuted_reason load limit n :
  deferral_reason nodes load limit n = deferral_reason nodes' load limit n.
Proof.
  unfold deferral_reason. by rewrite (map_ext _ _ permuted_states).
Qed.
End Permuted.

Lemma index_permuted nodes nodes' : nodes ≡ₚ nodes' ->
  (exists e, index_nodes nodes = Err e /\ index_nodes nodes' = Err e) \/
  (index_nodes nodes = Ok nodes /\ index_nodes nodes' = Ok nodes' /\ NoDup (map sn_key nodes)).
Proof.
  intros Hp.
  assert (Hiff : (exists k, index_nodes nodes = Ok k) <-> exists k, index_nodes nodes' = Ok k).
  { setoid_rewrite index_nodes_Ok. unfold deps_known.
    assert (Hk : map sn_key nodes ≡ₚ map sn_key nodes') by (by apply Permutation_map).
    split; intros (k & -> & Hd & Hu); eexists; (split_and!; [done| |]).
    - by rewrite <- Hk.
    - intros n d Hn Hdn. rewrite <- Hk. eapply Hu; [by rewrite Hp|done].
    - by rewrite Hk.
    - intros n d Hn Hdn. rewrite Hk. eapply Hu; [by rewrite <- Hp|done]. }
  assert (Herr : forall ns e, index_nodes ns = Err e -> e = InvalidInputError).
  { intros ns e. unfold index_nodes. rewrite !raise_if_Err. naive_solver. }
  destruct (index_nodes nodes) as [k|e] eqn:E1, (index_nodes nodes') as [k'|e'] eqn:E2.
  - apply index_nodes_Ok in E1 as (-> & Hd & _), E2 as (-> & _). by right.
  - destruct (proj1 Hiff ltac:(by eexists)) as [? ?]. done.
  - destruct (proj2 Hiff ltac:(by eexists)) as [? ?]. done.
  - left. exists e. apply Herr in E1, E2. by subst.
Qed.

(** The plan (and the refusal of an input) depends only on the set of nodes,
    not on the order they are listed in. *)
Theorem scheduler_plan_order_independent (nodes nodes' : list SchedulableNode)
    (limits : SchedulingLimits) (Hperm : nodes ≡ₚ nodes') :
  scheduler_plan nodes limits = scheduler_plan nodes' limits.
Proof.
  unfold scheduler_plan.
  destruct (index_permuted nodes nodes' Hperm) as [(e & -> & ->)|(-> & -> & Hd)]; [done|].
  cbn [mbind result_bind].
  rewrite (permuted_final nodes nodes' limits Hperm Hd), (permuted_sorted nodes nodes' Hperm Hd).
  do 2 f_equal. apply map_ext. intros n.
  by rewrite (permuted_reason nodes nodes' Hperm Hd).
Qed.

Definition sample_node (r n : string) (deps : list NodeKey) (st : SchedulableState)
    (repo : string) (since : Z) : SchedulableNode := {|
  sn_key := {| nk_run_id := r; nk_node_id := n |}; sn_dependencies := deps; sn_state := st;
  sn_repository_id := Some repo; sn_requirements_satisfied := true;
  sn_queued_since := Some since |}.
Definition sample_nodes : list SchedulableNode :=
  [sample_node "r2" "a" [] SS_QUEUED "repo" 5; sample_node "r1" "b" [] SS_QUEUED "repo" 7;
   sample_node "r1" "a" [] SS_RUNNING "other" 1;
   sample_node "r1" "c" [{| nk_run_id := "r1"; nk_node_id := "a" |}] SS_QUEUED "third" 1].
Definition sample_limits : SchedulingLimits :=
  {| global_concurrency := 3; per_repository_concurrency := 1 |}.
Definition sample_schedule : SchedulingPlan := {|
  sp_selected := [{| nk_run_id := "r2"; nk_node_id := "a" |}];
  sp_deferred := [({| nk_run_id := "r1"; nk_node_id := "b" |}, DR_REPOSITORY_CAPACITY);
                  ({| nk_run_id := "r1"; nk_node_id := "c" |}, DR_DEPENDENCIES)] |}.
Lemma sample_schedule_eq : scheduler_plan sample_nodes sample_limits = Ok sample_schedule.
Proof. reflexivity. Qed.

Lemma scheduler_plan_safe_witness :
  scheduler_plan sample_nodes sample_limits = Ok sample_schedule /\
  NoDup (sp_selected sample_schedule).
Proof.
  split; [exact sample_schedule_eq|].
  apply (scheduler_plan_safe sample_nodes sample_limits sample_schedule sample_schedule_eq).
Defined.
Lemma scheduler_plan_work_conserving_witness :
  sp_selected sample_schedule ++ map fst (sp_deferred sample_schedule) ≡ₚ
    [{| nk_run_id := "r2"; nk_node_id := "a" |}; {| nk_run_id := "r1"; nk_node_id := "b" |};
     {| nk_run_id := "r1"; nk_node_id := "c" |}].
Proof.
  exact (proj1 (scheduler_plan_work_conserving sample_nodes sample_limits sample_schedule
    sample_schedule_eq)).
Defined.
Lemma scheduler_plan_order_independent_witness :
  scheduler_plan (reverse sample_nodes) sample_limits = Ok sample_schedule.
Proof.
  rewrite (scheduler_plan_order_independent (reverse sample_nodes) sample_nodes sample_limits
    (reverse_Permutation sample_nodes)).
  exact sample_schedule_eq.
Defined.
