(* ===== verification/Regex.v ===== *)
(** * Regular expressions

    The fragment of Python's [re] the sources use, as syntax, with the matcher that
    gives its meaning.  Every repetition in the sources is over one character class
    or a bounded group, so the matcher is structural; searches and full matches ask
    only whether a match exists, which does not depend on greediness. *)
From S2P Require Import Prelude PyText Identity.

Definition char_class := Ascii.ascii -> bool.
Inductive regex :=
| RLit (s : string)                                     (* literal text *)
| RRep (c : char_class) (least : nat) (most : option nat) (* [c]{least,most} *)
| RSeq (a b : regex)
| RAlt (a b : regex)
| RWord                                                 (* \b *)
| RNotBehind (c : char_class)                           (* (?<![c]) *)
| RNot (a : regex).                                     (* (?!a) *)

(** A position: the character before it and the text after it. *)
Definition position : Type := option Ascii.ascii * list Ascii.ascii.

Definition in_range (c : Ascii.ascii) (lo hi : N) : bool := ((lo <=? code c) && (code c <=? hi))%N.
Definition is_upper (c : Ascii.ascii) : bool := in_range c 65 90.
Definition is_lower (c : Ascii.ascii) : bool := in_range c 97 122.
Definition is_digit (c : Ascii.ascii) : bool := in_range c 48 57.
Definition is_one_of (s : string) (c : Ascii.ascii) : bool := bool_decide (c ∈ chars s).
(** [\w] on U+0000..U+00FF: alphanumeric or an underscore. *)
Definition is_word (c : Ascii.ascii) : bool :=
  is_upper c || is_lower c || is_digit c || (code c =? 95)%N ||
  existsb (N.eqb (code c)) [170; 178; 179; 181; 185; 186; 188; 189; 190]%N ||
  in_range c 192 214 || in_range c 216 246 || in_range c 248 255.

(** [str.lower] *)
Definition lower_char (c : Ascii.ascii) : Ascii.ascii :=
  if is_upper c || in_range c 192 214 || in_range c 216 222 then chr (code c + 32) else c.
Definition py_lower (s : string) : string := of_chars (map lower_char (chars s)).

Definition step_literal (s : string) (p : position) : list position :=
  (fix go (l : list Ascii.ascii) (p : position) := match l, p with
   | [], p => [p]
   | c :: l, (_, d :: rest) => if decide (c = d) then go l (Some d, rest) else []
   | _ :: _, (_, []) => []
   end) (chars s) p.

(** All positions after consuming between [least] and [most] class characters. *)
Fixpoint step_rep (c : char_class) (least : nat) (most : option nat)
    (prev : option Ascii.ascii) (rest : list Ascii.ascii) : list position :=
  let here := match least with 0 => [(prev, rest)] | S _ => [] end in
  match rest with
  | d :: rest' =>
      if c d && negb (bool_decide (most = Some 0))
      then here ++ step_rep c (pred least) (pred <$> most) (Some d) rest'
      else here
  | [] => here
  end.

Definition at_word_boundary (p : position) : bool :=
  xorb (from_option is_word false p.1) (from_option is_word false (head p.2)).

Fixpoint step (r : regex) (p : position) : list position :=
  match r with
  | RLit s => step_literal s p
  | RRep c least most => step_rep c least most p.1 p.2
  | RSeq a b => step a p ≫= step b
  | RAlt a b => step a p ++ step b p
  | RWord => if at_word_boundary p then [p] else []
  | RNotBehind c => if from_option c false p.1 then [] else [p]
  | RNot a => match step a p with [] => [p] | _ => [] end
  end.

(** [pattern.search(text)] finds something. *)
Fixpoint search_from (r : regex) (prev : option Ascii.ascii) (rest : list Ascii.ascii) : bool :=
  match step r (prev, rest) with
  | _ :: _ => true
  | [] => match rest with [] => false | d :: rest' => search_from r (Some d) rest' end
  end.
Definition regex_search (r : regex) (text : string) : bool := search_from r None (chars text).
(** [pattern.fullmatch(text)] succeeds. *)
Definition regex_fullmatch (r : regex) (text : string) : bool :=
  existsb (fun p => match p.2 with [] => true | _ => false end) (step r (None, chars text)).

(** ** Building patterns *)
Fixpoint rseq (l : list regex) : regex :=
  match l with [] => RLit "" | [r] => r | r :: l => RSeq r (rseq l) end.
Fixpoint ralt (l : list regex) : regex :=
  match l with [] => RLit "" | [r] => r | r :: l => RAlt r (ralt l) end.
Definition opt_lit (s : string) : regex := RAlt (RLit s) (RLit "").

Definition is_alnum (c : Ascii.ascii) : bool := is_upper c || is_lower c || is_digit c.
(** Literal text up to ASCII case, for [(?i)]. *)
Definition fold_case (c : Ascii.ascii) : Ascii.ascii :=
  if is_upper c then chr (code c + 32) else c.
Definition ilit (s : string) : regex :=
  rseq (map (fun c => RRep (fun d => bool_decide (fold_case d = fold_case c)) 1 (Some 1)) (chars s)).

(** ** What a full match means

    The language of a pattern without assertions ([\b], [(?<!...)], [(?!...)]). *)
Fixpoint regular (r : regex) : bool :=
  match r with
  | RLit _ | RRep _ _ _ => true
  | RSeq a b | RAlt a b => regular a && regular b
  | RWord | RNotBehind _ | RNot _ => false
  end.
Fixpoint rlang (r : regex) (l : list Ascii.ascii) : Prop :=
  match r with
  | RLit s => l = chars s
  | RRep c least most =>
      Forall (fun x => c x = true) l /\ (least <= length l)%nat /\
      from_option (fun n => (length l <= n)%nat) True most
  | RSeq a b => exists x y, l = x ++ y /\ rlang a x /\ rlang b y
  | RAlt a b => rlang a l \/ rlang b l
  | RWord | RNotBehind _ | RNot _ => False
  end.

(** The position after consuming [l]. *)
Definition after (p : position) (l rest : list Ascii.ascii) : position :=
  (from_option Some p.1 (last l), rest).
Lemma after_app p l k rest rest' :
  after (after p l rest') k rest = after p (l ++ k) rest.
Proof. unfold after; cbn. f_equal. rewrite last_app. by destruct (last k), (last l). Qed.
Lemma after_cons prev c rest l k :
  after (prev, c :: rest) (c :: l) k = after (Some c, rest) l k.
Proof. unfold after; cbn [fst]. f_equal. rewrite last_cons. by destruct (last l). Qed.

Lemma step_literal_spec s p q :
  q ∈ step_literal s p <-> exists rest, p.2 = chars s ++ rest /\ q = after p (chars s) rest.
Proof.
  unfold step_literal. generalize (chars s) as l. intros l. revert p.
  induction l as [|c l IH]; intros [prev rest]; cbn.
  - rewrite list_elem_of_singleton. split; [intros ->; by eexists|].
    by intros (r & -> & ->).
  - destruct rest as [|d rest].
    + split; [by intros ?%not_elem_of_nil|]. by intros (? & Hr & _).
    + case_decide as Hd; [subst d|].
      * rewrite IH. cbn. setoid_rewrite after_cons.
        split; intros (r & Hr & ->); exists r; (split; [congruence|done]).
      * split; [by intros ?%not_elem_of_nil|]. intros (? & Hr & _). congruence.
Qed.
Lemma step_rep_spec c least most prev rest q :
  q ∈ step_rep c least most prev rest <->
  exists l k, rest = l ++ k /\ rlang (RRep c least most) l /\ q = after (prev, rest) l k.
Proof.
  revert least most prev. induction rest as [|d rest IH]; intros least most prev.
  - cbn [step_rep]. split.
    + destruct least; [|by intros ?%not_elem_of_nil]. intros ->%list_elem_of_singleton.
      exists [], []. split_and!; [done| |done]. cbn. split_and!; [done|lia|].
      destruct most; cbn; [lia|done].
    + intros (l & k & Hl & (_ & Hle & _) & ->). destruct l; [|done]. destruct k; [|done].
      cbn in Hle. destruct least; [|lia]. by apply list_elem_of_singleton.
  - assert (Hhere : forall q, q ∈ match least with 0 => [(prev, d :: rest)] | S _ => [] end <->
      least = 0 /\ q = after (prev, d :: rest) [] (d :: rest)).
    { intros q'. destruct least; [rewrite list_elem_of_singleton; naive_solver|].
      split; [by intros ?%not_elem_of_nil|naive_solver]. }
    assert (Hcons : q ∈ step_rep c (pred least) (pred <$> most) (Some d) rest ->
      c d = true -> most <> Some 0 -> exists l k, d :: rest = l ++ k /\
        rlang (RRep c least most) l /\ q = after (prev, d :: rest) l k).
    { intros (l & k & -> & (Hf & Hle & Hm) & ->)%IH Hd Hne. exists (d :: l), k.
      split_and!; [done| |].
      - cbn. split_and!; [by constructor|lia|].
        destruct most as [[|m]|]; cbn in *; [done|lia|done].
      - by rewrite after_cons. }
    assert (Hback : forall l k, d :: rest = l ++ k -> rlang (RRep c least most) l ->
      q = after (prev, d :: rest) l k -> (l = [] /\ least = 0) \/
      (c d = true /\ most <> Some 0 /\
       q ∈ step_rep c (pred least) (pred <$> most) (Some d) rest)).
    { intros [|x l] k Hl (Hf & Hle & Hm) ->; [left; cbn in Hle; split; [done|lia]|right].
      injection Hl as <- ->. apply Forall_cons in Hf as [Hd Hf]. split_and!; [done| |].
      - intros ->. cbn in Hm. lia.
      - apply IH. exists l, k. split_and!; [done| |by rewrite after_cons].
        cbn. cbn in Hle. split_and!; [done|lia|].
        destruct most as [[|m]|]; cbn in *; [lia|lia|done]. }
    cbn [step_rep]. destruct (c d && negb (bool_decide (most = Some 0))) eqn:E.
    + apply andb_true_iff in E as [Hd Hne%negb_true_iff%bool_decide_eq_false_1].
      rewrite elem_of_app, Hhere. split.
      * intros [[-> ->]|Hin]; [|by apply Hcons]. exists [], (d :: rest).
        split_and!; [done| |done]. cbn. split_and!; [done|lia|]. destruct most; cbn; [lia|done].
      * intros (l & k & Hl & Hr & Hq). destruct (Hback l k Hl Hr Hq) as [[-> ->]|(_ & _ & H)].
        -- left. split; [done|]. cbn in Hl. by subst k.
        -- by right.
    + rewrite Hhere. split.
      * intros [-> ->]. exists [], (d :: rest). split_and!; [done| |done].
        cbn. split_and!; [done|lia|]. destruct most; cbn; [lia|done].
      * intros (l & k & Hl & Hr & Hq). destruct (Hback l k Hl Hr Hq) as [[-> ->]|(Hd & Hm & _)].
        -- split; [done|]. cbn in Hl. by subst k.
        -- rewrite Hd in E. cbn in E. apply negb_false_iff, bool_decide_eq_true_1 in E. done.
Qed.
Lemma step_spec r p q : regular r = true ->
  q ∈ step r p <-> exists l k, p.2 = l ++ k /\ rlang r l /\ q = after p l k.
Proof.
  revert p q. induction r as [s|c least most|a IHa b IHb|a IHa b IHb| | |a IHa]; intros p q Hr;
    try done; cbn [step].
  - rewrite step_literal_spec. split.
    + intros (rest & -> & ->). exists (chars s), rest. by split_and!.
    + cbn. intros (l & k & -> & Hl & ->). subst l. by exists k.
  - destruct p as [prev rest]. apply step_rep_spec.
  - apply andb_true_iff in Hr as [Ha Hb]. rewrite list_elem_of_bind. split.
    + intros (p' & Hp & Hp'). apply (IHb _ _ Hb) in Hp as (l' & k' & Hk & Hl' & ->).
      apply (IHa _ _ Ha) in Hp' as (l & k & Hl & Hla & ->).
      cbn in Hk. subst k. exists (l ++ l'), k'. rewrite Hl, <- (assoc_L (++)).
      split_and!; [done|by exists l, l'|]. rewrite after_app. done.
    + intros (? & k & Hl & (x & y & -> & Hx & Hy) & ->). exists (after p x (y ++ k)). split.
      * apply (IHb _ _ Hb). exists y, k. split_and!; [done..|]. by rewrite after_app.
      * apply (IHa _ _ Ha). exists x, (y ++ k). rewrite Hl, <- (assoc_L (++)). by split_and!.
  - apply andb_true_iff in Hr as [Ha Hb]. rewrite elem_of_app, (IHa _ _ Ha), (IHb _ _ Hb). cbn.
    split; [naive_solver|]. intros (l & k & ? & [?|?] & ?); [left|right]; eauto.
Qed.

(** [pattern.fullmatch(text)] decides the language of the pattern. *)
Lemma regex_fullmatch_spec r s : regular r = true ->
  regex_fullmatch r s = true <-> rlang r (chars s).
Proof.
  intros Hr. unfold regex_fullmatch. rewrite existsb_exists. split.
  - intros (q & (l & k & Hl & Hm & ->)%list_elem_of_In%(step_spec _ _ _ Hr) & Hq). cbn in *.
    destruct k; [|done]. rewrite Hl, app_nil_r. done.
  - intros H. exists (after (None, chars s) (chars s) []). split; [|done].
    apply list_elem_of_In, (step_spec _ _ _ Hr). exists (chars s), []. rewrite app_nil_r.
    by split_and!.
Qed.
