(* ===== verification/Ledger.v ===== *)
(** * The SQLite ledger ([ledger/])

    The tables are a record; a statement sequence is a state-and-error computation
    [tx] whose writes survive an exception, so that undoing them is the work of
    [transaction], as in [connection.py].  Primary keys and UNIQUE constraints
    raise [sqlite3.IntegrityError].  Payloads are stored in the form
    [json.loads(json.dumps(..., sort_keys=True))] gives back, [canon]; the clock
    text of a call is its argument [now]. *)
From S2P Require Import Prelude PyText Json Identity Redaction.

(** ** Rows *)
Definition ref : Type := string * string.

Record EventRow := {
  ev_commit_seq : Z; ev_aggregate : ref; ev_aggregate_version : Z; ev_event_type : string;
  ev_schema_version : Z; ev_payload : json; ev_correlation_id : string;
  ev_causation_id : string; ev_recorded_at : string }.
Record ProjectionRow := {
  pj_aggregate_version : Z; pj_event_type : string; pj_schema_version : Z; pj_state : json;
  pj_updated_at : string }.
Record PmRow := { pm_version : Z; pm_state : json; pm_updated_at : string }.
Record LeaseRow := {
  ls_epoch : Z; ls_fencing_token : Z; ls_owner : string; ls_attempt_id : string;
  ls_granted_at : string; ls_expires_at : option string }.
Record InboxRow := {
  ib_command_id : string; ib_idempotency_key : option string; ib_command_type : string;
  ib_payload : json; ib_correlation_id : string; ib_status : string; ib_received_at : string;
  ib_processed_at : option string }.
Record OutboxRow := {
  ob_outbox_id : Z; ob_correlation_id : string; ob_target : string; ob_payload : json;
  ob_status : string; ob_created_at : string; ob_dispatched_at : option string }.
Record ArtifactRow := {
  ar_digest : string; ar_byte_size : Z; ar_media_type : string; ar_kind : string;
  ar_run_id : string; ar_node_id : string; ar_attempt_id : string;
  ar_storage_reference : string; ar_redaction : string; ar_created_at : string;
  ar_schema_version : Z }.

(** The file: [events] and [outbox] in rowid order with their AUTOINCREMENT
    counters, the other tables by primary key. *)
Record Ledger := {
  lg_aggregates : gmap ref Z; lg_events : list EventRow; lg_event_seq : Z;
  lg_projections : gmap ref ProjectionRow; lg_pm : gmap ref PmRow;
  lg_leases : gmap ref LeaseRow; lg_inbox : gmap string InboxRow;
  lg_outbox : list OutboxRow; lg_outbox_seq : Z; lg_artifacts : gmap string ArtifactRow;
  lg_cursors : gmap string Z }.

Definition set_aggregates (s : Ledger) v : Ledger := {|
  lg_aggregates := v; lg_events := lg_events s; lg_event_seq := lg_event_seq s;
  lg_projections := lg_projections s; lg_pm := lg_pm s; lg_leases := lg_leases s;
  lg_inbox := lg_inbox s; lg_outbox := lg_outbox s; lg_outbox_seq := lg_outbox_seq s;
  lg_artifacts := lg_artifacts s; lg_cursors := lg_cursors s |}.
Definition set_events (s : Ledger) v seq : Ledger := {|
  lg_aggregates := lg_aggregates s; lg_events := v; lg_event_seq := seq;
  lg_projections := lg_projections s; lg_pm := lg_pm s; lg_leases := lg_leases s;
  lg_inbox := lg_inbox s; lg_outbox := lg_outbox s; lg_outbox_seq := lg_outbox_seq s;
  lg_artifacts := lg_artifacts s; lg_cursors := lg_cursors s |}.
Definition set_projections (s : Ledger) v : Ledger := {|
  lg_aggregates := lg_aggregates s; lg_events := lg_events s; lg_event_seq := lg_event_seq s;
  lg_projections := v; lg_pm := lg_pm s; lg_leases := lg_leases s;
  lg_inbox := lg_inbox s; lg_outbox := lg_outbox s; lg_outbox_seq := lg_outbox_seq s;
  lg_artifacts := lg_artifacts s; lg_cursors := lg_cursors s |}.
Definition set_pm (s : Ledger) v : Ledger := {|
  lg_aggregates := lg_aggregates s; lg_events := lg_events s; lg_event_seq := lg_event_seq s;
  lg_projections := lg_projections s; lg_pm := v; lg_leases := lg_leases s;
  lg_inbox := lg_inbox s; lg_outbox := lg_outbox s; lg_outbox_seq := lg_outbox_seq s;
  lg_artifacts := lg_artifacts s; lg_cursors := lg_cursors s |}.
Definition set_leases (s : Ledger) v : Ledger := {|
  lg_aggregates := lg_aggregates s; lg_events := lg_events s; lg_event_seq := lg_event_seq s;
  lg_projections := lg_projections s; lg_pm := lg_pm s; lg_leases := v;
  lg_inbox := lg_inbox s; lg_outbox := lg_outbox s; lg_outbox_seq := lg_outbox_seq s;
  lg_artifacts := lg_artifacts s; lg_cursors := lg_cursors s |}.
Definition set_inbox (s : Ledger) v : Ledger := {|
  lg_aggregates := lg_aggregates s; lg_events := lg_events s; lg_event_seq := lg_event_seq s;
  lg_projections := lg_projections s; lg_pm := lg_pm s; lg_leases := lg_leases s;
  lg_inbox := v; lg_outbox := lg_outbox s; lg_outbox_seq := lg_outbox_seq s;
  lg_artifacts := lg_artifacts s; lg_cursors := lg_cursors s |}.
Definition set_outbox (s : Ledger) v seq : Ledger := {|
  lg_aggregates := lg_aggregates s; lg_events := lg_events s; lg_event_seq := lg_event_seq s;
  lg_projections := lg_projections s; lg_pm := lg_pm s; lg_leases := lg_leases s;
  lg_inbox := lg_inbox s; lg_outbox := v; lg_outbox_seq := seq;
  lg_artifacts := lg_artifacts s; lg_cursors := lg_cursors s |}.
Definition set_artifacts (s : Ledger) v : Ledger := {|
  lg_aggregates := lg_aggregates s; lg_events := lg_events s; lg_event_seq := lg_event_seq s;
  lg_projections := lg_projections s; lg_pm := lg_pm s; lg_leases := lg_leases s;
  lg_inbox := lg_inbox s; lg_outbox := lg_outbox s; lg_outbox_seq := lg_outbox_seq s;
  lg_artifacts := v; lg_cursors := lg_cursors s |}.
Definition set_cursors (s : Ledger) v : Ledger := {|
  lg_aggregates := lg_aggregates s; lg_events := lg_events s; lg_event_seq := lg_event_seq s;
  lg_projections := lg_projections s; lg_pm := lg_pm s; lg_leases := lg_leases s;
  lg_inbox := lg_inbox s; lg_outbox := lg_outbox s; lg_outbox_seq := lg_outbox_seq s;
  lg_artifacts := lg_artifacts s; lg_cursors := v |}.

(** A migrated, empty ledger. *)
Definition empty_ledger : Ledger := {|
  lg_aggregates := ∅; lg_events := []; lg_event_seq := 0; lg_projections := ∅; lg_pm := ∅;
  lg_leases := ∅; lg_inbox := ∅; lg_outbox := []; lg_outbox_seq := 0; lg_artifacts := ∅;
  lg_cursors := ∅ |}.

(** ** Statements and transactions ([connection.py]) *)
Definition tx (A : Type) : Type := Ledger -> Ledger * result A.
#[export] Instance tx_ret : MRet tx := fun A a s => (s, Ok a).
#[export] Instance tx_bind : MBind tx := fun A B f m s =>
  match m s with (s, Ok a) => f a s | (s, Err e) => (s, Err e) end.
Definition lift {A} (r : result A) : tx A := fun s => (s, r).
Definition gets {A} (f : Ledger -> A) : tx A := fun s => (s, Ok (f s)).
Definition modify (f : Ledger -> Ledger) : tx () := fun s => (f s, Ok ()).
Definition throw {A} (e : exn) : tx A := fun s => (s, Err e).

(** BEGIN/SAVEPOINT, then COMMIT/RELEASE on a clean exit or ROLLBACK on any
    exception. *)
Definition transaction {A} (m : tx A) : tx A := fun s =>
  match m s with
  | (s', Ok a) => (s', Ok a)
  | (_, Err e) => (s, Err e)
  end.

Fixpoint mapM_tx {A B} (f : A -> tx B) (l : list A) : tx (list B) :=
  match l with
  | [] => mret []
  | x :: l => y ← f x; ys ← mapM_tx f l; mret (y :: ys)
  end.

(** [_require_non_blank] *)
Definition non_blank (s : string) : result () :=
  raise_when blank s as InvalidInputError ;; Ok ().

(** ** Writes of one command ([events.py]) *)
Record EventWrite := {
  ew_aggregate_type : string; ew_aggregate_id : string; ew_expected_version : Z;
  ew_event_type : string; ew_schema_version : Z; ew_payload : list (string * json);
  ew_causation_id : option string }.
Definition event_write_post_init (e : EventWrite) : result EventWrite :=
  _ ← non_blank (ew_aggregate_type e);
  _ ← non_blank (ew_aggregate_id e);
  _ ← non_blank (ew_event_type e);
  raise_when (ew_expected_version e <? 0)%Z as InvalidInputError ;;
  raise_when (ew_schema_version e <? 1)%Z as InvalidInputError ;;
  Ok e.
Definition ew_ref (e : EventWrite) : ref := (ew_aggregate_type e, ew_aggregate_id e).

Record OutboxWrite := { ow_target : string; ow_payload : list (string * json) }.
Definition outbox_write_post_init (o : OutboxWrite) : result OutboxWrite :=
  raise_when blank (ow_target o) as InvalidInputError ;; Ok o.

Record ProcessManagerStateWrite := {
  pw_process_manager_name : string; pw_state_key : string; pw_expected_version : Z;
  pw_state : list (string * json) }.
Definition pm_write_post_init (w : ProcessManagerStateWrite)
    : result ProcessManagerStateWrite :=
  _ ← non_blank (pw_process_manager_name w);
  _ ← non_blank (pw_state_key w);
  raise_when (pw_expected_version w <? 0)%Z as InvalidInputError ;;
  Ok w.
Definition pw_ref (w : ProcessManagerStateWrite) : ref :=
  (pw_process_manager_name w, pw_state_key w).

Record LeaseWrite := {
  lw_run_id : string; lw_node_id : string; lw_epoch : Z; lw_fencing_token : Z;
  lw_owner : string; lw_attempt_id : string; lw_expires_at : option string }.
Definition lease_write_post_init (w : LeaseWrite) : result LeaseWrite :=
  _ ← non_blank (lw_run_id w);
  _ ← non_blank (lw_node_id w);
  _ ← non_blank (lw_owner w);
  _ ← non_blank (lw_attempt_id w);
  raise_when (lw_epoch w <? 0)%Z as InvalidInputError ;;
  raise_when (lw_fencing_token w <? 0)%Z as InvalidInputError ;;
  Ok w.
Definition lw_ref (w : LeaseWrite) : ref := (lw_run_id w, lw_node_id w).

Record ArtifactMetadataWrite := {
  aw_artifact_id : string; aw_digest : Digest; aw_byte_size : Z; aw_media_type : string;
  aw_kind : string; aw_run_id : string; aw_node_id : string; aw_attempt_id : string;
  aw_redaction : string; aw_schema_version : Z }.
Definition artifact_write_post_init (w : ArtifactMetadataWrite)
    : result ArtifactMetadataWrite :=
  raise_when (aw_byte_size w <? 0)%Z as InvalidInputError ;;
  _ ← non_blank (aw_media_type w);
  raise_when (aw_schema_version w <? 1)%Z as InvalidInputError ;;
  Ok w.

Record AppendCommand := {
  ac_correlation_id : string; ac_events : list EventWrite;
  ac_inbox_command_id : option string; ac_inbox_status : string;
  ac_outbox_entries : list OutboxWrite;
  ac_process_manager_updates : list ProcessManagerStateWrite;
  ac_lease_updates : list LeaseWrite; ac_artifact_references : list ArtifactMetadataWrite }.
Definition inbox_terminal (status : string) : bool :=
  String.eqb status "processed" || String.eqb status "rejected".
Definition append_command_post_init (c : AppendCommand) : result AppendCommand :=
  _ ← non_blank (ac_correlation_id c);
  raise_when bool_decide (ac_events c = []) as InvalidInputError ;;
  raise_when negb (inbox_terminal (ac_inbox_status c)) as InvalidInputError ;;
  Ok c.

Record AppendedEvent := {
  ae_aggregate : ref; ae_commit_seq : Z; ae_aggregate_version : Z }.
Record AppendResult := {
  re_correlation_id : string; re_events : list AppendedEvent; re_inbox_acknowledged : bool;
  re_outbox_ids : list Z; re_process_manager_states : list (ref * Z);
  re_artifact_ids : list string }.

(** ** Content-addressed bytes ([artifact_store.py]) *)
(** The files under the store's root, by path text. *)
Record ArtifactStore := { as_root : string; as_files : gmap string (list N) }.

Section WithStore.
Context `{rt : PyRuntime}.

Definition path_for (st : ArtifactStore) (d : Digest) : string :=
  as_root st +:+ "/objects/" +:+ algorithm d +:+ "/" +:+ String.substring 0 2 (hex_value d) +:+ "/"
    +:+ hex_value d.
Definition read_bytes (st : ArtifactStore) (d : Digest) : result (list N) :=
  match as_files st !! path_for st d with
  | None => Err ArtifactMissingError
  | Some data =>
      actual ← digest_of_bytes data;
      raise_when negb (bool_decide (actual = d)) as ArtifactDigestMismatchError ;;
      Ok data
  end.
Definition store_verify (st : ArtifactStore) (d : Digest) : bool := is_ok (read_bytes st d).

(** ** The write primitives *)
Definition current_aggregate_version (r : ref) : tx Z :=
  gets (fun s => default 0%Z (lg_aggregates s !! r)).

(** INSERT INTO events: the UNIQUE (type, id, version) constraint, then the next
    commit sequence. *)
Definition insert_event (row : Z -> EventRow) : tx Z := fun s =>
  let seq := (lg_event_seq s + 1)%Z in
  let e := row seq in
  if existsb (fun e' => bool_decide (ev_aggregate e' = ev_aggregate e) &&
                        (ev_aggregate_version e' =? ev_aggregate_version e)%Z) (lg_events s)
  then (s, Err SqliteIntegrityError)
  else (set_events s (lg_events s ++ [e]) seq, Ok seq).

(** [apply_projection_update] *)
Definition apply_projection_update (r : ref) (row : ProjectionRow) : tx () :=
  modify (fun s => set_projections s (<[r := row]> (lg_projections s))).

(** One iteration of the event loop of [append]. *)
Definition append_event (now correlation_id : string) (e : EventWrite) : tx AppendedEvent :=
  current ← current_aggregate_version (ew_ref e);
  if negb (current =? ew_expected_version e)%Z then throw ExpectedVersionConflictError
  else
    let new_version := (current + 1)%Z in
    (* [event.causation_id or command.correlation_id] *)
    let causation_id := match ew_causation_id e with
                        | Some c => if String.eqb c "" then correlation_id else c
                        | None => correlation_id end in
    _ ← lift (assert_mapping_clean (ew_payload e));
    let payload := canon (JObj (ew_payload e)) in
    seq ← insert_event (fun seq => {|
      ev_commit_seq := seq; ev_aggregate := ew_ref e; ev_aggregate_version := new_version;
      ev_event_type := ew_event_type e; ev_schema_version := ew_schema_version e;
      ev_payload := payload; ev_correlation_id := correlation_id;
      ev_causation_id := causation_id; ev_recorded_at := now |});
    _ ← modify (fun s => set_aggregates s (<[ew_ref e := new_version]> (lg_aggregates s)));
    _ ← apply_projection_update (ew_ref e) {|
      pj_aggregate_version := new_version; pj_event_type := ew_event_type e;
      pj_schema_version := ew_schema_version e; pj_state := payload; pj_updated_at := now |};
    mret {| ae_aggregate := ew_ref e; ae_commit_seq := seq; ae_aggregate_version := new_version |}.

(** [apply_process_manager_update] *)
Definition apply_process_manager_update (now : string) (w : ProcessManagerStateWrite) : tx Z :=
  current ← gets (fun s => from_option pm_version 0%Z (lg_pm s !! pw_ref w));
  if negb (current =? pw_expected_version w)%Z then throw ExpectedVersionConflictError
  else
    let new_version := (current + 1)%Z in
    _ ← lift (assert_mapping_clean (pw_state w));
    _ ← modify (fun s => set_pm s (<[pw_ref w := {|
          pm_version := new_version; pm_state := canon (JObj (pw_state w));
          pm_updated_at := now |}]> (lg_pm s)));
    mret new_version.

(** [apply_lease_update] *)
Definition lease_stale (row : LeaseRow) (w : LeaseWrite) : bool :=
  (lw_epoch w <? ls_epoch row)%Z ||
  ((lw_epoch w =? ls_epoch row)%Z && (lw_fencing_token w <? ls_fencing_token row)%Z).
Definition lease_conflicting (row : LeaseRow) (w : LeaseWrite) : bool :=
  (lw_epoch w =? ls_epoch row)%Z && (lw_fencing_token w =? ls_fencing_token row)%Z &&
  (negb (String.eqb (lw_owner w) (ls_owner row)) ||
   negb (String.eqb (lw_attempt_id w) (ls_attempt_id row))).
Definition apply_lease_update (now : string) (w : LeaseWrite) : tx () :=
  current ← gets (fun s => lg_leases s !! lw_ref w);
  if from_option (fun row => lease_stale row w || lease_conflicting row w) false current
  then throw ExpectedVersionConflictError
  else modify (fun s => set_leases s (<[lw_ref w := {|
         ls_epoch := lw_epoch w; ls_fencing_token := lw_fencing_token w;
         ls_owner := lw_owner w; ls_attempt_id := lw_attempt_id w; ls_granted_at := now;
         ls_expires_at := lw_expires_at w |}]> (lg_leases s))).

(** INSERT INTO outbox with the next AUTOINCREMENT id. *)
Definition insert_outbox (row : Z -> OutboxRow) : tx Z := fun s =>
  let seq := (lg_outbox_seq s + 1)%Z in
  (set_outbox s (lg_outbox s ++ [row seq]) seq, Ok seq).
(** [write_entry] *)
Definition write_entry (now correlation_id : string) (o : OutboxWrite) : tx Z :=
  _ ← lift (assert_mapping_clean (ow_payload o));
  insert_outbox (fun seq => {|
    ob_outbox_id := seq; ob_correlation_id := correlation_id; ob_target := ow_target o;
    ob_payload := canon (JObj (ow_payload o)); ob_status := "pending";
    ob_created_at := now; ob_dispatched_at := None |}).

(** [apply_artifact_metadata]; [artifact_id] is the primary key. *)
Definition apply_artifact_metadata (now : string) (store : ArtifactStore)
    (w : ArtifactMetadataWrite) : tx string := fun s =>
  if negb (store_verify store (aw_digest w)) then (s, Err ArtifactMissingError)
  else if bool_decide (is_Some (lg_artifacts s !! aw_artifact_id w))
  then (s, Err SqliteIntegrityError)
  else (set_artifacts s (<[aw_artifact_id w := {|
          ar_digest := digest_str (aw_digest w); ar_byte_size := aw_byte_size w;
          ar_media_type := aw_media_type w; ar_kind := aw_kind w; ar_run_id := aw_run_id w;
          ar_node_id := aw_node_id w; ar_attempt_id := aw_attempt_id w;
          ar_storage_reference := path_for store (aw_digest w);
          ar_redaction := aw_redaction w; ar_created_at := now;
          ar_schema_version := aw_schema_version w |}]> (lg_artifacts s)),
        Ok (aw_artifact_id w)).

(** [acknowledge_command] *)
Definition acknowledge_command (now command_id status : string) : tx () := fun s =>
  if negb (inbox_terminal status) then (s, Err InvalidInputError)
  else match lg_inbox s !! command_id with
  | None => (s, Err ExpectedVersionConflictError)
  | Some row =>
      if negb (String.eqb (ib_status row) "pending") then (s, Err ExpectedVersionConflictError)
      else (set_inbox s (<[command_id := {|
              ib_command_id := ib_command_id row; ib_idempotency_key := ib_idempotency_key row;
              ib_command_type := ib_command_type row; ib_payload := ib_payload row;
              ib_correlation_id := ib_correlation_id row; ib_status := status;
              ib_received_at := ib_received_at row; ib_processed_at := Some now |}]>
              (lg_inbox s)), Ok ())
  end.

(** [append]: the body of its transaction, then the whole call. *)
Definition append_body (now : string) (store : option ArtifactStore) (c : AppendCommand)
    : tx AppendResult :=
  events ← mapM_tx (append_event now (ac_correlation_id c)) (ac_events c);
  pms ← mapM_tx (fun w => v ← apply_process_manager_update now w; mret (pw_ref w, v))
          (ac_process_manager_updates c);
  _ ← mapM_tx (apply_lease_update now) (ac_lease_updates c);
  outbox_ids ← mapM_tx (write_entry now (ac_correlation_id c)) (ac_outbox_entries c);
  artifact_ids ← mapM_tx (fun w =>
      match store with
      | Some store => apply_artifact_metadata now store w
      | None => throw PyAssertionError
      end) (ac_artifact_references c);
  _ ← match ac_inbox_command_id c with
      | Some command_id => acknowledge_command now command_id (ac_inbox_status c)
      | None => mret ()
      end;
  mret {| re_correlation_id := ac_correlation_id c; re_events := events;
          re_inbox_acknowledged := bool_decide (is_Some (ac_inbox_command_id c));
          re_outbox_ids := outbox_ids; re_process_manager_states := pms;
          re_artifact_ids := artifact_ids |}.
Definition append (now : string) (store : option ArtifactStore) (c : AppendCommand)
    : tx AppendResult :=
  if negb (bool_decide (ac_artifact_references c = [])) && bool_decide (store = None)
  then throw InvalidInputError
  else transaction (append_body now store c).
End WithStore.

(** ** Inbox ([inbox.py]) *)
Definition read_command (command_id : string) (s : Ledger) : option InboxRow :=
  lg_inbox s !! command_id.
Definition find_by_idempotency_key (key : string) (s : Ledger) : option InboxRow :=
  snd <$> list_find (fun r => ib_idempotency_key r = Some key) (map snd (map_to_list (lg_inbox s))).

(** ORDER BY received_at, command_id *)
Definition inbox_le (x y : InboxRow) : Prop :=
  (ib_received_at x <> ib_received_at y /\ String.le (ib_received_at x) (ib_received_at y)) \/
  (ib_received_at x = ib_received_at y /\ String.le (ib_command_id x) (ib_command_id y)).
#[export] Instance inbox_le_dec (x y : InboxRow) : Decision (inbox_le x y).
Proof. unfold inbox_le. apply _. Defined.
Definition list_pending_commands (limit : Z) (s : Ledger) : result (list InboxRow) :=
  raise_when (limit <? 1)%Z as InvalidInputError ;;
  Ok (take (Z.to_nat limit) (merge_sort inbox_le
        (List.filter (fun r => String.eqb (ib_status r) "pending")
           (map snd (map_to_list (lg_inbox s)))))).

(** INSERT INTO command_inbox under its primary key and its UNIQUE
    [idempotency_key]. *)
Definition insert_inbox (row : InboxRow) : tx () := fun s =>
  if bool_decide (is_Some (lg_inbox s !! ib_command_id row)) ||
     match ib_idempotency_key row with
     | Some key => bool_decide (is_Some (find_by_idempotency_key key s))
     | None => false
     end
  then (s, Err SqliteIntegrityError)
  else (set_inbox s (<[ib_command_id row := row]> (lg_inbox s)), Ok ()).

Definition enqueue_command (now command_id command_type correlation_id : string)
    (payload : list (string * json)) (idempotency_key : option string) : tx InboxRow :=
  _ ← lift (non_blank command_id);
  _ ← lift (non_blank command_type);
  _ ← lift (non_blank correlation_id);
  existing ← gets (fun s => idempotency_key ≫= fun key => find_by_idempotency_key key s);
  match existing with
  | Some row => mret row
  | None =>
      _ ← lift (assert_mapping_clean payload);
      let row p := {|
        ib_command_id := command_id; ib_idempotency_key := idempotency_key;
        ib_command_type := command_type; ib_payload := p; ib_correlation_id := correlation_id;
        ib_status := "pending"; ib_received_at := now; ib_processed_at := None |} in
      _ ← transaction (insert_inbox (row (canon (JObj payload))));
      mret (row (JObj payload))
  end.

(** ** Outbox consumption ([outbox.py]) *)
(** A negative LIMIT is no limit. *)
Definition list_pending (limit : Z) (s : Ledger) : list OutboxRow :=
  let rows := List.filter (fun r => String.eqb (ob_status r) "pending") (lg_outbox s) in
  if (limit <? 0)%Z then rows else take (Z.to_nat limit) rows.
Definition dispatch_row (now : string) (outbox_id : Z) (r : OutboxRow) : OutboxRow :=
  if (ob_outbox_id r =? outbox_id)%Z
  then {| ob_outbox_id := ob_outbox_id r; ob_correlation_id := ob_correlation_id r;
          ob_target := ob_target r; ob_payload := ob_payload r; ob_status := "dispatched";
          ob_created_at := ob_created_at r; ob_dispatched_at := Some now |}
  else r.
Definition mark_dispatched (now : string) (outbox_id : Z) : tx () :=
  transaction (modify (fun s =>
    set_outbox s (map (dispatch_row now outbox_id) (lg_outbox s)) (lg_outbox_seq s))).

(** ** Reads *)
Definition read_process_manager_state (name key : string) (s : Ledger) : option PmRow :=
  lg_pm s !! ((name, key) : ref).
Definition read_lease (run_id node_id : string) (s : Ledger) : option LeaseRow :=
  lg_leases s !! ((run_id, node_id) : ref).
Definition read_projection (aggregate_type aggregate_id : string) (s : Ledger)
    : option ProjectionRow := lg_projections s !! ((aggregate_type, aggregate_id) : ref).

(** WHERE first column = name, ORDER BY second column. *)
Definition keyed_le {V} (x y : ref * V) : Prop := String.le x.1.2 y.1.2.
#[export] Instance keyed_le_dec {V} (x y : ref * V) : Decision (keyed_le x y).
Proof. unfold keyed_le. apply _. Defined.
Definition list_by_first {V} (name : string) (m : gmap ref V) : list (string * V) :=
  map (fun kv => (kv.1.2, kv.2))
    (merge_sort keyed_le (List.filter (fun kv => String.eqb kv.1.1 name) (map_to_list m))).
Definition list_process_manager_states (name : string) (s : Ledger) : list (string * PmRow) :=
  list_by_first name (lg_pm s).
Definition list_projections (aggregate_type : string) (s : Ledger)
    : list (string * ProjectionRow) := list_by_first aggregate_type (lg_projections s).

(** ** Rebuilding projections ([projections.py]) *)
Definition CURRENT_MAX_SUPPORTED_SCHEMA_VERSION : Z := 1.
(** [e] carries its aggregate's highest version. *)
Definition is_latest (events : list EventRow) (e : EventRow) : bool :=
  forallb (fun e' => negb (bool_decide (ev_aggregate e' = ev_aggregate e)) ||
                     (ev_aggregate_version e' <=? ev_aggregate_version e)%Z) events.
Definition rebuild_row (now : string) (limit : Z) (e : EventRow) : tx () :=
  if (limit <? ev_schema_version e)%Z then throw SchemaVersionUnsupportedError
  else apply_projection_update (ev_aggregate e) {|
         pj_aggregate_version := ev_aggregate_version e; pj_event_type := ev_event_type e;
         pj_schema_version := ev_schema_version e; pj_state := ev_payload e;
         pj_updated_at := now |}.
Definition rebuild_projections (now : string) (max_supported_schema_version : Z) : tx nat :=
  transaction (
    _ ← modify (fun s => set_projections s ∅);
    latest_events ← gets (fun s => List.filter (is_latest (lg_events s)) (lg_events s));
    _ ← mapM_tx (rebuild_row now max_supported_schema_version) latest_events;
    mret (length latest_events)).

(** ** Commit cursors ([commit_cursors.py]) *)
Definition read_cursor (consumer_name : string) (s : Ledger) : Z :=
  default 0%Z (lg_cursors s !! consumer_name).
Definition advance_cursor (consumer_name : string) (commit_seq : Z) (force : bool) : tx () :=
  if (commit_seq <? 0)%Z then throw InvalidInputError
  else
    current ← gets (read_cursor consumer_name);
    if (commit_seq <? current)%Z && negb force then throw InvalidInputError
    else transaction (modify (fun s =>
           set_cursors s (<[consumer_name := commit_seq]> (lg_cursors s)))).
