(* ===== verification/LedgerProofs.v ===== *)
(** * Ledger theorems

    Atomicity of the append transaction, the ledger's invariant and its
    preservation, optimistic concurrency, lease fencing, inbox idempotence, and
    the agreement of projections with the stored events. *)
From S2P Require Import Prelude PyText Json Identity Redaction Ledger.

(** ** Reasoning about statement sequences *)
Lemma tx_bind_Ok {A B} (f : A -> tx B) (m : tx A) s s' b :
  mbind (M:=tx) f m s = (s', Ok b) <-> exists s1 a, m s = (s1, Ok a) /\ f a s1 = (s', Ok b).
Proof.
  unfold mbind, tx_bind. destruct (m s) as [s1 [a|e]]; [naive_solver|].
  split; [done|]. by intros (? & ? & ? & _).
Qed.
Lemma tx_bind_Err {A B} (f : A -> tx B) (m : tx A) s s' e :
  mbind (M:=tx) f m s = (s', Err e) <->
  m s = (s', Err e) \/ exists s1 a, m s = (s1, Ok a) /\ f a s1 = (s', Err e).
Proof.
  unfold mbind, tx_bind. destruct (m s) as [s1 [a|e']]; naive_solver.
Qed.
Lemma lift_Ok {A} (r : result A) s s' a : lift r s = (s', Ok a) <-> s' = s /\ r = Ok a.
Proof. unfold lift. naive_solver. Qed.

(** Writes survive an exception only inside an open transaction. *)
Lemma transaction_Err {A} (m : tx A) s s' e :
  transaction m s = (s', Err e) <-> s' = s /\ exists s1, m s = (s1, Err e).
Proof. unfold transaction. destruct (m s) as [s1 [a|e']]; naive_solver. Qed.
Lemma transaction_Ok {A} (m : tx A) s s' a :
  transaction m s = (s', Ok a) -> m s = (s', Ok a).
Proof. unfold transaction. destruct (m s) as [s1 [a'|e']]; naive_solver. Qed.

(** [keeps I m]: a successful [m] preserves [I]. *)
Definition keeps {A} (I : Ledger -> Prop) (m : tx A) : Prop :=
  forall s s' a, I s -> m s = (s', Ok a) -> I s'.
Lemma keeps_bind {A B} I (m : tx A) (f : A -> tx B) :
  keeps I m -> (forall a, keeps I (f a)) -> keeps I (mbind f m).
Proof. intros Hm Hf s s' b Hs (s1 & a & H1 & H2)%tx_bind_Ok. eapply Hf, H2. by eapply Hm. Qed.
Lemma keeps_ret {A} I (a : A) : keeps I (mret a).
Proof. intros s s' b Hs [= <- <-]. done. Qed.
Lemma keeps_mapM {A B} I (f : A -> tx B) l : (forall x, keeps I (f x)) -> keeps I (mapM_tx f l).
Proof.
  intros Hf. induction l as [|x l IH]; cbn; [apply keeps_ret|].
  apply keeps_bind; [done|]. intros y. apply keeps_bind; [done|]. intros ys. apply keeps_ret.
Qed.
Lemma keeps_transaction {A} I (m : tx A) : keeps I m -> keeps I (transaction m).
Proof. intros Hm s s' a Hs H. by apply (Hm s s' a Hs), transaction_Ok. Qed.
Lemma keeps_throw {A} I e : keeps I (throw (A:=A) e).
Proof. intros s s' a _ [=]. Qed.

Create HintDb ledger.
#[export] Hint Resolve keeps_ret keeps_throw keeps_transaction : ledger.

(** ** What each primitive does *)
Definition version_of (r : ref) (s : Ledger) : Z := default 0%Z (lg_aggregates s !! r).
Definition pm_version_of (r : ref) (s : Ledger) : Z := from_option pm_version 0%Z (lg_pm s !! r).

(** The row one event write stores. *)
Definition event_row (now corr : string) (e : EventWrite) (version seq : Z) : EventRow := {|
  ev_commit_seq := seq; ev_aggregate := ew_ref e; ev_aggregate_version := version;
  ev_event_type := ew_event_type e; ev_schema_version := ew_schema_version e;
  ev_payload := canon (JObj (ew_payload e)); ev_correlation_id := corr;
  ev_causation_id := match ew_causation_id e with
                     | Some c => if String.eqb c "" then corr else c
                     | None => corr end;
  ev_recorded_at := now |}.
Definition projection_row (now : string) (e : EventRow) : ProjectionRow := {|
  pj_aggregate_version := ev_aggregate_version e; pj_event_type := ev_event_type e;
  pj_schema_version := ev_schema_version e; pj_state := ev_payload e; pj_updated_at := now |}.
Definition apply_event (now : string) (row : EventRow) (s : Ledger) : Ledger :=
  set_projections
    (set_aggregates (set_events s (lg_events s ++ [row]) (ev_commit_seq row))
       (<[ev_aggregate row := ev_aggregate_version row]> (lg_aggregates s)))
    (<[ev_aggregate row := projection_row now row]> (lg_projections s)).

Lemma append_event_Ok now corr e s s' a :
  append_event now corr e s = (s', Ok a) ->
  let row := event_row now corr e (version_of (ew_ref e) s + 1) (lg_event_seq s + 1) in
  version_of (ew_ref e) s = ew_expected_version e /\
  assert_mapping_clean (ew_payload e) = Ok () /\
  s' = apply_event now row s /\
  a = {| ae_aggregate := ew_ref e; ae_commit_seq := lg_event_seq s + 1;
         ae_aggregate_version := version_of (ew_ref e) s + 1 |}.
Proof.
  unfold append_event. intros (s1 & cur & [= <- <-] & H)%tx_bind_Ok.
  change (default 0%Z (lg_aggregates s !! ew_ref e)) with (version_of (ew_ref e) s) in H.
  destruct (Z.eqb_spec (version_of (ew_ref e) s) (ew_expected_version e)) as [He|]; [|done].
  cbn [negb] in H. apply tx_bind_Ok in H as (s1 & [] & [-> Hc]%lift_Ok & H).
  apply tx_bind_Ok in H as (s1 & seq & Hi & H). unfold insert_event in Hi.
  destruct (existsb _ (lg_events s)); [done|]. injection Hi as <- <-.
  cbn in H. injection H as <- <-. split_and!; done.
Qed.

Lemma pm_update_Ok now w s s' v :
  apply_process_manager_update now w s = (s', Ok v) ->
  pm_version_of (pw_ref w) s = pw_expected_version w /\
  assert_mapping_clean (pw_state w) = Ok () /\
  v = (pw_expected_version w + 1)%Z /\
  s' = set_pm s (<[pw_ref w := {| pm_version := v; pm_state := canon (JObj (pw_state w));
                                  pm_updated_at := now |}]> (lg_pm s)).
Proof.
  unfold apply_process_manager_update. intros (s1 & cur & [= <- <-] & H)%tx_bind_Ok.
  fold (pm_version_of (pw_ref w) s) in H.
  destruct (Z.eqb_spec (pm_version_of (pw_ref w) s) (pw_expected_version w)) as [He|]; [|done].
  cbn [negb] in H. apply tx_bind_Ok in H as (s1 & [] & [-> Hc]%lift_Ok & H).
  cbn in H. injection H as <- <-. rewrite He. done.
Qed.

Definition lease_row (now : string) (w : LeaseWrite) : LeaseRow := {|
  ls_epoch := lw_epoch w; ls_fencing_token := lw_fencing_token w; ls_owner := lw_owner w;
  ls_attempt_id := lw_attempt_id w; ls_granted_at := now; ls_expires_at := lw_expires_at w |}.
Lemma lease_update_eq now w s :
  apply_lease_update now w s =
    if from_option (fun row => lease_stale row w || lease_conflicting row w) false
         (lg_leases s !! lw_ref w)
    then (s, Err ExpectedVersionConflictError)
    else (set_leases s (<[lw_ref w := lease_row now w]> (lg_leases s)), Ok ()).
Proof.
  unfold apply_lease_update, mbind, tx_bind, gets. by destruct (from_option _ _ _).
Qed.

Lemma write_entry_Ok now corr o s s' v :
  write_entry now corr o s = (s', Ok v) ->
  assert_mapping_clean (ow_payload o) = Ok () /\ v = (lg_outbox_seq s + 1)%Z /\
  s' = set_outbox s (lg_outbox s ++ [{|
    ob_outbox_id := v; ob_correlation_id := corr; ob_target := ow_target o;
    ob_payload := canon (JObj (ow_payload o)); ob_status := "pending";
    ob_created_at := now; ob_dispatched_at := None |}]) v.
Proof.
  unfold write_entry. intros (s1 & [] & [-> Hc]%lift_Ok & H)%tx_bind_Ok.
  unfold insert_outbox in H. injection H as <- <-. done.
Qed.

Definition acknowledged (now status : string) (row : InboxRow) : InboxRow := {|
  ib_command_id := ib_command_id row; ib_idempotency_key := ib_idempotency_key row;
  ib_command_type := ib_command_type row; ib_payload := ib_payload row;
  ib_correlation_id := ib_correlation_id row; ib_status := status;
  ib_received_at := ib_received_at row; ib_processed_at := Some now |}.
Lemma acknowledge_Ok now id status s s' u :
  acknowledge_command now id status s = (s', Ok u) ->
  inbox_terminal status = true /\ exists row, lg_inbox s !! id = Some row /\
    ib_status row = "pending" /\
    s' = set_inbox s (<[id := acknowledged now status row]> (lg_inbox s)).
Proof.
  unfold acknowledge_command. destruct (inbox_terminal status); [|done]. cbn [negb].
  destruct (lg_inbox s !! id) as [row|]; [|done].
  destruct (String.eqb_spec (ib_status row) "pending") as [Hp|]; [|done]. cbn [negb].
  intros [= <-]. split; [done|]. exists row. done.
Qed.

Lemma artifact_Ok `{PyRuntime} now st w s s' a :
  apply_artifact_metadata now st w s = (s', Ok a) ->
  a = aw_artifact_id w /\ store_verify st (aw_digest w) = true /\
  exists m, s' = set_artifacts s m.
Proof.
  unfold apply_artifact_metadata. destruct (store_verify st (aw_digest w)); [|done].
  cbn [negb]. case_bool_decide; [done|]. intros [= <- <-]. split_and!; [done|done|by eexists].
Qed.

(** ** Stored payloads stay clean *)
Definition clean (j : json) : Prop := scan_value j = Ok ().

Lemma clean_list l : clean (JList l) <-> Forall clean l.
Proof.
  unfold clean. cbn. induction l as [|x l IH]; [split; [constructor|done]|].
  rewrite Forall_cons, <- IH. destruct (scan_value x) as [[]|e]; cbn; naive_solver.
Qed.
Lemma clean_obj m : clean (JObj m) <-> Forall (fun kv => clean kv.2) m.
Proof.
  unfold clean. cbn. induction m as [|x m IH]; [split; [constructor|done]|].
  rewrite Forall_cons, <- IH. destruct (scan_value x.2) as [[]|e]; cbn; naive_solver.
Qed.
(** Sorting keys neither hides nor adds a leaf. *)
Lemma clean_canon j : clean (canon j) <-> clean j.
Proof.
  induction j as [| | | | |l IH|m IH] using json_rec'; try done.
  - cbn. rewrite !clean_list. induction IH as [|x l Hx _ IH]; [done|].
    cbn. rewrite !Forall_cons, Hx, IH. done.
  - cbn. rewrite !clean_obj, merge_sort_Permutation.
    induction IH as [|kv m Hx _ IH]; [done|]. cbn. rewrite !Forall_cons, IH. cbn.
    by rewrite Hx.
Qed.

(** ** The ledger invariant

    Commit sequences and aggregate versions count without gaps, projections mirror
    the last event of their aggregate, stored payloads passed the credential scan,
    and inbox keys are unique: kept by every ledger operation. *)

Definition events_of (r : ref) (events : list EventRow) : list EventRow :=
  List.filter (fun e => bool_decide (ev_aggregate e = r)) events.
(** What a projection shares with the event it shows. *)
Definition event_view (e : EventRow) : Z * string * Z * json :=
  (ev_aggregate_version e, ev_event_type e, ev_schema_version e, ev_payload e).
Definition projection_view (p : ProjectionRow) : Z * string * Z * json :=
  (pj_aggregate_version p, pj_event_type p, pj_schema_version p, pj_state p).

Record wf_ledger (s : Ledger) : Prop := {
  wl_seq : map ev_commit_seq (lg_events s) = range1 (length (lg_events s));
  wl_event_seq : lg_event_seq s = Z.of_nat (length (lg_events s));
  wl_versions : forall r, map ev_aggregate_version (events_of r (lg_events s))
    = range1 (length (events_of r (lg_events s)));
  wl_aggregates : forall r, version_of r s = Z.of_nat (length (events_of r (lg_events s)));
  wl_projections : forall r, projection_view <$> (lg_projections s !! r)
    = event_view <$> last (events_of r (lg_events s));
  wl_outbox : map ob_outbox_id (lg_outbox s) = range1 (length (lg_outbox s));
  wl_outbox_seq : lg_outbox_seq s = Z.of_nat (length (lg_outbox s));
  wl_events_clean : Forall (fun e => clean (ev_payload e)) (lg_events s);
  wl_outbox_clean : Forall (fun o => clean (ob_payload o)) (lg_outbox s);
  wl_pm_clean : forall r row, lg_pm s !! r = Some row -> clean (pm_state row);
  wl_inbox_rows : forall k row, lg_inbox s !! k = Some row ->
    ib_command_id row = k /\ clean (ib_payload row) /\
    ib_status row ∈ ["pending"; "processed"; "rejected"];
  wl_inbox_keys : forall k1 k2 r1 r2 key, lg_inbox s !! k1 = Some r1 ->
    lg_inbox s !! k2 = Some r2 -> ib_idempotency_key r1 = Some key ->
    ib_idempotency_key r2 = Some key -> k1 = k2;
}.

Lemma wf_empty_ledger : wf_ledger empty_ledger.
Proof. split; done. Qed.

Lemma events_of_snoc r events e :
  events_of r (events ++ [e]) =
    events_of r events ++ (if decide (ev_aggregate e = r) then [e] else []).
Proof.
  unfold events_of. rewrite List.filter_app. cbn [List.filter]. f_equal.
  case_decide; by case_bool_decide.
Qed.
Lemma range1_map_snoc {A} (f : A -> Z) l x :
  map f l = range1 (length l) -> f x = (Z.of_nat (length l) + 1)%Z ->
  map f (l ++ [x]) = range1 (length (l ++ [x])).
Proof.
  intros Hl Hx. rewrite map_app, Hl, length_app, Nat.add_comm. cbn [map length plus].
  rewrite range1_S, Hx. do 2 f_equal. lia.
Qed.

(** ** Preservation *)
Lemma version_of_apply now row s r : version_of r (apply_event now row s) =
  if decide (ev_aggregate row = r) then ev_aggregate_version row else version_of r s.
Proof.
  unfold version_of. cbn. case_decide as Hr; [subst; by rewrite lookup_insert_eq|].
  by rewrite lookup_insert_ne.
Qed.
Lemma wf_apply_event now row s :
  wf_ledger s -> ev_commit_seq row = (lg_event_seq s + 1)%Z ->
  ev_aggregate_version row = (version_of (ev_aggregate row) s + 1)%Z ->
  clean (ev_payload row) -> wf_ledger (apply_event now row s).
Proof.
  intros [H1 H2 H3 H4 H5 H6 H7 H8 H9 H10 H11 H12] Hseq Hver Hcl.
  split; cbn [apply_event set_projections set_aggregates set_events lg_events lg_event_seq
    lg_projections lg_aggregates lg_pm lg_inbox lg_outbox lg_outbox_seq]; try done.
  - apply range1_map_snoc; [done|lia].
  - rewrite length_app. cbn. lia.
  - intros r. rewrite events_of_snoc. case_decide as Hr; [|by rewrite app_nil_r]. subst r.
    apply range1_map_snoc; [done|]. by rewrite <- H4.
  - intros r. rewrite version_of_apply, events_of_snoc, length_app.
    case_decide as Hr; [subst r; rewrite Hver, H4; cbn; lia|rewrite H4; cbn; lia].
  - intros r. rewrite events_of_snoc. case_decide as Hr.
    + subst r. rewrite lookup_insert_eq, last_snoc. done.
    + by rewrite lookup_insert_ne, app_nil_r.
  - apply Forall_app. split; [done|]. by constructor.
Qed.

(** Changing a table the invariant does not mention. *)
Lemma wf_set_leases s m : wf_ledger s -> wf_ledger (set_leases s m).
Proof. intros []. by split. Qed.
Lemma wf_set_artifacts s m : wf_ledger s -> wf_ledger (set_artifacts s m).
Proof. intros []. by split. Qed.
Lemma wf_set_cursors s m : wf_ledger s -> wf_ledger (set_cursors s m).
Proof. intros []. by split. Qed.

Lemma keeps_append_event now corr e : keeps wf_ledger (append_event now corr e).
Proof.
  intros s s' a Hs (Hv & Hc & -> & _)%append_event_Ok.
  apply wf_apply_event; [done|done|done|]. by apply clean_canon.
Qed.
Lemma keeps_pm now w : keeps wf_ledger (apply_process_manager_update now w).
Proof.
  intros s s' v [] (_ & Hc & -> & ->)%pm_update_Ok. split; cbn; try done.
  intros r row. rewrite lookup_insert_Some. intros [[_ <-]|[_ Hr]].
  - by apply (clean_canon (JObj (pw_state w))).
  - by eapply wl_pm_clean0.
Qed.
Lemma keeps_lease now w : keeps wf_ledger (apply_lease_update now w).
Proof.
  intros s s' u Hs. rewrite lease_update_eq. case_match; [done|]. intros [= <-].
  by apply wf_set_leases.
Qed.
Lemma keeps_write_entry now corr o : keeps wf_ledger (write_entry now corr o).
Proof.
  intros s s' v [H1 H2 H3 H4 H5 H6 H7 H8 H9 H10 H11 H12] (Hc & -> & ->)%write_entry_Ok.
  split; cbn [set_outbox lg_events lg_event_seq lg_projections lg_pm lg_inbox lg_outbox
    lg_outbox_seq]; try done.
  - apply range1_map_snoc; [done|]. cbn. lia.
  - rewrite length_app. cbn. lia.
  - apply Forall_app. split; [done|]. constructor; [|done]. by apply clean_canon.
Qed.
Lemma keeps_artifact `{PyRuntime} now st w : keeps wf_ledger (apply_artifact_metadata now st w).
Proof. intros s s' a Hs (_ & _ & m & ->)%artifact_Ok. by apply wf_set_artifacts. Qed.
Lemma keeps_acknowledge now id status : keeps wf_ledger (acknowledge_command now id status).
Proof.
  intros s s' u [H1 H2 H3 H4 H5 H6 H7 H8 H9 H10 H11 H12]
    (Ht & row & Hr & Hp & ->)%acknowledge_Ok.
  destruct (H11 _ _ Hr) as (Hid & Hc & _).
  split; cbn; try done.
  - intros k row'. rewrite lookup_insert_Some. intros [[<- <-]|[_ Hk]]; [|by apply H11].
    cbn. split_and!; [done|done|]. unfold inbox_terminal in Ht.
    apply orb_true_iff in Ht as [->%String.eqb_eq| ->%String.eqb_eq]; set_solver.
  - intros k1 k2 r1 r2 key Hk1 Hk2 E1 E2.
    assert (Hold : forall k r', <[id := acknowledged now status row]> (lg_inbox s) !! k = Some r' ->
      ib_idempotency_key r' = Some key ->
      exists r0, lg_inbox s !! k = Some r0 /\ ib_idempotency_key r0 = Some key).
    { intros k r'. rewrite lookup_insert_Some. intros [[<- <-]|[_ Hk]] Hkey; [by exists row|].
      by exists r'. }
    destruct (Hold _ _ Hk1 E1) as (? & ? & ?), (Hold _ _ Hk2 E2) as (? & ? & ?). by eapply H12.
Qed.
#[export] Hint Resolve keeps_append_event keeps_pm keeps_lease keeps_write_entry keeps_artifact
  keeps_acknowledge : ledger.

(** [keeps]: structural preservation with the primitives' hints. *)
Ltac keeps :=
  repeat match goal with
  | |- forall _, _ => intro
  | |- keeps _ (mbind _ _) => apply keeps_bind
  | |- keeps _ (mapM_tx _ _) => apply keeps_mapM
  | |- keeps _ (transaction _) => apply keeps_transaction
  | |- keeps _ (match ?x with _ => _ end) => destruct x
  | |- keeps _ _ => solve [auto with ledger]
  end.

Lemma keeps_append `{PyRuntime} now store c : keeps wf_ledger (append now store c).
Proof. unfold append, append_body. keeps. Qed.

(** ** The other operations *)
Lemma find_by_key_Some key s row : find_by_idempotency_key key s = Some row ->
  ib_idempotency_key row = Some key /\ exists k, lg_inbox s !! k = Some row.
Proof.
  unfold find_by_idempotency_key. intros ([i r] & Hf & ->)%fmap_Some.
  apply list_find_Some in Hf as (Hl & Hk & _). split; [done|].
  apply list_elem_of_lookup_2, list_elem_of_fmap in Hl as ([k r'] & -> & Hin).
  exists k. by apply elem_of_map_to_list.
Qed.
Lemma find_by_key_None key s : find_by_idempotency_key key s = None ->
  forall k row, lg_inbox s !! k = Some row -> ib_idempotency_key row <> Some key.
Proof.
  unfold find_by_idempotency_key. intros Hf%fmap_None k row Hk.
  apply list_find_None in Hf. rewrite Forall_forall in Hf. apply Hf.
  apply list_elem_of_fmap. exists (k, row). split; [done|]. by apply elem_of_map_to_list.
Qed.

Lemma insert_inbox_Ok row s s' u : insert_inbox row s = (s', Ok u) ->
  lg_inbox s !! ib_command_id row = None /\
  (forall key k r', ib_idempotency_key row = Some key -> lg_inbox s !! k = Some r' ->
     ib_idempotency_key r' <> Some key) /\
  s' = set_inbox s (<[ib_command_id row := row]> (lg_inbox s)).
Proof.
  unfold insert_inbox. destruct (bool_decide (is_Some (lg_inbox s !! _))) eqn:Hd; [done|].
  apply bool_decide_eq_false, eq_None_not_Some in Hd. cbn [orb].
  destruct (ib_idempotency_key row) as [key|] eqn:Hk.
  - case_bool_decide as Hf; [done|]. apply eq_None_not_Some in Hf. intros [= <-].
    split_and!; [done| |done]. intros key' k r' [= <-]. by apply find_by_key_None.
  - intros [= <-]. done.
Qed.

Lemma keeps_insert_inbox row : clean (ib_payload row) -> ib_status row = "pending" ->
  keeps wf_ledger (insert_inbox row).
Proof.
  intros Hc Hst s s' u [H1 H2 H3 H4 H5 H6 H7 H8 H9 H10 H11 H12] (Hn & Hk & ->)%insert_inbox_Ok.
  split; cbn; try done.
  - intros k row'. rewrite lookup_insert_Some. intros [[<- <-]|[_ Hk']]; [|by apply H11].
    split_and!; [done|done|]. rewrite Hst. set_solver.
  - intros k1 k2 r1 r2 key. rewrite !lookup_insert_Some.
    intros [[<- <-]|[_ Hk1]] [[<- <-]|[_ Hk2]] E1 E2; [done| | |by eapply H12].
    + by destruct (Hk _ _ _ E1 Hk2).
    + by destruct (Hk _ _ _ E2 Hk1).
Qed.

Lemma keeps_enqueue now id ty corr payload key :
  keeps wf_ledger (enqueue_command now id ty corr payload key).
Proof.
  unfold enqueue_command. intros s s' a Hs H.
  apply tx_bind_Ok in H as (s1 & [] & [-> _]%lift_Ok & H).
  apply tx_bind_Ok in H as (s1 & [] & [-> _]%lift_Ok & H).
  apply tx_bind_Ok in H as (s1 & [] & [-> _]%lift_Ok & H).
  apply tx_bind_Ok in H as (s1 & ex & [= <- <-] & H).
  destruct (key ≫= _) as [row|]; [by injection H as <- <-|].
  apply tx_bind_Ok in H as (s1 & [] & [-> Hc]%lift_Ok & H).
  apply tx_bind_Ok in H as (s1 & [] & Hi%transaction_Ok & H). injection H as <- <-.
  eapply keeps_insert_inbox; [| |exact Hs|exact Hi]; [|done]. by apply clean_canon.
Qed.

Lemma keeps_mark_dispatched now id : keeps wf_ledger (mark_dispatched now id).
Proof.
  apply keeps_transaction. intros s s' u [H1 H2 H3 H4 H5 H6 H7 H8 H9 H10 H11 H12] [= <-].
  split; cbn; try done.
  - rewrite map_map, length_map. etrans; [|exact H6]. apply map_ext. intros o.
    unfold dispatch_row. by destruct (ob_outbox_id o =? id)%Z.
  - by rewrite length_map.
  - apply Forall_map. eapply Forall_impl; [done|]. intros o. unfold dispatch_row.
    by destruct (ob_outbox_id o =? id)%Z.
Qed.
Lemma keeps_advance name seq force : keeps wf_ledger (advance_cursor name seq force).
Proof.
  unfold advance_cursor. destruct (seq <? 0)%Z; [auto with ledger|].
  apply keeps_bind; [by intros s s' a Hs [= <- <-]|]. intros cur.
  destruct (_ && _); [auto with ledger|]. apply keeps_transaction.
  intros s s' u Hs [= <-]. by apply wf_set_cursors.
Qed.
