(* ===== verification/LedgerTheorems.v ===== *)
(** * What the ledger promises

    The effect of an [append] on every branch, histories of ledger calls, what no
    history can undo, and the reconstruction of projections from events. *)
From S2P Require Import Prelude PyText Json Identity IdentityProofs Redaction Ledger LedgerProofs.


(** ** The effect of an append *)
(** The event rows a command stores after commit sequence [seq]. *)
Fixpoint event_rows (now corr : string) (l : list EventWrite) (seq : Z) : list EventRow :=
  match l with
  | [] => []
  | e :: l => event_row now corr e (ew_expected_version e + 1) (seq + 1) ::
              event_rows now corr l (seq + 1)
  end.
Definition appended (row : EventRow) : AppendedEvent := {|
  ae_aggregate := ev_aggregate row; ae_commit_seq := ev_commit_seq row;
  ae_aggregate_version := ev_aggregate_version row |}.
Fixpoint outbox_rows (now corr : string) (l : list OutboxWrite) (seq : Z) : list OutboxRow :=
  match l with
  | [] => []
  | o :: l => {| ob_outbox_id := seq + 1; ob_correlation_id := corr; ob_target := ow_target o;
                 ob_payload := canon (JObj (ow_payload o)); ob_status := "pending";
                 ob_created_at := now; ob_dispatched_at := None |} ::
              outbox_rows now corr l (seq + 1)
  end.
Definition writes_to (r : ref) (l : list EventWrite) : Z :=
  Z.of_nat (length (List.filter (fun e => bool_decide (ew_ref e = r)) l)).
Definition updates_to (r : ref) (l : list ProcessManagerStateWrite) : Z :=
  Z.of_nat (length (List.filter (fun w => bool_decide (pw_ref w = r)) l)).

(** The process-manager and lease tables after a command's writes, in order. *)
Definition pm_row (now : string) (w : ProcessManagerStateWrite) : PmRow := {|
  pm_version := pw_expected_version w + 1; pm_state := canon (JObj (pw_state w));
  pm_updated_at := now |}.
Definition pm_after (now : string) (l : list ProcessManagerStateWrite) (m : gmap ref PmRow)
    : gmap ref PmRow := foldl (fun m w => <[pw_ref w := pm_row now w]> m) m l.
Definition leases_after (now : string) (l : list LeaseWrite) (m : gmap ref LeaseRow)
    : gmap ref LeaseRow := foldl (fun m w => <[lw_ref w := lease_row now w]> m) m l.

Record append_effect `{PyRuntime} (now : string) (store : option ArtifactStore)
    (c : AppendCommand) (s s' : Ledger) (r : AppendResult) : Prop := {
  ef_events : lg_events s' =
    lg_events s ++ event_rows now (ac_correlation_id c) (ac_events c) (lg_event_seq s);
  ef_result : re_events r =
    map appended (event_rows now (ac_correlation_id c) (ac_events c) (lg_event_seq s));
  ef_expected : Forall (fun e => version_of (ew_ref e) s <= ew_expected_version e
                                 < version_of (ew_ref e) s')%Z (ac_events c);
  ef_versions : forall a, version_of a s' = (version_of a s + writes_to a (ac_events c))%Z;
  ef_pm_expected : Forall (fun w => pm_version_of (pw_ref w) s <= pw_expected_version w)%Z
    (ac_process_manager_updates c);
  ef_pm_versions : forall a, pm_version_of a s' =
    (pm_version_of a s + updates_to a (ac_process_manager_updates c))%Z;
  ef_pm : lg_pm s' = pm_after now (ac_process_manager_updates c) (lg_pm s);
  ef_leases : lg_leases s' = leases_after now (ac_lease_updates c) (lg_leases s);
  ef_pm_result : re_process_manager_states r =
    map (fun w => (pw_ref w, (pw_expected_version w + 1)%Z)) (ac_process_manager_updates c);
  ef_outbox : lg_outbox s' =
    lg_outbox s ++ outbox_rows now (ac_correlation_id c) (ac_outbox_entries c) (lg_outbox_seq s);
  ef_outbox_ids : re_outbox_ids r = map ob_outbox_id
    (outbox_rows now (ac_correlation_id c) (ac_outbox_entries c) (lg_outbox_seq s));
  ef_inbox : match ac_inbox_command_id c with
             | None => lg_inbox s' = lg_inbox s
             | Some id => exists row, lg_inbox s !! id = Some row /\ ib_status row = "pending" /\
                 lg_inbox s' = <[id := acknowledged now (ac_inbox_status c) row]> (lg_inbox s)
             end;
  ef_artifacts : re_artifact_ids r = map aw_artifact_id (ac_artifact_references c) /\
    (ac_artifact_references c <> [] -> exists st, store = Some st /\
       Forall (fun w => store_verify st (aw_digest w) = true) (ac_artifact_references c));
  ef_cursors : lg_cursors s' = lg_cursors s;
}.

(** Each phase of the append body, as one update of the ledger. *)
Lemma events_phase now corr l s s' rs : mapM_tx (append_event now corr) l s = (s', Ok rs) ->
  rs = map appended (event_rows now corr l (lg_event_seq s)) /\
  Forall (fun e => version_of (ew_ref e) s <= ew_expected_version e < version_of (ew_ref e) s')%Z l /\
  (exists seq ag pj, s' = set_projections (set_aggregates (set_events s
     (lg_events s ++ event_rows now corr l (lg_event_seq s)) seq) ag) pj) /\
  forall a, version_of a s' = (version_of a s + writes_to a l)%Z.
Proof.
  revert s s' rs. induction l as [|e l IH]; intros s s' rs.
  - intros [= <- <-]. split_and!; [done|constructor| |intros a; unfold writes_to; cbn; lia].
    exists (lg_event_seq s), (lg_aggregates s), (lg_projections s). cbn. rewrite app_nil_r.
    by destruct s.
  - cbn [mapM_tx]. intros (s1 & a & Ha & H)%tx_bind_Ok.
    apply tx_bind_Ok in H as (s2 & as_ & H & [= -> <-]).
    apply append_event_Ok in Ha as (Hv & _ & -> & ->).
    apply IH in H as (-> & Hall & Hs' & Hver).
    assert (Hone : forall r, version_of r s' = (version_of r s + writes_to r (e :: l))%Z).
    { intros r. rewrite (Hver r), version_of_apply. unfold writes_to.
      cbn [List.filter event_row ev_aggregate ev_aggregate_version].
      destruct (decide (ew_ref e = r)) as [<-|Hr].
      * rewrite bool_decide_true by done. cbn [length]. lia.
      * by rewrite bool_decide_false. }
    split_and!; [cbn; by rewrite Hv| | |exact Hone].
    + constructor.
      * rewrite Hone, Hv. unfold writes_to. cbn [List.filter]. rewrite bool_decide_true by done.
        cbn [length]. lia.
      * eapply Forall_impl; [exact Hall|]. intros e' He'. cbn in He'. revert He'.
        rewrite version_of_apply. cbn [event_row ev_aggregate ev_aggregate_version].
        case_decide as Hr; [rewrite <- Hr|]; lia.
    + destruct Hs' as (seq & ag & pj & ->). exists seq, ag, pj. cbn. rewrite <- app_assoc, Hv. done.
Qed.
Lemma pm_phase now l s s' rs :
  mapM_tx (fun w => v ← apply_process_manager_update now w; mret (pw_ref w, v)) l s = (s', Ok rs) ->
  rs = map (fun w => (pw_ref w, (pw_expected_version w + 1)%Z)) l /\
  Forall (fun w => pm_version_of (pw_ref w) s <= pw_expected_version w)%Z l /\
  s' = set_pm s (pm_after now l (lg_pm s)) /\
  forall a, pm_version_of a s' = (pm_version_of a s + updates_to a l)%Z.
Proof.
  revert s s' rs. induction l as [|w l IH]; intros s s' rs.
  - intros [= <- <-]. split_and!; [done|constructor|by destruct s|].
    intros a; unfold updates_to; cbn; lia.
  - cbn [mapM_tx]. intros (s1 & x & (s0 & v & Hv & [= -> <-])%tx_bind_Ok & H)%tx_bind_Ok.
    apply tx_bind_Ok in H as (s2 & xs & H & [= -> <-]).
    apply pm_update_Ok in Hv as (Hv & _ & -> & ->).
    apply IH in H as (-> & Hall & -> & Hver).
    assert (Hv1 : forall r m v, m = pw_expected_version w -> pm_version_of r (set_pm s
        (<[pw_ref w := {| pm_version := m + 1; pm_state := v; pm_updated_at := now |}]> (lg_pm s)))
      = (pm_version_of r s + if decide (pw_ref w = r) then 1 else 0)%Z).
    { intros r m v ->. unfold pm_version_of. cbn. case_decide as Hr.
      - subst r. rewrite lookup_insert_eq. cbn. unfold pm_version_of in Hv. lia.
      - rewrite lookup_insert_ne by done. lia. }
    split_and!; [done| |done|].
    + constructor; [lia|]. eapply Forall_impl; [exact Hall|]. intros w' Hw'. cbn in Hw'.
      rewrite Hv1 in Hw' by done. case_decide; lia.
    + intros r. rewrite (Hver r), Hv1 by done. unfold updates_to. cbn [List.filter].
      case_decide; [rewrite bool_decide_true by done|rewrite bool_decide_false by done];
        cbn [length]; lia.
Qed.
Lemma lease_phase now l s s' rs : mapM_tx (apply_lease_update now) l s = (s', Ok rs) ->
  s' = set_leases s (leases_after now l (lg_leases s)).
Proof.
  revert s s' rs. induction l as [|w l IH]; intros s s' rs.
  - intros [= <- <-]. by destruct s.
  - cbn [mapM_tx]. intros (s1 & x & Hx & H)%tx_bind_Ok.
    apply tx_bind_Ok in H as (s2 & xs & H & [= -> <-]). rewrite lease_update_eq in Hx.
    destruct (from_option _ _ _); [done|]. injection Hx as <- <-.
    apply IH in H as ->. done.
Qed.
Lemma outbox_phase now corr l s s' rs : mapM_tx (write_entry now corr) l s = (s', Ok rs) ->
  rs = map ob_outbox_id (outbox_rows now corr l (lg_outbox_seq s)) /\
  exists seq, s' = set_outbox s (lg_outbox s ++ outbox_rows now corr l (lg_outbox_seq s)) seq.
Proof.
  revert s s' rs. induction l as [|o l IH]; intros s s' rs.
  - intros [= <- <-]. split; [done|]. exists (lg_outbox_seq s). cbn. rewrite app_nil_r.
    by destruct s.
  - cbn [mapM_tx]. intros (s1 & x & Hx & H)%tx_bind_Ok.
    apply tx_bind_Ok in H as (s2 & xs & H & [= -> <-]).
    apply write_entry_Ok in Hx as (_ & -> & ->).
    apply IH in H as (-> & seq & ->). split; [done|]. exists seq. cbn.
    by rewrite <- app_assoc.
Qed.
Lemma artifact_phase `{rt : PyRuntime} now store l s s' rs :
  mapM_tx (fun w => match store with
                    | Some st => apply_artifact_metadata now st w
                    | None => throw PyAssertionError
                    end) l s = (s', Ok rs) ->
  rs = map aw_artifact_id l /\ (exists m, s' = set_artifacts s m) /\
  (l <> [] -> exists st, store = Some st /\
     Forall (fun w => store_verify st (aw_digest w) = true) l).
Proof.
  revert s s' rs. induction l as [|w l IH]; intros s s' rs.
  - intros [= <- <-]. split_and!; [done| |done]. exists (lg_artifacts s). by destruct s.
  - cbn [mapM_tx]. destruct store as [st|]; [|done]. intros (s1 & x & Hx & H)%tx_bind_Ok.
    apply tx_bind_Ok in H as (s2 & xs & H & [= -> <-]).
    apply artifact_Ok in Hx as (-> & Hv & m & ->).
    apply IH in H as (-> & (m' & ->) & Hall). split_and!; [done|by exists m'|].
    intros _. exists st. split; [done|]. constructor; [done|].
    destruct l as [|w' l]; [done|]. by destruct (Hall ltac:(done)) as (? & [= <-] & ?).
Qed.

Lemma append_body_effect `{rt : PyRuntime} now store c s s' r :
  append_body now store c s = (s', Ok r) -> append_effect now store c s s' r.
Proof.
  unfold append_body. intros (s1 & evs & H1 & H)%tx_bind_Ok.
  apply tx_bind_Ok in H as (s2 & pms & H2 & H).
  apply tx_bind_Ok in H as (s3 & ls & H3 & H).
  apply tx_bind_Ok in H as (s4 & obs & H4 & H).
  apply tx_bind_Ok in H as (s5 & ars & H5 & H).
  apply tx_bind_Ok in H as (s6 & u & H6 & [= -> <-]).
  apply events_phase in H1 as (-> & Hexp & (seq & ag & pj & ->) & Hver).
  apply pm_phase in H2 as (-> & Hpexp & -> & Hpm).
  apply lease_phase in H3 as ->.
  apply outbox_phase in H4 as (-> & oseq & ->).
  apply artifact_phase in H5 as (-> & (m5 & ->) & Hst).
  assert (Hi : exists m, s' = set_inbox (set_artifacts (set_outbox (set_leases (set_pm
      (set_projections (set_aggregates (set_events s (lg_events s ++ event_rows now
        (ac_correlation_id c) (ac_events c) (lg_event_seq s)) seq) ag) pj)
        (pm_after now (ac_process_manager_updates c) (lg_pm s)))
        (leases_after now (ac_lease_updates c) (lg_leases s)))
      (lg_outbox s ++ outbox_rows now (ac_correlation_id c) (ac_outbox_entries c)
        (lg_outbox_seq s)) oseq) m5) m /\
      match ac_inbox_command_id c with
      | None => m = lg_inbox s
      | Some id => exists row, lg_inbox s !! id = Some row /\ ib_status row = "pending" /\
          m = <[id := acknowledged now (ac_inbox_status c) row]> (lg_inbox s)
      end).
  { destruct (ac_inbox_command_id c) as [id|].
    - apply acknowledge_Ok in H6 as (_ & row & Hr & Hp & ->). eexists. split; [done|].
      by exists row.
    - injection H6 as <- <-. by exists (lg_inbox s). }
  destruct Hi as (m & -> & Hm). split; cbn; try done.
Qed.

Lemma append_Ok_effect `{PyRuntime} now store c s s' r :
  append now store c s = (s', Ok r) -> append_effect now store c s s' r.
Proof.
  intros E. apply append_body_effect. unfold append in E. case_match; [done|].
  by apply transaction_Ok.
Qed.

(** ** Histories of calls *)
Inductive LedgerOp :=
| OpAppend (store : option ArtifactStore) (c : AppendCommand)
| OpEnqueue (command_id command_type correlation_id : string) (payload : list (string * json))
    (idempotency_key : option string)
| OpMarkDispatched (outbox_id : Z)
| OpAdvanceCursor (consumer_name : string) (commit_seq : Z) (force : bool)
| OpRebuild (max_supported_schema_version : Z).

(** The ledger after a call, whether it returned or raised, at clock text [now]. *)
Definition ledger_step `{PyRuntime} (s : Ledger) (call : string * LedgerOp) : Ledger :=
  let now := call.1 in
  match call.2 with
  | OpAppend store c => (append now store c s).1
  | OpEnqueue id ty corr payload key => (enqueue_command now id ty corr payload key s).1
  | OpMarkDispatched id => (mark_dispatched now id s).1
  | OpAdvanceCursor name seq force => (advance_cursor name seq force s).1
  | OpRebuild limit => (rebuild_projections now limit s).1
  end.
Definition ledger_run `{PyRuntime} (history : list (string * LedgerOp)) (s : Ledger) : Ledger :=
  foldl ledger_step s history.

(** A raising call leaves the ledger as it was. *)
Definition atomic {A} (m : tx A) : Prop := forall s s' e, m s = (s', Err e) -> s' = s.
Lemma atomic_throw {A} e : atomic (throw (A:=A) e).
Proof. by intros s s' e' [= <- _]. Qed.
Lemma atomic_lift {A} (r : result A) : atomic (lift r).
Proof. by intros s s' e [= <- _]. Qed.
Lemma atomic_transaction {A} (m : tx A) : atomic (transaction m).
Proof. by intros s s' e [-> _]%transaction_Err. Qed.
(** Reads before the one transaction keep a call atomic. *)
Definition reads {A} (m : tx A) : Prop := forall s, (m s).1 = s.
Lemma atomic_reads {A B} (m : tx A) (f : A -> tx B) :
  reads m -> (forall a, atomic (f a)) -> atomic (mbind f m).
Proof.
  intros Hm Hf s s' e. specialize (Hm s). unfold mbind, tx_bind. destruct (m s) as [s1 [a|e']];
    cbn in Hm; subst s1; [by apply Hf|]. by intros [= <- _].
Qed.
Lemma atomic_then_ret {A B} (m : tx A) (b : B) : atomic m -> atomic (_ ← m; mret b).
Proof. intros Hm s s' e [H|(s1 & a & _ & [=])]%tx_bind_Err. by eapply Hm. Qed.
#[export] Hint Resolve atomic_throw atomic_lift atomic_transaction atomic_then_ret : ledger.

Lemma append_atomic `{PyRuntime} now store c : atomic (append now store c).
Proof. unfold append. case_match; auto with ledger. Qed.
Lemma enqueue_atomic now id ty corr payload key :
  atomic (enqueue_command now id ty corr payload key).
Proof.
  unfold enqueue_command. do 4 (apply atomic_reads; [done|]; intros ?).
  case_match; [by intros s s' e [=]|]. apply atomic_reads; [done|]. auto with ledger.
Qed.
Lemma mark_atomic now id : atomic (mark_dispatched now id).
Proof. apply atomic_transaction. Qed.
Lemma rebuild_atomic now limit : atomic (rebuild_projections now limit).
Proof. apply atomic_transaction. Qed.
Lemma advance_atomic name seq force : atomic (advance_cursor name seq force).
Proof.
  unfold advance_cursor. case_match; [auto with ledger|]. apply atomic_reads; [done|].
  intros cur. case_match; auto with ledger.
Qed.

(** ** What no history undoes *)
(** Epoch, then fencing token; the holder of a pair never changes. *)
Definition lease_le (x y : LeaseRow) : Prop :=
  (ls_epoch x < ls_epoch y)%Z \/
  (ls_epoch x = ls_epoch y /\
   ((ls_fencing_token x < ls_fencing_token y)%Z \/
    (ls_fencing_token x = ls_fencing_token y /\ ls_owner x = ls_owner y /\
     ls_attempt_id x = ls_attempt_id y))).
(** An inbox row keeps its request; once decided it does not change at all. *)
Definition inbox_kept (x y : InboxRow) : Prop :=
  x = y \/ (ib_status x = "pending" /\ exists now status, inbox_terminal status = true /\
            y = acknowledged now status x).
Record grows (s s' : Ledger) : Prop := {
  gr_events : lg_events s `prefix_of` lg_events s';
  gr_versions : forall r, (version_of r s <= version_of r s')%Z;
  gr_pm : forall r, (pm_version_of r s <= pm_version_of r s')%Z;
  gr_leases : forall r x, lg_leases s !! r = Some x ->
    exists y, lg_leases s' !! r = Some y /\ lease_le x y;
  gr_inbox : forall k x, lg_inbox s !! k = Some x ->
    exists y, lg_inbox s' !! k = Some y /\ inbox_kept x y;
}.
Lemma lease_le_refl x : lease_le x x.
Proof. unfold lease_le. naive_solver. Qed.
Lemma lease_le_trans x y z : lease_le x y -> lease_le y z -> lease_le x z.
Proof.
  unfold lease_le. intros [H|[E [H|(T & O & A)]]] [H'|[E' [H'|(T' & O' & A')]]];
    first [left; lia | right; split; [lia|]; first [left; lia | right; split_and!; [lia|congruence..]]].
Qed.
Lemma inbox_kept_trans x y z : inbox_kept x y -> inbox_kept y z -> inbox_kept x z.
Proof.
  intros [->|(Hp & n & st & Ht & ->)] [<-|(Hp' & n' & st' & Ht' & ->)].
  - by left.
  - right. by eauto.
  - right. by eauto.
  - cbn in Hp'. subst st. by vm_compute in Ht.
Qed.
#[export] Instance grows_preorder : PreOrder grows.
Proof.
  split.
  - intros s. split; [done|lia|lia| |].
    + intros r x Hx. exists x. split; [done|apply lease_le_refl].
    + intros k x Hx. exists x. split; [done|by left].
  - intros s1 s2 s3 [E1 V1 P1 L1 I1] [E2 V2 P2 L2 I2]. split.
    + by etrans.
    + intros r. specialize (V1 r). specialize (V2 r). lia.
    + intros r. specialize (P1 r). specialize (P2 r). lia.
    + intros r x (y & Hy & Hxy)%L1. apply L2 in Hy as (z & Hz & Hyz). exists z.
      split; [done|by eapply lease_le_trans].
    + intros k x (y & Hy & Hxy)%I1. apply I2 in Hy as (z & Hz & Hyz). exists z.
      split; [done|by eapply inbox_kept_trans].
Qed.
Lemma keeps_grows {A} (m : tx A) s0 :
  (forall s s' a, m s = (s', Ok a) -> grows s s') -> keeps (grows s0) m.
Proof. intros Hm s s' a Hs H. etrans; [exact Hs|]. by eapply Hm. Qed.
(** Ledgers that agree on what [grows] looks at. *)
Lemma grows_same s s' : lg_events s' = lg_events s -> lg_aggregates s' = lg_aggregates s ->
  lg_pm s' = lg_pm s -> lg_leases s' = lg_leases s -> lg_inbox s' = lg_inbox s -> grows s s'.
Proof.
  intros E A P L I.
  assert (grows s s) as [] by reflexivity.
  split; unfold version_of, pm_version_of in *; rewrite ?E, ?A, ?P, ?L, ?I; auto.
Qed.

Lemma grows_append_event now corr e s0 : keeps (grows s0) (append_event now corr e).
Proof.
  apply keeps_grows. intros s s' a (_ & _ & -> & _)%append_event_Ok.
  assert (grows s s) as [] by reflexivity. split; try done; cbn.
  - by apply prefix_app_r.
  - intros r. rewrite version_of_apply. cbn. case_decide as Hr; [subst r|]; lia.
Qed.
Lemma grows_pm now w s0 : keeps (grows s0) (apply_process_manager_update now w).
Proof.
  apply keeps_grows. intros s s' v (Hv & _ & -> & ->)%pm_update_Ok.
  assert (grows s s) as [] by reflexivity. split; try done.
  intros r. unfold pm_version_of at 2. cbn. destruct (decide (pw_ref w = r)) as [<-|Hr].
  - rewrite lookup_insert_eq. cbn. lia.
  - rewrite lookup_insert_ne by done. unfold pm_version_of. lia.
Qed.
Lemma lease_update_le row w now :
  lease_stale row w || lease_conflicting row w = false -> lease_le row (lease_row now w).
Proof.
  unfold lease_stale, lease_conflicting, lease_le. cbn.
  destruct (Z.ltb_spec (lw_epoch w) (ls_epoch row)), (Z.eqb_spec (lw_epoch w) (ls_epoch row)),
    (Z.ltb_spec (lw_fencing_token w) (ls_fencing_token row)),
    (Z.eqb_spec (lw_fencing_token w) (ls_fencing_token row)),
    (String.eqb_spec (lw_owner w) (ls_owner row)),
    (String.eqb_spec (lw_attempt_id w) (ls_attempt_id row)); cbn; try done; intros _;
    first [left; lia | right; split; [lia|];
           first [left; lia | right; split_and!; [lia|congruence..]]].
Qed.
Lemma grows_lease now w s0 : keeps (grows s0) (apply_lease_update now w).
Proof.
  apply keeps_grows. intros s s' u. rewrite lease_update_eq.
  destruct (from_option _ _ _) eqn:Hf; [done|]. intros [= <-].
  assert (grows s s) as [] by reflexivity. split; try done.
  intros r x Hx. cbn. destruct (decide (lw_ref w = r)) as [<-|Hr].
  - rewrite lookup_insert_eq. rewrite Hx in Hf. eexists. split; [done|]. by apply lease_update_le.
  - rewrite lookup_insert_ne by done. exists x. split; [done|apply lease_le_refl].
Qed.
Lemma grows_write_entry now corr o s0 : keeps (grows s0) (write_entry now corr o).
Proof. apply keeps_grows. intros s s' v (_ & -> & ->)%write_entry_Ok. by apply grows_same. Qed.
Lemma grows_artifact `{PyRuntime} now st w s0 : keeps (grows s0) (apply_artifact_metadata now st w).
Proof. apply keeps_grows. intros s s' a (_ & _ & m & ->)%artifact_Ok. by apply grows_same. Qed.
Lemma grows_set_inbox s id row' : (forall row, lg_inbox s !! id = Some row -> inbox_kept row row') ->
  grows s (set_inbox s (<[id := row']> (lg_inbox s))).
Proof.
  intros Hk. assert (grows s s) as [] by reflexivity. split; try done.
  intros k x Hx. cbn. destruct (decide (id = k)) as [<-|Hr].
  - rewrite lookup_insert_eq. eexists. split; [done|]. by apply Hk.
  - rewrite lookup_insert_ne by done. exists x. split; [done|by left].
Qed.
Lemma grows_acknowledge now id status s0 : keeps (grows s0) (acknowledge_command now id status).
Proof.
  apply keeps_grows. intros s s' u (Ht & row & Hr & Hp & ->)%acknowledge_Ok.
  apply grows_set_inbox. intros row0 Hr0. simplify_eq. right. eauto.
Qed.
Lemma grows_insert_inbox row s0 : keeps (grows s0) (insert_inbox row).
Proof.
  apply keeps_grows. intros s s' u (Hn & _ & ->)%insert_inbox_Ok.
  apply grows_set_inbox. intros row0. by rewrite Hn.
Qed.
Lemma grows_gets {A} (f : Ledger -> A) s0 : keeps (grows s0) (gets f).
Proof. by intros s s' a Hs [= <- _]. Qed.
Lemma grows_lift {A} (r : result A) s0 : keeps (grows s0) (lift r).
Proof. by intros s s' a Hs [-> _]%lift_Ok. Qed.
Lemma grows_modify (f : Ledger -> Ledger) s0 : (forall s, grows s (f s)) -> keeps (grows s0) (modify f).
Proof. intros Hf. apply keeps_grows. by intros s s' a [= <-]. Qed.
#[export] Hint Resolve grows_append_event grows_pm grows_lease grows_write_entry grows_artifact
  grows_acknowledge grows_insert_inbox grows_gets grows_lift : ledger.

Lemma grows_rebuild now limit s0 : keeps (grows s0) (rebuild_projections now limit).
Proof.
  unfold rebuild_projections. apply keeps_transaction, keeps_bind;
    [by apply grows_modify; intros; apply grows_same|].
  intros []. apply keeps_bind; [auto with ledger|]. intros latest.
  apply keeps_bind; [|auto with ledger]. apply keeps_mapM. intros e. unfold rebuild_row.
  case_match; [auto with ledger|]. by apply grows_modify; intros; apply grows_same.
Qed.

(** A call's effect on a property its successful outcomes keep. *)
Lemma step_inv {A} (I : Ledger -> Prop) (m : tx A) s :
  atomic m -> keeps I m -> I s -> I (m s).1.
Proof.
  intros Ha Hk Hs. destruct (m s) as [s' [a|e]] eqn:E; [by eapply Hk|].
  apply Ha in E. by subst s'.
Qed.
Lemma ledger_step_inv `{PyRuntime} (I : Ledger -> Prop) s call :
  (forall now store c, keeps I (append now store c)) ->
  (forall now id ty corr payload key, keeps I (enqueue_command now id ty corr payload key)) ->
  (forall now id, keeps I (mark_dispatched now id)) ->
  (forall name seq force, keeps I (advance_cursor name seq force)) ->
  (forall now limit, keeps I (rebuild_projections now limit)) ->
  I s -> I (ledger_step s call).
Proof.
  intros H1 H2 H3 H4 H5 Hs. unfold ledger_step. destruct call as [now []]; cbn [fst snd];
    apply step_inv; auto using append_atomic, enqueue_atomic, advance_atomic,
      mark_atomic, rebuild_atomic.
Qed.
Lemma ledger_run_inv `{PyRuntime} (I : Ledger -> Prop) h s :
  (forall s call, I s -> I (ledger_step s call)) -> I s -> I (ledger_run h s).
Proof.
  intros Hstep. unfold ledger_run. revert s. induction h as [|call h IH]; intros s Hs; [done|].
  cbn. apply IH. by apply Hstep.
Qed.

Lemma grows_step `{PyRuntime} s0 s call : grows s0 s -> grows s0 (ledger_step s call).
Proof.
  apply ledger_step_inv; intros.
  - unfold append, append_body. keeps.
  - unfold enqueue_command. repeat (apply keeps_bind; [auto with ledger|intros ?]).
    case_match; keeps.
  - unfold mark_dispatched. apply keeps_transaction, grows_modify. intros. by apply grows_same.
  - unfold advance_cursor. case_match; [auto with ledger|].
    apply keeps_bind; [auto with ledger|]. intros cur. case_match; [auto with ledger|].
    apply keeps_transaction, grows_modify. intros. by apply grows_same.
  - apply grows_rebuild.
Qed.
Lemma grows_run `{PyRuntime} h s : grows s (ledger_run h s).
Proof. apply ledger_run_inv; [apply grows_step|reflexivity]. Qed.

(** ** Rebuilding projections *)
Lemma filter_comm {A} (p q : A -> bool) l :
  List.filter p (List.filter q l) = List.filter q (List.filter p l).
Proof.
  induction l as [|x l IH]; [done|]. cbn. destruct (p x) eqn:Hp, (q x) eqn:Hq; cbn;
    rewrite ?Hp, ?Hq, ?IH; done.
Qed.
Lemma elem_of_events_of r l e : In e (events_of r l) <-> In e l /\ ev_aggregate e = r.
Proof. unfold events_of. by rewrite filter_In, bool_decide_eq_true. Qed.

(** The last stored event of an aggregate is its latest one. *)
Lemma last_is_latest s r e : wf_ledger s -> last (events_of r (lg_events s)) = Some e ->
  is_latest (lg_events s) e = true.
Proof.
  intros Hs Hl. unfold is_latest. apply forallb_forall. intros e' He'.
  assert (Hr : ev_aggregate e = r).
  { apply (elem_of_events_of r (lg_events s) e). apply last_Some in Hl as (l' & ->).
    apply in_or_app. right. by left. }
  case_bool_decide as Ha; [|done]. cbn. rewrite Hr in Ha.
  assert (Hin : In e' (events_of r (lg_events s))) by by apply elem_of_events_of.
  pose proof (wl_versions s Hs r) as Hv. apply last_Some in Hl as (l' & Hl). rewrite Hl in *.
  apply (in_map ev_aggregate_version) in Hin. rewrite Hv in Hin.
  rewrite map_app, length_app, Nat.add_comm in Hv. cbn [map length plus] in Hv.
  rewrite range1_S in Hv. apply app_inj_tail in Hv as [_ Hv].
  rewrite length_app, Nat.add_comm in Hin. cbn [length plus] in Hin.
  apply Z.leb_le. rewrite Hv. unfold range1 in Hin.
  apply in_map_iff in Hin as (i & <- & Hi%in_seq). lia.
Qed.
Lemma last_filter {A} (p : A -> bool) l : (forall x, last l = Some x -> p x = true) ->
  last (List.filter p l) = last l.
Proof.
  intros Hp. destruct (last l) as [x|] eqn:Hl.
  - apply last_Some in Hl as (l' & ->). rewrite List.filter_app. cbn.
    by rewrite (Hp x), last_snoc.
  - apply last_None in Hl as ->. done.
Qed.
Lemma last_latest s r : wf_ledger s ->
  last (events_of r (List.filter (is_latest (lg_events s)) (lg_events s))) =
  last (events_of r (lg_events s)).
Proof.
  intros Hs. unfold events_of at 1. rewrite filter_comm. apply last_filter.
  intros e. by apply last_is_latest.
Qed.

(** The insertion loop: the last row of an aggregate wins. *)
Lemma rebuild_loop now limit l s :
  match mapM_tx (rebuild_row now limit) l s with
  | (s', Ok _) => Forall (fun e => (ev_schema_version e <= limit)%Z) l /\
      s' = set_projections s (lg_projections s') /\
      forall r, lg_projections s' !! r =
        match last (events_of r l) with
        | Some e => Some (projection_row now e)
        | None => lg_projections s !! r
        end
  | (_, Err e) => e = SchemaVersionUnsupportedError /\
      Exists (fun e => (limit < ev_schema_version e)%Z) l
  end.
Proof.
  revert s. induction l as [|e l IH]; intros s.
  - cbn. split_and!; [constructor|by destruct s|done].
  - cbn [mapM_tx]. unfold mbind, tx_bind. unfold rebuild_row at 1.
    destruct (Z.ltb_spec limit (ev_schema_version e)) as [Hlt|Hle]; cbn [throw].
    { split; [done|by constructor]. }
    unfold apply_projection_update, modify. cbn [fst snd].
    match goal with |- context [mapM_tx _ l ?s1] => specialize (IH s1) end.
    destruct (mapM_tx (rebuild_row now limit) l _) as [s' [u|e']].
    + destruct IH as (Hf & Hs' & Hr). split_and!; [by constructor|by rewrite Hs'|].
      intros r. rewrite (Hr r). unfold events_of. cbn [List.filter].
      fold (events_of r l). case_bool_decide as Ha.
      * change (e :: events_of r l) with ([e] ++ events_of r l). rewrite last_app.
        destruct (last (events_of r l)); [done|]. subst r. cbn [lg_projections set_projections].
        by rewrite lookup_insert_eq.
      * destruct (last (events_of r l)); [done|]. cbn [lg_projections set_projections].
        by rewrite lookup_insert_ne.
    + destruct IH as [-> Hex]. split; [done|by constructor 2].
Qed.

Lemma latest_row s e : wf_ledger s -> In e (List.filter (is_latest (lg_events s)) (lg_events s)) ->
  last (events_of (ev_aggregate e) (lg_events s)) = Some e.
Proof.
  intros Hs [Hin Hl]%filter_In. set (r := ev_aggregate e).
  assert (He : In e (events_of r (lg_events s))) by by apply elem_of_events_of.
  pose proof (wl_versions s Hs r) as Hv.
  destruct (last (events_of r (lg_events s))) as [x|] eqn:Hx.
  2: { apply last_None in Hx. by rewrite Hx in He. }
  pose proof Hx as Hx'. apply last_Some in Hx as (l' & Hx).
  assert (Hxin : In x (lg_events s) /\ ev_aggregate x = r).
  { apply elem_of_events_of. rewrite Hx. apply in_or_app. right. by left. }
  unfold is_latest in Hl. rewrite forallb_forall in Hl. specialize (Hl x (proj1 Hxin)).
  rewrite bool_decide_true in Hl by apply Hxin. cbn in Hl. apply Z.leb_le in Hl.
  f_equal. rewrite Hx in He, Hv. apply in_app_or in He as [He|[He|[]]]; [|done].
  exfalso. rewrite map_app, length_app, Nat.add_comm in Hv. cbn [map length plus] in Hv.
  rewrite range1_S in Hv. apply app_inj_tail in Hv as [Hl' Hvx].
  apply (in_map ev_aggregate_version) in He. rewrite Hl' in He. unfold range1 in He.
  apply in_map_iff in He as (i & Hi & Hi'%in_seq). lia.
Qed.

Lemma rebuild_core now limit s m : wf_ledger s ->
  match rebuild_projections now limit (set_projections s m) with
  | (s', Ok _) => s' = set_projections s (lg_projections s') /\
      (forall r, lg_projections s' !! r = projection_row now <$> last (events_of r (lg_events s))) /\
      forall r e, last (events_of r (lg_events s)) = Some e -> (ev_schema_version e <= limit)%Z
  | (s', Err e) => s' = set_projections s m /\ e = SchemaVersionUnsupportedError /\
      exists r x, last (events_of r (lg_events s)) = Some x /\ (limit < ev_schema_version x)%Z
  end.
Proof.
  intros Hs. unfold rebuild_projections, transaction, mbind, tx_bind, modify, gets.
  cbn [lg_events set_projections].
  set (latest := List.filter (is_latest (lg_events s)) (lg_events s)).
  pose proof (rebuild_loop now limit latest (set_projections (set_projections s m) ∅)) as Hl.
  destruct (mapM_tx (rebuild_row now limit) latest _) as [s' [u|e]]; cbn [mret tx_ret].
  - destruct Hl as (Hf & Hs' & Hr). split_and!; [exact Hs'| |].
    + intros r. rewrite (Hr r). unfold latest. rewrite last_latest by done.
      by destruct (last (events_of r (lg_events s))).
    + intros r e He. rewrite Forall_forall in Hf. apply Hf. apply list_elem_of_In.
      rewrite <- (last_latest s r Hs) in He. apply last_Some in He as (l' & He).
      apply (elem_of_events_of r). fold latest in He. rewrite He. apply in_or_app. right. by left.
  - destruct Hl as [-> Hex]. split_and!; [done|done|].
    apply Exists_exists in Hex as (x & Hx%list_elem_of_In & Hlt).
    exists (ev_aggregate x), x. split; [|done]. by apply latest_row.
Qed.
Lemma projection_row_view now s r : wf_ledger s ->
  projection_view <$> (projection_row now <$> last (events_of r (lg_events s))) =
  projection_view <$> (lg_projections s !! r).
Proof.
  intros Hs. rewrite (wl_projections s Hs). by destruct (last (events_of r (lg_events s))).
Qed.
Lemma set_projections_self s : set_projections s (lg_projections s) = s.
Proof. by destruct s. Qed.
Lemma keeps_rebuild now limit : keeps wf_ledger (rebuild_projections now limit).
Proof.
  intros s s' n Hs H. pose proof (rebuild_core now limit s (lg_projections s) Hs) as Hc.
  rewrite set_projections_self, H in Hc. destruct Hc as (-> & Hr & _).
  pose proof (projection_row_view now s) as Hv. pose proof (wl_projections s Hs) as Hp.
  destruct Hs. split; try done. cbn. intros r. by rewrite Hr, Hv.
Qed.
Lemma wf_step `{PyRuntime} s call : wf_ledger s -> wf_ledger (ledger_step s call).
Proof.
  apply ledger_step_inv; intros; auto using keeps_append, keeps_enqueue, keeps_mark_dispatched,
    keeps_advance, keeps_rebuild.
Qed.
Lemma wf_run `{PyRuntime} h s : wf_ledger s -> wf_ledger (ledger_run h s).
Proof. apply ledger_run_inv. apply wf_step. Qed.

Lemma append_command_nonempty c' c : append_command_post_init c' = Ok c -> ac_events c <> [].
Proof.
  unfold append_command_post_init. intros H. destruct (non_blank _) as [u|]; [|done].
  cbn in H. case_bool_decide as Hb; [done|]. destruct (negb _); [done|]. by injection H as <-.
Qed.

(** ** The claims *)
(** C1: [append] is all or nothing: an exception leaves the ledger as it was, and
    a return means every event was stored at its expected version plus one with the
    next commit sequences, in order, the process managers and leases updated, the outbox
    extended, the inbox row decided and every artifact verified; cursors are not
    touched. *)
Theorem append_all_or_nothing `{PyRuntime} now store c s :
  match append now store c s with
  | (s', Ok r) => append_effect now store c s s' r
  | (s', Err _) => s' = s
  end.
Proof.
  destruct (append now store c s) as [s' [r|e]] eqn:E; [by apply append_Ok_effect|].
  by apply append_atomic in E.
Qed.

(** C2: Whatever calls are made, in whatever order and with whatever arguments,
    the ledger of a fresh database stays well formed: commit sequences, aggregate
    versions and outbox ids count from one without gaps, each aggregate's row and
    projection agree with its last event, every stored payload passes the credential
    scan, inbox keys are unique; and the events of any earlier moment are a prefix
    of the later ones. *)
Theorem ledger_histories_sound `{PyRuntime} h1 h2 :
  let s1 := ledger_run h1 empty_ledger in
  let s2 := ledger_run h2 s1 in
  wf_ledger s2 /\ lg_events s1 `prefix_of` lg_events s2 /\
  forall r, (version_of r s1 <= version_of r s2)%Z.
Proof.
  intros s1 s2. split; [by apply wf_run, wf_run, wf_empty_ledger|].
  destruct (grows_run h2 s1). done.
Qed.

(** A command that committed never commits again: after any further calls the
    same command is refused with [ExpectedVersionConflictError] and changes
    nothing. *)
Theorem committed_command_never_recommits `{PyRuntime} now now' store c c' s s' r h :
  append_command_post_init c' = Ok c -> append now store c s = (s', Ok r) ->
  let later := ledger_run h s' in
  append now' store c later = (later, Err ExpectedVersionConflictError).
Proof.
  intros Hc%append_command_nonempty Ha later.
  unfold append in *. destruct (negb _ && _); [done|]. apply transaction_Ok in Ha.
  pose proof (append_body_effect _ _ _ _ _ _ Ha) as Heff.
  destruct (ac_events c) as [|e l] eqn:He; [done|].
  unfold append_body in Ha. rewrite He in Ha.
  apply tx_bind_Ok in Ha as (s1 & evs & (s0 & a & Hae & _)%tx_bind_Ok & _).
  apply append_event_Ok in Hae as (Hv & _).
  pose proof (gr_versions _ _ (grows_run h s') (ew_ref e)) as Hg.
  rewrite (ef_versions _ _ _ _ _ _ Heff), He in Hg. unfold writes_to in Hg.
  cbn [List.filter] in Hg. rewrite bool_decide_true in Hg by done. cbn [length] in Hg.
  fold later in Hg.
  assert (Hneq : (version_of (ew_ref e) later =? ew_expected_version e)%Z = false) by lia.
  assert (Hfail : append_event now' (ac_correlation_id c) e later =
                  (later, Err ExpectedVersionConflictError)).
  { unfold append_event, mbind, tx_bind, current_aggregate_version, gets.
    change (default 0%Z (lg_aggregates later !! ew_ref e)) with (version_of (ew_ref e) later).
    by rewrite Hneq. }
  unfold transaction, append_body. rewrite He. cbn [mapM_tx].
  cbv [mbind tx_bind]. by rewrite Hfail.
Qed.

(** Projections are a cache: from any content of the projections table
    [rebuild_projections] restores every row the ledger showed, touches no other
    table, and refuses, changing nothing, exactly when some projected event has a
    schema version above the supported one. *)
Theorem rebuild_restores_projections now limit s m : wf_ledger s ->
  match rebuild_projections now limit (set_projections s m) with
  | (s', Ok _) => s' = set_projections s (lg_projections s') /\
      (forall r, projection_view <$> (lg_projections s' !! r)
               = projection_view <$> (lg_projections s !! r)) /\
      forall r p, lg_projections s !! r = Some p -> (pj_schema_version p <= limit)%Z
  | (s', Err e) => s' = set_projections s m /\ e = SchemaVersionUnsupportedError /\
      exists r p, lg_projections s !! r = Some p /\ (limit < pj_schema_version p)%Z
  end.
Proof.
  intros Hs. pose proof (rebuild_core now limit s m Hs) as Hc.
  pose proof (projection_row_view now s) as Hv. pose proof (wl_projections s Hs) as Hp.
  destruct (rebuild_projections _ _ _) as [s' [n|e]].
  - destruct Hc as (Hs' & Hr & Hle). split_and!; [done| |].
    + intros r. by rewrite Hr, Hv.
    + intros r p Hrp. specialize (Hp r). rewrite Hrp in Hp.
      destruct (last (events_of r (lg_events s))) as [x|] eqn:Hx; [|done].
      injection Hp as _ _ -> _. by eapply Hle.
  - destruct Hc as (Hs' & -> & r & x & Hx & Hlt). split_and!; [done|done|].
    specialize (Hp r). rewrite Hx in Hp. cbn in Hp.
    destruct (lg_projections s !! r) as [p|] eqn:Hrp; [|done]. injection Hp as _ _ Hsv _.
    exists r, p. split; [done|]. by rewrite Hsv.
Qed.

(** Leases are fenced: over any history the lease row of a node only moves to
    a higher (epoch, fencing token) pair, and one pair never names two holders. *)
Theorem lease_fencing_monotone `{PyRuntime} h s run_id node_id x :
  read_lease run_id node_id s = Some x ->
  exists y, read_lease run_id node_id (ledger_run h s) = Some y /\ lease_le x y.
Proof. apply (gr_leases _ _ (grows_run h s)). Qed.

(** An idempotency key names one command: after a keyed enqueue, any later
    enqueue with that key, whatever its other arguments, writes nothing and returns
    the row first stored, pending or decided. *)
Theorem enqueue_idempotent `{PyRuntime} now now' id id' ty ty' corr corr' payload payload' key s s'
    row h :
  wf_ledger s -> enqueue_command now id ty corr payload (Some key) s = (s', Ok row) ->
  non_blank id' = Ok () -> non_blank ty' = Ok () -> non_blank corr' = Ok () ->
  let later := ledger_run h s' in
  exists row', enqueue_command now' id' ty' corr' payload' (Some key) later = (later, Ok row') /\
    ib_command_id row' = ib_command_id row /\ ib_correlation_id row' = ib_correlation_id row /\
    ib_command_type row' = ib_command_type row.
Proof.
  intros Hs He Hid Hty Hco later.
  pose proof (keeps_enqueue _ _ _ _ _ _ _ _ _ Hs He) as Hs'.
  assert (Hrow : exists k r, lg_inbox s' !! k = Some r /\ ib_idempotency_key r = Some key /\
    ib_command_id r = ib_command_id row /\ ib_correlation_id r = ib_correlation_id row /\
    ib_command_type r = ib_command_type row).
  { unfold enqueue_command in He.
    apply tx_bind_Ok in He as (s1 & [] & [-> _]%lift_Ok & He).
    apply tx_bind_Ok in He as (s1 & [] & [-> _]%lift_Ok & He).
    apply tx_bind_Ok in He as (s1 & [] & [-> _]%lift_Ok & He).
    apply tx_bind_Ok in He as (s1 & ex & [= <- <-] & He). cbn [mbind option_bind] in He.
    destruct (find_by_idempotency_key key s) as [row0|] eqn:Hf.
    - injection He as <- <-. apply find_by_key_Some in Hf as (Hk & k & Hk'). by exists k, row0.
    - apply tx_bind_Ok in He as (s1 & [] & [-> _]%lift_Ok & He).
      apply tx_bind_Ok in He as (s1 & [] & Hi%transaction_Ok & He). injection He as <- <-.
      apply insert_inbox_Ok in Hi as (_ & _ & ->). eexists id, _. cbn.
      by rewrite lookup_insert_eq. }
  destruct Hrow as (k & r & Hr & Hkey & E1 & E2 & E3).
  destruct (gr_inbox _ _ (grows_run h s') k r Hr) as (r' & Hr' & Hkept).
  assert (Hsame : ib_idempotency_key r' = Some key /\ ib_command_id r' = ib_command_id r /\
    ib_correlation_id r' = ib_correlation_id r /\ ib_command_type r' = ib_command_type r).
  { destruct Hkept as [<-|(_ & n & st & _ & ->)]; done. }
  destruct Hsame as (Hkey' & F1 & F2 & F3).
  destruct (find_by_idempotency_key key later) as [r2|] eqn:Hf.
  2: { by destruct (find_by_key_None _ _ Hf _ _ Hr'). }
  exists r2. apply find_by_key_Some in Hf as Hf2. destruct Hf2 as (Hk2 & k2 & Hr2).
  pose proof (wl_inbox_keys _ (wf_run h s' Hs') _ _ _ _ _ Hr2 Hr' Hk2 Hkey') as ->.
  fold later in Hr'. simplify_eq. split_and!; [|congruence..].
  unfold enqueue_command, mbind, tx_bind, lift, gets. rewrite Hid, Hty, Hco. cbn [option_bind].
  by rewrite Hf.
Qed.

(** A command of the inbox is decided once: after a commit that acknowledged
    it, no commit that names it ever succeeds again. *)
Theorem inbox_command_decided_once `{PyRuntime} now now' store store' c c' id s s' r h :
  append now store c s = (s', Ok r) -> ac_inbox_command_id c = Some id ->
  ac_inbox_command_id c' = Some id ->
  let later := ledger_run h s' in
  exists e, append now' store' c' later = (later, Err e).
Proof.
  intros Ha Hc Hc' later.
  assert (Hin : exists row, lg_inbox later !! id = Some row /\ ib_status row <> "pending").
  { unfold append in Ha. case_match; [done|]. apply transaction_Ok in Ha.
    unfold append_body in Ha. rewrite Hc in Ha.
    do 5 (apply tx_bind_Ok in Ha as (? & ? & _ & Ha)).
    apply tx_bind_Ok in Ha as (s6 & [] & H6 & [= -> <-]).
    apply acknowledge_Ok in H6 as (Ht & row & Hr & Hp & Hs').
    assert (Hi : lg_inbox s' !! id = Some (acknowledged now (ac_inbox_status c) row)).
    { rewrite Hs'. apply lookup_insert_eq. }
    destruct (gr_inbox _ _ (grows_run h s') _ _ Hi) as (row' & Hr' & Hkept).
    assert (Hst : ac_inbox_status c <> "pending").
    { intros Hst. rewrite Hst in Ht. by vm_compute in Ht. }
    destruct Hkept as [<-|(Hpend & _)]; [|done]. eexists. split; [exact Hr'|exact Hst]. }
  destruct Hin as (row & Hr & Hst).
  destruct (append now' store' c' later) as [s2 [r2|e]] eqn:E.
  - exfalso. unfold append in E. case_match; [done|]. apply transaction_Ok in E.
    pose proof (append_body_effect _ _ _ _ _ _ E) as [].
    rewrite Hc' in ef_inbox0. destruct ef_inbox0 as (row0 & Hr0 & Hp & _). by simplify_eq.
  - exists e. by rewrite (append_atomic _ _ _ _ _ _ E).
Qed.

(** ** Witnesses *)
Module Demo.
#[local] Existing Instance IdentityProofs.toy_runtime.
Definition created : EventWrite := {|
  ew_aggregate_type := "run"; ew_aggregate_id := "r-1"; ew_expected_version := 0;
  ew_event_type := "run.created"; ew_schema_version := 1;
  ew_payload := [("state", JStr "planned")]; ew_causation_id := None |}.
Definition first_lease : LeaseWrite := {|
  lw_run_id := "r-1"; lw_node_id := "build"; lw_epoch := 1; lw_fencing_token := 1;
  lw_owner := "w-1"; lw_attempt_id := "a-1"; lw_expires_at := None |}.
Definition create : AppendCommand := {|
  ac_correlation_id := "corr"; ac_events := [created]; ac_inbox_command_id := Some "cmd-1";
  ac_inbox_status := "processed"; ac_outbox_entries := [];
  ac_process_manager_updates := []; ac_lease_updates := [first_lease];
  ac_artifact_references := [] |}.
Definition queued : Ledger :=
  (enqueue_command "t0" "cmd-1" "run.start" "corr" [] (Some "key") empty_ledger).1.
Definition committed : Ledger := (append "t1" None create queued).1.
Definition row : InboxRow := {|
  ib_command_id := "cmd-1"; ib_idempotency_key := Some "key"; ib_command_type := "run.start";
  ib_payload := JObj []; ib_correlation_id := "corr"; ib_status := "pending";
  ib_received_at := "t0"; ib_processed_at := None |}.
Definition result_of_create : AppendResult := {|
  re_correlation_id := "corr";
  re_events := [{| ae_aggregate := ("run", "r-1"); ae_commit_seq := 1;
                   ae_aggregate_version := 1 |}];
  re_inbox_acknowledged := true; re_outbox_ids := []; re_process_manager_states := [];
  re_artifact_ids := [] |}.
Lemma queued_Ok :
  enqueue_command "t0" "cmd-1" "run.start" "corr" [] (Some "key") empty_ledger = (queued, Ok row).
Proof. vm_compute. reflexivity. Qed.
Lemma committed_Ok : append "t1" None create queued = (committed, Ok result_of_create).
Proof. vm_compute. reflexivity. Qed.

Lemma committed_command_never_recommits_witness :
  append "t2" None create committed = (committed, Err ExpectedVersionConflictError).
Proof.
  exact (committed_command_never_recommits "t1" "t2" None create create queued committed
    result_of_create [] ltac:(vm_compute; reflexivity) committed_Ok).
Defined.
Lemma rebuild_restores_projections_witness :
  wf_ledger committed /\
  match rebuild_projections "t3" 1 (set_projections committed ∅) with
  | (s', Ok _) => s' = set_projections committed (lg_projections s') /\
      (forall r, projection_view <$> (lg_projections s' !! r)
               = projection_view <$> (lg_projections committed !! r)) /\
      forall r p, lg_projections committed !! r = Some p -> (pj_schema_version p <= 1)%Z
  | (s', Err e) => s' = set_projections committed ∅ /\ e = SchemaVersionUnsupportedError /\
      exists r p, lg_projections committed !! r = Some p /\ (1 < pj_schema_version p)%Z
  end.
Proof.
  assert (Hw : wf_ledger committed).
  { exact (wf_run [("t0", OpEnqueue "cmd-1" "run.start" "corr" [] (Some "key"));
                   ("t1", OpAppend None create)] _ wf_empty_ledger). }
  split; [exact Hw|]. apply (rebuild_restores_projections "t3" 1 committed ∅ Hw).
Defined.
Lemma lease_fencing_monotone_witness :
  exists x y, read_lease "r-1" "build" committed = Some x /\
    read_lease "r-1" "build" (ledger_run [("t9", OpRebuild 1)] committed) = Some y /\ lease_le x y.
Proof.
  exists (lease_row "t1" first_lease).
  destruct (lease_fencing_monotone [("t9", OpRebuild 1)] committed "r-1" "build"
    (lease_row "t1" first_lease) ltac:(vm_compute; reflexivity)) as (y & Hy & Hle).
  exists y. split; [vm_compute; reflexivity|by split].
Defined.
Lemma enqueue_idempotent_witness : exists row',
  enqueue_command "t5" "cmd-2" "run.stop" "other" [] (Some "key") committed = (committed, Ok row') /\
  ib_command_id row' = "cmd-1" /\ ib_correlation_id row' = "corr" /\
  ib_command_type row' = "run.start".
Proof.
  exact (enqueue_idempotent "t0" "t5" "cmd-1" "cmd-2" "run.start" "run.stop" "corr" "other"
    [] [] "key" empty_ledger queued row [("t1", OpAppend None create)] wf_empty_ledger queued_Ok
    eq_refl eq_refl eq_refl).
Defined.
Lemma inbox_command_decided_once_witness : exists e,
  append "t6" None create committed = (committed, Err e).
Proof.
  exact (inbox_command_decided_once "t1" "t6" None None create create "cmd-1" queued committed
    result_of_create [] committed_Ok eq_refl eq_refl).
Defined.
End Demo.
