(* ===== verification/Coordinator.v ===== *)
(** * The coordinator ([engine/coordinator.py])

    Epoch ownership of the ledger and the consumption of inbox commands.  A method
    takes its object's owner, the clock text [clock] that the ledger stamps its
    rows with, and the caller's instant [now]; the epoch lives in one
    process-manager row.  A stored boolean epoch is read as its integer value. *)
From S2P Require Import Prelude PyText Json Identity Redaction Ledger.

Definition COORDINATOR_NAME : string := "workflow-coordinator".
Definition COORDINATOR_STATE_KEY : string := "ledger".
Definition COORDINATOR_AGGREGATE_TYPE : string := "coordinator".
Definition COORDINATOR_AGGREGATE_ID : string := "ledger".

Record CoordinatorEpoch := {
  ce_epoch : Z; ce_owner : string; ce_heartbeat_deadline : datetime; ce_state_version : Z }.
#[export] Instance CoordinatorEpoch_eq_dec : EqDecision CoordinatorEpoch.
Proof. solve_decision. Defined.
Definition coordinator_epoch_post_init (c : CoordinatorEpoch) : result CoordinatorEpoch :=
  raise_when (ce_epoch c <? 1)%Z as InvalidInputError ;;
  raise_when blank (ce_owner c) as InvalidInputError ;;
  raise_when negb (tz_aware (ce_heartbeat_deadline c)) as InvalidInputError ;;
  raise_when (ce_state_version c <? 1)%Z as InvalidInputError ;;
  Ok c.

(** [_require_aware] *)
Definition require_aware (d : datetime) : result () :=
  raise_when negb (tz_aware d) as InvalidInputError ;; Ok ().
(** [_require_positive_window] *)
Definition require_positive_window (window : timedelta) : result () :=
  raise_when (window <=? 0)%Z as InvalidInputError ;; Ok ().
(** [active_at] *)
Definition active_at (c : CoordinatorEpoch) (now : datetime) : result bool :=
  _ ← require_aware now; dt_lt now (ce_heartbeat_deadline c).

Record CommandConsumption := { cc_command_id : string; cc_status : string }.

(** [Coordinator.__init__] *)
Definition coordinator_init (owner : string) : result string :=
  raise_when blank owner as InvalidInputError ;; Ok owner.

(** The constructors below run the checks of the dataclasses they build. *)
Definition mk_event_write (aggregate_type aggregate_id : string) (expected_version : Z)
    (event_type : string) (payload : list (string * json)) : result EventWrite :=
  event_write_post_init {|
    ew_aggregate_type := aggregate_type; ew_aggregate_id := aggregate_id;
    ew_expected_version := expected_version; ew_event_type := event_type;
    ew_schema_version := 1; ew_payload := payload; ew_causation_id := None |}.
Definition mk_pm_write (name key : string) (expected_version : Z)
    (state : list (string * json)) : result ProcessManagerStateWrite :=
  pm_write_post_init {|
    pw_process_manager_name := name; pw_state_key := key;
    pw_expected_version := expected_version; pw_state := state |}.
Definition mk_command (correlation_id : string) (events : list EventWrite)
    (inbox_command_id : option string) (inbox_status : string)
    (updates : list ProcessManagerStateWrite) (leases : list LeaseWrite) : result AppendCommand :=
  append_command_post_init {|
    ac_correlation_id := correlation_id; ac_events := events;
    ac_inbox_command_id := inbox_command_id; ac_inbox_status := inbox_status;
    ac_outbox_entries := []; ac_process_manager_updates := updates; ac_lease_updates := leases;
    ac_artifact_references := [] |}.
(** [dict.get] of a stored payload. *)
Definition payload_get (key : string) (payload : json) : option json :=
  match payload with JObj m => dict_get key m | _ => None end.

(** [_run_command_event]: the event, or the message of its [InvalidInputError]. *)
Definition run_command_event (command : InboxRow) : string + EventWrite :=
  if negb (String.eqb (ib_command_type command) "run.cancel" ||
           String.eqb (ib_command_type command) "run.resume")
  then inl "unsupported coordinator command type"
  else match payload_get "run_id" (ib_payload command) with
  | Some (JStr run_id) =>
      if blank run_id then inl "run command payload requires a non-blank run_id"
      else match payload_get "expected_run_version" (ib_payload command) ≫= int_of with
      | Some expected_version =>
          if (expected_version <? 0)%Z
          then inl "run command payload requires a non-negative expected_run_version"
          else inr {|
            ew_aggregate_type := "run"; ew_aggregate_id := run_id;
            ew_expected_version := expected_version;
            ew_event_type := if String.eqb (ib_command_type command) "run.cancel"
                             then "run.cancellation_requested" else "run.resume_requested";
            ew_schema_version := 1;
            ew_payload := [("requested_by_command", JStr (ib_command_id command))];
            ew_causation_id := None |}
      | None => inl "run command payload requires a non-negative expected_run_version"
      end
  | _ => inl "run command payload requires a non-blank run_id"
  end.

Section Coordinator.
Context `{rt : PyRuntime} `{iso : IsoCodec}.

(** [_epoch_state] *)
Definition epoch_state (epoch : Z) (owner : string) (heartbeat_deadline : datetime)
    : list (string * json) :=
  [("epoch", JInt epoch); ("owner", JStr owner);
   ("heartbeat_deadline", JStr (isoformat heartbeat_deadline))].
(** [_epoch_from_record] *)
Definition epoch_from_record (record : PmRow) : result CoordinatorEpoch :=
  match payload_get "epoch" (pm_state record) ≫= int_of,
        payload_get "owner" (pm_state record),
        payload_get "heartbeat_deadline" (pm_state record) with
  | Some epoch, Some (JStr owner), Some (JStr deadline_raw) =>
      deadline ← from_option_err InternalInvariantViolationError (fromisoformat deadline_raw);
      coordinator_epoch_post_init {|
        ce_epoch := epoch; ce_owner := owner; ce_heartbeat_deadline := deadline;
        ce_state_version := pm_version record |}
  | _, _, _ => Err InternalInvariantViolationError
  end.

(** [current_epoch] *)
Definition current_epoch (s : Ledger) : result (option CoordinatorEpoch) :=
  match read_process_manager_state COORDINATOR_NAME COORDINATOR_STATE_KEY s with
  | Some record => c ← epoch_from_record record; Ok (Some c)
  | None => Ok None
  end.
Definition read_epoch : tx (option CoordinatorEpoch) := fun s => (s, current_epoch s).

(** [_coordinator_event] *)
Definition coordinator_event (event_type : string) (payload : list (string * json))
    : tx EventWrite := fun s =>
  (s, mk_event_write COORDINATOR_AGGREGATE_TYPE COORDINATOR_AGGREGATE_ID
        (from_option pj_aggregate_version 0%Z
           (read_projection COORDINATOR_AGGREGATE_TYPE COORDINATOR_AGGREGATE_ID s))
        event_type payload).

(** [result.process_manager_states[0].state_version] *)
Definition first_state_version (r : AppendResult) : result Z :=
  match re_process_manager_states r with (_, v) :: _ => Ok v | [] => Err PyIndexError end.

(** The append shared by [acquire] and [renew]. *)
Definition record_epoch (clock owner correlation_id event_type : string) (epoch : Z)
    (deadline : datetime) (expected_state_version : Z) : tx CoordinatorEpoch :=
  let state := epoch_state epoch owner deadline in
  event ← coordinator_event event_type state;
  update ← lift (mk_pm_write COORDINATOR_NAME COORDINATOR_STATE_KEY expected_state_version state);
  command ← lift (mk_command correlation_id [event] None "processed" [update] []);
  r ← append clock None command;
  version ← lift (first_state_version r);
  lift (coordinator_epoch_post_init {|
    ce_epoch := epoch; ce_owner := owner; ce_heartbeat_deadline := deadline;
    ce_state_version := version |}).

(** [acquire] *)
Definition acquire (clock owner : string) (now : datetime) (heartbeat_window : timedelta)
    : tx CoordinatorEpoch :=
  _ ← lift (require_aware now);
  _ ← lift (require_positive_window heartbeat_window);
  current ← read_epoch;
  active ← lift match current with Some c => active_at c now | None => Ok false end;
  if (active : bool) then throw ExternalConflictError
  else
    let next_epoch := match current with None => 1 | Some c => ce_epoch c + 1 end%Z in
    let expected_state_version := match current with None => 0%Z | Some c => ce_state_version c end in
    record_epoch clock owner ("coordinator-acquire:" +:+ pretty next_epoch)
      "coordinator.epoch_acquired" next_epoch (dt_add now heartbeat_window)
      expected_state_version.

(** [_require_current_owner] *)
Definition require_current_owner (owner : string) (epoch : Z) (now : datetime)
    : tx CoordinatorEpoch :=
  current ← read_epoch;
  match current with
  | None => throw ExternalConflictError
  | Some c =>
      if negb (ce_epoch c =? epoch)%Z || negb (String.eqb (ce_owner c) owner)
      then throw ExternalConflictError
      else
        active ← lift (active_at c now);
        if (active : bool) then mret c else throw ExternalConflictError
  end.

(** [renew] *)
Definition renew (clock owner : string) (epoch : Z) (now : datetime)
    (heartbeat_window : timedelta) : tx CoordinatorEpoch :=
  _ ← lift (require_aware now);
  _ ← lift (require_positive_window heartbeat_window);
  current ← require_current_owner owner epoch now;
  record_epoch clock owner ("coordinator-heartbeat:" +:+ pretty epoch)
    "coordinator.heartbeat_recorded" epoch (dt_add now heartbeat_window)
    (ce_state_version current).

(** [epoch_guard] *)
Definition epoch_guard (owner : string) (epoch : Z) (now : datetime)
    : tx ProcessManagerStateWrite :=
  _ ← lift (require_aware now);
  current ← require_current_owner owner epoch now;
  lift (mk_pm_write COORDINATOR_NAME COORDINATOR_STATE_KEY (ce_state_version current)
          (epoch_state (ce_epoch current) (ce_owner current) (ce_heartbeat_deadline current))).

(** One command of the loop of [consume_pending]. *)
Definition consume_command (clock owner : string) (epoch : Z) (now : datetime)
    (heartbeat_window : timedelta) (command : InboxRow) : tx CommandConsumption :=
  current ← require_current_owner owner epoch now;
  let state := epoch_state epoch owner (dt_add now heartbeat_window) in
  let update := mk_pm_write COORDINATOR_NAME COORDINATOR_STATE_KEY (ce_state_version current)
                  state in
  match run_command_event command with
  | inl reason =>
      event ← coordinator_event "coordinator.command_rejected"
        [("command_id", JStr (ib_command_id command));
         ("command_type", JStr (ib_command_type command)); ("reason", JStr reason)];
      update ← lift update;
      c ← lift (mk_command (ib_correlation_id command) [event] (Some (ib_command_id command))
                  "rejected" [update] []);
      _ ← append clock None c;
      mret {| cc_command_id := ib_command_id command; cc_status := "rejected" |}
  | inr run_event =>
      event ← coordinator_event "coordinator.command_processed"
        [("command_id", JStr (ib_command_id command));
         ("command_type", JStr (ib_command_type command)); ("epoch", JInt epoch)];
      update ← lift update;
      c ← lift (mk_command (ib_correlation_id command) [run_event; event]
                  (Some (ib_command_id command)) "processed" [update] []);
      _ ← append clock None c;
      mret {| cc_command_id := ib_command_id command; cc_status := "processed" |}
  end.

(** [consume_pending]; each command commits on its own, so an exception leaves the
    commands before it consumed. *)
Definition consume_pending (clock owner : string) (epoch : Z) (now : datetime)
    (heartbeat_window : timedelta) (limit : Z) : tx (list CommandConsumption) :=
  _ ← lift (require_aware now);
  _ ← lift (require_positive_window heartbeat_window);
  _ ← lift (raise_when (limit <? 1)%Z as InvalidInputError ;; Ok ());
  commands ← (fun s => (s, list_pending_commands limit s));
  mapM_tx (consume_command clock owner epoch now heartbeat_window) commands.
End Coordinator.
