(* ===== verification/CoordinatorProofs.v ===== *)
(** * Coordinator theorems

    Taking over a free ledger, fencing stale epoch guards, one owner per epoch, and
    deciding each pending command once. *)
From S2P Require Import Prelude PyText Json Identity IdentityProofs Redaction Ledger LedgerProofs.
From S2P Require Import LedgerTheorems Coordinator.

Definition coordinator_ref : ref := (COORDINATOR_NAME, COORDINATOR_STATE_KEY).

(** ** Successful appends of well-formed ledgers *)
Lemma append_event_succeeds now corr e s : wf_ledger s ->
  version_of (ew_ref e) s = ew_expected_version e -> assert_mapping_clean (ew_payload e) = Ok () ->
  exists s' a, append_event now corr e s = (s', Ok a).
Proof.
  intros Hs Hv Hc. unfold append_event, mbind, tx_bind, current_aggregate_version, gets.
  change (default 0%Z (lg_aggregates s !! ew_ref e)) with (version_of (ew_ref e) s).
  rewrite Hv, Z.eqb_refl. cbn [negb]. unfold lift. rewrite Hc. unfold insert_event.
  cbn [ev_aggregate ev_aggregate_version].
  destruct (existsb _ (lg_events s)) eqn:Hx; [|by eexists _, _].
  exfalso. apply existsb_exists in Hx as (e' & Hin & Ha).
  apply andb_true_iff in Ha as [Ha%bool_decide_eq_true Hve%Z.eqb_eq].
  pose proof (wl_versions s Hs (ew_ref e)) as Hvs. pose proof (wl_aggregates s Hs (ew_ref e)) as Hag.
  assert (Hin' : In e' (events_of (ew_ref e) (lg_events s))) by by apply elem_of_events_of.
  apply (in_map ev_aggregate_version) in Hin'. rewrite Hvs in Hin'.
  apply list_elem_of_In, range1_bound in Hin'. lia.
Qed.
Lemma pm_update_succeeds now w s : pm_version_of (pw_ref w) s = pw_expected_version w ->
  assert_mapping_clean (pw_state w) = Ok () ->
  exists s' v, apply_process_manager_update now w s = (s', Ok v).
Proof.
  intros Hv Hc. unfold apply_process_manager_update, mbind, tx_bind, gets.
  fold (pm_version_of (pw_ref w) s). rewrite Hv, Z.eqb_refl. cbn [negb]. unfold lift. rewrite Hc.
  by eexists _, _.
Qed.

(** The projection the coordinator reads holds the aggregate's version. *)
Lemma projection_version s r : wf_ledger s ->
  from_option pj_aggregate_version 0%Z (lg_projections s !! r) = version_of r s.
Proof.
  intros Hs. pose proof (wl_projections s Hs r) as Hp.
  pose proof (wl_versions s Hs r) as Hv. rewrite (wl_aggregates s Hs).
  destruct (last (events_of r (lg_events s))) as [e|] eqn:Hl.
  - destruct (lg_projections s !! r) as [p|]; [|done]. injection Hp as Hp _ _ _. cbn. rewrite Hp.
    apply last_Some in Hl as (l & Hl). rewrite Hl in *. rewrite map_app, length_app in *.
    rewrite Nat.add_comm in Hv. cbn [map length plus] in Hv. rewrite range1_S in Hv.
    apply app_inj_tail in Hv as [_ Hv]. rewrite Hv. cbn [length]. lia.
  - apply last_None in Hl. rewrite Hl. by destruct (lg_projections s !! r).
Qed.
Lemma version_of_nonneg s r : wf_ledger s -> (0 <= version_of r s)%Z.
Proof. intros Hs. rewrite (wl_aggregates s Hs). lia. Qed.

Section Coordinators.
Context `{rt : PyRuntime} `{iso : IsoCodec}.

Definition epoch_row (clock owner : string) (epoch : Z) (deadline : datetime) (version : Z) : PmRow := {|
  pm_version := version; pm_state := canon (JObj (epoch_state epoch owner deadline));
  pm_updated_at := clock |}.
(** What [_epoch_from_record] reads back from what [_epoch_state] wrote. *)
Lemma epoch_from_row clock owner epoch us version :
  blank owner = false -> (1 <= epoch)%Z -> (1 <= version)%Z ->
  epoch_from_record (epoch_row clock owner epoch (Aware us) version) = Ok {|
    ce_epoch := epoch; ce_owner := owner; ce_heartbeat_deadline := Aware us;
    ce_state_version := version |}.
Proof.
  intros Ho He Hv.
  assert (Hc : canon (JObj (epoch_state epoch owner (Aware us))) =
    JObj [("epoch", JInt epoch); ("heartbeat_deadline", JStr (isoformat (Aware us)));
          ("owner", JStr owner)]) by reflexivity.
  unfold epoch_from_record, epoch_row. cbn [pm_state pm_version]. rewrite Hc.
  cbn [payload_get dict_get]. cbn -[fromisoformat coordinator_epoch_post_init].
  rewrite fromisoformat_isoformat. cbn -[coordinator_epoch_post_init].
  unfold coordinator_epoch_post_init. cbn. rewrite Ho.
  destruct (Z.ltb_spec epoch 1), (Z.ltb_spec version 1); try lia. done.
Qed.

Lemma current_epoch_row s c : current_epoch s = Ok (Some c) ->
  exists row, lg_pm s !! coordinator_ref = Some row /\ epoch_from_record row = Ok c.
Proof.
  unfold current_epoch, read_process_manager_state.
  change (COORDINATOR_NAME, COORDINATOR_STATE_KEY) with coordinator_ref.
  destruct (lg_pm s !! coordinator_ref) as [row|]; [|done].
  intros (c' & Hc & [= ->])%bind_Ok. by exists row.
Qed.
Lemma current_epoch_of_row s row : lg_pm s !! coordinator_ref = Some row ->
  current_epoch s = (c ← epoch_from_record row; Ok (Some c)).
Proof.
  unfold current_epoch, read_process_manager_state.
  change (COORDINATOR_NAME, COORDINATOR_STATE_KEY) with coordinator_ref. by intros ->.
Qed.
Lemma epoch_from_record_Ok row c : epoch_from_record row = Ok c ->
  ce_state_version c = pm_version row /\ coordinator_epoch_post_init c = Ok c.
Proof.
  unfold epoch_from_record. destruct (_ ≫= int_of) as [e|]; [|done].
  destruct (payload_get "owner" _) as [[]|]; try done.
  destruct (payload_get "heartbeat_deadline" _) as [[]|]; try done.
  intros (d & _ & H)%bind_Ok.
  assert (Hc : c = {| ce_epoch := e; ce_owner := s; ce_heartbeat_deadline := d;
                      ce_state_version := pm_version row |}).
  { unfold coordinator_epoch_post_init in H. rewrite !raise_if_Ok in H. naive_solver. }
  subst c. by split.
Qed.
Lemma epoch_valid c : coordinator_epoch_post_init c = Ok c ->
  (1 <= ce_epoch c)%Z /\ blank (ce_owner c) = false /\ (1 <= ce_state_version c)%Z /\
  exists us, ce_heartbeat_deadline c = Aware us.
Proof.
  unfold coordinator_epoch_post_init. rewrite !raise_if_Ok, negb_false_iff.
  intros (He & Ho & Hd & Hv & _). split_and!; [lia|done|lia|].
  destruct (ce_heartbeat_deadline c) as [us|]; [by exists us|done].
Qed.
Lemma current_epoch_valid s c : current_epoch s = Ok (Some c) ->
  pm_version_of coordinator_ref s = ce_state_version c /\ coordinator_epoch_post_init c = Ok c.
Proof.
  intros (row & Hr & Hc)%current_epoch_row. apply epoch_from_record_Ok in Hc as [Hv Hp].
  split; [|done]. unfold pm_version_of. rewrite Hr. cbn. done.
Qed.

(** ** The shared append *)
Lemma mk_event_write_Ok ty id ver ety payload e : mk_event_write ty id ver ety payload = Ok e ->
  e = {| ew_aggregate_type := ty; ew_aggregate_id := id; ew_expected_version := ver;
         ew_event_type := ety; ew_schema_version := 1; ew_payload := payload;
         ew_causation_id := None |}.
Proof.
  unfold mk_event_write, event_write_post_init. do 3 (intros (? & _ & ?)%bind_Ok; revert H).
  rewrite !raise_if_Ok. naive_solver.
Qed.
Lemma mk_pm_write_Ok name key ver state w : mk_pm_write name key ver state = Ok w ->
  w = {| pw_process_manager_name := name; pw_state_key := key; pw_expected_version := ver;
         pw_state := state |}.
Proof.
  unfold mk_pm_write, pm_write_post_init. do 2 (intros (? & _ & ?)%bind_Ok; revert H).
  rewrite !raise_if_Ok. naive_solver.
Qed.
Lemma mk_command_Ok corr evs id st ups ls c : mk_command corr evs id st ups ls = Ok c ->
  c = {| ac_correlation_id := corr; ac_events := evs; ac_inbox_command_id := id;
         ac_inbox_status := st; ac_outbox_entries := []; ac_process_manager_updates := ups;
         ac_lease_updates := ls; ac_artifact_references := [] |}.
Proof.
  unfold mk_command, append_command_post_init. intros (? & _ & H)%bind_Ok. revert H.
  rewrite !raise_if_Ok. naive_solver.
Qed.

Lemma grows_append now store c s s' r : append now store c s = (s', Ok r) -> grows s s'.
Proof.
  intros H. pose proof (grows_step s s (now, OpAppend store c)) as Hg.
  cbn [ledger_step snd fst] in Hg. rewrite H in Hg. apply Hg. reflexivity.
Qed.

(** A command whose one process-manager write is the coordinator's. *)
Lemma append_epoch clock c epoch owner deadline version s s' r :
  append clock None c s = (s', Ok r) ->
  ac_process_manager_updates c = [{| pw_process_manager_name := COORDINATOR_NAME;
    pw_state_key := COORDINATOR_STATE_KEY; pw_expected_version := version;
    pw_state := epoch_state epoch owner deadline |}] ->
  (pm_version_of coordinator_ref s <= version)%Z /\
  pm_version_of coordinator_ref s' = (pm_version_of coordinator_ref s + 1)%Z /\
  lg_pm s' = <[coordinator_ref := epoch_row clock owner epoch deadline (version + 1)]> (lg_pm s) /\
  first_state_version r = Ok (version + 1)%Z.
Proof.
  intros Ha%append_Ok_effect Hu. destruct Ha as [_ _ _ _ He Hv Hp _ Hr _ _ _ _ _].
  rewrite Hu in *. split_and!.
  - by inversion_clear He.
  - by rewrite (Hv coordinator_ref).
  - exact Hp.
  - unfold first_state_version. by rewrite Hr.
Qed.

(** A commit of an epoch record: the row now holds it, one state version on. *)
Record epoch_committed (clock owner : string) (epoch : Z) (deadline : datetime) (s s' : Ledger)
    : Prop := {
  ec_pm : lg_pm s' = <[coordinator_ref := epoch_row clock owner epoch deadline
                        (pm_version_of coordinator_ref s + 1)]> (lg_pm s);
  ec_grows : grows s s';
  ec_wf : wf_ledger s -> wf_ledger s';
}.
Lemma append_epoch_committed clock c epoch owner deadline version s s' r :
  append clock None c s = (s', Ok r) ->
  ac_process_manager_updates c = [{| pw_process_manager_name := COORDINATOR_NAME;
    pw_state_key := COORDINATOR_STATE_KEY; pw_expected_version := version;
    pw_state := epoch_state epoch owner deadline |}] ->
  version = pm_version_of coordinator_ref s /\ first_state_version r = Ok (version + 1)%Z /\
  epoch_committed clock owner epoch deadline s s'.
Proof.
  intros Ha Hu. destruct (append_epoch _ _ _ _ _ _ _ _ _ Ha Hu) as (_ & Hv & Hp & Hr).
  assert (version = pm_version_of coordinator_ref s) as ->.
  { unfold pm_version_of at 1 in Hv. rewrite Hp, lookup_insert_eq in Hv. cbn in Hv. lia. }
  split_and!; [done|done|]. split; [done|by eapply grows_append|].
  intros Hs. by eapply keeps_append.
Qed.

Lemma read_tx {A B} (f : Ledger -> result A) (k : A -> tx B) s :
  mbind (M:=tx) k (fun s => (s, f s)) s =
    match f s with Ok a => k a s | Err e => (s, Err e) end.
Proof. unfold mbind, tx_bind. by destruct (f s). Qed.
Lemma lift_tx {A B} (r : result A) (k : A -> tx B) s :
  mbind (M:=tx) k (lift r) s = match r with Ok a => k a s | Err e => (s, Err e) end.
Proof. unfold mbind, tx_bind, lift. by destruct r. Qed.

Lemma record_epoch_spec clock owner corr ty epoch deadline version s :
  match record_epoch clock owner corr ty epoch deadline version s with
  | (s', Ok c) => version = pm_version_of coordinator_ref s /\
      c = {| ce_epoch := epoch; ce_owner := owner; ce_heartbeat_deadline := deadline;
             ce_state_version := version + 1 |} /\ coordinator_epoch_post_init c = Ok c /\
      epoch_committed clock owner epoch deadline s s'
  | (s', Err e) => s' = s \/
      epoch_committed clock owner epoch deadline s s' /\
      coordinator_epoch_post_init {| ce_epoch := epoch; ce_owner := owner;
         ce_heartbeat_deadline := deadline; ce_state_version := version + 1 |} = Err e
  end.
Proof.
  unfold record_epoch, coordinator_event. rewrite read_tx.
  destruct (mk_event_write _ _ _ _ _) as [ev|]; [|by left]. rewrite lift_tx.
  destruct (mk_pm_write _ _ _ _) as [w|] eqn:Hw; [|by left].
  apply mk_pm_write_Ok in Hw as ->. rewrite lift_tx.
  destruct (mk_command _ _ _ _ _ _) as [c|] eqn:Hc; [|by left]. apply mk_command_Ok in Hc as ->.
  match goal with |- context [append clock None ?c] => set (cmd := c) end.
  unfold mbind at 1, tx_bind at 1.
  destruct (append clock None cmd s) as [s1 [r|e]] eqn:Ha.
  2: { left. by eapply append_atomic. }
  destruct (append_epoch_committed _ _ _ _ _ _ _ _ _ Ha eq_refl) as (Hv & Hr & Hec).
  rewrite lift_tx, Hr. unfold lift.
  destruct (coordinator_epoch_post_init _) as [c|e] eqn:Hc; [|by right].
  assert (c = {| ce_epoch := epoch; ce_owner := owner; ce_heartbeat_deadline := deadline;
         ce_state_version := version + 1 |}) as ->.
  { unfold coordinator_epoch_post_init in Hc. rewrite !raise_if_Ok in Hc. naive_solver. }
  done.
Qed.

Ltac case_record_epoch :=
  match goal with |- context [record_epoch ?x1 ?x2 ?x3 ?x4 ?x5 ?x6 ?x7 ?s] =>
    let Hr := fresh "Hr" in
    pose proof (record_epoch_spec x1 x2 x3 x4 x5 x6 x7 s) as Hr;
    destruct (record_epoch x1 x2 x3 x4 x5 x6 x7 s) as [s' [c|e]] end.

(** ** Taking over *)
Lemma window_positive window : require_positive_window window = Ok () <-> (0 < window)%Z.
Proof. unfold require_positive_window. rewrite raise_if_Ok, Z.leb_gt. naive_solver. Qed.
Lemma acquire_cases clock owner now window s : blank owner = false ->
  match acquire clock owner now window s with
  | (s', Ok c) =>
      (0 < window)%Z /\ coordinator_epoch_post_init c = Ok c /\
      (exists us, now = Aware us /\
        c = {| ce_epoch := ce_epoch c; ce_owner := owner;
               ce_heartbeat_deadline := Aware (us + window);
               ce_state_version := pm_version_of coordinator_ref s + 1 |} /\
        (current_epoch s = Ok None /\ ce_epoch c = 1%Z \/
         exists c0, current_epoch s = Ok (Some c0) /\ ce_epoch c = (ce_epoch c0 + 1)%Z /\
           (micros (ce_heartbeat_deadline c0) <= us)%Z)) /\
      epoch_committed clock owner (ce_epoch c) (ce_heartbeat_deadline c) s s'
  | (s', Err _) => s' = s
  end.
Proof.
  intros Ho. unfold acquire. rewrite lift_tx.
  destruct now as [us|us]; [|done]. change (require_aware (Aware us)) with (Ok ()).
  rewrite lift_tx. destruct (require_positive_window window) as [[]|] eqn:Hw; [|done].
  apply window_positive in Hw. unfold read_epoch. rewrite read_tx. destruct (current_epoch s) as [cur|] eqn:Hcur; [|done].
  rewrite lift_tx. cbn [dt_add].
  destruct cur as [c0|]; cbn [active_at].
  - destruct (current_epoch_valid _ _ Hcur) as [Hver Hval].
    destruct (epoch_valid _ Hval) as (He & _ & Hv & d & Hd).
    unfold active_at, require_aware, dt_lt. rewrite Hd. cbn.
    destruct (Z.ltb_spec us d) as [|Hle]; [done|].
    case_record_epoch.
    + destruct Hr as (-> & -> & Hp & Hc). cbn. split_and!; [done|done| |done].
      exists us. split_and!; [done|done|]. right. exists c0. rewrite Hd. done.
    + destruct Hr as [->|[_ Hbad]]; [done|]. exfalso. unfold coordinator_epoch_post_init in Hbad.
      cbn in Hbad. rewrite Ho in Hbad.
      destruct (Z.ltb_spec (ce_epoch c0 + 1) 1), (Z.ltb_spec (ce_state_version c0 + 1) 1);
        (done || lia).
  - case_record_epoch.
    + destruct Hr as (<- & -> & Hp & Hc). cbn. split_and!; [done|done| |done].
      exists us. split_and!; [done|done|]. by left.
    + destruct Hr as [->|[_ Hbad]]; [done|]. exfalso. unfold coordinator_epoch_post_init in Hbad.
      cbn in Hbad. by rewrite Ho in Hbad.
Qed.

(** The epoch row a commit leaves reads back as the epoch it recorded. *)
Lemma committed_epoch clock owner epoch us s s' : epoch_committed clock owner epoch (Aware us) s s' ->
  blank owner = false -> (1 <= epoch)%Z -> (0 <= pm_version_of coordinator_ref s)%Z ->
  current_epoch s' = Ok (Some {|
    ce_epoch := epoch; ce_owner := owner; ce_heartbeat_deadline := Aware us;
    ce_state_version := pm_version_of coordinator_ref s + 1 |}).
Proof.
  intros [Hp _ _] Ho He Hv.
  rewrite (current_epoch_of_row s' (epoch_row clock owner epoch (Aware us)
    (pm_version_of coordinator_ref s + 1))) by (rewrite Hp; apply lookup_insert_eq).
  rewrite epoch_from_row by (done || lia). done.
Qed.

Lemma epoch_state_clean epoch owner d :
  has_credentials owner = false -> has_credentials (isoformat d) = false ->
  assert_mapping_clean (epoch_state epoch owner d) = Ok ().
Proof.
  intros Ho Hd. unfold assert_mapping_clean, epoch_state, assert_no_raw_credentials.
  cbn -[has_credentials]. unfold assert_no_raw_credentials. by rewrite Ho, Hd.
Qed.
Lemma append_one_one clock corr ev w s : wf_ledger s ->
  version_of (ew_ref ev) s = ew_expected_version ev -> assert_mapping_clean (ew_payload ev) = Ok () ->
  pm_version_of (pw_ref w) s = pw_expected_version w -> assert_mapping_clean (pw_state w) = Ok () ->
  exists s' r, append clock None {|
    ac_correlation_id := corr; ac_events := [ev]; ac_inbox_command_id := None;
    ac_inbox_status := "processed"; ac_outbox_entries := []; ac_process_manager_updates := [w];
    ac_lease_updates := []; ac_artifact_references := [] |} s = (s', Ok r).
Proof.
  intros Hs Hv Hc Hpv Hpc.
  destruct (append_event_succeeds clock corr ev s Hs Hv Hc) as (s1 & a & Ha).
  destruct (append_event_Ok _ _ _ _ _ _ Ha) as (_ & _ & Hs1 & _).
  assert (Hpv1 : pm_version_of (pw_ref w) s1 = pw_expected_version w) by by rewrite Hs1.
  destruct (pm_update_succeeds clock w s1 Hpv1 Hpc) as (s2 & v & Hp).
  unfold append, transaction, append_body. cbn -[append_event apply_process_manager_update].
  unfold mbind, tx_bind. rewrite Ha. cbn -[apply_process_manager_update]. rewrite Hp.
  by eexists _, _.
Qed.
Lemma coordinator_event_ok ty payload s : blank ty = false -> wf_ledger s ->
  mk_event_write COORDINATOR_AGGREGATE_TYPE COORDINATOR_AGGREGATE_ID
    (from_option pj_aggregate_version 0%Z
       (read_projection COORDINATOR_AGGREGATE_TYPE COORDINATOR_AGGREGATE_ID s)) ty payload =
  Ok {| ew_aggregate_type := COORDINATOR_AGGREGATE_TYPE; ew_aggregate_id := COORDINATOR_AGGREGATE_ID;
        ew_expected_version :=
          version_of (COORDINATOR_AGGREGATE_TYPE, COORDINATOR_AGGREGATE_ID) s;
        ew_event_type := ty; ew_schema_version := 1; ew_payload := payload;
        ew_causation_id := None |}.
Proof.
  intros Hty Hs. unfold read_projection. rewrite projection_version by done.
  pose proof (version_of_nonneg s (COORDINATOR_AGGREGATE_TYPE, COORDINATOR_AGGREGATE_ID) Hs) as Hn.
  unfold mk_event_write, event_write_post_init. cbn [ew_aggregate_type ew_aggregate_id
    ew_event_type ew_expected_version ew_schema_version].
  unfold non_blank. rewrite Hty. cbn -[version_of].
  destruct (Z.ltb_spec (version_of (COORDINATOR_AGGREGATE_TYPE, COORDINATOR_AGGREGATE_ID) s) 0);
    [lia|done].
Qed.
Lemma mk_pm_write_ok name key ver state : blank name = false -> blank key = false -> (0 <= ver)%Z ->
  mk_pm_write name key ver state = Ok {| pw_process_manager_name := name; pw_state_key := key;
    pw_expected_version := ver; pw_state := state |}.
Proof.
  intros Hn Hk Hv. unfold mk_pm_write, pm_write_post_init, non_blank. cbn. rewrite Hn, Hk. cbn.
  by destruct (Z.ltb_spec ver 0); [lia|].
Qed.
Lemma mk_command_ok corr ev evs id st ups ls : blank corr = false -> inbox_terminal st = true ->
  mk_command corr (ev :: evs) id st ups ls = Ok {|
    ac_correlation_id := corr; ac_events := ev :: evs; ac_inbox_command_id := id;
    ac_inbox_status := st; ac_outbox_entries := []; ac_process_manager_updates := ups;
    ac_lease_updates := ls; ac_artifact_references := [] |}.
Proof.
  intros Hc Ht. unfold mk_command, append_command_post_init, non_blank. cbn. rewrite Hc, Ht. done.
Qed.

Lemma record_epoch_succeeds clock owner corr ty epoch us s :
  wf_ledger s -> blank owner = false -> (1 <= epoch)%Z -> blank corr = false -> blank ty = false ->
  has_credentials owner = false -> has_credentials (isoformat (Aware us)) = false ->
  (0 <= pm_version_of coordinator_ref s)%Z ->
  exists s' c, record_epoch clock owner corr ty epoch (Aware us) (pm_version_of coordinator_ref s) s
    = (s', Ok c).
Proof.
  intros Hs Ho He Hcorr Hty Hco Hcd Hv.
  unfold record_epoch, coordinator_event. rewrite read_tx, coordinator_event_ok by done.
  rewrite lift_tx, mk_pm_write_ok by done. rewrite lift_tx, mk_command_ok by done.
  match goal with |- context [Build_AppendCommand _ [?ev] _ _ _ [?w] _ _] =>
    destruct (append_one_one clock corr ev w s Hs eq_refl
      (epoch_state_clean epoch owner (Aware us) Hco Hcd) eq_refl
      (epoch_state_clean epoch owner (Aware us) Hco Hcd)) as (s1 & r & Ha) end.
  unfold mbind at 1, tx_bind at 1. rewrite Ha.
  destruct (append_epoch_committed _ _ _ _ _ _ _ _ _ Ha eq_refl) as (_ & Hr & _).
  rewrite lift_tx, Hr. unfold lift, coordinator_epoch_post_init. cbn [ce_epoch ce_owner
    ce_heartbeat_deadline ce_state_version tz_aware negb]. rewrite Ho.
  destruct (Z.ltb_spec epoch 1); [lia|].
  destruct (Z.ltb_spec (pm_version_of coordinator_ref s + 1) 1); [lia|]. by eexists _, _.
Qed.

Lemma no_epoch_version s : current_epoch s = Ok None -> pm_version_of coordinator_ref s = 0%Z.
Proof.
  unfold current_epoch, read_process_manager_state, pm_version_of.
  change (COORDINATOR_NAME, COORDINATOR_STATE_KEY) with coordinator_ref.
  destruct (lg_pm s !! coordinator_ref); [|done]. by intros (? & _ & ?)%bind_Ok.
Qed.
(** ** Guards *)
Lemma require_current_owner_spec owner epoch now s :
  match require_current_owner owner epoch now s with
  | (s', Ok c) => s' = s /\ current_epoch s = Ok (Some c) /\ ce_epoch c = epoch /\
      ce_owner c = owner /\ active_at c now = Ok true
  | (s', Err _) => s' = s
  end.
Proof.
  unfold require_current_owner, read_epoch. rewrite read_tx.
  destruct (current_epoch s) as [[c|]|e]; [|done|done].
  destruct (Z.eqb_spec (ce_epoch c) epoch) as [He|]; [|done].
  destruct (String.eqb_spec (ce_owner c) owner) as [Ho|]; [|done]. cbn [negb orb].
  rewrite lift_tx. by destruct (active_at c now) as [[]|] eqn:Ha; cbn [mret tx_ret throw].
Qed.
Lemma epoch_guard_Ok owner epoch now s s' guard : epoch_guard owner epoch now s = (s', Ok guard) ->
  s' = s /\ exists c, current_epoch s = Ok (Some c) /\ ce_epoch c = epoch /\ ce_owner c = owner /\
    active_at c now = Ok true /\ guard = {|
      pw_process_manager_name := COORDINATOR_NAME; pw_state_key := COORDINATOR_STATE_KEY;
      pw_expected_version := pm_version_of coordinator_ref s;
      pw_state := epoch_state epoch owner (ce_heartbeat_deadline c) |}.
Proof.
  unfold epoch_guard. rewrite lift_tx. destruct (require_aware now); [|done].
  pose proof (require_current_owner_spec owner epoch now s) as Hr.
  unfold mbind at 1, tx_bind at 1. destruct (require_current_owner owner epoch now s) as [s1 [c|]];
    [|done]. destruct Hr as (-> & Hc & He & Ho & Ha). intros [-> Hg]%lift_Ok.
  apply mk_pm_write_Ok in Hg as ->. split; [done|]. exists c.
  destruct (current_epoch_valid _ _ Hc) as [<- _]. subst. done.
Qed.

(** A guard is spent by any later write of the epoch row. *)
Lemma spent_guard clock store cmd guard s : guard ∈ ac_process_manager_updates cmd ->
  (pw_expected_version guard < pm_version_of (pw_ref guard) s)%Z ->
  exists e, append clock store cmd s = (s, Err e).
Proof.
  intros Hin Hlt. destruct (append clock store cmd s) as [s' [r|e]] eqn:Ha.
  - exfalso. apply append_Ok_effect in Ha. pose proof (ef_pm_expected _ _ _ _ _ _ Ha) as Hf.
    rewrite Forall_forall in Hf. specialize (Hf guard Hin). cbn in Hf. lia.
  - exists e. by rewrite (append_atomic _ _ _ _ _ _ Ha).
Qed.

(** ** One owner per epoch *)
Definition epoch_advances (s s' : Ledger) : Prop := forall c, current_epoch s = Ok (Some c) ->
  exists c', current_epoch s' = Ok (Some c') /\
    ((ce_epoch c < ce_epoch c')%Z \/ (ce_epoch c = ce_epoch c' /\ ce_owner c = ce_owner c')).
#[export] Instance epoch_advances_preorder : PreOrder epoch_advances.
Proof.
  split.
  - intros s c Hc. exists c. split; [done|by right].
  - intros s1 s2 s3 H1 H2 c (c' & Hc' & Hl)%H1. apply H2 in Hc' as (c'' & Hc'' & Hl').
    exists c''. split; [done|]. destruct Hl as [|[E1 O1]], Hl' as [|[E2 O2]]; [left; lia..|].
    right. split; congruence.
Qed.
(** Both outcomes of [m] advance. *)
Definition always {A} (m : tx A) : Prop := forall s, epoch_advances s (m s).1.
Lemma always_bind {A B} (m : tx A) (f : A -> tx B) :
  always m -> (forall a, always (f a)) -> always (mbind f m).
Proof.
  intros Hm Hf s. unfold mbind, tx_bind. specialize (Hm s).
  destruct (m s) as [s1 [a|e]]; [|done]. etrans; [exact Hm|apply Hf].
Qed.
Lemma always_mapM {A B} (f : A -> tx B) l : (forall x, always (f x)) -> always (mapM_tx f l).
Proof.
  intros Hf. induction l as [|x l IH]; cbn [mapM_tx]; [by intros s|].
  apply always_bind; [done|]. intros y. apply always_bind; [done|]. by intros ys s.
Qed.
Lemma always_read {A} (f : Ledger -> result A) : always (fun s => (s, f s)).
Proof. by intros s. Qed.

Lemma committed_advances clock owner epoch us s s' :
  epoch_committed clock owner epoch (Aware us) s s' -> blank owner = false -> (1 <= epoch)%Z ->
  (forall c, current_epoch s = Ok (Some c) ->
     (ce_epoch c < epoch)%Z \/ (ce_epoch c = epoch /\ ce_owner c = owner)) ->
  epoch_advances s s'.
Proof.
  intros Hec Ho He Hle c Hc. destruct (current_epoch_valid _ _ Hc) as [Hv Hval].
  destruct (epoch_valid _ Hval) as (_ & _ & Hver & _).
  rewrite (committed_epoch _ _ _ _ _ _ Hec) by (done || lia). eexists. split; [done|].
  cbn. by apply Hle.
Qed.
Lemma acquire_advances clock owner now window : blank owner = false ->
  always (acquire clock owner now window).
Proof.
  intros Ho s. pose proof (acquire_cases clock owner now window s Ho) as Hc.
  destruct (acquire clock owner now window s) as [s' [c|e]]; cbn [fst]; [|by rewrite Hc].
  destruct Hc as (_ & Hval & (us & -> & Hceq & Hor) & Hec). rewrite Hceq in Hec. cbn in Hec.
  apply epoch_valid in Hval as (He & _).
  eapply committed_advances; [exact Hec|done|done|].
  intros c0 Hc0. left. destruct Hor as [[Hn _]|(c1 & Hc1 & Hep & _)]; [by rewrite Hn in Hc0|].
  rewrite Hc1 in Hc0. injection Hc0 as <-. lia.
Qed.
Lemma owner_advances clock owner epoch us s s' c :
  current_epoch s = Ok (Some c) -> ce_epoch c = epoch -> ce_owner c = owner ->
  epoch_committed clock owner epoch (Aware us) s s' -> epoch_advances s s'.
Proof.
  intros Hc He Ho Hec. destruct (current_epoch_valid _ _ Hc) as [_ Hval].
  destruct (epoch_valid _ Hval) as (H1 & Hb & _). subst.
  eapply committed_advances; [exact Hec|done|done|]. intros c0 Hc0. rewrite Hc in Hc0.
  injection Hc0 as <-. by right.
Qed.
Lemma active_aware c now : active_at c now = Ok true -> exists us, now = Aware us.
Proof. unfold active_at. destruct now as [us|us]; [by exists us|done]. Qed.

Lemma renew_advances clock owner epoch now window : always (renew clock owner epoch now window).
Proof.
  intros s. unfold renew. rewrite lift_tx. destruct (require_aware now); [|done].
  rewrite lift_tx. destruct (require_positive_window window); [|done].
  pose proof (require_current_owner_spec owner epoch now s) as Hr.
  unfold mbind at 1, tx_bind at 1. destruct (require_current_owner owner epoch now s) as [s1 [c|]];
    cbn [fst]; [|by rewrite Hr].
  destruct Hr as (-> & Hc & He & Ho & (us & ->)%active_aware). cbn [dt_add].
  pose proof (record_epoch_spec clock owner ("coordinator-heartbeat:" +:+ pretty epoch)
    "coordinator.heartbeat_recorded" epoch (Aware (us + window)) (ce_state_version c) s) as Hs.
  destruct (record_epoch _ _ _ _ _ _ _ s) as [s' [c'|e]]; cbn [fst].
  - destruct Hs as (_ & _ & _ & Hec). by eapply owner_advances.
  - destruct Hs as [->|[Hec _]]; [done|]. by eapply owner_advances.
Qed.

(** ** Consuming commands *)
(** What one round of [consume_pending] committed. *)
Definition consumed (clock owner : string) (epoch : Z) (us : Z) (window : timedelta)
    (command : InboxRow) (r : CommandConsumption) (s s' : Ledger) : Prop :=
  cc_command_id r = ib_command_id command /\
  epoch_committed clock owner epoch (Aware (us + window)) s s' /\
  exists ac re, append clock None ac s = (s', Ok re) /\
    ac_inbox_command_id ac = Some (ib_command_id command) /\ ac_inbox_status ac = cc_status r /\
    match run_command_event command with
    | inl _ => cc_status r = "rejected" /\ length (ac_events ac) = 1
    | inr ev => cc_status r = "processed" /\ head (ac_events ac) = Some ev
    end.
Lemma consume_command_spec clock owner epoch now window command s :
  match consume_command clock owner epoch now window command s with
  | (s', Ok r) => exists c us, current_epoch s = Ok (Some c) /\ ce_epoch c = epoch /\
      ce_owner c = owner /\ now = Aware us /\ consumed clock owner epoch us window command r s s'
  | (s', Err _) => s' = s
  end.
Proof.
  unfold consume_command. pose proof (require_current_owner_spec owner epoch now s) as Hr.
  unfold mbind at 1, tx_bind at 1. destruct (require_current_owner owner epoch now s) as [s1 [c|]];
    [|done]. destruct Hr as (-> & Hc & He & Ho & (us & ->)%active_aware).
  destruct (run_command_event command) as [reason|ev] eqn:Hev;
    unfold coordinator_event; rewrite read_tx; destruct (mk_event_write _ _ _ _ _) as [cev|]; try done;
    rewrite lift_tx; destruct (mk_pm_write _ _ _ _) as [w|] eqn:Hw; try done;
    apply mk_pm_write_Ok in Hw as ->; rewrite lift_tx;
    destruct (mk_command _ _ _ _ _ _) as [ac|] eqn:Hac; try done; apply mk_command_Ok in Hac as ->;
    unfold mbind at 1, tx_bind at 1;
    match goal with |- context [append clock None ?c s] =>
      destruct (append clock None c s) as [s' [re|e]] eqn:Ha end;
    try (by eapply append_atomic);
    destruct (append_epoch_committed _ _ _ _ _ _ _ _ _ Ha eq_refl) as (_ & _ & Hec);
    exists c, us; (split_and!; [done..|]); (split_and!; [done|exact Hec|]);
    eexists _, re; rewrite Hev; (split_and!; [exact Ha|done..]).
Qed.

Lemma consume_command_advances clock owner epoch now window command :
  always (consume_command clock owner epoch now window command).
Proof.
  intros s. pose proof (consume_command_spec clock owner epoch now window command s) as Hs.
  destruct (consume_command _ _ _ _ _ _ s) as [s' [r|e]]; cbn [fst]; [|by rewrite Hs].
  destruct Hs as (c & us & Hc & He & Ho & _ & _ & Hec & _). by eapply owner_advances.
Qed.
Lemma consume_advances clock owner epoch now window limit :
  always (consume_pending clock owner epoch now window limit).
Proof.
  unfold consume_pending. do 4 (apply always_bind; [by intros s|intros ?]).
  apply always_mapM. intros command. apply consume_command_advances.
Qed.

(** ** Commands of the coordinator's clients *)
Definition plain (cmd : AppendCommand) : Prop :=
  Forall (fun w => pw_ref w <> coordinator_ref) (ac_process_manager_updates cmd).
Definition with_guard (guard : ProcessManagerStateWrite) (cmd : AppendCommand) : AppendCommand := {|
  ac_correlation_id := ac_correlation_id cmd; ac_events := ac_events cmd;
  ac_inbox_command_id := ac_inbox_command_id cmd; ac_inbox_status := ac_inbox_status cmd;
  ac_outbox_entries := ac_outbox_entries cmd;
  ac_process_manager_updates := guard :: ac_process_manager_updates cmd;
  ac_lease_updates := ac_lease_updates cmd;
  ac_artifact_references := ac_artifact_references cmd |}.
Lemma pm_after_cons clock w l m :
  pm_after clock (w :: l) m = pm_after clock l (<[pw_ref w := pm_row clock w]> m).
Proof. done. Qed.
Lemma pm_after_plain clock l m : Forall (fun w => pw_ref w <> coordinator_ref) l ->
  pm_after clock l m !! coordinator_ref = m !! coordinator_ref.
Proof.
  revert m. induction l as [|w l IH]; intros m Hf; [done|]. inversion_clear Hf.
  unfold pm_after in *. cbn. rewrite IH by done. by rewrite lookup_insert_ne.
Qed.
Lemma same_epoch_row s s' : lg_pm s' !! coordinator_ref = lg_pm s !! coordinator_ref ->
  epoch_advances s s'.
Proof.
  intros Hp c Hc. exists c. split; [|by right]. unfold current_epoch, read_process_manager_state in *.
  change (COORDINATOR_NAME, COORDINATOR_STATE_KEY) with coordinator_ref in *. by rewrite Hp.
Qed.
Lemma append_plain_advances clock store cmd : plain cmd -> always (append clock store cmd).
Proof.
  intros Hpl s. destruct (append clock store cmd s) as [s' [r|e]] eqn:Ha; cbn [fst].
  - apply append_Ok_effect in Ha. apply same_epoch_row. rewrite (ef_pm _ _ _ _ _ _ Ha).
    by apply pm_after_plain.
  - by rewrite (append_atomic _ _ _ _ _ _ Ha).
Qed.
Definition guarded_commit (clock owner : string) (epoch : Z) (now : datetime)
    (store : option ArtifactStore) (cmd : AppendCommand) : tx AppendResult :=
  guard ← epoch_guard owner epoch now; append clock store (with_guard guard cmd).
Lemma guarded_commit_advances clock owner epoch now store cmd : plain cmd ->
  always (guarded_commit clock owner epoch now store cmd).
Proof.
  intros Hpl s. unfold guarded_commit, mbind, tx_bind.
  destruct (epoch_guard owner epoch now s) as [s1 [g|]] eqn:Hg; cbn [fst].
  2: { enough (s1 = s) as -> by done. revert Hg. unfold epoch_guard. rewrite lift_tx.
       destruct (require_aware now); [|by intros [= ->]].
       pose proof (require_current_owner_spec owner epoch now s) as Hr. unfold mbind, tx_bind.
       destruct (require_current_owner owner epoch now s) as [s2 [c|]].
       - destruct Hr as [-> _]. unfold lift. by intros [= ->].
       - subst s2. by intros [= ->]. }
  apply epoch_guard_Ok in Hg as (-> & c & Hc & He & Ho & _ & ->).
  destruct (current_epoch_valid _ _ Hc) as [Hv Hval].
  destruct (epoch_valid _ Hval) as (H1 & Hb & Hver & d & Hd).
  destruct (append clock store _ s) as [s' [r|e]] eqn:Ha; cbn [fst];
    [|by rewrite (append_atomic _ _ _ _ _ _ Ha)].
  apply append_Ok_effect in Ha. pose proof (ef_pm _ _ _ _ _ _ Ha) as Hp.
  intros c0 Hc0. rewrite Hc in Hc0. injection Hc0 as <-.
  assert (Hrow : lg_pm s' !! coordinator_ref =
    Some (epoch_row clock owner epoch (Aware d) (pm_version_of coordinator_ref s + 1))).
  { rewrite Hp. cbn [ac_process_manager_updates with_guard].
    rewrite pm_after_cons, pm_after_plain by done.
    change (pw_ref _) with coordinator_ref. rewrite lookup_insert_eq, Hd. done. }
  rewrite (current_epoch_of_row _ _ Hrow), epoch_from_row by (subst; done || lia).
  eexists. split; [done|]. right. by subst.
Qed.

(** ** Histories of coordinators and their clients *)
Inductive CoordinatorCall :=
| CAcquire (owner : string) (now : datetime) (heartbeat_window : timedelta)
| CRenew (owner : string) (epoch : Z) (now : datetime) (heartbeat_window : timedelta)
| CConsume (owner : string) (epoch : Z) (now : datetime) (heartbeat_window : timedelta) (limit : Z)
| CGuarded (owner : string) (epoch : Z) (now : datetime) (store : option ArtifactStore)
    (cmd : AppendCommand)
| CLedger (op : LedgerOp).
Definition coordinator_step (s : Ledger) (call : string * CoordinatorCall) : Ledger :=
  let clock := call.1 in
  match call.2 with
  | CAcquire owner now window => (acquire clock owner now window s).1
  | CRenew owner epoch now window => (renew clock owner epoch now window s).1
  | CConsume owner epoch now window limit => (consume_pending clock owner epoch now window limit s).1
  | CGuarded owner epoch now store cmd => (guarded_commit clock owner epoch now store cmd s).1
  | CLedger op => ledger_step s (clock, op)
  end.
Definition coordinator_run (history : list (string * CoordinatorCall)) (s : Ledger) : Ledger :=
  foldl coordinator_step s history.
(** Owners are non-blank (the constructor's check), and only the coordinator's own
    calls write the epoch row. *)
Definition call_ok (call : CoordinatorCall) : Prop :=
  match call with
  | CAcquire owner _ _ => blank owner = false
  | CGuarded _ _ _ _ cmd | CLedger (OpAppend _ cmd) => plain cmd
  | _ => True
  end.

(** The tables only appends write, among those the coordinator reads. *)
Definition append_tables (s : Ledger) : gmap ref PmRow * list EventRow := (lg_pm s, lg_events s).
Lemma keeps_append_tables s0 {A} (m : tx A) :
  (forall s s' a, m s = (s', Ok a) -> append_tables s' = append_tables s) ->
  keeps (fun s => append_tables s = append_tables s0) m.
Proof. intros Hm s s' a Hs H. by rewrite (Hm _ _ _ H). Qed.
Lemma enqueue_tables now id ty corr payload key s s' a :
  enqueue_command now id ty corr payload key s = (s', Ok a) -> append_tables s' = append_tables s.
Proof.
  unfold enqueue_command. intros H.
  do 3 (apply tx_bind_Ok in H as (? & [] & [-> _]%lift_Ok & H)).
  apply tx_bind_Ok in H as (? & ex & [= <- <-] & H).
  destruct (key ≫= _) as [row|]; [by injection H as <- <-|].
  apply tx_bind_Ok in H as (? & [] & [-> _]%lift_Ok & H).
  apply tx_bind_Ok in H as (? & [] & Hi%transaction_Ok & H). injection H as <- <-.
  by apply insert_inbox_Ok in Hi as (_ & _ & ->).
Qed.
Lemma rebuild_tables now limit s s' n :
  rebuild_projections now limit s = (s', Ok n) -> append_tables s' = append_tables s.
Proof.
  intros H%transaction_Ok. apply tx_bind_Ok in H as (s1 & [] & [= <-] & H).
  apply tx_bind_Ok in H as (s2 & l & [= <- <-] & H). apply tx_bind_Ok in H as (s3 & u & Hm & [= <- _]).
  match type of Hm with mapM_tx _ ?l ?s0 = _ => pose proof (rebuild_loop now limit l s0) as Hl end.
  rewrite Hm in Hl. by destruct Hl as (_ & -> & _).
Qed.
Lemma advance_tables name seq force s s' u :
  advance_cursor name seq force s = (s', Ok u) -> append_tables s' = append_tables s.
Proof.
  unfold advance_cursor. destruct (seq <? 0)%Z; [done|]. intros H.
  apply tx_bind_Ok in H as (s1 & cur & [= <- <-] & H). destruct (_ && _); [done|].
  by injection H as <-.
Qed.
Lemma ledger_step_tables s now op : (forall store c, op <> OpAppend store c) ->
  append_tables (ledger_step s (now, op)) = append_tables s.
Proof.
  destruct op as [store c|id ty corr payload key|id|name seq force|limit]; intros Hn;
    [by destruct (Hn store c)|..]; unfold ledger_step; cbn [fst snd];
    apply (step_inv (fun s' => append_tables s' = append_tables s)); [| |done| | |done| | |done| | |done].
  - apply enqueue_atomic.
  - apply keeps_append_tables. intros ???. apply enqueue_tables.
  - apply mark_atomic.
  - apply keeps_append_tables. intros s1 s2 u [= <-]%transaction_Ok. done.
  - apply advance_atomic.
  - apply keeps_append_tables. intros ???. apply advance_tables.
  - apply rebuild_atomic.
  - apply keeps_append_tables. intros ???. apply rebuild_tables.
Qed.
Lemma ledger_step_advances s call : call_ok (CLedger call.2) -> epoch_advances s (ledger_step s call).
Proof.
  destruct call as [now op]. intros Hok.
  destruct op as [store c|id ty corr payload key|id|name seq force|limit];
    [by apply (append_plain_advances now store c Hok)|..];
    apply same_epoch_row; f_equiv;
    match goal with |- lg_pm (ledger_step s (now, ?op)) = _ =>
      pose proof (f_equal fst (ledger_step_tables s now op ltac:(done))) as Ht end; exact Ht.
Qed.
Lemma coordinator_step_advances s call : call_ok call.2 -> epoch_advances s (coordinator_step s call).
Proof.
  destruct call as [clock [owner now w|owner e now w|owner e now w limit|owner e now st cmd|op]];
    intros Hok; unfold coordinator_step; cbn [fst snd].
  - by apply acquire_advances.
  - apply renew_advances.
  - apply consume_advances.
  - by apply guarded_commit_advances.
  - by apply ledger_step_advances.
Qed.
Lemma coordinator_run_advances history s :
  Forall (fun call => call_ok call.2) history -> epoch_advances s (coordinator_run history s).
Proof.
  intros Hf. unfold coordinator_run. revert s. induction Hf as [|call history Hok _ IH]; intros s.
  - reflexivity.
  - cbn [foldl]. etrans; [by apply coordinator_step_advances|apply IH].
Qed.
End Coordinators.

Section Claims.
Context `{rt : PyRuntime} `{iso : IsoCodec}.

(** [acquire] on a well-formed ledger, by a non-blank owner with a positive
    window: while another heartbeat is live it raises [ExternalConflictError]; once
    there is no epoch, or its deadline has passed, it succeeds, and the epoch then
    current is the next one, owned by the caller until [now + heartbeat_window]. *)
Theorem acquire_spec clock owner us window s :
  wf_ledger s -> blank owner = false -> (0 < window)%Z -> has_credentials owner = false ->
  has_credentials (isoformat (Aware (us + window))) = false ->
  match current_epoch s with
  | Err e => acquire clock owner (Aware us) window s = (s, Err e)
  | Ok cur =>
      if from_option (fun c => us <? micros (ce_heartbeat_deadline c))%Z false cur
      then acquire clock owner (Aware us) window s = (s, Err ExternalConflictError)
      else exists s',
        let c := {| ce_epoch := from_option (fun c => ce_epoch c + 1)%Z 1%Z cur;
                    ce_owner := owner; ce_heartbeat_deadline := Aware (us + window);
                    ce_state_version := from_option ce_state_version 0%Z cur + 1 |} in
        acquire clock owner (Aware us) window s = (s', Ok c) /\
        current_epoch s' = Ok (Some c) /\ wf_ledger s'
  end.
Proof.
  intros Hs Ho Hw Hco Hcd.
  pose proof (acquire_cases clock owner (Aware us) window s Ho) as Hc.
  unfold acquire in *. rewrite lift_tx in *. change (require_aware (Aware us)) with (Ok ()) in *.
  rewrite lift_tx in *. rewrite (proj2 (window_positive window) Hw) in *.
  unfold read_epoch in *. rewrite read_tx in *.
  destruct (current_epoch s) as [cur|] eqn:Hcur; [|done]. rewrite lift_tx in *.
  assert (Hcv : from_option ce_state_version 0%Z cur = pm_version_of coordinator_ref s /\
                (0 <= from_option ce_epoch 0 cur)%Z /\ (0 <= pm_version_of coordinator_ref s)%Z /\
    match cur with Some c => active_at c (Aware us) | None => Ok false end =
    Ok (from_option (fun c => us <? micros (ce_heartbeat_deadline c))%Z false cur)).
  { destruct cur as [c0|].
    - destruct (current_epoch_valid _ _ Hcur) as [Hver Hval].
      destruct (epoch_valid _ Hval) as (He & _ & Hv & d & Hd). cbn.
      unfold active_at, dt_lt. rewrite Hd. cbn. split_and!; [done|lia|lia|done].
    - by rewrite (no_epoch_version _ Hcur). }
  destruct Hcv as (Hcv & He & Hv & Hact). rewrite Hact in *.
  destruct (from_option _ false cur); [done|].
  set (ne := match cur with Some _ => _ | None => 1%Z end) in *.
  replace (match cur with Some c => ce_state_version c | None => 0%Z end)
    with (pm_version_of coordinator_ref s) in * by (by destruct cur).
  assert (Hne : ne = from_option (fun c => ce_epoch c + 1)%Z 1%Z cur) by by destruct cur.
  assert (Hne1 : (1 <= ne)%Z) by (destruct cur; cbn in *; lia).
  destruct (record_epoch_succeeds clock owner ("coordinator-acquire:" +:+ pretty ne)
    "coordinator.epoch_acquired" ne (us + window) s) as (s' & c & Hr); try done.
  { by apply nonblank_app. }
  cbn [dt_add] in *. rewrite Hr in *.
  pose proof (record_epoch_spec clock owner ("coordinator-acquire:" +:+ pretty ne)
    "coordinator.epoch_acquired" ne (Aware (us + window)) (pm_version_of coordinator_ref s) s) as Hrs.
  rewrite Hr in Hrs. destruct Hrs as (_ & -> & _ & Hec).
  exists s'. rewrite <- Hne, Hcv. split_and!; [done| |by apply Hec].
  by eapply committed_epoch.
Qed.

(** C3: a coordinator that was taken over can no longer write: a command carrying
    an epoch guard computed before another coordinator's [acquire] fails and changes
    nothing, whatever calls happened before and after that takeover. *)
Theorem stale_coordinator_fenced clock clock' owner owner' epoch now now' window store s guard h1 s2
    c h2 cmd :
  epoch_guard owner epoch now s = (s, Ok guard) ->
  blank owner' = false ->
  acquire clock owner' now' window (ledger_run h1 s) = (s2, Ok c) ->
  guard ∈ ac_process_manager_updates cmd ->
  let later := ledger_run h2 s2 in
  exists e, append clock' store cmd later = (later, Err e).
Proof.
  intros (_ & cur & _ & _ & _ & _ & ->)%epoch_guard_Ok Ho Hacq Hin later.
  pose proof (acquire_cases clock owner' now' window (ledger_run h1 s) Ho) as Hc.
  rewrite Hacq in Hc. destruct Hc as (_ & _ & _ & [Hp _ _]).
  eapply spent_guard; [exact Hin|]. cbn [pw_expected_version].
  change (pw_ref _) with coordinator_ref.
  pose proof (gr_pm _ _ (grows_run h1 s) coordinator_ref).
  pose proof (gr_pm _ _ (grows_run h2 s2) coordinator_ref) as H2. fold later in H2.
  unfold pm_version_of at 1 in H2. rewrite Hp, lookup_insert_eq in H2. cbn in H2. lia.
Qed.

(** epochs only grow and never change hands: over any history of acquisitions,
    renewals, consumptions, guarded appends and other ledger calls, by any owners at
    any instants, failing or not, the epoch read later is a higher one, or the same
    one with the same owner. *)
Theorem one_owner_per_epoch history s c :
  Forall (fun call => call_ok call.2) history -> current_epoch s = Ok (Some c) ->
  exists c', current_epoch (coordinator_run history s) = Ok (Some c') /\
    ((ce_epoch c < ce_epoch c')%Z \/ (ce_epoch c = ce_epoch c' /\ ce_owner c = ce_owner c')).
Proof. intros Hf. by apply coordinator_run_advances. Qed.

Lemma decided_stays id clock status row s s' : lg_inbox s !! id = Some (acknowledged clock status row) ->
  inbox_terminal status = true -> grows s s' ->
  lg_inbox s' !! id = Some (acknowledged clock status row).
Proof.
  intros Hi Ht Hg. destruct (gr_inbox _ _ Hg _ _ Hi) as (y & Hy & [<-|(Hp & _)]); [done|].
  cbn in Hp. subst status. by vm_compute in Ht.
Qed.
Definition decided (command : InboxRow) (r : CommandConsumption) (s : Ledger) : Prop :=
  cc_command_id r = ib_command_id command /\
  (exists row, lg_inbox s !! ib_command_id command = Some row /\ ib_status row = cc_status r) /\
  match run_command_event command with
  | inl _ => cc_status r = "rejected"
  | inr ev => cc_status r = "processed" /\ exists e, e ∈ lg_events s /\
      ev_aggregate e = ew_ref ev /\ ev_aggregate_version e = (ew_expected_version ev + 1)%Z /\
      ev_event_type e = ew_event_type ev
  end.
Lemma consumed_decided clock owner epoch us window command r s s1 s' :
  consumed clock owner epoch us window command r s s1 -> grows s1 s' -> decided command r s'.
Proof.
  intros (Hid & _ & ac & re & Ha & Hin & Hst & Hev) Hg. apply append_Ok_effect in Ha.
  pose proof (ef_inbox _ _ _ _ _ _ Ha) as Hi. rewrite Hin in Hi.
  destruct Hi as (row & _ & _ & Hi). split_and!; [done| |].
  - eexists. split.
    + eapply decided_stays; [by rewrite Hi, lookup_insert_eq| |exact Hg].
      rewrite Hst. by destruct (run_command_event command); destruct Hev as [-> _].
    + cbn. done.
  - destruct (run_command_event command) as [reason|ev]; [by destruct Hev|].
    destruct Hev as [Hpr Hhd]. split; [done|].
    destruct (ac_events ac) as [|ev' l] eqn:Hl; [done|]. injection Hhd as ->.
    eexists. split.
    + eapply elem_of_prefix; [|apply (gr_events _ _ Hg)].
      rewrite (ef_events _ _ _ _ _ _ Ha), Hl. apply elem_of_app. right. left.
    + done.
Qed.
Lemma consume_loop clock owner epoch now window commands s s' rs :
  mapM_tx (consume_command clock owner epoch now window) commands s = (s', Ok rs) ->
  grows s s' /\ Forall2 (fun command r => decided command r s') commands rs.
Proof.
  revert s s' rs. induction commands as [|command commands IH]; intros s s' rs; cbn [mapM_tx].
  - intros [= <- <-]. split; [reflexivity|constructor].
  - intros (s1 & r & Hc & H)%tx_bind_Ok. apply tx_bind_Ok in H as (s2 & rs' & H & [= <- <-]).
    pose proof (consume_command_spec clock owner epoch now window command s) as Hs.
    rewrite Hc in Hs. destruct Hs as (c & us & _ & _ & _ & _ & Hcons).
    apply IH in H as [Hg Hf]. split.
    + etrans; [|exact Hg]. by destruct Hcons as (_ & [] & _).
    + constructor; [|done]. by eapply consumed_decided.
Qed.

(** A completed [consume_pending] decided, in order, exactly the commands that
    were pending up to its limit: each is recorded processed or rejected as its
    payload validates, and a processed one appended its run event at the version the
    command expected plus one. *)
Theorem consume_pending_decides clock owner epoch now window limit s s' rs :
  consume_pending clock owner epoch now window limit s = (s', Ok rs) ->
  exists commands, list_pending_commands limit s = Ok commands /\
    Forall2 (fun command r => decided command r s') commands rs.
Proof.
  unfold consume_pending. intros H. do 3 (apply tx_bind_Ok in H as (? & [] & [-> _]%lift_Ok & H)).
  rewrite read_tx in H. destruct (list_pending_commands limit s) as [commands|]; [|done].
  exists commands. split; [done|]. by apply consume_loop in H as [_ Hf].
Qed.
End Claims.

(** ** Witnesses *)
Module Demo.
#[local] Existing Instance IdentityProofs.toy_runtime.
#[local] Existing Instance toy_iso.
Definition alice : CoordinatorEpoch := {|
  ce_epoch := 1; ce_owner := "alice"; ce_heartbeat_deadline := Aware 10; ce_state_version := 1 |}.
Definition bob : CoordinatorEpoch := {|
  ce_epoch := 2; ce_owner := "bob"; ce_heartbeat_deadline := Aware 35; ce_state_version := 2 |}.
Definition s_alice : Ledger := (acquire "t0" "alice" (Aware 0) 10 empty_ledger).1.
Definition s_bob : Ledger := (acquire "t1" "bob" (Aware 25) 10 s_alice).1.
Definition guard : ProcessManagerStateWrite := {|
  pw_process_manager_name := COORDINATOR_NAME; pw_state_key := COORDINATOR_STATE_KEY;
  pw_expected_version := 1; pw_state := epoch_state 1 "alice" (Aware 10) |}.
Definition late_command : AppendCommand := {|
  ac_correlation_id := "late"; ac_events := [LedgerTheorems.Demo.created];
  ac_inbox_command_id := None; ac_inbox_status := "processed"; ac_outbox_entries := [];
  ac_process_manager_updates := [guard]; ac_lease_updates := []; ac_artifact_references := [] |}.
Lemma alice_current : current_epoch s_alice = Ok (Some alice).
Proof. vm_compute. reflexivity. Qed.
Lemma guard_Ok : epoch_guard "alice" 1 (Aware 5) s_alice = (s_alice, Ok guard).
Proof. vm_compute. reflexivity. Qed.
Lemma bob_Ok : acquire "t1" "bob" (Aware 25) 10 s_alice = (s_bob, Ok bob).
Proof. vm_compute. reflexivity. Qed.

Lemma acquire_spec_witness : exists s',
  acquire "t0" "alice" (Aware 0) 10 empty_ledger = (s', Ok alice) /\
  current_epoch s' = Ok (Some alice) /\ wf_ledger s'.
Proof.
  exact (acquire_spec "t0" "alice" 0 10 empty_ledger wf_empty_ledger eq_refl eq_refl
    ltac:(vm_compute; reflexivity) ltac:(vm_compute; reflexivity)).
Defined.
Lemma stale_coordinator_fenced_witness : exists e,
  append "t2" None late_command s_bob = (s_bob, Err e).
Proof.
  exact (stale_coordinator_fenced "t1" "t2" "alice" "bob" 1 (Aware 5) (Aware 25) 10 None s_alice
    guard [] s_bob bob [] late_command guard_Ok eq_refl bob_Ok ltac:(by left)).
Defined.
Lemma one_owner_per_epoch_witness : exists c',
  current_epoch (coordinator_run [("t1", CAcquire "bob" (Aware 25) 10)] s_alice) = Ok (Some c') /\
  ((1 < ce_epoch c')%Z \/ (1%Z = ce_epoch c' /\ "alice" = ce_owner c')).
Proof.
  apply (one_owner_per_epoch [("t1", CAcquire "bob" (Aware 25) 10)] s_alice alice);
    [by constructor|exact alice_current].
Defined.
Definition s_queued : Ledger :=
  (enqueue_command "t1" "cmd-1" "run.cancel" "corr"
     [("run_id", JStr "r-1"); ("expected_run_version", JInt 0)] None s_alice).1.
Definition s_consumed : Ledger := (consume_pending "t2" "alice" 1 (Aware 5) 10 100 s_queued).1.
Lemma consumed_Ok : consume_pending "t2" "alice" 1 (Aware 5) 10 100 s_queued =
  (s_consumed, Ok [{| cc_command_id := "cmd-1"; cc_status := "processed" |}]).
Proof. vm_compute. reflexivity. Qed.
Lemma consume_pending_decides_witness : exists commands,
  list_pending_commands 100 s_queued = Ok commands /\
  Forall2 (fun command r => decided command r s_consumed) commands
    [{| cc_command_id := "cmd-1"; cc_status := "processed" |}].
Proof.
  exact (consume_pending_decides "t2" "alice" 1 (Aware 5) 10 100 s_queued s_consumed
    _ consumed_Ok).
Defined.
End Demo.
