(* ===== verification/NodeLeases.v ===== *)
(** * Fenced node leases ([engine/leases.py], [engine/results.py])

    Granting the lease of a node to an attempt under the coordinator's epoch, and
    ingesting a worker's result against the current lease.  The two methods take the
    owner of the coordinator they hold. *)
From S2P Require Import Prelude PyText Json Identity IdentityProofs Redaction Ledger LedgerProofs.
From S2P Require Import LedgerTheorems Coordinator CoordinatorProofs.

Record WorkerResultEnvelope := {
  we_run_id : string; we_node_id : string; we_attempt_id : string; we_epoch : Z;
  we_fencing_token : Z; we_operation_id : string; we_terminal_result : string;
  we_artifact_references : list string; we_result : list (string * json) }.
Definition envelope_post_init (w : WorkerResultEnvelope) : result WorkerResultEnvelope :=
  raise_when existsb blank [we_run_id w; we_node_id w; we_attempt_id w; we_operation_id w]
    as InvalidInputError ;;
  raise_when (we_epoch w <? 1)%Z || (we_fencing_token w <? 1)%Z as InvalidInputError ;;
  raise_when negb (bool_decide (we_terminal_result w ∈ ["passed"; "failed"; "cancelled"]))
    as InvalidInputError ;;
  raise_when existsb blank (we_artifact_references w) as InvalidInputError ;;
  Ok w.

Record FencedNodeLease := {
  fl_run_id : string; fl_node_id : string; fl_attempt_id : string; fl_epoch : Z;
  fl_fencing_token : Z; fl_operation_id : string; fl_owner : string; fl_expires_at : datetime }.
Definition fenced_lease_post_init (l : FencedNodeLease) : result FencedNodeLease :=
  raise_when existsb blank [fl_run_id l; fl_node_id l; fl_attempt_id l; fl_operation_id l;
                            fl_owner l] as InvalidInputError ;;
  raise_when (fl_epoch l <? 1)%Z || (fl_fencing_token l <? 1)%Z as InvalidInputError ;;
  raise_when negb (tz_aware (fl_expires_at l)) as InvalidInputError ;;
  Ok l.

(** [_envelope_matches] *)
Definition envelope_matches (record : LeaseRow) (envelope : WorkerResultEnvelope) : bool :=
  (ls_epoch record =? we_epoch envelope)%Z &&
  (ls_fencing_token record =? we_fencing_token envelope)%Z &&
  String.eqb (ls_attempt_id record) (we_attempt_id envelope).
(** [state.get(key) == value] *)
Definition state_is (record : PmRow) (key : string) (value : json) : bool :=
  match payload_get key (pm_state record) with Some v => json_eqb v value | None => false end.
(** [state.get("status") not in {...}]: hashing a list or a dict raises [TypeError]. *)
Definition status_in (record : PmRow) (allowed : list string) : result bool :=
  match payload_get "status" (pm_state record) with
  | Some (JList _) | Some (JObj _) => Err PyTypeError
  | Some (JStr s) => Ok (bool_decide (s ∈ allowed))
  | _ => Ok false
  end.

Section NodeLeases.
Context `{rt : PyRuntime} `{iso : IsoCodec}.

(** [_lease_expiry] *)
Definition lease_expiry (record : LeaseRow) : result datetime :=
  raw ← from_option_err InternalInvariantViolationError (ls_expires_at record);
  expires_at ← from_option_err InternalInvariantViolationError (fromisoformat raw);
  _ ← require_aware expires_at;
  Ok expires_at.
(** [_lease_active] *)
Definition lease_active (record : LeaseRow) (now : datetime) : result bool :=
  raw ← from_option_err InternalInvariantViolationError (ls_expires_at record);
  expires_at ← from_option_err InternalInvariantViolationError (fromisoformat raw);
  _ ← require_aware expires_at;
  dt_lt now expires_at.
(** [_prior_worker_reconciled]; the record's run and node are its key. *)
Definition prior_worker_reconciled (run_id node_id : string) (record : LeaseRow) (s : Ledger)
    : bool :=
  match read_process_manager_state "worker-supervisor" (run_id +:+ ":" +:+ node_id) s with
  | None => false
  | Some supervisor =>
      state_is supervisor "status" (JStr "exit_reconciled") &&
      state_is supervisor "attempt_id" (JStr (ls_attempt_id record)) &&
      state_is supervisor "fencing_token" (JInt (ls_fencing_token record))
  end.

(** [_lease_payload] *)
Definition lease_payload (l : FencedNodeLease) : list (string * json) :=
  [("run_id", JStr (fl_run_id l)); ("node_id", JStr (fl_node_id l));
   ("attempt_id", JStr (fl_attempt_id l)); ("epoch", JInt (fl_epoch l));
   ("fencing_token", JInt (fl_fencing_token l)); ("operation_id", JStr (fl_operation_id l));
   ("owner", JStr (fl_owner l)); ("expires_at", JStr (isoformat (fl_expires_at l)))].
Definition mk_lease_write (l : FencedNodeLease) (expires_at : string) : result LeaseWrite :=
  lease_write_post_init {|
    lw_run_id := fl_run_id l; lw_node_id := fl_node_id l; lw_epoch := fl_epoch l;
    lw_fencing_token := fl_fencing_token l; lw_owner := fl_owner l;
    lw_attempt_id := fl_attempt_id l; lw_expires_at := Some expires_at |}.
(** [_lease_event] *)
Definition lease_event (run_id node_id event_type : string) (payload : list (string * json))
    : tx EventWrite := fun s =>
  let aggregate_id := run_id +:+ ":" +:+ node_id in
  (s, mk_event_write "node_lease" aggregate_id
        (from_option pj_aggregate_version 0%Z (read_projection "node_lease" aggregate_id s))
        event_type payload).

(** The append both methods end with: the attempt's event, the lease's event, the
    epoch guard and the lease write. *)
Definition append_lease (clock owner correlation_id : string) (epoch : Z) (now : datetime)
    (l : FencedNodeLease) (expected_attempt_version : Z) (attempt_event lease_event_type : string)
    (payload : list (string * json)) (expires_at : string) : tx AppendResult :=
  e1 ← lift (mk_event_write "node_attempt" (fl_attempt_id l) expected_attempt_version attempt_event
               payload);
  e2 ← lease_event (fl_run_id l) (fl_node_id l) lease_event_type payload;
  guard ← epoch_guard owner epoch now;
  w ← lift (mk_lease_write l expires_at);
  c ← lift (mk_command correlation_id [e1; e2] None "processed" [guard] [w]);
  append clock None c.

(** [grant] *)
Definition grant (clock owner run_id node_id attempt_id : string) (epoch : Z) (now : datetime)
    (lease_window : timedelta) (expected_attempt_version : Z) (operation_id : string)
    : tx FencedNodeLease :=
  _ ← lift (require_aware now);
  _ ← lift (raise_when (lease_window <=? 0)%Z as InvalidInputError ;; Ok ());
  _ ← lift (raise_when (expected_attempt_version <? 0)%Z as InvalidInputError ;; Ok ());
  current ← gets (read_lease run_id node_id);
  active ← lift match current with Some r => lease_active r now | None => Ok false end;
  if (active : bool) then throw ExternalConflictError
  else
    reconciled ← gets (fun s =>
      match current with Some r => prior_worker_reconciled run_id node_id r s | None => true end);
    if negb reconciled then throw ExternalConflictError
    else
      let token := match current with None => 1 | Some r => ls_fencing_token r + 1 end%Z in
      lease ← lift (fenced_lease_post_init {|
        fl_run_id := run_id; fl_node_id := node_id; fl_attempt_id := attempt_id;
        fl_epoch := epoch; fl_fencing_token := token; fl_operation_id := operation_id;
        fl_owner := owner; fl_expires_at := dt_add now lease_window |});
      _ ← append_lease clock owner
            ("node-lease-grant:" +:+ run_id +:+ ":" +:+ node_id +:+ ":" +:+ pretty token)
            epoch now lease expected_attempt_version "node_attempt.leased" "node_lease.granted"
            (lease_payload lease) (isoformat (fl_expires_at lease));
      mret lease.

(** [ingest_result] *)
Definition ingest_result (clock owner : string) (envelope : WorkerResultEnvelope)
    (coordinator_epoch : Z) (now : datetime) (expected_attempt_version : Z)
    (allow_expired_cancellation allow_expired_failure : bool) : tx () :=
  _ ← lift (require_aware now);
  _ ← lift (raise_when (expected_attempt_version <? 0)%Z as InvalidInputError ;; Ok ());
  _ ← lift (raise_when allow_expired_cancellation &&
                       negb (String.eqb (we_terminal_result envelope) "cancelled")
              as InvalidInputError ;; Ok ());
  _ ← lift (raise_when allow_expired_failure &&
                       negb (String.eqb (we_terminal_result envelope) "failed")
              as InvalidInputError ;; Ok ());
  current ← gets (read_lease (we_run_id envelope) (we_node_id envelope));
  match current with
  | None => throw ExternalConflictError
  | Some r =>
      if negb (envelope_matches r envelope) then throw ExternalConflictError
      else
        live ← lift (if allow_expired_cancellation || allow_expired_failure then Ok true
                     else lease_active r now);
        if negb live then throw ExternalConflictError
        else
          supervisor ← gets (read_process_manager_state "worker-supervisor"
                               (we_run_id envelope +:+ ":" +:+ we_node_id envelope));
          match supervisor with
          | None => throw ExternalConflictError
          | Some sup =>
              if negb (state_is sup "operation_id" (JStr (we_operation_id envelope))) ||
                 negb (state_is sup "attempt_id" (JStr (we_attempt_id envelope)))
              then throw ExternalConflictError
              else
                exited ← lift (status_in sup ["exit_observed"; "exit_reconciled"]);
                if negb exited then throw ExternalConflictError
                else
                  expires_at ← lift (lease_expiry r);
                  lease ← lift (fenced_lease_post_init {|
                    fl_run_id := we_run_id envelope; fl_node_id := we_node_id envelope;
                    fl_attempt_id := ls_attempt_id r; fl_epoch := ls_epoch r;
                    fl_fencing_token := ls_fencing_token r;
                    fl_operation_id := we_operation_id envelope; fl_owner := ls_owner r;
                    fl_expires_at := expires_at |});
                  let payload := dict_update (lease_payload lease)
                    [("terminal_result", JStr (we_terminal_result envelope));
                     ("artifact_references", JList (map JStr (we_artifact_references envelope)));
                     ("result", JObj (we_result envelope))] in
                  _ ← append_lease clock owner
                        ("node-result:" +:+ fl_run_id lease +:+ ":" +:+ fl_node_id lease +:+ ":"
                           +:+ pretty (fl_fencing_token lease))
                        coordinator_epoch now lease expected_attempt_version
                        "node_attempt.result_ingested" "node_lease.result_ingested" payload
                        (isoformat now);
                  mret ()
          end
  end.
End NodeLeases.

(** ** Node lease theorems

    What a grant and an ingestion require and record, freshness of fencing tokens,
    and the refusal of superseded or repeated worker results. *)

Section Theorems.
Context `{rt : PyRuntime} `{iso : IsoCodec}.

(** The coordinator [owner] holds a live [epoch]. *)
Definition holds_epoch (owner : string) (epoch : Z) (now : datetime) (s : Ledger) : Prop :=
  exists c, current_epoch s = Ok (Some c) /\ ce_epoch c = epoch /\ ce_owner c = owner /\
    active_at c now = Ok true.
Definition attempt_ref (attempt_id : string) : ref := ("node_attempt", attempt_id).
Definition lease_key (l : FencedNodeLease) : ref := (fl_run_id l, fl_node_id l).
Definition node_row (clock : string) (l : FencedNodeLease) (expires_at : string) : LeaseRow := {|
  ls_epoch := fl_epoch l; ls_fencing_token := fl_fencing_token l; ls_owner := fl_owner l;
  ls_attempt_id := fl_attempt_id l; ls_granted_at := clock; ls_expires_at := Some expires_at |}.

(** What [append_lease] commits. *)
Record lease_committed (clock owner : string) (epoch : Z) (now : datetime) (l : FencedNodeLease)
    (expected_attempt_version : Z) (attempt_event : string) (payload : list (string * json))
    (expires_at : string) (s s' : Ledger) : Prop := {
  lc_epoch : holds_epoch owner epoch now s;
  lc_leases : lg_leases s' = <[lease_key l := node_row clock l expires_at]> (lg_leases s);
  lc_attempt : (version_of (attempt_ref (fl_attempt_id l)) s <= expected_attempt_version
                < version_of (attempt_ref (fl_attempt_id l)) s')%Z;
  lc_event : exists e, e ∈ lg_events s' /\ ev_aggregate e = attempt_ref (fl_attempt_id l) /\
    ev_aggregate_version e = (expected_attempt_version + 1)%Z /\ ev_event_type e = attempt_event /\
    ev_payload e = canon (JObj payload);
  lc_grows : grows s s';
}.

Lemma epoch_guard_read owner epoch now s : exists r, epoch_guard owner epoch now s = (s, r).
Proof.
  unfold epoch_guard. rewrite lift_tx. destruct (require_aware now); [|by eexists].
  pose proof (require_current_owner_spec owner epoch now s) as Hr. unfold mbind, tx_bind, lift.
  destruct (require_current_owner owner epoch now s) as [s2 [c|]]; [destruct Hr as [-> _]|subst s2];
    by eexists.
Qed.
Lemma mk_lease_write_Ok l expires_at w : mk_lease_write l expires_at = Ok w ->
  w = {| lw_run_id := fl_run_id l; lw_node_id := fl_node_id l; lw_epoch := fl_epoch l;
         lw_fencing_token := fl_fencing_token l; lw_owner := fl_owner l;
         lw_attempt_id := fl_attempt_id l; lw_expires_at := Some expires_at |}.
Proof.
  unfold mk_lease_write, lease_write_post_init.
  do 4 (intros (? & _ & Hw)%bind_Ok; revert Hw). rewrite !raise_if_Ok. naive_solver.
Qed.

Lemma append_lease_spec clock owner corr epoch now l version aev lev payload expires s :
  match append_lease clock owner corr epoch now l version aev lev payload expires s with
  | (s', Ok _) => lease_committed clock owner epoch now l version aev payload expires s s'
  | (s', Err _) => s' = s
  end.
Proof.
  unfold append_lease. rewrite lift_tx.
  destruct (mk_event_write _ _ _ _ _) as [e1|] eqn:He1; [|done]. apply mk_event_write_Ok in He1 as ->.
  unfold lease_event. rewrite read_tx.
  destruct (mk_event_write _ _ _ _ _) as [e2|] eqn:He2; [|done]. apply mk_event_write_Ok in He2 as ->.
  unfold mbind at 1, tx_bind at 1.
  destruct (epoch_guard_read owner epoch now s) as ([guard|e] & Hg); rewrite Hg; [|done].
  apply epoch_guard_Ok in Hg as (_ & c & Hc & He & Ho & Ha & ->). rewrite lift_tx.
  destruct (mk_lease_write l expires) as [w|] eqn:Hw; [|done]. apply mk_lease_write_Ok in Hw as ->.
  rewrite lift_tx. destruct (mk_command _ _ _ _ _ _) as [cmd|] eqn:Hcmd; [|done].
  apply mk_command_Ok in Hcmd as ->.
  match goal with |- context [append clock None ?c s] =>
    destruct (append clock None c s) as [s' [re|e]] eqn:Hap end; [|by eapply append_atomic].
  pose proof (grows_append _ _ _ _ _ _ Hap) as Hgr. apply append_Ok_effect in Hap. split.
  - by exists c.
  - rewrite (ef_leases _ _ _ _ _ _ Hap). done.
  - pose proof (ef_expected _ _ _ _ _ _ Hap) as Hf. by inversion_clear Hf.
  - eexists. split; [rewrite (ef_events _ _ _ _ _ _ Hap); apply elem_of_app; right; left|done].
  - done.
Qed.

Lemma fenced_lease_Ok l l' : fenced_lease_post_init l = Ok l' -> l' = l.
Proof. unfold fenced_lease_post_init. rewrite !raise_if_Ok. naive_solver. Qed.
Lemma read_gets {A B} (f : Ledger -> A) (k : A -> tx B) s : mbind (M:=tx) k (gets f) s = k (f s) s.
Proof. done. Qed.

(** ** Granting *)
Definition grant_effect (clock owner run_id node_id attempt_id : string) (epoch : Z)
    (now : datetime) (window : timedelta) (version : Z) (operation_id : string)
    (s s' : Ledger) (l : FencedNodeLease) : Prop :=
  match read_lease run_id node_id s with
  | None => fl_fencing_token l = 1%Z
  | Some r => lease_active r now = Ok false /\ prior_worker_reconciled run_id node_id r s = true /\
      fl_fencing_token l = (ls_fencing_token r + 1)%Z
  end /\
  (exists us, now = Aware us /\ (0 < window)%Z /\ l = {|
     fl_run_id := run_id; fl_node_id := node_id; fl_attempt_id := attempt_id; fl_epoch := epoch;
     fl_fencing_token := fl_fencing_token l; fl_operation_id := operation_id; fl_owner := owner;
     fl_expires_at := Aware (us + window) |}) /\
  lease_committed clock owner epoch now l version "node_attempt.leased" (lease_payload l)
    (isoformat (fl_expires_at l)) s s'.
Lemma grant_cases clock owner run_id node_id attempt_id epoch now window version operation_id s :
  match grant clock owner run_id node_id attempt_id epoch now window version operation_id s with
  | (s', Ok l) => grant_effect clock owner run_id node_id attempt_id epoch now window version
                    operation_id s s' l
  | (s', Err _) => s' = s
  end.
Proof.
  unfold grant. rewrite lift_tx. destruct now as [us|us]; [|done].
  change (require_aware (Aware us)) with (Ok ()). rewrite lift_tx.
  destruct (Z.leb_spec window 0) as [|Hw]; [done|]. cbn [raise_if].
  change (mbind (M:=result) (fun _ : () => Ok ()) (Ok ())) with (Ok ()). rewrite lift_tx.
  destruct (version <? 0)%Z; [done|]. cbn [raise_if].
  change (mbind (M:=result) (fun _ : () => Ok ()) (Ok ())) with (Ok ()). rewrite read_gets.
  rewrite lift_tx.
  assert (Hgo : forall tok, (match read_lease run_id node_id s with
      | None => tok = 1%Z
      | Some r => lease_active r (Aware us) = Ok false /\
          prior_worker_reconciled run_id node_id r s = true /\ tok = (ls_fencing_token r + 1)%Z
      end) ->
    match (lease ← lift (fenced_lease_post_init {|
        fl_run_id := run_id; fl_node_id := node_id; fl_attempt_id := attempt_id; fl_epoch := epoch;
        fl_fencing_token := tok; fl_operation_id := operation_id; fl_owner := owner;
        fl_expires_at := dt_add (Aware us) window |});
      _ ← append_lease clock owner
            ("node-lease-grant:" +:+ run_id +:+ ":" +:+ node_id +:+ ":" +:+ pretty tok)
            epoch (Aware us) lease version "node_attempt.leased" "node_lease.granted"
            (lease_payload lease) (isoformat (fl_expires_at lease));
      mret lease) s with
    | (s', Ok l) => grant_effect clock owner run_id node_id attempt_id epoch (Aware us) window version
                    operation_id s s' l
    | (s', Err _) => s' = s
    end).
  { intros tok Htok. rewrite lift_tx. destruct (fenced_lease_post_init _) as [l|] eqn:Hl; [|done].
    apply fenced_lease_Ok in Hl as ->. unfold mbind at 1, tx_bind at 1.
    match goal with |- context [append_lease ?x1 ?x2 ?x3 ?x4 ?x5 ?x6 ?x7 ?x8 ?x9 ?y1 ?y2 s] =>
      pose proof (append_lease_spec x1 x2 x3 x4 x5 x6 x7 x8 x9 y1 y2 s) as Ha;
      destruct (append_lease x1 x2 x3 x4 x5 x6 x7 x8 x9 y1 y2 s) as [s' [re|e]] end; [|done].
    unfold grant_effect. split_and!; [done| |exact Ha]. by exists us. }
  destruct (read_lease run_id node_id s) as [r|] eqn:Hr.
  - destruct (lease_active r (Aware us)) as [[]|] eqn:Hact; try done. rewrite read_gets.
    destruct (prior_worker_reconciled run_id node_id r s) eqn:Hrec; [|done]. by apply Hgo.
  - rewrite read_gets. by apply Hgo.
Qed.

(** ** Ingesting *)
Definition ingested_payload (l : FencedNodeLease) (envelope : WorkerResultEnvelope)
    : list (string * json) :=
  dict_update (lease_payload l)
    [("terminal_result", JStr (we_terminal_result envelope));
     ("artifact_references", JList (map JStr (we_artifact_references envelope)));
     ("result", JObj (we_result envelope))].
Record ingest_effect (clock owner : string) (envelope : WorkerResultEnvelope) (epoch : Z)
    (now : datetime) (version : Z) (bypass : bool) (s s' : Ledger) (l : FencedNodeLease) : Prop := {
  ie_lease : exists r, read_lease (we_run_id envelope) (we_node_id envelope) s = Some r /\
    envelope_matches r envelope = true /\ (bypass = false -> lease_active r now = Ok true) /\
    l = {| fl_run_id := we_run_id envelope; fl_node_id := we_node_id envelope;
           fl_attempt_id := ls_attempt_id r; fl_epoch := ls_epoch r;
           fl_fencing_token := ls_fencing_token r; fl_operation_id := we_operation_id envelope;
           fl_owner := ls_owner r; fl_expires_at := fl_expires_at l |};
  ie_worker : exists sup, read_process_manager_state "worker-supervisor"
      (we_run_id envelope +:+ ":" +:+ we_node_id envelope) s = Some sup /\
    state_is sup "operation_id" (JStr (we_operation_id envelope)) = true /\
    state_is sup "attempt_id" (JStr (we_attempt_id envelope)) = true /\
    status_in sup ["exit_observed"; "exit_reconciled"] = Ok true;
  ie_now : tz_aware now = true;
  ie_commit : lease_committed clock owner epoch now l version "node_attempt.result_ingested"
    (ingested_payload l envelope) (isoformat now) s s';
}.
Lemma lift_unit_Ok {A} b e (k : () -> tx A) s :
  mbind (M:=tx) k (lift (raise_when b as e ;; Ok ())) s = if b then (s, Err e) else k () s.
Proof. rewrite lift_tx. by destruct b. Qed.

Lemma ingest_cases clock owner envelope epoch now version canc fail s :
  match ingest_result clock owner envelope epoch now version canc fail s with
  | (s', Ok _) =>
      (canc = true -> we_terminal_result envelope = "cancelled") /\
      (fail = true -> we_terminal_result envelope = "failed") /\
      exists l, ingest_effect clock owner envelope epoch now version (canc || fail) s s' l
  | (s', Err _) => s' = s
  end.
Proof.
  unfold ingest_result. rewrite lift_tx.
  destruct (require_aware now) as [[]|] eqn:Hnow; [|done]. rewrite !lift_unit_Ok.
  destruct (version <? 0)%Z; [done|].
  destruct (canc && _) eqn:Hcanc; [done|].
  destruct (fail && _) eqn:Hfail; [done|]. rewrite read_gets.
  destruct (read_lease _ _ s) as [r|] eqn:Hr; [|done].
  destruct (envelope_matches r envelope) eqn:Hm; [|done]. cbn [negb]. rewrite lift_tx.
  destruct (if canc || fail then Ok true else lease_active r now) as [[]|] eqn:Hlive; try done.
  cbn [negb]. rewrite read_gets.
  destruct (read_process_manager_state _ _ s) as [sup|] eqn:Hsup; [|done].
  destruct (state_is sup "operation_id" _) eqn:Hop; [|done].
  destruct (state_is sup "attempt_id" _) eqn:Hat; [|done]. cbn [negb orb]. rewrite lift_tx.
  destruct (status_in sup _) as [[]|] eqn:Hst; try done. cbn [negb]. rewrite lift_tx.
  destruct (lease_expiry r) as [d|]; [|done]. rewrite lift_tx.
  destruct (fenced_lease_post_init _) as [l|] eqn:Hl; [|done]. apply fenced_lease_Ok in Hl as ->.
  unfold mbind at 1, tx_bind at 1.
  match goal with |- context [append_lease ?x1 ?x2 ?x3 ?x4 ?x5 ?x6 ?x7 ?x8 ?x9 ?y1 ?y2 s] =>
    pose proof (append_lease_spec x1 x2 x3 x4 x5 x6 x7 x8 x9 y1 y2 s) as Ha;
    destruct (append_lease x1 x2 x3 x4 x5 x6 x7 x8 x9 y1 y2 s) as [s' [re|e]] end; [|done].
  cbn [mret tx_ret]. split_and!.
  - intros ->. by destruct (String.eqb_spec (we_terminal_result envelope) "cancelled").
  - intros ->. by destruct (String.eqb_spec (we_terminal_result envelope) "failed").
  - eexists. split; [|by exists sup| |exact Ha].
    + exists r. split_and!; [done|done| |done]. intros Hb. by rewrite Hb in Hlive.
    + unfold require_aware in Hnow. by destruct (tz_aware now).
Qed.

(** ** The lease table between calls *)
(** Tokens grow, and a row keeps its holder for as long as its token. *)
Definition holder_le (x y : LeaseRow) : Prop :=
  (ls_fencing_token x < ls_fencing_token y)%Z \/
  (ls_fencing_token x = ls_fencing_token y /\ ls_epoch x = ls_epoch y /\ ls_owner x = ls_owner y /\
   ls_attempt_id x = ls_attempt_id y).
Definition leases_advance (s s' : Ledger) : Prop := forall k x, lg_leases s !! k = Some x ->
  exists y, lg_leases s' !! k = Some y /\ holder_le x y.
(** One call: a grant or an ingestion, by anyone at any instant, failed or not, or a
    call that writes no lease row. *)
Inductive lease_call : Ledger -> Ledger -> Prop :=
| call_grant clock owner run_id node_id attempt_id epoch now window version operation_id s :
    lease_call s (grant clock owner run_id node_id attempt_id epoch now window version operation_id s).1
| call_ingest clock owner envelope epoch now version canc fail s :
    lease_call s (ingest_result clock owner envelope epoch now version canc fail s).1
| call_other s s' : lg_leases s' = lg_leases s -> grows s s' -> lease_call s s'.
#[export] Instance leases_advance_preorder : PreOrder leases_advance.
Proof.
  split.
  - intros s k x Hx. exists x. split; [done|by right].
  - intros s1 s2 s3 H1 H2 k x (y & Hy & Hxy)%H1. apply H2 in Hy as (z & Hz & Hyz).
    exists z. split; [done|]. unfold holder_le in *.
    destruct Hxy as [|(? & ? & ? & ?)], Hyz as [|(? & ? & ? & ?)]; [left; lia..|].
    right. split_and!; congruence.
Qed.
Lemma committed_advance clock owner epoch now l version aev payload expires s s' :
  lease_committed clock owner epoch now l version aev payload expires s s' ->
  (forall r, lg_leases s !! lease_key l = Some r -> holder_le r (node_row clock l expires)) ->
  leases_advance s s'.
Proof.
  intros Hc Hle k x Hx. rewrite (lc_leases _ _ _ _ _ _ _ _ _ _ _ Hc).
  destruct (decide (lease_key l = k)) as [<-|Hk].
  - rewrite lookup_insert_eq. eexists. split; [done|]. by apply Hle.
  - rewrite lookup_insert_ne by done. exists x. split; [done|by right].
Qed.
Lemma lease_call_advances s s' : lease_call s s' -> leases_advance s s' /\ grows s s'.
Proof.
  destruct 1 as [clock owner run_id node_id attempt_id epoch now window version op s
                |clock owner envelope epoch now version canc fail s|s s' Hl Hg].
  - pose proof (grant_cases clock owner run_id node_id attempt_id epoch now window version op s) as Hc.
    destruct (grant _ _ _ _ _ _ _ _ _ _ s) as [s' [l|e]]; cbn [fst]; [|by subst s'].
    destruct Hc as (Hr & (us & _ & _ & Hl) & Hc). split; [|by apply Hc].
    eapply committed_advance; [exact Hc|]. intros r Hr'. left. rewrite Hl in Hr'.
    change (lg_leases s !! lease_key _) with (read_lease run_id node_id s) in Hr'.
    rewrite Hr' in Hr. cbn. destruct Hr as (_ & _ & ->). lia.
  - pose proof (ingest_cases clock owner envelope epoch now version canc fail s) as Hc.
    destruct (ingest_result _ _ _ _ _ _ _ _ s) as [s' [u|e]]; cbn [fst]; [|by subst s'].
    destruct Hc as (_ & _ & l & [(r & Hr & _ & _ & Hl) _ _ Hc]). split; [|by apply Hc].
    eapply committed_advance; [exact Hc|]. intros r' Hr'. rewrite Hl in Hr'.
    change (lg_leases s !! lease_key _)
      with (read_lease (we_run_id envelope) (we_node_id envelope) s) in Hr'.
    rewrite Hr in Hr'. injection Hr' as <-. right. by rewrite Hl.
  - split; [|done]. intros k x Hx. exists x. rewrite Hl. split; [done|by right].
Qed.
Lemma lease_calls_advance s s' : rtc lease_call s s' -> leases_advance s s' /\ grows s s'.
Proof.
  induction 1 as [s|s1 s2 s3 H1 _ [IHl IHg]]; [by split|].
  apply lease_call_advances in H1 as [Hl Hg]. split; by etrans.
Qed.
End Theorems.

Section Claims.
Context `{rt : PyRuntime} `{iso : IsoCodec}.

Lemma lease_active_at clock l us now : lease_active (node_row clock l (isoformat (Aware us))) (Aware now)
  = Ok (now <? us)%Z.
Proof. unfold lease_active. cbn. by rewrite fromisoformat_isoformat. Qed.

(** A grant needs the coordinator's live epoch and a node that has no lease, or
    an expired one whose worker was reconciled; it then issues the next fencing token
    to the attempt, makes the lease active until [now + lease_window], records the
    leasing at the attempt's expected version plus one, and leaves every other node's
    lease alone.  A grant that raises changes nothing. *)
Theorem grant_spec clock owner run_id node_id attempt_id epoch now window version operation_id s :
  match grant clock owner run_id node_id attempt_id epoch now window version operation_id s with
  | (s', Ok l) =>
      grant_effect clock owner run_id node_id attempt_id epoch now window version operation_id s s' l /\
      (exists row, read_lease run_id node_id s' = Some row /\ ls_owner row = owner /\
         ls_attempt_id row = attempt_id /\ ls_fencing_token row = fl_fencing_token l /\
         lease_active row now = Ok true) /\
      forall k, k <> (run_id, node_id) -> lg_leases s' !! k = lg_leases s !! k
  | (s', Err _) => s' = s
  end.
Proof.
  pose proof (grant_cases clock owner run_id node_id attempt_id epoch now window version
    operation_id s) as Hc.
  destruct (grant _ _ _ _ _ _ _ _ _ _ s) as [s' [l|e]]; [|done].
  split; [exact Hc|]. destruct Hc as (_ & (us & -> & Hw & Hl) & Hc).
  assert (Hk : lease_key l = (run_id, node_id)) by by rewrite Hl.
  pose proof (lc_leases _ _ _ _ _ _ _ _ _ _ _ Hc) as Hls. rewrite Hk in Hls. split.
  - eexists. split; [unfold read_lease; rewrite Hls; apply lookup_insert_eq|].
    split_and!; [by rewrite Hl..|done|]. rewrite Hl at 2. cbn [fl_expires_at].
    rewrite lease_active_at. f_equal. lia.
  - intros k Hne. rewrite Hls. by apply lookup_insert_ne.
Qed.

(** C4: a superseded worker cannot report: once a node was leased again, whatever
    grants, ingestions and other calls came between and after, the second fencing
    token is the greater one, and a result that carries the first is refused and
    changes nothing. *)
Theorem superseded_result_refused clock1 clock2 clock3 owner1 owner2 owner3 run_id node_id attempt1
    attempt2 epoch1 epoch2 epoch3 now1 now2 now3 window1 window2 version1 version2 version3 op1 op2
    s1 s1' s2 s2' s3 l1 l2 envelope canc fail :
  grant clock1 owner1 run_id node_id attempt1 epoch1 now1 window1 version1 op1 s1 = (s1', Ok l1) ->
  rtc lease_call s1' s2 ->
  grant clock2 owner2 run_id node_id attempt2 epoch2 now2 window2 version2 op2 s2 = (s2', Ok l2) ->
  rtc lease_call s2' s3 ->
  we_run_id envelope = run_id -> we_node_id envelope = node_id ->
  we_fencing_token envelope = fl_fencing_token l1 ->
  (fl_fencing_token l1 < fl_fencing_token l2)%Z /\
  exists e, ingest_result clock3 owner3 envelope epoch3 now3 version3 canc fail s3 = (s3, Err e).
Proof.
  intros Hg1 [Ha1 _]%lease_calls_advance Hg2 [Ha2 _]%lease_calls_advance Hrun Hnode Htok.
  pose proof (grant_cases clock1 owner1 run_id node_id attempt1 epoch1 now1 window1 version1 op1 s1)
    as Hc1. rewrite Hg1 in Hc1. destruct Hc1 as (_ & (u1 & _ & _ & Hl1) & Hc1).
  pose proof (grant_cases clock2 owner2 run_id node_id attempt2 epoch2 now2 window2 version2 op2 s2)
    as Hc2. rewrite Hg2 in Hc2. destruct Hc2 as (Hr2 & (u2 & _ & _ & Hl2) & Hc2).
  assert (K1 : lease_key l1 = (run_id, node_id)) by by rewrite Hl1.
  assert (K2 : lease_key l2 = (run_id, node_id)) by by rewrite Hl2.
  destruct (Ha1 (run_id, node_id) _ (eq_trans (f_equal (lookup _) (lc_leases _ _ _ _ _ _ _ _ _ _ _ Hc1))
    ltac:(rewrite K1; apply lookup_insert_eq))) as (y & Hy & Hle1).
  change (lg_leases s2 !! (run_id, node_id)) with (read_lease run_id node_id s2) in Hy.
  rewrite Hy in Hr2. destruct Hr2 as (_ & _ & Ht2).
  assert (Hlt : (fl_fencing_token l1 < fl_fencing_token l2)%Z).
  { destruct Hle1 as [Hlt|(Heq & _)]; cbn in *; lia. }
  split; [exact Hlt|].
  pose proof (ingest_cases clock3 owner3 envelope epoch3 now3 version3 canc fail s3) as Hi.
  destruct (ingest_result _ _ _ _ _ _ _ _ s3) as [s4 [u|e]]; [|exists e; by subst s4].
  exfalso. destruct Hi as (_ & _ & l & [(r & Hr & Hm & _) _ _ _]).
  destruct (Ha2 (run_id, node_id) _ (eq_trans (f_equal (lookup _) (lc_leases _ _ _ _ _ _ _ _ _ _ _ Hc2))
    ltac:(rewrite K2; apply lookup_insert_eq))) as (z & Hz & Hle2).
  rewrite Hrun, Hnode in Hr.
  change (lg_leases s3 !! (run_id, node_id)) with (read_lease run_id node_id s3) in Hz.
  rewrite Hr in Hz. injection Hz as <-.
  unfold envelope_matches in Hm. rewrite !andb_true_iff, !Z.eqb_eq in Hm.
  destruct Hm as [[_ Hmt] _]. destruct Hle2 as [Hlt2|(Heq & _)]; cbn in *; lia.
Qed.

(** An accepted result matches the node's current lease (still live, unless a
    cancelled or failed result is allowed to be late) and the supervisor's record of
    an exited worker; the lease then expires at [now] with its holder kept, and the
    attempt's event is stored at the expected version plus one.  No later call
    accepts a result for that attempt at that version again.  A refusal changes
    nothing. *)
Theorem ingest_result_once clock owner envelope epoch now version canc fail s :
  match ingest_result clock owner envelope epoch now version canc fail s with
  | (s', Ok _) =>
      (exists l, ingest_effect clock owner envelope epoch now version (canc || fail) s s' l) /\
      (exists row, read_lease (we_run_id envelope) (we_node_id envelope) s' = Some row /\
         ls_fencing_token row = we_fencing_token envelope /\
         ls_attempt_id row = we_attempt_id envelope /\ lease_active row now = Ok false) /\
      forall later clock' owner' envelope' epoch' now' canc' fail', rtc lease_call s' later ->
        we_attempt_id envelope' = we_attempt_id envelope ->
        exists e, ingest_result clock' owner' envelope' epoch' now' version canc' fail' later
                  = (later, Err e)
  | (s', Err _) => s' = s
  end.
Proof.
  pose proof (ingest_cases clock owner envelope epoch now version canc fail s) as Hi.
  destruct (ingest_result _ _ _ _ _ _ _ _ s) as [s' [u|e]]; [|done].
  destruct Hi as (_ & _ & l & Hl). split; [by exists l|].
  destruct Hl as [(r & Hr & Hm & _ & Heq) _ Hnow Hc].
  unfold envelope_matches in Hm. rewrite !andb_true_iff, !Z.eqb_eq, String.eqb_eq in Hm.
  destruct Hm as [[_ Hmt] Hma]. split.
  - assert (Hk : lease_key l = (we_run_id envelope, we_node_id envelope)) by by rewrite Heq.
    exists (node_row clock l (isoformat now)). unfold read_lease.
    rewrite (lc_leases _ _ _ _ _ _ _ _ _ _ _ Hc), Hk, lookup_insert_eq.
    split_and!; [done|by rewrite Heq|by rewrite Heq|]. destruct now as [us|]; [|done].
    rewrite lease_active_at, Z.ltb_irrefl. done.
  - intros later clock' owner' envelope' epoch' now' canc' fail' [_ Hg]%lease_calls_advance Hid.
    pose proof (ingest_cases clock' owner' envelope' epoch' now' version canc' fail' later) as Hi'.
    destruct (ingest_result _ _ _ _ _ _ _ _ later) as [s2 [u'|e]]; [|exists e; by subst s2].
    exfalso. destruct Hi' as (_ & _ & l' & [(r' & _ & Hm' & _ & Heq') _ _ Hc']).
    unfold envelope_matches in Hm'. rewrite !andb_true_iff, String.eqb_eq in Hm'.
    destruct Hm' as [_ Hma'].
    pose proof (lc_attempt _ _ _ _ _ _ _ _ _ _ _ Hc) as H1.
    pose proof (lc_attempt _ _ _ _ _ _ _ _ _ _ _ Hc') as H2.
    assert (E1 : fl_attempt_id l = we_attempt_id envelope) by by rewrite Heq.
    assert (E2 : fl_attempt_id l' = we_attempt_id envelope) by (rewrite Heq'; cbn; congruence).
    rewrite E1 in H1. rewrite E2 in H2.
    pose proof (gr_versions _ _ Hg (attempt_ref (we_attempt_id envelope))). lia.
Qed.
End Claims.

(** ** Witness: two grants of one node *)
Module Demo.
#[local] Existing Instance IdentityProofs.toy_runtime.
#[local] Existing Instance IdentityProofs.toy_iso.
Definition start : Ledger := (acquire "t0" "alice" (Aware 0) 1000 empty_ledger).1.
Definition first_grant : tx FencedNodeLease :=
  grant "t1" "alice" "r-1" "build" "a-1" 1 (Aware 1) 10 0 "op-1".
Definition second_grant : tx FencedNodeLease :=
  grant "t3" "alice" "r-1" "build" "a-2" 1 (Aware 20) 10 0 "op-2".
Definition reconciled : AppendCommand := {|
  ac_correlation_id := "reconcile";
  ac_events := [LedgerTheorems.Demo.created];
  ac_inbox_command_id := None; ac_inbox_status := "processed"; ac_outbox_entries := [];
  ac_process_manager_updates := [{|
    pw_process_manager_name := "worker-supervisor"; pw_state_key := "r-1:build";
    pw_expected_version := 0;
    pw_state := [("status", JStr "exit_reconciled"); ("attempt_id", JStr "a-1");
                 ("fencing_token", JInt 1)] |}];
  ac_lease_updates := []; ac_artifact_references := [] |}.
Definition leased : Ledger := (first_grant start).1.
Definition after_exit : Ledger := ledger_run [("t2", OpAppend None reconciled)] leased.
Definition released : Ledger := (second_grant after_exit).1.
Definition lease1 : FencedNodeLease := {|
  fl_run_id := "r-1"; fl_node_id := "build"; fl_attempt_id := "a-1"; fl_epoch := 1;
  fl_fencing_token := 1; fl_operation_id := "op-1"; fl_owner := "alice";
  fl_expires_at := Aware 11 |}.
Definition lease2 : FencedNodeLease := {|
  fl_run_id := "r-1"; fl_node_id := "build"; fl_attempt_id := "a-2"; fl_epoch := 1;
  fl_fencing_token := 2; fl_operation_id := "op-2"; fl_owner := "alice";
  fl_expires_at := Aware 30 |}.
Definition late_result : WorkerResultEnvelope := {|
  we_run_id := "r-1"; we_node_id := "build"; we_attempt_id := "a-1"; we_epoch := 1;
  we_fencing_token := 1; we_operation_id := "op-1"; we_terminal_result := "passed";
  we_artifact_references := []; we_result := [] |}.
Lemma first_Ok : first_grant start = (leased, Ok lease1).
Proof. vm_compute. reflexivity. Qed.
Lemma second_Ok : second_grant after_exit = (released, Ok lease2).
Proof. vm_compute. reflexivity. Qed.
Lemma exit_call : lease_call leased after_exit.
Proof.
  apply call_other; [vm_compute; reflexivity|].
  apply (grows_run [("t2", OpAppend None reconciled)] leased).
Qed.
Lemma superseded_result_refused_witness :
  (1 < 2)%Z /\ exists e,
    ingest_result "t4" "alice" late_result 1 (Aware 21) 1 false false released = (released, Err e).
Proof.
  exact (superseded_result_refused "t1" "t3" "t4" "alice" "alice" "alice" "r-1" "build" "a-1" "a-2"
    1 1 1 (Aware 1) (Aware 20) (Aware 21) 10 10 0 0 1 "op-1" "op-2" start leased after_exit released
    released lease1 lease2 late_result false false first_Ok (rtc_once _ _ exit_call) second_Ok
    (rtc_refl _ _) eq_refl eq_refl eq_refl).
Defined.
End Demo.
