(* ===== verification/Serialization.v ===== *)
(** * Envelopes of plan executions and stacks ([domain/serialization.py])

    The versioned dictionaries the process managers store as event payloads. *)
From S2P Require Import Prelude PyText Json Identity JsonCanon StateMachine Lifecycles Aggregates.
From S2P Require Import Plans PlanExecutions PlanExecutionProofs Stacks.

Definition PLAN_EXECUTION_SCHEMA_VERSION : Z := 1.
Definition STACK_SCHEMA_VERSION : Z := 1.

(** [_envelope], [_unwrap_envelope] *)
Definition envelope (schema_version : Z) (data : list (string * json)) : list (string * json) :=
  [("schema_version", JInt schema_version); ("data", JObj data)].
Definition unwrap_envelope (raw : list (string * json)) (expected_schema_version : Z)
    : result (list (string * json)) :=
  raise_when negb (json_eqb (default JNull (dict_get "schema_version" raw))
                     (JInt expected_schema_version)) as InvalidInputError ;;
  match dict_get "data" raw with Some (JObj data) => Ok data | _ => Err InvalidInputError end.

Definition plan_execution_to_dict (p : PlanExecution) : list (string * json) :=
  envelope PLAN_EXECUTION_SCHEMA_VERSION (pe_to_mapping p).
Definition plan_execution_from_dict (raw : list (string * json)) : result PlanExecution :=
  data ← unwrap_envelope raw PLAN_EXECUTION_SCHEMA_VERSION;
  pe_from_mapping data.
Definition stack_to_dict (s : Stack) : list (string * json) :=
  envelope STACK_SCHEMA_VERSION (stack_to_mapping s).
Definition stack_from_dict (raw : list (string * json)) : result Stack :=
  data ← unwrap_envelope raw STACK_SCHEMA_VERSION;
  stack_from_mapping data.

(** ** What the process managers read back

    Plan executions and stacks survive the ledger: decoding the canonical form of
    the envelope gives the value back, its entries in identifier order. *)

Lemma canon_opt_str o : canon (opt_str o) = opt_str o.
Proof. by destruct o. Qed.

Lemma canon_envelope v data : canon (JObj (envelope v data)) =
  JObj [("data", canon (JObj data)); ("schema_version", JInt v)].
Proof. reflexivity. Qed.
Lemma unwrap_canon v data raw : canon (JObj data) = JObj raw ->
  unwrap_envelope [("data", canon (JObj data)); ("schema_version", JInt v)] v = Ok raw.
Proof. intros ->. unfold unwrap_envelope. cbn. by rewrite Z.eqb_refl. Qed.

(** ** Plan executions *)
Definition pe_sorted (p : PlanExecution) : PlanExecution := {|
  pe_id := pe_id p; pe_plan_id := pe_plan_id p; pe_plan_digest := pe_plan_digest p;
  pe_milestones := merge_sort key_le (pe_milestones p);
  pe_aggregate_version := pe_aggregate_version p |}.

Lemma pe_sorted_wf p : wf_plan_execution p -> wf_plan_execution (pe_sorted p).
Proof.
  intros [H1 H2 H3 H4 H5 H6]. apply plan_execution_post_init_Ok in H6 as (_ & Hne & Hv & Hk).
  split; cbn; try done.
  - by apply sort_keys_nodup.
  - by rewrite sort_keys_perm.
  - apply plan_execution_post_init_Ok. cbn. split_and!; [done| |done|by rewrite sort_keys_perm].
    intros He. apply Hne. apply Permutation_nil. by rewrite <- He, sort_keys_perm.
Qed.
Lemma link_canon l : link_ok l -> link_from_entry (canon (link_to_mapping l)) = Ok l.
Proof.
  intros Hl. assert (canon (link_to_mapping l) = JObj [
    ("milestone_id", JStr (ml_milestone_id l)); ("run_id", canon (opt_str (ml_run_id l)));
    ("state", JStr (enum_value (ml_state l)))]) as -> by reflexivity.
  rewrite canon_opt_str. by apply link_from_fields.
Qed.
Lemma plan_execution_stored p : wf_plan_execution p ->
  exists raw, canon (JObj (plan_execution_to_dict p)) = JObj raw /\
    plan_execution_from_dict raw = Ok (pe_sorted p).
Proof.
  intros Hwf. pose proof (pe_sorted_wf p Hwf) as Hs.
  unfold plan_execution_to_dict. rewrite canon_envelope. eexists. split; [done|].
  unfold plan_execution_from_dict.
  assert (canon (JObj (pe_to_mapping p)) = JObj [
    ("aggregate_version", JInt (pe_aggregate_version p)); ("id", JStr (pe_id p));
    ("milestones", canon (JObj (map (fun kv => (kv.1, link_to_mapping kv.2)) (pe_milestones p))));
    ("plan_digest", JStr (digest_str (pe_plan_digest p)));
    ("plan_id", JStr (pe_plan_id p))]) as Hc by reflexivity.
  rewrite (unwrap_canon _ _ _ Hc). cbn [mbind result_bind]. clear Hc.
  rewrite canon_dict by apply Hwf.
  destruct Hs as [_ _ _ H4 H5 H6]. pose proof H6 as H6'.
  apply plan_execution_post_init_Ok in H6' as (_ & _ & _ & Hk).
  eapply pe_from_fields; [by apply pe_sorted_wf|reflexivity..| |reflexivity].
  rewrite (pe_entries_roundtrip (fun l => canon (link_to_mapping l)) _ []); [done|..].
  - apply link_canon.
  - done.
  - done.
  - done.
Qed.

(** ** Stacks *)
Definition st_sorted (s : Stack) : Stack := {|
  st_id := st_id s; st_plan_id := st_plan_id s; st_base_ref := st_base_ref s;
  st_slices := merge_sort key_le (st_slices s);
  st_aggregate_version := st_aggregate_version s |}.
Definition slice_ok (s : StackSlice) : Prop :=
  valid_identifier (sl_milestone_id s) /\
  (forall d, sl_ci_evidence_digest s = Some d -> wf_digest d) /\ slice_post_init s = Ok s.

Lemma st_sorted_wf s : wf_stack s -> wf_stack (st_sorted s).
Proof.
  intros [H1 H2 H3 H4 H5]. apply stack_post_init_Ok in H5 as (_ & Hne & Hb & Hk & Hp & Hv).
  split; cbn; try done.
  - by apply sort_keys_nodup.
  - by rewrite sort_keys_perm.
  - apply stack_post_init_Ok. cbn -[range1]. split_and!; try done.
    + intros He. apply Hne. apply Permutation_nil. by rewrite <- He, sort_keys_perm.
    + by rewrite sort_keys_perm.
    + replace (length (merge_sort key_le (st_slices s))) with (length (st_slices s))
        by (apply Permutation_length; by rewrite sort_keys_perm).
      rewrite <- Hp. apply (Sorted_unique Z.le); [apply (Sorted_merge_sort _)..|].
      by rewrite !merge_sort_Permutation.
Qed.
Lemma slice_from_fields s entry : slice_ok s ->
  dict_get "milestone_id" entry = Some (JStr (sl_milestone_id s)) ->
  dict_get "position" entry = Some (JInt (sl_position s)) ->
  dict_get "base_ref" entry = Some (JStr (sl_base_ref s)) ->
  dict_get "branch_ref" entry = Some (JStr (sl_branch_ref s)) ->
  dict_get "state" entry = Some (JStr (enum_value (sl_state s))) ->
  dict_get "head_revision" entry = Some (opt_str (sl_head_revision s)) ->
  dict_get "ci_evidence_digest" entry = Some (opt_str (digest_str <$> sl_ci_evidence_digest s)) ->
  slice_from_mapping entry = Ok s.
Proof.
  intros (Hid & Hci & Hpi) G1 G2 G3 G4 G5 G6 G7.
  apply slice_post_init_Ok in Hpi as Hf. destruct Hf as (_ & _ & Hb & Hbr & _).
  unfold slice_from_mapping, mapping_str. rewrite G1, G2, G3, G4, G5, G6, G7.
  rewrite (nonblank_roundtrip (sl_milestone_id s)) by (by apply valid_identifier_nonblank).
  rewrite (nonblank_roundtrip (sl_base_ref s)), (nonblank_roundtrip (sl_branch_ref s)) by done.
  rewrite (nonblank_roundtrip (enum_value (sl_state s))) by by destruct (sl_state s).
  cbn [require_int mbind result_bind]. rewrite Hid. cbn [mbind result_bind].
  rewrite enum_of_value_of. cbn [mbind result_bind].
  destruct s as [i p b br st h [d|]]; cbn [sl_ci_evidence_digest fmap option_fmap option_map opt_str
    sl_head_revision] in *.
  - rewrite (digest_of_str_str d (Hci d eq_refl)).
    cbn -[slice_post_init]. by destruct h.
  - cbn -[slice_post_init]. by destruct h.
Qed.
Lemma slice_canon s : slice_ok s -> slice_from_mapping (slice_to_mapping s) = Ok s /\
  exists entry, canon (JObj (slice_to_mapping s)) = JObj entry /\ slice_from_mapping entry = Ok s.
Proof.
  intros Hs. split; [by apply slice_from_fields|].
  assert (canon (JObj (slice_to_mapping s)) = JObj [
    ("base_ref", JStr (sl_base_ref s)); ("branch_ref", JStr (sl_branch_ref s));
    ("ci_evidence_digest", canon (opt_str (digest_str <$> sl_ci_evidence_digest s)));
    ("head_revision", canon (opt_str (sl_head_revision s)));
    ("milestone_id", JStr (sl_milestone_id s)); ("position", JInt (sl_position s));
    ("state", JStr (enum_value (sl_state s)))]) as -> by reflexivity.
  rewrite !canon_opt_str. eexists. split; [done|]. by apply slice_from_fields.
Qed.

Definition slice_decodes (j : json) (s : StackSlice) : Prop :=
  match j with JObj entry => slice_from_mapping entry = Ok s | _ => False end.
Lemma st_add_entry_Ok j s acc : slice_decodes j s -> slice_ok s ->
  st_add_entry acc (sl_milestone_id s, j) = Ok (dict_set (sl_milestone_id s) s acc).
Proof.
  intros Hj [Hid _]. unfold st_add_entry. cbn [fst snd]. destruct j; try done.
  cbn in Hj. rewrite Hj. cbn [mbind result_bind]. by rewrite Hid.
Qed.
Lemma st_entries_roundtrip (g : StackSlice -> json) m acc :
  (forall s, slice_ok s -> slice_decodes (g s) s) ->
  NoDup (acc ++ m).*1 -> Forall (fun kv => slice_ok kv.2) m ->
  Forall (fun kv => sl_milestone_id kv.2 = kv.1) m ->
  foldM_result st_add_entry (map (fun kv => (kv.1, g kv.2)) m) acc = Ok (acc ++ m).
Proof.
  intros Hg. revert acc. induction m as [|[k s] m IH]; intros acc Hd Hl Hk.
  { by rewrite app_nil_r. }
  inversion Hl as [|?? Hl1 Hl2]; inversion Hk as [|?? Hk1 Hk2]; subst. cbn [fst snd] in *.
  subst k. cbn [map foldM_result fst snd].
  rewrite (st_add_entry_Ok _ s acc (Hg s Hl1) Hl1). cbn [mbind result_bind].
  rewrite dict_set_fresh.
  - rewrite IH; [by rewrite <- (assoc_L (++))| |done|done].
    by rewrite <- (assoc_L (++)).
  - rewrite fmap_app, fmap_cons in Hd. cbn in Hd. apply NoDup_app in Hd. set_solver.
Qed.
Lemma stack_from_fields s raw em : wf_stack s ->
  dict_get "id" raw = Some (JStr (st_id s)) ->
  dict_get "plan_id" raw = Some (JStr (st_plan_id s)) ->
  dict_get "base_ref" raw = Some (JStr (st_base_ref s)) ->
  dict_get "slices" raw = Some (JObj em) -> foldM_result st_add_entry em [] = Ok (st_slices s) ->
  dict_get "aggregate_version" raw = Some (JInt (st_aggregate_version s)) ->
  stack_from_mapping raw = Ok s.
Proof.
  intros [H1 H2 H3 H4 H5] G1 G2 G3 G4 G5 G6. apply stack_post_init_Ok in H5 as Hf.
  destruct Hf as (_ & _ & Hb & _). unfold stack_from_mapping, mapping_str.
  rewrite G4, G5, G6, G1, G2, G3.
  rewrite (nonblank_roundtrip (st_id s)), (nonblank_roundtrip (st_plan_id s))
    by (by apply valid_identifier_nonblank).
  rewrite (nonblank_roundtrip (st_base_ref s)) by done.
  cbn [require_int mbind result_bind]. rewrite H1. cbn [mbind result_bind]. rewrite H2.
  cbn [mbind result_bind]. by destruct s.
Qed.
Lemma stack_stored s : wf_stack s ->
  exists raw, canon (JObj (stack_to_dict s)) = JObj raw /\
    stack_from_dict raw = Ok (st_sorted s).
Proof.
  intros Hwf. pose proof (st_sorted_wf s Hwf) as Hs.
  unfold stack_to_dict. rewrite canon_envelope. eexists. split; [done|].
  unfold stack_from_dict.
  assert (canon (JObj (stack_to_mapping s)) = JObj [
    ("aggregate_version", JInt (st_aggregate_version s)); ("base_ref", JStr (st_base_ref s));
    ("id", JStr (st_id s)); ("plan_id", JStr (st_plan_id s));
    ("slices", canon (JObj (map (fun kv => (kv.1, JObj (slice_to_mapping kv.2))) (st_slices s))))])
    as Hc by reflexivity.
  rewrite (unwrap_canon _ _ _ Hc). cbn [mbind result_bind]. clear Hc.
  rewrite (canon_dict (fun sl => JObj (slice_to_mapping sl))) by apply Hwf.
  destruct Hs as [_ _ H3 H4 H5]. apply stack_post_init_Ok in H5 as (_ & _ & _ & Hk & _).
  eapply stack_from_fields; [by apply st_sorted_wf|reflexivity..| |reflexivity].
  rewrite (st_entries_roundtrip (fun sl => canon (JObj (slice_to_mapping sl))) _ []); [done|..].
  - intros sl Hsl. destruct (slice_canon sl Hsl) as (_ & entry & -> & He). done.
  - done.
  - done.
  - done.
Qed.
