(* ===== verification/Runtime.v ===== *)
(** * Claiming the ledger and registering runs ([engine/runtime.py])

    The part of [CoordinatorRuntime] that the plan and stack coordinators stand on:
    the epoch claim, the commit that carries an epoch guard, and the registration of
    a run.  A runtime's owner, the ledger's clock text and the caller's instant are
    arguments, as in [Coordinator]. *)
From S2P Require Import Prelude PyText Json Identity Redaction Ledger LedgerProofs LedgerTheorems.
From S2P Require Import Coordinator CoordinatorProofs.

Definition RUN_AGGREGATE_TYPE : string := "run".

(** [dict(projection.state)] *)
Definition state_dict (p : ProjectionRow) : result (list (string * json)) :=
  match pj_state p with JObj m => Ok m | _ => Err PyTypeError end.

(** A read that can raise. *)
Definition asks {A} (f : Ledger -> result A) : tx A := fun s => (s, f s).

(** [for x in l: s = f(s, x)] with effects. *)
Fixpoint foldM_tx {A S} (f : S -> A -> tx S) (l : list A) (s : S) : tx S :=
  match l with
  | [] => mret s
  | x :: l => s' ← f s x; foldM_tx f l s'
  end.

Section Runtime.
Context `{rt : PyRuntime} `{iso : IsoCodec}.

(** [_acquire_or_renew], which is [claim_epoch]. *)
Definition acquire_or_renew (clock owner : string) (now : datetime)
    (heartbeat_window : timedelta) : tx CoordinatorEpoch :=
  current ← read_epoch;
  match current with
  | None => acquire clock owner now heartbeat_window
  | Some c =>
      active ← lift (active_at c now);
      if negb active then acquire clock owner now heartbeat_window
      else if negb (String.eqb (ce_owner c) owner) then throw ExternalConflictError
      else renew clock owner (ce_epoch c) now heartbeat_window
  end.

(** [self._ledger.append(AppendCommand(correlation_id=..., events=(EventWrite(...),),
    process_manager_updates=(coordinator.epoch_guard(...),)))]: one event under the
    epoch guard, all the appends of the process managers and of [register_run]. *)
Definition guarded_append (clock owner : string) (epoch : Z) (now : datetime)
    (correlation_id aggregate_type aggregate_id : string) (expected_version : Z)
    (event_type : string) (payload : list (string * json)) : tx AppendResult :=
  event ← lift (mk_event_write aggregate_type aggregate_id expected_version event_type payload);
  guard ← epoch_guard owner epoch now;
  command ← lift (mk_command correlation_id [event] None "processed" [guard] []);
  append clock None command.

(** [register_run]; the state is compared as a JSON value, so a caller's state must
    hold lists where JSON has arrays. *)
Definition register_run (clock owner run_id : string) (initial_state : list (string * json))
    (now : datetime) (heartbeat_window : timedelta) : tx CoordinatorEpoch :=
  _ ← lift (raise_when blank run_id as InvalidInputError ;; Ok ());
  _ ← lift (raise_when negb (from_option (fun v => json_eqb v (JStr run_id)) false
                               (dict_get "run_id" initial_state)) as InvalidInputError ;; Ok ());
  epoch ← acquire_or_renew clock owner now heartbeat_window;
  projection ← gets (read_projection RUN_AGGREGATE_TYPE run_id);
  match projection with
  | None =>
      _ ← guarded_append clock owner (ce_epoch epoch) now ("run-register:" +:+ run_id)
            RUN_AGGREGATE_TYPE run_id 0 "run.created" initial_state;
      mret epoch
  | Some p =>
      state ← lift (state_dict p);
      if negb (json_eqb (JObj state) (JObj initial_state)) then throw ExternalConflictError
      else mret epoch
  end.
End Runtime.

(** ** What a claim and a registration leave alone

    A claim and a guarded append change one aggregate each; every other aggregate's
    projection, which is all a process manager reads, stays as it was. *)

(** ** Relations every outcome of a computation respects *)
Definition ensures {A} (R : Ledger -> Ledger -> Prop) (m : tx A) : Prop := forall s, R s (m s).1.

Section Ensures.
Context (R : Ledger -> Ledger -> Prop) `{!PreOrder R}.
Lemma ensures_reads {A} (m : tx A) : reads m -> ensures R m.
Proof. intros Hm s. by rewrite Hm. Qed.
Lemma ensures_ret {A} (a : A) : ensures R (mret a).
Proof. by intros s. Qed.
Lemma ensures_throw {A} e : ensures R (throw (A:=A) e).
Proof. by intros s. Qed.
Lemma ensures_bind {A B} (m : tx A) (f : A -> tx B) :
  ensures R m -> (forall a, ensures R (f a)) -> ensures R (mbind f m).
Proof.
  intros Hm Hf s. unfold mbind, tx_bind. specialize (Hm s).
  destruct (m s) as [s1 [a|e]]; [|done]. etrans; [exact Hm|apply Hf].
Qed.
Lemma ensures_lift {A B} (r : result A) (f : A -> tx B) :
  (forall a, r = Ok a -> ensures R (f a)) -> ensures R (mbind f (lift r)).
Proof. intros Hf s. rewrite lift_tx. destruct r as [a|e]; [by apply Hf|done]. Qed.
End Ensures.

Lemma asks_tx {A B} (f : Ledger -> result A) (k : A -> tx B) s :
  mbind (M:=tx) k (asks f) s = match f s with Ok a => k a s | Err e => (s, Err e) end.
Proof. apply read_tx. Qed.
Lemma bind_tx {A B} (m : tx A) (k : A -> tx B) s :
  mbind (M:=tx) k m s = match m s with (s1, Ok a) => k a s1 | (s1, Err e) => (s1, Err e) end.
Proof. done. Qed.
Lemma reads_asks {A} (f : Ledger -> result A) : reads (asks f).
Proof. by intros s. Qed.

(** ** Projections of an aggregate *)
Definition view_of (r : ref) (s : Ledger) : option (Z * string * Z * json) :=
  projection_view <$> (lg_projections s !! r).
Lemma view_version s r : wf_ledger s ->
  version_of r s = from_option (fun v => v.1.1.1) 0%Z (view_of r s).
Proof.
  intros Hs. rewrite <- (projection_version s r Hs). unfold view_of.
  by destruct (lg_projections s !! r).
Qed.
Lemma view_version_pos s r v : wf_ledger s -> view_of r s = Some v -> (1 <= version_of r s)%Z.
Proof.
  intros Hs Hv. rewrite (wl_aggregates s Hs). unfold view_of in Hv.
  rewrite (wl_projections s Hs) in Hv.
  destruct (events_of r (lg_events s)) as [|e l]; [done|]. cbn [length]. lia.
Qed.

(** [frame P s s']: the ledger grew well-formedly and kept the views in [P]. *)
Record frame (P : ref -> Prop) (s s' : Ledger) : Prop := {
  fr_grows : grows s s';
  fr_wf : wf_ledger s -> wf_ledger s';
  fr_view : wf_ledger s -> forall r, P r -> view_of r s' = view_of r s;
}.
#[export] Instance frame_preorder P : PreOrder (frame P).
Proof.
  split.
  - intros s. by split.
  - intros s1 s2 s3 [G1 W1 V1] [G2 W2 V2]. split; [by etrans|auto|].
    intros Hs r Hr. rewrite V2, V1; auto.
Qed.
Lemma frame_weaken (P Q : ref -> Prop) s s' : (forall r, Q r -> P r) -> frame P s s' -> frame Q s s'.
Proof. intros HPQ [G W V]. split; [done|done|]. intros Hs r Hr. by apply V, HPQ. Qed.

Lemma event_rows_other now corr l seq r : Forall (fun e => ew_ref e <> r) l ->
  events_of r (event_rows now corr l seq) = [].
Proof.
  intros Hl. revert seq. induction Hl as [|e l He _ IH]; intros seq; [done|].
  cbn [event_rows]. unfold events_of. cbn [List.filter event_row ev_aggregate].
  rewrite bool_decide_eq_false_2 by done. apply IH.
Qed.
Lemma events_of_app r l k : events_of r (l ++ k) = events_of r l ++ events_of r k.
Proof. unfold events_of. apply List.filter_app. Qed.
Lemma view_of_events s s' r : wf_ledger s -> wf_ledger s' ->
  last (events_of r (lg_events s')) = last (events_of r (lg_events s)) -> view_of r s' = view_of r s.
Proof. intros Hs Hs' He. unfold view_of. by rewrite !wl_projections, He by done. Qed.

Section Frames.
Context `{rt : PyRuntime} `{iso : IsoCodec}.

Lemma append_Ok_frame now store c s s' res P : append now store c s = (s', Ok res) ->
  (forall r, P r -> Forall (fun e => ew_ref e <> r) (ac_events c)) -> frame P s s'.
Proof.
  intros Ha HP.
  assert (Hw : wf_ledger s -> wf_ledger s') by (intros Hs; by eapply keeps_append).
  split; [by eapply grows_append|done|]. intros Hs r Hr.
  apply view_of_events; [done|by apply Hw|]. apply append_Ok_effect in Ha.
  rewrite (ef_events _ _ _ _ _ _ Ha), events_of_app, event_rows_other by auto.
  by rewrite app_nil_r.
Qed.
Lemma append_frame now store c P :
  (forall r, P r -> Forall (fun e => ew_ref e <> r) (ac_events c)) ->
  ensures (frame P) (append now store c).
Proof.
  intros HP s. destruct (append now store c s) as [s' [res|e]] eqn:Ha; cbn [fst].
  - by eapply append_Ok_frame.
  - apply append_atomic in Ha as ->. reflexivity.
Qed.

(** A ledger call that appends no event of an aggregate in [P]. *)
Definition op_avoids (P : ref -> Prop) (op : LedgerOp) : Prop :=
  match op with
  | OpAppend _ c => forall r, P r -> Forall (fun e => ew_ref e <> r) (ac_events c)
  | _ => True
  end.
Lemma ledger_step_frame P s now op : op_avoids P op -> frame P s (ledger_step s (now, op)).
Proof.
  intros Hop. destruct op as [store c|id ty corr payload key|id|name seq force|limit];
    [by apply (append_frame now store c)|..];
    (split; [by apply grows_step|apply wf_step|]; intros Hs r _;
     apply view_of_events; [done|by apply wf_step|];
     match goal with |- context [ledger_step s (now, ?op)] =>
       pose proof (f_equal snd (ledger_step_tables s now op ltac:(done))) as Ht end;
     cbn [snd append_tables] in Ht; by rewrite Ht).
Qed.

(** ** Claims *)
Definition coordinator_aggregate : ref := (COORDINATOR_AGGREGATE_TYPE, COORDINATOR_AGGREGATE_ID).
Definition not_coordinator (r : ref) : Prop := r <> coordinator_aggregate.

Lemma record_epoch_frame clock owner corr ty epoch deadline version :
  ensures (frame not_coordinator) (record_epoch clock owner corr ty epoch deadline version).
Proof.
  intros s. unfold record_epoch, coordinator_event. rewrite read_tx.
  destruct (mk_event_write _ _ _ _ _) as [ev|] eqn:Hev; [|reflexivity].
  apply mk_event_write_Ok in Hev as ->.
  refine (ensures_lift (frame not_coordinator) _ _ _ s). intros w _.
  apply (ensures_lift _). intros c ->%mk_command_Ok.
  apply (ensures_bind _); [apply append_frame; cbn|].
  - intros r Hr. constructor; [|constructor]. unfold ew_ref. cbn. by intros <-.
  - intros res. apply (ensures_lift _). intros v _. by apply (ensures_reads _).
Qed.
Lemma reads_current_owner owner epoch now : reads (require_current_owner owner epoch now).
Proof.
  intros s. pose proof (require_current_owner_spec owner epoch now s) as Hr.
  destruct (require_current_owner _ _ _ s) as [s' [c|e]]; [by destruct Hr|done].
Qed.
Lemma reads_epoch : reads read_epoch.
Proof. by intros s. Qed.
Lemma reads_guard owner epoch now : reads (epoch_guard owner epoch now).
Proof.
  intros s. unfold epoch_guard. rewrite lift_tx. destruct (require_aware now); [|done].
  pose proof (reads_current_owner owner epoch now s) as Hr. unfold mbind, tx_bind.
  destruct (require_current_owner _ _ _ s) as [s' [c|e]]; cbn in *; by subst.
Qed.
Lemma acquire_frame clock owner now window :
  ensures (frame not_coordinator) (acquire clock owner now window).
Proof.
  unfold acquire. do 2 (apply (ensures_lift _); intros _ _).
  apply (ensures_bind _); [apply (ensures_reads _), reads_epoch|]. intros cur.
  apply (ensures_lift _). intros [] _; [apply (ensures_throw _)|].
  apply record_epoch_frame.
Qed.
Lemma renew_frame clock owner epoch now window :
  ensures (frame not_coordinator) (renew clock owner epoch now window).
Proof.
  unfold renew. do 2 (apply (ensures_lift _); intros _ _).
  apply (ensures_bind _); [apply (ensures_reads _), reads_current_owner|]. intros cur.
  apply record_epoch_frame.
Qed.
Lemma acquire_or_renew_frame clock owner now window :
  ensures (frame not_coordinator) (acquire_or_renew clock owner now window).
Proof.
  unfold acquire_or_renew.
  apply (ensures_bind _); [apply (ensures_reads _), reads_epoch|].
  intros [c|]; [|apply acquire_frame].
  apply (ensures_lift _). intros active _.
  destruct (negb active); [apply acquire_frame|].
  destruct (negb _); [apply (ensures_throw _)|apply renew_frame].
Qed.

(** ** Guarded appends *)
Lemma guarded_append_spec clock owner epoch now corr ty id version ety payload s :
  match guarded_append clock owner epoch now corr ty id version ety payload s with
  | (s', Ok _) => version_of (ty, id) s = version /\
      frame (fun r => r <> (ty, id)) s s' /\
      (wf_ledger s -> view_of (ty, id) s' =
         Some ((version + 1)%Z, ety, 1%Z, canon (JObj payload)))
  | (s', Err _) => s' = s
  end.
Proof.
  unfold guarded_append. rewrite lift_tx.
  destruct (mk_event_write ty id version ety payload) as [ev|] eqn:Hev; [|done].
  apply mk_event_write_Ok in Hev as ->.
  unfold mbind at 1, tx_bind at 1. pose proof (reads_guard owner epoch now s) as Hg.
  destruct (epoch_guard owner epoch now s) as [s0 [guard|e]]; cbn [fst] in Hg; subst s0; [|done].
  rewrite lift_tx. destruct (mk_command _ _ _ _ _ _) as [c|] eqn:Hc; [|done].
  apply mk_command_Ok in Hc as ->.
  match goal with |- context [append clock None ?c s] => set (cmd := c) end.
  destruct (append clock None cmd s) as [s' [res|e]] eqn:Ha; [|by apply append_atomic in Ha].
  assert (Hfr : frame (fun r => r <> (ty, id)) s s').
  { eapply append_Ok_frame; [exact Ha|]. intros r Hr. repeat constructor. cbn. by intros <-. }
  pose proof (append_Ok_effect _ _ _ _ _ _ Ha) as [He _ Hexp Hver _ _ _ _ _ _ _ _ _ _].
  cbn [ac_events cmd] in *. split_and!.
  - apply Forall_inv in Hexp. unfold ew_ref in Hexp. cbn -[version_of] in Hexp.
    rewrite (Hver (ty, id)) in Hexp. unfold writes_to in Hexp. cbn [List.filter] in Hexp.
    rewrite bool_decide_eq_true_2 in Hexp by done. cbn [length] in Hexp. lia.
  - done.
  - intros Hs. unfold view_of. rewrite (wl_projections s') by (by apply (fr_wf _ _ _ Hfr)).
    rewrite He, events_of_app. unfold events_of at 2.
    cbn [event_rows List.filter event_row ev_aggregate ew_ref ew_aggregate_type ew_aggregate_id].
    rewrite bool_decide_eq_true_2 by done. by rewrite last_snoc.
Qed.

(** ** Registered runs *)
Definition run_ref (run_id : string) : ref := (RUN_AGGREGATE_TYPE, run_id).
Lemma register_run_spec clock owner run_id state now window s :
  match register_run clock owner run_id state now window s with
  | (s', Ok _) => frame (fun r => not_coordinator r /\ r <> run_ref run_id) s s' /\
      (wf_ledger s -> 1 <= version_of (run_ref run_id) s')%Z
  | (s', Err _) => frame (fun r => not_coordinator r /\ r <> run_ref run_id) s s'
  end.
Proof.
  unfold register_run. rewrite lift_tx. destruct (raise_if _ _ ≫= _); [|reflexivity].
  rewrite lift_tx. destruct (raise_if _ _ ≫= _); [|reflexivity].
  rewrite bind_tx. pose proof (acquire_or_renew_frame clock owner now window s) as Hf.
  destruct (acquire_or_renew clock owner now window s) as [s1 [ep|e]]; cbn [fst] in Hf;
    apply (frame_weaken _ (fun r => not_coordinator r /\ r <> run_ref run_id)) in Hf;
    try (by intros r []); [|done].
  rewrite bind_tx. unfold gets, read_projection.
  change (RUN_AGGREGATE_TYPE, run_id) with (run_ref run_id).
  destruct (lg_projections s1 !! run_ref run_id) as [p|] eqn:Hp.
  - rewrite lift_tx. destruct (state_dict p); [|done]. destruct (negb _); [done|]. split; [done|].
    intros Hs. eapply view_version_pos; [by apply (fr_wf _ _ _ Hf)|]. unfold view_of. by rewrite Hp.
  - rewrite bind_tx. pose proof (guarded_append_spec clock owner (ce_epoch ep) now
      ("run-register:" +:+ run_id) RUN_AGGREGATE_TYPE run_id 0 "run.created" state s1) as Hg.
    destruct (guarded_append _ _ _ _ _ _ _ _ _ _ s1) as [s2 [res|e]]; [|by subst s2].
    destruct Hg as (_ & Hfr & Hv). split.
    + etrans; [exact Hf|]. eapply frame_weaken; [|exact Hfr]. by intros r [_ ?].
    + intros Hs. apply (fr_wf _ _ _ Hf) in Hs. eapply view_version_pos; [|by apply Hv].
      by apply (fr_wf _ _ _ Hfr).
Qed.
End Frames.

(** The clock text, the calling runtime's owner, the instant and the window of a call. *)
Record CallSite := { cs_clock : string; cs_owner : string; cs_now : datetime; cs_window : timedelta }.
