(* ===== verification/LedgerCalls.v ===== *)
(** * Commands of the services outside the engine

    The incident and evaluation services append without an epoch guard: commands of
    events only, whose expected versions the ledger checks. *)
From S2P Require Import Prelude PyText Json JsonCanon Identity Redaction Ledger LedgerProofs LedgerTheorems.
From S2P Require Import Coordinator CoordinatorProofs Runtime.

Section LedgerCalls.
Context `{rt : PyRuntime}.
(** [EventWrite] with a schema version of its own. *)
Definition mk_versioned_write (aggregate_type aggregate_id : string) (expected_version : Z)
    (event_type : string) (schema_version : Z) (payload : list (string * json)) : result EventWrite :=
  event_write_post_init {|
    ew_aggregate_type := aggregate_type; ew_aggregate_id := aggregate_id;
    ew_expected_version := expected_version; ew_event_type := event_type;
    ew_schema_version := schema_version; ew_payload := payload; ew_causation_id := None |}.
(** [ledger.append(AppendCommand(correlation_id=..., events=(...)))] *)
Definition append_events (clock correlation_id : string) (writes : list (result EventWrite))
    : tx AppendResult :=
  events ← lift (mapM_result id writes);
  command ← lift (mk_command correlation_id events None "processed" [] []);
  append clock None command.
End LedgerCalls.
(** [try: m  except ExpectedVersionConflictError: handler] *)
Definition on_conflict {A} (m handler : tx A) : tx A := fun s =>
  match m s with
  | (s', Err ExpectedVersionConflictError) => handler s'
  | r => r
  end.

(** ** Several events in one command *)
Section Appends.
Context `{rt : PyRuntime}.
Lemma events_of_rows now corr l seq e : NoDup (map ew_ref l) -> e ∈ l ->
  exists n, events_of (ew_ref e) (event_rows now corr l seq) =
    [event_row now corr e (ew_expected_version e + 1) n].
Proof.
  intros Hnd He. revert seq. induction He as [e l|e x l He IH]; intros seq; cbn [map event_rows] in *;
    apply NoDup_cons in Hnd as [Hn Hnd]; unfold events_of; cbn [List.filter event_row ev_aggregate];
    fold (events_of (ew_ref e) (event_rows now corr l (seq + 1))).
  - rewrite bool_decide_eq_true_2 by done. eexists. f_equal. apply event_rows_other, Forall_forall.
    intros y Hy Heq. apply Hn. rewrite <- Heq. by apply list_elem_of_fmap_2.
  - rewrite bool_decide_eq_false_2; [by apply IH|]. intros Heq. apply Hn. rewrite Heq.
    by apply list_elem_of_fmap_2.
Qed.
Lemma writes_to_one l e : NoDup (map ew_ref l) -> e ∈ l -> writes_to (ew_ref e) l = 1%Z.
Proof.
  intros Hnd He. pose proof (events_of_rows "" "" l 0 e Hnd He) as [n H].
  apply (f_equal length) in H. cbn [length] in H. unfold writes_to. rewrite <- (inj_iff Z.of_nat) in H.
  change 1%Z with (Z.of_nat 1). rewrite <- H. f_equal. clear. generalize 0%Z. unfold events_of.
  induction l as [|x l IH]; intros z; [done|]. cbn [List.filter event_rows event_row ev_aggregate].
  case_bool_decide; cbn [length]; by rewrite (IH (z + 1)%Z).
Qed.
(** Each event was expected at its aggregate's version and is what is stored now. *)
Lemma append_view now store c s s' res e : append now store c s = (s', Ok res) -> wf_ledger s ->
  NoDup (map ew_ref (ac_events c)) -> e ∈ ac_events c ->
  version_of (ew_ref e) s = ew_expected_version e /\
  view_of (ew_ref e) s' =
    Some ((ew_expected_version e + 1)%Z, ew_event_type e, ew_schema_version e, canon (JObj (ew_payload e))).
Proof.
  intros Ha Hs Hnd He. pose proof (append_Ok_effect _ _ _ _ _ _ Ha) as [Hev _ Hexp Hver _ _ _ _ _ _ _ _ _ _].
  rewrite Forall_forall in Hexp. specialize (Hexp _ He). rewrite Hver, (writes_to_one _ _ Hnd He) in Hexp.
  split; [lia|]. unfold view_of.
  assert (Hs' : wf_ledger s') by by eapply keeps_append.
  rewrite (wl_projections s' Hs'), Hev, events_of_app.
  destruct (events_of_rows now (ac_correlation_id c) (ac_events c) (lg_event_seq s) e Hnd He) as [n ->].
  by rewrite last_snoc.
Qed.
Lemma mapM_result_id_Ok {A} (l : list (result A)) out : mapM_result id l = Ok out -> l = map Ok out.
Proof.
  revert out. induction l as [|x l IH]; intros out; cbn; [by intros [= <-]|].
  intros (y & Hy & (ys & Hys & [= <-])%bind_Ok)%bind_Ok. cbn. unfold id in Hy. by rewrite Hy, <- (IH ys).
Qed.
Lemma mk_versioned_write_Ok ty id ver ety sv payload e : mk_versioned_write ty id ver ety sv payload = Ok e ->
  e = {| ew_aggregate_type := ty; ew_aggregate_id := id; ew_expected_version := ver; ew_event_type := ety;
         ew_schema_version := sv; ew_payload := payload; ew_causation_id := None |}.
Proof.
  unfold mk_versioned_write, event_write_post_init. do 3 (intros (? & _ & ?)%bind_Ok; revert H).
  rewrite !raise_if_Ok. naive_solver.
Qed.
Lemma append_events_spec clock corr writes s :
  match append_events clock corr writes s with
  | (s', Ok _) => exists events, writes = map Ok events /\
      frame (fun r => r ∉ map ew_ref events) s s' /\
      (wf_ledger s -> NoDup (map ew_ref events) -> forall e, e ∈ events ->
        version_of (ew_ref e) s = ew_expected_version e /\
        view_of (ew_ref e) s' = Some ((ew_expected_version e + 1)%Z, ew_event_type e, ew_schema_version e,
          canon (JObj (ew_payload e))))
  | (s', Err _) => s' = s
  end.
Proof.
  unfold append_events. rewrite lift_tx. destruct (mapM_result id writes) as [events|] eqn:Hm; [|done].
  apply mapM_result_id_Ok in Hm. rewrite lift_tx.
  destruct (mk_command _ _ _ _ _ _) as [c|] eqn:Hc; [|done]. apply mk_command_Ok in Hc as ->.
  match goal with |- context [append clock None ?c s] => set (cmd := c) end.
  destruct (append clock None cmd s) as [s' [res|e]] eqn:Ha; [|by apply append_atomic in Ha].
  exists events. split_and!; [done| |].
  - eapply append_Ok_frame; [exact Ha|]. intros r Hr. cbn [ac_events cmd]. apply Forall_forall.
    intros e He <-. apply Hr. by apply list_elem_of_fmap_2.
  - intros Hs Hnd e He. exact (append_view _ _ _ _ _ _ e Ha Hs Hnd He).
Qed.
End Appends.

(** ** Rows of a table *)
Lemma elem_of_list_by_first {V} (name : string) (m : gmap ref V) (k : string) v :
  (k, v) ∈ list_by_first name m <-> m !! ((name, k) : ref) = Some v.
Proof.
  unfold list_by_first. rewrite list_elem_of_fmap. split.
  - intros ([[n k'] v'] & [= -> ->] & Hin). rewrite merge_sort_Permutation in Hin.
    apply elem_of_bfilter in Hin as [Hin Hn]. apply String.eqb_eq in Hn. cbn in Hn. subst n.
    by apply elem_of_map_to_list in Hin.
  - intros Hm. exists (((name, k) : ref), v). split; [done|]. rewrite merge_sort_Permutation.
    apply elem_of_bfilter. split; [by apply elem_of_map_to_list|]. by apply String.eqb_refl.
Qed.
Lemma list_by_first_nodup {V} (name : string) (m : gmap ref V) : NoDup (list_by_first name m).*1.
Proof.
  unfold list_by_first. rewrite <- list_fmap_compose.
  set (l := merge_sort _ _). assert (Hl : NoDup (l.*1) /\ Forall (fun kv => kv.1.1 = name) l).
  { unfold l. split.
    - rewrite merge_sort_Permutation. eapply sublist_NoDup; [apply (NoDup_fst_map_to_list m)|].
      apply fmap_sublist, bfilter_sublist.
    - apply Forall_forall. intros kv. rewrite merge_sort_Permutation. intros [_ H]%elem_of_bfilter.
      by apply String.eqb_eq in H. }
  clearbody l. destruct Hl as [Hd Hf]. induction Hf as [|[[n k] v] l Hn Hf IH]; [constructor|].
  cbn in *. subst n. apply NoDup_cons in Hd as [Hk Hd]. apply NoDup_cons. split; [|by apply IH].
  intros Hin. apply Hk. apply list_elem_of_fmap in Hin as ([[n k'] v'] & Hkk & Hin). cbn in Hkk. subst k'.
  apply list_elem_of_fmap. exists (((n, k) : ref), v'). split; [|done]. rewrite Forall_forall in Hf.
  specialize (Hf _ Hin). cbn in Hf. by subst n.
Qed.
