(* ===== verification/PlanCoordinator.v ===== *)
(** * The plan process manager ([engine/plan_execution.py])

    Fan-out and join of one running plan on the ledger.  [child_run_state] is the
    caller's function from a plan, a milestone and a run identifier to the run's
    initial state. *)
From S2P Require Import Prelude PyText Json Identity StateMachine Lifecycles Aggregates Plans.
From S2P Require Import PlanExecutions Scheduler Redaction Ledger Coordinator Serialization.
From S2P Require Import Runtime.

Definition PLAN_EXECUTION_AGGREGATE_TYPE : string := "plan_execution".

(** ** Child runs *)
(** [derive_child_run_id] *)
Definition derive_child_run_id `{PyRuntime} (plan : Plan) (milestone_id : string) : result string :=
  digest ← content_digest plan;
  let payload := py_join (String unit_sep "") [digest_str digest; plan_id plan; milestone_id] in
  mk_identifier ("plan-child-" +:+ sha256_hex (utf8 payload)).

(** [ChildRunStateBuilder] *)
Definition ChildRunStateBuilder : Type :=
  Plan -> string -> string -> result (list (string * json)).

(** [all(...)] and [[x for x in l if f(x)]] over conditions that can raise. *)
Fixpoint allM_result {A} (f : A -> result bool) (l : list A) : result bool :=
  match l with
  | [] => Ok true
  | x :: l => b ← f x; if (b : bool) then allM_result f l else Ok false
  end.
Fixpoint filterM_result {A} (f : A -> result bool) (l : list A) : result (list A) :=
  match l with
  | [] => Ok []
  | x :: l => b ← f x; r ← filterM_result f l; Ok (if (b : bool) then x :: r else r)
  end.

Definition link_state (p : PlanExecution) (milestone_id : string) : result MilestoneRunState :=
  l ← pe_link p milestone_id; Ok (ml_state l).
(** [_dependencies_succeeded] *)
Definition dependencies_succeeded (plan : Plan) (milestone_id : string) (current : PlanExecution)
    : result bool :=
  milestone ← plan_milestone plan milestone_id;
  allM_result (fun d => st ← link_state current d; Ok (bool_decide (st = MS_SUCCEEDED)))
    (pm_dependencies milestone).

(** [_MILESTONE_STATE_TO_SCHEDULABLE] *)
Definition milestone_state_to_schedulable (s : MilestoneRunState) : SchedulableState :=
  match s with
  | MS_PENDING => SS_QUEUED | MS_REGISTERED => SS_RUNNING | MS_SUCCEEDED => SS_SUCCEEDED
  | MS_BLOCKED => SS_BLOCKED | MS_FAILED => SS_FAILED | MS_CANCELLED => SS_CANCELLED
  end.
Definition schedulable_node_for (plan : Plan) (execution : PlanExecution)
    (plan_execution_id milestone_id : string) : result SchedulableNode :=
  milestone ← plan_milestone plan milestone_id;
  link ← pe_link execution milestone_id;
  key ← node_key_post_init {| nk_run_id := plan_execution_id; nk_node_id := milestone_id |};
  dependencies ← mapM_result (fun d =>
    node_key_post_init {| nk_run_id := plan_execution_id; nk_node_id := d |})
    (pm_dependencies milestone);
  schedulable_node_post_init {|
    sn_key := key; sn_dependencies := dependencies;
    sn_state := milestone_state_to_schedulable (ml_state link);
    sn_repository_id := Some (pm_repository milestone); sn_requirements_satisfied := true;
    sn_queued_since := None |}.
Definition schedulable_nodes_for_plan (plan : Plan) (execution : PlanExecution)
    (plan_execution_id : string) : result (list SchedulableNode) :=
  order ← topological_order plan;
  mapM_result (schedulable_node_for plan execution plan_execution_id) order.

(** ** Reading ([read], [_require]) *)
Definition pe_with_version (p : PlanExecution) (version : Z) : PlanExecution := {|
  pe_id := pe_id p; pe_plan_id := pe_plan_id p; pe_plan_digest := pe_plan_digest p;
  pe_milestones := pe_milestones p; pe_aggregate_version := version |}.
Definition execution_of_row (p : ProjectionRow) : result PlanExecution :=
  raw ← state_dict p;
  execution ← plan_execution_from_dict raw;
  if negb (pe_aggregate_version execution =? pj_aggregate_version p)%Z
  then plan_execution_post_init (pe_with_version execution (pj_aggregate_version p))
  else Ok execution.
Definition plan_read (plan_execution_id : string) (s : Ledger) : result (option PlanExecution) :=
  match read_projection PLAN_EXECUTION_AGGREGATE_TYPE plan_execution_id s with
  | None => Ok None
  | Some p => execution ← execution_of_row p; Ok (Some execution)
  end.
Definition plan_require (plan_execution_id : string) (s : Ledger) : result PlanExecution :=
  current ← plan_read plan_execution_id s;
  from_option_err InternalInvariantViolationError current.

Section PlanCoordinator.
Context `{rt : PyRuntime} `{iso : IsoCodec}.

(** [_record] *)
Definition plan_record (clock owner : string) (now : datetime) (heartbeat_window : timedelta)
    (current : PlanExecution) (link : MilestoneRunLink) : tx PlanExecution :=
  updated ← lift (with_milestone current link);
  epoch ← acquire_or_renew clock owner now heartbeat_window;
  _ ← guarded_append clock owner (ce_epoch epoch) now
        ("plan-execution-update:" +:+ pe_id current +:+ ":" +:+ ml_milestone_id link)
        PLAN_EXECUTION_AGGREGATE_TYPE (pe_id current) (pe_aggregate_version current)
        "plan_execution.milestone_updated" (plan_execution_to_dict updated);
  mret updated.

(** [start] *)
Definition plan_start (clock owner : string) (now : datetime) (heartbeat_window : timedelta)
    (plan : Plan) (plan_execution_id : string) : tx PlanExecution :=
  existing ← asks (plan_read plan_execution_id);
  initial ← lift (
    digest ← content_digest plan;
    order ← topological_order plan;
    pe_initial plan_execution_id (plan_id plan) digest order);
  match existing with
  | Some existing =>
      if negb (String.eqb (pe_plan_id existing) (pe_plan_id initial)) ||
         negb (bool_decide (pe_plan_digest existing = pe_plan_digest initial))
      then throw ExternalConflictError
      else mret existing
  | None =>
      epoch ← acquire_or_renew clock owner now heartbeat_window;
      _ ← guarded_append clock owner (ce_epoch epoch) now
            ("plan-execution-start:" +:+ plan_execution_id)
            PLAN_EXECUTION_AGGREGATE_TYPE plan_execution_id 0 "plan_execution.started"
            (plan_execution_to_dict initial);
      asks (plan_require plan_execution_id)
  end.

(** [_register_milestone] *)
Definition register_milestone (clock owner : string) (now : datetime)
    (heartbeat_window : timedelta) (child_run_state : ChildRunStateBuilder) (plan : Plan)
    (current : PlanExecution) (milestone_id : string) : tx PlanExecution :=
  run_id ← lift (derive_child_run_id plan milestone_id);
  state ← lift (child_run_state plan milestone_id run_id);
  _ ← register_run clock owner run_id state now heartbeat_window;
  link ← lift (l ← pe_link current milestone_id;
               link_transition_to l MS_REGISTERED (Some run_id));
  plan_record clock owner now heartbeat_window current link.

(** [fan_out] *)
Definition plan_ready (plan : Plan) (current : PlanExecution) : result (list string) :=
  order ← topological_order plan;
  filterM_result (fun m =>
    st ← link_state current m;
    if bool_decide (st = MS_PENDING) then dependencies_succeeded plan m current else Ok false)
    order.
Definition fan_out (clock owner : string) (now : datetime) (heartbeat_window : timedelta)
    (child_run_state : ChildRunStateBuilder) (plan : Plan) (plan_execution_id : string)
    : tx PlanExecution :=
  current ← asks (plan_require plan_execution_id);
  ready ← lift (plan_ready plan current);
  foldM_tx (register_milestone clock owner now heartbeat_window child_run_state plan)
    ready current.

(** [fan_out_within_limits]: the milestones the scheduler selects, in plan order. *)
Definition plan_selected (plan : Plan) (current : PlanExecution) (plan_execution_id : string)
    (limits : SchedulingLimits) (other_active : list SchedulableNode) : result (list string) :=
  own ← schedulable_nodes_for_plan plan current plan_execution_id;
  selection ← scheduler_plan (own ++ other_active) limits;
  selected_here ← mapM_result (fun k => mk_identifier (nk_node_id k))
    (List.filter (fun k => String.eqb (nk_run_id k) plan_execution_id) (sp_selected selection));
  order ← topological_order plan;
  Ok (List.filter (fun m => bool_decide (m ∈ selected_here)) order).
Definition fan_out_within_limits (clock owner : string) (now : datetime)
    (heartbeat_window : timedelta) (child_run_state : ChildRunStateBuilder) (plan : Plan)
    (plan_execution_id : string) (limits : SchedulingLimits)
    (other_active : list SchedulableNode) : tx PlanExecution :=
  current ← asks (plan_require plan_execution_id);
  selected ← lift (plan_selected plan current plan_execution_id limits other_active);
  foldM_tx (register_milestone clock owner now heartbeat_window child_run_state plan)
    selected current.

(** [record_milestone_outcome] *)
Definition record_milestone_outcome (clock owner : string) (now : datetime)
    (heartbeat_window : timedelta) (plan_execution_id milestone_id : string)
    (outcome : MilestoneRunState) : tx PlanExecution :=
  current ← asks (plan_require plan_execution_id);
  existing ← lift (pe_link current milestone_id);
  if bool_decide (ml_state existing = outcome) then mret current
  else
    updated_link ← lift (link_transition_to existing outcome None);
    plan_record clock owner now heartbeat_window current updated_link.

(** [cancel_unregistered] *)
Definition cancel_link (clock owner : string) (now : datetime) (heartbeat_window : timedelta)
    (current : PlanExecution) (link : MilestoneRunLink) : tx PlanExecution :=
  if bool_decide (ml_state link = MS_PENDING)
  then
    cancelled ← lift (link_transition_to link MS_CANCELLED None);
    plan_record clock owner now heartbeat_window current cancelled
  else mret current.
Definition cancel_unregistered (clock owner : string) (now : datetime)
    (heartbeat_window : timedelta) (plan_execution_id : string) : tx PlanExecution :=
  current ← asks (plan_require plan_execution_id);
  foldM_tx (cancel_link clock owner now heartbeat_window) (map snd (pe_milestones current))
    current.
End PlanCoordinator.
