(* ===== verification/PlanCoordinatorProofs.v ===== *)
(** * Fan-out and join, over any history

    The durable execution of a plan moves only by legal link advances, binds a
    milestone only to the run derived from the plan, and only after the milestone's
    dependencies succeeded; a fan-out registers every ready milestone; a running plan
    is never stuck. *)
From S2P Require Import Prelude PyText Json Identity IdentityProofs StateMachine Lifecycles Aggregates Graphs.
From S2P Require Import Plans PlanProofs PlanExecutions PlanExecutionProofs Scheduler.
From S2P Require Import SchedulerProofs Redaction Ledger LedgerProofs LedgerTheorems.
From S2P Require Import Coordinator CoordinatorProofs Serialization Runtime.
From S2P Require Import PlanCoordinator JsonCanon.

(** ** Conditions that can raise *)
Lemma allM_result_spec {A} (f : A -> result bool) (P : A -> Prop) l :
  (forall x, x ∈ l -> exists b, f x = Ok b /\ (b = true <-> P x)) ->
  exists b, allM_result f l = Ok b /\ (b = true <-> forall x, x ∈ l -> P x).
Proof.
  induction l as [|x l IH]; intros Hf; cbn [allM_result].
  { exists true. split; [done|]. split; [|done]. by intros _ x ?%not_elem_of_nil. }
  destruct (Hf x) as (b & -> & Hb); [left|]. cbn [mbind result_bind]. destruct b.
  - destruct IH as (b & -> & Hb'); [intros y Hy; apply Hf; by right|].
    exists b. split; [done|]. rewrite Hb'. setoid_rewrite elem_of_cons. naive_solver.
  - exists false. split; [done|]. split; [done|]. intros H. apply Hb, H. left.
Qed.
Lemma filterM_result_spec {A} (f : A -> result bool) (P : A -> Prop) l :
  (forall x, x ∈ l -> exists b, f x = Ok b /\ (b = true <-> P x)) ->
  exists r, filterM_result f l = Ok r /\ sublist r l /\ forall x, x ∈ r <-> x ∈ l /\ P x.
Proof.
  induction l as [|x l IH]; intros Hf; cbn [filterM_result].
  { exists []. split_and!; [done|done|]. intros x. rewrite elem_of_nil. tauto. }
  destruct (Hf x) as (b & -> & Hb); [left|]. cbn [mbind result_bind].
  destruct IH as (r & -> & Hs & Hr); [intros y Hy; apply Hf; by right|]. cbn [mbind result_bind].
  destruct b; eexists; split_and!; [done|by constructor| |done|by constructor|].
  - intros y. rewrite !elem_of_cons, Hr. naive_solver.
  - intros y. rewrite elem_of_cons, Hr. split; [naive_solver|].
    intros [[->|Hy] HP]; [|done]. by apply Hb in HP.
Qed.

(** ** Executions as the ledger shows them *)
Lemma pe_with_version_wf p v : wf_plan_execution p -> (0 <= v)%Z ->
  wf_plan_execution (pe_with_version p v).
Proof.
  intros [H1 H2 H3 H4 H5 H6] Hv. apply plan_execution_post_init_Ok in H6 as (_ & Hne & _ & Hk).
  split; cbn; try done. by apply plan_execution_post_init_Ok.
Qed.
Lemma plan_read_view id s s' : view_of (PLAN_EXECUTION_AGGREGATE_TYPE, id) s' =
  view_of (PLAN_EXECUTION_AGGREGATE_TYPE, id) s -> plan_read id s' = plan_read id s.
Proof.
  unfold plan_read, read_projection, view_of, projection_view, execution_of_row, state_dict.
  destruct (lg_projections s !! _) as [p|], (lg_projections s' !! _) as [p'|]; try done.
  cbn [fmap option_fmap option_map]. intros H. injection H as -> _ _ ->. done.
Qed.
Lemma plan_read_stored id s p v ety : wf_plan_execution p -> (0 <= v)%Z ->
  view_of (PLAN_EXECUTION_AGGREGATE_TYPE, id) s =
    Some (v, ety, 1%Z, canon (JObj (plan_execution_to_dict p))) ->
  plan_read id s = Ok (Some (pe_with_version (pe_sorted p) v)).
Proof.
  intros Hwf Hv. destruct (plan_execution_stored p Hwf) as (raw & -> & Hd).
  unfold plan_read, read_projection, view_of, projection_view.
  destruct (lg_projections s !! _) as [row|]; [|done].
  cbn [fmap option_fmap option_map]. intros H. injection H as Hver _ _ Hst.
  unfold execution_of_row, state_dict. rewrite Hst, Hver. cbn [mbind result_bind]. rewrite Hd.
  cbn [mbind result_bind]. destruct (Z.eqb_spec (pe_aggregate_version (pe_sorted p)) v) as [Hpv|]; cbn [negb].
  - rewrite <- Hpv. by destruct p.
  - pose proof (wpe_init _ (pe_with_version_wf _ v (pe_sorted_wf p Hwf) Hv)) as ->. done.
Qed.

(** A milestone's dependencies, and the milestones that succeeded. *)
Definition depends (plan : Plan) (d m : string) : Prop :=
  (d, m) ∈ milestone_edges (plan_milestones plan).
Definition succeeded (p : PlanExecution) (m : string) : Prop :=
  exists l, dict_get m (pe_milestones p) = Some l /\ ml_state l = MS_SUCCEEDED.
Definition deps_done (plan : Plan) (p : PlanExecution) (m : string) : Prop :=
  forall d, depends plan d m -> succeeded p d.
Definition pending (p : PlanExecution) (m : string) : Prop :=
  exists l, dict_get m (pe_milestones p) = Some l /\ ml_state l = MS_PENDING.

(** A durable execution of [plan] under [id]: of this plan, with its milestones, at
    the ledger's version; a milestone bound to a run is bound to the run derived
    from the plan, which is registered, and its dependencies have succeeded. *)
Record sound `{PyRuntime} (plan : Plan) (id : string) (s : Ledger) (p : PlanExecution) : Prop := {
  so_wf : wf_plan_execution p;
  so_id : pe_id p = id;
  so_plan : pe_plan_id p = plan_id plan;
  so_digest : content_digest plan = Ok (pe_plan_digest p);
  so_sorted : Sorted key_le (pe_milestones p);
  so_keys : (pe_milestones p).*1 ≡ₚ map pm_id (plan_milestones plan);
  so_version : version_of (PLAN_EXECUTION_AGGREGATE_TYPE, id) s = pe_aggregate_version p;
  so_runs : forall m l r, dict_get m (pe_milestones p) = Some l -> ml_run_id l = Some r ->
    derive_child_run_id plan m = Ok r /\ (1 <= version_of (run_ref r) s)%Z /\ deps_done plan p m;
}.

Section PlanHistory.
Context `{rt : PyRuntime} `{iso : IsoCodec} (plan : Plan) (id : string).
Hypothesis Hplan : wf_plan plan.
Hypothesis Hid : valid_identifier id.
Abbreviation pref := ((PLAN_EXECUTION_AGGREGATE_TYPE, id) : ref).

Definition holds (p : PlanExecution) (s : Ledger) : Prop :=
  wf_ledger s /\ plan_read id s = Ok (Some p) /\ sound plan id s p.
Definition plan_stored (s : Ledger) : Prop :=
  wf_ledger s /\ (plan_read id s = Ok None \/ exists p, holds p s).
(** Legal advances lead from [p] to [p']. *)
Definition legally (p p' : PlanExecution) : Prop :=
  exists os, Forall op_valid os /\ foldM_result pe_advance os p = Ok p'.
#[export] Instance legally_preorder : PreOrder legally.
Proof.
  split.
  - intros p. exists []. split; [constructor|done].
  - intros p1 p2 p3 (os1 & Hv1 & H1) (os2 & Hv2 & H2). exists (os1 ++ os2).
    split; [by apply Forall_app|]. revert p1 H1. clear Hv1.
    induction os1 as [|o os1 IH]; intros p1; cbn; [by intros [= ->]|].
    destruct (pe_advance p1 o); [|done]. apply IH.
Qed.
Definition evolves (s s' : Ledger) : Prop := plan_stored s -> plan_stored s' /\
  forall p, plan_read id s = Ok (Some p) -> exists p', plan_read id s' = Ok (Some p') /\ legally p p'.
#[export] Instance evolves_preorder : PreOrder evolves.
Proof.
  split.
  - intros s Hs. split; [done|]. intros p Hp. exists p. split; [done|reflexivity].
  - intros s1 s2 s3 H1 H2 Hs. destruct (H1 Hs) as [Hs2 Hp2]. destruct (H2 Hs2) as [Hs3 Hp3].
    split; [done|]. intros p (p' & Hp' & L1)%Hp2. apply Hp3 in Hp' as (p'' & Hp'' & L2).
    exists p''. split; [done|by etrans].
Qed.

(** ** Calls that leave the execution alone *)
Abbreviation aside := (frame (fun r => r = pref)).
Lemma holds_aside p s s' : holds p s -> aside s s' -> holds p s'.
Proof.
  intros (Hs & Hr & [H1 H2 H3 H4 H5 H6 H7 H8]) [G W V]. specialize (V Hs pref eq_refl).
  split_and!; [by apply W|by rewrite <- Hr; apply plan_read_view|].
  split; try done.
  - rewrite <- H7, !view_version by auto. by rewrite V.
  - intros m l r Hl Hm. destruct (H8 m l r Hl Hm) as (Hd & Hv & Hdd).
    split_and!; [done| |done]. pose proof (gr_versions _ _ G (run_ref r)). lia.
Qed.
Lemma aside_evolves s s' : aside s s' -> evolves s s'.
Proof.
  intros Hf [Hs Hor]. split.
  - split; [by apply (fr_wf _ _ _ Hf)|]. destruct Hor as [Hn|(p & Hp)].
    + left. rewrite <- Hn. by apply plan_read_view, (fr_view _ _ _ Hf).
    + right. exists p. by eapply holds_aside.
  - intros p Hp. exists p. split; [|reflexivity]. rewrite <- Hp.
    by apply plan_read_view, (fr_view _ _ _ Hf).
Qed.
Lemma claim_aside clock owner now w s :
  aside s (acquire_or_renew clock owner now w s).1.
Proof. eapply frame_weaken; [|apply acquire_or_renew_frame]. by intros r ->. Qed.

Lemma sound_sorted s p : sound plan id s p ->
  pe_with_version (pe_sorted p) (pe_aggregate_version p) = p.
Proof.
  intros [[_ _ _ Hd _ _] _ _ _ Hs _ _ _]. unfold pe_with_version, pe_sorted. cbn.
  rewrite sort_sorted by done. by destruct p.
Qed.

(** ** One durable advance *)
Lemma succeeded_stays p m t r p' d : wf_plan_execution p -> pe_advance p (m, t, r) = Ok p' ->
  succeeded p d -> succeeded p' d.
Proof.
  intros Hwf Ha (l & Hl & Hst). pose proof (advanced_step 0 p p' p' (m, t, r) Hwf Ha) as Hadv.
  destruct Hadv as [_ _ Hkeep _]; [by split; [|lia| |]|].
  exists l. split; [|done]. apply Hkeep; [done|]. by rewrite Hst.
Qed.
Lemma advance_sound s s' p m t r p' : sound plan id s p -> pe_advance p (m, t, r) = Ok p' ->
  (forall run, r = Some run ->
     derive_child_run_id plan m = Ok run /\ (1 <= version_of (run_ref run) s)%Z /\ deps_done plan p m) ->
  grows s s' -> version_of pref s' = pe_aggregate_version p' -> sound plan id s' p'.
Proof.
  intros [H1 H2 H3 H4 H5 H6 H7 H8] Ha Hr G Hv.
  destruct (pe_advance_Ok _ _ _ _ _ H1 Ha) as (l & l' & Hg & Hl' & _ & Hms & Hi & Hp & Hd & _).
  assert (Hk : (pe_milestones p').*1 = (pe_milestones p).*1).
  { rewrite Hms. apply dict_set_keys. by eapply dict_get_key. }
  assert (Hvalid : forall run, r = Some run -> valid_identifier run).
  { intros run Hrun. destruct (Hr run Hrun) as (Hder & _). unfold derive_child_run_id in Hder.
    apply bind_Ok in Hder as (d & _ & Hder). by apply mk_identifier_Ok in Hder as [-> ?]. }
  split; rewrite ?Hi, ?Hp, ?Hd; try done.
  - eapply pe_advance_wf; [|exact H1|exact Ha]. exact Hvalid.
  - by eapply sorted_same_keys.
  - by rewrite Hk.
  - intros m0 l0 run Hl0 Hrun.
    assert (Hsrc : derive_child_run_id plan m0 = Ok run /\ (1 <= version_of (run_ref run) s)%Z /\
      deps_done plan p m0).
    { rewrite Hms, dict_get_set in Hl0. case_decide as Hm; [|by eapply H8]. subst m0.
      injection Hl0 as <-. apply link_transition_to_Ok in Hl' as (_ & _ & _ & _ & Hrid).
      rewrite Hrun in Hrid. destruct r as [r|]; [apply Hr; congruence|]. by eapply H8. }
    destruct Hsrc as (Hder & Hver & Hdd). split_and!; [done| |].
    + pose proof (gr_versions _ _ G (run_ref run)). lia.
    + intros d Hdep. eapply succeeded_stays; [exact H1|exact Ha|]. by apply Hdd.
Qed.

Lemma record_holds clock owner now w p s m t r l l' : holds p s ->
  pe_link p m = Ok l -> link_transition_to l t r = Ok l' ->
  (forall run, r = Some run ->
     derive_child_run_id plan m = Ok run /\ (1 <= version_of (run_ref run) s)%Z /\ deps_done plan p m) ->
  match plan_record clock owner now w p l' s with
  | (s', Ok p') => pe_advance p (m, t, r) = Ok p' /\ holds p' s' /\ evolves s s'
  | (s', Err _) => evolves s s'
  end.
Proof.
  intros Hh Hl Hl' Hr. unfold plan_record. rewrite lift_tx.
  destruct (with_milestone p l') as [u|] eqn:Hu; [|reflexivity].
  assert (Ha : pe_advance p (m, t, r) = Ok u).
  { unfold pe_advance. rewrite Hl. cbn [mbind result_bind]. rewrite Hl'. exact Hu. }
  rewrite bind_tx. pose proof (claim_aside clock owner now w s) as Hc.
  destruct (acquire_or_renew clock owner now w s) as [s1 [ep|e]]; cbn [fst] in Hc;
    [|by apply aside_evolves]. pose proof (holds_aside _ _ _ Hh Hc) as (Hs1 & Hr1 & Hso).
  rewrite bind_tx. pose proof (so_id _ _ _ _ Hso) as Hpid. rewrite Hpid.
  match goal with |- context [guarded_append clock owner ?e now ?corr ?ty id ?v ?et ?pl s1] =>
    pose proof (guarded_append_spec clock owner e now corr ty id v et pl s1) as Hg;
    destruct (guarded_append clock owner e now corr ty id v et pl s1) as [s2 [res|e']] end.
  2: { subst s2. by apply aside_evolves. }
  destruct Hg as (Hv & Hfr & Hview). specialize (Hview Hs1).
  pose proof (so_wf _ _ _ _ Hso) as Hwf.
  destruct (pe_advance_Ok _ _ _ _ _ Hwf Ha) as (? & ? & _ & _ & _ & _ & _ & _ & _ & Hver & Hpi).
  pose proof (fr_wf _ _ _ Hfr Hs1) as Hs2.
  assert (Hso2 : sound plan id s2 u).
  { eapply advance_sound; [exact Hso|exact Ha| |apply (fr_grows _ _ _ Hfr)|].
    - intros run Hrun. destruct (Hr run Hrun) as (Hd & Hvr & Hdd). split_and!; [done| |done].
      pose proof (gr_versions _ _ (fr_grows _ _ _ Hc) (run_ref run)). lia.
    - rewrite view_version, Hview by done. cbn. lia. }
  apply plan_execution_post_init_Ok in Hpi as (_ & _ & Hnn & _).
  assert (Hread : plan_read id s2 = Ok (Some u)).
  { rewrite Hver in Hnn. rewrite (plan_read_stored id s2 u _ _ (so_wf _ _ _ _ Hso2) Hnn Hview).
    rewrite <- Hver. by rewrite (sound_sorted s2 u Hso2). }
  cbn [mret tx_ret]. split_and!; [done|done|]. intros Hinv. split; [split; [done|right; by exists u]|].
  intros p0 Hp0. destruct Hh as (_ & Hrd & _). rewrite Hrd in Hp0. injection Hp0 as <-.
  exists u. split; [done|]. exists [(m, t, r)]. split; [|cbn [foldM_result]; by rewrite Ha].
  constructor; [|constructor]. intros run Hrun. cbn in Hrun. destruct (Hr run Hrun) as (Hder & _).
  unfold derive_child_run_id in Hder. apply bind_Ok in Hder as (d & _ & Hder).
  by apply mk_identifier_Ok in Hder as [-> ?].
Qed.

(** ** Registering milestones *)
(** The link of a registered milestone. *)
Definition registered_link (m run : string) : MilestoneRunLink :=
  {| ml_milestone_id := m; ml_state := MS_REGISTERED; ml_run_id := Some run |}.
(** Exactly the milestones of [ms] changed: each is bound to its derived run. *)
Definition registers (ms : list string) (p p' : PlanExecution) : Prop := forall m,
  if decide (m ∈ ms)
  then exists run, derive_child_run_id plan m = Ok run /\
    dict_get m (pe_milestones p') = Some (registered_link m run)
  else dict_get m (pe_milestones p') = dict_get m (pe_milestones p).

Lemma pref_not_run run_id : pref <> run_ref run_id.
Proof. done. Qed.
Lemma register_holds clock owner now w b p s m : holds p s -> deps_done plan p m ->
  match register_milestone clock owner now w b plan p m s with
  | (s', Ok p') => (exists run, derive_child_run_id plan m = Ok run /\
      pe_advance p (m, MS_REGISTERED, Some run) = Ok p') /\ holds p' s' /\ evolves s s'
  | (s', Err _) => evolves s s'
  end.
Proof.
  intros Hh Hdd. unfold register_milestone. rewrite lift_tx.
  destruct (derive_child_run_id plan m) as [run|] eqn:Hrun; [|reflexivity]. rewrite lift_tx.
  destruct (b plan m run) as [st|]; [|reflexivity]. rewrite bind_tx.
  pose proof (register_run_spec clock owner run st now w s) as Hreg.
  destruct (register_run clock owner run st now w s) as [s1 [ep|e]].
  2: { apply aside_evolves. eapply frame_weaken; [|exact Hreg]. by intros r ->. }
  destruct Hreg as [Hfr Hver].
  assert (Hc : aside s s1) by (eapply frame_weaken; [|exact Hfr]; by intros r ->).
  specialize (Hver (proj1 Hh)). rewrite lift_tx.
  destruct (pe_link p m) as [l|] eqn:Hl; [|by apply aside_evolves]. cbn [mbind result_bind].
  destruct (link_transition_to l MS_REGISTERED (Some run)) as [l'|] eqn:Hl'; [|by apply aside_evolves].
  pose proof (record_holds clock owner now w p s1 m MS_REGISTERED (Some run) l l'
    (holds_aside _ _ _ Hh Hc) Hl Hl') as Hrec.
  destruct (plan_record _ _ _ _ _ _ s1) as [s2 [p'|e]].
  - destruct Hrec as (Ha & Hh' & Hev); [intros ? [= <-]; done|].
    split_and!; [by exists run|done|]. etrans; [by apply aside_evolves|done].
  - etrans; [by apply aside_evolves|]. apply Hrec. by intros ? [= <-].
Qed.

Lemma advance_registers p m run p' : wf_plan_execution p ->
  derive_child_run_id plan m = Ok run -> pe_advance p (m, MS_REGISTERED, Some run) = Ok p' ->
  registers [m] p p'.
Proof.
  intros Hwf Hrun Ha k. destruct (pe_advance_Ok _ _ _ _ _ Hwf Ha)
    as (l & l' & _ & Hl' & Hm & Hms & _). rewrite Hms, dict_get_set.
  apply link_transition_to_Ok in Hl' as (_ & Hst & Hid' & _ & Hr).
  destruct (decide (k ∈ [m])) as [->%list_elem_of_singleton|Hn].
  - rewrite decide_True by done. exists run. split; [done|]. unfold registered_link.
    destruct l'. cbn in *. congruence.
  - rewrite decide_False; [done|]. intros ->. apply Hn. by left.
Qed.
Lemma registers_cons m ms p p1 p2 : m ∉ ms -> registers [m] p p1 -> registers ms p1 p2 ->
  registers (m :: ms) p p2.
Proof.
  intros Hn H1 H2 k. specialize (H1 k). specialize (H2 k).
  destruct (decide (k = m)) as [->|Hk].
  - rewrite decide_True in H1 by by left. rewrite decide_True by by left.
    rewrite decide_False in H2 by done. by rewrite H2.
  - rewrite decide_False in H1 by set_solver.
    destruct (decide (k ∈ ms)); [by rewrite decide_True by set_solver|].
    rewrite decide_False by set_solver. by rewrite H2.
Qed.

Lemma register_loop clock owner now w b ms p s : holds p s -> NoDup ms ->
  Forall (deps_done plan p) ms ->
  match foldM_tx (register_milestone clock owner now w b plan) ms p s with
  | (s', Ok p') => holds p' s' /\ evolves s s' /\ registers ms p p'
  | (s', Err _) => evolves s s'
  end.
Proof.
  revert p s. induction ms as [|m ms IH]; intros p s Hh Hd Hdd; cbn [foldM_tx].
  { split_and!; [done|reflexivity|]. intros m. by rewrite decide_False by apply not_elem_of_nil. }
  apply NoDup_cons in Hd as [Hm Hd]. apply Forall_cons in Hdd as [Hdm Hdd]. rewrite bind_tx.
  pose proof (register_holds clock owner now w b p s m Hh Hdm) as Hreg.
  destruct (register_milestone _ _ _ _ _ _ _ _ s) as [s1 [p1|e]]; [|done].
  destruct Hreg as ((run & Hrun & Ha) & Hh1 & Hev).
  assert (Hwf : wf_plan_execution p) by apply Hh.
  assert (Hdd1 : Forall (deps_done plan p1) ms).
  { eapply Forall_impl; [exact Hdd|]. intros k Hk d Hdep. eapply succeeded_stays; [exact Hwf|exact Ha|].
    by apply Hk. }
  specialize (IH p1 s1 Hh1 Hd Hdd1).
  destruct (foldM_tx _ ms p1 s1) as [s2 [p2|e]]; [|by etrans].
  destruct IH as (Hh2 & Hev2 & Hr). split_and!; [done|by etrans|].
  eapply registers_cons; [done| |done]. by eapply advance_registers.
Qed.

(** ** Which milestones a fan-out registers *)
Lemma sound_key s p m : sound plan id s p -> m ∈ map pm_id (plan_milestones plan) ->
  exists l, dict_get m (pe_milestones p) = Some l /\ pe_link p m = Ok l.
Proof.
  intros Hso Hm. rewrite <- (so_keys _ _ _ _ Hso) in Hm. unfold pe_link.
  destruct (dict_get m (pe_milestones p)) as [l|] eqn:Hl; [by exists l|].
  by apply dict_get_None in Hl.
Qed.
Lemma plan_milestone_ok m : m ∈ map pm_id (plan_milestones plan) ->
  exists pm, plan_milestone plan m = Ok pm /\ pm ∈ plan_milestones plan /\ pm_id pm = m /\
    forall d, d ∈ pm_dependencies pm <-> depends plan d m.
Proof.
  intros (pm0 & -> & Hin)%list_elem_of_fmap. unfold plan_milestone.
  destruct (list_find (fun m => pm_id m = pm_id pm0) (plan_milestones plan)) as [[i pm]|] eqn:Hf.
  - apply list_find_Some in Hf as (Hi & Hpm & _). cbn.
    apply list_elem_of_lookup_2 in Hi. exists pm. split_and!; [done..|].
    intros d. unfold depends, milestone_edges. rewrite elem_of_edges. split.
    + intros Hd. by exists pm.
    + intros (pm' & Hpm' & He & Hd). destruct (wf_plan_graph plan Hplan) as (Hnd & _).
      assert (pm' = pm) as ->; [|done].
      apply (NoDup_map_inj pm_id (plan_milestones plan)); [done..|congruence].
  - apply list_find_None in Hf. rewrite Forall_forall in Hf. by destruct (Hf pm0 Hin).
Qed.

Lemma link_is s p m st : sound plan id s p -> m ∈ map pm_id (plan_milestones plan) ->
  exists b, (x ← link_state p m; Ok (bool_decide (x = st))) = Ok b /\
    (b = true <-> exists l, dict_get m (pe_milestones p) = Some l /\ ml_state l = st).
Proof.
  intros Hso Hm. destruct (sound_key s p m Hso Hm) as (l & Hg & Hl). unfold link_state.
  rewrite Hl. cbn [mbind result_bind]. eexists. split; [done|].
  rewrite bool_decide_eq_true, Hg. naive_solver.
Qed.
Lemma dependencies_succeeded_spec s p m : sound plan id s p ->
  m ∈ map pm_id (plan_milestones plan) ->
  exists b, dependencies_succeeded plan m p = Ok b /\ (b = true <-> deps_done plan p m).
Proof.
  intros Hso Hm. destruct (plan_milestone_ok m Hm) as (pm & Hpm & Hin & He & Hd).
  unfold dependencies_succeeded. rewrite Hpm. cbn [mbind result_bind].
  destruct (allM_result_spec
    (fun d => st ← link_state p d; Ok (bool_decide (st = MS_SUCCEEDED))) (succeeded p)
    (pm_dependencies pm)) as (b & Hb & Hiff).
  - intros d Hdd. apply (link_is s); [done|].
    destruct (wf_plan_graph plan Hplan) as (_ & _ & Hres & _). by eapply Hres.
  - exists b. split; [exact Hb|]. rewrite Hiff. unfold deps_done. by setoid_rewrite Hd.
Qed.
Lemma plan_ready_spec s p : sound plan id s p ->
  exists ready, plan_ready plan p = Ok ready /\ NoDup ready /\
    forall m, m ∈ ready <-> pending p m /\ deps_done plan p m.
Proof.
  intros Hso. destruct (topological_order_ok plan Hplan) as (order & Ho & Hp & _).
  unfold plan_ready. rewrite Ho. cbn [mbind result_bind].
  destruct (filterM_result_spec
    (fun m => st ← link_state p m; if bool_decide (st = MS_PENDING)
      then dependencies_succeeded plan m p else Ok false)
    (fun m => pending p m /\ deps_done plan p m) order) as (ready & Hr & Hs & Hin).
  - intros m Hm. rewrite Hp in Hm. destruct (sound_key s p m Hso Hm) as (l & Hg & Hl).
    unfold link_state, pending. rewrite Hl, Hg. cbn [mbind result_bind]. case_bool_decide as Hst.
    + destruct (dependencies_succeeded_spec s p m Hso Hm) as (b & -> & Hb). exists b.
      split; [done|]. rewrite Hb. naive_solver.
    + exists false. split; [done|]. naive_solver.
  - exists ready. split_and!; [exact Hr| |].
    + eapply sublist_NoDup; [|exact Hs]. rewrite Hp. by apply (wf_plan_graph plan Hplan).
    + intros m. rewrite Hin, Hp. split; [tauto|]. intros [Hpe Hd]. split_and!; [|done..].
      destruct Hpe as (l & Hl%dict_get_key & _). by rewrite <- (so_keys _ _ _ _ Hso).
Qed.
(** After the ready milestones are registered, none is ready. *)
Lemma registers_all_ready s s' p p' ready : sound plan id s p -> sound plan id s' p' ->
  plan_ready plan p = Ok ready -> registers ready p p' -> plan_ready plan p' = Ok [].
Proof.
  intros Hso Hso' Hr Hreg. destruct (plan_ready_spec s p Hso) as (r & Hr' & _ & Hin).
  rewrite Hr in Hr'. injection Hr' as <-.
  destruct (plan_ready_spec s' p' Hso') as (r' & -> & _ & Hin'). f_equal.
  destruct r' as [|m r']; [done|]. exfalso. destruct (proj1 (Hin' m)) as [Hpe Hdd]; [left|].
  assert (Hback : forall k, (exists l, dict_get k (pe_milestones p') = Some l /\
    ml_state l <> MS_REGISTERED) -> dict_get k (pe_milestones p') = dict_get k (pe_milestones p)).
  { intros k (l & Hl & Hst). specialize (Hreg k). destruct (decide (k ∈ ready)); [|done].
    destruct Hreg as (run & _ & Hreg). rewrite Hl in Hreg. injection Hreg as ->. done. }
  assert (Hm : m ∈ ready).
  { apply Hin. destruct Hpe as (l & Hl & Hst). split.
    - exists l. split; [|done]. rewrite <- Hback; [done|]. exists l. by rewrite Hst.
    - intros d (ld & Hld & Hsd)%Hdd. exists ld. split; [|done]. rewrite <- Hback; [done|].
      exists ld. by rewrite Hsd. }
  specialize (Hreg m). rewrite decide_True in Hreg by done.
  destruct Hreg as (run & _ & Hreg). destruct Hpe as (l & Hl & Hst). rewrite Hl in Hreg.
  injection Hreg as ->. done.
Qed.

(** ** Fan-out within limits *)
Lemma schedulable_node_Ok p m n : schedulable_node_for plan p id m = Ok n ->
  sn_key n = {| nk_run_id := id; nk_node_id := m |} /\
  (exists l, dict_get m (pe_milestones p) = Some l /\
     sn_state n = milestone_state_to_schedulable (ml_state l)) /\
  exists pm, plan_milestone plan m = Ok pm /\
    sn_dependencies n = map (fun d => {| nk_run_id := id; nk_node_id := d |}) (pm_dependencies pm).
Proof.
  unfold schedulable_node_for. intros (pm & Hpm & (l & Hl & H)%bind_Ok)%bind_Ok.
  apply bind_Ok in H as (k & Hk & H). apply bind_Ok in H as (ds & Hds & H).
  unfold node_key_post_init in Hk. apply raise_if_Ok in Hk as [_ [= <-]].
  unfold schedulable_node_post_init in H. rewrite !raise_if_Ok in H. destruct H as (_ & _ & [= <-]).
  split_and!; [done| |].
  - exists l. split; [|done]. unfold pe_link in Hl. by destruct (dict_get _ _); [injection Hl as ->|].
  - exists pm. split; [done|]. cbn. apply mapM_result_Ok in Hds.
    induction Hds as [|d k ds ks Hk _ IH]; [done|]. cbn. rewrite IH. f_equal.
    unfold node_key_post_init in Hk. by apply raise_if_Ok in Hk as [_ [= <-]].
Qed.
Lemma plan_selected_ready s p limits others sel : sound plan id s p ->
  plan_selected plan p id limits others = Ok sel ->
  NoDup sel /\ Forall (deps_done plan p) sel.
Proof.
  intros Hso H. unfold plan_selected, schedulable_nodes_for_plan in H.
  destruct (topological_order_ok plan Hplan) as (order & Ho & Hp & _). rewrite Ho in H.
  cbn [mbind result_bind] in H. apply bind_Ok in H as (own & Hown & H).
  apply bind_Ok in H as (selection & Hsel & H). apply bind_Ok in H as (here & Hhere & [= <-]).
  split. { apply NoDup_ListNoDup, List.NoDup_filter, NoDup_ListNoDup. rewrite Hp.
    by apply (wf_plan_graph plan Hplan). }
  apply mapM_result_Ok in Hown. apply mapM_result_Ok in Hhere.
  destruct (plan_inv _ limits selection Hsel) as (Hkeys & _).
  assert (Hnode : forall m, m ∈ order -> exists n, n ∈ own ++ others /\
    schedulable_node_for plan p id m = Ok n).
  { intros m Hm. apply list_elem_of_lookup in Hm as (i & Hi).
    destruct (Forall2_lookup_l _ _ _ _ _ Hown Hi) as (n & Hn & Hok). exists n. split; [|done].
    apply elem_of_app. left. by eapply list_elem_of_lookup_2. }
  apply Forall_forall. intros m Hm. apply elem_of_bfilter in Hm as [Hm Hb].
  apply bool_decide_eq_true in Hb. apply list_elem_of_lookup in Hb as (i & Hi).
  destruct (Forall2_lookup_r _ _ _ _ _ Hhere Hi) as (k & Hk & Hid').
  apply mk_identifier_Ok in Hid' as [-> _]. apply list_elem_of_lookup_2 in Hk.
  apply elem_of_bfilter in Hk as [Hk Hrun]. apply String.eqb_eq in Hrun.
  destruct (selected_node _ _ _ _ Hsel Hk) as (n & Hn & Hnk & _ & _ & Hdeps).
  destruct (Hnode _ Hm) as (n0 & Hn0 & Hok0). destruct (schedulable_node_Ok _ _ _ Hok0)
    as (Hk0 & _ & pm & Hpm & Hds).
  assert (n0 = n) as ->.
  { apply (key_inj (own ++ others)); [done..|]. rewrite Hk0, Hnk. destruct k. cbn in *. by subst. }
  destruct (plan_milestone_ok (nk_node_id k)) as (pm' & Hpm' & Hin & _ & Hdep); [by rewrite <- Hp|].
  rewrite Hpm in Hpm'. injection Hpm' as <-. intros d Hd. apply Hdep in Hd as Hdd.
  assert (Hdm : d ∈ order).
  { rewrite Hp. destruct (wf_plan_graph plan Hplan) as (_ & _ & Hres & _). by eapply Hres. }
  destruct (Hnode _ Hdm) as (nd & Hnd & Hokd).
  destruct (schedulable_node_Ok _ _ _ Hokd) as (Hkd & (l & Hl & Hst) & _).
  specialize (Hdeps {| nk_run_id := id; nk_node_id := d |}). rewrite Hds in Hdeps.
  rewrite (state_of_Some _ _ _ Hkeys) in Hdeps.
  destruct Hdeps as (nd' & Hnd' & Hkd' & Hst'); [apply list_elem_of_fmap; by exists d|].
  assert (nd' = nd) as ->.
  { apply (key_inj (own ++ others)); [done..|]. by rewrite Hkd, Hkd'. }
  exists l. split; [done|]. rewrite Hst in Hst'. by destruct (ml_state l).
Qed.

(** ** The calls *)
Lemma require_holds s p : plan_stored s -> plan_require id s = Ok p -> holds p s.
Proof.
  intros [Hs Hor] H. unfold plan_require in H. destruct Hor as [Hn|(p' & Hp')].
  - by rewrite Hn in H.
  - pose proof Hp' as (_ & Hr & _). rewrite Hr in H. injection H as <-. done.
Qed.
(** A call that requires the execution: its continuation runs where it holds. *)
Lemma after_require {A} (k : PlanExecution -> tx A) s :
  (forall p, holds p s -> evolves s (k p s).1) ->
  evolves s (mbind (M:=tx) k (asks (plan_require id)) s).1.
Proof.
  intros Hk Hinv. rewrite asks_tx. destruct (plan_require id s) as [p|] eqn:Hp.
  - apply Hk; [|done]. by apply require_holds.
  - by apply (reflexivity (R := evolves)).
Qed.
Lemma outcome_state {A} s (r : Ledger * result A) (Q : A -> Ledger -> Prop) :
  match r with (s', Ok a) => Q a s' /\ evolves s s' | (s', Err _) => evolves s s' end ->
  evolves s r.1.
Proof. destruct r as [s' [a|e]]; [by intros [_ H]|done]. Qed.

Lemma fan_out_evolves clock owner now w b s : evolves s (fan_out clock owner now w b plan id s).1.
Proof.
  apply after_require. intros p Hh. rewrite lift_tx.
  destruct (plan_ready_spec s p) as (ready & -> & Hnd & Hin); [apply Hh|].
  apply (outcome_state s _ (fun p' s' => holds p' s' /\ registers ready p p')).
  assert (Hdd : Forall (deps_done plan p) ready)
    by (apply Forall_forall; intros m Hm; by apply Hin).
  pose proof (register_loop clock owner now w b ready p s Hh Hnd Hdd) as Hl.
  destruct (foldM_tx _ ready p s) as [s' [p'|e]]; [|done]. by destruct Hl as (? & ? & ?).
Qed.
Lemma fan_out_within_evolves clock owner now w b limits others s :
  evolves s (fan_out_within_limits clock owner now w b plan id limits others s).1.
Proof.
  apply after_require. intros p Hh. rewrite lift_tx.
  destruct (plan_selected plan p id limits others) as [sel|] eqn:Hsel; [|reflexivity].
  apply plan_selected_ready with (s := s) in Hsel as [Hnd Hdd]; [|apply Hh].
  apply (outcome_state s _ (fun p' s' => holds p' s' /\ registers sel p p')).
  pose proof (register_loop clock owner now w b sel p s Hh Hnd Hdd) as Hl.
  destruct (foldM_tx _ sel p s) as [s' [p'|e]]; [|done]. by destruct Hl as (? & ? & ?).
Qed.
Lemma record_outcome_evolves clock owner now w m outcome s :
  evolves s (record_milestone_outcome clock owner now w id m outcome s).1.
Proof.
  apply after_require. intros p Hh. rewrite lift_tx.
  destruct (pe_link p m) as [l|] eqn:Hl; [|reflexivity]. case_bool_decide; [reflexivity|].
  rewrite lift_tx. destruct (link_transition_to l outcome None) as [l'|] eqn:Hl'; [|reflexivity].
  apply (outcome_state s _ (fun p' s' => pe_advance p (m, outcome, None) = Ok p' /\ holds p' s')).
  pose proof (record_holds clock owner now w p s m outcome None l l' Hh Hl Hl') as Hr.
  destruct (plan_record _ _ _ _ _ _ s) as [s' [p'|e]]; [|by apply Hr].
  by destruct Hr as (? & ? & ?).
Qed.

(** The links of the loop are still those of the current execution. *)
Lemma cancel_loop clock owner now w ls p s : holds p s ->
  Forall (fun l => pe_link p (ml_milestone_id l) = Ok l) ls -> NoDup (map ml_milestone_id ls) ->
  match foldM_tx (cancel_link clock owner now w) ls p s with
  | (s', Ok p') => holds p' s' /\ evolves s s'
  | (s', Err _) => evolves s s'
  end.
Proof.
  revert p s. induction ls as [|l ls IH]; intros p s Hh Hls Hnd; cbn [foldM_tx].
  { split; [done|reflexivity]. }
  apply Forall_cons in Hls as [Hl Hls]. cbn [map] in Hnd. apply NoDup_cons in Hnd as [Hn Hnd].
  rewrite bind_tx. unfold cancel_link at 1. case_bool_decide as Hst; [|by apply IH].
  rewrite lift_tx. destruct (link_transition_to l MS_CANCELLED None) as [l'|] eqn:Hl'; [|reflexivity].
  pose proof (record_holds clock owner now w p s _ MS_CANCELLED None l l' Hh Hl Hl') as Hr.
  destruct (plan_record _ _ _ _ _ _ s) as [s1 [p1|e]]; [|by apply Hr].
  destruct Hr as (Ha & Hh1 & Hev); [done|].
  assert (Hls1 : Forall (fun l => pe_link p1 (ml_milestone_id l) = Ok l) ls).
  { destruct (pe_advance_Ok p _ _ _ _ ltac:(apply Hh) Ha) as (? & ? & _ & _ & _ & Hms & _).
    apply Forall_forall. intros k Hk. rewrite Forall_forall in Hls. specialize (Hls k Hk).
    unfold pe_link in *. rewrite Hms, dict_get_set, decide_False; [done|]. intros He.
    apply Hn. rewrite <- He. apply list_elem_of_fmap. by exists k. }
  specialize (IH p1 s1 Hh1 Hls1 Hnd).
  destruct (foldM_tx _ ls p1 s1) as [s2 [p2|e]]; [|by etrans].
  destruct IH as [? ?]. split; [done|by etrans].
Qed.
Lemma cancel_evolves clock owner now w s : evolves s (cancel_unregistered clock owner now w id s).1.
Proof.
  apply after_require. intros p Hh.
  pose proof (so_wf _ _ _ _ (proj2 (proj2 Hh))) as [_ _ _ Hd _ Hpi].
  apply plan_execution_post_init_Ok in Hpi as (_ & _ & _ & Hk).
  assert (Hids : map ml_milestone_id (map snd (pe_milestones p)) = (pe_milestones p).*1).
  { clear Hh Hd. induction Hk as [|[k l] ms Hkl _ IH]; [done|]. cbn in *. by rewrite IH, Hkl. }
  apply (outcome_state s _ (fun p' s' => holds p' s')).
  apply cancel_loop; [done| |by rewrite Hids].
  apply Forall_forall. intros l (kv & -> & Hin)%list_elem_of_fmap. unfold pe_link.
  rewrite Forall_forall in Hk. rewrite (Hk kv Hin).
  rewrite (dict_get_elem kv.1 kv.2); [done|done|]. by destruct kv.
Qed.

(** [start] creates a sound execution. *)
Lemma initial_milestones (ids : list string) acc : NoDup (acc.*1 ++ ids) ->
  foldl (fun d i => dict_set i (pending_link i) d) acc ids =
  acc ++ map (fun i => (i, pending_link i)) ids.
Proof.
  revert acc. induction ids as [|i ids IH]; intros acc Hd; cbn; [by rewrite app_nil_r|].
  rewrite dict_set_fresh.
  - rewrite IH; [by rewrite <- app_assoc|]. rewrite fmap_app, <- app_assoc. done.
  - apply NoDup_app in Hd as (_ & Hn & _). intros Hin. apply (Hn i Hin). left.
Qed.
Lemma initial_wf digest order p : wf_digest digest -> order ≡ₚ map pm_id (plan_milestones plan) ->
  pe_initial id (plan_id plan) digest order = Ok p ->
  wf_plan_execution p /\ pe_id p = id /\ pe_plan_id p = plan_id plan /\ pe_plan_digest p = digest /\
  pe_milestones p = map (fun i => (i, pending_link i)) order.
Proof.
  intros Hdg Ho Hp. destruct (wf_plan_graph plan Hplan) as (Hnd & Hok & _ & _).
  assert (Hno : NoDup order) by by rewrite Ho.
  apply plan_execution_post_init_Ok in Hp as Hf. destruct Hf as (Hpe & _).
  rewrite initial_milestones in Hpe by done. cbn [app] in Hpe. unfold pe_initial in Hp.
  rewrite initial_milestones in Hp by done. cbn [app] in Hp. rewrite <- Hpe in Hp. subst p.
  assert (Hkeys : (map (fun i => (i, pending_link i)) order).*1 = order).
  { clear. induction order as [|i l IH]; [done|]. cbn. by rewrite IH. }
  split_and!; [|done..]. split; cbn [pe_id pe_plan_id pe_plan_digest pe_milestones]; try done.
  - by destruct Hplan as (? & _).
  - by rewrite Hkeys.
  - apply Forall_forall. intros kv (i & -> & Hi)%list_elem_of_fmap. cbn.
    split_and!; [|done|reflexivity]. rewrite Ho in Hi. apply list_elem_of_fmap in Hi as (m & -> & Hm).
    rewrite Forall_forall in Hok. by destruct (Hok m Hm).
Qed.
Lemma start_evolves clock owner now w s : evolves s (plan_start clock owner now w plan id s).1.
Proof.
  unfold plan_start. rewrite asks_tx.
  destruct (plan_read id s) as [existing|] eqn:Hr; [|reflexivity]. rewrite lift_tx.
  destruct (content_digest plan) as [digest|] eqn:Hdg; [|reflexivity].
  destruct (topological_order_ok plan Hplan) as (order & Ho & Hp & _). rewrite Ho.
  cbn [mbind result_bind].
  destruct (pe_initial id (plan_id plan) digest order) as [initial|] eqn:Hi; [|reflexivity].
  destruct existing as [ex|]; [by destruct (_ || _)|].
  apply initial_wf in Hi as (Hwf & H1 & H2 & H3 & H4); [|by eapply mk_digest_wf|done].
  rewrite bind_tx. pose proof (claim_aside clock owner now w s) as Hc.
  destruct (acquire_or_renew clock owner now w s) as [s1 [ep|e]]; cbn [fst] in *;
    [|by apply aside_evolves]. rewrite bind_tx.
  match goal with |- context [guarded_append clock owner ?e now ?corr ?ty id ?v ?et ?pl s1] =>
    pose proof (guarded_append_spec clock owner e now corr ty id v et pl s1) as Hg;
    destruct (guarded_append clock owner e now corr ty id v et pl s1) as [s2 [res|e']] end.
  2: { subst s2. by apply aside_evolves. }
  intros Hinv. pose proof (fr_wf _ _ _ Hc (proj1 Hinv)) as Hs1.
  destruct Hg as (Hv & Hfr & Hview). specialize (Hview Hs1). change (0 + 1)%Z with 1%Z in Hview.
  cbn [fst asks]. pose proof (fr_wf _ _ _ Hfr Hs1) as Hs2.
  split; [|by intros p Hp'; rewrite Hr in Hp']. split; [done|]. right.
  eexists. split_and!;
    [done|by eapply (plan_read_stored id s2 initial 1%Z); [done|lia|exact Hview]|].
  split; cbn; try done.
  - apply pe_with_version_wf; [by apply pe_sorted_wf|done].
  - by rewrite Hdg, H3.
  - apply (Sorted_merge_sort _).
  - rewrite sort_keys_perm, H4, <- Hp. clear. induction order as [|i l IH]; [done|]. cbn. by rewrite IH.
  - by rewrite view_version, Hview.
  - intros m l r Hl. rewrite dict_get_sort in Hl by apply Hwf. rewrite H4 in Hl.
    apply dict_get_Some_elem, list_elem_of_fmap in Hl as (i & [= -> ->] & _). done.
Qed.
End PlanHistory.

(** ** Histories *)
Inductive PlanCall :=
| PcStart
| PcFanOut (child_run_state : ChildRunStateBuilder)
| PcFanOutWithinLimits (child_run_state : ChildRunStateBuilder) (limits : SchedulingLimits)
    (other_active : list SchedulableNode)
| PcRecord (milestone_id : string) (outcome : MilestoneRunState)
| PcCancelUnregistered
| PcLedger (op : LedgerOp).
Definition plan_step `{PyRuntime} `{IsoCodec} (plan : Plan) (id : string) (s : Ledger)
    (call : CallSite * PlanCall) : Ledger :=
  let '({| cs_clock := clock; cs_owner := owner; cs_now := now; cs_window := w |}, c) := call in
  match c with
  | PcStart => (plan_start clock owner now w plan id s).1
  | PcFanOut b => (fan_out clock owner now w b plan id s).1
  | PcFanOutWithinLimits b limits others =>
      (fan_out_within_limits clock owner now w b plan id limits others s).1
  | PcRecord m outcome => (record_milestone_outcome clock owner now w id m outcome s).1
  | PcCancelUnregistered => (cancel_unregistered clock owner now w id s).1
  | PcLedger op => ledger_step s (clock, op)
  end.
Definition plan_run `{PyRuntime} `{IsoCodec} (plan : Plan) (id : string)
    (history : list (CallSite * PlanCall)) (s : Ledger) : Ledger :=
  foldl (plan_step plan id) s history.
(** Only the process manager appends events of the execution. *)
Definition plan_call_ok (id : string) (call : CallSite * PlanCall) : Prop :=
  match call.2 with
  | PcLedger op => op_avoids (fun r => r = (PLAN_EXECUTION_AGGREGATE_TYPE, id)) op
  | _ => True
  end.

Section Claims.
Context `{rt : PyRuntime} `{iso : IsoCodec}.

Lemma plan_step_evolves plan id s call : wf_plan plan -> valid_identifier id ->
  plan_call_ok id call -> evolves plan id s (plan_step plan id s call).
Proof.
  intros Hp Hi Hok. destruct call as [[clock owner now w] [|b|b l o|m o| |op]]; cbn [plan_step].
  - by apply start_evolves.
  - by apply fan_out_evolves.
  - by apply fan_out_within_evolves.
  - by apply record_outcome_evolves.
  - by apply cancel_evolves.
  - apply aside_evolves. by apply ledger_step_frame.
Qed.
Lemma plan_run_evolves plan id history s : wf_plan plan -> valid_identifier id ->
  Forall (plan_call_ok id) history -> evolves plan id s (plan_run plan id history s).
Proof.
  intros Hp Hi Hf. unfold plan_run. revert s. induction Hf as [|call history Hok _ IH]; intros s.
  - reflexivity.
  - cbn [foldl]. etrans; [by apply plan_step_evolves|apply IH].
Qed.

(** C23: whatever calls are made on a plan's execution (starts, fan-outs with any
    run builder and any limits, outcomes, cancellations, any ledger call that does
    not write its aggregate), in any order and whether they return or raise midway:
    its projection can always be read back; a milestone bound to a run is bound to
    the one run derived from the plan, that run is registered, and every dependency
    of the milestone has succeeded; and the execution read later is reached from
    the one read earlier by legal link advances only. *)
Theorem plan_history_sound plan id s h1 h2 :
  wf_plan plan -> valid_identifier id -> wf_ledger s -> plan_read id s = Ok None ->
  Forall (plan_call_ok id) h1 -> Forall (plan_call_ok id) h2 ->
  let s1 := plan_run plan id h1 s in
  let s2 := plan_run plan id h2 s1 in
  match plan_read id s1 with
  | Err _ => False
  | Ok None => True
  | Ok (Some p) => sound plan id s1 p /\
      exists p' os, plan_read id s2 = Ok (Some p') /\ sound plan id s2 p' /\
        Forall op_valid os /\ foldM_result pe_advance os p = Ok p'
  end.
Proof.
  intros Hp Hi Hs Hr H1 H2 s1 s2.
  destruct (plan_run_evolves plan id h1 s Hp Hi H1) as [Hst1 _]; [by split; [|left]|].
  fold s1 in Hst1. pose proof Hst1 as [_ [Hn|(p & Hh)]]; [by rewrite Hn|].
  pose proof Hh as (_ & Hrd & Hso). rewrite Hrd. split; [done|].
  destruct (plan_run_evolves plan id h2 s1 Hp Hi H2 Hst1) as [[_ Hst2] Hev]. fold s2 in Hst2, Hev.
  destruct (Hev p Hrd) as (p' & Hp' & os & Hos & Hrun). exists p', os. split_and!; [done| |done|done].
  destruct Hst2 as [Hn|(p2 & _ & Hr2 & Hso2)]; [by rewrite Hn in Hp'|].
  rewrite Hr2 in Hp'. by injection Hp' as ->.
Qed.

(** a fan-out that returns registered exactly the pending milestones whose
    dependencies had all succeeded, each bound to its derived run, left every other
    link alone, and leaves nothing to do: any later fan-out on that ledger returns
    the same execution and writes nothing. *)
Theorem fan_out_spec plan id clock owner now w b s s' p' :
  wf_plan plan -> valid_identifier id -> plan_stored plan id s ->
  fan_out clock owner now w b plan id s = (s', Ok p') ->
  exists p, plan_read id s = Ok (Some p) /\ plan_read id s' = Ok (Some p') /\
    (forall m, pending p m -> deps_done plan p m ->
       exists run, derive_child_run_id plan m = Ok run /\
         dict_get m (pe_milestones p') = Some (registered_link m run)) /\
    (forall m, ~ (pending p m /\ deps_done plan p m) ->
       dict_get m (pe_milestones p') = dict_get m (pe_milestones p)) /\
    forall clock' owner' now' w' b',
      fan_out clock' owner' now' w' b' plan id s' = (s', Ok p').
Proof.
  intros Hp Hi Hst Hf. unfold fan_out in Hf. rewrite asks_tx in Hf.
  destruct (plan_require id s) as [p|] eqn:Hreq; [|done].
  apply (require_holds plan id) in Hreq as Hh; [|done].
  destruct (plan_ready_spec plan id Hp s p) as (ready & Hr & Hnd & Hin); [apply Hh|].
  rewrite lift_tx, Hr in Hf.
  assert (Hdd : Forall (deps_done plan p) ready)
    by (apply Forall_forall; intros m Hm; by apply Hin).
  pose proof (register_loop plan id Hp Hi clock owner now w b ready p s Hh Hnd Hdd) as Hl.
  rewrite Hf in Hl. destruct Hl as (Hh' & _ & Hreg). exists p.
  split_and!; [apply Hh|apply Hh'| | |].
  - intros m Hpe Hd. specialize (Hreg m). by rewrite decide_True in Hreg by by apply Hin.
  - intros m Hn. specialize (Hreg m). rewrite decide_False in Hreg; [done|]. by rewrite Hin.
  - intros clock' owner' now' w' b'. unfold fan_out. rewrite asks_tx.
    destruct Hh' as (_ & Hrd & Hso). unfold plan_require. rewrite Hrd.
    cbn [mbind result_bind from_option_err]. rewrite lift_tx.
    rewrite (registers_all_ready plan id Hp s s' p p' ready); [done|apply Hh|done..].
Qed.
End Claims.

(** ** Witnesses *)
Module Demo.
#[local] Existing Instance IdentityProofs.toy_runtime.
#[local] Existing Instance toy_iso.
Definition child : ChildRunStateBuilder := fun _ m run =>
  Ok [("run_id", JStr run); ("milestone", JStr m)].
Definition at_time (us : Z) : CallSite :=
  {| cs_clock := "t"; cs_owner := "alice"; cs_now := Aware us; cs_window := 100 |}.
Definition first_calls : list (CallSite * PlanCall) :=
  [(at_time 0, PcStart); (at_time 1, PcFanOut child); (at_time 2, PcFanOut child)].
Definition later_calls : list (CallSite * PlanCall) :=
  [(at_time 3, PcRecord "m1" MS_SUCCEEDED);
   (at_time 4, PcFanOutWithinLimits child
      {| global_concurrency := 1; per_repository_concurrency := 1 |} [])].
Definition s1 : Ledger := plan_run sample_plan "pe-1" first_calls empty_ledger.
Definition s2 : Ledger := plan_run sample_plan "pe-1" later_calls s1.
Lemma plan_history_sound_witness : exists p p',
  plan_read "pe-1" s1 = Ok (Some p) /\ plan_read "pe-1" s2 = Ok (Some p') /\
  sound sample_plan "pe-1" s2 p' /\ exists os, foldM_result pe_advance os p = Ok p'.
Proof.
  assert (Hr : exists p, plan_read "pe-1" s1 = Ok (Some p))
    by (eexists; vm_compute; reflexivity).
  destruct Hr as (p & Hr). pose proof (plan_history_sound sample_plan "pe-1" empty_ledger first_calls
    later_calls sample_plan_wf eq_refl wf_empty_ledger eq_refl
    ltac:(repeat constructor) ltac:(repeat constructor)) as H.
  change (plan_run sample_plan "pe-1" first_calls empty_ledger) with s1 in H.
  change (plan_run sample_plan "pe-1" later_calls s1) with s2 in H. cbv zeta in H.
  rewrite Hr in H. destruct H as (_ & p' & os & Hp' & Hs & _ & Hos).
  exists p, p'. split_and!; [exact Hr|exact Hp'|exact Hs|by exists os].
Defined.

Definition s_started : Ledger := plan_run sample_plan "pe-1" [(at_time 0, PcStart)] empty_ledger.
Definition fanned : Ledger * result PlanExecution :=
  fan_out "t" "alice" (Aware 1) 100 child sample_plan "pe-1" s_started.
Definition p_out : PlanExecution :=
  match fanned.2 with Ok p => p | Err _ => sample_plan_execution end.
Lemma fanned_Ok : fan_out "t" "alice" (Aware 1) 100 child sample_plan "pe-1" s_started =
  (fanned.1, Ok p_out).
Proof.
  assert (H : is_ok fanned.2 = true) by (vm_compute; reflexivity).
  change (fanned = (fanned.1, Ok p_out)). unfold p_out. destruct fanned as [s' [p|e]]; done.
Qed.
Lemma started_stored : plan_stored sample_plan "pe-1" s_started.
Proof.
  apply (plan_run_evolves sample_plan "pe-1" [(at_time 0, PcStart)] empty_ledger);
    [exact sample_plan_wf|reflexivity|by repeat constructor|].
  split; [exact wf_empty_ledger|by left].
Qed.
Lemma fan_out_spec_witness :
  plan_read "pe-1" fanned.1 = Ok (Some p_out) /\
  (exists run, dict_get "m1" (pe_milestones p_out) = Some (registered_link "m1" run)) /\
  fan_out "t2" "bob" (Aware 2) 7 child sample_plan "pe-1" fanned.1 = (fanned.1, Ok p_out).
Proof.
  destruct (fan_out_spec sample_plan "pe-1" "t" "alice" (Aware 1) 100 child s_started fanned.1 p_out
    sample_plan_wf eq_refl started_stored fanned_Ok) as (p & Hp & Hp' & _ & _ & Hagain).
  split_and!; [exact Hp'| |apply Hagain]. eexists. vm_compute. reflexivity.
Defined.
End Demo.

(** ** A running plan is never stuck

    Over any history: while a plan's state is running, a milestone waits for its run,
    or one is ready for the next fan-out, or a cancelled dependency holds a pending
    milestone back; and only finitely many advances lie ahead. *)
(** A milestone in the state [st]. *)
Definition link_in (st : MilestoneRunState) (p : PlanExecution) (m : string) : Prop :=
  exists l, dict_get m (pe_milestones p) = Some l /\ ml_state l = st.
(** What a running plan waits for. *)
Definition waits_for_run (p : PlanExecution) : Prop := exists m, link_in MS_REGISTERED p m.
Definition next_fan_out `{PyRuntime} (plan : Plan) (p : PlanExecution) : Prop :=
  exists m ms, plan_ready plan p = Ok (m :: ms).
Definition held_back (plan : Plan) (p : PlanExecution) : Prop :=
  exists m d, pending p m /\ depends plan d m /\ link_in MS_CANCELLED p d.

(** The first element of a list with a property. *)
Lemma first_with {A} (P : A -> Prop) (l : list A) : (forall x, P x \/ ~ P x) -> (exists x, x ∈ l /\ P x) ->
  exists pre x post, l = pre ++ x :: post /\ P x /\ forall y, y ∈ pre -> ~ P y.
Proof.
  intros Hdec. induction l as [|y l IH]; intros (x & Hx & HP); [by apply elem_of_nil in Hx|].
  destruct (Hdec y) as [Hy|Hy].
  - exists [], y, l. split_and!; [done|done|]. intros z Hz. by apply elem_of_nil in Hz.
  - apply elem_of_cons in Hx as [->|Hx]; [done|]. destruct IH as (pre & z & post & -> & Hz & Hpre); [by exists x|].
    exists (y :: pre), z, post. split_and!; [done|done|]. intros w [->|Hw]%elem_of_cons; [done|by apply Hpre].
Qed.

Lemma all_or_one {A} (P Q : A -> Prop) (l : list A) : (forall x, x ∈ l -> P x \/ Q x) ->
  (forall x, x ∈ l -> P x) \/ exists x, x ∈ l /\ Q x.
Proof.
  induction l as [|y l IH]; intros H; [left; intros x Hx; by apply elem_of_nil in Hx|].
  destruct (H y) as [Hy|Hy]; [left| |right; exists y; split; [left|done]].
  destruct IH as [Hl|(x & ? & ?)]; [intros x Hx; apply H; by right| |right; exists x; split; [by right|done]].
  left. intros x [->|Hx]%elem_of_cons; [done|by apply Hl].
Qed.

(** ** Cancelling settles what is held back *)
(** The epoch is free for [owner], or already its own. *)
Definition claimable `{IsoCodec} (owner : string) (us : Z) (s : Ledger) : Prop :=
  match current_epoch s with
  | Ok None => True
  | Ok (Some c) => (micros (ce_heartbeat_deadline c) <= us)%Z \/ ce_owner c = owner
  | Err _ => False
  end.
Definition cancelled_link (l : MilestoneRunLink) : MilestoneRunLink :=
  if bool_decide (ml_state l = MS_PENDING)
  then {| ml_milestone_id := ml_milestone_id l; ml_state := MS_CANCELLED; ml_run_id := ml_run_id l |} else l.

Section Progress.
Context `{rt : PyRuntime} `{iso : IsoCodec} (plan : Plan) (id : string).
Hypothesis Hplan : wf_plan plan.

(** A running plan holds no failed or blocked milestone, and one that is not settled. *)
Lemma running_links p : NoDup (pe_milestones p).*1 -> pe_state p = PES_RUNNING ->
  (forall m, ~ link_in MS_FAILED p m /\ ~ link_in MS_BLOCKED p m) /\
  exists m, link_in MS_REGISTERED p m \/ pending p m.
Proof.
  intros Hnd. unfold pe_state.
  assert (Hin : forall m st, link_in st p m -> st ∈ pe_statuses p).
  { intros m st (l & Hl%dict_get_Some_elem & <-). unfold pe_statuses.
    apply list_elem_of_fmap. by exists (m, l). }
  case_bool_decide as Hf; [done|]. case_bool_decide as Hb; [done|].
  destruct (existsb _ _) eqn:He; [|by case_bool_decide]. intros _.
  split; [intros m; split; intros Hm; [apply Hf|apply Hb]; by eapply Hin|].
  apply existsb_exists in He as (st & Hst%list_elem_of_In & Hns).
  apply list_elem_of_fmap in Hst as ([m l] & -> & Hml). cbn in *.
  apply (dict_get_elem _ _ _ Hnd) in Hml. exists m. rewrite negb_true_iff, bool_decide_eq_false in Hns.
  destruct (ml_state l) eqn:Hs; [right|left|..]; try (by exists l); exfalso.
  - apply Hns. set_solver.
  - apply Hb. by apply (Hin m); exists l.
  - apply Hf. by apply (Hin m); exists l.
  - apply Hns. set_solver.
Qed.
Lemma running_progress s p : sound plan id s p -> pe_state p = PES_RUNNING ->
  waits_for_run p \/ next_fan_out plan p \/ held_back plan p.
Proof.
  intros Hso Hrun. assert (Hnd : NoDup (pe_milestones p).*1).
  { rewrite (so_keys _ _ _ _ Hso). by apply (wf_plan_graph plan Hplan). }
  destruct (running_links p Hnd Hrun) as [Hbad [m [Hm|Hm]]]; [by left; exists m|].
  destruct (topological_order_ok plan Hplan) as (order & _ & Hperm & Hord & _).
  assert (Hkey : forall x st, link_in st p x -> x ∈ order).
  { intros x st (l & Hl%dict_get_key & _). by rewrite Hperm, <- (so_keys _ _ _ _ Hso). }
  destruct (first_with (pending p) order) as (pre & x & post & He & Hx & Hpre).
  { intros y. unfold pending. destruct (dict_get y (pe_milestones p)) as [l|]; [|right; by intros (? & [=] & _)].
    destruct (decide (ml_state l = MS_PENDING)); [left; by exists l|right; by intros (? & [= <-] & ?)]. }
  { exists m. split; [by eapply Hkey|done]. }
  destruct (plan_ready_spec plan id Hplan s p Hso) as (ready & Hr & _ & Hin).
  destruct ready as [|r ready]; [|right; left; by exists r, ready].
  assert (Hnot : ~ deps_done plan p x) by (intros Hd; by apply (elem_of_nil x), Hin).
  (* a dependency of [x] comes before it, so it is not pending *)
  destruct (plan_milestone_ok plan Hplan x) as (pm & _ & _ & _ & Hdep); [rewrite <- Hperm; by eapply Hkey|].
  destruct (all_or_one (succeeded p) (fun d => waits_for_run p \/ held_back plan p) (pm_dependencies pm))
    as [Hall|(d & _ & [?|?])]; [|exfalso; apply Hnot; intros d Hd; by apply Hall, Hdep|by left|by right; right].
  intros d Hd%Hdep. assert (d ∈ pre) as Hdp by (by eapply Hord).
  destruct (sound_key plan id s p d Hso) as (l & Hl & _); [rewrite <- Hperm, He; apply elem_of_app; by left|].
  destruct (ml_state l) eqn:Hs.
  - destruct (Hpre d Hdp). by exists l.
  - right; left. exists d. by exists l.
  - left. by exists l.
  - destruct (Hbad d) as [_ []]. by exists l.
  - destruct (Hbad d) as [[] _]. by exists l.
  - right; right. exists x, d. split_and!; [done|done|by exists l].
Qed.
(** Without pending milestones a running plan waits for a run. *)
Lemma no_pending_waits s p p' : holds plan id p' s ->
  (forall m, dict_get m (pe_milestones p') = cancelled_link <$> dict_get m (pe_milestones p)) ->
  pe_state p' = PES_RUNNING -> waits_for_run p'.
Proof.
  intros (_ & _ & Hso) Hm Hrun. destruct (running_links p') as [_ [m [Hr|(l & Hl & Hst)]]]; [|done|by exists m|].
  { rewrite (so_keys _ _ _ _ Hso). by apply (wf_plan_graph plan Hplan). }
  rewrite Hm in Hl. destruct (dict_get m (pe_milestones p)) as [k|]; [|done]. injection Hl as <-.
  unfold cancelled_link in Hst. by case_bool_decide.
Qed.
End Progress.

Section Claiming.
Context `{rt : PyRuntime} `{iso : IsoCodec}.
Variables (clock owner : string) (us window : Z).
Hypothesis (Ho : blank owner = false) (Hw : (0 < window)%Z) (Hco : has_credentials owner = false)
  (Hcd : has_credentials (isoformat (Aware (us + window))) = false).
Lemma claim_succeeds s : wf_ledger s -> claimable owner us s ->
  exists s' c, acquire_or_renew clock owner (Aware us) window s = (s', Ok c) /\
    current_epoch s' = Ok (Some c) /\ ce_owner c = owner /\ ce_heartbeat_deadline c = Aware (us + window).
Proof.
  intros Hs Hc. unfold claimable in Hc. pose proof (acquire_spec clock owner us window s Hs Ho Hw Hco Hcd) as Ha.
  unfold acquire_or_renew, read_epoch. rewrite read_tx. destruct (current_epoch s) as [[c|]|] eqn:Hcur; [|clear Hc|done].
  2: { cbn [from_option] in Ha. destruct Ha as (s' & Hr & He & _). rewrite Hr. eauto 10. }
  destruct (current_epoch_valid _ _ Hcur) as [Hver Hval]. destruct (epoch_valid _ Hval) as (He1 & _ & Hv & d & Hd).
  rewrite lift_tx. unfold active_at. cbn [from_option] in Ha. rewrite Hd in Hc, Ha |- *. cbn [require_aware tz_aware negb raise_if mbind result_bind dt_lt].
  cbn [from_option micros] in Hc, Ha.
  change (dt_lt (Aware us) (Aware d)) with (Ok (us <? d)%Z : result bool).
  destruct (Z.ltb_spec us d) as [Hlt|Hle]; cbn [negb].
  - destruct Hc as [?|Hown]; [lia|]. rewrite Hown, String.eqb_refl. cbn [negb].
    unfold renew. rewrite lift_tx. change (require_aware (Aware us)) with (Ok () : result ()). rewrite lift_tx.
    rewrite (proj2 (window_positive window) Hw).
    assert (Hreq : require_current_owner owner (ce_epoch c) (Aware us) s = (s, Ok c)).
    { unfold require_current_owner, read_epoch. rewrite read_tx, Hcur, Z.eqb_refl, Hown, String.eqb_refl. cbn [negb orb].
      rewrite lift_tx. unfold active_at. rewrite Hd. change (dt_lt (Aware us) (Aware d)) with (Ok (us <? d)%Z : result bool).
      cbn [require_aware tz_aware negb raise_if mbind result_bind]. by rewrite (proj2 (Z.ltb_lt us d)) by lia. }
    unfold mbind at 1, tx_bind at 1. rewrite Hreq, <- Hver. cbn [dt_add].
    destruct (record_epoch_succeeds clock owner ("coordinator-heartbeat:" +:+ pretty (ce_epoch c))
      "coordinator.heartbeat_recorded" (ce_epoch c) (us + window) s) as (s' & c' & Hr); try done; [by apply nonblank_app|lia|].
    pose proof (record_epoch_spec clock owner ("coordinator-heartbeat:" +:+ pretty (ce_epoch c))
      "coordinator.heartbeat_recorded" (ce_epoch c) (Aware (us + window)) (pm_version_of coordinator_ref s) s) as Hrs.
    rewrite Hr in Hrs |- *. destruct Hrs as (_ & -> & _ & Hec). eexists s', _. split; [reflexivity|].
    split; [eapply committed_epoch; [exact Hec|done|done|lia]|done].
  - destruct Ha as (s' & Hr & He & _). rewrite Hr. eauto 10.
Qed.
(** The event of the holder of a live epoch, on the version it read. *)
Lemma guarded_append_succeeds corr ty id ety payload c s : wf_ledger s -> current_epoch s = Ok (Some c) ->
  ce_owner c = owner -> ce_heartbeat_deadline c = Aware (us + window) -> forallb (fun t => negb (blank t)) [corr; ty; id; ety] = true ->
  assert_mapping_clean payload = Ok () -> exists s' r,
  guarded_append clock owner (ce_epoch c) (Aware us) corr ty id (version_of (ty, id) s) ety payload s = (s', Ok r) /\
  claimable owner us s'.
Proof.
  intros Hs Hcur Hown Hdl Hb Hcl. cbn in Hb. rewrite !andb_true_iff, !negb_true_iff in Hb. destruct Hb as (B1 & B2 & B3 & B4 & _).
  destruct (current_epoch_valid _ _ Hcur) as [Hver Hval]. destruct (epoch_valid _ Hval) as (He1 & _ & Hv & d & Hd).
  pose proof (version_of_nonneg s (ty, id) Hs) as Hnn.
  unfold guarded_append. rewrite lift_tx. unfold mk_event_write, event_write_post_init, non_blank.
  cbn [ew_aggregate_type ew_aggregate_id ew_event_type ew_expected_version ew_schema_version].
  rewrite B2, B3, B4. cbn [raise_if mbind result_bind]. change (1 <? 1)%Z with false.
  rewrite (proj2 (Z.ltb_ge (version_of (ty, id) s) 0) Hnn). cbn [raise_if mbind result_bind].
  assert (Hg : exists g, epoch_guard owner (ce_epoch c) (Aware us) s = (s, Ok g) /\
    pw_ref g = coordinator_ref /\ pw_expected_version g = pm_version_of coordinator_ref s /\
    pw_state g = epoch_state (ce_epoch c) owner (Aware (us + window)) /\ pw_process_manager_name g = COORDINATOR_NAME /\
    pw_state_key g = COORDINATOR_STATE_KEY).
  { unfold epoch_guard. rewrite lift_tx. change (require_aware (Aware us)) with (Ok () : result ()).
    unfold mbind at 1, tx_bind at 1. unfold require_current_owner, read_epoch.
    rewrite read_tx, Hcur, Z.eqb_refl, Hown, String.eqb_refl. cbn [negb orb]. rewrite lift_tx. unfold active_at. rewrite Hdl.
    cbn [require_aware tz_aware negb raise_if mbind result_bind].
    change (dt_lt (Aware us) (Aware (us + window))) with (Ok (us <? us + window)%Z : result bool).
    rewrite (proj2 (Z.ltb_lt _ _)) by lia. cbn [mret tx_ret]. unfold lift. rewrite mk_pm_write_ok by (done || lia). eexists. split; [reflexivity|].
    cbn. rewrite Hown, Hdl. done. }
  destruct Hg as (g & Hg & G1 & G2 & G3 & G4 & G5). rewrite bind_tx, Hg, lift_tx, mk_command_ok by done.
  match goal with |- context [append clock None ?cmd s] => set (command := cmd) end.
  destruct (append_one_one clock corr
    {| ew_aggregate_type := ty; ew_aggregate_id := id; ew_expected_version := version_of (ty, id) s; ew_event_type := ety;
       ew_schema_version := 1; ew_payload := payload; ew_causation_id := None |} g s Hs eq_refl Hcl) as (s' & r & Ha).
  { by rewrite G1, G2. }
  { rewrite G3. by apply epoch_state_clean. }
  exists s', r. split; [exact Ha|].
  destruct (append_epoch_committed clock command (ce_epoch c) owner (Aware (us + window)) (pm_version_of coordinator_ref s) s s' r Ha)
    as (_ & _ & Hec). { unfold command. cbn. destruct g; cbn in *; by subst. }
  unfold claimable. rewrite (committed_epoch _ _ _ _ _ _ Hec) by (done || lia). by right.
Qed.
End Claiming.

(** What is written for another state of a link is as clean as the execution it comes from. *)
Lemma scan_items m : scan_value (JObj m) = Ok () <-> Forall (fun kv => scan_value kv.2 = Ok ()) m.
Proof.
  induction m as [|[k v] m IH]; [done|]. rewrite Forall_cons, <- IH. cbn. rewrite bind_unit_Ok. done.
Qed.
Lemma execution_clean p : assert_mapping_clean (plan_execution_to_dict p) = Ok () <->
  Forall (fun s => assert_no_raw_credentials s = Ok ()) [pe_id p; pe_plan_id p; digest_str (pe_plan_digest p)] /\
  Forall (fun kv => scan_value (link_to_mapping kv.2) = Ok ()) (pe_milestones p).
Proof.
  unfold assert_mapping_clean, plan_execution_to_dict, envelope, pe_to_mapping.
  rewrite scan_items, !Forall_cons, Forall_nil. cbn [snd]. rewrite scan_items, !Forall_cons, !Forall_nil. cbn [snd].
  rewrite scan_items, Forall_map. cbn [snd scan_value]. naive_solver.
Qed.
Lemma clean_advance p p' m l l' : dict_get m (pe_milestones p) = Some l -> ml_milestone_id l' = ml_milestone_id l ->
  ml_run_id l' = ml_run_id l -> pe_id p' = pe_id p -> pe_plan_id p' = pe_plan_id p -> pe_plan_digest p' = pe_plan_digest p ->
  pe_milestones p' = dict_set m l' (pe_milestones p) ->
  assert_mapping_clean (plan_execution_to_dict p) = Ok () -> assert_mapping_clean (plan_execution_to_dict p') = Ok ().
Proof.
  intros Hg Hi Hr E1 E2 E3 E4. rewrite !execution_clean, E1, E2, E3, E4. intros [Ht Hl]. split; [done|].
  apply dict_set_Forall; [|done]. apply dict_get_Some_elem in Hg. rewrite Forall_forall in Hl. apply Hl in Hg. cbn [snd] in *.
  unfold link_to_mapping in *. rewrite scan_items, !Forall_cons in *. cbn [snd] in *. rewrite Hi, Hr.
  split_and!; [apply Hg| |apply Hg|constructor]. by destruct (ml_state l').
Qed.

Lemma dict_set_same {V} k (v : V) m : dict_get k m = Some v -> dict_set k v m = m.
Proof.
  induction m as [|[k' v'] m IH]; [done|]. rewrite dict_get_cons. cbn [dict_set].
  destruct (String.eqb_spec k k') as [->|Hn]; [rewrite decide_True by done; by intros [= ->]|].
  rewrite decide_False by done. intros Hm. by rewrite IH.
Qed.

Section Cancelling.
Context `{rt : PyRuntime} `{iso : IsoCodec} (plan : Plan) (id : string).
Hypothesis (Hplan : wf_plan plan) (Hid : valid_identifier id).
Variables (clock owner : string) (us window : Z).
Hypothesis (Ho : blank owner = false) (Hw : (0 < window)%Z) (Hco : has_credentials owner = false)
  (Hcd : has_credentials (isoformat (Aware (us + window))) = false).
Lemma cancel_advances p m l s : sound plan id s p -> dict_get m (pe_milestones p) = Some l -> ml_state l = MS_PENDING ->
  link_transition_to l MS_CANCELLED None = Ok (cancelled_link l) /\
  exists p', with_milestone p (cancelled_link l) = Ok p' /\ pe_advance p (m, MS_CANCELLED, None) = Ok p' /\
    pe_milestones p' = dict_set m (cancelled_link l) (pe_milestones p).
Proof.
  intros Hso Hg Hst. pose proof (so_wf _ _ _ _ Hso) as Hwf. destruct Hwf as [_ _ _ Hnd Hl Hpi].
  apply plan_execution_post_init_Ok in Hpi as (_ & Hne & Hv & Hk).
  assert (Hm : ml_milestone_id l = m).
  { apply dict_get_Some_elem in Hg. rewrite Forall_forall in Hk. by apply (Hk (m, l)). }
  assert (Ht : link_transition_to l MS_CANCELLED None = Ok (cancelled_link l)).
  { unfold link_transition_to, cancelled_link. rewrite Hst. by vm_compute. }
  split; [done|]. unfold pe_advance, pe_link. rewrite Hg. cbn [from_option_err mbind result_bind]. rewrite Ht.
  cbn [mbind result_bind]. unfold with_milestone.
  assert (Hci : ml_milestone_id (cancelled_link l) = m) by (unfold cancelled_link; by rewrite Hst).
  rewrite Hci. rewrite bool_decide_eq_true_2 by (by eapply dict_get_key). cbn [negb raise_if mbind result_bind].
  match goal with |- exists p', plan_execution_post_init ?q = _ /\ _ => exists q; assert (Hq : plan_execution_post_init q = Ok q) end.
  { apply plan_execution_post_init_Ok. cbn [pe_milestones pe_aggregate_version]. split_and!; [done| |lia|].
    - intros He. apply (f_equal (fun d : list (string * MilestoneRunLink) => m ∈ d.*1)) in He.
      rewrite dict_set_keys in He by (by eapply dict_get_key). cbn in He. apply dict_get_key in Hg. rewrite He in Hg.
      by apply elem_of_nil in Hg.
    - by apply dict_set_Forall. }
  by rewrite Hq.
Qed.
(** One pending milestone. *)
Lemma cancel_link_succeeds p l s : holds plan id p s -> claimable owner us s ->
  assert_mapping_clean (plan_execution_to_dict p) = Ok () -> pe_link p (ml_milestone_id l) = Ok l ->
  exists p' s', cancel_link clock owner (Aware us) window p l s = (s', Ok p') /\ holds plan id p' s' /\
    claimable owner us s' /\ assert_mapping_clean (plan_execution_to_dict p') = Ok () /\
    pe_milestones p' = dict_set (ml_milestone_id l) (cancelled_link l) (pe_milestones p).
Proof.
  intros Hh Hc Hcl Hl. assert (Hg : dict_get (ml_milestone_id l) (pe_milestones p) = Some l)
    by (unfold pe_link in Hl; by destruct (dict_get _ _); [injection Hl as ->|]).
  unfold cancel_link. case_bool_decide as Hst.
  2: { exists p, s. split_and!; try done. unfold cancelled_link. rewrite bool_decide_eq_false_2 by done.
       symmetry. by apply dict_set_same. }
  destruct (cancel_advances p _ l s (proj2 (proj2 Hh)) Hg Hst) as (Ht & p' & Hw' & Ha & Hms). rewrite lift_tx, Ht.
  pose proof (record_holds plan id clock owner (Aware us) window p s _ MS_CANCELLED None l _ Hh Hl Ht) as Hrec.
  pose proof (so_wf _ _ _ _ (proj2 (proj2 Hh))) as Hwf. pose proof (so_id _ _ _ _ (proj2 (proj2 Hh))) as Hpid.
  destruct (pe_advance_Ok _ _ _ _ _ Hwf Ha) as (l0 & l1 & Hg0 & Hl1 & _ & _ & E1 & E2 & E3 & _).
  assert (Hcl' : assert_mapping_clean (plan_execution_to_dict p') = Ok ()).
  { eapply clean_advance; [exact Hg| | |exact E1|exact E2|exact E3|exact Hms|exact Hcl];
      unfold cancelled_link; by rewrite bool_decide_eq_true_2. }
  assert (Hs : exists s', plan_record clock owner (Aware us) window p (cancelled_link l) s = (s', Ok p') /\ claimable owner us s').
  { unfold plan_record. rewrite lift_tx, Hw', bind_tx.
    destruct (claim_succeeds clock owner us window Ho Hw Hco Hcd s (proj1 Hh) Hc) as (s1 & c & Hclaim & Hcur & Hown & Hdl).
    pose proof (claim_aside id clock owner (Aware us) window s) as Hside. rewrite Hclaim in Hside |- *. cbn [fst] in Hside.
    pose proof (holds_aside plan id _ _ _ Hh Hside) as Hh1. rewrite bind_tx, Hpid.
    rewrite <- (so_version _ _ _ _ (proj2 (proj2 Hh1))).
    destruct (guarded_append_succeeds clock owner us window Ho Hw Hco Hcd
      ("plan-execution-update:" +:+ id +:+ ":" +:+ ml_milestone_id (cancelled_link l)) PLAN_EXECUTION_AGGREGATE_TYPE id
      "plan_execution.milestone_updated" (plan_execution_to_dict p') c s1 (proj1 Hh1) Hcur Hown Hdl) as (s2 & r & Hr & Hc2);
      [|done|]. { cbn [forallb]. by rewrite (valid_identifier_nonblank id Hid), nonblank_app. }
    rewrite Hr. by exists s2. }
  destruct Hs as (s' & Hs & Hc'). rewrite Hs in Hrec |- *. exists p', s'. destruct Hrec as (_ & Hh' & _); [done|]. done.
Qed.
Lemma cancel_loop_succeeds ls p s : holds plan id p s -> claimable owner us s ->
  assert_mapping_clean (plan_execution_to_dict p) = Ok () ->
  Forall (fun l => pe_link p (ml_milestone_id l) = Ok l) ls -> NoDup (map ml_milestone_id ls) ->
  exists p' s', foldM_tx (cancel_link clock owner (Aware us) window) ls p s = (s', Ok p') /\ holds plan id p' s' /\
    forall m, dict_get m (pe_milestones p') =
      (if decide (m ∈ map ml_milestone_id ls) then cancelled_link else fun l => l) <$> dict_get m (pe_milestones p).
Proof.
  revert p s. induction ls as [|l ls IH]; intros p s Hh Hc Hcl Hls Hnd; cbn [foldM_tx].
  { exists p, s. split_and!; [done..|]. intros m. rewrite decide_False by (by apply not_elem_of_nil). by destruct (dict_get m _). }
  apply Forall_cons in Hls as [Hl Hls]. cbn [map] in Hnd. apply NoDup_cons in Hnd as [Hn Hnd].
  destruct (cancel_link_succeeds p l s Hh Hc Hcl Hl) as (p1 & s1 & Hs1 & Hh1 & Hc1 & Hcl1 & Hms).
  rewrite bind_tx, Hs1. destruct (IH p1 s1) as (p2 & s2 & Hs2 & Hh2 & Hm2); try done.
  { apply Forall_forall. intros k Hk. rewrite Forall_forall in Hls. specialize (Hls k Hk). unfold pe_link in *.
    rewrite Hms, dict_get_set, decide_False; [done|]. intros He. apply Hn. rewrite <- He. apply list_elem_of_fmap. by exists k. }
  exists p2, s2. split_and!; [done..|]. intros m. rewrite Hm2, Hms, dict_get_set. cbn [map].
  destruct (decide (m = ml_milestone_id l)) as [->|Hne].
  - rewrite decide_False, decide_True by (done || by left). unfold pe_link in Hl.
    destruct (dict_get _ _); [injection Hl as ->|done]. done.
  - destruct (decide (m ∈ map ml_milestone_id ls)) as [Hin|Hin];
      [rewrite decide_True by by right|rewrite decide_False by set_solver]; done.
Qed.
(** Every pending milestone is cancelled, everything else stays. *)
Lemma cancel_succeeds p s : holds plan id p s -> claimable owner us s ->
  assert_mapping_clean (plan_execution_to_dict p) = Ok () ->
  exists p' s', cancel_unregistered clock owner (Aware us) window id s = (s', Ok p') /\ holds plan id p' s' /\
    forall m, dict_get m (pe_milestones p') = cancelled_link <$> dict_get m (pe_milestones p).
Proof.
  intros Hh Hc Hcl. pose proof (so_wf _ _ _ _ (proj2 (proj2 Hh))) as [_ _ _ Hd _ Hpi].
  apply plan_execution_post_init_Ok in Hpi as (_ & _ & _ & Hk).
  assert (Hids : map ml_milestone_id (map snd (pe_milestones p)) = (pe_milestones p).*1).
  { clear Hh Hd Hcl. induction Hk as [|[k l] ms Hkl _ IH]; [done|]. cbn in *. by rewrite IH, Hkl. }
  destruct (cancel_loop_succeeds (map snd (pe_milestones p)) p s) as (p' & s' & Hs & Hh' & Hm); [done..| |by rewrite Hids|].
  { apply Forall_forall. intros l (kv & -> & Hin)%list_elem_of_fmap. unfold pe_link.
    rewrite Forall_forall in Hk. rewrite (Hk kv Hin). rewrite (dict_get_elem kv.1 kv.2); [done|done|]. by destruct kv. }
  exists p', s'. split_and!; [|done|].
  - unfold cancel_unregistered, plan_require. rewrite asks_tx. destruct Hh as (_ & -> & _). exact Hs.
  - intros m. rewrite Hm, Hids. destruct (dict_get m (pe_milestones p)) as [l|] eqn:E; [|done].
    by rewrite decide_True by (by eapply dict_get_key).
Qed.
End Cancelling.
Section Claims.
Context `{rt : PyRuntime} `{iso : IsoCodec}.

(** C34: Whatever calls were made on a plan's execution, while its state is running it is
    not stuck: a milestone is registered and waits for its run's outcome, or the next
    fan-out finds a ready milestone, or a pending milestone depends on a cancelled one.
    [cancel_unregistered] settles it: called with a positive window by an owner that may take
    the coordinator's epoch or holds it, and as long as no name, deadline or text of the
    execution looks like a credential, it succeeds, cancels exactly the pending milestones,
    leaves every other link alone, and the execution read then runs only while a milestone
    waits for its run.  And whatever calls follow, at most two advances per milestone lie
    between the execution read now and the one read then, so only finitely many of them
    change it. *)
Theorem plan_progress plan id s h1 h2 :
  wf_plan plan -> valid_identifier id -> wf_ledger s -> plan_read id s = Ok None ->
  Forall (plan_call_ok id) h1 -> Forall (plan_call_ok id) h2 ->
  let s1 := plan_run plan id h1 s in
  let s2 := plan_run plan id h2 s1 in
  forall p, plan_read id s1 = Ok (Some p) ->
  (pe_state p = PES_RUNNING -> waits_for_run p \/ next_fan_out plan p \/ held_back plan p) /\
  (forall clock owner us window, blank owner = false -> (0 < window)%Z -> has_credentials owner = false ->
     has_credentials (isoformat (Aware (us + window))) = false -> claimable owner us s1 ->
     assert_mapping_clean (plan_execution_to_dict p) = Ok () ->
     exists p' s', cancel_unregistered clock owner (Aware us) window id s1 = (s', Ok p') /\
       plan_read id s' = Ok (Some p') /\
       (forall m, dict_get m (pe_milestones p') = cancelled_link <$> dict_get m (pe_milestones p)) /\
       (pe_state p' = PES_RUNNING -> waits_for_run p')) /\
  exists p' os, plan_read id s2 = Ok (Some p') /\ foldM_result pe_advance os p = Ok p' /\
    pe_aggregate_version p' = (pe_aggregate_version p + Z.of_nat (length os))%Z /\
    (length os <= 2 * length (plan_milestones plan))%nat /\
    (forall m l, dict_get m (pe_milestones p) = Some l -> link_terminal (ml_state l) = true ->
       dict_get m (pe_milestones p') = Some l).
Proof.
  intros Hp Hi Hs Hr H1 H2 s1 s2 p Hp1.
  destruct (plan_run_evolves plan id h1 s Hp Hi H1) as [Hst1 _]; [by split; [|left]|]. fold s1 in Hst1.
  destruct (plan_run_evolves plan id h2 s1 Hp Hi H2 Hst1) as [_ Hev]. fold s2 in Hev.
  destruct Hst1 as [_ [Hn|(q & Hwf & Hq & Hso)]]; [congruence|]. assert (q = p) as -> by congruence.
  split; [by apply (running_progress plan id Hp s1)|]. split.
  { intros clock owner us window Ho Hw Hco Hcd Hc Hcl.
    destruct (cancel_succeeds plan id Hp Hi clock owner us window Ho Hw Hco Hcd p s1) as (p' & s' & Hrun & Hh & Hm); [done..|].
    exists p', s'. split_and!; [done|apply Hh|done|]. by apply (no_pending_waits plan id Hp s' p p'). }
  destruct (Hev p Hp1) as (p' & Hp' & os & Hos & Hrun). exists p', os.
  destruct (plan_execution_advances p p' os (so_wf _ _ _ _ Hso) Hos Hrun) as (_ & _ & Hv & Hset & _ & Hlen).
  split_and!; [done..| |done].
  pose proof (Permutation_length (so_keys _ _ _ _ Hso)) as Hk. rewrite length_fmap, length_map in Hk. by rewrite <- Hk.
Qed.
End Claims.

Module ProgressDemo.
#[local] Existing Instance IdentityProofs.toy_runtime.
#[local] Existing Instance toy_iso.
Lemma plan_progress_witness : exists p, plan_read "pe-1" PlanCoordinatorProofs.Demo.s1 = Ok (Some p) /\
  pe_state p = PES_RUNNING /\ (waits_for_run p \/ next_fan_out sample_plan p \/ held_back sample_plan p) /\
  exists p' s', cancel_unregistered "t" "alice" (Aware 9) 100 "pe-1" PlanCoordinatorProofs.Demo.s1 = (s', Ok p') /\
    (pe_state p' = PES_RUNNING -> waits_for_run p').
Proof.
  assert (Hr : exists p, plan_read "pe-1" PlanCoordinatorProofs.Demo.s1 = Ok (Some p) /\ pe_state p = PES_RUNNING /\
    assert_mapping_clean (plan_execution_to_dict p) = Ok ())
    by (eexists; split; [vm_compute; reflexivity|split; vm_compute; reflexivity]).
  destruct Hr as (p & Hr & Hst & Hcl). exists p. split; [exact Hr|]. split; [exact Hst|].
  destruct (plan_progress sample_plan "pe-1" empty_ledger PlanCoordinatorProofs.Demo.first_calls PlanCoordinatorProofs.Demo.later_calls sample_plan_wf
    eq_refl wf_empty_ledger eq_refl ltac:(repeat constructor) ltac:(repeat constructor) p Hr) as (Hrun & Hcancel & _).
  split; [exact (Hrun Hst)|].
  destruct (Hcancel "t" "alice" 9%Z 100%Z) as (p' & s' & Hs & _ & _ & Hw);
    [reflexivity|reflexivity|vm_compute; reflexivity|vm_compute; reflexivity|vm_compute; right; reflexivity|exact Hcl|].
  exists p', s'. split; [exact Hs|exact Hw].
Defined.
End ProgressDemo.
