(* ===== verification/StackCoordinator.v ===== *)
(** * The stack process manager ([engine/stack_coordinator.py])

    Durable storage of one plan's branch stack: every mutation is one event under
    the epoch guard, one version above the stack it was computed from. *)
From S2P Require Import Prelude PyText Json Identity IdentityProofs JsonCanon StateMachine.
From S2P Require Import Lifecycles Aggregates Plans PlanExecutions PlanExecutionProofs Stacks.
From S2P Require Import StackProofs Redaction Ledger LedgerProofs LedgerTheorems.
From S2P Require Import Coordinator CoordinatorProofs Serialization Runtime.


Definition STACK_AGGREGATE_TYPE : string := "stack".

(** [replace(stack, aggregate_version=...)] *)
Definition st_with_version (s : Stack) (version : Z) : Stack := {|
  st_id := st_id s; st_plan_id := st_plan_id s; st_base_ref := st_base_ref s;
  st_slices := st_slices s; st_aggregate_version := version |}.
Definition stack_of_row (p : ProjectionRow) : result Stack :=
  raw ← state_dict p;
  stack ← stack_from_dict raw;
  if negb (st_aggregate_version stack =? pj_aggregate_version p)%Z
  then stack_post_init (st_with_version stack (pj_aggregate_version p))
  else Ok stack.
(** [read], [_require] *)
Definition stack_read (stack_id : string) (s : Ledger) : result (option Stack) :=
  match read_projection STACK_AGGREGATE_TYPE stack_id s with
  | None => Ok None
  | Some p => stack ← stack_of_row p; Ok (Some stack)
  end.
Definition stack_require (stack_id : string) (s : Ledger) : result Stack :=
  current ← stack_read stack_id s;
  from_option_err InternalInvariantViolationError current.

(** [_topology_signature] *)
Definition topology_signature (s : Stack) : list (string * string * string) :=
  map (fun sl => (sl_milestone_id sl, sl_base_ref sl, sl_branch_ref sl)) (ordered_slices s).

Section StackCoordinator.
Context `{rt : PyRuntime} `{iso : IsoCodec}.

(** [start] *)
Definition stack_start (clock owner : string) (now : datetime) (heartbeat_window : timedelta)
    (stack_id plan_id base_ref : string) (ordered_milestones : list (string * string)) : tx Stack :=
  existing ← asks (stack_read stack_id);
  initial ← lift (stack_initial stack_id plan_id base_ref ordered_milestones);
  match existing with
  | Some existing =>
      if negb (String.eqb (st_plan_id existing) (st_plan_id initial)) ||
         negb (String.eqb (st_base_ref existing) (st_base_ref initial)) ||
         negb (bool_decide (topology_signature existing = topology_signature initial))
      then throw ExternalConflictError
      else mret existing
  | None =>
      epoch ← acquire_or_renew clock owner now heartbeat_window;
      _ ← guarded_append clock owner (ce_epoch epoch) now ("stack-start:" +:+ stack_id)
            STACK_AGGREGATE_TYPE stack_id 0 "stack.started" (stack_to_dict initial);
      asks (stack_require stack_id)
  end.

(** [_persist] *)
Definition stack_persist (clock owner : string) (now : datetime) (heartbeat_window : timedelta)
    (current updated : Stack) : tx Stack :=
  persisted ← lift (stack_post_init (st_with_version updated (st_aggregate_version current + 1)));
  epoch ← acquire_or_renew clock owner now heartbeat_window;
  _ ← guarded_append clock owner (ce_epoch epoch) now ("stack-update:" +:+ st_id current)
        STACK_AGGREGATE_TYPE (st_id current) (st_aggregate_version current) "stack.updated"
        (stack_to_dict persisted);
  mret persisted.

(** [reconcile_after_publish] *)
Definition stack_publish (clock owner : string) (now : datetime) (heartbeat_window : timedelta)
    (stack_id milestone_id head_revision : string) : tx Stack :=
  current ← asks (stack_require stack_id);
  updated ← lift (reconcile_after_publish current milestone_id head_revision);
  stack_persist clock owner now heartbeat_window current updated.

(** [mark_merge_ready] *)
Definition stack_merge_ready (clock owner : string) (now : datetime)
    (heartbeat_window : timedelta) (stack_id milestone_id head_revision : string)
    (ci_evidence_digest : Digest) : tx Stack :=
  current ← asks (stack_require stack_id);
  updated ← lift (
    slice ← stack_slice current milestone_id;
    updated_slice ← slice_mark_merge_ready slice head_revision ci_evidence_digest;
    with_slice current updated_slice);
  stack_persist clock owner now heartbeat_window current updated.

(** [mark_merged] *)
Definition stack_merged (clock owner : string) (now : datetime) (heartbeat_window : timedelta)
    (stack_id milestone_id : string) : tx Stack :=
  current ← asks (stack_require stack_id);
  updated ← lift (stack_mark_merged current milestone_id);
  stack_persist clock owner now heartbeat_window current updated.
End StackCoordinator.

(** ** Durable stacks, over any history

    The stack a coordinator stores keeps its topology, merges from the root, never
    touches a merged slice again, and is always the one it returned. *)

(** ** Topology *)
Definition topology (x : StackSlice) : Z * string * string :=
  (sl_position x, sl_base_ref x, sl_branch_ref x).
(** Same identity, same slices in the same dictionary order, same topology. *)
Record reshaped (s s' : Stack) : Prop := {
  rs_id : st_id s' = st_id s;
  rs_plan : st_plan_id s' = st_plan_id s;
  rs_base : st_base_ref s' = st_base_ref s;
  rs_keys : (st_slices s').*1 = (st_slices s).*1;
  rs_topology : forall k, topology <$> dict_get k (st_slices s') = topology <$> dict_get k (st_slices s);
}.
#[export] Instance reshaped_preorder : PreOrder reshaped.
Proof.
  split; [by intros s|]. intros s1 s2 s3 [A1 B1 C1 D1 E1] [A2 B2 C2 D2 E2].
  split; [congruence..|]. intros k. by rewrite E2, E1.
Qed.

Lemma with_slice_reshaped s x u s' : dict_get (sl_milestone_id u) (st_slices s) = Some x ->
  topology u = topology x -> with_slice s u = Ok s' -> reshaped s s'.
Proof.
  intros Hx Ht H. unfold with_slice in H. apply raise_if_Ok in H as [_ H].
  apply stack_post_init_Ok in H as (-> & _). split; cbn; try done.
  - apply dict_set_keys. by eapply dict_get_key.
  - intros k. rewrite dict_get_set. case_decide; [|done]. subst k. rewrite Hx. unfold fmap, option_fmap, option_map. by rewrite Ht.
Qed.
(** A slice operation's result, whatever the operation. *)
Definition slice_kept (x u : StackSlice) : Prop :=
  sl_milestone_id u = sl_milestone_id x /\ topology u = topology x.
Lemma publish_kept x head u : slice_publish x head = Ok u -> slice_kept x u.
Proof.
  unfold slice_publish. intros (? & _ & (? & _ & H)%bind_Ok)%bind_Ok.
  by apply slice_post_init_Ok in H as [-> _].
Qed.
Lemma ready_kept x head ci u : slice_mark_merge_ready x head ci = Ok u -> slice_kept x u.
Proof.
  unfold slice_mark_merge_ready. intros (? & _ & H)%bind_Ok. apply raise_if_Ok in H as [_ H].
  by apply slice_post_init_Ok in H as [-> _].
Qed.
Lemma merged_kept x u : slice_mark_merged x = Ok u -> slice_kept x u.
Proof.
  unfold slice_mark_merged. intros (? & _ & H)%bind_Ok. by apply slice_post_init_Ok in H as [-> _].
Qed.
Lemma stale_kept x u : slice_mark_stale x = Ok u -> slice_kept x u.
Proof.
  unfold slice_mark_stale. destruct (bool_decide _); [by intros [= <-]|].
  intros (? & _ & H)%bind_Ok. by apply slice_post_init_Ok in H as [-> _].
Qed.
Lemma abandon_kept x u : slice_abandon x = Ok u -> slice_kept x u.
Proof.
  unfold slice_abandon. intros (? & _ & H)%bind_Ok. by apply slice_post_init_Ok in H as [-> _].
Qed.
Lemma replace_reshaped s m x u s' : wf_stack s -> stack_slice s m = Ok x -> slice_kept x u ->
  with_slice s u = Ok s' -> reshaped s s'.
Proof.
  intros Hwf Hx [Hid Ht]. unfold stack_slice in Hx.
  destruct (dict_get m (st_slices s)) as [y|] eqn:Hg; [|done]. injection Hx as ->.
  destruct (wf_get _ _ _ Hwf Hg) as (<- & _). apply with_slice_reshaped with (x := x); [|done].
  by rewrite Hid.
Qed.

Lemma stale_loop_reshaped pos l s s' :
  Forall (fun y => exists x, dict_get (sl_milestone_id y) (st_slices s) = Some x /\
            topology x = topology y) l ->
  foldM_result (stale_later pos) l s = Ok s' -> reshaped s s'.
Proof.
  revert s. induction l as [|y l IH]; intros s Hl; cbn [foldM_result].
  { intros [= ->]. reflexivity. }
  apply Forall_cons in Hl as [(x & Hx & Ht) Hl]. intros (s1 & H1 & H)%bind_Ok.
  assert (Hr : reshaped s s1).
  { unfold stale_later in H1. destruct (_ <? _)%Z; [|injection H1 as <-; reflexivity].
    apply bind_Ok in H1 as (u & Hu & H1). apply stale_kept in Hu as [Hid Hk].
    eapply with_slice_reshaped; [by rewrite Hid|congruence|done]. }
  etrans; [exact Hr|]. apply IH; [|done]. eapply Forall_impl; [exact Hl|].
  intros z (w & Hw & Htw). pose proof (rs_topology _ _ Hr (sl_milestone_id z)) as Hz.
  rewrite Hw in Hz. destruct (dict_get _ (st_slices s1)) as [w'|]; [|done].
  exists w'. split; [done|].
  change (Some (topology w') = Some (topology w)) in Hz. congruence.
Qed.
Lemma stack_apply_reshaped s o s' : wf_stack s -> stack_op_valid o -> stack_apply s o = Ok s' ->
  reshaped s s'.
Proof.
  intros Hwf Hv H. destruct o as [m head|m head ci|m|m]; cbn [stack_apply] in H.
  - unfold reconcile_after_publish in H. apply bind_Ok in H as (x & Hx & H).
    apply bind_Ok in H as (u & Hu & H). apply bind_Ok in H as (c & Hc & H).
    assert (Hr : reshaped s c) by (eapply replace_reshaped; [done..|by eapply publish_kept|done]).
    etrans; [exact Hr|]. eapply stale_loop_reshaped; [|exact H].
    assert (Hwc : wf_stack c).
    { unfold stack_slice in Hx. destruct (dict_get m (st_slices s)) as [y|] eqn:Hg; [|done].
      injection Hx as ->. destruct (wf_get _ _ _ Hwf Hg) as (Hid & _ & _ & Hpi).
      pose proof (slice_publish_eq x head Hpi) as [He Hpu]. rewrite He in Hu.
      destruct (_ && _); [|done]. injection Hu as <-.
      destruct (with_slice_ok s x (sl_with x SL_PUBLISHED (Some head) None)) as [Hok Hw];
        [done|by rewrite <- Hid in Hg|done|done|done|]. rewrite Hok in Hc. by injection Hc as <-. }
    apply Forall_forall. intros y Hy. apply (elem_of_ordered c Hwc) in Hy. by exists y.
  - apply bind_Ok in H as (x & Hx & H). apply bind_Ok in H as (u & Hu & H).
    eapply replace_reshaped; [done..|by eapply ready_kept|done].
  - unfold stack_mark_merged in H. apply bind_Ok in H as (x & Hx & H).
    apply raise_if_Ok in H as [_ H]. apply bind_Ok in H as (u & Hu & H).
    eapply replace_reshaped; [done..|by eapply merged_kept|done].
  - apply bind_Ok in H as (x & Hx & H). apply bind_Ok in H as (u & Hu & H).
    eapply replace_reshaped; [done..|by eapply abandon_kept|done].
Qed.

(** ** Reading a stored stack *)
Lemma st_with_version_wf s v : wf_stack s -> (0 <= v)%Z -> wf_stack (st_with_version s v).
Proof.
  intros [H1 H2 H3 H4 H5] Hv. apply stack_post_init_Ok in H5 as (_ & ? & ? & ? & ? & _).
  split; cbn; try done. by apply stack_post_init_Ok.
Qed.
Lemma stack_read_view id s s' : view_of (STACK_AGGREGATE_TYPE, id) s' =
  view_of (STACK_AGGREGATE_TYPE, id) s -> stack_read id s' = stack_read id s.
Proof.
  unfold stack_read, read_projection, view_of, projection_view, stack_of_row, state_dict.
  destruct (lg_projections s !! _) as [p|], (lg_projections s' !! _) as [p'|]; try done.
  cbn [fmap option_fmap option_map]. intros H. injection H as -> _ _ ->. done.
Qed.
Lemma stack_read_stored id s st v ety : wf_stack st -> (0 <= v)%Z ->
  view_of (STACK_AGGREGATE_TYPE, id) s = Some (v, ety, 1%Z, canon (JObj (stack_to_dict st))) ->
  stack_read id s = Ok (Some (st_with_version (st_sorted st) v)).
Proof.
  intros Hwf Hv. destruct (stack_stored st Hwf) as (raw & -> & Hd).
  unfold stack_read, read_projection, view_of, projection_view.
  destruct (lg_projections s !! _) as [row|]; [|done].
  cbn [fmap option_fmap option_map]. intros H. injection H as Hver _ _ Hst.
  unfold stack_of_row, state_dict. rewrite Hst, Hver. cbn [mbind result_bind]. rewrite Hd.
  cbn [mbind result_bind].
  destruct (Z.eqb_spec (st_aggregate_version (st_sorted st)) v) as [Hpv|]; cbn [negb].
  - rewrite <- Hpv. by destruct st.
  - pose proof (wst_init _ (st_with_version_wf _ v (st_sorted_wf st Hwf) Hv)) as ->. done.
Qed.

(** A durable stack: well formed, merged from the root, at the ledger's version. *)
Record sound_stack (id : string) (s : Ledger) (st : Stack) : Prop := {
  ss_wf : wf_stack st;
  ss_id : st_id st = id;
  ss_sorted : Sorted key_le (st_slices st);
  ss_prefix : merged_prefix st;
  ss_version : version_of (STACK_AGGREGATE_TYPE, id) s = st_aggregate_version st;
}.
(** What no call changes. *)
Record stack_later (st st' : Stack) : Prop := {
  sg_reshaped : reshaped st st';
  sg_merged : forall k x, dict_get k (st_slices st) = Some x -> sl_state x = SL_MERGED ->
    dict_get k (st_slices st') = Some x;
  sg_version : (st_aggregate_version st <= st_aggregate_version st')%Z;
}.
#[export] Instance stack_later_preorder : PreOrder stack_later.
Proof.
  split; [intros s; by split|]. intros s1 s2 s3 [R1 M1 V1] [R2 M2 V2].
  split; [by etrans|auto|lia].
Qed.

Section StackHistory.
Context `{rt : PyRuntime} `{iso : IsoCodec} (id : string).
Hypothesis Hid : valid_identifier id.
Abbreviation sref := ((STACK_AGGREGATE_TYPE, id) : ref).

Definition stack_holds (st : Stack) (s : Ledger) : Prop :=
  wf_ledger s /\ stack_read id s = Ok (Some st) /\ sound_stack id s st.
Definition stack_stored_ok (s : Ledger) : Prop :=
  wf_ledger s /\ (stack_read id s = Ok None \/ exists st, stack_holds st s).
Definition stack_evolves (s s' : Ledger) : Prop := stack_stored_ok s -> stack_stored_ok s' /\
  forall st, stack_read id s = Ok (Some st) ->
    exists st', stack_read id s' = Ok (Some st') /\ stack_later st st'.
#[export] Instance stack_evolves_preorder : PreOrder stack_evolves.
Proof.
  split.
  - intros s Hs. split; [done|]. intros st Hst. exists st. split; [done|reflexivity].
  - intros s1 s2 s3 H1 H2 Hs. destruct (H1 Hs) as [Hs2 Hp2]. destruct (H2 Hs2) as [Hs3 Hp3].
    split; [done|]. intros p (p' & Hp' & L1)%Hp2. apply Hp3 in Hp' as (p'' & Hp'' & L2).
    exists p''. split; [done|by etrans].
Qed.

Abbreviation aside := (frame (fun r => r = sref)).
Lemma stack_holds_aside st s s' : stack_holds st s -> aside s s' -> stack_holds st s'.
Proof.
  intros (Hs & Hr & [H1 H2 H3 H4 H5]) [G W V]. specialize (V Hs sref eq_refl).
  split_and!; [by apply W|by rewrite <- Hr; apply stack_read_view|].
  split; try done. rewrite <- H5, !view_version by auto. by rewrite V.
Qed.
Lemma stack_aside_evolves s s' : aside s s' -> stack_evolves s s'.
Proof.
  intros Hf [Hs Hor]. split.
  - split; [by apply (fr_wf _ _ _ Hf)|]. destruct Hor as [Hn|(p & Hp)].
    + left. rewrite <- Hn. by apply stack_read_view, (fr_view _ _ _ Hf).
    + right. exists p. by eapply stack_holds_aside.
  - intros p Hp. exists p. split; [|reflexivity]. rewrite <- Hp.
    by apply stack_read_view, (fr_view _ _ _ Hf).
Qed.
Lemma stack_claim_aside clock owner now w s : aside s (acquire_or_renew clock owner now w s).1.
Proof. eapply frame_weaken; [|apply acquire_or_renew_frame]. by intros r ->. Qed.

(** [_persist]: the returned stack is the durable one, one version on. *)
Lemma persist_holds clock owner now w st s o u : stack_holds st s -> stack_op_valid o ->
  stack_apply st o = Ok u ->
  match stack_persist clock owner now w st u s with
  | (s', Ok st') => st' = st_with_version u (st_aggregate_version st + 1) /\
      stack_holds st' s' /\ stack_evolves s s'
  | (s', Err _) => stack_evolves s s'
  end.
Proof.
  intros Hh Hv Ha. pose proof Hh as (_ & _ & [H1 H2 H3 H4 H5]).
  destruct (stack_apply_step st o u H1 H4 Hv Ha) as (Hwu & Hpu & Hmu).
  pose proof (stack_apply_reshaped st o u H1 Hv Ha) as Hru.
  assert (Hnn : (0 <= st_aggregate_version st + 1)%Z).
  { pose proof (wst_init _ H1) as (_ & _ & _ & _ & _ & Hn)%stack_post_init_Ok. lia. }
  pose proof (st_with_version_wf u _ Hwu Hnn) as Hwn.
  set (n := st_with_version u (st_aggregate_version st + 1)) in *.
  unfold stack_persist. rewrite lift_tx. fold n. rewrite (wst_init _ Hwn).
  rewrite bind_tx. pose proof (stack_claim_aside clock owner now w s) as Hc.
  destruct (acquire_or_renew clock owner now w s) as [s1 [ep|e]]; cbn [fst] in Hc;
    [|by apply stack_aside_evolves].
  pose proof (stack_holds_aside _ _ _ Hh Hc) as (Hs1 & Hr1 & Hso1).
  rewrite bind_tx, H2.
  match goal with |- context [guarded_append clock owner ?e now ?corr ?ty id ?v ?et ?pl s1] =>
    pose proof (guarded_append_spec clock owner e now corr ty id v et pl s1) as Hg;
    destruct (guarded_append clock owner e now corr ty id v et pl s1) as [s2 [res|e']] end.
  2: { subst s2. by apply stack_aside_evolves. }
  destruct Hg as (_ & Hfr & Hview). specialize (Hview Hs1).
  pose proof (fr_wf _ _ _ Hfr Hs1) as Hs2.
  assert (Hsorted : Sorted key_le (st_slices n)).
  { eapply sorted_same_keys; [apply (rs_keys _ _ Hru)|done]. }
  assert (Hread : stack_read id s2 = Ok (Some n)).
  { rewrite (stack_read_stored id s2 n _ _ Hwn Hnn Hview). unfold st_with_version, st_sorted. cbn.
    rewrite sort_sorted; [by unfold n|by apply Hwu|exact Hsorted]. }
  assert (Hso : sound_stack id s2 n).
  { split; [done| |done|done|].
    - cbn. by rewrite (rs_id _ _ Hru).
    - by rewrite view_version, Hview. }
  cbn [mret tx_ret]. split_and!; [done|done|]. intros _. split; [by split; [|right; exists n]|].
  intros st0 Hst0. destruct Hh as (_ & Hr & _). rewrite Hr in Hst0. injection Hst0 as <-.
  exists n. split; [done|]. split.
  - destruct Hru as [A B C D E]. by split.
  - exact Hmu.
  - cbn. lia.
Qed.

Lemma stack_require_holds s st : stack_stored_ok s -> stack_require id s = Ok st -> stack_holds st s.
Proof.
  intros [Hs Hor] H. unfold stack_require in H. destruct Hor as [Hn|(p' & Hp')].
  - by rewrite Hn in H.
  - pose proof Hp' as (_ & Hr & _). rewrite Hr in H. injection H as <-. done.
Qed.
(** Every mutation: require, compute a step of the stack, persist. *)
Lemma mutation_evolves clock owner now w o (f : Stack -> result Stack) s : stack_op_valid o ->
  (forall st u, f st = Ok u -> stack_apply st o = Ok u) ->
  stack_evolves s (mbind (M:=tx) (fun current => u ← lift (f current);
    stack_persist clock owner now w current u) (asks (stack_require id)) s).1.
Proof.
  intros Hv Hf Hinv. rewrite asks_tx. destruct (stack_require id s) as [st|] eqn:Hst;
    [|by apply (reflexivity (R := stack_evolves))].
  apply stack_require_holds in Hst; [|done]. rewrite lift_tx. revert Hinv.
  destruct (f st) as [u|] eqn:Hu; [|by apply (reflexivity (R := stack_evolves))].
  pose proof (persist_holds clock owner now w st s o u Hst Hv (Hf _ _ Hu)) as Hp.
  destruct (stack_persist clock owner now w st u s) as [s' [st'|e]]; [|exact Hp].
  by destruct Hp as (_ & _ & Hev).
Qed.

(** ** [start] *)
Lemma initial_slices_ok pos prev ms acc out : Forall (fun m => valid_identifier m.1) ms ->
  initial_slices pos prev ms acc = Ok out -> NoDup acc.*1 ->
  Forall (fun kv => slice_ok kv.2 /\ sl_state kv.2 = SL_PENDING) acc ->
  NoDup out.*1 /\ Forall (fun kv => slice_ok kv.2 /\ sl_state kv.2 = SL_PENDING) out.
Proof.
  intros Hv. revert pos prev acc. induction Hv as [|[m b] ms Hm _ IH]; intros pos prev acc; cbn.
  { by intros [= <-]. }
  intros (x & Hx & H)%bind_Ok Hd Hacc. apply slice_post_init_Ok in Hx as Hf.
  destruct Hf as [-> _]. eapply IH; [exact H| |].
  - destruct (decide (m ∈ acc.*1)) as [Hin|Hn]; [by rewrite dict_set_keys|].
    rewrite dict_set_fresh, fmap_app by done. apply NoDup_app. split_and!; [done| |].
    + intros k Hk ->%list_elem_of_singleton. done.
    + apply NoDup_singleton.
  - apply dict_set_Forall; [|done]. cbn. split; [|done]. by split_and!.
Qed.
Lemma stack_start_evolves clock owner now w plan_id base ms s :
  valid_identifier plan_id -> Forall (fun m => valid_identifier m.1) ms ->
  stack_evolves s (stack_start clock owner now w id plan_id base ms s).1.
Proof.
  intros Hpl Hms. unfold stack_start. rewrite asks_tx.
  destruct (stack_read id s) as [existing|] eqn:Hr; [|reflexivity]. rewrite lift_tx.
  destruct (stack_initial id plan_id base ms) as [initial|] eqn:Hi; [|reflexivity].
  destruct existing as [ex|]; [by destruct (_ || _)|].
  unfold stack_initial in Hi. apply bind_Ok in Hi as (slices & Hsl & Hi).
  apply stack_post_init_Ok in Hi as Hf. destruct Hf as [-> _].
  apply initial_slices_ok in Hsl as [Hnd Hall]; [|done|constructor|constructor].
  match type of Hi with stack_post_init ?i = _ => set (initial := i) in * end.
  assert (Hwf : wf_stack initial).
  { split; cbn; try done. eapply Forall_impl; [exact Hall|]. by intros kv [Hk _]. }
  rewrite bind_tx. pose proof (stack_claim_aside clock owner now w s) as Hc.
  destruct (acquire_or_renew clock owner now w s) as [s1 [ep|e]]; cbn [fst] in *;
    [|by apply stack_aside_evolves]. rewrite bind_tx.
  match goal with |- context [guarded_append clock owner ?e now ?corr ?ty id ?v ?et ?pl s1] =>
    pose proof (guarded_append_spec clock owner e now corr ty id v et pl s1) as Hg;
    destruct (guarded_append clock owner e now corr ty id v et pl s1) as [s2 [res|e']] end.
  2: { subst s2. by apply stack_aside_evolves. }
  intros Hinv. pose proof (fr_wf _ _ _ Hc (proj1 Hinv)) as Hs1.
  destruct Hg as (Hv & Hfr & Hview). specialize (Hview Hs1). change (0 + 1)%Z with 1%Z in Hview.
  cbn [fst asks]. pose proof (fr_wf _ _ _ Hfr Hs1) as Hs2.
  split; [|by intros p Hp'; rewrite Hr in Hp']. split; [done|]. right. eexists. split_and!;
    [done|by eapply (stack_read_stored id s2 initial 1%Z); [done|lia|exact Hview]|].
  split; cbn -[initial]; try done.
  - apply st_with_version_wf; [by apply st_sorted_wf|done].
  - apply (Sorted_merge_sort _).
  - intros k1 x k2 y Hx Hy _ Hm. cbn -[initial] in Hy. rewrite dict_get_sort in Hy by apply Hwf.
    apply dict_get_Some_elem in Hy. rewrite Forall_forall in Hall. destruct (Hall _ Hy) as [_ Hp].
    cbn in Hp. by rewrite Hp in Hm.
  - by rewrite view_version, Hview.
Qed.
End StackHistory.

(** ** Histories *)
Inductive StackCall :=
| ScStart (plan_id base_ref : string) (ordered_milestones : list (string * string))
| ScPublish (milestone_id head_revision : string)
| ScMergeReady (milestone_id head_revision : string) (ci_evidence_digest : Digest)
| ScMerged (milestone_id : string)
| ScLedger (op : LedgerOp).
Definition stack_step `{PyRuntime} `{IsoCodec} (id : string) (s : Ledger)
    (call : CallSite * StackCall) : Ledger :=
  let '({| cs_clock := clock; cs_owner := owner; cs_now := now; cs_window := w |}, c) := call in
  match c with
  | ScStart plan_id base ms => (stack_start clock owner now w id plan_id base ms s).1
  | ScPublish m head => (stack_publish clock owner now w id m head s).1
  | ScMergeReady m head ci => (stack_merge_ready clock owner now w id m head ci s).1
  | ScMerged m => (stack_merged clock owner now w id m s).1
  | ScLedger op => ledger_step s (clock, op)
  end.
Definition stack_run `{PyRuntime} `{IsoCodec} (id : string)
    (history : list (CallSite * StackCall)) (s : Ledger) : Ledger :=
  foldl (stack_step id) s history.
(** Typed arguments were constructed, and only the coordinator appends the stack's events. *)
Definition stack_call_ok (id : string) (call : CallSite * StackCall) : Prop :=
  match call.2 with
  | ScStart plan_id _ ms => valid_identifier plan_id /\ Forall (fun m => valid_identifier m.1) ms
  | ScMergeReady _ _ ci => wf_digest ci
  | ScLedger op => op_avoids (fun r => r = (STACK_AGGREGATE_TYPE, id)) op
  | _ => True
  end.

Section Claims.
Context `{rt : PyRuntime} `{iso : IsoCodec}.

Lemma stack_step_evolves id s call : valid_identifier id -> stack_call_ok id call ->
  stack_evolves id s (stack_step id s call).
Proof.
  intros Hi Hok.
  destruct call as [[clock owner now w] [pl base ms|m head|m head ci|m|op]]; cbn [stack_step].
  - destruct Hok. by apply stack_start_evolves.
  - by apply (mutation_evolves id clock owner now w (StPublish m head)).
  - by apply (mutation_evolves id clock owner now w (StReady m head ci)).
  - by apply (mutation_evolves id clock owner now w (StMerged m)).
  - apply stack_aside_evolves. by apply ledger_step_frame.
Qed.
Lemma stack_run_evolves id history s : valid_identifier id ->
  Forall (stack_call_ok id) history -> stack_evolves id s (stack_run id history s).
Proof.
  intros Hi Hf. unfold stack_run. revert s. induction Hf as [|call history Hok _ IH]; intros s.
  - reflexivity.
  - cbn [foldl]. etrans; [by apply stack_step_evolves|apply IH].
Qed.

(** C24: whatever calls are made on a stack through its coordinator (and any ledger
    calls that do not write its aggregate), returning or raising: the durable stack
    can always be read back, is well formed, at the ledger's version, with its merged
    slices a prefix; and the one read later has the same topology, keeps every merged
    slice as it was, and its version never went back. *)
Theorem stack_history_durable id s h1 h2 :
  valid_identifier id -> wf_ledger s -> stack_read id s = Ok None ->
  Forall (stack_call_ok id) h1 -> Forall (stack_call_ok id) h2 ->
  let s1 := stack_run id h1 s in
  let s2 := stack_run id h2 s1 in
  match stack_read id s1 with
  | Err _ => False
  | Ok None => True
  | Ok (Some st) => sound_stack id s1 st /\
      exists st', stack_read id s2 = Ok (Some st') /\ sound_stack id s2 st' /\ stack_later st st'
  end.
Proof.
  intros Hi Hs Hr H1 H2 s1 s2.
  destruct (stack_run_evolves id h1 s Hi H1) as [Hst1 _]; [by split; [|left]|].
  fold s1 in Hst1. pose proof Hst1 as [_ [Hn|(p & Hh)]]; [by rewrite Hn|].
  pose proof Hh as (_ & Hrd & Hso). rewrite Hrd. split; [done|].
  destruct (stack_run_evolves id h2 s1 Hi H2 Hst1) as [[_ Hst2] Hev]. fold s2 in Hst2, Hev.
  destruct (Hev p Hrd) as (p' & Hp' & Hl). exists p'. split_and!; [done| |done].
  destruct Hst2 as [Hn|(p2 & _ & Hr2 & Hso2)]; [by rewrite Hn in Hp'|].
  rewrite Hr2 in Hp'. by injection Hp' as ->.
Qed.
End Claims.

(** ** Witnesses *)
Module Demo.
#[local] Existing Instance IdentityProofs.toy_runtime.
#[local] Existing Instance toy_iso.
Definition at_time (us : Z) : CallSite :=
  {| cs_clock := "t"; cs_owner := "alice"; cs_now := Aware us; cs_window := 100 |}.
Definition first_calls : list (CallSite * StackCall) :=
  [(at_time 0, ScStart "plan-1" "main" [("m2", "b1"); ("m1", "b2")]);
   (at_time 1, ScPublish "m2" "h1"); (at_time 2, ScMergeReady "m2" "h1" sample_ci);
   (at_time 3, ScMerged "m1"); (at_time 4, ScMerged "m2")].
Definition later_calls : list (CallSite * StackCall) :=
  [(at_time 5, ScPublish "m1" "h2"); (at_time 6, ScPublish "m2" "h3")].
Definition s1 : Ledger := stack_run "stack-1" first_calls empty_ledger.
Definition s2 : Ledger := stack_run "stack-1" later_calls s1.
Lemma stack_history_durable_witness : exists st st',
  stack_read "stack-1" s1 = Ok (Some st) /\ stack_read "stack-1" s2 = Ok (Some st') /\
  (exists x, dict_get "m2" (st_slices st) = Some x /\ sl_state x = SL_MERGED) /\
  st_aggregate_version st' = 5%Z /\ stack_later st st'.
Proof.
  assert (Hr : exists st, stack_read "stack-1" s1 = Ok (Some st) /\
    exists x, dict_get "m2" (st_slices st) = Some x /\ sl_state x = SL_MERGED).
  { eexists. split; [vm_compute; reflexivity|]. eexists. split; vm_compute; reflexivity. }
  assert (Hv : (st_aggregate_version <$> default None (match stack_read "stack-1" s2 with
    Ok o => Some o | Err _ => None end)) = Some 5%Z) by (vm_compute; reflexivity).
  destruct Hr as (st & Hr & Hx). pose proof (stack_history_durable "stack-1" empty_ledger first_calls
    later_calls eq_refl wf_empty_ledger eq_refl ltac:(repeat constructor) ltac:(repeat constructor)) as H.
  cbv zeta in H. change (stack_run "stack-1" first_calls empty_ledger) with s1 in H.
  change (stack_run "stack-1" later_calls s1) with s2 in H.
  rewrite Hr in H. destruct H as (_ & st' & Hp' & _ & Hl). rewrite Hp' in Hv. injection Hv as Hv.
  exists st, st'. split_and!; [exact Hr|exact Hp'|exact Hx|exact Hv|exact Hl].
Defined.
End Demo.
