(* ===== verification/Evidence.v ===== *)
(** * Evidence evaluation ([domain/evidence.py], [domain/principal.py],
      [evidence/evaluator.py])

    Evidence items with their subject and validity window, contracts of named
    requirements, and the evaluator that classifies every requirement. *)
From S2P Require Import Prelude PyText Identity Lifecycles.

(** ** Principals *)
Inductive PrincipalType := HUMAN | AGENT | SYSTEM.
#[export] Instance PrincipalType_eq_dec : EqDecision PrincipalType.
Proof. solve_decision. Defined.
Record AuthorityPrincipal := {
  ap_id : string; ap_principal_type : PrincipalType; ap_role : string;
  ap_authorization_source : string }.

(** ** Evidence items *)
Record EvidenceItem := {
  ei_type : string; ei_schema_version : Z; ei_producer : AuthorityPrincipal;
  ei_subject_revision : option string; ei_observed_time : datetime;
  ei_validity_window_seconds : Z; ei_result : EvidenceResult; ei_artifacts : list Digest;
  ei_verifier_version : string; ei_subject_resource : option string;
  ei_criterion_ids : list string; ei_positive_implementation : bool;
  ei_implementation_diff_digest : option string }.
Definition evidence_item_post_init (i : EvidenceItem) : result EvidenceItem :=
  raise_when blank (ei_type i) as InvalidInputError ;;
  raise_when (ei_schema_version i <? 1)%Z as InvalidInputError ;;
  raise_when negb (tz_aware (ei_observed_time i)) as InvalidInputError ;;
  raise_when (ei_validity_window_seconds i <? 0)%Z as InvalidInputError ;;
  raise_when bool_decide (ei_subject_revision i = None) && bool_decide (ei_subject_resource i = None)
    as InvalidInputError ;;
  raise_when blank (ei_verifier_version i) as InvalidInputError ;;
  raise_when ei_positive_implementation i && negb (bool_decide (ei_result i = EV_PASS))
    as InvalidInputError ;;
  raise_when ei_positive_implementation i &&
             from_option blank true (ei_implementation_diff_digest i) as InvalidInputError ;;
  Ok i.

(** [is_stale] *)
Definition expires_after (i : EvidenceItem) : datetime :=
  dt_add (ei_observed_time i) (ei_validity_window_seconds i * 1000000).
Definition is_stale (i : EvidenceItem) (reference_time : datetime) : result bool :=
  raise_when negb (tz_aware reference_time) as InvalidInputError ;;
  dt_lt (expires_after i) reference_time.
(** [binds_subject] *)
Definition binds_subject (i : EvidenceItem) (subject_revision subject_resource : option string)
    : bool :=
  (bool_decide (subject_revision = None) || bool_decide (ei_subject_revision i = subject_revision)) &&
  (bool_decide (subject_resource = None) || bool_decide (ei_subject_resource i = subject_resource)).

(** ** Contracts *)
Record EvidenceRequirement := {
  er_key : string; er_evidence_type : string; er_subject_revision : option string;
  er_subject_resource : option string; er_hard_required : bool }.
Definition requirement_post_init (r : EvidenceRequirement) : result EvidenceRequirement :=
  raise_when blank (er_key r) || blank (er_evidence_type r) as EvidenceEvaluationError ;; Ok r.
Record EvidenceContract := { ec_requirements : list EvidenceRequirement }.
Definition contract_post_init (c : EvidenceContract) : result EvidenceContract :=
  raise_when negb (bool_decide (NoDup (map er_key (ec_requirements c))))
    as EvidenceEvaluationError ;;
  Ok c.

Record EvidenceEvaluation := {
  ee_result : EvidenceResult; ee_satisfied : list string; ee_missing : list string;
  ee_failed : list string; ee_indeterminate : list string; ee_stale : list string;
  ee_subject_mismatch : list string }.
Definition blocks_terminal (e : EvidenceEvaluation) : bool :=
  negb (bool_decide (ee_result e = EV_PASS)).

(** ** The evaluator *)
(** [evidence_by_type.setdefault(item.type, []).append(item)] *)
Definition by_type_get (m : gmap string (list EvidenceItem)) (ty : string) : list EvidenceItem :=
  default [] (m !! ty).
Definition by_type_add (m : gmap string (list EvidenceItem)) (i : EvidenceItem)
    : gmap string (list EvidenceItem) := <[ei_type i := by_type_get m (ei_type i) ++ [i]]> m.
Definition evidence_by_type (items : list EvidenceItem) : gmap string (list EvidenceItem) :=
  foldl by_type_add ∅ items.

(** [max(matching, key=observed_time)]: the first of the greatest. *)
Definition later_item (best i : EvidenceItem) : result EvidenceItem :=
  b ← dt_lt (ei_observed_time best) (ei_observed_time i);
  Ok (if (b : bool) then i else best).
Definition latest_item (first : EvidenceItem) (rest : list EvidenceItem) : result EvidenceItem :=
  foldM_result later_item rest first.

(** The six lists during the loop. *)
Record verdicts := {
  v_satisfied : list string; v_missing : list string; v_failed : list string;
  v_indeterminate : list string; v_stale : list string; v_subject_mismatch : list string }.
Definition judge (items : gmap string (list EvidenceItem)) (reference_time : datetime)
    (v : verdicts) (r : EvidenceRequirement) : result verdicts :=
  let candidates := by_type_get items (er_evidence_type r) in
  match List.filter (fun i => binds_subject i (er_subject_revision r) (er_subject_resource r))
          candidates with
  | [] =>
      if negb (bool_decide (candidates = []))
      then Ok {| v_satisfied := v_satisfied v; v_missing := v_missing v; v_failed := v_failed v;
                 v_indeterminate := v_indeterminate v; v_stale := v_stale v;
                 v_subject_mismatch := v_subject_mismatch v ++ [er_key r] |}
      else if er_hard_required r
      then Ok {| v_satisfied := v_satisfied v; v_missing := v_missing v ++ [er_key r];
                 v_failed := v_failed v; v_indeterminate := v_indeterminate v;
                 v_stale := v_stale v; v_subject_mismatch := v_subject_mismatch v |}
      else Ok v
  | i :: rest =>
      latest ← latest_item i rest;
      stale ← is_stale latest reference_time;
      if (stale : bool)
      then Ok {| v_satisfied := v_satisfied v; v_missing := v_missing v; v_failed := v_failed v;
                 v_indeterminate := v_indeterminate v; v_stale := v_stale v ++ [er_key r];
                 v_subject_mismatch := v_subject_mismatch v |}
      else match ei_result latest with
      | EV_FAIL =>
          Ok {| v_satisfied := v_satisfied v; v_missing := v_missing v;
                v_failed := v_failed v ++ [er_key r]; v_indeterminate := v_indeterminate v;
                v_stale := v_stale v; v_subject_mismatch := v_subject_mismatch v |}
      | EV_INDETERMINATE =>
          Ok {| v_satisfied := v_satisfied v; v_missing := v_missing v; v_failed := v_failed v;
                v_indeterminate := v_indeterminate v ++ [er_key r]; v_stale := v_stale v;
                v_subject_mismatch := v_subject_mismatch v |}
      | EV_PASS =>
          Ok {| v_satisfied := v_satisfied v ++ [er_key r]; v_missing := v_missing v;
                v_failed := v_failed v; v_indeterminate := v_indeterminate v;
                v_stale := v_stale v; v_subject_mismatch := v_subject_mismatch v |}
      end
  end.
Definition no_verdicts (c : EvidenceContract) : verdicts := {|
  v_satisfied := []; v_missing := []; v_failed := [];
  v_indeterminate := if bool_decide (ec_requirements c = []) then ["no_requirements"] else [];
  v_stale := []; v_subject_mismatch := [] |}.
Definition verdict_result (v : verdicts) : EvidenceResult :=
  if negb (bool_decide (v_failed v = [])) || negb (bool_decide (v_stale v = [])) ||
     negb (bool_decide (v_subject_mismatch v = [])) then EV_FAIL
  else if negb (bool_decide (v_missing v = [])) || negb (bool_decide (v_indeterminate v = []))
  then EV_INDETERMINATE else EV_PASS.
Definition evidence_evaluate (c : EvidenceContract) (items : list EvidenceItem)
    (reference_time : datetime) : result EvidenceEvaluation :=
  v ← foldM_result (judge (evidence_by_type items) reference_time) (ec_requirements c)
        (no_verdicts c);
  Ok {| ee_result := verdict_result v; ee_satisfied := v_satisfied v; ee_missing := v_missing v;
        ee_failed := v_failed v; ee_indeterminate := v_indeterminate v; ee_stale := v_stale v;
        ee_subject_mismatch := v_subject_mismatch v |}.

(** ** Evidence theorems

    What makes an evaluation pass, fail or stay indeterminate, and the accounting of
    every requirement. *)

(** ** Specification *)
Definition observed (i : EvidenceItem) : Z := micros (ei_observed_time i).
Definition expiry (i : EvidenceItem) : Z :=
  (observed i + ei_validity_window_seconds i * 1000000)%Z.
Definition matches (r : EvidenceRequirement) (i : EvidenceItem) : bool :=
  String.eqb (ei_type i) (er_evidence_type r) &&
  binds_subject i (er_subject_revision r) (er_subject_resource r).
(** [i] is the first of the most recently observed items of [l]. *)
Definition latest_of (l : list EvidenceItem) (i : EvidenceItem) : Prop :=
  exists l1 l2, l = l1 ++ i :: l2 /\ Forall (fun j => observed j < observed i)%Z l1 /\
    Forall (fun j => observed j <= observed i)%Z l2.
Definition current_item (items : list EvidenceItem) (r : EvidenceRequirement) (i : EvidenceItem)
    : Prop := latest_of (List.filter (matches r) items) i.
Definition no_candidate (items : list EvidenceItem) (r : EvidenceRequirement) : Prop :=
  forall i, i ∈ items -> ei_type i <> er_evidence_type r.
(** The current matching item passes and is still valid at [t]. *)
Definition meets (items : list EvidenceItem) (t : Z) (r : EvidenceRequirement) : Prop :=
  exists i, current_item items r i /\ ei_result i = EV_PASS /\ (t <= expiry i)%Z.
(** An optional requirement nothing was offered for. *)
Definition waived (items : list EvidenceItem) (r : EvidenceRequirement) : Prop :=
  er_hard_required r = false /\ no_candidate items r.
(** Evidence that speaks against the claim: of another subject only, expired, or
    failed. *)
Definition contradicted (items : list EvidenceItem) (t : Z) (r : EvidenceRequirement) : Prop :=
  (~ no_candidate items r /\ List.filter (matches r) items = []) \/
  exists i, current_item items r i /\ ((expiry i < t)%Z \/ ei_result i = EV_FAIL).

(** ** The grouping is a filter *)
Lemma by_type_spec items ty :
  by_type_get (evidence_by_type items) ty =
  List.filter (fun i => String.eqb (ei_type i) ty) items.
Proof.
  unfold evidence_by_type. enough (H : forall m, by_type_get (foldl by_type_add m items) ty =
    by_type_get m ty ++ List.filter (fun i => String.eqb (ei_type i) ty) items) by (rewrite H; unfold by_type_get at 1; by rewrite lookup_empty).
  induction items as [|i items IH]; intros m; cbn [foldl List.filter]; [by rewrite app_nil_r|].
  rewrite IH. unfold by_type_add, by_type_get at 1.
  destruct (String.eqb_spec (ei_type i) ty) as [<-|Hne].
  - rewrite lookup_insert_eq. cbn. by rewrite <- app_assoc.
  - by rewrite lookup_insert_ne.
Qed.
Lemma filter_filter {A} (p q : A -> bool) l :
  List.filter p (List.filter q l) = List.filter (fun x => q x && p x) l.
Proof.
  induction l as [|x l IH]; [done|]. cbn. destruct (q x); cbn; [|done]. by destruct (p x); rewrite IH.
Qed.
Lemma candidates_matching items r :
  List.filter (fun i => binds_subject i (er_subject_revision r) (er_subject_resource r))
    (by_type_get (evidence_by_type items) (er_evidence_type r)) = List.filter (matches r) items.
Proof. by rewrite by_type_spec, filter_filter. Qed.
Lemma no_candidate_spec items r :
  by_type_get (evidence_by_type items) (er_evidence_type r) = [] <-> no_candidate items r.
Proof.
  rewrite by_type_spec. unfold no_candidate. induction items as [|i items IH]; cbn.
  - split; [|done]. intros _ i Hi. by apply elem_of_nil in Hi.
  - destruct (String.eqb_spec (ei_type i) (er_evidence_type r)) as [He|Hne].
    + split; [done|]. intros H. by destruct (H i ltac:(left)).
    + rewrite IH. split; intros H j; [rewrite elem_of_cons; intros [->|Hj]; [done|by apply H]|].
      intros Hj. apply H. by right.
Qed.

(** ** The latest item *)
Definition valid_items (items : list EvidenceItem) : Prop :=
  Forall (fun i => evidence_item_post_init i = Ok i) items.
Lemma valid_aware items : valid_items items ->
  Forall (fun i => exists us, ei_observed_time i = Aware us) items.
Proof.
  intros Hv. eapply Forall_impl; [exact Hv|]. intros i. unfold evidence_item_post_init. rewrite !raise_if_Ok, negb_false_iff.
  intros (_ & _ & Ha & _). destruct (ei_observed_time i) as [us|]; [by exists us|done].
Qed.
Lemma latest_item_spec i l :
  Forall (fun i => exists us, ei_observed_time i = Aware us) (i :: l) ->
  exists j, latest_item i l = Ok j /\ latest_of (i :: l) j /\ j ∈ i :: l.
Proof.
  intros [[us Hi] Hl]%Forall_cons. unfold latest_item.
  assert (Hgen : forall pre b mid rest, Forall (fun i => exists us, ei_observed_time i = Aware us) rest ->
    (exists us, ei_observed_time b = Aware us) ->
    Forall (fun j => observed j < observed b)%Z pre -> Forall (fun j => observed j <= observed b)%Z mid ->
    exists j, foldM_result later_item rest b = Ok j /\ latest_of (pre ++ b :: mid ++ rest) j /\
      j ∈ pre ++ b :: mid ++ rest).
  { intros pre b mid rest Hr. revert pre b mid. induction Hr as [|k rest [uk Hk] _ IH];
      intros pre b mid [ub Hb] Hpre Hmid.
    - exists b. split_and!; [done| |set_solver]. exists pre, mid. by rewrite app_nil_r.
    - cbn [foldM_result].
      assert (later_item b k = Ok (if (ub <? uk)%Z then k else b)) as ->.
      { unfold later_item. rewrite Hb, Hk. done. }
      cbn [mbind result_bind].
      destruct (Z.ltb_spec ub uk) as [Hlt|Hge].
      + assert (Hbk : (observed b < observed k)%Z) by (unfold observed; rewrite Hb, Hk; done).
        destruct (IH (pre ++ b :: mid) k []) as (j & Hj & Hl' & Hin); [by exists uk| |done|].
        { apply Forall_app. split; [eapply Forall_impl; [exact Hpre|]; cbn; lia|].
          constructor; [done|]. eapply Forall_impl; [exact Hmid|]. cbn. lia. }
        exists j. rewrite <- app_assoc in Hl', Hin. done.
      + destruct (IH pre b (mid ++ [k])) as (j & Hj & Hl' & Hin); [by exists ub|done| |].
        { apply Forall_app. split; [done|]. constructor; [|done]. unfold observed.
          rewrite Hb, Hk. cbn. lia. }
        exists j. rewrite <- app_assoc in Hl', Hin. done. }
  destruct (Hgen [] i [] l Hl (ex_intro _ us Hi) ltac:(done) ltac:(done)) as (j & Hj & Hlo & Hin).
  by exists j.
Qed.
Lemma latest_of_unique l i j : latest_of l i -> latest_of l j -> i = j.
Proof.
  intros (l1 & l2 & -> & H1 & H2) (k1 & k2 & Heq & K1 & K2).
  revert k1 Heq K1. induction l1 as [|x l1 IH]; intros k1 Heq K1.
  - destruct k1 as [|y k1]; [by injection Heq|]. injection Heq as <- ->.
    inversion_clear K1. rewrite Forall_app, Forall_cons in H2. lia.
  - destruct k1 as [|y k1].
    + injection Heq as <- <-. inversion_clear H1. rewrite Forall_app, Forall_cons in K2. lia.
    + injection Heq as <- Heq. inversion_clear H1. inversion_clear K1. by eapply IH.
Qed.

(** ** One round of the loop *)
Inductive verdict := Satisfied | Missing | Failed | Indeterminate | Stale | Mismatch | Waived.
#[export] Instance verdict_eq_dec : EqDecision verdict.
Proof. solve_decision. Defined.
Definition add_verdict (w : verdict) (k : string) (v : verdicts) : verdicts := {|
  v_satisfied := v_satisfied v ++ (if decide (w = Satisfied) then [k] else []);
  v_missing := v_missing v ++ (if decide (w = Missing) then [k] else []);
  v_failed := v_failed v ++ (if decide (w = Failed) then [k] else []);
  v_indeterminate := v_indeterminate v ++ (if decide (w = Indeterminate) then [k] else []);
  v_stale := v_stale v ++ (if decide (w = Stale) then [k] else []);
  v_subject_mismatch := v_subject_mismatch v ++ (if decide (w = Mismatch) then [k] else []) |}.

(** The verdict of a requirement, by what is offered for it. *)
Definition judged (items : list EvidenceItem) (t : Z) (r : EvidenceRequirement) (w : verdict) : Prop :=
  match w with
  | Satisfied => meets items t r
  | Missing => er_hard_required r = true /\ no_candidate items r
  | Waived => waived items r
  | Mismatch => ~ no_candidate items r /\ List.filter (matches r) items = []
  | Stale => exists i, current_item items r i /\ (expiry i < t)%Z
  | Failed => exists i, current_item items r i /\ (t <= expiry i)%Z /\ ei_result i = EV_FAIL
  | Indeterminate =>
      exists i, current_item items r i /\ (t <= expiry i)%Z /\ ei_result i = EV_INDETERMINATE
  end.
Lemma matching_valid items r : valid_items items -> valid_items (List.filter (matches r) items).
Proof.
  unfold valid_items. rewrite !Forall_forall. intros Hv i Hi. apply Hv.
  rewrite list_elem_of_In in *. by apply filter_In in Hi as [? _].
Qed.
Lemma judge_spec items t v r : valid_items items ->
  exists w, judge (evidence_by_type items) (Aware t) v r = Ok (add_verdict w (er_key r) v) /\
    judged items t r w.
Proof.
  intros Hv. unfold judge. rewrite candidates_matching.
  destruct (List.filter (matches r) items) as [|i rest] eqn:Hm.
  - case_bool_decide as Hc; cbn [negb].
    + apply no_candidate_spec in Hc. destruct (er_hard_required r) eqn:Hh.
      * exists Missing. split; [|done]. unfold add_verdict. cbn. by rewrite !app_nil_r.
      * exists Waived. split; [|done]. unfold add_verdict. cbn. rewrite !app_nil_r. by destruct v.
    + exists Mismatch. split; [unfold add_verdict; cbn; by rewrite !app_nil_r|].
      split; [by rewrite <- no_candidate_spec|done].
  - assert (Ha : Forall (fun i => exists us, ei_observed_time i = Aware us) (i :: rest)).
    { rewrite <- Hm. apply valid_aware. by apply matching_valid. }
    destruct (latest_item_spec i rest Ha) as (j & Hj & Hl & Hin). rewrite Hj.
    rewrite Forall_forall in Ha. destruct (Ha j Hin) as [us Hus].
    assert (Hs : is_stale j (Aware t) = Ok (expiry j <? t)%Z).
    { unfold is_stale, expires_after, expiry, observed. by rewrite Hus. }
    cbn [mbind result_bind]. rewrite Hs. cbn [mbind result_bind].
    assert (Hcur : current_item items r j) by (unfold current_item; by rewrite Hm).
    destruct (Z.ltb_spec (expiry j) t) as [Hlt|Hge].
    + exists Stale. split; [unfold add_verdict; cbn; by rewrite !app_nil_r|by exists j].
    + destruct (ei_result j) eqn:Hr;
        [exists Satisfied|exists Failed|exists Indeterminate];
        (split; [unfold add_verdict; cbn; by rewrite !app_nil_r|by exists j]).
Qed.
Lemma current_item_unique items r i j : current_item items r i -> current_item items r j -> i = j.
Proof. apply latest_of_unique. Qed.
Lemma current_item_filter items r i : current_item items r i -> List.filter (matches r) items <> [].
Proof. intros (l1 & l2 & Hl & _) Hn. rewrite Hl in Hn. by destruct l1. Qed.
Lemma no_candidate_filter items r : no_candidate items r -> List.filter (matches r) items = [].
Proof. rewrite <- no_candidate_spec. intros Hc. by rewrite <- candidates_matching, Hc. Qed.

(** The verdicts exclude one another. *)
Lemma judged_unique items t r w w' : judged items t r w -> judged items t r w' -> w = w'.
Proof.
  assert (Hex : forall i, current_item items r i -> no_candidate items r -> False).
  { intros i Hi Hn. by apply (current_item_filter _ _ _ Hi), no_candidate_filter. }
  destruct w, w'; cbn; try done; unfold meets, waived.
  all: try (intros (i & Hi & Hr & Ht) (j & Hj & Hr' & Ht');
            pose proof (current_item_unique _ _ _ _ Hi Hj) as <-; congruence || lia).
  all: try (intros (i & Hi & Hr) (j & Hj & Hr');
            pose proof (current_item_unique _ _ _ _ Hi Hj) as <-;
            intuition (congruence || lia)).
  all: try (intros (i & Hi & _) [Hh Hn]; exfalso; first [by eapply Hex | by apply (current_item_filter _ _ _ Hi)]).
  all: try (intros [Hh Hn] (i & Hi & _); exfalso; first [by eapply Hex | by apply (current_item_filter _ _ _ Hi)]).
  all: try (intros [Hh Hn] [Hh' Hn']; congruence || done).
Qed.

(** ** The whole loop *)
Definition keys_with (w : verdict) (reqs : list EvidenceRequirement) (ws : list verdict) : list string :=
  concat (zip_with (fun r w' => if decide (w' = w) then [er_key r] else []) reqs ws).
Lemma judge_loop items t reqs v : valid_items items ->
  exists ws v', foldM_result (judge (evidence_by_type items) (Aware t)) reqs v = Ok v' /\
    Forall2 (judged items t) reqs ws /\
    v' = {| v_satisfied := v_satisfied v ++ keys_with Satisfied reqs ws;
            v_missing := v_missing v ++ keys_with Missing reqs ws;
            v_failed := v_failed v ++ keys_with Failed reqs ws;
            v_indeterminate := v_indeterminate v ++ keys_with Indeterminate reqs ws;
            v_stale := v_stale v ++ keys_with Stale reqs ws;
            v_subject_mismatch := v_subject_mismatch v ++ keys_with Mismatch reqs ws |}.
Proof.
  intros Hv. revert v. induction reqs as [|r reqs IH]; intros v.
  - exists [], v. split_and!; [done|constructor|]. unfold keys_with. cbn. rewrite !app_nil_r.
    by destruct v.
  - destruct (judge_spec items t v r Hv) as (w & Hj & Hw). cbn [foldM_result]. rewrite Hj.
    cbn [mbind result_bind].
    destruct (IH (add_verdict w (er_key r) v)) as (ws & v' & Hf & Hws & ->).
    exists (w :: ws). eexists. split_and!; [exact Hf|by constructor|].
    unfold add_verdict, keys_with. cbn [v_satisfied v_missing v_failed v_indeterminate v_stale
      v_subject_mismatch zip_with concat]. by rewrite <- !app_assoc.
Qed.
Lemma elem_of_keys_with items t w reqs ws k : Forall2 (judged items t) reqs ws ->
  k ∈ keys_with w reqs ws <-> exists r, r ∈ reqs /\ er_key r = k /\ judged items t r w.
Proof.
  induction 1 as [|r w' reqs ws Hr _ IH]; unfold keys_with in *; cbn.
  - rewrite elem_of_nil. split; [done|]. by intros (r & Hr & _); apply elem_of_nil in Hr.
  - rewrite elem_of_app, IH. split.
    + intros [Hk|(r' & Hin & Hk & Hj)]; [|by exists r'; rewrite elem_of_cons; auto].
      case_decide as He; [|by apply elem_of_nil in Hk]. apply list_elem_of_singleton in Hk. subst.
      exists r. rewrite elem_of_cons. auto.
    + intros (r' & Hin & Hk & Hj). rewrite elem_of_cons in Hin. destruct Hin as [->|Hin].
      * left. rewrite decide_True by (by eapply judged_unique). by apply list_elem_of_singleton.
      * right. by exists r'.
Qed.
Lemma keys_with_nil items t w reqs ws : Forall2 (judged items t) reqs ws ->
  keys_with w reqs ws = [] <-> forall r, r ∈ reqs -> ~ judged items t r w.
Proof.
  intros Hf. split.
  - intros Hn r Hin Hj. assert (Hk : er_key r ∈ keys_with w reqs ws)
      by (apply (elem_of_keys_with items t); [done|by exists r]).
    rewrite Hn in Hk. by apply elem_of_nil in Hk.
  - intros H. destruct (keys_with w reqs ws) as [|k l] eqn:Hk; [done|]. exfalso.
    assert (Hin : k ∈ keys_with w reqs ws) by (rewrite Hk; left).
    apply (elem_of_keys_with items t) in Hin as (r & Hr & _ & Hj); [|done]. by eapply H.
Qed.
Lemma keys_with_cons items t w reqs ws : Forall2 (judged items t) reqs ws ->
  keys_with w reqs ws <> [] <-> exists r, r ∈ reqs /\ judged items t r w.
Proof.
  intros Hf. split.
  - destruct (keys_with w reqs ws) as [|k l] eqn:Hk; [done|]. intros _.
    assert (Hin : k ∈ keys_with w reqs ws) by (rewrite Hk; left).
    apply (elem_of_keys_with items t) in Hin as (r & Hr & _ & Hj); [by exists r|done].
  - intros (r & Hr & Hj) Hn. by eapply (proj1 (keys_with_nil items t w _ _ Hf) Hn).
Qed.
Lemma verdict_result_FAIL v : verdict_result v = EV_FAIL <->
  v_failed v <> [] \/ v_stale v <> [] \/ v_subject_mismatch v <> [].
Proof. unfold verdict_result. repeat case_bool_decide; cbn; naive_solver. Qed.
Lemma verdict_result_PASS v : verdict_result v = EV_PASS <->
  v_failed v = [] /\ v_stale v = [] /\ v_subject_mismatch v = [] /\ v_missing v = [] /\
  v_indeterminate v = [].
Proof. unfold verdict_result. repeat case_bool_decide; cbn; naive_solver. Qed.
Lemma contradicted_judged items t r : contradicted items t r <->
  judged items t r Failed \/ judged items t r Stale \/ judged items t r Mismatch.
Proof.
  unfold contradicted. cbn. split.
  - intros [H|(i & Hi & Hor)]; [by auto|].
    destruct (Z.lt_ge_cases (expiry i) t); [by right; left; exists i|].
    left. exists i. split_and!; [done|lia|]. by destruct Hor; [lia|].
  - intros [(i & Hi & _ & Hr)|[(i & Hi & Hlt)|H]]; [right; exists i..|by left]; auto.
Qed.
Lemma judged_ok items t r w : judged items t r w ->
  (meets items t r \/ waived items r) <-> (w = Satisfied \/ w = Waived).
Proof.
  intros Hj. split.
  - intros [H|H]; [left|right]; by eapply judged_unique.
  - by intros [-> | ->]; [left|right].
Qed.
(** Every requirement has a verdict. *)
Lemma all_judged items t reqs ws r : Forall2 (judged items t) reqs ws -> r ∈ reqs ->
  exists w, judged items t r w.
Proof.
  intros Hf [i Hi]%list_elem_of_lookup. destruct (Forall2_lookup_l _ _ _ _ _ Hf Hi) as (w & _ & Hw).
  by exists w.
Qed.

(** On valid items and an aware reference time the evaluation returns, and it
    passes exactly when the contract has requirements and each is met (its first
    latest matching item passes and has not expired) or is optional with nothing
    offered for it; it fails exactly when the evidence for some requirement is of
    another subject only, expired or failed; and the satisfied keys are exactly those
    of the met requirements. *)
Theorem evidence_evaluate_spec c items t : valid_items items ->
  exists ev, evidence_evaluate c items (Aware t) = Ok ev /\
    (ee_result ev = EV_PASS <-> ec_requirements c <> [] /\
       forall r, r ∈ ec_requirements c -> meets items t r \/ waived items r) /\
    (ee_result ev = EV_FAIL <-> exists r, r ∈ ec_requirements c /\ contradicted items t r) /\
    (forall k, k ∈ ee_satisfied ev <->
       exists r, r ∈ ec_requirements c /\ er_key r = k /\ meets items t r).
Proof.
  intros Hv. destruct (judge_loop items t (ec_requirements c) (no_verdicts c) Hv)
    as (ws & v' & Hf & Hws & Hv').
  unfold evidence_evaluate. rewrite Hf. cbn [mbind result_bind]. eexists. split; [done|].
  cbn [ee_result ee_satisfied].
  rewrite verdict_result_PASS, verdict_result_FAIL, Hv'. cbn [v_satisfied v_missing v_failed
    v_indeterminate v_stale v_subject_mismatch no_verdicts app].
  rewrite !(keys_with_cons items t), app_nil, !(keys_with_nil items t) by done. split_and!.
  - split.
    + intros (Hfl & Hst & Hmm & Hms & Hne & Hid). split; [by case_bool_decide|]. intros r Hr.
      destruct (all_judged _ _ _ _ _ Hws Hr) as (w & Hw). destruct w; [by left|exfalso..|by right];
        [by eapply Hms|by eapply Hfl|by eapply Hid|by eapply Hst|by eapply Hmm].
    + intros [Hne Hall]. rewrite bool_decide_false by done.
      split_and!; try done; intros r Hr Hj; specialize (Hall r Hr);
        apply (judged_ok _ _ _ _ Hj) in Hall; by destruct Hall.
  - setoid_rewrite contradicted_judged. naive_solver.
  - intros k. apply (elem_of_keys_with items t Satisfied _ _ _ Hws).
Qed.

(** ** Witness *)
Definition ci_item : EvidenceItem := {|
  ei_type := "ci"; ei_schema_version := 1;
  ei_producer := {| ap_id := "ci-bot"; ap_principal_type := SYSTEM; ap_role := "verifier";
                    ap_authorization_source := "config" |};
  ei_subject_revision := Some "abc"; ei_observed_time := Aware 0;
  ei_validity_window_seconds := 60; ei_result := EV_PASS; ei_artifacts := [];
  ei_verifier_version := "1.0.0"; ei_subject_resource := None; ei_criterion_ids := [];
  ei_positive_implementation := false; ei_implementation_diff_digest := None |}.
Definition ci_contract : EvidenceContract := {| ec_requirements := [{|
  er_key := "tests"; er_evidence_type := "ci"; er_subject_revision := Some "abc";
  er_subject_resource := None; er_hard_required := true |}] |}.
Lemma evidence_evaluate_spec_witness : exists ev,
  evidence_evaluate ci_contract [ci_item] (Aware 5000000) = Ok ev /\ ee_result ev = EV_PASS.
Proof.
  destruct (evidence_evaluate_spec ci_contract [ci_item] 5000000
    ltac:(constructor; [vm_compute; reflexivity|constructor])) as (ev & Hev & Hpass & _).
  exists ev. split; [exact Hev|]. apply Hpass. split; [done|].
  intros r [-> | []%elem_of_nil]%elem_of_cons. left. exists ci_item.
  split_and!; [by exists [], []|done|vm_compute; discriminate].
Defined.
