(* ===== verification/Policy.v ===== *)
(** * Policy ([domain/policy_decision.py], [policy/schemas.py], [policy/rules.py],
      [policy/approval.py], [policy/evaluator.py], [policy/defaults.py])

    The closed action namespace, the canonical request with its digest, the hard
    rules, the approval registry and the evaluator.  A call's fresh identifier
    ([uuid4]) and current instant are arguments. *)
From S2P Require Import Prelude PyText Json Identity Lifecycles Aggregates Evidence.
From Stdlib Require Import SpecFloat.

(** ** The closed namespace ([domain/policy_decision.py]) *)
Inductive PolicyAction :=
| WORKSPACE_CREATE | AGENT_EXECUTE | CREDENTIAL_GRANT | NETWORK_REQUEST | CAPABILITY_MATERIALIZE
| EVIDENCE_NON_APPLICABILITY_ACCEPT | REVIEW_FINDING_WAIVE | PULL_REQUEST_OPEN
| PULL_REQUEST_MERGE | RELEASE_PREPARE | RELEASE_PUBLISH | DEPLOYMENT_EXECUTE
| DEPLOYMENT_ROLLBACK | FACTORY_CHANGE_PROPOSE | FACTORY_CHANGE_CANARY
| FACTORY_CHANGE_PROMOTE | POLICY_OVERRIDE.
#[export] Instance PolicyAction_eq_dec : EqDecision PolicyAction.
Proof. solve_decision. Defined.
#[export] Program Instance PolicyAction_enum : PyEnum PolicyAction := {|
  members := [WORKSPACE_CREATE; AGENT_EXECUTE; CREDENTIAL_GRANT; NETWORK_REQUEST;
    CAPABILITY_MATERIALIZE; EVIDENCE_NON_APPLICABILITY_ACCEPT; REVIEW_FINDING_WAIVE;
    PULL_REQUEST_OPEN; PULL_REQUEST_MERGE; RELEASE_PREPARE; RELEASE_PUBLISH; DEPLOYMENT_EXECUTE;
    DEPLOYMENT_ROLLBACK; FACTORY_CHANGE_PROPOSE; FACTORY_CHANGE_CANARY; FACTORY_CHANGE_PROMOTE;
    POLICY_OVERRIDE];
  enum_value a := match a with
    | WORKSPACE_CREATE => "workspace.create" | AGENT_EXECUTE => "agent.execute"
    | CREDENTIAL_GRANT => "credential.grant" | NETWORK_REQUEST => "network.request"
    | CAPABILITY_MATERIALIZE => "capability.materialize"
    | EVIDENCE_NON_APPLICABILITY_ACCEPT => "evidence.non_applicability.accept"
    | REVIEW_FINDING_WAIVE => "review_finding.waive" | PULL_REQUEST_OPEN => "pull_request.open"
    | PULL_REQUEST_MERGE => "pull_request.merge" | RELEASE_PREPARE => "release.prepare"
    | RELEASE_PUBLISH => "release.publish" | DEPLOYMENT_EXECUTE => "deployment.execute"
    | DEPLOYMENT_ROLLBACK => "deployment.rollback"
    | FACTORY_CHANGE_PROPOSE => "factory_change.propose"
    | FACTORY_CHANGE_CANARY => "factory_change.canary"
    | FACTORY_CHANGE_PROMOTE => "factory_change.promote"
    | POLICY_OVERRIDE => "policy.override" end |}.
Next Obligation. solve_enum. Qed.
Next Obligation. solve_enum. Qed.

Inductive PolicyResult := ALLOW | DENY | REQUIRE_HUMAN.
#[export] Instance PolicyResult_eq_dec : EqDecision PolicyResult.
Proof. solve_decision. Defined.

(** ** Requests ([policy/schemas.py]) *)
Record ApprovalSchema := {
  ps_action : PolicyAction;
  ps_work_kind : option WorkKind; ps_risk_class : option RiskClass;
  ps_repository : option string; ps_changed_paths : option (list string);
  ps_requested_capability : option string; ps_workflow_version : option string;
  ps_policy_version : option string; ps_evidence_status : option string;
  ps_retry_consumption : option Z; ps_budget_consumption : option spec_float;
  ps_validation_profile : option string; ps_release_type : option string;
  ps_credential_request : option string; ps_prior_interventions : option (list string);
  ps_external_protection_state : option string; ps_work_snapshot : option string;
  ps_effective_configuration : option string; ps_adapter_locks : option string;
  ps_capability_locks : option string; ps_target_resource : option string;
  ps_diff_or_artifact_digest : option string; ps_acceptance_criteria_snapshot : option string;
  ps_evidence_bundle_digest : option string; ps_requesting_principal_id : option string;
  ps_producer_principal_ids : option (list string);
  ps_credential_delivery_target : option string; ps_agent_authored_executable : option bool;
  ps_retry_after_ambiguous_effect : option bool; ps_reconciliation_complete : option bool;
  ps_mutates_active_factory_asset : option bool;
  ps_candidate_received_held_out_input : option bool;
  ps_candidate_affects_protected_control : option bool; ps_canary_target : option string;
  ps_override_reason : option string; ps_override_scope : option (list string);
  ps_override_expires_at : option datetime; ps_capability_introduced_by_run : option bool }.

Definition no_blanks (values : option (list string)) : bool :=
  negb (from_option (existsb blank) false values).
(** [__post_init__] *)
Definition approval_schema_post_init (s : ApprovalSchema) : result ApprovalSchema :=
  raise_when negb (no_blanks (ps_changed_paths s)) as ActionSchemaError ;;
  raise_when negb (no_blanks (ps_prior_interventions s)) as ActionSchemaError ;;
  raise_when negb (no_blanks (ps_producer_principal_ids s)) as ActionSchemaError ;;
  raise_when negb (no_blanks (ps_override_scope s)) as ActionSchemaError ;;
  raise_when from_option (fun d => negb (tz_aware d)) false (ps_override_expires_at s)
    as ActionSchemaError ;;
  Ok s.

Definition is_none {A} (o : option A) : bool := match o with None => true | Some _ => false end.
Definition opt_json {A} (f : A -> json) (o : option A) : json :=
  match o with None => JNull | Some a => f a end.
Definition sorted_strs (l : list string) : json := JList (map JStr (merge_sort String.le l)).

(** [getattr(self, name) is None] for every name of [_ACTION_FIELDS]. *)
Definition absent_fields (s : ApprovalSchema) : list (string * bool) :=
  [("work_kind", is_none (ps_work_kind s)); ("risk_class", is_none (ps_risk_class s));
   ("repository", is_none (ps_repository s)); ("changed_paths", is_none (ps_changed_paths s));
   ("requested_capability", is_none (ps_requested_capability s));
   ("workflow_version", is_none (ps_workflow_version s));
   ("policy_version", is_none (ps_policy_version s));
   ("evidence_status", is_none (ps_evidence_status s));
   ("retry_consumption", is_none (ps_retry_consumption s));
   ("budget_consumption", is_none (ps_budget_consumption s));
   ("validation_profile", is_none (ps_validation_profile s));
   ("release_type", is_none (ps_release_type s));
   ("credential_request", is_none (ps_credential_request s));
   ("prior_interventions", is_none (ps_prior_interventions s));
   ("external_protection_state", is_none (ps_external_protection_state s));
   ("work_snapshot", is_none (ps_work_snapshot s));
   ("effective_configuration", is_none (ps_effective_configuration s));
   ("adapter_locks", is_none (ps_adapter_locks s));
   ("capability_locks", is_none (ps_capability_locks s));
   ("target_resource", is_none (ps_target_resource s));
   ("diff_or_artifact_digest", is_none (ps_diff_or_artifact_digest s));
   ("acceptance_criteria_snapshot", is_none (ps_acceptance_criteria_snapshot s));
   ("evidence_bundle_digest", is_none (ps_evidence_bundle_digest s));
   ("requesting_principal_id", is_none (ps_requesting_principal_id s));
   ("producer_principal_ids", is_none (ps_producer_principal_ids s));
   ("credential_delivery_target", is_none (ps_credential_delivery_target s));
   ("agent_authored_executable", is_none (ps_agent_authored_executable s));
   ("retry_after_ambiguous_effect", is_none (ps_retry_after_ambiguous_effect s));
   ("reconciliation_complete", is_none (ps_reconciliation_complete s));
   ("mutates_active_factory_asset", is_none (ps_mutates_active_factory_asset s));
   ("candidate_received_held_out_input", is_none (ps_candidate_received_held_out_input s));
   ("candidate_affects_protected_control", is_none (ps_candidate_affects_protected_control s));
   ("canary_target", is_none (ps_canary_target s));
   ("override_reason", is_none (ps_override_reason s));
   ("override_scope", is_none (ps_override_scope s));
   ("override_expires_at", is_none (ps_override_expires_at s));
   ("capability_introduced_by_run", is_none (ps_capability_introduced_by_run s))].
Definition field_missing (s : ApprovalSchema) (name : string) : bool :=
  match dict_get name (absent_fields s) with Some b => b | None => true end.
(** [require_fields] *)
Definition require_fields (s : ApprovalSchema) (names : list string) : result () :=
  raise_when existsb (field_missing s) names as ActionSchemaError ;; Ok ().

Section Inputs.
Context `{rt : PyRuntime} `{iso : IsoCodec}.

(** [canonical_inputs] *)
Definition canonical_inputs (s : ApprovalSchema) : list (string * json) :=
  [("action", JStr (enum_value (ps_action s))); ("schema_version", JInt 1);
   ("work_kind", opt_json (fun k => JStr (enum_value k)) (ps_work_kind s));
   ("risk_class", opt_json (fun k => JStr (enum_value k)) (ps_risk_class s));
   ("repository", opt_json JStr (ps_repository s));
   ("changed_paths", opt_json sorted_strs (ps_changed_paths s));
   ("requested_capability", opt_json JStr (ps_requested_capability s));
   ("workflow_version", opt_json JStr (ps_workflow_version s));
   ("policy_version", opt_json JStr (ps_policy_version s));
   ("evidence_status", opt_json JStr (ps_evidence_status s));
   ("retry_consumption", opt_json JInt (ps_retry_consumption s));
   ("budget_consumption", opt_json JFloat (ps_budget_consumption s));
   ("validation_profile", opt_json JStr (ps_validation_profile s));
   ("release_type", opt_json JStr (ps_release_type s));
   ("credential_request", opt_json JStr (ps_credential_request s));
   ("prior_interventions", opt_json sorted_strs (ps_prior_interventions s));
   ("external_protection_state", opt_json JStr (ps_external_protection_state s));
   ("work_snapshot", opt_json JStr (ps_work_snapshot s));
   ("effective_configuration", opt_json JStr (ps_effective_configuration s));
   ("adapter_locks", opt_json JStr (ps_adapter_locks s));
   ("capability_locks", opt_json JStr (ps_capability_locks s));
   ("target_resource", opt_json JStr (ps_target_resource s));
   ("diff_or_artifact_digest", opt_json JStr (ps_diff_or_artifact_digest s));
   ("acceptance_criteria_snapshot", opt_json JStr (ps_acceptance_criteria_snapshot s));
   ("evidence_bundle_digest", opt_json JStr (ps_evidence_bundle_digest s));
   ("requesting_principal_id", opt_json JStr (ps_requesting_principal_id s));
   ("producer_principal_ids", opt_json sorted_strs (ps_producer_principal_ids s));
   ("credential_delivery_target", opt_json JStr (ps_credential_delivery_target s));
   ("agent_authored_executable", opt_json JBool (ps_agent_authored_executable s));
   ("retry_after_ambiguous_effect", opt_json JBool (ps_retry_after_ambiguous_effect s));
   ("reconciliation_complete", opt_json JBool (ps_reconciliation_complete s));
   ("mutates_active_factory_asset", opt_json JBool (ps_mutates_active_factory_asset s));
   ("candidate_received_held_out_input", opt_json JBool (ps_candidate_received_held_out_input s));
   ("candidate_affects_protected_control", opt_json JBool (ps_candidate_affects_protected_control s));
   ("canary_target", opt_json JStr (ps_canary_target s));
   ("override_reason", opt_json JStr (ps_override_reason s));
   ("override_scope", opt_json sorted_strs (ps_override_scope s));
   ("override_expires_at", opt_json (fun d => JStr (isoformat d)) (ps_override_expires_at s));
   ("capability_introduced_by_run", opt_json JBool (ps_capability_introduced_by_run s))].
(** [digest] *)
Definition schema_digest (s : ApprovalSchema) : result Digest :=
  digest_of_json (JObj (canonical_inputs s)).
End Inputs.

(** ** Hard rules ([policy/rules.py]) *)
Definition HUMAN_REQUIRED_ACTIONS : list PolicyAction :=
  [POLICY_OVERRIDE; EVIDENCE_NON_APPLICABILITY_ACCEPT; REVIEW_FINDING_WAIVE;
   FACTORY_CHANGE_CANARY; FACTORY_CHANGE_PROMOTE; RELEASE_PUBLISH; DEPLOYMENT_EXECUTE;
   DEPLOYMENT_ROLLBACK].
Definition DUAL_HUMAN_ACTIONS : list PolicyAction := [FACTORY_CHANGE_CANARY; FACTORY_CHANGE_PROMOTE].
Definition FORBIDDEN_OVERRIDE_SCOPES : list string :=
  ["action_namespace"; "approval_digest"; "credential_confinement"; "evidence.hard_required";
   "evidence.current_subject"; "factory_candidate_isolation"; "held_out_secrecy";
   "producer_separation"; "reconciliation_before_retry"].
Definition is_true (o : option bool) : bool := bool_decide (o = Some true).
Definition is_action (s : ApprovalSchema) (a : PolicyAction) : bool := bool_decide (ps_action s = a).

Definition requires_human (s : ApprovalSchema) : bool :=
  bool_decide (ps_action s ∈ HUMAN_REQUIRED_ACTIONS) ||
  (is_action s CAPABILITY_MATERIALIZE && is_true (ps_capability_introduced_by_run s)).
Definition requires_dual_human (s : ApprovalSchema) : bool :=
  bool_decide (ps_action s ∈ DUAL_HUMAN_ACTIONS).
(** [HardRuleEnforcer._require] *)
Definition hard_require (s : ApprovalSchema) (fields : list string) : result () :=
  match require_fields s fields with
  | Err ActionSchemaError => Err (HardRuleError "missing required action fields")
  | r => r
  end.
(** [if b: <checks>] *)
Definition when_ (b : bool) (r : result ()) : result () := if b then r else Ok ().
Definition forbid (b : bool) (message : string) : result () := raise_if b (HardRuleError message).

Definition enforce_request (s : ApprovalSchema) : result () :=
  _ ← when_ (requires_human s) (hard_require s ["requesting_principal_id"]);
  _ ← when_ (is_action s CREDENTIAL_GRANT) (
        _ ← hard_require s ["credential_delivery_target"; "agent_authored_executable"];
        _ ← forbid (negb (bool_decide (ps_credential_delivery_target s = Some "fixed_broker")))
              "production and publication credentials may only be granted to fixed broker code";
        forbid (is_true (ps_agent_authored_executable s))
          "broker credentials cannot execute agent-authored executables");
  _ ← forbid (is_true (ps_retry_after_ambiguous_effect s) &&
              negb (is_true (ps_reconciliation_complete s)))
        "an ambiguous side effect must reconcile before retry";
  _ ← when_ (is_action s FACTORY_CHANGE_PROPOSE)
        (hard_require s ["mutates_active_factory_asset"; "candidate_received_held_out_input"]);
  _ ← forbid (is_true (ps_mutates_active_factory_asset s))
        "active factory assets cannot be mutated in place";
  _ ← forbid (is_true (ps_candidate_received_held_out_input s))
        "candidates cannot inspect held-out evaluation inputs";
  _ ← when_ (is_action s FACTORY_CHANGE_CANARY) (
        _ ← hard_require s ["candidate_affects_protected_control"; "canary_target"];
        forbid (is_true (ps_candidate_affects_protected_control s) &&
                negb (bool_decide (ps_canary_target s = Some "non_production_shadow")))
          "protected-control candidates may only canary in non-production shadow mode");
  _ ← when_ (is_action s POLICY_OVERRIDE) (
        _ ← hard_require s ["override_reason"; "override_scope"; "override_expires_at"];
        forbid (existsb (fun x => bool_decide (x ∈ FORBIDDEN_OVERRIDE_SCOPES))
                  (default [] (ps_override_scope s)))
          "a policy override cannot relax a hard rule");
  when_ (is_action s CAPABILITY_MATERIALIZE && is_true (ps_capability_introduced_by_run s))
    (hard_require s ["requested_capability"; "diff_or_artifact_digest"]).

(** [producer_ids] *)
Definition producer_ids (s : ApprovalSchema) : list string :=
  default [] (ps_producer_principal_ids s) ++
  match ps_requesting_principal_id s with Some id => [id] | None => [] end.
(** One round of the loop of [enforce_approval]. *)
Definition check_approver (s : ApprovalSchema) (registered : list string)
    (approver : AuthorityPrincipal) : result () :=
  _ ← forbid (bool_decide (ap_id approver ∈ producer_ids s))
        "producer separation violated: an actor cannot approve its own request or output";
  when_ (requires_human s) (
    _ ← forbid (negb (bool_decide (ap_principal_type approver = HUMAN)))
          "this action requires an interactive human approval";
    forbid (negb (bool_decide (ap_id approver ∈ registered)))
      "the approving human principal is not registered").
Definition enforce_approval (s : ApprovalSchema) (approvers : list AuthorityPrincipal)
    (registered : list string) : result () :=
  _ ← forbid (bool_decide (approvers = [])) "an authority decision requires at least one approver";
  _ ← mapM_result (check_approver s registered) approvers;
  when_ (requires_dual_human s) (
    _ ← forbid (Nat.ltb (length (remove_dups registered)) 2)
          "dual-human separation is unavailable with fewer than two registered humans";
    _ ← forbid (Nat.ltb (length (remove_dups (map ap_id approvers))) 2)
          "dual-human separation requires two distinct human approvers";
    forbid (existsb (fun id => negb (bool_decide (id ∈ registered))) (map ap_id approvers))
      "dual-human approvers must be registered human principals").

(** ** The approval registry ([policy/approval.py]) *)
Inductive ApprovalOutcome := APPROVED | REJECTED.
#[export] Instance ApprovalOutcome_eq_dec : EqDecision ApprovalOutcome.
Proof. solve_decision. Defined.
Record ApprovalRecord := {
  ar_id : string; ar_request_id : option string; ar_schema_digest : Digest; ar_action : string;
  ar_normalized_inputs : list (string * json); ar_approvers : list AuthorityPrincipal;
  ar_outcome : ApprovalOutcome; ar_decided_at : datetime; ar_expires_at : option datetime;
  ar_superseded : bool }.

Section Policy.
Context `{rt : PyRuntime} `{iso : IsoCodec}.

Definition expires_before (expires_at : option datetime) (t : datetime) : result bool :=
  match expires_at with Some e => dt_lt e t | None => Ok false end.
Definition naive_opt (d : option datetime) : bool := from_option (fun d => negb (tz_aware d)) false d.
(** [ApprovalRecord.__post_init__] *)
Definition approval_record_post_init (r : ApprovalRecord) : result ApprovalRecord :=
  raise_when blank (ar_id r) || blank (ar_action r) as PyValueError ;;
  raise_when from_option blank false (ar_request_id r) as PyValueError ;;
  raise_when bool_decide (ar_approvers r = []) as PyValueError ;;
  raise_when negb (tz_aware (ar_decided_at r)) as PyValueError ;;
  raise_when naive_opt (ar_expires_at r) as PyValueError ;;
  early ← expires_before (ar_expires_at r) (ar_decided_at r);
  raise_when (early : bool) as PyValueError ;;
  raise_when match dict_get "action" (ar_normalized_inputs r) with
             | Some v => negb (json_eqb v (JStr (ar_action r))) | None => true end
    as PyValueError ;;
  digest ← digest_of_json (JObj (ar_normalized_inputs r));
  raise_when negb (bool_decide (digest = ar_schema_digest r)) as PyValueError ;;
  Ok r.
(** [is_current] *)
Definition is_current (r : ApprovalRecord) (reference_time : datetime) : result bool :=
  raise_when negb (tz_aware reference_time) as PyValueError ;;
  if negb (bool_decide (ar_outcome r = APPROVED)) || ar_superseded r then Ok false
  else expired ← expires_before (ar_expires_at r) reference_time; Ok (negb expired).

Record ApprovalRegistry := {
  rg_registered_humans : list (string * AuthorityPrincipal);
  rg_approvals_by_digest : gmap string ApprovalRecord;
  rg_latest_by_request : gmap string ApprovalRecord;
  rg_records_by_id : list (string * ApprovalRecord) }.
Definition empty_registry : ApprovalRegistry := {|
  rg_registered_humans := []; rg_approvals_by_digest := ∅; rg_latest_by_request := ∅;
  rg_records_by_id := [] |}.
Definition register_human (g : ApprovalRegistry) (p : AuthorityPrincipal) : result ApprovalRegistry :=
  raise_when negb (bool_decide (ap_principal_type p = HUMAN)) as PyValueError ;;
  Ok {| rg_registered_humans := dict_set (ap_id p) p (rg_registered_humans g);
        rg_approvals_by_digest := rg_approvals_by_digest g;
        rg_latest_by_request := rg_latest_by_request g;
        rg_records_by_id := rg_records_by_id g |}.
(** [ApprovalRegistry.__init__] *)
Definition registry_init (humans : list AuthorityPrincipal) : result ApprovalRegistry :=
  foldM_result register_human humans empty_registry.
Definition registered_human_ids (g : ApprovalRegistry) : list string := (rg_registered_humans g).*1.

(** [replace(previous, superseded=True)]; the validated fields are unchanged. *)
Definition supersede (r : ApprovalRecord) : ApprovalRecord := {|
  ar_id := ar_id r; ar_request_id := ar_request_id r; ar_schema_digest := ar_schema_digest r;
  ar_action := ar_action r; ar_normalized_inputs := ar_normalized_inputs r;
  ar_approvers := ar_approvers r; ar_outcome := ar_outcome r; ar_decided_at := ar_decided_at r;
  ar_expires_at := ar_expires_at r; ar_superseded := true |}.
Definition digest_key (r : ApprovalRecord) : string := hex_value (ar_schema_digest r).
(** [_store] *)
Definition store_record (g : ApprovalRegistry) (r : ApprovalRecord) : ApprovalRegistry :=
  let g1 := match ar_request_id r with
    | None => g
    | Some request =>
        let g0 := match rg_latest_by_request g !! request with
          | None => g
          | Some previous => {|
              rg_registered_humans := rg_registered_humans g;
              rg_approvals_by_digest :=
                <[digest_key previous := supersede previous]> (rg_approvals_by_digest g);
              rg_latest_by_request := rg_latest_by_request g;
              rg_records_by_id := dict_set (ar_id previous) (supersede previous)
                                    (rg_records_by_id g) |}
          end in
        {| rg_registered_humans := rg_registered_humans g0;
           rg_approvals_by_digest := rg_approvals_by_digest g0;
           rg_latest_by_request := <[request := r]> (rg_latest_by_request g0);
           rg_records_by_id := rg_records_by_id g0 |}
    end in
  {| rg_registered_humans := rg_registered_humans g1;
     rg_approvals_by_digest := <[digest_key r := r]> (rg_approvals_by_digest g1);
     rg_latest_by_request := rg_latest_by_request g1;
     rg_records_by_id := dict_set (ar_id r) r (rg_records_by_id g1) |}.

(** The common part of [record_approval] and [record_rejection]. *)
Definition record_decision (g : ApprovalRegistry) (fresh_id : string) (s : ApprovalSchema)
    (approvers : list AuthorityPrincipal) (request_id : option string)
    (expires_at : option datetime) (decision_time : datetime) (outcome : ApprovalOutcome)
    : result (ApprovalRegistry * ApprovalRecord) :=
  _ ← enforce_request s;
  _ ← enforce_approval s approvers (registered_human_ids g);
  digest ← schema_digest s;
  r ← approval_record_post_init {|
    ar_id := fresh_id; ar_request_id := request_id; ar_schema_digest := digest;
    ar_action := enum_value (ps_action s); ar_normalized_inputs := canonical_inputs s;
    ar_approvers := approvers; ar_outcome := outcome; ar_decided_at := decision_time;
    ar_expires_at := expires_at; ar_superseded := false |};
  Ok (store_record g r, r).
(** [decided_at or datetime.now(UTC)] is the argument [decision_time]. *)
Definition record_approval (g : ApprovalRegistry) (fresh_id : string) (s : ApprovalSchema)
    (approvers : list AuthorityPrincipal) (request_id : option string)
    (expires_at : option datetime) (decision_time : datetime)
    : result (ApprovalRegistry * ApprovalRecord) :=
  raise_when negb (tz_aware decision_time) as PyValueError ;;
  raise_when naive_opt expires_at as PyValueError ;;
  early ← expires_before expires_at decision_time;
  raise_when (early : bool) as PyValueError ;;
  record_decision g fresh_id s approvers request_id expires_at decision_time APPROVED.
Definition record_rejection (g : ApprovalRegistry) (fresh_id : string) (s : ApprovalSchema)
    (approvers : list AuthorityPrincipal) (request_id : option string) (decision_time : datetime)
    : result (ApprovalRegistry * ApprovalRecord) :=
  raise_when negb (tz_aware decision_time) as PyValueError ;;
  record_decision g fresh_id s approvers request_id None decision_time REJECTED.
(** [get_approval] at [current_time] *)
Definition get_approval (g : ApprovalRegistry) (s : ApprovalSchema) (current_time : datetime)
    : result (option ApprovalRecord) :=
  digest ← schema_digest s;
  match rg_approvals_by_digest g !! hex_value digest with
  | None => Ok None
  | Some r => current ← is_current r current_time; Ok (if (current : bool) then Some r else None)
  end.

(** ** The evaluator ([policy/evaluator.py]) *)
Record PolicyRule := {
  pr_id : string; pr_action : PolicyAction; pr_result : PolicyResult; pr_rationale : string;
  pr_risk_classes : option (list RiskClass) }.
Definition rule_matches (rule : PolicyRule) (s : ApprovalSchema) : bool :=
  bool_decide (pr_action rule = ps_action s) &&
  match pr_risk_classes rule, ps_risk_class s with
  | None, _ => true
  | Some classes, Some risk => bool_decide (risk ∈ classes)
  | Some _, None => false
  end.
Record PolicyDecision := {
  pd_id : string; pd_action : PolicyAction; pd_normalized_inputs : list (string * json);
  pd_policy_rule_id : string; pd_policy_version : string; pd_result : PolicyResult;
  pd_rationale : string; pd_input_digest : Digest; pd_decided_at : datetime }.
(** [PolicyDecision.__post_init__]; a decision the evaluator makes is never superseded. *)
Definition policy_decision_post_init (d : PolicyDecision) : result PolicyDecision :=
  raise_when blank (pd_policy_rule_id d) as InvalidInputError ;;
  raise_when blank (pd_policy_version d) as InvalidInputError ;;
  raise_when blank (pd_rationale d) as InvalidInputError ;;
  raise_when negb (tz_aware (pd_decided_at d)) as InvalidInputError ;;
  Ok d.
Record PolicyEvaluator := {
  pe_policy_version : string; pe_rules : list PolicyRule;
  pe_approval_registry : option ApprovalRegistry }.
(** [PolicyEvaluator.__init__] *)
Definition policy_evaluator_init (policy_version : string) (rules : list PolicyRule)
    (approval_registry : option ApprovalRegistry) : result PolicyEvaluator :=
  raise_when blank policy_version as PyValueError ;;
  Ok {| pe_policy_version := policy_version; pe_rules := rules;
        pe_approval_registry := approval_registry |}.

(** [_decision] *)
Definition mk_decision (e : PolicyEvaluator) (fresh_id : string) (now : datetime)
    (s : ApprovalSchema) (r : PolicyResult) (rule_id rationale : string) : result PolicyDecision :=
  id ← mk_identifier fresh_id;
  digest ← schema_digest s;
  policy_decision_post_init {|
    pd_id := id; pd_action := ps_action s; pd_normalized_inputs := canonical_inputs s;
    pd_policy_rule_id := rule_id; pd_policy_version := pe_policy_version e; pd_result := r;
    pd_rationale := rationale; pd_input_digest := digest; pd_decided_at := now |}.
(** [_evaluate_human_required] *)
Definition evaluate_human_required (e : PolicyEvaluator) (fresh_id : string) (now : datetime)
    (s : ApprovalSchema) : result PolicyDecision :=
  let decide_ := mk_decision e fresh_id now s in
  let ask := decide_ REQUIRE_HUMAN "human_approval_required"
               "The action requires a current interactive human approval." in
  match pe_approval_registry e with
  | None => ask
  | Some g =>
      if requires_dual_human s && Nat.ltb (length (remove_dups (registered_human_ids g))) 2
      then decide_ DENY "dual_human_unavailable"
             "The action requires two distinct registered human principals."
      else
        approval ← get_approval g s now;
        match approval with
        | None => ask
        | Some a =>
            match enforce_approval s (ar_approvers a) (registered_human_ids g) with
            | Err (HardRuleError message) => decide_ DENY "hard_rule" message
            | Err x => Err x
            | Ok _ => decide_ ALLOW "human_approval"
                        "The current action digest has an independent human approval."
            end
        end
  end.
(** [evaluate] *)
Definition policy_evaluate (e : PolicyEvaluator) (fresh_id : string) (now : datetime)
    (s : ApprovalSchema) : result PolicyDecision :=
  match enforce_request s with
  | Err (HardRuleError message) => mk_decision e fresh_id now s DENY "hard_rule" message
  | Err x => Err x
  | Ok _ =>
      if requires_human s then evaluate_human_required e fresh_id now s
      else match List.find (fun rule => rule_matches rule s) (pe_rules e) with
      | None => mk_decision e fresh_id now s DENY "default_deny"
                  "Default deny: no matching policy rule found."
      | Some rule =>
          mk_decision e fresh_id now s (pr_result rule) (pr_id rule) (pr_rationale rule)
      end
  end.
End Policy.

(** ** The default rules ([policy/defaults.py]) *)
Definition LOW_AND_MEDIUM_RISK : list RiskClass := [RISK_LOW; RISK_MEDIUM].
Definition stage2_policy_rules : list PolicyRule := [
  {| pr_id := "stage2_allow_merge_low_medium_risk"; pr_action := PULL_REQUEST_MERGE;
     pr_result := ALLOW;
     pr_rationale := "Low and medium risk merges are permitted once fresh, current-head evidence has passed the merge-ready contract.";
     pr_risk_classes := Some LOW_AND_MEDIUM_RISK |};
  {| pr_id := "stage2_allow_release_prepare_low_medium_risk"; pr_action := RELEASE_PREPARE;
     pr_result := ALLOW;
     pr_rationale := "Release preparation is permitted for low/medium risk work; the release-manifest broker itself refuses to proceed until every constituent milestone is externally merged.";
     pr_risk_classes := Some LOW_AND_MEDIUM_RISK |}].
