(* ===== verification/PolicyProofs.v ===== *)
(** * Policy theorems

    What an allow decision rests on, default denial, human and producer separation,
    and the single usable approval of a request. *)
From S2P Require Import Prelude PyText Json Identity IdentityProofs Lifecycles Aggregates.
From S2P Require Import Evidence CoordinatorProofs Policy.

(** ** The checks raise only hard-rule errors *)
Definition hard_only (r : result ()) : Prop :=
  forall e, r = Err e -> exists m, e = HardRuleError m /\ blank m = false.
Lemma hard_only_bind r k : hard_only r -> (forall u, hard_only (k u)) -> hard_only (mbind k r).
Proof. intros Hr Hk e [H|(u & _ & H)]%bind_Err; [by apply Hr|by eapply Hk]. Qed.
Lemma hard_only_forbid b m : blank m = false -> hard_only (forbid b m).
Proof. intros Hm e. unfold forbid, raise_if. destruct b; [intros [= <-]; by exists m|done]. Qed.
Lemma hard_only_when b r : hard_only r -> hard_only (when_ b r).
Proof. intros Hr e. destruct b; [apply Hr|done]. Qed.
Lemma hard_only_require s fields : hard_only (hard_require s fields).
Proof.
  intros e. unfold hard_require, require_fields. destruct (existsb _ fields); cbn; [|done].
  intros [= <-]. by eexists.
Qed.
Create HintDb policy.
#[export] Hint Resolve hard_only_bind hard_only_forbid hard_only_when hard_only_require : policy.
#[export] Hint Extern 1 (blank _ = false) => reflexivity : policy.
Lemma enforce_request_hard s : hard_only (enforce_request s).
Proof. unfold enforce_request. repeat (apply hard_only_bind; [auto 8 with policy|intros _]); auto with policy. Qed.
Lemma mapM_hard (f : AuthorityPrincipal -> result ()) l e :
  (forall x, hard_only (f x)) -> mapM_result f l = Err e -> exists m, e = HardRuleError m /\ blank m = false.
Proof.
  intros Hf. induction l as [|x l IH]; cbn; [done|].
  intros [H|(u & _ & [H|(us & _ & H)]%bind_Err)]%bind_Err; [by eapply Hf|by apply IH|done].
Qed.
Lemma enforce_approval_hard s approvers registered : hard_only (enforce_approval s approvers registered).
Proof.
  unfold enforce_approval. apply hard_only_bind; [auto with policy|]. intros _ e.
  intros [H|(us & _ & H)]%bind_Err.
  - eapply mapM_hard; [|exact H]. intros x. unfold check_approver. auto 8 with policy.
  - revert H. apply hard_only_when. apply hard_only_bind; [auto with policy|]. intros _.
    auto with policy.
Qed.

Lemma forbid_Ok b m : forbid b m = Ok () <-> b = false.
Proof. unfold forbid, raise_if. by destruct b. Qed.
Lemma when_Ok b r : when_ b r = Ok () <-> (b = true -> r = Ok ()).
Proof. destruct b; cbn; naive_solver. Qed.

(** ** Separation of approvers *)
(** Every approver is independent of the producers; where the action needs a human,
    each is a registered one; where it needs two, there are two. *)
Definition separated (s : ApprovalSchema) (approvers : list AuthorityPrincipal)
    (registered : list string) : Prop :=
  approvers <> [] /\
  (forall a, a ∈ approvers -> ap_id a ∉ producer_ids s /\
     (requires_human s = true -> ap_principal_type a = HUMAN /\ ap_id a ∈ registered)) /\
  (requires_dual_human s = true -> exists a b, a ∈ approvers /\ b ∈ approvers /\ ap_id a <> ap_id b /\
     ap_principal_type a = HUMAN /\ ap_principal_type b = HUMAN /\
     ap_id a ∈ registered /\ ap_id b ∈ registered).
Lemma dual_is_human s : requires_dual_human s = true -> requires_human s = true.
Proof.
  unfold requires_dual_human, requires_human. rewrite bool_decide_eq_true. intros Hd.
  rewrite bool_decide_true; [done|]. unfold HUMAN_REQUIRED_ACTIONS, DUAL_HUMAN_ACTIONS in *. set_solver.
Qed.
Lemma two_distinct (l : list string) : (2 <= length (remove_dups l))%nat ->
  exists x y, x ∈ l /\ y ∈ l /\ x <> y.
Proof.
  intros Hl. pose proof (NoDup_remove_dups l) as Hnd.
  destruct (remove_dups l) as [|x [|y k]] eqn:Hk; cbn in Hl; [lia..|].
  exists x, y. split_and!; [apply elem_of_remove_dups; rewrite Hk; set_solver..|].
  intros ->. apply NoDup_cons in Hnd as [Hx _]. set_solver.
Qed.
Lemma enforce_approval_Ok s approvers registered :
  enforce_approval s approvers registered = Ok () -> separated s approvers registered.
Proof.
  unfold enforce_approval. rewrite bind_unit_Ok, forbid_Ok, bool_decide_eq_false.
  intros [Hne (us & Hm & Hd)%bind_Ok]. apply mapM_result_Ok in Hm.
  assert (Hall : forall a, a ∈ approvers -> ap_id a ∉ producer_ids s /\
     (requires_human s = true -> ap_principal_type a = HUMAN /\ ap_id a ∈ registered)).
  { intros a [i Hi]%list_elem_of_lookup. destruct (Forall2_lookup_l _ _ _ _ _ Hm Hi) as ([] & _ & Hc).
    unfold check_approver in Hc. rewrite bind_unit_Ok, forbid_Ok, bool_decide_eq_false, when_Ok in Hc.
    destruct Hc as [Hp Hh]. split; [done|]. intros Hr. specialize (Hh Hr).
    rewrite bind_unit_Ok, !forbid_Ok, !negb_false_iff, !bool_decide_eq_true in Hh. done. }
  split_and!; [done|done|]. intros Hdual. rewrite when_Ok in Hd. specialize (Hd Hdual).
  rewrite !bind_unit_Ok, !forbid_Ok, !Nat.ltb_ge in Hd. destruct Hd as (_ & Htwo & _).
  destruct (two_distinct _ Htwo) as (x & y & (a & -> & Ha)%list_elem_of_fmap &
    (b & -> & Hb)%list_elem_of_fmap & Hxy).
  exists a, b. pose proof (dual_is_human s Hdual) as Hh.
  destruct (Hall a Ha) as [_ [? ?]%(fun f => f Hh)], (Hall b Hb) as [_ [? ?]%(fun f => f Hh)]. done.
Qed.
Lemma mapM_units {A} (f : A -> result ()) l :
  (forall x, x ∈ l -> f x = Ok ()) -> exists us, mapM_result f l = Ok us.
Proof.
  induction l as [|x l IH]; intros Hf; [by eexists|]. cbn [mapM_result].
  rewrite Hf by left. destruct IH as (us & ->); [intros y Hy; apply Hf; by right|]. by eexists.
Qed.
Lemma distinct_two (l : list string) x y : x ∈ l -> y ∈ l -> x <> y ->
  (2 <= length (remove_dups l))%nat.
Proof.
  intros Hx Hy Hne. rewrite <- elem_of_remove_dups in Hx, Hy.
  destruct (remove_dups l) as [|a [|b k]]; [set_solver| |cbn; lia]. exfalso. set_solver.
Qed.
Lemma separated_Ok s approvers registered :
  separated s approvers registered -> enforce_approval s approvers registered = Ok ().
Proof.
  intros (Hne & Hall & Hdual). unfold enforce_approval. rewrite bool_decide_false by done.
  cbn [forbid raise_if mbind result_bind].
  destruct (mapM_units (check_approver s registered) approvers) as (us & ->).
  { intros a Ha. destruct (Hall a Ha) as [Hp Hh]. unfold check_approver.
    rewrite bind_unit_Ok, forbid_Ok, bool_decide_eq_false, when_Ok. split; [done|]. intros Hr.
    rewrite bind_unit_Ok, !forbid_Ok, !negb_false_iff, !bool_decide_eq_true. by apply Hh. }
  cbn [mbind result_bind]. apply when_Ok. intros Hd.
  destruct (Hdual Hd) as (a & b & Ha & Hb & Hab & _ & _ & Ra & Rb).
  rewrite !bind_unit_Ok, !forbid_Ok, !Nat.ltb_ge. split_and!.
  - exact (distinct_two _ _ _ Ra Rb Hab).
  - exact (distinct_two _ _ _ (list_elem_of_fmap_2 ap_id _ _ Ha) (list_elem_of_fmap_2 ap_id _ _ Hb) Hab).
  - apply not_true_is_false. rewrite existsb_exists. intros (x & Hx & Hn).
    apply list_elem_of_In, list_elem_of_fmap in Hx as (c & -> & Hc).
    destruct (Hall c Hc) as [_ [_ Hreg]%(fun f => f (dual_is_human s Hd))].
    by rewrite bool_decide_true in Hn.
Qed.

Section Registry.
Context `{rt : PyRuntime} `{iso : IsoCodec}.

(** ** Histories of the registry *)
Inductive RegistryOp :=
| RRegister (p : AuthorityPrincipal)
| RApprove (fresh_id : string) (s : ApprovalSchema) (approvers : list AuthorityPrincipal)
    (request_id : option string) (expires_at : option datetime) (decision_time : datetime)
| RReject (fresh_id : string) (s : ApprovalSchema) (approvers : list AuthorityPrincipal)
    (request_id : option string) (decision_time : datetime).
(** The registry and the decisions recorded so far; a raising call changes neither. *)
Definition registry_step (st : ApprovalRegistry * list ApprovalRecord) (op : RegistryOp)
    : ApprovalRegistry * list ApprovalRecord :=
  let '(g, decisions) := st in
  match op with
  | RRegister p => match register_human g p with Ok g' => (g', decisions) | Err _ => st end
  | RApprove id s approvers q exp t =>
      match record_approval g id s approvers q exp t with
      | Ok (g', r) => (g', decisions ++ [r]) | Err _ => st end
  | RReject id s approvers q t =>
      match record_rejection g id s approvers q t with
      | Ok (g', r) => (g', decisions ++ [r]) | Err _ => st end
  end.
Definition registry_run (history : list RegistryOp) : ApprovalRegistry * list ApprovalRecord :=
  foldl registry_step (empty_registry, []) history.
Definition decided_under (q : string) (decisions : list ApprovalRecord) : list ApprovalRecord :=
  List.filter (fun r => bool_decide (ar_request_id r = Some q)) decisions.

(** A decision the registry may hold: lawful for some request with its digest. *)
Definition lawful (g : ApprovalRegistry) (r : ApprovalRecord) : Prop :=
  ar_superseded r = false /\ naive_opt (ar_expires_at r) = false /\
  exists s, schema_digest s = Ok (ar_schema_digest r) /\ ar_normalized_inputs r = canonical_inputs s /\
    enforce_request s = Ok () /\ separated s (ar_approvers r) (registered_human_ids g).
Record wf_registry (st : ApprovalRegistry * list ApprovalRecord) : Prop := {
  wr_slot : forall k r, rg_approvals_by_digest st.1 !! k = Some r ->
    digest_key r = k /\
    (ar_superseded r = false -> lawful st.1 r /\ r ∈ st.2 /\
       forall q, ar_request_id r = Some q -> rg_latest_by_request st.1 !! q = Some r);
  wr_latest : forall q, rg_latest_by_request st.1 !! q = last (decided_under q st.2);
  wr_lawful : Forall (lawful st.1) st.2;
}.

Lemma decided_under_snoc q l r : decided_under q (l ++ [r]) =
  decided_under q l ++ (if decide (ar_request_id r = Some q) then [r] else []).
Proof.
  unfold decided_under. rewrite List.filter_app. cbn [List.filter]. f_equal.
  destruct (decide _); [by rewrite bool_decide_true|by rewrite bool_decide_false].
Qed.
Lemma separated_mono s approvers l l' : (forall x, x ∈ l -> x ∈ l') ->
  separated s approvers l -> separated s approvers l'.
Proof.
  intros Hsub (Hne & Hall & Hd). split_and!; [done| |].
  - intros a Ha. destruct (Hall a Ha) as [Hp Hh]. split; [done|]. intros Hr.
    destruct (Hh Hr). auto.
  - intros Hr. destruct (Hd Hr) as (a & b & ? & ? & ? & ? & ? & ? & ?). exists a, b. auto 10.
Qed.
Lemma lawful_mono g g' r :
  (forall x, x ∈ registered_human_ids g -> x ∈ registered_human_ids g') -> lawful g r -> lawful g' r.
Proof.
  intros Hsub (Hs & Hn & s & Hd & Hi & He & Hsep). split_and!; [done|done|]. exists s.
  split_and!; [done..|]. by eapply separated_mono.
Qed.
Lemma supersede_key r : digest_key (supersede r) = digest_key r.
Proof. done. Qed.

Lemma wf_store g decisions r : wf_registry (g, decisions) -> lawful g r ->
  wf_registry (store_record g r, decisions ++ [r]).
Proof.
  intros [Hslot Hlatest Hlaw] Hr. cbn [fst snd] in *.
  assert (Hids : registered_human_ids (store_record g r) = registered_human_ids g).
  { unfold store_record. destruct (ar_request_id r) as [q|]; [|done].
    by destruct (rg_latest_by_request g !! q). }
  assert (Hmono : forall r', lawful g r' -> lawful (store_record g r) r').
  { intros r'. apply lawful_mono. by rewrite Hids. }
  assert (Hlat : forall q, rg_latest_by_request (store_record g r) !! q =
    if decide (ar_request_id r = Some q) then Some r else rg_latest_by_request g !! q).
  { intros q. unfold store_record. destruct (ar_request_id r) as [q0|].
    - destruct (rg_latest_by_request g !! q0); cbn; (destruct (decide (Some q0 = Some q)) as [[= ->]|Hne];
        [by rewrite lookup_insert_eq|rewrite lookup_insert_ne by congruence; done]).
    - by rewrite decide_False. }
  split; cbn [fst snd].
  - intros k r' Hk.
    assert (Hcases : (k = digest_key r /\ r' = r) \/
      (k <> digest_key r /\ exists q previous, ar_request_id r = Some q /\
         rg_latest_by_request g !! q = Some previous /\ k = digest_key previous /\
         r' = supersede previous) \/
      (k <> digest_key r /\ rg_approvals_by_digest g !! k = Some r' /\
       forall q previous, ar_request_id r = Some q -> rg_latest_by_request g !! q = Some previous ->
         k <> digest_key previous)).
    { unfold store_record in Hk. cbn in Hk. rewrite lookup_insert_Some in Hk.
      destruct Hk as [[<- <-]|[Hne Hk]]; [by left|]. right.
      destruct (ar_request_id r) as [q|] eqn:Hq; [|right; naive_solver].
      destruct (rg_latest_by_request g !! q) as [prev|] eqn:Hp; cbn in Hk.
      - rewrite lookup_insert_Some in Hk. destruct Hk as [[<- <-]|[Hne' Hk]].
        + left. split; [done|]. by exists q, prev.
        + right. split_and!; [done|done|]. intros q' p' [= <-] Hp'. congruence.
      - right. split_and!; [done|done|]. intros q' p' [= <-] Hp'. congruence. }
    destruct Hcases as [[-> ->]|[(Hne & q & prev & Hq & Hp & -> & ->)|(Hne & Hk' & Hprev)]].
    + split; [done|]. intros _. split_and!; [by apply Hmono|set_solver|].
      intros q Hq. by rewrite Hlat, decide_True.
    + split; [done|]. by cbn.
    + destruct (Hslot k r' Hk') as [Hkey Hlive]. split; [done|]. intros Hs.
      destruct (Hlive Hs) as (Hl & Hin & Hq). split_and!; [by apply Hmono|set_solver|].
      intros q Hrq. specialize (Hq q Hrq). rewrite Hlat. case_decide as Hrr; [|done].
      exfalso. by apply (Hprev q r' Hrr Hq).
  - intros q. rewrite Hlat, decided_under_snoc. case_decide; [by rewrite last_snoc|].
    by rewrite app_nil_r.
  - apply Forall_app. split; [|constructor; [by apply Hmono|done]].
    eapply Forall_impl; [exact Hlaw|]. exact Hmono.
Qed.

Lemma record_decision_Ok g id s approvers q exp t o g' r :
  record_decision g id s approvers q exp t o = Ok (g', r) ->
  g' = store_record g r /\ lawful g r /\ ar_outcome r = o.
Proof.
  unfold record_decision. intros ([] & He & H)%bind_Ok.
  apply bind_Ok in H as ([] & Ha & H). apply bind_Ok in H as (d & Hd & H).
  apply bind_Ok in H as (r' & Hr & [= <- <-]).
  unfold approval_record_post_init in Hr. rewrite !raise_if_Ok in Hr.
  destruct Hr as (_ & _ & _ & _ & Hn & Hr). apply bind_Ok in Hr as (early & _ & Hr).
  rewrite !raise_if_Ok in Hr. destruct Hr as (_ & _ & Hr). apply bind_Ok in Hr as (d' & _ & Hr).
  rewrite raise_if_Ok in Hr. destruct Hr as [_ [= <-]]. split_and!; [done| |done].
  split_and!; [done|done|]. exists s. split_and!; [done..|by apply enforce_approval_Ok].
Qed.
Lemma registry_step_wf st op : wf_registry st -> wf_registry (registry_step st op).
Proof.
  destruct st as [g decisions]. intros Hst. destruct op as [p|id s ap q exp t|id s ap q t]; cbn.
  - destruct (register_human g p) as [g'|] eqn:Hg; [|done].
    unfold register_human in Hg. rewrite raise_if_Ok in Hg. destruct Hg as [_ [= <-]].
    destruct Hst as [Hslot Hlat Hlaw]. cbn in *.
    assert (Hmono : forall r, lawful g r -> lawful {|
      rg_registered_humans := dict_set (ap_id p) p (rg_registered_humans g);
      rg_approvals_by_digest := rg_approvals_by_digest g;
      rg_latest_by_request := rg_latest_by_request g; rg_records_by_id := rg_records_by_id g |} r).
    { intros r. apply lawful_mono. unfold registered_human_ids. cbn. intros x Hx.
      destruct (decide (ap_id p ∈ (rg_registered_humans g).*1)).
      - by rewrite dict_set_keys.
      - rewrite dict_set_fresh, fmap_app by done. set_solver. }
    split; cbn; [|done|].
    + intros k r Hk. destruct (Hslot k r Hk) as [Hkey Hl]. split; [done|]. intros Hs.
      destruct (Hl Hs) as (Hr & Hin & Hq). auto.
    + eapply Forall_impl; [exact Hlaw|]. exact Hmono.
  - destruct (record_approval g id s ap q exp t) as [[g' r]|] eqn:Hr; [|done].
    unfold record_approval in Hr. rewrite !raise_if_Ok in Hr. destruct Hr as (_ & _ & Hr).
    apply bind_Ok in Hr as (early & _ & Hr). rewrite raise_if_Ok in Hr. destruct Hr as [_ Hr].
    apply record_decision_Ok in Hr as (-> & Hl & _). by apply wf_store.
  - destruct (record_rejection g id s ap q t) as [[g' r]|] eqn:Hr; [|done].
    unfold record_rejection in Hr. rewrite raise_if_Ok in Hr. destruct Hr as [_ Hr].
    apply record_decision_Ok in Hr as (-> & Hl & _). by apply wf_store.
Qed.
Lemma wf_registry_run history : wf_registry (registry_run history).
Proof.
  unfold registry_run. assert (H0 : wf_registry (empty_registry, [])).
  { split; [|done|constructor]. intros k r Hk.
    change ((∅ : gmap string ApprovalRecord) !! k = Some r) in Hk. by rewrite lookup_empty in Hk. }
  revert H0. generalize (empty_registry, @nil ApprovalRecord) as st.
  induction history as [|op history IH]; intros st Hst; [done|]. cbn [foldl]. apply IH.
  by apply registry_step_wf.
Qed.

Lemma get_approval_Ok g s t r : get_approval g s t = Ok (Some r) ->
  exists d, schema_digest s = Ok d /\ rg_approvals_by_digest g !! hex_value d = Some r /\
    is_current r t = Ok true.
Proof.
  unfold get_approval. intros (d & Hd & H)%bind_Ok. exists d. split; [done|].
  destruct (rg_approvals_by_digest g !! hex_value d) as [r'|]; [|done].
  apply bind_Ok in H as (b & Hb & H). destruct b; [|done]. by injection H as <-.
Qed.
Lemma is_current_true r t : is_current r t = Ok true ->
  ar_outcome r = APPROVED /\ ar_superseded r = false /\
  exists us, t = Aware us /\ forall e, ar_expires_at r = Some e -> (us <= micros e)%Z.
Proof.
  unfold is_current. rewrite raise_if_Ok, negb_false_iff. intros [Ht H].
  destruct t as [us|]; [|done]. revert H. case_bool_decide as Ho; cbn [negb orb]; [|done].
  destruct (ar_superseded r); [done|]. intros (b & Hb & [= Hn])%bind_Ok.
  split_and!; [done|done|]. exists us. split; [done|]. intros e He. rewrite He in Hb.
  unfold expires_before, dt_lt in Hb. destruct (Bool.eqb _ _); [|done]. injection Hb as <-.
  cbn in Hn. apply negb_true_iff, Z.ltb_ge in Hn. done.
Qed.

(** ** Decisions *)
Lemma mk_decision_Ok e id now s r rule rationale d : mk_decision e id now s r rule rationale = Ok d ->
  pd_result d = r /\ pd_action d = ps_action s /\ schema_digest s = Ok (pd_input_digest d) /\
  pd_policy_rule_id d = rule /\ pd_normalized_inputs d = canonical_inputs s.
Proof.
  unfold mk_decision. intros (i & _ & H)%bind_Ok. apply bind_Ok in H as (dg & Hd & H).
  unfold policy_decision_post_init in H. rewrite !raise_if_Ok in H.
  destruct H as (_ & _ & _ & _ & [= <-]). done.
Qed.
Lemma schema_digest_ok s : exists d, schema_digest s = Ok d.
Proof. unfold schema_digest, digest_of_json. rewrite digest_of_bytes_Ok. by eexists. Qed.
Lemma mk_decision_ok e id us s r rule rationale : mk_identifier id = Ok id ->
  blank (pe_policy_version e) = false -> blank rule = false -> blank rationale = false ->
  exists d, mk_decision e id (Aware us) s r rule rationale = Ok d.
Proof.
  intros Hid Hv Hr Hra. unfold mk_decision. rewrite Hid. destruct (schema_digest_ok s) as (d & Hd).
  cbn [mbind result_bind]. rewrite Hd. cbn [mbind result_bind]. unfold policy_decision_post_init.
  cbn. rewrite Hr, Hv, Hra. by eexists.
Qed.
End Registry.

Section Claims.
Context `{rt : PyRuntime} `{iso : IsoCodec}.

(** What an allow decision rests on. *)
Definition authorised (e : PolicyEvaluator) (now : datetime) (s : ApprovalSchema) : Prop :=
  enforce_request s = Ok () /\
  if requires_human s
  then exists g a, pe_approval_registry e = Some g /\ get_approval g s now = Ok (Some a) /\
         separated s (ar_approvers a) (registered_human_ids g)
  else exists rule, List.find (fun rule => rule_matches rule s) (pe_rules e) = Some rule /\
         pr_result rule = ALLOW.
Definition wf_evaluator (e : PolicyEvaluator) : Prop :=
  blank (pe_policy_version e) = false /\
  Forall (fun rule => blank (pr_id rule) = false /\ blank (pr_rationale rule) = false) (pe_rules e) /\
  forall g, pe_approval_registry e = Some g -> exists history, g = (registry_run history).1.

Lemma get_approval_total history s us : exists o,
  get_approval (registry_run history).1 s (Aware us) = Ok o.
Proof.
  unfold get_approval. destruct (schema_digest_ok s) as (d & ->). cbn [mbind result_bind].
  destruct (rg_approvals_by_digest _ !! hex_value d) as [r|] eqn:Hr; [|by eexists].
  apply (wr_slot _ (wf_registry_run history)) in Hr as [_ Hl]. unfold is_current. cbn.
  destruct (negb _ || ar_superseded r) eqn:Hs; [by eexists|].
  apply orb_false_iff in Hs as [_ Hs]. destruct (Hl Hs) as [(_ & Hn & _) _].
  unfold expires_before. destruct (ar_expires_at r) as [[e|e]|]; [by eexists|done|by eexists].
Qed.
Lemma human_required_cases e id us s : mk_identifier id = Ok id -> wf_evaluator e ->
  exists d, evaluate_human_required e id (Aware us) s = Ok d /\
    (pd_result d = ALLOW <-> exists g a, pe_approval_registry e = Some g /\
       get_approval g s (Aware us) = Ok (Some a) /\
       separated s (ar_approvers a) (registered_human_ids g)).
Proof.
  intros Hid (Hv & _ & Hreg). unfold evaluate_human_required.
  assert (Hmk : forall r rule rationale, blank rule = false -> blank rationale = false ->
    exists d, mk_decision e id (Aware us) s r rule rationale = Ok d /\ pd_result d = r).
  { intros r rule rationale H1 H2. destruct (mk_decision_ok e id us s r rule rationale) as (d & Hd);
      [done..|]. exists d. split; [done|]. by apply mk_decision_Ok in Hd as [? _]. }
  destruct (pe_approval_registry e) as [g|].
  2: { edestruct Hmk as (d & Hd & Hr); [| |exists d; rewrite Hd, Hr; split; [done|]]; [done..|].
       split; [done|]. by intros (? & ? & ? & _). }
  destruct (Hreg g eq_refl) as (history & Hg).
  destruct (requires_dual_human s && _) eqn:Hdual.
  { edestruct Hmk as (d & Hd & Hr); [| |exists d; rewrite Hd, Hr; split; [done|]]; [done..|].
    split; [done|]. intros (g' & a & [= <-] & _ & Hsep%separated_Ok). exfalso.
    apply andb_true_iff in Hdual as [Hdu Hlt%Nat.ltb_lt]. apply enforce_approval_Ok in Hsep.
    destruct Hsep as (_ & _ & Htwo). destruct (Htwo Hdu) as (x & y & _ & _ & Hne & _ & _ & Hx & Hy).
    pose proof (distinct_two _ _ _ Hx Hy Hne). lia. }
  destruct (get_approval_total history s us) as (o & Ho). rewrite <- Hg in Ho. rewrite Ho.
  cbn [mbind result_bind]. destruct o as [a|].
  - destruct (enforce_approval s (ar_approvers a) (registered_human_ids g)) as [[]|x] eqn:Hea.
    + edestruct Hmk as (d & Hd & Hr); [| |exists d; rewrite Hd, Hr; split; [done|]]; [done..|].
      split; [|done]. intros _. exists g, a. split_and!; [done|done|by apply enforce_approval_Ok].
    + destruct (enforce_approval_hard _ _ _ _ Hea) as (m & -> & Hm).
      edestruct Hmk as (d & Hd & Hr); [|exact Hm|exists d; rewrite Hd, Hr; split; [done|]]; [done|].
      split; [done|]. intros (g' & a' & [= <-] & Ha' & Hsep%separated_Ok).
      rewrite Ho in Ha'. injection Ha' as <-. by rewrite Hsep in Hea.
  - edestruct Hmk as (d & Hd & Hr); [| |exists d; rewrite Hd, Hr; split; [done|]]; [done..|].
    split; [done|]. intros (g' & a' & [= <-] & Ha' & _). by rewrite Ho in Ha'.
Qed.

Lemma evaluate_human_required_fields e id now s d : evaluate_human_required e id now s = Ok d ->
  pd_action d = ps_action s /\ schema_digest s = Ok (pd_input_digest d).
Proof.
  unfold evaluate_human_required. intros H.
  assert (Hmk : forall r rule rationale, mk_decision e id now s r rule rationale = Ok d ->
    pd_action d = ps_action s /\ schema_digest s = Ok (pd_input_digest d)).
  { intros r rule rationale Hd. apply mk_decision_Ok in Hd. naive_solver. }
  destruct (pe_approval_registry e) as [g|]; [|by eapply Hmk].
  destruct (requires_dual_human s && _); [by eapply Hmk|].
  apply bind_Ok in H as ([a|] & _ & H); [|by eapply Hmk].
  destruct (enforce_approval s _ _) as [u|[]]; try done; by eapply Hmk.
Qed.
Lemma schema_digest_sha s d : schema_digest s = Ok d -> algorithm d = "sha256".
Proof. unfold schema_digest, digest_of_json. rewrite digest_of_bytes_Ok. by intros [= <-]. Qed.

(** every evaluation returns a decision bound to the request's digest, and
    allows exactly the authorised ones: the hard rules hold and either the action
    needs no human and the first matching rule allows it, or the registry has a
    current approval for this very digest whose approvers are independent of the
    producers, registered humans, and two where two are required.  Without a
    matching rule the decision is a denial. *)
Theorem policy_evaluate_spec e id us s : mk_identifier id = Ok id -> wf_evaluator e ->
  exists d, policy_evaluate e id (Aware us) s = Ok d /\
    pd_action d = ps_action s /\ schema_digest s = Ok (pd_input_digest d) /\
    (pd_result d = ALLOW <-> authorised e (Aware us) s) /\
    (requires_human s = false -> (forall rule, rule ∈ pe_rules e -> rule_matches rule s = false) ->
     pd_result d = DENY).
Proof.
  intros Hid He. pose proof He as (Hv & Hrules & _). unfold policy_evaluate, authorised.
  assert (Hmk : forall r rule rationale, blank rule = false -> blank rationale = false ->
    exists d, mk_decision e id (Aware us) s r rule rationale = Ok d /\ pd_action d = ps_action s /\
      schema_digest s = Ok (pd_input_digest d) /\ pd_result d = r).
  { intros r rule rationale H1 H2. destruct (mk_decision_ok e id us s r rule rationale) as (d & Hd);
      [done..|]. exists d. split; [done|]. apply mk_decision_Ok in Hd. naive_solver. }
  destruct (enforce_request s) as [[]|x] eqn:Hreq.
  2: { destruct (enforce_request_hard _ _ Hreq) as (m & -> & Hm).
       destruct (Hmk DENY "hard_rule" m eq_refl Hm) as (d & Hd & Ha & Hdg & Hr). exists d.
       rewrite Hr. split_and!; [done..| |done]. split; [done|]. by intros [? _]. }
  destruct (requires_human s).
  - destruct (human_required_cases e id us s Hid He) as (d & Hd & Hallow). exists d.
    pose proof Hd as Hd'. apply evaluate_human_required_fields in Hd' as [Ha Hdg].
    split_and!; [done..| |done]. rewrite Hallow. naive_solver.
  - destruct (List.find _ (pe_rules e)) as [rule|] eqn:Hf.
    + apply find_some in Hf as Hin. destruct Hin as [Hin Hmt]. rewrite Forall_forall in Hrules.
      destruct (Hrules rule ltac:(by apply list_elem_of_In)) as [H1 H2].
      destruct (Hmk (pr_result rule) _ _ H1 H2) as (d & Hd & Ha & Hdg & Hr). exists d. rewrite Hr.
      split_and!; [done..| |].
      * split; [intros Hal; split; [done|by exists rule]|]. by intros (_ & r' & [= <-] & ?).
      * intros _ Hno. rewrite Hno in Hmt by by apply list_elem_of_In. done.
    + edestruct (Hmk DENY) as (d & Hd & Ha & Hdg & Hr);
        [| |exists d; rewrite Hd, Hr; split_and!; [done..| |done]]; [done..|].
      split; [done|]. by intros (_ & r' & ? & _).
Qed.

(** Along any history of registrations, approvals and rejections, an approval
    the registry returns was recorded as one, by approvers separated from the
    producers of a request with this very digest that passed the hard rules; it has
    not expired; and when it was recorded under a request identifier it is the last
    decision made under it, so a later rejection or approval always supersedes it. *)
Theorem approval_is_latest history s t r :
  get_approval (registry_run history).1 s t = Ok (Some r) ->
  r ∈ (registry_run history).2 /\ ar_outcome r = APPROVED /\
  (exists us, t = Aware us /\ forall e, ar_expires_at r = Some e -> (us <= micros e)%Z) /\
  (exists s', schema_digest s' = schema_digest s /\ ar_normalized_inputs r = canonical_inputs s' /\
     enforce_request s' = Ok () /\
     separated s' (ar_approvers r) (registered_human_ids (registry_run history).1)) /\
  forall q, ar_request_id r = Some q -> last (decided_under q (registry_run history).2) = Some r.
Proof.
  intros (d & Hd & Hk & Hcur)%get_approval_Ok. pose proof (wf_registry_run history) as Hw.
  destruct (is_current_true _ _ Hcur) as (Ho & Hs & Ht).
  destruct (wr_slot _ Hw _ _ Hk) as [Hkey Hl].
  destruct (Hl Hs) as ((_ & _ & s' & Hd' & Hi & He & Hsep) & Hin & Hq).
  split_and!; [done|done|done| |].
  - exists s'. split_and!; [|done..]. rewrite Hd', Hd. f_equal.
    apply schema_digest_sha in Hd, Hd'. unfold digest_key in Hkey.
    destruct (ar_schema_digest r), d. cbn in *. by subst.
  - intros q Hrq. rewrite <- (wr_latest _ Hw). by apply Hq.
Qed.
End Claims.

(** ** Witnesses *)
Module Demo.
#[local] Existing Instance IdentityProofs.toy_runtime.
#[local] Existing Instance IdentityProofs.toy_iso.
Definition request (action : PolicyAction) (risk : option RiskClass) (requester : option string)
    : ApprovalSchema := {|
  ps_action := action;
  ps_work_kind := None; ps_risk_class := risk; ps_repository := None; ps_changed_paths := None;
  ps_requested_capability := None; ps_workflow_version := None; ps_policy_version := None;
  ps_evidence_status := None; ps_retry_consumption := None; ps_budget_consumption := None;
  ps_validation_profile := None; ps_release_type := None; ps_credential_request := None;
  ps_prior_interventions := None; ps_external_protection_state := None; ps_work_snapshot := None;
  ps_effective_configuration := None; ps_adapter_locks := None; ps_capability_locks := None;
  ps_target_resource := None; ps_diff_or_artifact_digest := None;
  ps_acceptance_criteria_snapshot := None; ps_evidence_bundle_digest := None;
  ps_requesting_principal_id := requester; ps_producer_principal_ids := None;
  ps_credential_delivery_target := None; ps_agent_authored_executable := None;
  ps_retry_after_ambiguous_effect := None; ps_reconciliation_complete := None;
  ps_mutates_active_factory_asset := None; ps_candidate_received_held_out_input := None;
  ps_candidate_affects_protected_control := None; ps_canary_target := None;
  ps_override_reason := None; ps_override_scope := None; ps_override_expires_at := None;
  ps_capability_introduced_by_run := None |}.
Definition merge : ApprovalSchema := request PULL_REQUEST_MERGE (Some RISK_LOW) None.
Definition stage2 : PolicyEvaluator := {|
  pe_policy_version := "v1"; pe_rules := stage2_policy_rules; pe_approval_registry := None |}.
Lemma policy_evaluate_spec_witness : exists d,
  policy_evaluate stage2 "decision-1" (Aware 0) merge = Ok d /\ pd_result d = ALLOW.
Proof.
  assert (Hw : wf_evaluator stage2).
  { split; [reflexivity|split; [by repeat constructor|intros g [=]]]. }
  destruct (policy_evaluate_spec stage2 "decision-1" 0 merge ltac:(vm_compute; reflexivity) Hw)
    as (d & Hd & _ & _ & Hallow & _).
  exists d. split; [exact Hd|]. apply Hallow. split; [vm_compute; reflexivity|].
  eexists. by split.
Defined.
Definition alice : AuthorityPrincipal := {|
  ap_id := "alice"; ap_principal_type := HUMAN; ap_role := "owner";
  ap_authorization_source := "config" |}.
Definition publish : ApprovalSchema := request RELEASE_PUBLISH None (Some "agent-1").
Definition approved : list RegistryOp :=
  [RRegister alice; RApprove "approval-1" publish [alice] (Some "q") None (Aware 0)].
Definition approval : ApprovalRecord :=
  match record_approval (registry_run [RRegister alice]).1 "approval-1" publish [alice] (Some "q")
          None (Aware 0) with
  | Ok (_, r) => r
  | Err _ => {| ar_id := "none"; ar_request_id := None;
                ar_schema_digest := {| algorithm := "none"; hex_value := "none" |}; ar_action := "none";
                ar_normalized_inputs := []; ar_approvers := []; ar_outcome := REJECTED;
                ar_decided_at := Aware 0; ar_expires_at := None; ar_superseded := true |}
  end.
Lemma approval_found : get_approval (registry_run approved).1 publish (Aware 5) = Ok (Some approval).
Proof. vm_compute. reflexivity. Qed.
Lemma approval_is_latest_witness :
  approval ∈ (registry_run approved).2 /\
  last (decided_under "q" (registry_run approved).2) = Some approval.
Proof.
  destruct (approval_is_latest approved publish (Aware 5) approval approval_found)
    as (Hin & _ & _ & _ & Hq).
  split; [exact Hin|]. apply Hq. vm_compute. reflexivity.
Defined.
End Demo.
