(* ===== verification/VersionRange.v ===== *)
(** * Strict versions and version ranges ([domain/version_range.py])

    The two patterns, the parsers and the half-open interval, and the theorem that
    parsing accepts exactly the canonical texts whose numbers CPython converts. *)
From S2P Require Import Prelude PyText Identity IdentityProofs Regex.

(** ** Decimal numbers *)
(** [int(part)] of ASCII digits; CPython refuses to convert more than 4300 of them. *)
Definition digit_value (c : Ascii.ascii) : N := (code c - 48)%N.
Definition decimal_value (l : list Ascii.ascii) : N :=
  foldl (fun n c => 10 * n + digit_value c)%N 0%N l.
Definition int_of_digits (s : string) : result Z :=
  raise_when (MAX_INT_DIGITS <? length (chars s))%nat as PyValueError ;; Ok (Z.of_N (decimal_value (chars s))).

(** [_VERSION_PATTERN] *)
Definition numeric_part : regex :=
  RAlt (RLit "0") (RSeq (RRep (fun c => in_range c 49 57) 1 (Some 1)) (RRep is_digit 0 None)).
Definition VERSION_PATTERN : regex :=
  rseq [numeric_part; RLit "."; numeric_part; RLit "."; numeric_part].
(** [_RANGE_PATTERN] *)
Definition is_bound_char (c : Ascii.ascii) : bool := negb (is_one_of ",<>=" c) && negb (py_isspace c).
Definition RANGE_PATTERN : regex :=
  rseq [RLit ">="; RRep is_bound_char 1 None; RLit ",<"; RRep is_bound_char 1 None].

(** ** [Version] *)
Record Version := { major : Z; minor : Z; patch : Z }.
#[export] Instance Version_eq_dec : EqDecision Version.
Proof. solve_decision. Defined.
Definition version_post_init (v : Version) : result Version :=
  raise_when (Z.min (major v) (Z.min (minor v) (patch v)) <? 0)%Z as InvalidInputError ;; Ok v.
(** The groups of a full match: the separators are the only dots in it. *)
Definition version_groups (text : string) : option (string * string * string) :=
  match py_partition (chr 46) text with
  | (a, Some rest) =>
      match py_partition (chr 46) rest with (b, Some c) => Some (a, b, c) | _ => None end
  | _ => None
  end.
Definition version_parse (text : string) : result Version :=
  raise_when negb (regex_fullmatch VERSION_PATTERN text) as InvalidInputError ;;
  match version_groups text with
  | Some (a, b, c) =>
      major ← int_of_digits a; minor ← int_of_digits b; patch ← int_of_digits c;
      version_post_init {| major := major; minor := minor; patch := patch |}
  | None => Err InvalidInputError
  end.
(** [__str__] *)
Definition version_str (v : Version) : string :=
  pretty (major v) +:+ "." +:+ pretty (minor v) +:+ "." +:+ pretty (patch v).
(** [order=True]: field by field. *)
Definition version_lt (v w : Version) : bool :=
  ((major v <? major w) || ((major v =? major w) &&
    ((minor v <? minor w) || ((minor v =? minor w) && (patch v <? patch w)))))%Z.
Definition version_le (v w : Version) : bool := version_lt v w || bool_decide (v = w).

(** ** [VersionRange] *)
Record VersionRange := { vr_lower : Version; vr_upper : Version }.
Definition version_range_post_init (r : VersionRange) : result VersionRange :=
  raise_when negb (version_lt (vr_lower r) (vr_upper r)) as InvalidInputError ;; Ok r.
(** The groups of a full match: the comma separates them. *)
Definition range_groups (text : string) : option (string * string) :=
  match chars text with
  | _ :: _ :: rest =>
      match partition_chars (chr 44) rest with
      | (l, Some (_ :: u)) => Some (of_chars l, of_chars u)
      | _ => None
      end
  | _ => None
  end.
Definition version_range_parse (text : string) : result VersionRange :=
  raise_when negb (regex_fullmatch RANGE_PATTERN text) as InvalidInputError ;;
  match range_groups text with
  | Some (l, u) =>
      lower ← version_parse l; upper ← version_parse u;
      version_range_post_init {| vr_lower := lower; vr_upper := upper |}
  | None => Err InvalidInputError
  end.
Definition range_contains (r : VersionRange) (v : Version) : bool :=
  version_le (vr_lower r) v && version_lt v (vr_upper r).
Definition range_accepts (r : VersionRange) (text : string) : result bool :=
  match version_parse text with
  | Ok v => Ok (range_contains r v)
  | Err InvalidInputError => Ok false
  | Err e => Err e
  end.
Definition version_range_str (r : VersionRange) : string :=
  ">=" +:+ version_str (vr_lower r) +:+ ",<" +:+ version_str (vr_upper r).

Example version_accepts : version_parse "18.11.0" = Ok {| major := 18; minor := 11; patch := 0 |}.
Proof. vm_compute. reflexivity. Qed.
Example version_refuses :
  map version_parse ["18.11.0-beta.1"; "01.2.3"; "1.2"; "1.2.3.4"; " 1.2.3"; ""] =
  replicate 6 (Err InvalidInputError).
Proof. vm_compute. reflexivity. Qed.

(** ** Canonical decimal text *)
Definition numeric (l : list Ascii.ascii) : Prop := rlang numeric_part l.
(** Digits without a leading zero; empty for zero. *)
Definition significant (l : list Ascii.ascii) : Prop :=
  Forall (fun c => is_digit c = true) l /\ from_option (fun c => digit_value c <> 0%N) True (head l).

Lemma is_digit_bounds c : is_digit c = true <-> (48 <= code c <= 57)%N.
Proof. unfold is_digit, in_range. rewrite andb_true_iff, !N.leb_le. done. Qed.
Lemma numeric_significant l : numeric l <-> l = chars "0" \/ (l <> [] /\ significant l).
Proof.
  unfold numeric, significant. cbn. split.
  - intros [->|(x & y & -> & (Hx & H1 & H2) & Hy & _)]; [by left|right].
    destruct x as [|c [|]]; cbn in *; [lia| |lia]. split; [done|].
    apply Forall_cons in Hx as [Hx _].
    unfold in_range in Hx. rewrite andb_true_iff, !N.leb_le in Hx. split.
    + constructor; [apply is_digit_bounds; lia|done].
    + unfold digit_value. lia.
  - intros [->|[Hne [Hd Hh]]]; [by left|right]. destruct l as [|c l]; [done|].
    apply Forall_cons in Hd as [Hc Hd]. apply is_digit_bounds in Hc. cbn in Hh.
    exists [c], l. split; [done|]. split; [|by split; [|split; [lia|]]].
    split; [|cbn; lia]. repeat constructor. unfold in_range, digit_value in *.
    rewrite andb_true_iff, !N.leb_le. lia.
Qed.
Lemma decimal_value_snoc l c : decimal_value (l ++ [c]) = (10 * decimal_value l + digit_value c)%N.
Proof. unfold decimal_value. by rewrite foldl_app. Qed.
Lemma decimal_value_pos l : l <> [] -> significant l -> (0 < decimal_value l)%N.
Proof.
  induction l as [|c l IH] using rev_ind; [done|]. intros _ [Hd Hh]. rewrite decimal_value_snoc.
  destruct l as [|x l]; [cbn in *; lia|].
  apply Forall_app in Hd as [Hd _]. enough (0 < decimal_value (x :: l))%N by lia.
  by apply IH.
Qed.
Lemma pretty_digit c : is_digit c = true -> pretty_N_char (digit_value c) = c.
Proof.
  intros H%is_digit_bounds. apply code_inj. unfold digit_value.
  assert (code c ∈ (N.of_nat <$> seq 48 10)) as Hin.
  { apply list_elem_of_fmap. exists (N.to_nat (code c)). rewrite elem_of_seq. lia. }
  cbn in Hin. rewrite !elem_of_cons in Hin.
  repeat destruct Hin as [->|Hin]; try done. by apply not_elem_of_nil in Hin.
Qed.
Lemma digit_value_lt c : is_digit c = true -> (digit_value c < 10)%N.
Proof. intros ?%is_digit_bounds. unfold digit_value. lia. Qed.
Lemma digit_of_value n : (n < 10)%N -> is_digit (pretty_N_char n) = true /\
  digit_value (pretty_N_char n) = n.
Proof.
  intros H. assert (n ∈ (N.of_nat <$> seq 0 10)) as Hin.
  { apply list_elem_of_fmap. exists (N.to_nat n). rewrite elem_of_seq. lia. }
  cbn in Hin. rewrite !elem_of_cons in Hin.
  repeat destruct Hin as [->|Hin]; try done. by apply not_elem_of_nil in Hin.
Qed.
Lemma pretty_go_significant l s : significant l ->
  chars (pretty_N_go (decimal_value l) s) = l ++ chars s.
Proof.
  revert s. induction l as [|c l IH] using rev_ind; intros s Hs; [done|].
  pose proof (decimal_value_pos (l ++ [c]) ltac:(by destruct l) Hs) as Hpos.
  destruct Hs as [Hd Hh]. apply Forall_app in Hd as [Hl [Hc _]%Forall_cons].
  pose proof (digit_value_lt c Hc).
  rewrite pretty_N_go_step, decimal_value_snoc by done.
  assert ((10 * decimal_value l + digit_value c) / 10 = decimal_value l)%N as ->
    by (symmetry; apply (N.div_unique _ _ _ (digit_value c)); lia).
  assert ((10 * decimal_value l + digit_value c) mod 10 = digit_value c)%N as ->
    by (symmetry; apply (N.mod_unique _ _ (decimal_value l)); lia).
  rewrite pretty_digit by done. rewrite IH.
  - by rewrite <- (assoc_L (++)).
  - split; [done|]. by destruct l.
Qed.
Lemma significant_of n : exists l, significant l /\ decimal_value l = n.
Proof.
  induction (N.lt_wf_0 n) as [n _ IH]. destruct (decide (n = 0)%N) as [->|Hn].
  { exists []. by split; [split; [constructor|]|]. }
  destruct (IH (n / 10)%N) as (l & Hl & Hv); [apply N.div_lt; lia|].
  destruct (digit_of_value (n mod 10)) as [Hc Hdv]; [apply N.mod_lt; lia|].
  exists (l ++ [pretty_N_char (n mod 10)]). split.
  - destruct Hl as [Hd Hh]. split; [apply Forall_app; by split; [|constructor]|].
    destruct l as [|x l]; [|done]. cbn [head app from_option]. rewrite Hdv.
    cbn in Hv. pose proof (N.div_mod n 10). lia.
  - rewrite decimal_value_snoc, Hdv, Hv. pose proof (N.div_mod n 10). lia.
Qed.
Lemma pretty_of_N n : pretty (Z.of_N n) = pretty n.
Proof. by destruct n. Qed.
Lemma pretty_significant l : l <> [] -> significant l -> chars (pretty (decimal_value l)) = l.
Proof.
  intros Hne Hs. pose proof (decimal_value_pos l Hne Hs). unfold pretty, pretty_N.
  rewrite decide_False by lia. rewrite pretty_go_significant by done. by rewrite app_nil_r.
Qed.

(** [str] and [int] are inverse on canonical numbers. *)
Lemma pretty_of_numeric l : numeric l -> chars (pretty (Z.of_N (decimal_value l))) = l.
Proof. intros [->|[??]]%numeric_significant; [done|]. rewrite pretty_of_N. by apply pretty_significant. Qed.
Lemma numeric_of_pretty z : (0 <= z)%Z ->
  numeric (chars (pretty z)) /\ Z.of_N (decimal_value (chars (pretty z))) = z.
Proof.
  intros Hz. rewrite <- (Z2N.id z) by done. rewrite pretty_of_N.
  destruct (significant_of (Z.to_N z)) as (l & Hl & <-). destruct l as [|c l].
  - split; [by left|done].
  - rewrite pretty_significant by done. split; [|done]. apply numeric_significant. by right.
Qed.

(** ** Versions *)
(** The numbers of a version, and those whose text is short enough to be read. *)
Definition version_numbers (v : Version) : list Z := [major v; minor v; patch v].
Definition natural_version (v : Version) : Prop := Forall (fun z => (0 <= z)%Z) (version_numbers v).
Definition short_number (z : Z) : Prop := length (chars (pretty z)) <= MAX_INT_DIGITS.
Definition wf_version (v : Version) : Prop := natural_version v /\ Forall short_number (version_numbers v).
Definition dot : Ascii.ascii := chr 46.

Lemma numeric_digits l : numeric l -> Forall (fun c => is_digit c = true) l.
Proof. intros [->|[_ [? _]]]%numeric_significant; [by repeat constructor|done]. Qed.
Lemma numeric_no_dot l : numeric l -> dot ∉ l.
Proof. intros Hd%numeric_digits Hin. rewrite Forall_forall in Hd. by specialize (Hd _ Hin). Qed.
Lemma rlang_version l : rlang VERSION_PATTERN l <->
  exists a b c, l = a ++ dot :: b ++ dot :: c /\ numeric a /\ numeric b /\ numeric c.
Proof.
  unfold VERSION_PATTERN, numeric. generalize numeric_part as n. intros n. cbn. split.
  - intros (a & ? & -> & Ha & ? & ? & -> & -> & b & ? & -> & Hb & ? & c & -> & -> & Hc).
    by exists a, b, c.
  - intros (a & b & c & -> & Ha & Hb & Hc). do 2 eexists; split_and!; [done..|].
    exists [dot]. eexists; split_and!; [done..|]. do 2 eexists; split_and!; [done..|].
    by exists [dot], c.
Qed.
Lemma version_groups_of a b c : numeric a -> numeric b ->
  version_groups (of_chars (a ++ dot :: b ++ dot :: c)) =
  Some (of_chars a, of_chars b, of_chars c).
Proof.
  intros Ha%numeric_no_dot Hb%numeric_no_dot. unfold version_groups, py_partition, dot in *.
  rewrite !chars_of_chars, partition_chars_app by done. cbn.
  by rewrite !chars_of_chars, partition_chars_app.
Qed.
Lemma version_str_chars v : chars (version_str v) =
  chars (pretty (major v)) ++ dot :: chars (pretty (minor v)) ++ dot :: chars (pretty (patch v)).
Proof. unfold version_str. by rewrite !chars_app. Qed.

Lemma int_of_numeric l : numeric l -> int_of_digits (of_chars l) =
  let z := Z.of_N (decimal_value l) in if decide (short_number z) then Ok z else Err PyValueError.
Proof.
  intros Hl. unfold int_of_digits, short_number. rewrite chars_of_chars, pretty_of_numeric by done.
  case_decide; [by rewrite (proj2 (Nat.ltb_ge _ _))|]. by rewrite (proj2 (Nat.ltb_lt _ _)) by lia.
Qed.
(** A canonical text is read when its numbers are short enough, and raises otherwise. *)
Lemma version_parse_str v : natural_version v ->
  version_parse (version_str v) = if decide (Forall short_number (version_numbers v)) then Ok v else Err PyValueError.
Proof.
  intros Hv. pose proof Hv as Hn. unfold natural_version, version_numbers in Hn. rewrite !Forall_cons in Hn.
  destruct Hn as (H1 & H2 & H3 & _).
  destruct (numeric_of_pretty _ H1) as [Ha Va], (numeric_of_pretty _ H2) as [Hb Vb], (numeric_of_pretty _ H3) as [Hc Vc].
  unfold version_parse. rewrite (proj2 (regex_fullmatch_spec VERSION_PATTERN _ ltac:(done)));
    [|rewrite version_str_chars; apply rlang_version; by do 3 eexists].
  cbn [negb raise_if mbind result_bind]. rewrite <- (of_chars_chars (version_str v)), version_str_chars, version_groups_of by done.
  rewrite !int_of_numeric by done. cbv zeta. rewrite Va, Vb, Vc. unfold version_numbers.
  destruct (decide (short_number (major v))) as [R1|R1]; cbn [mbind result_bind];
    [|by rewrite decide_False by (by rewrite Forall_cons; intros [? _])].
  destruct (decide (short_number (minor v))) as [R2|R2]; cbn [mbind result_bind];
    [|by rewrite decide_False by (by rewrite !Forall_cons; intros (_ & ? & _))].
  destruct (decide (short_number (patch v))) as [R3|R3]; cbn [mbind result_bind];
    [|by rewrite decide_False by (by rewrite !Forall_cons; intros (_ & _ & ? & _))].
  rewrite decide_True by (by rewrite !Forall_cons, Forall_nil). unfold version_post_init. cbn [major minor patch].
  rewrite (proj2 (Z.ltb_ge _ _)) by lia. by destruct v.
Qed.
Lemma version_text s : rlang VERSION_PATTERN (chars s) <-> exists v, s = version_str v /\ natural_version v.
Proof.
  rewrite rlang_version. split.
  - intros (a & b & c & Hs & Ha & Hb & Hc).
    exists {| major := Z.of_N (decimal_value a); minor := Z.of_N (decimal_value b); patch := Z.of_N (decimal_value c) |}.
    split; [apply chars_inj; rewrite Hs, version_str_chars; cbn [major minor patch]; by rewrite !pretty_of_numeric|].
    repeat constructor; cbn; lia.
  - intros (v & -> & Hv). unfold natural_version, version_numbers in Hv. rewrite !Forall_cons in Hv. destruct Hv as (H1 & H2 & H3 & _).
    rewrite version_str_chars. do 3 eexists. split; [done|]. split_and!; by apply numeric_of_pretty.
Qed.
Lemma version_parse_other s : (~ exists v, s = version_str v /\ natural_version v) -> version_parse s = Err InvalidInputError.
Proof.
  intros Hn. unfold version_parse. rewrite <- version_text in Hn. rewrite <- (regex_fullmatch_spec VERSION_PATTERN) in Hn by done.
  by destruct (regex_fullmatch _ _); [destruct Hn|].
Qed.
Lemma version_str_inj v w : natural_version v -> natural_version w -> version_str v = version_str w -> v = w.
Proof.
  intros Hv Hw He. assert (Hc := He). apply (f_equal chars) in Hc. rewrite !version_str_chars in Hc.
  unfold natural_version, version_numbers in Hv, Hw. rewrite !Forall_cons in Hv, Hw.
  destruct Hv as (V1 & V2 & V3 & _), Hw as (W1 & W2 & W3 & _).
  destruct (numeric_of_pretty _ V1) as [Na Ea], (numeric_of_pretty _ V2) as [Nb Eb], (numeric_of_pretty _ V3) as [Nc Ec].
  destruct (numeric_of_pretty _ W1) as [Na' Ea'], (numeric_of_pretty _ W2) as [Nb' Eb'], (numeric_of_pretty _ W3) as [Nc' Ec'].
  assert (Hg : version_groups (version_str v) = version_groups (version_str w)) by by rewrite He.
  rewrite <- (of_chars_chars (version_str v)), <- (of_chars_chars (version_str w)), !version_str_chars, !version_groups_of in Hg by done.
  injection Hg as G1 G2 G3. apply (f_equal chars) in G1, G2, G3. rewrite !chars_of_chars in G1, G2, G3.
  destruct v as [a b c], w as [a' b' c']. cbn [major minor patch] in *. rewrite G1 in Ea. rewrite G2 in Eb. rewrite G3 in Ec.
  congruence.
Qed.
(** A text is a version exactly when it is the canonical text of one that can be read. *)
Lemma version_parse_Ok s v : version_parse s = Ok v <-> s = version_str v /\ wf_version v.
Proof.
  split.
  - intros Hp. destruct (decide (regex_fullmatch VERSION_PATTERN s = true)) as [Hm|Hm].
    + apply regex_fullmatch_spec in Hm; [|done]. apply version_text in Hm as (w & -> & Hw).
      rewrite version_parse_str in Hp by done. case_decide as Hr; [|done]. by injection Hp as <-.
    + rewrite (regex_fullmatch_spec VERSION_PATTERN) in Hm by done. rewrite version_text in Hm.
      by rewrite version_parse_other in Hp.
  - intros [-> [Hv Hr]]. rewrite version_parse_str by done. by rewrite decide_True.
Qed.
Lemma version_parse_Err s e : version_parse s = Err e <->
  e = InvalidInputError /\ (~ exists v, s = version_str v /\ natural_version v) \/
  e = PyValueError /\ exists v, s = version_str v /\ natural_version v /\ ~ Forall short_number (version_numbers v).
Proof.
  split.
  - intros Hp. destruct (decide (regex_fullmatch VERSION_PATTERN s = true)) as [Hm|Hm].
    + apply regex_fullmatch_spec in Hm; [|done]. apply version_text in Hm as (w & -> & Hw).
      rewrite version_parse_str in Hp by done. case_decide as Hr; [done|]. right. injection Hp as <-. split; [done|by exists w].
    + rewrite (regex_fullmatch_spec VERSION_PATTERN) in Hm by done. rewrite version_text in Hm.
      rewrite version_parse_other in Hp by done. left. by injection Hp as <-.
  - intros [[-> Hn]|[-> (v & -> & Hv & Hr)]]; [by apply version_parse_other|].
    rewrite version_parse_str by done. by rewrite decide_False.
Qed.

(** The order is the lexicographic one, total on versions. *)
Lemma version_lt_spec v w : version_lt v w = true <->
  (major v < major w \/ major v = major w /\ (minor v < minor w \/
     minor v = minor w /\ patch v < patch w))%Z.
Proof. unfold version_lt. rewrite !orb_true_iff, !andb_true_iff, !orb_true_iff, !andb_true_iff. lia. Qed.
Lemma version_le_not_lt v w : version_le v w = negb (version_lt w v).
Proof.
  apply eq_true_iff_eq. unfold version_le. rewrite orb_true_iff, negb_true_iff, bool_decide_eq_true.
  rewrite <- not_true_iff_false, !version_lt_spec. destruct v as [a b c], w as [a' b' c']; cbn.
  split; [intros [?|[= -> -> ->]]; lia|]. intros H.
  destruct (decide (a = a' /\ b = b' /\ c = c')) as [(-> & -> & ->)|]; [by right|left; lia].
Qed.

(** ** Ranges *)
Definition comma : Ascii.ascii := chr 44.
Definition bound_char (c : Ascii.ascii) : Prop := is_bound_char c = true.

Lemma bound_char_no_comma l : Forall bound_char l -> comma ∉ l.
Proof. intros Hf Hin. rewrite Forall_forall in Hf. by specialize (Hf _ Hin). Qed.
Lemma rlang_range l : rlang RANGE_PATTERN l <->
  exists a b, l = chars ">=" ++ a ++ comma :: chr 60 :: b /\
    a <> [] /\ b <> [] /\ Forall bound_char a /\ Forall bound_char b.
Proof.
  cbn [RANGE_PATTERN rseq rlang from_option]. split.
  - intros (? & ? & -> & -> & a & ? & -> & (Ha & La & _) & ? & b & -> & -> & Hb & Lb & _).
    exists a, b. split_and!; [done|by intros ->; cbn in La; lia|by intros ->; cbn in Lb; lia|done..].
  - intros (a & b & -> & Na & Nb & Ha & Hb). do 2 eexists; split_and!; [done..|].
    exists a; eexists; split_and!; [done..|destruct a; [done|cbn; lia]|done|].
    exists (chars ",<"), b. split_and!; [done..|destruct b; [done|cbn; lia]|done].
Qed.
Lemma range_groups_of a b : Forall bound_char a ->
  range_groups (of_chars (chars ">=" ++ a ++ comma :: chr 60 :: b)) =
  Some (of_chars a, of_chars b).
Proof.
  intros Ha%bound_char_no_comma. unfold range_groups. rewrite chars_of_chars.
  change (chars ">=" ++ a ++ comma :: chr 60 :: b)
    with (chr 62 :: chr 61 :: a ++ comma :: chr 60 :: b).
  change (chr 44) with comma. cbn iota. by rewrite partition_chars_app.
Qed.
Lemma version_str_bound v : natural_version v ->
  Forall bound_char (chars (version_str v)) /\ chars (version_str v) <> [].
Proof.
  intros Hv. unfold natural_version, version_numbers in Hv. rewrite !Forall_cons in Hv. destruct Hv as (H1 & H2 & H3 & _).
  rewrite version_str_chars.
  assert (Hd : forall z, (0 <= z)%Z -> Forall bound_char (chars (pretty z))).
  { intros z Hz. destruct (numeric_of_pretty z Hz) as [Hn%numeric_digits _].
    eapply Forall_impl; [exact Hn|]. intros c. by destruct c as [[] [] [] [] [] [] [] []]. }
  split; [|by destruct (chars (pretty (major v)))].
  apply Forall_app; split; [by apply Hd|]. constructor; [done|].
  apply Forall_app; split; [by apply Hd|]. constructor; [done|by apply Hd].
Qed.

Lemma version_range_parse_Ok s r : version_range_parse s = Ok r <->
  s = version_range_str r /\ wf_version (vr_lower r) /\ wf_version (vr_upper r) /\
  version_lt (vr_lower r) (vr_upper r) = true.
Proof.
  unfold version_range_parse, version_range_post_init.
  rewrite raise_if_Ok, negb_false_iff, (regex_fullmatch_spec RANGE_PATTERN) by done.
  rewrite rlang_range. split.
  - intros [(a & b & Hs & _ & _ & Ha & _) Hp].
    rewrite <- (of_chars_chars s), Hs, range_groups_of in Hp by done. inv_ok.
    match goal with H : version_parse (of_chars a) = _ |- _ => rename H into Hl end.
    match goal with H : version_parse (of_chars b) = _ |- _ => rename H into Hu end.
    apply version_parse_Ok in Hl as [Hl ?], Hu as [Hu ?]. cbn [vr_lower vr_upper].
    split_and!; [|done..|by apply negb_false_iff].
    apply chars_inj. unfold version_range_str; cbn [vr_lower vr_upper].
    by rewrite !chars_app, <- Hl, <- Hu, !chars_of_chars.
  - intros (-> & Hl & Hu & Hlt). destruct (version_str_bound _ (proj1 Hl)), (version_str_bound _ (proj1 Hu)).
    assert (Hc : chars (version_range_str r) = chars ">=" ++ chars (version_str (vr_lower r)) ++
      comma :: chr 60 :: chars (version_str (vr_upper r))).
    { unfold version_range_str. by rewrite !chars_app. }
    split; [by do 2 eexists|].
    rewrite <- (of_chars_chars (version_range_str r)), Hc, range_groups_of by done.
    rewrite !of_chars_chars. apply bind_Ok. exists (vr_lower r).
    split; [by apply version_parse_Ok|]. apply bind_Ok. exists (vr_upper r).
    split; [by apply version_parse_Ok|]. rewrite raise_if_Ok. cbn.
    rewrite Hlt. by destruct r.
Qed.
Lemma version_range_parse_Err s e : version_range_parse s = Err e -> e = InvalidInputError \/
  e = PyValueError /\ exists l u, s = ">=" +:+ l +:+ ",<" +:+ u /\
    (version_parse l = Err PyValueError \/ version_parse u = Err PyValueError).
Proof.
  unfold version_range_parse. rewrite raise_if_Err, negb_false_iff, (regex_fullmatch_spec RANGE_PATTERN) by done.
  intros [[_ ->]|[Hr H]]; [by left|]. apply rlang_range in Hr as (a & b & Hs & _ & _ & Ha & _).
  rewrite <- (of_chars_chars s), Hs, range_groups_of in H by done.
  assert (Hx : s = ">=" +:+ of_chars a +:+ ",<" +:+ of_chars b).
  { apply chars_inj. by rewrite Hs, !chars_app, !chars_of_chars. }
  destruct (version_parse (of_chars a)) as [l|el] eqn:El; cbn [mbind result_bind] in H.
  2: { injection H as <-. pose proof El as Hl. apply version_parse_Err in Hl as [[-> _]|[-> _]]; [by left|right]. eauto 10. }
  destruct (version_parse (of_chars b)) as [u|eu] eqn:Eu; cbn [mbind result_bind] in H.
  2: { injection H as <-. pose proof Eu as Hu. apply version_parse_Err in Hu as [[-> _]|[-> _]]; [by left|right]. eauto 10. }
  unfold version_range_post_init in H. rewrite raise_if_Err in H. left. naive_solver.
Qed.
Lemma range_accepts_Err r t e : range_accepts r t = Err e -> e = PyValueError /\ version_parse t = Err PyValueError.
Proof.
  unfold range_accepts. destruct (version_parse t) as [v|e'] eqn:Hp; [done|].
  pose proof Hp as Hx. apply version_parse_Err in Hx as [[-> _]|[-> _]]; [done|]. by intros [= <-].
Qed.

