(* ===== verification/Schemas.v ===== *)
(** * Command input schemas ([capabilities/schema.py])

    The bounded JSON-schema subset: the check a manifest's schema passes, the
    validation of an instance, and JSON equality.  Every refusal of [check_schema]
    is a manifest error and every refusal of [validate_instance] an input-schema
    error; the path and message they carry are not kept. *)
From S2P Require Import Prelude PyText Json Identity.
From Stdlib Require Import SpecFloat.

Definition MAX_SCHEMA_BYTES : Z := 16 * 1024.
Definition MAX_SCHEMA_DEPTH : nat := 8.
Definition MAX_INSTANCE_BYTES : Z := 64 * 1024.
Definition MAX_INSTANCE_DEPTH : nat := 16.

Definition KEYWORDS : list string :=
  ["title"; "description"; "$comment"; "type"; "enum"; "const"; "properties"; "required";
   "additionalProperties"; "items"; "minimum"; "maximum"; "minLength"; "maxLength";
   "minItems"; "maxItems"].
Definition TYPES : list string :=
  ["object"; "array"; "string"; "integer"; "number"; "boolean"; "null"].

(** [node.get(k)], where an absent key and a JSON null are both [None]. *)
Definition get_value (k : string) (node : list (string * json)) : option json :=
  match dict_get k node with Some JNull | None => None | Some v => Some v end.
(** [k in node] *)
Definition has_key {V} (k : string) (node : list (string * V)) : bool :=
  match dict_get k node with Some _ => true | None => false end.

(** ** Sizes and depths *)
Definition json_children (j : json) : list json :=
  match j with JList l => l | JObj m => map snd m | _ => [] end.
(** The number of values in a value: the fuel of the iterative walks. *)
Fixpoint json_size (j : json) : nat :=
  S (match j with
     | JList l => sum_list_with json_size l
     | JObj m => sum_list_with (fun kv => json_size kv.2) m
     | _ => 0 end).

(** [while pending: node, depth = pending.pop()]: the last pending item first. *)
Fixpoint exceeds_loop (fuel : nat) (pending : list (json * nat)) (limit : nat) : bool :=
  match fuel with
  | O => false
  | S fuel =>
      match last pending with
      | None => false
      | Some (node, depth) =>
          (limit <? depth)%nat ||
          exceeds_loop fuel
            (removelast pending ++ map (fun child => (child, S depth)) (json_children node)) limit
      end
  end.
Definition exceeds_depth (value : json) (limit : nat) : bool :=
  exceeds_loop (json_size value) [(value, 1)] limit.

Definition float_finite (f : spec_float) : bool :=
  match f with S754_zero _ | S754_finite _ _ _ => true | _ => false end.
(** What [allow_nan=False] refuses. *)
Fixpoint all_finite (j : json) : bool :=
  match j with
  | JFloat f => float_finite f
  | JList l => forallb all_finite l
  | JObj m => forallb (fun kv => all_finite kv.2) m
  | _ => true
  end.

Section JsonDumps.
Context `{rt : PyRuntime}.

(** [json.dumps(value, sort_keys=True)]: the default separators. *)
Fixpoint spaced_text (j : json) : string :=
  match j with
  | JList l => "[" +:+ py_join ", " (map spaced_text l) +:+ "]"
  | JObj m =>
      "{" +:+ py_join ", " (map (fun kv => json_string kv.1 +:+ ": " +:+ spaced_text kv.2) m)
          +:+ "}"
  | j => json_text j
  end.
(** CPython writes no integer of more digits than it reads. *)
Fixpoint short_integers (j : json) : bool :=
  match j with
  | JInt z => (length (chars (pretty (Z.abs z))) <=? MAX_INT_DIGITS)%nat
  | JList l => forallb short_integers l
  | JObj m => forallb (fun kv => short_integers kv.2) m
  | _ => true
  end.
Definition dumps_size (j : json) : result Z :=
  raise_when negb (short_integers j) as PyValueError ;; Ok (py_len (spaced_text (canon j))).
(** [except (TypeError, ValueError, RecursionError)] around it, and the bound. *)
Definition bounded_size (j : json) (limit : Z) (error : exn) : result () :=
  match dumps_size j with
  | Ok size => raise_if (limit <? size)%Z error
  | Err _ => Err error
  end.
End JsonDumps.

(** ** [check_schema] *)
Definition bad_schema (b : bool) : result () := raise_if b CapabilityManifestError.

(** [_check_type] *)
Definition is_type_name (j : json) : bool :=
  match j with JStr s => bool_decide (s ∈ TYPES) | _ => false end.
Definition declared_names (declared : json) : list json :=
  match declared with JList l => l | j => [j] end.
Definition check_type (declared : option json) : result () :=
  match declared with
  | None => Ok ()
  | Some d =>
      let names := declared_names d in
      bad_schema (bool_decide (names = []) || existsb (fun n => negb (is_type_name n)) names)
  end.
(** [_is_number], [_is_non_negative_int] *)
Definition is_number (j : json) : bool :=
  match j with JInt _ | JFloat _ => true | _ => false end.
Definition is_non_negative_int (j : json) : bool :=
  match j with JInt z => (0 <=? z)%Z | _ => false end.
Definition is_str (j : json) : bool := match j with JStr _ => true | _ => false end.
Definition is_bool (j : json) : bool := match j with JBool _ => true | _ => false end.
(** [_check_bounds] *)
Definition check_bounds (node : list (string * json)) : result () :=
  bad_schema (existsb (fun k => from_option (fun v => negb (is_number v)) false (get_value k node))
                ["minimum"; "maximum"] ||
              existsb (fun k => from_option (fun v => negb (is_non_negative_int v)) false
                                  (get_value k node))
                ["minLength"; "maxLength"; "minItems"; "maxItems"]).

(** [_check_structure], given the check of a sub-schema. *)
Definition check_structure (check : json -> result ()) (node : list (string * json)) : result () :=
  _ ← (match get_value "properties" node with
       | None => Ok ()
       | Some (JObj properties) => each_result (fun kv => check kv.2) properties
       | Some _ => Err CapabilityManifestError
       end);
  _ ← from_option check (Ok ()) (dict_get "items" node);
  _ ← (match get_value "required" node with
       | None => Ok ()
       | Some (JList required) => bad_schema (negb (forallb is_str required))
       | Some _ => Err CapabilityManifestError
       end);
  bad_schema (from_option (fun v => negb (is_bool v)) false (dict_get "additionalProperties" node)).
(** [_check_node]: [budget] is [MAX_SCHEMA_DEPTH + 1 - depth]. *)
Fixpoint check_node (budget : nat) (node : json) : result () :=
  match budget with
  | O => Err CapabilityManifestError
  | S budget =>
      match node with
      | JObj m =>
          _ ← bad_schema (existsb (fun k => negb (bool_decide (k ∈ KEYWORDS))) (map fst m));
          _ ← check_type (get_value "type" m);
          _ ← check_structure (check_node budget) m;
          _ ← check_bounds m;
          match dict_get "enum" m with
          | None => Ok ()
          | Some (JList (_ :: _)) => Ok ()
          | Some _ => Err CapabilityManifestError
          end
      | _ => Err CapabilityManifestError
      end
  end.
Definition check_schema `{PyRuntime} (schema : json) : result () :=
  _ ← bad_schema (exceeds_depth schema (MAX_SCHEMA_DEPTH + MAX_INSTANCE_DEPTH));
  _ ← bad_schema (negb (all_finite schema));
  _ ← bounded_size schema MAX_SCHEMA_BYTES CapabilityManifestError;
  check_node MAX_SCHEMA_DEPTH schema.

(** ** JSON equality ([_equal]) *)
(** Python's [==] of two numbers, neither a bool. *)
Definition num_eqb (a b : json) : bool :=
  match a, b with
  | JInt x, JInt y => (x =? y)%Z
  | JInt x, JFloat g => float_eq_int g x
  | JFloat f, JInt y => float_eq_int f y
  | JFloat f, JFloat g => SFeqb f g
  | _, _ => false
  end.
(** [_scalars_equal] *)
Definition scalars_equal (first second : json) : bool :=
  match first, second with
  | JBool a, JBool b => Bool.eqb a b
  | JBool _, _ | _, JBool _ => false
  | _, _ =>
      if is_number first && is_number second then num_eqb first second
      else match first, second with
           | JNull, JNull => true
           | JStr s, JStr t => String.eqb s t
           | _, _ => false
           end
  end.
(** [first.keys() == second.keys()] *)
Definition same_keys {V W} (m : list (string * V)) (n : list (string * W)) : bool :=
  forallb (fun k => has_key k n) (map fst m) && forallb (fun k => has_key k m) (map fst n).
(** The pairs one step of the walk adds, or [None] when it answers [False]. *)
Definition equal_step (first second : json) : option (list (json * json)) :=
  match first, second with
  | JObj m, JObj n =>
      if same_keys m n
      then Some (map (fun kv => (kv.2, default JNull (dict_get kv.1 n))) m)
      else None
  | JList l, JList k => if Nat.eqb (length l) (length k) then Some (zip l k) else None
  | _, _ => if scalars_equal first second then Some [] else None
  end.
Fixpoint equal_loop (fuel : nat) (pending : list (json * json)) : bool :=
  match fuel with
  | O => false
  | S fuel =>
      match last pending with
      | None => true
      | Some (first, second) =>
          match equal_step first second with
          | Some more => equal_loop fuel (removelast pending ++ more)
          | None => false
          end
      end
  end.
Definition json_equal (left right : json) : bool := equal_loop (S (json_size left)) [(left, right)].

(** ** [validate_instance] *)
Definition violation (b : bool) : result () := raise_if b CapabilityInputSchemaError.

(** [_check_instance_shape] *)
Fixpoint shape_loop (fuel : nat) (pending : list (json * nat)) : result () :=
  match fuel with
  | O => Ok ()
  | S fuel =>
      match last pending with
      | None => Ok ()
      | Some (node, depth) =>
          _ ← violation (MAX_INSTANCE_DEPTH <? depth)%nat;
          _ ← violation (match node with JFloat f => negb (float_finite f) | _ => false end);
          shape_loop fuel
            (removelast pending ++ map (fun child => (child, S depth)) (json_children node))
      end
  end.
Definition check_instance_shape (instance : json) : result () :=
  shape_loop (json_size instance) [(instance, 1)].

(** [float.is_integer] *)
Definition float_is_integer (f : spec_float) : bool :=
  match f with
  | S754_zero _ => true
  | S754_finite _ m e => (0 <=? e)%Z || (Z.pos m mod 2 ^ (- e) =? 0)%Z
  | _ => false
  end.
(** [_type_matches] *)
Definition type_matches (name : string) (instance : json) : bool :=
  if String.eqb name "object" then match instance with JObj _ => true | _ => false end
  else if String.eqb name "array" then match instance with JList _ => true | _ => false end
  else if String.eqb name "string" then is_str instance
  else if String.eqb name "boolean" then is_bool instance
  else if String.eqb name "null" then match instance with JNull => true | _ => false end
  else if String.eqb name "integer" then
    match instance with JFloat f => float_is_integer f | JInt _ => true | _ => false end
  else is_number instance.
(** [_validate_type] *)
Definition validate_type (declared : option json) (instance : json) : result () :=
  match declared with
  | None => Ok ()
  | Some d =>
      violation (negb (existsb (fun n => match n with
                                         | JStr name => type_matches name instance
                                         | _ => false end) (declared_names d)))
  end.

(** Python's [<] of two numbers, neither a bool; false when one is a NaN. *)
Definition float_lt_int (f : spec_float) (z : Z) : bool :=
  match f with
  | S754_zero _ => (0 <? z)%Z
  | S754_infinity s => s
  | S754_finite s m e =>
      let v := if s then Zneg m else Zpos m in
      if (0 <=? e)%Z then (v * 2 ^ e <? z)%Z else (v <? z * 2 ^ (- e))%Z
  | S754_nan => false
  end.
Definition int_lt_float (z : Z) (f : spec_float) : bool :=
  match f with
  | S754_zero _ => (z <? 0)%Z
  | S754_infinity s => negb s
  | S754_finite s m e =>
      let v := if s then Zneg m else Zpos m in
      if (0 <=? e)%Z then (z <? v * 2 ^ e)%Z else (z * 2 ^ (- e) <? v)%Z
  | S754_nan => false
  end.
Definition num_ltb (a b : json) : bool :=
  match a, b with
  | JInt x, JInt y => (x <? y)%Z
  | JInt x, JFloat g => int_lt_float x g
  | JFloat f, JInt y => float_lt_int f y
  | JFloat f, JFloat g => SFltb f g
  | _, _ => false
  end.
(** A length bound: [isinstance(bound, int)] holds of bools too. *)
Definition length_bound (k : string) (schema : list (string * json)) : option Z :=
  from_option int_of None (get_value k schema).
Definition below (n : Z) (bound : option Z) : bool := from_option (fun b => n <? b)%Z false bound.
Definition above (n : Z) (bound : option Z) : bool := from_option (fun b => b <? n)%Z false bound.
Definition validate_string (schema : list (string * json)) (instance : string) : result () :=
  _ ← violation (below (py_len instance) (length_bound "minLength" schema));
  violation (above (py_len instance) (length_bound "maxLength" schema)).
Definition validate_number (schema : list (string * json)) (value : json) : result () :=
  _ ← violation (from_option (fun m => is_number m && num_ltb value m) false
                   (get_value "minimum" schema));
  violation (from_option (fun m => is_number m && num_ltb m value) false
               (get_value "maximum" schema)).

(** [name not in instance]; an unhashable name raises a [TypeError]. *)
Definition name_missing (instance : list (string * json)) (name : json) : result bool :=
  match name with
  | JStr s => Ok (negb (has_key s instance))
  | JList _ | JObj _ => Err PyTypeError
  | _ => Ok true
  end.
Definition declared_properties (schema : list (string * json)) : list (string * json) :=
  match get_value "properties" schema with Some (JObj m) => m | _ => [] end.
Definition validate_object (validate : list (string * json) -> json -> result ())
    (schema instance : list (string * json)) : result () :=
  _ ← each_result (fun name => missing ← name_missing instance name; violation missing)
        (match get_value "required" schema with Some (JList l) => l | _ => [] end);
  _ ← violation (match dict_get "additionalProperties" schema with
                 | Some (JBool false) =>
                     existsb (fun k => negb (has_key k (declared_properties schema)))
                       (map fst instance)
                 | _ => false end);
  each_result (fun kv => match dict_get kv.1 instance, kv.2 with
                         | Some v, JObj child => validate child v
                         | Some _, _ => Err PyAttributeError
                         | None, _ => Ok () end)
    (declared_properties schema).
Definition validate_array (validate : list (string * json) -> json -> result ())
    (schema : list (string * json)) (instance : list json) : result () :=
  _ ← violation (below (Z.of_nat (length instance)) (length_bound "minItems" schema));
  _ ← violation (above (Z.of_nat (length instance)) (length_bound "maxItems" schema));
  match get_value "items" schema with
  | Some (JObj items) => each_result (validate items) instance
  | _ => Ok ()
  end.
(** [_validate]: [budget] is [MAX_INSTANCE_DEPTH + 1 - depth]. *)
Fixpoint validate (budget : nat) (schema : list (string * json)) (instance : json) : result () :=
  match budget with
  | O => Err CapabilityInputSchemaError
  | S budget =>
      _ ← validate_type (get_value "type" schema) instance;
      _ ← violation (from_option (fun c => negb (json_equal c instance)) false
                       (dict_get "const" schema));
      _ ← violation (match get_value "enum" schema with
                     | Some (JList options) => negb (existsb (fun o => json_equal o instance) options)
                     | _ => false end);
      match instance with
      | JObj m => validate_object (validate budget) schema m
      | JList l => validate_array (validate budget) schema l
      | JStr s => validate_string schema s
      | JInt _ | JFloat _ => validate_number schema instance
      | _ => Ok ()
      end
  end.
Definition validate_instance `{PyRuntime} (schema : list (string * json)) (instance : json)
    : result () :=
  _ ← check_instance_shape instance;
  _ ← bounded_size instance MAX_INSTANCE_BYTES CapabilityInputSchemaError;
  validate MAX_INSTANCE_DEPTH schema instance.
