(* ===== verification/SchemaProofs.v ===== *)
(** * Schema validation is exact

    The iterative walks compute the recursive measures they stand for, and
    [validate_instance] accepts exactly the bounded instances that conform to a
    checked schema. *)
From S2P Require Import Prelude PyText Json Identity IdentityProofs Schemas.
From Stdlib Require Import SpecFloat.

Lemma last_snoc_eq {A} (l : list A) x : last l = Some x -> l = removelast l ++ [x].
Proof.
  induction l as [|y l IH] using rev_ind; [done|].
  rewrite last_snoc, removelast_last. by intros [= ->].
Qed.
Lemma sum_list_with_app {A} (f : A -> nat) l k :
  sum_list_with f (l ++ k) = sum_list_with f l + sum_list_with f k.
Proof. induction l as [|x l IH]; cbn; [done|]. rewrite IH. lia. Qed.
Lemma sum_list_with_map {A B} (f : B -> nat) (g : A -> B) l :
  sum_list_with f (map g l) = sum_list_with (fun x => f (g x)) l.
Proof. induction l as [|x l IH]; cbn; [done|]. by rewrite IH. Qed.

(** ** The depth walk *)
Fixpoint json_depth (j : json) : nat :=
  S (match j with
     | JList l => max_list_with json_depth l
     | JObj m => max_list_with (fun kv => json_depth kv.2) m
     | _ => 0 end).

Lemma max_list_with_map {A B} (f : B -> nat) (g : A -> B) l :
  max_list_with f (map g l) = max_list_with (fun x => f (g x)) l.
Proof. induction l as [|x l IH]; cbn; [done|]. by rewrite IH. Qed.
Lemma max_list_with_le {A} (f : A -> nat) l n :
  max_list_with f l <= n <-> Forall (fun x => f x <= n) l.
Proof.
  induction l as [|x l IH]; cbn; [split; [constructor|lia]|].
  rewrite Forall_cons, <- IH. lia.
Qed.
Lemma json_size_children j : json_size j = S (sum_list_with json_size (json_children j)).
Proof. destruct j; cbn; try done. by rewrite sum_list_with_map. Qed.
Lemma json_depth_children j : json_depth j = S (max_list_with json_depth (json_children j)).
Proof. destruct j; cbn; try done. by rewrite max_list_with_map. Qed.

Definition pending_size {A} (pending : list (json * A)) : nat :=
  sum_list_with (fun p => json_size p.1) pending.
Lemma pending_pop (pending : list (json * nat)) node d d' : last pending = Some (node, d) ->
  pending_size pending =
    S (pending_size (removelast pending ++ map (fun c => (c, d')) (json_children node))).
Proof.
  intros Hl%last_snoc_eq. rewrite Hl at 1. unfold pending_size.
  rewrite !sum_list_with_app, sum_list_with_map. cbn [sum_list_with fst].
  change (λ x : json, json_size x) with json_size. rewrite (json_size_children node). lia.
Qed.

(** [node] at [depth] stays within [limit]. *)
Definition within (limit : nat) (p : json * nat) : Prop := p.2 + json_depth p.1 <= S limit.
Lemma within_step limit node d :
  within limit (node, d) <-> d <= limit /\ Forall (within limit) (map (fun c => (c, S d)) (json_children node)).
Proof.
  unfold within; cbn [fst snd]. rewrite json_depth_children, Forall_map.
  assert (d + S (max_list_with json_depth (json_children node)) <= S limit <->
    d <= limit /\ max_list_with json_depth (json_children node) <= limit - d) as -> by lia.
  rewrite max_list_with_le, !Forall_forall. split; intros [? H]; (split; [done|]);
    intros x Hx; specialize (H x Hx); cbn in *; lia.
Qed.
Lemma within_pop limit (pending : list (json * nat)) node d : last pending = Some (node, d) ->
  Forall (within limit) pending <-> d <= limit /\
    Forall (within limit) (removelast pending ++ map (fun c => (c, S d)) (json_children node)).
Proof.
  intros Hl%last_snoc_eq. rewrite Hl at 1. rewrite !Forall_app, Forall_singleton, within_step. tauto.
Qed.
Lemma exceeds_loop_spec fuel pending limit : pending_size pending <= fuel ->
  exceeds_loop fuel pending limit = false <-> Forall (within limit) pending.
Proof.
  revert pending. induction fuel as [|fuel IH]; intros pending Hf; cbn [exceeds_loop].
  - destruct pending as [|[j d] pending]; [split; [constructor|done]|].
    cbn in Hf. rewrite json_size_children in Hf. lia.
  - destruct (last pending) as [[node d]|] eqn:Hl.
    + rewrite (pending_pop _ _ _ (S d) Hl) in Hf. rewrite (within_pop _ _ _ _ Hl).
      rewrite orb_false_iff, IH by lia. rewrite Nat.ltb_ge. done.
    + apply last_None in Hl as ->. split; [constructor|done].
Qed.

(** The iterative depth check is the comparison with the nesting depth. *)
Lemma exceeds_depth_spec value limit : exceeds_depth value limit = (limit <? json_depth value)%nat.
Proof.
  enough (exceeds_depth value limit = false <-> json_depth value <= limit) as H.
  { destruct (Nat.ltb_spec limit (json_depth value)).
    - apply not_false_is_true. rewrite H. lia.
    - by apply H. }
  unfold exceeds_depth. rewrite exceeds_loop_spec, Forall_singleton by (cbn; lia).
  unfold within; cbn. lia.
Qed.

(** ** The shape walk *)
Lemma all_finite_children j : all_finite j = true <->
  match j with JFloat f => float_finite f | _ => true end = true /\
  Forall (fun c => all_finite c = true) (json_children j).
Proof.
  destruct j; cbn [all_finite json_children]; try (split; [by repeat constructor|naive_solver]).
  - by rewrite Forall_forall, forallb_forall; setoid_rewrite list_elem_of_In; naive_solver.
  - rewrite Forall_map, Forall_forall, forallb_forall. setoid_rewrite list_elem_of_In. naive_solver.
Qed.
Lemma shape_loop_spec fuel pending : pending_size pending <= fuel ->
  (shape_loop fuel pending = Ok () <->
     Forall (within MAX_INSTANCE_DEPTH) pending /\ Forall (fun p => all_finite p.1 = true) pending) /\
  raises_only (eq CapabilityInputSchemaError) (shape_loop fuel pending).
Proof.
  revert pending. induction fuel as [|fuel IH]; intros pending Hf; cbn [shape_loop].
  - destruct pending as [|[j d] pending]; [split; [by repeat constructor|raises]|].
    cbn in Hf. rewrite json_size_children in Hf. lia.
  - destruct (last pending) as [[node d]|] eqn:Hl.
    + rewrite (pending_pop _ _ _ (S d) Hl) in Hf. rewrite (within_pop _ _ _ _ Hl).
      destruct (IH (removelast pending ++ map (fun c => (c, S d)) (json_children node)))
        as [IH1 IH2]; [lia|]. split; [|unfold violation; raises].
      unfold violation. rewrite !raise_if_Ok, IH1, Nat.ltb_ge.
      assert (Forall (fun p => all_finite p.1 = true) pending <->
        (match node with JFloat f => float_finite f | _ => true end = true /\
         Forall (fun p => all_finite p.1 = true)
           (removelast pending ++ map (fun c => (c, S d)) (json_children node)))) as ->.
      { rewrite (last_snoc_eq _ _ Hl) at 1.
        rewrite !Forall_app, Forall_singleton, Forall_map. cbn [fst].
        rewrite all_finite_children. tauto. }
      assert ((match node with JFloat f => negb (float_finite f) | _ => false end) = false <->
        (match node with JFloat f => float_finite f | _ => true end) = true) as ->
        by (destruct node; try done; by rewrite negb_false_iff).
      tauto.
    + apply last_None in Hl as ->. split; [by repeat constructor|raises].
Qed.
Lemma check_instance_shape_spec j :
  (check_instance_shape j = Ok () <-> json_depth j <= MAX_INSTANCE_DEPTH /\ all_finite j = true) /\
  raises_only (eq CapabilityInputSchemaError) (check_instance_shape j).
Proof.
  unfold check_instance_shape.
  destruct (shape_loop_spec (json_size j) [(j, 1)]) as [H1 H2]; [cbn; lia|]. split; [|done].
  rewrite H1, !Forall_singleton. unfold within; cbn [fst snd]. split; intros [? ?]; (split; [lia|done]).
Qed.

(** ** JSON equality

    The recursive reference: objects with the same keys and equal values, arrays of
    one length with equal elements, and scalars of one kind. *)
Fixpoint json_same (first second : json) : bool :=
  match first, second with
  | JObj m, JObj n =>
      same_keys m n &&
      forallb (fun kv => match dict_get kv.1 n with
                         | Some y => json_same kv.2 y | None => false end) m
  | JList l, JList k =>
      (fix go l k := match l, k with
       | [], [] => true
       | x :: l, y :: k => json_same x y && go l k
       | _, _ => false end) l k
  | _, _ => scalars_equal first second
  end.

Definition pairs_same (pending : list (json * json)) : bool :=
  forallb (fun p => json_same p.1 p.2) pending.
Lemma json_same_list l k :
  json_same (JList l) (JList k) = Nat.eqb (length l) (length k) && pairs_same (zip l k).
Proof.
  cbn. revert k. induction l as [|x l IH]; intros [|y k]; cbn; try done.
  rewrite IH. unfold pairs_same. destruct (Nat.eqb _ _), (json_same x y); done.
Qed.
Lemma same_keys_get {V W} (m : list (string * V)) (n : list (string * W)) k v :
  same_keys m n = true -> (k, v) ∈ m -> exists w, dict_get k n = Some w.
Proof.
  unfold same_keys. rewrite andb_true_iff, forallb_forall. intros [H _] Hin.
  specialize (H k). unfold has_key in H. destruct (dict_get k n); [by eexists|].
  discriminate H. apply list_elem_of_In, list_elem_of_fmap. by exists (k, v).
Qed.
Lemma forallb_map_ext {A B} (f : A -> bool) (g : B -> bool) (h : A -> B) l :
  (forall x, x ∈ l -> f x = g (h x)) -> forallb f l = forallb g (map h l).
Proof.
  induction l as [|x l IH]; intros H; cbn; [done|]. rewrite (H x) by set_solver.
  f_equal. apply IH. set_solver.
Qed.
(** One step of the walk is one unfolding of the reference. *)
Lemma equal_step_spec first second : json_same first second =
  match equal_step first second with Some more => pairs_same more | None => false end.
Proof.
  destruct first as [| | | | |l|m], second as [| | | | |k|n]; cbn [json_same equal_step];
    try (by destruct (scalars_equal _ _)).
  - change (json_same (JList l) (JList k) = match
      (if Nat.eqb (length l) (length k) then Some (zip l k) else None) with
      | Some more => pairs_same more | None => false end).
    rewrite json_same_list. by destruct (Nat.eqb _ _).
  - destruct (same_keys m n) eqn:Hk; [|done]. cbn [andb]. unfold pairs_same.
    apply forallb_map_ext. intros [x v] Hin. cbn [fst snd].
    by destruct (same_keys_get m n x v Hk Hin) as [w ->].
Qed.
Lemma equal_step_size first second more : equal_step first second = Some more ->
  json_size first = S (pending_size more).
Proof.
  assert (Hscalar : forall a b, equal_step a b = (if scalars_equal a b then Some [] else None) ->
    json_children a = [] -> equal_step a b = Some more -> json_size a = S (pending_size more)).
  { intros a b -> Hc. rewrite json_size_children, Hc. case_match; [|done]. by intros [= <-]. }
  destruct first as [| | | | |l|m], second as [| | | | |k|n];
    try (apply Hscalar; done); try done; cbn [equal_step json_size].
  - clear Hscalar. case_match eqn:Hl; [|done]. intros [= <-]. apply Nat.eqb_eq in Hl. f_equal.
    unfold pending_size. revert k Hl.
    induction l as [|x l IH]; intros [|y k] Hl; cbn in *; try done. f_equal. apply IH. lia.
  - case_match; [|done]. intros [= <-]. f_equal. unfold pending_size.
    by rewrite sum_list_with_map.
Qed.
Lemma equal_loop_spec fuel pending : pending_size pending < fuel ->
  equal_loop fuel pending = pairs_same pending.
Proof.
  revert pending. induction fuel as [|fuel IH]; intros pending Hf; [lia|]. cbn [equal_loop].
  destruct (last pending) as [[a b]|] eqn:Hl; [|by apply last_None in Hl as ->].
  apply last_snoc_eq in Hl. unfold pairs_same, pending_size in *. rewrite Hl, sum_list_with_app in Hf.
  assert (forallb (fun p => json_same p.1 p.2) pending =
    forallb (fun p => json_same p.1 p.2) (removelast pending) && json_same a b) as ->.
  { rewrite Hl at 1. rewrite forallb_app. cbn. by rewrite andb_true_r. }
  cbn in Hf. clear Hl.
  rewrite equal_step_spec. destruct (equal_step a b) as [more|] eqn:Hs; [|by rewrite andb_false_r].
  apply equal_step_size in Hs. rewrite IH.
  - by rewrite forallb_app.
  - rewrite sum_list_with_app. unfold pending_size in Hs. lia.
Qed.
(** The iterative comparison is the recursive one. *)
Lemma json_equal_spec a b : json_equal a b = json_same a b.
Proof.
  unfold json_equal. rewrite equal_loop_spec by (unfold pending_size; cbn; lia).
  unfold pairs_same. cbn. by rewrite andb_true_r.
Qed.

#[local] Arguments json_equal : simpl never.
#[local] Arguments json_same : simpl never.

(** ** Checked schemas *)
Notation refuses_with e := (raises_only (eq e)) (only parsing).

Lemma bad_schema_Ok b : bad_schema b = Ok () <-> b = false.
Proof. by destruct b. Qed.
Lemma violation_Ok b : violation b = Ok () <-> b = false.
Proof. by destruct b. Qed.

(** What acceptance of a node guarantees the validator. *)
Record checked_node (b : nat) (m : list (string * json)) : Prop := {
  cn_properties : forall k c, (k, c) ∈ declared_properties m -> check_node b c = Ok ();
  cn_items : forall c, dict_get "items" m = Some c -> check_node b c = Ok ();
  cn_required : forall l, get_value "required" m = Some (JList l) -> forallb is_str l = true;
}.
Lemma get_value_dict k m v : get_value k m = Some v -> dict_get k m = Some v.
Proof. unfold get_value. destruct (dict_get k m) as [[]|]; congruence. Qed.
Lemma check_node_inv b node : check_node b node = Ok () ->
  exists b' m, b = S b' /\ node = JObj m /\ checked_node b' m.
Proof.
  destruct b as [|b]; [done|]. destruct node as [| | | | | |m]; cbn [check_node]; try done.
  intros H. exists b, m. split_and!; [done..|].
  apply bind_Ok in H as ([] & _ & H). apply bind_Ok in H as ([] & _ & H).
  apply bind_Ok in H as ([] & Hs & _). unfold check_structure in Hs.
  apply bind_Ok in Hs as ([] & Hp & Hs). apply bind_Ok in Hs as ([] & Hi & Hs).
  apply bind_Ok in Hs as ([] & Hr & _). split.
  - intros k c. unfold declared_properties. destruct (get_value "properties" m) as [[]|];
      try by intros ?%not_elem_of_nil.
    apply each_result_Ok in Hp. rewrite Forall_forall in Hp. intros Hin. by apply (Hp (k, c)).
  - intros c Hc. by rewrite Hc in Hi.
  - intros l Hl. rewrite Hl in Hr. by apply bad_schema_Ok, negb_false_iff in Hr.
Qed.
Lemma check_structure_refuses check node :
  (forall j, refuses_with CapabilityManifestError (check j)) ->
  refuses_with CapabilityManifestError (check_structure check node).
Proof.
  intros Hc. unfold check_structure, bad_schema.
  apply raises_only_bind; [|intros []; apply raises_only_bind; [|intros []]].
  - destruct (get_value "properties" node) as [[]|]; raises.
    apply raises_only_each, Forall_forall. intros kv _. apply Hc.
  - destruct (dict_get "items" node); cbn; [apply Hc|raises].
  - raises.
Qed.
Lemma check_node_refuses b node : refuses_with CapabilityManifestError (check_node b node).
Proof.
  revert node. induction b as [|b IH]; intros node; cbn [check_node]; [raises|].
  destruct node; raises; unfold bad_schema, check_type, check_bounds; raises.
  by apply check_structure_refuses.
Qed.

(** ** Conformance

    What the documented keywords require of an instance, without any depth budget. *)
Definition type_ok (s : list (string * json)) (i : json) : Prop :=
  from_option (fun d => exists name, JStr name ∈ declared_names d /\ type_matches name i = true)
    True (get_value "type" s).
Definition const_ok (s : list (string * json)) (i : json) : Prop :=
  from_option (fun c => json_same c i = true) True (dict_get "const" s).
Definition enum_ok (s : list (string * json)) (i : json) : Prop :=
  forall l, get_value "enum" s = Some (JList l) -> exists o, o ∈ l /\ json_same o i = true.
Definition length_ok (least most : string) (s : list (string * json)) (n : Z) : Prop :=
  (forall b, length_bound least s = Some b -> b <= n)%Z /\
  (forall b, length_bound most s = Some b -> n <= b)%Z.
Definition object_ok (s m : list (string * json)) : Prop :=
  (forall l name, get_value "required" s = Some (JList l) -> JStr name ∈ l -> name ∈ m.*1) /\
  (dict_get "additionalProperties" s = Some (JBool false) ->
     forall k, k ∈ m.*1 -> k ∈ (declared_properties s).*1).
Definition bounds_ok (s : list (string * json)) (i : json) : Prop :=
  match i with
  | JStr t => length_ok "minLength" "maxLength" s (py_len t)
  | JList l => length_ok "minItems" "maxItems" s (Z.of_nat (length l))
  | JObj m => object_ok s m
  | JInt _ | JFloat _ =>
      (forall b, get_value "minimum" s = Some b -> is_number b && num_ltb i b = false) /\
      (forall b, get_value "maximum" s = Some b -> is_number b && num_ltb b i = false)
  | _ => True
  end.
Inductive conforms : list (string * json) -> json -> Prop :=
| conforms_intro s i :
    type_ok s i -> const_ok s i -> enum_ok s i -> bounds_ok s i ->
    (forall m k c v, i = JObj m -> (k, JObj c) ∈ declared_properties s ->
       dict_get k m = Some v -> conforms c v) ->
    (forall l x c, i = JList l -> get_value "items" s = Some (JObj c) -> x ∈ l -> conforms c x) ->
    conforms s i.

Lemma validate_type_Ok s i : validate_type (get_value "type" s) i = Ok () <-> type_ok s i.
Proof.
  unfold validate_type, type_ok. destruct (get_value "type" s) as [d|]; cbn; [|done].
  rewrite violation_Ok, negb_false_iff, existsb_exists. split.
  - intros (n & Hin%list_elem_of_In & Hn). destruct n; try done. by exists s0.
  - intros (name & Hin & Hn). exists (JStr name). split; [by apply list_elem_of_In|done].
Qed.
Lemma const_Ok s i : violation (from_option (fun c => negb (json_equal c i)) false
    (dict_get "const" s)) = Ok () <-> const_ok s i.
Proof.
  unfold const_ok. rewrite violation_Ok. destruct (dict_get "const" s); cbn; [|done].
  by rewrite json_equal_spec, negb_false_iff.
Qed.
Lemma enum_Ok s i : violation (match get_value "enum" s with
    | Some (JList options) => negb (existsb (fun o => json_equal o i) options)
    | _ => false end) = Ok () <-> enum_ok s i.
Proof.
  unfold enum_ok. rewrite violation_Ok.
  destruct (get_value "enum" s) as [[| | | | |l|]|]; try (split; [congruence|done]).
  rewrite negb_false_iff, existsb_exists. split.
  - intros (o & Ho%list_elem_of_In & He) ? [= <-]. cbn in He. rewrite json_equal_spec in He.
    by exists o.
  - intros H. destruct (H l eq_refl) as (o & Ho%list_elem_of_In & He). exists o.
    split; [done|]. cbn. by rewrite json_equal_spec.
Qed.
Lemma below_false n ob : below n ob = false <-> (forall b, ob = Some b -> b <= n)%Z.
Proof.
  destruct ob; cbn; [rewrite Z.ltb_ge|done]. split; [by intros ? ? [= <-]|]. intros H. by apply H.
Qed.
Lemma above_false n ob : above n ob = false <-> (forall b, ob = Some b -> n <= b)%Z.
Proof.
  destruct ob; cbn; [rewrite Z.ltb_ge|done]. split; [by intros ? ? [= <-]|]. intros H. by apply H.
Qed.
Lemma violations_Ok b (k : result ()) :
  (_ ← violation b; k) = Ok () <-> b = false /\ k = Ok ().
Proof. apply raise_if_Ok. Qed.
Lemma length_Ok least most s n (k : result ()) :
  (_ ← violation (below n (length_bound least s));
   _ ← violation (above n (length_bound most s)); k) = Ok () <->
  length_ok least most s n /\ k = Ok ().
Proof. rewrite !violations_Ok, below_false, above_false. unfold length_ok. tauto. Qed.
Lemma validate_string_Ok s t :
  validate_string s t = Ok () <-> length_ok "minLength" "maxLength" s (py_len t).
Proof.
  unfold validate_string. rewrite violations_Ok, violation_Ok, below_false, above_false. done.
Qed.
Lemma validate_number_Ok s i :
  validate_number s i = Ok () <->
  (forall b, get_value "minimum" s = Some b -> is_number b && num_ltb i b = false) /\
  (forall b, get_value "maximum" s = Some b -> is_number b && num_ltb b i = false).
Proof.
  unfold validate_number. rewrite violations_Ok, violation_Ok.
  destruct (get_value "minimum" s), (get_value "maximum" s); cbn; naive_solver.
Qed.
Lemma name_missing_str m n : name_missing m (JStr n) = Ok (bool_decide (n ∉ m.*1)).
Proof.
  cbn. unfold has_key. destruct (dict_get n m) eqn:E.
  - apply dict_get_key in E. by rewrite bool_decide_eq_false_2 by tauto.
  - apply dict_get_None in E. by rewrite bool_decide_eq_true_2.
Qed.
(** The required names and the closed-object rule. *)
Lemma object_Ok b s m (k : result ()) : checked_node b s ->
  (_ ← each_result (fun name => missing ← name_missing m name; violation missing)
         (match get_value "required" s with Some (JList l) => l | _ => [] end);
   _ ← violation (match dict_get "additionalProperties" s with
                  | Some (JBool false) =>
                      existsb (fun k => negb (has_key k (declared_properties s))) (map fst m)
                  | _ => false end); k) = Ok () <-> object_ok s m /\ k = Ok ().
Proof.
  intros Hc. unfold object_ok. rewrite bind_unit_Ok, violations_Ok, each_result_Ok.
  assert (Hreq : Forall (fun name => (missing ← name_missing m name; violation missing) = Ok ())
      (match get_value "required" s with Some (JList l) => l | _ => [] end) <->
    (forall l name, get_value "required" s = Some (JList l) -> JStr name ∈ l -> name ∈ m.*1)).
  { destruct (get_value "required" s) as [[| | | | |l|]|] eqn:E;
      try (split; [congruence|by constructor]).
    pose proof (cn_required _ _ Hc l E) as Hs. rewrite Forall_forall. split.
    - intros H ? n [= <-] Hn. specialize (H _ Hn). rewrite name_missing_str in H.
      apply violation_Ok, bool_decide_eq_false in H. by destruct (decide (n ∈ m.*1)).
    - intros H j Hj. rewrite forallb_forall in Hs.
      pose proof (Hs j (proj1 (list_elem_of_In _ _) Hj)). destruct j; try done.
      rewrite name_missing_str. apply violation_Ok, bool_decide_eq_false. intros Hn. by eapply Hn, H. }
  assert (Hadd : (match dict_get "additionalProperties" s with
      | Some (JBool false) =>
          existsb (fun k => negb (has_key k (declared_properties s))) (map fst m)
      | _ => false end) = false <->
    (dict_get "additionalProperties" s = Some (JBool false) ->
       forall k, k ∈ m.*1 -> k ∈ (declared_properties s).*1)).
  { destruct (dict_get "additionalProperties" s) as [[|[]| | | | |]|]; try (split; congruence).
    rewrite <- not_true_iff_false, existsb_exists. split.
    - intros H _ x Hx. unfold has_key in H. destruct (dict_get x (declared_properties s)) eqn:E.
      { by apply dict_get_key in E. }
      destruct H. exists x. rewrite E. split; [by apply list_elem_of_In|done].
    - intros H (x & Hx%list_elem_of_In & Hn). specialize (H eq_refl x Hx). unfold has_key in Hn.
      destruct (dict_get x (declared_properties s)) eqn:E; [done|]. by apply dict_get_None in E. }
  rewrite Hreq, Hadd. tauto.
Qed.

(** ** Validation *)
Section Step.
Variables (b budget : nat) (s : list (string * json)).
Hypothesis Hc : checked_node b s.
Hypothesis IH : forall c i, check_node b (JObj c) = Ok () ->
  (validate budget c i = Ok () <-> conforms c i) /\
  refuses_with CapabilityInputSchemaError (validate budget c i).

Lemma checked_child k c : (k, c) ∈ declared_properties s -> exists m, c = JObj m /\
  check_node b (JObj m) = Ok ().
Proof.
  intros Hin%(cn_properties _ _ Hc). destruct (check_node_inv _ _ Hin) as (b' & m & _ & -> & _).
  by exists m.
Qed.
Lemma checked_items c : get_value "items" s = Some c -> exists m, c = JObj m /\
  check_node b (JObj m) = Ok ().
Proof.
  intros Hin%get_value_dict%(cn_items _ _ Hc).
  destruct (check_node_inv _ _ Hin) as (b' & m & _ & -> & _). by exists m.
Qed.
Lemma validate_object_Ok m :
  validate_object (validate budget) s m = Ok () <-> object_ok s m /\
    forall k c v, (k, JObj c) ∈ declared_properties s -> dict_get k m = Some v -> conforms c v.
Proof.
  unfold validate_object. rewrite (object_Ok b) by done. rewrite each_result_Ok, Forall_forall.
  apply and_iff_compat_l. split.
  - intros H k c v Hin Hv. specialize (H _ Hin). cbn in H. rewrite Hv in H.
    destruct (checked_child _ _ Hin) as (? & [= <-] & Hch). by apply IH in H.
  - intros H [k c] Hin. cbn. destruct (checked_child _ _ Hin) as (cm & -> & Hch).
    destruct (dict_get k m) as [v|] eqn:Hv; [|done]. apply IH; [done|]. by eapply H.
Qed.
Lemma validate_array_Ok l :
  validate_array (validate budget) s l = Ok () <->
    length_ok "minItems" "maxItems" s (Z.of_nat (length l)) /\
    forall c x, get_value "items" s = Some (JObj c) -> x ∈ l -> conforms c x.
Proof.
  unfold validate_array. rewrite length_Ok. apply and_iff_compat_l.
  destruct (get_value "items" s) as [c|] eqn:Hi; [|split; [congruence|done]].
  destruct (checked_items _ Hi) as (m & -> & Hch). rewrite each_result_Ok, Forall_forall. split.
  - intros H ? x [= <-] Hx. specialize (H x Hx). by apply IH in H.
  - intros H x Hx. apply IH; [done|]. by eapply H.
Qed.
Lemma validate_object_refuses m :
  refuses_with CapabilityInputSchemaError (validate_object (validate budget) s m).
Proof.
  unfold validate_object, violation.
  apply raises_only_bind; [|intros []; apply raises_only_bind; [raises|intros []]].
  - apply raises_only_each, Forall_forall. intros n Hn.
    destruct (get_value "required" s) as [[| | | | |l|]|] eqn:E; try by apply not_elem_of_nil in Hn.
    pose proof (cn_required _ _ Hc l E) as Hs. rewrite forallb_forall in Hs.
    specialize (Hs n (proj1 (list_elem_of_In _ _) Hn)). destruct n; try done. cbn. raises.
  - apply raises_only_each, Forall_forall. intros [k c] Hin. cbn.
    destruct (checked_child _ _ Hin) as (cm & -> & Hch). case_match; [by apply IH|raises].
Qed.
Lemma validate_array_refuses l :
  refuses_with CapabilityInputSchemaError (validate_array (validate budget) s l).
Proof.
  unfold validate_array, violation.
  do 2 (apply raises_only_bind; [raises|intros []]).
  destruct (get_value "items" s) as [c|] eqn:Hi; [|raises].
  destruct (checked_items _ Hi) as (cm & -> & Hch).
  apply raises_only_each, Forall_forall. intros x _. by apply IH.
Qed.
Lemma conforms_inv i : conforms s i <->
  type_ok s i /\ const_ok s i /\ enum_ok s i /\ bounds_ok s i /\
  (forall m k c v, i = JObj m -> (k, JObj c) ∈ declared_properties s ->
     dict_get k m = Some v -> conforms c v) /\
  (forall l x c, i = JList l -> get_value "items" s = Some (JObj c) -> x ∈ l -> conforms c x).
Proof.
  split; [by inversion 1|]. intros (? & ? & ? & ? & ? & ?). by constructor.
Qed.
Lemma validate_step i :
  (validate (S budget) s i = Ok () <-> conforms s i) /\
  refuses_with CapabilityInputSchemaError (validate (S budget) s i).
Proof.
  split.
  - cbn [validate]. rewrite !bind_unit_Ok, validate_type_Ok, const_Ok, enum_Ok, conforms_inv.
    do 3 apply and_iff_compat_l.
    destruct i as [|v|z|f|t|l|m]; cbn [bounds_ok]; rewrite ?validate_string_Ok,
      ?validate_number_Ok, ?validate_array_Ok, ?validate_object_Ok; try (split; naive_solver).
  - cbn [validate]. unfold validate_type, validate_string, validate_number, violation.
    do 3 (apply raises_only_bind; [raises|intros []]).
    destruct i; [raises..|apply validate_array_refuses|apply validate_object_refuses].
Qed.
End Step.

(** A checked schema is validated against exactly, and every refusal is a violation:
    the depth budget of the validator is never what refuses. *)
Lemma validate_exact b budget s i : check_node b (JObj s) = Ok () -> b <= budget ->
  (validate budget s i = Ok () <-> conforms s i) /\
  refuses_with CapabilityInputSchemaError (validate budget s i).
Proof.
  revert budget s i. induction b as [|b IH]; intros budget s i Hs Hb; [done|].
  destruct budget as [|budget]; [lia|].
  apply check_node_inv in Hs as (b' & m & [= <-] & [= <-] & Hc).
  apply (validate_step b); [done|]. intros c j Hch. apply IH; [done|lia].
Qed.

Section Claim.
Context `{rt : PyRuntime}.

Lemma bounded_size_Ok j limit e : bounded_size j limit e = Ok () <->
  exists size, dumps_size j = Ok size /\ (size <= limit)%Z.
Proof.
  unfold bounded_size. destruct (dumps_size j) as [n|]; [|split; [done|by intros (? & ? & _)]].
  split; [intros Hn; exists n; split; [done|]; destruct (Z.ltb_spec limit n); [done|lia]|].
  intros (? & [= <-] & Hn). by rewrite (proj2 (Z.ltb_ge _ _)).
Qed.
Lemma bounded_size_refuses j limit e : refuses_with e (bounded_size j limit e).
Proof. unfold bounded_size. destruct (dumps_size j); [apply raises_only_if; done|]. intros e' [= <-]. done. Qed.

(** C38: for a schema that [check_schema] accepts, [validate_instance] accepts exactly
    the instances that nest at most sixteen deep, hold no infinity or NaN and no integer of
    more than 4300 digits, encode in at most 64 KiB and conform to the schema's keywords at every level, and refuses every
    other one with an input-schema error and nothing else; and [check_schema] itself
    only ever refuses with a manifest error. *)
Theorem validate_instance_exact (schema : list (string * json)) (instance : json)
    (Hs : check_schema (JObj schema) = Ok ()) :
  (validate_instance schema instance = Ok () <->
     json_depth instance <= MAX_INSTANCE_DEPTH /\ all_finite instance = true /\
     (exists size, dumps_size instance = Ok size /\ (size <= MAX_INSTANCE_BYTES)%Z) /\ conforms schema instance) /\
  refuses_with CapabilityInputSchemaError (validate_instance schema instance) /\
  forall j, refuses_with CapabilityManifestError (check_schema j).
Proof.
  assert (Hn : check_node MAX_SCHEMA_DEPTH (JObj schema) = Ok ()).
  { unfold check_schema in Hs. rewrite !bind_unit_Ok in Hs. tauto. }
  destruct (validate_exact _ MAX_INSTANCE_DEPTH _ instance Hn) as [Hv Hr];
    [unfold MAX_SCHEMA_DEPTH, MAX_INSTANCE_DEPTH; lia|].
  destruct (check_instance_shape_spec instance) as [Hsh Hshr]. split_and!.
  - unfold validate_instance. rewrite !bind_unit_Ok, bounded_size_Ok, Hsh, Hv. tauto.
  - unfold validate_instance. apply raises_only_bind; [done|intros _].
    apply raises_only_bind; [apply bounded_size_refuses|intros _]. done.
  - intros j. unfold check_schema, bad_schema. do 2 (apply raises_only_bind; [by apply raises_only_if|intros _]).
    apply raises_only_bind; [apply bounded_size_refuses|intros _]. apply check_node_refuses.
Qed.
End Claim.

(** ** A concrete schema *)
Module Demo.
#[local] Existing Instance toy_runtime.
Definition schema : list (string * json) :=
  [("type", JStr "object"); ("required", JList [JStr "title"]);
   ("additionalProperties", JBool false);
   ("properties", JObj [
      ("title", JObj [("type", JStr "string"); ("minLength", JInt 1)]);
      ("count", JObj [("type", JStr "integer"); ("maximum", JInt 5)])])].
Definition instance (count : Z) : json := JObj [("title", JStr "adr"); ("count", JInt count)].

Lemma validate_instance_exact_witness :
  conforms schema (instance 5) /\ ~ conforms schema (instance 6).
Proof.
  assert (Hs : check_schema (JObj schema) = Ok ()) by (vm_compute; reflexivity).
  split.
  - apply (validate_instance_exact schema (instance 5) Hs). vm_compute. reflexivity.
  - intros H. assert (Hv : validate_instance schema (instance 6) = Ok ()).
    + apply (validate_instance_exact schema (instance 6) Hs). split_and!; [|done| |done].
      * apply Nat.leb_le. vm_compute. reflexivity.
      * eexists. split; [vm_compute; reflexivity|]. apply Z.leb_le. vm_compute. reflexivity.
    + vm_compute in Hv. discriminate Hv.
Defined.
End Demo.
