(* ===== verification/Manifests.v ===== *)
(** * Package declarations ([capabilities/manifest.py], [capabilities/compatibility.py],
      [capabilities/license.py])

    A package's manifest with its strict decoder, the host receipt and the license
    classification.  [json.loads] is the interpreter's: [JsonDecoder] stands for it.
    A command's schema is kept as the value its canonical text encodes. *)
From S2P Require Import Prelude PyText Json Identity Regex Schemas.

(** ** Closed vocabularies *)
Inductive PackageKind := PK_INSTRUCTION | PK_COMMAND | PK_HOOK | PK_ADAPTER.
#[export] Instance PackageKind_eq_dec : EqDecision PackageKind.
Proof. solve_decision. Defined.
#[export] Program Instance PackageKind_enum : PyEnum PackageKind := {|
  members := [PK_INSTRUCTION; PK_COMMAND; PK_HOOK; PK_ADAPTER];
  enum_value k := match k with PK_INSTRUCTION => "instruction" | PK_COMMAND => "command"
    | PK_HOOK => "hook" | PK_ADAPTER => "adapter" end |}.
Next Obligation. solve_enum. Qed.
Next Obligation. solve_enum. Qed.

Inductive CapabilityPermission :=
| REPOSITORY_READ | REPOSITORY_WRITE | PROCESS_EXECUTE | NETWORK_ACCESS | ENVIRONMENT_READ.
#[export] Instance CapabilityPermission_eq_dec : EqDecision CapabilityPermission.
Proof. solve_decision. Defined.
#[export] Program Instance CapabilityPermission_enum : PyEnum CapabilityPermission := {|
  members := [REPOSITORY_READ; REPOSITORY_WRITE; PROCESS_EXECUTE; NETWORK_ACCESS;
    ENVIRONMENT_READ];
  enum_value p := match p with REPOSITORY_READ => "repository.read"
    | REPOSITORY_WRITE => "repository.write" | PROCESS_EXECUTE => "process.execute"
    | NETWORK_ACCESS => "network.access" | ENVIRONMENT_READ => "environment.read" end |}.
Next Obligation. solve_enum. Qed.
Next Obligation. solve_enum. Qed.

(** ** Names and versions *)
Definition is_name_char (c : Ascii.ascii) : bool := is_alnum c || is_one_of "._-" c.
Definition is_version_char (c : Ascii.ascii) : bool := is_alnum c || is_one_of "._+-" c.
Definition NAME_PATTERN : regex :=
  RSeq (RRep is_alnum 1 (Some 1)) (RRep is_name_char 0 (Some 127)).
Definition VERSION_TEXT_PATTERN : regex :=
  RSeq (RRep is_alnum 1 (Some 1)) (RRep is_version_char 0 (Some 63)).
Definition PLATFORM_PATTERN : regex :=
  RRep (fun c => is_lower c || is_digit c || is_one_of "_-" c) 1 (Some 32).
Definition validate_name (name : string) : result string :=
  raise_when negb (regex_fullmatch NAME_PATTERN name) as InvalidInputError ;; Ok name.
Definition validate_version (version : string) : result string :=
  raise_when negb (regex_fullmatch VERSION_TEXT_PATTERN version) as InvalidInputError ;;
  Ok version.

(** [tuple(sorted(set(items)))] of texts *)
Definition sorted_set (l : list string) : list string := merge_sort String.le (remove_dups l).

(** ** [DependencyPin] *)
Record DependencyPin := { pin_name : string; pin_version : string; pin_digest : Digest }.
#[export] Instance DependencyPin_eq_dec : EqDecision DependencyPin.
Proof. solve_decision. Defined.
Definition pin_post_init (p : DependencyPin) : result DependencyPin :=
  _ ← validate_name (pin_name p); _ ← validate_version (pin_version p); Ok p.
Definition pin_to_json (p : DependencyPin) : json :=
  JObj [("name", JStr (pin_name p)); ("version", JStr (pin_version p));
        ("closure_digest", JStr (digest_str (pin_digest p)))].
(** [sorted(pins, key=lambda pin: pin.name)] *)
Definition pin_le (p q : DependencyPin) : Prop := String.le (pin_name p) (pin_name q).
#[export] Instance pin_le_dec p q : Decision (pin_le p q).
Proof. unfold pin_le. apply _. Defined.
Definition sorted_pins (l : list DependencyPin) : list DependencyPin := py_sort pin_le l.

(** ** [PackageCompatibility] *)
Record PackageCompatibility := {
  adapter_api_min : Z; adapter_api_max : option Z; platforms : list string }.
#[export] Instance PackageCompatibility_eq_dec : EqDecision PackageCompatibility.
Proof. solve_decision. Defined.
Definition compatibility_post_init (c : PackageCompatibility) : result PackageCompatibility :=
  raise_when (adapter_api_min c <? 1)%Z as InvalidInputError ;;
  raise_when from_option (fun m => m <? adapter_api_min c)%Z false (adapter_api_max c)
    as InvalidInputError ;;
  raise_when existsb (fun p => negb (regex_fullmatch PLATFORM_PATTERN p)) (platforms c)
    as InvalidInputError ;;
  Ok {| adapter_api_min := adapter_api_min c; adapter_api_max := adapter_api_max c;
        platforms := sorted_set (platforms c) |}.
Definition default_compatibility : PackageCompatibility :=
  {| adapter_api_min := 1; adapter_api_max := None; platforms := [] |}.
Definition compatibility_to_json (c : PackageCompatibility) : json :=
  JObj [("adapter_api_min", JInt (adapter_api_min c));
        ("adapter_api_max", from_option JInt JNull (adapter_api_max c));
        ("platforms", JList (map JStr (platforms c)))].
(** [set(data) - keys] is not empty *)
Definition unknown_keys (keys : list string) (data : list (string * json)) : bool :=
  existsb (fun k => negb (bool_decide (k ∈ keys))) (map fst data).
Definition json_str (e : exn) (j : json) : result string :=
  match j with JStr s => Ok s | _ => Err e end.
Definition compatibility_from_json (data : json) : result PackageCompatibility :=
  match data with
  | JObj m =>
      raise_when unknown_keys ["adapter_api_min"; "adapter_api_max"; "platforms"] m
        as InvalidInputError ;;
      minimum ← (match default (JInt 1) (dict_get "adapter_api_min" m) with
                 | JInt z => Ok z | _ => Err InvalidInputError end);
      maximum ← (match get_value "adapter_api_max" m with
                 | None => Ok None | Some (JInt z) => Ok (Some z)
                 | Some _ => Err InvalidInputError end);
      names ← (match default (JList []) (dict_get "platforms" m) with
               | JList l => mapM_result (json_str InvalidInputError) l
               | _ => Err InvalidInputError end);
      compatibility_post_init {|
        adapter_api_min := minimum; adapter_api_max := maximum; platforms := names |}
  | _ => Err InvalidInputError
  end.

(** ** [CommandSpec] *)
Definition RUNNER_INTERPRETERS : list string := ["python3"; "sh"; "bash"; "node"].
Definition DEFAULT_COMMAND_TIMEOUT_SECONDS : Z := 10.
Definition MAX_COMMAND_TIMEOUT_SECONDS : Z := 300.
Definition DEFAULT_MAX_OUTPUT_BYTES : Z := 64 * 1024.
Definition MAX_OUTPUT_BYTES_LIMIT : Z := 1024 * 1024.
Definition MAX_ARGV_ITEMS : nat := 32.
Definition MAX_ARGV_ITEM_LENGTH : Z := 256.

Record CommandSpec := {
  cs_argv : list string; cs_input_schema : json;
  cs_timeout_seconds : Z; cs_max_output_bytes : Z }.
(** [text.endswith(suffix)] *)
Definition py_endswith (suffix s : string) : bool :=
  bool_decide (chars suffix `suffix_of` chars s).
(** [interpreter], [script]; an empty vector raises an [IndexError]. *)
Definition cs_interpreter (c : CommandSpec) : result (option string) :=
  a0 ← from_option_err PyIndexError (head (cs_argv c));
  Ok (if bool_decide (a0 ∈ RUNNER_INTERPRETERS) then Some a0 else None).
Definition cs_script (c : CommandSpec) : result string :=
  interpreter ← cs_interpreter c;
  match interpreter with
  | None => from_option_err PyIndexError (head (cs_argv c))
  | Some _ => from_option_err InvalidInputError (cs_argv c !! 1)
  end.
Definition bad_argv_item (part : string) : bool :=
  blank part || bool_decide (chr 0 ∈ chars part) || (MAX_ARGV_ITEM_LENGTH <? py_len part)%Z.

Section Commands.
Context `{rt : PyRuntime}.

Definition command_post_init (c : CommandSpec) : result CommandSpec :=
  raise_when bool_decide (cs_argv c = []) || (MAX_ARGV_ITEMS <? length (cs_argv c))%nat
    as InvalidInputError ;;
  raise_when existsb bad_argv_item (cs_argv c) as InvalidInputError ;;
  raise_when negb ((1 <=? cs_timeout_seconds c) &&
                   (cs_timeout_seconds c <=? MAX_COMMAND_TIMEOUT_SECONDS))%Z
    as InvalidInputError ;;
  raise_when negb ((1 <=? cs_max_output_bytes c) &&
                   (cs_max_output_bytes c <=? MAX_OUTPUT_BYTES_LIMIT))%Z
    as InvalidInputError ;;
  interpreter ← cs_interpreter c;
  a0 ← from_option_err PyIndexError (head (cs_argv c));
  raise_when bool_decide (interpreter = None) && negb (py_endswith ".sh" a0)
    as InvalidInputError ;;
  raise_when match cs_input_schema c with JObj _ => false | _ => true end
    as InvalidInputError ;;
  _ ← check_schema (cs_input_schema c);
  Ok c.
(** [CommandSpec.create] *)
Definition command_create (argv : list string) (input_schema : list (string * json))
    (timeout_seconds max_output_bytes : Z) : result CommandSpec :=
  command_post_init {|
    cs_argv := argv; cs_input_schema := canon (JObj input_schema);
    cs_timeout_seconds := timeout_seconds; cs_max_output_bytes := max_output_bytes |}.
Definition command_to_json (c : CommandSpec) : json :=
  JObj [("argv", JList (map JStr (cs_argv c))); ("input_schema", cs_input_schema c);
        ("timeout_seconds", JInt (cs_timeout_seconds c));
        ("max_output_bytes", JInt (cs_max_output_bytes c))].
(** [_command] *)
Definition command_from_json (item : json) : result CommandSpec :=
  match item with
  | JObj m =>
      raise_when unknown_keys ["argv"; "input_schema"; "timeout_seconds"; "max_output_bytes"] m
        as InvalidInputError ;;
      argv ← (match dict_get "argv" m with
              | Some (JList l) => mapM_result (json_str InvalidInputError) l
              | _ => Err InvalidInputError end);
      schema ← (match dict_get "input_schema" m with
                | Some (JObj s) => Ok s | _ => Err InvalidInputError end);
      timeout ← (match default (JInt DEFAULT_COMMAND_TIMEOUT_SECONDS)
                         (dict_get "timeout_seconds" m) with
                 | JInt z => Ok z | _ => Err InvalidInputError end);
      limit ← (match default (JInt DEFAULT_MAX_OUTPUT_BYTES) (dict_get "max_output_bytes" m) with
               | JInt z => Ok z | _ => Err InvalidInputError end);
      command_create argv schema timeout limit
  | _ => Err InvalidInputError
  end.

(** ** [PackageManifest] *)
Definition MANIFEST_SCHEMA_VERSION : Z := 1.
Definition TOP_LEVEL_KEYS : list string :=
  ["schema_version"; "name"; "version"; "kind"; "license"; "dependencies"; "permissions";
   "compatibility"; "command"].
Record PackageManifest := {
  mf_name : string; mf_version : string; mf_kind : PackageKind; mf_license : option string;
  mf_dependencies : list DependencyPin; mf_permissions : list CapabilityPermission;
  mf_compatibility : PackageCompatibility; mf_command : option CommandSpec }.

(** [tuple(sorted(set(permissions)))]: text order of the values. *)
Definition permission_le (p q : CapabilityPermission) : Prop :=
  String.le (enum_value p) (enum_value q).
#[export] Instance permission_le_dec p q : Decision (permission_le p q).
Proof. unfold permission_le. apply _. Defined.
Definition sorted_permissions (l : list CapabilityPermission) : list CapabilityPermission :=
  merge_sort permission_le (remove_dups l).
Definition runnable (k : PackageKind) : bool :=
  match k with PK_COMMAND | PK_HOOK => true | _ => false end.
Definition manifest_post_init (m : PackageManifest) : result PackageManifest :=
  _ ← validate_name (mf_name m); _ ← validate_version (mf_version m);
  raise_when from_option blank false (mf_license m) as InvalidInputError ;;
  let names := map pin_name (mf_dependencies m) in
  raise_when negb (bool_decide (NoDup names)) as InvalidInputError ;;
  raise_when bool_decide (mf_name m ∈ names) as InvalidInputError ;;
  let permissions := sorted_permissions (mf_permissions m) in
  let has_command := match mf_command m with Some _ => true | None => false end in
  raise_when runnable (mf_kind m) && negb has_command as InvalidInputError ;;
  raise_when negb (runnable (mf_kind m)) && has_command as InvalidInputError ;;
  raise_when has_command && negb (bool_decide (PROCESS_EXECUTE ∈ permissions))
    as InvalidInputError ;;
  Ok {| mf_name := mf_name m; mf_version := mf_version m; mf_kind := mf_kind m;
        mf_license := mf_license m; mf_dependencies := sorted_pins (mf_dependencies m);
        mf_permissions := permissions; mf_compatibility := mf_compatibility m;
        mf_command := mf_command m |}.
Definition manifest_to_json (m : PackageManifest) : list (string * json) :=
  [("schema_version", JInt MANIFEST_SCHEMA_VERSION); ("name", JStr (mf_name m));
   ("version", JStr (mf_version m)); ("kind", JStr (enum_value (mf_kind m)));
   ("dependencies", JList (map pin_to_json (mf_dependencies m)));
   ("permissions", JList (map (fun p => JStr (enum_value p)) (mf_permissions m)));
   ("compatibility", compatibility_to_json (mf_compatibility m))] ++
  from_option (fun l => [("license", JStr l)]) [] (mf_license m) ++
  from_option (fun c => [("command", command_to_json c)]) [] (mf_command m).

(** [_text], [_item_text], [_list] *)
Definition manifest_text (document : list (string * json)) (key : string) : result string :=
  match dict_get key document with
  | Some (JStr s) => if blank s then Err InvalidInputError else Ok s
  | _ => Err InvalidInputError
  end.
Definition manifest_list (document : list (string * json)) (key : string) : result (list json) :=
  match default (JList []) (dict_get key document) with
  | JList l => Ok l | _ => Err InvalidInputError end.
Definition digest_from_text (raw : string) : result Digest := digest_of_str raw.
(** [_pin] *)
Definition pin_from_json (item : json) : result DependencyPin :=
  match item with
  | JObj m =>
      raise_when unknown_keys ["name"; "version"; "closure_digest"] m as InvalidInputError ;;
      name ← manifest_text m "name"; version ← manifest_text m "version";
      text ← manifest_text m "closure_digest"; digest ← digest_from_text text;
      pin_post_init {| pin_name := name; pin_version := version; pin_digest := digest |}
  | _ => Err InvalidInputError
  end.
Definition permission_from_json (item : json) : result CapabilityPermission :=
  s ← json_str InvalidInputError item; enum_of_value s.
(** [_manifest_from_document] *)
Definition manifest_from_document (document : list (string * json)) : result PackageManifest :=
  raise_when unknown_keys TOP_LEVEL_KEYS document as InvalidInputError ;;
  raise_when negb (match dict_get "schema_version" document with
                   | Some (JInt v) => (v =? MANIFEST_SCHEMA_VERSION)%Z | _ => false end)
    as InvalidInputError ;;
  license ← (match get_value "license" document with
             | None => Ok None | Some (JStr s) => Ok (Some s)
             | Some _ => Err InvalidInputError end);
  name ← manifest_text document "name";
  version ← manifest_text document "version";
  kind_text ← manifest_text document "kind"; kind ← enum_of_value kind_text;
  pins ← manifest_list document "dependencies"; dependencies ← mapM_result pin_from_json pins;
  items ← manifest_list document "permissions";
  permissions ← mapM_result permission_from_json items;
  compatibility ← from_option compatibility_from_json
                    (compatibility_post_init default_compatibility)
                    (dict_get "compatibility" document);
  command ← (match dict_get "command" document with
             | None => Ok None | Some c => c ← command_from_json c; Ok (Some c) end);
  manifest_post_init {|
    mf_name := name; mf_version := version; mf_kind := kind; mf_license := license;
    mf_dependencies := dependencies; mf_permissions := permissions;
    mf_compatibility := compatibility; mf_command := command |}.
(** [except (InvalidInputError, ValueError, RecursionError)] *)
Definition as_manifest_error {A} (r : result A) : result A :=
  match r with
  | Err (InvalidInputError | PyValueError) => Err CapabilityManifestError
  | r => r
  end.
End Commands.

(** [json.loads(raw.decode("utf-8"), object_pairs_hook=...)] with a hook that refuses a
    repeated key: a value whose objects have unique keys, or an exception the caller
    turns into a manifest error. *)
Class JsonDecoder := {
  json_loads_unique : list N -> option json;
  json_loads_unique_wf : forall raw j, json_loads_unique raw = Some j -> wf_json j = true;
}.
Definition parse_manifest `{PyRuntime, JsonDecoder} (raw : list N) : result PackageManifest :=
  match json_loads_unique raw with
  | Some (JObj document) => as_manifest_error (manifest_from_document document)
  | _ => Err CapabilityManifestError
  end.

(** [require_shell_shebang] *)
Definition newline_byte : N := 10.
Fixpoint first_line (content : list N) : list N :=
  match content with
  | [] => []
  | b :: content => if (b =? newline_byte)%N then [] else b :: first_line content
  end.
Definition SHELL_SHEBANGS : list string :=
  ["#!/bin/sh"; "#!/bin/bash"; "#!/usr/bin/env sh"; "#!/usr/bin/env bash"].
Definition require_shell_shebang (content : list N) : result () :=
  raise_when negb (bool_decide (first_line content ∈ map utf8 SHELL_SHEBANGS))
    as CapabilityManifestError ;; Ok ().

(** ** Host receipts ([capabilities/compatibility.py]) *)
Inductive CompatibilityStatus := COMPATIBLE | INCOMPATIBLE.
#[export] Instance CompatibilityStatus_eq_dec : EqDecision CompatibilityStatus.
Proof. solve_decision. Defined.
#[export] Program Instance CompatibilityStatus_enum : PyEnum CompatibilityStatus := {|
  members := [COMPATIBLE; INCOMPATIBLE];
  enum_value s := match s with COMPATIBLE => "compatible" | INCOMPATIBLE => "incompatible" end |}.
Next Obligation. solve_enum. Qed.
Next Obligation. solve_enum. Qed.

Record HostProfile := { host_api : Z; host_platform : string }.
Definition host_post_init (h : HostProfile) : result HostProfile :=
  raise_when (host_api h <? 1)%Z as InvalidInputError ;;
  raise_when blank (host_platform h) as InvalidInputError ;; Ok h.
Record CompatibilityReceipt := {
  rc_host_api : Z; rc_host_platform : string; rc_status : CompatibilityStatus;
  rc_reasons : list string }.
#[export] Instance CompatibilityReceipt_eq_dec : EqDecision CompatibilityReceipt.
Proof. solve_decision. Defined.
Definition receipt_post_init (r : CompatibilityReceipt) : result CompatibilityReceipt :=
  raise_when negb (Bool.eqb (bool_decide (rc_status r = COMPATIBLE))
                     (bool_decide (rc_reasons r = []))) as InvalidInputError ;;
  Ok r.
Definition receipt_to_json (r : CompatibilityReceipt) : json :=
  JObj [("host_adapter_api_version", JInt (rc_host_api r));
        ("host_platform", JStr (rc_host_platform r));
        ("status", JStr (enum_value (rc_status r)));
        ("reasons", JList (map JStr (rc_reasons r)))].
Definition receipt_from_json (data : json) : result CompatibilityReceipt :=
  match data with
  | JObj m =>
      version ← (match dict_get "host_adapter_api_version" m with
                 | Some (JInt z) => Ok z | _ => Err InvalidInputError end);
      platform ← from_option (json_str InvalidInputError) (Err InvalidInputError)
                   (dict_get "host_platform" m);
      status ← from_option (json_str InvalidInputError) (Err InvalidInputError)
                 (dict_get "status" m);
      reasons ← (match dict_get "reasons" m with
                 | Some (JList l) => mapM_result (json_str InvalidInputError) l
                 | _ => Err InvalidInputError end);
      parsed_status ← (match enum_of_value status with
                       | Err PyValueError => Err InvalidInputError | r => r end);
      receipt_post_init {|
        rc_host_api := version; rc_host_platform := platform; rc_status := parsed_status;
        rc_reasons := reasons |}
  | _ => Err InvalidInputError
  end.
Definition compatibility_reasons (declared : PackageCompatibility) (host : HostProfile)
    : list string :=
  (if (host_api host <? adapter_api_min declared)%Z
   then ["requires adapter API >= " +:+ pretty (adapter_api_min declared) +:+
         ", host provides " +:+ pretty (host_api host)] else []) ++
  (match adapter_api_max declared with
   | Some m => if (m <? host_api host)%Z
               then ["supports adapter API <= " +:+ pretty m +:+ ", host provides " +:+
                     pretty (host_api host)] else []
   | None => [] end) ++
  (if negb (bool_decide (platforms declared = [])) &&
      negb (bool_decide (host_platform host ∈ platforms declared))
   then ["supports platforms " +:+ py_join ", " (platforms declared) +:+ ", host is " +:+
         host_platform host] else []).
Definition evaluate_compatibility (declared : PackageCompatibility) (host : HostProfile)
    : result CompatibilityReceipt :=
  let reasons := compatibility_reasons declared host in
  receipt_post_init {|
    rc_host_api := host_api host; rc_host_platform := host_platform host;
    rc_status := if bool_decide (reasons = []) then COMPATIBLE else INCOMPATIBLE;
    rc_reasons := reasons |}.

(** ** License classification ([capabilities/license.py]) *)
Definition REDISTRIBUTABLE_LICENSES : list string :=
  ["0BSD"; "Apache-2.0"; "BSD-2-Clause"; "BSD-3-Clause"; "CC0-1.0"; "ISC"; "MIT"; "Unlicense";
   "Zlib"].
Definition UNKNOWN_MARKERS : list string := [""; "unknown"; "noassertion"; "none"].
Inductive LicenseDisposition := REDISTRIBUTABLE | HOLD_UNKNOWN | HOLD_NOT_ALLOWED.
#[export] Instance LicenseDisposition_eq_dec : EqDecision LicenseDisposition.
Proof. solve_decision. Defined.
Definition is_hold (d : LicenseDisposition) : bool := negb (bool_decide (d = REDISTRIBUTABLE)).
Definition classify_license (license_id : option string) : LicenseDisposition :=
  match license_id with
  | None => HOLD_UNKNOWN
  | Some l =>
      if bool_decide (py_lower (py_strip l) ∈ UNKNOWN_MARKERS) then HOLD_UNKNOWN
      else if bool_decide (py_strip l ∈ REDISTRIBUTABLE_LICENSES) then REDISTRIBUTABLE
      else HOLD_NOT_ALLOWED
  end.
