(* ===== verification/Closures.v ===== *)
(** * Package closures ([capabilities/closure.py])

    Path safety, asset classification, the canonical closure digest and the builder
    that turns an untrusted file list into a closure.  Contents are byte lists.  Over
    code points up to U+00FF, NFC is the identity, NFKC and case folding are tables
    (into code points beyond), and U+00AD is the only format character. *)
From S2P Require Import Prelude PyText Json Identity Regex Schemas Manifests.

Definition CLOSURE_SCHEMA_VERSION : Z := 1.
Definition MAX_FILE_COUNT : nat := 512.
Definition MAX_FILE_BYTES : Z := 2 * 1024 * 1024.
Definition MAX_TOTAL_BYTES : Z := 16 * 1024 * 1024.
Definition MAX_PATH_LENGTH : Z := 255.
Definition MAX_PATH_DEPTH : nat := 12.
Definition MANIFEST_FILE_NAME : string := "capability.json".

(** ** Code points *)
Definition codes (s : string) : list N := map code (chars s).
(** [unicodedata.normalize("NFKC", c)] *)
Definition nfkc_char (c : Ascii.ascii) : list N :=
  match code c with
  | 160 => [32] | 168 => [32; 776] | 170 => [97] | 175 => [32; 772] | 178 => [50] | 179 => [51]
  | 180 => [32; 769] | 181 => [956] | 184 => [32; 807] | 185 => [49] | 186 => [111]
  | 188 => [49; 8260; 52] | 189 => [49; 8260; 50] | 190 => [51; 8260; 52] | n => [n]
  end%N.
(** [str.casefold] of one code point up to U+00FF, or of one NFKC yields. *)
Definition casefold_code (n : N) : list N :=
  if ((65 <=? n) && (n <=? 90) || (192 <=? n) && (n <=? 214) || (216 <=? n) && (n <=? 222))%N
  then [n + 32]%N
  else if (n =? 181)%N then [956]%N
  else if (n =? 223)%N then [115; 115]%N
  else [n].
Definition casefold (l : list N) : list N := concat (map casefold_code l).
(** [_folded] *)
Definition folded (name : string) : list N := casefold (concat (map nfkc_char (chars name))).
Definition isascii (l : list N) : bool := forallb (fun n => n <? 128)%N l.
(** An ASCII text from its codes. *)
Definition of_codes (l : list N) : string := of_chars (map chr l).

Definition slash : Ascii.ascii := chr 47.
Definition is_slash (c : Ascii.ascii) : bool := bool_decide (c = slash).
Definition path_parts (raw : string) : list string := map of_chars (split_on is_slash (chars raw)).

(** ** Paths ([_path_problem], [normalize_path]) *)
Definition is_control (c : Ascii.ascii) : bool := ((code c <? 32) || (code c =? 127))%N.
Definition is_drive (raw : string) : bool :=
  match chars raw with a :: b :: _ => (is_upper a || is_lower a) && bool_decide (b = colon) | _ => false end.
(** [posix_absolute]: [raw.startswith("/")] *)
Definition starts_with_slash (raw : string) : bool :=
  match chars raw with c :: _ => is_slash c | [] => false end.
Definition bad_segment (part : string) : bool := bool_decide (part ∈ [""; "."; ".."]).
Definition is_format_char (c : Ascii.ascii) : bool := (code c =? 173)%N.
Definition path_problem (raw : string) : bool :=
  String.eqb raw "" || (MAX_PATH_LENGTH <? py_len raw)%Z || existsb is_control (chars raw) ||
  bool_decide (chr 92 ∈ chars raw) || starts_with_slash raw || is_drive raw ||
  (MAX_PATH_DEPTH <? length (path_parts raw))%nat || existsb bad_segment (path_parts raw) ||
  existsb is_format_char (chars raw).
Definition normalize_path (raw : string) : result string :=
  raise_when path_problem raw as CapabilityPathError ;; Ok raw.

(** ** License-like names *)
Definition LICENSE_STEMS : list string := ["license"; "licence"; "copying"; "notice"].
Definition LICENSE_WORDS : list string :=
  ["licen"; "copying"; "notice"; "unlicense"; "copyright"; "eula"; "legal"; "terms"; "patent"].
Definition TEXT_EXTENSIONS : list string := [".md"; ".txt"; ".rst"].
Definition LICENSE_SUFFIX_WORDS : list string :=
  ["mit"; "apache"; "apache2"; "bsd"; "isc"; "lesser"; "gpl"; "lgpl"; "agpl"; "mpl";
   "third"; "party"; "notices"; "thirdparty"].
Definition LICENSE_FAMILY_WORDS : regex := ralt [
  rseq [RNotBehind is_lower;
        ralt [RSeq (RRep (is_one_of "la") 0 (Some 1)) (RLit "gpl"); RLit "mpl"];
        ralt [RSeq (RRep (is_one_of "v") 0 (Some 1)) (RRep is_digit 1 (Some 1));
              RNot (RRep is_lower 1 (Some 1))]];
  RLit "copyleft"].
(** [text.partition(".")] and [text.rpartition(".")] *)
Definition dot_code : N := 46.
Fixpoint partition_at (sep : N) (l : list N) : list N * option (list N) :=
  match l with
  | [] => ([], None)
  | x :: l => if (x =? sep)%N then ([], Some l)
              else let '(a, b) := partition_at sep l in (x :: a, b)
  end.
Definition rpartition_at (sep : N) (l : list N) : option (list N * list N) :=
  match partition_at sep (reverse l) with
  | (ext, Some core) => Some (reverse core, reverse ext)
  | (_, None) => None
  end.
Definition in_codes (l : list N) (words : list string) : bool := bool_decide (l ∈ map codes words).
Definition has_slash (path : string) : bool := existsb is_slash (chars path).
Definition is_license_file_name (path : string) : bool :=
  negb (has_slash path) &&
  let '(stem, rest) := partition_at dot_code (folded path) in
  in_codes stem LICENSE_STEMS &&
  match rest with None => true | Some ext => in_codes (dot_code :: ext) TEXT_EXTENSIONS end.
(** [word in name] *)
Fixpoint contains (word name : list N) : bool :=
  bool_decide (word `prefix_of` name) ||
  match name with [] => false | _ :: name => contains word name end.
Definition is_license_like_name (path : string) : bool :=
  negb (has_slash path) &&
  let name := folded path in
  (negb (isascii name) ||
   existsb (fun word => contains (codes word) name) LICENSE_WORDS ||
   regex_search LICENSE_FAMILY_WORDS (of_codes name)).
Definition is_notice_file_name (path : string) : bool :=
  is_license_file_name path &&
  bool_decide ((partition_at dot_code (folded path)).1 = codes "notice").
(** [_license_name_shape_ok] *)
Definition is_name_separator (n : N) : bool := bool_decide (n ∈ codes ".-_").
Definition license_name_shape_ok (name : string) : bool :=
  let f := folded name in
  let core := match rpartition_at dot_code f with
              | Some (core, ext) => if in_codes (dot_code :: ext) TEXT_EXTENSIONS then core else f
              | None => f end in
  match split_on is_name_separator core with
  | first :: others =>
      (length others <=? 2)%nat &&
      bool_decide (first <> []) && forallb (fun n => (97 <=? n) && (n <=? 122))%N first &&
      forallb (fun w => in_codes w LICENSE_SUFFIX_WORDS) others
  | [] => false
  end.

(** [content.decode("utf-8")] succeeds. *)
Definition is_continuation (b : N) : bool := ((128 <=? b) && (b <=? 191))%N.
Fixpoint utf8_valid (l : list N) : bool :=
  match l with
  | [] => true
  | a :: l =>
      if (a <? 128)%N then utf8_valid l
      else if ((194 <=? a) && (a <=? 223))%N then
        match l with b :: l => is_continuation b && utf8_valid l | _ => false end
      else if ((224 <=? a) && (a <=? 239))%N then
        match l with
        | b :: c :: l =>
            is_continuation b && is_continuation c &&
            (negb (a =? 224) || (160 <=? b))%N && (negb (a =? 237) || (b <=? 159))%N &&
            utf8_valid l
        | _ => false end
      else if ((240 <=? a) && (a <=? 244))%N then
        match l with
        | b :: c :: d :: l =>
            is_continuation b && is_continuation c && is_continuation d &&
            (negb (a =? 240) || (144 <=? b))%N && (negb (a =? 244) || (b <=? 143))%N &&
            utf8_valid l
        | _ => false end
      else false
  end.

(** ** Asset kinds *)
Inductive AssetKind :=
| AK_INSTRUCTION | AK_REFERENCE | AK_SCRIPT | AK_DATA | AK_METADATA.
#[export] Instance AssetKind_eq_dec : EqDecision AssetKind.
Proof. solve_decision. Defined.
#[export] Program Instance AssetKind_enum : PyEnum AssetKind := {|
  members := [AK_INSTRUCTION; AK_REFERENCE; AK_SCRIPT; AK_DATA; AK_METADATA];
  enum_value k := match k with AK_INSTRUCTION => "instruction" | AK_REFERENCE => "reference"
    | AK_SCRIPT => "script" | AK_DATA => "data" | AK_METADATA => "metadata" end |}.
Next Obligation. solve_enum. Qed.
Next Obligation. solve_enum. Qed.

Definition SCRIPT_EXTENSIONS : list string := [".py"; ".sh"; ".js"; ".mjs"; ".ts"].
Definition REFERENCE_EXTENSIONS : list string := [".md"; ".txt"; ".rst"].
Definition DATA_EXTENSIONS : list string := [".json"; ".yaml"; ".yml"; ".csv"; ".toml"; ".txt"].
Definition DATA_DIRECTORIES : list string := ["data"; "schemas"; "evals"].

(** [posixpath.splitext(name)[1]] of a name without a slash: the text from the last dot,
    when something other than dots precedes it. *)
Definition splitext_ext (name : string) : string :=
  match partition_chars (chr 46) (reverse (chars name)) with
  | (ext, Some stem) =>
      if existsb (fun c => negb (bool_decide (c = chr 46))) stem
      then of_chars (chr 46 :: reverse ext) else ""
  | (_, None) => ""
  end.
(** [_kind_for] with [_decodes_as_utf8] *)
Definition kind_for (parts : list string) (name suffix : string) (content : list N)
    : option AssetKind :=
  match parts with
  | [_] =>
      if String.eqb name MANIFEST_FILE_NAME then Some AK_METADATA
      else if is_license_file_name name || is_license_like_name name then
        if license_name_shape_ok name && utf8_valid content then Some AK_METADATA else None
      else if String.eqb suffix ".md" then Some AK_INSTRUCTION else None
  | top :: _ =>
      if String.eqb top "instructions" && String.eqb suffix ".md" then Some AK_INSTRUCTION
      else if String.eqb top "references" && bool_decide (suffix ∈ REFERENCE_EXTENSIONS)
      then Some AK_REFERENCE
      else if String.eqb top "scripts" && bool_decide (suffix ∈ SCRIPT_EXTENSIONS)
      then Some AK_SCRIPT
      else if bool_decide (top ∈ DATA_DIRECTORIES) && bool_decide (suffix ∈ DATA_EXTENSIONS)
      then Some AK_DATA
      else None
  | [] => None
  end.
Definition classify_asset (path : string) (executable : bool) (content : list N)
    : result AssetKind :=
  let parts := path_parts path in
  let name := default "" (last parts) in
  kind ← from_option_err CapabilityAssetTypeError
           (kind_for parts name (py_lower (splitext_ext name)) content);
  raise_when executable && negb (bool_decide (kind = AK_SCRIPT)) as CapabilityAssetTypeError ;;
  Ok kind.

(** ** [AssetRecord] *)
Record AssetRecord := {
  ar_path : string; ar_kind : AssetKind; ar_digest : Digest; ar_size : Z; ar_executable : bool }.
#[export] Instance AssetRecord_eq_dec : EqDecision AssetRecord.
Proof. solve_decision. Defined.
Definition asset_post_init (a : AssetRecord) : result AssetRecord :=
  _ ← normalize_path (ar_path a);
  raise_when (ar_size a <? 0)%Z as InvalidInputError ;;
  raise_when ar_executable a && negb (bool_decide (ar_kind a = AK_SCRIPT))
    as CapabilityAssetTypeError ;;
  Ok a.
Definition asset_to_json (a : AssetRecord) : json :=
  JObj [("path", JStr (ar_path a)); ("kind", JStr (enum_value (ar_kind a)));
        ("digest", JStr (digest_str (ar_digest a))); ("size", JInt (ar_size a));
        ("executable", JBool (ar_executable a))].
Definition asset_from_json (data : json) : result AssetRecord :=
  match data with
  | JObj m =>
      match dict_get "path" m, dict_get "kind" m, dict_get "digest" m with
      | Some (JStr path), Some (JStr kind), Some (JStr digest) =>
          size ← (match dict_get "size" m with Some (JInt z) => Ok z | _ => Err InvalidInputError end);
          executable ← (match dict_get "executable" m with
                        | Some (JBool b) => Ok b | _ => Err InvalidInputError end);
          kind ← enum_of_value kind;
          digest ← digest_from_text digest;
          asset_post_init {| ar_path := path; ar_kind := kind; ar_digest := digest;
                             ar_size := size; ar_executable := executable |}
      | _, _, _ => Err InvalidInputError
      end
  | _ => Err InvalidInputError
  end.
(** [sorted(files, key=lambda record: record.path)] *)
Definition asset_le (a b : AssetRecord) : Prop := String.le (ar_path a) (ar_path b).
#[export] Instance asset_le_dec a b : Decision (asset_le a b).
Proof. unfold asset_le. apply _. Defined.
Definition sorted_assets (l : list AssetRecord) : list AssetRecord := py_sort asset_le l.

(** ** The builder *)
Record PackageFile := { pf_path : string; pf_content : list N; pf_executable : bool }.
Record PackageClosure := { cl_manifest : PackageManifest; cl_files : list AssetRecord }.

Section Closures.
Context `{rt : PyRuntime} `{dec : JsonDecoder}.

Definition closure_payload (files : list AssetRecord) (dependencies : list DependencyPin) : json :=
  JObj [("schema", JInt CLOSURE_SCHEMA_VERSION);
        ("files", JList (map asset_to_json (sorted_assets files)));
        ("dependencies", JList (map pin_to_json (sorted_pins dependencies)))].
Definition closure_digest (files : list AssetRecord) (dependencies : list DependencyPin)
    : result Digest := digest_of_json (closure_payload files dependencies).
Definition pc_digest (c : PackageClosure) : result Digest :=
  closure_digest (cl_files c) (mf_dependencies (cl_manifest c)).

(** The loop's variables: records, collision keys, manifest bytes and total. *)
Record build_state := {
  bs_records : list AssetRecord; bs_keys : list (list N * string);
  bs_manifest : option (list N); bs_total : Z }.
Definition collision_key (path : string) : list N := casefold (codes path).
Definition content_size (content : list N) : Z := Z.of_nat (length content).
Definition add_file (st : build_state) (item : PackageFile) : result build_state :=
  path ← normalize_path (pf_path item);
  let key := collision_key path in
  raise_when bool_decide (key ∈ map fst (bs_keys st)) as CapabilityPathError ;;
  let size := content_size (pf_content item) in
  raise_when (MAX_FILE_BYTES <? size)%Z as CapabilityClosureLimitError ;;
  let total := (bs_total st + size)%Z in
  raise_when (MAX_TOTAL_BYTES <? total)%Z as CapabilityClosureLimitError ;;
  kind ← classify_asset path (pf_executable item) (pf_content item);
  digest ← digest_of_bytes (pf_content item);
  record ← asset_post_init {|
    ar_path := path; ar_kind := kind; ar_digest := digest; ar_size := size;
    ar_executable := pf_executable item |};
  Ok {| bs_records := bs_records st ++ [record]; bs_keys := bs_keys st ++ [(key, path)];
        bs_manifest := if String.eqb path MANIFEST_FILE_NAME then Some (pf_content item)
                       else bs_manifest st;
        bs_total := total |}.
(** [_reject_file_directory_conflicts] *)
Definition slash_code : N := 47.
Fixpoint parent_prefixes (before key : list N) : list (list N) :=
  match key with
  | [] => []
  | n :: key => (if (n =? slash_code)%N then [before] else []) ++ parent_prefixes (before ++ [n]) key
  end.
Definition directories (keys : list (list N)) : list (list N) :=
  concat (map (parent_prefixes []) keys).
Definition reject_conflicts (keys : list (list N * string)) : result () :=
  raise_when existsb (fun k => bool_decide (k ∈ directories (map fst keys))) (map fst keys)
    as CapabilityPathError ;; Ok ().
(** [_require_command_assets] *)
Definition content_of (files : list PackageFile) (path : string) : result (list N) :=
  from_option_err PyKeyError
    (pf_content <$> last (List.filter (fun f => String.eqb (pf_path f) path) files)).
Definition require_command_assets (manifest : PackageManifest) (records : list AssetRecord)
    (files : list PackageFile) : result () :=
  match mf_command manifest with
  | None => Ok ()
  | Some command =>
      path ← cs_script command;
      script ← from_option_err CapabilityManifestError
                 (List.find (fun r => String.eqb (ar_path r) path) records);
      raise_when negb (bool_decide (ar_kind script = AK_SCRIPT)) as CapabilityManifestError ;;
      interpreter ← cs_interpreter command;
      match interpreter with
      | Some _ => Ok ()
      | None =>
          raise_when negb (ar_executable script) as CapabilityManifestError ;;
          content ← content_of files path;
          require_shell_shebang content
      end
  end.
Definition empty_build : build_state :=
  {| bs_records := []; bs_keys := []; bs_manifest := None; bs_total := 0 |}.
Definition build_closure (files : list PackageFile) : result PackageClosure :=
  raise_when (MAX_FILE_COUNT <? length files)%nat as CapabilityClosureLimitError ;;
  st ← foldM_result add_file files empty_build;
  _ ← reject_conflicts (bs_keys st);
  manifest_bytes ← from_option_err CapabilityManifestError (bs_manifest st);
  manifest ← parse_manifest manifest_bytes;
  let ordered := sorted_assets (bs_records st) in
  _ ← require_command_assets manifest ordered files;
  Ok {| cl_manifest := manifest; cl_files := ordered |}.
End Closures.
