(* ===== verification/ClosureProofs.v ===== *)
(** * What a package closure guarantees

    [build_closure] accepts exactly the bounded, collision-free lists of safe, reviewed
    files with a valid manifest, and records every one of them. *)
From S2P Require Import Prelude PyText Json Identity IdentityProofs JsonCanon Regex Schemas.
From S2P Require Import SchemaProofs.
From S2P Require Import Manifests Closures.

Section ClosureProofs.
Context `{rt : PyRuntime} `{dec : JsonDecoder}.

(** ** One file *)
Definition file_key (f : PackageFile) : list N := collision_key (pf_path f).
Definition file_size (f : PackageFile) : Z := content_size (pf_content f).
Definition file_kind (f : PackageFile) : result AssetKind :=
  classify_asset (pf_path f) (pf_executable f) (pf_content f).
(** The record of a file: its path, reviewed kind, content digest, size and mode. *)
Record records_file (f : PackageFile) (a : AssetRecord) : Prop := {
  rf_path : ar_path a = pf_path f;
  rf_kind : file_kind f = Ok (ar_kind a);
  rf_digest : ar_digest a = {| algorithm := "sha256"; hex_value := sha256_hex (pf_content f) |};
  rf_size : ar_size a = file_size f;
  rf_executable : ar_executable a = pf_executable f;
}.
Record safe_file (f : PackageFile) : Prop := {
  sf_path : path_problem (pf_path f) = false;
  sf_size : (file_size f <= MAX_FILE_BYTES)%Z;
}.
Definition total_size (files : list PackageFile) : Z := foldr (fun f n => file_size f + n)%Z 0%Z files.

Lemma total_size_app l k : total_size (l ++ k) = (total_size l + total_size k)%Z.
Proof. induction l as [|f l IH]; cbn [app total_size foldr] in *; [done|]. unfold total_size in *. rewrite IH. lia. Qed.
Lemma file_size_nonneg f : (0 <= file_size f)%Z.
Proof. unfold file_size, content_size. lia. Qed.
Lemma total_size_nonneg l : (0 <= total_size l)%Z.
Proof. induction l as [|f l IH]; cbn; [lia|]. pose proof (file_size_nonneg f). unfold total_size in *. lia. Qed.

Lemma normalize_path_Ok p q : normalize_path p = Ok q <-> q = p /\ path_problem p = false.
Proof. unfold normalize_path. rewrite raise_if_Ok. naive_solver. Qed.
Lemma classify_script p e c k : classify_asset p e c = Ok k -> e = true -> k = AK_SCRIPT.
Proof.
  unfold classify_asset. rewrite bind_Ok. intros (k' & _ & H) ->. rewrite raise_if_Ok in H.
  destruct H as [H [= <-]]. cbn in H. by apply negb_false_iff, bool_decide_eq_true in H.
Qed.

(** The manifest the loop remembers: the last file of that name. *)
Definition manifest_of (files : list PackageFile) : option (list N) :=
  foldl (fun m f => if String.eqb (pf_path f) MANIFEST_FILE_NAME then Some (pf_content f) else m)
    None files.
(** The loop's state after [files]. *)
Record built (files : list PackageFile) (st : build_state) : Prop := {
  bt_records : Forall2 records_file files (bs_records st);
  bt_keys : bs_keys st = map (fun f => (file_key f, pf_path f)) files;
  bt_manifest : bs_manifest st = manifest_of files;
  bt_total : bs_total st = total_size files;
}.
(** What the loop demands of the file list. *)
Record admissible (files : list PackageFile) : Prop := {
  ad_safe : Forall safe_file files;
  ad_kinds : Forall (fun f => is_ok (file_kind f) = true) files;
  ad_keys : NoDup (map file_key files);
  ad_total : (total_size files <= MAX_TOTAL_BYTES)%Z;
}.

Lemma built_keys files st : built files st -> map fst (bs_keys st) = map file_key files.
Proof. intros H. rewrite (bt_keys _ _ H), map_map. done. Qed.
Lemma admissible_snoc files f : admissible (files ++ [f]) <->
  admissible files /\ safe_file f /\ is_ok (file_kind f) = true /\
  file_key f ∉ map file_key files /\ (total_size files + file_size f <= MAX_TOTAL_BYTES)%Z.
Proof.
  pose proof (file_size_nonneg f).
  assert (total_size (files ++ [f]) = (total_size files + file_size f)%Z) as Ht.
  { rewrite total_size_app. cbn. lia. }
  split.
  - intros [Hs Hk Hd Hb]. rewrite map_app, NoDup_app in Hd.
    apply Forall_app in Hs as [Hs [Hf _]%Forall_cons], Hk as [Hk [Hkf _]%Forall_cons].
    rewrite Ht in Hb. split_and!; [|done..| |done].
    + constructor; [done..|by apply Hd|lia].
    + intros Hin. destruct Hd as (_ & Hd & _). apply (Hd _ Hin). by left.
  - intros ([Hs Hk Hd Hb] & Hf & Hkf & Hn & Hb'). constructor.
    + apply Forall_app. split; [done|]. by constructor.
    + apply Forall_app. split; [done|]. by constructor.
    + rewrite map_app. apply NoDup_app. split_and!; [done| |by apply NoDup_singleton].
      intros k Hk' ->%list_elem_of_singleton. done.
    + by rewrite Ht.
Qed.
Lemma manifest_of_snoc files f : manifest_of (files ++ [f]) =
  if String.eqb (pf_path f) MANIFEST_FILE_NAME then Some (pf_content f) else manifest_of files.
Proof. unfold manifest_of. by rewrite foldl_app. Qed.

(** One round of the loop. *)
Lemma add_file_spec files st f st' : built files st ->
  add_file st f = Ok st' <->
  built (files ++ [f]) st' /\ safe_file f /\ file_key f ∉ map file_key files /\
  (total_size files + file_size f <= MAX_TOTAL_BYTES)%Z.
Proof.
  intros Hb. pose proof (file_size_nonneg f) as Hsz. unfold add_file.
  rewrite (built_keys _ _ Hb), (bt_total _ _ Hb), (bt_keys _ _ Hb), (bt_manifest _ _ Hb).
  fold (file_size f). fold (file_key f). split.
  - intros H. apply bind_Ok in H as (p & [-> Hp]%normalize_path_Ok & H).
    fold (file_key f) in H. rewrite !raise_if_Ok in H. destruct H as (Hk & Hl & Ht & H).
    apply bind_Ok in H as (kind & Hkind & H). fold (file_kind f) in Hkind.
    rewrite digest_of_bytes_Ok in H. cbn [mbind result_bind] in H.
    apply bind_Ok in H as (record & Hrec & H). injection H as <-.
    unfold asset_post_init in Hrec. cbn [ar_path ar_size ar_executable ar_kind] in Hrec.
    apply bind_Ok in Hrec as (? & _ & Hrec). rewrite !raise_if_Ok in Hrec.
    destruct Hrec as (_ & _ & [= <-]).
    apply bool_decide_eq_false in Hk. apply Z.ltb_ge in Hl, Ht. split_and!; [|by constructor|done..].
    constructor; cbn [bs_records bs_keys bs_manifest bs_total].
    + apply Forall2_app; [apply (bt_records _ _ Hb)|]. by repeat constructor.
    + by rewrite map_app.
    + by rewrite manifest_of_snoc.
    + rewrite total_size_app. cbn. lia.
  - intros (Hb' & [Hp Hl] & Hk & Ht).
    pose proof (bt_records _ _ Hb') as Hr.
    apply Forall2_app_inv_l in Hr as (rs & rf & Hrs & Hrf & Hrecs).
    inversion Hrf as [|? a ? ? Ha Hnil]; subst. inversion Hnil; subst. clear Hrf Hnil.
    apply bind_Ok. exists (pf_path f). split; [by apply normalize_path_Ok|].
    fold (file_key f). rewrite !raise_if_Ok, bool_decide_eq_false, !Z.ltb_ge.
    split_and!; [done..|]. apply bind_Ok. exists (ar_kind a). split; [apply (rf_kind _ _ Ha)|].
    rewrite digest_of_bytes_Ok. cbn [mbind result_bind]. apply bind_Ok. exists a. split.
    + unfold asset_post_init. cbn [ar_path ar_size ar_executable ar_kind].
      apply bind_Ok. exists (pf_path f). split; [by apply normalize_path_Ok|].
      rewrite !raise_if_Ok. split_and!; [by apply Z.ltb_ge| |].
      * destruct (pf_executable f) eqn:He; [|done].
        rewrite (classify_script _ _ _ _ (rf_kind _ _ Ha) He). done.
      * destruct Ha as [<- _ <- <- <-]. by destruct a.
    + assert (rs = bs_records st) as ->.
      { pose proof (bt_records _ _ Hb) as H0. clear -Hrs H0. revert rs Hrs H0.
        generalize (bs_records st) as qs. induction files as [|g files IH]; intros qs rs Hrs H0;
          inversion Hrs as [|? x ? xs Hx Hxs]; inversion H0 as [|? y ? ys Hy Hys]; subst; [done|].
        f_equal; [|by apply IH]. destruct x, y. destruct Hx as [? Hkx ? ? ?], Hy as [? Hky ? ? ?].
        cbn in *. rewrite Hkx in Hky. injection Hky as ->. congruence. }
      destruct st'. destruct Hb' as [_ Hb1 Hb2 Hb3]. cbn in *. subst.
      rewrite map_app, manifest_of_snoc, total_size_app. cbn. f_equal. f_equal. lia.
Qed.

Lemma foldM_result_snoc {A S} (f : S -> A -> result S) l x s :
  foldM_result f (l ++ [x]) s = (s' ← foldM_result f l s; f s' x).
Proof.
  revert s. induction l as [|y l IH]; intros s; cbn; [by destruct (f s x)|].
  destruct (f s y); cbn; [apply IH|done].
Qed.
(** The loop succeeds exactly on the admissible lists. *)
Lemma add_files_spec files st :
  foldM_result add_file files empty_build = Ok st <-> built files st /\ admissible files.
Proof.
  revert st. induction files as [|f files IH] using rev_ind; intros st.
  - cbn. split.
    + intros [= <-]. split; constructor; cbn; try done; try constructor.
    + intros [[Hr Hk Hm Ht] _]. destruct st. cbn in *. inversion Hr. by subst.
  - rewrite foldM_result_snoc, bind_Ok, admissible_snoc. split.
    + intros (st0 & [Hb Ha]%IH & Hf). apply (add_file_spec files st0 f st Hb) in Hf as (Hb' & Hs & Hk & Ht).
      split; [done|]. split_and!; [done..| |done|done].
      pose proof (bt_records _ _ Hb') as Hr. apply Forall2_app_inv_l in Hr as (rs & rf & _ & Hrf & _).
      inversion Hrf as [|? a ? ? Ha' _]; subst. by rewrite (rf_kind _ _ Ha').
    + intros (Hb' & Ha & Hs & Hkf & Hk & Ht).
      pose proof (bt_records _ _ Hb') as Hr. apply Forall2_app_inv_l in Hr as (rs & rf & Hrs & _ & _).
      pose (st0 := {| bs_records := rs; bs_keys := map (fun f => (file_key f, pf_path f)) files;
        bs_manifest := manifest_of files; bs_total := total_size files |}).
      assert (Hb : built files st0) by by constructor.
      exists st0. split; [by apply IH|]. by apply (add_file_spec files).
Qed.

(** The remembered manifest is the file of that name. *)
Lemma manifest_of_Some files c : NoDup (map file_key files) ->
  manifest_of files = Some c <->
  exists f, f ∈ files /\ pf_path f = MANIFEST_FILE_NAME /\ pf_content f = c.
Proof.
  induction files as [|f files IH] using rev_ind; intros Hd.
  { split; [done|]. by intros (f & ?%not_elem_of_nil & _). }
  rewrite map_app, NoDup_app in Hd. destruct Hd as (Hd & Hn & _). rewrite manifest_of_snoc.
  destruct (String.eqb_spec (pf_path f) MANIFEST_FILE_NAME) as [He|He].
  - split.
    + intros [= <-]. exists f. split_and!; [set_solver|done|done].
    + intros (g & [Hg| ->%list_elem_of_singleton]%elem_of_app & Hp & <-); [|done].
      exfalso. apply (Hn (file_key g)); [by apply list_elem_of_fmap_2|].
      unfold file_key. rewrite Hp, <- He. by left.
  - rewrite IH by done. split; [intros (g & ? & ?); exists g; set_solver|].
    intros (g & [Hg| ->%list_elem_of_singleton]%elem_of_app & ?); [by exists g|naive_solver].
Qed.

(** ** Safe paths *)
Record safe_path (p : string) : Prop := {
  sp_nonempty : p <> "";
  sp_length : (py_len p <= MAX_PATH_LENGTH)%Z;
  sp_depth : (length (path_parts p) <= MAX_PATH_DEPTH)%nat;
  sp_segments : forall s, s ∈ path_parts p -> s ∉ [""; "."; ".."];
  sp_chars : forall c, c ∈ chars p ->
    is_control c = false /\ c <> chr 92 /\ is_format_char c = false;
  sp_relative : starts_with_slash p = false /\ is_drive p = false;
}.
Lemma path_problem_spec p : path_problem p = false <-> safe_path p.
Proof.
  unfold path_problem. rewrite !orb_false_iff, !existsb_false, String.eqb_neq, Z.ltb_ge, Nat.ltb_ge.
  rewrite bool_decide_eq_false. split.
  - intros ((((((((? & ?) & Hc) & Hb) & ?) & ?) & ?) & Hs) & Hf). constructor; try done.
    + intros s Hin. apply Hs in Hin. unfold bad_segment in Hin. by apply bool_decide_eq_false in Hin.
    + intros c Hin. split_and!; [by apply Hc|by intros ->|by apply Hf].
  - intros [? ? ? Hs Hc [? ?]]. split_and!; try done.
    + intros c Hin. by apply Hc.
    + intros Hin. by destruct (Hc _ Hin) as (_ & ? & _).
    + intros s Hin. unfold bad_segment. apply bool_decide_eq_false. by apply Hs.
    + intros c Hin. by apply Hc.
Qed.
(** How POSIX resolves a relative path below [root]. *)
Definition walk_segment (at_ : list string) (segment : string) : list string :=
  if decide (segment = "" \/ segment = ".") then at_
  else if decide (segment = "..") then removelast at_ else at_ ++ [segment].
(** A safe path never leaves the directory it is resolved in, and names itself. *)
Lemma safe_path_resolves p root : safe_path p ->
  foldl walk_segment root (path_parts p) = root ++ path_parts p.
Proof.
  intros Hs. pose proof (sp_segments _ Hs) as Hseg. revert root Hseg.
  generalize (path_parts p) as l. induction l as [|s l IH]; intros root Hseg; cbn [foldl].
  { by rewrite app_nil_r. }
  assert (walk_segment root s = root ++ [s]) as ->.
  { specialize (Hseg s ltac:(set_solver)). unfold walk_segment.
    rewrite decide_False by set_solver. by rewrite decide_False by set_solver. }
  rewrite IH by set_solver. by rewrite <- (assoc_L (++)).
Qed.

(** ** The declared command *)
Lemma find_unique {A} (key : A -> string) l k : NoDup (map key l) ->
  forall x, List.find (fun y => String.eqb (key y) k) l = Some x <-> x ∈ l /\ key x = k.
Proof.
  intros Hd x. induction l as [|y l IH]; [split; [done|by intros [?%not_elem_of_nil _]]|].
  cbn in Hd |- *. apply NoDup_cons in Hd as [Hn Hd]. rewrite elem_of_cons.
  destruct (String.eqb_spec (key y) k) as [Hy|Hy].
  - split; [intros [= <-]; by split; [left|]|]. intros [[->|Hin] Hk]; [done|].
    destruct Hn. rewrite Hy, <- Hk. by apply list_elem_of_fmap_2.
  - rewrite IH by done. split; [tauto|]. intros [[->|Hin] Hk]; [done|tauto].
Qed.
Lemma content_of_Ok files p c : NoDup (map pf_path files) ->
  content_of files p = Ok c <-> exists f, f ∈ files /\ pf_path f = p /\ pf_content f = c.
Proof.
  intros Hd. unfold content_of. induction files as [|f files IH] using rev_ind.
  { cbn. split; [done|]. by intros (? & ?%not_elem_of_nil & _). }
  rewrite map_app, NoDup_app in Hd. destruct Hd as (Hd & Hn & _). rewrite List.filter_app. cbn [List.filter].
  destruct (String.eqb_spec (pf_path f) p) as [He|He].
  - rewrite last_snoc. cbn. split; [intros [= <-]; exists f; set_solver|].
    intros (g & [Hg| ->%list_elem_of_singleton]%elem_of_app & Hp & <-); [|done]. exfalso.
    apply (Hn (pf_path g)); [by apply list_elem_of_fmap_2|]. rewrite Hp, <- He. by left.
  - rewrite app_nil_r, IH by done. split; [intros (g & ? & ?); exists g; set_solver|].
    intros (g & [Hg| ->%list_elem_of_singleton]%elem_of_app & ? & ?); [by exists g|done].
Qed.
(** The command runs a script of the package; without an interpreter the script is
    executable and starts with a reviewed shell line. *)
Definition runs_script (command : CommandSpec) (records : list AssetRecord)
    (files : list PackageFile) : Prop :=
  exists r i, cs_script command = Ok (ar_path r) /\ r ∈ records /\ ar_kind r = AK_SCRIPT /\
    cs_interpreter command = Ok i /\
    (i = None -> ar_executable r = true /\
       exists f, f ∈ files /\ pf_path f = ar_path r /\
         first_line (pf_content f) ∈ map utf8 SHELL_SHEBANGS).
Lemma require_command_assets_Ok m records files :
  NoDup (map ar_path records) -> NoDup (map pf_path files) ->
  require_command_assets m records files = Ok () <->
  forall command, mf_command m = Some command -> runs_script command records files.
Proof.
  intros Hr Hf. unfold require_command_assets. destruct (mf_command m) as [c|]; [|done].
  assert ((forall command, Some c = Some command -> runs_script command records files) <->
    runs_script c records files) as -> by (split; [auto|by intros ? ? [= <-]]).
  unfold runs_script. rewrite bind_Ok. split.
  - intros (path & Hp & H). apply bind_Ok in H as (r & Hs & H).
    destruct (List.find _ records) as [r'|] eqn:Hfind; [|done]. injection Hs as ->.
    apply (find_unique ar_path) in Hfind as [Hin <-]; [|done].
    rewrite raise_if_Ok in H. destruct H as [Hk%negb_false_iff%bool_decide_eq_true H].
    apply bind_Ok in H as (i & Hi & H). exists r, i. split_and!; [done..|]. intros ->.
    rewrite raise_if_Ok in H. destruct H as [He%negb_false_iff H].
    apply bind_Ok in H as (content & (f & Hfin & Hfp & <-)%content_of_Ok & H); [|done].
    split; [done|]. exists f. split_and!; [done..|]. unfold require_shell_shebang in H.
    rewrite raise_if_Ok in H. by destruct H as [H%negb_false_iff%bool_decide_eq_true _].
  - intros (r & i & Hp & Hin & Hk & Hi & Hn). exists (ar_path r). split; [done|].
    apply bind_Ok. exists r. split; [by rewrite (proj2 (find_unique ar_path records _ Hr r))|].
    rewrite raise_if_Ok. split; [by rewrite bool_decide_eq_true_2|].
    apply bind_Ok. exists i. split; [done|]. destruct i; [done|].
    destruct (Hn eq_refl) as (He & f & Hfin & Hfp & Hsh). rewrite raise_if_Ok, He. split; [done|].
    apply bind_Ok. exists (pf_content f). split; [apply content_of_Ok; [done|by exists f]|].
    unfold require_shell_shebang. by rewrite bool_decide_eq_true_2.
Qed.

(** A parsed manifest's command passed its own checks. *)
Lemma command_create_checked a s t l c : command_create a s t l = Ok c -> command_post_init c = Ok c.
Proof.
  unfold command_create. intros H. assert (c = {| cs_argv := a; cs_input_schema := canon (JObj s);
    cs_timeout_seconds := t; cs_max_output_bytes := l |}) as ->; [|done].
  unfold command_post_init in H. rewrite !raise_if_Ok in H.
  destruct H as (_ & _ & _ & _ & H). apply bind_Ok in H as (? & _ & H).
  apply bind_Ok in H as (? & _ & H). rewrite !raise_if_Ok in H. destruct H as (_ & _ & H).
  apply bind_unit_Ok in H as [_ H]. by injection H.
Qed.
Lemma command_from_json_checked j c : command_from_json j = Ok c -> command_post_init c = Ok c.
Proof.
  unfold command_from_json. destruct j; try done. intros H. inv_ok. by eapply command_create_checked.
Qed.
Lemma manifest_post_init_command m m' : manifest_post_init m = Ok m' -> mf_command m' = mf_command m.
Proof. unfold manifest_post_init. intros H. by inv_ok. Qed.
Lemma parse_manifest_command raw m c : parse_manifest raw = Ok m -> mf_command m = Some c ->
  command_post_init c = Ok c.
Proof.
  unfold parse_manifest. destruct (json_loads_unique raw) as [[| | | | | |document]|]; try done.
  unfold as_manifest_error. destruct (manifest_from_document document) as [m'|[]] eqn:Hd; try done.
  intros [= <-] Hc. unfold manifest_from_document in Hd. inv_ok.
  erewrite manifest_post_init_command in Hc by done. cbn in Hc. subst.
  destruct (dict_get "command" document); [|done]. inv_ok. by eapply command_from_json_checked.
Qed.
Lemma checked_command_argv c : command_post_init c = Ok c -> cs_argv c <> [].
Proof.
  unfold command_post_init. rewrite raise_if_Ok. intros [H _] Hn.
  rewrite Hn in H. done.
Qed.

(** ** The builder *)
Lemma records_paths files rs : Forall2 records_file files rs -> map ar_path rs = map pf_path files.
Proof. induction 1 as [|f a files rs H _ IH]; cbn; [done|]. by rewrite (rf_path _ _ H), IH. Qed.
Lemma keys_paths files : NoDup (map file_key files) -> NoDup (map pf_path files).
Proof.
  intros Hd. apply (NoDup_fmap_1 collision_key). by rewrite <- list_fmap_compose.
Qed.
Lemma sorted_assets_paths files rs : Forall2 records_file files rs -> NoDup (map file_key files) ->
  NoDup (map ar_path (sorted_assets rs)).
Proof.
  intros Hr Hd. unfold sorted_assets. rewrite (py_sort_perm asset_le rs).
  rewrite (records_paths _ _ Hr). by apply keys_paths.
Qed.
Lemma reject_conflicts_Ok keys : reject_conflicts keys = Ok () <->
  forall k, k ∈ map fst keys -> k ∉ directories (map fst keys).
Proof.
  unfold reject_conflicts. rewrite raise_if_Ok, existsb_false. setoid_rewrite bool_decide_eq_false.
  tauto.
Qed.
(** The package errors of the builder. *)
Definition package_error (e : exn) : Prop :=
  e ∈ [CapabilityClosureLimitError; CapabilityPathError; CapabilityAssetTypeError;
       CapabilityManifestError].
Lemma package_errors : package_error CapabilityClosureLimitError /\
  package_error CapabilityPathError /\ package_error CapabilityAssetTypeError /\
  package_error CapabilityManifestError.
Proof. unfold package_error. set_solver. Qed.
Lemma as_manifest_refuses {A} (r : result A) :
  raises_only (fun e => e ∈ [InvalidInputError; PyValueError; CapabilityManifestError]) r ->
  raises_only (eq CapabilityManifestError) (as_manifest_error r).
Proof.
  intros Hr e He. destruct r as [a|e']; [done|]. specialize (Hr e' eq_refl). unfold as_manifest_error in He.
  rewrite !elem_of_cons in Hr. destruct Hr as [->|[->|[->|[]%not_elem_of_nil]]]; congruence.
Qed.

Definition document_error (e : exn) : Prop :=
  e ∈ [InvalidInputError; PyValueError; CapabilityManifestError].
Lemma document_errors : document_error InvalidInputError /\ document_error PyValueError /\
  document_error CapabilityManifestError.
Proof. unfold document_error. set_solver. Qed.
Ltac doc_raises := raises; try apply document_errors.

Lemma enum_refuses `{PyEnum A} s : raises_only document_error (@enum_of_value A _ s).
Proof. intros e ->%enum_of_value_Err. apply document_errors. Qed.
Lemma validate_name_refuses s : raises_only document_error (validate_name s).
Proof. unfold validate_name. doc_raises. Qed.
Lemma validate_version_refuses s : raises_only document_error (validate_version s).
Proof. unfold validate_version. doc_raises. Qed.
Lemma manifest_text_refuses m k : raises_only document_error (manifest_text m k).
Proof. unfold manifest_text. doc_raises. Qed.
Lemma manifest_list_refuses m k : raises_only document_error (manifest_list m k).
Proof. unfold manifest_list. doc_raises. Qed.
Lemma digest_refuses s : raises_only document_error (digest_from_text s).
Proof. intros e ->%digest_of_str_Err. apply document_errors. Qed.
Lemma json_str_refuses j : raises_only document_error (json_str InvalidInputError j).
Proof. unfold json_str. doc_raises. Qed.
#[local] Hint Resolve enum_refuses validate_name_refuses validate_version_refuses
  manifest_text_refuses manifest_list_refuses digest_refuses json_str_refuses : raises.
Lemma compatibility_post_refuses c : raises_only document_error (compatibility_post_init c).
Proof. unfold compatibility_post_init. doc_raises. Qed.
#[local] Hint Resolve compatibility_post_refuses : raises.
Lemma compatibility_json_refuses j : raises_only document_error (compatibility_from_json j).
Proof. unfold compatibility_from_json. doc_raises. Qed.
Lemma pin_json_refuses j : raises_only document_error (pin_from_json j).
Proof. unfold pin_from_json, pin_post_init. doc_raises. Qed.
Lemma permission_json_refuses j : raises_only document_error (permission_from_json j).
Proof. unfold permission_from_json. doc_raises. Qed.
Lemma schema_size_refuses j limit : raises_only document_error (bounded_size j limit CapabilityManifestError).
Proof.
  unfold bounded_size. destruct (dumps_size j); [|intros ? [= <-]; apply document_errors].
  intros e. destruct (_ <? _)%Z; [|done]. intros [= <-]. apply document_errors.
Qed.
#[local] Hint Resolve schema_size_refuses : raises.
Lemma check_schema_refuses j : raises_only document_error (check_schema j).
Proof.
  unfold check_schema, bad_schema. doc_raises.
  eapply raises_only_weaken; [apply check_node_refuses|]. intros e <-. apply document_errors.
Qed.
#[local] Hint Resolve check_schema_refuses compatibility_json_refuses pin_json_refuses
  permission_json_refuses : raises.
Lemma command_post_refuses c : raises_only document_error (command_post_init c).
Proof.
  unfold command_post_init. destruct (cs_argv c) as [|a0 rest] eqn:Ha.
  { intros e. cbn. intros [= <-]. apply document_errors. }
  unfold cs_interpreter. rewrite Ha. cbn [head from_option_err mbind result_bind]. doc_raises.
Qed.
#[local] Hint Resolve command_post_refuses : raises.
Lemma command_json_refuses j : raises_only document_error (command_from_json j).
Proof. unfold command_from_json, command_create. doc_raises. Qed.
#[local] Hint Resolve command_json_refuses : raises.
Lemma manifest_document_refuses d : raises_only document_error (manifest_from_document d).
Proof.
  unfold manifest_from_document, manifest_post_init. doc_raises.
  destruct (dict_get "compatibility" d); cbn; auto with raises.
Qed.
(** Whatever the bytes are, a manifest is refused with a manifest error only. *)
Lemma parse_manifest_refuses raw : raises_only (eq CapabilityManifestError) (parse_manifest raw).
Proof.
  unfold parse_manifest. destruct (json_loads_unique raw) as [[]|]; raises.
  apply as_manifest_refuses, manifest_document_refuses.
Qed.

(** The refusals of the command check on the files that were recorded. *)
Lemma require_command_refuses m raw records files e :
  parse_manifest raw = Ok m -> map ar_path records ⊆ map pf_path files ->
  NoDup (map ar_path records) -> NoDup (map pf_path files) ->
  require_command_assets m records files = Err e ->
  e = CapabilityManifestError \/
  (e = InvalidInputError /\ exists c i, mf_command m = Some c /\ cs_argv c = [i] /\
     i ∈ RUNNER_INTERPRETERS).
Proof.
  intros Hm Hsub Hdr Hdf. unfold require_command_assets.
  destruct (mf_command m) as [c|] eqn:Hc; [|done].
  pose proof (checked_command_argv _ (parse_manifest_command _ _ _ Hm Hc)) as Hargv.
  unfold cs_script, cs_interpreter. destruct (cs_argv c) as [|a0 rest] eqn:Ha; [done|].
  cbn [head from_option_err mbind result_bind]. case_bool_decide as Hi.
  - destruct rest as [|a1 rest]; cbn.
    + intros [= <-]. right. split; [done|]. by exists c, a0.
    + match goal with |- context [List.find ?p records] => destruct (List.find p records) end;
        cbn; [|intros [= <-]; by left].
      unfold raise_if. destruct (negb _); cbn; [intros [= <-]; by left|done].
  - cbn. match goal with |- context [List.find ?p records] =>
      destruct (List.find p records) as [r|] eqn:Hf end; cbn; [|intros [= <-]; by left].
    apply (find_unique ar_path) in Hf as [Hin Hp]; [|done].
    intros H. inv_err H; [by left|]. inv_err H; [by left|]. inv_err H.
    + exfalso. assert (a0 ∈ map pf_path files) as (f & Hfp & Hfin)%list_elem_of_fmap.
      { apply Hsub. rewrite <- Hp. by apply list_elem_of_fmap_2. }
      assert (content_of files a0 = Ok (pf_content f)); [|congruence].
      apply content_of_Ok; [done|]. by exists f.
    + unfold require_shell_shebang in H. inv_err H; [by left|done].
Qed.
Lemma normalize_path_refuses p : raises_only package_error (normalize_path p).
Proof. unfold normalize_path. raises. apply package_errors. Qed.
Lemma asset_refuses a : (0 <= ar_size a)%Z -> raises_only package_error (asset_post_init a).
Proof.
  intros Hz. unfold asset_post_init. rewrite (proj2 (Z.ltb_ge _ _) Hz).
  apply raises_only_bind; [apply normalize_path_refuses|intros _]. cbn [raise_if mbind result_bind].
  raises. apply package_errors.
Qed.
Lemma add_file_refuses st f : raises_only package_error (add_file st f).
Proof.
  pose proof (file_size_nonneg f). unfold add_file, classify_asset.
  apply raises_only_bind; [apply normalize_path_refuses|]. raises; try apply package_errors.
  - intros e. by rewrite digest_of_bytes_Ok.
  - by apply asset_refuses.
Qed.
Definition manifest_bytes_of (files : list PackageFile) (raw : list N) : Prop :=
  exists f, f ∈ files /\ pf_path f = MANIFEST_FILE_NAME /\ pf_content f = raw.

(** C37: [build_closure] accepts a file list exactly when it holds at most 512 files of
    at most 2 MiB each and 16 MiB together, every path is a safe relative path that
    resolves to itself below any root, no two paths collide up to case and no path is
    also a directory, every file is of a reviewed kind, the manifest parses and its
    command runs a script of the package; the closure then holds one record per file,
    in path order, with the file's kind, SHA-256, size and mode.  A refusal is one of
    the four package errors, or the invalid-input error of a command that names an
    interpreter and no script. *)
Theorem build_closure_exact (files : list PackageFile) (c : PackageClosure) (e : exn) :
  (build_closure files = Ok c <->
     (length files <= MAX_FILE_COUNT)%nat /\ (total_size files <= MAX_TOTAL_BYTES)%Z /\
     Forall (fun f => (file_size f <= MAX_FILE_BYTES)%Z /\ safe_path (pf_path f) /\
               is_ok (file_kind f) = true) files /\
     NoDup (map file_key files) /\
     (forall f, f ∈ files -> file_key f ∉ directories (map file_key files)) /\
     (exists raw, manifest_bytes_of files raw /\ parse_manifest raw = Ok (cl_manifest c)) /\
     (exists records, Forall2 records_file files records /\ cl_files c = sorted_assets records) /\
     (forall command, mf_command (cl_manifest c) = Some command ->
        runs_script command (cl_files c) files)) /\
  (forall p root, safe_path p -> foldl walk_segment root (path_parts p) = root ++ path_parts p) /\
  (build_closure files = Err e -> package_error e \/
     (e = InvalidInputError /\ exists raw m command i, manifest_bytes_of files raw /\
        parse_manifest raw = Ok m /\ mf_command m = Some command /\ cs_argv command = [i] /\
        i ∈ RUNNER_INTERPRETERS)).
Proof.
  assert (Hspec : forall st, foldM_result add_file files empty_build = Ok st ->
    built files st /\ admissible files) by (intros st; apply add_files_spec).
  assert (Hdirs : forall st, built files st ->
    reject_conflicts (bs_keys st) = Ok () <->
    forall f, f ∈ files -> file_key f ∉ directories (map file_key files)).
  { intros st Hb. rewrite reject_conflicts_Ok, (built_keys _ _ Hb). split.
    - intros H f Hf. apply H. by apply list_elem_of_fmap_2.
    - intros H k (f & -> & Hf)%list_elem_of_fmap. by apply H. }
  split_and!; [|intros p root; apply safe_path_resolves|].
  - unfold build_closure. rewrite raise_if_Ok, Nat.ltb_ge. split.
    + intros [Hn H]. apply bind_Ok in H as (st & Hst & H). destruct (Hspec _ Hst) as [Hb [Hs Hk Hd Ht]].
      rewrite bind_unit_Ok in H. destruct H as [Hc H]. pose proof (proj1 (Hdirs _ Hb) Hc) as Hdir.
      apply bind_Ok in H as (raw & Hraw & H). apply bind_Ok in H as (m & Hm & H).
      rewrite bind_unit_Ok in H. destruct H as [Hcmd [= <-]]. cbn [cl_manifest cl_files].
      rewrite (bt_manifest _ _ Hb) in Hraw. destruct (manifest_of files) as [raw'|] eqn:Hmf; [|done].
      injection Hraw as ->. apply manifest_of_Some in Hmf; [|done].
      split_and!; [done..| |done|done|by exists raw|exists (bs_records st); split; [apply Hb|done]|].
      * rewrite Forall_forall in Hs, Hk |- *. intros f Hf. destruct (Hs f Hf).
        split_and!; [done|by apply path_problem_spec|by apply Hk].
      * refine (proj1 (require_command_assets_Ok _ _ _ _ (keys_paths _ Hd)) Hcmd).
        by eapply sorted_assets_paths; [apply Hb|].
    + intros (Hn & Ht & Hf & Hd & Hc & (raw & Hraw & Hm) & (rs & Hrs & Hrec) & Hcmd).
      split; [done|].
      pose (st := {| bs_records := rs; bs_keys := map (fun f => (file_key f, pf_path f)) files;
        bs_manifest := manifest_of files; bs_total := total_size files |}).
      assert (Hb : built files st) by by constructor.
      assert (Ha : admissible files).
      { constructor; [| |done|done]; eapply Forall_impl; try exact Hf; cbn; [|tauto].
        intros f (? & ? & ?). split; [by apply path_problem_spec|done]. }
      apply bind_Ok. exists st. split; [by apply add_files_spec|].
      rewrite bind_unit_Ok. split; [by apply (proj2 (Hdirs _ Hb))|].
      apply bind_Ok. exists raw. split.
      { subst st. cbn [bs_manifest].
        by rewrite (proj2 (manifest_of_Some files raw Hd) Hraw). }
      apply bind_Ok. exists (cl_manifest c). split; [done|]. subst st. cbn [bs_records].
      rewrite <- Hrec. rewrite bind_unit_Ok. split; [|by destruct c].
      refine (proj2 (require_command_assets_Ok _ _ _ _ (keys_paths _ Hd)) Hcmd).
      rewrite Hrec. by eapply sorted_assets_paths.
  - unfold build_closure. intros H. inv_err H; [subst; left; apply package_errors|].
    inv_err H.
    { left. revert H. apply raises_only_foldM. apply add_file_refuses. }
    match goal with H : foldM_result _ _ _ = Ok _ |- _ => destruct (Hspec _ H) as [Hb Ha] end.
    rename H into He. inv_err He.
    { left. revert He. unfold reject_conflicts, raise_if. case_match; [|done].
      intros [= <-]. apply package_errors. }
    inv_err He.
    { left. revert He. destruct (bs_manifest _); [done|]. intros [= <-]. apply package_errors. }
    match goal with H : from_option_err _ _ = Ok ?r |- _ => rename H into Hraw, r into raw end.
    inv_err He.
    { left. apply parse_manifest_refuses in He as <-. apply package_errors. }
    match goal with H : parse_manifest _ = Ok ?m' |- _ => rename H into Hm, m' into m end.
    cbv zeta in He. inv_err He; [|done].
    pose proof (bt_records _ _ Hb) as Hr. pose proof (ad_keys _ Ha) as Hd.
    edestruct (fun H1 H2 H3 => require_command_refuses _ _ _ _ _ Hm H1 H2 H3 He)
      as [->|[-> (c' & i & Hc & Ha' & Hi)]].
    + intros p Hp. unfold sorted_assets in Hp.
      rewrite (py_sort_perm asset_le), (records_paths _ _ Hr) in Hp. done.
    + by eapply sorted_assets_paths.
    + by apply keys_paths.
    + left. apply package_errors.
    + right. split; [done|]. exists raw, m, c', i. split_and!; [|done..].
      rewrite (bt_manifest _ _ Hb) in Hraw. destruct (manifest_of files) eqn:Hmf; [|done].
      injection Hraw as ->. by apply manifest_of_Some in Hmf.
Qed.

(** ** What the closure digest binds *)
Lemma map_inj_on {A B} (f : A -> B) (P : A -> Prop) l k :
  (forall x y, P x -> P y -> f x = f y -> x = y) -> Forall P l -> Forall P k ->
  map f l = map f k -> l = k.
Proof.
  intros Hf Hl. revert k. induction Hl as [|x l Hx _ IH]; intros [|y k] Hk; cbn; try done.
  apply Forall_cons in Hk as [Hy Hk]. intros [= He H]. f_equal; [by apply Hf|by apply IH].
Qed.
Definition wf_asset (a : AssetRecord) : Prop := wf_digest (ar_digest a).
Definition wf_pin (p : DependencyPin) : Prop := wf_digest (pin_digest p).
Lemma asset_to_json_inj a b : wf_asset a -> wf_asset b ->
  canon (asset_to_json a) = canon (asset_to_json b) -> a = b.
Proof.
  intros Ha Hb H.
  assert (forall a, canon (asset_to_json a) = JObj [
    ("digest", JStr (digest_str (ar_digest a))); ("executable", JBool (ar_executable a));
    ("kind", JStr (enum_value (ar_kind a))); ("path", JStr (ar_path a));
    ("size", JInt (ar_size a))]) as He by reflexivity.
  rewrite !He in H. injection H as Hd Hx Hk Hp Hs. apply digest_str_inj in Hd; [|done..].
  change (enum_value (ar_kind a) = enum_value (ar_kind b)) in Hk. apply (inj enum_value) in Hk.
  destruct a, b. cbn in *. by subst.
Qed.
Lemma pin_to_json_inj p q : wf_pin p -> wf_pin q ->
  canon (pin_to_json p) = canon (pin_to_json q) -> p = q.
Proof.
  intros Hp Hq H.
  assert (forall p, canon (pin_to_json p) = JObj [
    ("closure_digest", JStr (digest_str (pin_digest p))); ("name", JStr (pin_name p));
    ("version", JStr (pin_version p))]) as He by reflexivity.
  rewrite !He in H. injection H as Hd Hn Hv. apply digest_str_inj in Hd; [|done..].
  destruct p, q. cbn in *. by subst.
Qed.
Lemma closure_payload_no_floats fs ps : no_floats (closure_payload fs ps) = true.
Proof.
  unfold closure_payload. cbn. rewrite !andb_true_iff.
  split_and!; try done; apply forallb_forall; by intros j (? & <- & _)%in_map_iff.
Qed.
(** Equal closure digests bind every record and every pin. *)
Lemma closure_digest_binds_records fs ps fs' ps' d :
  Forall wf_asset fs -> Forall wf_pin ps -> Forall wf_asset fs' -> Forall wf_pin ps' ->
  closure_digest fs ps = Ok d -> closure_digest fs' ps' = Ok d ->
  (sorted_assets fs = sorted_assets fs' /\ sorted_pins ps = sorted_pins ps') \/ sha256_collision.
Proof.
  intros Hf Hp Hf' Hp' H H'.
  destruct (digest_of_json_inj _ _ _ (closure_payload_no_floats fs ps)
    (closure_payload_no_floats fs' ps') H H') as [He|]; [left|by right].
  assert (forall fs ps, canon (closure_payload fs ps) = JObj [
    ("dependencies", JList (map canon (map pin_to_json (sorted_pins ps))));
    ("files", JList (map canon (map asset_to_json (sorted_assets fs))));
    ("schema", JInt CLOSURE_SCHEMA_VERSION)]) as Hc by reflexivity.
  rewrite !Hc in He. injection He as Hep Hef. rewrite !map_map in Hep, Hef.
  split.
  - apply (map_inj_on _ wf_asset) in Hef; [done|apply asset_to_json_inj|..];
      unfold sorted_assets; by rewrite (py_sort_perm asset_le).
  - apply (map_inj_on _ wf_pin) in Hep; [done|apply pin_to_json_inj|..];
      unfold sorted_pins; by rewrite (py_sort_perm pin_le).
Qed.

Lemma records_file_wf f a : records_file f a -> wf_asset a.
Proof. intros Hr. unfold wf_asset. rewrite (rf_digest _ _ Hr). split; [done|apply sha256_hex_shape]. Qed.
Lemma records_file_inj f g a : records_file f a -> records_file g a -> f = g \/ sha256_collision.
Proof.
  intros [H1 _ H2 _ H3] [H4 _ H5 _ H6]. rewrite H2 in H5. injection H5 as Hs.
  destruct (decide (pf_content f = pf_content g)) as [He|He]; [left|right; by do 2 eexists].
  destruct f, g. cbn in *. congruence.
Qed.
Lemma all_or_collision {A} (P : A -> Prop) (l : list A) :
  (forall x, x ∈ l -> P x \/ sha256_collision) -> (forall x, x ∈ l -> P x) \/ sha256_collision.
Proof.
  induction l as [|x l IH]; intros H; [left; by intros ? ?%not_elem_of_nil|].
  destruct (H x ltac:(left)) as [Hx|]; [|by right].
  destruct IH as [IH|]; [intros y Hy; apply H; by right| |by right]. left.
  intros y [->|Hy]%elem_of_cons; auto.
Qed.
Lemma recorded_files_included (fs gs : list PackageFile) rs : Forall2 records_file fs rs ->
  (forall a, a ∈ rs -> exists g, g ∈ gs /\ records_file g a) ->
  (forall f, f ∈ fs -> f ∈ gs) \/ sha256_collision.
Proof.
  intros Hr Hg. apply all_or_collision. intros f Hf.
  apply list_elem_of_lookup in Hf as [i Hi]. destruct (Forall2_lookup_l _ _ _ _ _ Hr Hi) as (a & Ha & Hra).
  destruct (Hg a) as (g & Hgin & Hga); [by eapply list_elem_of_lookup_2|].
  destruct (records_file_inj _ _ _ Hra Hga) as [->|]; [by left|by right].
Qed.
Lemma recorded_of (fs : list PackageFile) rs a : Forall2 records_file fs rs -> a ∈ rs -> exists g, g ∈ fs /\ records_file g a.
Proof.
  intros Hr [i Hi]%list_elem_of_lookup. destruct (Forall2_lookup_r _ _ _ _ _ Hr Hi) as (g & Hg & Hga).
  exists g. split; [by eapply list_elem_of_lookup_2|done].
Qed.
(** What a successful build leaves: unique keys, one record per file, a parsed manifest. *)
Record built_closure (files : list PackageFile) (c : PackageClosure) : Prop := {
  bc_keys : NoDup (map file_key files);
  bc_records : exists rs, Forall2 records_file files rs /\ cl_files c = sorted_assets rs;
  bc_manifest : exists raw, manifest_bytes_of files raw /\ parse_manifest raw = Ok (cl_manifest c);
}.
Lemma build_closure_built files c : build_closure files = Ok c -> built_closure files c.
Proof.
  unfold build_closure. rewrite raise_if_Ok. intros [_ H].
  apply bind_Ok in H as (st & [Hb Ha]%add_files_spec & H). pose proof (ad_keys _ Ha) as Hd.
  inv_ok. constructor; cbn [cl_files cl_manifest].
  - done.
  - exists (bs_records st). split; [by apply bt_records|done].
  - match goal with H : from_option_err _ (bs_manifest st) = Ok ?r |- _ => rename H into Hraw, r into raw end.
    exists raw. split; [|done]. rewrite (bt_manifest _ _ Hb) in Hraw.
    destruct (manifest_of files) eqn:Hm; [|done]. injection Hraw as ->.
    by apply manifest_of_Some in Hm.
Qed.
Lemma pins_wf_parse raw m : parse_manifest raw = Ok m -> Forall wf_pin (mf_dependencies m).
Proof.
  unfold parse_manifest. destruct (json_loads_unique raw) as [[| | | | | |document]|]; try done.
  unfold as_manifest_error. destruct (manifest_from_document document) as [m'|[]] eqn:Hd; try done.
  intros [= <-]. unfold manifest_from_document in Hd. inv_ok.
  unfold manifest_post_init in Hd. cbv zeta in Hd. inv_ok. cbn [mf_dependencies].
  unfold sorted_pins. rewrite (py_sort_perm pin_le).
  match goal with H : mapM_result pin_from_json _ = Ok _ |- _ => apply mapM_result_Ok in H as Hf end.
  clear -Hf. induction Hf as [|j p js ps Hp _ IH]; constructor; [|done].
  unfold pin_from_json in Hp. destruct j; try done. unfold pin_post_init in Hp. inv_ok.
  match goal with H : digest_from_text _ = Ok _ |- _ => by apply digest_of_str_wf in H end.
Qed.

(** The closure digest binds the package: two accepted file lists whose closures
    have the same digest hold the same files (path, content and mode, in some order),
    or exhibit a SHA-256 collision; so any change to a file, its mode or the manifest
    changes the digest. *)
Theorem closure_digest_binds (files files' : list PackageFile) (c c' : PackageClosure) (d : Digest)
    (Hc : build_closure files = Ok c) (Hc' : build_closure files' = Ok c')
    (Hd : pc_digest c = Ok d) (Hd' : pc_digest c' = Ok d) :
  files ≡ₚ files' \/ sha256_collision.
Proof.
  apply build_closure_built in Hc as [Hn (rs & Hr & Hf) (raw & _ & Hm%pins_wf_parse)].
  apply build_closure_built in Hc' as [Hn' (rs' & Hr' & Hf') (raw' & _ & Hm'%pins_wf_parse)].
  assert (Hwf : forall fs rs, Forall2 records_file fs rs -> Forall wf_asset (sorted_assets rs)).
  { intros fs qs Hq. unfold sorted_assets. rewrite (py_sort_perm asset_le).
    clear -Hq. induction Hq as [|f a fs qs Hfa _ IH]; constructor; [by eapply records_file_wf|done]. }
  unfold pc_digest in Hd, Hd'.
  assert (Forall wf_asset (cl_files c) /\ Forall wf_asset (cl_files c')) as [Hw Hw'].
  { rewrite Hf, Hf'. by split; eapply Hwf. }
  destruct (closure_digest_binds_records _ _ _ _ _ Hw Hm Hw' Hm' Hd Hd') as [[He _]|]; [|by right].
  assert (Hrs : rs ≡ₚ rs').
  { rewrite Hf, Hf' in He. unfold sorted_assets in He.
    rewrite <- (py_sort_perm asset_le rs), <- (py_sort_perm asset_le rs').
    rewrite <- (py_sort_perm asset_le (py_sort asset_le rs)), He.
    by rewrite (py_sort_perm asset_le (py_sort asset_le rs')). }
  assert (Hin : forall a, a ∈ rs -> exists g, g ∈ files' /\ records_file g a).
  { intros a Ha. apply (recorded_of _ rs' _ Hr'). by rewrite <- Hrs. }
  assert (Hin' : forall a, a ∈ rs' -> exists g, g ∈ files /\ records_file g a).
  { intros a Ha. apply (recorded_of _ rs _ Hr). by rewrite Hrs. }
  destruct (recorded_files_included _ _ _ Hr Hin) as [H1|]; [|by right].
  destruct (recorded_files_included _ _ _ Hr' Hin') as [H2|]; [left|by right].
  apply NoDup_Permutation; [by apply (NoDup_fmap_1 file_key)..|]. intros f. split; auto.
Qed.
End ClosureProofs.

(** ** A concrete package *)
Module Demo.
#[local] Existing Instance toy_runtime.
Definition manifest_document : list (string * json) :=
  [("schema_version", JInt 1); ("name", JStr "adr-writer"); ("version", JStr "1.1.1");
   ("kind", JStr "command"); ("license", JStr "MIT"); ("permissions", JList [JStr "process.execute"]);
   ("command", JObj [("argv", JList [JStr "python3"; JStr "scripts/run.py"]);
                     ("input_schema", JObj [("type", JStr "object")])])].
(** A decoder that knows one text. *)
Definition toy_loads (raw : list N) : option json :=
  if decide (raw = utf8 "manifest") then Some (JObj manifest_document) else None.
#[local] Program Instance toy_decoder : JsonDecoder := {| json_loads_unique := toy_loads |}.
Next Obligation. unfold toy_loads. intros raw j. case_decide; [by intros [= <-]|done]. Qed.
Definition files : list PackageFile :=
  [{| pf_path := "scripts/run.py"; pf_content := utf8 "print()"; pf_executable := true |};
   {| pf_path := "capability.json"; pf_content := utf8 "manifest"; pf_executable := false |};
   {| pf_path := "LICENSE-MIT"; pf_content := utf8 "text"; pf_executable := false |}].

Example refused_paths : map (fun p => is_ok (normalize_path p))
    ["../a.md"; "/etc/passwd"; "a//b.md"; "C:\x.md"; "a/./b.md"; "docs/a.md"] =
  [false; false; false; false; false; true].
Proof. vm_compute. reflexivity. Qed.
Example refused_assets : map (fun p => is_ok (classify_asset p false []))
    ["LICENSE.exe"; "setup.py"; "scripts/run.py"; "GPL-3"; "notes.md"; "data/x.csv"] =
  [false; false; true; false; true; true].
Proof. vm_compute. reflexivity. Qed.

Lemma build_closure_exact_witness : exists c, build_closure files = Ok c /\
  length (cl_files c) = 3 /\ forall command, mf_command (cl_manifest c) = Some command ->
    runs_script command (cl_files c) files.
Proof.
  destruct (build_closure files) as [c|e] eqn:Hb.
  - exists c. destruct (build_closure_exact files c InvalidInputError) as [[H _] _].
    destruct (H Hb) as (_ & _ & _ & _ & _ & _ & (rs & Hrs & Hc) & Hcmd).
    split_and!; [done| |exact Hcmd]. rewrite Hc. unfold sorted_assets.
    rewrite (py_sort_perm asset_le rs), <- (Forall2_length _ _ _ Hrs). reflexivity.
  - exfalso. vm_compute in Hb. discriminate Hb.
Defined.

Definition closure : PackageClosure := Eval vm_compute in
  match build_closure files with
  | Ok c => c
  | Err _ => {| cl_manifest := {| mf_name := ""; mf_version := ""; mf_kind := PK_ADAPTER;
      mf_license := None; mf_dependencies := []; mf_permissions := [];
      mf_compatibility := default_compatibility; mf_command := None |}; cl_files := [] |}
  end.
Definition digest : Digest := Eval vm_compute in
  match pc_digest closure with Ok d => d | Err _ => {| algorithm := ""; hex_value := "" |} end.
Lemma closure_digest_binds_witness : files ≡ₚ reverse files \/ sha256_collision.
Proof.
  apply (closure_digest_binds files (reverse files) closure closure digest);
    vm_compute; reflexivity.
Defined.
End Demo.
