(* ===== verification/Locks.v ===== *)
(** * Capability locks ([capabilities/lock.py], [capabilities/serialization.py],
      [capabilities/legacy_lock.py])

    Locked packages, the lock and its digest, approvals, drift checks, and the
    lockfile's JSON form.  Reading and writing the file itself is not modelled. *)
From S2P Require Import Prelude PyText Json Identity Regex Schemas Manifests Closures.

(** ** Provenance *)
Inductive ProvenanceStatus := LOCAL_TRUSTED | AUTHENTICATED | UNAUTHENTICATED.
#[export] Instance ProvenanceStatus_eq_dec : EqDecision ProvenanceStatus.
Proof. solve_decision. Defined.
#[export] Program Instance ProvenanceStatus_enum : PyEnum ProvenanceStatus := {|
  members := [LOCAL_TRUSTED; AUTHENTICATED; UNAUTHENTICATED];
  enum_value s := match s with LOCAL_TRUSTED => "local_trusted"
    | AUTHENTICATED => "authenticated" | UNAUTHENTICATED => "unauthenticated" end |}.
Next Obligation. solve_enum. Qed.
Next Obligation. solve_enum. Qed.
Record ProvenanceRecord := {
  pv_status : ProvenanceStatus; pv_source_label : string; pv_signer_key_id : option string;
  pv_verified_at : datetime }.
Definition provenance_post_init (p : ProvenanceRecord) : result ProvenanceRecord :=
  raise_when blank (pv_source_label p) as InvalidInputError ;;
  raise_when bool_decide (pv_status p = AUTHENTICATED) && bool_decide (pv_signer_key_id p = None)
    as InvalidInputError ;;
  raise_when negb (tz_aware (pv_verified_at p)) as InvalidInputError ;;
  Ok p.

(** ** Locked packages *)
Record LockedCapability := {
  lc_name : string; lc_version : string; lc_kind : PackageKind; lc_revision : string;
  lc_digest : Digest; lc_provenance : ProvenanceRecord; lc_license : option string;
  lc_introduced_by_run : bool; lc_files : list AssetRecord; lc_receipt : CompatibilityReceipt;
  lc_dependencies : list DependencyPin; lc_permissions : list CapabilityPermission;
  lc_compatibility : PackageCompatibility }.
(** [pin] *)
Definition lc_pin (e : LockedCapability) : DependencyPin :=
  {| pin_name := lc_name e; pin_version := lc_version e; pin_digest := lc_digest e |}.
Definition requires_human_approval (e : LockedCapability) : bool :=
  lc_introduced_by_run e || bool_decide (pv_status (lc_provenance e) = UNAUTHENTICATED).
Definition license_disposition (e : LockedCapability) : LicenseDisposition :=
  classify_license (lc_license e).
Definition redistribution_blocked (e : LockedCapability) : bool :=
  lc_introduced_by_run e && is_hold (license_disposition e).
Definition lc_le (e f : LockedCapability) : Prop := String.le (lc_name e) (lc_name f).
#[export] Instance lc_le_dec e f : Decision (lc_le e f).
Proof. unfold lc_le. apply _. Defined.

Section Locks.
Context `{rt : PyRuntime} `{iso : IsoCodec}.

Definition locked_post_init (e : LockedCapability) : result LockedCapability :=
  _ ← validate_name (lc_name e); _ ← validate_version (lc_version e);
  raise_when blank (lc_revision e) as InvalidInputError ;;
  let is_local_trusted := bool_decide (pv_status (lc_provenance e) = LOCAL_TRUSTED) in
  raise_when lc_introduced_by_run e && is_local_trusted as InvalidInputError ;;
  raise_when negb (lc_introduced_by_run e) && negb is_local_trusted as InvalidInputError ;;
  raise_when bool_decide (lc_files e = []) as InvalidInputError ;;
  let files := sorted_assets (lc_files e) in
  let dependencies := sorted_pins (lc_dependencies e) in
  digest ← closure_digest files dependencies;
  raise_when negb (bool_decide (digest = lc_digest e)) as InvalidInputError ;;
  Ok {| lc_name := lc_name e; lc_version := lc_version e; lc_kind := lc_kind e;
        lc_revision := lc_revision e; lc_digest := lc_digest e;
        lc_provenance := lc_provenance e; lc_license := lc_license e;
        lc_introduced_by_run := lc_introduced_by_run e; lc_files := files;
        lc_receipt := lc_receipt e; lc_dependencies := dependencies;
        lc_permissions := sorted_permissions (lc_permissions e);
        lc_compatibility := lc_compatibility e |}.

(** ** The lock *)
Record CapabilityLock := {
  lk_entries : list LockedCapability; lk_retained_pins : list DependencyPin }.
Definition find_entry (entries : list LockedCapability) (name : string) : option LockedCapability :=
  List.find (fun e => String.eqb (lc_name e) name) entries.
Definition find_pin (pins : list DependencyPin) (name : string) : option DependencyPin :=
  List.find (fun p => String.eqb (pin_name p) name) pins.
(** Every declared pin is met by an entry of the lock. *)
Definition pins_satisfied (entries : list LockedCapability) : bool :=
  forallb (fun e => forallb (fun p => bool_decide (lc_pin <$> find_entry entries (pin_name p) = Some p))
                      (lc_dependencies e)) entries.
Definition lock_post_init (l : CapabilityLock) : result CapabilityLock :=
  let names := map lc_name (lk_entries l) in
  raise_when negb (bool_decide (NoDup names)) as InvalidInputError ;;
  let ordered := py_sort lc_le (lk_entries l) in
  let retained_names := map pin_name (lk_retained_pins l) in
  raise_when negb (bool_decide (NoDup retained_names)) as InvalidInputError ;;
  raise_when existsb (fun n => bool_decide (n ∈ names)) retained_names as InvalidInputError ;;
  raise_when negb (pins_satisfied ordered) as InvalidInputError ;;
  Ok {| lk_entries := ordered; lk_retained_pins := sorted_pins (lk_retained_pins l) |}.
Definition lock_get (l : CapabilityLock) (name : string) : option LockedCapability :=
  find_entry (lk_entries l) name.
Definition pin_for (l : CapabilityLock) (name : string) : option DependencyPin :=
  match lock_get l name with
  | Some e => Some (lc_pin e)
  | None => find_pin (lk_retained_pins l) name
  end.
Definition opt_text (o : option string) : json := from_option JStr JNull o.
Definition permissions_json (l : list CapabilityPermission) : json :=
  JList (map (fun p => JStr (enum_value p)) l).
Definition locked_digest_payload (e : LockedCapability) : json :=
  JObj [("name", JStr (lc_name e)); ("version", JStr (lc_version e));
        ("kind", JStr (enum_value (lc_kind e))); ("revision", JStr (lc_revision e));
        ("digest", JStr (digest_str (lc_digest e))); ("license", opt_text (lc_license e));
        ("source_label", JStr (pv_source_label (lc_provenance e)));
        ("provenance_status", JStr (enum_value (pv_status (lc_provenance e))));
        ("signer_key_id", opt_text (pv_signer_key_id (lc_provenance e)));
        ("introduced_by_run", JBool (lc_introduced_by_run e));
        ("permissions", permissions_json (lc_permissions e));
        ("compatibility", compatibility_to_json (lc_compatibility e));
        ("compatibility_receipt", receipt_to_json (lc_receipt e));
        ("dependencies", JList (map pin_to_json (lc_dependencies e)))].
Definition lock_digest (l : CapabilityLock) : result Digest :=
  digest_of_json (JList (map locked_digest_payload (lk_entries l))).
Definition pending_approval (l : CapabilityLock) : list LockedCapability :=
  List.filter requires_human_approval (lk_entries l).

(** ** Approvals *)
Record CapabilityApproval := {
  ca_name : string; ca_closure_digest : Digest; ca_lock_digest : Digest }.
#[export] Instance CapabilityApproval_eq_dec : EqDecision CapabilityApproval.
Proof. solve_decision. Defined.
(** [ApprovedCapabilities]: the members of a frozen set. *)
Definition ApprovedCapabilities : Type := list CapabilityApproval.
Definition NO_APPROVALS : ApprovedCapabilities := [].
Definition covers (approvals : ApprovedCapabilities) (e : LockedCapability) (lock_digest : Digest)
    : bool :=
  negb (requires_human_approval e) ||
  bool_decide ({| ca_name := lc_name e; ca_closure_digest := lc_digest e;
                  ca_lock_digest := lock_digest |} ∈ approvals).

(** ** Drift *)
Definition check_pin (previous : CapabilityLock) (e : LockedCapability) : result () :=
  match pin_for previous (lc_name e) with
  | None => Ok ()
  | Some earlier =>
      raise_when negb (String.eqb (pin_version earlier) (lc_version e)) as CapabilityLockDriftError ;;
      raise_when negb (bool_decide (pin_digest earlier = lc_digest e)) as CapabilityLockDriftError ;;
      Ok ()
  end.
Definition check_pins (previous : option CapabilityLock) (resolved : CapabilityLock) : result () :=
  match previous with
  | None => Ok ()
  | Some previous => each_result (check_pin previous) (lk_entries resolved)
  end.
Definition carry_pins (previous : option CapabilityLock) (resolved : CapabilityLock)
    : result CapabilityLock :=
  _ ← check_pins previous resolved;
  match previous with
  | None => Ok resolved
  | Some previous =>
      let names := map lc_name (lk_entries resolved) in
      let earlier := map lc_pin (lk_entries previous) ++ lk_retained_pins previous in
      let kept := List.filter (fun p => negb (bool_decide (pin_name p ∈ names))) earlier in
      lock_post_init {| lk_entries := lk_entries resolved; lk_retained_pins := kept |}
  end.

(** ** The lockfile ([capabilities/serialization.py]) *)
Definition LOCK_SCHEMA_VERSION : Z := 2.
Definition entry_to_json (e : LockedCapability) : json :=
  JObj [("name", JStr (lc_name e)); ("version", JStr (lc_version e));
        ("kind", JStr (enum_value (lc_kind e))); ("revision", JStr (lc_revision e));
        ("digest", JStr (digest_str (lc_digest e))); ("license", opt_text (lc_license e));
        ("introduced_by_run", JBool (lc_introduced_by_run e));
        ("provenance", JObj [
           ("status", JStr (enum_value (pv_status (lc_provenance e))));
           ("source_label", JStr (pv_source_label (lc_provenance e)));
           ("signer_key_id", opt_text (pv_signer_key_id (lc_provenance e)));
           ("verified_at", JStr (isoformat (pv_verified_at (lc_provenance e))))]);
        ("files", JList (map asset_to_json (lc_files e)));
        ("dependencies", JList (map pin_to_json (lc_dependencies e)));
        ("permissions", permissions_json (lc_permissions e));
        ("compatibility", compatibility_to_json (lc_compatibility e));
        ("compatibility_receipt", receipt_to_json (lc_receipt e))].
Definition lock_to_json (l : CapabilityLock) : list (string * json) :=
  [("schema_version", JInt LOCK_SCHEMA_VERSION);
   ("entries", JList (map entry_to_json (lk_entries l)));
   ("retained_pins", JList (map pin_to_json (lk_retained_pins l)))].

(** [_entries], [_str], [_list], [_digest], [_pin] *)
Definition lock_entries (data : json) : result (list json) :=
  match data with
  | JObj m => match dict_get "entries" m with Some (JList l) => Ok l | _ => Err InvalidInputError end
  | _ => Err InvalidInputError
  end.
Definition lock_str (data : list (string * json)) (key : string) : result string :=
  match dict_get key data with
  | Some (JStr s) => if blank s then Err InvalidInputError else Ok s
  | _ => Err InvalidInputError
  end.
Definition lock_list (data : list (string * json)) (key : string) : result (list json) :=
  match dict_get key data with Some (JList l) => Ok l | _ => Err InvalidInputError end.
Definition lock_read_digest (data : list (string * json)) (key : string) : result Digest :=
  s ← lock_str data key; digest_from_text s.
Definition lock_pin (item : json) : result DependencyPin :=
  match item with
  | JObj m =>
      name ← lock_str m "name"; version ← lock_str m "version";
      digest ← lock_read_digest m "closure_digest";
      pin_post_init {| pin_name := name; pin_version := version; pin_digest := digest |}
  | _ => Err InvalidInputError
  end.
Definition str_or_none (v : option json) : option string :=
  match v with Some (JStr s) => Some s | _ => None end.
(** [_provenance] *)
Definition provenance_from_json (item : list (string * json)) : result ProvenanceRecord :=
  match dict_get "provenance" item with
  | Some (JObj data) =>
      status_text ← lock_str data "status"; status ← enum_of_value status_text;
      source_label ← lock_str data "source_label";
      verified_text ← lock_str data "verified_at";
      verified_at ← from_option_err PyValueError (fromisoformat verified_text);
      provenance_post_init {|
        pv_status := status; pv_source_label := source_label;
        pv_signer_key_id := str_or_none (dict_get "signer_key_id" data);
        pv_verified_at := verified_at |}
  | _ => Err InvalidInputError
  end.
(** [except ValueError] *)
Definition as_invalid_input {A} (r : result A) : result A :=
  match r with Err PyValueError => Err InvalidInputError | r => r end.
(** [_entry_from_json] *)
Definition entry_from_json (item : json) : result LockedCapability :=
  match item with
  | JObj m =>
      introduced ← (match dict_get "introduced_by_run" m with
                    | Some (JBool b) => Ok b | _ => Err InvalidInputError end);
      as_invalid_input (
        name ← lock_str m "name"; version ← lock_str m "version";
        kind_text ← lock_str m "kind"; kind ← enum_of_value kind_text;
        revision ← lock_str m "revision"; digest ← lock_read_digest m "digest";
        provenance ← provenance_from_json m;
        files ← lock_list m "files"; records ← mapM_result asset_from_json files;
        pins ← lock_list m "dependencies"; dependencies ← mapM_result lock_pin pins;
        items ← lock_list m "permissions"; permissions ← mapM_result permission_from_json items;
        compatibility ← compatibility_from_json (default JNull (dict_get "compatibility" m));
        receipt ← receipt_from_json (default JNull (dict_get "compatibility_receipt" m));
        locked_post_init {|
          lc_name := name; lc_version := version; lc_kind := kind; lc_revision := revision;
          lc_digest := digest; lc_provenance := provenance;
          lc_license := str_or_none (dict_get "license" m); lc_introduced_by_run := introduced;
          lc_files := records; lc_receipt := receipt; lc_dependencies := dependencies;
          lc_permissions := permissions; lc_compatibility := compatibility |})
  | _ => Err InvalidInputError
  end.
Definition lock_from_json (data : json) : result CapabilityLock :=
  entries ← lock_entries data;
  match data with
  | JObj m =>
      match dict_get "schema_version" m with
      | None => Err CapabilityLegacyLockError
      | Some v =>
          raise_when match v with JInt z => negb (z =? LOCK_SCHEMA_VERSION)%Z | _ => true end
            as InvalidInputError ;;
          retained ← lock_list m "retained_pins";
          decoded ← mapM_result entry_from_json entries;
          pins ← mapM_result lock_pin retained;
          lock_post_init {| lk_entries := decoded; lk_retained_pins := pins |}
      end
  | _ => Err CapabilityLegacyLockError
  end.

(** ** Legacy locks ([capabilities/legacy_lock.py]) *)
Record LegacyLockedCapability := {
  ll_name : string; ll_version : string; ll_digest : Digest; ll_provenance : ProvenanceRecord;
  ll_license : option string; ll_introduced_by_run : bool }.
Definition LegacyCapabilityLock : Type := list LegacyLockedCapability.
(** [bool(value)] of a decoded value, absent being [None]. *)
Definition py_truth (v : option json) : bool :=
  match v with
  | None | Some JNull => false
  | Some (JBool b) => b
  | Some (JInt z) => negb (z =? 0)%Z
  | Some (JFloat f) => match f with SpecFloat.S754_zero _ => false | _ => true end
  | Some (JStr s) => negb (String.eqb s "")
  | Some (JList l) => match l with [] => false | _ => true end
  | Some (JObj m) => match m with [] => false | _ => true end
  end.
(** [_legacy_entry_from_json] *)
Definition legacy_entry_from_json (item : json) : result LegacyLockedCapability :=
  match item with
  | JObj m =>
      name ← lock_str m "name"; version ← lock_str m "version";
      digest ← lock_read_digest m "digest"; provenance ← provenance_from_json m;
      Ok {| ll_name := name; ll_version := version; ll_digest := digest;
            ll_provenance := provenance; ll_license := str_or_none (dict_get "license" m);
            ll_introduced_by_run := py_truth (dict_get "introduced_by_run" m) |}
  | _ => Err InvalidInputError
  end.
Definition ll_le (e f : LegacyLockedCapability) : Prop := String.le (ll_name e) (ll_name f).
#[export] Instance ll_le_dec e f : Decision (ll_le e f).
Proof. unfold ll_le. apply _. Defined.
Definition legacy_lock_from_json (data : json) : result LegacyCapabilityLock :=
  entries ← lock_entries data;
  raise_when match data with JObj m => has_key "schema_version" m | _ => false end
    as InvalidInputError ;;
  decoded ← mapM_result legacy_entry_from_json entries;
  raise_when negb (bool_decide (NoDup (map ll_name decoded))) as InvalidInputError ;;
  Ok (py_sort ll_le decoded).
Definition is_legacy_lock (data : json) : bool :=
  match data with
  | JObj m => negb (has_key "schema_version" m) && has_key "entries" m
  | _ => false
  end.
Definition legacy_digest (l : LegacyCapabilityLock) : result Digest :=
  digest_of_json (JList (map (fun e => JObj [
    ("name", JStr (ll_name e)); ("version", JStr (ll_version e));
    ("digest", JStr (digest_str (ll_digest e)));
    ("provenance_status", JStr (enum_value (pv_status (ll_provenance e))));
    ("introduced_by_run", JBool (ll_introduced_by_run e))]) l)).
End Locks.
