(* ===== verification/LockProofs.v ===== *)
(** * What a capability lock guarantees

    A lock read from a lockfile is well formed and survives writing and reading, its
    digest binds every field a pending package is judged by, and carrying pins from
    lock to lock never moves one. *)
From S2P Require Import Prelude PyText Json Identity IdentityProofs JsonCanon.
From S2P Require Import PlanExecutionProofs Regex Schemas Manifests Closures ClosureProofs Locks.

(** ** Orders *)
#[export] Instance asset_le_trans : Transitive asset_le.
Proof. intros x y z. unfold asset_le. apply transitivity. Qed.
#[export] Instance asset_le_total : Total asset_le.
Proof. intros x y. apply (total String.le). Qed.
#[export] Instance pin_le_trans : Transitive pin_le.
Proof. intros x y z. unfold pin_le. apply transitivity. Qed.
#[export] Instance pin_le_total : Total pin_le.
Proof. intros x y. apply (total String.le). Qed.
#[export] Instance lc_le_trans : Transitive lc_le.
Proof. intros x y z. unfold lc_le. apply transitivity. Qed.
#[export] Instance lc_le_total : Total lc_le.
Proof. intros x y. apply (total String.le). Qed.
#[export] Instance permission_le_trans : Transitive permission_le.
Proof. intros x y z. unfold permission_le. apply transitivity. Qed.
#[export] Instance permission_le_total : Total permission_le.
Proof. intros x y. apply (total String.le). Qed.
#[export] Instance permission_le_anti : AntiSymm (=) permission_le.
Proof. intros x y Hx Hy. apply (inj enum_value). by apply (anti_symm String.le). Qed.

(** [sorted(set(...))] of a sorted set is itself. *)
Lemma remove_dups_nodup `{EqDecision A} (l : list A) : NoDup l -> remove_dups l = l.
Proof.
  induction 1 as [|x l Hx _ IH]; cbn; [done|].
  destruct (decide_rel _ x l); [done|]. by rewrite IH.
Qed.
Lemma sorted_set_idempotent `{EqDecision A} (R : relation A) `{!forall x y, Decision (R x y)}
    `{!Transitive R, !Total R, !AntiSymm (=) R} (l : list A) :
  merge_sort R (remove_dups (merge_sort R (remove_dups l))) = merge_sort R (remove_dups l).
Proof.
  rewrite remove_dups_nodup.
  - apply (Sorted_unique R); [apply (Sorted_merge_sort _)..|apply merge_sort_Permutation].
  - rewrite merge_sort_Permutation. apply NoDup_remove_dups.
Qed.

(** ** Texts that are read back *)
Lemma validate_nonblank c r s : regular r = true -> (forall x, c x = true -> py_isspace x = false) ->
  regex_fullmatch (RSeq (RRep c 1 (Some 1)) r) s = true -> blank s = false.
Proof.
  intros Hr Hc. rewrite regex_fullmatch_spec by done.
  intros (x & y & Hs & (Hx & Hlen & _) & _). destruct x as [|a x]; [cbn in Hlen; lia|].
  apply Forall_cons in Hx as [Ha _]. destruct s as [|b s]; [done|]. cbn in Hs.
  injection Hs as -> _. by apply nonblank_cons, Hc.
Qed.
Lemma alnum_nonspace x : is_alnum x = true -> py_isspace x = false.
Proof. destruct x as [[] [] [] [] [] [] [] []]; vm_compute; congruence. Qed.
Lemma validate_name_Ok s t : validate_name s = Ok t -> t = s /\ blank s = false.
Proof.
  unfold validate_name. rewrite raise_if_Ok, negb_false_iff. intros [H [= ->]].
  split; [done|]. by eapply validate_nonblank, H; [|apply alnum_nonspace].
Qed.
Lemma validate_version_Ok s t : validate_version s = Ok t -> t = s /\ blank s = false.
Proof.
  unfold validate_version. rewrite raise_if_Ok, negb_false_iff. intros [H [= ->]].
  split; [done|]. by eapply validate_nonblank, H; [|apply alnum_nonspace].
Qed.

Lemma canon_strs {A} (f : A -> string) l :
  canon (JList (map (fun x => JStr (f x)) l)) = JList (map (fun x => JStr (f x)) l).
Proof. cbn [canon]. by rewrite map_map. Qed.
Lemma lock_str_get m k s : dict_get k m = Some (JStr s) -> blank s = false -> lock_str m k = Ok s.
Proof. unfold lock_str. by intros -> ->. Qed.
Lemma opt_text_read o : str_or_none (Some (opt_text o)) = o.
Proof. by destruct o. Qed.
Lemma canon_opt_text o : canon (opt_text o) = opt_text o.
Proof. by destruct o. Qed.
Lemma mapM_result_canon {A} (f : json -> result A) (g : A -> json) (P : A -> Prop) l :
  (forall x, P x -> f (canon (g x)) = Ok x) -> Forall P l ->
  mapM_result f (map canon (map g l)) = Ok l.
Proof.
  intros Hf Hl. rewrite map_map. apply mapM_result_map. eapply Forall_impl; [exact Hl|]. auto.
Qed.
Lemma mapM_result_inv {A B} (f : A -> result B) (P : B -> Prop) l k :
  (forall x y, f x = Ok y -> P y) -> mapM_result f l = Ok k -> Forall P k.
Proof.
  intros Hf Hk%mapM_result_Ok. induction Hk; constructor; eauto.
Qed.

(** ** Parts of an entry *)
Definition asset_ok (a : AssetRecord) : Prop := wf_asset a /\ asset_post_init a = Ok a.
Lemma asset_read_ok j a : asset_from_json j = Ok a -> asset_ok a.
Proof.
  unfold asset_from_json. destruct j; try done. intros H.
  repeat case_match; try done. inv_ok.
  match goal with H : asset_post_init _ = Ok _ |- _ => rename H into Hp end.
  pose proof Hp as Hq. unfold asset_post_init in Hq. inv_ok.
  split; [|done]. match goal with H : digest_from_text _ = Ok _ |- _ => by apply digest_of_str_wf in H end.
Qed.
Lemma asset_read_written a : asset_ok a -> asset_from_json (canon (asset_to_json a)) = Ok a.
Proof.
  intros [Hd Hp].
  assert (canon (asset_to_json a) = JObj [
    ("digest", JStr (digest_str (ar_digest a))); ("executable", JBool (ar_executable a));
    ("kind", JStr (enum_value (ar_kind a))); ("path", JStr (ar_path a));
    ("size", JInt (ar_size a))]) as -> by reflexivity.
  unfold asset_from_json. cbn -[enum_value digest_from_text asset_post_init enum_of_value].
  rewrite enum_of_value_of. cbn -[digest_from_text asset_post_init].
  unfold digest_from_text. rewrite digest_of_str_str by done. cbn -[asset_post_init].
  by destruct a.
Qed.
Definition pin_ok (p : DependencyPin) : Prop := wf_pin p /\ pin_post_init p = Ok p.
Lemma pin_read_ok j p : lock_pin j = Ok p -> pin_ok p.
Proof.
  unfold lock_pin. destruct j; try done. intros H. inv_ok. pose proof H as Hq.
  unfold pin_post_init in Hq. inv_ok. split; [|done].
  match goal with H : lock_read_digest _ _ = Ok _ |- _ => unfold lock_read_digest in H end.
  inv_ok. match goal with H : digest_from_text _ = Ok _ |- _ => by apply digest_of_str_wf in H end.
Qed.
Lemma lock_read_digest_get m k d : dict_get k m = Some (JStr (digest_str d)) -> wf_digest d ->
  lock_read_digest m k = Ok d.
Proof.
  intros Hg Hd. unfold lock_read_digest.
  rewrite (lock_str_get _ _ _ Hg) by (by apply digest_str_nonblank).
  by apply digest_of_str_str.
Qed.
Lemma pin_names_nonblank p : pin_post_init p = Ok p ->
  blank (pin_name p) = false /\ blank (pin_version p) = false.
Proof.
  unfold pin_post_init. intros H. inv_ok.
  split; [by eapply validate_name_Ok|by eapply validate_version_Ok].
Qed.
Lemma pin_read_written p : pin_ok p -> lock_pin (canon (pin_to_json p)) = Ok p.
Proof.
  intros [Hd Hp]. destruct (pin_names_nonblank p Hp) as [Hn Hv].
  assert (canon (pin_to_json p) = JObj [
    ("closure_digest", JStr (digest_str (pin_digest p))); ("name", JStr (pin_name p));
    ("version", JStr (pin_version p))]) as -> by reflexivity.
  unfold lock_pin. cbv beta iota. rewrite (lock_str_get _ "name" (pin_name p)) by done.
  rewrite (lock_str_get _ "version" (pin_version p)) by done. cbn [mbind result_bind].
  rewrite (lock_read_digest_get _ _ (pin_digest p)) by done.
  cbn [mbind result_bind]. by destruct p.
Qed.
Lemma compatibility_post_idempotent c c' :
  compatibility_post_init c = Ok c' -> compatibility_post_init c' = Ok c'.
Proof.
  unfold compatibility_post_init. intros H. inv_ok. cbn [adapter_api_min adapter_api_max platforms].
  rewrite !raise_if_Ok. split_and!; try done.
  - rewrite existsb_false in *. intros x Hx. 
    match goal with H : forall y, y ∈ platforms c -> _ |- _ => apply H end.
    unfold sorted_set in Hx. by rewrite merge_sort_Permutation, elem_of_remove_dups in Hx.
  - unfold sorted_set. by rewrite (sorted_set_idempotent String.le).
Qed.
Lemma compatibility_read_ok j c : compatibility_from_json j = Ok c -> compatibility_post_init c = Ok c.
Proof.
  unfold compatibility_from_json. destruct j; try done. intros H. inv_ok.
  by eapply compatibility_post_idempotent.
Qed.
Lemma compatibility_read_written c : compatibility_post_init c = Ok c ->
  compatibility_from_json (canon (compatibility_to_json c)) = Ok c.
Proof.
  intros Hc.
  assert (canon (compatibility_to_json c) = JObj [
    ("adapter_api_max", canon (from_option JInt JNull (adapter_api_max c)));
    ("adapter_api_min", JInt (adapter_api_min c));
    ("platforms", canon (JList (map (fun x => JStr x) (platforms c))))]) as -> by reflexivity.
  rewrite canon_strs. destruct c as [lo [hi|] ps]; unfold compatibility_from_json;
    cbn -[compatibility_post_init]; by rewrite (mapM_result_map _ (fun x => JStr x)) by (by apply Forall_true).
Qed.
Lemma receipt_post_idempotent r r' : receipt_post_init r = Ok r' -> receipt_post_init r' = Ok r'.
Proof. intros H. pose proof H as [_ [= <-]]%raise_if_Ok. exact H. Qed.
Lemma receipt_read_ok j r : receipt_from_json j = Ok r -> receipt_post_init r = Ok r.
Proof.
  unfold receipt_from_json. destruct j; try done. intros H. inv_ok.
  by eapply receipt_post_idempotent.
Qed.
Lemma receipt_read_written r : receipt_post_init r = Ok r ->
  receipt_from_json (canon (receipt_to_json r)) = Ok r.
Proof.
  intros Hr.
  assert (canon (receipt_to_json r) = JObj [
    ("host_adapter_api_version", JInt (rc_host_api r)); ("host_platform", JStr (rc_host_platform r));
    ("reasons", canon (JList (map (fun x => JStr x) (rc_reasons r))));
    ("status", JStr (enum_value (rc_status r)))]) as -> by reflexivity.
  rewrite canon_strs. unfold receipt_from_json. cbn -[enum_value enum_of_value receipt_post_init].
  rewrite (mapM_result_map _ (fun x => JStr x)) by (by apply Forall_true).
  cbn -[enum_value enum_of_value receipt_post_init]. rewrite enum_of_value_of.
  cbn -[receipt_post_init]. by destruct r.
Qed.

Section LockProofs.
Context `{rt : PyRuntime} `{iso : IsoCodec}.

Definition provenance_ok (p : ProvenanceRecord) : Prop := provenance_post_init p = Ok p.
Lemma provenance_read_ok m p : provenance_from_json m = Ok p -> provenance_ok p.
Proof.
  unfold provenance_from_json. repeat case_match; try done. intros Hp. inv_ok.
  pose proof Hp as Hq. unfold provenance_post_init in Hq. by inv_ok.
Qed.
Definition provenance_json (p : ProvenanceRecord) : json := JObj [
  ("status", JStr (enum_value (pv_status p))); ("source_label", JStr (pv_source_label p));
  ("signer_key_id", opt_text (pv_signer_key_id p)); ("verified_at", JStr (isoformat (pv_verified_at p)))].
Lemma provenance_read_written p m : provenance_ok p ->
  dict_get "provenance" m = Some (canon (provenance_json p)) -> provenance_from_json m = Ok p.
Proof.
  intros Hp Hm. pose proof Hp as Hq. unfold provenance_ok, provenance_post_init in Hq. inv_ok.
  assert (canon (provenance_json p) = JObj [
    ("signer_key_id", canon (opt_text (pv_signer_key_id p)));
    ("source_label", JStr (pv_source_label p)); ("status", JStr (enum_value (pv_status p)));
    ("verified_at", JStr (isoformat (pv_verified_at p)))]) as Hc by reflexivity.
  rewrite Hc, canon_opt_text in Hm. unfold provenance_from_json. rewrite Hm.
  rewrite (lock_str_get _ "status" (enum_value (pv_status p))) by (done || by destruct (pv_status p)).
  cbn [mbind result_bind]. rewrite enum_of_value_of. cbn [mbind result_bind].
  rewrite (lock_str_get _ "source_label" (pv_source_label p)) by done. cbn [mbind result_bind].
  destruct p as [st lbl key [us|us]]; cbn [pv_verified_at tz_aware negb] in *; [|done].
  rewrite (lock_str_get _ "verified_at" (isoformat (Aware us)))
    by (done || apply isoformat_nonblank).
  cbn [mbind result_bind]. rewrite fromisoformat_isoformat. cbn -[provenance_post_init].
  by destruct key; apply Hp.
Qed.

(** ** Entries *)
Record wf_locked (e : LockedCapability) : Prop := {
  wl_provenance : provenance_ok (lc_provenance e);
  wl_files : Forall asset_ok (lc_files e);
  wl_pins : Forall pin_ok (lc_dependencies e);
  wl_compatibility : compatibility_post_init (lc_compatibility e) = Ok (lc_compatibility e);
  wl_receipt : receipt_post_init (lc_receipt e) = Ok (lc_receipt e);
  wl_digest : wf_digest (lc_digest e);
  wl_post : locked_post_init e = Ok e;
}.
Lemma closure_digest_sorted fs ps :
  closure_digest (sorted_assets fs) (sorted_pins ps) = closure_digest fs ps.
Proof.
  unfold closure_digest, closure_payload, sorted_assets, sorted_pins.
  by rewrite !py_sort_idempotent by apply _.
Qed.
Lemma locked_post_idempotent e e' : locked_post_init e = Ok e' -> locked_post_init e' = Ok e'.
Proof.
  unfold locked_post_init. intros H. inv_ok. cbn [lc_name lc_version lc_kind lc_revision lc_digest
    lc_provenance lc_license lc_introduced_by_run lc_files lc_receipt lc_dependencies lc_permissions
    lc_compatibility].
  repeat match goal with H : validate_name _ = Ok _ |- _ => rewrite H; clear H
    | H : validate_version _ = Ok _ |- _ => rewrite H; clear H end.
  cbn [mbind result_bind]. rewrite !raise_if_Ok. split_and!; try done.
  - rewrite bool_decide_eq_false in *. unfold sorted_assets. by rewrite py_sort_nil.
  - apply bind_Ok. eexists. split; [rewrite closure_digest_sorted; eassumption|].
    rewrite raise_if_Ok. split; [done|]. unfold sorted_assets, sorted_pins, sorted_permissions.
    rewrite !py_sort_idempotent by apply _. by rewrite (sorted_set_idempotent permission_le).
Qed.
Lemma locked_post_wf e e' : provenance_ok (lc_provenance e) -> Forall asset_ok (lc_files e) ->
  Forall pin_ok (lc_dependencies e) ->
  compatibility_post_init (lc_compatibility e) = Ok (lc_compatibility e) ->
  receipt_post_init (lc_receipt e) = Ok (lc_receipt e) -> wf_digest (lc_digest e) ->
  locked_post_init e = Ok e' -> wf_locked e'.
Proof.
  intros Hp Hf Hd Hc Hr Hg He. pose proof He as Hi%locked_post_idempotent.
  unfold locked_post_init in He. inv_ok. constructor; cbn; try done.
  - unfold sorted_assets. by rewrite py_sort_perm.
  - unfold sorted_pins. by rewrite py_sort_perm.
Qed.
Lemma entry_read_wf j e : entry_from_json j = Ok e -> wf_locked e.
Proof.
  unfold entry_from_json. destruct j as [| | | | | |m]; try done. intros H. inv_ok.
  unfold as_invalid_input in H.
  match type of H with match ?r with _ => _ end = _ => destruct r as [y|[]] eqn:Hr; try done end.
  injection H as ->. inv_ok.
  match goal with H : locked_post_init _ = Ok _ |- _ => eapply locked_post_wf in H; [exact H|..] end;
    cbn [lc_provenance lc_files lc_dependencies lc_compatibility lc_receipt lc_digest].
  - by eapply provenance_read_ok.
  - eapply mapM_result_inv; [apply asset_read_ok|eassumption].
  - eapply mapM_result_inv; [apply pin_read_ok|eassumption].
  - by eapply compatibility_read_ok.
  - by eapply receipt_read_ok.
  - match goal with H : lock_read_digest _ _ = Ok _ |- _ => unfold lock_read_digest in H end.
    inv_ok. match goal with H : digest_from_text _ = Ok _ |- _ => by apply digest_of_str_wf in H end.
Qed.
Lemma entry_read_written e : wf_locked e -> entry_from_json (canon (entry_to_json e)) = Ok e.
Proof.
  intros [Hp Hf Hd Hc Hr Hg He]. pose proof He as Hq. unfold locked_post_init in Hq. inv_ok.
  assert (canon (entry_to_json e) = JObj [
    ("compatibility", canon (compatibility_to_json (lc_compatibility e)));
    ("compatibility_receipt", canon (receipt_to_json (lc_receipt e)));
    ("dependencies", JList (map canon (map pin_to_json (lc_dependencies e))));
    ("digest", JStr (digest_str (lc_digest e)));
    ("files", JList (map canon (map asset_to_json (lc_files e))));
    ("introduced_by_run", JBool (lc_introduced_by_run e));
    ("kind", JStr (enum_value (lc_kind e)));
    ("license", canon (opt_text (lc_license e)));
    ("name", JStr (lc_name e));
    ("permissions", canon (JList (map (fun p => JStr (enum_value p)) (lc_permissions e))));
    ("provenance", canon (provenance_json (lc_provenance e)));
    ("revision", JStr (lc_revision e));
    ("version", JStr (lc_version e))]) as -> by reflexivity.
  rewrite canon_strs, canon_opt_text. unfold entry_from_json. cbn [dict_get String.eqb Ascii.eqb Bool.eqb].
  match goal with |- (_ ← Ok ?b; _) = _ => cbn [mbind result_bind] end.
  match goal with H : validate_name _ = Ok _ |- _ => apply validate_name_Ok in H as [_ Hn] end.
  match goal with H : validate_version _ = Ok _ |- _ => apply validate_version_Ok in H as [_ Hv] end.
  match goal with |- context [lock_str ?m "name"] => set (data := m) end.
  rewrite (lock_str_get data "name" (lc_name e)) by done. cbn [mbind result_bind].
  rewrite (lock_str_get data "version" (lc_version e)) by done. cbn [mbind result_bind].
  rewrite (lock_str_get data "kind" (enum_value (lc_kind e))) by (done || by destruct (lc_kind e)).
  cbn [mbind result_bind]. rewrite enum_of_value_of. cbn [mbind result_bind].
  rewrite (lock_str_get data "revision" (lc_revision e)) by done. cbn [mbind result_bind].
  rewrite (lock_read_digest_get data "digest" (lc_digest e)) by done. cbn [mbind result_bind].
  rewrite (provenance_read_written (lc_provenance e)) by done. cbn [mbind result_bind].
  unfold lock_list, data. cbn [dict_get String.eqb Ascii.eqb Bool.eqb mbind result_bind].
  rewrite (mapM_result_canon _ _ asset_ok) by (done || apply asset_read_written).
  cbn [mbind result_bind].
  rewrite (mapM_result_canon _ _ pin_ok) by (done || apply pin_read_written).
  cbn [mbind result_bind].
  rewrite (mapM_result_map permission_from_json)
    by (apply Forall_forall; intros p _; unfold permission_from_json; cbn -[enum_value enum_of_value];
        apply enum_of_value_of).
  cbn [mbind result_bind from_option id].
  rewrite compatibility_read_written by done. cbn [mbind result_bind from_option id].
  rewrite receipt_read_written by done. cbn [mbind result_bind].
  rewrite opt_text_read. destruct e. cbn in *. by rewrite He.
Qed.

(** ** The lock *)
Record wf_lock (l : CapabilityLock) : Prop := {
  wk_entries : Forall wf_locked (lk_entries l);
  wk_pins : Forall pin_ok (lk_retained_pins l);
  wk_post : lock_post_init l = Ok l;
}.
Lemma lock_post_fields l l' : lock_post_init l = Ok l' ->
  lk_entries l' = py_sort lc_le (lk_entries l) /\
  lk_retained_pins l' = sorted_pins (lk_retained_pins l) /\
  NoDup (map lc_name (lk_entries l)) /\ NoDup (map pin_name (lk_retained_pins l)) /\
  (forall p, p ∈ lk_retained_pins l -> pin_name p ∉ map lc_name (lk_entries l)) /\
  pins_satisfied (lk_entries l') = true.
Proof.
  unfold lock_post_init. intros H. inv_ok.
  repeat match goal with H : negb (bool_decide _) = false |- _ =>
    apply negb_false_iff, bool_decide_eq_true_1 in H end.
  cbn [lk_entries lk_retained_pins]. split_and!; try done; [|by apply negb_false_iff].
  rewrite existsb_false in *. intros p Hp Hin.
  match goal with H : forall n, n ∈ map pin_name _ -> bool_decide _ = false |- _ =>
    specialize (H (pin_name p) (list_elem_of_fmap_2 _ _ _ Hp));
    by apply bool_decide_eq_false_1 in H end.
Qed.
Lemma lock_post_idempotent l l' : lock_post_init l = Ok l' -> lock_post_init l' = Ok l'.
Proof.
  intros Hl. destruct (lock_post_fields l l' Hl) as (He & Hr & Hn & Hm & Hd & Hs).
  unfold lock_post_init. rewrite !raise_if_Ok. rewrite He, Hr in *.
  assert (py_sort lc_le (py_sort lc_le (lk_entries l)) = py_sort lc_le (lk_entries l)) as Hi
    by apply (py_sort_idempotent _).
  rewrite Hi. split_and!.
  - rewrite bool_decide_true; [done|]. by rewrite py_sort_perm.
  - rewrite bool_decide_true; [done|]. unfold sorted_pins. by rewrite py_sort_perm.
  - rewrite existsb_false. intros n [p [-> Hp]]%list_elem_of_fmap.
    rewrite bool_decide_eq_false. rewrite py_sort_perm. apply Hd.
    by apply elem_of_py_sort in Hp.
  - by rewrite Hs.
  - unfold sorted_pins. rewrite py_sort_idempotent by apply _.
    destruct l'. cbn in *. by rewrite He, Hr.
Qed.
Lemma lock_post_wf l l' : Forall wf_locked (lk_entries l) -> Forall pin_ok (lk_retained_pins l) ->
  lock_post_init l = Ok l' -> wf_lock l'.
Proof.
  intros He Hr Hl. pose proof (lock_post_idempotent l l' Hl) as Hi.
  destruct (lock_post_fields l l' Hl) as (Hes & Hrs & _).
  constructor; [| |done]; [by rewrite Hes, py_sort_perm|].
  rewrite Hrs. unfold sorted_pins. by rewrite py_sort_perm.
Qed.
Lemma lock_read_wf j l : lock_from_json j = Ok l -> wf_lock l.
Proof.
  unfold lock_from_json. intros H. apply bind_Ok in H as (items & _ & H).
  destruct j as [| | | | | |m]; try done. destruct (dict_get "schema_version" m); [|done]. inv_ok.
  eapply lock_post_wf; [..|exact H]; cbn [lk_entries lk_retained_pins].
  - eapply mapM_result_inv; [apply entry_read_wf|eassumption].
  - eapply mapM_result_inv; [apply pin_read_ok|eassumption].
Qed.
Lemma lock_read_written l : wf_lock l -> lock_from_json (canon (JObj (lock_to_json l))) = Ok l.
Proof.
  intros [He Hr Hl].
  assert (canon (JObj (lock_to_json l)) = JObj [
    ("entries", JList (map canon (map entry_to_json (lk_entries l))));
    ("retained_pins", JList (map canon (map pin_to_json (lk_retained_pins l))));
    ("schema_version", JInt LOCK_SCHEMA_VERSION)]) as -> by reflexivity.
  unfold lock_from_json, lock_entries, lock_list.
  cbn [dict_get String.eqb Ascii.eqb Bool.eqb mbind result_bind Z.eqb LOCK_SCHEMA_VERSION Pos.eqb
       negb raise_if].
  rewrite (mapM_result_canon _ _ wf_locked) by (done || apply entry_read_written).
  cbn [mbind result_bind].
  rewrite (mapM_result_canon _ _ pin_ok) by (done || apply pin_read_written).
  cbn [mbind result_bind]. by destruct l.
Qed.

(** C39: the lockfile is exact: the locks a lockfile can hold are the well-formed ones
    (every part passes its constructor's checks and is stored in its sorted form), and
    each of them is the lock read back from what is written for it. *)
Theorem lockfile_roundtrip (l : CapabilityLock) :
  (wf_lock l <-> exists j, lock_from_json j = Ok l) /\
  (wf_lock l <-> lock_from_json (canon (JObj (lock_to_json l))) = Ok l).
Proof.
  split; split.
  - intros Hl. eexists. by apply lock_read_written.
  - intros [j Hj]. by eapply lock_read_wf.
  - apply lock_read_written.
  - apply lock_read_wf.
Qed.

(** ** What the lock digest binds *)
Definition at_instant (t : datetime) (p : ProvenanceRecord) : ProvenanceRecord := {|
  pv_status := pv_status p; pv_source_label := pv_source_label p;
  pv_signer_key_id := pv_signer_key_id p; pv_verified_at := t |}.
(** An entry, but for the instant its provenance was verified at. *)
Definition timeless (e : LockedCapability) : LockedCapability := {|
  lc_name := lc_name e; lc_version := lc_version e; lc_kind := lc_kind e;
  lc_revision := lc_revision e; lc_digest := lc_digest e;
  lc_provenance := at_instant (Aware 0) (lc_provenance e); lc_license := lc_license e;
  lc_introduced_by_run := lc_introduced_by_run e; lc_files := lc_files e;
  lc_receipt := lc_receipt e; lc_dependencies := lc_dependencies e;
  lc_permissions := lc_permissions e; lc_compatibility := lc_compatibility e |}.
Lemma opt_text_inj : Inj (=) (=) opt_text.
Proof. intros [] []; cbn; congruence. Qed.
Lemma map_str_inj {A} (f : A -> string) `{!Inj (=) (=) f} l k :
  map (fun x => JStr (f x)) l = map (fun x => JStr (f x)) k -> l = k.
Proof.
  revert k. induction l as [|x l IH]; intros [|y k]; cbn; try done.
  intros [= He%(inj f) Hl]. by rewrite He, (IH k).
Qed.
Lemma compatibility_to_json_inj c c' :
  canon (compatibility_to_json c) = canon (compatibility_to_json c') -> c = c'.
Proof.
  assert (forall c, canon (compatibility_to_json c) = JObj [
    ("adapter_api_max", canon (from_option JInt JNull (adapter_api_max c)));
    ("adapter_api_min", JInt (adapter_api_min c));
    ("platforms", canon (JList (map (fun x => JStr (id x)) (platforms c))))]) as He by reflexivity.
  rewrite !He, !canon_strs. intros [= Hm Hn Hp%(map_str_inj id)].
  destruct c as [lo [hi|] ps], c' as [lo' [hi'|] ps']; cbn in *; congruence.
Qed.
Lemma receipt_to_json_inj r r' :
  canon (receipt_to_json r) = canon (receipt_to_json r') -> r = r'.
Proof.
  assert (forall r, canon (receipt_to_json r) = JObj [
    ("host_adapter_api_version", JInt (rc_host_api r)); ("host_platform", JStr (rc_host_platform r));
    ("reasons", canon (JList (map (fun x => JStr (id x)) (rc_reasons r))));
    ("status", JStr (enum_value (rc_status r)))]) as He by reflexivity.
  rewrite !He, !canon_strs. intros [= Ha Hp Hr%(map_str_inj id) Hs].
  change (enum_value (rc_status r) = enum_value (rc_status r')) in Hs. apply (inj enum_value) in Hs.
  destruct r, r'. cbn in *. congruence.
Qed.
Lemma locked_payload_canon e : canon (locked_digest_payload e) = JObj [
  ("compatibility", canon (compatibility_to_json (lc_compatibility e)));
  ("compatibility_receipt", canon (receipt_to_json (lc_receipt e)));
  ("dependencies", JList (map canon (map pin_to_json (lc_dependencies e))));
  ("digest", JStr (digest_str (lc_digest e)));
  ("introduced_by_run", JBool (lc_introduced_by_run e));
  ("kind", JStr (enum_value (lc_kind e)));
  ("license", canon (opt_text (lc_license e)));
  ("name", JStr (lc_name e));
  ("permissions", canon (permissions_json (lc_permissions e)));
  ("provenance_status", JStr (enum_value (pv_status (lc_provenance e))));
  ("revision", JStr (lc_revision e));
  ("signer_key_id", canon (opt_text (pv_signer_key_id (lc_provenance e))));
  ("source_label", JStr (pv_source_label (lc_provenance e)));
  ("version", JStr (lc_version e))].
Proof. reflexivity. Qed.
(** Equal payloads: the same entry but for its files and its instant. *)
Lemma locked_payload_inj e e' : wf_locked e -> wf_locked e' ->
  canon (locked_digest_payload e) = canon (locked_digest_payload e') ->
  lc_digest e = lc_digest e' /\ lc_dependencies e = lc_dependencies e' /\
  (lc_files e = lc_files e' -> timeless e = timeless e').
Proof.
  intros He He'. rewrite !locked_payload_canon, !canon_opt_text. unfold permissions_json.
  rewrite !canon_strs.
  remember (canon (compatibility_to_json (lc_compatibility e))) as c eqn:Ec.
  remember (canon (compatibility_to_json (lc_compatibility e'))) as c' eqn:Ec'.
  remember (canon (receipt_to_json (lc_receipt e))) as r eqn:Er.
  remember (canon (receipt_to_json (lc_receipt e'))) as r' eqn:Er'.
  intros [= Hc Hr Hp Hd Hi Hk Hl%opt_text_inj Hn
          Hpm Hst Hrv Hs%opt_text_inj Hlb Hv].
  rewrite Ec, Ec' in Hc. apply compatibility_to_json_inj in Hc.
  rewrite Er, Er' in Hr. apply receipt_to_json_inj in Hr. clear Ec Ec' Er Er'.
  assert (lc_permissions e = lc_permissions e') as Hpm' by (by apply (map_str_inj enum_value)).
  clear Hpm. apply digest_str_inj in Hd; [|by apply wl_digest..].
  change (enum_value (lc_kind e) = enum_value (lc_kind e')) in Hk. apply (inj enum_value) in Hk.
  change (enum_value (pv_status (lc_provenance e)) = enum_value (pv_status (lc_provenance e'))) in Hst.
  apply (inj enum_value) in Hst. rewrite !map_map in Hp.
  apply (map_inj_on _ wf_pin) in Hp; [|apply pin_to_json_inj|..];
    try (eapply Forall_impl; [by apply wl_pins|]; by intros ? []).
  split_and!; [done..|]. intros Hf. unfold timeless, at_instant. congruence.
Qed.
Lemma wf_locked_files e : wf_locked e ->
  closure_digest (lc_files e) (lc_dependencies e) = Ok (lc_digest e) /\
  sorted_assets (lc_files e) = lc_files e.
Proof.
  intros Hw. pose proof (wl_post _ Hw) as He. unfold locked_post_init in He. inv_ok.
  rewrite closure_digest_sorted in *.
  repeat match goal with H : negb (bool_decide _) = false |- _ =>
    apply negb_false_iff, bool_decide_eq_true_1 in H end.
  subst. split; [done|]. by apply (f_equal lc_files) in He.
Qed.
Lemma locked_entry_bound e e' : wf_locked e -> wf_locked e' ->
  canon (locked_digest_payload e) = canon (locked_digest_payload e') ->
  timeless e = timeless e' \/ sha256_collision.
Proof.
  intros Hw Hw' (Hd & Hp & Ht)%locked_payload_inj; [|done..].
  destruct (wf_locked_files e Hw) as [Hc Hs], (wf_locked_files e' Hw') as [Hc' Hs'].
  rewrite <- Hd in Hc'.
  assert (forall e, wf_locked e -> Forall wf_asset (lc_files e) /\ Forall wf_pin (lc_dependencies e))
    as Hwf.
  { intros x Hx. split; (eapply Forall_impl; [by apply Hx|]); by intros ? []. }
  destruct (Hwf e Hw) as [Hf Hpi], (Hwf e' Hw') as [Hf' Hpi'].
  destruct (closure_digest_binds_records _ _ _ _ _ Hf Hpi Hf' Hpi' Hc Hc') as [[He _]|];
    [left; apply Ht; congruence|by right].
Qed.
Lemma map_eq_Forall2 {A B} (f : A -> B) l k :
  map f l = map f k -> Forall2 (fun x y => f x = f y) l k.
Proof.
  revert k. induction l as [|x l IH]; intros [|y k]; cbn; try done.
  intros [= Hx Hl]. constructor; auto.
Qed.
Lemma lock_payload_no_floats es : no_floats (JList (map locked_digest_payload es)) = true.
Proof.
  cbn. apply forallb_forall. intros j (e & <- & _)%in_map_iff. cbn.
  rewrite !andb_true_r. destruct (lc_license e), (pv_signer_key_id (lc_provenance e)),
    (adapter_api_max (lc_compatibility e)); cbn; rewrite ?andb_true_r, !andb_true_iff;
    split_and!; apply forallb_forall; by intros j (? & <- & _)%in_map_iff.
Qed.

(** The lock digest binds the lock: two well-formed locks with the same digest hold
    the same entries (versions, revisions, closures with every file, provenance,
    license, permissions, compatibility and pins), but for the instants they were
    verified at, or exhibit a SHA-256 collision. *)
Theorem lock_digest_binds (l l' : CapabilityLock) (d : Digest) (Hl : wf_lock l) (Hl' : wf_lock l')
    (Hd : lock_digest l = Ok d) (Hd' : lock_digest l' = Ok d) :
  map timeless (lk_entries l) = map timeless (lk_entries l') \/ sha256_collision.
Proof.
  destruct (digest_of_json_inj _ _ _ (lock_payload_no_floats (lk_entries l))
    (lock_payload_no_floats (lk_entries l')) Hd Hd') as [He|]; [|by right].
  apply wk_entries in Hl, Hl'. injection He as He. rewrite !map_map in He.
  apply map_eq_Forall2 in He. clear Hd Hd'.
  induction He as [|e e' es es' He _ IH]; [by left|].
  apply Forall_cons in Hl as [Hw Hl], Hl' as [Hw' Hl'].
  destruct (locked_entry_bound e e' Hw Hw' He) as [Ht|]; [|by right].
  destruct (IH Hl Hl') as [Hts|]; [left|by right]. cbn. congruence.
Qed.

(** ** Pins across locks *)
Lemma find_by_name {A} (name : A -> string) l k (x : A) : NoDup (map name l) ->
  List.find (fun y => String.eqb (name y) k) l = Some x <-> x ∈ l /\ name x = k.
Proof.
  intros Hd. split.
  - intros Hf. apply find_some in Hf as [Hin Hk%String.eqb_eq]. split; [by apply list_elem_of_In|done].
  - intros [Hin Hk]. destruct (List.find _ l) as [y|] eqn:Hf.
    + apply find_some in Hf as [Hy Hyk%String.eqb_eq]. f_equal.
      apply (NoDup_map_inj name l); [done|by apply list_elem_of_In|done|congruence].
    + apply list_elem_of_In in Hin. pose proof (find_none _ _ Hf x Hin) as Hn. cbn in Hn.
      by rewrite Hk, String.eqb_refl in Hn.
Qed.
Lemma find_name_None {A} (name : A -> string) l k :
  List.find (fun y => String.eqb (name y) k) l = None <-> k ∉ map name l.
Proof.
  split.
  - intros Hf [x [-> Hx%list_elem_of_In]]%list_elem_of_fmap.
    pose proof (find_none _ _ Hf x Hx) as Hn. cbn in Hn. by rewrite String.eqb_refl in Hn.
  - intros Hn. destruct (List.find _ l) as [y|] eqn:Hf; [|done]. destruct Hn.
    apply find_some in Hf as [Hy%list_elem_of_In <-%String.eqb_eq].
    apply list_elem_of_fmap. by exists y.
Qed.
(** The pins a lock holds: one per entry, and the retained ones. *)
Definition all_pins (l : CapabilityLock) : list DependencyPin :=
  map lc_pin (lk_entries l) ++ lk_retained_pins l.
Lemma wf_lock_names l : wf_lock l -> NoDup (map lc_name (lk_entries l)) /\ NoDup (map pin_name (all_pins l)).
Proof.
  intros [_ _ Hl]. destruct (lock_post_fields l l Hl) as (_ & _ & Hn & Hm & Hd & _).
  split; [done|]. unfold all_pins. rewrite map_app, map_map. apply NoDup_app. split_and!; [done| |done].
  intros n Hin [p [-> Hp]]%list_elem_of_fmap. by apply (Hd p Hp).
Qed.
Lemma pin_for_spec l n p : wf_lock l -> pin_for l n = Some p <-> p ∈ all_pins l /\ pin_name p = n.
Proof.
  intros Hw. destruct (wf_lock_names l Hw) as [Hn Hp]. unfold all_pins in *.
  rewrite map_app, map_map in Hp. apply NoDup_app in Hp as (_ & Hdis & Hr).
  unfold pin_for, lock_get, find_entry, find_pin. rewrite elem_of_app.
  destruct (List.find _ (lk_entries l)) as [e|] eqn:He.
  - apply (find_by_name lc_name _ n e Hn) in He as [Hin <-]. split.
    + intros [= <-]. split; [left|done]. apply list_elem_of_fmap. by exists e.
    + intros [[(e' & -> & Hin')%list_elem_of_fmap|Hp] Hk].
      * f_equal. f_equal. by apply (NoDup_map_inj lc_name (lk_entries l)).
      * destruct (Hdis (lc_name e)); [apply list_elem_of_fmap; by exists e|].
        apply list_elem_of_fmap. by exists p.
  - apply (find_name_None lc_name) in He. rewrite (find_by_name pin_name) by done.
    split; [naive_solver|]. intros [[(e & -> & Hin)%list_elem_of_fmap|Hp] <-]; [|done].
    destruct He. apply list_elem_of_fmap. by exists e.
Qed.
Lemma check_pin_cases l e : wf_lock l ->
  (check_pin l e = Ok () /\ forall p, pin_for l (lc_name e) = Some p -> p = lc_pin e) \/
  (check_pin l e = Err CapabilityLockDriftError /\
   exists p, pin_for l (lc_name e) = Some p /\ p <> lc_pin e).
Proof.
  intros Hw. unfold check_pin. destruct (pin_for l (lc_name e)) as [p|] eqn:Hp; [|by left].
  apply pin_for_spec in Hp as [_ Hn]; [|done].
  destruct (decide (p = lc_pin e)) as [->|Hne].
  - left. cbn. rewrite String.eqb_refl, bool_decide_true by done. split; [done|congruence].
  - right. split; [|by exists p]. destruct (String.eqb_spec (pin_version p) (lc_version e)) as [Hv|];
      [|done]. cbn. rewrite bool_decide_false; [done|]. intros Hd. apply Hne.
    destruct p. cbn in *. by subst.
Qed.

(** A lock as the resolver makes it. *)
Definition fresh_lock (l : CapabilityLock) : Prop := wf_lock l /\ lk_retained_pins l = [].
Definition carry (previous resolved : CapabilityLock) : result CapabilityLock :=
  carry_pins (Some previous) resolved.
Definition drifts (previous resolved : CapabilityLock) : Prop :=
  exists e p, e ∈ lk_entries resolved /\ pin_for previous (lc_name e) = Some p /\ p <> lc_pin e.

Lemma check_pins_cases l r : wf_lock l ->
  (check_pins (Some l) r = Ok () /\ ~ drifts l r) \/
  (check_pins (Some l) r = Err CapabilityLockDriftError /\ drifts l r).
Proof.
  intros Hw. unfold check_pins, drifts.
  induction (lk_entries r) as [|e es IH]; cbn [each_result].
  { left. split; [done|]. by intros (e & _ & ?%not_elem_of_nil & _). }
  destruct (check_pin_cases l e Hw) as [[-> He]|[-> (p & Hp & Hne)]]; cbn [mbind result_bind].
  - destruct IH as [[-> H]|[-> H]]; [left|right]; (split; [done|]).
    + intros (x & p & [->|Hx]%elem_of_cons & Hp & Hne); [by apply Hne, He|]. apply H. eauto.
    + destruct H as (x & p & Hx & Hp). exists x, p. split; [by right|done].
  - right. split; [done|]. exists e, p. split_and!; [left|done|done].
Qed.
Lemma filter_keys_nodup {A} (key : A -> string) (f : A -> bool) l :
  NoDup (map key l) -> NoDup (map key (List.filter f l)).
Proof.
  induction l as [|x l IH]; cbn; [done|]. intros [Hx Hl]%NoDup_cons.
  destruct (f x); [|by apply IH]. cbn. constructor; [|by apply IH].
  intros [y [Hy Hin]]%list_elem_of_fmap. apply Hx. rewrite Hy. apply list_elem_of_fmap_2.
  apply list_elem_of_In, filter_In in Hin as [Hin _]. by apply list_elem_of_In.
Qed.
Lemma locked_pin_ok e : wf_locked e -> pin_ok (lc_pin e).
Proof.
  intros He. split; [exact (wl_digest _ He)|]. pose proof (wl_post _ He) as Hq.
  unfold locked_post_init in Hq. inv_ok. unfold pin_post_init, lc_pin. cbn.
  by repeat match goal with H : validate_name _ = Ok _ |- _ => rewrite H; clear H
    | H : validate_version _ = Ok _ |- _ => rewrite H; clear H end.
Qed.
Lemma carry_kept l r : wf_lock l -> fresh_lock r -> ~ drifts l r -> exists l', carry l r = Ok l' /\
  wf_lock l' /\ lk_entries l' = lk_entries r /\
  (forall n p, pin_for l n = Some p -> pin_for l' n = Some p) /\
  (forall e, e ∈ lk_entries r -> pin_for l' (lc_name e) = Some (lc_pin e)).
Proof.
  intros Hw [Hr Hnil] Hnd. unfold carry, carry_pins.
  destruct (check_pins_cases l r Hw) as [[-> _]|[_ ?]]; [cbn [mbind result_bind]|done].
  set (names := map lc_name (lk_entries r)).
  set (kept := List.filter _ _).
  assert (Hkept : forall p, p ∈ kept <-> p ∈ all_pins l /\ pin_name p ∉ names).
  { intros p. unfold kept. rewrite !list_elem_of_In, filter_In, <- !list_elem_of_In.
    by rewrite negb_true_iff, bool_decide_eq_false. }
  destruct (wf_lock_names l Hw) as [_ Hpn], (wf_lock_names r Hr) as [Hrn _].
  assert (Hkn : NoDup (map pin_name kept)) by by apply filter_keys_nodup.
  destruct (lock_post_fields r r (wk_post _ Hr)) as (Hes & _ & _ & _ & _ & Hps).
  assert (Hpost : lock_post_init {| lk_entries := lk_entries r; lk_retained_pins := kept |} =
    Ok {| lk_entries := lk_entries r; lk_retained_pins := sorted_pins kept |}).
  { unfold lock_post_init. cbn [lk_entries lk_retained_pins]. rewrite <- Hes, Hps.
    rewrite !bool_decide_true by done. cbn [negb raise_if mbind result_bind].
    apply raise_if_Ok. split; [|done]. apply existsb_false. intros n [p [-> Hp]]%list_elem_of_fmap.
    apply bool_decide_eq_false. by apply Hkept in Hp as [_ ?]. }
  assert (Hwf : wf_lock {| lk_entries := lk_entries r; lk_retained_pins := sorted_pins kept |}).
  { eapply lock_post_wf; [..|exact Hpost]; cbn; [by apply wk_entries|].
    apply Forall_forall. intros p [Hp _]%Hkept. unfold all_pins in Hp.
    apply elem_of_app in Hp as [(e & -> & He)%list_elem_of_fmap|Hp].
    - pose proof (wk_entries _ Hw) as Hf. rewrite Forall_forall in Hf. by apply locked_pin_ok, Hf.
    - pose proof (wk_pins _ Hw) as Hf. rewrite Forall_forall in Hf. by apply Hf. }
  eexists. split; [exact Hpost|]. split; [done|]. cbn [lk_entries].
  assert (Hent : forall e, e ∈ lk_entries r -> pin_for {| lk_entries := lk_entries r;
    lk_retained_pins := sorted_pins kept |} (lc_name e) = Some (lc_pin e)).
  { intros e He. apply pin_for_spec; [done|]. split; [|done]. apply elem_of_app. left.
    apply list_elem_of_fmap. by exists e. }
  split_and!; [done| |done]. intros n p Hp. destruct (decide (n ∈ names)) as [Hin|Hn].
  - apply list_elem_of_fmap in Hin as (e & -> & He). rewrite Hent by done. f_equal.
    destruct (decide (p = lc_pin e)) as [->|Hne]; [done|]. destruct Hnd. by exists e, p.
  - apply pin_for_spec in Hp as [Hp <-]; [|done]. apply pin_for_spec; [done|]. split; [|done].
    apply elem_of_app. right. cbn [lk_retained_pins]. unfold sorted_pins. rewrite elem_of_py_sort. by apply Hkept.
Qed.

(** C27: no capability pin ever moves.  Carrying pins through any sequence of freshly
    resolved locks either succeeds, and then the last lock is well formed and still
    pins every package of the first lock and of every lock on the way to the version and
    closure it had there; or stops with a drift error at the first lock that gives an
    already pinned package another version or closure. *)
Theorem pins_never_move (first : CapabilityLock) (resolved : list CapabilityLock)
    (Hfirst : wf_lock first) (Hresolved : Forall fresh_lock resolved) :
  match foldM_result carry resolved first with
  | Ok l =>
      wf_lock l /\
      (forall n p, pin_for first n = Some p -> pin_for l n = Some p) /\
      (forall r e, r ∈ resolved -> e ∈ lk_entries r -> pin_for l (lc_name e) = Some (lc_pin e))
  | Err e =>
      e = CapabilityLockDriftError /\
      exists before r later l, resolved = before ++ r :: later /\
        foldM_result carry before first = Ok l /\ drifts l r
  end.
Proof.
  revert first Hfirst. induction Hresolved as [|r rs Hr _ IH]; intros l Hl; cbn [foldM_result].
  { split_and!; [done|done|]. by intros r e ?%not_elem_of_nil. }
  destruct (check_pins_cases l r Hl) as [[Hc Hnd]|[Hc Hd]].
  - destruct (carry_kept l r Hl Hr Hnd) as (l' & Hk & Hw & _ & Hkeep & Hent).
    rewrite Hk. cbn [mbind result_bind]. specialize (IH l' Hw).
    destruct (foldM_result carry rs l') as [m|e] eqn:Hm.
    + destruct IH as (? & Hkeep' & Hent'). split_and!; [done|by eauto|].
      intros r' e [->|Hin]%elem_of_cons He; [by apply Hkeep', Hent|by eapply Hent'].
    + destruct IH as (-> & before & r' & later & m & -> & Hb & Hd). split; [done|].
      exists (r :: before), r', later, m. split_and!; [done| |done]. cbn [foldM_result]. by rewrite Hk.
  - assert (carry l r = Err CapabilityLockDriftError) as ->
      by (unfold carry, carry_pins; by rewrite Hc).
    cbn [mbind result_bind]. split; [done|].
    by exists [], r, rs, l.
Qed.
End LockProofs.

(** ** A concrete lock *)
Module Demo.
#[local] Existing Instance toy_runtime.
#[local] Existing Instance toy_iso.
Definition asset (text : string) : AssetRecord := {|
  ar_path := "notes.md"; ar_kind := AK_INSTRUCTION;
  ar_digest := match digest_of_bytes (utf8 text) with Ok d => d | Err _ => {| algorithm := ""; hex_value := "" |} end;
  ar_size := content_size (utf8 text); ar_executable := false |}.
Definition package (name text : string) : LockedCapability := {|
  lc_name := name; lc_version := "1.0.0"; lc_kind := PK_INSTRUCTION; lc_revision := "r1";
  lc_digest := match closure_digest [asset text] [] with Ok d => d | Err _ => {| algorithm := ""; hex_value := "" |} end;
  lc_provenance := {| pv_status := UNAUTHENTICATED; pv_source_label := "armory";
    pv_signer_key_id := None; pv_verified_at := Aware 7 |};
  lc_license := Some "MIT"; lc_introduced_by_run := true; lc_files := [asset text];
  lc_receipt := {| rc_host_api := 1; rc_host_platform := "linux"; rc_status := COMPATIBLE;
    rc_reasons := [] |};
  lc_dependencies := []; lc_permissions := [REPOSITORY_READ];
  lc_compatibility := default_compatibility |}.
Definition lock_of (entries : list LockedCapability) : CapabilityLock :=
  {| lk_entries := entries; lk_retained_pins := [] |}.
Definition first : CapabilityLock := lock_of [package "adr" "a"].
Definition second : CapabilityLock := lock_of [package "docs" "b"].
Definition moved : CapabilityLock := lock_of [package "adr" "c"].
Example moved_pin_refused : is_ok (carry first second) = true /\
  carry first moved = Err CapabilityLockDriftError.
Proof. vm_compute. done. Qed.

Lemma first_wf : wf_lock first.
Proof. apply (lock_read_wf (canon (JObj (lock_to_json first)))). vm_compute. reflexivity. Qed.
Lemma second_wf : wf_lock second.
Proof. apply (lock_read_wf (canon (JObj (lock_to_json second)))). vm_compute. reflexivity. Qed.
Definition first_digest : Digest := Eval vm_compute in
  match lock_digest first with Ok d => d | Err _ => {| algorithm := ""; hex_value := "" |} end.
Lemma lock_digest_binds_witness : map timeless (lk_entries first) =
  map timeless (lk_entries first) \/ sha256_collision.
Proof.
  apply (lock_digest_binds first first first_digest first_wf first_wf); vm_compute; reflexivity.
Defined.
Lemma pins_never_move_witness : exists l, foldM_result carry [second] first = Ok l /\
  pin_for l "adr" = pin_for first "adr".
Proof.
  destruct (foldM_result carry [second] first) as [l|] eqn:Hl; [|vm_compute in Hl; discriminate Hl].
  exists l. split; [done|].
  pose proof (pins_never_move first [second] first_wf) as H. rewrite Hl in H.
  destruct H as (_ & H & _); [by constructor; [split; [apply second_wf|reflexivity]|constructor]|].
  destruct (pin_for first "adr") as [p|] eqn:Hp; [by apply H|vm_compute in Hp; discriminate Hp].
Defined.
End Demo.
