(* ===== verification/Resolver.v ===== *)
(** * Capability sources and the resolver ([capabilities/sources.py],
      [capabilities/resolver.py], [application/delivery_ports.py])

    Typed sources in precedence order and the resolution of requests into a lock.  A
    source's port is a record of its two operations: any function may stand for an
    adapter.  The license-text classifier is an interface, and the theorems hold for
    every implementation of it.  The clock shows one instant per package. *)
From S2P Require Import Prelude PyText Json Identity Regex Schemas Manifests Closures Locks.

(** ** Ports ([application/delivery_ports.py]) *)
Record CapabilityDescriptor := {
  cd_name : string; cd_version : string; cd_digest : Digest; cd_provenance : string;
  cd_revision : string; cd_license : option string; cd_signature : option (list N);
  cd_signer_key_id : option string }.
Definition descriptor_post_init (d : CapabilityDescriptor) : result CapabilityDescriptor :=
  raise_when existsb blank [cd_name d; cd_version d; cd_provenance d; cd_revision d]
    as PyValueError ;;
  raise_when from_option blank false (cd_license d) as PyValueError ;;
  raise_when negb (Bool.eqb (bool_decide (cd_signature d = None))
                     (bool_decide (cd_signer_key_id d = None))) as PyValueError ;;
  raise_when from_option blank false (cd_signer_key_id d) as PyValueError ;;
  Ok d.
(** [CapabilitySourcePort]; [port_pinned_commit] is [Some] for a committed-tree source. *)
Record SourcePort := {
  port_pinned_commit : option string;
  port_resolve : string -> string -> result (option CapabilityDescriptor);
  port_fetch_closure : string -> string -> result (list PackageFile) }.

(** ** Sources ([capabilities/sources.py]) *)
Inductive SourceKind := SRC_PROJECT | SRC_USER | SRC_GIT | SRC_ARMORY.
#[export] Instance SourceKind_eq_dec : EqDecision SourceKind.
Proof. solve_decision. Defined.
(** The index in [SOURCE_PRECEDENCE]. *)
Definition source_rank (k : SourceKind) : nat :=
  match k with SRC_PROJECT => 0 | SRC_USER => 1 | SRC_GIT => 2 | SRC_ARMORY => 3 end.
Definition PINNED_COMMIT : regex := RRep is_hex 40 (Some 40).
Record CapabilitySource := { cs_kind : SourceKind; cs_label : string; cs_port : SourcePort }.
Definition source_post_init (s : CapabilitySource) : result CapabilitySource :=
  raise_when blank (cs_label s) as InvalidInputError ;;
  raise_when bool_decide (cs_kind s = SRC_PROJECT) &&
             negb (from_option (regex_fullmatch PINNED_COMMIT) false (port_pinned_commit (cs_port s)))
    as InvalidInputError ;;
  Ok s.
Definition reviewed_base (s : CapabilitySource) : bool := bool_decide (cs_kind s = SRC_PROJECT).
(** A shadowed offer that failed keeps the exception in place of its text. *)
Record SourceCandidate := {
  sc_kind : SourceKind; sc_label : string; sc_descriptor : option CapabilityDescriptor;
  sc_problem : option exn }.
Record SourceSelection := { ss_selected : SourceCandidate; ss_shadowed : list SourceCandidate }.
Definition source_le (s t : CapabilitySource) : Prop :=
  (source_rank (cs_kind s) <= source_rank (cs_kind t))%nat.
#[export] Instance source_le_dec s t : Decision (source_le s t).
Proof. unfold source_le. apply _. Defined.
Definition order_sources (sources : list CapabilitySource) : result (list CapabilitySource) :=
  raise_when (1 <? length (List.filter reviewed_base sources))%nat as InvalidInputError ;;
  Ok (py_sort source_le sources).

(** ** License texts ([capabilities/license_text.py]) *)
Definition UNKNOWN_LICENSE : string := "unknown".
(** The classifier of a shipped file's bytes (decoded with replacement). *)
Class LicenseTexts := {
  classify_license_text : list N -> string;
  notice_conflicts : list N -> bool;
}.

(** ** The resolver *)
Definition MAX_DEPENDENCY_DEPTH : nat := 8.
Record CapabilityRequest := {
  rq_name : string; rq_version : string; rq_expected_license : option string }.
(** [_Resolved] *)
Record Resolved := {
  rs_entry : LockedCapability; rs_files : list PackageFile; rs_selection : SourceSelection }.
Record ResolvedCapabilities := {
  rc_lock : CapabilityLock; rc_files_by_name : list (string * list PackageFile);
  rc_selections : list (string * SourceSelection) }.
(** The constructor's fields. *)
Record Resolver := {
  rv_sources : list CapabilitySource;
  rv_signature_verifier : CapabilityDescriptor -> result (option string);
  rv_clock : string -> datetime;
  rv_host : HostProfile }.
Definition resolver_init (sources : list CapabilitySource)
    (signature_verifier : CapabilityDescriptor -> result (option string))
    (clock : string -> datetime) (host : HostProfile) : result Resolver :=
  raise_when bool_decide (length sources = 0) as PyValueError ;;
  ordered ← order_sources sources;
  Ok {| rv_sources := ordered; rv_signature_verifier := signature_verifier; rv_clock := clock;
        rv_host := host |}.

(** [_require_pinned_revision] *)
Definition require_pinned_revision (s : CapabilitySource) (d : CapabilityDescriptor) : result () :=
  raise_when reviewed_base s &&
             negb (bool_decide (Some (cd_revision d) = port_pinned_commit (cs_port s)))
    as CapabilitySourceError ;; Ok ().
(** [except EngineryError] *)
Definition is_enginery_error (e : exn) : bool := negb (bool_decide (failure_class e = None)).
Definition offer (s : CapabilitySource) (d : CapabilityDescriptor) : SourceCandidate :=
  {| sc_kind := cs_kind s; sc_label := cs_label s; sc_descriptor := Some d; sc_problem := None |}.
(** The loop of [_select] after a source was chosen: the shadowed offers. *)
Fixpoint shadowed_offers (sources : list CapabilitySource) (name version : string)
    : result (list SourceCandidate) :=
  match sources with
  | [] => Ok []
  | s :: sources =>
      match port_resolve (cs_port s) name version with
      | Err e =>
          if is_enginery_error e then
            rest ← shadowed_offers sources name version;
            Ok ({| sc_kind := cs_kind s; sc_label := cs_label s; sc_descriptor := None;
                   sc_problem := Some e |} :: rest)
          else Err e
      | Ok None => shadowed_offers sources name version
      | Ok (Some d) =>
          rest ← shadowed_offers sources name version; Ok (offer s d :: rest)
      end
  end.
(** [_select] *)
Fixpoint select (sources : list CapabilitySource) (name version : string) (report_shadowed : bool)
    : result (CapabilitySource * CapabilityDescriptor * SourceSelection) :=
  match sources with
  | [] => Err CapabilityNotFoundError
  | s :: sources =>
      descriptor ← port_resolve (cs_port s) name version;
      match descriptor with
      | None => select sources name version report_shadowed
      | Some d =>
          _ ← require_pinned_revision s d;
          shadowed ← (if report_shadowed then shadowed_offers sources name version else Ok []);
          Ok (s, d, {| ss_selected := offer s d; ss_shadowed := shadowed |})
      end
  end.
(** [_enforce_license] *)
Definition enforce_license (request : CapabilityRequest) (license_id : option string) : result () :=
  match rq_expected_license request with
  | None => Ok ()
  | Some expected =>
      raise_when negb (bool_decide (license_id = Some expected))
        as CapabilityLicenseMismatchError ;; Ok ()
  end.
(** [_enforce_no_drift] *)
Definition enforce_no_drift (request : CapabilityRequest) (d : CapabilityDescriptor)
    (previous_lock : option CapabilityLock) : result () :=
  match previous_lock ≫= (fun l => pin_for l (rq_name request)) with
  | None => Ok ()
  | Some pinned =>
      raise_when String.eqb (pin_version pinned) (cd_version d) &&
                 negb (bool_decide (pin_digest pinned = cd_digest d))
        as CapabilityLockDriftError ;; Ok ()
  end.

Section Resolver.
Context `{rt : PyRuntime} `{dec : JsonDecoder} `{texts : LicenseTexts}.

(** [_verify_closure] *)
Definition verify_closure (d : CapabilityDescriptor) (files : list PackageFile)
    : result PackageClosure :=
  closure ← build_closure files;
  digest ← pc_digest closure;
  raise_when negb (bool_decide (digest = cd_digest d)) as CapabilityDigestMismatchError ;;
  raise_when negb (String.eqb (mf_name (cl_manifest closure)) (cd_name d) &&
                   String.eqb (mf_version (cl_manifest closure)) (cd_version d))
    as CapabilityManifestError ;;
  Ok closure.
(** [_effective_license] *)
Definition shipped_licenses (files : list PackageFile) : list PackageFile :=
  List.filter (fun f => is_license_like_name (pf_path f)) files.
Definition effective_license (d : CapabilityDescriptor) (closure : PackageClosure)
    (files : list PackageFile) : result (option string) :=
  let declared := mf_license (cl_manifest closure) in
  raise_when negb (bool_decide (declared = None)) &&
             negb (bool_decide (cd_license d = None)) &&
             negb (bool_decide (cd_license d = declared)) as CapabilityManifestError ;;
  match (match declared with Some l => Some l | None => cd_license d end) with
  | None => Ok None
  | Some license_id =>
      let shipped := shipped_licenses files in
      let notices := List.filter (fun f => is_notice_file_name (pf_path f)) shipped in
      let deciding := List.filter (fun f => negb (is_notice_file_name (pf_path f))) shipped in
      if existsb (fun f => notice_conflicts (pf_content f)) notices then Ok (Some UNKNOWN_LICENSE)
      else if forallb (fun f => String.eqb (classify_license_text (pf_content f)) license_id) deciding
      then Ok (Some license_id) else Ok (Some UNKNOWN_LICENSE)
  end.
(** [_classify_provenance] *)
Definition classify_provenance (v : Resolver) (d : CapabilityDescriptor) (introduced_by_run : bool)
    : result ProvenanceRecord :=
  if negb introduced_by_run then
    provenance_post_init {|
      pv_status := LOCAL_TRUSTED; pv_source_label := cd_provenance d; pv_signer_key_id := None;
      pv_verified_at := rv_clock v (cd_name d) |}
  else
    signer ← rv_signature_verifier v d;
    provenance_post_init {|
      pv_status := match signer with Some _ => AUTHENTICATED | None => UNAUTHENTICATED end;
      pv_source_label := cd_provenance d; pv_signer_key_id := signer;
      pv_verified_at := rv_clock v (cd_name d) |}.
(** The lock entry of a verified package. *)
Definition lock_entry (v : Resolver) (s : CapabilitySource) (d : CapabilityDescriptor)
    (closure : PackageClosure) (license_id : option string) : result LockedCapability :=
  let introduced_by_run := negb (reviewed_base s) in
  digest ← pc_digest closure;
  provenance ← classify_provenance v d introduced_by_run;
  receipt ← evaluate_compatibility (mf_compatibility (cl_manifest closure)) (rv_host v);
  locked_post_init {|
    lc_name := cd_name d; lc_version := cd_version d; lc_kind := mf_kind (cl_manifest closure);
    lc_revision := cd_revision d; lc_digest := digest; lc_provenance := provenance;
    lc_license := license_id; lc_introduced_by_run := introduced_by_run;
    lc_files := cl_files closure; lc_receipt := receipt;
    lc_dependencies := mf_dependencies (cl_manifest closure);
    lc_permissions := mf_permissions (cl_manifest closure);
    lc_compatibility := mf_compatibility (cl_manifest closure) |}.

(** [_resolve_dependencies], given the resolution of one request. *)
Definition resolve_pin
    (resolve : CapabilityRequest -> list (string * Resolved) ->
       result (LockedCapability * list (string * Resolved)))
    (resolved : list (string * Resolved)) (pin : DependencyPin)
    : result (list (string * Resolved)) :=
  '(dependency, resolved) ← resolve {|
    rq_name := pin_name pin; rq_version := pin_version pin; rq_expected_license := None |} resolved;
  raise_when negb (bool_decide (lc_digest dependency = pin_digest pin))
    as CapabilityDependencyError ;;
  Ok resolved.
(** [_resolve_one]: [budget] is [MAX_DEPENDENCY_DEPTH - len(stack)], so an empty budget is
    the depth error (or the cycle error, of the same class). *)
Fixpoint resolve_one (budget : nat) (v : Resolver) (previous_lock : option CapabilityLock)
    (report_shadowed : bool) (stack : list string) (request : CapabilityRequest)
    (resolved : list (string * Resolved)) {struct budget}
    : result (LockedCapability * list (string * Resolved)) :=
  raise_when bool_decide (rq_name request ∈ stack) as CapabilityDependencyError ;;
  match budget with
  | O => Err CapabilityDependencyError
  | S budget =>
      match dict_get (rq_name request) resolved with
      | Some existing =>
          raise_when negb (String.eqb (lc_version (rs_entry existing)) (rq_version request))
            as CapabilityDependencyError ;;
          _ ← enforce_license request (lc_license (rs_entry existing));
          Ok (rs_entry existing, resolved)
      | None =>
          '(source, descriptor, selection) ←
            select (rv_sources v) (rq_name request) (rq_version request) report_shadowed;
          files ← port_fetch_closure (cs_port source) (cd_name descriptor) (cd_version descriptor);
          closure ← verify_closure descriptor files;
          license_id ← effective_license descriptor closure files;
          _ ← enforce_license request license_id;
          _ ← enforce_no_drift request descriptor previous_lock;
          resolved ← foldM_result
            (resolve_pin (resolve_one budget v previous_lock report_shadowed
                            (stack ++ [rq_name request])))
            (mf_dependencies (cl_manifest closure)) resolved;
          entry ← lock_entry v source descriptor closure license_id;
          Ok (entry, dict_set (lc_name entry)
                       {| rs_entry := entry; rs_files := files; rs_selection := selection |}
                       resolved)
      end
  end.
(** [resolve_with_files], [resolve] *)
Definition resolve_request (v : Resolver) (previous_lock : option CapabilityLock)
    (report_shadowed : bool) (resolved : list (string * Resolved)) (request : CapabilityRequest)
    : result (list (string * Resolved)) :=
  '(_, resolved) ← resolve_one MAX_DEPENDENCY_DEPTH v previous_lock report_shadowed [] request
                     resolved;
  Ok resolved.
Definition resolve_with_files (v : Resolver) (requested : list CapabilityRequest)
    (previous_lock : option CapabilityLock) (report_shadowed : bool) : result ResolvedCapabilities :=
  resolved ← foldM_result (resolve_request v previous_lock report_shadowed) requested [];
  lock ← lock_post_init {|
    lk_entries := map (fun kv => rs_entry kv.2) resolved; lk_retained_pins := [] |};
  Ok {| rc_lock := lock;
        rc_files_by_name := map (fun kv => (kv.1, rs_files kv.2)) resolved;
        rc_selections := map (fun kv => (kv.1, rs_selection kv.2)) resolved |}.
Definition resolve (v : Resolver) (requested : list CapabilityRequest)
    (previous_lock : option CapabilityLock) : result CapabilityLock :=
  r ← resolve_with_files v requested previous_lock false; Ok (rc_lock r).
End Resolver.
