(* ===== verification/ResolverProofs.v ===== *)
(** * What a resolved capability lock guarantees

    Every locked package comes from the first source offering it, in precedence order,
    with the files its digest names; trust follows from the source and the verifier;
    and, when sources answer for what they are asked, every request is met. *)
From S2P Require Import Prelude PyText Json Identity IdentityProofs JsonCanon.
From S2P Require Import PlanExecutionProofs Regex Schemas Manifests Closures ClosureProofs.
From S2P Require Import Locks LockProofs Resolver.

Lemma foldM_result_inv {A S} (f : S -> A -> result S) (I : S -> Prop) l s t :
  (forall s x s', x ∈ l -> I s -> f s x = Ok s' -> I s') -> I s -> foldM_result f l s = Ok t -> I t.
Proof.
  revert s. induction l as [|x l IH]; intros s Hf Hs; cbn [foldM_result]; [by intros [= <-]|].
  intros (s' & Hx & Hl)%bind_Ok. eapply IH; [|by eapply Hf; [left|..]|done].
  intros u y u' Hy. apply Hf. by right.
Qed.

(** ** Sources in precedence order *)
#[export] Instance source_le_trans : Transitive source_le.
Proof. intros x y z. unfold source_le. lia. Qed.
#[export] Instance source_le_total : Total source_le.
Proof. intros x y. unfold source_le. lia. Qed.

Section ResolverProofs.
Context `{rt : PyRuntime} `{dec : JsonDecoder} `{texts : LicenseTexts}.

(** ** Built closures are fit for a lock *)
Lemma record_asset_ok f a : safe_file f -> records_file f a -> asset_ok a.
Proof.
  intros [Hp _] Hr. split; [by eapply records_file_wf|]. pose proof (file_size_nonneg f) as Hz.
  unfold asset_post_init. rewrite (rf_path _ _ Hr), (rf_size _ _ Hr), (rf_executable _ _ Hr).
  unfold normalize_path. rewrite Hp. cbn [raise_if mbind result_bind].
  rewrite (proj2 (Z.ltb_ge _ _) Hz). cbn [raise_if mbind result_bind].
  destruct (pf_executable f) eqn:He; [|done].
  by rewrite (classify_script _ _ _ _ (rf_kind _ _ Hr) He).
Qed.
Lemma built_assets_ok files c : build_closure files = Ok c -> Forall asset_ok (cl_files c).
Proof.
  unfold build_closure. rewrite raise_if_Ok. intros [_ H].
  apply bind_Ok in H as (st & [Hb Ha]%add_files_spec & H). inv_ok. cbn [cl_files].
  unfold sorted_assets. rewrite py_sort_perm. pose proof (bt_records _ _ Hb) as Hr.
  pose proof (ad_safe _ Ha) as Hs. clear -Hr Hs.
  induction Hr as [|f a fs rs Hfa _ IH]; [constructor|].
  apply Forall_cons in Hs as [Hf Hs]. constructor; [by eapply record_asset_ok|by apply IH].
Qed.
Lemma parsed_manifest_ok raw m : parse_manifest raw = Ok m ->
  Forall pin_ok (mf_dependencies m) /\
  compatibility_post_init (mf_compatibility m) = Ok (mf_compatibility m).
Proof.
  unfold parse_manifest. destruct (json_loads_unique raw) as [[| | | | | |document]|]; try done.
  unfold as_manifest_error. destruct (manifest_from_document document) as [m'|[]] eqn:Hd; try done.
  intros [= <-]. unfold manifest_from_document in Hd. inv_ok.
  unfold manifest_post_init in Hd. cbv zeta in Hd. inv_ok. cbn [mf_dependencies mf_compatibility].
  split.
  - unfold sorted_pins. rewrite py_sort_perm. eapply mapM_result_inv; [|eassumption].
    intros j p. unfold pin_from_json. destruct j; try done. intros Hp. inv_ok.
    pose proof Hp as Hq. unfold pin_post_init in Hq. inv_ok. split; [|done].
    match goal with H : digest_from_text _ = Ok _ |- _ => by apply digest_of_str_wf in H end.
  - match goal with H : from_option _ _ (dict_get "compatibility" document) = Ok _ |- _ =>
      revert H end.
    destruct (dict_get "compatibility" document); [apply compatibility_read_ok|].
    apply compatibility_post_idempotent.
Qed.
Lemma closure_fits files c : build_closure files = Ok c ->
  Forall asset_ok (cl_files c) /\ Forall pin_ok (mf_dependencies (cl_manifest c)) /\
  compatibility_post_init (mf_compatibility (cl_manifest c)) = Ok (mf_compatibility (cl_manifest c)).
Proof.
  intros Hc. pose proof (built_assets_ok files c Hc).
  apply build_closure_built in Hc as [_ _ (raw & _ & Hm%parsed_manifest_ok)]. tauto.
Qed.
Lemma digest_of_json_wf j d : digest_of_json j = Ok d -> wf_digest d.
Proof. unfold digest_of_json. rewrite digest_of_bytes_Ok. intros [= <-]. split; [done|apply sha256_hex_shape]. Qed.

(** ** The origin of a locked package *)
Record origin (v : Resolver) (previous : option CapabilityLock) (e : LockedCapability)
    (files : list PackageFile) (s : CapabilitySource) (d : CapabilityDescriptor)
    (c : PackageClosure) (name version : string) : Prop := {
  (** chosen by precedence *)
  or_first : exists before after, rv_sources v = before ++ s :: after /\
    (forall t, t ∈ before -> port_resolve (cs_port t) name version = Ok None) /\
    port_resolve (cs_port s) name version = Ok (Some d);
  or_revision : reviewed_base s = true -> port_pinned_commit (cs_port s) = Some (lc_revision e);
  (** the files the digest names *)
  or_files : port_fetch_closure (cs_port s) (lc_name e) (lc_version e) = Ok files;
  or_closure : build_closure files = Ok c /\ pc_digest c = Ok (lc_digest e);
  or_digest : cd_digest d = lc_digest e;
  or_identity : mf_name (cl_manifest c) = lc_name e /\ mf_version (cl_manifest c) = lc_version e /\
    mf_kind (cl_manifest c) = lc_kind e;
  or_permissions : forall p, p ∈ lc_permissions e <-> p ∈ mf_permissions (cl_manifest c);
  or_dependencies : forall p, p ∈ lc_dependencies e <-> p ∈ mf_dependencies (cl_manifest c);
  or_receipt : evaluate_compatibility (mf_compatibility (cl_manifest c)) (rv_host v) =
    Ok (lc_receipt e);
  (** trust *)
  or_introduced : lc_introduced_by_run e = negb (reviewed_base s);
  or_local : pv_status (lc_provenance e) = LOCAL_TRUSTED <-> reviewed_base s = true;
  or_authenticated : pv_status (lc_provenance e) = AUTHENTICATED <->
    reviewed_base s = false /\ exists key, rv_signature_verifier v d = Ok (Some key);
  (** no drift at the pinned version *)
  or_drift : forall pin, previous ≫= (fun l => pin_for l name) = Some pin ->
    pin_version pin = lc_version e -> pin_digest pin = lc_digest e;
}.
Lemma select_first sources name version report s d sel :
  select sources name version report = Ok (s, d, sel) ->
  (exists before after, sources = before ++ s :: after /\
    (forall t, t ∈ before -> port_resolve (cs_port t) name version = Ok None) /\
    port_resolve (cs_port s) name version = Ok (Some d)) /\ require_pinned_revision s d = Ok ().
Proof.
  induction sources as [|t ts IH]; cbn [select]; [done|].
  intros (o & Ho & H)%bind_Ok. destruct o as [d'|].
  - apply bind_Ok in H as ([] & Hr & (shadowed & _ & [= -> -> _])%bind_Ok). split; [|done].
    exists [], ts. split_and!; [done|by intros t ?%not_elem_of_nil|done].
  - destruct (IH H) as [(before & after & -> & Hb & Hs) Hr]. split; [|done].
    exists (t :: before), after. split_and!; [done| |done]. intros u [->|Hu]%elem_of_cons; auto.
Qed.
Lemma locked_post_fields e e' : locked_post_init e = Ok e' ->
  lc_name e' = lc_name e /\ lc_version e' = lc_version e /\ lc_kind e' = lc_kind e /\
  lc_revision e' = lc_revision e /\ lc_digest e' = lc_digest e /\
  lc_provenance e' = lc_provenance e /\ lc_license e' = lc_license e /\
  lc_introduced_by_run e' = lc_introduced_by_run e /\ lc_receipt e' = lc_receipt e /\
  lc_dependencies e' = sorted_pins (lc_dependencies e) /\
  lc_permissions e' = sorted_permissions (lc_permissions e).
Proof. unfold locked_post_init. intros H. inv_ok. by split_and!. Qed.
Lemma classified_provenance v d introduced p : classify_provenance v d introduced = Ok p ->
  provenance_ok p /\ (pv_status p = LOCAL_TRUSTED <-> introduced = false) /\
  (pv_status p = AUTHENTICATED <->
    introduced = true /\ exists key, rv_signature_verifier v d = Ok (Some key)).
Proof.
  assert (forall p q, provenance_post_init p = Ok q -> q = p /\ provenance_ok p) as Hpost.
  { intros q q' H. pose proof H as Hq. unfold provenance_post_init in H. by inv_ok. }
  unfold classify_provenance. destruct introduced; cbn [negb].
  - intros (signer & Hs & [-> Hok]%Hpost)%bind_Ok. split; [done|]. cbn [pv_status].
    destruct signer as [key|]; (split; [done|]); rewrite Hs; split; try done; eauto.
    by intros [_ [key [=]]].
  - intros [-> Hok]%Hpost. split; [done|]. split; [done|]. by split; [|intros []].
Qed.
Lemma verified_closure d files c : verify_closure d files = Ok c ->
  build_closure files = Ok c /\ pc_digest c = Ok (cd_digest d) /\
  mf_name (cl_manifest c) = cd_name d /\ mf_version (cl_manifest c) = cd_version d.
Proof.
  unfold verify_closure. intros H. inv_ok.
  repeat match goal with
  | H : negb (bool_decide _) = false |- _ => apply negb_false_iff, bool_decide_eq_true_1 in H
  | H : negb (_ && _) = false |- _ => apply negb_false_iff, andb_true_iff in H as [?%String.eqb_eq ?%String.eqb_eq]
  end. by subst.
Qed.
Lemma no_drift q d previous : enforce_no_drift q d previous = Ok () -> forall pin,
  previous ≫= (fun l => pin_for l (rq_name q)) = Some pin ->
  pin_version pin = cd_version d -> pin_digest pin = cd_digest d.
Proof.
  unfold enforce_no_drift. intros H pin Hp Hv. rewrite Hp in H. inv_ok.
  rewrite Hv, String.eqb_refl in *. cbn [andb] in *.
  by match goal with H : negb (bool_decide _) = false |- _ => apply negb_false_iff, bool_decide_eq_true_1 in H end.
Qed.

Context `{iso : IsoCodec}.

Lemma locked_entry_origin v previous q report s d sel files c license_id e :
  select (rv_sources v) (rq_name q) (rq_version q) report = Ok (s, d, sel) ->
  port_fetch_closure (cs_port s) (cd_name d) (cd_version d) = Ok files ->
  verify_closure d files = Ok c -> enforce_no_drift q d previous = Ok () ->
  lock_entry v s d c license_id = Ok e ->
  wf_locked e /\ lc_name e = cd_name d /\ lc_version e = cd_version d /\ lc_license e = license_id /\
  origin v previous e files s d c (rq_name q) (rq_version q).
Proof.
  intros [Hfirst Hrev]%select_first Hfiles (Hb & Hd & Hn & Hv)%verified_closure Hdrift He.
  unfold lock_entry in He. rewrite Hd in He. cbn [mbind result_bind] in He.
  apply bind_Ok in He as (prov & (Hpok & Hlocal & Hauth)%classified_provenance & He).
  apply bind_Ok in He as (receipt & Hrec & He).
  destruct (closure_fits files c Hb) as (Hfa & Hfp & Hfc).
  pose proof He as Hf. apply locked_post_fields in Hf.
  cbn [lc_name lc_version lc_kind lc_revision lc_digest lc_provenance lc_license lc_introduced_by_run
    lc_receipt lc_dependencies lc_permissions] in Hf.
  destruct Hf as (En & Ev & Ek & Er & Ed & Ep & El & Ei & Ec & Edeps & Eperms).
  split_and!; [|done..|].
  - eapply locked_post_wf; [..|exact He]; cbn; try done.
    + by eapply receipt_post_idempotent.
    + unfold pc_digest in Hd. by apply digest_of_json_wf in Hd.
  - constructor; rewrite ?En, ?Ev, ?Ek, ?Er, ?Ed, ?Ep, ?Ei, ?Ec, ?Edeps, ?Eperms; try done.
    + intros Hs. unfold require_pinned_revision in Hrev. rewrite Hs in Hrev. cbn [andb] in Hrev.
      inv_ok. by match goal with H : negb (bool_decide _) = false |- _ =>
        apply negb_false_iff, bool_decide_eq_true_1 in H end.
    + intros p. unfold sorted_permissions. by rewrite merge_sort_Permutation, elem_of_remove_dups.
    + intros p. unfold sorted_pins. by rewrite elem_of_py_sort.
    + by rewrite Hlocal, negb_false_iff.
    + by rewrite Hauth, negb_true_iff.
    + intros pin Hp Hpv. by eapply no_drift.
Qed.

(** ** The packages resolved so far *)
Record backed (v : Resolver) (previous : option CapabilityLock) (k : string) (r : Resolved) : Prop := {
  bk_name : lc_name (rs_entry r) = k;
  bk_wf : wf_locked (rs_entry r);
  bk_origin : exists s d c name version,
    origin v previous (rs_entry r) (rs_files r) s d c name version;
}.
Definition backed_all v previous (resolved : list (string * Resolved)) : Prop :=
  NoDup resolved.*1 /\ Forall (fun kv => backed v previous kv.1 kv.2) resolved.
Lemma backed_all_set v previous k r m :
  backed_all v previous m -> backed v previous k r -> backed_all v previous (dict_set k r m).
Proof.
  intros [Hn Hf] Hr. split; [by apply dict_set_nodup|]. by apply dict_set_Forall.
Qed.
Lemma resolve_one_backed budget v previous report stack q resolved e resolved' :
  backed_all v previous resolved ->
  resolve_one budget v previous report stack q resolved = Ok (e, resolved') ->
  backed_all v previous resolved'.
Proof.
  revert stack q resolved e resolved'. induction budget as [|budget IH];
    intros stack q resolved e resolved' Hb H; cbn [resolve_one] in H;
    apply raise_if_Ok in H as [_ H]; [done|].
  destruct (dict_get (rq_name q) resolved) as [existing|]; [by inv_ok|].
  apply bind_Ok in H as ([[s d] sel] & Hsel & H). apply bind_Ok in H as (files & Hfiles & H).
  apply bind_Ok in H as (c & Hc & H). apply bind_Ok in H as (license_id & _ & H).
  apply bind_unit_Ok in H as [_ H]. apply bind_unit_Ok in H as [Hdrift H].
  apply bind_Ok in H as (resolved1 & Hdeps & H). apply bind_Ok in H as (e' & He & [= <- <-]).
  destruct (locked_entry_origin _ _ _ _ _ _ _ _ _ _ _ Hsel Hfiles Hc Hdrift He)
    as (Hw & Hn & _ & _ & Ho).
  apply backed_all_set; [|constructor; [done|done|by do 5 eexists]].
  eapply foldM_result_inv; [|exact Hb|exact Hdeps]. intros m pin m' _ Hm Hpin.
  unfold resolve_pin in Hpin. apply bind_Ok in Hpin as ([dep m1] & Hdep & Hpin). inv_ok.
  by eapply IH.
Qed.

(** ** Every request is met

    [CapabilitySourcePort.resolve(name, version)] answers with that package. *)
Definition honest (v : Resolver) : Prop := forall s name version d, s ∈ rv_sources v ->
  port_resolve (cs_port s) name version = Ok (Some d) -> cd_name d = name /\ cd_version d = version.
Record meets (q : CapabilityRequest) (e : LockedCapability) : Prop := {
  mt_name : lc_name e = rq_name q;
  mt_version : lc_version e = rq_version q;
  mt_license : forall l, rq_expected_license q = Some l -> lc_license e = Some l;
}.
(** Packages are only added, and none under a name being resolved. *)
Record extends (stack : list string) (m m' : list (string * Resolved)) : Prop := {
  ex_kept : forall k r, dict_get k m = Some r -> dict_get k m' = Some r;
  ex_stack : forall k, k ∈ stack -> dict_get k m' = dict_get k m;
}.
Lemma extends_refl stack m : extends stack m m.
Proof. by constructor. Qed.
Lemma extends_trans stack m1 m2 m3 : extends stack m1 m2 -> extends stack m2 m3 -> extends stack m1 m3.
Proof.
  intros [H1 H2] [H3 H4]. constructor; [by eauto|]. intros k Hk. by rewrite H4, H2.
Qed.
Lemma enforced_license q l : enforce_license q l = Ok () ->
  forall expected, rq_expected_license q = Some expected -> l = Some expected.
Proof.
  unfold enforce_license. intros H expected He. rewrite He in H. inv_ok.
  by match goal with H : negb (bool_decide _) = false |- _ =>
    apply negb_false_iff, bool_decide_eq_true_1 in H end.
Qed.
Lemma resolve_one_meets budget v previous report stack q m e m' : honest v ->
  backed_all v previous m -> resolve_one budget v previous report stack q m = Ok (e, m') ->
  extends stack m m' /\ (exists r, dict_get (rq_name q) m' = Some r /\ rs_entry r = e) /\ meets q e.
Proof.
  intros Hh. revert stack q m e m'. induction budget as [|budget IH];
    intros stack q m e m' Hb H; pose proof H as Hall; cbn [resolve_one] in H;
    apply raise_if_Ok in H as [Hst%bool_decide_eq_false_1 H]; [done|].
  destruct (dict_get (rq_name q) m) as [existing|] eqn:Hex.
  { apply raise_if_Ok in H as [Hv%negb_false_iff%String.eqb_eq H].
    apply bind_unit_Ok in H as [Hl [= <- <-]]. pose proof (enforced_license _ _ Hl) as Hlic.
    split_and!; [apply extends_refl|by exists existing|]. constructor; [|done|done].
    destruct Hb as [_ Hf]. rewrite Forall_forall in Hf.
    apply dict_get_Some_elem, Hf in Hex. apply (bk_name _ _ _ _ Hex). }
  apply bind_Ok in H as ([[s d] sel] & Hsel & H). apply bind_Ok in H as (files & Hfiles & H).
  apply bind_Ok in H as (c & Hc & H). apply bind_Ok in H as (license_id & _ & H).
  apply bind_unit_Ok in H as [Hl H]. pose proof (enforced_license _ _ Hl) as Hlic.
  apply bind_unit_Ok in H as [Hdrift H].
  apply bind_Ok in H as (m1 & Hdeps & H). apply bind_Ok in H as (e' & He & [= <- <-]).
  destruct (locked_entry_origin _ _ _ _ _ _ _ _ _ _ _ Hsel Hfiles Hc Hdrift He)
    as (Hw & Hn & Hv & Hli & Ho).
  assert (lc_name e' = rq_name q /\ lc_version e' = rq_version q) as [Hqn Hqv].
  { rewrite Hn, Hv. destruct (or_first _ _ _ _ _ _ _ _ _ Ho) as (before & after & Hsrc & _ & Hr).
    apply (Hh s); [|done]. rewrite Hsrc. set_solver. }
  assert (backed_all v previous m1 /\ extends (stack ++ [rq_name q]) m m1) as [_ Hext].
  { eapply (foldM_result_inv _ (fun n => backed_all v previous n /\
      extends (stack ++ [rq_name q]) m n)); [|split; [exact Hb|apply extends_refl]|exact Hdeps].
    intros n pin n' _ [Hbn Hen] Hpin. unfold resolve_pin in Hpin.
    apply bind_Ok in Hpin as ([dep n1] & Hdep & Hpin). inv_ok.
    split; [by eapply resolve_one_backed|]. eapply extends_trans; [exact Hen|].
    by eapply IH in Hdep as [? _]. }
  assert (dict_get (rq_name q) m1 = None) as Hnone.
  { rewrite (ex_stack _ _ _ Hext); [done|]. set_solver. }
  rewrite Hqn. split_and!.
  - constructor.
    + intros k r Hk. rewrite dict_get_set. case_decide as Hkq; [subst k; congruence|].
      by apply (ex_kept _ _ _ Hext).
    + intros k Hk. rewrite dict_get_set. case_decide as Hkq; [by subst k|].
      apply (ex_stack _ _ _ Hext). set_solver.
  - eexists. rewrite dict_get_set, decide_True by done. done.
  - constructor; [done|done|]. intros l Hel. rewrite Hli. by apply Hlic.
Qed.

(** The loop over the requests. *)
Lemma requests_resolved v previous report requested m :
  foldM_result (resolve_request v previous report) requested [] = Ok m ->
  backed_all v previous m /\
  (honest v -> forall q, q ∈ requested -> exists r, dict_get (rq_name q) m = Some r /\ meets q (rs_entry r)).
Proof.
  revert m. induction requested as [|q l IH] using rev_ind; intros m.
  - intros [= <-]. split; [by split; [constructor|]|]. by intros _ q ?%not_elem_of_nil.
  - rewrite foldM_result_snoc. intros (m0 & Hm0 & H)%bind_Ok. destruct (IH m0 Hm0) as [Hb Hq].
    unfold resolve_request in H. apply bind_Ok in H as ([e m'] & Hr & [= <-]).
    split; [by eapply resolve_one_backed|]. intros Hh q' [Hin|<-%list_elem_of_singleton]%elem_of_app.
    + destruct (Hq Hh q' Hin) as (r & Hg & Hm). exists r. split; [|done].
      apply resolve_one_meets in Hr as (Hext & _); [|done|done]. by apply (ex_kept _ _ _ Hext).
    + apply resolve_one_meets in Hr as (_ & (r & Hg & <-) & Hm); [|done|done]. by exists r.
Qed.
Lemma resolved_lock v requested previous report rc :
  resolve_with_files v requested previous report = Ok rc -> exists m,
  foldM_result (resolve_request v previous report) requested [] = Ok m /\
  fresh_lock (rc_lock rc) /\ rc_files_by_name rc = map (fun kv => (kv.1, rs_files kv.2)) m /\
  (forall e, e ∈ lk_entries (rc_lock rc) <-> exists r, dict_get (lc_name e) m = Some r /\ rs_entry r = e).
Proof.
  unfold resolve_with_files. intros H. apply bind_Ok in H as (m & Hm & H).
  apply bind_Ok in H as (l & Hl & [= <-]). exists m. split; [done|]. cbn [rc_lock rc_files_by_name].
  destruct (requests_resolved _ _ _ _ _ Hm) as [[Hd Hf] _]. rewrite Forall_forall in Hf.
  destruct (lock_post_fields _ _ Hl) as (Hes & Hrs & _). cbn [lk_entries lk_retained_pins] in *.
  split_and!; [|done|].
  - split; [|exact Hrs]. eapply lock_post_wf; [..|exact Hl]; cbn; [|constructor].
    apply Forall_forall. intros e [kv [-> Hkv]]%list_elem_of_fmap. apply Hf in Hkv. exact (bk_wf _ _ _ _ Hkv).
  - intros e. rewrite Hes, elem_of_py_sort, list_elem_of_fmap. split.
    + intros ([k r] & -> & Hkv). exists r. split; [|done]. pose proof (Hf _ Hkv) as Hr.
      rewrite (bk_name _ _ _ _ Hr). by apply dict_get_elem.
    + intros (r & Hr & <-). eexists (_, r). split; [done|]. by eapply dict_get_Some_elem.
Qed.

(** Sources by kind, and within a kind as they were given; at most one reviewed base. *)
Record precedence (sources : list CapabilitySource) (v : Resolver) : Prop := {
  pr_sorted : StronglySorted source_le (rv_sources v);
  pr_same : rv_sources v ≡ₚ sources;
  pr_stable : forall k, List.filter (fun s => bool_decide (cs_kind s = k)) (rv_sources v) =
                        List.filter (fun s => bool_decide (cs_kind s = k)) sources;
  pr_reviewed : (length (List.filter reviewed_base sources) <= 1)%nat;
}.
Lemma resolver_init_precedence sources verifier clock host v :
  resolver_init sources verifier clock host = Ok v -> precedence sources v.
Proof.
  unfold resolver_init, order_sources. intros H. inv_ok.
  match goal with H : (1 <? _)%nat = false |- _ => apply Nat.ltb_ge in H end.
  constructor; cbn [rv_sources]; [apply (py_sort_strongly _)|apply py_sort_perm| |done].
  intros k. apply (py_sort_stable _). intros x y _ _ Hx%bool_decide_eq_true_1 Hy%bool_decide_eq_true_1.
  unfold source_le. by rewrite Hx, Hy.
Qed.

(** C26: resolution is sound.  The resolver asks its sources by kind (project, user, git,
    armory) and, within a kind, in the order given.  A lock it returns is well formed and retains no
    pin, and every package in it, dependencies included, has an origin: the first source
    in precedence order that offers it; the files returned for it rebuild to the digest
    the lock names, and their manifest carries its name, version, kind, permissions and
    dependencies; it is locally trusted exactly when the source is the reviewed base at
    its pinned commit, and authenticated exactly when another source's signature was
    verified; and a package pinned at that version has not drifted. *)
Theorem resolve_sound (sources : list CapabilitySource)
    (verifier : CapabilityDescriptor -> result (option string)) (clock : string -> datetime)
    (host : HostProfile) (v : Resolver) (requested : list CapabilityRequest)
    (previous : option CapabilityLock) (report : bool) (rc : ResolvedCapabilities)
    (Hinit : resolver_init sources verifier clock host = Ok v)
    (H : resolve_with_files v requested previous report = Ok rc) :
  precedence sources v /\ fresh_lock (rc_lock rc) /\
  forall e, e ∈ lk_entries (rc_lock rc) -> exists files,
    dict_get (lc_name e) (rc_files_by_name rc) = Some files /\
    exists s d c name version, origin v previous e files s d c name version.
Proof.
  destruct (resolved_lock _ _ _ _ _ H) as (m & Hm & Hfresh & Hfiles & He).
  split; [by eapply resolver_init_precedence|]. split; [done|]. intros e (r & Hr & <-)%He.
  destruct (requests_resolved _ _ _ _ _ Hm) as [[Hd Hf] _]. rewrite Forall_forall in Hf.
  exists (rs_files r). split.
  - rewrite Hfiles. apply dict_get_elem.
    + by rewrite map_values_keys.
    + apply list_elem_of_fmap. eexists (_, r). split; [done|]. by apply dict_get_Some_elem.
  - apply dict_get_Some_elem, Hf in Hr. apply (bk_origin _ _ _ _ Hr).
Qed.

(** Resolution is complete.  When every source answers with the package it is asked
    for, a lock the resolver returns holds every requested package, at the requested
    version and under the expected license, and every dependency a locked package pins
    is locked at that version and closure. *)
Theorem resolve_complete (v : Resolver) (requested : list CapabilityRequest)
    (previous : option CapabilityLock) (report : bool) (rc : ResolvedCapabilities)
    (Hhonest : honest v) (H : resolve_with_files v requested previous report = Ok rc) :
  (forall q, q ∈ requested -> exists e, lock_get (rc_lock rc) (rq_name q) = Some e /\ meets q e) /\
  (forall e p, e ∈ lk_entries (rc_lock rc) -> p ∈ lc_dependencies e ->
    exists e', lock_get (rc_lock rc) (pin_name p) = Some e' /\ lc_pin e' = p).
Proof.
  destruct (resolved_lock _ _ _ _ _ H) as (m & Hm & [Hw _] & _ & He).
  destruct (requests_resolved _ _ _ _ _ Hm) as [_ Hq].
  destruct (lock_post_fields _ _ (wk_post _ Hw)) as (_ & _ & Hn & _ & _ & Hs). split.
  - intros q (r & Hr & Hmeets)%(Hq Hhonest). exists (rs_entry r). split; [|done].
    apply (find_by_name lc_name); [done|]. split; [|apply Hmeets].
    apply He. exists r. split; [|done]. by rewrite (mt_name _ _ Hmeets).
  - intros e p Hin Hp. unfold pins_satisfied in Hs.
    eapply forallb_forall in Hs; [|by apply list_elem_of_In].
    eapply forallb_forall in Hs; [|by apply list_elem_of_In].
    apply bool_decide_eq_true_1, fmap_Some in Hs as (e' & He' & ->). by exists e'.
Qed.
End ResolverProofs.

(** ** A concrete resolver *)
Module Demo.
#[local] Existing Instance toy_runtime.
#[local] Existing Instance toy_iso.
#[local] Existing Instance ClosureProofs.Demo.toy_decoder.
#[local] Instance toy_texts : LicenseTexts :=
  {| classify_license_text := fun _ => "MIT"; notice_conflicts := fun _ => false |}.
Definition descriptor : CapabilityDescriptor := {|
  cd_name := "adr-writer"; cd_version := "1.1.1"; cd_digest := ClosureProofs.Demo.digest;
  cd_provenance := "armory"; cd_revision := "r1"; cd_license := None; cd_signature := None;
  cd_signer_key_id := None |}.
(** A source that knows one package, if any. *)
Definition source (kind : SourceKind) (known : bool) : CapabilitySource := {|
  cs_kind := kind; cs_label := "source";
  cs_port := {|
    port_pinned_commit := Some "0123456789abcdef0123456789abcdef01234567";
    port_resolve name version := Ok (
      if known && String.eqb name "adr-writer" && String.eqb version "1.1.1"
      then Some descriptor else None);
    port_fetch_closure _ _ := Ok ClosureProofs.Demo.files |} |}.
Definition sources : list CapabilitySource := [source SRC_ARMORY true; source SRC_PROJECT false].
Definition verifier (_ : CapabilityDescriptor) : result (option string) := Ok None.
Definition clock (_ : string) : datetime := Aware 5.
Definition host : HostProfile := {| host_api := 1; host_platform := "linux" |}.
Definition resolver : Resolver := {|
  rv_sources := [source SRC_PROJECT false; source SRC_ARMORY true];
  rv_signature_verifier := verifier; rv_clock := clock; rv_host := host |}.
Definition request : CapabilityRequest :=
  {| rq_name := "adr-writer"; rq_version := "1.1.1"; rq_expected_license := Some "MIT" |}.
Lemma init_ok : resolver_init sources verifier clock host = Ok resolver.
Proof. reflexivity. Qed.
Lemma resolver_honest : honest resolver.
Proof.
  intros s name version d [-> | [->| []%elem_of_nil]%elem_of_cons]%elem_of_cons; cbn; [done|].
  destruct (String.eqb_spec name "adr-writer") as [->|]; [|done].
  destruct (String.eqb_spec version "1.1.1") as [->|]; [|done]. by intros [= <-].
Qed.
Lemma resolved_ok : is_ok (resolve_with_files resolver [request] None false) = true.
Proof. vm_compute. reflexivity. Qed.
Lemma resolve_sound_witness : exists rc, resolve_with_files resolver [request] None false = Ok rc /\
  forall e, e ∈ lk_entries (rc_lock rc) -> exists files,
    dict_get (lc_name e) (rc_files_by_name rc) = Some files /\
    exists s d c name version, origin resolver None e files s d c name version.
Proof.
  destruct (resolve_with_files resolver [request] None false) as [rc|] eqn:Hrc;
    [|by pose proof resolved_ok as Hok; rewrite Hrc in Hok].
  exists rc. split; [done|].
  apply (resolve_sound sources verifier clock host resolver [request] None false rc init_ok Hrc).
Defined.
Lemma resolve_complete_witness : exists rc e,
  resolve_with_files resolver [request] None false = Ok rc /\
  lock_get (rc_lock rc) "adr-writer" = Some e /\ meets request e.
Proof.
  destruct (resolve_with_files resolver [request] None false) as [rc|] eqn:Hrc;
    [|by pose proof resolved_ok as Hok; rewrite Hrc in Hok].
  destruct (resolve_complete resolver [request] None false rc resolver_honest Hrc) as [H _].
  destruct (H request) as (e & He & Hm); [left|].
  exists rc, e. split; [reflexivity|split; [exact He|exact Hm]].
Defined.
End Demo.
