(* ===== verification/Approvals.v ===== *)
(** * Approving capability locks ([capabilities/approval.py])

    The approval request of a pending lock entry and the approvals the current policy
    state allows for a lock.  The identifier and the instant of the evaluation of an
    entry are functions of its name, unique in a lock. *)
From S2P Require Import Prelude PyText Json Identity IdentityProofs JsonCanon Lifecycles Aggregates.
From S2P Require Import Regex Evidence Policy PolicyProofs Schemas Manifests Closures.
From S2P Require Import ClosureProofs Locks LockProofs.

Section Approvals.
Context `{rt : PyRuntime} `{iso : IsoCodec}.

Definition requested_capability (e : LockedCapability) : string := lc_name e +:+ "@" +:+ lc_version e.
(** The keyword arguments given; every other field is [None]. *)
Definition approval_request (e : LockedCapability) (lock_digest : Digest) (principal : string)
    : ApprovalSchema := {|
  ps_action := CAPABILITY_MATERIALIZE;
  ps_work_kind := None; ps_risk_class := None; ps_repository := None; ps_changed_paths := None;
  ps_requested_capability := Some (requested_capability e);
  ps_workflow_version := None; ps_policy_version := None; ps_evidence_status := None;
  ps_retry_consumption := None; ps_budget_consumption := None; ps_validation_profile := None;
  ps_release_type := None; ps_credential_request := None; ps_prior_interventions := None;
  ps_external_protection_state := None; ps_work_snapshot := None;
  ps_effective_configuration := None; ps_adapter_locks := None;
  ps_capability_locks := Some (digest_str lock_digest); ps_target_resource := None;
  ps_diff_or_artifact_digest := Some (digest_str (lc_digest e));
  ps_acceptance_criteria_snapshot := None; ps_evidence_bundle_digest := None;
  ps_requesting_principal_id := Some principal; ps_producer_principal_ids := None;
  ps_credential_delivery_target := None; ps_agent_authored_executable := None;
  ps_retry_after_ambiguous_effect := None; ps_reconciliation_complete := None;
  ps_mutates_active_factory_asset := None; ps_candidate_received_held_out_input := None;
  ps_candidate_affects_protected_control := None; ps_canary_target := None;
  ps_override_reason := None; ps_override_scope := None; ps_override_expires_at := None;
  ps_capability_introduced_by_run := Some (lc_introduced_by_run e) |}.
Definition materialize_approval_schema (e : LockedCapability) (l : CapabilityLock)
    (requesting_principal_id : string) : result ApprovalSchema :=
  raise_when negb (requires_human_approval e) as PyValueError ;;
  digest ← lock_digest l;
  approval_schema_post_init (approval_request e digest requesting_principal_id).

(** One round of the loop over the pending entries. *)
Definition approve_entry (l : CapabilityLock) (evaluator : PolicyEvaluator) (principal : string)
    (fresh_id : string -> string) (now : string -> datetime) (digest : Digest)
    (approvals : ApprovedCapabilities) (e : LockedCapability) : result ApprovedCapabilities :=
  schema ← materialize_approval_schema e l principal;
  decision ← policy_evaluate evaluator (fresh_id (lc_name e)) (now (lc_name e)) schema;
  Ok (if bool_decide (pd_result decision = ALLOW)
      then approvals ++ [{| ca_name := lc_name e; ca_closure_digest := lc_digest e;
                            ca_lock_digest := digest |}]
      else approvals).
Definition approved_capabilities (l : CapabilityLock) (evaluator : PolicyEvaluator)
    (principal : string) (fresh_id : string -> string) (now : string -> datetime)
    : result ApprovedCapabilities :=
  digest ← lock_digest l;
  foldM_result (approve_entry l evaluator principal fresh_id now digest) (pending_approval l) [].
End Approvals.

(** ** What lets a capability execute

    Composition of the resolver's locks, the policy evaluator and the approval
    registry: a package the run introduced is covered only by a recorded, current human
    approval of its exact closure in its exact lock. *)

Section ApprovalProofs.
Context `{rt : PyRuntime} `{iso : IsoCodec}.

(** A human-gated allow decision rests on an approval of the registry. *)
Lemma allowed_by_human e id now s d : policy_evaluate e id now s = Ok d -> pd_result d = ALLOW ->
  requires_human s = true -> exists g a, pe_approval_registry e = Some g /\
    get_approval g s now = Ok (Some a) /\ separated s (ar_approvers a) (registered_human_ids g).
Proof.
  unfold policy_evaluate. intros H Hr Hh.
  assert (forall r rule rationale, mk_decision e id now s r rule rationale = Ok d -> r = ALLOW) as Hmk.
  { intros r rule rationale (<- & _)%mk_decision_Ok. done. }
  destruct (enforce_request s) as [[]|[]]; try done; [|by apply Hmk in H].
  rewrite Hh in H. unfold evaluate_human_required in H.
  destruct (pe_approval_registry e) as [g|]; [|by apply Hmk in H].
  destruct (requires_dual_human s && _); [by apply Hmk in H|].
  apply bind_Ok in H as ([a|] & Ha & H); [|by apply Hmk in H].
  destruct (enforce_approval s _ _) as [[]|[]] eqn:He; try done; [|by apply Hmk in H].
  exists g, a. split_and!; [done|done|by apply enforce_approval_Ok].
Qed.

(** The registry's answer is a recorded decision. *)
Lemma approval_recorded history s t r : get_approval (registry_run history).1 s t = Ok (Some r) ->
  r ∈ (registry_run history).2 /\ ar_outcome r = APPROVED /\ schema_digest s = Ok (ar_schema_digest r) /\
  exists us, t = Aware us /\ forall e, ar_expires_at r = Some e -> (us <= micros e)%Z.
Proof.
  intros (d & Hd & Hk & Hcur)%get_approval_Ok. pose proof (wf_registry_run history) as Hw.
  destruct (is_current_true _ _ Hcur) as (Ho & Hs & Ht).
  destruct (wr_slot _ Hw _ _ Hk) as [Hkey Hl].
  destruct (Hl Hs) as ((_ & _ & s' & Hd' & _) & Hin & _).
  split_and!; [done|done| |done]. rewrite Hd. f_equal.
  apply schema_digest_sha in Hd, Hd'. unfold digest_key in Hkey.
  destruct (ar_schema_digest r), d. cbn in *. by subst.
Qed.

(** ** What a request's digest binds *)
Lemma approval_request_no_floats e d p : no_floats (JObj (canonical_inputs (approval_request e d p))) = true.
Proof. reflexivity. Qed.
Definition at_sign : Ascii.ascii := chr 64.
Lemma version_no_at e : wf_locked e -> at_sign ∉ chars (lc_name e).
Proof.
  intros Hw. pose proof (wl_post _ Hw) as H. unfold locked_post_init in H.
  apply bind_Ok in H as (n & Hn & _). unfold validate_name in Hn.
  apply raise_if_Ok in Hn as [Hn%negb_false_iff _].
  apply regex_fullmatch_spec in Hn as (x & y & -> & (Hx & _) & (Hy & _)); [|done].
  rewrite Forall_forall in Hx, Hy. intros [Hin|Hin]%elem_of_app; [by apply Hx in Hin|by apply Hy in Hin].
Qed.
Lemma requested_capability_inj e e' : wf_locked e -> wf_locked e' ->
  requested_capability e = requested_capability e' -> lc_name e = lc_name e' /\ lc_version e = lc_version e'.
Proof.
  intros He He' H. unfold requested_capability in H. apply (f_equal chars) in H.
  rewrite !chars_app in H. 
  pose proof (partition_chars_app at_sign _ (chars (lc_version e)) (version_no_at e He)) as H1.
  pose proof (partition_chars_app at_sign _ (chars (lc_version e')) (version_no_at e' He')) as H2.
  change (chars "@" ++ ?x) with (at_sign :: x) in H. rewrite H in H1. rewrite H1 in H2.
  injection H2 as Hn Hv. by apply chars_inj in Hn, Hv.
Qed.
Lemma canon_obj_get m m' k : NoDup m.*1 -> NoDup m'.*1 -> canon (JObj m) = canon (JObj m') ->
  canon <$> dict_get k m = canon <$> dict_get k m'.
Proof.
  intros Hm Hm' H. cbn [canon] in H.
  assert (forall m, NoDup m.*1 -> canon <$> dict_get k m =
    dict_get k (merge_sort key_le (map (fun kv => (kv.1, canon kv.2)) m))) as Hg.
  { intros n Hn. rewrite dict_get_sort by by rewrite map_values_keys.
    clear -n. induction n as [|[k' v] n IH]; [done|]. cbn [map fst snd]. rewrite !dict_get_cons.
    by case_decide. }
  rewrite (Hg m Hm), (Hg m' Hm'). by injection H as ->.
Qed.
Lemma approval_request_binds e d p e' d' p' x : wf_locked e -> wf_locked e' ->
  wf_digest d -> wf_digest d' ->
  schema_digest (approval_request e d p) = Ok x -> schema_digest (approval_request e' d' p') = Ok x ->
  (lc_name e' = lc_name e /\ lc_version e' = lc_version e /\ lc_digest e' = lc_digest e /\ d' = d) \/
  sha256_collision.
Proof.
  intros He He' Hd Hd' Hx Hx'. unfold schema_digest in Hx, Hx'.
  destruct (digest_of_json_inj _ _ _ (approval_request_no_floats e d p)
    (approval_request_no_floats e' d' p') Hx Hx') as [Hc|]; [left|by right].
  assert (forall e d p, NoDup (canonical_inputs (approval_request e d p)).*1) as Hnd.
  { intros e0 d0 p0. apply (bool_decide_eq_true_1 _). vm_compute. reflexivity. }
  pose proof (fun k => canon_obj_get _ _ k (Hnd e d p) (Hnd e' d' p') Hc) as Hk.
  pose proof (Hk "requested_capability") as H1. pose proof (Hk "diff_or_artifact_digest") as H2.
  pose proof (Hk "capability_locks") as H3. cbn in H1, H2, H3. injection H1 as H1.
  injection H2 as H2. injection H3 as H3. apply requested_capability_inj in H1 as [Hn Hv]; [|done..].
  apply digest_str_inj in H2; [|by apply wl_digest..]. apply digest_str_inj in H3; [|done..].
  by rewrite Hn, Hv, H2, H3.
Qed.

Lemma foldM_result_members {A B} (f : list B -> A -> result (list B)) (P : B -> Prop) l r t :
  (forall acc x acc', x ∈ l -> f acc x = Ok acc' -> forall y, y ∈ acc' -> y ∈ acc \/ P y) ->
  foldM_result f l r = Ok t -> forall y, y ∈ t -> y ∈ r \/ P y.
Proof.
  revert r. induction l as [|x l IH]; intros r Hf; cbn [foldM_result]; [intros [= ->]; auto|].
  intros (r' & Hr & Ht)%bind_Ok y Hy.
  destruct (IH r' ltac:(intros ????; apply Hf; by right) Ht y Hy) as [Hin|]; [|by right].
  by eapply Hf; [left|..].
Qed.
Lemma lock_digest_wf l d : lock_digest l = Ok d -> wf_digest d.
Proof. unfold lock_digest, digest_of_json. rewrite digest_of_bytes_Ok. intros [= <-]. split; [done|apply sha256_hex_shape]. Qed.
(** Pending entries always ask for a human. *)
Lemma pending_requires_human l e d p : wf_lock l -> e ∈ pending_approval l ->
  e ∈ lk_entries l /\ wf_locked e /\ requires_human (approval_request e d p) = true.
Proof.
  intros Hl [He%list_elem_of_In Hp]%list_elem_of_In%filter_In. split; [done|].
  pose proof (wk_entries _ Hl) as Hw. rewrite Forall_forall in Hw. apply Hw in He. split; [done|].
  apply wl_post in He. unfold locked_post_init in He. inv_ok.
  unfold requires_human, is_action, is_true. cbn. unfold requires_human_approval in Hp.
  destruct (lc_introduced_by_run e); [done|]. cbn in *.
  repeat match goal with H : negb (bool_decide _) = false |- _ =>
    apply negb_false_iff, bool_decide_eq_true_1 in H end.
  apply bool_decide_eq_true_1 in Hp. congruence.
Qed.
(** What one approval of the set rests on. *)
Definition approval_backed (l : CapabilityLock) (evaluator : PolicyEvaluator) (principal : string)
    (now : string -> datetime) (d : Digest) (y : CapabilityApproval) : Prop :=
  exists e g a, e ∈ pending_approval l /\
    y = {| ca_name := lc_name e; ca_closure_digest := lc_digest e; ca_lock_digest := d |} /\
    pe_approval_registry evaluator = Some g /\
    get_approval g (approval_request e d principal) (now (lc_name e)) = Ok (Some a) /\
    separated (approval_request e d principal) (ar_approvers a) (registered_human_ids g).
Lemma approve_entry_backed l evaluator principal fresh_id now d acc e acc' : wf_lock l ->
  lock_digest l = Ok d -> e ∈ pending_approval l ->
  approve_entry l evaluator principal fresh_id now d acc e = Ok acc' ->
  forall y, y ∈ acc' -> y ∈ acc \/ approval_backed l evaluator principal now d y.
Proof.
  intros Hl Hd Hin H y Hy. unfold approve_entry, materialize_approval_schema in H.
  rewrite Hd in H. apply bind_Ok in H as (schema & Hs & H).
  apply raise_if_Ok in Hs as [_ Hs]. cbn [mbind result_bind] in Hs.
  unfold approval_schema_post_init in Hs. rewrite !raise_if_Ok in Hs.
  destruct Hs as (_ & _ & _ & _ & _ & [= <-]).
  apply bind_Ok in H as (decision & Hdec & [= <-]). revert Hy.
  case_bool_decide as Hr; [|by left]. intros [| ->%list_elem_of_singleton]%elem_of_app; [by left|right].
  destruct (pending_requires_human l e d principal Hl Hin) as (_ & _ & Hh).
  destruct (allowed_by_human _ _ _ _ _ Hdec Hr Hh) as (g & a & Hg & Ha & Hs).
  by exists e, g, a.
Qed.
Lemma approvals_backed l evaluator principal fresh_id now d approvals : wf_lock l ->
  approved_capabilities l evaluator principal fresh_id now = Ok approvals -> lock_digest l = Ok d ->
  forall y, y ∈ approvals -> approval_backed l evaluator principal now d y.
Proof.
  intros Hl H Hd y Hy. unfold approved_capabilities in H. rewrite Hd in H. cbn [mbind result_bind] in H.
  destruct (foldM_result_members _ (approval_backed l evaluator principal now d) _ _ _
    (fun acc e acc' He => approve_entry_backed _ _ _ _ _ _ acc e acc' Hl Hd He) H y Hy)
    as [Hnil|Hb]; [by apply not_elem_of_nil in Hnil|done].
Qed.

(** C25: no capability approves itself.  Whenever the approvals computed for a lock cover
    a package, either the package comes from the reviewed base, or the approval registry
    holds a recorded approval, not expired when it was used, whose approvers are
    registered humans other than the requesting principal, for the digest of the request
    that names the package, its closure and that very lock; and that digest fits no other
    package, version, closure or lock, unless SHA-256 collides. *)
Theorem approved_rests_on_human (history : list RegistryOp) (evaluator : PolicyEvaluator)
    (l : CapabilityLock) (principal : string) (fresh_id : string -> string)
    (now : string -> datetime) (approvals : ApprovedCapabilities) (e : LockedCapability) (d : Digest)
    (Hregistry : pe_approval_registry evaluator = Some (registry_run history).1) (Hl : wf_lock l)
    (H : approved_capabilities l evaluator principal fresh_id now = Ok approvals)
    (Hcovers : covers approvals e d = true) :
  lc_introduced_by_run e = false \/
  exists e0 a, e0 ∈ lk_entries l /\ lc_name e0 = lc_name e /\ lc_digest e0 = lc_digest e /\
    lock_digest l = Ok d /\ a ∈ (registry_run history).2 /\ ar_outcome a = APPROVED /\
    (exists us, now (lc_name e) = Aware us /\ forall t, ar_expires_at a = Some t -> (us <= micros t)%Z) /\
    ar_approvers a <> [] /\
    (forall p, p ∈ ar_approvers a -> ap_principal_type p = HUMAN /\ ap_id p <> principal /\
       ap_id p ∈ registered_human_ids (registry_run history).1) /\
    schema_digest (approval_request e0 d principal) = Ok (ar_schema_digest a) /\
    (forall e' d' principal', wf_locked e' -> wf_digest d' ->
       schema_digest (approval_request e' d' principal') = Ok (ar_schema_digest a) ->
       (lc_name e' = lc_name e0 /\ lc_version e' = lc_version e0 /\ lc_digest e' = lc_digest e0 /\
        d' = d) \/ sha256_collision).
Proof.
  unfold covers in Hcovers. apply orb_true_iff in Hcovers as [Hno|Hin%bool_decide_eq_true_1].
  { left. unfold requires_human_approval in Hno. by destruct (lc_introduced_by_run e). }
  right. pose proof H as Hok. unfold approved_capabilities in Hok.
  apply bind_Ok in Hok as (dl & Hd & _).
  destruct (approvals_backed _ _ _ _ _ dl _ Hl H Hd _ Hin) as (e0 & g & a & He0 & Hy & Hg & Ha & Hsep).
  injection Hy as Hn Hdig ->. rewrite Hregistry in Hg. injection Hg as <-.
  apply approval_recorded in Ha as (Hrec & Ho & Hsd & Ht). rewrite <- Hn in Ht.
  destruct (pending_requires_human l e0 dl principal Hl He0) as (Hl0 & Hw0 & Hh).
  exists e0, a. destruct Hsep as (Hne & Hall & _). split_and!; try done.
  - intros p Hp. destruct (Hall p Hp) as [Hpr Hhu]. destruct (Hhu Hh) as [? ?].
    split_and!; try done. intros He. apply Hpr. rewrite He. unfold producer_ids. cbn. left.
  - intros e' d' p' Hw' Hd' Hx.
    exact (approval_request_binds e0 dl principal e' d' p' _ Hw0 Hw' (lock_digest_wf l dl Hd) Hd' Hsd Hx).
Qed.
End ApprovalProofs.

(** ** A concrete approval *)
Module Demo.
#[local] Existing Instance toy_runtime.
#[local] Existing Instance toy_iso.
Definition entry : LockedCapability := LockProofs.Demo.package "adr" "a".
Definition history : list RegistryOp := [
  RRegister PolicyProofs.Demo.alice;
  RApprove "approval-1" (approval_request entry LockProofs.Demo.first_digest "agent-1")
    [PolicyProofs.Demo.alice] None None (Aware 0)].
Definition evaluator : PolicyEvaluator := {|
  pe_policy_version := "v1"; pe_rules := [];
  pe_approval_registry := Some (registry_run history).1 |}.
Definition approvals : ApprovedCapabilities := [
  {| ca_name := "adr"; ca_closure_digest := lc_digest entry;
     ca_lock_digest := LockProofs.Demo.first_digest |}].
Lemma approvals_ok : approved_capabilities LockProofs.Demo.first evaluator "agent-1"
  (fun name => name) (fun _ => Aware 5) = Ok approvals.
Proof. vm_compute. reflexivity. Qed.
Example nothing_without_approval : approved_capabilities LockProofs.Demo.first
  {| pe_policy_version := "v1"; pe_rules := []; pe_approval_registry := Some empty_registry |}
  "agent-1" (fun name => name) (fun _ => Aware 5) = Ok NO_APPROVALS.
Proof. vm_compute. reflexivity. Qed.
Lemma covers_ok : covers approvals entry LockProofs.Demo.first_digest = true.
Proof. vm_compute. reflexivity. Qed.
Lemma approved_rests_on_human_witness : exists a, a ∈ (registry_run history).2 /\
  forall p, p ∈ ar_approvers a -> ap_principal_type p = HUMAN /\ ap_id p <> "agent-1".
Proof.
  destruct (approved_rests_on_human history evaluator LockProofs.Demo.first "agent-1"
    (fun name => name) (fun _ => Aware 5) approvals entry LockProofs.Demo.first_digest
    eq_refl LockProofs.Demo.first_wf approvals_ok covers_ok)
    as [Hno|(e0 & a & _ & _ & _ & _ & Hin & _ & _ & _ & Hall & _)]; [discriminate Hno|].
  exists a. split; [exact Hin|]. intros p Hp. destruct (Hall p Hp) as (H1 & H2 & _). split; [exact H1|exact H2].
Defined.
End Demo.
