(* ===== verification/ShellGuard.v ===== *)
(** * The shell guard ([domain/workflow/shell_guard.py])

    The program a command launches, found through any chain of known launchers, and the
    refusal of shell interpreters.  [_skip_options] edits its list in place, so it is a
    loop over the list and an index; [skip_loop] takes fuel, and [skip_fuel], the number
    of characters and words, is enough. *)
From S2P Require Import Prelude PyText Json Identity Regex.

(** ** Names *)
Definition SHELL_STEMS : list string :=
  ["sh"; "bash"; "zsh"; "dash"; "ash"; "rbash"; "ksh"; "ksh93"; "pdksh"; "mksh"; "oksh"; "posh";
   "yash"; "csh"; "tcsh"; "fish"; "nu"; "nushell"; "xonsh"; "elvish"; "cmd"; "powershell"; "pwsh"].
Definition SHELL_NAME : regex :=
  RSeq (ralt (map RLit SHELL_STEMS))
    (RAlt (RSeq (RRep (is_one_of "-_.") 0 (Some 1))
             (RSeq (RRep is_digit 1 (Some 1)) (RRep (fun c => is_digit c || is_one_of ".-" c) 0 None)))
          (RLit "")).
Definition NUMERIC_OPTION : regex := RSeq (RLit "-") (RRep is_digit 1 None).
Definition MAX_DEPTH : nat := 16.
(** [name.removesuffix(suffix)] *)
Definition py_removesuffix (suffix name : string) : string :=
  if bool_decide (chars suffix `suffix_of` chars name)
  then of_chars (take (length (chars name) - length (chars suffix)) (chars name)) else name.
Definition is_separator (c : Ascii.ascii) : bool := ((code c =? 47) || (code c =? 92))%N.
(** Backslashes count as slashes; the text after the last one. *)
Definition program_name (token : string) : string :=
  py_removesuffix ".exe" (py_lower (of_chars (default [] (last (split_on is_separator (chars token)))))).
Definition is_shell_name (name : string) : bool := regex_fullmatch SHELL_NAME name.

(** ** Launchers *)
Record Launcher := {
  la_values : list string; la_flags : list string; la_attached_flags : list string;
  la_forbidden : list string; la_operands : nat;
  la_numeric_option : bool; la_assignments : bool; la_split_string : bool }.
(** [_Launcher(values=..., flags=...)] *)
Definition launcher (values flags : list string) : Launcher := {|
  la_values := values; la_flags := flags; la_attached_flags := []; la_forbidden := [];
  la_operands := 0; la_numeric_option := false; la_assignments := false; la_split_string := false |}.
Definition without (removed l : list string) : list string :=
  List.filter (fun x => negb (bool_decide (x ∈ removed))) l.

Definition UV_VALUES : list string :=
  ["--with"; "--with-requirements"; "--with-editable"; "--python"; "-p"; "--project"; "--directory";
    "--env-file"; "--extra"; "--group"; "--no-group"; "--only-group"; "--package"; "--index";
    "--default-index"; "--index-url"; "--extra-index-url"; "--find-links"; "--index-strategy";
    "--resolution"; "--prerelease"; "--exclude-newer"; "--config-file"; "--cache-dir";
    "--keyring-provider"; "--link-mode"; "--python-platform"; "--refresh-package";
    "--reinstall-package"; "--upgrade-package"; "--constraints"; "--overrides"; "--color"; "-P";
    "-w"].
Definition UV_FLAGS : list string :=
  ["--no-project"; "--isolated"; "--frozen"; "--locked"; "--no-sync"; "--active"; "--offline";
    "--no-dev"; "--dev"; "--all-extras"; "--all-groups"; "--no-editable"; "--exact";
    "--no-env-file"; "--no-cache"; "--refresh"; "--reinstall"; "--upgrade"; "--quiet"; "-q";
    "--verbose"; "-v"; "--native-tls"; "--no-progress"; "--no-config"; "--no-binary"; "--no-build";
    "--script"; "-s"; "--module"; "-m"; "--no-managed-python"; "--managed-python";
    "--no-python-downloads"].
Definition UVX : Launcher := launcher ((without ["-w"] UV_VALUES) ++ ["--from"])
     (without ["-s"; "--script"; "-m"; "--module"] UV_FLAGS).
Definition NODE_VALUES : list string :=
  ["-p"; "--package"; "-w"; "--workspace"; "--filter"; "-F"; "-C"; "--dir"].
Definition NODE_FLAGS : list string :=
  ["-y"; "--yes"; "--no"; "--include-workspace-root"; "-ws"; "--workspaces"; "-r"; "--recursive";
    "--parallel"; "--stream"; "--workspace-root"; "--no-bail"; "--if-present"].
Definition NODE_FORBIDDEN : list string :=
  ["-c"; "--call"; "--shell-mode"].
Definition NODE_RUNNER : Launcher := {|
     la_values := NODE_VALUES;
     la_flags := NODE_FLAGS;
     la_attached_flags := []; la_forbidden := NODE_FORBIDDEN; la_operands := 0;
     la_numeric_option := false; la_assignments := false; la_split_string := false |}.
Definition LAUNCHERS : list (string * Launcher) := [
  ("env", {|
     la_values := ["-u"; "--unset"; "-C"; "--chdir"; "-P"];
     la_flags := ["-i"; "--ignore-environment"; "-0"; "--null"; "-v"; "--debug"];
     la_attached_flags := []; la_forbidden := []; la_operands := 0;
     la_numeric_option := false; la_assignments := true; la_split_string := true |});
  ("nice", {|
     la_values := ["-n"; "--adjustment"];
     la_flags := [];
     la_attached_flags := []; la_forbidden := []; la_operands := 0;
     la_numeric_option := true; la_assignments := false; la_split_string := false |});
  ("nohup", launcher [] []);
  ("exec", launcher ["-a"] ["-c"; "-l"]);
  ("command", launcher [] ["-p"; "-v"; "-V"]);
  ("builtin", launcher [] []);
  ("time", launcher ["-f"; "--format"; "-o"; "--output"]
     ["-p"; "-v"; "-l"; "-a"; "-q"; "--portability"; "--verbose"; "--append"]);
  ("timeout", {|
     la_values := ["-k"; "--kill-after"; "-s"; "--signal"];
     la_flags := ["--foreground"; "--preserve-status"; "-v"; "--verbose"];
     la_attached_flags := []; la_forbidden := []; la_operands := 1;
     la_numeric_option := false; la_assignments := false; la_split_string := false |});
  ("stdbuf", launcher ["-i"; "-o"; "-e"; "--input"; "--output"; "--error"] []);
  ("setsid", launcher [] ["-c"; "--ctty"; "-f"; "--fork"; "-w"; "--wait"]);
  ("ionice", launcher ["-c"; "--class"; "-n"; "--classdata"; "-p"; "--pid"]
     ["-t"; "--ignore"]);
  ("chrt", {|
     la_values := [];
     la_flags := ["-b"; "-d"; "-f"; "-i"; "-o"; "-r"; "-R"; "-m"; "-v"];
     la_attached_flags := []; la_forbidden := []; la_operands := 1;
     la_numeric_option := false; la_assignments := false; la_split_string := false |});
  ("sudo", {|
     la_values := ["-u"; "-g"; "-C"; "-D"; "-h"; "-p"; "-r"; "-t"; "-U"; "-T"; "--user"; "--group";
       "--preserve-env"; "--chdir"];
     la_flags := ["-E"; "-H"; "-n"; "-S"; "-b"; "-k"; "-K"; "-P"; "-A"; "-B"; "--non-interactive"];
     la_attached_flags := []; la_forbidden := ["-s"; "-i"; "--shell"; "--login"]; la_operands := 0;
     la_numeric_option := false; la_assignments := false; la_split_string := false |});
  ("doas", {|
     la_values := ["-u"; "-C"];
     la_flags := ["-n"];
     la_attached_flags := []; la_forbidden := ["-s"]; la_operands := 0;
     la_numeric_option := false; la_assignments := false; la_split_string := false |});
  ("xargs", {|
     la_values := ["-n"; "-L"; "-I"; "-P"; "-d"; "-E"; "-s"; "-a"; "--max-args"];
     la_flags := ["-0"; "-r"; "-t"; "-p"; "-x"; "-i"; "-l"; "-e"; "--null"; "--no-run-if-empty";
       "--verbose"];
     la_attached_flags := ["-i"; "-l"; "-e"]; la_forbidden := []; la_operands := 0;
     la_numeric_option := false; la_assignments := false; la_split_string := false |});
  ("unbuffer", launcher [] ["-p"]);
  ("arch", launcher ["-arch"] ["-arm64"; "-x86_64"; "-i386"; "-32"; "-64"; "-c"]);
  ("busybox", launcher [] []);
  ("toybox", launcher [] []);
  ("flock", {|
     la_values := ["-w"; "--timeout"; "-E"; "--conflict-exit-code"];
     la_flags := ["-s"; "--shared"; "-x"; "--exclusive"; "-u"; "--unlock"; "-n"; "--nonblock";
       "--nb"; "-o"; "--close"; "-F"; "--no-fork"; "-e"; "-v"; "--verbose"];
     la_attached_flags := []; la_forbidden := ["-c"; "--command"]; la_operands := 1;
     la_numeric_option := false; la_assignments := false; la_split_string := false |});
  ("taskset", {|
     la_values := [];
     la_flags := ["-c"; "--cpu-list"; "-a"; "--all-tasks"];
     la_attached_flags := []; la_forbidden := []; la_operands := 1;
     la_numeric_option := false; la_assignments := false; la_split_string := false |});
  ("caffeinate", launcher ["-t"; "-w"] ["-d"; "-i"; "-m"; "-s"; "-u"]);
  ("sandbox-exec", launcher ["-f"; "-n"; "-p"; "-D"] []);
  ("uvx", UVX);
  ("npx", NODE_RUNNER)].
Definition GLOBAL_OPTIONS : list (string * Launcher) := [
  ("uv", launcher ["--directory"; "--project"; "--config-file"; "--cache-dir"; "--color"]
     ["-q"; "--quiet"; "-v"; "--verbose"; "--offline"; "--no-cache"; "--native-tls";
       "--no-progress"; "--no-config"; "-V"; "--version"; "-h"; "--help"]);
  ("poetry", launcher ["-C"; "--directory"; "-P"; "--project"]
     ["-n"; "--no-interaction"; "-q"; "--quiet"; "-v"; "-vv"; "-vvv"; "--ansi"; "--no-ansi";
       "--no-plugins"; "--no-cache"; "-V"; "--version"; "-h"; "--help"]);
  ("pipenv", launcher [] ["--verbose"; "-v"; "--quiet"; "-q"; "--version"; "--help"]);
  ("npm", launcher ["--prefix"; "--userconfig"; "--registry"; "--loglevel"; "--cache"]
     ["--silent"; "-s"; "--version"; "-v"; "-h"; "--help"; "-g"; "--global"]);
  ("pnpm", launcher ["--filter"; "-F"; "-C"; "--dir"; "--reporter"; "--loglevel"]
     ["-r"; "--recursive"; "-w"; "--workspace-root"; "--silent"; "--version"; "-v"; "-h";
       "--help"])].
Definition SUBCOMMANDS : list (string * list (list string * Launcher)) := [
  ("uv", [(["run"], launcher UV_VALUES UV_FLAGS); (["tool"; "run"], UVX)]);
  ("poetry", [(["run"], launcher [] [])]);
  ("pipenv", [(["run"], launcher [] [])]);
  ("pnpm", [(["exec"], NODE_RUNNER); (["dlx"], NODE_RUNNER)]);
  ("npm", [(["exec"], NODE_RUNNER); (["x"], NODE_RUNNER)])].

(** ** Options *)
Definition equals_sign : Ascii.ascii := chr 61.
(** [token.partition("=")]: the name, and the value after the sign if there is one. *)
Definition option_name (token : string) : string := (py_partition equals_sign token).1.
Definition option_value (token : string) : option string := (py_partition equals_sign token).2.
Definition is_option (token : string) : bool :=
  py_startswith "-" token && negb (String.eqb token "-").
Definition is_assignment (token : string) : bool :=
  bool_decide (equals_sign ∈ chars token) && negb (py_startswith "-" token).
(** [token[:2]] and [token[2:]] *)
Definition first_two (token : string) : string := of_chars (take 2 (chars token)).
Definition after_two (token : string) : string := of_chars (drop 2 (chars token)).
(** [rest[index : index + n] = words] *)
Definition splice (index n : nat) (words rest : list string) : list string :=
  take index rest ++ words ++ drop (index + n) rest.

Fixpoint skip_loop (fuel : nat) (l : Launcher) (rest : list string) (index : nat)
    : result (list string * nat) :=
  match fuel with
  | O => Err InternalInvariantViolationError
  | S fuel =>
      match rest !! index with
      | None => Ok (rest, index)
      | Some token =>
          let name := option_name token in
          if String.eqb token "--" then Ok (rest, S index)
          else if la_assignments l && is_assignment token then skip_loop fuel l rest (S index)
          else if negb (is_option token) then Ok (rest, index)
          else if bool_decide (name ∈ la_forbidden l) then Err InvalidInputError
          else if la_split_string l && (String.eqb name "--split-string" || py_startswith "-S" token) then
            match option_value token with
            | Some value =>
                if String.eqb name "--split-string"
                then skip_loop fuel l (splice index 1 (py_split value) rest) index
                else skip_loop fuel l (splice index 1 (py_split (after_two token)) rest) index
            | None =>
                if String.eqb token "-S" || String.eqb name "--split-string" then
                  match rest !! S index with
                  | None => Err InvalidInputError
                  | Some text => skip_loop fuel l (splice index 2 (py_split text) rest) index
                  end
                else skip_loop fuel l (splice index 1 (py_split (after_two token)) rest) index
            end
          else if bool_decide (name ∈ la_values l) then
            match option_value token with
            | Some _ => skip_loop fuel l rest (S index)
            | None =>
                if (length rest <=? S index)%nat then Err InvalidInputError
                else skip_loop fuel l rest (S (S index))
            end
          else if bool_decide (name ∈ la_flags l) then skip_loop fuel l rest (S index)
          else if bool_decide (option_value token = None) && (2 <? py_len token)%Z &&
                  bool_decide (first_two token ∈ la_values l ++ la_attached_flags l)
          then skip_loop fuel l rest (S index)
          else if la_numeric_option l && regex_fullmatch NUMERIC_OPTION token
          then skip_loop fuel l rest (S index)
          else Err InvalidInputError
      end
  end.
Definition skip_fuel (rest : list string) : nat :=
  S (foldr (fun token n => S (String.length token) + n) 0 rest).
(** [_skip_options]: the edited list and the index. *)
Definition skip_options (l : Launcher) (rest : list string) : result (list string * nat) :=
  skip_loop (skip_fuel rest) l rest 0.

(** [_program_after] *)
Definition program_after (l : Launcher) (argv : list string) (head : nat) : result (list string) :=
  '(rest, index) ← skip_options l (drop head argv);
  let index := (index + la_operands l)%nat in
  raise_when from_option (fun token => bool_decide (option_name token ∈ la_forbidden l)) false
               (rest !! index) as InvalidInputError ;;
  Ok (drop index rest).
(** [_find_launcher] *)
Definition find_subcommand (subcommands : list (list string * Launcher)) (rest : list string)
    (skipped : nat) : option (Launcher * nat) :=
  match List.find (fun s => bool_decide (take (length s.1) (drop skipped rest) = s.1)) subcommands with
  | Some (words, l) => Some (l, 1 + skipped + length words)
  | None => None
  end.
Definition find_launcher (name : string) (argv : list string) : result (option (Launcher * nat)) :=
  match dict_get name SUBCOMMANDS with
  | Some subcommands =>
      '(rest, skipped) ← skip_options (default (launcher [] []) (dict_get name GLOBAL_OPTIONS)) (drop 1 argv);
      Ok (find_subcommand subcommands rest skipped)
  | None => Ok ((fun l => (l, 1)) <$> dict_get name LAUNCHERS)
  end.
(** [_reject]: [budget] is [_MAX_DEPTH + 1 - depth]. *)
Fixpoint reject (budget : nat) (argv : list string) : result () :=
  match argv with
  | [] => Ok ()
  | token :: _ =>
      match budget with
      | O => Err InvalidInputError
      | S budget =>
          let name := program_name token in
          raise_when is_shell_name name as InvalidInputError ;;
          found ← find_launcher name argv;
          match found with
          | None => Ok ()
          | Some (l, head) => program ← program_after l argv head; reject budget program
          end
      end
  end.
Definition reject_shell_invocation (argv : list string) : result () := reject (S MAX_DEPTH) argv.
