(* ===== verification/ShellGuardProofs.v ===== *)
(** * The shell guard is exact

    The option words of a launcher read as a list, the launch step, and the theorem that
    a command is accepted exactly when its chain of launchers ends, within the depth
    limit, at a program that is neither a launcher nor a shell interpreter. *)
From S2P Require Import Prelude PyText Json Identity Regex ShellGuard.
From stdpp Require Import relations.

(** ** Reading a launcher's options, word by word *)
Inductive option_outcome :=
| Stop (program : list string)   (* the words left after the options *)
| More (words : list string)     (* options may follow *)
| Refuse.
(** The text an [env -S] word splits, and the words after it. *)
Definition split_text (token : string) (rest : list string) : option (string * list string) :=
  match option_value token with
  | Some value =>
      Some (if String.eqb (option_name token) "--split-string" then value else after_two token, rest)
  | None =>
      if String.eqb token "-S" || String.eqb (option_name token) "--split-string"
      then match rest with [] => None | text :: rest => Some (text, rest) end
      else Some (after_two token, rest)
  end.
Definition splits (l : Launcher) (token : string) : bool :=
  la_split_string l && (String.eqb (option_name token) "--split-string" || py_startswith "-S" token).
(** A flag, a short option with its value attached, or a number. *)
Definition stands_alone (l : Launcher) (token : string) : bool :=
  bool_decide (option_name token ∈ la_flags l) ||
  (bool_decide (option_value token = None) && (2 <? py_len token)%Z &&
   bool_decide (first_two token ∈ la_values l ++ la_attached_flags l)) ||
  (la_numeric_option l && regex_fullmatch NUMERIC_OPTION token).
Definition option_step (l : Launcher) (words : list string) : option_outcome :=
  match words with
  | [] => Stop []
  | token :: rest =>
      if String.eqb token "--" then Stop rest
      else if la_assignments l && is_assignment token then More rest
      else if negb (is_option token) then Stop words
      else if bool_decide (option_name token ∈ la_forbidden l) then Refuse
      else if splits l token then
        match split_text token rest with
        | Some (text, rest) => More (py_split text ++ rest)
        | None => Refuse
        end
      else if bool_decide (option_name token ∈ la_values l) then
        match option_value token, rest with
        | Some _, _ => More rest
        | None, _ :: rest => More rest
        | None, [] => Refuse
        end
      else if stands_alone l token then More rest else Refuse
  end.
Inductive options (l : Launcher) : list string -> list string -> Prop :=
| options_stop words program : option_step l words = Stop program -> options l words program
| options_more words words' program :
    option_step l words = More words' -> options l words' program -> options l words program.
Lemma options_functional l w p q : options l w p -> options l w q -> p = q.
Proof.
  intros Hp. revert q. induction Hp as [w p Hs|w w' p Hs _ IH]; inversion 1; subst; try congruence.
  apply IH. congruence.
Qed.

(** ** The loop reads the options, in at most as many rounds as there are characters *)
Definition weight (words : list string) : nat :=
  foldr (fun token n => S (String.length token) + n) 0 words.
Lemma weight_app l k : weight (l ++ k) = weight l + weight k.
Proof. unfold weight. induction l as [|x l IH]; [done|]. cbn [app foldr]. rewrite IH. lia. Qed.
Lemma weight_cons x l : weight (x :: l) = S (String.length x) + weight l.
Proof. done. Qed.
Lemma weight_split text : weight (py_split text) <= S (String.length text).
Proof.
  unfold py_split. rewrite <- length_chars. generalize (chars text) as l. intros l.
  assert (H : forall ws : list (list Ascii.ascii),
    weight (map of_chars (List.filter (fun w => negb (bool_decide (w = []))) ws)) <=
    foldr (fun w n => S (length w) + n) 0 ws).
  { induction ws as [|w ws IH]; [done|]. cbn [List.filter foldr]. destruct (negb _); [|lia].
    cbn [map]. rewrite weight_cons, <- length_chars, chars_of_chars. lia. }
  etransitivity; [apply H|]. clear H. induction l as [|c l IH]; [done|]. cbn [split_on length].
  destruct (py_isspace c); [cbn [foldr length]; lia|].
  destruct (split_on py_isspace l); cbn [foldr length] in *; lia.
Qed.
Lemma option_value_length token value : option_value token = Some value ->
  String.length value < String.length token.
Proof.
  unfold option_value, py_partition. rewrite <- !length_chars.
  assert (H : forall l a b, partition_chars equals_sign l = (a, Some b) -> length b < length l).
  { induction l as [|c l IH]; cbn [partition_chars length]; [done|]. intros a b. case_decide; [intros Hb; injection Hb as <- <-; lia|].
    destruct (partition_chars equals_sign l) as [a' o] eqn:E. intros Hb. simplify_eq.
    specialize (IH _ _ eq_refl). lia. }
  destruct (partition_chars equals_sign (chars token)) as [a [b|]] eqn:E; cbn; [|done].
  intros [= <-]. rewrite chars_of_chars. by eapply H.
Qed.
Lemma after_two_length token : String.length (after_two token) <= String.length token - 2.
Proof. unfold after_two. rewrite <- length_chars, chars_of_chars, length_drop, length_chars. lia. Qed.
Lemma prefix_length p token : py_startswith p token = true -> String.length p <= String.length token.
Proof.
  unfold py_startswith. intros H%bool_decide_eq_true_1%prefix_length.
  by rewrite !length_chars in H.
Qed.
Lemma option_step_shrinks l words words' : option_step l words = More words' -> weight words' < weight words.
Proof.
  unfold option_step. destruct words as [|token rest]; [done|].
  destruct (String.eqb token "--"); [done|]. case_match; [intros [= <-]; rewrite weight_cons; lia|].
  destruct (is_option token) eqn:Ho; cbn [negb]; [|done].
  destruct (bool_decide _); [done|]. destruct (splits l token) eqn:Hs.
  - unfold split_text. destruct (option_value token) as [value|] eqn:Hv.
    + apply option_value_length in Hv as Hl. intros [= <-]. rewrite weight_app, weight_cons.
      pose proof (after_two_length token).
      pose proof (weight_split value). pose proof (weight_split (after_two token)).
      destruct (String.eqb (option_name token) "--split-string"); lia.
    + destruct (_ || _) eqn:Hexact.
      * destruct rest as [|text rest]; [done|]. intros [= <-]. rewrite weight_app, !weight_cons.
        pose proof (weight_split text). lia.
      * intros [= <-]. rewrite weight_app, weight_cons. pose proof (weight_split (after_two token)).
        pose proof (after_two_length token).
        unfold is_option in Ho. apply andb_true_iff in Ho as [Ho%prefix_length _]. cbn in Ho. lia.
  - destruct (bool_decide _); [|case_match; [intros [= <-]; rewrite weight_cons; lia|done]].
    destruct (option_value token); [intros [= <-]; rewrite weight_cons; lia|].
    destruct rest; [done|]. intros [= <-]. rewrite !weight_cons. lia.
Qed.

Lemma lookup_here {A} (pre : list A) x l : (pre ++ x :: l) !! length pre = Some x.
Proof. by rewrite list_lookup_middle. Qed.
Lemma splice_here pre cut words l : splice (length pre) (length cut) words (pre ++ cut ++ l) = pre ++ words ++ l.
Proof.
  unfold splice. rewrite take_app_length, drop_app_add', drop_app_length; done.
Qed.
Lemma splice_one pre x words l : splice (length pre) 1 words (pre ++ x :: l) = pre ++ words ++ l.
Proof. exact (splice_here pre [x] words l). Qed.
Lemma splice_two pre x y words l : splice (length pre) 2 words (pre ++ x :: y :: l) = pre ++ words ++ l.
Proof. exact (splice_here pre [x; y] words l). Qed.
Lemma after_here {A} (pre : list A) x l : pre ++ x :: l = (pre ++ [x]) ++ l /\ S (length pre) = length (pre ++ [x]).
Proof. rewrite length_app, <- app_assoc. cbn. split; [done|lia]. Qed.
Lemma lookup_next {A} (pre : list A) x l : (pre ++ x :: l) !! S (length pre) = l !! 0.
Proof. rewrite lookup_app_r by lia. by replace (S (length pre) - length pre) with 1 by lia. Qed.

(** One round of the loop is one option word. *)
Definition loop_round (fuel : nat) (l : Launcher) (pre words : list string) : Prop :=
  match option_step l words with
  | Stop program => exists index, skip_loop (S fuel) l (pre ++ words) (length pre) = Ok (pre ++ words, index) /\
      drop index (pre ++ words) = program
  | More words' => exists pre', skip_loop (S fuel) l (pre ++ words) (length pre) =
        skip_loop fuel l (pre' ++ words') (length pre') /\
      (la_split_string l = false -> pre' ++ words' = pre ++ words)
  | Refuse => skip_loop (S fuel) l (pre ++ words) (length pre) = Err InvalidInputError
  end.
Lemma loop_round_next fuel l pre x words : skip_loop fuel l (pre ++ x :: words) (S (length pre)) =
    skip_loop fuel l ((pre ++ [x]) ++ words) (length (pre ++ [x])).
Proof. by destruct (after_here pre x words) as [-> ->]. Qed.
Lemma loop_round_ok fuel l pre words : loop_round fuel l pre words.
Proof.
  unfold loop_round, option_step. destruct words as [|token rest].
  { rewrite app_nil_r. exists (length pre). cbn [skip_loop].
    rewrite lookup_ge_None_2, drop_ge by lia. done. }
  assert (Hnext : forall words, exists pre', skip_loop fuel l (pre ++ token :: words) (S (length pre)) =
      skip_loop fuel l (pre' ++ words) (length pre') /\ (la_split_string l = false -> pre' ++ words = pre ++ token :: words)).
  { intros words. exists (pre ++ [token]). rewrite loop_round_next. by rewrite <- app_assoc. }
  cbn [skip_loop]. rewrite lookup_here. cbn beta iota zeta.
  destruct (String.eqb token "--").
  { exists (S (length pre)). split; [done|]. destruct (after_here pre token rest) as [-> ->].
    apply drop_app_length. }
  destruct (la_assignments l && is_assignment token); [by apply Hnext|].
  destruct (negb (is_option token)); [exists (length pre); by rewrite drop_app_length|].
  destruct (bool_decide (option_name token ∈ la_forbidden l)); [done|].
  unfold splits, split_text. destruct (la_split_string l && _) eqn:Hs.
  - apply andb_true_iff in Hs as [Hl _].
    assert (H1 : forall w, exists pre', skip_loop fuel l (splice (length pre) 1 w (pre ++ token :: rest)) (length pre) =
        skip_loop fuel l (pre' ++ w ++ rest) (length pre') /\
        (la_split_string l = false -> pre' ++ w ++ rest = pre ++ token :: rest)).
    { intros w. exists pre. split; [by rewrite splice_one|congruence]. }
    destruct (option_value token) as [value|]; [destruct (String.eqb (option_name token) _); apply H1|].
    destruct (String.eqb token "-S" || _); [|apply H1].
    rewrite lookup_next. destruct rest as [|text rest]; [done|]. cbn [lookup list_lookup].
    exists pre. split; [by rewrite splice_two|congruence].
  - destruct (bool_decide (option_name token ∈ la_values l)).
    + destruct (option_value token); [by apply Hnext|]. destruct rest as [|value rest].
      * rewrite length_app. cbn [length]. by rewrite (proj2 (Nat.leb_le _ _)) by lia.
      * rewrite length_app. cbn [length]. rewrite (proj2 (Nat.leb_gt _ _)) by lia.
        exists (pre ++ [token; value]). rewrite <- app_assoc, length_app, Nat.add_comm. done.
    + unfold stands_alone.
      repeat (match goal with |- context [if ?b then skip_loop _ _ _ _ else _] => destruct b end; [by apply Hnext|]).
      done.
Qed.
(** With fuel for the words left, the loop returns what the options leave, or refuses. *)
Lemma skip_loop_spec l : forall fuel pre words, weight words < fuel ->
  match skip_loop fuel l (pre ++ words) (length pre) with
  | Ok (rest, index) => options l words (drop index rest) /\ (la_split_string l = false -> rest = pre ++ words)
  | Err e => e = InvalidInputError /\ forall program, ~ options l words program
  end.
Proof.
  induction fuel as [|fuel IH]; intros pre words Hw; [lia|].
  pose proof (loop_round_ok fuel l pre words) as Hround. unfold loop_round in Hround.
  destruct (option_step l words) as [program|words'|] eqn:Hstep.
  - destruct Hround as (index & -> & <-). split; [by apply options_stop|done].
  - destruct Hround as (pre' & -> & Hsame). apply option_step_shrinks in Hstep as Hlt.
    specialize (IH pre' words' ltac:(lia)). destruct (skip_loop fuel l (pre' ++ words') (length pre')) as [[rest index]|e].
    + destruct IH as [Ho Hr]. split; [by eapply options_more|]. intros Hl. by rewrite Hr, Hsame.
    + destruct IH as [-> Hno]. split; [done|]. intros program Hp. inversion Hp; subst; [congruence|].
      apply (Hno program). congruence.
  - rewrite Hround. split; [done|]. intros program Hp. inversion Hp; congruence.
Qed.
Lemma skip_options_spec l words :
  match skip_options l words with
  | Ok (rest, index) => options l words (drop index rest) /\ (la_split_string l = false -> rest = words)
  | Err e => e = InvalidInputError /\ forall program, ~ options l words program
  end.
Proof. apply (skip_loop_spec l (skip_fuel words) []). unfold skip_fuel, weight. lia. Qed.

(** ** One launch *)
(** The program a launcher runs: its options, its operands, and no shell option after them. *)
Definition runs (l : Launcher) (words program : list string) : Prop := exists after,
  options l words after /\ program = drop (la_operands l) after /\
  from_option (fun token => option_name token ∉ la_forbidden l) True (head program).
Lemma runs_functional l words p q : runs l words p -> runs l words q -> p = q.
Proof. intros (a & Ha & -> & _) (b & Hb & -> & _). by rewrite (options_functional l words a b). Qed.
Lemma program_after_spec l argv skipped :
  match program_after l argv skipped with
  | Ok program => runs l (drop skipped argv) program
  | Err e => e = InvalidInputError /\ forall program, ~ runs l (drop skipped argv) program
  end.
Proof.
  unfold program_after. pose proof (skip_options_spec l (drop skipped argv)) as Hspec.
  destruct (skip_options l (drop skipped argv)) as [[rest index]|e]; cbn.
  - destruct Hspec as [Ho _].
    assert (Hrun : rest !! (index + la_operands l) = head (drop (la_operands l) (drop index rest))).
    { by rewrite drop_drop, head_lookup, lookup_drop, Nat.add_0_r. }
    rewrite Hrun. destruct (from_option _ false _) eqn:Hbad; cbn.
    + split; [done|]. intros program (after & Ha & -> & Hok).
      rewrite (options_functional l _ _ _ Ha Ho) in Hok.
      destruct (head _); cbn in *; [|done]. by apply bool_decide_eq_true_1 in Hbad.
    + exists (drop index rest). rewrite drop_drop. split; [done|]. split; [done|].
      rewrite <- drop_drop. destruct (head _); cbn in *; [|done]. by apply bool_decide_eq_false_1 in Hbad.
  - destruct Hspec as [-> Hno]. split; [done|]. intros program (after & Ha & _). by apply (Hno after).
Qed.
(** The launcher a command names, and the words after it: a known launcher, or a package
    runner's subcommand after the runner's own options. *)
Definition global_options (name : string) : Launcher :=
  default (launcher [] []) (dict_get name GLOBAL_OPTIONS).
Inductive starts (name : string) (rest : list string) : Launcher -> list string -> Prop :=
| starts_launcher l :
    dict_get name SUBCOMMANDS = None -> dict_get name LAUNCHERS = Some l -> starts name rest l rest
| starts_subcommand subcommands words l after :
    dict_get name SUBCOMMANDS = Some subcommands -> (words, l) ∈ subcommands ->
    options (global_options name) rest (words ++ after) -> starts name rest l after.
Definition no_launcher (name : string) (rest : list string) : Prop :=
  match dict_get name SUBCOMMANDS with
  | None => dict_get name LAUNCHERS = None
  | Some subcommands => exists after, options (global_options name) rest after /\
      forall words l, (words, l) ∈ subcommands -> ~ words `prefix_of` after
  end.

(** *** What the tables promise *)
Lemma dict_get_forallb {V} (p : string * V -> bool) m k v :
  forallb p m = true -> dict_get k m = Some v -> p (k, v) = true.
Proof.
  intros Hall Hget%dict_get_Some_elem. rewrite forallb_forall in Hall. by apply Hall, list_elem_of_In.
Qed.
Lemma launcher_not_shell name l : dict_get name LAUNCHERS = Some l -> is_shell_name name = false.
Proof.
  intros H. apply negb_true_iff. revert H.
  apply (dict_get_forallb (fun e => negb (is_shell_name e.1))). by vm_compute.
Qed.
Lemma runner_not_shell name subs : dict_get name SUBCOMMANDS = Some subs -> is_shell_name name = false.
Proof.
  intros H. apply negb_true_iff. revert H.
  apply (dict_get_forallb (fun e => negb (is_shell_name e.1))). by vm_compute.
Qed.
Lemma global_options_no_split name : la_split_string (global_options name) = false.
Proof.
  unfold global_options. destruct (dict_get name GLOBAL_OPTIONS) as [l|] eqn:H; [|done].
  apply negb_true_iff. revert H.
  apply (dict_get_forallb (fun e => negb (la_split_string e.2))). by vm_compute.
Qed.
(** No subcommand of a runner is a prefix of another one. *)
Definition distinguishable (subs : list (list string * Launcher)) : bool :=
  bool_decide (NoDup (map fst subs)) &&
  forallb (fun a => forallb (fun b => bool_decide (a.1 `prefix_of` b.1 -> a.1 = b.1)) subs) subs.
Lemma subcommand_unique name subs w1 l1 w2 l2 after : dict_get name SUBCOMMANDS = Some subs ->
  (w1, l1) ∈ subs -> (w2, l2) ∈ subs -> w1 `prefix_of` after -> w2 `prefix_of` after -> w1 = w2 /\ l1 = l2.
Proof.
  intros Hget H1 H2 Hp1 Hp2.
  apply (dict_get_forallb (fun e => distinguishable e.2)) in Hget; [|by vm_compute].
  unfold distinguishable in Hget. cbn [snd] in Hget.
  apply andb_true_iff in Hget as [Hnd%bool_decide_eq_true_1 Hpre].
  assert (Hprefix : forall a b, a ∈ subs -> b ∈ subs -> a.1 `prefix_of` b.1 -> a.1 = b.1).
  { intros a b Ha%list_elem_of_In Hb%list_elem_of_In. rewrite forallb_forall in Hpre.
    specialize (Hpre a Ha). rewrite forallb_forall in Hpre. by specialize (Hpre b Hb) as ?%bool_decide_eq_true_1. }
  assert (Hw : w1 = w2).
  { destruct (prefix_weak_total w1 w2 after Hp1 Hp2) as [Hle|Hle].
    - by apply (Hprefix (w1, l1) (w2, l2)).
    - symmetry. by apply (Hprefix (w2, l2) (w1, l1)). }
  split; [done|]. subst w2. apply list_elem_of_lookup in H1 as [i Hi], H2 as [j Hj].
  assert (i = j) as ->; [|congruence].
  eapply (NoDup_lookup (map fst subs)); [done| |]; rewrite list_lookup_fmap; [by rewrite Hi|by rewrite Hj].
Qed.
Lemma starts_functional name rest l1 w1 l2 w2 :
  starts name rest l1 w1 -> starts name rest l2 w2 -> l1 = l2 /\ w1 = w2.
Proof.
  intros H1 H2. inversion H1 as [|subs u1 ? ? Hs1 Hi1 Ho1]; inversion H2 as [|subs2 u2 ? ? Hs2 Hi2 Ho2]; subst;
    try (split; congruence).
  replace subs2 with subs in * by congruence.
  pose proof (options_functional _ _ _ _ Ho1 Ho2) as Heq.
  destruct (subcommand_unique name subs u1 l1 u2 l2 (u1 ++ w1)) as [-> ->]; [done..| | |].
  - by exists w1.
  - rewrite Heq. by exists w2.
  - by apply app_inv_head in Heq as ->.
Qed.
Lemma starts_launcher_free name rest l w : starts name rest l w -> ~ no_launcher name rest.
Proof.
  unfold no_launcher. intros [? Hs Hl|subs words ? after Hs Hi Ho]; rewrite Hs; [congruence|].
  intros (after' & Ho' & Hno). apply (Hno _ _ Hi). rewrite (options_functional _ _ _ _ Ho' Ho). by exists after.
Qed.
Lemma find_subcommand_spec subs rest skipped :
  match find_subcommand subs rest skipped with
  | Some (l, skipped') => exists words, (words, l) ∈ subs /\ drop skipped rest = words ++ drop skipped' ("" :: rest)
  | None => forall words l, (words, l) ∈ subs -> ~ words `prefix_of` drop skipped rest
  end.
Proof.
  unfold find_subcommand. destruct (List.find _ subs) as [[words l]|] eqn:Hf.
  - apply find_some in Hf as [Hin%list_elem_of_In Heq%bool_decide_eq_true_1]. cbn [fst] in Heq.
    exists words. split; [done|]. cbn [drop Nat.add]. rewrite <- drop_drop.
    symmetry. rewrite <- Heq at 1. apply take_drop.
  - intros words l Hin%list_elem_of_In [after Hp].
    pose proof (find_none _ _ Hf _ Hin) as Hno. cbn [fst] in Hno.
    rewrite Hp, take_app_length in Hno. by apply bool_decide_eq_false_1 in Hno.
Qed.
Lemma find_launcher_spec token rest :
  match find_launcher (program_name token) (token :: rest) with
  | Ok (Some (l, skipped)) => starts (program_name token) rest l (drop skipped (token :: rest))
  | Ok None => no_launcher (program_name token) rest
  | Err e => e = InvalidInputError /\ ~ no_launcher (program_name token) rest /\
      forall l words, ~ starts (program_name token) rest l words
  end.
Proof.
  unfold find_launcher, no_launcher. generalize (program_name token) as name. intros name.
  destruct (dict_get name SUBCOMMANDS) as [subs|] eqn:Hs.
  - change (drop 1 (token :: rest)) with rest.
    pose proof (skip_options_spec (global_options name) rest) as Hspec.
    unfold global_options in Hspec at 1. destruct (skip_options _ rest) as [[rest' skipped]|e]; cbn [mbind result_bind].
    + destruct Hspec as [Ho Hsame]. specialize (Hsame (global_options_no_split name)). subst rest'.
      pose proof (find_subcommand_spec subs rest skipped) as Hfind.
      destruct (find_subcommand subs rest skipped) as [[l skipped']|] eqn:Hf.
      * destruct Hfind as (words & Hi & Heq). rewrite Heq in Ho.
        assert (Hpos : exists k, skipped' = S k).
        { unfold find_subcommand in Hf. destruct (List.find _ subs) as [[? ?]|]; [|done].
          injection Hf as _ <-. by eexists. }
        destruct Hpos as [k ->]. by eapply starts_subcommand.
      * by exists (drop skipped rest).
    + destruct Hspec as [-> Hno]. split; [done|]. split; [by intros (after & Ho & _); apply (Hno after)|].
      intros l words [? Hs' _|? ? ? after Hs' _ Ho]; [congruence|]. by eapply Hno.
  - destruct (dict_get name LAUNCHERS) as [l|] eqn:Hl; cbn; [|done]. by apply starts_launcher.
Qed.

(** ** The chain of launches *)
Definition launches (argv program : list string) : Prop :=
  match argv with
  | [] => False
  | token :: rest => exists l words, starts (program_name token) rest l words /\ runs l words program
  end.
Lemma launches_functional argv p q : launches argv p -> launches argv q -> p = q.
Proof.
  destruct argv as [|token rest]; [done|]. intros (l1 & w1 & Hs1 & Hr1) (l2 & w2 & Hs2 & Hr2).
  destruct (starts_functional _ _ _ _ _ _ Hs1 Hs2) as [-> ->]. by eapply runs_functional.
Qed.
(** Nothing is left, or a program that neither is a shell nor starts another program. *)
Definition settled (argv : list string) : Prop :=
  match argv with
  | [] => True
  | token :: rest => is_shell_name (program_name token) = false /\ no_launcher (program_name token) rest
  end.
Lemma launches_not_settled argv p : launches argv p -> ~ settled argv.
Proof.
  destruct argv as [|token rest]; [done|]. intros (l & w & Hs & _) [_ Hno].
  by apply starts_launcher_free in Hs.
Qed.
Lemma launches_not_shell token rest p : launches (token :: rest) p -> is_shell_name (program_name token) = false.
Proof.
  intros (l & w & Hs & _). inversion Hs; subst; [by eapply launcher_not_shell|by eapply runner_not_shell].
Qed.
(** The programs a budget of launches reaches; an empty command needs no budget. *)
Definition resolves (budget : nat) (argv : list string) : Prop := exists n program,
  nsteps launches n argv program /\ settled program /\ n + (if program then 0 else 1) <= budget.
Lemma resolves_settled budget argv : settled argv -> (resolves budget argv <-> argv = [] \/ 0 < budget).
Proof.
  intros Hs. split.
  - intros (n & p & Hn & Hp & Hle). inversion Hn; subst; [destruct p; [by left|right; lia]|].
    exfalso. by eapply launches_not_settled.
  - intros Hb. exists 0, argv. split; [constructor|]. split; [done|]. destruct Hb as [->|]; [lia|destruct argv; lia].
Qed.
Lemma resolves_launch budget argv p : launches argv p -> resolves (S budget) argv <-> resolves budget p.
Proof.
  intros Hl. split.
  - intros (n & q & Hn & Hq & Hle). inversion Hn as [|n' ? p' ? Hl' Hn']; subst.
    + exfalso. by eapply launches_not_settled.
    + rewrite <- (launches_functional _ _ _ Hl Hl') in Hn'. exists n', q. split; [done|]. split; [done|lia].
  - intros (n & q & Hn & Hq & Hle). exists (S n), q. split; [by econstructor|]. split; [done|lia].
Qed.
Lemma resolves_stuck budget argv : ~ settled argv -> (forall p, ~ launches argv p) -> ~ resolves budget argv.
Proof. intros Hs Hno (n & p & Hn & Hp & _). inversion Hn; subst; [done|]. by eapply Hno. Qed.

(** ** The guard *)
Lemma reject_spec budget : forall argv,
  match reject budget argv with
  | Ok _ => resolves budget argv
  | Err e => e = InvalidInputError /\ ~ resolves budget argv
  end.
Proof.
  induction budget as [|budget IH]; intros [|token rest]; cbn [reject];
    [by apply resolves_settled; [|left]| |by apply resolves_settled; [|left]|].
  { split; [done|]. intros (n & p & Hn & _ & Hle). destruct n; [|lia]. inversion Hn; subst. lia. }
  destruct (is_shell_name (program_name token)) eqn:Hshell; cbn [mbind result_bind].
  { split; [done|]. apply resolves_stuck; [by intros [? _]; congruence|].
    intros p Hp%launches_not_shell. congruence. }
  pose proof (find_launcher_spec token rest) as Hfind.
  destruct (find_launcher _ _) as [[[l skipped]|]|e]; cbn [mbind result_bind].
  - pose proof (program_after_spec l (token :: rest) skipped) as Hprog.
    destruct (program_after _ _ _) as [p|e]; cbn [mbind result_bind].
    + assert (Hl : launches (token :: rest) p) by (by eexists _, _).
      specialize (IH p). destruct (reject budget p).
      * by apply (resolves_launch budget _ p).
      * destruct IH as [-> IH]. split; [done|]. by rewrite (resolves_launch budget _ p).
    + destruct Hprog as [-> Hno]. split; [done|]. apply resolves_stuck.
      * intros [_ Hfree]. by eapply starts_launcher_free.
      * intros p (l' & w & Hs & Hr). destruct (starts_functional _ _ _ _ _ _ Hs Hfind) as [-> ->]. by eapply Hno.
  - apply resolves_settled; [done|]. right. lia.
  - destruct Hfind as (-> & Hfree & Hno). split; [done|]. apply resolves_stuck; [by intros []|].
    intros p (l & w & Hs & _). by eapply Hno.
Qed.
(** One launch, computed. *)
Definition launch (argv : list string) : option (list string) :=
  match argv with
  | [] => None
  | token :: _ =>
      match find_launcher (program_name token) argv with
      | Ok (Some (l, skipped)) => match program_after l argv skipped with Ok p => Some p | Err _ => None end
      | _ => None
      end
  end.
Lemma launch_launches argv p : launch argv = Some p -> launches argv p.
Proof.
  destruct argv as [|token rest]; [done|]. unfold launch. pose proof (find_launcher_spec token rest) as Hs.
  destruct (find_launcher _ _) as [[[l skipped]|]|]; [|done..].
  pose proof (program_after_spec l (token :: rest) skipped) as Hr.
  destruct (program_after _ _ _); [|done]. intros [= <-]. by eexists _, _.
Qed.
Lemma resolves_reached budget argv p : resolves budget argv -> rtc launches argv p -> exists left, resolves left p.
Proof.
  intros Hres Hp. revert budget Hres. induction Hp as [argv|argv q p Hl _ IH]; intros budget Hres; [by exists budget|].
  destruct budget as [|budget].
  - destruct Hres as (n & r & Hn & Hr & Hle). destruct n; [|lia]. inversion Hn; subst.
    exfalso. by eapply launches_not_settled.
  - apply (IH budget). by apply (resolves_launch budget argv q).
Qed.
Lemma resolves_not_shell budget token rest :
  resolves budget (token :: rest) -> is_shell_name (program_name token) = false.
Proof.
  intros (n & p & Hn & Hp & _). inversion Hn; subst; [by destruct Hp|by eapply launches_not_shell].
Qed.

(** [reject_shell_invocation] always decides, whatever the command: it accepts
    exactly the commands whose chain of launchers (options, operands and package-runner
    subcommands skipped, [env -S] words split) ends, after at most [_MAX_DEPTH] launches,
    at nothing or at a program that is neither a shell nor a launcher; every other command
    is an [InvalidInputError]. *)
Theorem shell_guard_exact argv :
  match reject_shell_invocation argv with
  | Ok _ => exists n program, nsteps launches n argv program /\ settled program /\
      n + (if program then 0 else 1) <= S MAX_DEPTH
  | Err e => e = InvalidInputError /\ ~ exists n program, nsteps launches n argv program /\ settled program /\
      n + (if program then 0 else 1) <= S MAX_DEPTH
  end.
Proof. exact (reject_spec (S MAX_DEPTH) argv). Qed.

(** No program reached by launches from an accepted command, the command itself
    included, is a shell interpreter. *)
Lemma accepted_reaches_no_shell argv token rest :
  reject_shell_invocation argv = Ok () -> rtc launches argv (token :: rest) ->
  is_shell_name (program_name token) = false.
Proof.
  intros Hok Hreach. pose proof (reject_spec (S MAX_DEPTH) argv) as Hspec.
  unfold reject_shell_invocation in Hok. rewrite Hok in Hspec.
  destruct (resolves_reached _ _ _ Hspec Hreach) as [left Hleft]. by eapply resolves_not_shell.
Qed.

Module Demo.
(** A nested launch, and what hides behind it. *)
Definition command : list string := ["/usr/bin/env"; "-i"; "CI=1"; "timeout"; "-k"; "5"; "60"; "uv"; "-q"; "run"; "pytest"; "-k"; "sh"].
Lemma command_ok : reject_shell_invocation command = Ok ().
Proof. by vm_compute. Qed.
Lemma hidden_shell : reject_shell_invocation ["env"; "-S"; "nice -5 /bin/bash.exe -c"] = Err InvalidInputError.
Proof. by vm_compute. Qed.
Lemma command_launches : rtc launches command ["pytest"; "-k"; "sh"].
Proof.
  apply (rtc_l _ _ ["timeout"; "-k"; "5"; "60"; "uv"; "-q"; "run"; "pytest"; "-k"; "sh"]);
    [apply launch_launches; by vm_compute|].
  apply (rtc_l _ _ ["uv"; "-q"; "run"; "pytest"; "-k"; "sh"]); [apply launch_launches; by vm_compute|].
  apply rtc_once, launch_launches. by vm_compute.
Qed.
End Demo.
