(* ===== verification/Checks.v ===== *)
(** * Schemas, budgets and check contracts of workflow nodes
      ([domain/workflow/schema.py], [budget.py], [check.py])

    The closed declarations a node carries.  Raw documents are decoded JSON values, so a
    mapping is a [JObj]; a budget keeps the values it was given, because the source
    compares them without checking their type. *)
From S2P Require Import Prelude PyText Json Identity StateMachine Lifecycles Schemas Regex ShellGuard.
From Stdlib Require Import SpecFloat.

(** ** Reading closed documents *)
(** [sorted(unknown_keys)] of the elements of a list: texts or numbers, not a mixture. *)
Definition py_sortable (l : list json) : bool :=
  forallb (fun j => match j with JStr _ => true | _ => false end) l ||
  forallb (fun j => match j with JBool _ | JInt _ | JFloat _ => true | _ => false end) l ||
  forallb (fun j => match j with JNull => true | _ => false end) l.
Definition py_hashable (j : json) : bool :=
  match j with JList _ | JObj _ => false | _ => true end.
Definition is_key (keys : list string) (j : json) : bool :=
  match j with JStr s => bool_decide (s ∈ keys) | _ => false end.
Definition unknown_key (keys : list string) (k : string) : bool := negb (bool_decide (k ∈ keys)).
(** [set(raw) - keys], the refusal of unknown keys and [first not in raw].  A value that
    is not a mapping is taken apart as Python takes it apart: a text into characters (no
    key is a character), a list into its elements; anything else has no elements. *)
Definition read_closed (keys : list string) (first : string) (raw : json)
    : result (list (string * json)) :=
  match raw with
  | JObj m =>
      raise_when existsb (unknown_key keys) (map fst m) as InvalidInputError ;;
      raise_when bool_decide (dict_get first m = None) as InvalidInputError ;; Ok m
  | JStr _ => Err InvalidInputError
  | JList l =>
      let unknown := List.filter (fun j => negb (is_key keys j)) l in
      raise_when negb (forallb py_hashable l) as PyTypeError ;;
      raise_when negb (py_sortable unknown) as PyTypeError ;;
      raise_when negb (bool_decide (length unknown = 0)) as InvalidInputError ;;
      raise_when negb (existsb (is_key [first]) l) as InvalidInputError ;;
      Err PyTypeError
  | _ => Err PyTypeError
  end.
Definition closed_keys (keys : list string) (raw : list (string * json)) : result () :=
  raise_when existsb (unknown_key keys) (map fst raw) as InvalidInputError ;; Ok ().
(** [isinstance(value, (list, tuple)) and all(isinstance(item, str) ...)], for the value of
    a key that defaults to [()] *)
Definition str_list (value : option json) : result (list string) :=
  match value with
  | None => Ok []
  | Some (JList l) => mapM_result (fun j => match j with JStr s => Ok s | _ => Err InvalidInputError end) l
  | Some _ => Err InvalidInputError
  end.
(** An enumeration whose [ValueError] becomes an [InvalidInputError]. *)
Definition parse_enum {A} `{PyEnum A} (s : string) : result A :=
  match enum_of_value s with Ok x => Ok x | Err _ => Err InvalidInputError end.

(** ** Schemas *)
Inductive FieldType := FT_STRING | FT_INTEGER | FT_NUMBER | FT_BOOLEAN | FT_ARRAY | FT_OBJECT.
#[export] Instance FieldType_eq_dec : EqDecision FieldType.
Proof. solve_decision. Defined.
#[export] Program Instance FieldType_enum : PyEnum FieldType := {|
  members := [FT_STRING; FT_INTEGER; FT_NUMBER; FT_BOOLEAN; FT_ARRAY; FT_OBJECT];
  enum_value t := match t with FT_STRING => "string" | FT_INTEGER => "integer"
    | FT_NUMBER => "number" | FT_BOOLEAN => "boolean" | FT_ARRAY => "array"
    | FT_OBJECT => "object" end |}.
Next Obligation. solve_enum. Qed.
Next Obligation. solve_enum. Qed.

Record FieldSchema := { fs_name : string; fs_type : FieldType; fs_required : bool }.
Definition field_schema_post_init (f : FieldSchema) : result FieldSchema :=
  raise_when blank (fs_name f) as InvalidInputError ;; Ok f.
Definition FIELD_SCHEMA_KEYS : list string := ["type"; "required"].
Definition field_schema_from_mapping (name : string) (raw : json) : result FieldSchema :=
  m ← read_closed FIELD_SCHEMA_KEYS "type" raw;
  text ← (match dict_get "type" m with Some (JStr s) => Ok s | _ => Err InvalidInputError end);
  field_type ← parse_enum text;
  required ← (match default (JBool true) (dict_get "required" m) with
              | JBool b => Ok b | _ => Err InvalidInputError end);
  field_schema_post_init {| fs_name := name; fs_type := field_type; fs_required := required |}.

Record IOSchema := { io_fields : list FieldSchema }.
Definition io_schema_post_init (s : IOSchema) : result IOSchema :=
  raise_when negb (bool_decide (NoDup (map fs_name (io_fields s)))) as InvalidInputError ;; Ok s.
Definition io_schema_from_mapping (raw : list (string * json)) : result IOSchema :=
  fields ← mapM_result (fun kv => field_schema_from_mapping kv.1 kv.2) raw;
  io_schema_post_init {| io_fields := fields |}.
(** [_field_schema_to_json], [_schema_to_json] (field names are unique) *)
Definition field_schema_to_json (f : FieldSchema) : json :=
  JObj [("type", JStr (enum_value (fs_type f))); ("required", JBool (fs_required f))].
Definition schema_to_json (s : IOSchema) : list (string * json) :=
  map (fun f => (fs_name f, field_schema_to_json f)) (io_fields s).

(** ** Budgets *)
(** [value < z] and [value <= z]; a value that is not a number raises. *)
Definition py_lt (value : json) (z : Z) : result bool :=
  match value with
  | JBool b => Ok ((if b then 1 else 0) <? z)%Z
  | JInt n => Ok (n <? z)%Z
  | JFloat f => Ok (float_lt_int f z)
  | _ => Err PyTypeError
  end.
Definition py_le (value : json) (z : Z) : result bool :=
  match value with
  | JBool b => Ok ((if b then 1 else 0) <=? z)%Z
  | JInt n => Ok (n <=? z)%Z
  | JFloat f => Ok (float_lt_int f z || float_eq_int f z)
  | _ => Err PyTypeError
  end.
Record Budget := { max_attempts : json; max_duration_seconds : json; max_cost : json }.
(** The binary64 value 60.0. *)
Definition sixty : spec_float := S754_finite false 8444249301319680 (-47).
Definition default_budget : Budget :=
  {| max_attempts := JInt 1; max_duration_seconds := JFloat sixty; max_cost := JNull |}.
Definition budget_post_init (b : Budget) : result Budget :=
  few ← py_lt (max_attempts b) 1; raise_when few as InvalidInputError ;;
  short ← py_le (max_duration_seconds b) 0; raise_when short as InvalidInputError ;;
  negative ← (match max_cost b with JNull => Ok false | cost => py_lt cost 0 end);
  raise_when negative as InvalidInputError ;;
  Ok b.
Definition BUDGET_KEYS : list string := ["max_attempts"; "max_duration_seconds"; "max_cost"].
Definition budget_from_mapping (raw : list (string * json)) : result Budget :=
  _ ← closed_keys BUDGET_KEYS raw;
  budget_post_init {|
    max_attempts := default (max_attempts default_budget) (dict_get "max_attempts" raw);
    max_duration_seconds := default (max_duration_seconds default_budget)
                              (dict_get "max_duration_seconds" raw);
    max_cost := default (max_cost default_budget) (dict_get "max_cost" raw) |}.
Definition budget_to_json (b : Budget) : list (string * json) :=
  [("max_attempts", max_attempts b); ("max_duration_seconds", max_duration_seconds b);
   ("max_cost", max_cost b)].

(** ** Check contracts *)
Inductive CheckSubjectKind := SOURCE_REVISION | WORKSPACE_HEAD | PULL_REQUEST_HEAD.
#[export] Instance CheckSubjectKind_eq_dec : EqDecision CheckSubjectKind.
Proof. solve_decision. Defined.
#[export] Program Instance CheckSubjectKind_enum : PyEnum CheckSubjectKind := {|
  members := [SOURCE_REVISION; WORKSPACE_HEAD; PULL_REQUEST_HEAD];
  enum_value k := match k with SOURCE_REVISION => "source_revision"
    | WORKSPACE_HEAD => "workspace_head" | PULL_REQUEST_HEAD => "pull_request_head" end |}.
Next Obligation. solve_enum. Qed.
Next Obligation. solve_enum. Qed.
Inductive CommandSource := SOURCE_DECLARED | SOURCE_REQUEST.
#[export] Instance CommandSource_eq_dec : EqDecision CommandSource.
Proof. solve_decision. Defined.
#[export] Program Instance CommandSource_enum : PyEnum CommandSource := {|
  members := [SOURCE_DECLARED; SOURCE_REQUEST];
  enum_value s := match s with SOURCE_DECLARED => "declared" | SOURCE_REQUEST => "request" end |}.
Next Obligation. solve_enum. Qed.
Next Obligation. solve_enum. Qed.
Inductive CheckObserver := PULL_REQUEST_MERGE_READINESS | G4_GATE_FAIL_CLOSED.
#[export] Instance CheckObserver_eq_dec : EqDecision CheckObserver.
Proof. solve_decision. Defined.
#[export] Program Instance CheckObserver_enum : PyEnum CheckObserver := {|
  members := [PULL_REQUEST_MERGE_READINESS; G4_GATE_FAIL_CLOSED];
  enum_value o := match o with
    | PULL_REQUEST_MERGE_READINESS => "pull_request_merge_readiness"
    | G4_GATE_FAIL_CLOSED => "g4_gate_fail_closed" end |}.
Next Obligation. solve_enum. Qed.
Next Obligation. solve_enum. Qed.
Inductive CheckDisposition := PROCEED | REPAIR_OR_STOP | STOP | HOLD.
#[export] Instance CheckDisposition_eq_dec : EqDecision CheckDisposition.
Proof. solve_decision. Defined.
#[export] Program Instance CheckDisposition_enum : PyEnum CheckDisposition := {|
  members := [PROCEED; REPAIR_OR_STOP; STOP; HOLD];
  enum_value d := match d with PROCEED => "proceed" | REPAIR_OR_STOP => "repair_or_stop"
    | STOP => "stop" | HOLD => "hold" end |}.
Next Obligation. solve_enum. Qed.
Next Obligation. solve_enum. Qed.
Definition FAIL_ACTIONS : list CheckDisposition := [REPAIR_OR_STOP; STOP].
Definition INDETERMINATE_ACTIONS : list CheckDisposition := [STOP; HOLD].
(** [_enum] *)
Definition enum_value_of {A} `{PyEnum A} (value : option json) : result A :=
  match value with Some (JStr s) => parse_enum s | _ => Err InvalidInputError end.

Record CommandContract := { cc_source : CommandSource; cc_argv : list string }.
Definition command_contract_post_init (c : CommandContract) : result CommandContract :=
  match cc_source c with
  | SOURCE_REQUEST =>
      raise_when negb (bool_decide (cc_argv c = [])) as InvalidInputError ;; Ok c
  | SOURCE_DECLARED =>
      raise_when bool_decide (cc_argv c = []) as InvalidInputError ;;
      raise_when existsb blank (cc_argv c) as InvalidInputError ;;
      executable ← from_option_err PyIndexError (head (cc_argv c));
      raise_when existsb py_isspace (chars executable) as InvalidInputError ;;
      _ ← reject_shell_invocation (cc_argv c);
      Ok c
  end.
Definition COMMAND_KEYS : list string := ["source"; "argv"].
Definition command_contract_from_mapping (raw : json) : result CommandContract :=
  match raw with
  | JObj m =>
      _ ← closed_keys COMMAND_KEYS m;
      source ← enum_value_of (dict_get "source" m);
      argv ← str_list (dict_get "argv" m);
      command_contract_post_init {| cc_source := source; cc_argv := argv |}
  | _ => Err InvalidInputError
  end.
Definition command_contract_to_mapping (c : CommandContract) : json :=
  match cc_source c with
  | SOURCE_REQUEST => JObj [("source", JStr (enum_value (cc_source c)))]
  | SOURCE_DECLARED =>
      JObj [("source", JStr (enum_value (cc_source c))); ("argv", JList (map JStr (cc_argv c)))]
  end.

Record CheckDeclaration := {
  cd_id : string; cd_subject : CheckSubjectKind; cd_command : option CommandContract;
  cd_observer : option CheckObserver; cd_on_fail : CheckDisposition;
  cd_on_indeterminate : CheckDisposition }.
(** [_CHECK_ID_PATTERN]: two or more words between dots, each a lower-case letter followed by
    lower-case letters, digits and underscores. *)
Definition check_word (w : list Ascii.ascii) : bool :=
  match w with
  | [] => false
  | c :: w => is_lower c && forallb (fun c => is_lower c || is_digit c || is_one_of "_" c) w
  end.
Definition check_id_ok (s : string) : bool :=
  let words := split_on (is_one_of ".") (chars s) in
  (2 <=? length words)%nat && forallb check_word words.
Definition check_post_init (c : CheckDeclaration) : result CheckDeclaration :=
  raise_when negb (check_id_ok (cd_id c)) as InvalidInputError ;;
  raise_when match cd_command c, cd_observer c with
             | None, None | Some _, Some _ => true | _, _ => false end as InvalidInputError ;;
  raise_when negb (bool_decide (cd_on_fail c ∈ FAIL_ACTIONS)) as InvalidInputError ;;
  raise_when negb (bool_decide (cd_on_indeterminate c ∈ INDETERMINATE_ACTIONS)) as InvalidInputError ;;
  Ok c.
(** [CheckDeclaration.disposition] *)
Definition disposition (c : CheckDeclaration) (r : EvidenceResult) : CheckDisposition :=
  match r with
  | EV_PASS => PROCEED
  | EV_FAIL => cd_on_fail c
  | EV_INDETERMINATE => cd_on_indeterminate c
  end.
Definition CHECK_KEYS : list string :=
  ["id"; "subject"; "command"; "observer"; "on_fail"; "on_indeterminate"].
(** [f(value) if value is not None else None] for a looked-up value *)
Definition when_present {A} (value : option json) (f : json -> result A) : result (option A) :=
  match value with
  | None | Some JNull => Ok None
  | Some v => x ← f v; Ok (Some x)
  end.
Definition check_from_mapping (raw : json) : result CheckDeclaration :=
  match raw with
  | JObj m =>
      _ ← closed_keys CHECK_KEYS m;
      check_id ← (match dict_get "id" m with Some (JStr s) => Ok s | _ => Err InvalidInputError end);
      subject ← enum_value_of (dict_get "subject" m);
      command ← when_present (dict_get "command" m) command_contract_from_mapping;
      observer ← when_present (dict_get "observer" m) (fun v => enum_value_of (Some v));
      on_fail ← enum_value_of (dict_get "on_fail" m);
      on_indeterminate ← enum_value_of (dict_get "on_indeterminate" m);
      check_post_init {|
        cd_id := check_id; cd_subject := subject; cd_command := command; cd_observer := observer;
        cd_on_fail := on_fail; cd_on_indeterminate := on_indeterminate |}
  | _ => Err InvalidInputError
  end.
Definition check_to_mapping (c : CheckDeclaration) : json :=
  JObj ([("id", JStr (cd_id c)); ("subject", JStr (enum_value (cd_subject c)));
         ("on_fail", JStr (enum_value (cd_on_fail c)));
         ("on_indeterminate", JStr (enum_value (cd_on_indeterminate c)))] ++
        from_option (fun k => [("command", command_contract_to_mapping k)]) [] (cd_command c) ++
        from_option (fun o => [("observer", JStr (enum_value o))]) [] (cd_observer c)).
