(* ===== verification/Workflows.v ===== *)
(** * Workflow manifests ([domain/workflow/node.py], [domain/workflow/manifest.py])

    Node declarations and the manifest that makes a graph of them.  A mapping of nodes is
    an association list with unique keys; a frozen set of state names is a [gset]. *)
From S2P Require Import Prelude PyText Json Identity StateMachine Lifecycles Graphs Regex ShellGuard Checks.

(** ** Closed vocabularies *)
Inductive NodeKind :=
| NORMALIZE_WORK | REQUEST_HUMAN_DECISION | EXECUTE_AGENT_TASK | RUN_COMMAND | VERIFY_EVIDENCE
| ROUTE | FAN_OUT_AND_JOIN | INVOKE_SUBWORKFLOW | UPDATE_EXTERNAL_WORK_LEDGER
| CREATE_OR_CLEAN_WORKSPACE | STAGE_OR_APPLY_PATCH | OPEN_OR_UPDATE_PULL_REQUEST | WAIT_FOR_CI
| NK_MERGE | PREPARE_OR_PUBLISH_RELEASE | DEPLOY_OR_ROLL_BACK | COMPARE_EVALUATIONS
| PROMOTE_WORKFLOW.
#[export] Instance NodeKind_eq_dec : EqDecision NodeKind.
Proof. solve_decision. Defined.
#[export] Program Instance NodeKind_enum : PyEnum NodeKind := {|
  members := [NORMALIZE_WORK; REQUEST_HUMAN_DECISION; EXECUTE_AGENT_TASK; RUN_COMMAND;
    VERIFY_EVIDENCE; ROUTE; FAN_OUT_AND_JOIN; INVOKE_SUBWORKFLOW; UPDATE_EXTERNAL_WORK_LEDGER;
    CREATE_OR_CLEAN_WORKSPACE; STAGE_OR_APPLY_PATCH; OPEN_OR_UPDATE_PULL_REQUEST; WAIT_FOR_CI;
    NK_MERGE; PREPARE_OR_PUBLISH_RELEASE; DEPLOY_OR_ROLL_BACK; COMPARE_EVALUATIONS;
    PROMOTE_WORKFLOW];
  enum_value k := match k with
    | NORMALIZE_WORK => "normalize_work" | REQUEST_HUMAN_DECISION => "request_human_decision"
    | EXECUTE_AGENT_TASK => "execute_agent_task" | RUN_COMMAND => "run_command"
    | VERIFY_EVIDENCE => "verify_evidence" | ROUTE => "route"
    | FAN_OUT_AND_JOIN => "fan_out_and_join" | INVOKE_SUBWORKFLOW => "invoke_subworkflow"
    | UPDATE_EXTERNAL_WORK_LEDGER => "update_external_work_ledger"
    | CREATE_OR_CLEAN_WORKSPACE => "create_or_clean_workspace"
    | STAGE_OR_APPLY_PATCH => "stage_or_apply_patch"
    | OPEN_OR_UPDATE_PULL_REQUEST => "open_or_update_pull_request"
    | WAIT_FOR_CI => "wait_for_ci" | NK_MERGE => "merge"
    | PREPARE_OR_PUBLISH_RELEASE => "prepare_or_publish_release"
    | DEPLOY_OR_ROLL_BACK => "deploy_or_roll_back" | COMPARE_EVALUATIONS => "compare_evaluations"
    | PROMOTE_WORKFLOW => "promote_workflow" end |}.
Next Obligation. solve_enum. Qed.
Next Obligation. solve_enum. Qed.
Inductive ActorType := ACTOR_DETERMINISTIC | ACTOR_AGENT | ACTOR_HUMAN.
#[export] Instance ActorType_eq_dec : EqDecision ActorType.
Proof. solve_decision. Defined.
#[export] Program Instance ActorType_enum : PyEnum ActorType := {|
  members := [ACTOR_DETERMINISTIC; ACTOR_AGENT; ACTOR_HUMAN];
  enum_value a := match a with ACTOR_DETERMINISTIC => "deterministic" | ACTOR_AGENT => "agent"
    | ACTOR_HUMAN => "human" end |}.
Next Obligation. solve_enum. Qed.
Next Obligation. solve_enum. Qed.
Inductive SideEffectClass := SE_NONE | SIDE_EFFECTING.
#[export] Instance SideEffectClass_eq_dec : EqDecision SideEffectClass.
Proof. solve_decision. Defined.
#[export] Program Instance SideEffectClass_enum : PyEnum SideEffectClass := {|
  members := [SE_NONE; SIDE_EFFECTING];
  enum_value s := match s with SE_NONE => "none" | SIDE_EFFECTING => "side_effecting" end |}.
Next Obligation. solve_enum. Qed.
Next Obligation. solve_enum. Qed.
Inductive IdempotencyBehavior := NOT_APPLICABLE | NATIVE_IDEMPOTENCY_KEY | RECONCILIATION_QUERY.
#[export] Instance IdempotencyBehavior_eq_dec : EqDecision IdempotencyBehavior.
Proof. solve_decision. Defined.
#[export] Program Instance IdempotencyBehavior_enum : PyEnum IdempotencyBehavior := {|
  members := [NOT_APPLICABLE; NATIVE_IDEMPOTENCY_KEY; RECONCILIATION_QUERY];
  enum_value i := match i with NOT_APPLICABLE => "not_applicable"
    | NATIVE_IDEMPOTENCY_KEY => "native_idempotency_key"
    | RECONCILIATION_QUERY => "reconciliation_query" end |}.
Next Obligation. solve_enum. Qed.
Next Obligation. solve_enum. Qed.
Inductive BranchOperator := OP_EQUALS | OP_NOT_EQUALS | OP_IN | OP_NOT_IN | OP_ALWAYS.
#[export] Instance BranchOperator_eq_dec : EqDecision BranchOperator.
Proof. solve_decision. Defined.
#[export] Program Instance BranchOperator_enum : PyEnum BranchOperator := {|
  members := [OP_EQUALS; OP_NOT_EQUALS; OP_IN; OP_NOT_IN; OP_ALWAYS];
  enum_value o := match o with OP_EQUALS => "equals" | OP_NOT_EQUALS => "not_equals"
    | OP_IN => "in" | OP_NOT_IN => "not_in" | OP_ALWAYS => "always" end |}.
Next Obligation. solve_enum. Qed.
Next Obligation. solve_enum. Qed.

(** ** Branch conditions *)
Record BranchCondition := {
  bc_operator : BranchOperator; bc_field_path : option string; bc_values : list string }.
Definition branch_post_init (c : BranchCondition) : result BranchCondition :=
  match bc_operator c with
  | OP_ALWAYS =>
      raise_when negb (bool_decide (bc_field_path c = None)) || negb (bool_decide (bc_values c = []))
        as InvalidInputError ;;
      Ok c
  | _ =>
      raise_when from_option blank true (bc_field_path c) as InvalidInputError ;;
      raise_when bool_decide (bc_values c = []) as InvalidInputError ;;
      Ok c
  end.
Definition BRANCH_KEYS : list string := ["operator"; "field"; "values"].
(** [_optional_str] on a looked-up value *)
Definition opt_str_value (value : option json) : result (option string) :=
  match value with
  | None | Some JNull => Ok None
  | Some (JStr s) => Ok (Some s)
  | Some _ => Err InvalidInputError
  end.
Definition branch_from_mapping (raw : json) : result BranchCondition :=
  m ← read_closed BRANCH_KEYS "operator" raw;
  text ← (match dict_get "operator" m with Some (JStr s) => Ok s | _ => Err InvalidInputError end);
  operator ← parse_enum text;
  field ← opt_str_value (dict_get "field" m);
  values ← str_list (dict_get "values" m);
  branch_post_init {| bc_operator := operator; bc_field_path := field; bc_values := values |}.
Definition text_or_null (o : option string) : json := from_option JStr JNull o.
Definition branch_to_json (c : BranchCondition) : json :=
  JObj [("operator", JStr (enum_value (bc_operator c))); ("field", text_or_null (bc_field_path c));
        ("values", JList (map JStr (bc_values c)))].

(** ** Node declarations *)
Definition CHECK_BOUND_KINDS : list NodeKind := [RUN_COMMAND; VERIFY_EVIDENCE].
Definition NODE_DECLARATION_KEYS : list string :=
  ["kind"; "input_schema"; "output_schema"; "actor_type"; "side_effect_class";
   "idempotency_behavior"; "reconciliation_operation"; "evidence_contract";
   "emitted_event_types"; "policy_action"; "required_capabilities"; "dependencies";
   "branch_conditions"; "parallel_group"; "subworkflow"; "budget"; "check"].
Record NodeDeclaration := {
  nd_node_id : string; nd_kind : NodeKind; nd_input_schema : IOSchema; nd_output_schema : IOSchema;
  nd_actor_type : ActorType; nd_side_effect_class : SideEffectClass;
  nd_idempotency_behavior : IdempotencyBehavior; nd_reconciliation_operation : option string;
  nd_evidence_contract : list string; nd_emitted_event_types : list string;
  nd_policy_action : option string; nd_required_capabilities : list string;
  nd_dependencies : list string; nd_branch_conditions : list BranchCondition;
  nd_parallel_group : option string; nd_subworkflow : option string; nd_budget : Budget;
  nd_check : option CheckDeclaration }.
Definition node_post_init (n : NodeDeclaration) : result NodeDeclaration :=
  raise_when bool_decide (nd_node_id n ∈ nd_dependencies n) as InvalidInputError ;;
  _ ← (match nd_side_effect_class n with
       | SE_NONE =>
           raise_when negb (bool_decide (nd_idempotency_behavior n = NOT_APPLICABLE))
             as InvalidInputError ;;
           raise_when negb (bool_decide (nd_reconciliation_operation n = None))
             as InvalidInputError ;;
           Ok ()
       | SIDE_EFFECTING =>
           raise_when bool_decide (nd_idempotency_behavior n = NOT_APPLICABLE)
             as InvalidInputError ;;
           raise_when bool_decide (nd_idempotency_behavior n = RECONCILIATION_QUERY) &&
                      from_option (fun s => String.eqb s "") true (nd_reconciliation_operation n)
             as InvalidInputError ;;
           Ok ()
       end);
  raise_when bool_decide (nd_kind n = INVOKE_SUBWORKFLOW) && bool_decide (nd_subworkflow n = None)
    as InvalidInputError ;;
  raise_when negb (bool_decide (nd_kind n = INVOKE_SUBWORKFLOW)) &&
             negb (bool_decide (nd_subworkflow n = None)) as InvalidInputError ;;
  raise_when match nd_check n with Some _ => true | None => false end &&
             negb (bool_decide (nd_kind n ∈ CHECK_BOUND_KINDS)) as InvalidInputError ;;
  Ok n.
(** [_require_str], [_require_schema_raw] *)
Definition node_str (raw : list (string * json)) (key : string) : result string :=
  match dict_get key raw with
  | Some (JStr s) => if blank s then Err InvalidInputError else Ok s
  | _ => Err InvalidInputError
  end.
Definition node_schema (raw : list (string * json)) (key : string) : result (list (string * json)) :=
  match dict_get key raw with Some (JObj m) => Ok m | _ => Err InvalidInputError end.
Definition node_from_mapping (node_id : string) (raw : list (string * json)) : result NodeDeclaration :=
  _ ← closed_keys NODE_DECLARATION_KEYS raw;
  kind_text ← node_str raw "kind"; kind ← parse_enum kind_text;
  input_raw ← node_schema raw "input_schema"; input_schema ← io_schema_from_mapping input_raw;
  output_raw ← node_schema raw "output_schema"; output_schema ← io_schema_from_mapping output_raw;
  actor_text ← node_str raw "actor_type"; actor_type ← enum_of_value actor_text;
  side_effect_text ← node_str raw "side_effect_class";
  side_effect_class ← enum_of_value side_effect_text;
  idempotency_text ← node_str raw "idempotency_behavior";
  idempotency_behavior ← enum_of_value idempotency_text;
  reconciliation_operation ← opt_str_value (dict_get "reconciliation_operation" raw);
  subworkflow ← (match dict_get "subworkflow" raw with
                 | Some (JStr s) => w ← mk_identifier s; Ok (Some w)
                 | _ => Ok None end);
  branch_conditions_raw ← (match default (JList []) (dict_get "branch_conditions" raw) with
                           | JList l => Ok l | _ => Err InvalidInputError end);
  budget_raw ← (match default (JObj []) (dict_get "budget" raw) with
                | JObj m => Ok m | _ => Err InvalidInputError end);
  dependency_texts ← str_list (dict_get "dependencies" raw);
  dependencies ← mapM_result mk_identifier dependency_texts;
  evidence_contract ← str_list (dict_get "evidence_contract" raw);
  emitted_event_types ← str_list (dict_get "emitted_event_types" raw);
  policy_action ← opt_str_value (dict_get "policy_action" raw);
  required_capabilities ← str_list (dict_get "required_capabilities" raw);
  branch_conditions ← mapM_result branch_from_mapping branch_conditions_raw;
  parallel_group ← opt_str_value (dict_get "parallel_group" raw);
  budget ← budget_from_mapping budget_raw;
  check ← when_present (dict_get "check" raw) check_from_mapping;
  node_post_init {|
    nd_node_id := node_id; nd_kind := kind; nd_input_schema := input_schema;
    nd_output_schema := output_schema; nd_actor_type := actor_type;
    nd_side_effect_class := side_effect_class; nd_idempotency_behavior := idempotency_behavior;
    nd_reconciliation_operation := reconciliation_operation;
    nd_evidence_contract := evidence_contract; nd_emitted_event_types := emitted_event_types;
    nd_policy_action := policy_action; nd_required_capabilities := required_capabilities;
    nd_dependencies := dependencies; nd_branch_conditions := branch_conditions;
    nd_parallel_group := parallel_group; nd_subworkflow := subworkflow; nd_budget := budget;
    nd_check := check |}.
(** [_node_to_json]; [sorted(texts)] *)
Definition sorted_texts (l : list string) : list string := merge_sort String.le l.
Definition texts_json (l : list string) : json := JList (map JStr l).
Definition node_to_json (n : NodeDeclaration) : list (string * json) := [
  ("kind", JStr (enum_value (nd_kind n)));
  ("input_schema", JObj (schema_to_json (nd_input_schema n)));
  ("output_schema", JObj (schema_to_json (nd_output_schema n)));
  ("actor_type", JStr (enum_value (nd_actor_type n)));
  ("side_effect_class", JStr (enum_value (nd_side_effect_class n)));
  ("idempotency_behavior", JStr (enum_value (nd_idempotency_behavior n)));
  ("reconciliation_operation", text_or_null (nd_reconciliation_operation n));
  ("evidence_contract", texts_json (sorted_texts (nd_evidence_contract n)));
  ("emitted_event_types", texts_json (sorted_texts (nd_emitted_event_types n)));
  ("policy_action", text_or_null (nd_policy_action n));
  ("required_capabilities", texts_json (sorted_texts (nd_required_capabilities n)));
  ("dependencies", texts_json (sorted_texts (nd_dependencies n)));
  ("branch_conditions", JList (map branch_to_json (nd_branch_conditions n)));
  ("parallel_group", text_or_null (nd_parallel_group n));
  ("subworkflow", text_or_null (nd_subworkflow n));
  ("budget", JObj (budget_to_json (nd_budget n)))] ++
  from_option (fun c => [("check", check_to_mapping c)]) [] (nd_check n).

(** ** Manifests *)
Definition CHECK_BINDING_SCHEMA_VERSION : Z := 2.
Definition MANIFEST_KEYS : list string :=
  ["id"; "name"; "schema_version"; "nodes"; "terminal_states"; "terminal_state_mapping";
   "input_schema"; "output_schema"; "compatibility"].
Record WorkflowManifest := {
  wm_id : string; wm_name : string; wm_schema_version : Z;
  wm_nodes : list (string * NodeDeclaration); wm_terminal_states : gset string;
  wm_terminal_state_mapping : list (string * string);
  wm_input_schema : IOSchema; wm_output_schema : IOSchema;
  wm_compatibility : list (string * string) }.

(** The loop of [_validate_check_bindings]; [seen] are the check ids so far. *)
Fixpoint validate_check_bindings (version : Z) (seen : list string)
    (nodes : list (string * NodeDeclaration)) : result () :=
  match nodes with
  | [] => Ok ()
  | (_, n) :: nodes =>
      raise_when (CHECK_BINDING_SCHEMA_VERSION <=? version)%Z &&
                 bool_decide (nd_kind n ∈ CHECK_BOUND_KINDS) &&
                 match nd_check n with None => true | Some _ => false end as InvalidInputError ;;
      match nd_check n with
      | None => validate_check_bindings version seen nodes
      | Some c =>
          raise_when bool_decide (cd_id c ∈ seen) as InvalidInputError ;;
          validate_check_bindings version (cd_id c :: seen) nodes
      end
  end.
(** The graph of the nodes: an item is a key and the declaration under it. *)
Definition node_deps (e : string * NodeDeclaration) : list string := nd_dependencies e.2.
Definition node_edges (nodes : list (string * NodeDeclaration)) : edge_list := edges_of fst node_deps nodes.
Definition validate_manifest (m : WorkflowManifest) : result () :=
  let nodes := wm_nodes m in
  raise_when blank (wm_name m) as InvalidInputError ;;
  raise_when (wm_schema_version m <? 1)%Z as InvalidInputError ;;
  raise_when bool_decide (length nodes = 0) as InvalidInputError ;;
  raise_when bool_decide (wm_terminal_states m = ∅) as InvalidInputError ;;
  _ ← validate_check_bindings (wm_schema_version m) [] nodes;
  raise_when undeclared fst node_deps nodes as InvalidInputError ;;
  raise_when bool_decide (entries_of fst node_deps nodes = []) as InvalidInputError ;;
  let visited := visited_of fst node_deps nodes in
  raise_when negb (Nat.eqb (length visited) (length nodes)) as InvalidInputError ;;
  each_result (fun '(node_id, state_name) =>
    raise_when negb (bool_decide (node_id ∈ map fst nodes)) as InvalidInputError ;;
    raise_when negb (bool_decide (state_name ∈ wm_terminal_states m)) as InvalidInputError ;;
    raise_when negb (bool_decide (node_id ∈ visited)) as InvalidInputError ;;
    raise_when negb (bool_decide (forward (node_edges nodes) node_id = [])) as InvalidInputError ;;
    Ok ()) (wm_terminal_state_mapping m).
Definition workflow_manifest_post_init (m : WorkflowManifest) : result WorkflowManifest :=
  _ ← validate_manifest m; Ok m.

(** [_manifest_to_json], [to_mapping] *)
Definition manifest_to_mapping (m : WorkflowManifest) : list (string * json) := [
  ("id", JStr (wm_id m)); ("name", JStr (wm_name m));
  ("schema_version", JInt (wm_schema_version m));
  ("nodes", JObj (map (fun e => (e.1, JObj (node_to_json e.2))) (wm_nodes m)));
  ("terminal_states", texts_json (sorted_texts (elements (wm_terminal_states m))));
  ("terminal_state_mapping", JObj (map (fun e => (e.1, JStr e.2)) (wm_terminal_state_mapping m)));
  ("input_schema", JObj (schema_to_json (wm_input_schema m)));
  ("output_schema", JObj (schema_to_json (wm_output_schema m)));
  ("compatibility",
   JObj (map (fun e => (e.1, JStr e.2)) (merge_sort key_le (wm_compatibility m))))].
Definition manifest_digest `{PyRuntime} (m : WorkflowManifest) : result Digest :=
  digest_of_json (JObj (manifest_to_mapping m)).

(** [operation_id_for] *)
Definition operation_id_for `{PyRuntime} (m : WorkflowManifest) (run_id node_id target_scope : string)
    (ordinal : Z) : result string :=
  node ← from_option_err InvalidInputError (dict_get node_id (wm_nodes m));
  raise_when bool_decide (nd_side_effect_class node = SE_NONE) as InvalidInputError ;;
  operation_id_derive run_id node_id (enum_value (nd_kind node)) target_scope ordinal.

(** ** Decoding a manifest *)
Definition node_item (kv : string * json) : result (string * NodeDeclaration) :=
  match kv.2 with
  | JObj raw =>
      node_id ← mk_identifier kv.1;
      node ← node_from_mapping node_id raw; Ok (node_id, node)
  | _ => Err InvalidInputError
  end.
Definition text_item (kv : string * json) : result (string * string) :=
  match kv.2 with JStr s => Ok (kv.1, s) | _ => Err InvalidInputError end.
Definition terminal_item (kv : string * json) : result (string * string) :=
  e ← text_item kv; node_id ← mk_identifier e.1; Ok (node_id, e.2).
Definition schema_or_empty (raw : list (string * json)) (key : string) : result (list (string * json)) :=
  match default (JObj []) (dict_get key raw) with JObj m => Ok m | _ => Err InvalidInputError end.
Definition manifest_from_mapping (raw : list (string * json)) : result WorkflowManifest :=
  _ ← closed_keys MANIFEST_KEYS raw;
  id_text ← node_str raw "id"; manifest_id ← mk_identifier id_text;
  name ← node_str raw "name";
  schema_version ← (match dict_get "schema_version" raw with
                    | Some (JInt z) => Ok z | _ => Err InvalidInputError end);
  nodes_raw ← (match dict_get "nodes" raw with Some (JObj m) => Ok m | _ => Err InvalidInputError end);
  nodes ← mapM_result node_item nodes_raw;
  terminal_states ← str_list (dict_get "terminal_states" raw);
  terminal_raw ← schema_or_empty raw "terminal_state_mapping";
  terminal_state_mapping ← mapM_result terminal_item terminal_raw;
  input_raw ← schema_or_empty raw "input_schema";
  output_raw ← schema_or_empty raw "output_schema";
  compatibility_raw ← schema_or_empty raw "compatibility";
  compatibility ← mapM_result text_item compatibility_raw;
  input_schema ← io_schema_from_mapping input_raw;
  output_schema ← io_schema_from_mapping output_raw;
  workflow_manifest_post_init {|
    wm_id := manifest_id; wm_name := name; wm_schema_version := schema_version;
    wm_nodes := nodes; wm_terminal_states := list_to_set terminal_states;
    wm_terminal_state_mapping := terminal_state_mapping;
    wm_input_schema := input_schema; wm_output_schema := output_schema;
    wm_compatibility := compatibility |}.
