(* ===== verification/WorkflowProofs.v ===== *)
(** * Workflow manifests are sound

    What the manifest check accepts, exactly; what decoding guarantees; and that the
    mapping written for a manifest is read back as the same manifest, its lists sorted. *)
From S2P Require Import Prelude PyText Json JsonCanon Identity StateMachine Lifecycles Graphs Regex.
From S2P Require Import IdentityProofs ShellGuard ShellGuardProofs ClosureProofs Checks Workflows.
From stdpp Require Import relations.

(** ** The manifest check *)
(** A node that executes a check has one, from the second schema version on. *)
Definition checks_bound (version : Z) (nodes : list (string * NodeDeclaration)) : Prop :=
  (CHECK_BINDING_SCHEMA_VERSION <= version)%Z ->
  forall e, e ∈ nodes -> nd_kind e.2 ∈ CHECK_BOUND_KINDS -> nd_check e.2 <> None.
Definition check_ids (nodes : list (string * NodeDeclaration)) : list string :=
  omap (fun e => cd_id <$> nd_check e.2) nodes.
Lemma check_bindings_iff version nodes : forall seen,
  validate_check_bindings version seen nodes = Ok () <->
  checks_bound version nodes /\ NoDup (check_ids nodes) /\ forall i, i ∈ check_ids nodes -> i ∉ seen.
Proof.
  unfold checks_bound, check_ids. induction nodes as [|[k n] nodes IH]; intros seen; cbn.
  { split; [intros _|done]. split_and!; [by intros _ e ?%not_elem_of_nil|constructor|by intros i ?%not_elem_of_nil]. }
  rewrite raise_if_Ok. rewrite !andb_false_iff, Z.leb_gt, bool_decide_eq_false.
  assert (Hhead : ((CHECK_BINDING_SCHEMA_VERSION <= version)%Z -> forall e, e ∈ (k, n) :: nodes ->
        nd_kind e.2 ∈ CHECK_BOUND_KINDS -> nd_check e.2 <> None) <->
      ((CHECK_BINDING_SCHEMA_VERSION <= version)%Z -> nd_kind n ∈ CHECK_BOUND_KINDS -> nd_check n <> None) /\
      ((CHECK_BINDING_SCHEMA_VERSION <= version)%Z -> forall e, e ∈ nodes ->
        nd_kind e.2 ∈ CHECK_BOUND_KINDS -> nd_check e.2 <> None)).
  { setoid_rewrite elem_of_cons. split; [naive_solver|]. intros [H1 H2] Hv e [->|He]; [by apply H1|by apply H2]. }
  rewrite Hhead. clear Hhead. destruct (nd_check n) as [c|] eqn:Hc; cbn.
  - rewrite raise_if_Ok, IH, bool_decide_eq_false, NoDup_cons. setoid_rewrite elem_of_cons.
    split; [|naive_solver]. intros (_ & Hseen & Hb & Hnd & Hfresh).
    split_and!; [done|done|by intros ?%Hfresh; set_solver|done|set_solver].
  - specialize (IH seen). split.
    + intros [H Hrest%IH]. destruct Hrest as (Hb & Hnd & Hf). split_and!; [|done..].
      intros Hv Hk. destruct H as [[H|H]|H]; [lia|done|done].
    + intros ((Hn & Hb) & Hnd & Hf). split; [|by apply IH].
      destruct (decide (CHECK_BINDING_SCHEMA_VERSION <= version)%Z); [|left; left; lia].
      left; right. intros Hk. by apply (Hn ltac:(done) Hk).
Qed.

(** The graph the nodes make is closed and acyclic, and the terminal claims are about
    declared states and nodes no node depends on. *)
Record valid_workflow (m : WorkflowManifest) : Prop := {
  vw_name : blank (wm_name m) = false;
  vw_version : (1 <= wm_schema_version m)%Z;
  vw_nodes : wm_nodes m <> [];
  vw_states : wm_terminal_states m <> ∅;
  vw_bound : checks_bound (wm_schema_version m) (wm_nodes m);
  vw_check_ids : NoDup (check_ids (wm_nodes m));
  vw_resolved : forall e d, e ∈ wm_nodes m -> d ∈ nd_dependencies e.2 -> d ∈ map fst (wm_nodes m);
  vw_acyclic : acyclic (node_edges (wm_nodes m));
  vw_terminal : forall k s, (k, s) ∈ wm_terminal_state_mapping m ->
    k ∈ map fst (wm_nodes m) /\ s ∈ wm_terminal_states m /\
    forall e, e ∈ wm_nodes m -> k ∉ nd_dependencies e.2;
}.
Lemma sink_iff nodes k : forward (node_edges nodes) k = [] <-> forall e, e ∈ nodes -> k ∉ nd_dependencies e.2.
Proof.
  split.
  - intros Hf e He Hk. assert (Hin : e.1 ∈ forward (node_edges nodes) k); [|by rewrite Hf in Hin; apply not_elem_of_nil in Hin].
    apply elem_of_forward. apply elem_of_edges. by exists e.
  - intros H. destruct (forward _ _) as [|x l] eqn:Hf; [done|].
    assert (Hx : x ∈ forward (node_edges nodes) k) by (rewrite Hf; left).
    apply elem_of_forward, elem_of_edges in Hx as (e & He & _ & Hk). by destruct (H e He).
Qed.
Lemma validate_manifest_iff m : NoDup (map fst (wm_nodes m)) ->
  validate_manifest m = Ok () <-> valid_workflow m.
Proof.
  intros Hids. unfold validate_manifest.
  rewrite !raise_if_Ok, bind_unit_Ok, check_bindings_iff, !raise_if_Ok, undeclared_false, each_result_Ok.
  rewrite Z.ltb_ge, !bool_decide_eq_false, negb_false_iff, Nat.eqb_eq, Forall_forall, length_zero_iff_nil.
  assert (Hitem : forall v : list string, (forall x, x ∈ wm_terminal_state_mapping m ->
      (let '(node_id, state_name) := x in
       raise_when negb (bool_decide (node_id ∈ map fst (wm_nodes m))) as InvalidInputError ;;
       raise_when negb (bool_decide (state_name ∈ wm_terminal_states m)) as InvalidInputError ;;
       raise_when negb (bool_decide (node_id ∈ v)) as InvalidInputError ;;
       raise_when negb (bool_decide (forward (node_edges (wm_nodes m)) node_id = [])) as InvalidInputError ;;
       Ok ()) = Ok ()) <->
     forall k s, (k, s) ∈ wm_terminal_state_mapping m -> (k ∈ map fst (wm_nodes m) /\
       s ∈ wm_terminal_states m /\ (forall e, e ∈ wm_nodes m -> k ∉ nd_dependencies e.2)) /\ k ∈ v).
  { intros v. split.
    - intros H k s Hin. specialize (H _ Hin). cbn in H.
      rewrite !raise_if_Ok, !negb_false_iff, !bool_decide_eq_true, sink_iff in H. naive_solver.
    - intros H [k s] Hin. specialize (H _ _ Hin).
      rewrite !raise_if_Ok, !negb_false_iff, !bool_decide_eq_true, sink_iff. naive_solver. }
  rewrite Hitem. clear Hitem. split.
  - intros (Hn & Hv & Hne & Hs & (Hb & Hc & _) & Hr & He & Hl & Ht). constructor; try done.
    + by apply (visits_all_iff fst node_deps (wm_nodes m)).
    + intros k s Hin. by apply Ht.
  - intros [Hn Hv Hne Hs Hb Hc Hr Hac Ht]. apply visits_all_iff in Hac as [He Hl]; [|done..].
    split_and!; try done; [by intros i _ ?%not_elem_of_nil|].
    intros k s Hin. destruct (Ht k s Hin) as (Hk & ? & ?). split; [done|]. by apply visited_all.
Qed.

(** ** What construction guarantees *)
Definition schema_ok (s : IOSchema) : Prop :=
  Forall (fun f => blank (fs_name f) = false) (io_fields s) /\ NoDup (map fs_name (io_fields s)).
Definition command_ok (c : CommandContract) : Prop := command_contract_post_init c = Ok c.
Record check_ok (c : CheckDeclaration) : Prop := {
  co_command : from_option command_ok True (cd_command c);
  co_post : check_post_init c = Ok c;
}.
Definition branch_ok (c : BranchCondition) : Prop := branch_post_init c = Ok c.
Record node_ok (n : NodeDeclaration) : Prop := {
  no_id : valid_identifier (nd_node_id n);
  no_input : schema_ok (nd_input_schema n);
  no_output : schema_ok (nd_output_schema n);
  no_dependencies : Forall valid_identifier (nd_dependencies n);
  no_branches : Forall branch_ok (nd_branch_conditions n);
  no_subworkflow : from_option valid_identifier True (nd_subworkflow n);
  no_budget : budget_post_init (nd_budget n) = Ok (nd_budget n);
  no_check : from_option check_ok True (nd_check n);
  no_post : node_post_init n = Ok n;
}.
Record manifest_ok (m : WorkflowManifest) : Prop := {
  mo_id : valid_identifier (wm_id m);
  mo_nodes : Forall (fun e => nd_node_id e.2 = e.1 /\ node_ok e.2) (wm_nodes m);
  mo_keys : NoDup (map fst (wm_nodes m));
  mo_terminal : Forall (fun e => valid_identifier e.1) (wm_terminal_state_mapping m);
  mo_terminal_keys : NoDup (map fst (wm_terminal_state_mapping m));
  mo_input : schema_ok (wm_input_schema m);
  mo_output : schema_ok (wm_output_schema m);
  mo_compatibility : NoDup (map fst (wm_compatibility m));
  mo_valid : valid_workflow m;
}.

(** ** Every part is read back as it was written *)
Ltac read_field :=
  cbn [mbind result_bind from_option default dict_get String.eqb Ascii.eqb Bool.eqb app id].
Lemma closed_keys_ok keys m : existsb (unknown_key keys) (map fst m) = false -> closed_keys keys m = Ok ().
Proof. unfold closed_keys. by intros ->. Qed.
Lemma read_closed_ok keys first m : existsb (unknown_key keys) (map fst m) = false ->
  is_Some (dict_get first m) -> read_closed keys first (JObj m) = Ok m.
Proof. unfold read_closed. intros -> [v Hv]. by rewrite Hv. Qed.
Lemma parse_enum_of `{PyEnum A} (x : A) : parse_enum (enum_value x) = Ok x.
Proof. unfold parse_enum. by rewrite enum_of_value_of. Qed.
Lemma enum_read `{PyEnum A} (x : A) : enum_value_of (Some (JStr (enum_value x))) = Ok x.
Proof. apply parse_enum_of. Qed.
Lemma str_list_read l : str_list (Some (texts_json l)) = Ok l.
Proof. cbn [str_list texts_json]. rewrite (mapM_result_map _ JStr); [done|by apply Forall_true]. Qed.
Lemma opt_str_read o : opt_str_value (Some (text_or_null o)) = Ok o.
Proof. by destruct o. Qed.
Lemma field_read f : blank (fs_name f) = false ->
  field_schema_from_mapping (fs_name f) (field_schema_to_json f) = Ok f.
Proof.
  intros Hf. unfold field_schema_from_mapping, field_schema_to_json.
  rewrite read_closed_ok by (by vm_compute; eauto). read_field. rewrite parse_enum_of. read_field.
  unfold field_schema_post_init. cbn [fs_name]. rewrite Hf. by destruct f.
Qed.
Lemma schema_read s : schema_ok s -> io_schema_from_mapping (schema_to_json s) = Ok s.
Proof.
  intros [Hb Hn]. unfold io_schema_from_mapping, schema_to_json.
  rewrite (mapM_result_map _ (fun f => (fs_name f, field_schema_to_json f))).
  - read_field. unfold io_schema_post_init. cbn [io_fields]. rewrite bool_decide_eq_true_2 by done. by destruct s.
  - eapply Forall_impl; [exact Hb|]. intros f Hf. by apply field_read.
Qed.
Lemma budget_read b : budget_post_init b = Ok b -> budget_from_mapping (budget_to_json b) = Ok b.
Proof.
  intros Hb. unfold budget_from_mapping. rewrite closed_keys_ok by (by vm_compute). unfold budget_to_json.
  read_field. by destruct b.
Qed.
Lemma command_read c : command_ok c -> command_contract_from_mapping (command_contract_to_mapping c) = Ok c.
Proof.
  unfold command_ok. intros Hc. destruct c as [[] argv]; unfold command_contract_from_mapping,
    command_contract_to_mapping; cbn [cc_source cc_argv]; rewrite closed_keys_ok by (by vm_compute);
    read_field; rewrite enum_read; read_field.
  - change (JList (map JStr argv)) with (texts_json argv). by rewrite str_list_read.
  - pose proof Hc as Hq. unfold command_contract_post_init in Hq. cbn [cc_source cc_argv] in Hq.
    apply raise_if_Ok in Hq as [Hq _]. by apply negb_false_iff, bool_decide_eq_true_1 in Hq as ->.
Qed.
Lemma when_present_read {A} (f : json -> result A) (g : A -> json) x :
  g x <> JNull -> f (g x) = Ok x -> when_present (Some (g x)) f = Ok (Some x).
Proof. unfold when_present. intros Hn Hf. destruct (g x); try done; by rewrite Hf. Qed.
Lemma when_present_none {A} (f : json -> result A) : when_present None f = Ok None.
Proof. done. Qed.
Lemma check_read c : check_ok c -> check_from_mapping (check_to_mapping c) = Ok c.
Proof.
  intros [Hk Hc]. destruct c as [i subject command observer f d]. unfold check_from_mapping, check_to_mapping.
  cbn [cd_id cd_subject cd_command cd_observer cd_on_fail cd_on_indeterminate] in *.
  pose proof Hc as Hone. unfold check_post_init in Hone. cbn [cd_command cd_observer cd_id] in Hone.
  apply raise_if_Ok in Hone as [_ [Hone _]%raise_if_Ok].
  destruct command as [k|], observer as [o|]; try done; cbn [from_option app];
    rewrite closed_keys_ok by (by vm_compute); read_field; rewrite enum_read; read_field.
  - rewrite (when_present_read _ command_contract_to_mapping k);
      [|by destruct k as [[] ?]|by apply command_read].
    repeat (read_field; first [rewrite enum_read|rewrite when_present_none]). by read_field.
  - rewrite when_present_none. read_field.
    rewrite (when_present_read _ (fun o => JStr (enum_value o)) o) by (done || apply enum_read).
    repeat (read_field; rewrite enum_read). by read_field.
Qed.
Lemma branch_read c : branch_ok c -> branch_from_mapping (branch_to_json c) = Ok c.
Proof.
  unfold branch_ok. intros Hc. destruct c as [op field values]. unfold branch_from_mapping, branch_to_json.
  cbn [bc_operator bc_field_path bc_values]. rewrite read_closed_ok by (by vm_compute; eauto). read_field.
  rewrite parse_enum_of. read_field. change (JList (map JStr values)) with (texts_json values).
  rewrite opt_str_read. read_field. rewrite str_list_read. by read_field.
Qed.

(** The lists a mapping keeps sorted. *)
Definition sorted_node (n : NodeDeclaration) : NodeDeclaration := {|
  nd_node_id := nd_node_id n; nd_kind := nd_kind n; nd_input_schema := nd_input_schema n;
  nd_output_schema := nd_output_schema n; nd_actor_type := nd_actor_type n;
  nd_side_effect_class := nd_side_effect_class n;
  nd_idempotency_behavior := nd_idempotency_behavior n;
  nd_reconciliation_operation := nd_reconciliation_operation n;
  nd_evidence_contract := sorted_texts (nd_evidence_contract n);
  nd_emitted_event_types := sorted_texts (nd_emitted_event_types n);
  nd_policy_action := nd_policy_action n;
  nd_required_capabilities := sorted_texts (nd_required_capabilities n);
  nd_dependencies := sorted_texts (nd_dependencies n);
  nd_branch_conditions := nd_branch_conditions n; nd_parallel_group := nd_parallel_group n;
  nd_subworkflow := nd_subworkflow n; nd_budget := nd_budget n; nd_check := nd_check n |}.
Lemma sorted_texts_perm l : sorted_texts l ≡ₚ l.
Proof. apply merge_sort_Permutation. Qed.
Lemma sorted_texts_idempotent l : sorted_texts (sorted_texts l) = sorted_texts l.
Proof. apply (Sorted_unique String.le); [apply (Sorted_merge_sort _)..|apply sorted_texts_perm]. Qed.
Lemma sorted_node_to_json n : node_to_json (sorted_node n) = node_to_json n.
Proof. unfold node_to_json, sorted_node. cbn -[sorted_texts]. by rewrite !sorted_texts_idempotent. Qed.
Lemma sorted_node_post n : node_post_init n = Ok n -> node_post_init (sorted_node n) = Ok (sorted_node n).
Proof.
  unfold node_post_init. intros H.
  apply raise_if_Ok in H as [Hself H]. apply bind_unit_Ok in H as [Heffect H].
  rewrite !raise_if_Ok in H. destruct H as (Hsub & Hsub' & Hcheck & _).
  rewrite raise_if_Ok, bind_unit_Ok. rewrite !raise_if_Ok.
  split_and!; [|exact Heffect|exact Hsub|exact Hsub'|exact Hcheck|done].
  rewrite bool_decide_eq_false in *. cbn [nd_node_id nd_dependencies sorted_node]. by rewrite sorted_texts_perm.
Qed.
Lemma sorted_node_ok n : node_ok n -> node_ok (sorted_node n).
Proof.
  intros []. constructor; cbn -[sorted_texts]; try done; [by rewrite sorted_texts_perm|].
  by apply sorted_node_post.
Qed.
Lemma node_str_read m k s : dict_get k m = Some (JStr s) -> blank s = false -> node_str m k = Ok s.
Proof. unfold node_str. by intros -> ->. Qed.
Lemma node_schema_read m k o : dict_get k m = Some (JObj o) -> node_schema m k = Ok o.
Proof. unfold node_schema. by intros ->. Qed.
Lemma mapM_valid_identifiers l : Forall valid_identifier l -> mapM_result mk_identifier l = Ok l.
Proof. intros H. rewrite <- (map_id l) at 1. apply mapM_result_map. exact H. Qed.
Lemma check_opt_read c : from_option check_ok True c ->
  when_present (dict_get "check" (from_option (fun c => [("check", check_to_mapping c)]) [] c)) check_from_mapping = Ok c.
Proof.
  destruct c as [c|]; [|done]. intros Hc. cbn [from_option]. read_field.
  rewrite (when_present_read _ check_to_mapping c); [done|done|by apply check_read].
Qed.
Lemma node_read n : node_ok n -> node_from_mapping (nd_node_id n) (node_to_json n) = Ok (sorted_node n).
Proof.
  intros Hn. pose proof (sorted_node_ok n Hn) as Hs. destruct Hn as [_ Hin Hout Hdeps Hbr Hsub Hb Hc _].
  unfold node_from_mapping.
  rewrite closed_keys_ok by (unfold node_to_json; by destruct (nd_check n); vm_compute). read_field.
  rewrite (node_str_read _ "kind" (enum_value (nd_kind n))) by (done || by destruct (nd_kind n)).
  read_field. rewrite parse_enum_of. read_field.
  rewrite (node_schema_read _ "input_schema" (schema_to_json (nd_input_schema n))) by done.
  read_field. rewrite schema_read by done. read_field.
  rewrite (node_schema_read _ "output_schema" (schema_to_json (nd_output_schema n))) by done.
  read_field. rewrite schema_read by done. read_field.
  rewrite (node_str_read _ "actor_type" (enum_value (nd_actor_type n))) by (done || by destruct (nd_actor_type n)).
  read_field. rewrite enum_of_value_of. read_field.
  rewrite (node_str_read _ "side_effect_class" (enum_value (nd_side_effect_class n)))
    by (done || by destruct (nd_side_effect_class n)).
  read_field. rewrite enum_of_value_of. read_field.
  rewrite (node_str_read _ "idempotency_behavior" (enum_value (nd_idempotency_behavior n)))
    by (done || by destruct (nd_idempotency_behavior n)).
  read_field. rewrite enum_of_value_of. read_field.
  unfold node_to_json. read_field. rewrite !opt_str_read. read_field.
  assert (match text_or_null (nd_subworkflow n) with
    | JStr s => w ← mk_identifier s; Ok (Some w) | _ => Ok None end = Ok (nd_subworkflow n)) as ->.
  { destruct (nd_subworkflow n) as [w|]; cbn in *; [|done]. by rewrite Hsub. }
  read_field. repeat (first [rewrite str_list_read|rewrite opt_str_read]; read_field).
  rewrite mapM_valid_identifiers by (by rewrite sorted_texts_perm). read_field.
  repeat (first [rewrite str_list_read|rewrite opt_str_read]; read_field).
  rewrite (mapM_result_map _ branch_to_json) by (eapply Forall_impl; [exact Hbr|apply branch_read]).
  read_field. rewrite budget_read by done. read_field.
  rewrite check_opt_read by done. read_field. apply Hs.
Qed.

(** ** Manifests *)
Definition sorted_entry (e : string * NodeDeclaration) : string * NodeDeclaration := (e.1, sorted_node e.2).
Definition sorted_manifest (m : WorkflowManifest) : WorkflowManifest := {|
  wm_id := wm_id m; wm_name := wm_name m; wm_schema_version := wm_schema_version m;
  wm_nodes := map sorted_entry (wm_nodes m);
  wm_terminal_states := wm_terminal_states m;
  wm_terminal_state_mapping := wm_terminal_state_mapping m;
  wm_input_schema := wm_input_schema m; wm_output_schema := wm_output_schema m;
  wm_compatibility := merge_sort key_le (wm_compatibility m) |}.
Lemma mapM_result_map_to {A B C} (f : B -> result C) (g : A -> B) (h : A -> C) l :
  Forall (fun x => f (g x) = Ok (h x)) l -> mapM_result f (map g l) = Ok (map h l).
Proof. induction 1 as [|x l Hx _ IH]; cbn; [done|]. by rewrite Hx, IH. Qed.
Lemma sort_keys_idempotent {V} (m : list (string * V)) : NoDup m.*1 ->
  merge_sort key_le (merge_sort key_le m) = merge_sort key_le m.
Proof.
  intros Hn. assert (Hs : StronglySorted key_le (merge_sort key_le m)) by apply (StronglySorted_merge_sort _).
  assert (Hp : merge_sort key_le (merge_sort key_le m) ≡ₚ merge_sort key_le m) by apply merge_sort_Permutation.
  apply (StronglySorted_unique_strong key_le); [|apply (StronglySorted_merge_sort _)|done|done].
  intros [k v] [k' v'] H1 H2 Hle Hge. rewrite !merge_sort_Permutation in H1.
  assert (k = k') as <- by (by apply (anti_symm String.le)). f_equal.
  rewrite !merge_sort_Permutation in H2.
  pose proof (dict_get_elem k v m Hn H1). pose proof (dict_get_elem k v' m Hn H2). congruence.
Qed.
Lemma sorted_manifest_to_mapping m : NoDup (map fst (wm_compatibility m)) ->
  manifest_to_mapping (sorted_manifest m) = manifest_to_mapping m.
Proof.
  intros Hc. unfold manifest_to_mapping. cbn [sorted_manifest wm_id wm_name wm_schema_version wm_nodes
    wm_terminal_states wm_terminal_state_mapping wm_input_schema wm_output_schema wm_compatibility].
  rewrite sort_keys_idempotent by exact Hc. rewrite map_map. cbn [sorted_entry fst snd].
  by erewrite map_ext by (intros e; by rewrite sorted_node_to_json).
Qed.
Lemma sorted_keys (nodes : list (string * NodeDeclaration)) :
  map fst (map sorted_entry nodes) = map fst nodes.
Proof. by rewrite map_map. Qed.
Lemma elem_sorted_nodes e nodes : e ∈ map sorted_entry nodes <->
  exists e', e' ∈ nodes /\ e = sorted_entry e'.
Proof. rewrite list_elem_of_fmap. naive_solver. Qed.
Lemma sorted_check_ids nodes : check_ids (map sorted_entry nodes) = check_ids nodes.
Proof.
  unfold check_ids. induction nodes as [|e nodes IH]; [done|]. cbn [map omap list_omap].
  cbn [sorted_entry snd sorted_node nd_check]. by rewrite IH.
Qed.
Lemma sorted_valid m : valid_workflow m -> valid_workflow (sorted_manifest m).
Proof.
  intros [Hn Hv Hne Hs Hb Hc Hr Hac Ht]. constructor; cbn [sorted_manifest wm_name wm_schema_version
    wm_nodes wm_terminal_states wm_terminal_state_mapping]; try done.
  - by destruct (wm_nodes m).
  - intros Hver e (e0 & He & ->)%elem_sorted_nodes. exact (Hb Hver e0 He).
  - by rewrite sorted_check_ids.
  - intros e d (e' & He & ->)%elem_sorted_nodes. cbn [sorted_entry snd sorted_node nd_dependencies].
    rewrite sorted_texts_perm, sorted_keys. by apply Hr.
  - revert Hac. apply acyclic_ext. intros d k. unfold node_edges, node_deps. rewrite !elem_of_edges.
    intros (e & (e' & He & ->)%elem_sorted_nodes & <- & Hd). cbn [sorted_entry snd sorted_node nd_dependencies] in Hd.
    rewrite sorted_texts_perm in Hd. by exists e'.
  - intros k s Hin. destruct (Ht k s Hin) as (Hk & Hstate & Hsink). rewrite sorted_keys. split_and!; [done|done|].
    intros e (e' & He & ->)%elem_sorted_nodes. cbn [sorted_entry snd sorted_node nd_dependencies].
    rewrite sorted_texts_perm. by apply Hsink.
Qed.
Lemma sorted_manifest_ok m : manifest_ok m -> manifest_ok (sorted_manifest m).
Proof.
  intros []. constructor; cbn [sorted_manifest wm_id wm_name wm_schema_version wm_nodes wm_terminal_states
    wm_terminal_state_mapping wm_input_schema wm_output_schema wm_compatibility]; try done.
  - rewrite Forall_forall in *. intros e (e' & He & ->)%elem_sorted_nodes. destruct (mo_nodes0 e' He) as [Hid Hok].
    split; [exact Hid|by apply sorted_node_ok].
  - by rewrite sorted_keys.
  - by apply (sort_keys_nodup _).
  - by apply sorted_valid.
Qed.

Lemma text_items_read (l : list (string * string)) :
  mapM_result text_item (map (fun e => (e.1, JStr e.2)) l) = Ok l.
Proof. apply mapM_result_map, Forall_true. by intros [k v]. Qed.
Lemma terminal_items_read l : Forall (fun e => valid_identifier e.1) l ->
  mapM_result terminal_item (map (fun e => (e.1, JStr e.2)) l) = Ok l.
Proof.
  intros H. apply mapM_result_map. eapply Forall_impl; [exact H|]. intros [k v] Hk. cbn in Hk.
  unfold terminal_item. cbn. by rewrite Hk.
Qed.
Lemma node_items_read nodes : Forall (fun e => nd_node_id e.2 = e.1 /\ node_ok e.2) nodes ->
  mapM_result node_item (map (fun e => (e.1, JObj (node_to_json e.2))) nodes) = Ok (map sorted_entry nodes).
Proof.
  intros H. apply mapM_result_map_to. eapply Forall_impl; [exact H|]. intros [k n] [Hid Hok]. cbn in Hid, Hok.
  subst k. unfold node_item. cbn [fst snd]. rewrite (no_id n Hok). read_field. by rewrite node_read.
Qed.
Lemma manifest_read m : manifest_ok m ->
  manifest_from_mapping (manifest_to_mapping m) = Ok (sorted_manifest m).
Proof.
  intros Hm. pose proof (sorted_manifest_ok m Hm) as Hs. destruct Hm as [Hid Hnodes _ Hterm _ Hin Hout Hc [Hname _ _ _ _ _ _ _ _]].
  unfold manifest_from_mapping. rewrite closed_keys_ok by (by vm_compute). read_field.
  rewrite (node_str_read _ "id" (wm_id m)) by (done || by apply valid_identifier_nonblank). read_field.
  rewrite Hid. read_field. rewrite (node_str_read _ "name" (wm_name m)) by done.
  unfold manifest_to_mapping, schema_or_empty. read_field.
  rewrite node_items_read by done. read_field. rewrite str_list_read. read_field.
  rewrite terminal_items_read by done. read_field. rewrite text_items_read. read_field.
  rewrite schema_read by done. read_field. rewrite schema_read by done. read_field.
  assert (list_to_set (sorted_texts (elements (wm_terminal_states m))) = wm_terminal_states m) as ->.
  { apply set_eq. intros s. by rewrite elem_of_list_to_set, sorted_texts_perm, elem_of_elements. }
  unfold workflow_manifest_post_init. fold (sorted_manifest m).
  rewrite (proj2 (validate_manifest_iff (sorted_manifest m) (mo_keys _ Hs)) (mo_valid _ Hs)). done.
Qed.

(** ** Decoding yields only such values *)
Lemma decoded_items {A B} (f : A -> result B) (P : B -> Prop) l k :
  (forall x y, f x = Ok y -> P y) -> mapM_result f l = Ok k -> Forall P k.
Proof. intros Hf Hk%mapM_result_Ok. induction Hk; constructor; eauto. Qed.
Lemma schema_decoded raw s : io_schema_from_mapping raw = Ok s -> schema_ok s.
Proof.
  unfold io_schema_from_mapping. intros H. inv_ok. unfold io_schema_post_init in H. inv_ok.
  match goal with H : negb _ = false |- _ => apply negb_false_iff, bool_decide_eq_true_1 in H end.
  split; [|done]. cbn [io_fields] in *. match goal with H : mapM_result _ _ = Ok _ |- _ => apply mapM_result_Ok in H; clear -H;
    induction H as [|[k j] f raw fs Hf _ IH]; constructor; [|exact IH] end.
  unfold field_schema_from_mapping in Hf. inv_ok. unfold field_schema_post_init in Hf. by inv_ok.
Qed.
Ltac unfold_post H := first [progress unfold command_contract_post_init in H | progress unfold check_post_init in H
  | progress unfold branch_post_init in H | progress unfold budget_post_init in H | progress unfold node_post_init in H].
Ltac same_value :=
  let H := fresh in intros H; unfold_post H; repeat case_match; inv_ok; congruence.
Lemma command_post_same c c' : command_contract_post_init c = Ok c' -> c' = c.
Proof. same_value. Qed.
Lemma check_post_same c c' : check_post_init c = Ok c' -> c' = c.
Proof. same_value. Qed.
Lemma branch_post_same c c' : branch_post_init c = Ok c' -> c' = c.
Proof. same_value. Qed.
Lemma budget_post_same c c' : budget_post_init c = Ok c' -> c' = c.
Proof. same_value. Qed.
Lemma node_post_same n n' : node_post_init n = Ok n' -> n' = n.
Proof. same_value. Qed.
Lemma command_decoded j c : command_contract_from_mapping j = Ok c -> command_ok c.
Proof.
  unfold command_contract_from_mapping, command_ok. destruct j; try done. intros H. inv_ok.
  pose proof (command_post_same _ _ H) as ->. exact H.
Qed.
Lemma when_present_Ok {A} v (f : json -> result A) o : when_present v f = Ok o ->
  o = None \/ exists j x, f j = Ok x /\ o = Some x.
Proof.
  unfold when_present. destruct v as [[]|]; intros H; inv_ok; [by left|right; eauto..|by left].
Qed.
Lemma check_decoded j c : check_from_mapping j = Ok c -> check_ok c.
Proof.
  unfold check_from_mapping. destruct j; try done. intros H. inv_ok.
  pose proof (check_post_same _ _ H) as ->. split; [|exact H]. cbn [cd_command].
  match goal with Hc : when_present _ command_contract_from_mapping = Ok _ |- _ =>
    apply when_present_Ok in Hc as [->|(v & k & Hk & ->)] end; [done|]. by eapply command_decoded.
Qed.
Lemma branch_decoded j c : branch_from_mapping j = Ok c -> branch_ok c.
Proof.
  unfold branch_from_mapping, branch_ok. intros H. inv_ok. pose proof (branch_post_same _ _ H) as ->. exact H.
Qed.
Lemma identifiers_decoded l k : mapM_result mk_identifier l = Ok k -> Forall valid_identifier k.
Proof. apply decoded_items. by intros x y [-> Hy]%mk_identifier_Ok. Qed.
Lemma node_decoded i raw n : valid_identifier i -> node_from_mapping i raw = Ok n ->
  nd_node_id n = i /\ node_ok n.
Proof.
  intros Hi. unfold node_from_mapping. intros H. inv_ok. pose proof (node_post_same _ _ H) as ->.
  split; [done|]. constructor; cbn -[node_post_init]; try done.
  - by eapply schema_decoded.
  - by eapply schema_decoded.
  - by eapply identifiers_decoded.
  - eapply decoded_items; [apply branch_decoded|eassumption].
  - match goal with Hs : match dict_get "subworkflow" raw with _ => _ end = Ok ?o |- _ => clear -Hs;
      destruct (dict_get "subworkflow" raw) as [[]|] end; inv_ok; try done.
    match goal with Hs : mk_identifier _ = Ok _ |- _ => by apply mk_identifier_Ok in Hs as [-> ?] end.
  - match goal with Hb : budget_from_mapping _ = Ok _ |- _ => unfold budget_from_mapping in Hb end. inv_ok.
    match goal with Hb : budget_post_init _ = Ok _ |- _ => pose proof (budget_post_same _ _ Hb) as ->; exact Hb end.
  - match goal with Hc : when_present _ check_from_mapping = Ok _ |- _ =>
      apply when_present_Ok in Hc as [->|(v & k & Hk & ->)] end; [done|]. by eapply check_decoded.
Qed.
Lemma mapM_keys {A B} (f : string * A -> result (string * B)) l k :
  (forall x y, f x = Ok y -> y.1 = x.1) -> mapM_result f l = Ok k -> map fst k = map fst l.
Proof.
  intros Hf Hk%mapM_result_Ok. induction Hk as [|x y l k Hxy _ IH]; [done|]. cbn. by rewrite (Hf x y), IH.
Qed.
Lemma wf_json_value raw k v : wf_json (JObj raw) = true -> dict_get k raw = Some v -> wf_json v = true.
Proof.
  cbn. intros [_ Hall]%andb_true_iff Hv%dict_get_Some_elem. rewrite forallb_forall in Hall.
  by apply (Hall (k, v)), list_elem_of_In.
Qed.
Lemma wf_json_keys raw : wf_json (JObj raw) = true -> NoDup (map fst raw).
Proof. cbn. by intros [H%bool_decide_eq_true_1 _]%andb_true_iff. Qed.
Lemma schema_or_empty_wf raw k m : wf_json (JObj raw) = true -> schema_or_empty raw k = Ok m -> NoDup (map fst m).
Proof.
  unfold schema_or_empty. intros Hwf. destruct (dict_get k raw) as [v|] eqn:Hv; cbn.
  - destruct v; try done. intros [= <-]. by apply wf_json_keys, (wf_json_value raw k).
  - intros [= <-]. constructor.
Qed.
Lemma node_item_decoded x y : node_item x = Ok y -> y.1 = x.1 /\ nd_node_id y.2 = y.1 /\ node_ok y.2.
Proof.
  destruct x as [k v]. unfold node_item. cbn [fst snd]. destruct v; try done. intros H. inv_ok.
  match goal with H : mk_identifier _ = Ok _ |- _ => apply mk_identifier_Ok in H as [-> ?] end.
  split; [done|]. by eapply node_decoded.
Qed.
Lemma terminal_item_decoded x y : terminal_item x = Ok y -> y.1 = x.1 /\ valid_identifier y.1.
Proof.
  destruct x as [k v]. unfold terminal_item, text_item. cbn. destruct v; try done. intros H. inv_ok.
  by match goal with H : mk_identifier _ = Ok _ |- _ => apply mk_identifier_Ok in H as [-> ?] end.
Qed.
Lemma text_item_key x y : text_item x = Ok y -> y.1 = x.1.
Proof. destruct x as [k v]. unfold text_item. cbn. destruct v; try done. by intros [= <-]. Qed.
Lemma manifest_decoded raw m : wf_json (JObj raw) = true -> manifest_from_mapping raw = Ok m -> manifest_ok m.
Proof.
  intros Hwf. unfold manifest_from_mapping. intros H. inv_ok. unfold workflow_manifest_post_init in H.
  apply bind_unit_Ok in H as [Hvalid [= <-]].
  repeat match goal with
  | H : mk_identifier _ = Ok _ |- _ => apply mk_identifier_Ok in H as [-> ?]
  | H : io_schema_from_mapping _ = Ok _ |- _ => apply schema_decoded in H
  | H : schema_or_empty _ _ = Ok _ |- _ => apply schema_or_empty_wf in H; [|done]
  end.
  match goal with H : match dict_get "nodes" raw with _ => _ end = Ok ?nodes |- _ =>
    destruct (dict_get "nodes" raw) as [[]|] eqn:Hn; try done; injection H as -> end.
  apply (wf_json_value raw) in Hn as Hnw; [|done]. apply wf_json_keys in Hnw.
  match goal with H : mapM_result node_item _ = Ok ?nodes |- _ => rename nodes into ns; rename H into Hns end.
  match goal with H : mapM_result terminal_item _ = Ok ?items |- _ => rename items into ts; rename H into Hts end.
  match goal with H : mapM_result text_item _ = Ok ?items |- _ => rename items into cs; rename H into Hcs end.
  rewrite <- (mapM_keys node_item _ _ (fun i j Hij => proj1 (node_item_decoded i j Hij)) Hns) in Hnw.
  constructor; cbn -[validate_manifest]; try done.
  - eapply decoded_items; [|exact Hns]. intros i j Hij. by apply (node_item_decoded i j).
  - eapply decoded_items; [|exact Hts]. intros i j Hij. by apply (terminal_item_decoded i j).
  - by rewrite (mapM_keys terminal_item _ _ (fun i j Hij => proj1 (terminal_item_decoded i j Hij)) Hts).
  - by rewrite (mapM_keys text_item _ _ text_item_key Hcs).
  - by apply validate_manifest_iff.
Qed.

(** ** The theorems *)
(** C29: the manifest check accepts exactly the manifests with a name that is not blank, a
    schema version of at least 1, at least one node and at least one terminal state, whose
    graph is closed and acyclic, whose checks are bound (from schema version 2 on) with
    unique ids, and whose terminal claims name declared states and nodes nothing depends on;
    node ids being the distinct keys of a mapping.  It raises only
    [InvalidInputError], and its traversal of a closed graph always ends within its fuel.
    The unreachable-node refusal never fires: acyclic nodes are all reached. *)
Theorem workflow_manifest_exact (m : WorkflowManifest) (Hkeys : NoDup (map fst (wm_nodes m))) :
  (validate_manifest m = Ok () <-> valid_workflow m) /\
  raises_only (eq InvalidInputError) (validate_manifest m) /\
  ((forall e d, e ∈ wm_nodes m -> d ∈ nd_dependencies e.2 -> d ∈ map fst (wm_nodes m)) ->
   is_Some (visit_loop (S (length (wm_nodes m))) (node_edges (wm_nodes m))
     (in_degree_of fst node_deps (wm_nodes m)) (reverse (entries_of fst node_deps (wm_nodes m))) [])).
Proof.
  split_and!; [by apply validate_manifest_iff| |].
  - assert (Hb : forall version nodes seen,
      raises_only (eq InvalidInputError) (validate_check_bindings version seen nodes)).
    { intros version. induction nodes as [|[k n] nodes IH]; intros seen; cbn [validate_check_bindings]; [by intros e|].
      apply raises_only_bind; [by apply raises_only_if|]. intros _. destruct (nd_check n); [|done].
      apply raises_only_bind; [by apply raises_only_if|]. done. }
    unfold validate_manifest.
    repeat (apply raises_only_bind; [first [by apply raises_only_if|apply Hb]|intros _]).
    apply raises_only_each, Forall_forall. intros [k s] _.
    repeat (apply raises_only_bind; [by apply raises_only_if|intros _]). apply raises_only_Ok.
  - intros Hr. destruct (declared_visits fst node_deps (wm_nodes m) Hkeys Hr) as (v & rem & Hv & _). by exists v.
Qed.

Section Manifests.
Context `{rt : PyRuntime}.

(** A manifest decoded from a JSON document satisfies every constructor's checks;
    and every such manifest is read back from the mapping written for it, its unordered
    lists sorted, which changes neither the mapping nor the content digest. *)
Theorem manifest_roundtrip (m : WorkflowManifest) (Hm : manifest_ok m) :
  manifest_from_mapping (manifest_to_mapping m) = Ok (sorted_manifest m) /\
  manifest_to_mapping (sorted_manifest m) = manifest_to_mapping m /\
  manifest_digest (sorted_manifest m) = manifest_digest m /\
  (forall raw m', wf_json (JObj raw) = true -> manifest_from_mapping raw = Ok m' -> manifest_ok m').
Proof.
  pose proof (sorted_manifest_to_mapping m (mo_compatibility m Hm)) as Hs.
  split_and!; [by apply manifest_read|done|unfold manifest_digest; by rewrite Hs|].
  intros raw m'. apply manifest_decoded.
Qed.

(** In a decoded manifest only a passing result lets a check's workflow proceed, whether the
    check runs a command or not, and no program a declared check command launches, however
    many launchers it goes through, is a shell interpreter. *)
Theorem manifest_checks_safe (raw : list (string * json)) (m : WorkflowManifest) (k : string)
    (n : NodeDeclaration) (c : CheckDeclaration)
    (Hwf : wf_json (JObj raw) = true) (Hm : manifest_from_mapping raw = Ok m)
    (Hn : (k, n) ∈ wm_nodes m) (Hc : nd_check n = Some c) :
  (forall r, disposition c r = PROCEED <-> r = EV_PASS) /\
  (forall command, cd_command c = Some command ->
     (cc_source command = SOURCE_REQUEST <-> cc_argv command = []) /\
     (forall token rest, rtc launches (cc_argv command) (token :: rest) ->
        is_shell_name (program_name token) = false)).
Proof.
  apply manifest_decoded in Hm as [_ Hnodes _ _ _ _ _ _ _]; [|done]. rewrite Forall_forall in Hnodes.
  destruct (Hnodes _ Hn) as [_ Hok]. pose proof (no_check _ Hok) as Hcheck. cbn [snd] in Hcheck. rewrite Hc in Hcheck.
  destruct Hcheck as [Hcmd Hpost].
  split; [|intros command Hcommand; rewrite Hcommand in Hcmd; cbn in Hcmd;
    unfold command_ok, command_contract_post_init in Hcmd; destruct (cc_source command)].
  - unfold check_post_init in Hpost. inv_ok.
    repeat match goal with H : negb (bool_decide _) = false |- _ => apply negb_false_iff, bool_decide_eq_true_1 in H end.
    unfold FAIL_ACTIONS, INDETERMINATE_ACTIONS in *.
    intros []; cbn [disposition]; [done|..]; destruct (cd_on_fail c), (cd_on_indeterminate c); set_solver.
  - inv_ok. match goal with H : bool_decide (cc_argv command = []) = false |- _ => apply bool_decide_eq_false_1 in H end.
    split; [done|]. intros token rest.
    match goal with H : reject_shell_invocation _ = Ok ?u |- _ => destruct u; by apply accepted_reaches_no_shell end.
  - inv_ok. match goal with H : negb _ = false |- _ => apply negb_false_iff, bool_decide_eq_true_1 in H as Hnil end.
    rewrite Hnil. split; [done|]. intros token rest Hr. inversion Hr as [|? ? ? Hl]; done.
Qed.

(** The operation identity of a manifest node exists only for a declared node with a
    side effect, and two identities are equal only for the same run, node, kind, target
    scope and ordinal, or exhibit a SHA-256 collision. *)
Theorem operation_identity_stable (m m' : WorkflowManifest) (r n t r' n' t' : string) (o o' : Z) (id : string)
    (Hm : manifest_ok m) (Hm' : manifest_ok m') (Hr : valid_identifier r) (Hr' : valid_identifier r')
    (Hid : operation_id_for m r n t o = Ok id) (Hid' : operation_id_for m' r' n' t' o' = Ok id) :
  exists d d', dict_get n (wm_nodes m) = Some d /\ nd_side_effect_class d = SIDE_EFFECTING /\
    dict_get n' (wm_nodes m') = Some d' /\ nd_side_effect_class d' = SIDE_EFFECTING /\
    ((r, n, nd_kind d, t, o) = (r', n', nd_kind d', t', o') \/
     exists b b', b <> b' /\ sha256_hex b = id /\ sha256_hex b' = id).
Proof.
  assert (Hget : forall m r n t o, manifest_ok m -> operation_id_for m r n t o = Ok id -> exists d,
    dict_get n (wm_nodes m) = Some d /\ nd_side_effect_class d = SIDE_EFFECTING /\ valid_identifier n /\
    operation_id_derive r n (enum_value (nd_kind d)) t o = Ok id).
  { clear. intros m r n t o [_ Hnodes _ _ _ _ _ _ _] H. unfold operation_id_for in H. inv_ok.
    destruct (dict_get n (wm_nodes m)) as [d|] eqn:Hd; [|done]. cbn in *. simplify_eq.
    apply bool_decide_eq_false_1 in H1. exists x. rewrite Forall_forall in Hnodes.
    destruct (Hnodes (n, x)) as [Hi Hok]; [by apply dict_get_Some_elem|]. cbn in Hi, Hok.
    split_and!; [done|by destruct (nd_side_effect_class x)|rewrite <- Hi; apply Hok|done]. }
  apply Hget in Hid as (d & Hd & Hs & Hn & He); [|done]. apply Hget in Hid' as (d' & Hd' & Hs' & Hn' & He'); [|done].
  exists d, d'. split_and!; try done.
  assert (Hsep : forall k : NodeKind, unit_sep ∉ chars (enum_value k)).
  { intros k Hin. apply (bool_decide_eq_true_2 _) in Hin. destruct k; vm_compute in Hin; done. }
  destruct (operation_id_derive_identity r n (enum_value (nd_kind d)) t o r' n' (enum_value (nd_kind d')) t' o' id
    Hr Hn Hr' Hn' (Hsep _) (Hsep _)) as [_ Hsame].
  destruct (Hsame He He') as [Heq|Hcol]; [left|by right]. rewrite !pair_equal_spec in Heq.
  destruct Heq as ((((-> & ->) & Hk) & ->) & ->). by apply (inj enum_value) in Hk as ->.
Qed.
End Manifests.

Module Demo.
#[local] Existing Instance toy_runtime.
Definition node (kind : NodeKind) (side : SideEffectClass) (i : string) (deps : list string)
    (check : option CheckDeclaration) : NodeDeclaration := {|
  nd_node_id := i; nd_kind := kind; nd_input_schema := {| io_fields := [] |};
  nd_output_schema := {| io_fields := [{| fs_name := "head"; fs_type := FT_STRING; fs_required := true |}] |};
  nd_actor_type := ACTOR_DETERMINISTIC; nd_side_effect_class := side;
  nd_idempotency_behavior := match side with SE_NONE => NOT_APPLICABLE | SIDE_EFFECTING => NATIVE_IDEMPOTENCY_KEY end;
  nd_reconciliation_operation := None; nd_evidence_contract := ["b"; "a"]; nd_emitted_event_types := [];
  nd_policy_action := None; nd_required_capabilities := []; nd_dependencies := deps;
  nd_branch_conditions := []; nd_parallel_group := None; nd_subworkflow := None;
  nd_budget := default_budget; nd_check := check |}.
Definition tests : CommandContract := {| cc_source := SOURCE_DECLARED; cc_argv := ["uv"; "run"; "pytest"] |}.
Definition check : CheckDeclaration := {|
  cd_id := "ci.tests"; cd_subject := WORKSPACE_HEAD; cd_command := Some tests; cd_observer := None;
  cd_on_fail := REPAIR_OR_STOP; cd_on_indeterminate := HOLD |}.
Definition manifest : WorkflowManifest := {|
  wm_id := "build"; wm_name := "Build"; wm_schema_version := 2;
  wm_nodes := [("test", node RUN_COMMAND SE_NONE "test" ["patch"; "patch"] (Some check));
               ("patch", node STAGE_OR_APPLY_PATCH SIDE_EFFECTING "patch" [] None)];
  wm_terminal_states := {["done"]}; wm_terminal_state_mapping := [("test", "done")];
  wm_input_schema := {| io_fields := [] |}; wm_output_schema := {| io_fields := [] |};
  wm_compatibility := [("z", "1"); ("a", "2")] |}.
Definition raw : list (string * json) := manifest_to_mapping manifest.
Lemma raw_wf : wf_json (JObj raw) = true.
Proof. by vm_compute. Qed.
Lemma manifest_keys : NoDup (map fst (wm_nodes manifest)).
Proof. apply (bool_decide_unpack _). by vm_compute. Qed.
Lemma raw_read : manifest_from_mapping raw = Ok (sorted_manifest manifest).
Proof. by vm_compute. Qed.
Lemma manifest_read_ok : manifest_ok (sorted_manifest manifest).
Proof. exact (manifest_decoded raw _ raw_wf raw_read). Qed.
Lemma manifest_valid : validate_manifest manifest = Ok ().
Proof. by vm_compute. Qed.

Lemma workflow_manifest_exact_witness : valid_workflow manifest.
Proof. apply (workflow_manifest_exact manifest manifest_keys). exact manifest_valid. Defined.
Lemma manifest_roundtrip_witness :
  manifest_from_mapping (manifest_to_mapping (sorted_manifest manifest)) =
  Ok (sorted_manifest (sorted_manifest manifest)).
Proof. apply (manifest_roundtrip (sorted_manifest manifest) manifest_read_ok). Defined.
Lemma uv_runs : rtc launches (cc_argv tests) ["pytest"].
Proof. apply rtc_once, launch_launches. by vm_compute. Qed.
Lemma manifest_checks_safe_witness :
  disposition check EV_INDETERMINATE <> PROCEED /\ is_shell_name (program_name "pytest") = false.
Proof.
  assert (Hin : ("test", sorted_node (node RUN_COMMAND SE_NONE "test" ["patch"; "patch"] (Some check))) ∈
    wm_nodes (sorted_manifest manifest)) by left.
  destruct (manifest_checks_safe raw (sorted_manifest manifest) "test" _ check raw_wf raw_read Hin
    eq_refl) as [Hpass Hsafe].
  split; [|exact (proj2 (Hsafe tests eq_refl) "pytest" [] uv_runs)]. intros H%Hpass. discriminate H.
Defined.
Lemma patch_identity : is_ok (operation_id_for (sorted_manifest manifest) "run-1" "patch" "owner/repo" 0) = true.
Proof. by vm_compute. Qed.
Lemma operation_identity_stable_witness : exists id,
  operation_id_for (sorted_manifest manifest) "run-1" "patch" "owner/repo" 0 = Ok id /\
  exists d, dict_get "patch" (wm_nodes (sorted_manifest manifest)) = Some d.
Proof.
  pose proof patch_identity as Hok.
  destruct (operation_id_for (sorted_manifest manifest) "run-1" "patch" "owner/repo" 0) as [id|e] eqn:Hid;
    [|discriminate Hok].
  exists id. split; [reflexivity|].
  destruct (operation_identity_stable _ _ "run-1" "patch" "owner/repo" "run-1" "patch" "owner/repo" 0 0 id
    manifest_read_ok manifest_read_ok eq_refl eq_refl Hid Hid) as (d & _ & Hd & _).
  exists d. exact Hd.
Defined.
End Demo.
