(* ===== verification/Records.v ===== *)
(** * Versioned codecs of the domain records ([domain/serialization.py])

    Work items, runs, node attempts, artifacts, policy decisions, interventions,
    outcomes, observations, factory changes and incidents, with the records that
    [domain/artifact.py], [domain/intervention.py] and [domain/outcome.py] add.  The
    envelopes are those of [Serialization]. *)
From S2P Require Import Prelude PyText Json Identity StateMachine Lifecycles Aggregates Plans PlanExecutions Policy.
From S2P Require Import Serialization Workflows.
From Stdlib Require Import SpecFloat.

(** ** Values of the remaining enumerations *)
#[export] Program Instance FailureClass_enum : PyEnum FailureClass := {|
  members := [INVALID_INPUT; MISSING_PREREQUISITE; POLICY_DENIAL; HUMAN_ACTION_REQUIRED;
    TRANSIENT_PROVIDER_FAILURE; AUTHENTICATION_FAILURE; RATE_LIMIT; EXTERNAL_CONFLICT; STALE_EVIDENCE;
    WORKER_FAILURE; VALIDATION_FAILURE; TIMEOUT; CANCELLATION; AMBIGUOUS_EXTERNAL_SIDE_EFFECT;
    INTERNAL_INVARIANT_VIOLATION];
  enum_value c := match c with
    | INVALID_INPUT => "invalid_input" | MISSING_PREREQUISITE => "missing_prerequisite"
    | POLICY_DENIAL => "policy_denial" | HUMAN_ACTION_REQUIRED => "human_action_required"
    | TRANSIENT_PROVIDER_FAILURE => "transient_provider_failure"
    | AUTHENTICATION_FAILURE => "authentication_failure" | RATE_LIMIT => "rate_limit"
    | EXTERNAL_CONFLICT => "external_conflict" | STALE_EVIDENCE => "stale_evidence"
    | WORKER_FAILURE => "worker_failure" | VALIDATION_FAILURE => "validation_failure"
    | TIMEOUT => "timeout" | CANCELLATION => "cancellation"
    | AMBIGUOUS_EXTERNAL_SIDE_EFFECT => "ambiguous_external_side_effect"
    | INTERNAL_INVARIANT_VIOLATION => "internal_invariant_violation" end |}.
Next Obligation. solve_enum. Qed.
Next Obligation. solve_enum. Qed.
#[export] Program Instance PolicyResult_enum : PyEnum PolicyResult := {|
  members := [ALLOW; DENY; REQUIRE_HUMAN];
  enum_value r := match r with ALLOW => "allow" | DENY => "deny" | REQUIRE_HUMAN => "require_human" end |}.
Next Obligation. solve_enum. Qed.
Next Obligation. solve_enum. Qed.
#[export] Program Instance IncidentSeverity_enum : PyEnum IncidentSeverity := {|
  members := [SEV_LOW; SEV_MEDIUM; SEV_HIGH; SEV_CRITICAL];
  enum_value s := match s with
    | SEV_LOW => "low" | SEV_MEDIUM => "medium" | SEV_HIGH => "high" | SEV_CRITICAL => "critical" end |}.
Next Obligation. solve_enum. Qed.
Next Obligation. solve_enum. Qed.
#[export] Instance ReproductionOutcome_eq_dec : EqDecision ReproductionOutcome.
Proof. solve_decision. Defined.
#[export] Program Instance ReproductionOutcome_enum : PyEnum ReproductionOutcome := {|
  members := [REPRO_REPRODUCED; REPRO_UNAVAILABLE; REPRO_ERRORED];
  enum_value o := match o with
    | REPRO_REPRODUCED => "reproduced" | REPRO_UNAVAILABLE => "unavailable"
    | REPRO_ERRORED => "errored" end |}.
Next Obligation. solve_enum. Qed.
Next Obligation. solve_enum. Qed.
#[export] Program Instance ObservationState_enum : PyEnum ObservationState := {|
  members := [OBS_PENDING; OBS_CAPTURED; OBS_INDETERMINATE];
  enum_value s := match s with
    | OBS_PENDING => "pending" | OBS_CAPTURED => "captured" | OBS_INDETERMINATE => "indeterminate" end |}.
Next Obligation. solve_enum. Qed.
Next Obligation. solve_enum. Qed.
#[export] Instance OutcomeKind_eq_dec : EqDecision OutcomeKind.
Proof. solve_decision. Defined.
#[export] Program Instance OutcomeKind_enum : PyEnum OutcomeKind := {|
  members := [OUT_PR_ACCEPTED; OUT_PR_REJECTED; OUT_PR_ABANDONED; OUT_MERGE_RESULT; OUT_CI_STABILITY;
    OUT_RELEASE_RESULT; OUT_DEPLOYMENT_RESULT; OUT_ROLLBACK; OUT_REOPENED_ISSUE; OUT_ESCAPED_DEFECT;
    OUT_USER_RATED_QUALITY];
  enum_value k := match k with
    | OUT_PR_ACCEPTED => "pr_accepted" | OUT_PR_REJECTED => "pr_rejected"
    | OUT_PR_ABANDONED => "pr_abandoned" | OUT_MERGE_RESULT => "merge_result"
    | OUT_CI_STABILITY => "ci_stability" | OUT_RELEASE_RESULT => "release_result"
    | OUT_DEPLOYMENT_RESULT => "deployment_result" | OUT_ROLLBACK => "rollback"
    | OUT_REOPENED_ISSUE => "reopened_issue" | OUT_ESCAPED_DEFECT => "escaped_defect"
    | OUT_USER_RATED_QUALITY => "user_rated_quality" end |}.
Next Obligation. solve_enum. Qed.
Next Obligation. solve_enum. Qed.

(** ** Records the aggregates file does not have *)
(** *** [domain/artifact.py] *)
Inductive ArtifactKind :=
| AK_PLAN | AK_PATCH | AK_TRANSCRIPT | AK_LOG | AK_TEST_REPORT | AK_REVIEW_REPORT | AK_PR_METADATA
| AK_RELEASE_MANIFEST | AK_EVALUATION_RESULT | AK_HUMAN_DECISION.
#[export] Instance ArtifactKind_eq_dec : EqDecision ArtifactKind.
Proof. solve_decision. Defined.
#[export] Program Instance ArtifactKind_enum : PyEnum ArtifactKind := {|
  members := [AK_PLAN; AK_PATCH; AK_TRANSCRIPT; AK_LOG; AK_TEST_REPORT; AK_REVIEW_REPORT; AK_PR_METADATA;
    AK_RELEASE_MANIFEST; AK_EVALUATION_RESULT; AK_HUMAN_DECISION];
  enum_value k := match k with
    | AK_PLAN => "plan" | AK_PATCH => "patch" | AK_TRANSCRIPT => "transcript" | AK_LOG => "log"
    | AK_TEST_REPORT => "test_report" | AK_REVIEW_REPORT => "review_report"
    | AK_PR_METADATA => "pr_metadata" | AK_RELEASE_MANIFEST => "release_manifest"
    | AK_EVALUATION_RESULT => "evaluation_result" | AK_HUMAN_DECISION => "human_decision" end |}.
Next Obligation. solve_enum. Qed.
Next Obligation. solve_enum. Qed.
Inductive RedactionClassification := RC_PUBLIC | RC_INTERNAL | RC_SENSITIVE.
#[export] Instance RedactionClassification_eq_dec : EqDecision RedactionClassification.
Proof. solve_decision. Defined.
#[export] Program Instance RedactionClassification_enum : PyEnum RedactionClassification := {|
  members := [RC_PUBLIC; RC_INTERNAL; RC_SENSITIVE];
  enum_value r := match r with
    | RC_PUBLIC => "public" | RC_INTERNAL => "internal" | RC_SENSITIVE => "sensitive" end |}.
Next Obligation. solve_enum. Qed.
Next Obligation. solve_enum. Qed.
Record Artifact := {
  af_id : string; af_digest : Digest; af_byte_size : Z; af_media_type : string; af_kind : ArtifactKind;
  af_run_id : string; af_node_id : string; af_attempt_id : string; af_storage_reference : string;
  af_redaction : RedactionClassification; af_created_at : datetime; af_schema_version : Z }.
Definition artifact_post_init (a : Artifact) : result Artifact :=
  raise_when (af_byte_size a <? 0)%Z as InvalidInputError ;;
  raise_when blank (af_media_type a) as InvalidInputError ;;
  raise_when blank (af_storage_reference a) as InvalidInputError ;;
  raise_when negb (tz_aware (af_created_at a)) as InvalidInputError ;;
  raise_when (af_schema_version a <? 1)%Z as InvalidInputError ;;
  Ok a.

(** *** [domain/intervention.py] *)
Inductive InterventionKind :=
| IK_APPROVAL | IK_REJECTION | IK_CORRECTION | IK_SUPPLIED_FACT | IK_WAIVER | IK_OVERRIDE
| IK_MANUAL_EXTERNAL_ACTION.
#[export] Instance InterventionKind_eq_dec : EqDecision InterventionKind.
Proof. solve_decision. Defined.
#[export] Program Instance InterventionKind_enum : PyEnum InterventionKind := {|
  members := [IK_APPROVAL; IK_REJECTION; IK_CORRECTION; IK_SUPPLIED_FACT; IK_WAIVER; IK_OVERRIDE;
    IK_MANUAL_EXTERNAL_ACTION];
  enum_value k := match k with
    | IK_APPROVAL => "approval" | IK_REJECTION => "rejection" | IK_CORRECTION => "correction"
    | IK_SUPPLIED_FACT => "supplied_fact" | IK_WAIVER => "waiver" | IK_OVERRIDE => "override"
    | IK_MANUAL_EXTERNAL_ACTION => "manual_external_action" end |}.
Next Obligation. solve_enum. Qed.
Next Obligation. solve_enum. Qed.
Record Intervention := {
  iv_id : string; iv_kind : InterventionKind; iv_run_id : string; iv_actor : string;
  iv_occurred_at : datetime; iv_rationale : string; iv_detail : list (string * json) }.
Definition intervention_post_init (i : Intervention) : result Intervention :=
  raise_when blank (iv_actor i) as InvalidInputError ;;
  raise_when blank (iv_rationale i) as InvalidInputError ;;
  raise_when negb (tz_aware (iv_occurred_at i)) as InvalidInputError ;;
  Ok i.

(** *** [domain/outcome.py] *)
Definition KINDS_REQUIRING_LINKED_WORK_ITEM : list OutcomeKind := [OUT_REOPENED_ISSUE; OUT_ESCAPED_DEFECT].
Record Outcome := {
  oc_id : string; oc_work_item_id : string; oc_kind : OutcomeKind; oc_observed_at : datetime;
  oc_run_id : option string; oc_linked_work_item_id : option string; oc_detail : list (string * json);
  oc_schema_version : Z }.
Definition outcome_post_init (o : Outcome) : result Outcome :=
  raise_when negb (tz_aware (oc_observed_at o)) as InvalidInputError ;;
  let requires_link := bool_decide (oc_kind o ∈ KINDS_REQUIRING_LINKED_WORK_ITEM) in
  raise_when requires_link && is_none (oc_linked_work_item_id o) as InvalidInputError ;;
  raise_when negb requires_link && negb (is_none (oc_linked_work_item_id o)) as InvalidInputError ;;
  raise_when bool_decide (oc_linked_work_item_id o = Some (oc_work_item_id o)) as InvalidInputError ;;
  raise_when (oc_schema_version o <? 1)%Z as InvalidInputError ;;
  Ok o.

(** *** The fields of [PolicyDecision] an evaluator leaves at their defaults *)
Record RecordedDecision := {
  rd_decision : PolicyDecision; rd_required_evidence : list string; rd_required_approver : option string;
  rd_superseded : bool; rd_superseded_by : option string }.
Definition recorded_decision_post_init (d : RecordedDecision) : result RecordedDecision :=
  _ ← policy_decision_post_init (rd_decision d);
  raise_when negb (is_none (rd_superseded_by d)) && negb (rd_superseded d) as InvalidInputError ;;
  Ok d.

(** ** Built-ins the codecs use *)
(** [str(x)] of a JSON value that is not a string, and the float seconds of a duration;
    the documentation of [total_seconds] limits its exactness to 270 years. *)
Definition EXACT_SECONDS : timedelta := (270 * 365 * 86400 * 1000000)%Z.
Class PyValues := {
  str_of : json -> string;
  str_of_str : forall s, str_of (JStr s) = s;
  total_seconds : timedelta -> spec_float;
  delta_of_seconds : spec_float -> result timedelta;
  delta_of_total_seconds : forall w, (0 <= w <= EXACT_SECONDS)%Z -> delta_of_seconds (total_seconds w) = Ok w;
}.
(** [float(n)]: the nearest double, ties to even. *)
Definition float_of_int (z : Z) : result spec_float :=
  match binary_normalize 53 1024 z 0 false with
  | S754_infinity _ => Err PyOverflowError
  | f => Ok f
  end.
(** [int(x)] *)
Definition trunc_float (f : spec_float) : result Z :=
  match f with
  | S754_zero _ => Ok 0%Z
  | S754_infinity _ => Err PyOverflowError
  | S754_nan => Err PyValueError
  | S754_finite s m e =>
      let v := if (0 <=? e)%Z then (Zpos m * 2 ^ e)%Z else (Zpos m / 2 ^ (- e))%Z in
      Ok (if s then (- v)%Z else v)
  end.
Definition digit_value (c : Ascii.ascii) : option Z :=
  if (48 <=? code c)%N && (code c <=? 57)%N then Some (Z.of_N (code c) - 48)%Z else None.
(** Digits with single underscores between them: the value and the digit count. *)
Fixpoint int_digits (after_digit : bool) (l : list Ascii.ascii) (acc : Z) (count : nat) : option (Z * nat) :=
  match l with
  | [] => if after_digit then Some (acc, count) else None
  | c :: l =>
      match digit_value c with
      | Some d => int_digits true l (10 * acc + d)%Z (S count)
      | None => if after_digit && (code c =? 95)%N then int_digits false l acc count else None
      end
  end.
Definition int_of_text (s : string) : result Z :=
  let '(sign, l) := match chars (py_strip s) with
    | c :: l => if (code c =? 43)%N then (1%Z, l) else if (code c =? 45)%N then ((-1)%Z, l) else (1%Z, c :: l)
    | [] => (1%Z, []) end in
  match int_digits false l 0 0 with
  | Some (v, n) => raise_when (MAX_INT_DIGITS <? n)%nat as PyValueError ;; Ok (sign * v)%Z
  | None => Err PyValueError
  end.
Definition int_of_json (j : json) : result Z :=
  match j with
  | JInt z => Ok z
  | JBool b => Ok (if b then 1 else 0)%Z
  | JFloat f => trunc_float f
  | JStr s => int_of_text s
  | _ => Err PyTypeError
  end.
(** [bool(x)] *)
Definition truthy (j : json) : bool :=
  match j with
  | JNull => false | JBool b => b | JInt z => negb (z =? 0)%Z
  | JFloat f => match f with S754_zero _ => false | _ => true end
  | JStr s => negb (String.eqb s "") | JList l => negb (bool_decide (l = []))
  | JObj m => negb (bool_decide (m = []))
  end.

Section Codecs.
Context `{iso : IsoCodec} `{pv : PyValues}.
Abbreviation mapping := (list (string * json)).

(** ** Field helpers *)
Definition data_str (data : mapping) (key : string) : result string :=
  match dict_get key data with Some (JStr s) => Ok s | _ => Err InvalidInputError end.
Definition data_optional_str (data : mapping) (key : string) : result (option string) :=
  match dict_get key data with
  | None | Some JNull => Ok None
  | Some (JStr s) => Ok (Some s)
  | _ => Err InvalidInputError
  end.
Definition data_int (data : mapping) (key : string) : result Z :=
  match dict_get key data with Some (JInt z) => Ok z | _ => Err InvalidInputError end.
Definition data_optional_float (data : mapping) (key : string) : result (option spec_float) :=
  match dict_get key data with
  | None | Some JNull => Ok None
  | Some (JFloat f) => Ok (Some f)
  | Some (JInt z) => f ← float_of_int z; Ok (Some f)
  | _ => Err InvalidInputError
  end.
Definition data_str_list (data : mapping) (key : string) : result (list string) :=
  match default (JList []) (dict_get key data) with
  | JList l => from_option_err InvalidInputError (mapM json_str l)
  | _ => Err InvalidInputError
  end.
Definition optional_datetime_out (d : option datetime) : json :=
  from_option (fun d => JStr (isoformat d)) JNull d.
Definition decode_datetime (value : json) : result datetime :=
  match value with
  | JStr s =>
      parsed ← from_option_err PyValueError (fromisoformat s);
      raise_when negb (tz_aware parsed) as InvalidInputError ;; Ok parsed
  | _ => Err InvalidInputError
  end.
Definition decode_optional_datetime (value : json) : result (option datetime) :=
  match value with JNull => Ok None | v => d ← decode_datetime v; Ok (Some d) end.
Definition decode_digest (value : json) : result Digest :=
  match value with JStr s => digest_of_str s | _ => Err InvalidInputError end.
(** [data.get(key)] *)
Definition data_get (data : mapping) (key : string) : json := default JNull (dict_get key data).
(** An identifier, an enumeration's member, a mapping with a default. *)
Definition data_id (data : mapping) (key : string) : result string :=
  s ← data_str data key; mk_identifier s.
Definition data_enum (A : Type) `{PyEnum A} (data : mapping) (key : string) : result A :=
  s ← data_str data key; enum_of_value s.
Definition data_mapping (data : mapping) (key : string) (default_value : json) : result mapping :=
  match default default_value (dict_get key data) with JObj m => Ok m | _ => Err InvalidInputError end.
(** A member when the value is a string, otherwise none. *)
Definition optional_enum (A : Type) `{PyEnum A} (value : json) : result (option A) :=
  match value with JStr s => x ← enum_of_value s; Ok (Some x) | _ => Ok None end.
Definition optional_id (value : json) : result (option string) :=
  match value with JStr s => i ← mk_identifier s; Ok (Some i) | _ => Ok None end.
Definition opt_enum_json {A} `{PyEnum A} (o : option A) : json :=
  from_option (fun x => JStr (enum_value x)) JNull o.
Definition opt_float_json (o : option spec_float) : json := from_option JFloat JNull o.

(** ** Work items *)
Definition WORK_ITEM_SCHEMA_VERSION : Z := 1.
Definition work_item_data (w : WorkItem) : mapping :=
  [("id", JStr (wi_id w)); ("work_kind", JStr (enum_value (wi_work_kind w)));
   ("source_provider", JStr (wi_source_provider w)); ("external_reference", JStr (wi_external_reference w));
   ("source_snapshot_reference", JStr (wi_source_snapshot_reference w)); ("title", JStr (wi_title w));
   ("objective", JStr (wi_objective w)); ("acceptance_criteria", json_strs (wi_acceptance_criteria w));
   ("constraints", json_strs (wi_constraints w)); ("risk_class", JStr (enum_value (wi_risk_class w)));
   ("repository_targets", json_strs (wi_repository_targets w));
   ("dependencies", json_strs (wi_dependencies w)); ("state", JStr (enum_value (wi_state w)));
   ("aggregate_version", JInt (wi_aggregate_version w))].
Definition work_item_to_dict (w : WorkItem) : mapping := envelope WORK_ITEM_SCHEMA_VERSION (work_item_data w).
Definition work_item_of_data (data : mapping) : result WorkItem :=
  id ← data_id data "id";
  work_kind ← data_enum WorkKind data "work_kind";
  source_provider ← data_str data "source_provider";
  external_reference ← data_str data "external_reference";
  source_snapshot_reference ← data_str data "source_snapshot_reference";
  title ← data_str data "title";
  objective ← data_str data "objective";
  acceptance_criteria ← data_str_list data "acceptance_criteria";
  constraints ← data_str_list data "constraints";
  risk_class ← data_enum RiskClass data "risk_class";
  repository_targets ← data_str_list data "repository_targets";
  dependencies ← data_str_list data "dependencies";
  dependencies ← mapM_result mk_identifier dependencies;
  state ← data_enum WorkItemState data "state";
  aggregate_version ← data_int data "aggregate_version";
  work_item_post_init {|
    wi_id := id; wi_work_kind := work_kind; wi_source_provider := source_provider;
    wi_external_reference := external_reference; wi_source_snapshot_reference := source_snapshot_reference;
    wi_title := title; wi_objective := objective; wi_acceptance_criteria := acceptance_criteria;
    wi_constraints := constraints; wi_risk_class := risk_class; wi_repository_targets := repository_targets;
    wi_dependencies := dependencies; wi_state := state; wi_aggregate_version := aggregate_version |}.
Definition work_item_from_dict (raw : mapping) : result WorkItem :=
  data ← unwrap_envelope raw WORK_ITEM_SCHEMA_VERSION; work_item_of_data data.

(** ** Runs *)
Definition RUN_SCHEMA_VERSION : Z := 2.
Definition run_data (r : Run) : mapping :=
  [("id", JStr (run_id r)); ("work_item_id", JStr (run_work_item_id r));
   ("work_item_snapshot_digest", JStr (digest_str (run_work_item_snapshot_digest r)));
   ("workflow_definition_id", JStr (run_workflow_definition_id r));
   ("workflow_definition_digest", JStr (digest_str (run_workflow_definition_digest r)));
   ("repository", JStr (run_repository r)); ("base_revision", JStr (run_base_revision r));
   ("policy_set_version", JStr (run_policy_set_version r));
   ("adapter_versions", JObj (map (fun kv => (kv.1, JStr kv.2)) (run_adapter_versions r)));
   ("adapter_fingerprints", JObj (map (fun kv => (kv.1, JStr (digest_str kv.2))) (run_adapter_fingerprints r)));
   ("capability_lock_digest", JStr (digest_str (run_capability_lock_digest r)));
   ("environment_manifest_digest", JStr (digest_str (run_environment_manifest_digest r)));
   ("configuration_snapshot_digest", JStr (digest_str (run_configuration_snapshot_digest r)));
   ("state", JStr (enum_value (run_state r))); ("aggregate_version", JInt (run_aggregate_version r))].
Definition same_adapters (r : Run) : bool :=
  forallb (fun k => bool_decide (k ∈ (run_adapter_fingerprints r).*1)) (run_adapter_versions r).*1 &&
  forallb (fun k => bool_decide (k ∈ (run_adapter_versions r).*1)) (run_adapter_fingerprints r).*1.
Definition run_to_dict (r : Run) : result mapping :=
  raise_when negb (same_adapters r) as InvalidInputError ;;
  Ok (envelope RUN_SCHEMA_VERSION (run_data r)).
Definition run_of_data (data : mapping) : result Run :=
  adapter_versions_raw ← match data_get data "adapter_versions" with
    | JObj m => Ok m | _ => Err InvalidInputError end;
  adapter_fingerprints_raw ← data_mapping data "adapter_fingerprints" (JObj []);
  id ← data_id data "id";
  work_item_id ← data_id data "work_item_id";
  snapshot ← decode_digest (data_get data "work_item_snapshot_digest");
  workflow_definition_id ← data_id data "workflow_definition_id";
  workflow ← decode_digest (data_get data "workflow_definition_digest");
  repository ← data_str data "repository";
  base_revision ← data_str data "base_revision";
  policy_set_version ← data_str data "policy_set_version";
  fingerprints ← mapM_result (fun '(adapter, f) => d ← decode_digest f; Ok (adapter, d)) adapter_fingerprints_raw;
  lock ← decode_digest (data_get data "capability_lock_digest");
  environment ← decode_digest (data_get data "environment_manifest_digest");
  configuration ← decode_digest (data_get data "configuration_snapshot_digest");
  state ← data_enum RunState data "state";
  aggregate_version ← data_int data "aggregate_version";
  run_post_init {|
    run_id := id; run_work_item_id := work_item_id; run_work_item_snapshot_digest := snapshot;
    run_workflow_definition_id := workflow_definition_id; run_workflow_definition_digest := workflow;
    run_repository := repository; run_base_revision := base_revision; run_policy_set_version := policy_set_version;
    run_adapter_versions := map (fun kv => (kv.1, str_of kv.2)) adapter_versions_raw;
    run_adapter_fingerprints := fingerprints; run_capability_lock_digest := lock;
    run_environment_manifest_digest := environment; run_configuration_snapshot_digest := configuration;
    run_state := state; run_aggregate_version := aggregate_version |}.
(** [schema_version not in {1, RUN_SCHEMA_VERSION}]: a set membership hashes its operand. *)
Definition run_from_dict (raw : mapping) : result Run :=
  let version := data_get raw "schema_version" in
  supported ← match version with
    | JList _ | JObj _ => Err PyTypeError
    | v => Ok (json_eqb v (JInt 1) || json_eqb v (JInt RUN_SCHEMA_VERSION)) end;
  raise_when negb supported as InvalidInputError ;;
  match dict_get "data" raw with Some (JObj data) => run_of_data data | _ => Err InvalidInputError end.

(** ** Node attempts *)
Definition NODE_ATTEMPT_SCHEMA_VERSION : Z := 1.
Definition node_attempt_data (a : NodeAttempt) : mapping :=
  [("id", JStr (na_id a)); ("run_id", JStr (na_run_id a)); ("node_id", JStr (na_node_id a));
   ("attempt_number", JInt (na_attempt_number a)); ("actor", JStr (na_actor a));
   ("input_digest", JStr (digest_str (na_input_digest a))); ("state", JStr (enum_value (na_state a)));
   ("lease_owner", opt_str (na_lease_owner a));
   ("lease_expires_at", optional_datetime_out (na_lease_expires_at a));
   ("started_at", optional_datetime_out (na_started_at a));
   ("completed_at", optional_datetime_out (na_completed_at a));
   ("emitted_event_range", from_option (fun '(s, e) => JList [JInt s; JInt e]) JNull (na_emitted_event_range a));
   ("output_artifact_ids", json_strs (na_output_artifact_ids a));
   ("evidence_result", opt_enum_json (na_evidence_result a)); ("cost_amount", opt_float_json (na_cost_amount a));
   ("duration_seconds", opt_float_json (na_duration_seconds a));
   ("failure_class", opt_enum_json (na_failure_class a));
   ("reconciliation_result", opt_enum_json (na_reconciliation_result a));
   ("schema_version", JInt (na_schema_version a))].
Definition node_attempt_to_dict (a : NodeAttempt) : mapping :=
  envelope NODE_ATTEMPT_SCHEMA_VERSION (node_attempt_data a).
Definition node_attempt_of_data (data : mapping) : result NodeAttempt :=
  event_range ← match data_get data "emitted_event_range" with
    | JNull => Ok None
    | JList [s; e] => s ← int_of_json s; e ← int_of_json e; Ok (Some (s, e))
    | _ => Err InvalidInputError end;
  id ← data_id data "id";
  run ← data_id data "run_id";
  node ← data_id data "node_id";
  attempt_number ← data_int data "attempt_number";
  actor ← data_str data "actor";
  input_digest ← decode_digest (data_get data "input_digest");
  state ← data_enum NodeAttemptState data "state";
  lease_owner ← data_optional_str data "lease_owner";
  lease_expires_at ← decode_optional_datetime (data_get data "lease_expires_at");
  started_at ← decode_optional_datetime (data_get data "started_at");
  completed_at ← decode_optional_datetime (data_get data "completed_at");
  output_artifact_ids ← data_str_list data "output_artifact_ids";
  output_artifact_ids ← mapM_result mk_identifier output_artifact_ids;
  evidence_result ← optional_enum EvidenceResult (data_get data "evidence_result");
  cost_amount ← data_optional_float data "cost_amount";
  duration_seconds ← data_optional_float data "duration_seconds";
  failure_class ← optional_enum FailureClass (data_get data "failure_class");
  reconciliation_result ← optional_enum ReconciliationResult (data_get data "reconciliation_result");
  schema_version ← data_int data "schema_version";
  node_attempt_post_init {|
    na_id := id; na_run_id := run; na_node_id := node; na_attempt_number := attempt_number; na_actor := actor;
    na_input_digest := input_digest; na_state := state; na_lease_owner := lease_owner;
    na_lease_expires_at := lease_expires_at; na_started_at := started_at; na_completed_at := completed_at;
    na_emitted_event_range := event_range; na_output_artifact_ids := output_artifact_ids;
    na_evidence_result := evidence_result; na_cost_amount := cost_amount;
    na_duration_seconds := duration_seconds; na_failure_class := failure_class;
    na_reconciliation_result := reconciliation_result; na_schema_version := schema_version |}.
Definition node_attempt_from_dict (raw : mapping) : result NodeAttempt :=
  data ← unwrap_envelope raw NODE_ATTEMPT_SCHEMA_VERSION; node_attempt_of_data data.

(** ** Artifacts *)
Definition ARTIFACT_SCHEMA_VERSION : Z := 1.
Definition artifact_data (a : Artifact) : mapping :=
  [("id", JStr (af_id a)); ("digest", JStr (digest_str (af_digest a))); ("byte_size", JInt (af_byte_size a));
   ("media_type", JStr (af_media_type a)); ("kind", JStr (enum_value (af_kind a)));
   ("run_id", JStr (af_run_id a)); ("node_id", JStr (af_node_id a)); ("attempt_id", JStr (af_attempt_id a));
   ("storage_reference", JStr (af_storage_reference a)); ("redaction", JStr (enum_value (af_redaction a)));
   ("created_at", JStr (isoformat (af_created_at a))); ("schema_version", JInt (af_schema_version a))].
Definition artifact_to_dict (a : Artifact) : mapping := envelope ARTIFACT_SCHEMA_VERSION (artifact_data a).
Definition artifact_of_data (data : mapping) : result Artifact :=
  id ← data_id data "id";
  digest ← decode_digest (data_get data "digest");
  byte_size ← data_int data "byte_size";
  media_type ← data_str data "media_type";
  kind ← data_enum ArtifactKind data "kind";
  run ← data_id data "run_id";
  node ← data_id data "node_id";
  attempt ← data_id data "attempt_id";
  storage_reference ← data_str data "storage_reference";
  redaction ← data_enum RedactionClassification data "redaction";
  created_at ← decode_datetime (data_get data "created_at");
  schema_version ← data_int data "schema_version";
  artifact_post_init {|
    af_id := id; af_digest := digest; af_byte_size := byte_size; af_media_type := media_type; af_kind := kind;
    af_run_id := run; af_node_id := node; af_attempt_id := attempt; af_storage_reference := storage_reference;
    af_redaction := redaction; af_created_at := created_at; af_schema_version := schema_version |}.
Definition artifact_from_dict (raw : mapping) : result Artifact :=
  data ← unwrap_envelope raw ARTIFACT_SCHEMA_VERSION; artifact_of_data data.

(** ** Policy decisions *)
Definition POLICY_DECISION_SCHEMA_VERSION : Z := 1.
Definition policy_decision_data (d : RecordedDecision) : mapping :=
  let p := rd_decision d in
  [("id", JStr (pd_id p)); ("action", JStr (enum_value (pd_action p)));
   ("normalized_inputs", JObj (pd_normalized_inputs p)); ("policy_rule_id", JStr (pd_policy_rule_id p));
   ("policy_version", JStr (pd_policy_version p)); ("result", JStr (enum_value (pd_result p)));
   ("rationale", JStr (pd_rationale p)); ("input_digest", JStr (digest_str (pd_input_digest p)));
   ("decided_at", JStr (isoformat (pd_decided_at p)));
   ("required_evidence", json_strs (rd_required_evidence d));
   ("required_approver", opt_str (rd_required_approver d)); ("superseded", JBool (rd_superseded d));
   ("superseded_by", opt_str (rd_superseded_by d))].
Definition policy_decision_to_dict (d : RecordedDecision) : mapping :=
  envelope POLICY_DECISION_SCHEMA_VERSION (policy_decision_data d).
Definition policy_decision_of_data (data : mapping) : result RecordedDecision :=
  normalized_inputs ← match data_get data "normalized_inputs" with JObj m => Ok m | _ => Err InvalidInputError end;
  id ← data_id data "id";
  action ← data_enum PolicyAction data "action";
  policy_rule_id ← data_str data "policy_rule_id";
  policy_version ← data_str data "policy_version";
  result ← data_enum PolicyResult data "result";
  rationale ← data_str data "rationale";
  input_digest ← decode_digest (data_get data "input_digest");
  decided_at ← decode_datetime (data_get data "decided_at");
  required_evidence ← data_str_list data "required_evidence";
  required_approver ← data_optional_str data "required_approver";
  superseded_by ← optional_id (data_get data "superseded_by");
  recorded_decision_post_init {|
    rd_decision := {|
      pd_id := id; pd_action := action; pd_normalized_inputs := normalized_inputs;
      pd_policy_rule_id := policy_rule_id; pd_policy_version := policy_version; pd_result := result;
      pd_rationale := rationale; pd_input_digest := input_digest; pd_decided_at := decided_at |};
    rd_required_evidence := required_evidence; rd_required_approver := required_approver;
    rd_superseded := truthy (default (JBool false) (dict_get "superseded" data));
    rd_superseded_by := superseded_by |}.
Definition policy_decision_from_dict (raw : mapping) : result RecordedDecision :=
  data ← unwrap_envelope raw POLICY_DECISION_SCHEMA_VERSION; policy_decision_of_data data.

(** ** Interventions *)
Definition INTERVENTION_SCHEMA_VERSION : Z := 1.
Definition intervention_data (i : Intervention) : mapping :=
  [("id", JStr (iv_id i)); ("kind", JStr (enum_value (iv_kind i))); ("run_id", JStr (iv_run_id i));
   ("actor", JStr (iv_actor i)); ("occurred_at", JStr (isoformat (iv_occurred_at i)));
   ("rationale", JStr (iv_rationale i)); ("detail", JObj (iv_detail i))].
Definition intervention_to_dict (i : Intervention) : mapping :=
  envelope INTERVENTION_SCHEMA_VERSION (intervention_data i).
Definition intervention_of_data (data : mapping) : result Intervention :=
  detail ← data_mapping data "detail" (JObj []);
  id ← data_id data "id";
  kind ← data_enum InterventionKind data "kind";
  run ← data_id data "run_id";
  actor ← data_str data "actor";
  occurred_at ← decode_datetime (data_get data "occurred_at");
  rationale ← data_str data "rationale";
  intervention_post_init {|
    iv_id := id; iv_kind := kind; iv_run_id := run; iv_actor := actor; iv_occurred_at := occurred_at;
    iv_rationale := rationale; iv_detail := detail |}.
Definition intervention_from_dict (raw : mapping) : result Intervention :=
  data ← unwrap_envelope raw INTERVENTION_SCHEMA_VERSION; intervention_of_data data.

(** ** Outcomes *)
Definition OUTCOME_SCHEMA_VERSION : Z := 1.
Definition outcome_data (o : Outcome) : mapping :=
  [("id", JStr (oc_id o)); ("work_item_id", JStr (oc_work_item_id o)); ("kind", JStr (enum_value (oc_kind o)));
   ("observed_at", JStr (isoformat (oc_observed_at o))); ("run_id", opt_str (oc_run_id o));
   ("linked_work_item_id", opt_str (oc_linked_work_item_id o)); ("detail", JObj (oc_detail o));
   ("schema_version", JInt (oc_schema_version o))].
Definition outcome_to_dict (o : Outcome) : mapping := envelope OUTCOME_SCHEMA_VERSION (outcome_data o).
Definition outcome_of_data (data : mapping) : result Outcome :=
  detail ← data_mapping data "detail" (JObj []);
  id ← data_id data "id";
  work_item_id ← data_id data "work_item_id";
  kind ← data_enum OutcomeKind data "kind";
  observed_at ← decode_datetime (data_get data "observed_at");
  run ← optional_id (data_get data "run_id");
  linked ← optional_id (data_get data "linked_work_item_id");
  schema_version ← data_int data "schema_version";
  outcome_post_init {|
    oc_id := id; oc_work_item_id := work_item_id; oc_kind := kind; oc_observed_at := observed_at;
    oc_run_id := run; oc_linked_work_item_id := linked; oc_detail := detail;
    oc_schema_version := schema_version |}.
Definition outcome_from_dict (raw : mapping) : result Outcome :=
  data ← unwrap_envelope raw OUTCOME_SCHEMA_VERSION; outcome_of_data data.

(** ** Observations *)
Definition OBSERVATION_SCHEMA_VERSION : Z := 1.
Definition observation_data (o : ObservationRequest) : mapping :=
  [("id", JStr (obs_id o)); ("work_item_id", JStr (obs_work_item_id o)); ("run_id", JStr (obs_run_id o));
   ("kind", JStr (enum_value (obs_kind o))); ("opened_at", JStr (isoformat (obs_opened_at o)));
   ("window_seconds", JFloat (total_seconds (obs_window o))); ("state", JStr (enum_value (obs_state o)));
   ("resolved_at", optional_datetime_out (obs_resolved_at o)); ("outcome_id", opt_str (obs_outcome_id o));
   ("detail", JObj (obs_detail o)); ("schema_version", JInt (obs_schema_version o))].
Definition observation_to_dict (o : ObservationRequest) : mapping :=
  envelope OBSERVATION_SCHEMA_VERSION (observation_data o).
(** [timedelta(seconds=value)]; a bool is an int, and a duration has at most 999999999 days. *)
Definition delta_of_int_seconds (z : Z) : result timedelta :=
  raise_when (999999999 <? Z.abs (z / 86400))%Z as PyOverflowError ;; Ok (z * 1000000)%Z.
Definition window_of_json (value : json) : result timedelta :=
  match value with
  | JFloat f => delta_of_seconds f
  | v => match int_of v with Some z => delta_of_int_seconds z | None => Err InvalidInputError end
  end.
Definition observation_of_data (data : mapping) : result ObservationRequest :=
  detail ← data_mapping data "detail" (JObj []);
  raise_when match data_get data "window_seconds" with
             | JFloat _ | JInt _ | JBool _ => false | _ => true end as InvalidInputError ;;
  id ← data_id data "id";
  work_item_id ← data_id data "work_item_id";
  run ← data_id data "run_id";
  kind ← data_enum OutcomeKind data "kind";
  opened_at ← decode_datetime (data_get data "opened_at");
  window ← window_of_json (data_get data "window_seconds");
  state ← data_enum ObservationState data "state";
  resolved_at ← decode_optional_datetime (data_get data "resolved_at");
  outcome ← optional_id (data_get data "outcome_id");
  schema_version ← data_int data "schema_version";
  observation_post_init {|
    obs_id := id; obs_work_item_id := work_item_id; obs_run_id := run; obs_kind := kind;
    obs_opened_at := opened_at; obs_window := window; obs_state := state; obs_resolved_at := resolved_at;
    obs_outcome_id := outcome; obs_detail := detail; obs_schema_version := schema_version |}.
Definition observation_from_dict (raw : mapping) : result ObservationRequest :=
  data ← unwrap_envelope raw OBSERVATION_SCHEMA_VERSION; observation_of_data data.

(** ** Factory changes *)
Definition FACTORY_CHANGE_SCHEMA_VERSION : Z := 1.
Definition factory_change_data (c : FactoryChange) : mapping :=
  [("id", JStr (fc_id c)); ("affected_asset", JStr (fc_affected_asset c));
   ("baseline_version", JStr (fc_baseline_version c)); ("problem_statement", JStr (fc_problem_statement c));
   ("hypothesis", JStr (fc_hypothesis c)); ("candidate_version", JStr (fc_candidate_version c));
   ("state", JStr (enum_value (fc_state c))); ("evaluation_set_digest", opt_str (fc_evaluation_set_digest c));
   ("comparison_result", from_option JObj JNull (fc_comparison_result c));
   ("approval_state", opt_str (fc_approval_state c)); ("canary_cohort", json_strs (fc_canary_cohort c));
   ("promotion_result", opt_str (fc_promotion_result c)); ("aggregate_version", JInt (fc_aggregate_version c))].
Definition factory_change_to_dict (c : FactoryChange) : mapping :=
  envelope FACTORY_CHANGE_SCHEMA_VERSION (factory_change_data c).
(** A mapping or null. *)
Definition optional_mapping (value : json) : result (option mapping) :=
  match value with JNull => Ok None | JObj m => Ok (Some m) | _ => Err InvalidInputError end.
Definition factory_change_of_data (data : mapping) : result FactoryChange :=
  comparison_result ← optional_mapping (data_get data "comparison_result");
  id ← data_id data "id";
  affected_asset ← data_str data "affected_asset";
  baseline_version ← data_str data "baseline_version";
  problem_statement ← data_str data "problem_statement";
  hypothesis ← data_str data "hypothesis";
  candidate_version ← data_str data "candidate_version";
  state ← data_enum FactoryChangeState data "state";
  evaluation_set_digest ← data_optional_str data "evaluation_set_digest";
  approval_state ← data_optional_str data "approval_state";
  canary_cohort ← data_str_list data "canary_cohort";
  promotion_result ← data_optional_str data "promotion_result";
  aggregate_version ← data_int data "aggregate_version";
  factory_change_post_init {|
    fc_id := id; fc_affected_asset := affected_asset; fc_baseline_version := baseline_version;
    fc_problem_statement := problem_statement; fc_hypothesis := hypothesis;
    fc_candidate_version := candidate_version; fc_state := state;
    fc_evaluation_set_digest := evaluation_set_digest; fc_comparison_result := comparison_result;
    fc_approval_state := approval_state; fc_canary_cohort := canary_cohort;
    fc_promotion_result := promotion_result; fc_aggregate_version := aggregate_version |}.
Definition factory_change_from_dict (raw : mapping) : result FactoryChange :=
  data ← unwrap_envelope raw FACTORY_CHANGE_SCHEMA_VERSION; factory_change_of_data data.

(** ** Incidents *)
Definition INCIDENT_SCHEMA_VERSION : Z := 1.
Definition release_lineage_to_dict (l : ReleaseLineage) : mapping :=
  [("service", JStr (rl_service l)); ("affected_revision", JStr (rl_affected_revision l));
   ("known_good_revision", opt_str (rl_known_good_revision l))].
Definition release_lineage_from_dict (raw : mapping) : result ReleaseLineage :=
  service ← data_str raw "service";
  affected_revision ← data_str raw "affected_revision";
  known_good_revision ← data_optional_str raw "known_good_revision";
  release_lineage_post_init {| rl_service := service; rl_affected_revision := affected_revision;
                               rl_known_good_revision := known_good_revision |}.
Definition containment_to_dict (a : ContainmentAction) : mapping :=
  [("description", JStr (ca_description a)); ("rationale", JStr (ca_rationale a))].
Definition containment_from_dict (raw : mapping) : result ContainmentAction :=
  description ← data_str raw "description";
  rationale ← data_str raw "rationale";
  containment_action_post_init {| ca_description := description; ca_rationale := rationale |}.
Definition reproduction_to_dict (r : ReproductionRecord) : mapping :=
  [("outcome", JStr (enum_value (rr_outcome r))); ("detail", JStr (rr_detail r))].
Definition reproduction_from_dict (raw : mapping) : result ReproductionRecord :=
  outcome ← data_enum ReproductionOutcome raw "outcome";
  detail ← data_str raw "detail";
  reproduction_record_post_init {| rr_outcome := outcome; rr_detail := detail |}.
Definition opt_mapping_json {A} (f : A -> mapping) (o : option A) : json :=
  from_option (fun x => JObj (f x)) JNull o.
Definition optional_part {A} (decode : mapping -> result A) (o : option mapping) : result (option A) :=
  match o with None => Ok None | Some m => x ← decode m; Ok (Some x) end.
Definition incident_data (i : Incident) : mapping :=
  [("id", JStr (inc_id i)); ("work_item_id", JStr (inc_work_item_id i));
   ("severity", JStr (enum_value (inc_severity i))); ("state", JStr (enum_value (inc_state i)));
   ("summary", JStr (inc_summary i));
   ("release_lineage", opt_mapping_json release_lineage_to_dict (inc_release_lineage i));
   ("containment", opt_mapping_json containment_to_dict (inc_containment i));
   ("reproduction", opt_mapping_json reproduction_to_dict (inc_reproduction i));
   ("aggregate_version", JInt (inc_aggregate_version i))].
Definition incident_to_dict (i : Incident) : mapping := envelope INCIDENT_SCHEMA_VERSION (incident_data i).
Definition incident_of_data (data : mapping) : result Incident :=
  lineage_raw ← optional_mapping (data_get data "release_lineage");
  containment_raw ← optional_mapping (data_get data "containment");
  reproduction_raw ← optional_mapping (data_get data "reproduction");
  id ← data_id data "id";
  work_item_id ← data_id data "work_item_id";
  severity ← data_enum IncidentSeverity data "severity";
  state ← data_enum IncidentState data "state";
  summary ← data_str data "summary";
  release_lineage ← optional_part release_lineage_from_dict lineage_raw;
  containment ← optional_part containment_from_dict containment_raw;
  reproduction ← optional_part reproduction_from_dict reproduction_raw;
  aggregate_version ← data_int data "aggregate_version";
  incident_post_init {|
    inc_id := id; inc_work_item_id := work_item_id; inc_severity := severity; inc_state := state;
    inc_summary := summary; inc_release_lineage := release_lineage; inc_containment := containment;
    inc_reproduction := reproduction; inc_aggregate_version := aggregate_version |}.
Definition incident_from_dict (raw : mapping) : result Incident :=
  data ← unwrap_envelope raw INCIDENT_SCHEMA_VERSION; incident_of_data data.

(** ** Workflow manifests *)
Definition WORKFLOW_MANIFEST_SCHEMA_VERSION : Z := 1.
Definition workflow_manifest_to_dict (m : WorkflowManifest) : mapping :=
  envelope WORKFLOW_MANIFEST_SCHEMA_VERSION (manifest_to_mapping m).
Definition workflow_manifest_from_dict (raw : mapping) : result WorkflowManifest :=
  data ← unwrap_envelope raw WORKFLOW_MANIFEST_SCHEMA_VERSION; manifest_from_mapping data.
End Codecs.
