(* ===== verification/RecordProofs.v ===== *)
(** * Domain records survive the ledger

    Decoding the canonical form of a record's envelope gives the record back, its
    free-form mappings in canonical form. *)
From S2P Require Import Prelude PyText Json Identity IdentityProofs JsonCanon StateMachine Lifecycles Aggregates.
From S2P Require Import Plans PlanExecutions Policy Serialization Records.
From Stdlib Require Import SpecFloat.

Section Fields.
Context `{iso : IsoCodec} `{pv : PyValues}.
(** [data] holds the canonical forms of [m]'s entries. *)
Definition reads_as (data m : list (string * json)) : Prop :=
  forall key, dict_get key data = canon <$> dict_get key m.
Lemma canon_reads m : NoDup m.*1 -> reads_as (canon_items m) m.
Proof. intros Hm key. by apply canon_items_get. Qed.

Section One.
Variables (data m : list (string * json)) (key : string).
Hypothesis Hr : reads_as data m.
Lemma read_get v : dict_get key m = Some v -> data_get data key = canon v.
Proof. intros Hv. unfold data_get. by rewrite Hr, Hv. Qed.
Lemma read_str s : dict_get key m = Some (JStr s) -> data_str data key = Ok s.
Proof. intros Hv. unfold data_str. by rewrite Hr, Hv. Qed.
Lemma read_optional_str o : dict_get key m = Some (opt_str o) -> data_optional_str data key = Ok o.
Proof. intros Hv. unfold data_optional_str. rewrite Hr, Hv. by destruct o. Qed.
Lemma read_int z : dict_get key m = Some (JInt z) -> data_int data key = Ok z.
Proof. intros Hv. unfold data_int. by rewrite Hr, Hv. Qed.
Lemma read_optional_float o : dict_get key m = Some (opt_float_json o) -> data_optional_float data key = Ok o.
Proof. intros Hv. unfold data_optional_float. rewrite Hr, Hv. by destruct o. Qed.
Lemma read_str_list l : dict_get key m = Some (json_strs l) -> data_str_list data key = Ok l.
Proof.
  intros Hv. unfold data_str_list. rewrite Hr, Hv.
  assert (Hc : canon (json_strs l) = json_strs l).
  { unfold json_strs. cbn [canon]. f_equal. rewrite map_map. by apply map_ext. }
  cbn [fmap option_fmap option_map default]. rewrite Hc. unfold json_strs, id.
  assert (He : mapM json_str (map JStr l) = Some l).
  { clear Hv Hc. induction l as [|x l IH]; [done|]. cbn. by rewrite IH. }
  by rewrite He.
Qed.
Lemma read_id s : dict_get key m = Some (JStr s) -> valid_identifier s -> data_id data key = Ok s.
Proof. intros Hv Hs. unfold data_id. by rewrite (read_str s Hv). Qed.
Lemma read_enum `{PyEnum A} (x : A) : dict_get key m = Some (JStr (enum_value x)) -> data_enum A data key = Ok x.
Proof. intros Hv. unfold data_enum. rewrite (read_str _ Hv). apply enum_of_value_of. Qed.
Lemma read_digest d : dict_get key m = Some (JStr (digest_str d)) -> wf_digest d ->
  decode_digest (data_get data key) = Ok d.
Proof. intros Hv Hd. rewrite (read_get _ Hv). by apply digest_of_str_str. Qed.
Lemma decode_iso d : tz_aware d = true -> decode_datetime (JStr (isoformat d)) = Ok d.
Proof. destruct d as [us|]; [|done]. intros _. cbn. by rewrite fromisoformat_isoformat. Qed.
Lemma read_datetime d : dict_get key m = Some (JStr (isoformat d)) -> tz_aware d = true ->
  decode_datetime (data_get data key) = Ok d.
Proof. intros Hv Hd. rewrite (read_get _ Hv). by apply decode_iso. Qed.
Lemma read_optional_datetime o : dict_get key m = Some (optional_datetime_out o) ->
  from_option tz_aware true o = true -> decode_optional_datetime (data_get data key) = Ok o.
Proof.
  intros Hv Hd. rewrite (read_get _ Hv). destruct o as [d|]; [|done]. cbn [optional_datetime_out from_option canon].
  unfold decode_optional_datetime. by rewrite decode_iso.
Qed.
Lemma read_optional_enum `{PyEnum A} (o : option A) : dict_get key m = Some (opt_enum_json o) ->
  optional_enum A (data_get data key) = Ok o.
Proof. intros Hv. rewrite (read_get _ Hv). destruct o as [x|]; [|done]. cbn. by rewrite enum_of_value_of. Qed.
Lemma read_optional_id o : dict_get key m = Some (opt_str o) -> from_option valid_identifier True o ->
  optional_id (data_get data key) = Ok o.
Proof.
  intros Hv Ho. rewrite (read_get _ Hv). destruct o as [x|]; [|done]. cbn in *.
  unfold valid_identifier in Ho. by rewrite Ho.
Qed.
Lemma read_mapping d0 d : dict_get key m = Some (JObj d) -> data_mapping data key d0 = Ok (canon_items d).
Proof. intros Hv. unfold data_mapping. by rewrite Hr, Hv. Qed.
Lemma read_optional_mapping {A} (f : A -> list (string * json)) o : dict_get key m = Some (opt_mapping_json f o) ->
  optional_mapping (data_get data key) = Ok ((fun x => canon_items (f x)) <$> o).
Proof. intros Hv. rewrite (read_get _ Hv). by destruct o. Qed.
End One.
Lemma identifiers_decode l : Forall valid_identifier l -> mapM_result mk_identifier l = Ok l.
Proof. induction 1 as [|x l Hx _ IH]; [done|]. cbn. unfold valid_identifier in Hx. by rewrite Hx, IH. Qed.
Lemma unwrap_items v data : unwrap_envelope (canon_items (envelope v data)) v = Ok (canon_items data).
Proof. apply unwrap_canon. by rewrite canon_obj. Qed.
End Fields.

Lemma raise_if_unit b e : raise_if b e = Ok () <-> b = false.
Proof. by destruct b. Qed.
(** Literal keys. *)
Ltac literal_keys := solve [apply (bool_decide_unpack _); vm_compute; exact I].
(** The next field of a decoder. *)
Ltac read_field :=
  match goal with
  | |- mbind _ (data_id _ _) = _ => erewrite read_id; [|eassumption|reflexivity|eassumption]
  | |- mbind _ (data_str _ _) = _ => erewrite read_str; [|eassumption|reflexivity]
  | |- mbind _ (data_optional_str _ _) = _ => erewrite read_optional_str; [|eassumption|reflexivity]
  | |- mbind _ (data_int _ _) = _ => erewrite read_int; [|eassumption|reflexivity]
  | |- mbind _ (data_optional_float _ _) = _ => erewrite read_optional_float; [|eassumption|reflexivity]
  | |- mbind _ (data_str_list _ _) = _ => erewrite read_str_list; [|eassumption|reflexivity]
  | |- mbind _ (data_enum _ _ _) = _ => erewrite read_enum; [|eassumption|reflexivity]
  | |- mbind _ (decode_digest _) = _ => erewrite read_digest; [|eassumption|reflexivity|eassumption]
  | |- mbind _ (decode_datetime _) = _ => erewrite read_datetime; [|eassumption|reflexivity|eassumption]
  | |- mbind _ (decode_optional_datetime _) = _ =>
      erewrite read_optional_datetime; [|eassumption|reflexivity|eassumption]
  | |- mbind _ (optional_enum _ _) = _ => erewrite read_optional_enum; [|eassumption|reflexivity]
  | |- mbind _ (optional_id _) = _ => erewrite read_optional_id; [|eassumption|reflexivity|eassumption]
  | |- mbind _ (data_mapping _ _ _) = _ => erewrite read_mapping; [|eassumption|reflexivity]
  | |- mbind _ (optional_mapping _) = _ => erewrite read_optional_mapping; [|eassumption|reflexivity]
  | |- mbind _ (mapM_result mk_identifier _) = _ => rewrite identifiers_decode by eassumption
  end; cbn [mbind result_bind].
Ltac read_record := repeat read_field.

Section Records.
Context `{iso : IsoCodec} `{pv : PyValues}.

(** ** Constructed records *)
Definition wf_work_item (w : WorkItem) : Prop :=
  valid_identifier (wi_id w) /\ Forall valid_identifier (wi_dependencies w) /\ work_item_post_init w = Ok w.
Lemma work_item_stored w : wf_work_item w -> work_item_from_dict (canon_items (work_item_to_dict w)) = Ok w.
Proof.
  intros (Hid & Hdeps & Hw). unfold work_item_from_dict, work_item_to_dict. rewrite unwrap_items. cbn [mbind result_bind].
  assert (Hr : reads_as (canon_items (work_item_data w)) (work_item_data w)) by (apply canon_reads; literal_keys).
  unfold work_item_of_data. read_record. by destruct w.
Qed.

Definition run_sorted (r : Run) : Run := {|
  run_id := run_id r; run_work_item_id := run_work_item_id r;
  run_work_item_snapshot_digest := run_work_item_snapshot_digest r;
  run_workflow_definition_id := run_workflow_definition_id r;
  run_workflow_definition_digest := run_workflow_definition_digest r; run_repository := run_repository r;
  run_base_revision := run_base_revision r; run_policy_set_version := run_policy_set_version r;
  run_adapter_versions := merge_sort key_le (run_adapter_versions r);
  run_adapter_fingerprints := merge_sort key_le (run_adapter_fingerprints r);
  run_capability_lock_digest := run_capability_lock_digest r;
  run_environment_manifest_digest := run_environment_manifest_digest r;
  run_configuration_snapshot_digest := run_configuration_snapshot_digest r; run_state := run_state r;
  run_aggregate_version := run_aggregate_version r |}.
Record wf_run (r : Run) : Prop := {
  wr_id : valid_identifier (run_id r);
  wr_item : valid_identifier (run_work_item_id r);
  wr_workflow : valid_identifier (run_workflow_definition_id r);
  wr_snapshot : wf_digest (run_work_item_snapshot_digest r);
  wr_definition : wf_digest (run_workflow_definition_digest r);
  wr_lock : wf_digest (run_capability_lock_digest r);
  wr_environment : wf_digest (run_environment_manifest_digest r);
  wr_configuration : wf_digest (run_configuration_snapshot_digest r);
  wr_versions : NoDup (run_adapter_versions r).*1;
  wr_fingerprints : NoDup (run_adapter_fingerprints r).*1;
  wr_fingerprint : Forall (fun kv => wf_digest kv.2) (run_adapter_fingerprints r);
  wr_init : run_post_init r = Ok r;
}.
Lemma fingerprints_decode (l : list (string * Digest)) : Forall (fun kv => wf_digest kv.2) l ->
  mapM_result (fun '(adapter, f) => d ← decode_digest f; Ok (adapter, d))
    (map (fun kv => (kv.1, JStr (digest_str kv.2))) l) = Ok l.
Proof.
  induction 1 as [|[k d] l Hd _ IH]; [done|]. cbn. by rewrite digest_of_str_str, IH.
Qed.
Lemma existsb_perm {A} (f : A -> bool) l k : l ≡ₚ k -> existsb f l = existsb f k.
Proof.
  induction 1 as [|x l k _ IH|x y l|l k m _ IH1 _ IH2]; cbn; [done|by rewrite IH| |by rewrite IH1].
  by destruct (f x), (f y).
Qed.
Lemma run_sorted_init r : wf_run r -> run_post_init (run_sorted r) = Ok (run_sorted r).
Proof.
  intros [_ _ _ _ _ _ _ _ _ _ _ H]. revert H. unfold run_post_init. cbn [run_sorted run_repository run_base_revision
    run_policy_set_version run_aggregate_version run_adapter_versions run_adapter_fingerprints].
  rewrite (existsb_perm _ (merge_sort key_le (run_adapter_versions r)) _ (merge_sort_Permutation _ _)).
  rewrite (existsb_perm _ (merge_sort key_le (run_adapter_fingerprints r)) _ (merge_sort_Permutation _ _)).
  repeat (match goal with |- context [mbind _ (require_non_blank ?x)] =>
    destruct (require_non_blank x) as [[]|]; [cbn [mbind result_bind]|done] end).
  by repeat (match goal with |- context [raise_if ?b _] => destruct b; [done|cbn [raise_if mbind result_bind]] end).
Qed.
Lemma run_stored r : wf_run r -> same_adapters r = true -> exists d, run_to_dict r = Ok d /\
  run_from_dict (canon_items d) = Ok (run_sorted r).
Proof.
  intros Hwf Ha. pose proof (run_sorted_init r Hwf) as Hinit. destruct Hwf. unfold run_to_dict. rewrite Ha.
  eexists. split; [reflexivity|]. unfold run_from_dict.
  assert (Hr : reads_as (canon_items (run_data r)) (run_data r)) by (apply canon_reads; literal_keys).
  change (canon_items (envelope RUN_SCHEMA_VERSION (run_data r))) with
    [("data", canon (JObj (run_data r))); ("schema_version", JInt RUN_SCHEMA_VERSION)].
  cbn -[canon run_of_data]. rewrite canon_obj. unfold run_of_data.
  rewrite (read_get _ (run_data r) "adapter_versions" Hr _ eq_refl), canon_dict by done.
  cbn [mbind result_bind].
  assert (Hf : data_mapping (canon_items (run_data r)) "adapter_fingerprints" (JObj []) =
    Ok (map (fun kv => (kv.1, JStr (digest_str kv.2))) (merge_sort key_le (run_adapter_fingerprints r)))).
  { erewrite read_mapping; [|eassumption|reflexivity].
    pose proof (canon_dict (fun d => JStr (digest_str d)) _ wr_fingerprints0) as Hc. rewrite canon_obj in Hc.
    by injection Hc as ->. }
  rewrite Hf. cbn [mbind result_bind]. read_record.
  rewrite fingerprints_decode by (by rewrite merge_sort_Permutation). cbn [mbind result_bind]. read_record.
  rewrite map_map. cbn [fst snd]. rewrite <- Hinit. unfold run_sorted. do 2 f_equal.
  rewrite <- (map_id (merge_sort key_le (run_adapter_versions r))) at 2. apply map_ext. intros [k v]. cbn.
  by rewrite str_of_str.
Qed.
Definition wf_node_attempt (a : NodeAttempt) : Prop :=
  Forall valid_identifier [na_id a; na_run_id a; na_node_id a] /\ Forall valid_identifier (na_output_artifact_ids a) /\
  wf_digest (na_input_digest a) /\ node_attempt_post_init a = Ok a.
Lemma node_attempt_stored a : wf_node_attempt a ->
  node_attempt_from_dict (canon_items (node_attempt_to_dict a)) = Ok a.
Proof.
  intros (Hids & Hart & Hd & Ha). rewrite !Forall_cons in Hids. destruct Hids as (Hi & Hru & Hno & _).
  unfold node_attempt_from_dict, node_attempt_to_dict. rewrite unwrap_items. cbn [mbind result_bind].
  assert (Hr : reads_as (canon_items (node_attempt_data a)) (node_attempt_data a)) by (apply canon_reads; literal_keys).
  assert (Haware : from_option tz_aware true (na_lease_expires_at a) = true /\
    from_option tz_aware true (na_started_at a) = true /\ from_option tz_aware true (na_completed_at a) = true).
  { revert Ha. unfold node_attempt_post_init, require_aware_opt. rewrite !bind_unit_Ok, !raise_if_unit.
    rewrite !negb_false_iff. tauto. }
  destruct Haware as (A1 & A2 & A3). unfold node_attempt_of_data.
  rewrite (read_get _ (node_attempt_data a) "emitted_event_range" Hr _ eq_refl).
  assert (He : forall {B} (f : option (Z * Z) -> result B),
    mbind f (match canon (from_option (fun '(s, e) => JList [JInt s; JInt e]) JNull (na_emitted_event_range a)) with
             | JNull => Ok None
             | JList [s; e] => s ← int_of_json s; e ← int_of_json e; Ok (Some (s, e))
             | _ => Err InvalidInputError end) = f (na_emitted_event_range a)).
  { intros B f. by destruct (na_emitted_event_range a) as [[s e]|]. }
  rewrite He. read_record. by destruct a.
Qed.
Definition wf_artifact (a : Artifact) : Prop :=
  Forall valid_identifier [af_id a; af_run_id a; af_node_id a; af_attempt_id a] /\ wf_digest (af_digest a) /\
  artifact_post_init a = Ok a.
Lemma artifact_stored a : wf_artifact a -> artifact_from_dict (canon_items (artifact_to_dict a)) = Ok a.
Proof.
  intros (Hids & Hd & Ha). rewrite !Forall_cons in Hids. destruct Hids as (Hi & Hru & Hno & Hat & _).
  unfold artifact_from_dict, artifact_to_dict. rewrite unwrap_items. cbn [mbind result_bind].
  assert (Hr : reads_as (canon_items (artifact_data a)) (artifact_data a)) by (apply canon_reads; literal_keys).
  assert (Haware : tz_aware (af_created_at a) = true).
  { revert Ha. unfold artifact_post_init. rewrite !raise_if_Ok, negb_false_iff. naive_solver. }
  unfold artifact_of_data. read_record. by destruct a.
Qed.
Definition decision_canon (d : RecordedDecision) : RecordedDecision := {|
  rd_decision := let p := rd_decision d in {|
    pd_id := pd_id p; pd_action := pd_action p; pd_normalized_inputs := canon_items (pd_normalized_inputs p);
    pd_policy_rule_id := pd_policy_rule_id p; pd_policy_version := pd_policy_version p; pd_result := pd_result p;
    pd_rationale := pd_rationale p; pd_input_digest := pd_input_digest p; pd_decided_at := pd_decided_at p |};
  rd_required_evidence := rd_required_evidence d; rd_required_approver := rd_required_approver d;
  rd_superseded := rd_superseded d; rd_superseded_by := rd_superseded_by d |}.
Definition wf_decision (d : RecordedDecision) : Prop :=
  valid_identifier (pd_id (rd_decision d)) /\ wf_digest (pd_input_digest (rd_decision d)) /\
  from_option valid_identifier True (rd_superseded_by d) /\ recorded_decision_post_init d = Ok d.
Lemma decision_stored d : wf_decision d ->
  policy_decision_from_dict (canon_items (policy_decision_to_dict d)) = Ok (decision_canon d).
Proof.
  intros (Hi & Hdg & Hby & Hd). unfold policy_decision_from_dict, policy_decision_to_dict. rewrite unwrap_items.
  cbn [mbind result_bind].
  assert (Hr : reads_as (canon_items (policy_decision_data d)) (policy_decision_data d)) by (apply canon_reads; literal_keys).
  unfold recorded_decision_post_init, policy_decision_post_init in Hd. apply bind_Ok in Hd as (p & Hp & Hs).
  rewrite !raise_if_Ok in Hp. destruct Hp as (P1 & P2 & P3 & P4 & _). pose proof P4 as Haware.
  apply negb_false_iff in Haware. rewrite raise_if_Ok in Hs. destruct Hs as [Hs _].
  unfold policy_decision_of_data. rewrite (read_get _ (policy_decision_data d) "normalized_inputs" Hr _ eq_refl), canon_obj.
  cbn [mbind result_bind]. read_record.
  assert (Ht : default (JBool false) (dict_get "superseded" (canon_items (policy_decision_data d))) = JBool (rd_superseded d)).
  { by rewrite Hr. }
  rewrite Ht. unfold recorded_decision_post_init, policy_decision_post_init. cbn -[canon_items].
  rewrite P1, P2, P3, P4. cbn -[canon_items]. rewrite Hs. done.
Qed.
Definition intervention_canon (i : Intervention) : Intervention := {|
  iv_id := iv_id i; iv_kind := iv_kind i; iv_run_id := iv_run_id i; iv_actor := iv_actor i;
  iv_occurred_at := iv_occurred_at i; iv_rationale := iv_rationale i; iv_detail := canon_items (iv_detail i) |}.
Definition wf_intervention (i : Intervention) : Prop :=
  valid_identifier (iv_id i) /\ valid_identifier (iv_run_id i) /\ intervention_post_init i = Ok i.
Lemma intervention_stored i : wf_intervention i ->
  intervention_from_dict (canon_items (intervention_to_dict i)) = Ok (intervention_canon i).
Proof.
  intros (Hi & Hru & Hd). unfold intervention_from_dict, intervention_to_dict. rewrite unwrap_items. cbn [mbind result_bind].
  assert (Hr : reads_as (canon_items (intervention_data i)) (intervention_data i)) by (apply canon_reads; literal_keys).
  unfold intervention_post_init in Hd. rewrite !raise_if_Ok in Hd. destruct Hd as (P1 & P2 & P3 & _).
  pose proof P3 as Haware. apply negb_false_iff in Haware.
  unfold intervention_of_data. read_record. unfold intervention_post_init. cbn -[canon_items]. by rewrite P1, P2, P3.
Qed.
Definition outcome_canon (o : Outcome) : Outcome := {|
  oc_id := oc_id o; oc_work_item_id := oc_work_item_id o; oc_kind := oc_kind o; oc_observed_at := oc_observed_at o;
  oc_run_id := oc_run_id o; oc_linked_work_item_id := oc_linked_work_item_id o;
  oc_detail := canon_items (oc_detail o); oc_schema_version := oc_schema_version o |}.
Definition wf_outcome (o : Outcome) : Prop :=
  valid_identifier (oc_id o) /\ valid_identifier (oc_work_item_id o) /\ from_option valid_identifier True (oc_run_id o) /\
  from_option valid_identifier True (oc_linked_work_item_id o) /\ outcome_post_init o = Ok o.
Lemma outcome_stored o : wf_outcome o -> outcome_from_dict (canon_items (outcome_to_dict o)) = Ok (outcome_canon o).
Proof.
  intros (Hi & Hw & Hru & Hl & Hd). unfold outcome_from_dict, outcome_to_dict. rewrite unwrap_items. cbn [mbind result_bind].
  assert (Hr : reads_as (canon_items (outcome_data o)) (outcome_data o)) by (apply canon_reads; literal_keys).
  unfold outcome_post_init in Hd. rewrite !raise_if_Ok in Hd. destruct Hd as (P1 & P2 & P3 & P4 & P5 & _).
  pose proof P1 as Haware. apply negb_false_iff in Haware.
  unfold outcome_of_data. read_record. unfold outcome_post_init. cbn -[canon_items KINDS_REQUIRING_LINKED_WORK_ITEM].
  by rewrite P1, P2, P3, P4, P5.
Qed.

Definition observation_canon (o : ObservationRequest) : ObservationRequest := {|
  obs_id := obs_id o; obs_work_item_id := obs_work_item_id o; obs_run_id := obs_run_id o; obs_kind := obs_kind o;
  obs_opened_at := obs_opened_at o; obs_window := obs_window o; obs_state := obs_state o;
  obs_resolved_at := obs_resolved_at o; obs_outcome_id := obs_outcome_id o;
  obs_detail := canon_items (obs_detail o); obs_schema_version := obs_schema_version o |}.
(** The window within the range in which float seconds are exact. *)
Definition wf_observation (o : ObservationRequest) : Prop :=
  Forall valid_identifier [obs_id o; obs_work_item_id o; obs_run_id o] /\
  from_option valid_identifier True (obs_outcome_id o) /\ (obs_window o <= EXACT_SECONDS)%Z /\
  observation_post_init o = Ok o.
Lemma observation_init_facts o : observation_post_init o = Ok o ->
  tz_aware (obs_opened_at o) = true /\ (0 < obs_window o)%Z /\
  from_option tz_aware true (obs_resolved_at o) = true /\ observation_post_init (observation_canon o) = Ok (observation_canon o).
Proof.
  unfold observation_post_init. rewrite !raise_if_Ok, negb_false_iff, Z.leb_gt. intros (H1 & H2 & H).
  apply bind_Ok in H as (u & Hu & H). rewrite !raise_if_Ok in H. destruct H as (H3 & H4 & H5 & _).
  split; [done|]. split; [done|]. split.
  - destruct (obs_resolved_at o) as [d|]; [|done]. destruct (obs_state o); [done|..].
    all: revert Hu; rewrite raise_if_Ok, negb_false_iff; by intros [? _].
  - cbn -[canon_items]. rewrite H1. cbn -[canon_items]. rewrite (proj2 (Z.leb_gt _ _) H2). cbn -[canon_items].
    rewrite Hu. cbn -[canon_items]. by rewrite H3, H4, H5.
Qed.
Lemma observation_stored o : wf_observation o ->
  observation_from_dict (canon_items (observation_to_dict o)) = Ok (observation_canon o).
Proof.
  intros (Hids & Hoc & Hw & Hd). rewrite !Forall_cons in Hids. destruct Hids as (Hi & Hwi & Hru & _).
  destruct (observation_init_facts o Hd) as (A1 & A2 & A3 & Hc).
  unfold observation_from_dict, observation_to_dict. rewrite unwrap_items. cbn [mbind result_bind].
  assert (Hr : reads_as (canon_items (observation_data o)) (observation_data o)) by (apply canon_reads; literal_keys).
  unfold observation_of_data. read_field.
  rewrite (read_get _ (observation_data o) "window_seconds" Hr _ eq_refl).
  cbn [canon raise_if mbind result_bind]. read_record. cbn [window_of_json]. rewrite delta_of_total_seconds by lia. cbn [mbind result_bind]. read_record.
  rewrite <- Hc. done.
Qed.
Definition change_canon (c : FactoryChange) : FactoryChange := {|
  fc_id := fc_id c; fc_affected_asset := fc_affected_asset c; fc_baseline_version := fc_baseline_version c;
  fc_problem_statement := fc_problem_statement c; fc_hypothesis := fc_hypothesis c;
  fc_candidate_version := fc_candidate_version c; fc_state := fc_state c;
  fc_evaluation_set_digest := fc_evaluation_set_digest c;
  fc_comparison_result := canon_items <$> fc_comparison_result c; fc_approval_state := fc_approval_state c;
  fc_canary_cohort := fc_canary_cohort c; fc_promotion_result := fc_promotion_result c;
  fc_aggregate_version := fc_aggregate_version c |}.
Definition wf_change (c : FactoryChange) : Prop :=
  valid_identifier (fc_id c) /\ factory_change_post_init c = Ok c.
Lemma change_stored c : wf_change c ->
  factory_change_from_dict (canon_items (factory_change_to_dict c)) = Ok (change_canon c).
Proof.
  intros (Hi & Hd). unfold factory_change_from_dict, factory_change_to_dict. rewrite unwrap_items. cbn [mbind result_bind].
  assert (Hr : reads_as (canon_items (factory_change_data c)) (factory_change_data c)) by (apply canon_reads; literal_keys).
  unfold factory_change_of_data. rewrite (read_get _ (factory_change_data c) "comparison_result" Hr _ eq_refl).
  assert (Ho : optional_mapping (canon (from_option JObj JNull (fc_comparison_result c))) = Ok (canon_items <$> fc_comparison_result c))
    by by destruct (fc_comparison_result c).
  rewrite Ho. cbn [mbind result_bind]. read_record.
  revert Hd. unfold factory_change_post_init. rewrite !bind_unit_Ok, !raise_if_unit. tauto.
Qed.
(** The parts of an incident are constructed values too. *)
Definition wf_incident (i : Incident) : Prop :=
  valid_identifier (inc_id i) /\ valid_identifier (inc_work_item_id i) /\
  from_option (fun l => release_lineage_post_init l = Ok l) True (inc_release_lineage i) /\
  from_option (fun a => containment_action_post_init a = Ok a) True (inc_containment i) /\
  from_option (fun r => reproduction_record_post_init r = Ok r) True (inc_reproduction i) /\
  incident_post_init i = Ok i.
Lemma part_stored {A} (f : A -> list (string * json)) (g : list (string * json) -> result A) o :
  (forall x, o = Some x -> g (canon_items (f x)) = Ok x) ->
  optional_part g ((fun x => canon_items (f x)) <$> o) = Ok o.
Proof. intros H. destruct o as [x|]; [|done]. cbn -[canon_items]. by rewrite H. Qed.
Lemma incident_stored i : wf_incident i -> incident_from_dict (canon_items (incident_to_dict i)) = Ok i.
Proof.
  intros (Hi & Hw & Hl & Ha & Hp & Hd). unfold incident_from_dict, incident_to_dict. rewrite unwrap_items.
  cbn [mbind result_bind].
  assert (Hr : reads_as (canon_items (incident_data i)) (incident_data i)) by (apply canon_reads; literal_keys).
  unfold incident_of_data. read_record. rewrite !part_stored; cbn [mbind result_bind].
  - read_record. by destruct i.
  - intros l Hl'. rewrite Hl' in Hl. cbn in Hl.
    assert (Hx : reads_as (canon_items (release_lineage_to_dict l)) (release_lineage_to_dict l)) by (apply canon_reads; literal_keys).
    unfold release_lineage_from_dict. read_record. by destruct l.
  - intros a Ha'. rewrite Ha' in Ha. cbn in Ha.
    assert (Hx : reads_as (canon_items (containment_to_dict a)) (containment_to_dict a)) by (apply canon_reads; literal_keys).
    unfold containment_from_dict. read_record. by destruct a.
  - intros r Hr'. rewrite Hr' in Hp. cbn in Hp.
    assert (Hx : reads_as (canon_items (reproduction_to_dict r)) (reproduction_to_dict r)) by (apply canon_reads; literal_keys).
    unfold reproduction_from_dict. read_record. by destruct r.
Qed.
End Records.

(** ** All records at once *)
Inductive DomainRecord :=
| DrWorkItem (w : WorkItem) | DrRun (r : Run) | DrNodeAttempt (a : NodeAttempt) | DrArtifact (a : Artifact)
| DrDecision (d : RecordedDecision) | DrIntervention (i : Intervention) | DrOutcome (o : Outcome)
| DrObservation (o : ObservationRequest) | DrFactoryChange (c : FactoryChange) | DrIncident (i : Incident).
(** A record of the type of [x], from a stored dictionary. *)
Definition record_from_dict `{IsoCodec} `{PyValues} (x : DomainRecord) (raw : list (string * json))
    : result DomainRecord :=
  match x with
  | DrWorkItem _ => w ← work_item_from_dict raw; Ok (DrWorkItem w)
  | DrRun _ => r ← run_from_dict raw; Ok (DrRun r)
  | DrNodeAttempt _ => a ← node_attempt_from_dict raw; Ok (DrNodeAttempt a)
  | DrArtifact _ => a ← artifact_from_dict raw; Ok (DrArtifact a)
  | DrDecision _ => d ← policy_decision_from_dict raw; Ok (DrDecision d)
  | DrIntervention _ => i ← intervention_from_dict raw; Ok (DrIntervention i)
  | DrOutcome _ => o ← outcome_from_dict raw; Ok (DrOutcome o)
  | DrObservation _ => o ← observation_from_dict raw; Ok (DrObservation o)
  | DrFactoryChange _ => c ← factory_change_from_dict raw; Ok (DrFactoryChange c)
  | DrIncident _ => i ← incident_from_dict raw; Ok (DrIncident i)
  end.
Definition record_to_dict `{IsoCodec} `{PyValues} (x : DomainRecord) : result (list (string * json)) :=
  match x with
  | DrWorkItem w => Ok (work_item_to_dict w)
  | DrRun r => run_to_dict r
  | DrNodeAttempt a => Ok (node_attempt_to_dict a)
  | DrArtifact a => Ok (artifact_to_dict a)
  | DrDecision d => Ok (policy_decision_to_dict d)
  | DrIntervention i => Ok (intervention_to_dict i)
  | DrOutcome o => Ok (outcome_to_dict o)
  | DrObservation o => Ok (observation_to_dict o)
  | DrFactoryChange c => Ok (factory_change_to_dict c)
  | DrIncident i => Ok (incident_to_dict i)
  end.
Definition wf_record (x : DomainRecord) : Prop :=
  match x with
  | DrWorkItem w => wf_work_item w | DrRun r => wf_run r | DrNodeAttempt a => wf_node_attempt a
  | DrArtifact a => wf_artifact a | DrDecision d => wf_decision d | DrIntervention i => wf_intervention i
  | DrOutcome o => wf_outcome o | DrObservation o => wf_observation o | DrFactoryChange c => wf_change c
  | DrIncident i => wf_incident i
  end.
(** Free-form mappings in canonical form, adapters in name order. *)
Definition canon_record (x : DomainRecord) : DomainRecord :=
  match x with
  | DrRun r => DrRun (run_sorted r) | DrDecision d => DrDecision (decision_canon d)
  | DrIntervention i => DrIntervention (intervention_canon i) | DrOutcome o => DrOutcome (outcome_canon o)
  | DrObservation o => DrObservation (observation_canon o) | DrFactoryChange c => DrFactoryChange (change_canon c)
  | x => x
  end.
Definition record_versions (x : DomainRecord) : list Z := match x with DrRun _ => [1; 2]%Z | _ => [1%Z] end.

(** A run that binds the version of an adapter without its fingerprint, or the reverse, is a
    run the constructor accepts and no envelope holds. *)
Definition bound_adapters (x : DomainRecord) : bool := match x with DrRun r => same_adapters r | _ => true end.
(** C30: every domain record that its constructor accepts, of valid identifiers and digests,
    survives storage, with two exceptions: writing it, bringing the envelope into the
    ledger's canonical form and reading it back gives the same record, with its free-form
    mappings in canonical form and its adapters in name order.  The exceptions are the run
    whose adapter versions and fingerprints name different adapters, which is refused when
    it is written, and the observation with a window of more than 270 years, where seconds
    as a float are not exact.  An envelope of an unsupported schema version is refused,
    whatever its data. *)
Theorem record_codecs_roundtrip `{iso : IsoCodec} `{pv : PyValues} x : wf_record x ->
  (bound_adapters x = true ->
     exists d, record_to_dict x = Ok d /\ record_from_dict x (canon_items d) = Ok (canon_record x)) /\
  (bound_adapters x = false -> record_to_dict x = Err InvalidInputError) /\
  forall v data, v ∉ record_versions x -> record_from_dict x (envelope v data) = Err InvalidInputError.
Proof.
  intros Hx. split_and!.
  - intros Ha. destruct x; cbn [wf_record record_to_dict record_from_dict canon_record bound_adapters] in *.
    2: { destruct (run_stored r Hx Ha) as (d & Hd & Hr). exists d. by rewrite Hr. }
    all: eexists; (split; [reflexivity|]).
    all: by rewrite ?work_item_stored, ?node_attempt_stored, ?artifact_stored, ?decision_stored,
      ?intervention_stored, ?outcome_stored, ?observation_stored, ?change_stored, ?incident_stored.
  - destruct x; try done. cbn [bound_adapters record_to_dict]. unfold run_to_dict. by intros ->.
  - intros v data Hv. destruct x; cbn [record_versions] in Hv; cbn [record_from_dict].
    2: { unfold run_from_dict. cbn. assert (H1 : (v =? 1)%Z = false) by (apply Z.eqb_neq; set_solver).
         assert (H2 : (v =? RUN_SCHEMA_VERSION)%Z = false) by (apply Z.eqb_neq; unfold RUN_SCHEMA_VERSION; set_solver).
         by rewrite H1, H2. }
    all: assert (H1 : (v =? 1)%Z = false) by (apply Z.eqb_neq; set_solver).
    all: unfold work_item_from_dict, node_attempt_from_dict, artifact_from_dict, policy_decision_from_dict,
      intervention_from_dict, outcome_from_dict, observation_from_dict, factory_change_from_dict,
      incident_from_dict, unwrap_envelope; cbn -[Z.eqb].
    all: match goal with |- context [(_ =? ?n)%Z] => change n with 1%Z; by rewrite H1 end.
Qed.

Module Demo.
#[local] Existing Instance toy_iso.
(** Microseconds as the mantissa. *)
Definition toy_str (j : json) : string := match j with JStr s => s | _ => "value" end.
Definition toy_seconds (w : timedelta) : spec_float :=
  match w with Z0 => S754_zero false | Zpos p => S754_finite false p 0 | Zneg p => S754_finite true p 0 end.
Lemma toy_seconds_exact w : (0 <= w <= EXACT_SECONDS)%Z -> trunc_float (toy_seconds w) = Ok w.
Proof. intros [Hw _]. destruct w as [|p|p]; [done| |lia]. cbn. f_equal. lia. Qed.
Definition toy_values : PyValues := {|
  str_of := toy_str; str_of_str := fun s => eq_refl; total_seconds := toy_seconds; delta_of_seconds := trunc_float;
  delta_of_total_seconds := toy_seconds_exact |}.
#[local] Existing Instance toy_values.
Definition sample_outcome : Outcome := {|
  oc_id := "outcome-1"; oc_work_item_id := "item-1"; oc_kind := OUT_REOPENED_ISSUE; oc_observed_at := Aware 7;
  oc_run_id := Some "run-1"; oc_linked_work_item_id := Some "item-2";
  oc_detail := [("number", JInt 4); ("body", JStr "again")]; oc_schema_version := 1 |}.
Definition zeros : Digest := {| algorithm := "sha256"; hex_value := of_chars (repeat (Ascii.ascii_of_nat 48) 64) |}.
Definition sample_run (fingerprints : list (string * Digest)) : Run := {|
  run_id := "run-1"; run_work_item_id := "item-1"; run_work_item_snapshot_digest := zeros;
  run_workflow_definition_id := "stage1"; run_workflow_definition_digest := zeros; run_repository := "owner/repo";
  run_base_revision := "abc"; run_policy_set_version := "1"; run_adapter_versions := [("github", "1")];
  run_adapter_fingerprints := fingerprints; run_capability_lock_digest := zeros; run_environment_manifest_digest := zeros;
  run_configuration_snapshot_digest := zeros; run_state := RUN_CREATED; run_aggregate_version := 0 |}.
Lemma sample_run_accepted l : NoDup l.*1 -> Forall (fun kv => wf_digest kv.2) l ->
  run_post_init (sample_run l) = Ok (sample_run l) -> wf_record (DrRun (sample_run l)).
Proof. intros Hk Hd Hr. split; cbn; try (by vm_compute); try done. by repeat constructor; set_solver. Qed.
Lemma record_codecs_roundtrip_witness :
  record_from_dict (DrOutcome sample_outcome) (canon_items (outcome_to_dict sample_outcome)) =
    Ok (DrOutcome (outcome_canon sample_outcome)) /\
  oc_detail (outcome_canon sample_outcome) = [("body", JStr "again"); ("number", JInt 4)] /\
  run_to_dict (sample_run []) = Err InvalidInputError.
Proof.
  assert (Hwf : wf_record (DrOutcome sample_outcome)) by (cbn; split_and!; vm_compute; reflexivity).
  destruct (record_codecs_roundtrip (DrOutcome sample_outcome) Hwf) as (Hs & _).
  destruct (Hs eq_refl) as (d & Hd & Hr). cbn [record_to_dict] in Hd. injection Hd as <-.
  split; [exact Hr|]. split; [vm_compute; reflexivity|].
  assert (Hrun : wf_record (DrRun (sample_run [])))
    by (apply sample_run_accepted; [constructor|constructor|vm_compute; reflexivity]).
  destruct (record_codecs_roundtrip (DrRun (sample_run [])) Hrun) as (_ & Hn & _). exact (Hn eq_refl).
Defined.
End Demo.
