(* ===== verification/HumanDecisions.v ===== *)
(** * Human decisions ([application/human_decisions.py], [policy/human_decisions.py],
      [domain/policy_decision.py]'s attestation)

    Terminal identities, the canonical inputs of a decision, the decision value and the
    verifier that asks the approval registry.  The process's user id ([os.getuid]) and
    fresh identifiers are arguments. *)
From S2P Require Import Prelude PyText Json Identity Lifecycles Aggregates Evidence Policy Regex.
From Stdlib Require Import SpecFloat.

#[export] Instance AuthorityPrincipal_eq_dec : EqDecision AuthorityPrincipal.
Proof. solve_decision. Defined.
#[export] Program Instance PrincipalType_enum : PyEnum PrincipalType := {|
  members := [HUMAN; AGENT; SYSTEM];
  enum_value t := match t with HUMAN => "human" | AGENT => "agent" | SYSTEM => "system" end |}.
Next Obligation. solve_enum. Qed.
Next Obligation. solve_enum. Qed.

(** ** Review authority *)
Record ReviewAuthority := {
  ra_principal_id : string; ra_os_user : string; ra_os_uid : Z; ra_ttl_seconds : Z }.
Definition plain_identity (value : string) : bool :=
  negb (blank value) && String.eqb value (py_strip value) && (py_len value <=? 128)%Z &&
  forallb (fun c => (33 <=? code c) && (code c <=? 126))%N (chars value).
Definition review_authority_post_init (a : ReviewAuthority) : result ReviewAuthority :=
  raise_when negb (plain_identity (ra_principal_id a)) as HumanDecisionError ;;
  raise_when negb (plain_identity (ra_os_user a)) as HumanDecisionError ;;
  raise_when (ra_os_uid a <? 0)%Z as HumanDecisionError ;;
  raise_when negb ((1 <=? ra_ttl_seconds a) && (ra_ttl_seconds a <=? 1800))%Z as HumanDecisionError ;;
  Ok a.
Definition review_principal (a : ReviewAuthority) : AuthorityPrincipal := {|
  ap_id := ra_principal_id a; ap_principal_type := HUMAN; ap_role := "operator";
  ap_authorization_source := "user-preferences" |}.
Definition registered_humans (a : ReviewAuthority) : list AuthorityPrincipal := [review_principal a].

(** ** Authenticated contexts *)
Record AuthenticatedDecisionContext := {
  dc_principal : AuthorityPrincipal; dc_os_uid : Z; dc_tty_name : string }.
Definition authenticate_context (uid : Z) (context : AuthenticatedDecisionContext)
    (humans : list AuthorityPrincipal) : result () :=
  raise_when negb (bool_decide (ap_principal_type (dc_principal context) = HUMAN)) ||
             blank (ap_id (dc_principal context)) ||
             negb (dc_os_uid context =? uid)%Z ||
             negb (py_startswith "/dev/" (dc_tty_name context)) ||
             bool_decide (dc_tty_name context ∈ ["/dev/null"; "/dev/zero"]) ||
             existsb (fun c => (code c <? 32) || (127 <=? code c))%N (chars (dc_tty_name context))
    as AuthenticationError ;;
  raise_when negb (bool_decide (dc_principal context ∈ humans)) as PrincipalMismatchError ;;
  Ok ().

(** ** Actions *)
Definition WAIT_VERBS : list string := ["approve"; "reject"; "requeue"].
Definition wait_pattern (verb : string) : regex :=
  RSeq (RLit "human_wait.") (RSeq (RRep (fun c => is_alnum c || is_one_of "_.-" c) 1 None) (RLit ("." +:+ verb))).
(** [action[len("human_wait."):-len("." + verb)]]: the text of the first group. *)
Definition wait_node (verb action : string) : string :=
  of_chars (take (length (chars action) - 12 - length (chars verb)) (drop 11 (chars action))).
(** [wait_scope]: the node and the verb; a verb holds no dot, so one pattern can match. *)
Definition wait_scope (action : string) : option (string * string) :=
  match List.find (fun verb => regex_fullmatch (wait_pattern verb) action) WAIT_VERBS with
  | Some verb => Some (wait_node verb action, verb)
  | None => None
  end.
Definition policy_action (action : string) : result PolicyAction :=
  match wait_scope action with
  | Some _ => Ok POLICY_OVERRIDE
  | None => enum_of_value action
  end.

(** ** Canonical inputs *)
Definition MAX_DECISION_BYTES : Z := 1024 * 1024.
(** A number [json.dumps(..., allow_nan=False)] refuses. *)
Fixpoint unserializable (j : json) : bool :=
  match j with
  | JFloat S754_nan | JFloat (S754_infinity _) => true
  | JList l => existsb unserializable l
  | JObj m => existsb (fun kv => unserializable kv.2) m
  | _ => false
  end.
Definition checked_time (d : datetime) : result datetime :=
  raise_when negb (tz_aware d) as HumanDecisionError ;; Ok d.

Section Decisions.
Context `{rt : PyRuntime} `{iso : IsoCodec}.

(** The text [bounded_json] returns; it is ASCII, so its length is its number of bytes. *)
Definition bounded_json (value : json) : result string :=
  raise_when unserializable value as PyValueError ;;
  raise_when (MAX_DECISION_BYTES <? py_len (json_dumps value))%Z as HumanDecisionError ;;
  Ok (json_dumps value).
Definition SUBJECT_FIELDS : list string :=
  ["run_id"; "request_digest"; "configuration_snapshot_digest"; "base_revision"; "head_revision";
   "diff_digest"; "evidence_receipt_digests"; "ci_evidence_digest"; "findings"].
(** [d.get(key) == text] *)
Definition get_is (key text : string) (m : list (string * json)) : bool :=
  from_option (fun v => json_eqb v (JStr text)) false (dict_get key m).
(** [subject_digest]; [json.loads(bounded_json(fields))] is the canonical form of [fields]. *)
Definition subject_digest (run_id : string) (fields : list (string * json)) : result string :=
  raise_when blank run_id || negb (get_is "run_id" run_id fields) ||
             existsb (fun k => bool_decide (dict_get k fields = None)) SUBJECT_FIELDS
    as SubjectMismatchError ;;
  _ ← bounded_json (JObj fields);
  digest ← digest_of_json (canon (JObj fields));
  Ok (digest_str digest).

(** ** Attestations ([ApprovalAttestation]) *)
Record ApprovalAttestation := {
  at_action : PolicyAction; at_schema_digest : Digest; at_normalized_inputs : list (string * json);
  at_approvers : list AuthorityPrincipal; at_approved : bool; at_expires_at : option datetime;
  at_superseded : bool }.
Definition attestation_post_init (a : ApprovalAttestation) : result ApprovalAttestation :=
  raise_when bool_decide (at_approvers a = []) as InvalidInputError ;;
  raise_when negb (get_is "action" (enum_value (at_action a)) (at_normalized_inputs a)) as InvalidInputError ;;
  digest ← digest_of_json (JObj (at_normalized_inputs a));
  raise_when negb (bool_decide (digest = at_schema_digest a)) as InvalidInputError ;;
  raise_when from_option (fun d => negb (tz_aware d)) false (at_expires_at a) as InvalidInputError ;;
  Ok a.
Definition attestation_is_current (a : ApprovalAttestation) (reference_time : datetime) : result bool :=
  raise_when negb (tz_aware reference_time) as InvalidInputError ;;
  if negb (at_approved a) || at_superseded a then Ok false
  else match at_expires_at a with
  | None => Ok true
  | Some e => late ← dt_lt e reference_time; Ok (negb late)
  end.
Definition binds_input (a : ApprovalAttestation) (field : string) (value : json) : bool :=
  json_eqb (default JNull (dict_get field (at_normalized_inputs a))) value.
Definition text_items (j : json) : option (list string) :=
  match j with JList l => mapM (fun x => match x with JStr s => Some s | _ => None end) l | _ => None end.
Definition has_independent_human_approval (a : ApprovalAttestation) : bool :=
  match dict_get "requesting_principal_id" (at_normalized_inputs a) with
  | Some (JStr requester) =>
      if String.eqb requester "" then false
      else
        let producers := match dict_get "producer_principal_ids" (at_normalized_inputs a) with
                         | None | Some JNull => Some [] | Some v => text_items v end in
        match producers with
        | None => false
        | Some ids =>
            forallb (fun p => bool_decide (ap_principal_type p = HUMAN) &&
                              negb (bool_decide (ap_id p ∈ requester :: ids))) (at_approvers a)
        end
  | _ => false
  end.

(** ** Decisions *)
Record HumanDecision := {
  hd_id : string; hd_run_id : string; hd_principal : AuthorityPrincipal; hd_action : string;
  hd_subject_digest : string; hd_subject_fields : list (string * json); hd_os_uid : Z;
  hd_tty_name : string; hd_decided_at : datetime; hd_expires_at : datetime;
  hd_schema_digest : Digest; hd_normalized_inputs : list (string * json); hd_reason : string;
  hd_superseded_by : option string }.
Definition human_decision_post_init (d : HumanDecision) : result HumanDecision :=
  _ ← checked_time (hd_decided_at d);
  _ ← checked_time (hd_expires_at d);
  later ← dt_lt (hd_decided_at d) (hd_expires_at d);
  raise_when negb later as HumanDecisionError ;;
  subject ← subject_digest (hd_run_id d) (hd_subject_fields d);
  raise_when negb (String.eqb subject (hd_subject_digest d)) as SubjectMismatchError ;;
  action ← policy_action (hd_action d);
  raise_when negb (get_is "action" (enum_value action) (hd_normalized_inputs d)) as SubjectMismatchError ;;
  raise_when negb (get_is "work_snapshot" (hd_subject_digest d) (hd_normalized_inputs d)) as SubjectMismatchError ;;
  raise_when negb (get_is "target_resource" (hd_run_id d) (hd_normalized_inputs d)) as SubjectMismatchError ;;
  digest ← digest_of_json (JObj (hd_normalized_inputs d));
  raise_when negb (bool_decide (digest = hd_schema_digest d)) as SubjectMismatchError ;;
  _ ← policy_action (hd_action d);
  _ ← bounded_json (JObj (hd_normalized_inputs d));
  _ ← bounded_json (JStr (hd_reason d));
  Ok d.
Definition decision_attestation (d : HumanDecision) : result ApprovalAttestation :=
  action ← policy_action (hd_action d);
  attestation_post_init {|
    at_action := action; at_schema_digest := hd_schema_digest d;
    at_normalized_inputs := hd_normalized_inputs d; at_approvers := [hd_principal d];
    at_approved := true; at_expires_at := Some (hd_expires_at d);
    at_superseded := match hd_superseded_by d with Some _ => true | None => false end |}.

(** ** The verifier ([policy/human_decisions.py])

    [decision_verifier] computes the subject once; [verify] is the function it returns. *)
Definition decision_expiry (schema : ApprovalSchema) (expires_at : datetime) : result datetime :=
  match ps_override_expires_at schema with
  | None => Ok expires_at
  | Some e => early ← dt_lt e expires_at; Ok (if (early : bool) then e else expires_at)
  end.
Definition verify (uid : Z) (run_id action digest : string) (subject_fields : list (string * json))
    (context : AuthenticatedDecisionContext) (humans : list AuthorityPrincipal)
    (schema : ApprovalSchema) (reason fresh_id : string) (decided_at expires_at : datetime)
    : result HumanDecision :=
  _ ← authenticate_context uid context humans;
  expected ← policy_action action;
  raise_when negb (bool_decide (ps_action schema = expected)) as ActionMismatchError ;;
  raise_when negb (bool_decide (ps_work_snapshot schema = Some digest)) ||
             negb (bool_decide (ps_target_resource schema = Some run_id)) as SubjectMismatchError ;;
  expiry ← decision_expiry schema expires_at;
  registry ← registry_init humans;
  '(_, record) ← record_approval registry fresh_id schema [dc_principal context] (Some run_id)
                   (Some expiry) decided_at;
  human_decision_post_init {|
    hd_id := ar_id record; hd_run_id := run_id; hd_principal := dc_principal context;
    hd_action := action; hd_subject_digest := digest; hd_subject_fields := subject_fields;
    hd_os_uid := dc_os_uid context; hd_tty_name := dc_tty_name context;
    hd_decided_at := ar_decided_at record; hd_expires_at := expiry;
    hd_schema_digest := ar_schema_digest record;
    hd_normalized_inputs := ar_normalized_inputs record; hd_reason := reason;
    hd_superseded_by := None |}.
Definition decision_verifier (uid : Z) (run_id action : string) (subject_fields : list (string * json))
    (context : AuthenticatedDecisionContext) (humans : list AuthorityPrincipal)
    (schema : ApprovalSchema) (reason fresh_id : string)
    : result (datetime -> datetime -> result HumanDecision) :=
  digest ← subject_digest run_id subject_fields;
  Ok (verify uid run_id action digest subject_fields context humans schema reason fresh_id).
End Decisions.
