(* ===== verification/DecisionLedger.v ===== *)
(** * Challenges and decisions in the ledger ([ledger/human_decisions.py])

    The two tables as lists of rows in row-id order.  A JSON column is the value its
    canonical text encodes (texts are compared as texts); time stamps are ISO texts.  An
    operation returns the store it leaves behind and its outcome: a refusal is raised
    after the transaction, so it keeps the supersessions, while an exception inside the
    transaction restores the earlier store. *)
From S2P Require Import Prelude PyText Json Identity Regex Evidence Policy HumanDecisions.

Record ChallengeRow := {
  ch_hash : string; ch_run_id : string; ch_principal : AuthorityPrincipal; ch_os_uid : Z;
  ch_tty_name : string; ch_actions : list string; ch_subject_digest : string;
  ch_subject_fields : json; ch_issued_at : string; ch_expires_at : string;
  ch_consumed_at : option string; ch_decision_id : option string; ch_superseded_by : option string }.
Record DecisionRow := {
  dr_id : string; dr_challenge_hash : string; dr_run_id : string; dr_principal_id : string;
  dr_principal : AuthorityPrincipal; dr_action : string; dr_subject_digest : string;
  dr_subject_fields : list (string * json); dr_os_uid : Z; dr_tty_name : string;
  dr_decided_at : string; dr_expires_at : string; dr_superseded_by : option string;
  dr_schema_digest : string; dr_normalized_inputs : list (string * json); dr_reason : string }.
Record DecisionStore := { ds_challenges : list ChallengeRow; ds_decisions : list DecisionRow }.
Definition empty_store : DecisionStore := {| ds_challenges := []; ds_decisions := [] |}.

Record IssuedChallenge := {
  ic_challenge : string; ic_subject_digest : string; ic_actions : list string; ic_expires_at : datetime }.
(** Thirty minutes, in microseconds. *)
Definition MAX_CHALLENGE_LIFETIME : timedelta := (30 * 60 * 1000000)%Z.
Definition NONCE : regex := RRep is_hex 64 (Some 64).

(** [json.dumps] sorts the keys of every object. *)
Definition principal_json (p : AuthorityPrincipal) : json :=
  JObj [("id", JStr (ap_id p)); ("principal_type", JStr (enum_value (ap_principal_type p)));
        ("role", JStr (ap_role p)); ("authorization_source", JStr (ap_authorization_source p))].

(** ** [_supersede] *)
Definition retire_challenge (run_id current_subject : string) (c : ChallengeRow) : ChallengeRow :=
  if bool_decide (ch_run_id c = run_id) && negb (bool_decide (ch_subject_digest c = current_subject)) &&
     bool_decide (ch_superseded_by c = None)
  then {| ch_hash := ch_hash c; ch_run_id := ch_run_id c; ch_principal := ch_principal c;
          ch_os_uid := ch_os_uid c; ch_tty_name := ch_tty_name c; ch_actions := ch_actions c;
          ch_subject_digest := ch_subject_digest c; ch_subject_fields := ch_subject_fields c;
          ch_issued_at := ch_issued_at c; ch_expires_at := ch_expires_at c;
          ch_consumed_at := ch_consumed_at c; ch_decision_id := ch_decision_id c;
          ch_superseded_by := Some current_subject |}
  else c.
Definition retire_decision (run_id current_subject : string) (d : DecisionRow) : DecisionRow :=
  if bool_decide (dr_run_id d = run_id) && negb (bool_decide (dr_subject_digest d = current_subject)) &&
     bool_decide (dr_superseded_by d = None)
  then {| dr_id := dr_id d; dr_challenge_hash := dr_challenge_hash d; dr_run_id := dr_run_id d;
          dr_principal_id := dr_principal_id d; dr_principal := dr_principal d;
          dr_action := dr_action d; dr_subject_digest := dr_subject_digest d;
          dr_subject_fields := dr_subject_fields d; dr_os_uid := dr_os_uid d;
          dr_tty_name := dr_tty_name d; dr_decided_at := dr_decided_at d;
          dr_expires_at := dr_expires_at d; dr_superseded_by := Some current_subject;
          dr_schema_digest := dr_schema_digest d; dr_normalized_inputs := dr_normalized_inputs d;
          dr_reason := dr_reason d |}
  else d.
Definition supersede_subjects (run_id current_subject : string) (s : DecisionStore) : DecisionStore := {|
  ds_challenges := map (retire_challenge run_id current_subject) (ds_challenges s);
  ds_decisions := map (retire_decision run_id current_subject) (ds_decisions s) |}.

Section Store.
Context `{rt : PyRuntime} `{iso : IsoCodec}.

Definition principal_text (p : AuthorityPrincipal) : result string := bounded_json (principal_json p).
(** [datetime.fromisoformat(text)] *)
Definition parse_time (text : string) : result datetime :=
  from_option_err PyValueError (fromisoformat text).
Definition find_challenge (s : DecisionStore) (hash : string) : option ChallengeRow :=
  List.find (fun c => String.eqb (ch_hash c) hash) (ds_challenges s).

(** ** [issue_challenge]; [challenge] is [secrets.token_hex(32)] *)
Definition check_action (action : string) : result () :=
  match policy_action action with
  | Ok _ => Ok () | Err PyValueError => Err ActionMismatchError | Err e => Err e end.
Definition issue_checks (uid : Z) (run_id : string) (subject_fields : list (string * json))
    (actions : list string) (context : AuthenticatedDecisionContext)
    (humans : list AuthorityPrincipal) (lifetime : timedelta) (now : datetime) : result string :=
  _ ← authenticate_context uid context humans;
  _ ← checked_time now;
  raise_when negb ((0 <? lifetime) && (lifetime <=? MAX_CHALLENGE_LIFETIME))%Z as HumanDecisionError ;;
  raise_when bool_decide (actions = []) || negb (bool_decide (NoDup actions)) as ActionMismatchError ;;
  _ ← each_result check_action actions;
  digest ← subject_digest run_id subject_fields;
  _ ← bounded_json (JObj subject_fields);
  Ok digest.
Definition issued_row (run_id : string) (subject_fields : list (string * json)) (actions : list string)
    (context : AuthenticatedDecisionContext) (lifetime : timedelta) (now : datetime)
    (challenge digest : string) : ChallengeRow := {|
  ch_hash := sha256_hex (utf8 challenge); ch_run_id := run_id; ch_principal := dc_principal context;
  ch_os_uid := dc_os_uid context; ch_tty_name := dc_tty_name context;
  ch_actions := merge_sort String.le actions; ch_subject_digest := digest;
  ch_subject_fields := canon (JObj subject_fields); ch_issued_at := isoformat now;
  ch_expires_at := isoformat (dt_add now lifetime); ch_consumed_at := None;
  ch_decision_id := None; ch_superseded_by := None |}.
(** The [INSERT]: its arguments are computed first; the hash is the primary key. *)
Definition insert_challenge (row : ChallengeRow) (s : DecisionStore) : result DecisionStore :=
  _ ← principal_text (ch_principal row);
  _ ← bounded_json (JList (map JStr (ch_actions row)));
  raise_when bool_decide (ch_hash row ∈ map ch_hash (ds_challenges s)) as SqliteIntegrityError ;;
  Ok {| ds_challenges := ds_challenges s ++ [row]; ds_decisions := ds_decisions s |}.
Definition issue_challenge (uid : Z) (run_id : string) (subject_fields : list (string * json))
    (actions : list string) (context : AuthenticatedDecisionContext)
    (humans : list AuthorityPrincipal) (lifetime : timedelta) (now : datetime) (challenge : string)
    (s : DecisionStore) : DecisionStore * result IssuedChallenge :=
  match issue_checks uid run_id subject_fields actions context humans lifetime now with
  | Err e => (s, Err e)
  | Ok digest =>
      match insert_challenge (issued_row run_id subject_fields actions context lifetime now challenge digest)
              (supersede_subjects run_id digest s) with
      | Err e => (s, Err e)
      | Ok s' => (s', Ok {| ic_challenge := challenge; ic_subject_digest := digest;
                            ic_actions := actions; ic_expires_at := dt_add now lifetime |})
      end
  end.

(** ** [consume_decision] *)
(** The [if]/[elif] chain: the refusal it sets, or the expiry the decision is verified for. *)
Definition consume_refusal (run_id action subject_digest current : string) (decided_at : datetime)
    (context : AuthenticatedDecisionContext) (row : option ChallengeRow) : result (exn + datetime) :=
  match row with
  | None => Ok (inl UnknownChallengeError)
  | Some c =>
      if negb (String.eqb (ch_run_id c) run_id) then Ok (inl UnknownChallengeError) else
      text ← principal_text (dc_principal context);
      if negb (String.eqb (json_dumps (principal_json (ch_principal c))) text)
      then Ok (inl PrincipalMismatchError) else
      if negb (ch_os_uid c =? dc_os_uid context)%Z || negb (String.eqb (ch_tty_name c) (dc_tty_name context))
      then Ok (inl PrincipalMismatchError) else
      if negb (bool_decide (action ∈ ch_actions c)) then Ok (inl ActionMismatchError) else
      if negb (bool_decide (ch_consumed_at c = None)) then Ok (inl ReplayedChallengeError) else
      if negb (bool_decide (ch_superseded_by c = None)) || negb (String.eqb (ch_subject_digest c) current)
      then Ok (inl StaleSubjectError) else
      if negb (String.eqb subject_digest (ch_subject_digest c)) then Ok (inl SubjectMismatchError) else
      expiry ← parse_time (ch_expires_at c);
      live ← dt_lt decided_at expiry;
      if negb live then Ok (inl ExpiredChallengeError) else
      issued ← parse_time (ch_issued_at c);
      early ← dt_lt decided_at issued;
      if (early : bool) then Ok (inl ExpiredChallengeError) else Ok (inr expiry)
  end.
(** The decision binds the challenge, the context and the instant. *)
Definition check_binding (run_id action current : string) (decided_at expiry : datetime)
    (context : AuthenticatedDecisionContext) (d : HumanDecision) : result () :=
  raise_when negb (String.eqb (hd_run_id d) run_id) || negb (String.eqb (hd_action d) action) ||
             negb (String.eqb (hd_subject_digest d) current) ||
             negb (bool_decide (hd_principal d = dc_principal context)) ||
             negb (hd_os_uid d =? dc_os_uid context)%Z ||
             negb (String.eqb (hd_tty_name d) (dc_tty_name context)) ||
             negb (bool_decide (hd_decided_at d = decided_at)) as SubjectMismatchError ;;
  beyond ← dt_lt expiry (hd_expires_at d);
  raise_when (beyond : bool) as SubjectMismatchError ;;
  raise_when negb (bool_decide (hd_superseded_by d = None)) as SubjectMismatchError ;;
  Ok ().
(** No retained input may hold the challenge. *)
Definition check_retained (challenge : string) (d : HumanDecision) : result () :=
  inputs ← bounded_json (JObj (hd_normalized_inputs d));
  fields ← bounded_json (JObj (hd_subject_fields d));
  principal ← principal_text (hd_principal d);
  text ← bounded_json (JList [JStr inputs; JStr fields; JStr principal; JStr (hd_reason d)]);
  raise_when regex_search (RLit challenge) text as HumanDecisionError ;; Ok ().
Definition canon_map (m : list (string * json)) : list (string * json) :=
  match canon (JObj m) with JObj m => m | _ => m end.
Definition decision_row (hash run_id action current : string) (decided_at : datetime)
    (context : AuthenticatedDecisionContext) (d : HumanDecision) : DecisionRow := {|
  dr_id := hd_id d; dr_challenge_hash := hash; dr_run_id := run_id;
  dr_principal_id := ap_id (hd_principal d); dr_principal := hd_principal d; dr_action := action;
  dr_subject_digest := current; dr_subject_fields := canon_map (hd_subject_fields d);
  dr_os_uid := dc_os_uid context; dr_tty_name := dc_tty_name context;
  dr_decided_at := isoformat decided_at; dr_expires_at := isoformat (hd_expires_at d);
  dr_superseded_by := None; dr_schema_digest := digest_str (hd_schema_digest d);
  dr_normalized_inputs := canon_map (hd_normalized_inputs d); dr_reason := hd_reason d |}.
(** Primary key and uniqueness of the challenge hash. *)
Definition insert_decision (row : DecisionRow) (s : DecisionStore) : result DecisionStore :=
  raise_when bool_decide (dr_id row ∈ map dr_id (ds_decisions s)) as SqliteIntegrityError ;;
  raise_when bool_decide (dr_challenge_hash row ∈ map dr_challenge_hash (ds_decisions s))
    as SqliteIntegrityError ;;
  Ok {| ds_challenges := ds_challenges s; ds_decisions := ds_decisions s ++ [row] |}.
Definition consume_row (hash : string) (consumed_at decision_id : string) (c : ChallengeRow) : ChallengeRow :=
  if String.eqb (ch_hash c) hash && bool_decide (ch_consumed_at c = None)
  then {| ch_hash := ch_hash c; ch_run_id := ch_run_id c; ch_principal := ch_principal c;
          ch_os_uid := ch_os_uid c; ch_tty_name := ch_tty_name c; ch_actions := ch_actions c;
          ch_subject_digest := ch_subject_digest c; ch_subject_fields := ch_subject_fields c;
          ch_issued_at := ch_issued_at c; ch_expires_at := ch_expires_at c;
          ch_consumed_at := Some consumed_at; ch_decision_id := Some decision_id;
          ch_superseded_by := ch_superseded_by c |}
  else c.
(** The writes of an accepted consumption; [release] is the caller's hook. *)
Definition record_consumption (hash run_id action current challenge : string) (decided_at expiry : datetime)
    (context : AuthenticatedDecisionContext) (d : HumanDecision)
    (release : option (HumanDecision -> result ())) (s : DecisionStore) : result DecisionStore :=
  _ ← check_binding run_id action current decided_at expiry context d;
  _ ← check_retained challenge d;
  s ← insert_decision (decision_row hash run_id action current decided_at context d) s;
  let s := {| ds_challenges := map (consume_row hash (isoformat decided_at) (hd_id d)) (ds_challenges s);
              ds_decisions := ds_decisions s |} in
  _ ← from_option (fun r => r d) (Ok ()) release;
  Ok s.
Definition consume_checks (uid : Z) (run_id : string) (current_subject_fields : list (string * json))
    (challenge : string) (context : AuthenticatedDecisionContext) (humans : list AuthorityPrincipal)
    (now : datetime) : result string :=
  _ ← authenticate_context uid context humans;
  _ ← checked_time now;
  current ← subject_digest run_id current_subject_fields;
  raise_when negb (regex_fullmatch NONCE challenge) as UnknownChallengeError ;;
  Ok current.
Definition consume_decision (uid : Z) (run_id action subject_digest : string)
    (current_subject_fields : list (string * json)) (challenge : string)
    (context : AuthenticatedDecisionContext) (humans : list AuthorityPrincipal)
    (verifier : datetime -> datetime -> result HumanDecision) (now : datetime)
    (release : option (HumanDecision -> result ())) (s : DecisionStore)
    : DecisionStore * result HumanDecision :=
  match consume_checks uid run_id current_subject_fields challenge context humans now with
  | Err e => (s, Err e)
  | Ok current =>
      let hash := sha256_hex (utf8 challenge) in
      let retired := supersede_subjects run_id current s in
      match consume_refusal run_id action subject_digest current now context (find_challenge retired hash) with
      | Err e => (s, Err e)
      | Ok (inl refusal) => (retired, Err refusal)
      | Ok (inr expiry) =>
          match (d ← verifier now expiry;
                 s' ← record_consumption hash run_id action current challenge now expiry context d release retired;
                 Ok (s', d)) with
          | Err e => (s, Err e)
          | Ok (s', d) => (s', Ok d)
          end
      end
  end.

(** ** Reading decisions back *)
(** [_decision_from_row] *)
Definition decision_from_row (r : DecisionRow) : result HumanDecision :=
  digest ← (match py_partition colon (dr_schema_digest r) with
            | (a, Some h) => mk_digest a h | (_, None) => Err PyValueError end);
  decided_at ← parse_time (dr_decided_at r);
  expires_at ← parse_time (dr_expires_at r);
  human_decision_post_init {|
    hd_id := dr_id r; hd_run_id := dr_run_id r; hd_principal := dr_principal r;
    hd_action := dr_action r; hd_subject_digest := dr_subject_digest r;
    hd_subject_fields := dr_subject_fields r; hd_os_uid := dr_os_uid r;
    hd_tty_name := dr_tty_name r; hd_decided_at := decided_at; hd_expires_at := expires_at;
    hd_schema_digest := digest; hd_normalized_inputs := dr_normalized_inputs r;
    hd_reason := dr_reason r; hd_superseded_by := dr_superseded_by r |}.
Definition list_decisions (run_id : string) (s : DecisionStore) : result (list HumanDecision) :=
  mapM_result decision_from_row (List.filter (fun r => String.eqb (dr_run_id r) run_id) (ds_decisions s)).
(** The loop over the rows, newest first. *)
Fixpoint first_current (subject_digest : string) (now : datetime) (rows : list DecisionRow)
    : result HumanDecision :=
  match rows with
  | [] => Err SupersededDecisionError
  | r :: rows =>
      if negb (String.eqb (dr_subject_digest r) subject_digest) || negb (bool_decide (dr_superseded_by r = None))
      then first_current subject_digest now rows
      else
        d ← decision_from_row r;
        live ← dt_lt now (hd_expires_at d);
        early ← dt_lt now (hd_decided_at d);
        raise_when negb live || early as ExpiredDecisionError ;;
        Ok d
  end.
Definition require_current_decision (run_id action subject_digest : string) (now : datetime)
    (s : DecisionStore) : DecisionStore * result HumanDecision :=
  match checked_time now with
  | Err e => (s, Err e)
  | Ok _ =>
      let retired := supersede_subjects run_id subject_digest s in
      let rows := reverse (List.filter (fun r => String.eqb (dr_run_id r) run_id && String.eqb (dr_action r) action)
                             (ds_decisions retired)) in
      (retired, if bool_decide (length rows = 0) then Err MissingDecisionError
                else first_current subject_digest now rows)
  end.
End Store.
