(* ===== verification/DecisionProofs.v ===== *)
(** * Terminal decisions are single-use, bound and retired with their subject

    Histories of challenges, consumptions and checks: what every reachable store holds,
    that a challenge is used once, that a changed subject ends the authority of earlier
    decisions, and what a consumed decision rests on. *)
From S2P Require Import Prelude PyText Json JsonCanon Identity IdentityProofs Regex Evidence Policy PolicyProofs.
From S2P Require Import HumanDecisions DecisionLedger.

(** ** Rows keep what they say *)
(** The same decision, retired at most once. *)
Definition decision_kept (d d' : DecisionRow) : Prop :=
  (dr_id d, dr_challenge_hash d, dr_run_id d, dr_principal d, dr_action d, dr_subject_digest d) =
  (dr_id d', dr_challenge_hash d', dr_run_id d', dr_principal d', dr_action d', dr_subject_digest d') /\
  (dr_subject_fields d, dr_os_uid d, dr_tty_name d, dr_decided_at d, dr_expires_at d) =
  (dr_subject_fields d', dr_os_uid d', dr_tty_name d', dr_decided_at d', dr_expires_at d') /\
  (dr_schema_digest d, dr_normalized_inputs d, dr_reason d) =
  (dr_schema_digest d', dr_normalized_inputs d', dr_reason d') /\
  (dr_superseded_by d = None \/ dr_superseded_by d' = dr_superseded_by d).
(** The same challenge, retired at most once and consumed at most once. *)
Definition challenge_kept (c c' : ChallengeRow) : Prop :=
  (ch_hash c, ch_run_id c, ch_principal c, ch_os_uid c, ch_tty_name c, ch_actions c) =
  (ch_hash c', ch_run_id c', ch_principal c', ch_os_uid c', ch_tty_name c', ch_actions c') /\
  (ch_subject_digest c, ch_subject_fields c, ch_issued_at c, ch_expires_at c) =
  (ch_subject_digest c', ch_subject_fields c', ch_issued_at c', ch_expires_at c') /\
  (ch_superseded_by c = None \/ ch_superseded_by c' = ch_superseded_by c) /\
  (ch_consumed_at c = None /\ ch_decision_id c = None \/
   ch_consumed_at c' = ch_consumed_at c /\ ch_decision_id c' = ch_decision_id c).
(** Rows are added at the end and kept. *)
Definition grows (s s' : DecisionStore) : Prop :=
  (exists old new, ds_decisions s' = old ++ new /\ Forall2 decision_kept (ds_decisions s) old) /\
  (exists old new, ds_challenges s' = old ++ new /\ Forall2 challenge_kept (ds_challenges s) old).
#[export] Instance decision_kept_preorder : PreOrder decision_kept.
Proof.
  split; [intros d; unfold decision_kept; auto|].
  intros [] [] []; unfold decision_kept; cbn; rewrite !pair_equal_spec. intuition congruence.
Qed.
#[export] Instance challenge_kept_preorder : PreOrder challenge_kept.
Proof.
  split; [intros c; unfold challenge_kept; auto 6|].
  intros [] [] []; unfold challenge_kept; cbn; rewrite !pair_equal_spec. intuition congruence.
Qed.
Lemma Forall2_trans {A} (R : relation A) `{!Transitive R} l k m : Forall2 R l k -> Forall2 R k m -> Forall2 R l m.
Proof.
  intros H. revert m. induction H as [|x y l k Hxy _ IH]; inversion 1; subst; constructor; [|by apply IH].
  by transitivity y.
Qed.
Lemma Forall2_refl {A} (R : relation A) `{!Reflexive R} l : Forall2 R l l.
Proof. induction l; by constructor. Qed.
Lemma kept_rows_trans {A} (R : relation A) `{!PreOrder R} (l l' l'' : list A) :
  (exists old new, l' = old ++ new /\ Forall2 R l old) ->
  (exists old new, l'' = old ++ new /\ Forall2 R l' old) ->
  exists old new, l'' = old ++ new /\ Forall2 R l old.
Proof.
  intros (o1 & n1 & -> & H1) (o2 & n2 & -> & H2). apply Forall2_app_inv_l in H2 as (o & n & H2 & H3 & ->).
  exists o, (n ++ n2). split; [by rewrite app_assoc|]. 
  by apply (Forall2_trans R l o1 o).
Qed.
#[export] Instance grows_preorder : PreOrder grows.
Proof.
  split.
  - intros s. split.
    + exists (ds_decisions s), []. split; [by rewrite app_nil_r|apply (Forall2_refl decision_kept)].
    + exists (ds_challenges s), []. split; [by rewrite app_nil_r|apply (Forall2_refl challenge_kept)].
  - intros s t u [Hd Hc] [Hd' Hc']. split; [exact (kept_rows_trans decision_kept _ _ _ Hd Hd')|].
    exact (kept_rows_trans challenge_kept _ _ _ Hc Hc').
Qed.

Lemma retire_decision_kept r D d : decision_kept d (retire_decision r D d).
Proof.
  unfold retire_decision. destruct (_ && _) eqn:H; [|reflexivity].
  apply andb_true_iff in H as [_ H%bool_decide_eq_true_1]. destruct d; unfold decision_kept; cbn in *. auto.
Qed.
Lemma retire_challenge_kept r D c : challenge_kept c (retire_challenge r D c).
Proof.
  unfold retire_challenge. destruct (_ && _) eqn:H; [|reflexivity].
  apply andb_true_iff in H as [_ H%bool_decide_eq_true_1]. destruct c; unfold challenge_kept; cbn in *. auto 6.
Qed.
Lemma consume_row_kept h t i c : ch_decision_id c = None \/ ch_consumed_at c <> None ->
  challenge_kept c (consume_row h t i c).
Proof.
  intros Hc. unfold consume_row. destruct (_ && _) eqn:H; [|reflexivity].
  apply andb_true_iff in H as [_ H%bool_decide_eq_true_1]. destruct c; unfold challenge_kept; cbn in *.
  destruct Hc; [auto 8|done].
Qed.
Lemma Forall2_map_r {A} (R : relation A) (f : A -> A) l : (forall x, x ∈ l -> R x (f x)) -> Forall2 R l (map f l).
Proof. induction l as [|x l IH]; cbn; intros H; constructor; [apply H; left|]. apply IH. intros y Hy. apply H. by right. Qed.
Lemma supersede_grows r D s : grows s (supersede_subjects r D s).
Proof.
  split; eexists _, []; (split; [symmetry; apply app_nil_r|]); apply Forall2_map_r; intros x _;
    [apply retire_decision_kept|apply retire_challenge_kept].
Qed.

Section Decisions.
Context `{rt : PyRuntime} `{iso : IsoCodec}.

(** ** What every reachable store holds *)
(** The challenge [c] was consumed by the decision [d] it authorised. *)
Record backs (c : ChallengeRow) (d : DecisionRow) : Prop := {
  bk_hash : ch_hash c = dr_challenge_hash d;
  bk_run : ch_run_id c = dr_run_id d;
  bk_principal : json_dumps (principal_json (ch_principal c)) = json_dumps (principal_json (dr_principal d));
  bk_uid : ch_os_uid c = dr_os_uid d;
  bk_tty : ch_tty_name c = dr_tty_name d;
  bk_action : dr_action d ∈ ch_actions c;
  bk_subject : ch_subject_digest c = dr_subject_digest d;
  bk_consumed : ch_consumed_at c = Some (dr_decided_at d) /\ ch_decision_id c = Some (dr_id d);
  bk_times : exists issued decided expires limit, ch_issued_at c = isoformat (Aware issued) /\
    dr_decided_at d = isoformat (Aware decided) /\ dr_expires_at d = isoformat (Aware expires) /\
    ch_expires_at c = isoformat (Aware limit) /\ (issued <= decided < limit)%Z /\ (decided < expires <= limit)%Z;
}.
Record sound_store (s : DecisionStore) : Prop := {
  ss_hashes : NoDup (map ch_hash (ds_challenges s));
  ss_ids : NoDup (map dr_id (ds_decisions s));
  ss_used : NoDup (map dr_challenge_hash (ds_decisions s));
  ss_times : forall c, c ∈ ds_challenges s -> exists issued limit,
    ch_issued_at c = isoformat (Aware issued) /\ ch_expires_at c = isoformat (Aware limit);
  ss_backed : forall d, d ∈ ds_decisions s -> exists c, c ∈ ds_challenges s /\ backs c d;
  ss_consumed : forall c, c ∈ ds_challenges s -> ch_consumed_at c = None /\ ch_decision_id c = None \/
    exists d, d ∈ ds_decisions s /\ backs c d;
}.
Lemma kept_backs c c' d d' : backs c d -> challenge_kept c c' -> decision_kept d d' -> backs c' d'.
Proof.
  intros [H1 H2 H3 H4 H5 H6 H7 [H8 H9] H10] (Hc1 & Hc2 & _ & Hc4) (Hd1 & Hd2 & _ & _).
  injection Hc1 as ? ? Hp ? ? Ha. injection Hc2 as ? ? Hi He.
  injection Hd1 as ? ? ? Hp' Hact ?. injection Hd2 as ? ? ? Ht Hx.
  destruct Hc4 as [[Hn _]|[Hc4 Hc5]]; [congruence|].
  constructor; try congruence.
  - split; congruence.
  - rewrite <- Hi, <- He, <- Ht, <- Hx. exact H10.
Qed.
Lemma map_key {A B} (k : A -> B) (f : A -> A) l : (forall x, k (f x) = k x) -> map k (map f l) = map k l.
Proof. intros H. rewrite map_map. by apply map_ext. Qed.
Lemma kept_id d d' : decision_kept d d' -> dr_id d' = dr_id d /\ dr_challenge_hash d' = dr_challenge_hash d.
Proof. intros (H & _). by injection H as ? ? _ _ _ _. Qed.
Lemma kept_hash c c' : challenge_kept c c' -> ch_hash c' = ch_hash c.
Proof. intros (H & _). by injection H as ? _ _ _ _ _. Qed.
Lemma kept_times c c' : challenge_kept c c' -> ch_issued_at c' = ch_issued_at c /\ ch_expires_at c' = ch_expires_at c.
Proof. intros (_ & H & _). by injection H as _ _ ? ?. Qed.
(** Retiring rows keeps a store sound. *)
Lemma retired_challenge_fields r D c : ch_consumed_at (retire_challenge r D c) = ch_consumed_at c /\
  ch_decision_id (retire_challenge r D c) = ch_decision_id c.
Proof. unfold retire_challenge. by destruct (_ && _). Qed.
Lemma supersede_sound r D s : sound_store s -> sound_store (supersede_subjects r D s).
Proof.
  intros [Hh Hi Hu Ht Hb Hc]. constructor; cbn [supersede_subjects ds_challenges ds_decisions].
  - rewrite map_key; [done|]. intros c. apply kept_hash, retire_challenge_kept.
  - rewrite map_key; [done|]. intros d. by apply (kept_id d), retire_decision_kept.
  - rewrite map_key; [done|]. intros d. by apply (kept_id d), retire_decision_kept.
  - intros c' (c & -> & Hin)%list_elem_of_fmap. destruct (kept_times c _ (retire_challenge_kept r D c)) as [-> ->].
    by apply Ht.
  - intros d' (d & -> & Hin)%list_elem_of_fmap. destruct (Hb d Hin) as (c & Hc' & Hbk).
    exists (retire_challenge r D c). split; [apply list_elem_of_fmap; by exists c|].
    by apply (kept_backs c _ d); [|apply retire_challenge_kept|apply retire_decision_kept].
  - intros c' (c & -> & Hin)%list_elem_of_fmap. destruct (retired_challenge_fields r D c) as [-> ->].
    destruct (Hc c Hin) as [Hn|(d & Hd & Hbk)]; [by left|right]. exists (retire_decision r D d).
    split; [apply list_elem_of_fmap; by exists d|].
    by apply (kept_backs c _ d); [|apply retire_challenge_kept|apply retire_decision_kept].
Qed.
Lemma insert_challenge_sound row s s' : ch_consumed_at row = None -> ch_decision_id row = None ->
  (exists issued limit, ch_issued_at row = isoformat (Aware issued) /\ ch_expires_at row = isoformat (Aware limit)) ->
  sound_store s -> insert_challenge row s = Ok s' -> sound_store s' /\ grows s s'.
Proof.
  intros Hn Hni Hrow [Hh Hi Hu Ht Hb Hc] H. unfold insert_challenge in H. inv_ok.
  match goal with H : bool_decide _ = false |- _ => apply bool_decide_eq_false_1 in H as Hfresh end. split.
  - constructor; cbn [ds_challenges ds_decisions]; try done.
    + rewrite map_app. apply NoDup_app. split_and!; [done| |apply NoDup_singleton].
      intros h Hin ->%list_elem_of_singleton. done.
    + intros c [Hin| ->%list_elem_of_singleton]%elem_of_app; [by apply Ht|done].
    + intros d Hd. destruct (Hb d Hd) as (c & Hin & Hbk). exists c. split; [|done]. apply elem_of_app. by left.
    + intros c [Hin| ->%list_elem_of_singleton]%elem_of_app; [by apply Hc|by left].
  - split; [exists (ds_decisions s), []|exists (ds_challenges s), [row]]; (split; [by rewrite ?app_nil_r|]);
      [apply (Forall2_refl decision_kept)|apply (Forall2_refl challenge_kept)].
Qed.

(** ** Consuming a challenge *)
Definition verified (verifier : datetime -> datetime -> result HumanDecision) : Prop :=
  forall t e d, verifier t e = Ok d -> human_decision_post_init d = Ok d.
(** The challenge is open for this decision. *)
Record open_for (run_id action current : string) (now expiry : datetime)
    (context : AuthenticatedDecisionContext) (c : ChallengeRow) : Prop := {
  of_run : ch_run_id c = run_id;
  of_principal : json_dumps (principal_json (ch_principal c)) = json_dumps (principal_json (dc_principal context));
  of_uid : ch_os_uid c = dc_os_uid context;
  of_tty : ch_tty_name c = dc_tty_name context;
  of_action : action ∈ ch_actions c;
  of_unused : ch_consumed_at c = None;
  of_current : ch_superseded_by c = None /\ ch_subject_digest c = current;
  of_expiry : fromisoformat (ch_expires_at c) = Some expiry /\ dt_lt now expiry = Ok true;
  of_issued : exists issued, fromisoformat (ch_issued_at c) = Some issued /\ dt_lt now issued = Ok false;
}.
Lemma bounded_json_Ok v text : bounded_json v = Ok text -> text = json_dumps v.
Proof. unfold bounded_json. intros H. by inv_ok. Qed.
Lemma consume_refusal_open run_id action submitted current now context row expiry :
  consume_refusal run_id action submitted current now context row = Ok (inr expiry) ->
  exists c, row = Some c /\ submitted = current /\ open_for run_id action current now expiry context c.
Proof.
  unfold consume_refusal, parse_time. destruct row as [c|]; [|done]. intros H. exists c.
  destruct (String.eqb_spec (ch_run_id c) run_id); [|done]. cbn [negb] in H.
  apply bind_Ok in H as (text & ->%bounded_json_Ok & H).
  destruct (String.eqb_spec (json_dumps (principal_json (ch_principal c)))
    (json_dumps (principal_json (dc_principal context)))); [|done]. cbn [negb] in H.
  destruct (Z.eqb_spec (ch_os_uid c) (dc_os_uid context)); [|done].
  destruct (String.eqb_spec (ch_tty_name c) (dc_tty_name context)); [|done]. cbn [negb orb] in H.
  destruct (bool_decide (action ∈ ch_actions c)) eqn:Ha; [|done]. cbn [negb] in H.
  destruct (bool_decide (ch_consumed_at c = None)) eqn:Hu; [|done]. cbn [negb] in H.
  destruct (bool_decide (ch_superseded_by c = None)) eqn:Hs; [|done]. cbn [negb orb] in H.
  destruct (String.eqb_spec (ch_subject_digest c) current); [|done]. cbn [negb] in H.
  destruct (String.eqb_spec submitted (ch_subject_digest c)); [|done]. cbn [negb] in H.
  destruct (fromisoformat (ch_expires_at c)) as [limit|] eqn:Hl; [|done]. cbn [from_option_err mbind result_bind] in H.
  apply bind_Ok in H as ([] & Hlive & H); [|done]. cbn [negb] in H.
  destruct (fromisoformat (ch_issued_at c)) as [issued|] eqn:Hi; [|done]. cbn [from_option_err mbind result_bind] in H.
  apply bind_Ok in H as ([] & Hearly & H); [done|]. injection H as <-.
  apply bool_decide_eq_true_1 in Ha, Hu, Hs.
  split; [done|]. split; [congruence|]. constructor; try done. by exists issued.
Qed.
Lemma check_binding_Ok run_id action current now expiry context d :
  check_binding run_id action current now expiry context d = Ok () ->
  hd_run_id d = run_id /\ hd_action d = action /\ hd_subject_digest d = current /\
  hd_principal d = dc_principal context /\ hd_os_uid d = dc_os_uid context /\
  hd_tty_name d = dc_tty_name context /\ hd_decided_at d = now /\
  dt_lt expiry (hd_expires_at d) = Ok false /\ hd_superseded_by d = None.
Proof.
  unfold check_binding. intros H.
  apply raise_if_Ok in H as [Hb H]. apply bind_Ok in H as (beyond & Hbe & H). rewrite !raise_if_Ok in H.
  destruct H as (-> & Hsup & _). rewrite !orb_false_iff, !negb_false_iff in Hb.
  rewrite !String.eqb_eq, !bool_decide_eq_true, Z.eqb_eq in Hb. rewrite negb_false_iff, bool_decide_eq_true in Hsup.
  intuition.
Qed.
Lemma find_challenge_Some s h c : find_challenge s h = Some c -> c ∈ ds_challenges s /\ ch_hash c = h.
Proof. unfold find_challenge. intros [Hin%list_elem_of_In Hh%String.eqb_eq]%find_some. done. Qed.
Lemma consume_row_other h t i c : ch_hash c <> h -> consume_row h t i c = c.
Proof. intros Hn. unfold consume_row. by rewrite (proj2 (String.eqb_neq _ _) Hn). Qed.
Lemma consume_row_hash h t i c : ch_hash (consume_row h t i c) = ch_hash c.
Proof. unfold consume_row. by destruct (_ && _). Qed.
(** What an accepted consumption adds: one decision row, backed by the one challenge it
    consumes; every other row stays. *)
Definition consumed_store (h : string) (row : DecisionRow) (s : DecisionStore) : DecisionStore := {|
  ds_challenges := map (consume_row h (dr_decided_at row) (dr_id row)) (ds_challenges s);
  ds_decisions := ds_decisions s ++ [row] |}.
Lemma record_consumption_Ok h run_id action current challenge now expiry context d release s s' :
  record_consumption h run_id action current challenge now expiry context d release s = Ok s' ->
  s' = consumed_store h (decision_row h run_id action current now context d) s /\
  check_binding run_id action current now expiry context d = Ok () /\
  check_retained challenge d = Ok () /\
  hd_id d ∉ map dr_id (ds_decisions s) /\ h ∉ map dr_challenge_hash (ds_decisions s).
Proof.
  unfold record_consumption. intros H. apply bind_unit_Ok in H as [Hb H]. apply bind_unit_Ok in H as [Hr H].
  apply bind_Ok in H as (s2 & Hi & H). apply bind_unit_Ok in H as [_ [= <-]].
  unfold insert_decision in Hi. inv_ok. cbn [dr_id dr_challenge_hash decision_row] in *.
  repeat match goal with H : bool_decide _ = false |- _ => apply bool_decide_eq_false_1 in H end. done.
Qed.
Lemma decision_times d : human_decision_post_init d = Ok d -> exists a b,
  hd_decided_at d = Aware a /\ hd_expires_at d = Aware b /\ (a < b)%Z.
Proof.
  unfold human_decision_post_init, checked_time. intros H.
  apply bind_Ok in H as (? & H1 & H). apply bind_Ok in H as (? & H2 & H). apply bind_Ok in H as (l & H3 & H).
  apply raise_if_Ok in H1 as [H1 _], H2 as [H2 _], H as [H _].
  destruct (hd_decided_at d) as [a|]; [|done]. destruct (hd_expires_at d) as [b|]; [|done].
  unfold dt_lt in H3. cbn in H3. injection H3 as <-. exists a, b. split_and!; [done..|].
  apply negb_false_iff in H. lia.
Qed.
Lemma consumption_backs run_id action current now expiry context c d h :
  open_for run_id action current now expiry context c -> ch_hash c = h ->
  (exists issued limit, ch_issued_at c = isoformat (Aware issued) /\ ch_expires_at c = isoformat (Aware limit)) ->
  check_binding run_id action current now expiry context d = Ok () -> human_decision_post_init d = Ok d ->
  backs (consume_row h (isoformat now) (hd_id d) c) (decision_row h run_id action current now context d).
Proof.
  intros [] Hh (issued & limit & Hi & Hl) Hb Hd.
  apply check_binding_Ok in Hb as (? & ? & ? & Hp & ? & ? & Hnow & Hlim & _).
  destruct (decision_times d Hd) as (a & b & Ha & Hb & Hab). unfold consume_row.
  rewrite (proj2 (String.eqb_eq _ _) Hh), of_unused0. cbn [andb bool_decide].
  rewrite bool_decide_eq_true_2 by done.
  constructor; cbn [ch_hash ch_run_id ch_principal ch_os_uid ch_tty_name ch_actions ch_subject_digest
    ch_issued_at ch_expires_at ch_consumed_at ch_decision_id dr_id dr_challenge_hash dr_run_id dr_principal
    dr_action dr_subject_digest dr_os_uid dr_tty_name dr_decided_at dr_expires_at decision_row]; try done.
  - by rewrite Hp.
  - by destruct of_current0.
  - destruct of_expiry0 as [He Hlt], of_issued0 as (i & Hi' & Hge).
    rewrite Hl, fromisoformat_isoformat in He. injection He as <-.
    rewrite Hi, fromisoformat_isoformat in Hi'. injection Hi' as <-.
    exists issued, a, b, limit. subst now. rewrite Ha in *. rewrite Hb in *. unfold dt_lt in *. cbn in *.
    injection Hlt as Hlt. injection Hge as Hge. injection Hlim as Hlim. split_and!; try done; lia.
Qed.
Lemma consumed_sound run_id action current now expiry context c d h s :
  sound_store s -> c ∈ ds_challenges s -> ch_hash c = h ->
  open_for run_id action current now expiry context c ->
  check_binding run_id action current now expiry context d = Ok () -> human_decision_post_init d = Ok d ->
  hd_id d ∉ map dr_id (ds_decisions s) -> h ∉ map dr_challenge_hash (ds_decisions s) ->
  let row := decision_row h run_id action current now context d in
  sound_store (consumed_store h row s) /\ grows s (consumed_store h row s).
Proof.
  intros [Hh Hi Hu Ht Hb Hc] Hin Hhash Hopen Hbind Hd Hid Hused row.
  pose proof (consumption_backs _ _ _ _ _ _ _ _ _ Hopen Hhash (Ht c Hin) Hbind Hd) as Hback. fold row in Hback.
  assert (Hold : forall x, x ∈ ds_challenges s -> x = c \/ consume_row h (dr_decided_at row) (dr_id row) x = x).
  { intros x Hx. destruct (decide (ch_hash x = h)) as [He|Hn]; [left|right; by apply consume_row_other].
    apply (NoDup_map_inj ch_hash (ds_challenges s)); [done..|congruence]. }
  assert (Hkeep : forall x, x ∈ ds_challenges s -> challenge_kept x (consume_row h (dr_decided_at row) (dr_id row) x)).
  { intros x Hx. apply consume_row_kept. destruct (Hc x Hx) as [[? ?]|(d' & _ & Hbk)]; [by left|right].
    destruct Hbk as [_ _ _ _ _ _ _ [Hcons _] _]. congruence. }
  split; [constructor; cbn [consumed_store ds_challenges ds_decisions]|split].
  - rewrite map_key; [done|]. intros x. apply consume_row_hash.
  - rewrite map_app. apply NoDup_app. split_and!; [done| |apply NoDup_singleton].
    by intros i Hx ->%list_elem_of_singleton.
  - rewrite map_app. apply NoDup_app. split_and!; [done| |apply NoDup_singleton].
    by intros i Hx ->%list_elem_of_singleton.
  - intros x' (x & -> & Hx)%list_elem_of_fmap. destruct (kept_times x _ (Hkeep x Hx)) as [-> ->]. by apply Ht.
  - intros d' [Hd'| ->%list_elem_of_singleton]%elem_of_app.
    + destruct (Hb d' Hd') as (x & Hx & Hbk). exists (consume_row h (dr_decided_at row) (dr_id row) x).
      split; [apply list_elem_of_fmap; by exists x|]. by apply (kept_backs x _ d'); [|apply Hkeep|].
    + exists (consume_row h (dr_decided_at row) (dr_id row) c). split; [apply list_elem_of_fmap; by exists c|done].
  - intros x' (x & -> & Hx)%list_elem_of_fmap. destruct (Hold x Hx) as [->|Heq].
    + right. exists row. split; [apply elem_of_app; right; by apply list_elem_of_singleton|done].
    + rewrite Heq. destruct (Hc x Hx) as [Hn|(d' & Hd' & Hbk)]; [by left|right].
      exists d'. split; [apply elem_of_app; by left|done].
  - exists (ds_decisions s), [row]. split; [done|apply (Forall2_refl decision_kept)].
  - eexists _, []. split; [by rewrite app_nil_r|]. apply Forall2_map_r. exact Hkeep.
Qed.

(** ** Each call keeps the store sound and only adds to it *)
Lemma issue_sound uid run_id fields actions context humans lifetime now challenge s :
  sound_store s ->
  let s' := (issue_challenge uid run_id fields actions context humans lifetime now challenge s).1 in
  sound_store s' /\ grows s s'.
Proof.
  intros Hs. unfold issue_challenge. destruct (issue_checks _ _ _ _ _ _ _ _) as [digest|e] eqn:Hc; [|by split].
  destruct (insert_challenge _ _) as [s'|e] eqn:Hi; [|by split]. cbn [fst].
  assert (exists us, now = Aware us) as [us ->].
  { unfold issue_checks, checked_time in Hc. apply bind_Ok in Hc as (? & _ & Hc). apply bind_Ok in Hc as (? & Ht & _).
    apply raise_if_Ok in Ht as [Ht _]. destruct now as [us|]; [by exists us|done]. }
  apply insert_challenge_sound in Hi as [Hs' Hg]; [|done..|by exists us, (us + lifetime)%Z|by apply supersede_sound].
  split; [done|]. etransitivity; [apply supersede_grows|done].
Qed.
Lemma require_sound run_id action digest now s : sound_store s ->
  let s' := (require_current_decision run_id action digest now s).1 in sound_store s' /\ grows s s'.
Proof.
  intros Hs. unfold require_current_decision. destruct (checked_time now); [|by split]. cbn [fst].
  split; [by apply supersede_sound|apply supersede_grows].
Qed.
(** An accepted consumption, step by step. *)
Lemma consume_accepted uid run_id action submitted fields challenge context humans verifier now release s s' d :
  consume_decision uid run_id action submitted fields challenge context humans verifier now release s = (s', Ok d) ->
  exists current expiry c, let h := sha256_hex (utf8 challenge) in
    let retired := supersede_subjects run_id current s in
    consume_checks uid run_id fields challenge context humans now = Ok current /\
    submitted = current /\ c ∈ ds_challenges retired /\ ch_hash c = h /\
    open_for run_id action current now expiry context c /\ verifier now expiry = Ok d /\
    s' = consumed_store h (decision_row h run_id action current now context d) retired /\
    check_binding run_id action current now expiry context d = Ok () /\ check_retained challenge d = Ok () /\
    hd_id d ∉ map dr_id (ds_decisions retired) /\ h ∉ map dr_challenge_hash (ds_decisions retired).
Proof.
  unfold consume_decision. intros H. destruct (consume_checks _ _ _ _ _ _ _) as [current|] eqn:Hc; [|done].
  destruct (consume_refusal _ _ _ _ _ _ _) as [[|expiry]|] eqn:Hr; [done| |done].
  destruct (verifier now expiry) as [d0|] eqn:Hv; [|done]. cbn [mbind result_bind] in H.
  destruct (record_consumption _ _ _ _ _ _ _ _ _ _ _) as [s0|] eqn:Hw; [|done]. injection H as <- <-.
  apply consume_refusal_open in Hr as (c & Hf & -> & Ho). apply find_challenge_Some in Hf as [Hin Hh].
  apply record_consumption_Ok in Hw as (-> & ? & ? & ? & ?).
  exists current, expiry, c. split_and!; done.
Qed.
Lemma consume_sound uid run_id action submitted fields challenge context humans verifier now release s :
  verified verifier -> sound_store s ->
  let s' := (consume_decision uid run_id action submitted fields challenge context humans verifier now release s).1 in
  sound_store s' /\ grows s s'.
Proof.
  intros Hv Hs. destruct (consume_decision _ _ _ _ _ _ _ _ _ _ _ _) as [s' [d|e]] eqn:H; cbn [fst].
  - apply consume_accepted in H as (current & expiry & c & _ & _ & Hin & Hh & Ho & Hver & -> & Hb & _ & Hi & Hu).
    destruct (consumed_sound _ _ _ _ _ _ c d _ _ (supersede_sound run_id current s Hs) Hin Hh Ho Hb
                (Hv _ _ _ Hver) Hi Hu) as [? ?].
    split; [done|]. etransitivity; [apply supersede_grows|done].
  - unfold consume_decision in H. destruct (consume_checks _ _ _ _ _ _ _) as [current|]; [|injection H as <- _; by split].
    destruct (consume_refusal _ _ _ _ _ _ _) as [[|expiry]|]; [|destruct (_ ≫= _) as [[]|]; [done|]|];
      injection H as <- _; try by split.
    split; [by apply supersede_sound|apply supersede_grows].
Qed.

(** ** Histories of calls *)
Inductive decision_call : Type :=
| Issue (uid : Z) (run_id : string) (fields : list (string * json)) (actions : list string)
    (context : AuthenticatedDecisionContext) (humans : list AuthorityPrincipal) (lifetime : timedelta)
    (now : datetime) (challenge : string)
| Consume (uid : Z) (run_id action submitted : string) (fields : list (string * json)) (challenge : string)
    (context : AuthenticatedDecisionContext) (humans : list AuthorityPrincipal)
    (verifier : datetime -> datetime -> result HumanDecision) (now : datetime)
    (release : option (HumanDecision -> result ()))
| Require (run_id action digest : string) (now : datetime).
Definition call (c : decision_call) (s : DecisionStore) : DecisionStore :=
  match c with
  | Issue uid r f a cx h l now ch => (issue_challenge uid r f a cx h l now ch s).1
  | Consume uid r a sub f ch cx h v now rel => (consume_decision uid r a sub f ch cx h v now rel s).1
  | Require r a digest now => (require_current_decision r a digest now s).1
  end.
(** Every decision object passed its own construction checks. *)
Definition well_verified (c : decision_call) : Prop :=
  match c with Consume _ _ _ _ _ _ _ _ v _ _ => verified v | _ => True end.
Definition calls (l : list decision_call) (s : DecisionStore) : DecisionStore := foldl (fun s c => call c s) s l.
Lemma calls_sound l s : Forall well_verified l -> sound_store s -> sound_store (calls l s) /\ grows s (calls l s).
Proof.
  intros Hl. revert s. induction Hl as [|c l Hc _ IH]; intros s Hs; [by split|].
  assert (sound_store (call c s) /\ grows s (call c s)) as [Hs' Hg].
  { destruct c; cbn [call]; [by apply issue_sound|by apply consume_sound|by apply require_sound]. }
  destruct (IH _ Hs') as [? ?]. split; [done|]. by etransitivity.
Qed.
Lemma empty_sound : sound_store empty_store.
Proof.
  constructor; cbn; try (apply NoDup_nil_2); intros ? H; by apply elem_of_nil in H. Qed.

(** C32: From an empty store, whatever challenges are issued, consumed or checked and
    whatever fails in between, the tables stay sound: every decision is backed by exactly
    the challenge it used (same run, principal, user id, terminal and subject, an action the
    challenge lists, decided inside its lifetime and expiring no later), a challenge is
    marked consumed only together with its decision, no challenge and no decision id occurs
    twice; and rows are only added, retired once or consumed once. *)
Theorem decision_histories_sound l l' : Forall well_verified l -> Forall well_verified l' ->
  sound_store (calls l empty_store) /\
  grows (calls l empty_store) (calls (l ++ l') empty_store) /\ sound_store (calls (l ++ l') empty_store).
Proof.
  intros Hl Hl'. destruct (calls_sound l _ Hl empty_sound) as [Hs _].
  assert (calls (l ++ l') empty_store = calls l' (calls l empty_store)) as -> by (unfold calls; by rewrite foldl_app).
  by destruct (calls_sound l' _ Hl' Hs).
Qed.

(** ** A challenge is used once *)
Lemma consumed_find s s' c h : sound_store s' -> grows s s' -> c ∈ ds_challenges s -> ch_hash c = h ->
  ch_consumed_at c <> None -> forall c', c' ∈ ds_challenges s' -> ch_hash c' = h -> ch_consumed_at c' <> None.
Proof.
  intros Hs' [_ (old & new & He & Hf)] Hin Hh Hn c' Hin' Hh'.
  apply list_elem_of_lookup in Hin as [i Hi]. destruct (Forall2_lookup_l _ _ _ _ _ Hf Hi) as (c2 & Hc2 & Hk).
  assert (c2 ∈ ds_challenges s') as Hin2.
  { rewrite He. apply elem_of_app. left. by apply list_elem_of_lookup_2 in Hc2. }
  assert (c' = c2) as ->.
  { apply (NoDup_map_inj ch_hash (ds_challenges s')); [apply Hs'|done..|]. rewrite (kept_hash _ _ Hk). congruence. }
  destruct Hk as (_ & _ & _ & [[? _]|[-> _]]); done.
Qed.
Lemma retired_unchanged r D c : ch_superseded_by (retire_challenge r D c) = None -> retire_challenge r D c = c.
Proof. unfold retire_challenge. by destruct (_ && _). Qed.
Lemma consumed_marks h row s c : c ∈ ds_challenges s -> ch_hash c = h -> ch_consumed_at c = None ->
  exists c', c' ∈ ds_challenges (consumed_store h row s) /\ ch_hash c' = h /\ ch_consumed_at c' <> None.
Proof.
  intros Hin Hh Hn. exists (consume_row h (dr_decided_at row) (dr_id row) c).
  split; [apply list_elem_of_fmap; by exists c|]. unfold consume_row.
  by rewrite (proj2 (String.eqb_eq _ _) Hh), bool_decide_eq_true_2.
Qed.

(** Once a challenge authorised a decision it authorises nothing else: after any
    later history, consuming it again fails, whoever asks, for whatever run, action,
    subject, instant and verifier. *)
Theorem challenge_single_use l l' uid run_id action submitted fields challenge context humans verifier now
    release s' d :
  Forall well_verified l -> verified verifier -> Forall well_verified l' ->
  consume_decision uid run_id action submitted fields challenge context humans verifier now release
    (calls l empty_store) = (s', Ok d) ->
  forall uid' run_id' action' submitted' fields' context' humans' verifier' now' release', exists e,
    (consume_decision uid' run_id' action' submitted' fields' challenge context' humans' verifier' now' release'
       (calls l' s')).2 = Err e.
Proof.
  intros Hl Hv Hl' H uid' run_id' action' submitted' fields' context' humans' verifier' now' release'.
  destruct (calls_sound l _ Hl empty_sound) as [Hs _].
  pose proof (consume_sound uid run_id action submitted fields challenge context humans verifier now release
    _ Hv Hs) as [Hs' _]. rewrite H in Hs'. cbn [fst] in Hs'.
  destruct (calls_sound l' _ Hl' Hs') as [Hs2 Hg].
  apply consume_accepted in H as (current & expiry & c & _ & _ & Hin & Hh & Ho & _ & He & _).
  destruct (consumed_marks _ (decision_row (sha256_hex (utf8 challenge)) run_id action current now context d) _ c
    Hin Hh (of_unused _ _ _ _ _ _ _ Ho)) as (c1 & Hin1 & Hh1 & Hc1). rewrite <- He in Hin1.
  destruct (consume_decision _ _ _ _ _ _ _ _ _ _ _ _) as [s3 [d'|e]] eqn:H'; [exfalso|by exists e].
  apply consume_accepted in H' as (current' & expiry' & c' & _ & _ & Hin' & Hh' & Ho' & _).
  apply list_elem_of_fmap in Hin' as (c2 & -> & Hin2). destruct Ho' as [_ _ _ _ _ Hunused [Hsup _] _ _].
  rewrite (retired_unchanged _ _ _ Hsup) in Hunused, Hh'.
  by apply (consumed_find s' _ c1 _ Hs2 Hg Hin1 Hh1 Hc1 c2 Hin2 Hh').
Qed.

(** ** A changed subject ends the authority of earlier decisions *)
(** The run and the current subject a completed call compared the tables with. *)
Definition observes (c : decision_call) (s : DecisionStore) : option (string * string) :=
  match c with
  | Issue uid r f a cx h l now ch =>
      match (issue_challenge uid r f a cx h l now ch s).2 with
      | Ok ic => Some (r, ic_subject_digest ic) | Err _ => None end
  | Consume uid r a sub f ch cx h v now rel =>
      match (consume_decision uid r a sub f ch cx h v now rel s).2 with
      | Ok d => Some (r, hd_subject_digest d) | Err _ => None end
  | Require r a digest now => if tz_aware now then Some (r, digest) else None
  end.
Definition retired_but (r D : string) (s : DecisionStore) : Prop :=
  forall d, d ∈ ds_decisions s -> dr_run_id d = r -> dr_subject_digest d <> D -> dr_superseded_by d <> None.
Lemma retire_decision_marks r D d : dr_run_id (retire_decision r D d) = r ->
  dr_subject_digest (retire_decision r D d) <> D -> dr_superseded_by (retire_decision r D d) <> None.
Proof.
  unfold retire_decision. destruct (_ && _) eqn:H; [done|]. intros Hr Hd Hs.
  rewrite (bool_decide_eq_true_2 _ Hr), (bool_decide_eq_false_2 _ Hd), (bool_decide_eq_true_2 _ Hs) in H. done.
Qed.
Lemma supersede_retires r D s : retired_but r D (supersede_subjects r D s).
Proof. intros d' (d & -> & _)%list_elem_of_fmap. apply retire_decision_marks. Qed.
Lemma observed_retired c s r D : observes c s = Some (r, D) -> retired_but r D (call c s).
Proof.
  destruct c; cbn [observes call].
  - unfold issue_challenge. destruct (issue_checks _ _ _ _ _ _ _ _) as [digest|]; [|done].
    destruct (insert_challenge _ _) as [s'|] eqn:Hi; [|done]. cbn. intros [= <- <-].
    unfold insert_challenge in Hi. inv_ok. intros d. apply supersede_retires.
  - destruct (consume_decision _ _ _ _ _ _ _ _ _ _ _ _) as [s' [d|]] eqn:H; [|done]. intros [= <- <-].
    apply consume_accepted in H as (current & expiry & c & _ & _ & _ & _ & _ & _ & -> & Hb & _).
    apply check_binding_Ok in Hb as (_ & _ & -> & _). cbn [fst consumed_store].
    intros x [Hx| ->%list_elem_of_singleton]%elem_of_app; [by apply (supersede_retires _ _ s)|done].
  - unfold require_current_decision, checked_time, raise_if. destruct (tz_aware now); [|done].
    intros [= <- <-]. apply supersede_retires.
Qed.
(** What [require_current_decision] returns. *)
Lemma first_current_Ok D now rows d : first_current D now rows = Ok d -> exists row, row ∈ rows /\
  dr_subject_digest row = D /\ dr_superseded_by row = None /\ decision_from_row row = Ok d /\
  dt_lt now (hd_expires_at d) = Ok true /\ dt_lt now (hd_decided_at d) = Ok false.
Proof.
  induction rows as [|row rows IH]; [done|]. cbn [first_current].
  destruct (negb _ || negb _) eqn:Hg.
  { intros (x & Hx & ?)%IH. exists x. split; [by right|done]. }
  apply orb_false_iff in Hg as [Hd%negb_false_iff Hs%negb_false_iff].
  apply String.eqb_eq in Hd. apply bool_decide_eq_true_1 in Hs. intros H.
  apply bind_Ok in H as (d' & Hr & H). apply bind_Ok in H as (live & Hl & H). apply bind_Ok in H as (early & He & H).
  apply raise_if_Ok in H as [[Hlive Hearly]%orb_false_iff [= <-]]. apply negb_false_iff in Hlive. subst.
  exists row. split_and!; [left|done..].
Qed.
Lemma decision_from_row_fields r d : decision_from_row r = Ok d ->
  human_decision_post_init d = Ok d /\ hd_id d = dr_id r /\ hd_run_id d = dr_run_id r /\
  hd_principal d = dr_principal r /\ hd_action d = dr_action r /\ hd_subject_digest d = dr_subject_digest r.
Proof.
  unfold decision_from_row. intros H. apply bind_Ok in H as (dg & _ & H).
  apply bind_Ok in H as (a & _ & H). apply bind_Ok in H as (b & _ & H).
  assert (Hself : forall x y, human_decision_post_init x = Ok y -> x = y) by (unfold human_decision_post_init; intros; by inv_ok).
  pose proof (Hself _ _ H) as He. rewrite He in H. split; [done|]. by subst d.
Qed.
Lemma require_decision_Ok run_id action D now s s' d : require_current_decision run_id action D now s = (s', Ok d) ->
  exists row, row ∈ ds_decisions s' /\ s' = supersede_subjects run_id D s /\ dr_run_id row = run_id /\
    dr_action row = action /\ dr_subject_digest row = D /\ dr_superseded_by row = None /\
    decision_from_row row = Ok d /\ dt_lt now (hd_expires_at d) = Ok true /\ dt_lt now (hd_decided_at d) = Ok false.
Proof.
  unfold require_current_decision. destruct (checked_time now); [|done].
  destruct (bool_decide _); [done|]. intros [= <- H].
  apply first_current_Ok in H as (row & Hin & HD & Hs & Hr & Hl & He).
  apply elem_of_reverse, list_elem_of_In, filter_In in Hin as [Hin%list_elem_of_In Hf].
  apply andb_true_iff in Hf as [Hrun%String.eqb_eq Hact%String.eqb_eq].
  exists row. split_and!; done.
Qed.
Lemma retired_stays r D s s' i row : sound_store s' -> grows s s' -> retired_but r D s ->
  i ∈ map dr_id (ds_decisions s) -> row ∈ ds_decisions s' -> dr_id row = i -> dr_run_id row = r ->
  dr_subject_digest row <> D -> dr_superseded_by row <> None.
Proof.
  intros Hs [(old & new & He & Hf) _] Hret (d & Hid & Hin)%list_elem_of_fmap Hrow Hi Hr HD.
  pose proof Hin as Hd. apply list_elem_of_lookup in Hin as [j Hj].
  destruct (Forall2_lookup_l _ _ _ _ _ Hf Hj) as (d' & Hd' & Hk).
  assert (d' ∈ ds_decisions s') as Hin'.
  { rewrite He. apply elem_of_app. left. by apply list_elem_of_lookup_2 in Hd'. }
  assert (row = d') as ->.
  { apply (NoDup_map_inj dr_id (ds_decisions s')); [apply Hs|done..|]. destruct (kept_id _ _ Hk). congruence. }
  destruct Hk as (H1 & _ & _ & Hsup). injection H1 as _ _ ? _ _ ?.
  assert (dr_superseded_by d <> None) by (apply Hret; congruence). destruct Hsup as [?|Hsup]; congruence.
Qed.
(** [require_current_decision] answers only with a stored decision of the asked run,
    action and subject that nothing retired, at an instant inside its lifetime; and once a
    completed call compared a run with a current subject, no decision recorded before it
    for another subject of that run is ever returned again, even if the subject is later
    changed back. *)
Theorem changed_subject_retires l c l' run_id action D now s' d :
  Forall well_verified (l ++ c :: l') ->
  let before := calls l empty_store in
  let after := calls l' (call c before) in
  require_current_decision run_id action D now after = (s', Ok d) ->
  (exists row, row ∈ ds_decisions s' /\ dr_id row = hd_id d /\ dr_superseded_by row = None) /\
  (hd_run_id d, hd_action d, hd_subject_digest d) = (run_id, action, D) /\
  dt_lt now (hd_expires_at d) = Ok true /\ dt_lt now (hd_decided_at d) = Ok false /\
  (forall D', observes c before = Some (run_id, D') -> D <> D' -> hd_id d ∉ map dr_id (ds_decisions before)).
Proof.
  intros Hall before after H. apply Forall_app in Hall as [Hl Hall]. apply Forall_cons in Hall as [Hc Hl'].
  destruct (calls_sound l _ Hl empty_sound) as [Hb _].
  destruct (calls_sound [c] _ (proj2 (Forall_singleton _ _) Hc) Hb) as [Hm Hgm].
  destruct (calls_sound l' _ Hl' Hm) as [Ha Hga].
  pose proof (require_sound run_id action D now after Ha) as [Hs' Hgs]. rewrite H in Hs', Hgs. cbn [fst] in *.
  apply require_decision_Ok in H as (row & Hin & He & Hrun & Hact & HD & Hsup & Hrow & Hlive & Hearly).
  destruct (decision_from_row_fields _ _ Hrow) as (_ & Hid & Hr & _ & Hac & Hsd).
  split; [by exists row|]. split; [congruence|]. split; [done|]. split; [done|].
  intros D' Ho Hne Hold. apply observed_retired in Ho.
  apply (retired_stays run_id D' (call c before) s' (hd_id d) row); try done.
  - by etransitivity.
  - destruct Hgm as [(old & new & Heq & Hf) _]. cbn in Heq. fold before in Heq, Hf. unfold before in Hold.
    change (calls [c] (calls l empty_store)) with (call c before) in Heq. rewrite Heq, map_app. apply elem_of_app. left.
    apply list_elem_of_fmap in Hold as (x & Hx & Hin0). apply list_elem_of_lookup in Hin0 as [j Hj].
    destruct (Forall2_lookup_l _ _ _ _ _ Hf Hj) as (x' & Hx' & Hk). apply list_elem_of_fmap. exists x'.
    split; [|by apply list_elem_of_lookup_2 in Hx']. destruct (kept_id _ _ Hk). congruence.
  - congruence.
Qed.

(** ** What a consumed decision rests on *)
Lemma authenticate_Ok uid context humans : authenticate_context uid context humans = Ok () ->
  ap_principal_type (dc_principal context) = HUMAN /\ dc_principal context ∈ humans /\ dc_os_uid context = uid.
Proof.
  unfold authenticate_context. rewrite !raise_if_Ok, !orb_false_iff, !negb_false_iff.
  intros [(((((? & _) & ?) & _) & _) & _) [? _]].
  rewrite bool_decide_eq_true in *. by rewrite Z.eqb_eq in *.
Qed.
Lemma record_approval_fields g id s approvers q exp t g' r :
  record_approval g id s approvers q exp t = Ok (g', r) ->
  enforce_request s = Ok () /\ separated s approvers (registered_human_ids g) /\
  schema_digest s = Ok (ar_schema_digest r) /\ ar_normalized_inputs r = canonical_inputs s /\
  ar_decided_at r = t /\ ar_outcome r = APPROVED.
Proof.
  unfold record_approval. intros H. apply raise_if_Ok in H as [_ H]. apply raise_if_Ok in H as [_ H].
  apply bind_Ok in H as (early & _ & H). apply raise_if_Ok in H as [_ H]. unfold record_decision in H.
  apply bind_unit_Ok in H as [He H]. apply bind_unit_Ok in H as [Ha H]. apply bind_Ok in H as (dg & Hd & H).
  apply bind_Ok in H as (r' & Hr & [= <- <-]).
  assert (Hself : forall x y, approval_record_post_init x = Ok y -> x = y)
    by (unfold approval_record_post_init; intros; by inv_ok).
  apply Hself in Hr as <-. by split_and!; [|apply enforce_approval_Ok|..].
Qed.
Lemma verify_Ok uid run_id action digest fields context humans schema reason id t e d :
  verify uid run_id action digest fields context humans schema reason id t e = Ok d ->
  human_decision_post_init d = Ok d /\ policy_action action = Ok (ps_action schema) /\
  ps_work_snapshot schema = Some digest /\ ps_target_resource schema = Some run_id /\
  enforce_request schema = Ok () /\ (exists ids, separated schema [dc_principal context] ids) /\
  schema_digest schema = Ok (hd_schema_digest d) /\ hd_normalized_inputs d = canonical_inputs schema /\
  hd_decided_at d = t /\ hd_reason d = reason.
Proof.
  unfold verify. intros H. apply bind_unit_Ok in H as [_ H]. apply bind_Ok in H as (act & Hact & H).
  apply raise_if_Ok in H as [Ha H]. apply raise_if_Ok in H as [Hb H].
  apply bind_Ok in H as (expiry & _ & H). apply bind_Ok in H as (registry & _ & H).
  apply bind_Ok in H as ([g r] & Hr & H). apply record_approval_fields in Hr as (? & ? & ? & ? & ? & _).
  assert (Hself : forall x y, human_decision_post_init x = Ok y -> x = y) by (unfold human_decision_post_init; intros; by inv_ok).
  pose proof (Hself _ _ H) as He. rewrite He in H. split; [done|]. subst d. cbn.
  rewrite !orb_false_iff, !negb_false_iff, !bool_decide_eq_true in *. destruct Hb.
  split_and!; try done; [congruence|by eexists].
Qed.
Lemma decision_verifier_verified uid run_id action fields context humans schema reason id verifier :
  decision_verifier uid run_id action fields context humans schema reason id = Ok verifier -> verified verifier.
Proof.
  unfold decision_verifier. intros H. apply bind_Ok in H as (digest & _ & [= <-]).
  intros t e d Hv. by apply verify_Ok in Hv as (? & _).
Qed.
(** C33: A decision obtained through [decision_verifier] and an open challenge rests on all
    of it: the approver is a registered human at the process's own user id who neither
    requested nor produced the subject, the approved schema is for the action, the current
    subject digest and the run, a challenge the store held was neither consumed nor retired
    and listed the action, the instant is before its expiry and the decision expires no
    later than it, and the retained texts do not hold the challenge. *)
Theorem consumed_decision_rests_on_policy uid run_id action submitted fields challenge context humans schema reason
    id verifier now release s s' d :
  decision_verifier uid run_id action fields context humans schema reason id = Ok verifier ->
  consume_decision uid run_id action submitted fields challenge context humans verifier now release s = (s', Ok d) ->
  let approver := dc_principal context in
  (hd_principal d = approver /\ ap_principal_type approver = HUMAN /\ approver ∈ humans /\ dc_os_uid context = uid) /\
  (ap_id approver ∉ producer_ids schema /\ policy_action action = Ok (ps_action schema) /\
   enforce_request schema = Ok () /\ schema_digest schema = Ok (hd_schema_digest d) /\
   hd_normalized_inputs d = canonical_inputs schema) /\
  (subject_digest run_id fields = Ok submitted /\ hd_subject_digest d = submitted /\
   ps_work_snapshot schema = Some submitted /\ ps_target_resource schema = Some run_id) /\
  (exists c expiry, c ∈ ds_challenges s /\ ch_hash c = sha256_hex (utf8 challenge) /\
     ch_consumed_at c = None /\ ch_superseded_by c = None /\ action ∈ ch_actions c /\
     fromisoformat (ch_expires_at c) = Some expiry /\ dt_lt now expiry = Ok true /\
     dt_lt expiry (hd_expires_at d) = Ok false) /\
  hd_decided_at d = now /\ check_retained challenge d = Ok ().
Proof.
  intros Hv H approver. unfold decision_verifier in Hv. apply bind_Ok in Hv as (digest & Hdg & [= <-]).
  apply consume_accepted in H as (current & expiry & c & Hc & -> & Hin & Hh & Ho & Hd & _ & Hb & Hret & _).
  apply verify_Ok in Hd as (_ & Hact & Hw & Ht & He & (ids & _ & Hsep & _) & Hs & Hn & Hnow & _).
  apply check_binding_Ok in Hb as (_ & _ & Hsub & Hp & _ & _ & _ & Hlim & _).
  unfold consume_checks in Hc. apply bind_unit_Ok in Hc as [Hauth Hc]. apply bind_Ok in Hc as (? & _ & Hc).
  apply bind_Ok in Hc as (cur & Hcur & Hc). apply raise_if_Ok in Hc as [_ [= ->]].
  destruct (authenticate_Ok _ _ _ Hauth) as (? & ? & ?).
  destruct (Hsep approver) as [Hprod _]; [by apply list_elem_of_singleton|].
  assert (digest = current) as -> by congruence.
  apply list_elem_of_fmap in Hin as (c0 & -> & Hin0). destruct Ho as [_ _ _ _ Ha Hu [Hsup _] [Hx Hlive] _].
  pose proof (retired_unchanged _ _ _ Hsup) as Hsame. rewrite Hsame in *.
  split_and!; try done. by exists c0, expiry.
Qed.
End Decisions.

(** ** Witnesses *)
Module Demo.
#[local] Existing Instance IdentityProofs.toy_runtime.
#[local] Existing Instance IdentityProofs.toy_iso.
Definition authority : ReviewAuthority := {|
  ra_principal_id := "alice"; ra_os_user := "alice"; ra_os_uid := 501; ra_ttl_seconds := 600 |}.
Definition desk : AuthenticatedDecisionContext := {|
  dc_principal := review_principal authority; dc_os_uid := 501; dc_tty_name := "/dev/ttys001" |}.
Definition subject (head : string) : list (string * json) :=
  [("run_id", JStr "run-1"); ("request_digest", JStr "sha256:1");
   ("configuration_snapshot_digest", JStr "sha256:2"); ("base_revision", JStr "b0");
   ("head_revision", JStr head); ("diff_digest", JStr "sha256:3");
   ("evidence_receipt_digests", JList []); ("ci_evidence_digest", JNull); ("findings", JList [])].
Definition digest_of (fields : list (string * json)) : string :=
  match subject_digest "run-1" fields with Ok d => d | Err _ => "" end.
Definition schema (fields : list (string * json)) : ApprovalSchema := {|
  ps_action := POLICY_OVERRIDE;
  ps_work_kind := None; ps_risk_class := None; ps_repository := None; ps_changed_paths := None;
  ps_requested_capability := None; ps_workflow_version := None; ps_policy_version := None;
  ps_evidence_status := None; ps_retry_consumption := None; ps_budget_consumption := None;
  ps_validation_profile := None; ps_release_type := None; ps_credential_request := None;
  ps_prior_interventions := None; ps_external_protection_state := None;
  ps_work_snapshot := Some (digest_of fields);
  ps_effective_configuration := None; ps_adapter_locks := None; ps_capability_locks := None;
  ps_target_resource := Some "run-1"; ps_diff_or_artifact_digest := None;
  ps_acceptance_criteria_snapshot := None; ps_evidence_bundle_digest := None;
  ps_requesting_principal_id := Some "agent-1"; ps_producer_principal_ids := None;
  ps_credential_delivery_target := None; ps_agent_authored_executable := None;
  ps_retry_after_ambiguous_effect := None; ps_reconciliation_complete := None;
  ps_mutates_active_factory_asset := None; ps_candidate_received_held_out_input := None;
  ps_candidate_affects_protected_control := None; ps_canary_target := None;
  ps_override_reason := Some "wait"; ps_override_scope := Some ["run-1"];
  ps_override_expires_at := Some (Aware 900000000);
  ps_capability_introduced_by_run := None |}.
Definition no_verifier (t e : datetime) : result HumanDecision := Err PyValueError.
Definition decide_as (id : string) : result (datetime -> datetime -> result HumanDecision) :=
  decision_verifier 501 "run-1" "human_wait.review.approve" (subject "h1") desk [review_principal authority]
    (schema (subject "h1")) "looks right" id.
Definition verifier_for (id : string) : datetime -> datetime -> result HumanDecision :=
  match decide_as id with Ok v => v | Err _ => no_verifier end.
Lemma verifier_made id : is_ok (decide_as id) = true -> decide_as id = Ok (verifier_for id).
Proof. unfold verifier_for. by destruct (decide_as id). Qed.
Lemma verifier_verified id : is_ok (decide_as id) = true -> verified (verifier_for id).
Proof. intros H. by apply verifier_made, decision_verifier_verified in H. Qed.
(** A nonce of sixty-four hexadecimal characters. *)
Definition nonce (c : N) : string := of_chars (chr c :: replicate 63 (chr 97)).
Definition issue (c : N) (now : Z) : decision_call :=
  Issue 501 "run-1" (subject "h1") ["human_wait.review.approve"] desk [review_principal authority]
    600000000 (Aware now) (nonce c).
Definition consume (c : N) (now : Z) (id : string) : decision_call :=
  Consume 501 "run-1" "human_wait.review.approve" (digest_of (subject "h1")) (subject "h1") (nonce c) desk
    [review_principal authority] (verifier_for id) (Aware now) None.
Definition require_at (head : string) (now : Z) : decision_call :=
  Require "run-1" "human_wait.review.approve" (digest_of (subject head)) (Aware now).
Definition consumed (c : N) (now : Z) (id : string) : DecisionStore -> DecisionStore * result HumanDecision :=
  consume_decision 501 "run-1" "human_wait.review.approve" (digest_of (subject "h1")) (subject "h1") (nonce c) desk
    [review_principal authority] (verifier_for id) (Aware now) None.
Definition some_decision (r : result HumanDecision) : HumanDecision :=
  match r with Ok d => d | Err _ => {|
    hd_id := ""; hd_run_id := ""; hd_principal := review_principal authority; hd_action := "";
    hd_subject_digest := ""; hd_subject_fields := []; hd_os_uid := 0; hd_tty_name := "";
    hd_decided_at := Aware 0; hd_expires_at := Aware 0;
    hd_schema_digest := {| algorithm := ""; hex_value := "" |}; hd_normalized_inputs := [];
    hd_reason := ""; hd_superseded_by := None |} end.
Lemma answered {S} (p : S * result HumanDecision) : is_ok p.2 = true -> p = (p.1, Ok (some_decision p.2)).
Proof. by destruct p as [s [d|e]]. Qed.
Lemma histories_verified : Forall well_verified [issue 97 0; consume 97 5 "approval-1"] /\
  Forall well_verified [require_at "h2" 6; issue 98 7; consume 98 8 "approval-2"].
Proof. by repeat constructor; apply verifier_verified; vm_compute. Qed.
Lemma decision_histories_sound_witness :
  sound_store (calls [issue 97 0; consume 97 5 "approval-1"] empty_store) /\
  length (ds_decisions (calls [issue 97 0; consume 97 5 "approval-1"] empty_store)) = 1%nat.
Proof.
  destruct histories_verified as [H H'].
  split; [exact (proj1 (decision_histories_sound _ _ H H'))|vm_compute; reflexivity].
Defined.
Definition first : DecisionStore * result HumanDecision :=
  consumed 97 5 "approval-1" (calls [issue 97 0] empty_store).
Lemma one_issue : Forall well_verified [issue 97 0].
Proof. by repeat constructor. Qed.
Lemma two_requires : Forall well_verified [require_at "h2" 6; require_at "h1" 7].
Proof. by repeat constructor. Qed.
Lemma challenge_single_use_witness : exists e,
  (consumed 97 9 "approval-3" (calls [require_at "h2" 6; require_at "h1" 7] first.1)).2 = Err e.
Proof.
  assert (Hok : is_ok first.2 = true) by (vm_compute; reflexivity).
  assert (Hv : verified (verifier_for "approval-1")) by (apply verifier_verified; vm_compute; reflexivity).
  pose proof (challenge_single_use [issue 97 0] [require_at "h2" 6; require_at "h1" 7] 501 "run-1"
    "human_wait.review.approve" (digest_of (subject "h1")) (subject "h1") (nonce 97) desk
    [review_principal authority] (verifier_for "approval-1") (Aware 5) None first.1 (some_decision first.2)
    one_issue Hv two_requires) as Hc.
  specialize (Hc (answered first Hok)). unfold consumed. exact (Hc _ _ _ _ _ _ _ _ _ _).
Defined.
(** The subject is changed and changed back: the earlier decision is not returned. *)
Local Notation changed_back := (calls [issue 98 7; consume 98 8 "approval-2"]
  (call (require_at "h2" 6) (calls [issue 97 0; consume 97 5 "approval-1"] empty_store))) (only parsing).
Local Notation asked := (require_current_decision "run-1" "human_wait.review.approve" (digest_of (subject "h1"))
  (Aware 9) changed_back) (only parsing).
Lemma changed_subject_retires_witness :
  hd_id (some_decision asked.2) = "approval-2" /\
  hd_id (some_decision asked.2) ∉
    map dr_id (ds_decisions (calls [issue 97 0; consume 97 5 "approval-1"] empty_store)).
Proof.
  split; [vm_compute; reflexivity|].
  assert (Hok : is_ok asked.2 = true) by (vm_compute; reflexivity).
  destruct histories_verified as [H H'].
  pose proof (changed_subject_retires [issue 97 0; consume 97 5 "approval-1"] (require_at "h2" 6)
    [issue 98 7; consume 98 8 "approval-2"] "run-1" "human_wait.review.approve" (digest_of (subject "h1")) (Aware 9)
    asked.1 (some_decision asked.2) (Forall_app_2 _ _ _ H H')) as Hc.
  cbv zeta in Hc. specialize (Hc (answered asked Hok)).
  destruct Hc as (_ & _ & _ & _ & Hold).
  apply (Hold (digest_of (subject "h2"))); vm_compute; [reflexivity|discriminate].
Defined.
Lemma consumed_decision_rests_on_policy_witness :
  hd_subject_digest (some_decision (consumed 97 5 "approval-1" (calls [issue 97 0] empty_store)).2) =
    digest_of (subject "h1").
Proof.
  assert (Hok : is_ok (consumed 97 5 "approval-1" (calls [issue 97 0] empty_store)).2 = true) by (vm_compute; reflexivity).
  assert (Hm : is_ok (decide_as "approval-1") = true) by (vm_compute; reflexivity).
  exact (proj1 (proj2 (proj1 (proj2 (proj2 (consumed_decision_rests_on_policy _ _ _ _ _ _ _ _ _ _ _ _ _ _ _ _ _
    (verifier_made "approval-1" Hm) (answered _ Hok))))))).
Defined.
End Demo.
