(* ===== verification/OperatorControl.v ===== *)
(** * Operator control ([engine/operator_control.py])

    The durable pause flag and the selected runner: one process-manager record written
    together with an auditable event.  Draining workers and opening the store are process
    and file work. *)
From S2P Require Import Prelude PyText Json Identity Redaction Ledger Coordinator Runtime.

Definition OPERATOR_CONTROL_MANAGER : string := "operator-control".
Definition CONTROL_STATE_KEY : string := "control".
Definition CONTROL_AGGREGATE_TYPE : string := "operator_control".
Definition CONTROL_AGGREGATE_ID : string := "control".
Definition CONTROL_SCHEMA_VERSION : Z := 1.

(** [_clean_reason], [_mapping], [_text], [_optional_text] *)
Definition clean_reason (reason : option string) : result (option string) :=
  match reason with
  | None => Ok None
  | Some r =>
      let r := py_strip r in
      raise_when String.eqb r "" || (500 <? py_len r)%Z ||
                 existsb (fun c => bool_decide (c = Ascii.ascii_of_N 10)) (chars r) as InvalidInputError ;;
      Ok (Some r)
  end.
Definition control_mapping (value : option json) : result (list (string * json)) :=
  match value with Some (JObj m) => Ok m | _ => Err InvalidInputError end.
Definition control_text (state : list (string * json)) (key : string) : result string :=
  match dict_get key state with
  | Some (JStr s) => raise_when blank s as InvalidInputError ;; Ok s
  | _ => Err InvalidInputError
  end.
Definition control_optional_text (state : list (string * json)) (key : string) : result (option string) :=
  match dict_get key state with
  | None | Some JNull => Ok None
  | Some (JStr s) => Ok (Some s)
  | _ => Err InvalidInputError
  end.

(** ** The selected runner *)
Record SelectedRunner := {
  sr_image : string; sr_docker_context : option string; sr_profile : string;
  sr_profile_digest : string; sr_engine : list (string * json);
  sr_image_identity : list (string * json); sr_selected_at : string }.
Definition opt_text_json (o : option string) : json := from_option JStr JNull o.
Definition runner_to_state (r : SelectedRunner) : list (string * json) :=
  [("image", JStr (sr_image r)); ("docker_context", opt_text_json (sr_docker_context r));
   ("profile", JStr (sr_profile r)); ("profile_digest", JStr (sr_profile_digest r));
   ("engine", JObj (sr_engine r)); ("image_identity", JObj (sr_image_identity r));
   ("selected_at", JStr (sr_selected_at r))].
Definition runner_from_state (state : json) : result SelectedRunner :=
  data ← control_mapping (Some state);
  context ← control_optional_text data "docker_context";
  image ← control_text data "image";
  profile ← control_text data "profile";
  profile_digest ← control_text data "profile_digest";
  engine ← control_mapping (dict_get "engine" data);
  image_identity ← control_mapping (dict_get "image_identity" data);
  selected_at ← control_text data "selected_at";
  Ok {| sr_image := image; sr_docker_context := context; sr_profile := profile;
        sr_profile_digest := profile_digest; sr_engine := engine;
        sr_image_identity := image_identity; sr_selected_at := selected_at |}.

(** ** The control state *)
Record ControlState := {
  cs_paused : bool; cs_changed_at : option string; cs_reason : option string;
  cs_selected_runner : option SelectedRunner; cs_state_version : Z }.
Definition default_control : ControlState := {|
  cs_paused := false; cs_changed_at := None; cs_reason := None; cs_selected_runner := None;
  cs_state_version := 0 |}.
Definition control_of_record (record : PmRow) : result ControlState :=
  state ← control_mapping (Some (pm_state record));
  raise_when negb (from_option (fun v => json_eqb v (JInt CONTROL_SCHEMA_VERSION)) false
                     (dict_get "schema_version" state)) as InvalidInputError ;;
  paused ← (match dict_get "paused" state with Some (JBool b) => Ok b | _ => Err InvalidInputError end);
  changed_at ← control_optional_text state "changed_at";
  reason ← control_optional_text state "reason";
  selected ← (match dict_get "selected_runner" state with
              | None | Some JNull => Ok None
              | Some v => r ← runner_from_state v; Ok (Some r) end);
  Ok {| cs_paused := paused; cs_changed_at := changed_at; cs_reason := reason;
        cs_selected_runner := selected; cs_state_version := pm_version record |}.
Definition read_control_state (s : Ledger) : result ControlState :=
  match read_process_manager_state OPERATOR_CONTROL_MANAGER CONTROL_STATE_KEY s with
  | None => Ok default_control
  | Some record => control_of_record record
  end.
Definition require_dispatch_allowed (s : Ledger) : result () :=
  state ← read_control_state s;
  raise_when cs_paused state as HumanActionRequiredError ;; Ok ().

Section Control.
Context `{rt : PyRuntime} `{iso : IsoCodec}.

Definition control_payload (paused : bool) (now : datetime) (reason : option string)
    (selected_runner : option SelectedRunner) : list (string * json) :=
  [("schema_version", JInt CONTROL_SCHEMA_VERSION); ("paused", JBool paused);
   ("changed_at", JStr (isoformat now)); ("reason", opt_text_json reason);
   ("selected_runner", from_option (fun r => JObj (runner_to_state r)) JNull selected_runner)].
(** [_write]: the event and the record in one append. *)
Definition control_write (clock : string) (previous : ControlState) (event_type : string) (now : datetime)
    (paused : bool) (reason : option string) (selected_runner : option SelectedRunner)
    : tx (ControlState * bool) :=
  _ ← lift (raise_when negb (tz_aware now) as InvalidInputError ;; Ok ());
  let state := control_payload paused now reason selected_runner in
  projection ← gets (read_projection CONTROL_AGGREGATE_TYPE CONTROL_AGGREGATE_ID);
  event ← lift (mk_event_write CONTROL_AGGREGATE_TYPE CONTROL_AGGREGATE_ID
                  (from_option pj_aggregate_version 0%Z projection) event_type state);
  update ← lift (mk_pm_write OPERATOR_CONTROL_MANAGER CONTROL_STATE_KEY (cs_state_version previous) state);
  command ← lift (mk_command ("operator-control:" +:+ pretty (cs_state_version previous + 1)%Z +:+ ":" +:+ event_type)
                    [event] None "processed" [update] []);
  r ← append clock None command;
  version ← lift (first_state_version r);
  mret ({| cs_paused := paused; cs_changed_at := Some (isoformat now); cs_reason := reason;
           cs_selected_runner := selected_runner; cs_state_version := version |}, true).
(** [OperatorControl.pause], [resume], [select_runner]: the state and whether it changed. *)
Definition operator_pause (clock : string) (now : datetime) (reason : option string)
    : tx (ControlState * bool) :=
  previous ← asks read_control_state;
  if cs_paused previous then mret (previous, false)
  else
    reason ← lift (clean_reason reason);
    control_write clock previous "operator.paused" now true reason (cs_selected_runner previous).
Definition operator_resume (clock : string) (now : datetime) : tx (ControlState * bool) :=
  previous ← asks read_control_state;
  if negb (cs_paused previous) then mret (previous, false)
  else control_write clock previous "operator.resumed" now false None (cs_selected_runner previous).
Definition same_runner (a b : SelectedRunner) : bool :=
  String.eqb (sr_image a) (sr_image b) && bool_decide (sr_docker_context a = sr_docker_context b) &&
  String.eqb (sr_profile a) (sr_profile b).
Definition select_runner (clock : string) (runner : SelectedRunner) (now : datetime)
    : tx (ControlState * bool) :=
  previous ← asks read_control_state;
  if from_option (fun current => same_runner current runner) false (cs_selected_runner previous)
  then mret (previous, false)
  else control_write clock previous "operator.runner_selected" now (cs_paused previous)
         (cs_reason previous) (Some runner).
End Control.
