(* ===== verification/Workers.v ===== *)
(** * Worker supervision and recovery ([engine/supervisor.py], [engine/recovery.py],
      [application/worker_environment.py])

    What the operating system answers during one call (processes, signals, files, the
    container engine) is a [Host]; everything decided from the answers, and everything
    written to the ledger, is modelled.  Fault hooks, which only tests set, are left out. *)
From S2P Require Import Prelude PyText Json Identity Redaction Ledger Coordinator NodeLeases Runtime.

(** ** Environment allowlists *)
(** [str.upper] on U+0000..U+00FF.  The capitals of U+00B5 and U+00FF lie outside that
    range and match no pattern below, as the characters themselves do. *)
Definition upper_char (c : Ascii.ascii) : list Ascii.ascii :=
  let n := code c in
  (if (97 <=? n) && (n <=? 122) || (224 <=? n) && (n <=? 254) && negb (n =? 247)
   then [Ascii.ascii_of_N (n - 32)]
   else if n =? 223 then [Ascii.ascii_of_N 83; Ascii.ascii_of_N 83] else [c])%N.
Definition py_upper (s : string) : string := of_chars (concat (map upper_char (chars s))).
Definition CREDENTIAL_NAME_FRAGMENTS : list string :=
  ["TOKEN"; "SECRET"; "PASSWORD"; "PASSWD"; "PASSPHRASE"; "API_KEY"; "APIKEY"; "CREDENTIAL"; "PRIVATE_KEY"].
Definition CREDENTIAL_NAME_PREFIXES : list string :=
  ["GH_"; "GITHUB_"; "AWS_"; "AZURE_"; "GOOGLE_"; "UV_PUBLISH_"; "PYPI_"].
Definition CREDENTIAL_NAMES : list string := ["SSH_AUTH_SOCK"; "SSH_AGENT_PID"].
(** [part in text] *)
Fixpoint has_part (part l : list Ascii.ascii) : bool :=
  bool_decide (part `prefix_of` l) || match l with [] => false | _ :: l => has_part part l end.
Definition is_credential_shaped (name : string) : bool :=
  let upper := py_upper name in
  bool_decide (upper ∈ CREDENTIAL_NAMES) ||
  existsb (fun p => py_startswith p upper) CREDENTIAL_NAME_PREFIXES ||
  existsb (fun part => has_part (chars part) (chars upper)) CREDENTIAL_NAME_FRAGMENTS.
Definition check_environment_key (key : string) : result () :=
  raise_when blank key || negb (String.eqb key (py_strip key)) ||
             existsb (fun c => (code c =? 61) || (code c =? 0))%N (chars key) as InvalidInputError ;;
  raise_when is_credential_shaped key as InvalidInputError ;;
  Ok ().
Definition build_worker_environment (source : list (string * string)) (permitted_keys : list string)
    : result (list (string * string)) :=
  _ ← each_result check_environment_key permitted_keys;
  Ok (foldl (fun env key => match dict_get key source with
                            | Some v => dict_set key v env | None => env end) [] permitted_keys).

(** ** Identities *)
Definition SUPERVISOR_MANAGER : string := "worker-supervisor".
Definition IDENTITY_VERSION : Z := 2.
Definition MISMATCH : string := "start_identity_mismatch".
Record HostIdentity := { hi_machine_id : string; hi_boot_id : string; hi_hostname : string }.
Record ProcessIdentity := {
  pi_pid : Z; pi_process_group_id : Z; pi_start_identity : string; pi_host : option HostIdentity }.
Definition legacy (i : ProcessIdentity) : bool := match pi_host i with None => true | Some _ => false end.

Inductive Locality := LOCAL | REBOOTED | FOREIGN.
Inductive Presence := ABSENT | SAME | OTHER | UNPROVABLE.
Inductive WorkerLiveness :=
| LV_ALIVE | LV_EXITED | LV_PID_REUSED | LV_REBOOTED | LV_FOREIGN_HOST | LV_UNVERIFIABLE.
#[export] Instance WorkerLiveness_eq_dec : EqDecision WorkerLiveness.
Proof. solve_decision. Defined.
Definition liveness_value (l : WorkerLiveness) : string :=
  match l with
  | LV_ALIVE => "alive" | LV_EXITED => "exited" | LV_PID_REUSED => "pid_reused" | LV_REBOOTED => "rebooted"
  | LV_FOREIGN_HOST => "foreign_host" | LV_UNVERIFIABLE => "unverifiable" end.
Definition GONE : list WorkerLiveness := [LV_EXITED; LV_PID_REUSED; LV_REBOOTED].

(** ** What the operating system answers *)
(** The process holding a pid: none, one this user may not signal, or its group and the
    start text ([ps] or [/proc]). *)
Inductive ProcessAnswer :=
| PidFree | PidDenied | PidHeld (process_group_id : Z) (start : string).
Inductive Signal := SIGTERM | SIGKILL.
(** [lstat] of a path. *)
Inductive PathAnswer := PathMissing | PathUnreadable | PathDirectory | PathOther.
Record CloneAnswer := { cl_workspace : PathAnswer; cl_git : PathAnswer; cl_lock : PathAnswer }.
Record Host := {
  host_identity : result HostIdentity;
  host_pid : Z -> bool -> ProcessAnswer;
  host_pid_exists : Z -> bool;
  host_reaps : Z -> bool;
  host_group_empty : Z -> bool;
  host_group_exits : ProcessIdentity -> Signal -> bool;
  host_spawn : list string -> string -> option (list (string * string)) -> string + Z;
  host_container_gone : option (string -> result bool);
  host_git : string -> list string -> result (Z * string);
  host_is_dir : string -> bool;
  host_exists : string -> bool;
  host_clone : string -> CloneAnswer }.

(** [probe_process]: [Ok None] when no process holds the pid. *)
Definition probe_process (h : Host) (pid : Z) (inherited_environment : bool)
    : result (option ProcessIdentity) :=
  raise_when (pid <? 1)%Z as InvalidInputError ;;
  match host_pid h pid inherited_environment with
  | PidFree => Ok None
  | PidDenied => Err PyPermissionError
  | PidHeld group start =>
      if String.eqb start ""
      then if host_pid_exists h pid then Err InternalInvariantViolationError else Ok None
      else
        here ← host_identity h;
        Ok (Some {| pi_pid := pid; pi_process_group_id := group; pi_start_identity := start;
                    pi_host := Some here |})
  end.
Definition probe_like (h : Host) (recorded : ProcessIdentity) : result (option ProcessIdentity) :=
  probe_process h (pi_pid recorded) (legacy recorded).
Definition same_process (recorded observed : ProcessIdentity) : bool :=
  (pi_pid recorded =? pi_pid observed)%Z &&
  (pi_process_group_id recorded =? pi_process_group_id observed)%Z &&
  String.eqb (pi_start_identity recorded) (pi_start_identity observed).
Definition unproven (recorded : ProcessIdentity) : Presence :=
  if legacy recorded then UNPROVABLE else OTHER.
Definition probe_presence (h : Host) (recorded : ProcessIdentity) : result Presence :=
  match probe_like h recorded with
  | Err PyPermissionError => Ok (unproven recorded)
  | Err e => Err e
  | Ok None => Ok ABSENT
  | Ok (Some observed) => Ok (if same_process recorded observed then SAME else unproven recorded)
  end.
Definition require_provable (h : Host) (identity : ProcessIdentity) : result Presence :=
  presence ← probe_presence h identity;
  match presence with UNPROVABLE => Err HumanActionRequiredError | p => Ok p end.
Definition classify_locality (h : Host) (identity : ProcessIdentity) : result Locality :=
  match pi_host identity with
  | None => Ok LOCAL
  | Some recorded =>
      here ← host_identity h;
      if negb (String.eqb (hi_machine_id recorded) (hi_machine_id here)) then Ok FOREIGN
      else if negb (String.eqb (hi_boot_id recorded) (hi_boot_id here)) then Ok REBOOTED
      else Ok LOCAL
  end.
Definition is_local (h : Host) (identity : ProcessIdentity) : result bool :=
  locality ← classify_locality h identity;
  Ok (match locality with LOCAL => true | _ => false end).
Definition require_local (h : Host) (identity : ProcessIdentity) : result () :=
  local ← is_local h identity;
  raise_when negb local as HumanActionRequiredError ;; Ok ().
(** [_terminate_exact_group]: nothing is signalled unless the recorded process is there or
    its group lives on. *)
Definition terminate_exact_group (h : Host) (identity : ProcessIdentity) : result (option string) :=
  _ ← require_local h identity;
  presence ← require_provable h identity;
  match presence with
  | OTHER => Ok (Some MISMATCH)
  | _ =>
      if match presence with ABSENT => host_group_empty h (pi_process_group_id identity) | _ => false end
      then Ok None
      else if host_group_exits h identity SIGTERM then Ok None
      else if host_group_exits h identity SIGKILL then Ok None
      else Err InternalInvariantViolationError
  end.

(** ** Persisted identities *)
Definition int_field (key : string) (state : list (string * json)) : option Z := dict_get key state ≫= int_of.
Definition text_field (key : string) (state : list (string * json)) : option string :=
  match dict_get key state with Some (JStr s) => Some s | _ => None end.
Definition identity_from_state (state : list (string * json)) : result ProcessIdentity :=
  match int_field "pid" state, int_field "process_group_id" state, text_field "start_identity" state with
  | Some pid, Some group, Some start =>
      raise_when String.eqb start "" as InternalInvariantViolationError ;;
      match default JNull (dict_get "identity_version" state) with
      | JNull => Ok {| pi_pid := pid; pi_process_group_id := group; pi_start_identity := start; pi_host := None |}
      | version =>
          let hostname := match dict_get "hostname" state with
                          | None => Some "" | Some (JStr s) => Some s | Some _ => None end in
          match text_field "machine_id" state, text_field "boot_id" state, hostname with
          | Some machine, Some boot, Some name =>
              raise_when negb (json_eqb version (JInt IDENTITY_VERSION)) || String.eqb machine "" ||
                         String.eqb boot "" as InternalInvariantViolationError ;;
              Ok {| pi_pid := pid; pi_process_group_id := group; pi_start_identity := start;
                    pi_host := Some {| hi_machine_id := machine; hi_boot_id := boot; hi_hostname := name |} |}
          | _, _, _ => Err InternalInvariantViolationError
          end
      end
  | _, _, _ => Err InternalInvariantViolationError
  end.
Definition host_entries (h : HostIdentity) : list (string * json) :=
  [("identity_version", JInt IDENTITY_VERSION); ("machine_id", JStr (hi_machine_id h));
   ("boot_id", JStr (hi_boot_id h)); ("hostname", JStr (hi_hostname h))].
(** [_state] *)
Definition worker_state (l : FencedNodeLease) (identity : option ProcessIdentity) (status : string)
    : list (string * json) :=
  [("run_id", JStr (fl_run_id l)); ("node_id", JStr (fl_node_id l));
   ("attempt_id", JStr (fl_attempt_id l)); ("epoch", JInt (fl_epoch l));
   ("fencing_token", JInt (fl_fencing_token l)); ("operation_id", JStr (fl_operation_id l));
   ("status", JStr status)] ++
  match identity with
  | None => []
  | Some i =>
      [("pid", JInt (pi_pid i)); ("process_group_id", JInt (pi_process_group_id i));
       ("start_identity", JStr (pi_start_identity i))] ++ from_option host_entries [] (pi_host i)
  end.
(** [_key] *)
Definition worker_key (l : FencedNodeLease) : string := fl_run_id l +:+ ":" +:+ fl_node_id l.
(** [record.state] *)
Definition record_state (r : PmRow) : result (list (string * json)) :=
  match pm_state r with JObj m => Ok m | _ => Err PyAttributeError end.
(** [state.get("status") in {...}] *)
Definition has_status (state : list (string * json)) (allowed : list string) : result bool :=
  match dict_get "status" state with
  | Some (JList _) | Some (JObj _) => Err PyTypeError
  | Some (JStr s) => Ok (bool_decide (s ∈ allowed))
  | _ => Ok false
  end.
(** [state.get(key) == text] *)
Definition field_is (key text : string) (state : list (string * json)) : bool :=
  from_option (fun v => json_eqb v (JStr text)) false (dict_get key state).

Section Workers.
Context `{rt : PyRuntime} `{iso : IsoCodec}.

(** ** Records of a supervised worker *)
(** [_event]: the next event of the worker's aggregate. *)
Definition next_event (aggregate_type aggregate_id event_type : string) (payload : list (string * json))
    : tx EventWrite := fun s =>
  (s, mk_event_write aggregate_type aggregate_id
        (from_option pj_aggregate_version 0%Z (read_projection aggregate_type aggregate_id s))
        event_type payload).
(** One event, the epoch guard and one process-manager record in one append. *)
Definition commit_record (clock owner correlation_id : string) (epoch : Z) (now : datetime)
    (aggregate_type aggregate_id event_type manager key : string) (expected_version : Z)
    (state : list (string * json)) : tx AppendResult :=
  event ← next_event aggregate_type aggregate_id event_type state;
  guard ← epoch_guard owner epoch now;
  write ← lift (mk_pm_write manager key expected_version state);
  command ← lift (mk_command correlation_id [event] None "processed" [guard; write] []);
  append clock None command.
(** [result.process_manager_states[1].state_version] *)
Definition second_state_version (r : AppendResult) : result Z :=
  match re_process_manager_states r with _ :: (_, v) :: _ => Ok v | _ => Err PyIndexError end.
Definition lease_text (l : FencedNodeLease) : string :=
  fl_run_id l +:+ ":" +:+ fl_node_id l +:+ ":" +:+ pretty (fl_fencing_token l).
Definition record_worker (clock owner prefix : string) (epoch : Z) (now : datetime) (l : FencedNodeLease)
    (event_type : string) (expected_version : Z) (state : list (string * json)) : tx AppendResult :=
  commit_record clock owner (prefix +:+ ":" +:+ lease_text l) epoch now "worker" (worker_key l) event_type
    SUPERVISOR_MANAGER (worker_key l) expected_version state.
(** [_require_supervisor_record] *)
Definition require_supervisor_record (l : FencedNodeLease) (s : Ledger) : result PmRow :=
  from_option_err InternalInvariantViolationError
    (read_process_manager_state SUPERVISOR_MANAGER (worker_key l) s).

(** ** [WorkerSupervisor] *)
(** [_record_running], [_record_launch_failure] *)
Definition record_running (clock owner : string) (now : datetime) (l : FencedNodeLease)
    (identity : ProcessIdentity) (state_version : Z) : tx () :=
  _ ← record_worker clock owner "worker-start" (fl_epoch l) now l "worker.started" state_version
        (worker_state l (Some identity) "running");
  mret ().
Definition record_launch_failure (clock owner : string) (now : datetime) (l : FencedNodeLease)
    (state_version : Z) (error : string) : tx () :=
  _ ← record_worker clock owner "worker-launch-failed" (fl_epoch l) now l "worker.launch_failed" state_version
        (worker_state l None "launch_failed" ++ [("error", JStr error)]);
  mret ().
(** [start]: the intent is recorded before the process is spawned. *)
Definition supervisor_start (h : Host) (clock owner : string) (l : FencedNodeLease) (command : list string)
    (cwd : string) (environment : option (list (string * string))) (now : datetime) : tx ProcessIdentity :=
  _ ← lift (raise_when bool_decide (command = []) as InvalidInputError ;; Ok ());
  _ ← lift (host_identity h);
  prior ← gets (read_process_manager_state SUPERVISOR_MANAGER (worker_key l));
  reconciled ← lift match prior with
    | None => Ok true
    | Some r => state ← record_state r; Ok (field_is "status" "exit_reconciled" state) end;
  if negb reconciled then throw ExternalConflictError
  else
    r ← record_worker clock owner "worker-launch-intent" (fl_epoch l) now l "worker.launch_intended"
          (from_option pm_version 0%Z prior) (worker_state l None "launch_intended");
    version ← lift (second_state_version r);
    match host_spawn h command cwd environment with
    | inl error =>
        _ ← record_launch_failure clock owner now l version error;
        throw ExternalConflictError
    | inr pid =>
        observed ← lift (probe_process h pid false);
        identity ← lift (from_option_err InternalInvariantViolationError observed);
        _ ← record_running clock owner now l identity version;
        mret identity
    end.
(** [identity_for] *)
Definition identity_for (l : FencedNodeLease) (s : Ledger) : result ProcessIdentity :=
  record ← require_supervisor_record l s;
  state ← record_state record;
  identity_from_state state.
(** [_record_exit] *)
Definition record_exit (clock owner : string) (l : FencedNodeLease) (coordinator_epoch : Z)
    (identity : ProcessIdentity) (now : datetime) (event_type : string) (expected_version : Z)
    (reason : option string) : tx () :=
  _ ← record_worker clock owner event_type coordinator_epoch now l event_type expected_version
        (worker_state l (Some identity) "exit_observed" ++
         from_option (fun r => [("exit_reason", JStr r)]) [] reason);
  mret ().
(** The record a termination starts from: its version, a new request being recorded first. *)
Definition request_termination (clock owner : string) (l : FencedNodeLease) (identity : ProcessIdentity)
    (epoch : Z) (now : datetime) (record : PmRow) (state : list (string * json)) : tx Z :=
  if field_is "status" "running" state then
    r ← record_worker clock owner "worker-termination" epoch now l "worker.termination_requested"
          (pm_version record) (worker_state l (Some identity) "termination_requested");
    lift (second_state_version r)
  else if field_is "status" "termination_requested" state then mret (pm_version record)
  else throw ExternalConflictError.
Definition supervisor_cancel (h : Host) (clock owner : string) (l : FencedNodeLease)
    (identity : ProcessIdentity) (now : datetime) (coordinator_epoch : option Z) : tx () :=
  locality ← lift (classify_locality h identity);
  _ ← lift (match locality with FOREIGN => require_local h identity | _ => Ok () end);
  let epoch := default (fl_epoch l) coordinator_epoch in
  record ← asks (require_supervisor_record l);
  state ← lift (record_state record);
  done ← lift (has_status state ["exit_observed"; "exit_reconciled"]);
  if (done : bool) then mret ()
  else
    _ ← lift (match locality with LOCAL => _ ← require_provable h identity; Ok () | _ => Ok () end);
    version ← request_termination clock owner l identity epoch now record state;
    reason ← lift (match locality with
                   | REBOOTED => Ok (Some "worker_lost_to_reboot")
                   | _ => terminate_exact_group h identity end);
    record_exit clock owner l epoch identity now "worker.cancelled" version reason.
Definition cancel_persisted (h : Host) (clock owner : string) (l : FencedNodeLease) (now : datetime)
    (coordinator_epoch : option Z) : tx () :=
  record ← asks (require_supervisor_record l);
  identity ← lift (state ← record_state record; identity_from_state state);
  supervisor_cancel h clock owner l identity now coordinator_epoch.
(** [_append_supervisor_observation]: no epoch guard, since the epoch has lapsed. *)
Definition supervisor_observation (clock : string) (l : FencedNodeLease) (event_type : string)
    (state : list (string * json)) (expected_version : Z) : tx AppendResult :=
  event ← next_event "supervisor" (worker_key l) event_type state;
  write ← lift (mk_pm_write SUPERVISOR_MANAGER (worker_key l) expected_version state);
  command ← lift (mk_command (event_type +:+ ":" +:+ lease_text l) [event] None "processed" [write] []);
  append clock None command.
Definition lapsed (l : FencedNodeLease) (identity : ProcessIdentity) (status : string) : list (string * json) :=
  worker_state l (Some identity) status ++ [("reason", JStr "coordinator_heartbeat_expired")].
Definition enforce_heartbeat (h : Host) (clock : string) (l : FencedNodeLease) (identity : ProcessIdentity)
    (now : datetime) : tx bool :=
  current ← read_epoch;
  live ← lift match current with
    | Some c => if (ce_epoch c =? fl_epoch l)%Z then active_at c now else Ok false
    | None => Ok false end;
  if (live : bool) then mret false
  else
    _ ← lift (require_local h identity);
    _ ← lift (require_provable h identity);
    record ← asks (require_supervisor_record l);
    r ← supervisor_observation clock l "supervisor.termination_requested"
          (lapsed l identity "termination_requested") (pm_version record);
    _ ← lift (terminate_exact_group h identity);
    version ← lift (first_state_version r);
    _ ← supervisor_observation clock l "supervisor.process_exit_observed"
          (lapsed l identity "exit_observed") version;
    mret true.
(** [observe_exit]; nothing is signalled. *)
Definition observe_exit (h : Host) (clock owner : string) (l : FencedNodeLease) (coordinator_epoch : Z)
    (now : datetime) : tx () :=
  record ← asks (require_supervisor_record l);
  state ← lift (record_state record);
  done ← lift (has_status state ["exit_observed"; "exit_reconciled"]);
  if (done : bool) then mret ()
  else
    identity ← lift (identity_from_state state);
    locality ← lift (classify_locality h identity);
    _ ← lift (match locality with FOREIGN => require_local h identity | _ => Ok () end);
    let inferred reason :=
      record_exit clock owner l coordinator_epoch identity now "worker.exit_inferred" (pm_version record)
        (Some reason) in
    let observed :=
      record_exit clock owner l coordinator_epoch identity now "worker.process_exit_observed"
        (pm_version record) None in
    match locality with
    | REBOOTED => inferred "worker_lost_to_reboot"
    | _ =>
        if host_reaps h (pi_pid identity) then observed
        else
          presence ← lift (require_provable h identity);
          match presence with
          | OTHER => inferred MISMATCH
          | SAME => throw ExternalConflictError
          | _ => observed
          end
    end.

(** ** Recovery *)
Record RecoveryAssessment := { ra_ready : bool; ra_reason : string }.
Definition held (reason : string) : RecoveryAssessment := {| ra_ready := false; ra_reason := reason |}.
Definition quiescent : RecoveryAssessment :=
  {| ra_ready := true; ra_reason := "process_absent_workspace_quiescent" |}.
Definition assess_worker (h : Host) (state : list (string * json))
    : result (WorkerLiveness * option ProcessIdentity) :=
  match identity_from_state state with
  | Err InternalInvariantViolationError => Ok (LV_UNVERIFIABLE, None)
  | Err e => Err e
  | Ok identity =>
      match classify_locality h identity with
      | Err InternalInvariantViolationError => Ok (LV_UNVERIFIABLE, Some identity)
      | Err e => Err e
      | Ok FOREIGN => Ok (LV_FOREIGN_HOST, Some identity)
      | Ok REBOOTED => Ok (LV_REBOOTED, Some identity)
      | Ok LOCAL =>
          presence ← probe_presence h identity;
          Ok (match presence with
              | UNPROVABLE => LV_UNVERIFIABLE | ABSENT => LV_EXITED
              | OTHER => LV_PID_REUSED | SAME => LV_ALIVE end, Some identity)
      end
  end.
Definition WORKSPACE_MODE_GIT_WORKTREE : string := "git-worktree".
Definition WORKSPACE_MODE_TASK_LOCAL_CLONE : string := "task-local-clone".
Definition WORKSPACE_MODES : list string := [WORKSPACE_MODE_GIT_WORKTREE; WORKSPACE_MODE_TASK_LOCAL_CLONE].
(** [_assess_task_local_quiescence] *)
Definition assess_task_local (c : CloneAnswer) : RecoveryAssessment :=
  match cl_workspace c with
  | PathMissing => held "workspace_missing"
  | PathDirectory =>
      match cl_git c with
      | PathDirectory =>
          match cl_lock c with
          | PathMissing => quiescent
          | PathUnreadable => held "workspace_identity_unreadable"
          | _ => held "workspace_git_lock_present"
          end
      | _ => held "workspace_identity_unreadable"
      end
  | _ => held "workspace_identity_unreadable"
  end.
(** [run_worktree_git] in [cwd]: the return code and the output; a failure to run git is an
    [ExternalConflictError], which the assessment catches. *)
Definition git_or (h : Host) (cwd : string) (arguments : list string) (reason : string)
    (k : Z * string -> result RecoveryAssessment) : result RecoveryAssessment :=
  match host_git h cwd arguments with
  | Ok answer => k answer
  | Err ExternalConflictError => Ok (held reason)
  | Err e => Err e
  end.
Definition lock_file (workspace_path output : string) : string :=
  let lock := py_strip output in
  if py_startswith "/" lock then lock else workspace_path +:+ "/" +:+ lock.
Definition assess_worktree (h : Host) (workspace_path : string) : result RecoveryAssessment :=
  if negb (host_is_dir h workspace_path) then Ok (held "workspace_missing")
  else
    git_or h workspace_path ["rev-parse"; "--git-path"; "index.lock"] "workspace_identity_unreadable"
      (fun '(code, output) =>
        if negb (code =? 0)%Z then Ok (held "workspace_identity_unreadable")
        else if host_exists h (lock_file workspace_path output) then Ok (held "workspace_git_lock_present")
        else
          git_or h workspace_path ["status"; "--porcelain"] "workspace_inspection_failed"
            (fun '(code, _) =>
              Ok (if negb (code =? 0)%Z then held "workspace_inspection_failed" else quiescent))).
Definition assess_workspace_quiescence (h : Host) (workspace_path workspace_mode : string)
    : result RecoveryAssessment :=
  if String.eqb workspace_mode WORKSPACE_MODE_TASK_LOCAL_CLONE
  then Ok (assess_task_local (host_clone h workspace_path))
  else if negb (String.eqb workspace_mode WORKSPACE_MODE_GIT_WORKTREE) then Ok (held "workspace_mode_unknown")
  else assess_worktree h workspace_path.
(** The container check of a task-local run: [None] when nothing stands in the way. *)
Definition container_hold (h : Host) (workspace_mode : string) (state : list (string * json))
    : option RecoveryAssessment :=
  match host_container_gone h with
  | Some container_gone =>
      if String.eqb workspace_mode WORKSPACE_MODE_TASK_LOCAL_CLONE then
        match dict_get "operation_id" state with
        | Some (JStr operation_id) =>
            if blank operation_id then Some (held "runner_container_unverifiable")
            else match container_gone operation_id with
                 | Err _ => Some (held "runner_container_unverifiable")
                 | Ok false => Some (held "runner_container_present")
                 | Ok true => None
                 end
        | _ => Some (held "runner_container_unverifiable")
        end
      else None
  | None => None
  end.
Definition assess_orphan (h : Host) (state : list (string * json)) (workspace_path workspace_mode : string)
    : result RecoveryAssessment :=
  '(liveness, _) ← assess_worker h state;
  match liveness with
  | LV_UNVERIFIABLE => Ok (held "supervisor_identity_missing_or_invalid")
  | LV_FOREIGN_HOST => Ok (held "worker_host_identity_differs")
  | LV_ALIVE => Ok (held "process_still_running")
  | _ =>
      match container_hold h workspace_mode state with
      | Some a => Ok a
      | None => assess_workspace_quiescence h workspace_path workspace_mode
      end
  end.
End Workers.
