(* ===== verification/Workspaces.v ===== *)
(** * Workspace reservations and orphan recovery ([engine/workspace.py], [engine/recovery.py])

    Reservations are process-manager records under the epoch guard; git and the file system
    answer through [Host] and the functions of [task_repository.py] that only run git and
    move files, which are [TaskRepository].  A [Path] is its text. *)
From S2P Require Import Prelude PyText Json Identity Redaction Ledger Coordinator NodeLeases Runtime Workers.

Definition WORKSPACE_MANAGER : string := "workspace-reservations".

(** What [engine/task_repository.py] does for this module: resolve a commit, make and remove
    a task-local clone (the leftover paths), drop stale references, import and verify the
    worker's bundle. *)
Record TaskRepository := {
  tr_resolve_commit : string -> string -> result string;
  tr_materialize : string -> string -> string -> result ();
  tr_remove_references : string -> result ();
  tr_remove_workspace : string -> result (list string);
  tr_intake_bundle : string -> string -> string -> string -> result ();
  tr_verify_intake : string -> string -> string -> result string }.

Record WorkspaceReservation := {
  wr_repository_id : string; wr_run_id : string; wr_repository_path : string;
  wr_workspace_path : string; wr_base_revision : string; wr_status : string;
  wr_state_version : Z; wr_mode : string; wr_base_oid : option string }.
(** [resolved_base_revision] *)
Definition resolved_base_revision (r : WorkspaceReservation) : string :=
  default (wr_base_revision r) (wr_base_oid r).

(** [_reservation_state]: the default mode and a base already resolved leave no key. *)
Definition reservation_state (r : WorkspaceReservation) : list (string * json) :=
  [("repository_id", JStr (wr_repository_id r)); ("run_id", JStr (wr_run_id r));
   ("repository_path", JStr (wr_repository_path r)); ("workspace_path", JStr (wr_workspace_path r));
   ("base_revision", JStr (wr_base_revision r)); ("status", JStr (wr_status r))] ++
  (if String.eqb (wr_mode r) WORKSPACE_MODE_GIT_WORKTREE then [] else [("mode", JStr (wr_mode r))]) ++
  match wr_base_oid r with
  | Some oid => if String.eqb oid (wr_base_revision r) then [] else [("base_oid", JStr oid)]
  | None => []
  end.
(** A non-blank text field of a persisted reservation. *)
Definition reservation_text (key : string) (state : list (string * json)) : result string :=
  match dict_get key state with
  | Some (JStr s) => raise_when blank s as InternalInvariantViolationError ;; Ok s
  | _ => Err InternalInvariantViolationError
  end.
(** [_reservation_from_state] *)
Definition reservation_from_state (state : json) (state_version : Z) : result WorkspaceReservation :=
  match state with
  | JObj state =>
      repository_id ← reservation_text "repository_id" state;
      run_id ← reservation_text "run_id" state;
      repository_path ← reservation_text "repository_path" state;
      workspace_path ← reservation_text "workspace_path" state;
      base_revision ← reservation_text "base_revision" state;
      status ← reservation_text "status" state;
      mode ← (match dict_get "mode" state with
              | None => Ok WORKSPACE_MODE_GIT_WORKTREE
              | Some (JStr m) =>
                  raise_when negb (bool_decide (m ∈ WORKSPACE_MODES)) as InternalInvariantViolationError ;; Ok m
              | Some _ => Err InternalInvariantViolationError end);
      base_oid ← (match dict_get "base_oid" state with
                  | None | Some JNull => Ok None
                  | Some (JStr o) => raise_when blank o as InternalInvariantViolationError ;; Ok (Some o)
                  | Some _ => Err InternalInvariantViolationError end);
      Ok {| wr_repository_id := repository_id; wr_run_id := run_id; wr_repository_path := repository_path;
            wr_workspace_path := workspace_path; wr_base_revision := base_revision; wr_status := status;
            wr_state_version := state_version; wr_mode := mode; wr_base_oid := base_oid |}
  | _ => Err InternalInvariantViolationError
  end.
(** [_require_text] *)
Definition require_text (value : string) : result () := raise_when blank value as InvalidInputError ;; Ok ().
Definition HELD_STATUSES : list string := ["reserved"; "materialized"; "retained"].

Section Workspaces.
Context `{rt : PyRuntime} `{iso : IsoCodec}.

Definition with_status (r : WorkspaceReservation) (status : string) (version : Z) (base_oid : option string)
    : WorkspaceReservation := {|
  wr_repository_id := wr_repository_id r; wr_run_id := wr_run_id r;
  wr_repository_path := wr_repository_path r; wr_workspace_path := wr_workspace_path r;
  wr_base_revision := wr_base_revision r; wr_status := status; wr_state_version := version;
  wr_mode := wr_mode r; wr_base_oid := base_oid |}.
(** The append of [reserve] and [_record_status]. *)
Definition record_reservation (clock owner correlation_id event_type : string) (epoch : Z) (now : datetime)
    (r : WorkspaceReservation) (expected_version : Z) : tx WorkspaceReservation :=
  result ← commit_record clock owner correlation_id epoch now "workspace" (wr_repository_id r) event_type
             WORKSPACE_MANAGER (wr_repository_id r) expected_version (reservation_state r);
  version ← lift (second_state_version result);
  mret (with_status r (wr_status r) version (wr_base_oid r)).

(** ** [GitWorktreeBackend] *)
Definition read_reservation (repository_id : string) (s : Ledger) : result (option WorkspaceReservation) :=
  match read_process_manager_state WORKSPACE_MANAGER repository_id s with
  | None => Ok None
  | Some record => r ← reservation_from_state (pm_state record) (pm_version record); Ok (Some r)
  end.
Definition list_reservations (s : Ledger) : result (list WorkspaceReservation) :=
  mapM_result (fun '(_, record) => reservation_from_state (pm_state record) (pm_version record))
    (list_process_manager_states WORKSPACE_MANAGER s).
(** The base of a new task-local reservation, resolved once. *)
Definition reserved_base (t : TaskRepository) (repository_path base_revision mode : string)
    : result (option string) :=
  if String.eqb mode WORKSPACE_MODE_TASK_LOCAL_CLONE then
    resolved ← tr_resolve_commit t repository_path base_revision;
    Ok (if String.eqb resolved base_revision then None else Some resolved)
  else Ok None.
Definition reserve (t : TaskRepository) (clock owner repository_id run_id repository_path workspace_path
    base_revision mode : string) (epoch : Z) (now : datetime) : tx WorkspaceReservation :=
  _ ← lift (require_text repository_id);
  _ ← lift (require_text run_id);
  _ ← lift (require_text base_revision);
  _ ← lift (raise_when negb (bool_decide (mode ∈ WORKSPACE_MODES)) as InvalidInputError ;; Ok ());
  existing ← gets (read_process_manager_state WORKSPACE_MANAGER repository_id);
  prior ← lift match existing with
    | None => Ok None
    | Some record =>
        state ← record_state record;
        in_use ← has_status state HELD_STATUSES;
        if negb in_use then Ok None
        else
          raise_when negb (field_is "run_id" run_id state) as ExternalConflictError ;;
          r ← reservation_from_state (pm_state record) (pm_version record);
          Ok (Some r)
    end;
  match prior with
  | Some r => mret r
  | None =>
      base_oid ← lift (reserved_base t repository_path base_revision mode);
      record_reservation clock owner ("workspace-reserve:" +:+ repository_id +:+ ":" +:+ run_id)
        "workspace.reserved" epoch now {|
        wr_repository_id := repository_id; wr_run_id := run_id; wr_repository_path := repository_path;
        wr_workspace_path := workspace_path; wr_base_revision := base_revision; wr_status := "reserved";
        wr_state_version := 0; wr_mode := mode; wr_base_oid := base_oid |}
        (from_option pm_version 0%Z existing)
  end.
(** [_record_status] *)
Definition record_status (clock owner : string) (r : WorkspaceReservation) (status : string) (epoch : Z)
    (now : datetime) (base_oid : option string) : tx WorkspaceReservation :=
  let resolved := match base_oid with Some _ => base_oid | None => wr_base_oid r end in
  let resolved := if bool_decide (resolved = Some (wr_base_revision r)) then None else resolved in
  record_reservation clock owner
    ("workspace-" +:+ status +:+ ":" +:+ wr_repository_id r +:+ ":" +:+ wr_run_id r)
    ("workspace." +:+ status) epoch now (with_status r status (wr_state_version r) resolved)
    (wr_state_version r).
Definition materialize (h : Host) (t : TaskRepository) (clock owner : string) (r : WorkspaceReservation)
    (epoch : Z) (now : datetime) : tx WorkspaceReservation :=
  _ ← lift (raise_when negb (String.eqb (wr_status r) "reserved") as InvalidInputError ;; Ok ());
  if String.eqb (wr_mode r) WORKSPACE_MODE_TASK_LOCAL_CLONE then
    _ ← lift (tr_materialize t (wr_repository_path r) (wr_workspace_path r) (resolved_base_revision r));
    record_status clock owner r "materialized" epoch now None
  else
    base_oid ← lift (tr_resolve_commit t (wr_repository_path r) (wr_base_revision r));
    '(code, _) ← lift (host_git h (wr_repository_path r)
                         ["worktree"; "add"; "--detach"; wr_workspace_path r; base_oid]);
    _ ← lift (raise_when negb (code =? 0)%Z as ExternalConflictError ;; Ok ());
    record_status clock owner r "materialized" epoch now (Some base_oid).
(** [_run_git] *)
Definition run_git (h : Host) (path : string) (arguments : list string) : result string :=
  '(code, output) ← host_git h path arguments;
  raise_when negb (code =? 0)%Z as ExternalConflictError ;;
  Ok (py_strip output).
Definition tab : Ascii.ascii := Ascii.ascii_of_N 9.
Definition verify_implementation_branch (h : Host) (t : TaskRepository) (r : WorkspaceReservation)
    (head_branch : string) (require_remote : bool) : result string :=
  raise_when negb (bool_decide (wr_status r ∈ ["materialized"; "retained"])) as InvalidInputError ;;
  _ ← require_text head_branch;
  let base := resolved_base_revision r in
  let workspace := wr_workspace_path r in
  if String.eqb (wr_mode r) WORKSPACE_MODE_TASK_LOCAL_CLONE then
    _ ← tr_intake_bundle t (wr_repository_path r) workspace head_branch base;
    tr_verify_intake t workspace head_branch base
  else
    branch ← run_git h workspace ["symbolic-ref"; "--quiet"; "--short"; "HEAD"];
    raise_when negb (String.eqb branch head_branch) as ExternalConflictError ;;
    head_revision ← run_git h workspace ["rev-parse"; "HEAD"];
    '(ancestor, _) ← host_git h workspace ["merge-base"; "--is-ancestor"; base; head_revision];
    raise_when negb (ancestor =? 0)%Z as ExternalConflictError ;;
    '(changed, _) ← host_git h workspace
      ["diff"; "--quiet"; "--no-ext-diff"; "--no-textconv"; base +:+ ".." +:+ head_revision];
    raise_when (changed =? 0)%Z as ExternalConflictError ;;
    raise_when negb (changed =? 1)%Z as ExternalConflictError ;;
    if require_remote then
      remote ← run_git h workspace
        ["ls-remote"; "--exit-code"; "origin"; "refs/heads/" +:+ head_branch];
      raise_when negb (String.eqb (py_partition tab remote).1 head_revision) as ExternalConflictError ;;
      Ok head_revision
    else Ok head_revision.
(** [cleanup]: a removal that leaves files behind retains the workspace and raises. *)
Definition cleanup (h : Host) (t : TaskRepository) (clock owner : string) (r : WorkspaceReservation)
    (epoch : Z) (now : datetime) : tx WorkspaceReservation :=
  _ ← lift (raise_when negb (bool_decide (wr_status r ∈
              ["materialized"; "reserved"; "retained"; "cleanup_started"])) as InvalidInputError ;; Ok ());
  cleaning ← (if String.eqb (wr_status r) "cleanup_started" then mret r
              else record_status clock owner r "cleanup_started" epoch now None);
  removed ← lift (
    if String.eqb (wr_mode cleaning) WORKSPACE_MODE_TASK_LOCAL_CLONE then
      _ ← (if host_is_dir h (wr_repository_path cleaning)
           then tr_remove_references t (wr_repository_path cleaning) else Ok ());
      leftover ← tr_remove_workspace t (wr_workspace_path cleaning);
      Ok (bool_decide (leftover = []))
    else
      '(code, _) ← host_git h (wr_repository_path cleaning)
        ["worktree"; "remove"; "--force"; wr_workspace_path cleaning];
      Ok (code =? 0)%Z);
  if (removed : bool) then record_status clock owner cleaning "cleaned" epoch now None
  else
    _ ← record_status clock owner cleaning "retained" epoch now None;
    throw ExternalConflictError.
Definition retain (clock owner : string) (r : WorkspaceReservation) (epoch : Z) (now : datetime)
    : tx WorkspaceReservation :=
  _ ← lift (raise_when negb (bool_decide (wr_status r ∈ ["materialized"; "cleanup_started"; "retained"]))
              as InvalidInputError ;; Ok ());
  record_status clock owner r "retained" epoch now None.
Definition resume_workspace (h : Host) (clock owner : string) (r : WorkspaceReservation) (epoch : Z)
    (now : datetime) : tx WorkspaceReservation :=
  _ ← lift (raise_when negb (String.eqb (wr_status r) "retained") as InvalidInputError ;; Ok ());
  _ ← lift (raise_when negb (host_is_dir h (wr_workspace_path r)) as ExternalConflictError ;; Ok ());
  record_status clock owner r "materialized" epoch now None.

(** ** [RecoveryCoordinator] *)
(** [_mode_for] *)
Definition mode_for (workspace_path : string) (explicit : option string) (s : Ledger) : result string :=
  match explicit with
  | Some mode => Ok mode
  | None =>
      reservations ← list_reservations s;
      Ok (if existsb (fun r => String.eqb (wr_workspace_path r) workspace_path &&
                               String.eqb (wr_mode r) WORKSPACE_MODE_TASK_LOCAL_CLONE) reservations
          then WORKSPACE_MODE_TASK_LOCAL_CLONE else WORKSPACE_MODE_GIT_WORKTREE)
  end.
Definition re_lease (h : Host) (clock owner run_id node_id attempt_id : string) (epoch : Z) (now : datetime)
    (lease_window : timedelta) (expected_attempt_version : Z) (operation_id workspace_path : string)
    (workspace_mode : option string) : tx FencedNodeLease :=
  record ← gets (read_process_manager_state SUPERVISOR_MANAGER (run_id +:+ ":" +:+ node_id));
  match record with
  | None => throw HumanActionRequiredError
  | Some record =>
      state ← lift (record_state record);
      if negb (field_is "status" "exit_observed" state) then throw HumanActionRequiredError
      else
        mode ← asks (mode_for workspace_path workspace_mode);
        assessment ← lift (assess_orphan h state workspace_path mode);
        if negb (ra_ready assessment) then throw HumanActionRequiredError
        else grant clock owner run_id node_id attempt_id epoch now lease_window
               expected_attempt_version operation_id
  end.
(** [dict.__setitem__] *)
Definition reconciled_state (state : list (string * json)) (epoch : Z) : list (string * json) :=
  dict_set "reconciled_epoch" (JInt epoch) (dict_set "status" (JStr "exit_reconciled") state).
Definition reconcile (h : Host) (clock owner : string) (l : FencedNodeLease) (workspace_path : string)
    (epoch : Z) (now : datetime) (workspace_mode : option string) : tx RecoveryAssessment :=
  record ← gets (read_process_manager_state SUPERVISOR_MANAGER (worker_key l));
  match record with
  | None => mret (held "supervisor_state_missing")
  | Some record =>
      state ← lift (record_state record);
      if negb (field_is "attempt_id" (fl_attempt_id l) state)
      then mret (held "worker_attempt_identity_mismatch")
      else if field_is "status" "exit_reconciled" state
      then mret {| ra_ready := true; ra_reason := "already_reconciled" |}
      else
        mode ← asks (mode_for workspace_path workspace_mode);
        assessment ← lift (assess_orphan h state workspace_path mode);
        if negb (ra_ready assessment) then mret assessment
        else
          _ ← record_worker clock owner "worker-reconciled" epoch now l "worker.exit_reconciled"
                (pm_version record) (reconciled_state state epoch);
          mret assessment
  end.
End Workspaces.
