(* ===== verification/RuntimeNodes.v ===== *)
(** * Runtime nodes ([engine/runtime.py])

    Requests and their persisted form, the status changes of one node, the scheduling tick,
    and the collection, cancellation and failure of workers.  A runtime's owner, the ledger's
    clock text, the instant and what the host answers are arguments of each call. *)
From S2P Require Import Prelude PyText Json Identity IdentityProofs Scheduler Redaction Ledger.
From S2P Require Import Coordinator NodeLeases Runtime Workflows OperatorControl Workers Workspaces.

Definition RUNTIME_NODE_AGGREGATE_TYPE : string := "runtime_node".
Definition BRANCH_PUBLICATION_WORKER : string := "worker".
Definition BRANCH_PUBLICATION_OPERATOR : string := "operator".
Definition BRANCH_PUBLICATIONS : list string := [BRANCH_PUBLICATION_WORKER; BRANCH_PUBLICATION_OPERATOR].

(** ** Requests *)
Record FixtureDispatch := {
  fd_run_id : string; fd_node_id : string; fd_attempt_id : string; fd_repository_id : string;
  fd_repository_path : string; fd_workspace_path : string; fd_base_revision : string;
  fd_command : list string; fd_expected_attempt_version : Z; fd_operation_id : string;
  fd_dependencies : list (string * string); fd_workflow_definition_id : option string;
  fd_retain_workspace : bool; fd_log_directory : option string; fd_workspace_mode : string;
  fd_environment_keys : option (list string); fd_branch_publication : string }.
#[export] Instance FixtureDispatch_eq_dec : EqDecision FixtureDispatch.
Proof. solve_decision. Defined.
Definition fixture_post_init (r : FixtureDispatch) : result FixtureDispatch :=
  raise_when existsb blank [fd_run_id r; fd_node_id r; fd_attempt_id r; fd_repository_id r;
                            fd_base_revision r; fd_operation_id r] as InvalidInputError ;;
  raise_when bool_decide (fd_command r = []) as InvalidInputError ;;
  raise_when (fd_expected_attempt_version r <? 0)%Z as InvalidInputError ;;
  raise_when existsb (fun '(run_id, node_id) => blank run_id || blank node_id) (fd_dependencies r)
    as InvalidInputError ;;
  raise_when from_option blank false (fd_workflow_definition_id r) as InvalidInputError ;;
  raise_when negb (bool_decide (fd_workspace_mode r ∈ WORKSPACE_MODES)) as InvalidInputError ;;
  _ ← (match fd_environment_keys r with
       | Some keys => _ ← build_worker_environment [] keys; Ok ()
       | None => Ok () end);
  raise_when negb (bool_decide (fd_branch_publication r ∈ BRANCH_PUBLICATIONS)) as InvalidInputError ;;
  Ok r.
Definition request_key (r : FixtureDispatch) : string := fd_run_id r +:+ ":" +:+ fd_node_id r.

(** [_request_state]: a field at its default before it existed leaves no key. *)
Definition request_state (r : FixtureDispatch) (status : string) (actor_type : ActorType)
    : list (string * json) :=
  [("run_id", JStr (fd_run_id r)); ("node_id", JStr (fd_node_id r));
   ("attempt_id", JStr (fd_attempt_id r)); ("repository_id", JStr (fd_repository_id r));
   ("repository_path", JStr (fd_repository_path r)); ("workspace_path", JStr (fd_workspace_path r));
   ("base_revision", JStr (fd_base_revision r)); ("command", JList (map JStr (fd_command r)));
   ("expected_attempt_version", JInt (fd_expected_attempt_version r));
   ("operation_id", JStr (fd_operation_id r));
   ("dependencies", JList (map (fun '(run_id, node_id) => JList [JStr run_id; JStr node_id])
                             (fd_dependencies r)));
   ("workflow_definition_id", opt_text_json (fd_workflow_definition_id r));
   ("retain_workspace", JBool (fd_retain_workspace r));
   ("log_directory", opt_text_json (fd_log_directory r));
   ("actor_type", JStr (enum_value actor_type)); ("status", JStr status)] ++
  (if String.eqb (fd_workspace_mode r) WORKSPACE_MODE_GIT_WORKTREE then []
   else [("workspace_mode", JStr (fd_workspace_mode r))]) ++
  match fd_environment_keys r with
  | None => [] | Some keys => [("environment_keys", JList (map JStr keys))] end ++
  (if String.eqb (fd_branch_publication r) BRANCH_PUBLICATION_WORKER then []
   else [("branch_publication", JStr (fd_branch_publication r))]).

(** [_required_text] *)
Definition required_text (state : list (string * json)) (field_name : string) : result string :=
  match dict_get field_name state with
  | Some (JStr s) => raise_when blank s as InternalInvariantViolationError ;; Ok s
  | _ => Err InternalInvariantViolationError
  end.
Definition text_value (j : json) : option string := match j with JStr s => Some s | _ => None end.
(** One entry of [dependencies]. *)
Definition parse_dependency (j : json) : result (string * string) :=
  match j with
  | JList [JStr run_id; JStr node_id] =>
      raise_when blank run_id || blank node_id as InternalInvariantViolationError ;; Ok (run_id, node_id)
  | _ => Err InternalInvariantViolationError
  end.
(** A closed-choice text field with its default. *)
Definition choice_field (state : list (string * json)) (key default_value : string) (choices : list string)
    : result string :=
  match dict_get key state with
  | None => Ok default_value
  | Some (JStr s) => raise_when negb (bool_decide (s ∈ choices)) as InternalInvariantViolationError ;; Ok s
  | Some _ => Err InternalInvariantViolationError
  end.
(** A nullable text field that is not [refused]. *)
Definition nullable_text (state : list (string * json)) (key : string) (refused : string -> bool)
    : result (option string) :=
  match dict_get key state with
  | None | Some JNull => Ok None
  | Some (JStr s) => raise_when refused s as InternalInvariantViolationError ;; Ok (Some s)
  | Some _ => Err InternalInvariantViolationError
  end.
(** The command, the attempt's version and the dependency entries. *)
Definition execution_data (state : list (string * json)) : result (list string * Z * list json) :=
  match dict_get "command" state, dict_get "expected_attempt_version" state ≫= int_of,
        dict_get "dependencies" state with
  | Some (JList command), Some version, Some (JList dependencies) =>
      command ← from_option_err InternalInvariantViolationError (mapM text_value command);
      raise_when existsb (String.eqb "") command || (version <? 0)%Z as InternalInvariantViolationError ;;
      Ok (command, version, dependencies)
  | _, _, _ => Err InternalInvariantViolationError
  end.
(** [_request_from_state] *)
Definition request_from_state (state : json) : result FixtureDispatch :=
  match state with
  | JObj state =>
      run_id ← required_text state "run_id";
      node_id ← required_text state "node_id";
      attempt_id ← required_text state "attempt_id";
      repository_id ← required_text state "repository_id";
      repository_path ← required_text state "repository_path";
      workspace_path ← required_text state "workspace_path";
      base_revision ← required_text state "base_revision";
      operation_id ← required_text state "operation_id";
      retain_workspace ← (match dict_get "retain_workspace" state with
        | None => Ok false | Some (JBool b) => Ok b | Some _ => Err InternalInvariantViolationError end);
      log_directory ← nullable_text state "log_directory" (String.eqb "");
      workspace_mode ← choice_field state "workspace_mode" WORKSPACE_MODE_GIT_WORKTREE WORKSPACE_MODES;
      environment_keys ← (match dict_get "environment_keys" state with
        | None | Some JNull => Ok None
        | Some (JList keys) =>
            keys ← from_option_err InternalInvariantViolationError (mapM text_value keys); Ok (Some keys)
        | Some _ => Err InternalInvariantViolationError end);
      branch_publication ← choice_field state "branch_publication" BRANCH_PUBLICATION_WORKER BRANCH_PUBLICATIONS;
      '(command, expected_attempt_version, dependencies) ← execution_data state;
      workflow_definition_id ← nullable_text state "workflow_definition_id" blank;
      dependencies ← mapM_result parse_dependency dependencies;
      fixture_post_init {|
        fd_run_id := run_id; fd_node_id := node_id; fd_attempt_id := attempt_id;
        fd_repository_id := repository_id; fd_repository_path := repository_path;
        fd_workspace_path := workspace_path; fd_base_revision := base_revision; fd_command := command;
        fd_expected_attempt_version := expected_attempt_version; fd_operation_id := operation_id;
        fd_dependencies := dependencies; fd_workflow_definition_id := workflow_definition_id;
        fd_retain_workspace := retain_workspace; fd_log_directory := log_directory;
        fd_workspace_mode := workspace_mode; fd_environment_keys := environment_keys;
        fd_branch_publication := branch_publication |}
  | _ => Err InternalInvariantViolationError
  end.
(** [_actor_type_from_state] *)
Definition actor_type_from_state (state : list (string * json)) : result ActorType :=
  match dict_get "actor_type" state with
  | None | Some JNull => Ok ACTOR_AGENT
  | Some (JStr s) =>
      match enum_of_value s with Ok a => Ok a | Err _ => Err InternalInvariantViolationError end
  | Some _ => Err InternalInvariantViolationError
  end.
Definition require_agent_node (state : list (string * json)) : result () :=
  actor ← actor_type_from_state state;
  raise_when negb (bool_decide (actor = ACTOR_AGENT)) as ExternalConflictError ;; Ok ().
Definition require_non_agent_node (state : list (string * json)) : result () :=
  actor ← actor_type_from_state state;
  raise_when bool_decide (actor = ACTOR_AGENT) as ExternalConflictError ;; Ok ().

(** ** Manifest-bound dispatches *)
(** [_require_manifest_dependencies]; [expected] is a set. *)
Definition require_manifest_dependencies (r : FixtureDispatch) (dependencies : list string) : result () :=
  let expected : gset (string * string) := list_to_set (map (fun d => (fd_run_id r, d)) dependencies) in
  raise_when negb (Nat.eqb (length (fd_dependencies r)) (size expected)) ||
             negb (bool_decide (list_to_set (fd_dependencies r) = expected)) as InvalidInputError ;; Ok ().
(** The checks of [WorkflowDispatch] ([agent] true) and [WorkflowNodeDispatch]; the actor. *)
Definition workflow_dispatch (r : FixtureDispatch) (m : WorkflowManifest) (agent : bool) : result ActorType :=
  raise_when negb (bool_decide (fd_workflow_definition_id r = Some (wm_id m))) as InvalidInputError ;;
  node_id ← mk_identifier (fd_node_id r);
  node ← from_option_err InvalidInputError (dict_get node_id (wm_nodes m));
  _ ← require_manifest_dependencies r (nd_dependencies node);
  raise_when negb (Bool.eqb (bool_decide (nd_actor_type node = ACTOR_AGENT)) agent) as InvalidInputError ;;
  Ok (nd_actor_type node).

(** ** Reading nodes *)
Definition TERMINAL_STATUSES : list string := ["passed"; "failed"; "cancelled"; "blocked"].
(** [_runtime_state] *)
Definition runtime_state (r : FixtureDispatch) (s : Ledger) : result (list (string * json)) :=
  match read_projection RUNTIME_NODE_AGGREGATE_TYPE (request_key r) s with
  | None => Ok [("status", JStr "queued")]
  | Some p => state_dict p
  end.
(** [_request_for] *)
Definition request_for (run_id node_id : string) (s : Ledger) : result FixtureDispatch :=
  match read_projection RUNTIME_NODE_AGGREGATE_TYPE (run_id +:+ ":" +:+ node_id) s with
  | None => Err ExternalConflictError
  | Some p => request_from_state (pj_state p)
  end.
(** [requests[key] = request] *)
Fixpoint set_request (key : NodeKey) (r : FixtureDispatch) (requests : list (NodeKey * FixtureDispatch))
    : list (NodeKey * FixtureDispatch) :=
  match requests with
  | [] => [(key, r)]
  | (k, r') :: requests =>
      if decide (k = key) then (k, r) :: requests else (k, r') :: set_request key r requests
  end.
Fixpoint get_request (key : NodeKey) (requests : list (NodeKey * FixtureDispatch)) : result FixtureDispatch :=
  match requests with
  | [] => Err PyKeyError
  | (k, r) :: requests => if decide (k = key) then Ok r else get_request key requests
  end.
(** [_requests_from_ledger] *)
Definition requests_from_ledger (s : Ledger) : result (list (NodeKey * FixtureDispatch)) :=
  foldM_result (fun requests '(_, p) =>
    r ← request_from_state (pj_state p);
    key ← node_key_post_init {| nk_run_id := fd_run_id r; nk_node_id := fd_node_id r |};
    Ok (set_request key r requests)) (list_projections RUNTIME_NODE_AGGREGATE_TYPE s) [].
(** [_require_completed_dependencies] *)
Definition dependency_passed (s : Ledger) (dependency : string * string) : result () :=
  match read_projection RUNTIME_NODE_AGGREGATE_TYPE (dependency.1 +:+ ":" +:+ dependency.2) s with
  | None => Err ExternalConflictError
  | Some p => state ← state_dict p; raise_when negb (field_is "status" "passed" state) as ExternalConflictError ;; Ok ()
  end.
Definition require_completed_dependencies (r : FixtureDispatch) (s : Ledger) : result () :=
  each_result (dependency_passed s) (fd_dependencies r).
(** ** Scheduling view *)
Section Schedulable.
Context `{iso : IsoCodec}.
(** [_queued_since]; the instant of a queue time, which a claim requires to be aware: a naive
    text, which this module never writes, is refused. *)
Definition queued_since (state : list (string * json)) : result (option Z) :=
  let wakeup := match dict_get "wakeup" state with
                | Some (JObj w) => dict_get "queued_since" w | _ => None end in
  match omap (fun v => v ≫= text_value) [dict_get "queued_at" state; wakeup] with
  | [] => Ok None
  | candidate :: _ =>
      d ← from_option_err InternalInvariantViolationError (fromisoformat candidate);
      match d with Aware us => Ok (Some us) | Naive _ => Err PyTypeError end
  end.
Definition schedulable_state (status : string) : option SchedulableState :=
  dict_get status
    [("queued", SS_QUEUED); ("running", SS_RUNNING); ("awaiting_human", SS_AWAITING_HUMAN);
     ("passed", SS_SUCCEEDED); ("failed", SS_FAILED); ("cancelled", SS_CANCELLED); ("blocked", SS_BLOCKED)].
(** [_schedulable]: a queued node of another actor is not the scheduler's to start. *)
Definition schedulable (r : FixtureDispatch) (state : list (string * json)) : result SchedulableNode :=
  status ← from_option_err InternalInvariantViolationError (text_field "status" state);
  actor ← actor_type_from_state state;
  let status := if negb (bool_decide (actor = ACTOR_AGENT)) && String.eqb status "queued"
                then "blocked" else status in
  st ← from_option_err InternalInvariantViolationError (schedulable_state status);
  key ← node_key_post_init {| nk_run_id := fd_run_id r; nk_node_id := fd_node_id r |};
  dependencies ← mapM_result (fun '(run_id, node_id) =>
    node_key_post_init {| nk_run_id := run_id; nk_node_id := node_id |}) (fd_dependencies r);
  since ← queued_since state;
  schedulable_node_post_init {|
    sn_key := key; sn_dependencies := dependencies; sn_state := st;
    sn_repository_id := Some (fd_repository_id r); sn_requirements_satisfied := true;
    sn_queued_since := since |}.
(** [DeferralReason]'s values *)
Definition deferral_value (r : DeferralReason) : string :=
  match r with
  | DR_GLOBAL_CAPACITY => "global_capacity" | DR_REPOSITORY_CAPACITY => "repository_capacity"
  | DR_DEPENDENCIES => "dependencies" | DR_DEPENDENCY_FAILED => "dependency_failed"
  | DR_REQUIREMENTS => "requirements" | DR_CAPACITY_RESERVED => "capacity_reserved_for_other_run"
  | DR_EXECUTION_HOLD => "execution_hold"
  end.
(** The node as the plan sees it: a held run's requirements are not satisfied. *)
Definition hold_node (held_runs : list (string * string)) (n : SchedulableNode) : SchedulableNode :=
  if bool_decide (nk_run_id (sn_key n) ∈ held_runs.*1)
  then {| sn_key := sn_key n; sn_dependencies := sn_dependencies n; sn_state := sn_state n;
          sn_repository_id := sn_repository_id n; sn_requirements_satisfied := false;
          sn_queued_since := sn_queued_since n |}
  else n.
Definition planned_nodes (requests : list (NodeKey * FixtureDispatch)) (held_runs : list (string * string))
    (s : Ledger) : result (list SchedulableNode) :=
  mapM_result (fun '(_, r) =>
    state ← runtime_state r s;
    n ← schedulable r state;
    Ok (hold_node held_runs n)) requests.
End Schedulable.

Section RuntimeNodes.
Context `{rt : PyRuntime} `{iso : IsoCodec}.

(** ** Writing nodes *)
(** [_set_status] *)
Definition set_status (clock owner : string) (r : FixtureDispatch) (status event_type : string) (epoch : Z)
    (now : datetime) (extra : list (string * json)) : tx () :=
  projection ← gets (read_projection RUNTIME_NODE_AGGREGATE_TYPE (request_key r));
  match projection with
  | None => throw InternalInvariantViolationError
  | Some p =>
      state ← lift (state_dict p);
      _ ← guarded_append clock owner epoch now
            (event_type +:+ ":" +:+ request_key r +:+ ":" +:+ pretty (pj_aggregate_version p))
            RUNTIME_NODE_AGGREGATE_TYPE (request_key r) (pj_aggregate_version p) event_type
            (dict_update (dict_set "status" (JStr status) state) extra);
      mret ()
  end.
(** The state of a request that enters the queue. *)
Definition queued_state (r : FixtureDispatch) (actor : ActorType) (now : datetime)
    (extra : list (string * json)) : list (string * json) :=
  dict_update (dict_set "queued_at" (JStr (isoformat now)) (request_state r "queued" actor)) extra.
(** [_replace_request] *)
Definition replace_request (clock owner : string) (r : FixtureDispatch) (epoch : Z) (now : datetime)
    (event_type : string) (extra : list (string * json)) : tx () :=
  projection ← gets (read_projection RUNTIME_NODE_AGGREGATE_TYPE (request_key r));
  match projection with
  | None => throw InternalInvariantViolationError
  | Some p =>
      state ← lift (state_dict p);
      actor ← lift (actor_type_from_state state);
      _ ← guarded_append clock owner epoch now
            (event_type +:+ ":" +:+ request_key r +:+ ":" +:+ fd_attempt_id r)
            RUNTIME_NODE_AGGREGATE_TYPE (request_key r) (pj_aggregate_version p) event_type
            (queued_state r actor now extra);
      mret ()
  end.
(** [_active_lease]; [_lease_for_envelope] reads the same record. *)
Definition active_lease (run_id node_id operation_id : string) (s : Ledger) : result FencedNodeLease :=
  record ← from_option_err InternalInvariantViolationError (read_lease run_id node_id s);
  raw ← from_option_err InternalInvariantViolationError (ls_expires_at record);
  expires_at ← from_option_err InternalInvariantViolationError (fromisoformat raw);
  fenced_lease_post_init {|
    fl_run_id := run_id; fl_node_id := node_id; fl_attempt_id := ls_attempt_id record;
    fl_epoch := ls_epoch record; fl_fencing_token := ls_fencing_token record;
    fl_operation_id := operation_id; fl_owner := ls_owner record; fl_expires_at := expires_at |}.
(** [_require_workspace] *)
Definition require_workspace (repository_id run_id : string) (s : Ledger) : result WorkspaceReservation :=
  reservation ← read_reservation repository_id s;
  match reservation with
  | Some w => raise_when negb (String.eqb (wr_run_id w) run_id) as InternalInvariantViolationError ;; Ok w
  | None => Err InternalInvariantViolationError
  end.

(** ** Registration *)
(** The agent branch of [_register]: the prior worker is reconciled and a retained workspace
    returned before a new attempt replaces it. *)
Definition release_prior (h : Host) (clock owner : string) (current r : FixtureDispatch) (epoch : Z)
    (now : datetime) : tx () :=
  reservation ← asks (read_reservation (fd_repository_id r));
  let own := match reservation with
             | Some w => if String.eqb (wr_run_id w) (fd_run_id r) then Some w else None | None => None end in
  lease ← asks (active_lease (fd_run_id current) (fd_node_id current) (fd_operation_id current));
  assessment ← reconcile h clock owner lease (fd_workspace_path r) epoch now (wr_mode <$> own);
  if negb (ra_ready assessment) then throw ExternalConflictError
  else
    match own with
    | Some w =>
        if String.eqb (wr_status w) "retained"
        then _ ← resume_workspace h clock owner w epoch now; mret () else mret ()
    | None => mret ()
    end.
(** [_register] *)
Definition register (h : Host) (clock owner : string) (r : FixtureDispatch) (actor_type : ActorType)
    (epoch : Z) (now : datetime) (extra : list (string * json)) : tx () :=
  projection ← gets (read_projection RUNTIME_NODE_AGGREGATE_TYPE (request_key r));
  match projection with
  | Some p =>
      state ← lift (match pj_state p with JObj m => Ok m | _ => Err InternalInvariantViolationError end);
      actor ← lift (actor_type_from_state state);
      _ ← lift (raise_when negb (bool_decide (actor = actor_type)) as ExternalConflictError ;; Ok ());
      current ← lift (request_from_state (pj_state p));
      if decide (current = r) then mret ()
      else
        terminal ← lift (has_status state TERMINAL_STATUSES);
        if negb terminal || (String.eqb (fd_attempt_id r) (fd_attempt_id current) &&
                             String.eqb (fd_operation_id r) (fd_operation_id current))
        then throw ExternalConflictError
        else
          _ ← asks (require_completed_dependencies r);
          _ ← (if bool_decide (actor_type = ACTOR_AGENT)
               then release_prior h clock owner current r epoch now else mret ());
          replace_request clock owner r epoch now "runtime_node.retried" extra
  | None =>
      _ ← guarded_append clock owner epoch now ("runtime-node-register:" +:+ request_key r)
            RUNTIME_NODE_AGGREGATE_TYPE (request_key r) 0 "runtime_node.queued"
            (queued_state r actor_type now extra);
      mret ()
  end.
(** [register_node]; [actor_type] is the dispatch's. *)
Definition register_node (h : Host) (clock owner : string) (r : FixtureDispatch) (actor_type : ActorType)
    (now : datetime) (heartbeat_window : timedelta) (extra : list (string * json)) : tx CoordinatorEpoch :=
  _ ← asks (require_completed_dependencies r);
  epoch ← acquire_or_renew clock owner now heartbeat_window;
  _ ← register h clock owner r actor_type (ce_epoch epoch) now extra;
  mret epoch.
(** [request] with the prior attempt and operation. *)
Definition with_attempt (r : FixtureDispatch) (attempt_id operation_id : string) : FixtureDispatch := {|
  fd_run_id := fd_run_id r; fd_node_id := fd_node_id r; fd_attempt_id := attempt_id;
  fd_repository_id := fd_repository_id r; fd_repository_path := fd_repository_path r;
  fd_workspace_path := fd_workspace_path r; fd_base_revision := fd_base_revision r;
  fd_command := fd_command r; fd_expected_attempt_version := fd_expected_attempt_version r;
  fd_operation_id := operation_id; fd_dependencies := fd_dependencies r;
  fd_workflow_definition_id := fd_workflow_definition_id r; fd_retain_workspace := fd_retain_workspace r;
  fd_log_directory := fd_log_directory r; fd_workspace_mode := fd_workspace_mode r;
  fd_environment_keys := fd_environment_keys r; fd_branch_publication := fd_branch_publication r |}.
(** [retry_node] *)
Definition retry_node (clock owner : string) (r : FixtureDispatch) (actor_type : ActorType) (epoch : Z)
    (now : datetime) : tx () :=
  prior ← asks (request_for (fd_run_id r) (fd_node_id r));
  state ← asks (runtime_state prior);
  actor ← lift (actor_type_from_state state);
  _ ← lift (raise_when negb (bool_decide (actor = actor_type)) as ExternalConflictError ;; Ok ());
  terminal ← lift (has_status state TERMINAL_STATUSES);
  _ ← lift (raise_when negb terminal as ExternalConflictError ;; Ok ());
  _ ← lift (raise_when String.eqb (fd_attempt_id r) (fd_attempt_id prior) ||
                       String.eqb (fd_operation_id r) (fd_operation_id prior) as InvalidInputError ;; Ok ());
  _ ← lift (raise_when negb (bool_decide (with_attempt r (fd_attempt_id prior) (fd_operation_id prior) = prior))
              as ExternalConflictError ;; Ok ());
  _ ← asks (require_completed_dependencies r);
  replace_request clock owner r epoch now "runtime_node.retried" [].
Definition retry_workflow_node (clock owner : string) (r : FixtureDispatch) (actor_type : ActorType)
    (now : datetime) (heartbeat_window : timedelta) : tx CoordinatorEpoch :=
  epoch ← acquire_or_renew clock owner now heartbeat_window;
  _ ← retry_node clock owner r actor_type (ce_epoch epoch) now;
  mret epoch.

(** ** Deterministic and human nodes *)
Definition require_outcome (outcome : string) : result () :=
  raise_when negb (bool_decide (outcome ∈ TERMINAL_STATUSES)) as InvalidInputError ;; Ok ().
(** A status change of a node of another actor than a worker, from one status. *)
Definition settle_node (clock owner run_id node_id from_status status event_type : string) (epoch : Z)
    (now : datetime) (extra : list (string * json)) : tx () :=
  r ← asks (request_for run_id node_id);
  state ← asks (runtime_state r);
  _ ← lift (require_non_agent_node state);
  _ ← lift (raise_when negb (field_is "status" from_status state) as ExternalConflictError ;; Ok ());
  set_status clock owner r status event_type epoch now extra.
Definition complete_node (clock owner run_id node_id : string) (epoch : Z) (now : datetime) (outcome : string)
    (extra : list (string * json)) : tx () :=
  _ ← lift (require_outcome outcome);
  settle_node clock owner run_id node_id "queued" outcome "runtime_node.deterministic_completed" epoch now extra.
Definition await_human_node (clock owner run_id node_id : string) (epoch : Z) (now : datetime) (reason : string)
    (extra : list (string * json)) : tx () :=
  _ ← lift (raise_when blank reason as InvalidInputError ;; Ok ());
  settle_node clock owner run_id node_id "queued" "awaiting_human" "runtime_node.deterministic_human_wait"
    epoch now (dict_update [("human_wait_reason", JStr reason)] extra).
Definition resolve_human_wait (clock owner run_id node_id : string) (epoch : Z) (now : datetime)
    (outcome : string) (extra : list (string * json)) : tx () :=
  _ ← lift (require_outcome outcome);
  settle_node clock owner run_id node_id "awaiting_human" outcome "runtime_node.human_wait_resolved"
    epoch now extra.
Definition record_evidence_hold (clock owner run_id node_id : string) (epoch : Z) (now : datetime)
    (reason repair message : string) (extra : list (string * json)) : tx () :=
  r ← asks (request_for run_id node_id);
  state ← asks (runtime_state r);
  _ ← lift (raise_when negb (field_is "status" "queued" state) as ExternalConflictError ;; Ok ());
  set_status clock owner r "queued" "runtime_node.evidence_held" epoch now
    (dict_update extra [("reason", JStr reason); ("repair", JStr repair); ("message", JStr message)]).

(** ** The scheduling tick *)
(** [consume_pending]'s default [limit] *)
Definition CONSUME_LIMIT : Z := 100.
Record DispatchedFixture := {
  df_lease : FencedNodeLease; df_identity : ProcessIdentity; df_workspace : WorkspaceReservation }.
(** [FixtureRuntime.dispatch]; [environ] is [os.environ]. *)
Definition dispatch (h : Host) (t : TaskRepository) (environ : list (string * string)) (clock owner : string)
    (r : FixtureDispatch) (epoch : Z) (now : datetime) (lease_window : timedelta) : tx DispatchedFixture :=
  _ ← asks require_dispatch_allowed;
  reservation ← reserve t clock owner (fd_repository_id r) (fd_run_id r) (fd_repository_path r)
                  (fd_workspace_path r) (fd_base_revision r) (fd_workspace_mode r) epoch now;
  reservation ← (if String.eqb (wr_status reservation) "reserved"
                 then materialize h t clock owner reservation epoch now else mret reservation);
  _ ← lift (raise_when negb (String.eqb (wr_status reservation) "materialized") as InvalidInputError ;; Ok ());
  lease ← grant clock owner (fd_run_id r) (fd_node_id r) (fd_attempt_id r) epoch now lease_window
            (fd_expected_attempt_version r) (fd_operation_id r);
  environment ← lift (match fd_environment_keys r with
    | None => Ok None
    | Some keys => env ← build_worker_environment environ keys; Ok (Some env) end);
  identity ← supervisor_start h clock owner lease (fd_command r) (wr_workspace_path reservation) environment now;
  mret {| df_lease := lease; df_identity := identity; df_workspace := reservation |}.
(** [_dispatched_wakeup] *)
Definition dispatched_wakeup (state : list (string * json)) (epoch : Z) (now : datetime)
    : list (string * json) :=
  match dict_get "wakeup" state with
  | Some (JObj prior) =>
      [("wakeup", JObj (dict_update prior
          [("reason", JNull); ("dispatched_at", JStr (isoformat now)); ("dispatched_epoch", JInt epoch)]))]
  | _ => []
  end.
(** One launch of the tick. *)
Definition launch_node (h : Host) (t : TaskRepository) (environ : list (string * string)) (clock owner : string)
    (requests : list (NodeKey * FixtureDispatch)) (epoch : Z) (now : datetime) (lease_window : timedelta)
    (key : NodeKey) : tx DispatchedFixture :=
  r ← lift (get_request key requests);
  fixture ← dispatch h t environ clock owner r epoch now lease_window;
  state ← asks (runtime_state r);
  _ ← set_status clock owner r "running" "runtime_node.started" epoch now (dispatched_wakeup state epoch now);
  mret fixture.
(** [_record_deferral]: the wakeup record of a node that stays queued. *)
Definition evaluations_of (prior : list (string * json)) : Z :=
  match dict_get "evaluations" prior with Some (JInt n) => n | _ => 0%Z end.
Definition wakeup_record (state : list (string * json)) (reason : string) (reserved_for detail : option string)
    (epoch : Z) (now : datetime) : json :=
  let prior := match dict_get "wakeup" state with Some (JObj w) => w | _ => [] end in
  let queued := default (isoformat now) (text_field "queued_at" state) in
  JObj [("queued_since", JStr (default queued (text_field "queued_since" prior)));
        ("reason", JStr reason); ("reserved_for", opt_text_json reserved_for);
        ("detail", opt_text_json detail); ("evaluations", JInt (evaluations_of prior + 1));
        ("last_evaluated_epoch", JInt epoch); ("last_evaluated_at", JStr (isoformat now))].
Definition record_deferral (clock owner : string) (r : FixtureDispatch) (reason : string)
    (reserved_for detail : option string) (epoch : Z) (now : datetime) : tx () :=
  state ← asks (runtime_state r);
  if negb (field_is "status" "queued" state) then mret ()
  else
    set_status clock owner r "queued" "runtime_node.wakeup_deferred" epoch now
      [("wakeup", wakeup_record state reason reserved_for detail epoch now)].
(** [_record_hold_deferral]: once per change of the reason. *)
Definition record_hold_deferral (clock owner : string) (r : FixtureDispatch) (detail : string) (epoch : Z)
    (now : datetime) : tx () :=
  state ← asks (runtime_state r);
  if match dict_get "wakeup" state with
     | Some (JObj w) => field_is "reason" (deferral_value DR_EXECUTION_HOLD) w && field_is "detail" detail w
     | _ => false end
  then mret ()
  else record_deferral clock owner r (deferral_value DR_EXECUTION_HOLD) None (Some detail) epoch now.
(** The run a capacity deferral names: the first reserved slot it waits behind. *)
Definition holder_of (requests : list (NodeKey * FixtureDispatch)) (reserved : list NodeKey)
    (reason : DeferralReason) (r : FixtureDispatch) : result (option string) :=
  match reason with
  | DR_GLOBAL_CAPACITY => Ok (nk_run_id <$> head reserved)
  | DR_REPOSITORY_CAPACITY =>
      others ← mapM_result (fun key => o ← get_request key requests; Ok (key, o)) reserved;
      Ok ((fun ko => nk_run_id ko.1) <$>
          head (List.filter (fun ko => String.eqb (fd_repository_id ko.2) (fd_repository_id r)) others))
  | _ => Ok None
  end.
(** One deferred node of the plan. *)
Definition defer_node (clock owner : string) (requests : list (NodeKey * FixtureDispatch))
    (run_ids : option (list string)) (held_runs : list (string * string)) (reserved : list NodeKey)
    (epoch : Z) (now : datetime) (deferred : NodeKey * DeferralReason) : tx () :=
  let '(key, reason) := deferred in
  r ← lift (get_request key requests);
  match dict_get (nk_run_id key) held_runs with
  | Some detail => record_hold_deferral clock owner r detail epoch now
  | None =>
      if match run_ids with Some ids => negb (bool_decide (nk_run_id key ∈ ids)) | None => false end
      then mret ()
      else
        holder ← lift (holder_of requests reserved reason r);
        record_deferral clock owner r
          (match holder with Some _ => deferral_value DR_CAPACITY_RESERVED | None => deferral_value reason end)
          holder None epoch now
  end.
Record RuntimeTickResult := {
  rr_epoch : CoordinatorEpoch; rr_consumed_commands : list CommandConsumption;
  rr_dispatched : list DispatchedFixture }.
(** The keys the plan selects that this tick launches. *)
Definition launched (run_ids : option (list string)) (key : NodeKey) : bool :=
  match run_ids with Some ids => bool_decide (nk_run_id key ∈ ids) | None => true end.
(** [tick] *)
Definition tick (h : Host) (t : TaskRepository) (environ : list (string * string)) (clock owner : string)
    (now : datetime) (heartbeat_window lease_window : timedelta) (limits : SchedulingLimits)
    (requests : list FixtureDispatch) (run_ids : option (list string)) (held_runs : list (string * string))
    : tx RuntimeTickResult :=
  epoch ← acquire_or_renew clock owner now heartbeat_window;
  consumed ← consume_pending clock owner (ce_epoch epoch) now heartbeat_window CONSUME_LIMIT;
  _ ← mapM_tx (fun r => register h clock owner r ACTOR_AGENT (ce_epoch epoch) now []) requests;
  requests_by_key ← asks requests_from_ledger;
  nodes ← asks (planned_nodes requests_by_key held_runs);
  plan ← lift (scheduler_plan nodes limits);
  let launch := List.filter (launched run_ids) (sp_selected plan) in
  let reserved := List.filter (fun key => negb (launched run_ids key)) (sp_selected plan) in
  dispatched ← mapM_tx (launch_node h t environ clock owner requests_by_key (ce_epoch epoch) now lease_window) launch;
  _ ← mapM_tx (defer_node clock owner requests_by_key run_ids held_runs reserved (ce_epoch epoch) now)
        (sp_deferred plan);
  mret {| rr_epoch := epoch; rr_consumed_commands := consumed; rr_dispatched := dispatched |}.

(** ** Collecting, cancelling and failing workers *)
(** [_require_owned_epoch] *)
Definition require_owned_epoch (owner : string) (now : datetime) : tx CoordinatorEpoch :=
  current ← read_epoch;
  match current with
  | None => throw ExternalConflictError
  | Some c =>
      active ← lift (active_at c now);
      if negb active || negb (String.eqb (ce_owner c) owner) then throw ExternalConflictError else mret c
  end.
(** [_require_cancellation_epoch] *)
Definition require_cancellation_epoch (owner : string) (epoch : Z) (now : datetime) : tx Z :=
  current ← read_epoch;
  match current with
  | None => throw ExternalConflictError
  | Some c =>
      if negb (ce_epoch c =? epoch)%Z || negb (String.eqb (ce_owner c) owner) then throw ExternalConflictError
      else
        active ← lift (active_at c now);
        if negb active then throw ExternalConflictError else mret (ce_epoch c)
  end.
Definition read_attempt (attempt_id : string) (s : Ledger) : result ProjectionRow :=
  from_option_err InternalInvariantViolationError (read_projection "node_attempt" attempt_id s).
(** [self._workspaces.retain(...)] or [cleanup(...)], as the request says. *)
Definition settle_workspace (h : Host) (t : TaskRepository) (clock owner : string) (r : FixtureDispatch)
    (w : WorkspaceReservation) (epoch : Z) (now : datetime) : tx () :=
  _ ← (if fd_retain_workspace r then retain clock owner w epoch now
       else cleanup h t clock owner w epoch now);
  mret ().
(** [ingest_result] of the runtime *)
Definition collect_result (h : Host) (t : TaskRepository) (clock owner : string)
    (envelope : WorkerResultEnvelope) (now : datetime) : tx () :=
  r ← asks (request_for (we_run_id envelope) (we_node_id envelope));
  state ← asks (runtime_state r);
  _ ← lift (require_agent_node state);
  _ ← lift (raise_when negb (String.eqb (fd_attempt_id r) (we_attempt_id envelope)) as ExternalConflictError ;; Ok ());
  attempt ← asks (read_attempt (we_attempt_id envelope));
  epoch ← require_owned_epoch owner now;
  lease ← asks (active_lease (we_run_id envelope) (we_node_id envelope) (we_operation_id envelope));
  _ ← observe_exit h clock owner lease (ce_epoch epoch) now;
  _ ← NodeLeases.ingest_result clock owner envelope (ce_epoch epoch) now (pj_aggregate_version attempt) false false;
  _ ← set_status clock owner r (we_terminal_result envelope) "runtime_node.completed" (ce_epoch epoch) now [];
  w ← asks (require_workspace (fd_repository_id r) (fd_run_id r));
  settle_workspace h t clock owner r w (ce_epoch epoch) now.
(** [release_workspace] *)
Definition release_workspace (h : Host) (t : TaskRepository) (clock owner run_id repository_id : string)
    (epoch : Z) (now : datetime) : tx WorkspaceReservation :=
  w ← asks (require_workspace repository_id run_id);
  _ ← lift (raise_when negb (String.eqb (wr_status w) "retained") as ExternalConflictError ;; Ok ());
  cleanup h t clock owner w epoch now.
(** [attempt.state.get("terminal_result") is None] *)
Definition no_terminal_result (attempt : ProjectionRow) : result bool :=
  state ← state_dict attempt;
  Ok (match dict_get "terminal_result" state with None | Some JNull => true | _ => false end).
(** The result a coordinator records for a worker that delivers none. *)
Definition coordinator_envelope (run_id node_id : string) (r : FixtureDispatch) (lease : FencedNodeLease) (terminal_result : string)
    (result : list (string * json)) : WorkerResultEnvelope := {|
  we_run_id := run_id; we_node_id := node_id; we_attempt_id := fd_attempt_id r;
  we_epoch := fl_epoch lease; we_fencing_token := fl_fencing_token lease;
  we_operation_id := fd_operation_id r; we_terminal_result := terminal_result;
  we_artifact_references := []; we_result := result |}.
(** Ingested unless the attempt already has a result; the lease may have expired. *)
Definition ingest_missing (clock owner run_id node_id : string) (r : FixtureDispatch) (lease : FencedNodeLease)
    (terminal_result : string) (result : list (string * json)) (epoch : Z) (now : datetime) : tx () :=
  attempt ← asks (read_attempt (fd_attempt_id r));
  missing ← lift (no_terminal_result attempt);
  if negb missing then mret ()
  else
    envelope ← lift (envelope_post_init (coordinator_envelope run_id node_id r lease terminal_result result));
    NodeLeases.ingest_result clock owner envelope epoch now (pj_aggregate_version attempt)
      (String.eqb terminal_result "cancelled") (String.eqb terminal_result "failed").
Definition clean_unless_done (h : Host) (t : TaskRepository) (clock owner : string) (w : WorkspaceReservation)
    (epoch : Z) (now : datetime) : tx () :=
  if String.eqb (wr_status w) "cleaned" then mret () else _ ← cleanup h t clock owner w epoch now; mret ().
(** The [running] branch of [cancel_node]: whether the node may be marked cancelled. *)
Definition cancel_running (h : Host) (t : TaskRepository) (clock owner run_id node_id : string) (r : FixtureDispatch)
    (epoch : Z) (now : datetime) : tx bool :=
  lease ← asks (active_lease (fd_run_id r) (fd_node_id r) (fd_operation_id r));
  epoch ← require_cancellation_epoch owner epoch now;
  _ ← cancel_persisted h clock owner lease now (Some epoch);
  w ← asks (require_workspace (fd_repository_id r) (fd_run_id r));
  assessment ← reconcile h clock owner lease (wr_workspace_path w) epoch now (Some (wr_mode w));
  _ ← ingest_missing clock owner run_id node_id r lease "cancelled" [("cancellation", JStr "operator_requested")] epoch now;
  if negb (ra_ready assessment) then
    _ ← set_status clock owner r "awaiting_human" "runtime_node.cancellation_cleanup_pending" epoch now
          [("cancellation_cleanup_reason", JStr (ra_reason assessment))];
    mret false
  else _ ← clean_unless_done h t clock owner w epoch now; mret true.
(** [cancel_node] *)
Definition cancel_node (h : Host) (t : TaskRepository) (clock owner run_id node_id : string) (epoch : Z)
    (now : datetime) : tx () :=
  r ← asks (request_for run_id node_id);
  state ← asks (runtime_state r);
  let cancelled epoch := set_status clock owner r "cancelled" "runtime_node.cancelled" epoch now [] in
  if field_is "status" "running" state then
    done ← cancel_running h t clock owner run_id node_id r epoch now;
    if (done : bool) then cancelled epoch else mret ()
  else if field_is "status" "awaiting_human" state then
    actor ← lift (actor_type_from_state state);
    _ ← lift (raise_when negb (bool_decide (actor = ACTOR_AGENT)) as ExternalConflictError ;; Ok ());
    _ ← asks (active_lease (fd_run_id r) (fd_node_id r) (fd_operation_id r));
    epoch ← require_cancellation_epoch owner epoch now;
    w ← asks (require_workspace (fd_repository_id r) (fd_run_id r));
    _ ← clean_unless_done h t clock owner w epoch now;
    cancelled epoch
  else if field_is "status" "queued" state then cancelled epoch
  else throw ExternalConflictError.
(** [fail_exited_worker]: the evidence kept about the worker. *)
Definition exit_evidence (i : ProcessIdentity) (liveness : WorkerLiveness) : list (string * json) :=
  [("pid", JInt (pi_pid i)); ("process_group_id", JInt (pi_process_group_id i));
   ("start_identity", JStr (pi_start_identity i)); ("liveness", JStr (liveness_value liveness))] ++
  match pi_host i with
  | Some host => [("machine_id", JStr (hi_machine_id host)); ("boot_id", JStr (hi_boot_id host))]
  | None => []
  end.
(** The failure of a worker proven gone. *)
Definition fail_gone_worker (h : Host) (t : TaskRepository) (clock owner run_id node_id : string) (r : FixtureDispatch)
    (lease : FencedNodeLease) (identity : ProcessIdentity) (liveness : WorkerLiveness) (now : datetime)
    (heartbeat_window : timedelta) : tx () :=
  epoch ← acquire_or_renew clock owner now heartbeat_window;
  let epoch := ce_epoch epoch in
  _ ← observe_exit h clock owner lease epoch now;
  w ← asks (require_workspace (fd_repository_id r) (fd_run_id r));
  reconciled ← reconcile h clock owner lease (wr_workspace_path w) epoch now (Some (wr_mode w));
  let reason := if bool_decide (liveness = LV_REBOOTED) then "worker_lost_to_reboot"
                else "worker_exited_without_result" in
  let evidence := exit_evidence identity liveness in
  _ ← ingest_missing clock owner run_id node_id r lease "failed"
        [("failure", JStr reason); ("worker", JObj evidence)] epoch now;
  if negb (ra_ready reconciled) then
    set_status clock owner r "awaiting_human" "runtime_node.worker_exited_cleanup_pending" epoch now
      [("failure_reason", JStr reason); ("cancellation_cleanup_reason", JStr (ra_reason reconciled));
       ("worker_exit_evidence", JObj evidence)]
  else
    _ ← settle_workspace h t clock owner r w epoch now;
    set_status clock owner r "failed" "runtime_node.worker_exited" epoch now
      [("failure_reason", JStr reason); ("worker_exit_evidence", JObj evidence)].
Definition fail_exited_worker (h : Host) (t : TaskRepository) (clock owner run_id node_id : string)
    (now : datetime) (heartbeat_window : timedelta) : tx () :=
  r ← asks (request_for run_id node_id);
  state ← asks (runtime_state r);
  _ ← lift (require_agent_node state);
  _ ← lift (raise_when negb (field_is "status" "running" state) as ExternalConflictError ;; Ok ());
  lease ← asks (active_lease (fd_run_id r) (fd_node_id r) (fd_operation_id r));
  record ← gets (read_process_manager_state SUPERVISOR_MANAGER (run_id +:+ ":" +:+ node_id));
  worker ← lift (from_option_err InternalInvariantViolationError record ≫= record_state);
  '(liveness, identity) ← lift (assess_worker h worker);
  if field_is "status" "termination_requested" worker && bool_decide (liveness ∈ LV_ALIVE :: GONE) then
    epoch ← acquire_or_renew clock owner now heartbeat_window;
    cancel_node h t clock owner run_id node_id (ce_epoch epoch) now
  else
    match identity with
    | Some i =>
        if negb (bool_decide (liveness ∈ GONE)) then throw ExternalConflictError
        else fail_gone_worker h t clock owner run_id node_id r lease i liveness now heartbeat_window
    | None => throw ExternalConflictError
    end.

(** ** Human waits of agent nodes *)
(** [enter_human_wait] *)
Definition enter_human_wait (h : Host) (clock owner : string) (f : DispatchedFixture) (reason : string)
    (now : datetime) : tx () :=
  let lease := df_lease f in let w := df_workspace f in let epoch := fl_epoch lease in
  _ ← lift (raise_when blank reason as InvalidInputError ;; Ok ());
  r ← asks (request_for (fl_run_id lease) (fl_node_id lease));
  _ ← supervisor_cancel h clock owner lease (df_identity f) now None;
  _ ← reconcile h clock owner lease (wr_workspace_path w) epoch now (Some (wr_mode w));
  envelope ← lift (envelope_post_init {|
    we_run_id := fl_run_id lease; we_node_id := fl_node_id lease; we_attempt_id := fl_attempt_id lease;
    we_epoch := epoch; we_fencing_token := fl_fencing_token lease; we_operation_id := fl_operation_id lease;
    we_terminal_result := "cancelled"; we_artifact_references := [];
    we_result := [("human_wait_reason", JStr reason)] |});
  attempt ← asks (read_attempt (fl_attempt_id lease));
  _ ← NodeLeases.ingest_result clock owner envelope epoch now (pj_aggregate_version attempt) false false;
  retained ← retain clock owner w epoch now;
  set_status clock owner r "awaiting_human" "runtime_node.human_wait_entered" epoch now
    [("human_wait_reason", JStr reason); ("workspace_status", JStr (wr_status retained))].
(** [resume_human_wait]: only with a fresh attempt and operation. *)
Definition resume_human_wait (h : Host) (clock owner : string) (r : FixtureDispatch) (epoch : Z)
    (now : datetime) (extra : list (string * json)) : tx () :=
  prior ← asks (request_for (fd_run_id r) (fd_node_id r));
  state ← asks (runtime_state prior);
  _ ← lift (raise_when negb (field_is "status" "awaiting_human" state) as ExternalConflictError ;; Ok ());
  _ ← lift (raise_when String.eqb (fd_attempt_id r) (fd_attempt_id prior) ||
                       String.eqb (fd_operation_id r) (fd_operation_id prior) as InvalidInputError ;; Ok ());
  actor ← lift (actor_type_from_state state);
  _ ← (if bool_decide (actor = ACTOR_AGENT) then
         w ← asks (require_workspace (fd_repository_id r) (fd_run_id r));
         _ ← resume_workspace h clock owner w epoch now; mret ()
       else mret ());
  replace_request clock owner r epoch now "runtime_node.human_wait_resumed" extra.
End RuntimeNodes.

(** ** Sample hosts, repositories and requests

    Concrete inputs on which the theorems about the engine are instantiated: a host whose
    one process is the spawned worker, a repository whose commits resolve to themselves. *)

Definition here : HostIdentity := {| hi_machine_id := "machine"; hi_boot_id := "boot"; hi_hostname := "host" |}.
(** [alive]: whether the worker, pid 7, still runs. *)
Definition sample_host (alive : bool) : Host := {|
  host_identity := Ok here;
  host_pid := fun pid _ => if alive && (pid =? 7)%Z then PidHeld 7 "start" else PidFree;
  host_pid_exists := fun pid => alive && (pid =? 7)%Z; host_reaps := fun _ => true;
  host_group_empty := fun _ => negb alive; host_group_exits := fun _ _ => true;
  host_spawn := fun _ _ _ => inr 7%Z; host_container_gone := None;
  host_git := fun _ _ => Ok (0%Z, ""); host_is_dir := fun _ => true; host_exists := fun _ => false;
  host_clone := fun _ => {| cl_workspace := PathDirectory; cl_git := PathDirectory; cl_lock := PathMissing |} |}.
Definition sample_repository : TaskRepository := {|
  tr_resolve_commit := fun _ base => Ok base; tr_materialize := fun _ _ _ => Ok ();
  tr_remove_references := fun _ => Ok (); tr_remove_workspace := fun _ => Ok [];
  tr_intake_bundle := fun _ _ _ _ => Ok (); tr_verify_intake := fun _ _ _ => Ok "head" |}.
Definition sample_request (node : string) (dependencies : list (string * string)) : FixtureDispatch := {|
  fd_run_id := "run"; fd_node_id := node; fd_attempt_id := "attempt-" +:+ node; fd_repository_id := "repo-" +:+ node;
  fd_repository_path := "/repo"; fd_workspace_path := "/work/" +:+ node; fd_base_revision := "main";
  fd_command := ["worker"; "--once"]; fd_expected_attempt_version := 0; fd_operation_id := "operation-" +:+ node;
  fd_dependencies := dependencies; fd_workflow_definition_id := None; fd_retain_workspace := false;
  fd_log_directory := None; fd_workspace_mode := WORKSPACE_MODE_GIT_WORKTREE;
  fd_environment_keys := None; fd_branch_publication := BRANCH_PUBLICATION_WORKER |}.
Definition sample_lease (node : string) : FencedNodeLease := {|
  fl_run_id := "run"; fl_node_id := node; fl_attempt_id := "attempt-" +:+ node; fl_epoch := 1;
  fl_fencing_token := 1; fl_operation_id := "operation-" +:+ node; fl_owner := "alice"; fl_expires_at := Aware 100 |}.
Definition wide_limits : SchedulingLimits := {| global_concurrency := 1; per_repository_concurrency := 1 |}.
