(* ===== verification/WorkerProofs.v ===== *)
(** * What one engine call may write, and what it does to a worker's record

    [touch T N]: the projections of aggregates outside the types [T] and the records of
    process managers outside the names [N] stay as they were, whether the call returns or
    raises midway.  Every call of the runtime has a footprint of this form.

    The supervisor's record of a node under every call that writes it: the recorded
    process identity stays, and is only released by a reconciliation whose host showed that
    process gone and its workspace quiescent; a launch without an identity is never
    released. *)
From S2P Require Import Prelude PyText Json Identity JsonCanon Redaction Ledger LedgerProofs.
From S2P Require Import LedgerTheorems Coordinator CoordinatorProofs NodeLeases Runtime.
From S2P Require Import OperatorControl Workers Workspaces.

(** ** Footprints *)
Record touch (T N : list string) (s s' : Ledger) : Prop := {
  to_frame : frame (fun r => r.1 ∉ T) s s';
  to_pm : forall r, r.1 ∉ N -> lg_pm s' !! r = lg_pm s !! r;
}.
#[export] Instance touch_preorder T N : PreOrder (touch T N).
Proof.
  split.
  - intros s. by split.
  - intros s1 s2 s3 [F1 P1] [F2 P2]. split; [by etrans|]. intros r Hr. by rewrite P2, P1.
Qed.
Lemma touch_mono T N T' N' s s' : T ⊆ T' -> N ⊆ N' -> touch T N s s' -> touch T' N' s s'.
Proof.
  intros HT HN [F P]. split; [|intros r Hr; apply P; set_solver].
  eapply frame_weaken; [|exact F]. set_solver.
Qed.
Lemma touch_view T N s s' r : touch T N s s' -> wf_ledger s -> r.1 ∉ T -> view_of r s' = view_of r s.
Proof. intros [F _] Hs Hr. by apply (fr_view _ _ _ F). Qed.
Lemma touch_wf T N s s' : touch T N s s' -> wf_ledger s -> wf_ledger s'.
Proof. intros [F _]. apply (fr_wf _ _ _ F). Qed.

(** Membership in lists of literals. *)
Ltac literal := solve [done | apply (bool_decide_unpack _); vm_compute; done | set_solver].

(** ** A computation's footprint *)
Section EnsuresMore.
Context (R : Ledger -> Ledger -> Prop) `{!PreOrder R}.
(** A read, whose value is known to be one it can return. *)
Lemma ensures_read {A B} (m : tx A) (Q : A -> Prop) (f : A -> tx B) :
  reads m -> (forall s a, (m s).2 = Ok a -> Q a) -> (forall a, Q a -> ensures R (f a)) ->
  ensures R (mbind f m).
Proof.
  intros Hm HQ Hf s. unfold mbind, tx_bind. pose proof (Hm s) as Hs. specialize (HQ s).
  destruct (m s) as [s1 [a|e]]; cbn in *; subst s1; [|reflexivity]. by apply Hf, HQ.
Qed.
Lemma ensures_mapM {A B} (f : A -> tx B) l : (forall x, ensures R (f x)) -> ensures R (mapM_tx f l).
Proof.
  intros Hf. induction l as [|x l IH]; cbn [mapM_tx]; [apply (ensures_ret R)|].
  apply (ensures_bind R); [done|]. intros y. apply (ensures_bind R); [done|].
  intros ys. apply (ensures_ret R).
Qed.
End EnsuresMore.
Lemma ensures_weaken {A} (R Q : Ledger -> Ledger -> Prop) (m : tx A) :
  (forall s s', R s s' -> Q s s') -> ensures R m -> ensures Q m.
Proof. intros HRQ Hm s. by apply HRQ. Qed.
Lemma reads_gets {A} (f : Ledger -> A) : reads (gets f).
Proof. by intros s. Qed.
Lemma reads_lift {A} (r : result A) : reads (lift r).
Proof. by intros s. Qed.
Lemma reads_next_event ty id ety payload : reads (next_event ty id ety payload).
Proof. by intros s. Qed.

Lemma pm_after_other now l m r : Forall (fun w => pw_ref w <> r) l -> pm_after now l m !! r = m !! r.
Proof.
  unfold pm_after. revert m. induction l as [|w l IH]; intros m; [done|].
  intros [Hw Hl]%Forall_cons. cbn [foldl]. rewrite IH by done. by apply lookup_insert_ne.
Qed.

(** [ens] follows the structure of a computation; footprints of calls are in [touch]. *)
Create HintDb touch.
Ltac ens_step :=
  match goal with
  | |- forall _, _ => intros ?
  | |- ensures _ (mret _) => apply (ensures_ret _)
  | |- ensures _ (throw _) => apply (ensures_throw _)
  | |- ensures _ (lift _) => apply (ensures_reads _), reads_lift
  | |- ensures _ (asks _) => apply (ensures_reads _), reads_asks
  | |- ensures _ (gets _) => apply (ensures_reads _), reads_gets
  | |- ensures _ (mbind _ (lift _)) => apply (ensures_lift _); intros ? _
  | |- ensures _ (mbind _ (asks _)) => apply (ensures_bind _); [apply (ensures_reads _), reads_asks|]
  | |- ensures _ (mbind _ (gets _)) => apply (ensures_bind _); [apply (ensures_reads _), reads_gets|]
  | |- ensures _ (mbind _ read_epoch) => apply (ensures_bind _); [apply (ensures_reads _), reads_epoch|]
  | |- ensures _ (mbind _ (require_current_owner _ _ _)) =>
      apply (ensures_bind _); [apply (ensures_reads _), reads_current_owner|]
  | |- ensures _ (mbind _ _) => apply (ensures_bind _)
  | |- ensures _ (mapM_tx _ _) => apply (ensures_mapM _)
  | |- ensures _ (if ?b then _ else _) => destruct b
  | |- ensures _ (match ?x with _ => _ end) => destruct x
  | |- ensures _ (let '_ := ?x in _) => destruct x
  | |- ensures _ _ => solve [eauto 4 with touch nocore]
  end.
Ltac ens := repeat ens_step.

Section Footprints.
Context `{rt : PyRuntime} `{iso : IsoCodec}.
Variables T N : list string.
Abbreviation within := (ensures (touch T N)).

Lemma append_touch now store c :
  Forall (fun e => ew_aggregate_type e ∈ T) (ac_events c) ->
  Forall (fun w => pw_process_manager_name w ∈ N) (ac_process_manager_updates c) ->
  within (append now store c).
Proof.
  intros He Hp s. destruct (append now store c s) as [s' [res|e]] eqn:Ha; cbn [fst].
  2: { apply append_atomic in Ha as ->. reflexivity. }
  split.
  - eapply append_Ok_frame; [exact Ha|]. intros r Hr. eapply Forall_impl; [exact He|].
    intros e Hin <-. by apply Hr.
  - intros r Hr. apply append_Ok_effect in Ha. rewrite (ef_pm _ _ _ _ _ _ Ha).
    apply pm_after_other. eapply Forall_impl; [exact Hp|]. intros w Hin <-. by apply Hr.
Qed.
Lemma epoch_guard_name owner epoch now s w : (epoch_guard owner epoch now s).2 = Ok w ->
  pw_process_manager_name w = COORDINATOR_NAME /\ pw_state_key w = COORDINATOR_STATE_KEY.
Proof.
  unfold epoch_guard. rewrite lift_tx. destruct (require_aware now); [|done].
  unfold mbind, tx_bind. destruct (require_current_owner _ _ _ s) as [s1 [c|e]]; [|done].
  cbn [lift snd]. by intros ->%mk_pm_write_Ok.
Qed.
Hypothesis Hcoord : COORDINATOR_NAME ∈ N.
Lemma coordinator_event_type ety payload {A} (f : EventWrite -> tx A) :
  (forall e, ew_aggregate_type e = COORDINATOR_AGGREGATE_TYPE -> within (f e)) ->
  within (mbind f (coordinator_event ety payload)).
Proof.
  apply (ensures_read _ _ (fun e => ew_aggregate_type e = COORDINATOR_AGGREGATE_TYPE));
    [by intros s|]. by intros s e ->%mk_event_write_Ok.
Qed.
Lemma record_epoch_touch clock owner corr ty epoch deadline version :
  COORDINATOR_AGGREGATE_TYPE ∈ T -> within (record_epoch clock owner corr ty epoch deadline version).
Proof.
  intros HT. unfold record_epoch. apply coordinator_event_type. intros e He.
  apply (ensures_lift _). intros w ->%mk_pm_write_Ok. apply (ensures_lift _). intros c ->%mk_command_Ok.
  apply (ensures_bind _); [|ens]. apply append_touch; repeat constructor; [by rewrite He|done].
Qed.
Lemma acquire_or_renew_touch clock owner now window : COORDINATOR_AGGREGATE_TYPE ∈ T ->
  within (acquire_or_renew clock owner now window).
Proof.
  intros HT. pose proof (record_epoch_touch clock owner) as Hr. unfold acquire_or_renew, acquire, renew. ens;
    by apply Hr.
Qed.
Lemma run_command_event_type command e : run_command_event command = inr e ->
  ew_aggregate_type e = RUN_AGGREGATE_TYPE.
Proof. unfold run_command_event. repeat case_match; intros [= <-]; done. Qed.
Lemma consume_command_touch clock owner epoch now window command :
  COORDINATOR_AGGREGATE_TYPE ∈ T -> RUN_AGGREGATE_TYPE ∈ T ->
  within (consume_command clock owner epoch now window command).
Proof.
  intros HT HR. unfold consume_command. apply (ensures_bind _); [apply (ensures_reads _), reads_current_owner|].
  intros c. destruct (run_command_event command) as [reason|ev] eqn:Hev;
    apply coordinator_event_type; intros e He; apply (ensures_lift _); intros w ->%mk_pm_write_Ok;
    apply (ensures_lift _); intros ac ->%mk_command_Ok; apply (ensures_bind _); try by intros; apply (ensures_ret _).
  - apply append_touch; repeat constructor; [by rewrite He|done].
  - apply run_command_event_type in Hev. apply append_touch; repeat constructor; [by rewrite Hev|by rewrite He|done].
Qed.
Lemma consume_pending_touch clock owner epoch now window limit :
  COORDINATOR_AGGREGATE_TYPE ∈ T -> RUN_AGGREGATE_TYPE ∈ T ->
  within (consume_pending clock owner epoch now window limit).
Proof.
  intros HT HR. unfold consume_pending. ens; [by apply (ensures_reads _)|]. by apply consume_command_touch.
Qed.

(** ** Guarded appends, leases and records *)
(** A command under the epoch guard. *)
Lemma guarded_touch {A} owner epoch now (k : ProcessManagerStateWrite -> tx A) :
  (forall w, pw_process_manager_name w ∈ N -> within (k w)) ->
  within (mbind k (epoch_guard owner epoch now)).
Proof.
  intros Hk. apply (ensures_read _ _ (fun w => pw_process_manager_name w = COORDINATOR_NAME));
    [apply reads_guard|by intros s w [? _]%epoch_guard_name|]. intros w Hw. apply Hk. by rewrite Hw.
Qed.
Lemma guarded_append_touch clock owner epoch now corr ty id version ety payload : ty ∈ T ->
  within (guarded_append clock owner epoch now corr ty id version ety payload).
Proof.
  intros HT. unfold guarded_append. apply (ensures_lift _). intros e ->%mk_event_write_Ok.
  apply guarded_touch. intros w Hw. apply (ensures_lift _). intros c ->%mk_command_Ok.
  apply append_touch; by repeat constructor.
Qed.
Lemma commit_record_touch clock owner corr epoch now ty id ety manager key version state :
  ty ∈ T -> manager ∈ N ->
  within (commit_record clock owner corr epoch now ty id ety manager key version state).
Proof.
  intros HT HN. unfold commit_record. apply (ensures_read _ _ (fun e => ew_aggregate_type e = ty));
    [by intros s|by intros s e ->%mk_event_write_Ok|]. intros e He.
  apply guarded_touch. intros g Hg. apply (ensures_lift _). intros w ->%mk_pm_write_Ok.
  apply (ensures_lift _). intros c ->%mk_command_Ok.
  apply append_touch; repeat constructor; [by rewrite He|done..].
Qed.
Lemma append_lease_touch clock owner corr epoch now l version e1 e2 payload expires :
  "node_attempt" ∈ T -> "node_lease" ∈ T ->
  within (append_lease clock owner corr epoch now l version e1 e2 payload expires).
Proof.
  intros HA HL. unfold append_lease. apply (ensures_lift _). intros a ->%mk_event_write_Ok.
  apply (ensures_read _ _ (fun e => ew_aggregate_type e = "node_lease"));
    [by intros s|by intros s e ->%mk_event_write_Ok|]. intros e He.
  apply guarded_touch. intros g Hg. apply (ensures_lift _). intros w _.
  apply (ensures_lift _). intros c ->%mk_command_Ok.
  apply append_touch; repeat constructor; [done|by rewrite He|done].
Qed.
Lemma grant_touch clock owner run node attempt epoch now window version operation :
  "node_attempt" ∈ T -> "node_lease" ∈ T ->
  within (grant clock owner run node attempt epoch now window version operation).
Proof. intros HA HL. unfold grant. ens; by apply append_lease_touch. Qed.
Lemma ingest_result_touch clock owner envelope epoch now version c f :
  "node_attempt" ∈ T -> "node_lease" ∈ T ->
  within (ingest_result clock owner envelope epoch now version c f).
Proof. intros HA HL. unfold ingest_result. ens; by apply append_lease_touch. Qed.
End Footprints.
#[export] Hint Resolve acquire_or_renew_touch consume_pending_touch guarded_append_touch
  commit_record_touch grant_touch ingest_result_touch : touch.

(** ** A worker's record *)
Definition record_of (k : string) (s : Ledger) : option json :=
  pm_state <$> lg_pm s !! ((SUPERVISOR_MANAGER, k) : ref).

(** ** One committed record *)
Section Records.
Context `{rt : PyRuntime} `{iso : IsoCodec}.

Lemma commit_record_spec clock owner corr epoch now ty id ety manager key version state s :
  manager <> COORDINATOR_NAME ->
  match commit_record clock owner corr epoch now ty id ety manager key version state s with
  | (s', Ok r) => pm_version_of (manager, key) s = version /\
      second_state_version r = Ok (version + 1)%Z /\
      lg_pm s' !! ((manager, key) : ref) = Some {| pm_version := version + 1;
        pm_state := canon (JObj state); pm_updated_at := clock |} /\
      forall r, r.1 <> COORDINATOR_NAME -> r <> (manager, key) -> lg_pm s' !! r = lg_pm s !! r
  | (s', Err _) => s' = s
  end.
Proof.
  intros Hm. unfold commit_record. unfold mbind at 1, tx_bind at 1. unfold next_event.
  destruct (mk_event_write _ _ _ _ _) as [e|]; [|done].
  unfold mbind at 1, tx_bind at 1. pose proof (reads_guard owner epoch now s) as Hg.
  pose proof (epoch_guard_name owner epoch now s) as Hn.
  destruct (epoch_guard owner epoch now s) as [s0 [g|er]]; cbn [fst snd] in *; subst s0; [|done].
  destruct (Hn g eq_refl) as [Hgn Hgk]. clear Hn. rewrite lift_tx.
  destruct (mk_pm_write _ _ _ _) as [w|] eqn:Hw; [|done]. apply mk_pm_write_Ok in Hw as ->.
  rewrite lift_tx. destruct (mk_command _ _ _ _ _ _) as [c|] eqn:Hc; [|done].
  apply mk_command_Ok in Hc as ->.
  match goal with |- context [append clock None ?c s] => destruct (append clock None c s) as [s' [r|er]] eqn:Ha end;
    [|by apply append_atomic in Ha].
  apply append_Ok_effect in Ha. destruct Ha as [_ _ _ _ He Hv Hp _ Hr _ _ _ _ _].
  cbn [ac_process_manager_updates] in *.
  assert (Hne : pw_ref g <> (manager, key)) by (unfold pw_ref; rewrite Hgn; congruence).
  apply Forall_cons in He as [_ He]. apply Forall_cons in He as [He _]. unfold pw_ref in He. cbn in He.
  specialize (Hv (manager, key)). unfold updates_to in Hv. cbn [List.filter] in Hv.
  rewrite (bool_decide_eq_false_2 (pw_ref g = _)), bool_decide_eq_true_2 in Hv by done.
  cbn [length] in Hv. unfold pm_version_of in Hv at 1. rewrite Hp in Hv.
  cbn [pm_after foldl] in Hv. unfold pm_after in Hp, Hv. cbn [foldl] in Hp, Hv.
  unfold pw_ref at 1 in Hv. cbn [pw_process_manager_name pw_state_key] in Hv.
  rewrite lookup_insert_eq in Hv. cbn in Hv. split_and!.
  - lia.
  - unfold second_state_version. by rewrite Hr.
  - rewrite Hp. unfold pw_ref at 1. cbn. by rewrite lookup_insert_eq.
  - intros a Ha1 Ha2. rewrite Hp. unfold pw_ref at 1. cbn. rewrite lookup_insert_ne by done.
    apply lookup_insert_ne. intros <-. by apply Ha1.
Qed.
Lemma record_worker_spec clock owner prefix epoch now l ety version state s :
  match record_worker clock owner prefix epoch now l ety version state s with
  | (s', Ok r) => record_of (worker_key l) s' = Some (canon (JObj state)) /\
      second_state_version r = Ok (version + 1)%Z /\
      forall k, k <> worker_key l -> record_of k s' = record_of k s
  | (s', Err _) => s' = s
  end.
Proof.
  unfold record_worker. pose proof (commit_record_spec clock owner (prefix +:+ ":" +:+ lease_text l) epoch now
    "worker" (worker_key l) ety SUPERVISOR_MANAGER (worker_key l) version state s) as Hc.
  destruct (commit_record _ _ _ _ _ _ _ _ _ _ _ _ s) as [s' [r|e]]; [|by apply Hc].
  destruct Hc as (_ & Hv & Hl & Ho); [done|]. unfold record_of. split_and!; [by rewrite Hl|done|].
  intros k Hk. rewrite Ho; [done|done|]. by intros [= ->].
Qed.
End Records.

(** ** Identities in records *)
Definition wf_identity (i : ProcessIdentity) : Prop :=
  pi_start_identity i <> "" /\
  match pi_host i with Some h => hi_machine_id h <> "" /\ hi_boot_id h <> "" | None => True end.
Lemma identity_wf m i : identity_from_state m = Ok i -> wf_identity i.
Proof.
  unfold identity_from_state. destruct (int_field "pid" m), (int_field "process_group_id" m),
    (text_field "start_identity" m) as [st|]; try done.
  rewrite raise_if_Ok. intros [Hst%String.eqb_neq H].
  destruct (default JNull _); [injection H as <-; by split|..]; revert H; repeat case_match; try done;
    rewrite raise_if_Ok, !orb_false_iff; intros (((_ & Hm%String.eqb_neq) & Hb%String.eqb_neq) & [= <-]); done.
Qed.
Lemma dict_get_app {V} k (m m' : list (string * V)) :
  dict_get k (m ++ m') = match dict_get k m with Some v => Some v | None => dict_get k m' end.
Proof. induction m as [|[k' v] m IH]; [done|]. cbn. by destruct (String.eqb k k'). Qed.
(** Entries that leave the identity and the status of a record alone. *)
Definition IDENTITY_KEYS : list string :=
  ["run_id"; "node_id"; "attempt_id"; "epoch"; "fencing_token"; "operation_id"; "status"; "pid";
   "process_group_id"; "start_identity"; "identity_version"; "machine_id"; "boot_id"; "hostname"].
Definition aside_keys (extra : list (string * json)) : Prop :=
  NoDup extra.*1 /\ Forall (fun kv => kv.1 ∉ IDENTITY_KEYS) extra.
Lemma aside_get extra k : aside_keys extra -> k ∈ IDENTITY_KEYS -> dict_get k extra = None.
Proof.
  intros [_ He] Hk. apply dict_get_None. intros (kv & -> & Hin)%list_elem_of_fmap.
  rewrite Forall_forall in He. by apply (He kv Hin).
Qed.
Lemma worker_state_keys l o st : (worker_state l o st).*1 ⊆ IDENTITY_KEYS /\ NoDup (worker_state l o st).*1.
Proof. destruct o as [[? ? ? [[]|]]|]; (split; [cbn; set_solver|]); apply (bool_decide_unpack _); by vm_compute. Qed.
Lemma worker_state_get l o st extra k : aside_keys extra -> k ∈ IDENTITY_KEYS ->
  dict_get k (canon_items (worker_state l o st ++ extra)) = canon <$> dict_get k (worker_state l o st).
Proof.
  intros He Hk. destruct (worker_state_keys l o st) as [Hi Hn]. rewrite canon_items_get.
  - rewrite dict_get_app, (aside_get extra k He Hk). by destruct (dict_get k _).
  - rewrite fmap_app. apply NoDup_app. split_and!; [done| |apply He]. intros x Hx Hin.
    apply list_elem_of_fmap in Hin as (kv & -> & Hin). destruct He as [_ He].
    rewrite Forall_forall in He. by apply (He kv Hin), Hi.
Qed.
Lemma worker_state_identity l i st extra : wf_identity i -> aside_keys extra ->
  identity_from_state (canon_items (worker_state l (Some i) st ++ extra)) = Ok i.
Proof.
  intros [Hs Hh] He. unfold identity_from_state, int_field, text_field.
  rewrite !worker_state_get by first [done|literal].
  destruct i as [pid group start [[mi bo na]|]]; cbn in Hs, Hh |- *;
    rewrite (proj2 (String.eqb_neq start "")) by done; cbn; [|done].
  destruct Hh as [Hm Hb]. rewrite (proj2 (String.eqb_neq mi "")), (proj2 (String.eqb_neq bo "")) by done. done.
Qed.
Lemma worker_state_status l o st extra x : aside_keys extra ->
  field_is "status" x (canon_items (worker_state l o st ++ extra)) = String.eqb st x.
Proof. intros He. unfold field_is. rewrite worker_state_get by first [done|literal]. done. Qed.

(** ** What keeps a record *)
(** The host shows the worker gone: rebooted since, or no process with its identity. *)
Definition gone (h : Host) (i : ProcessIdentity) : Prop :=
  classify_locality h i = Ok REBOOTED \/
  classify_locality h i = Ok LOCAL /\ (probe_presence h i = Ok ABSENT \/ probe_presence h i = Ok OTHER).
(** What releases a worker: it is gone, and so is its container and its use of the workspace. *)
Definition released (h : Host) (i : ProcessIdentity) : Prop :=
  gone h i /\ exists m path mode, identity_from_state m = Ok i /\ container_hold h mode m = None /\
    exists a, assess_workspace_quiescence h path mode = Ok a /\ ra_ready a = true.

(** A record with identity [o], or one that a launch left without identity. *)
Definition LAUNCH_STATUSES : list string := ["launch_intended"; "launch_failed"].
Definition keeps_identity (o : option ProcessIdentity) (m : list (string * json)) : Prop :=
  field_is "status" "exit_reconciled" m = false /\
  match o with
  | Some i => identity_from_state m = Ok i
  | None => identity_from_state m = Err InternalInvariantViolationError /\
            exists st, dict_get "status" m = Some (JStr st) /\ st ∈ LAUNCH_STATUSES
  end.
Definition kept (k : string) (o : option ProcessIdentity) (s : Ledger) : Prop :=
  exists m, record_of k s = Some (JObj m) /\ keeps_identity o m.
Definition was_released (h : Host) (o : option ProcessIdentity) : Prop :=
  exists i, o = Some i /\ released h i.
Definition tracks (h : Host) (k : string) (o : option ProcessIdentity) (s s' : Ledger) : Prop :=
  kept k o s -> kept k o s' \/ was_released h o.
#[export] Instance tracks_preorder h k o : PreOrder (tracks h k o).
Proof.
  split; [by intros s Hs; left|]. intros s1 s2 s3 H1 H2 Hs. destruct (H1 Hs) as [Hk|Hr]; [|by right].
  by apply H2.
Qed.
Lemma same_record_tracks h k o s s' : record_of k s' = record_of k s -> tracks h k o s s'.
Proof. intros He (m & Hm & Hk). left. exists m. by rewrite He. Qed.
Lemma touch_tracks h k o T N s s' : SUPERVISOR_MANAGER ∉ N -> touch T N s s' -> tracks h k o s s'.
Proof. intros Hn [_ Hp]. apply same_record_tracks. unfold record_of. by rewrite Hp. Qed.
Lemma keeps_worker_state i l st extra : wf_identity i -> aside_keys extra -> st <> "exit_reconciled" ->
  keeps_identity (Some i) (canon_items (worker_state l (Some i) st ++ extra)).
Proof.
  intros Hi He Hst. split; [|by apply worker_state_identity].
  rewrite worker_state_status by done. by apply String.eqb_neq.
Qed.
Lemma aside_nil : aside_keys [].
Proof. split; [constructor|constructor]. Qed.
Lemma aside_reason key (o : option string) : key ∉ IDENTITY_KEYS ->
  aside_keys (from_option (fun r => [(key, JStr r)]) [] o).
Proof. intros Hk. destruct o; [|apply aside_nil]. split; [apply NoDup_singleton|by repeat constructor]. Qed.
(** A record kept for an identity tells which statuses it can have. *)
Lemma kept_status k o s m : kept k o s -> record_of k s = Some (JObj m) -> keeps_identity o m.
Proof. intros (m' & Hm & Hk) Hr. rewrite Hm in Hr. by injection Hr as ->. Qed.
Lemma keeps_not_launch o m st : keeps_identity o m -> field_is "status" st m = true ->
  st ∉ LAUNCH_STATUSES -> exists i, o = Some i /\ identity_from_state m = Ok i.
Proof.
  intros [_ Hk] Hst Hn. destruct o as [i|]; [by exists i|]. destruct Hk as (_ & st' & Hd & Hin).
  exfalso. unfold field_is in Hst. rewrite Hd in Hst. apply String.eqb_eq in Hst as ->. done.
Qed.

(** ** The supervisor's calls *)
Section Calls.
Context `{rt : PyRuntime} `{iso : IsoCodec} (h : Host) (k : string) (o : option ProcessIdentity).
Abbreviation tracked := (tracks h k o).

Lemma record_worker_tracks clock owner prefix epoch now l ety version state s :
  (worker_key l = k -> kept k o s -> keeps_identity o (canon_items state) \/ was_released h o) ->
  tracked s (record_worker clock owner prefix epoch now l ety version state s).1.
Proof.
  intros Hk. pose proof (record_worker_spec clock owner prefix epoch now l ety version state s) as Hs.
  destruct (record_worker _ _ _ _ _ _ _ _ _ s) as [s' [r|e]]; [|by rewrite Hs].
  destruct Hs as (Hr & _ & Ho). cbn [fst]. destruct (decide (worker_key l = k)) as [<-|Hne].
  - intros Hs. destruct (Hk eq_refl Hs); [left|by right]. by exists (canon_items state).
  - apply same_record_tracks. apply Ho. by intros ->.
Qed.
Lemma require_record_of l s r : require_supervisor_record l s = Ok r ->
  record_of (worker_key l) s = Some (pm_state r).
Proof.
  unfold require_supervisor_record, record_of, read_process_manager_state.
  destruct (lg_pm s !! _); [|done]. by intros [= ->].
Qed.
Lemma record_state_Ok r m : record_state r = Ok m -> pm_state r = JObj m.
Proof. unfold record_state. destruct (pm_state r); try done. by intros [= ->]. Qed.
Lemma record_exit_tracks clock owner l epoch identity now ety version reason s :
  (worker_key l = k -> kept k o s -> o = Some identity /\ wf_identity identity) ->
  tracked s (record_exit clock owner l epoch identity now ety version reason s).1.
Proof.
  intros Hk. unfold record_exit. rewrite bind_tx.
  match goal with |- context [record_worker ?a ?b ?c ?d ?e ?f ?g ?v ?st s] =>
    pose proof (record_worker_tracks a b c d e f g v st s) as Ht;
    destruct (record_worker a b c d e f g v st s) as [s' [r|er]] end; apply Ht;
  intros He Hs; destruct (Hk He Hs) as [-> Hw]; left; apply keeps_worker_state; try done;
  by apply aside_reason; literal.
Qed.

(** [cancel], where the identity given is the recorded one. *)
Lemma supervisor_cancel_tracks clock owner l identity now epoch s :
  (worker_key l = k -> forall i, o = Some i -> kept k o s -> i = identity) ->
  tracked s (supervisor_cancel h clock owner l identity now epoch s).1.
Proof.
  intros Hid. unfold supervisor_cancel. rewrite lift_tx.
  destruct (classify_locality h identity) as [loc|]; [|reflexivity]. rewrite lift_tx.
  destruct (match loc with FOREIGN => _ | _ => _ end); [|reflexivity]. rewrite asks_tx.
  destruct (require_supervisor_record l s) as [r|] eqn:Hr; [|reflexivity]. rewrite lift_tx.
  destruct (record_state r) as [m|] eqn:Hm; [|reflexivity]. rewrite lift_tx.
  destruct (has_status m _) as [[]|]; [reflexivity| |reflexivity]. rewrite lift_tx.
  destruct (match loc with LOCAL => _ | _ => _ end); [|reflexivity].
  apply record_state_Ok in Hm. apply require_record_of in Hr. rewrite Hm in Hr.
  assert (Hsome : forall st, field_is "status" st m = true -> st ∉ LAUNCH_STATUSES ->
    worker_key l = k -> kept k o s -> o = Some identity /\ wf_identity identity).
  { intros st Hst Hn He Hs. subst k. pose proof (kept_status _ _ _ _ Hs Hr) as Hk.
    destruct (keeps_not_launch _ _ _ Hk Hst Hn) as (i & -> & Hi).
    rewrite <- (Hid eq_refl i eq_refl Hs). split; [done|by eapply identity_wf]. }
  rewrite bind_tx. unfold request_termination.
  destruct (field_is "status" "running" m) eqn:Hrun.
  - rewrite bind_tx.
    match goal with |- context [record_worker ?a ?b ?c ?d ?e ?f ?g ?v ?st s] =>
      pose proof (record_worker_tracks a b c d e f g v st s) as Ht;
      pose proof (record_worker_spec a b c d e f g v st s) as Hs;
      destruct (record_worker a b c d e f g v st s) as [s1 [r1|er]] end.
    2: { by subst s1. }
    destruct Hs as (Hrec & Hv & _). unfold lift at 1. rewrite Hv.
    rewrite lift_tx. assert (Hst : tracked s s1).
    { apply Ht. intros He Hs. destruct (Hsome "running" Hrun ltac:(literal) He Hs) as [-> Hw]. left.
      rewrite <- (app_nil_r (worker_state _ _ _)). apply keeps_worker_state; [done|apply aside_nil|done]. }
    destruct (match loc with REBOOTED => _ | _ => _ end) as [reason|]; [|done].
    intros Hs. destruct (Hst Hs) as [Hs1|]; [|by right]. apply record_exit_tracks; [|done].
    intros He _. by apply (Hsome _ Hrun ltac:(literal)).
  - destruct (field_is "status" "termination_requested" m) eqn:Hte; [|reflexivity].
    unfold mret at 1, tx_ret at 1. rewrite lift_tx.
    destruct (match loc with REBOOTED => _ | _ => _ end) as [reason|]; [|reflexivity].
    apply record_exit_tracks. apply (Hsome _ Hte). literal.
Qed.
Lemma identity_matches l i s r m : kept k o s -> worker_key l = k -> o = Some i ->
  require_supervisor_record l s = Ok r -> record_state r = Ok m -> identity_from_state m = Ok i.
Proof.
  intros Hs <- -> Hr Hm. apply record_state_Ok in Hm. apply require_record_of in Hr. rewrite Hm in Hr.
  by destruct (kept_status _ _ _ _ Hs Hr).
Qed.
Lemma cancel_persisted_tracks clock owner l now epoch s :
  tracked s (cancel_persisted h clock owner l now epoch s).1.
Proof.
  unfold cancel_persisted. rewrite asks_tx. destruct (require_supervisor_record l s) as [r|] eqn:Hr; [|reflexivity].
  rewrite lift_tx. destruct (record_state r) as [m|] eqn:Hm; [|reflexivity]. cbn [mbind result_bind].
  destruct (identity_from_state m) as [i|] eqn:Hi; [|reflexivity].
  apply supervisor_cancel_tracks. intros He i' Ho Hs.
  rewrite (identity_matches _ _ _ _ _ Hs He Ho Hr Hm) in Hi. by injection Hi.
Qed.
(** [enforce_heartbeat], where the identity given is the recorded one. *)
Lemma observation_spec clock l ety state version s :
  match supervisor_observation clock l ety state version s with
  | (s', Ok _) => record_of (worker_key l) s' = Some (canon (JObj state)) /\
      forall k, k <> worker_key l -> record_of k s' = record_of k s
  | (s', Err _) => s' = s
  end.
Proof.
  unfold supervisor_observation. unfold mbind at 1, tx_bind at 1, next_event.
  destruct (mk_event_write _ _ _ _ _) as [e|]; [|done]. rewrite lift_tx.
  destruct (mk_pm_write _ _ _ _) as [w|] eqn:Hw; [|done]. apply mk_pm_write_Ok in Hw as ->. rewrite lift_tx.
  destruct (mk_command _ _ _ _ _ _) as [c|] eqn:Hc; [|done]. apply mk_command_Ok in Hc as ->.
  match goal with |- context [append clock None ?c s] => destruct (append clock None c s) as [s' [r|er]] eqn:Ha end;
    [|by apply append_atomic in Ha].
  apply append_Ok_effect in Ha. destruct Ha as [_ _ _ _ _ _ Hp _ _ _ _ _ _ _].
  unfold record_of. rewrite Hp. unfold pm_after, pw_ref.
  cbn [foldl ac_process_manager_updates pw_process_manager_name pw_state_key].
  split; [by rewrite lookup_insert_eq|]. intros k' Hk. rewrite lookup_insert_ne; [done|]. by intros [= <-].
Qed.
Lemma observation_tracks clock l ety identity st version s : st <> "exit_reconciled" ->
  (worker_key l = k -> kept k o s -> o = Some identity /\ wf_identity identity) ->
  tracked s (supervisor_observation clock l ety (lapsed l identity st) version s).1.
Proof.
  intros Hst Hk. pose proof (observation_spec clock l ety (lapsed l identity st) version s) as Hs.
  destruct (supervisor_observation _ _ _ _ _ s) as [s' [r|e]]; [|by rewrite Hs]. destruct Hs as [Hr Ho].
  destruct (decide (worker_key l = k)) as [<-|Hne].
  - intros Hs. destruct (Hk eq_refl Hs) as [-> Hw]. left. eexists. split; [exact Hr|].
    by apply keeps_worker_state; [|apply (aside_reason _ (Some _)); literal|].
  - apply same_record_tracks, Ho. by intros ->.
Qed.
Lemma enforce_heartbeat_tracks clock l identity now s :
  (worker_key l = k -> kept k o s -> o = Some identity) ->
  tracked s (enforce_heartbeat h clock l identity now s).1.
Proof.
  intros Hid. unfold enforce_heartbeat. unfold mbind at 1, tx_bind at 1, read_epoch.
  destruct (current_epoch s) as [current|]; [|reflexivity]. rewrite lift_tx.
  destruct (match current with Some _ => _ | None => _ end) as [[]|]; [reflexivity| |reflexivity].
  do 2 (rewrite lift_tx; match goal with |- context [match ?x with Ok _ => _ | Err _ => _ end] =>
    destruct x; [|reflexivity] end). rewrite asks_tx.
  destruct (require_supervisor_record l s) as [r|] eqn:Hr; [|reflexivity].
  assert (Hw : worker_key l = k -> kept k o s -> o = Some identity /\ wf_identity identity).
  { intros He Hs. split; [by apply Hid|]. specialize (Hid He Hs). destruct Hs as (m & _ & _ & Hm).
    rewrite Hid in Hm. by eapply identity_wf. }
  intros Hs. rewrite bind_tx.
  match goal with |- context [supervisor_observation ?a ?b ?c ?d ?v s] =>
    pose proof (observation_tracks a b c identity "termination_requested" v s ltac:(done) Hw Hs) as H1;
    destruct (supervisor_observation a b c d v s) as [s1 [r1|er]] end; [|done].
  destruct H1 as [H1|]; [|by right]. rewrite lift_tx.
  destruct (terminate_exact_group h identity); [|by left]. rewrite lift_tx.
  destruct (first_state_version r1) as [v|]; [|by left]. rewrite bind_tx.
  match goal with |- context [supervisor_observation ?a ?b ?c ?d v s1] =>
    pose proof (observation_tracks a b c identity "exit_observed" v s1 ltac:(done)
      (fun He _ => Hw He Hs) H1) as H2;
    destruct (supervisor_observation a b c d v s1) as [s2 [r2|er]] end; done.
Qed.
Lemma observe_exit_tracks clock owner l epoch now s :
  tracked s (observe_exit h clock owner l epoch now s).1.
Proof.
  unfold observe_exit. rewrite asks_tx. destruct (require_supervisor_record l s) as [r|] eqn:Hr; [|reflexivity].
  rewrite lift_tx. destruct (record_state r) as [m|] eqn:Hm; [|reflexivity]. rewrite lift_tx.
  destruct (has_status m _) as [[]|]; [reflexivity| |reflexivity]. rewrite lift_tx.
  destruct (identity_from_state m) as [i|] eqn:Hi; [|reflexivity].
  assert (Hw : worker_key l = k -> kept k o s -> o = Some i /\ wf_identity i).
  { intros He Hs. split; [|by eapply identity_wf]. apply record_state_Ok in Hm. apply require_record_of in Hr.
    rewrite Hm, He in Hr. destruct (kept_status _ _ _ _ Hs Hr) as [_ Ho].
    destruct o as [i'|]; [congruence|]. destruct Ho as [Ho _]. congruence. }
  do 2 (rewrite lift_tx; match goal with |- context [match ?x with Ok _ => _ | Err _ => _ end] =>
    destruct x; [|reflexivity] end).
  repeat case_match; try reflexivity; try (by apply record_exit_tracks).
  all: rewrite lift_tx; destruct (require_provable h i) as [[]|]; try reflexivity; by apply record_exit_tracks.
Qed.
(** [start]: never over a kept record. *)
Lemma start_refused clock owner l command cwd environment now s : worker_key l = k -> kept k o s ->
  exists e, supervisor_start h clock owner l command cwd environment now s = (s, Err e).
Proof.
  intros He (m & Hm & Hst & _). unfold supervisor_start. rewrite lift_tx.
  destruct (raise_if _ _ ≫= _); [|by eexists]. rewrite lift_tx.
  destruct (host_identity h); [|by eexists]. unfold gets. rewrite bind_tx. rewrite lift_tx.
  unfold record_of in Hm. rewrite <- He in Hm.
  unfold read_process_manager_state. destruct (lg_pm s !! _) as [row|]; [|done].
  cbn in Hm. injection Hm as Hm. unfold record_state. rewrite Hm. cbn [mbind result_bind].
  rewrite Hst. by eexists.
Qed.
Lemma supervisor_start_tracks clock owner l command cwd environment now s :
  tracked s (supervisor_start h clock owner l command cwd environment now s).1.
Proof.
  destruct (decide (worker_key l = k)) as [He|Hne].
  - intros Hs. destruct (start_refused clock owner l command cwd environment now s He Hs) as [e ->]. by left.
  - unfold supervisor_start. rewrite lift_tx. destruct (raise_if _ _ ≫= _); [|reflexivity]. rewrite lift_tx.
    destruct (host_identity h); [|reflexivity]. unfold gets. rewrite bind_tx. rewrite lift_tx.
    destruct (match read_process_manager_state _ _ s with None => _ | Some _ => _ end) as [[]|];
      [|reflexivity..]. cbn [negb]. rewrite bind_tx.
    match goal with |- context [record_worker ?a ?b ?c ?d ?e ?f ?g ?v ?st s] =>
      pose proof (record_worker_tracks a b c d e f g v st s ltac:(done)) as Ht;
      destruct (record_worker a b c d e f g v st s) as [s1 [r1|er]] end; [|done].
    etrans; [exact Ht|]. rewrite lift_tx. destruct (second_state_version r1) as [v|]; [|reflexivity].
    unfold record_launch_failure, record_running. destruct (host_spawn h command cwd environment) as [error|pid].
    + rewrite bind_tx. rewrite bind_tx. match goal with |- context [record_worker ?a ?b ?c ?d ?e ?f ?g ?v ?st s1] =>
        pose proof (record_worker_tracks a b c d e f g v st s1 ltac:(done)) as Ht1;
        destruct (record_worker a b c d e f g v st s1) as [s2 [r2|er]] end; done.
    + rewrite lift_tx. destruct (probe_process h pid false) as [observed|]; [|reflexivity]. rewrite lift_tx.
      destruct (from_option_err _ observed) as [i|]; [|reflexivity]. rewrite bind_tx. rewrite bind_tx.
      match goal with |- context [record_worker ?a ?b ?c ?d ?e ?f ?g ?v ?st s1] =>
        pose proof (record_worker_tracks a b c d e f g v st s1 ltac:(done)) as Ht1;
        destruct (record_worker a b c d e f g v st s1) as [s2 [r2|er]] end; done.
Qed.

(** Only a reconciliation releases a record. *)
Lemma assess_orphan_released m path mode a : keeps_identity o m ->
  assess_orphan h m path mode = Ok a -> ra_ready a = true -> was_released h o.
Proof.
  intros [_ Hk] Ha Hr. unfold assess_orphan, assess_worker in Ha.
  destruct o as [i|]; [rewrite Hk in Ha|destruct Hk as [Hk _]; rewrite Hk in Ha].
  2: { cbn in Ha. by injection Ha as <-. }
  exists i. split; [done|].
  assert (Hq : forall b, (match container_hold h mode m with Some a => Ok a
     | None => assess_workspace_quiescence h path mode end) = Ok b -> ra_ready b = true ->
     container_hold h mode m = None /\ exists a, assess_workspace_quiescence h path mode = Ok a /\ ra_ready a = true).
  { intros b. destruct (container_hold h mode m) as [c|] eqn:Hc; [|by eauto].
    intros [= <-]. unfold container_hold in Hc. repeat case_match; try done; by injection Hc as <-. }
  unfold released, gone. destruct (classify_locality h i) as [[]|[]] eqn:Hloc; cbn in Ha; try done.
  - destruct (probe_presence h i) as [[]|] eqn:Hp; cbn in Ha; try done.
    all: try (injection Ha as <-; done).
    all: destruct (Hq a Ha Hr) as (Hc & Hw); split; [right; split; [done|tauto]|]; by exists m, path, mode.
  - destruct (Hq a Ha Hr) as (Hc & Hw). split; [by left|]. by exists m, path, mode.
  - by injection Ha as <-.
  - by injection Ha as <-.
Qed.
Lemma reconcile_tracks clock owner l path epoch now mode s :
  tracked s (reconcile h clock owner l path epoch now mode s).1.
Proof.
  unfold reconcile, gets. rewrite bind_tx.
  destruct (read_process_manager_state SUPERVISOR_MANAGER (worker_key l) s) as [r|] eqn:Hr; [|reflexivity].
  rewrite lift_tx. destruct (record_state r) as [m|] eqn:Hm; [|reflexivity].
  repeat (case_match; [reflexivity|]). rewrite asks_tx. destruct (mode_for path mode s) as [md|]; [|reflexivity].
  rewrite lift_tx. destruct (assess_orphan h m path md) as [a|] eqn:Ha; [|reflexivity].
  destruct (ra_ready a) eqn:Hready; [|reflexivity]. cbn [negb]. rewrite bind_tx.
  match goal with |- context [record_worker ?a ?b ?c ?d ?e ?f ?g ?v ?st s] =>
    pose proof (record_worker_tracks a b c d e f g v st s) as Ht;
    destruct (record_worker a b c d e f g v st s) as [s1 [r1|er]] end.
  all: apply Ht; intros He Hs; right; eapply assess_orphan_released; [|exact Ha|done].
  all: apply record_state_Ok in Hm; eapply kept_status; [exact Hs|]; subst k; unfold record_of.
  all: unfold read_process_manager_state in Hr; rewrite Hr; cbn; by rewrite Hm.
Qed.
End Calls.
