(* ===== verification/EngineHistory.v ===== *)
(** * Footprints of the engine's calls

    Workers and workspaces write their own aggregates and records only; the runtime adds
    its node events.  Two instances of [touch] serve the histories: every call but the
    node events leaves the nodes alone, and every call but the supervisor's leaves the
    workers' records alone. *)
From S2P Require Import Prelude PyText Json Identity IdentityProofs JsonCanon Scheduler Redaction.
From S2P Require Import Ledger LedgerProofs LedgerTheorems Coordinator.
From S2P Require Import CoordinatorProofs NodeLeases Runtime Workflows.
From S2P Require Import OperatorControl Workers Workspaces RuntimeNodes WorkerProofs.

#[export] Hint Extern 2 (_ ∈ _) => literal : touch.

Section Parts.
Context `{rt : PyRuntime} `{iso : IsoCodec}.
Variables T N : list string.
Hypothesis Hcoord : COORDINATOR_NAME ∈ N.
Abbreviation within := (ensures (touch T N)).

(** ** Workspaces *)
Section Workspace.
Hypothesis HT : "workspace" ∈ T.
Hypothesis HN : WORKSPACE_MANAGER ∈ N.
Lemma record_reservation_touch clock owner corr ety epoch now r version :
  within (record_reservation clock owner corr ety epoch now r version).
Proof. unfold record_reservation. ens. Qed.
Hint Resolve record_reservation_touch : touch.
Lemma record_status_touch clock owner r st epoch now oid :
  within (record_status clock owner r st epoch now oid).
Proof. unfold record_status. ens. Qed.
Hint Resolve record_status_touch : touch.
Lemma reserve_touch t clock owner repo run rp wp base mode epoch now :
  within (reserve t clock owner repo run rp wp base mode epoch now).
Proof. unfold reserve. ens. Qed.
Lemma materialize_touch h t clock owner r epoch now : within (materialize h t clock owner r epoch now).
Proof. unfold materialize. ens. Qed.
Lemma cleanup_touch h t clock owner r epoch now : within (cleanup h t clock owner r epoch now).
Proof. unfold cleanup. ens. Qed.
Lemma retain_touch clock owner r epoch now : within (retain clock owner r epoch now).
Proof. unfold retain. ens. Qed.
Lemma resume_touch h clock owner r epoch now : within (resume_workspace h clock owner r epoch now).
Proof. unfold resume_workspace. ens. Qed.
Lemma settle_workspace_touch h t clock owner r w epoch now :
  within (settle_workspace h t clock owner r w epoch now).
Proof. unfold settle_workspace. ens; [apply retain_touch|apply cleanup_touch]. Qed.
Lemma clean_unless_done_touch h t clock owner w epoch now :
  within (clean_unless_done h t clock owner w epoch now).
Proof. unfold clean_unless_done. ens. apply cleanup_touch. Qed.
Lemma release_touch h t clock owner run repo epoch now :
  within (release_workspace h t clock owner run repo epoch now).
Proof. unfold release_workspace. ens. apply cleanup_touch. Qed.
End Workspace.

(** ** Workers *)
Section Worker.
Hypothesis HT : "worker" ∈ T.
Hypothesis HN : SUPERVISOR_MANAGER ∈ N.
Lemma record_worker_touch clock owner prefix epoch now l ety version state :
  within (record_worker clock owner prefix epoch now l ety version state).
Proof. by apply commit_record_touch. Qed.
Hint Resolve record_worker_touch : touch.
Lemma record_exit_touch clock owner l epoch i now ety version reason :
  within (record_exit clock owner l epoch i now ety version reason).
Proof. unfold record_exit. ens. Qed.
Hint Resolve record_exit_touch : touch.
Lemma supervisor_start_touch h clock owner l command cwd environment now :
  within (supervisor_start h clock owner l command cwd environment now).
Proof. unfold supervisor_start, record_launch_failure, record_running. ens. Qed.
Lemma supervisor_cancel_touch h clock owner l i now epoch :
  within (supervisor_cancel h clock owner l i now epoch).
Proof. unfold supervisor_cancel, request_termination. ens. Qed.
Lemma cancel_persisted_touch h clock owner l now epoch :
  within (cancel_persisted h clock owner l now epoch).
Proof. unfold cancel_persisted. ens. apply supervisor_cancel_touch. Qed.
Lemma observe_exit_touch h clock owner l epoch now : within (observe_exit h clock owner l epoch now).
Proof. unfold observe_exit. ens. Qed.
Lemma reconcile_touch h clock owner l path epoch now mode :
  within (reconcile h clock owner l path epoch now mode).
Proof. unfold reconcile. ens. Qed.
Lemma supervisor_observation_touch clock l ety state version : "supervisor" ∈ T ->
  within (supervisor_observation clock l ety state version).
Proof.
  intros HS. unfold supervisor_observation. apply (ensures_read _ _ (fun e => ew_aggregate_type e = "supervisor"));
    [by intros s|by intros s e ->%mk_event_write_Ok|]. intros e He.
  apply (ensures_lift _). intros w ->%mk_pm_write_Ok. apply (ensures_lift _). intros c ->%mk_command_Ok.
  apply append_touch; repeat constructor; [by rewrite He|done].
Qed.
Lemma enforce_heartbeat_touch h clock l i now : "supervisor" ∈ T ->
  within (enforce_heartbeat h clock l i now).
Proof. intros HS. unfold enforce_heartbeat. ens; by apply supervisor_observation_touch. Qed.
End Worker.
Lemma ingest_missing_touch clock owner run node r l terminal result epoch now :
  "node_attempt" ∈ T -> "node_lease" ∈ T ->
  within (ingest_missing clock owner run node r l terminal result epoch now).
Proof. intros HA HL. unfold ingest_missing. ens. Qed.
End Parts.
#[export] Hint Resolve reserve_touch materialize_touch cleanup_touch retain_touch resume_touch
  settle_workspace_touch clean_unless_done_touch release_touch record_worker_touch supervisor_start_touch
  supervisor_cancel_touch cancel_persisted_touch observe_exit_touch reconcile_touch
  enforce_heartbeat_touch ingest_missing_touch : touch.

(** ** Operator control and foreign ledger calls *)
Section Others.
Context `{rt : PyRuntime} `{iso : IsoCodec}.
Variables T N : list string.
Lemma control_write_touch clock previous ety now paused reason runner :
  CONTROL_AGGREGATE_TYPE ∈ T -> OPERATOR_CONTROL_MANAGER ∈ N ->
  ensures (touch T N) (control_write clock previous ety now paused reason runner).
Proof.
  intros HT HN. unfold control_write. apply (ensures_lift _). intros u _.
  apply (ensures_bind _); [apply (ensures_reads _), reads_gets|]. intros p.
  apply (ensures_lift _). intros e ->%mk_event_write_Ok. apply (ensures_lift _). intros w ->%mk_pm_write_Ok.
  apply (ensures_lift _). intros c ->%mk_command_Ok. apply (ensures_bind _); [|ens].
  by apply append_touch; repeat constructor.
Qed.
(** Registering a run appends to the coordinator and to the run. *)
Lemma register_run_touch clock owner run state now window :
  COORDINATOR_NAME ∈ N -> COORDINATOR_AGGREGATE_TYPE ∈ T -> RUN_AGGREGATE_TYPE ∈ T ->
  ensures (touch T N) (register_run clock owner run state now window).
Proof. intros HN HC HT. unfold register_run. ens. Qed.
End Others.
(** The aggregate types and the managers a ledger call writes. *)
Definition op_types (op : LedgerOp) : list string :=
  match op with OpAppend _ c => map ew_aggregate_type (ac_events c) | _ => [] end.
Definition op_managers (op : LedgerOp) : list string :=
  match op with OpAppend _ c => map pw_process_manager_name (ac_process_manager_updates c) | _ => [] end.
Lemma ledger_step_touch `{PyRuntime} `{IsoCodec} s now op :
  touch (op_types op) (op_managers op) s (ledger_step s (now, op)).
Proof.
  destruct op as [store c|id ty corr payload key|id|name seq force|limit];
    [refine (append_touch _ _ now store c _ _ s); apply Forall_forall; intros x Hx; by apply list_elem_of_fmap_2|..];
    split; [by apply ledger_step_frame| |by apply ledger_step_frame| |by apply ledger_step_frame|
            |by apply ledger_step_frame|]; intros r _;
    match goal with |- context [ledger_step s (now, ?op)] =>
      pose proof (f_equal fst (ledger_step_tables s now op ltac:(done))) as Ht end;
    cbn [fst append_tables] in Ht; by rewrite Ht.
Qed.
#[export] Hint Resolve control_write_touch register_run_touch : touch.

(** ** The two instances *)
Definition SIDE_T : list string :=
  [COORDINATOR_AGGREGATE_TYPE; RUN_AGGREGATE_TYPE; "node_attempt"; "node_lease"; "worker"; "supervisor";
   "workspace"; CONTROL_AGGREGATE_TYPE].
Definition SIDE_N : list string :=
  [COORDINATOR_NAME; SUPERVISOR_MANAGER; WORKSPACE_MANAGER; OPERATOR_CONTROL_MANAGER].
(** Everything but the nodes. *)
Abbreviation side := (touch SIDE_T SIDE_N).
Definition PLAIN_T : list string := RUNTIME_NODE_AGGREGATE_TYPE :: SIDE_T.
Definition PLAIN_N : list string := [COORDINATOR_NAME; WORKSPACE_MANAGER; OPERATOR_CONTROL_MANAGER].
(** Everything but the workers' records. *)
Abbreviation plain := (touch PLAIN_T PLAIN_N).

Section Tracked.
Context `{rt : PyRuntime} `{iso : IsoCodec} (h : Host) (k : string) (o : option ProcessIdentity).
Abbreviation tracked := (ensures (tracks h k o)).
Lemma tracks_of_plain {A} (m : tx A) : ensures plain m -> tracked m.
Proof. apply ensures_weaken. intros s s'. apply touch_tracks. literal. Qed.
Hint Resolve tracks_of_plain : touch.
Hint Extern 1 (tracked (supervisor_start _ _ _ _ _ _ _ _)) => intros ?; apply supervisor_start_tracks : touch.
Hint Extern 1 (tracked (cancel_persisted _ _ _ _ _ _)) => intros ?; apply cancel_persisted_tracks : touch.
Hint Extern 1 (tracked (observe_exit _ _ _ _ _ _)) => intros ?; apply observe_exit_tracks : touch.
Hint Extern 1 (tracked (reconcile _ _ _ _ _ _ _ _)) => intros ?; apply reconcile_tracks : touch.

Lemma set_status_tracks clock owner r st ety epoch now extra :
  tracked (set_status clock owner r st ety epoch now extra).
Proof. unfold set_status. ens. Qed.
Hint Resolve set_status_tracks : touch.
Lemma replace_request_tracks clock owner r epoch now ety extra :
  tracked (replace_request clock owner r epoch now ety extra).
Proof. unfold replace_request. ens. Qed.
Hint Resolve replace_request_tracks : touch.
Lemma release_prior_tracks clock owner current r epoch now :
  tracked (release_prior h clock owner current r epoch now).
Proof. unfold release_prior. ens. Qed.
Hint Resolve release_prior_tracks : touch.
Lemma register_tracks clock owner r a epoch now extra : tracked (register h clock owner r a epoch now extra).
Proof. unfold register. ens. Qed.
Hint Resolve register_tracks : touch.
Lemma dispatch_tracks t environ clock owner r epoch now lw :
  tracked (dispatch h t environ clock owner r epoch now lw).
Proof. unfold dispatch. ens. Qed.
Hint Resolve dispatch_tracks : touch.
Lemma defer_tracks clock owner requests ids held reserved epoch now d :
  tracked (defer_node clock owner requests ids held reserved epoch now d).
Proof. unfold defer_node, record_hold_deferral, record_deferral. destruct d. ens. Qed.
Hint Resolve defer_tracks : touch.
Lemma tick_tracks t environ clock owner now hw lw limits requests ids held :
  tracked (tick h t environ clock owner now hw lw limits requests ids held).
Proof. unfold tick, launch_node. ens. Qed.
Hint Resolve tick_tracks : touch.
Lemma register_node_tracks clock owner r a now hw extra :
  tracked (register_node h clock owner r a now hw extra).
Proof. unfold register_node. ens. Qed.
Lemma retry_tracks clock owner r a epoch now : tracked (retry_node clock owner r a epoch now).
Proof. unfold retry_node. ens. Qed.
Lemma settle_node_tracks clock owner run node st st' ety epoch now extra :
  tracked (settle_node clock owner run node st st' ety epoch now extra).
Proof. unfold settle_node. ens. Qed.
Hint Resolve register_node_tracks retry_tracks settle_node_tracks : touch.
Lemma retry_workflow_tracks clock owner r a now hw : tracked (retry_workflow_node clock owner r a now hw).
Proof. unfold retry_workflow_node. ens. Qed.
Lemma record_evidence_hold_tracks clock owner run node epoch now reason repair message extra :
  tracked (record_evidence_hold clock owner run node epoch now reason repair message extra).
Proof. unfold record_evidence_hold. ens. Qed.
Lemma collect_tracks t clock owner envelope now : tracked (collect_result h t clock owner envelope now).
Proof. unfold collect_result, require_owned_epoch. ens. Qed.
Lemma cancel_tracks t clock owner run node epoch now : tracked (cancel_node h t clock owner run node epoch now).
Proof. unfold cancel_node, cancel_running, require_cancellation_epoch. ens. Qed.
Hint Resolve cancel_tracks : touch.
Lemma fail_exited_tracks t clock owner run node now hw :
  tracked (fail_exited_worker h t clock owner run node now hw).
Proof. unfold fail_exited_worker, fail_gone_worker. ens. Qed.
Lemma enter_wait_tracks clock owner f reason now s :
  (worker_key (df_lease f) = k -> kept k o s -> forall i, o = Some i -> i = df_identity f) ->
  tracks h k o s (enter_human_wait h clock owner f reason now s).1.
Proof.
  intros Hid. unfold enter_human_wait. rewrite lift_tx. destruct (raise_if _ _ ≫= _); [|reflexivity].
  rewrite asks_tx. destruct (request_for _ _ s) as [r|]; [|reflexivity]. rewrite bind_tx.
  pose proof (supervisor_cancel_tracks h k o clock owner (df_lease f) (df_identity f) now None s
    ltac:(eauto)) as Hc.
  destruct (supervisor_cancel _ _ _ _ _ _ _ s) as [s1 [[]|e]]; [|done]. etrans; [exact Hc|].
  match goal with |- tracks _ _ _ _ (?m s1).1 => enough (tracked m) as He; [apply He|] end. ens.
Qed.
Lemma resume_wait_tracks clock owner r epoch now extra :
  tracked (resume_human_wait h clock owner r epoch now extra).
Proof. unfold resume_human_wait. ens. Qed.
End Tracked.

(** ** Calls of the engine, in any order

    One constructor per operation of the runtime, the operator and the supervisor, each
    made at a clock text, by an owner, at an instant and on a host of its own, and any
    other ledger call; the claim about the workers they start. *)

Record EngineSite := {
  es_clock : string; es_owner : string; es_now : datetime; es_host : Host; es_repo : TaskRepository;
  es_environ : list (string * string) }.
Inductive EngineCall :=
| EcRegisterRun (run_id : string) (state : list (string * json)) (window : timedelta)
| EcRegisterNode (r : FixtureDispatch) (actor : ActorType) (window : timedelta) (extra : list (string * json))
| EcRetryNode (r : FixtureDispatch) (actor : ActorType) (epoch : Z)
| EcRetryWorkflowNode (r : FixtureDispatch) (actor : ActorType) (window : timedelta)
| EcTick (heartbeat lease : timedelta) (limits : SchedulingLimits) (requests : list FixtureDispatch)
    (run_ids : option (list string)) (held_runs : list (string * string))
| EcCompleteNode (run_id node_id : string) (epoch : Z) (outcome : string) (extra : list (string * json))
| EcAwaitHumanNode (run_id node_id : string) (epoch : Z) (reason : string) (extra : list (string * json))
| EcResolveHumanWait (run_id node_id : string) (epoch : Z) (outcome : string) (extra : list (string * json))
| EcRecordEvidenceHold (run_id node_id : string) (epoch : Z) (reason repair message : string)
    (extra : list (string * json))
| EcIngestResult (envelope : WorkerResultEnvelope)
| EcReleaseWorkspace (run_id repository_id : string) (epoch : Z)
| EcCancelNode (run_id node_id : string) (epoch : Z)
| EcFailExitedWorker (run_id node_id : string) (window : timedelta)
| EcEnterHumanWait (f : DispatchedFixture) (reason : string)
| EcResumeHumanWait (r : FixtureDispatch) (epoch : Z) (extra : list (string * json))
| EcEnforceHeartbeat (l : FencedNodeLease) (identity : ProcessIdentity)
| EcPause (reason : option string)
| EcResume
| EcSelectRunner (runner : SelectedRunner)
| EcLedger (op : LedgerOp).

(** The ledger after a call, whether it returned or raised. *)
Definition engine_step `{PyRuntime} `{IsoCodec} (s : Ledger) (call : EngineSite * EngineCall) : Ledger :=
  let '({| es_clock := clock; es_owner := owner; es_now := now; es_host := h; es_repo := t;
           es_environ := environ |}, c) := call in
  match c with
  | EcRegisterRun run_id state w => (register_run clock owner run_id state now w s).1
  | EcRegisterNode r a w extra => (register_node h clock owner r a now w extra s).1
  | EcRetryNode r a epoch => (retry_node clock owner r a epoch now s).1
  | EcRetryWorkflowNode r a w => (retry_workflow_node clock owner r a now w s).1
  | EcTick hw lw limits requests ids held =>
      (tick h t environ clock owner now hw lw limits requests ids held s).1
  | EcCompleteNode run node epoch outcome extra => (complete_node clock owner run node epoch now outcome extra s).1
  | EcAwaitHumanNode run node epoch reason extra => (await_human_node clock owner run node epoch now reason extra s).1
  | EcResolveHumanWait run node epoch outcome extra =>
      (resolve_human_wait clock owner run node epoch now outcome extra s).1
  | EcRecordEvidenceHold run node epoch reason repair message extra =>
      (record_evidence_hold clock owner run node epoch now reason repair message extra s).1
  | EcIngestResult envelope => (collect_result h t clock owner envelope now s).1
  | EcReleaseWorkspace run repo epoch => (release_workspace h t clock owner run repo epoch now s).1
  | EcCancelNode run node epoch => (cancel_node h t clock owner run node epoch now s).1
  | EcFailExitedWorker run node w => (fail_exited_worker h t clock owner run node now w s).1
  | EcEnterHumanWait f reason => (enter_human_wait h clock owner f reason now s).1
  | EcResumeHumanWait r epoch extra => (resume_human_wait h clock owner r epoch now extra s).1
  | EcEnforceHeartbeat l identity => (enforce_heartbeat h clock l identity now s).1
  | EcPause reason => (operator_pause clock now reason s).1
  | EcResume => (operator_resume clock now s).1
  | EcSelectRunner runner => (select_runner clock runner now s).1
  | EcLedger op => ledger_step s (clock, op)
  end.
Definition engine_run `{PyRuntime} `{IsoCodec} (calls : list (EngineSite * EngineCall)) (s : Ledger) : Ledger :=
  foldl engine_step s calls.

(** ** Workers *)
(** The calls that write over a worker's record without comparing it: a human wait or a
    heartbeat given another process identity than the recorded one, and another client
    writing records under the supervisor's name. *)
Definition overwrites (k : string) (o : option ProcessIdentity) (call : EngineCall) : Prop :=
  match call with
  | EcEnterHumanWait f _ => worker_key (df_lease f) = k /\ o <> None /\ o <> Some (df_identity f)
  | EcEnforceHeartbeat l identity => worker_key l = k /\ o <> Some identity
  | EcLedger op => SUPERVISOR_MANAGER ∈ op_managers op
  | _ => False
  end.
#[export] Instance HostIdentity_eq_dec : EqDecision HostIdentity.
Proof. solve_decision. Defined.
#[export] Instance ProcessIdentity_eq_dec : EqDecision ProcessIdentity.
Proof. solve_decision. Defined.
#[export] Instance overwrites_dec k o call : Decision (overwrites k o call).
Proof. destruct call; cbn [overwrites]; apply _. Defined.

Section Claims.
Context `{rt : PyRuntime} `{iso : IsoCodec}.

Lemma engine_step_tracks k o s call : ~ overwrites k o call.2 ->
  tracks (es_host call.1) k o s (engine_step s call).
Proof.
  intros Hok. destruct call as [[clock owner now h t environ] c]. cbn [fst es_host engine_step].
  destruct c; cbn in Hok.
  - apply tracks_of_plain. eauto 4 with touch.
  - apply register_node_tracks.
  - apply retry_tracks.
  - apply retry_workflow_tracks.
  - apply tick_tracks.
  - unfold complete_node. rewrite lift_tx. destruct (require_outcome _); [|reflexivity]. apply settle_node_tracks.
  - unfold await_human_node. rewrite lift_tx. destruct (raise_if _ _ ≫= _); [|reflexivity]. apply settle_node_tracks.
  - unfold resolve_human_wait. rewrite lift_tx. destruct (require_outcome _); [|reflexivity]. apply settle_node_tracks.
  - apply record_evidence_hold_tracks.
  - apply collect_tracks.
  - apply tracks_of_plain. eauto 4 with touch.
  - apply cancel_tracks.
  - apply fail_exited_tracks.
  - apply enter_wait_tracks. intros He _ i ->. destruct (decide (i = df_identity f)) as [|Hne]; [done|].
    destruct Hok. split_and!; [done..|congruence].
  - apply resume_wait_tracks.
  - apply enforce_heartbeat_tracks. intros He _. destruct (decide (o = Some identity)) as [|Hne]; [done|]. by destruct Hok.
  - apply tracks_of_plain. unfold operator_pause. ens.
  - apply tracks_of_plain. unfold operator_resume. ens.
  - apply tracks_of_plain. unfold select_runner. ens.
  - eapply touch_tracks; [exact Hok|apply ledger_step_touch].
Qed.

End Claims.

Module Demo.
#[local] Existing Instance IdentityProofs.toy_runtime.
#[local] Existing Instance IdentityProofs.toy_iso.
Definition site (us : Z) (alive : bool) : EngineSite := {|
  es_clock := "t"; es_owner := "alice"; es_now := Aware us; es_host := sample_host alive;
  es_repo := sample_repository; es_environ := [] |}.
Definition tick_call : EngineCall :=
  EcTick 100 100 wide_limits [sample_request "a" []; sample_request "b" [("run", "a")]] None [].
Definition started : Ledger := engine_run [(site 0 true, tick_call)] empty_ledger.
Definition sample_worker : ProcessIdentity :=
  {| pi_pid := 7; pi_process_group_id := 7; pi_start_identity := "start"; pi_host := Some here |}.
End Demo.
