(* ===== verification/NodeRecords.v ===== *)
(** * What the ledger keeps of a runtime node

    A request survives its state: whatever status changes and records are written over
    it, the stored fields decode to the request that was registered, exactly when the
    reader's stricter checks allow it. *)
From S2P Require Import Prelude PyText Json Identity JsonCanon Redaction Ledger Coordinator NodeLeases Runtime.
From S2P Require Import Scheduler Workflows OperatorControl Workers Workspaces RuntimeNodes WorkerProofs.

(** ** Requests a reader accepts *)
(** What [_request_from_state] asks beyond [FixtureDispatch]: paths that are not blank, a
    log directory with a name, no empty command argument. *)
Definition readable (r : FixtureDispatch) : bool :=
  negb (blank (fd_repository_path r)) && negb (blank (fd_workspace_path r)) &&
  negb (bool_decide (fd_log_directory r = Some "")) && forallb (fun a => negb (String.eqb a "")) (fd_command r).
Definition wf_request (r : FixtureDispatch) : Prop :=
  fixture_post_init r = Ok r /\ readable r = true.

Definition REQUEST_KEYS : list string :=
  ["run_id"; "node_id"; "attempt_id"; "repository_id"; "repository_path"; "workspace_path"; "base_revision";
   "command"; "expected_attempt_version"; "operation_id"; "dependencies"; "workflow_definition_id";
   "retain_workspace"; "log_directory"; "actor_type"; "workspace_mode"; "environment_keys"; "branch_publication"].
(** The state holds the request's fields and its actor. *)
Definition holds_request (m : list (string * json)) (r : FixtureDispatch) (a : ActorType) : Prop :=
  Forall (fun key => dict_get key m = dict_get key (request_state r "" a)) REQUEST_KEYS.
Lemma holds_get m r a key : holds_request m r a -> key ∈ REQUEST_KEYS ->
  dict_get key m = dict_get key (request_state r "" a).
Proof. unfold holds_request. rewrite Forall_forall. eauto. Qed.

Lemma request_state_nodup r st a : NoDup (request_state r st a).*1.
Proof.
  unfold request_state. destruct (String.eqb (fd_workspace_mode r) _), (fd_environment_keys r),
    (String.eqb (fd_branch_publication r) _); apply (bool_decide_unpack _); by vm_compute.
Qed.
Lemma request_state_get r st a key : key <> "status" ->
  dict_get key (request_state r st a) = dict_get key (request_state r "" a).
Proof.
  intros Hk. unfold request_state. cbn [app dict_get].
  repeat (match goal with |- context [String.eqb key ?x] => destruct (String.eqb_spec key x); [by subst|] end).
  done.
Qed.
Lemma canon_strings l : canon (JList (map JStr l)) = JList (map JStr l).
Proof. cbn. f_equal. rewrite map_map. by apply map_ext. Qed.
Lemma canon_dependencies l :
  map canon (map (fun '(run_id, node_id) => JList [JStr run_id; JStr node_id]) l) =
  map (fun '(run_id, node_id) => JList [JStr run_id; JStr node_id]) l.
Proof. rewrite map_map. apply map_ext. by intros []. Qed.
(** The fields are in canonical form already. *)
Lemma request_state_canon r st a : Forall (fun kv => canon kv.2 = kv.2) (request_state r st a).
Proof.
  unfold request_state, opt_text_json. repeat apply Forall_app_2.
  - repeat constructor; cbn [snd]; try done.
    + apply canon_strings.
    + cbn. by rewrite canon_dependencies.
    + by destruct (fd_workflow_definition_id r).
    + by destruct (fd_log_directory r).
  - destruct (String.eqb _ _); by repeat constructor.
  - destruct (fd_environment_keys r); repeat constructor. apply canon_strings.
  - destruct (String.eqb _ _); by repeat constructor.
Qed.
Lemma request_value_canon r a key : canon <$> dict_get key (request_state r "" a) = dict_get key (request_state r "" a).
Proof.
  destruct (dict_get key (request_state r "" a)) as [v|] eqn:Hv; [|done]. cbn. f_equal.
  apply dict_get_Some_elem in Hv. pose proof (request_state_canon r "" a) as Hc. rewrite Forall_forall in Hc.
  by apply (Hc _ Hv).
Qed.

(** ** Decoding *)
Lemma fixture_post_init_Ok r r' : fixture_post_init r = Ok r' -> r' = r /\
  existsb blank [fd_run_id r; fd_node_id r; fd_attempt_id r; fd_repository_id r; fd_base_revision r;
                 fd_operation_id r] = false /\
  fd_command r <> [] /\ (0 <= fd_expected_attempt_version r)%Z /\
  existsb (fun '(run_id, node_id) => blank run_id || blank node_id) (fd_dependencies r) = false /\
  from_option blank false (fd_workflow_definition_id r) = false /\
  fd_workspace_mode r ∈ WORKSPACE_MODES /\ fd_branch_publication r ∈ BRANCH_PUBLICATIONS.
Proof.
  unfold fixture_post_init. rewrite !raise_if_Ok. intros (H1 & H2 & H3 & H4 & H5 & H6 & H).
  apply bind_Ok in H as (u & _ & H). rewrite raise_if_Ok in H. destruct H as (H7 & [= <-]).
  apply bool_decide_eq_false in H2. apply negb_false_iff, bool_decide_eq_true in H6, H7.
  split_and!; try done. lia.
Qed.
Lemma texts_decode l : mapM text_value (map JStr l) = Some l.
Proof. induction l as [|x l IH]; [done|]. cbn. by rewrite IH. Qed.
Lemma dependencies_decode l : existsb (fun '(run_id, node_id) => blank run_id || blank node_id) l = false ->
  mapM_result parse_dependency
    (map (fun '(run_id, node_id) => JList [JStr run_id; JStr node_id]) l) = Ok l.
Proof.
  induction l as [|[x y] l IH]; [done|]. cbn [existsb map]. intros [Hxy Hl]%orb_false_iff.
  cbn. rewrite Hxy. cbn. by rewrite IH.
Qed.
Lemma required_text_get m key v : dict_get key m = Some (JStr v) ->
  required_text m key = if blank v then Err InternalInvariantViolationError else Ok v.
Proof. intros Hm. unfold required_text. rewrite Hm. by destruct (blank v). Qed.
Lemma choice_field_get m key default_value choices v :
  dict_get key m = (if String.eqb v default_value then None else Some (JStr v)) -> v ∈ choices ->
  choice_field m key default_value choices = Ok v.
Proof.
  intros Hm Hv. unfold choice_field. rewrite Hm. destruct (String.eqb_spec v default_value) as [He|]; [by rewrite He|].
  by rewrite bool_decide_eq_true_2.
Qed.
Lemma nullable_text_get m key refused o : dict_get key m = Some (opt_text_json o) ->
  nullable_text m key refused =
    if from_option refused false o then Err InternalInvariantViolationError else Ok o.
Proof. intros Hm. unfold nullable_text. rewrite Hm. destruct o; [|done]. cbn. by destruct (refused s). Qed.
Lemma mode_get r a : dict_get "workspace_mode" (request_state r "" a) =
  if String.eqb (fd_workspace_mode r) WORKSPACE_MODE_GIT_WORKTREE then None else Some (JStr (fd_workspace_mode r)).
Proof.
  unfold request_state. destruct (String.eqb (fd_workspace_mode r) _); [|done].
  by destruct (fd_environment_keys r), (String.eqb (fd_branch_publication r) _).
Qed.
Lemma publication_get r a : dict_get "branch_publication" (request_state r "" a) =
  if String.eqb (fd_branch_publication r) BRANCH_PUBLICATION_WORKER then None
  else Some (JStr (fd_branch_publication r)).
Proof.
  unfold request_state. destruct (String.eqb (fd_workspace_mode r) _), (fd_environment_keys r),
    (String.eqb (fd_branch_publication r) _); done.
Qed.
Lemma environment_get r a : dict_get "environment_keys" (request_state r "" a) =
  (fun keys => JList (map JStr keys)) <$> fd_environment_keys r.
Proof.
  unfold request_state. destruct (String.eqb (fd_workspace_mode r) _), (fd_environment_keys r),
    (String.eqb (fd_branch_publication r) _); done.
Qed.
Lemma execution_data_get m r a : holds_request m r a -> (0 <= fd_expected_attempt_version r)%Z ->
  execution_data m =
    if forallb (fun a => negb (String.eqb a "")) (fd_command r)
    then Ok (fd_command r, fd_expected_attempt_version r,
             map (fun '(run_id, node_id) => JList [JStr run_id; JStr node_id]) (fd_dependencies r))
    else Err InternalInvariantViolationError.
Proof.
  intros Hm Hv. unfold execution_data. rewrite !(holds_get m r a _ Hm) by literal.
  cbn -[text_value mapM]. rewrite texts_decode. cbn.
  rewrite (proj2 (Z.ltb_ge _ _)) by lia. rewrite orb_false_r.
  assert (He : existsb (String.eqb "") (fd_command r) =
    negb (forallb (fun a => negb (String.eqb a "")) (fd_command r))).
  { induction (fd_command r) as [|x l IH]; [done|]. cbn [existsb forallb]. rewrite IH, String.eqb_sym.
    by destruct (String.eqb x ""). }
  change (existsb _ (fd_command r)) with (existsb (String.eqb "") (fd_command r)).
  rewrite He. by destruct (forallb _ _).
Qed.
Lemma actor_decodes m r a : holds_request m r a -> actor_type_from_state m = Ok a.
Proof.
  intros Hm. unfold actor_type_from_state. rewrite (holds_get m r a _ Hm) by literal. by destruct a.
Qed.
Lemma ok_bind {A B} (a : A) (f : A -> result B) : mbind f (Ok a) = f a.
Proof. done. Qed.
(** What a reader of the stored state gets. *)
Lemma request_decodes m r a : fixture_post_init r = Ok r -> holds_request m r a ->
  request_from_state (JObj m) = if readable r then Ok r else Err InternalInvariantViolationError.
Proof.
  intros Hr Hm. pose proof Hr as (_ & H1 & _ & H3 & H4 & H5 & H6 & H7)%fixture_post_init_Ok.
  cbn [existsb] in H1. rewrite !orb_false_iff in H1. destruct H1 as (B1 & B2 & B3 & B4 & B5 & B6 & _).
  unfold request_from_state.
  rewrite (required_text_get m "run_id" (fd_run_id r)), (required_text_get m "node_id" (fd_node_id r)),
    (required_text_get m "attempt_id" (fd_attempt_id r)), (required_text_get m "repository_id" (fd_repository_id r)),
    (required_text_get m "repository_path" (fd_repository_path r)),
    (required_text_get m "workspace_path" (fd_workspace_path r)),
    (required_text_get m "base_revision" (fd_base_revision r)),
    (required_text_get m "operation_id" (fd_operation_id r))
    by (rewrite (holds_get m r a _ Hm) by literal; done).
  assert (Hmode := choice_field_get m "workspace_mode" _ _ (fd_workspace_mode r)
    (eq_trans (holds_get m r a "workspace_mode" Hm ltac:(literal)) (mode_get r a)) H6).
  assert (Hpub := choice_field_get m "branch_publication" _ _ (fd_branch_publication r)
    (eq_trans (holds_get m r a "branch_publication" Hm ltac:(literal)) (publication_get r a)) H7).
  rewrite Hmode, Hpub, (nullable_text_get m "log_directory" _ (fd_log_directory r)),
    (nullable_text_get m "workflow_definition_id" _ (fd_workflow_definition_id r))
    by (rewrite (holds_get m r a _ Hm) by literal; done).
  rewrite (execution_data_get m r a Hm H3).
  rewrite (holds_get m r a "retain_workspace" Hm), (holds_get m r a "environment_keys" Hm), environment_get by literal.
  rewrite B1, B2, B3, B4, B5, B6, H5. unfold readable.
  destruct (blank (fd_repository_path r)); [done|]. destruct (blank (fd_workspace_path r)); [done|].
  cbn [mbind result_bind negb andb]. cbn [request_state dict_get app String.eqb Ascii.eqb Bool.eqb].
  assert (Hl : from_option (String.eqb "") false (fd_log_directory r) = bool_decide (fd_log_directory r = Some "")).
  { by destruct (fd_log_directory r) as [[]|]. }
  change (from_option _ false (fd_log_directory r)) with (from_option (String.eqb "") false (fd_log_directory r)).
  rewrite ok_bind, Hl. destruct (bool_decide (fd_log_directory r = Some "")); [done|].
  assert (He : forall {B} (f : option (list string) -> result B),
    mbind f (match (fun keys => JList (map JStr keys)) <$> fd_environment_keys r with
      | None | Some JNull => Ok None
      | Some (JList keys) => keys ← from_option_err InternalInvariantViolationError (mapM text_value keys); Ok (Some keys)
      | Some _ => Err InternalInvariantViolationError end) = f (fd_environment_keys r)).
  { intros B f. destruct (fd_environment_keys r) as [keys|]; [|done]. cbn [fmap option_fmap option_map].
    by rewrite texts_decode. }
  cbn [negb andb]. rewrite ok_bind, He.
  destruct (forallb _ (fd_command r)); [|done]. rewrite ok_bind. cbn beta iota.
  rewrite dependencies_decode, ok_bind by done. rewrite <- Hr. f_equal. by destruct r.
Qed.

(** ** Rows of a node *)
(** Entries that are neither the status nor a field of the request. *)
Definition extra_ok (extra : list (string * json)) : Prop :=
  Forall (fun kv => kv.1 ∉ "status" :: REQUEST_KEYS) extra.
Record node_row (m : list (string * json)) (r : FixtureDispatch) (a : ActorType) (st : string) : Prop := {
  nr_keys : NoDup m.*1;
  nr_request : holds_request m r a;
  nr_status : dict_get "status" m = Some (JStr st);
}.
Lemma extra_other extra key : extra_ok extra -> key ∈ "status" :: REQUEST_KEYS -> key ∉ extra.*1.
Proof.
  intros He Hk Hin. apply list_elem_of_fmap in Hin as (kv & -> & Hin).
  unfold extra_ok in He. rewrite Forall_forall in He. by apply (He kv Hin).
Qed.
(** A status written over a row, with entries that leave the request alone. *)
Definition restated (m : list (string * json)) (st : string) (extra : list (string * json))
    : list (string * json) := canon_items (dict_update (dict_set "status" (JStr st) m) extra).
Lemma restated_row m r a st st' extra : node_row m r a st -> extra_ok extra ->
  node_row (restated m st' extra) r a st'.
Proof.
  intros [Hd Hr Hs] He.
  assert (Hn : NoDup (dict_update (dict_set "status" (JStr st') m) extra).*1)
    by by apply dict_update_nodup, dict_set_nodup.
  split.
  - by apply canon_items_nodup.
  - apply Forall_forall. intros key Hk. unfold restated. rewrite canon_items_get by done.
    rewrite dict_update_get_other by (apply extra_other; [done|by right]).
    rewrite dict_get_set, decide_False by (intros ->; revert Hk; apply (bool_decide_unpack _); by vm_compute).
    rewrite (holds_get m r a key Hr Hk). apply request_value_canon.
  - unfold restated. rewrite canon_items_get by done.
    rewrite dict_update_get_other by (apply extra_other; [done|by left]).
    by rewrite dict_get_set, decide_True.
Qed.
Section Queued.
Context `{iso : IsoCodec}.
Lemma queued_row r a now extra : extra_ok extra -> node_row (canon_items (queued_state r a now extra)) r a "queued".
Proof.
  intros He. unfold queued_state.
  assert (Hn : NoDup (dict_update (dict_set "queued_at" (JStr (isoformat now)) (request_state r "queued" a)) extra).*1)
    by by apply dict_update_nodup, dict_set_nodup, request_state_nodup.
  split.
  - by apply canon_items_nodup.
  - apply Forall_forall. intros key Hk. rewrite canon_items_get by done.
    rewrite dict_update_get_other by (apply extra_other; [done|by right]).
    rewrite dict_get_set, decide_False by (intros ->; revert Hk; apply (bool_decide_unpack _); by vm_compute).
    rewrite request_state_get by (intros ->; revert Hk; apply (bool_decide_unpack _); by vm_compute).
    apply request_value_canon.
  - rewrite canon_items_get by done. rewrite dict_update_get_other by (apply extra_other; [done|by left]).
    rewrite dict_get_set. done.
Qed.

(** C31: a request accepted by [FixtureDispatch] and stored by a registration is read back as
    it was, with its actor, however often its status and its other entries are rewritten
    (each rewriting through the ledger's canonical form), provided its paths are not blank,
    its log directory has a name and no argument of its command is the empty string; a
    request without these properties registers but can never be read back. *)
Theorem stored_request_roundtrip r a now extra changes :
  fixture_post_init r = Ok r -> extra_ok extra -> Forall (fun c => extra_ok c.2) changes ->
  let state := foldl (fun m c => restated m c.1 c.2) (canon_items (queued_state r a now extra)) changes in
  request_from_state (JObj state) = (if readable r then Ok r else Err InternalInvariantViolationError) /\
  actor_type_from_state state = Ok a /\
  dict_get "status" state = Some (JStr (List.last (map fst changes) "queued")).
Proof.
  intros Hr He Hc. cbn zeta.
  assert (Hrow : forall m st, node_row m r a st -> exists st', st' = List.last (map fst changes) st /\
    node_row (foldl (fun m c => restated m c.1 c.2) m changes) r a st').
  { clear He extra. induction Hc as [|[st1 extra] changes Hx _ IH]; intros m st Hm; [by exists st|].
    cbn [foldl]. destruct (IH (restated m st1 extra) st1) as (st' & -> & Hrow);
      [by eapply restated_row|]. eexists. split; [|exact Hrow]. cbn. destruct changes as [|[st2 e2] l]; [done|].
    cbn [map]. generalize (map fst l). intros k. generalize st2 at 1 2. clear.
    intros x. revert x. induction k as [|y k IH]; intros x; [done|]. cbn. apply IH. }
  destruct (Hrow _ _ (queued_row r a now extra He)) as (st & -> & [_ Hreq Hst]).
  split_and!; [by eapply request_decodes|by eapply actor_decodes|done].
Qed.
End Queued.

Module Demo.
#[local] Existing Instance IdentityProofs.toy_iso.
Lemma stored_request_roundtrip_witness :
  let r := sample_request "b" [("run", "a")] in
  let state := foldl (fun m c => restated m c.1 c.2) (canon_items (queued_state r ACTOR_AGENT (Aware 0) []))
    [("running", [("wakeup", JNull)]); ("failed", [("failure_reason", JStr "lost")])] in
  request_from_state (JObj state) = Ok r /\ dict_get "status" state = Some (JStr "failed").
Proof.
  intros r state.
  destruct (stored_request_roundtrip r ACTOR_AGENT (Aware 0) []
    [("running", [("wakeup", JNull)]); ("failed", [("failure_reason", JStr "lost")])]) as (H1 & _ & H2).
  - reflexivity.
  - constructor.
  - repeat constructor; apply (bool_decide_unpack _); vm_compute; exact I.
  - split; [exact H1|exact H2].
Defined.
End Demo.
