(* ===== verification/RuntimeNodeProofs.v ===== *)
(** * Runtime nodes over any history of calls

    The durable record of a node: the moves its status makes, and the request and actor
    that only a retry or a resumption replaces. *)
From S2P Require Import Prelude PyText Json Identity JsonCanon Redaction Ledger LedgerProofs.
From S2P Require Import LedgerTheorems Coordinator CoordinatorProofs NodeLeases Runtime Scheduler.
From S2P Require Import Workflows OperatorControl Workers Workspaces RuntimeNodes WorkerProofs.
From S2P Require Import EngineHistory NodeRecords.

(** ** Nodes and their moves *)
Definition NODE_STATUSES : list string := "queued" :: "running" :: "awaiting_human" :: TERMINAL_STATUSES.
(** A node: its request, its actor and its status. *)
Definition Node : Type := FixtureDispatch * ActorType * string.
Definition node_key (run node : string) : string := run +:+ ":" +:+ node.
(** A new request in place of the one of a node that ended, under a fresh attempt or operation. *)
Inductive retried (r : FixtureDispatch) : Node -> Node -> Prop :=
| retried_after prior a st : st ∈ TERMINAL_STATUSES -> request_key r = request_key prior ->
    (fd_attempt_id r <> fd_attempt_id prior \/ fd_operation_id r <> fd_operation_id prior) ->
    retried r (prior, a, st) (r, a, "queued").
(** The moves of a tick: those that launch no worker, and the start of an agent. *)
Inductive idle_move : Node -> Node -> Prop :=
| move_defer r a : idle_move (r, a, "queued") (r, a, "queued")
| move_retried r n n' : retried r n n' -> idle_move n n'.
Inductive tick_move : Node -> Node -> Prop :=
| move_start r : tick_move (r, ACTOR_AGENT, "queued") (r, ACTOR_AGENT, "running")
| move_idle n n' : idle_move n n' -> tick_move n n'.
(** The moves of a cancellation; a running worker whose workspace is not yet quiescent parks. *)
Inductive cancelled (run node : string) : Node -> Node -> Prop :=
| cancelled_queued r a : request_key r = node_key run node ->
    cancelled run node (r, a, "queued") (r, a, "cancelled")
| cancelled_parked r : request_key r = node_key run node ->
    cancelled run node (r, ACTOR_AGENT, "awaiting_human") (r, ACTOR_AGENT, "cancelled")
| cancelled_running r st' : request_key r = node_key run node -> st' ∈ ["cancelled"; "awaiting_human"] ->
    cancelled run node (r, ACTOR_AGENT, "running") (r, ACTOR_AGENT, st').
(** The moves each call may make, and on which node. *)
Inductive call_move : EngineCall -> Node -> Node -> Prop :=
| by_tick hw lw limits requests ids held n n' : tick_move n n' -> call_move (EcTick hw lw limits requests ids held) n n'
| by_register r actor w extra n n' : retried r n n' -> call_move (EcRegisterNode r actor w extra) n n'
| by_retry r actor epoch n n' : retried r n n' -> call_move (EcRetryNode r actor epoch) n n'
| by_retry_workflow r actor w n n' : retried r n n' -> call_move (EcRetryWorkflowNode r actor w) n n'
| by_complete run node epoch outcome extra r a : request_key r = node_key run node ->
    a <> ACTOR_AGENT -> outcome ∈ TERMINAL_STATUSES ->
    call_move (EcCompleteNode run node epoch outcome extra) (r, a, "queued") (r, a, outcome)
| by_await run node epoch reason extra r a : request_key r = node_key run node -> a <> ACTOR_AGENT ->
    call_move (EcAwaitHumanNode run node epoch reason extra) (r, a, "queued") (r, a, "awaiting_human")
| by_resolve run node epoch outcome extra r a : request_key r = node_key run node ->
    a <> ACTOR_AGENT -> outcome ∈ TERMINAL_STATUSES ->
    call_move (EcResolveHumanWait run node epoch outcome extra) (r, a, "awaiting_human") (r, a, outcome)
| by_hold run node epoch reason repair message extra r a : request_key r = node_key run node ->
    call_move (EcRecordEvidenceHold run node epoch reason repair message extra) (r, a, "queued") (r, a, "queued")
| by_result envelope r st : request_key r = node_key (we_run_id envelope) (we_node_id envelope) ->
    fd_attempt_id r = we_attempt_id envelope -> we_terminal_result envelope ∈ ["passed"; "failed"; "cancelled"] ->
    call_move (EcIngestResult envelope) (r, ACTOR_AGENT, st) (r, ACTOR_AGENT, we_terminal_result envelope)
| by_cancel run node epoch n n' : cancelled run node n n' -> call_move (EcCancelNode run node epoch) n n'
| by_failure run node w r st' : request_key r = node_key run node -> st' ∈ ["cancelled"; "failed"; "awaiting_human"] ->
    call_move (EcFailExitedWorker run node w) (r, ACTOR_AGENT, "running") (r, ACTOR_AGENT, st')
| by_park f reason r a st : request_key r = worker_key (df_lease f) ->
    call_move (EcEnterHumanWait f reason) (r, a, st) (r, a, "awaiting_human")
| by_resume r epoch extra prior a : request_key r = request_key prior ->
    fd_attempt_id r <> fd_attempt_id prior -> fd_operation_id r <> fd_operation_id prior ->
    call_move (EcResumeHumanWait r epoch extra) (prior, a, "awaiting_human") (r, a, "queued").

Abbreviation node_ref k := ((RUNTIME_NODE_AGGREGATE_TYPE, k) : ref).
(** The node the ledger keeps under a key. *)
Definition node_at (k : string) (s : Ledger) (n : Node) : Prop :=
  let '(r, a, st) := n in
  exists v ety m, view_of (node_ref k) s = Some (v, ety, 1%Z, JObj m) /\ node_row m r a st /\
    request_key r = k /\ wf_request r /\ st ∈ NODE_STATUSES /\ (st = "running" -> a = ACTOR_AGENT).
#[global] Arguments node_at : simpl never.
Definition nodes_sound (s : Ledger) : Prop :=
  wf_ledger s /\ forall k, view_of (node_ref k) s = None \/ exists n, node_at k s n.
(** Every node moves along [M]; a node that appears was queued first. *)
Definition evolves_by (M : Node -> Node -> Prop) (s s' : Ledger) : Prop := nodes_sound s ->
  nodes_sound s' /\
  (forall k n, node_at k s n -> exists n', node_at k s' n' /\ rtc M n n') /\
  (forall k n', view_of (node_ref k) s = None -> node_at k s' n' ->
     exists r a, rtc M (r, a, "queued") n').

Lemma node_at_view k s s' n : view_of (node_ref k) s' = view_of (node_ref k) s -> node_at k s n -> node_at k s' n.
Proof. destruct n as [[r a] st]. intros Hv. unfold node_at. by rewrite Hv. Qed.
Lemma node_at_some k s n : node_at k s n -> view_of (node_ref k) s <> None.
Proof. destruct n as [[r a] st]. intros (v & ety & m & -> & _). done. Qed.
Lemma node_row_reads m r a st : node_row m r a st -> wf_request r ->
  request_from_state (JObj m) = Ok r /\ actor_type_from_state m = Ok a /\
  forall x, field_is "status" x m = String.eqb st x.
Proof.
  intros [_ Hr Hs] [Hp Hrd]. split_and!.
  - rewrite (request_decodes m r a Hp Hr). by rewrite Hrd.
  - by eapply actor_decodes.
  - intros x. unfold field_is. by rewrite Hs.
Qed.
Lemma node_at_unique k s n n' : node_at k s n -> node_at k s n' -> n = n'.
Proof.
  destruct n as [[r a] st], n' as [[r' a'] st'].
  intros (v & ety & m & Hv & Hrow & _ & Hr & _) (v' & ety' & m' & Hv' & Hrow' & _ & Hr' & _).
  rewrite Hv in Hv'. injection Hv' as <- <- <-.
  destruct (node_row_reads _ _ _ _ Hrow Hr) as (H1 & H2 & _).
  destruct (node_row_reads _ _ _ _ Hrow' Hr') as (H1' & H2' & _).
  pose proof (nr_status _ _ _ _ Hrow). pose proof (nr_status _ _ _ _ Hrow'). congruence.
Qed.
#[export] Instance evolves_preorder M : PreOrder (evolves_by M).
Proof.
  split.
  - intros s Hs. split_and!; [done|by intros k n Hn; exists n|].
    intros k n Hv Hn. by apply node_at_some in Hn.
  - intros s1 s2 s3 H1 H2 Hs. destruct (H1 Hs) as (Hs2 & K1 & C1). destruct (H2 Hs2) as (Hs3 & K2 & C2).
    split_and!; [done| |].
    + intros k n (n' & Hn' & M1)%K1. apply K2 in Hn' as (n'' & Hn'' & M2). exists n''. split; [done|by etrans].
    + intros k n Hv Hn. destruct (proj2 Hs2 k) as [Hv2|(n2 & Hn2)]; [by eapply C2|].
      destruct (C1 k n2 Hv Hn2) as (r & a & M1). apply K2 in Hn2 as (n' & Hn' & M2).
      rewrite (node_at_unique _ _ _ _ Hn Hn'). exists r, a. by etrans.
Qed.
Section Moves.
Variable M : Node -> Node -> Prop.
Abbreviation evolves := (evolves_by M).
(** Calls that write no node. *)
Lemma side_evolves s s' T N : RUNTIME_NODE_AGGREGATE_TYPE ∉ T -> touch T N s s' -> evolves s s'.
Proof.
  intros HT Ht [Hs Hn].
  assert (Hv : forall k, view_of (node_ref k) s' = view_of (node_ref k) s) by (intros k; by eapply touch_view).
  split_and!.
  - split; [by eapply touch_wf|]. intros k. destruct (Hn k) as [Hk|(n & Hk)]; [left; by rewrite Hv|].
    right. exists n. by eapply node_at_view; [apply Hv|].
  - intros k n Hk. exists n. split; [by eapply node_at_view; [apply Hv|]|done].
  - intros k n Hk Hk'. apply node_at_some in Hk'. by rewrite Hv in Hk'.
Qed.
Lemma side_ensures {A} (m : tx A) : ensures side m -> ensures evolves m.
Proof. apply ensures_weaken. intros s s'. apply side_evolves. literal. Qed.
(** The write of one node. *)
Lemma write_evolves s s' k : nodes_sound s -> frame (fun r => r <> node_ref k) s s' ->
  (exists n', node_at k s' n' /\ (forall n, node_at k s n -> rtc M n n') /\
     (view_of (node_ref k) s = None -> exists r a, rtc M (r, a, "queued") n')) ->
  evolves s s'.
Proof.
  intros [Hs Hn] Hf (n' & Hn' & Hmove & Hnew) _.
  assert (Hv : forall k', k' <> k -> view_of (node_ref k') s' = view_of (node_ref k') s).
  { intros k' Hk. apply (fr_view _ _ _ Hf Hs). by intros [= ->]. }
  split_and!.
  - split; [by apply (fr_wf _ _ _ Hf)|]. intros k'. destruct (decide (k' = k)) as [->|Hk]; [right; by exists n'|].
    destruct (Hn k') as [Hk'|(n & Hk')]; [left; by rewrite Hv|]. right. exists n. by eapply node_at_view; [apply Hv|].
  - intros k' n Hk'. destruct (decide (k' = k)) as [->|Hk]; [exists n'; split; [done|by apply Hmove]|].
    exists n. split; [by eapply node_at_view; [apply Hv|]|done].
  - intros k' n Hk' Hn2. destruct (decide (k' = k)) as [->|Hk].
    + rewrite (node_at_unique _ _ _ _ Hn2 Hn'). by apply Hnew.
    + apply node_at_some in Hn2. by rewrite Hv in Hn2.
Qed.
End Moves.

(** ** Reading a node *)
Lemma read_node k s p : read_projection RUNTIME_NODE_AGGREGATE_TYPE k s = Some p -> forall n, node_at k s n ->
  exists m, pj_state p = JObj m /\ node_row m n.1.1 n.1.2 n.2 /\
    view_of (node_ref k) s = Some (pj_aggregate_version p, pj_event_type p, 1%Z, JObj m).
Proof.
  unfold read_projection. intros Hp [[r a] st] (v & ety & m & Hv & Hrow & _). unfold view_of in Hv |- *.
  rewrite Hp in Hv |- *. cbn in Hv |- *. unfold projection_view in *.
  injection Hv as H1 H2 H3 H4. exists m. split_and!; [done|done|congruence].
Qed.
Lemma projection_node k s p : nodes_sound s -> read_projection RUNTIME_NODE_AGGREGATE_TYPE k s = Some p ->
  exists n m, node_at k s n /\ pj_state p = JObj m /\ node_row m n.1.1 n.1.2 n.2.
Proof.
  intros [_ Hn] Hp. destruct (Hn k) as [Hv|(n & Hk)].
  - unfold view_of in Hv. unfold read_projection in Hp. by rewrite Hp in Hv.
  - destruct (read_node _ _ _ Hp n Hk) as (m & Hm & Hrow & _). by exists n, m.
Qed.
Lemma request_for_node run node s r : nodes_sound s -> request_for run node s = Ok r ->
  exists a st m, node_at (run +:+ ":" +:+ node) s (r, a, st) /\ node_row m r a st /\
    request_key r = run +:+ ":" +:+ node /\ runtime_state r s = Ok m.
Proof.
  intros Hs H. unfold request_for in H. destruct (read_projection _ _ s) as [p|] eqn:Hp; [|done].
  destruct (projection_node _ _ _ Hs Hp) as ([[r' a] st] & m & Hn & Hm & Hrow). cbn in Hrow.
  pose proof Hn as (v & ety & m' & _ & _ & Hk & Hr & _).
  rewrite Hm in H. rewrite (proj1 (node_row_reads _ _ _ _ Hrow Hr)) in H. injection H as <-.
  exists a, st, m. split_and!; [done..|]. unfold runtime_state. rewrite Hk, Hp. unfold state_dict. by rewrite Hm.
Qed.

(** ** Writing a node *)
Section Writes.
Context `{rt : PyRuntime} `{iso : IsoCodec} (M : Node -> Node -> Prop).
Abbreviation evolves := (evolves_by M).

Lemma write_node_evolves clock owner epoch now corr k version ety payload s r a st :
  nodes_sound s -> node_row (canon_items payload) r a st -> request_key r = k -> wf_request r ->
  st ∈ NODE_STATUSES -> (st = "running" -> a = ACTOR_AGENT) ->
  (forall n, node_at k s n -> rtc M n (r, a, st)) ->
  (view_of (node_ref k) s = None -> exists r0 a0, rtc M (r0, a0, "queued") (r, a, st)) ->
  match guarded_append clock owner epoch now corr RUNTIME_NODE_AGGREGATE_TYPE k version ety payload s with
  | (s', Ok _) => evolves s s' /\ node_at k s' (r, a, st) /\ frame (fun r => r <> node_ref k) s s'
  | (s', Err _) => s' = s
  end.
Proof.
  intros Hs Hrow Hk Hr Hst Hag Hmove Hnew.
  pose proof (guarded_append_spec clock owner epoch now corr RUNTIME_NODE_AGGREGATE_TYPE k version ety payload s) as Hg.
  destruct (guarded_append _ _ _ _ _ _ _ _ _ _ s) as [s' [res|e]]; [|done].
  destruct Hg as (_ & Hf & Hv). specialize (Hv (proj1 Hs)). rewrite canon_obj in Hv.
  assert (Hn' : node_at k s' (r, a, st)) by by exists (version + 1)%Z, ety, (canon_items payload).
  split_and!; [|done|done]. eapply write_evolves; [done|exact Hf|]. by exists (r, a, st).
Qed.
(** A change of status, from the node as it is. *)
Lemma set_status_spec clock owner r a st st' ety epoch now extra s :
  nodes_sound s -> node_at (request_key r) s (r, a, st) -> M (r, a, st) (r, a, st') ->
  st' ∈ NODE_STATUSES -> (st' = "running" -> a = ACTOR_AGENT) -> extra_ok extra ->
  match set_status clock owner r st' ety epoch now extra s with
  | (s', Ok _) => evolves s s' /\ node_at (request_key r) s' (r, a, st') /\
      frame (fun r' => r' <> node_ref (request_key r)) s s'
  | (s', Err _) => s' = s
  end.
Proof.
  intros Hs Hn Hmove Hst Hag He. unfold set_status, gets. rewrite bind_tx.
  destruct (read_projection _ _ s) as [p|] eqn:Hp; [|done].
  destruct (read_node _ _ _ Hp _ Hn) as (m & Hm & Hrow & _). unfold state_dict. rewrite Hm, lift_tx, bind_tx.
  pose proof Hn as (? & ? & ? & _ & _ & _ & Hr & _).
  match goal with |- context [guarded_append clock owner epoch now ?corr ?ty ?k ?v ety ?payload s] =>
    pose proof (write_node_evolves clock owner epoch now corr k v ety payload s r a st' Hs) as Hw;
    destruct (guarded_append clock owner epoch now corr ty k v ety payload s) as [s' [res|e]] end.
  all: apply Hw; try done; [by eapply (restated_row m)|..].
  1,3: intros n Hn'; rewrite (node_at_unique _ _ _ _ Hn' Hn); by apply rtc_once.
  all: intros Hv; by apply node_at_some in Hn.
Qed.
(** A new request for the node. *)
Lemma replace_request_spec clock owner r r' a st epoch now ety extra s :
  nodes_sound s -> node_at (request_key r') s (r, a, st) -> M (r, a, st) (r', a, "queued") ->
  wf_request r' -> extra_ok extra ->
  match replace_request clock owner r' epoch now ety extra s with
  | (s', Ok _) => evolves s s'
  | (s', Err _) => s' = s
  end.
Proof.
  intros Hs Hn Hmove Hr He. unfold replace_request, gets. rewrite bind_tx.
  destruct (read_projection _ _ s) as [p|] eqn:Hp; [|done].
  destruct (read_node _ _ _ Hp _ Hn) as (m & Hm & Hrow & _). unfold state_dict. rewrite Hm, lift_tx, lift_tx.
  pose proof Hn as (? & ? & ? & _ & _ & _ & Hr0 & _).
  destruct (node_row_reads _ _ _ _ Hrow Hr0) as (_ & Ha & _). cbn in Ha. rewrite Ha. rewrite bind_tx.
  match goal with |- context [guarded_append clock owner epoch now ?corr ?ty ?k ?v ety ?payload s] =>
    pose proof (write_node_evolves clock owner epoch now corr k v ety payload s r' a "queued" Hs) as Hw;
    destruct (guarded_append clock owner epoch now corr ty k v ety payload s) as [s' [res|e]] end.
  all: apply Hw; try done; [by apply queued_row|literal|..].
  1,3: intros n Hn'; rewrite (node_at_unique _ _ _ _ Hn' Hn); by apply rtc_once.
  all: intros Hv; by apply node_at_some in Hn.
Qed.

(** ** Calls that read a node, do other work, and write it *)
(** From a ledger [s0], whatever was written aside since. *)
Definition from {A} (s0 : Ledger) (m : tx A) : Prop := forall s, side s0 s -> evolves s (m s).1.
Lemma from_here {A} (m : tx A) s : from s m -> evolves s (m s).1.
Proof. intros Hm. by apply Hm. Qed.
Lemma from_side {A} s0 (m : tx A) : ensures side m -> from s0 m.
Proof. intros Hm s _. eapply side_evolves; [|apply Hm]. literal. Qed.
Lemma from_bind {A B} s0 (m : tx A) (f : A -> tx B) :
  ensures side m -> (forall a, from s0 (f a)) -> from s0 (mbind f m).
Proof.
  intros Hm Hf s Hs. rewrite bind_tx. specialize (Hm s). destruct (m s) as [s1 [a|e]]; cbn [fst] in *.
  - etrans; [eapply side_evolves; [|exact Hm]; literal|]. apply Hf. by etrans.
  - eapply side_evolves; [|exact Hm]. literal.
Qed.
Lemma from_lift {A B} s0 (r : result A) (f : A -> tx B) :
  (forall a, r = Ok a -> from s0 (f a)) -> from s0 (mbind f (lift r)).
Proof. intros Hf s Hs. rewrite lift_tx. destruct r as [a|e]; [by apply Hf|reflexivity]. Qed.
Lemma node_at_side k s0 s n : nodes_sound s0 -> side s0 s -> node_at k s0 n -> node_at k s n.
Proof. intros [Hs0 _] Hs. apply node_at_view. eapply touch_view; [exact Hs|done|literal]. Qed.
Lemma nodes_sound_side s0 s : nodes_sound s0 -> side s0 s -> nodes_sound s.
Proof. intros Hs0 Hs. apply (side_evolves M s0 s SIDE_T SIDE_N); [literal|done|done]. Qed.
Lemma from_set_status s0 clock owner r a st st' ety epoch now extra :
  nodes_sound s0 -> node_at (request_key r) s0 (r, a, st) -> M (r, a, st) (r, a, st') ->
  st' ∈ NODE_STATUSES -> (st' = "running" -> a = ACTOR_AGENT) -> extra_ok extra ->
  from s0 (set_status clock owner r st' ety epoch now extra).
Proof.
  intros Hs0 Hn Hmove Hst Hag He s Hs.
  pose proof (set_status_spec clock owner r a st st' ety epoch now extra s (nodes_sound_side _ _ Hs0 Hs)
    (node_at_side _ _ _ _ Hs0 Hs Hn) Hmove Hst Hag He) as H.
  destruct (set_status _ _ _ _ _ _ _ _ s) as [s' [u|e]]; [by destruct H|by subst s'].
Qed.
Lemma from_replace s0 clock owner r r' a st epoch now ety extra :
  nodes_sound s0 -> node_at (request_key r') s0 (r, a, st) -> M (r, a, st) (r', a, "queued") ->
  wf_request r' -> extra_ok extra -> from s0 (replace_request clock owner r' epoch now ety extra).
Proof.
  intros Hs0 Hn Hmove Hr He s Hs.
  pose proof (replace_request_spec clock owner r r' a st epoch now ety extra s (nodes_sound_side _ _ Hs0 Hs)
    (node_at_side _ _ _ _ Hs0 Hs Hn) Hmove Hr He) as H.
  destruct (replace_request _ _ _ _ _ _ _ s) as [s' [u|e]]; [done|by subst s'].
Qed.
(** A call that reads its node first. *)
Lemma after_request {A} run node (f : FixtureDispatch -> tx A) s :
  (forall r a st m, nodes_sound s -> node_at (request_key r) s (r, a, st) -> node_row m r a st ->
     wf_request r -> request_key r = run +:+ ":" +:+ node -> runtime_state r s = Ok m ->
     evolves s (f r s).1) ->
  evolves s (mbind f (asks (request_for run node)) s).1.
Proof.
  intros Hf Hs. revert Hs. rewrite asks_tx. intros Hs. destruct (request_for run node s) as [r|] eqn:Hr.
  2: { by apply (reflexivity (R := evolves)). }
  destruct (request_for_node _ _ _ _ Hs Hr) as (a & st & m & Hn & Hrow & Hk & Hst).
  pose proof Hn as (? & ? & ? & _ & _ & _ & Hw & _). rewrite <- Hk in Hn.
  by eapply Hf.
Qed.
End Writes.

(** ** The calls *)
Ltac extras := solve [repeat constructor; literal | done].
Lemma extra_update (d e : list (string * json)) : extra_ok d -> extra_ok e -> extra_ok (dict_update d e).
Proof.
  unfold dict_update. intros Hd He. revert d Hd. induction He as [|[k v] e Hk _ IH]; intros d Hd; [done|].
  cbn [foldl]. apply IH. unfold extra_ok in *. by apply dict_set_Forall.
Qed.
Lemma wf_terminal st : st ∈ TERMINAL_STATUSES -> st ∈ NODE_STATUSES /\ st <> "running".
Proof. intros H. split; [set_solver|]. intros ->. revert H. apply (bool_decide_unpack _). by vm_compute. Qed.
Lemma has_status_row m r a st allowed : node_row m r a st -> has_status m allowed = Ok (bool_decide (st ∈ allowed)).
Proof. intros [_ _ Hs]. unfold has_status. by rewrite Hs. Qed.
Lemma require_agent m r a st u : node_row m r a st -> require_agent_node m = Ok u -> a = ACTOR_AGENT.
Proof.
  intros [_ Hr _]. unfold require_agent_node. rewrite (actor_decodes _ _ _ Hr). cbn [mbind result_bind].
  rewrite raise_if_Ok, negb_false_iff, bool_decide_eq_true. by intros [? _].
Qed.
Lemma require_non_agent m r a st u : node_row m r a st -> require_non_agent_node m = Ok u -> a <> ACTOR_AGENT.
Proof.
  intros [_ Hr _]. unfold require_non_agent_node. rewrite (actor_decodes _ _ _ Hr). cbn [mbind result_bind].
  rewrite raise_if_Ok, bool_decide_eq_false. by intros [? _].
Qed.
Lemma field_is_row m r a st x : node_row m r a st -> field_is "status" x m = String.eqb st x.
Proof. intros [_ _ Hs]. unfold field_is. by rewrite Hs. Qed.
Lemma unit_guard_Ok b e u : (raise_when b as e ;; Ok ()) = Ok u -> b = false.
Proof. by rewrite raise_if_Ok; intros [? _]. Qed.

Section Evolutions.
Context `{rt : PyRuntime} `{iso : IsoCodec}.
Abbreviation evolves c := (evolves_by (call_move c)).

(** A guard on the state read. *)
Ltac status_guard Hrow :=
  match goal with H : (raise_when negb (field_is "status" _ _) as _ ;; Ok ()) = Ok _ |- _ =>
    apply unit_guard_Ok in H; rewrite (field_is_row _ _ _ _ _ Hrow), negb_false_iff, String.eqb_eq in H end.

Lemma settle_node_evolves M clock owner run node from_status st' ety epoch now extra s :
  st' ∈ NODE_STATUSES -> st' <> "running" ->
  (forall r a, request_key r = node_key run node -> a <> ACTOR_AGENT -> M (r, a, from_status) (r, a, st')) -> extra_ok extra ->
  evolves_by M s (settle_node clock owner run node from_status st' ety epoch now extra s).1.
Proof.
  intros Hst Hnr Hmove He. unfold settle_node. apply after_request.
  intros r a st m Hs Hn Hrow Hr Hk Hm. rewrite asks_tx, Hm, lift_tx.
  destruct (require_non_agent_node m) as [u|] eqn:Ha; [|reflexivity].
  apply (require_non_agent _ _ _ _ _ Hrow) in Ha. rewrite lift_tx.
  destruct (raise_if _ _ ≫= _) as [u'|] eqn:Hg; [|reflexivity]. status_guard Hrow. subst st.
  apply (from_here M _ s), from_set_status with (a := a) (st := from_status); try done. by apply Hmove.
Qed.
Lemma complete_node_evolves clock owner run node epoch now outcome extra s : extra_ok extra ->
  evolves (EcCompleteNode run node epoch outcome extra) s (complete_node clock owner run node epoch now outcome extra s).1.
Proof.
  intros He. unfold complete_node. rewrite lift_tx. destruct (require_outcome outcome) as [u|] eqn:Ho; [|reflexivity].
  unfold require_outcome in Ho. apply unit_guard_Ok in Ho. apply negb_false_iff, bool_decide_eq_true in Ho.
  destruct (wf_terminal _ Ho). apply settle_node_evolves; try done. intros r a Hr Ha. by apply by_complete.
Qed.
Lemma await_human_evolves clock owner run node epoch now reason extra s : extra_ok extra ->
  evolves (EcAwaitHumanNode run node epoch reason extra) s (await_human_node clock owner run node epoch now reason extra s).1.
Proof.
  intros He. unfold await_human_node. rewrite lift_tx. destruct (raise_if _ _ ≫= _) as [u|]; [|reflexivity].
  apply settle_node_evolves; try done; [literal|intros; by apply by_await|]. apply extra_update; [extras|done].
Qed.
Lemma resolve_human_evolves clock owner run node epoch now outcome extra s : extra_ok extra ->
  evolves (EcResolveHumanWait run node epoch outcome extra) s (resolve_human_wait clock owner run node epoch now outcome extra s).1.
Proof.
  intros He. unfold resolve_human_wait. rewrite lift_tx. destruct (require_outcome outcome) as [u|] eqn:Ho; [|reflexivity].
  unfold require_outcome in Ho. apply unit_guard_Ok in Ho. apply negb_false_iff, bool_decide_eq_true in Ho.
  destruct (wf_terminal _ Ho). apply settle_node_evolves; try done. intros r a Hr Ha. by apply by_resolve.
Qed.
Lemma evidence_hold_evolves clock owner run node epoch now reason repair message extra s : extra_ok extra ->
  evolves (EcRecordEvidenceHold run node epoch reason repair message extra) s (record_evidence_hold clock owner run node epoch now reason repair message extra s).1.
Proof.
  intros He. unfold record_evidence_hold. apply after_request.
  intros r a st m Hs Hn Hrow Hr Hk Hm. rewrite asks_tx, Hm, lift_tx.
  destruct (raise_if _ _ ≫= _) as [u|] eqn:Hg; [|reflexivity]. status_guard Hrow. subst st.
  apply (from_here _ _ s), from_set_status with (a := a) (st := "queued"); try done; [by apply by_hold|literal|].
  apply extra_update; [done|extras].
Qed.
(** A node that stays queued. *)
Lemma record_deferral_evolves clock owner r a st reason reserved detail epoch now s :
  nodes_sound s -> node_at (request_key r) s (r, a, st) ->
  evolves_by idle_move s (record_deferral clock owner r reason reserved detail epoch now s).1.
Proof.
  intros Hs Hn. unfold record_deferral. rewrite asks_tx. unfold runtime_state.
  destruct (read_projection _ _ s) as [p|] eqn:Hp.
  2: { unfold set_status, gets. cbn. rewrite bind_tx. by rewrite Hp. }
  destruct (read_node _ _ _ Hp _ Hn) as (m & Hm & Hrow & _). unfold state_dict. rewrite Hm. cbn in Hrow.
  rewrite (field_is_row _ _ _ _ _ Hrow). destruct (String.eqb_spec st "queued") as [->|]; [|reflexivity].
  apply (from_here idle_move _ s), from_set_status with (a := a) (st := "queued"); try done; [constructor|literal|extras].
Qed.
(** Retries and resumptions. *)
Lemma retry_node_evolves clock owner r actor epoch now s : wf_request r ->
  evolves_by (retried r) s (retry_node clock owner r actor epoch now s).1.
Proof.
  intros Hr. unfold retry_node. apply after_request. intros prior a st m Hs Hn Hrow Hp Hk Hm.
  rewrite asks_tx, Hm, lift_tx. destruct (actor_type_from_state m); [|reflexivity].
  rewrite lift_tx. destruct (raise_if _ _ ≫= _); [|reflexivity].
  rewrite lift_tx, (has_status_row _ _ _ _ _ Hrow), lift_tx.
  destruct (raise_if (negb _) _ ≫= _) as [u|] eqn:Ht; [|reflexivity].
  apply unit_guard_Ok in Ht. apply negb_false_iff, bool_decide_eq_true in Ht. rewrite lift_tx.
  destruct (raise_if _ _ ≫= _) as [u'|] eqn:Hd; [|reflexivity].
  apply unit_guard_Ok in Hd. apply orb_false_iff in Hd as [Hd1%String.eqb_neq Hd2%String.eqb_neq].
  apply (from_here (retried r) _ s). apply from_lift; intros ? _. apply from_bind; [ens|]. intros ?.
  apply from_replace with (r := prior) (a := a) (st := st); [done|unfold request_key at 1; by rewrite <- Hk| |done|extras].
  apply retried_after; [done|by rewrite Hk|by left].
Qed.
Lemma resume_human_evolves h clock owner r epoch now extra s : wf_request r -> extra_ok extra ->
  evolves (EcResumeHumanWait r epoch extra) s (resume_human_wait h clock owner r epoch now extra s).1.
Proof.
  intros Hr He. unfold resume_human_wait. apply after_request. intros prior a st m Hs Hn Hrow Hp Hk Hm.
  rewrite asks_tx, Hm, lift_tx. destruct (raise_if (negb _) _ ≫= _) as [u|] eqn:Hg; [|reflexivity].
  status_guard Hrow. subst st. rewrite lift_tx.
  destruct (raise_if _ _ ≫= _) as [u'|] eqn:Hd; [|reflexivity].
  apply unit_guard_Ok in Hd. apply orb_false_iff in Hd as [Hd1%String.eqb_neq Hd2%String.eqb_neq].
  apply (from_here (call_move (EcResumeHumanWait r epoch extra)) _ s). apply from_lift; intros actor _. apply from_bind; [ens|]. intros ?.
  apply from_replace with (r := prior) (a := a) (st := "awaiting_human");
    [done|unfold request_key at 1; by rewrite <- Hk| |done|done].
  apply by_resume; [by rewrite Hk|done|done].
Qed.
(** Registration. *)
Lemma release_prior_side h clock owner current r epoch now : ensures side (release_prior h clock owner current r epoch now).
Proof. unfold release_prior. ens. Qed.
Lemma register_evolves h clock owner r actor epoch now extra s : wf_request r -> extra_ok extra ->
  evolves_by (retried r) s (register h clock owner r actor epoch now extra s).1.
Proof.
  intros Hr He Hs. revert Hs. unfold register, gets. rewrite bind_tx.
  destruct (read_projection _ _ s) as [p|] eqn:Hp; intros Hs.
  - destruct (projection_node _ _ _ Hs Hp) as ([[cur a] st] & m & Hn & Hm & Hrow). cbn in Hrow.
    pose proof Hn as (? & ? & ? & _ & _ & Hk & Hcur & _).
    destruct (node_row_reads _ _ _ _ Hrow Hcur) as (Hdec & Hact & _). revert Hs.
    rewrite Hm, lift_tx, lift_tx, Hact, lift_tx.
    destruct (raise_if _ _ ≫= _) as [u|]; [|by intros; apply (reflexivity (R := evolves_by (retried r)))].
    rewrite lift_tx, Hdec. destruct (decide (cur = r)); [by intros; apply (reflexivity (R := evolves_by (retried r)))|].
    rewrite lift_tx, (has_status_row _ _ _ _ _ Hrow). intros Hs.
    destruct (bool_decide (st ∈ TERMINAL_STATUSES)) eqn:Ht; [|by apply (reflexivity (R := evolves_by (retried r)))].
    apply bool_decide_eq_true in Ht. cbn [negb orb].
    destruct (String.eqb (fd_attempt_id r) _ && String.eqb (fd_operation_id r) _) eqn:Hd;
      [by apply (reflexivity (R := evolves_by (retried r)))|]. revert Hs.
    match goal with |- _ -> ?G => change (nodes_sound s -> G) end. intros Hs.
    apply (from_here (retried r) _ s); [|done]. apply from_bind; [ens|]. intros ?. apply from_bind.
    { destruct (bool_decide (actor = ACTOR_AGENT)); [apply release_prior_side|ens]. }
    intros ?. apply from_replace with (r := cur) (a := a) (st := st); try done.
    apply retried_after; [done|done|]. apply andb_false_iff in Hd.
    destruct Hd as [Hd%String.eqb_neq|Hd%String.eqb_neq]; [by left|by right].
  - assert (Hno : forall n, node_at (request_key r) s n -> rtc (retried r) n (r, actor, "queued")).
    { intros n Hn. apply node_at_some in Hn. unfold view_of in Hn. unfold read_projection in Hp. by rewrite Hp in Hn. }
    revert Hs. rewrite bind_tx. intros Hs.
    match goal with |- context [guarded_append clock owner epoch now ?corr ?ty ?k ?v ?ety ?payload s] =>
      pose proof (write_node_evolves (retried r) clock owner epoch now corr k v ety payload s r actor "queued" Hs) as Hw;
      destruct (guarded_append clock owner epoch now corr ty k v ety payload s) as [s' [res|e]] end;
    specialize (Hw (queued_row r actor now extra He) eq_refl Hr ltac:(literal) ltac:(done) Hno
      (fun _ => ex_intro _ r (ex_intro _ actor (rtc_refl _ _)))).
    + destruct Hw as (Hev & _). by apply Hev.
    + subst s'. by apply (reflexivity (R := evolves_by (retried r))).
Qed.
Lemma register_node_evolves h clock owner r actor now window extra s : wf_request r -> extra_ok extra ->
  evolves_by (retried r) s (register_node h clock owner r actor now window extra s).1.
Proof.
  intros Hr He. unfold register_node. revert s.
  change (ensures (evolves_by (retried r)) (register_node h clock owner r actor now window extra)). unfold register_node.
  apply (ensures_bind _); [apply (ensures_reads _), reads_asks|]. intros _.
  apply (ensures_bind _); [apply side_ensures; ens|].
  intros ep. apply (ensures_bind _); [intros s; by apply register_evolves|]. intros _. apply (ensures_ret _).
Qed.

(** Workers' results, cancellations and failures. *)
Lemma collect_evolves h t clock owner envelope now s : envelope_post_init envelope = Ok envelope ->
  evolves (EcIngestResult envelope) s (collect_result h t clock owner envelope now s).1.
Proof.
  intros He. unfold collect_result. apply after_request. intros r a st m Hs Hn Hrow Hr Hr' Hm.
  rewrite asks_tx, Hm, lift_tx. destruct (require_agent_node m) as [u|] eqn:Ha; [|reflexivity].
  apply (require_agent _ _ _ _ _ Hrow) in Ha. subst a.
  assert (Ht : we_terminal_result envelope ∈ ["passed"; "failed"; "cancelled"]).
  { unfold envelope_post_init in He. rewrite !raise_if_Ok in He. destruct He as (_ & _ & Ht & _).
    by apply negb_false_iff, bool_decide_eq_true in Ht. }
  apply (from_here (call_move (EcIngestResult envelope)) _ s). apply from_lift; intros ? Hatt. apply unit_guard_Ok, negb_false_iff, String.eqb_eq in Hatt.
  apply from_bind; [ens|]. intros ?.
  apply from_bind; [unfold require_owned_epoch; ens|]. intros ?. apply from_bind; [ens|]. intros ?.
  apply from_bind; [ens|]. intros ?. apply from_bind; [ens|]. intros ?.
  match goal with |- from _ s (mbind ?f ?m) => intros s1 Hs1; rewrite (bind_tx m f) end.
  pose proof (from_set_status (call_move (EcIngestResult envelope)) s clock owner r ACTOR_AGENT st (we_terminal_result envelope) "runtime_node.completed"
    (ce_epoch a1) now [] Hs Hn) as Hset.
  specialize (Hset (by_result envelope r st Hr' Hatt Ht)).
  assert (Hst' : we_terminal_result envelope ∈ NODE_STATUSES) by (revert Ht; unfold NODE_STATUSES, TERMINAL_STATUSES; set_solver).
  specialize (Hset Hst' ltac:(done) ltac:(by constructor) s1 Hs1).
  destruct (set_status _ _ _ _ _ _ _ _ s1) as [s2 [u2|e]]; [|done]. etrans; [exact Hset|]. cbn [fst].
  match goal with |- evolves _ s2 (?m s2).1 => enough (ensures side m) as Hside by apply (side_ensures (call_move (EcIngestResult envelope)) m Hside) end.
  ens.
Qed.
(** A computation that, when it returns [true], wrote aside only. *)
Definition aside_if_true (M : Node -> Node -> Prop) (s0 : Ledger) (m : tx bool) : Prop := forall s, side s0 s ->
  match m s with
  | (s', Ok b) => evolves_by M s s' /\ (b = true -> side s0 s')
  | (s', Err _) => evolves_by M s s'
  end.
Lemma aside_bind {A} M s0 (m : tx A) (f : A -> tx bool) :
  ensures side m -> (forall a, aside_if_true M s0 (f a)) -> aside_if_true M s0 (mbind f m).
Proof.
  intros Hm Hf s Hs. rewrite bind_tx. pose proof (side_ensures M m Hm s) as Hev. specialize (Hm s).
  destruct (m s) as [s1 [a|e]]; cbn [fst] in *; [|done]. specialize (Hf a s1 ltac:(by etrans)).
  destruct (f a s1) as [s2 [b|e]]; [|by etrans]. destruct Hf as [H1 H2]. split; [by etrans|done].
Qed.
Lemma cancel_running_aside M h t clock owner run node r epoch now s0 : nodes_sound s0 ->
  node_at (request_key r) s0 (r, ACTOR_AGENT, "running") ->
  M (r, ACTOR_AGENT, "running") (r, ACTOR_AGENT, "awaiting_human") ->
  aside_if_true M s0 (cancel_running h t clock owner run node r epoch now).
Proof.
  intros Hs0 Hn Hmove. unfold cancel_running.
  do 6 (apply aside_bind; [first [solve [ens] | unfold require_cancellation_epoch; ens]|]; intros ?).
  destruct (negb _).
  - intros s Hs. rewrite bind_tx.
    match goal with |- context [set_status ?x1 ?x2 ?x3 ?x4 ?x5 ?x6 ?x7 ?x8 s] =>
      assert (Hset : from M s0 (set_status x1 x2 x3 x4 x5 x6 x7 x8)) by (apply from_set_status with (a := ACTOR_AGENT)
        (st := "running"); [done|done|done|literal|done|extras]);
      specialize (Hset s Hs); destruct (set_status x1 x2 x3 x4 x5 x6 x7 x8 s) as [s1 [u|er]] end; [|done].
    by split.
  - apply aside_bind; [ens|]. intros ? s Hs. split; [reflexivity|done].
Qed.
(** A cancellation under any moves that include those of the status it finds. *)
Lemma cancel_node_under M h t clock owner run node epoch now s :
  (forall r a st n', node_at (node_key run node) s (r, a, st) -> cancelled run node (r, a, st) n' -> M (r, a, st) n') ->
  evolves_by M s (cancel_node h t clock owner run node epoch now s).1.
Proof.
  intros HM. unfold cancel_node. apply after_request. intros r a st m Hs Hn Hrow Hr Hk Hm. rewrite asks_tx, Hm.
  assert (Hmove : forall n', cancelled run node (r, a, st) n' -> M (r, a, st) n').
  { intros n'. apply HM. unfold node_key. by rewrite <- Hk. }
  rewrite !(field_is_row _ _ _ _ _ Hrow). cbn zeta.
  destruct (String.eqb_spec st "running") as [->|_].
  { assert (a = ACTOR_AGENT) as -> by (destruct Hn as (? & ? & ? & _ & _ & _ & _ & _ & Ha); by apply Ha).
    rewrite bind_tx. pose proof (cancel_running_aside M h t clock owner run node r epoch now s Hs Hn
      ltac:(apply Hmove, cancelled_running; [done|literal]) s ltac:(reflexivity)) as Hc.
    destruct (cancel_running _ _ _ _ _ _ _ _ _ s) as [s1 [[]|e]]; [|by destruct Hc..|done].
    destruct Hc as [Hev Hside]. etrans; [exact Hev|]. specialize (Hside eq_refl).
    apply (from_set_status M s) with (a := ACTOR_AGENT) (st := "running"); try done;
      [apply Hmove, cancelled_running; [done|literal]|literal|by constructor]. }
  destruct (String.eqb_spec st "awaiting_human") as [->|_].
  { rewrite lift_tx, (actor_decodes _ _ _ (nr_request _ _ _ _ Hrow)). rewrite lift_tx.
    destruct (raise_if _ _ ≫= _) as [u|] eqn:Hg; [|reflexivity].
    apply unit_guard_Ok in Hg. apply negb_false_iff, bool_decide_eq_true in Hg. subst a.
    apply (from_here M _ s). apply from_bind; [ens|]. intros ?.
    apply from_bind; [unfold require_cancellation_epoch; ens|]. intros ?. apply from_bind; [ens|]. intros ?.
    apply from_bind; [ens|]. intros ?.
    apply from_set_status with (a := ACTOR_AGENT) (st := "awaiting_human"); try done;
      [by apply Hmove, cancelled_parked|literal|by constructor]. }
  destruct (String.eqb_spec st "queued") as [->|_]; [|reflexivity].
  apply (from_here M _ s), from_set_status with (a := a) (st := "queued"); try done;
    [by apply Hmove, cancelled_queued|literal|by constructor].
Qed.
Lemma cancel_node_evolves h t clock owner run node epoch now s :
  evolves (EcCancelNode run node epoch) s (cancel_node h t clock owner run node epoch now s).1.
Proof. apply cancel_node_under. intros r a st n' _. apply by_cancel. Qed.
Lemma fail_gone_from M h t clock owner run node r lease i lv now hw s0 : nodes_sound s0 ->
  node_at (request_key r) s0 (r, ACTOR_AGENT, "running") ->
  (forall st', st' ∈ ["failed"; "awaiting_human"] -> M (r, ACTOR_AGENT, "running") (r, ACTOR_AGENT, st')) ->
  from M s0 (fail_gone_worker h t clock owner run node r lease i lv now hw).
Proof.
  intros Hs0 Hn HM. unfold fail_gone_worker. cbn zeta.
  do 5 (apply from_bind; [ens|]; intros ?). destruct (negb _).
  - apply from_set_status with (a := ACTOR_AGENT) (st := "running"); try done; [apply HM; literal|literal|extras].
  - apply from_bind; [ens|]. intros ?.
    apply from_set_status with (a := ACTOR_AGENT) (st := "running"); try done; [apply HM; literal|literal|extras].
Qed.
Lemma fail_exited_evolves h t clock owner run node now hw s :
  evolves (EcFailExitedWorker run node hw) s (fail_exited_worker h t clock owner run node now hw s).1.
Proof.
  unfold fail_exited_worker. apply after_request. intros r a st m Hs Hn Hrow Hr Hk Hm.
  rewrite asks_tx, Hm, lift_tx. destruct (require_agent_node m) as [u|] eqn:Ha; [|reflexivity].
  apply (require_agent _ _ _ _ _ Hrow) in Ha. subst a. rewrite lift_tx.
  destruct (raise_if _ _ ≫= _) as [u'|] eqn:Hg; [|reflexivity]. status_guard Hrow. subst st.
  rewrite asks_tx. destruct (active_lease _ _ _ s) as [lease|]; [|reflexivity]. unfold gets. rewrite bind_tx.
  rewrite lift_tx. destruct (from_option_err _ _ ≫= record_state) as [w|]; [|reflexivity]. rewrite lift_tx.
  destruct (assess_worker h w) as [[lv i]|]; [|reflexivity]. destruct (_ && _).
  - rewrite bind_tx. assert (Hac : ensures side (acquire_or_renew clock owner now hw)) by ens.
    pose proof (side_ensures (call_move (EcFailExitedWorker run node hw)) _ Hac s) as Hev. specialize (Hac s).
    destruct (acquire_or_renew clock owner now hw s) as [s1 [ep|e]]; [|done]. etrans; [exact Hev|]. cbn [fst] in *.
    apply cancel_node_under. intros r' a' st' n' Hn' Hc. unfold node_key in Hn'. rewrite <- Hk in Hn'.
    pose proof (node_at_side _ _ _ _ Hs Hac Hn) as Hn1.
    pose proof (node_at_unique _ _ _ _ Hn' Hn1) as [= -> -> ->]. inversion Hc; subst. apply by_failure; [done|set_solver].
  - destruct i as [i|]; [|reflexivity]. destruct (negb _); [reflexivity|]. apply (from_here _ _ s), fail_gone_from; [done..|].
    intros st' Hst'. apply by_failure; [done|set_solver].
Qed.
Lemma enter_wait_evolves h clock owner f reason now s :
  evolves (EcEnterHumanWait f reason) s (enter_human_wait h clock owner f reason now s).1.
Proof.
  unfold enter_human_wait. rewrite lift_tx. destruct (raise_if _ _ ≫= _) as [u|]; [|reflexivity].
  apply after_request. intros r a st m Hs Hn Hrow Hr Hk Hm. apply (from_here (call_move (EcEnterHumanWait f reason)) _ s).
  do 6 (apply from_bind; [ens|]; intros ?).
  apply from_set_status with (a := a) (st := st); try done; [by apply by_park|literal|extras].
Qed.
End Evolutions.
