(* ===== verification/TickProofs.v ===== *)
(** * The scheduling tick

    What a tick launches: queued agent nodes whose dependencies have passed, of runs that
    are neither held nor outside the advance, within the two concurrency limits; and the
    nodes' histories with ticks among the calls. *)
From S2P Require Import Prelude PyText Json Identity IdentityProofs JsonCanon Scheduler.
From S2P Require Import SchedulerProofs Redaction Ledger LedgerProofs.
From S2P Require Import LedgerTheorems Coordinator CoordinatorProofs NodeLeases Runtime.
From S2P Require Import LedgerCalls Workflows OperatorControl Workers Workspaces.
From S2P Require Import RuntimeNodes WorkerProofs EngineHistory.
From S2P Require Import NodeRecords RuntimeNodeProofs.

(** ** The requests a tick plans over *)
Definition key_of (r : FixtureDispatch) : NodeKey := {| nk_run_id := fd_run_id r; nk_node_id := fd_node_id r |}.
Lemma request_key_of r r' : key_of r = key_of r' -> request_key r = request_key r'.
Proof. unfold key_of, request_key. by intros [= -> ->]. Qed.
Lemma set_request_fresh key r requests : key ∉ requests.*1 -> set_request key r requests = requests ++ [(key, r)].
Proof.
  induction requests as [|[k r'] l IH]; [done|]. rewrite fmap_cons. intros [Hk Hl]%not_elem_of_cons. cbn in *.
  rewrite decide_False by done. by rewrite IH.
Qed.
Lemma get_request_elem key r requests : NoDup requests.*1 -> (key, r) ∈ requests -> get_request key requests = Ok r.
Proof.
  induction requests as [|[k r'] l IH]; [by intros _ ?%not_elem_of_nil|]. rewrite fmap_cons.
  intros [Hk Hl]%NoDup_cons Hin. cbn. apply elem_of_cons in Hin as [[= -> ->]|Hin]; [by rewrite decide_True|].
  rewrite decide_False; [by apply IH|]. intros ->. apply Hk. apply list_elem_of_fmap. by exists (key, r).
Qed.
Lemma get_request_Ok key r requests : get_request key requests = Ok r -> (key, r) ∈ requests.
Proof.
  induction requests as [|[k r'] l IH]; [done|]. cbn. destruct (decide (k = key)) as [->|].
  - intros [= ->]. left.
  - intros H. right. by apply IH.
Qed.

(** The requests indexed by their nodes' keys are the durable nodes'. *)
Record indexed (s : Ledger) (requests : list (NodeKey * FixtureDispatch)) : Prop := {
  ix_keys : NoDup requests.*1;
  ix_node : forall key r, (key, r) ∈ requests -> key = key_of r /\ exists a st, node_at (request_key r) s (r, a, st);
  ix_all : forall k r a st, node_at k s (r, a, st) -> (key_of r, r) ∈ requests;
}.
Lemma requests_fold s l acc res : nodes_sound s -> NoDup l.*1 ->
  Forall (fun ip => read_projection RUNTIME_NODE_AGGREGATE_TYPE ip.1 s = Some ip.2) l ->
  (forall key r, (key, r) ∈ acc -> key = key_of r /\ request_key r ∉ l.*1) ->
  foldM_result (fun requests '(_, p) =>
    r ← request_from_state (pj_state p);
    key ← node_key_post_init {| nk_run_id := fd_run_id r; nk_node_id := fd_node_id r |};
    Ok (set_request key r requests)) l acc = Ok res ->
  exists new, res = acc ++ new /\
    Forall2 (fun ip kr => kr.1 = key_of kr.2 /\ exists a st, node_at ip.1 s (kr.2, a, st)) l new.
Proof.
  intros Hs Hd Hl. revert acc Hd. induction Hl as [|[id p] l Hp Hl IH]; intros acc Hd Hacc H; cbn in H.
  { injection H as <-. exists []. split; [by rewrite app_nil_r|constructor]. }
  cbn in Hp. destruct (projection_node _ _ _ Hs Hp) as ([[r a] st] & m & Hn & Hm & Hrow). cbn in Hrow.
  pose proof Hn as (? & ? & ? & _ & _ & Hk & Hr & _). rewrite Hm in H.
  rewrite (proj1 (node_row_reads _ _ _ _ Hrow Hr)) in H. cbn [mbind result_bind] in H.
  apply bind_Ok in H as (acc' & Hacc' & H). apply bind_Ok in Hacc' as (key & Hkey & [= <-]).
  unfold node_key_post_init in Hkey.
  apply raise_if_Ok in Hkey as [_ [= <-]]. fold (key_of r) in H. cbn in Hd. apply NoDup_cons in Hd as [Hid Hd].
  assert (Hfresh : key_of r ∉ acc.*1).
  { intros Hin. apply list_elem_of_fmap in Hin as ([key r'] & He & Hin). cbn in He. subst key.
    destruct (Hacc _ _ Hin) as [He Hnot]. apply request_key_of in He. rewrite <- He, Hk in Hnot.
    apply Hnot. left. }
  rewrite set_request_fresh in H by done.
  destruct (IH (acc ++ [(key_of r, r)]) Hd) as (new & -> & Hnew); [|exact H|].
  - intros key r' [Hin|Hin%list_elem_of_singleton]%elem_of_app.
    + destruct (Hacc _ _ Hin) as [He Hnot]. split; [done|]. intros Hin'. apply Hnot. by right.
    + injection Hin as -> ->. split; [done|]. by rewrite Hk.
  - exists ((key_of r, r) :: new). split; [by rewrite <- app_assoc|]. constructor; [|done].
    split; [done|]. by exists a, st.
Qed.
Lemma requests_indexed s requests : nodes_sound s -> requests_from_ledger s = Ok requests -> indexed s requests.
Proof.
  intros Hs H. unfold requests_from_ledger, list_projections in H.
  apply (requests_fold s) in H as (new & -> & Hnew); [|done|apply list_by_first_nodup| |by intros ? ? ?%not_elem_of_nil].
  2: { apply Forall_forall. intros [id p] Hin. by apply elem_of_list_by_first in Hin. }
  cbn [app]. pose proof (list_by_first_nodup RUNTIME_NODE_AGGREGATE_TYPE (lg_projections s)) as Hd.
  split.
  - revert Hd. set (l := list_by_first _ _) in *. clearbody l. intros Hd.
    induction Hnew as [|[id p] [key r] l new (He & a & st & Hn) Hnew IH]; [constructor|]. cbn in *.
    apply NoDup_cons in Hd as [Hid Hd]. apply NoDup_cons. split; [|by apply IH].
    intros Hin. apply list_elem_of_fmap in Hin as ([key' r'] & Hkey & Hin). cbn in Hkey. subst key'.
    apply list_elem_of_lookup in Hin as (i & Hi).
    destruct (Forall2_lookup_r _ _ _ _ _ Hnew Hi) as ([id' p'] & Hi' & He' & a' & st' & Hn'). cbn in *.
    apply Hid. subst key. apply request_key_of in He'.
    destruct Hn as (? & ? & ? & _ & _ & Hk & _). destruct Hn' as (? & ? & ? & _ & _ & Hk' & _).
    assert (id = id') as -> by congruence. apply list_elem_of_fmap. exists (id', p').
    split; [done|]. by eapply list_elem_of_lookup_2.
  - intros key r Hin. apply list_elem_of_lookup in Hin as (i & Hi).
    destruct (Forall2_lookup_r _ _ _ _ _ Hnew Hi) as ([id p] & _ & He & a & st & Hn).
    cbn [fst snd] in *. split; [done|].
    exists a, st. pose proof Hn as (? & ? & ? & _ & _ & Hk & _). rewrite Hk. exact Hn.
  - intros k r a st Hn. pose proof Hn as (? & ? & ? & Hv & _). unfold view_of in Hv.
    destruct (lg_projections s !! node_ref k) as [p|] eqn:Hp; [|done].
    assert (Hin : (k, p) ∈ list_by_first RUNTIME_NODE_AGGREGATE_TYPE (lg_projections s)) by by apply elem_of_list_by_first.
    apply list_elem_of_lookup in Hin as (i & Hi).
    destruct (Forall2_lookup_l _ _ _ _ _ Hnew Hi) as ([key r'] & Hi' & He & a' & st' & Hn'). cbn in *.
    pose proof (node_at_unique _ _ _ _ Hn Hn') as [= <- <- <-]. subst key. by eapply list_elem_of_lookup_2.
Qed.

(** ** The nodes of the plan *)
#[local] Arguments schedulable_state : simpl never.
Section Plan.
Context `{iso : IsoCodec}.
(** How the scheduler sees a node. *)
Record planned (held : list string) (r : FixtureDispatch) (a : ActorType) (st : string) (n : SchedulableNode)
    : Prop := {
  pl_key : sn_key n = key_of r;
  pl_deps : sn_dependencies n =
    map (fun d => {| nk_run_id := d.1; nk_node_id := d.2 |}) (fd_dependencies r);
  pl_state : schedulable_state (if negb (bool_decide (a = ACTOR_AGENT)) && String.eqb st "queued"
                                then "blocked" else st) = Some (sn_state n);
  pl_repo : sn_repository_id n = Some (fd_repository_id r);
  pl_held : sn_requirements_satisfied n = true -> fd_run_id r ∉ held;
}.
Lemma schedulable_planned held r a st m n0 : node_row m r a st -> schedulable r m = Ok n0 ->
  planned held.*1 r a st (hold_node held n0).
Proof.
  intros [_ Hr Hs] H. unfold schedulable in H. unfold text_field in H. rewrite Hs in H. cbn [from_option_err mbind result_bind] in H.
  rewrite (actor_decodes _ _ _ Hr) in H. cbn [mbind result_bind] in H.
  apply bind_Ok in H as (ss & Hss & H). apply bind_Ok in H as (key & Hkey & H).
  apply bind_Ok in H as (deps & Hdeps & H). apply bind_Ok in H as (since & _ & H).
  unfold node_key_post_init in Hkey. apply raise_if_Ok in Hkey as [_ [= <-]].
  unfold schedulable_node_post_init in H. rewrite !raise_if_Ok in H. destruct H as (_ & _ & [= <-]).
  assert (Hd : deps = map (fun d => {| nk_run_id := d.1; nk_node_id := d.2 |}) (fd_dependencies r)).
  { apply mapM_result_Ok in Hdeps. induction Hdeps as [|[x y] k l l' Hk _ IH]; [done|]. cbn [map]. rewrite <- IH. f_equal.
    unfold node_key_post_init in Hk. apply raise_if_Ok in Hk as [_ Hk]. by injection Hk as <-. }
  assert (Hst : schedulable_state (if negb (bool_decide (a = ACTOR_AGENT)) && String.eqb st "queued"
                                   then "blocked" else st) = Some ss).
  { destruct (schedulable_state _); [by injection Hss as ->|done]. }
  unfold hold_node. cbn [sn_key nk_run_id]. destruct (bool_decide (fd_run_id r ∈ held.*1)) eqn:Hheld; split; cbn; try done.
  - intros _. by apply bool_decide_eq_false in Hheld.
Qed.
Lemma planned_spec s requests held nodes : nodes_sound s -> indexed s requests ->
  planned_nodes requests held s = Ok nodes ->
  Forall2 (fun kr n => exists a st, node_at (request_key kr.2) s (kr.2, a, st) /\ planned held.*1 kr.2 a st n)
    requests nodes.
Proof.
  intros Hs Hix H. unfold planned_nodes in H. apply mapM_result_Ok in H.
  assert (Hin : Forall (fun kr => exists a st, node_at (request_key kr.2) s (kr.2, a, st)) requests).
  { apply Forall_forall. intros [key r] Hin. by destruct (ix_node _ _ Hix _ _ Hin). }
  clear Hix. induction H as [|[key r] n l k Hn _ IH]; [constructor|].
  apply Forall_cons in Hin as [(a & st & Hat) Hin]. constructor; [|by apply IH]. cbn in *.
  exists a, st. split; [done|]. apply bind_Ok in Hn as (m & Hm & Hn). apply bind_Ok in Hn as (n0 & Hn0 & [= <-]).
  unfold runtime_state in Hm. destruct (read_projection _ _ s) as [p|] eqn:Hp.
  - destruct (read_node _ _ _ Hp _ Hat) as (m' & Hm' & Hrow & _). unfold state_dict in Hm. rewrite Hm' in Hm.
    injection Hm as ->. by eapply schedulable_planned.
  - apply node_at_some in Hat. unfold view_of in Hat. unfold read_projection in Hp. by rewrite Hp in Hat.
Qed.
Lemma schedulable_state_queued st : schedulable_state st = Some SS_QUEUED -> st = "queued".
Proof.
  unfold schedulable_state. cbn [dict_get].
  repeat (match goal with |- context [String.eqb st ?x] => destruct (String.eqb_spec st x); [by subst|] end). done.
Qed.
Lemma schedulable_state_succeeded st : schedulable_state st = Some SS_SUCCEEDED -> st = "passed".
Proof.
  unfold schedulable_state. cbn [dict_get].
  repeat (match goal with |- context [String.eqb st ?x] => destruct (String.eqb_spec st x); [by subst|] end). done.
Qed.
Lemma planned_queued held r a st n : planned held r a st n -> sn_state n = SS_QUEUED ->
  a = ACTOR_AGENT /\ st = "queued".
Proof.
  intros [_ _ Hst _ _] Hq. rewrite Hq in Hst. apply schedulable_state_queued in Hst.
  destruct (bool_decide (a = ACTOR_AGENT)) eqn:Ha; cbn in Hst; [by apply bool_decide_eq_true in Ha|].
  by destruct (String.eqb_spec st "queued").
Qed.
Lemma planned_succeeded held r a st n : planned held r a st n -> sn_state n = SS_SUCCEEDED -> st = "passed".
Proof.
  intros [_ _ Hst _ _] Hq. rewrite Hq in Hst. apply schedulable_state_succeeded in Hst. by destruct (_ && _).
Qed.
Lemma planned_active held r a st n : planned held r a st n -> node_active n = bool_decide (st = "running").
Proof.
  intros [_ _ Hst _ _]. unfold node_active. destruct (String.eqb_spec st "queued") as [->|Hq].
  - rewrite andb_true_r in Hst. destruct (bool_decide _); cbn in Hst; injection Hst as <-; done.
  - rewrite andb_false_r in Hst. revert Hst. unfold schedulable_state. cbn [dict_get].
    repeat (match goal with |- context [String.eqb st ?x] => destruct (String.eqb_spec st x) as [->|] end);
      intros [= <-]; try done. 
Qed.
End Plan.

(** ** What the plan selects *)
(** A node a tick may launch. *)
Record launchable (s : Ledger) (held : list string) (r : FixtureDispatch) : Prop := {
  lb_node : node_at (request_key r) s (r, ACTOR_AGENT, "queued");
  lb_held : fd_run_id r ∉ held;
  lb_deps : forall d, d ∈ fd_dependencies r -> exists rd ad, node_at (d.1 +:+ ":" +:+ d.2) s (rd, ad, "passed");
}.
Section Selected.
Context `{iso : IsoCodec} (s : Ledger) (requests : list (NodeKey * FixtureDispatch)) (held : list (string * string)).
Context (nodes : list SchedulableNode) (limits : SchedulingLimits) (plan : SchedulingPlan).
Hypothesis Hs : nodes_sound s.
Hypothesis Hix : indexed s requests.
Hypothesis Hnodes : planned_nodes requests held s = Ok nodes.
Hypothesis Hplan : scheduler_plan nodes limits = Ok plan.

Lemma node_of_plan n : n ∈ nodes -> exists r a st, (key_of r, r) ∈ requests /\ sn_key n = key_of r /\
  node_at (request_key r) s (r, a, st) /\ planned held.*1 r a st n.
Proof.
  intros Hn. apply list_elem_of_lookup in Hn as (i & Hi).
  destruct (Forall2_lookup_r _ _ _ _ _ (planned_spec _ _ _ _ Hs Hix Hnodes) Hi) as ([key r] & Hr & a & st & Hat & Hp).
  apply list_elem_of_lookup_2 in Hr. destruct (ix_node _ _ Hix _ _ Hr) as [-> _].
  exists r, a, st. split_and!; [done|by apply (pl_key _ _ _ _ _ Hp)|done|done].
Qed.
Lemma selected_launchable key : key ∈ sp_selected plan ->
  exists r, key = key_of r /\ get_request key requests = Ok r /\ launchable s held.*1 r.
Proof.
  intros Hk. destruct (selected_node _ _ _ _ Hplan Hk) as (n & Hn & Hnk & Hq & Hreq & Hdeps).
  destruct (node_of_plan n Hn) as (r & a & st & Hr & Hkey & Hat & Hp). exists r. rewrite Hnk in Hkey.
  destruct (planned_queued _ _ _ _ _ Hp Hq) as [-> ->]. split_and!; [done| |].
  - rewrite Hkey. by apply get_request_elem; [apply (ix_keys _ _ Hix)|].
  - split; [done|by apply (pl_held _ _ _ _ _ Hp)|]. intros d Hd.
    destruct (plan_inv _ _ _ Hplan) as (Hkeys & _).
    specialize (Hdeps {| nk_run_id := d.1; nk_node_id := d.2 |}). rewrite (pl_deps _ _ _ _ _ Hp) in Hdeps.
    rewrite (state_of_Some _ _ _ Hkeys) in Hdeps.
    destruct Hdeps as (nd & Hnd & Hkd & Hsd); [apply list_elem_of_fmap; by exists d|].
    destruct (node_of_plan nd Hnd) as (rd & ad & std & _ & Hkd' & Hatd & Hpd).
    exists rd, ad. rewrite Hkd in Hkd'. injection Hkd' as H1 H2.
    rewrite (planned_succeeded _ _ _ _ _ Hpd Hsd) in Hatd. unfold request_key in Hatd. by rewrite <- H1, <- H2 in Hatd.
Qed.

(** ** Counting running nodes *)
Definition node_id_of (n : SchedulableNode) : string := nk_run_id (sn_key n) +:+ ":" +:+ nk_node_id (sn_key n).
Lemma node_id_inj n n' : n ∈ nodes -> n' ∈ nodes -> node_id_of n = node_id_of n' -> n = n'.
Proof.
  intros Hn Hn' He. destruct (node_of_plan n Hn) as (r & a & st & _ & Hk & Hat & _).
  destruct (node_of_plan n' Hn') as (r' & a' & st' & _ & Hk' & Hat' & _).
  destruct (plan_inv _ _ _ Hplan) as (Hkeys & _). apply (key_inj nodes); [done..|].
  unfold node_id_of in He. rewrite Hk, Hk' in He.
  change (request_key r = request_key r') in He. rewrite He in Hat.
  pose proof (node_at_unique _ _ _ _ Hat Hat') as [= -> _ _]. congruence.
Qed.
End Selected.

#[local] Arguments request_from_state : simpl never.
(** The nodes with status running whose request satisfies [P]. *)
Definition running_id (P : FixtureDispatch -> bool) (ip : string * ProjectionRow) : option string :=
  match pj_state ip.2 with
  | JObj m => match request_from_state (JObj m) with
              | Ok r => if field_is "status" "running" m && P r then Some ip.1 else None
              | Err _ => None end
  | _ => None end.
Definition running_where (P : FixtureDispatch -> bool) (s : Ledger) : list string :=
  omap (running_id P) (list_projections RUNTIME_NODE_AGGREGATE_TYPE s).
Lemma running_elem P s k : nodes_sound s ->
  k ∈ running_where P s <-> exists r a, node_at k s (r, a, "running") /\ P r = true.
Proof.
  intros Hs. unfold running_where. rewrite list_elem_of_omap. split.
  - intros ([id p] & Hin & Hp). apply elem_of_list_by_first in Hin. unfold running_id in Hp. cbn [snd fst] in Hp.
    destruct (projection_node id s p Hs Hin) as ([[r a] st] & m & Hn & Hm & Hrow). cbn in Hrow.
    pose proof Hn as (? & ? & ? & _ & _ & _ & Hr & _). rewrite Hm in Hp.
    destruct (node_row_reads _ _ _ _ Hrow Hr) as (Hdec & _ & Hst). rewrite Hdec, Hst in Hp.
    destruct (String.eqb_spec st "running") as [He|]; [rewrite He in Hn|done]. cbn [andb] in Hp. destruct (P r) eqn:HP; [|done].
    injection Hp as <-. by exists r, a.
  - intros (r & a & Hn & HP). pose proof Hn as (v & ety & m & Hv & Hrow & _ & Hr & _). unfold view_of in Hv.
    destruct (lg_projections s !! node_ref k) as [p|] eqn:Hp; [|done]. exists (k, p).
    split; [by apply elem_of_list_by_first|]. unfold running_id. cbn [fst snd fmap option_fmap option_map] in Hv |- *.
    unfold projection_view in Hv.
    injection Hv as _ _ _ ->. destruct (node_row_reads _ _ _ _ Hrow Hr) as (Hdec & _ & Hst).
    rewrite Hdec, Hst. cbn. by rewrite HP.
Qed.
Lemma running_nodup P s : NoDup (running_where P s).
Proof.
  unfold running_where, list_projections.
  pose proof (list_by_first_nodup RUNTIME_NODE_AGGREGATE_TYPE (lg_projections s)) as Hd.
  assert (Hsome : forall ip x, running_id P ip = Some x -> x = ip.1).
  { intros ip x. unfold running_id. repeat case_match; try done. by intros [= <-]. }
  induction (list_by_first _ _) as [|[k p] l IH]; [constructor|]. cbn in Hd |- *. apply NoDup_cons in Hd as [Hk Hd].
  destruct (running_id P (k, p)) as [x|] eqn:Hx; [|by apply IH]. apply Hsome in Hx. cbn in Hx. subst x.
  apply NoDup_cons. split; [|by apply IH]. intros (ip & Hin & ->%Hsome)%list_elem_of_omap.
  apply Hk. apply list_elem_of_fmap. by exists ip.
Qed.
Lemma length_incl {A} (l k : list A) : NoDup l -> (forall x, x ∈ l -> x ∈ k) -> length l <= length k.
Proof. intros Hd Hi. by apply submseteq_length, NoDup_submseteq. Qed.

(** ** The launch loop *)
Section Tick.
Context `{rt : PyRuntime} `{iso : IsoCodec}.

Lemma dispatch_allowed h t environ clock owner r epoch now lw s s' f :
  dispatch h t environ clock owner r epoch now lw s = (s', Ok f) -> require_dispatch_allowed s = Ok ().
Proof. unfold dispatch. rewrite asks_tx. by destruct (require_dispatch_allowed s) as [[]|]. Qed.
Lemma dispatch_side h t environ clock owner r epoch now lw :
  ensures side (dispatch h t environ clock owner r epoch now lw).
Proof. unfold dispatch. ens. Qed.
(** Every node outside [ks] is as it was. *)
Definition others_same (ks : list string) (s s' : Ledger) : Prop :=
  forall k, k ∉ ks -> view_of (node_ref k) s' = view_of (node_ref k) s.
Lemma others_same_at ks s s' k n : others_same ks s s' -> k ∉ ks -> node_at k s n <-> node_at k s' n.
Proof. intros Ho Hk. split; apply node_at_view; [|symmetry]; by apply Ho. Qed.
Lemma side_same s s' : nodes_sound s -> side s s' -> others_same [] s s'.
Proof. intros [Hs _] Hside k _. eapply touch_view; [exact Hside|done|literal]. Qed.
Lemma others_same_trans ks s1 s2 s3 : others_same ks s1 s2 -> others_same ks s2 s3 -> others_same ks s1 s3.
Proof. intros H1 H2 k Hk. by rewrite H2, H1. Qed.
Lemma others_same_mono ks ks' s s' : (forall k, k ∈ ks -> k ∈ ks') -> others_same ks s s' -> others_same ks' s s'.
Proof. intros Hk Ho k Hn. apply Ho. eauto. Qed.
(** Moves that are among others. *)
Lemma evolves_mono (M M' : Node -> Node -> Prop) s s' : (forall n n', M n n' -> M' n n') -> evolves_by M s s' -> evolves_by M' s s'.
Proof.
  intros HM Hev Hs. destruct (Hev Hs) as (H1 & H2 & H3).
  assert (Hr : forall n n', rtc M n n' -> rtc M' n n') by (intros n n'; by apply rtc_subrel).
  split_and!; [done| |].
  - intros k n (n' & Hn' & Hm)%H2. exists n'. eauto.
  - intros k n' Hv Hn'. destruct (H3 k n' Hv Hn') as (r & a & Hm). exists r, a. eauto.
Qed.
Lemma idle_evolves s s' : evolves_by idle_move s s' -> evolves_by tick_move s s'.
Proof. apply evolves_mono, move_idle. Qed.

Lemma launch_spec h t environ clock owner requests epoch now lw key r s : nodes_sound s ->
  get_request key requests = Ok r -> node_at (request_key r) s (r, ACTOR_AGENT, "queued") ->
  match launch_node h t environ clock owner requests epoch now lw key s with
  | (s', Ok _) => evolves_by tick_move s s' /\ node_at (request_key r) s' (r, ACTOR_AGENT, "running") /\
      others_same [request_key r] s s' /\ require_dispatch_allowed s = Ok ()
  | (s', Err _) => evolves_by tick_move s s' /\ others_same [] s s'
  end.
Proof.
  intros Hs Hr Hn. unfold launch_node. rewrite lift_tx, Hr, bind_tx.
  pose proof (dispatch_side h t environ clock owner r epoch now lw) as Hside.
  pose proof (side_ensures tick_move _ Hside s) as Hev. specialize (Hside s).
  pose proof (dispatch_allowed h t environ clock owner r epoch now lw s) as Hallowed.
  destruct (dispatch _ _ _ _ _ _ _ _ _ s) as [s1 [fixture|e]]; cbn [fst] in *; [|by split; [|apply side_same]].
  assert (Hs1 : nodes_sound s1) by by apply Hev. pose proof (node_at_side _ _ _ _ Hs Hside Hn) as Hn1.
  rewrite asks_tx. destruct (runtime_state r s1) as [m|] eqn:Hm; [|by split; [|apply side_same]].
  rewrite bind_tx. match goal with |- context [set_status ?x1 ?x2 ?x3 ?x4 ?x5 ?x6 ?x7 ?x8 s1] =>
    pose proof (set_status_spec tick_move clock owner r ACTOR_AGENT "queued" "running" x5 x6 x7 x8 s1 Hs1 Hn1
      (move_start r) ltac:(literal) ltac:(done)) as Hset;
    destruct (set_status x1 x2 x3 x4 x5 x6 x7 x8 s1) as [s2 [u|er]] end.
  all: specialize (Hset ltac:(unfold dispatched_wakeup; repeat case_match; extras)).
  - destruct Hset as (Hev2 & Hn2 & Hf). split_and!; [by etrans|done| |by eapply Hallowed].
    intros k Hk. rewrite <- (side_same _ _ Hs Hside k) by apply not_elem_of_nil.
    apply (fr_view _ _ _ Hf (proj1 Hs1)). intros [= ->]. apply Hk. left.
  - subst s2. split; [done|by apply side_same].
Qed.
Lemma launch_loop h t environ clock owner requests epoch now lw keys rs s : nodes_sound s ->
  Forall2 (fun key r => get_request key requests = Ok r) keys rs -> NoDup (map request_key rs) ->
  Forall (fun r => node_at (request_key r) s (r, ACTOR_AGENT, "queued")) rs ->
  match mapM_tx (launch_node h t environ clock owner requests epoch now lw) keys s with
  | (s', res) => evolves_by tick_move s s' /\ others_same (map request_key rs) s s' /\
      Forall (fun r => exists st, node_at (request_key r) s' (r, ACTOR_AGENT, st)) rs /\
      (forall r, r ∈ rs -> node_at (request_key r) s' (r, ACTOR_AGENT, "running") ->
         require_dispatch_allowed s = Ok ())
  end.
Proof.
  intros Hs Hk. revert s Hs. induction Hk as [|key r keys rs Hr Hk IH]; intros s Hs Hd Hn; cbn [mapM_tx].
  { split_and!; [reflexivity|done|constructor|by intros ? ?%not_elem_of_nil]. }
  cbn [map] in Hd. apply NoDup_cons in Hd as [Hnot Hd]. apply Forall_cons in Hn as [Hnr Hn].
  assert (Hex : forall s', others_same [request_key r] s s' ->
     Forall (fun r => node_at (request_key r) s' (r, ACTOR_AGENT, "queued")) rs).
  { intros s' Ho. apply Forall_forall. intros r' Hr'. rewrite Forall_forall in Hn.
    apply (others_same_at _ _ _ _ _ Ho); [|by apply Hn].
    intros He%list_elem_of_singleton. apply Hnot. rewrite <- He. by apply list_elem_of_fmap_2. }
  rewrite bind_tx. pose proof (launch_spec h t environ clock owner requests epoch now lw key r s Hs Hr Hnr) as Hl.
  destruct (launch_node _ _ _ _ _ _ _ _ _ _ s) as [s1 [f|e]].
  - destruct Hl as (Hev & Hrun & Ho & Hall). rewrite bind_tx. assert (Hs1 : nodes_sound s1) by by apply Hev.
    specialize (IH s1 Hs1 Hd (Hex s1 Ho)).
    destruct (mapM_tx _ keys s1) as [s2 [fs|e]]; destruct IH as (Hev2 & Ho2 & Hst & _); cbn [mret tx_ret].
    all: split_and!; [by etrans|eapply others_same_trans; (eapply others_same_mono; [|eassumption]); cbn; set_solver| |done].
    all: constructor; [exists "running"; by apply (others_same_at _ _ _ _ _ Ho2)|done].
  - destruct Hl as [Hev Ho].
    assert (Ho' : forall ks, others_same ks s s1).
    { intros ks. eapply others_same_mono; [|exact Ho]. by intros k ?%not_elem_of_nil. }
    assert (Hq : Forall (fun r => node_at (request_key r) s1 (r, ACTOR_AGENT, "queued")) (r :: rs)).
    { constructor; [|by apply Hex]. apply (others_same_at _ _ _ _ _ Ho); [apply not_elem_of_nil|done]. }
    split_and!; [done|done| |].
    + eapply Forall_impl; [exact Hq|]. intros r' Hr'. by exists "queued".
    + intros r' Hr' Hrun. rewrite Forall_forall in Hq. by pose proof (node_at_unique _ _ _ _ Hrun (Hq _ Hr')).
Qed.

(** ** The deferrals *)
Definition same_nodes (s s' : Ledger) : Prop := nodes_sound s ->
  nodes_sound s' /\ (forall k n, node_at k s n <-> node_at k s' n).
#[export] Instance same_nodes_preorder : PreOrder same_nodes.
Proof.
  split; [by intros s Hs|]. intros s1 s2 s3 H1 H2 Hs. destruct (H1 Hs) as [Hs2 E1]. destruct (H2 Hs2) as [Hs3 E2].
  split; [done|]. intros k n. by rewrite E1, E2.
Qed.
Lemma same_nodes_evolves M s s' : same_nodes s s' -> evolves_by M s s'.
Proof.
  intros Hss Hs. destruct (Hss Hs) as [Hs' He]. split_and!; [done| |].
  - intros k n Hn. exists n. split; [by apply He|done].
  - intros k n Hv Hn. apply He in Hn. by apply node_at_some in Hn.
Qed.
Lemma record_deferral_same clock owner r a st reason reserved detail epoch now s :
  nodes_sound s -> node_at (request_key r) s (r, a, st) ->
  same_nodes s (record_deferral clock owner r reason reserved detail epoch now s).1.
Proof.
  intros Hs Hn. unfold record_deferral. rewrite asks_tx. unfold runtime_state.
  destruct (read_projection _ _ s) as [p|] eqn:Hp.
  2: { unfold set_status, gets. cbn. rewrite bind_tx. by rewrite Hp. }
  destruct (read_node _ _ _ Hp _ Hn) as (m & Hm & Hrow & _). unfold state_dict. rewrite Hm. cbn [fst snd] in Hrow.
  rewrite (field_is_row _ _ _ _ _ Hrow). destruct (String.eqb_spec st "queued") as [He|]; [|reflexivity].
  cbn [negb]. rewrite He in Hn.
  match goal with |- context [set_status ?x1 ?x2 ?x3 ?x4 ?x5 ?x6 ?x7 ?x8 s] =>
    pose proof (set_status_spec idle_move clock owner r a "queued" "queued" x5 x6 x7 x8 s Hs Hn
      (move_defer r a) ltac:(literal) ltac:(done) ltac:(extras)) as Hset;
    destruct (set_status x1 x2 x3 x4 x5 x6 x7 x8 s) as [s2 [u|er]] end; [|by subst s2].
  destruct Hset as (Hev & Hn2 & Hf). intros _. split; [by apply Hev|]. cbn [fst]. intros k n.
  destruct (decide (k = request_key r)) as [->|Hk].
  - split; intros Hx; [by rewrite (node_at_unique _ _ _ _ Hx Hn)|by rewrite (node_at_unique _ _ _ _ Hx Hn2)].
  - apply (others_same_at [request_key r]); [|by intros ?%list_elem_of_singleton].
    intros k' Hk'. apply (fr_view _ _ _ Hf (proj1 Hs)). intros [= ->]. apply Hk'. left.
Qed.
Lemma defer_node_same clock owner requests ids held reserved epoch now d s :
  nodes_sound s -> (forall key r, (key, r) ∈ requests -> exists a st, node_at (request_key r) s (r, a, st)) ->
  same_nodes s (defer_node clock owner requests ids held reserved epoch now d s).1.
Proof.
  intros Hs Hreq. destruct d as [key reason]. unfold defer_node. rewrite lift_tx.
  destruct (get_request key requests) as [r|] eqn:Hr; [|reflexivity].
  apply get_request_Ok in Hr. destruct (Hreq _ _ Hr) as (a & st & Hn).
  destruct (dict_get _ held) as [detail|].
  - unfold record_hold_deferral. rewrite asks_tx. destruct (runtime_state r s); [|reflexivity].
    destruct (match dict_get "wakeup" _ with Some _ => _ | None => _ end); [reflexivity|].
    by eapply record_deferral_same.
  - destruct (match ids with Some _ => _ | None => _ end); [reflexivity|]. rewrite lift_tx.
    destruct (holder_of _ _ _ _); [|reflexivity]. by eapply record_deferral_same.
Qed.
Lemma defer_loop clock owner requests ids held reserved epoch now ds s :
  nodes_sound s -> (forall key r, (key, r) ∈ requests -> exists a st, node_at (request_key r) s (r, a, st)) ->
  same_nodes s (mapM_tx (defer_node clock owner requests ids held reserved epoch now) ds s).1.
Proof.
  revert s. induction ds as [|d ds IH]; intros s Hs Hreq; cbn [mapM_tx]; [reflexivity|]. rewrite bind_tx.
  pose proof (defer_node_same clock owner requests ids held reserved epoch now d s Hs Hreq) as H1.
  destruct (defer_node _ _ _ _ _ _ _ _ d s) as [s1 [u|e]]; [|done]. etrans; [exact H1|]. cbn [fst] in *.
  destruct (H1 Hs) as [Hs1 He]. rewrite bind_tx.
  specialize (IH s1 Hs1). destruct (mapM_tx _ ds s1) as [s2 [us|e]]; apply IH;
    intros key r Hin; destruct (Hreq key r Hin) as (a & st & Hn); exists a, st; by apply He.
Qed.

(** ** From the plan to the launches *)
(** The part of [tick] that follows the registrations. *)
Definition tick_launches (h : Host) (t : TaskRepository) (environ : list (string * string)) (clock owner : string)
    (now : datetime) (lw : timedelta) (limits : SchedulingLimits) (ids : option (list string))
    (held : list (string * string)) (ep : CoordinatorEpoch) (consumed : list CommandConsumption)
    : tx RuntimeTickResult :=
  requests ← asks requests_from_ledger;
  nodes ← asks (planned_nodes requests held);
  plan ← lift (scheduler_plan nodes limits);
  let launch := List.filter (launched ids) (sp_selected plan) in
  let reserved := List.filter (fun key => negb (launched ids key)) (sp_selected plan) in
  dispatched ← mapM_tx (launch_node h t environ clock owner requests (ce_epoch ep) now lw) launch;
  _ ← mapM_tx (defer_node clock owner requests ids held reserved (ce_epoch ep) now) (sp_deferred plan);
  mret {| rr_epoch := ep; rr_consumed_commands := consumed; rr_dispatched := dispatched |}.

(** A node that runs after and did not run before was launched, rightly. *)
Definition launched_rightly (ids : option (list string)) (held : list string) (s s' : Ledger) : Prop :=
  forall k r a, node_at k s' (r, a, "running") -> node_at k s (r, a, "running") \/
    (a = ACTOR_AGENT /\ launchable s held r /\ launched ids (key_of r) = true /\
     require_dispatch_allowed s = Ok () /\
     forall d, d ∈ fd_dependencies r -> exists rd ad, node_at (d.1 +:+ ":" +:+ d.2) s' (rd, ad, "passed")).
(** No more nodes run than the limits allow, unless they ran before. *)
Definition any_request (_ : FixtureDispatch) : bool := true.
Definition of_repository (x : string) (r : FixtureDispatch) : bool := String.eqb (fd_repository_id r) x.
Definition within_limits (limits : SchedulingLimits) (s s' : Ledger) : Prop :=
  (Z.of_nat (length (running_where any_request s')) <=
     Z.max (Z.of_nat (length (running_where any_request s))) (global_concurrency limits))%Z /\
  forall x, (Z.of_nat (length (running_where (of_repository x) s')) <=
     Z.max (Z.of_nat (length (running_where (of_repository x) s))) (per_repository_concurrency limits))%Z.

Section Counted.
Variables (s s' : Ledger) (requests : list (NodeKey * FixtureDispatch)) (held : list (string * string)).
Variables (nodes : list SchedulableNode) (limits : SchedulingLimits) (plan : SchedulingPlan).
Hypothesis Hs : nodes_sound s.
Hypothesis Hs' : nodes_sound s'.
Hypothesis Hix : indexed s requests.
Hypothesis Hnodes : planned_nodes requests held s = Ok nodes.
Hypothesis Hplan : scheduler_plan nodes limits = Ok plan.
Hypothesis Hrun : forall k r a, node_at k s' (r, a, "running") -> node_at k s (r, a, "running") \/
  (node_at k s (r, ACTOR_AGENT, "queued") /\ key_of r ∈ sp_selected plan).

Lemma node_planned k r a st : node_at k s (r, a, st) ->
  exists n, n ∈ nodes /\ node_id_of n = k /\ planned held.*1 r a st n.
Proof.
  intros Hn. pose proof (ix_all _ _ Hix _ _ _ _ Hn) as Hin. apply list_elem_of_lookup in Hin as (i & Hi).
  destruct (Forall2_lookup_l _ _ _ _ _ (planned_spec _ _ _ _ Hs Hix Hnodes) Hi) as (n & Hin & a' & st' & Hat & Hp).
  pose proof Hn as (? & ? & ? & _ & _ & Hk & _). cbn [snd] in *. rewrite Hk in Hat.
  pose proof (node_at_unique _ _ _ _ Hn Hat) as [= <- <-]. exists n. split_and!; [by eapply list_elem_of_lookup_2| |done].
  unfold node_id_of. rewrite (pl_key _ _ _ _ _ Hp). exact Hk.
Qed.
(** [Q] on the planned nodes is [P] on their requests. *)
Lemma running_counted (P : FixtureDispatch -> bool) (Q : SchedulableNode -> bool) :
  (forall r a st n, planned held.*1 r a st n -> Q n = P r) ->
  (length (running_where P s') <=
     length (List.filter Q (active_nodes nodes)) + length (List.filter Q (chosen nodes plan)) /\
   length (List.filter Q (active_nodes nodes)) <= length (running_where P s))%nat.
Proof.
  intros HQ. split.
  - rewrite <- length_app, <- (length_map node_id_of). apply length_incl; [apply running_nodup|].
    intros k (r & a & Hn & HP)%(running_elem P s' k Hs'). rewrite <- List.filter_app. apply list_elem_of_fmap.
    destruct (Hrun _ _ _ Hn) as [Hn0|[Hn0 Hsel]]; destruct (node_planned _ _ _ _ Hn0) as (n & Hin & Hid & Hp);
      exists n; (split; [done|]); rewrite elem_of_bfilter, (HQ _ _ _ _ Hp); (split; [|done]); apply elem_of_app.
    + left. apply elem_of_bfilter. split; [done|]. rewrite (planned_active _ _ _ _ _ Hp). by apply bool_decide_eq_true.
    + right. apply elem_of_bfilter. split; [done|]. apply bool_decide_eq_true. by rewrite (pl_key _ _ _ _ _ Hp).
  - rewrite <- (length_map node_id_of). apply length_incl.
    + apply NoDup_fmap_2_strong.
      * intros n n' [[Hn _]%elem_of_bfilter _]%elem_of_bfilter [[Hn' _]%elem_of_bfilter _]%elem_of_bfilter.
        by apply (node_id_inj s requests held nodes limits plan).
      * apply NoDup_bfilter, NoDup_bfilter, NoDup_of_keys, (plan_inv _ _ _ Hplan).
    + intros k (n & -> & [[Hn Ha]%elem_of_bfilter Hq]%elem_of_bfilter)%list_elem_of_fmap.
      destruct (node_of_plan _ _ _ _ Hs Hix Hnodes n Hn) as (r & a & st & _ & Hkey & Hat & Hp).
      rewrite (planned_active _ _ _ _ _ Hp) in Ha. apply bool_decide_eq_true in Ha. subst st.
      apply (running_elem P s _ Hs). exists r, a. split; [|by rewrite <- (HQ _ _ _ _ Hp)].
      unfold node_id_of. rewrite Hkey. exact Hat.
Qed.
Lemma running_within : within_limits limits s s'.
Proof.
  destruct (plan_capacity _ _ _ Hplan) as [Hg Hr]. split.
  - destruct (running_counted any_request (fun _ => true) ltac:(done)) as [H1 H2].
    assert (Hall : forall l : list SchedulableNode, List.filter (fun _ => true) l = l)
      by (intros l; induction l as [|x l IH]; [done|]; cbn; by rewrite IH).
    rewrite (Hall (chosen _ _)), Hall in H1. rewrite Hall in H2. rewrite (chosen_length _ _ _ Hplan) in Hg. lia.
  - intros x. specialize (Hr x). unfold repo_count in Hr.
    destruct (running_counted (of_repository x) (in_repo x)) as [H1 H2]; [|lia].
    intros r a st n Hp. unfold in_repo, of_repository. rewrite (pl_repo _ _ _ _ _ Hp).
    destruct (String.eqb_spec (fd_repository_id r) x) as [He|He]; [by apply bool_decide_eq_true; rewrite He|].
    apply bool_decide_eq_false. congruence.
Qed.
End Counted.
Lemma launches_refl ids held limits s : evolves_by tick_move s s /\ launched_rightly ids held s s /\ within_limits limits s s.
Proof. split_and!; [reflexivity|by left|]. split; [|intros ?]; apply Z.le_max_l. Qed.
(** The requests of the selected keys. *)
Lemma selected_requests s requests held nodes limits plan keys :
  nodes_sound s -> indexed s requests -> planned_nodes requests held s = Ok nodes ->
  scheduler_plan nodes limits = Ok plan -> (forall key, key ∈ keys -> key ∈ sp_selected plan) ->
  exists rs, keys = map key_of rs /\ Forall2 (fun key r => get_request key requests = Ok r) keys rs /\
    Forall (launchable s held.*1) rs.
Proof.
  intros Hs Hix Hnodes Hplan. induction keys as [|key keys IH]; intros Hin; [by exists []|].
  destruct IH as (rs & -> & Hg & Hl); [intros k Hk; apply Hin; by right|].
  destruct (selected_launchable s requests held nodes limits plan Hs Hix Hnodes Hplan key) as (r & -> & Hr & Hb);
    [apply Hin; left|]. exists (r :: rs). split_and!; [done|by constructor|by constructor].
Qed.
Lemma launchable_keys s held rs : Forall (launchable s held) rs -> NoDup (map key_of rs) -> NoDup (map request_key rs).
Proof.
  intros Hl Hd. apply NoDup_fmap_2_strong.
  - intros r r' Hr Hr' He. rewrite Forall_forall in Hl. pose proof (lb_node _ _ _ (Hl r Hr)) as H1.
    pose proof (lb_node _ _ _ (Hl r' Hr')) as H2. rewrite He in H1. by pose proof (node_at_unique _ _ _ _ H1 H2) as [=].
  - eapply NoDup_fmap_1. exact Hd.
Qed.
(** Once the selected nodes went through the launch loop. *)
Lemma launched_spec s s1 rs ids held : nodes_sound s -> others_same (map request_key rs) s s1 ->
  Forall (launchable s held) rs -> Forall (fun r => launched ids (key_of r) = true) rs ->
  Forall (fun r => exists st, node_at (request_key r) s1 (r, ACTOR_AGENT, st)) rs ->
  (forall r, r ∈ rs -> node_at (request_key r) s1 (r, ACTOR_AGENT, "running") -> require_dispatch_allowed s = Ok ()) ->
  launched_rightly ids held s s1 /\
  forall k r a, node_at k s1 (r, a, "running") -> node_at k s (r, a, "running") \/
    (node_at k s (r, ACTOR_AGENT, "queued") /\ r ∈ rs).
Proof.
  intros Hs Ho Hl Hid Hst Hall.
  assert (Hcase : forall k r a, node_at k s1 (r, a, "running") -> node_at k s (r, a, "running") \/
    (a = ACTOR_AGENT /\ k = request_key r /\ r ∈ rs)).
  { intros k r a Hn. destruct (decide (k ∈ map request_key rs)) as [Hk|Hk].
    - right. apply list_elem_of_fmap in Hk as (r' & -> & Hr'). rewrite Forall_forall in Hst.
      destruct (Hst r' Hr') as (st & Hn'). by pose proof (node_at_unique _ _ _ _ Hn Hn') as [= -> -> _].
    - left. by apply (others_same_at _ _ _ _ _ Ho). }
  rewrite Forall_forall in Hl. rewrite Forall_forall in Hid. split.
  - intros k r a Hn. destruct (Hcase k r a Hn) as [|(-> & -> & Hr)]; [by left|right].
    split_and!; [done|by apply Hl|by apply Hid|by eapply Hall|].
    intros d Hd. destruct (lb_deps _ _ _ (Hl r Hr) d Hd) as (rd & ad & Hdep). exists rd, ad.
    apply (others_same_at _ _ _ _ _ Ho); [|done]. intros (r' & Hk & Hr')%list_elem_of_fmap.
    rewrite Hk in Hdep. by pose proof (node_at_unique _ _ _ _ Hdep (lb_node _ _ _ (Hl r' Hr'))).
  - intros k r a Hn. destruct (Hcase k r a Hn) as [|(-> & -> & Hr)]; [by left|right].
    split; [by apply Hl|done].
Qed.
Lemma requests_remain s s1 requests rs held : indexed s requests -> others_same (map request_key rs) s s1 ->
  Forall (launchable s held) rs ->
  Forall (fun r => exists st, node_at (request_key r) s1 (r, ACTOR_AGENT, st)) rs ->
  forall key r, (key, r) ∈ requests -> exists a st, node_at (request_key r) s1 (r, a, st).
Proof.
  intros Hix Ho Hl Hst key r Hin. destruct (ix_node _ _ Hix _ _ Hin) as (_ & a & st & Hn).
  destruct (decide (request_key r ∈ map request_key rs)) as [(r' & He & Hr')%list_elem_of_fmap|Hk].
  - rewrite Forall_forall in Hl. rewrite Forall_forall in Hst. rewrite He in Hn.
    pose proof (node_at_unique _ _ _ _ Hn (lb_node _ _ _ (Hl r' Hr'))) as [= -> _ _].
    destruct (Hst r' Hr') as (st' & Hn'). by exists ACTOR_AGENT, st'.
  - exists a, st. by apply (others_same_at _ _ _ _ _ Ho).
Qed.
Lemma tick_launches_spec h t environ clock owner now lw limits ids held ep consumed s : nodes_sound s ->
  let s' := (tick_launches h t environ clock owner now lw limits ids held ep consumed s).1 in
  evolves_by tick_move s s' /\ launched_rightly ids held.*1 s s' /\ within_limits limits s s'.
Proof.
  intros Hs. cbn zeta. unfold tick_launches. rewrite asks_tx.
  destruct (requests_from_ledger s) as [requests|e] eqn:Hreq; [|apply launches_refl]. rewrite asks_tx.
  destruct (planned_nodes requests held s) as [nodes|e] eqn:Hnodes; [|apply launches_refl]. rewrite lift_tx.
  destruct (scheduler_plan nodes limits) as [plan|e] eqn:Hplan; [|apply launches_refl].
  pose proof (requests_indexed s requests Hs Hreq) as Hix. cbn zeta. rewrite bind_tx.
  destruct (selected_requests s requests held nodes limits plan (List.filter (launched ids) (sp_selected plan)))
    as (rs & Hkeys & Hg & Hl); [done..|by intros key [? _]%elem_of_bfilter|].
  assert (Hd : NoDup (map request_key rs)).
  { eapply launchable_keys; [exact Hl|]. rewrite <- Hkeys. apply NoDup_bfilter.
    destruct (plan_inv _ _ _ Hplan) as (Hnk & _ & -> & _). by apply final_nodup. }
  assert (Hsel : forall r, r ∈ rs -> key_of r ∈ sp_selected plan /\ launched ids (key_of r) = true).
  { intros r Hr. apply elem_of_bfilter. rewrite Hkeys. by apply list_elem_of_fmap_2. }
  pose proof (launch_loop h t environ clock owner requests (ce_epoch ep) now lw _ rs s Hs Hg Hd) as Hloop.
  destruct (mapM_tx (launch_node _ _ _ _ _ _ _ _ _) _ s) as [s1 res].
  destruct Hloop as (Hev & Ho & Hst & Hall).
  { eapply Forall_impl; [exact Hl|]. intros r Hr. by apply lb_node in Hr. }
  destruct (launched_spec s s1 rs ids held.*1 Hs Ho Hl) as [Hright Hrun]; [|done|done|].
  { apply Forall_forall. intros r Hr. by apply Hsel. }
  assert (Hs1 : nodes_sound s1) by by apply Hev.
  assert (Hfin : forall s', same_nodes s1 s' ->
    evolves_by tick_move s s' /\ launched_rightly ids held.*1 s s' /\ within_limits limits s s').
  { intros s' Hsame. destruct (Hsame Hs1) as [Hs' He]. split_and!.
    - etrans; [exact Hev|by apply same_nodes_evolves].
    - intros k r a Hn. apply He in Hn. destruct (Hright k r a Hn) as [|(? & ? & ? & ? & Hdep)]; [by left|right].
      split_and!; [done..|]. intros d Hdin. destruct (Hdep d Hdin) as (rd & ad & Hn'). exists rd, ad. by apply He.
    - eapply (running_within s s'); try done. intros k r a Hn. apply He in Hn.
      destruct (Hrun k r a Hn) as [|[Hq Hr]]; [by left|right]. split; [done|by apply Hsel]. }
  destruct res as [fs|e]; [|by apply Hfin]. rewrite bind_tx.
  match goal with |- context [mapM_tx (defer_node clock owner requests ids held ?x1 (ce_epoch ep) now) ?x2 s1] =>
    pose proof (defer_loop clock owner requests ids held x1 (ce_epoch ep) now x2 s1 Hs1) as Hdefer;
    destruct (mapM_tx (defer_node clock owner requests ids held x1 (ce_epoch ep) now) x2 s1) as [s2 [us|e]] end.
  all: by apply Hfin, Hdefer; eapply requests_remain.
Qed.

(** ** The tick *)
(** The operator's record is none of these managers'. *)
Definition RUN_N : list string := [COORDINATOR_NAME; SUPERVISOR_MANAGER; WORKSPACE_MANAGER].
Lemma dispatch_allowed_same T s s' : touch T RUN_N s s' -> require_dispatch_allowed s' = require_dispatch_allowed s.
Proof.
  intros [_ Hpm]. unfold require_dispatch_allowed, read_control_state, read_process_manager_state.
  rewrite Hpm; [done|literal].
Qed.
Lemma register_plain h clock owner r a epoch now extra :
  ensures (touch PLAIN_T RUN_N) (register h clock owner r a epoch now extra).
Proof. unfold register, release_prior, replace_request. ens. Qed.
(** What comes before the launches. *)
Definition prepares (s s' : Ledger) : Prop :=
  evolves_by idle_move s s' /\ require_dispatch_allowed s' = require_dispatch_allowed s.
#[local] Instance prepares_preorder : PreOrder prepares.
Proof. split; [by split|]. intros s1 s2 s3 [E1 D1] [E2 D2]. split; [by etrans|congruence]. Qed.
Lemma prepares_side {A} (m : tx A) : ensures (touch SIDE_T RUN_N) m -> ensures prepares m.
Proof.
  apply ensures_weaken. intros s s' Ht. split; [|by eapply dispatch_allowed_same].
  eapply side_evolves; [|exact Ht]. literal.
Qed.
Lemma prepares_registrations h clock owner epoch now requests : Forall wf_request requests ->
  ensures prepares (mapM_tx (fun r => register h clock owner r ACTOR_AGENT epoch now []) requests).
Proof.
  induction 1 as [|r requests Hr _ IH]; cbn [mapM_tx]; [apply (ensures_ret _)|].
  apply (ensures_bind _).
  - intros s. split; [eapply evolves_mono; [apply move_retried|by apply register_evolves; [|constructor]]|].
    eapply dispatch_allowed_same, register_plain.
  - intros u. apply (ensures_bind _); [exact IH|]. intros us. apply (ensures_ret _).
Qed.
(** No idle move leads to a running node. *)
Lemma idle_running n r a : rtc idle_move n (r, a, "running") -> n = (r, a, "running").
Proof.
  intros [->|(n' & _ & Hm)]%rtc_inv_r; [done|]. inversion Hm as [|r' x y Hr]; subst; inversion Hr.
Qed.
Lemma running_before s s' k r a : nodes_sound s -> evolves_by idle_move s s' -> node_at k s' (r, a, "running") ->
  node_at k s (r, a, "running").
Proof.
  intros Hs Hev Hn. destruct (Hev Hs) as (_ & Hold & Hnew). destruct (proj2 Hs k) as [Hk|(n & Hk)].
  - by destruct (Hnew k _ Hk Hn) as (r0 & a0 & [=]%idle_running).
  - destruct (Hold k n Hk) as (n' & Hn' & Hm). rewrite (node_at_unique _ _ _ _ Hn' Hn) in Hm.
    by rewrite <- (idle_running _ _ _ Hm).
Qed.
Lemma running_fewer P s s' : nodes_sound s -> evolves_by idle_move s s' ->
  length (running_where P s') <= length (running_where P s).
Proof.
  intros Hs Hev. apply length_incl; [apply running_nodup|]. assert (Hs' : nodes_sound s') by by apply Hev.
  intros k (r & a & Hn & HP)%(running_elem P s' k Hs'). apply (running_elem P s k Hs). exists r, a.
  split; [by eapply running_before|done].
Qed.
Lemma tick_prepares h t environ clock owner now hw lw limits requests ids held s :
  Forall wf_request requests ->
  let s' := (tick h t environ clock owner now hw lw limits requests ids held s).1 in
  exists s1, prepares s s1 /\ (s' = s1 \/ exists ep consumed,
    s' = (tick_launches h t environ clock owner now lw limits ids held ep consumed s1).1).
Proof.
  intros Hr. cbn zeta. unfold tick. rewrite bind_tx.
  assert (H1 : ensures prepares (acquire_or_renew clock owner now hw)) by (apply prepares_side; ens).
  specialize (H1 s). destruct (acquire_or_renew _ _ _ _ s) as [s1 [ep|e]]; [|exists s1; by split; [|left]].
  rewrite bind_tx.
  assert (H2 : ensures prepares (consume_pending clock owner (ce_epoch ep) now hw CONSUME_LIMIT))
    by (apply prepares_side; ens).
  specialize (H2 s1). cbn [fst] in *.
  destruct (consume_pending _ _ _ _ _ _ s1) as [s2 [consumed|e]]; [|exists s2; split; [by etrans|by left]].
  rewrite bind_tx. pose proof (prepares_registrations h clock owner (ce_epoch ep) now requests Hr s2) as H3.
  cbn [fst] in *. destruct (mapM_tx _ requests s2) as [s3 [us|e]]; cbn [fst] in *;
    (exists s3; split; [etrans; [exact H1|]; by etrans|]); [right|by left]. by exists ep, consumed.
Qed.
Lemma tick_evolves h t environ clock owner now hw lw limits requests ids held s : Forall wf_request requests ->
  evolves_by tick_move s (tick h t environ clock owner now hw lw limits requests ids held s).1.
Proof.
  intros Hr Hs.
  destruct (tick_prepares h t environ clock owner now hw lw limits requests ids held s Hr) as (s1 & [Hp _] & Htick).
  revert Hs. change (evolves_by tick_move s (tick h t environ clock owner now hw lw limits requests ids held s).1).
  etrans; [apply idle_evolves, Hp|]. destruct Htick as [->|(ep & consumed & ->)]; [reflexivity|].
  intros Hs1. by apply tick_launches_spec.
Qed.
(** C5: whatever a scheduling tick does, also when it raises midway: a node that runs
    afterwards and did not run before is an agent node of a run that is neither held nor
    outside the given runs, whose dependencies have all passed, and it was launched only
    because the operator had not paused dispatch; and neither in total nor on any one
    repository do more nodes run than the configured limit, unless more ran before, and
    then no more than those. *)
Theorem tick_launches_safe h t environ clock owner now hw lw limits requests ids held s :
  nodes_sound s -> Forall wf_request requests ->
  let s' := (tick h t environ clock owner now hw lw limits requests ids held s).1 in
  nodes_sound s' /\
  (forall k r a, node_at k s' (r, a, "running") -> node_at k s (r, a, "running") \/
     (a = ACTOR_AGENT /\ fd_run_id r ∉ held.*1 /\ launched ids (key_of r) = true /\
      require_dispatch_allowed s = Ok () /\
      forall d, d ∈ fd_dependencies r -> exists rd ad, node_at (d.1 +:+ ":" +:+ d.2) s' (rd, ad, "passed"))) /\
  within_limits limits s s'.
Proof.
  intros Hs Hr. cbn zeta.
  pose proof (tick_evolves h t environ clock owner now hw lw limits requests ids held s Hr Hs) as [Hs' _].
  split; [done|].
  destruct (tick_prepares h t environ clock owner now hw lw limits requests ids held s Hr) as (s1 & [Hp Hd] & Htick).
  assert (Hs1 : nodes_sound s1) by by apply Hp. pose proof (fun P => running_fewer P s s1 Hs Hp) as Hfew.
  assert (Hlaunch : launched_rightly ids held.*1 s1 (tick h t environ clock owner now hw lw limits requests ids held s).1 /\
    within_limits limits s1 (tick h t environ clock owner now hw lw limits requests ids held s).1).
  { destruct Htick as [->|(ep & consumed & ->)]; [apply launches_refl|by apply tick_launches_spec]. }
  destruct Hlaunch as [Hright [Hg Hrepo]]. split.
  - intros k r a Hn. destruct (Hright k r a Hn) as [Hn1|(? & Hl & ? & Hall & Hdep)].
    + left. by eapply running_before.
    + right. rewrite <- Hd. split_and!; try done. apply Hl.
  - split; [|intros x; specialize (Hrepo x)].
    + specialize (Hfew any_request). lia.
    + specialize (Hfew (of_repository x)). lia.
Qed.
End Tick.

Lemma nodes_sound_empty : nodes_sound empty_ledger.
Proof. split; [exact wf_empty_ledger|]. intros k. by left. Qed.
Module Demo.
#[local] Existing Instance IdentityProofs.toy_runtime.
#[local] Existing Instance IdentityProofs.toy_iso.
Definition requests : list FixtureDispatch := [sample_request "a" []; sample_request "b" [("run", "a")]].
Definition ticked : Ledger :=
  (tick (sample_host true) sample_repository [] "t" "alice" (Aware 0) 100 100 wide_limits requests None [] empty_ledger).1.
Lemma tick_launches_safe_witness :
  running_where any_request ticked = ["run:a"] /\ nodes_sound ticked /\ within_limits wide_limits empty_ledger ticked.
Proof.
  destruct (tick_launches_safe (sample_host true) sample_repository [] "t" "alice" (Aware 0) 100 100 wide_limits
    requests None [] empty_ledger nodes_sound_empty) as (Hs & _ & Hw).
  - repeat constructor.
  - split_and!; [vm_compute; reflexivity|exact Hs|exact Hw].
Defined.
End Demo.

(** ** Histories of runtime nodes

    Any calls of the engine in any order: every node the ledger keeps stays readable and
    moves only as [call_move] allows each call. *)

(** What the callers of the runtime keep to: requests that [FixtureDispatch] accepts and
    the reader can read, payloads that leave the request's fields alone, envelopes that
    passed [WorkerResultEnvelope]'s checks, and no foreign writes of runtime nodes. *)
Definition node_call_ok (call : EngineSite * EngineCall) : Prop :=
  match call.2 with
  | EcRegisterNode r _ _ extra | EcResumeHumanWait r _ extra => wf_request r /\ extra_ok extra
  | EcRetryNode r _ _ | EcRetryWorkflowNode r _ _ => wf_request r
  | EcTick _ _ _ requests _ _ => Forall wf_request requests
  | EcCompleteNode _ _ _ _ extra | EcAwaitHumanNode _ _ _ _ extra | EcResolveHumanWait _ _ _ _ extra
  | EcRecordEvidenceHold _ _ _ _ _ _ extra => extra_ok extra
  | EcIngestResult envelope => envelope_post_init envelope = Ok envelope
  | EcLedger op => RUNTIME_NODE_AGGREGATE_TYPE ∉ op_types op
  | _ => True
  end.

Section History.
Context `{rt : PyRuntime} `{iso : IsoCodec}.

Lemma retry_workflow_evolves clock owner r a now w s : wf_request r ->
  evolves_by (retried r) s (retry_workflow_node clock owner r a now w s).1.
Proof.
  intros Hr. revert s. change (ensures (evolves_by (retried r)) (retry_workflow_node clock owner r a now w)).
  unfold retry_workflow_node. apply (ensures_bind _); [apply side_ensures; ens|].
  intros ep. apply (ensures_bind _); [intros s; by apply retry_node_evolves|]. intros u. apply (ensures_ret _).
Qed.
Lemma side_call {A} (m : tx A) c s : ensures side m -> evolves_by (call_move c) s (m s).1.
Proof. intros Hm. by apply (side_ensures (call_move c) m Hm s). Qed.
Lemma engine_step_evolves s call : node_call_ok call -> evolves_by (call_move call.2) s (engine_step s call).
Proof.
  destruct call as [[clock owner now h t environ] c]. destruct c; cbn [engine_step]; unfold node_call_ok; cbn [snd]; intros Hok.
  all: try match goal with H : _ /\ _ |- _ => destruct H end.
  - apply side_call. ens.
  - eapply evolves_mono; [intros ? ?; apply by_register|by apply register_node_evolves].
  - eapply evolves_mono; [intros ? ?; apply by_retry|by apply retry_node_evolves].
  - eapply evolves_mono; [intros ? ?; apply by_retry_workflow|by apply retry_workflow_evolves].
  - eapply evolves_mono; [intros ? ?; apply by_tick|by apply tick_evolves].
  - by apply complete_node_evolves.
  - by apply await_human_evolves.
  - by apply resolve_human_evolves.
  - by apply evidence_hold_evolves.
  - by apply collect_evolves.
  - apply side_call. ens.
  - by apply cancel_node_evolves.
  - by apply fail_exited_evolves.
  - by apply enter_wait_evolves.
  - by apply resume_human_evolves.
  - apply side_call. ens.
  - apply side_call. unfold operator_pause. ens.
  - apply side_call. unfold operator_resume. ens.
  - apply side_call. unfold select_runner. ens.
  - eapply side_evolves; [exact Hok|apply ledger_step_touch].
Qed.
(** What a history of calls makes of a node: for each call in turn, moves of that call. *)
Fixpoint moved (calls : list (EngineSite * EngineCall)) (n n' : Node) : Prop :=
  match calls with
  | [] => n' = n
  | call :: calls => exists m, rtc (call_move call.2) n m /\ moved calls m n'
  end.

End History.

Module HistoryDemo.
#[local] Existing Instance IdentityProofs.toy_runtime.
#[local] Existing Instance IdentityProofs.toy_iso.
Definition tick_calls : list (EngineSite * EngineCall) := [(EngineHistory.Demo.site 0 true, EngineHistory.Demo.tick_call)].
Definition later_calls : list (EngineSite * EngineCall) :=
  [(EngineHistory.Demo.site 10 false, EcFailExitedWorker "run" "a" 100);
   (EngineHistory.Demo.site 11 false, EngineHistory.Demo.tick_call)].
End HistoryDemo.
