(* ===== verification/Incidents.v ===== *)
(** * Incidents and their deployment authority ([incidents/service.py], [incidents/authority.py])

    The incident and its bound work item on the ledger, every operation of
    [IncidentService], and the grants and records around the deployment broker.  The
    broker and the reproduction check answer through functions; fresh identities and
    instants are arguments. *)
From S2P Require Import Prelude PyText Json Identity StateMachine Lifecycles Aggregates Policy Redaction.
From S2P Require Import Ledger Coordinator Runtime LedgerCalls Serialization Records.

Definition INCIDENT_AGGREGATE_TYPE : string := "incident".
Definition WORK_ITEM_AGGREGATE_TYPE : string := "work_item".
Definition AUTHORITY_AGGREGATE_TYPE : string := "incident_deployment_authority".
Definition FOLLOW_UP_AGGREGATE_TYPE : string := "incident_follow_up".

(** ** The deployment port ([application/delivery_ports.py]) *)
Record ReleaseArtifact := { ra_version : string; ra_digest : Digest; ra_media_type : string }.
Definition release_artifact_post_init (a : ReleaseArtifact) : result ReleaseArtifact :=
  raise_when blank (ra_version a) || blank (ra_media_type a) as PyValueError ;; Ok a.
Record DeploymentRequest := {
  dq_run_id : string; dq_artifact : ReleaseArtifact; dq_target : string; dq_operation_id : string }.
Definition deployment_request_post_init (r : DeploymentRequest) : result DeploymentRequest :=
  raise_when blank (dq_target r) as PyValueError ;; Ok r.
Record DeploymentReceipt := {
  dt_target : string; dt_artifact_digest : Digest; dt_deployment_id : string }.
Definition deployment_receipt_post_init (r : DeploymentReceipt) : result DeploymentReceipt :=
  raise_when blank (dt_target r) || blank (dt_deployment_id r) as PyValueError ;; Ok r.
(** What the broker answers, or raises. *)
Record DeploymentPort := {
  dp_deploy : DeploymentRequest -> result DeploymentReceipt;
  dp_rollback : DeploymentReceipt -> string -> result ReconciliationResult }.

(** ** Grants ([authority.py]) *)
Definition DEFAULT_GRANT_TTL : timedelta := (5 * 60 * 1000000)%Z.
Definition DEPLOYMENT_ACTIONS : list PolicyAction := [DEPLOYMENT_EXECUTE; DEPLOYMENT_ROLLBACK].
Record DeploymentGrant := {
  dg_grant_id : string; dg_action : PolicyAction; dg_target : string; dg_principal_id : string;
  dg_issued_at : datetime; dg_expires_at : datetime }.
Definition deployment_grant_post_init (g : DeploymentGrant) : result DeploymentGrant :=
  raise_when negb (bool_decide (dg_action g ∈ DEPLOYMENT_ACTIONS)) as InvalidInputError ;;
  raise_when blank (dg_target g) as InvalidInputError ;;
  raise_when blank (dg_principal_id g) as InvalidInputError ;;
  later ← dt_lt (dg_issued_at g) (dg_expires_at g);
  raise_when negb later as InvalidInputError ;;
  Ok g.
Definition require_not_expired (g : DeploymentGrant) (reference_time : datetime) : result () :=
  early ← dt_lt reference_time (dg_expires_at g);
  raise_when negb early as DeploymentGrantExpiredError ;; Ok ().
Definition issue_grant (grant_id : string) (action : PolicyAction) (target principal_id : string)
    (issued_at : datetime) (ttl : timedelta) : result DeploymentGrant :=
  deployment_grant_post_init {|
    dg_grant_id := grant_id; dg_action := action; dg_target := target; dg_principal_id := principal_id;
    dg_issued_at := issued_at; dg_expires_at := dt_add issued_at ttl |}.
Record DeploymentAuthorityRecord := {
  au_incident_id : string; au_grant : DeploymentGrant; au_policy_decision_id : string;
  au_outcome : string; au_detail : string }.
Definition authority_record_post_init (r : DeploymentAuthorityRecord) : result DeploymentAuthorityRecord :=
  raise_when blank (au_incident_id r) as InvalidInputError ;;
  raise_when blank (au_policy_decision_id r) as InvalidInputError ;;
  raise_when blank (au_detail r) as InvalidInputError ;;
  Ok r.

(** ** The keyword arguments of the two approval requests; every other field is [None] *)
Definition deployment_request_schema (action : PolicyAction) (risk : RiskClass)
    (target digest principal : string) : ApprovalSchema := {|
  ps_action := action;
  ps_work_kind := None; ps_risk_class := Some risk; ps_repository := None; ps_changed_paths := None;
  ps_requested_capability := None; ps_workflow_version := None; ps_policy_version := None;
  ps_evidence_status := None; ps_retry_consumption := None; ps_budget_consumption := None;
  ps_validation_profile := None; ps_release_type := None; ps_credential_request := None;
  ps_prior_interventions := None; ps_external_protection_state := None; ps_work_snapshot := None;
  ps_effective_configuration := None; ps_adapter_locks := None; ps_capability_locks := None;
  ps_target_resource := Some target; ps_diff_or_artifact_digest := Some digest;
  ps_acceptance_criteria_snapshot := None; ps_evidence_bundle_digest := None;
  ps_requesting_principal_id := Some principal; ps_producer_principal_ids := None;
  ps_credential_delivery_target := None; ps_agent_authored_executable := None;
  ps_retry_after_ambiguous_effect := None; ps_reconciliation_complete := None;
  ps_mutates_active_factory_asset := None; ps_candidate_received_held_out_input := None;
  ps_candidate_affects_protected_control := None; ps_canary_target := None;
  ps_override_reason := None; ps_override_scope := None; ps_override_expires_at := None;
  ps_capability_introduced_by_run := None |}.

(** The service's fields besides the ledger, and what one call draws: the decision's
    identity and instant, and the grant's identity. *)
Record IncidentService := { is_deployment : option DeploymentPort; is_policy : option PolicyEvaluator }.
Record Drawn := { dw_decision_id : string; dw_decided_at : datetime; dw_grant_id : string }.

Section Incidents.
Context `{rt : PyRuntime} `{iso : IsoCodec} `{pv : PyValues}.

(** ** Identities *)
Definition incident_digest (parts : list string) : string :=
  sha256_hex (utf8 (py_join (String unit_sep "") parts)).
Definition incident_id_for (source_provider external_reference : string) : result string :=
  mk_identifier (incident_digest ["incident"; source_provider; external_reference]).
Definition incident_run_id (incident_id : string) : result string :=
  mk_identifier ("incident:" +:+ incident_id).
Definition authority_operation_id (incident_id action scope : string) : result string :=
  mk_identifier (incident_digest ["incident-authority"; incident_id; action; scope]).

(** ** Authority records as stored *)
Definition authority_record_to_dict (r : DeploymentAuthorityRecord) : list (string * json) :=
  let g := au_grant r in
  [("incident_id", JStr (au_incident_id r));
   ("grant", JObj
     [("grant_id", JStr (dg_grant_id g)); ("action", JStr (enum_value (dg_action g)));
      ("target", JStr (dg_target g)); ("principal_id", JStr (dg_principal_id g));
      ("issued_at", JStr (isoformat (dg_issued_at g))); ("expires_at", JStr (isoformat (dg_expires_at g)))]);
   ("policy_decision_id", JStr (au_policy_decision_id r)); ("outcome", JStr (au_outcome r));
   ("detail", JStr (au_detail r))].
(** [raw[key]] and [str(raw[key])] *)
Definition raw_item (raw : list (string * json)) (key : string) : result json :=
  from_option_err PyKeyError (dict_get key raw).
Definition raw_str (raw : list (string * json)) (key : string) : result string :=
  v ← raw_item raw key; Ok (str_of v).
Definition raw_time (raw : list (string * json)) (key : string) : result datetime :=
  s ← raw_str raw key; from_option_err PyValueError (fromisoformat s).
Definition grant_from_dict (raw : list (string * json)) : result DeploymentGrant :=
  grant_id ← raw_str raw "grant_id";
  action_raw ← raw_item raw "action";
  action ← match action_raw with JStr s => enum_of_value s | _ => Err PyValueError end;
  target ← raw_str raw "target";
  principal_id ← raw_str raw "principal_id";
  issued_at ← raw_time raw "issued_at";
  expires_at ← raw_time raw "expires_at";
  deployment_grant_post_init {|
    dg_grant_id := grant_id; dg_action := action; dg_target := target; dg_principal_id := principal_id;
    dg_issued_at := issued_at; dg_expires_at := expires_at |}.
Definition authority_record_from_dict (raw : list (string * json)) : result DeploymentAuthorityRecord :=
  grant_raw ← raw_item raw "grant";
  match grant_raw with
  | JObj grant_raw =>
      grant ← grant_from_dict grant_raw;
      incident_id ← raw_str raw "incident_id";
      policy_decision_id ← raw_str raw "policy_decision_id";
      outcome ← raw_str raw "outcome";
      detail ← raw_str raw "detail";
      authority_record_post_init {|
        au_incident_id := incident_id; au_grant := grant; au_policy_decision_id := policy_decision_id;
        au_outcome := outcome; au_detail := detail |}
  | _ => Err InvalidInputError
  end.

(** ** Reads *)
Definition incident_read (incident_id : string) (s : Ledger) : result (option Incident) :=
  match read_projection INCIDENT_AGGREGATE_TYPE incident_id s with
  | None => Ok None
  | Some p => raw ← state_dict p; i ← incident_from_dict raw; Ok (Some i)
  end.
Definition read_work_item (work_item_id : string) (s : Ledger) : result (option WorkItem) :=
  match read_projection WORK_ITEM_AGGREGATE_TYPE work_item_id s with
  | None => Ok None
  | Some p => raw ← state_dict p; w ← work_item_from_dict raw; Ok (Some w)
  end.
Definition incident_require (incident_id : string) (s : Ledger) : result Incident :=
  incident ← incident_read incident_id s;
  from_option_err InvalidInputError incident.
(** [list_incidents]; the state of every record is decoded, whatever the filter. *)
Definition list_incidents (state : option IncidentState) (s : Ledger) : result (list Incident) :=
  incidents ← mapM_result (fun kp => raw ← state_dict kp.2; incident_from_dict raw)
                (list_projections INCIDENT_AGGREGATE_TYPE s);
  Ok (match state with
      | None => incidents
      | Some st => List.filter (fun i => bool_decide (inc_state i = st)) incidents
      end).
Definition list_authority_records (incident_id : string) (s : Ledger)
    : result (list DeploymentAuthorityRecord) :=
  records ← mapM_result (fun kp => raw ← state_dict kp.2; authority_record_from_dict raw)
              (list_projections AUTHORITY_AGGREGATE_TYPE s);
  Ok (List.filter (fun r => String.eqb (au_incident_id r) incident_id) records).
(** The identifiers of the follow-ups that name [incident_id]. *)
Definition follow_up_id_of (incident_id : string) (kp : string * ProjectionRow) : result (option string) :=
  raw ← state_dict kp.2;
  named ← raw_item raw "incident_id";
  if json_eqb named (JStr incident_id)
  then s ← raw_str raw "work_item_id"; id ← mk_identifier s; Ok (Some id)
  else Ok None.
Definition list_follow_ups (incident_id : string) (s : Ledger) : result (list WorkItem) :=
  ids ← mapM_result (follow_up_id_of incident_id) (list_projections FOLLOW_UP_AGGREGATE_TYPE s);
  items ← mapM_result (fun id => read_work_item id s) (omap (M:=list) id ids);
  Ok (omap (M:=list) id items).

(** ** Appends *)
Definition append_intake (clock : string) (incident : Incident) (work_item : WorkItem) : tx AppendResult :=
  append_events clock ("incident-ingest:" +:+ inc_id incident)
    [mk_event_write INCIDENT_AGGREGATE_TYPE (inc_id incident) 0 "incident.ingested" (incident_to_dict incident);
     mk_event_write WORK_ITEM_AGGREGATE_TYPE (wi_id work_item) 0 "work_item.created"
       (work_item_to_dict work_item)].
Definition current_incident_version (incident_id : string) (s : Ledger) : Z :=
  from_option pj_aggregate_version 0%Z (read_projection INCIDENT_AGGREGATE_TYPE incident_id s).
Definition append_incident (clock : string) (incident : Incident) (event_type : string) : tx AppendResult :=
  expected_version ← gets (current_incident_version (inc_id incident));
  append_events clock
    ("incident-transition:" +:+ inc_id incident +:+ ":" +:+ pretty expected_version)
    [mk_event_write INCIDENT_AGGREGATE_TYPE (inc_id incident) expected_version event_type
       (incident_to_dict incident)].
Definition append_authority_record (clock incident_id : string) (grant : DeploymentGrant)
    (policy_decision_id outcome detail : string) : tx AppendResult :=
  record ← lift (authority_record_post_init {|
    au_incident_id := incident_id; au_grant := grant; au_policy_decision_id := policy_decision_id;
    au_outcome := outcome; au_detail := detail |});
  append_events clock ("incident-authority:" +:+ incident_id +:+ ":" +:+ dg_grant_id grant)
    [mk_event_write AUTHORITY_AGGREGATE_TYPE (dg_grant_id grant) 0 ("deployment_authority." +:+ outcome)
       (authority_record_to_dict record)].

(** ** Intake *)
Definition ingest (clock source_provider external_reference source_snapshot_reference title objective : string)
    (acceptance_criteria repository_targets : list string) (severity : IncidentSeverity) (summary : string)
    (constraints : list string) : tx Incident :=
  incident_id ← lift (incident_id_for source_provider external_reference);
  existing ← asks (incident_read incident_id);
  match existing with
  | Some existing => mret existing
  | None =>
      work_item_id ← lift (mk_identifier ("incident:" +:+ incident_id));
      work_item ← lift (work_item_post_init {|
        wi_id := work_item_id; wi_work_kind := WK_INCIDENT; wi_source_provider := source_provider;
        wi_external_reference := external_reference;
        wi_source_snapshot_reference := source_snapshot_reference; wi_title := title;
        wi_objective := objective; wi_acceptance_criteria := acceptance_criteria;
        wi_constraints := constraints; wi_risk_class := severity_risk_class severity;
        wi_repository_targets := repository_targets; wi_dependencies := []; wi_state := WI_NEW;
        wi_aggregate_version := 0 |});
      incident ← lift (incident_post_init {|
        inc_id := incident_id; inc_work_item_id := work_item_id; inc_severity := severity;
        inc_state := INC_INTAKE; inc_summary := summary; inc_release_lineage := None;
        inc_containment := None; inc_reproduction := None; inc_aggregate_version := 0 |});
      on_conflict (_ ← append_intake clock incident work_item; mret incident)
        (* a concurrent ingest won the race: read back its result *)
        (resolved ← asks (incident_read incident_id);
         lift (from_option_err ExpectedVersionConflictError resolved))
  end.

(** ** Transitions *)
(** [incident = self._require(id)], a step of the aggregate, [self._append_incident]. *)
Definition update_incident (clock incident_id : string) (step : Incident -> result Incident)
    (event_type : string) : tx Incident :=
  incident ← asks (incident_require incident_id);
  incident ← lift (step incident);
  _ ← append_incident clock incident event_type;
  mret incident.
Definition classify_step (severity : option IncidentSeverity) (incident : Incident) : result Incident :=
  incident ← match severity with
             | Some v => if bool_decide (v = inc_severity incident) then Ok incident else reclassify incident v
             | None => Ok incident
             end;
  if bool_decide (inc_state incident = INC_INTAKE) then incident_transition incident INC_CLASSIFIED
  else if bool_decide (inc_state incident = INC_CLASSIFIED) then Ok incident
  else Err InvalidInputError.
Definition classify (clock incident_id : string) (severity : option IncidentSeverity) : tx Incident :=
  update_incident clock incident_id (classify_step severity) "incident.classified".
Definition bind_lineage (clock incident_id : string) (lineage : ReleaseLineage) : tx Incident :=
  update_incident clock incident_id (fun i => bind_release_lineage i lineage) "incident.release_lineage_bound".
Definition contain (clock incident_id description rationale : string) : tx Incident :=
  update_incident clock incident_id (fun i =>
    action ← containment_action_post_init {| ca_description := description; ca_rationale := rationale |};
    apply_containment i action) "incident.contained".
Definition resolve_containment (clock incident_id : string) (mitigated : bool) : tx Incident :=
  update_incident clock incident_id
    (fun i => incident_transition i (if mitigated then INC_MITIGATED else INC_REPRODUCING))
    (if mitigated then "incident.mitigated" else "incident.containment_resolved").
Definition begin_reproduction (clock incident_id : string) : tx Incident :=
  update_incident clock incident_id (fun i => incident_transition i INC_REPRODUCING)
    "incident.reproduction_started".
(** [check()] runs between the read and the step. *)
Definition attempt_reproduction (clock incident_id : string) (check : () -> result ReproductionRecord)
    : tx Incident :=
  update_incident clock incident_id (fun i => record ← check (); record_reproduction i record)
    "incident.reproduction_recorded".
Definition mark_hotfix_ready (clock incident_id : string) : tx Incident :=
  update_incident clock incident_id (fun i => incident_transition i INC_HOTFIX_READY) "incident.hotfix_ready".
Definition begin_deployment (clock incident_id : string) : tx Incident :=
  update_incident clock incident_id (fun i => incident_transition i INC_DEPLOYING)
    "incident.deployment_started".
Definition begin_observation (clock incident_id : string) : tx Incident :=
  update_incident clock incident_id (fun i => incident_transition i INC_OBSERVING)
    "incident.observation_started".
Definition resolve_observation (clock incident_id : string) (healthy : bool) : tx Incident :=
  update_incident clock incident_id
    (fun i => incident_transition i (if healthy then INC_RESOLVED else INC_ROLLING_BACK))
    (if healthy then "incident.resolved" else "incident.rollback_started").

(** ** Deployment and rollback *)
(** The policy's answer to one action: [evaluate], then DENY and anything but ALLOW
    are refused. *)
Definition require_allowed (svc : IncidentService) (dw : Drawn) (action : PolicyAction) (risk : RiskClass)
    (target digest principal : string) : result PolicyDecision :=
  policy ← from_option_err MissingPrerequisiteError (is_policy svc);
  schema ← approval_schema_post_init (deployment_request_schema action risk target digest principal);
  decision ← policy_evaluate policy (dw_decision_id dw) (dw_decided_at dw) schema;
  raise_when bool_decide (pd_result decision = DENY) as PolicyDenialError ;;
  raise_when negb (bool_decide (pd_result decision = ALLOW)) as HumanActionRequiredError ;;
  Ok decision.
Definition execute_deployment (svc : IncidentService) (dw : Drawn) (clock incident_id : string)
    (artifact : ReleaseArtifact) (requesting_principal_id : string) (now : datetime)
    (reference_time : option datetime) : tx DeploymentReceipt :=
  incident ← asks (incident_require incident_id);
  _ ← lift (raise_if (negb (bool_decide (inc_state incident = INC_DEPLOYING))) InvalidInputError);
  lineage ← lift (from_option_err MissingPrerequisiteError (inc_release_lineage incident));
  let target := rl_service lineage in
  decision ← lift (require_allowed svc dw DEPLOYMENT_EXECUTE (incident_risk_class incident) target
                     (digest_str (ra_digest artifact)) requesting_principal_id);
  grant ← lift (issue_grant (dw_grant_id dw) DEPLOYMENT_EXECUTE target requesting_principal_id now
                  DEFAULT_GRANT_TTL);
  _ ← lift (require_not_expired grant (default now reference_time));
  port ← lift (from_option_err MissingPrerequisiteError (is_deployment svc));
  run_id ← lift (incident_run_id incident_id);
  operation_id ← lift (authority_operation_id incident_id "deploy" (digest_str (ra_digest artifact)));
  request ← lift (deployment_request_post_init {|
    dq_run_id := run_id; dq_artifact := artifact; dq_target := target; dq_operation_id := operation_id |});
  receipt ← lift (dp_deploy port request);
  _ ← append_authority_record clock incident_id grant (pd_id decision) "succeeded"
        ("deployed " +:+ ra_version artifact +:+ " to " +:+ target);
  mret receipt.
Definition execute_rollback (svc : IncidentService) (dw : Drawn) (clock incident_id : string)
    (receipt : DeploymentReceipt) (requesting_principal_id : string) (now : datetime)
    (reference_time : option datetime) : tx Incident :=
  incident ← asks (incident_require incident_id);
  _ ← lift (raise_if (negb (bool_decide (inc_state incident = INC_ROLLING_BACK))) InvalidInputError);
  let target := dt_target receipt in
  decision ← lift (require_allowed svc dw DEPLOYMENT_ROLLBACK (incident_risk_class incident) target
                     (digest_str (dt_artifact_digest receipt)) requesting_principal_id);
  grant ← lift (issue_grant (dw_grant_id dw) DEPLOYMENT_ROLLBACK target requesting_principal_id now
                  DEFAULT_GRANT_TTL);
  _ ← lift (require_not_expired grant (default now reference_time));
  operation_id ← lift (authority_operation_id incident_id "rollback" (digest_str (dt_artifact_digest receipt)));
  port ← lift (from_option_err MissingPrerequisiteError (is_deployment svc));
  found ← lift (dp_rollback port receipt operation_id);
  let matching := bool_decide (found = REC_FOUND_MATCHING) in
  incident ← lift (incident_transition incident (if matching then INC_ROLLED_BACK else INC_FAILED));
  _ ← append_incident clock incident (if matching then "incident.rolled_back" else "incident.rollback_failed");
  _ ← append_authority_record clock incident_id grant (pd_id decision)
        (if matching then "succeeded" else "failed")
        ("rollback for target " +:+ target +:+ ": " +:+ enum_value found);
  mret incident.

(** ** Follow-up work *)
Definition record_follow_up (clock fresh_id incident_id title objective : string)
    (acceptance_criteria repository_targets constraints : list string) : tx WorkItem :=
  incident ← asks (incident_require incident_id);
  follow_up_id ← lift (mk_identifier ("incident-follow-up:" +:+ incident_id +:+ ":" +:+ fresh_id));
  work_item ← lift (work_item_post_init {|
    wi_id := follow_up_id; wi_work_kind := WK_ISSUE; wi_source_provider := "incident-follow-up";
    wi_external_reference := incident_id;
    wi_source_snapshot_reference := pretty (inc_aggregate_version incident); wi_title := title;
    wi_objective := objective; wi_acceptance_criteria := acceptance_criteria;
    wi_constraints := constraints; wi_risk_class := RISK_LOW; wi_repository_targets := repository_targets;
    wi_dependencies := []; wi_state := WI_NEW; wi_aggregate_version := 0 |});
  _ ← append_events clock ("incident-follow-up:" +:+ follow_up_id)
        [mk_event_write WORK_ITEM_AGGREGATE_TYPE follow_up_id 0 "work_item.created"
           (work_item_to_dict work_item);
         mk_event_write FOLLOW_UP_AGGREGATE_TYPE follow_up_id 0 "incident.follow_up_recorded"
           [("incident_id", JStr incident_id); ("work_item_id", JStr follow_up_id)]];
  mret work_item.
End Incidents.
