(* ===== verification/IncidentProofs.v ===== *)
(** * The service's incidents, over any history

    What each operation of [IncidentService] does to the ledger, the invariant of every
    incident and its bound work item, and how an incident evolves. *)
From S2P Require Import Prelude PyText Json JsonCanon Identity IdentityProofs StateMachine Lifecycles Aggregates LifecycleProofs.
From S2P Require Import Policy Redaction Ledger LedgerProofs LedgerTheorems Coordinator CoordinatorProofs.
From S2P Require Import Serialization Runtime LedgerCalls Records RecordProofs Incidents.

(** ** Steps of the aggregate the service makes *)
Definition aggregate_step (i i' : Incident) : Prop := exists o, incident_apply i o = Ok i'.
(** The states behind a reproduction. *)
Definition reproduced_states : list IncidentState :=
  [INC_REMEDIATING; INC_HOTFIX_READY; INC_DEPLOYING; INC_OBSERVING; INC_RESOLVED; INC_ROLLING_BACK; INC_ROLLED_BACK].
Definition reproduced (i : Incident) : Prop := inc_state i ∈ reproduced_states ->
  exists r, inc_reproduction i = Some r /\ rr_outcome r = REPRO_REPRODUCED.
Definition bound_work_item_id (incident_id : string) : string := "incident:" +:+ incident_id.
(** A stored incident: constructed values, its identity and its work item's, and a
    reproduction on record behind every remediation. *)
Record sound_incident (id : string) (i : Incident) : Prop := {
  si_wf : wf_incident i;
  si_id : inc_id i = id;
  si_work_item : inc_work_item_id i = bound_work_item_id id;
  si_reproduced : reproduced i;
}.
(** [i'] is a later value of [i]. *)
Definition incident_later (id : string) (i i' : Incident) : Prop :=
  sound_incident id i' /\ rtc aggregate_step i i'.

Lemma inc_replace_wf i sev st l c r i' : inc_replace i sev st l c r = Ok i' -> wf_incident i ->
  from_option (fun l => release_lineage_post_init l = Ok l) True l ->
  from_option (fun a => containment_action_post_init a = Ok a) True c ->
  from_option (fun r => reproduction_record_post_init r = Ok r) True r ->
  wf_incident i' /\ inc_id i' = inc_id i /\ inc_work_item_id i' = inc_work_item_id i /\ inc_state i' = st /\
  inc_reproduction i' = r.
Proof.
  intros H (Hi & Hw & _) Hl Hc Hr. pose proof H as Hp. unfold inc_replace in H.
  assert (Hx : incident_post_init i' = Ok i').
  { unfold incident_post_init in H |- *. rewrite !raise_if_Ok in H. destruct H as (H1 & H2 & [= <-]).
    by rewrite H1, H2. }
  unfold incident_post_init in H. rewrite !raise_if_Ok in H. destruct H as (_ & _ & [= <-]).
  by split_and!.
Qed.
(** An operation that keeps the reproduction, into a state that needs none unless the
    incident is already behind one. *)
Lemma keep_later id i o i' sev st l c : sound_incident id i -> incident_apply i o = Ok i' ->
  inc_replace i sev st l c (inc_reproduction i) = Ok i' ->
  from_option (fun l => release_lineage_post_init l = Ok l) True l ->
  from_option (fun a => containment_action_post_init a = Ok a) True c ->
  (st ∈ reproduced_states -> inc_state i ∈ reproduced_states) -> incident_later id i i'.
Proof.
  intros [Hwf Hid Hwi Hre] Ho Hr Hl Hc Hst. pose proof Hwf as (_ & _ & _ & _ & Hp & _).
  destruct (inc_replace_wf _ _ _ _ _ _ _ Hr Hwf Hl Hc Hp) as (Hwf' & Hid' & Hwi' & Hs' & Hr').
  split; [|by apply rtc_once; exists o]. split; [done|congruence|congruence|].
  intros Hin. rewrite Hr'. apply Hre, Hst. by rewrite <- Hs'.
Qed.
Lemma transition_later id i t i' : sound_incident id i -> incident_transition i t = Ok i' ->
  t <> INC_REMEDIATING -> incident_later id i i'.
Proof.
  intros Hs Ht Hn. pose proof Hs as [(_ & _ & Hl & Hc & _) _ _ _]. pose proof Ht as Hr. unfold incident_transition in Hr.
  apply bind_Ok in Hr as (? & Hq%require_Ok & Hr).
  apply (keep_later id i (OpTransition t) i' _ _ _ _ Hs Ht Hr Hl Hc).
  intros Hin. revert Hq Hin Hn. clear. unfold tstep.
  destruct (inc_state i), t; vm_compute; intros Hq Hin Hn; try done;
    first [set_solver|exfalso; revert Hin; set_solver|exfalso; revert Hq; set_solver].
Qed.
Lemma reclassify_later id i sev i' : sound_incident id i -> reclassify i sev = Ok i' -> incident_later id i i'.
Proof.
  intros Hs Ht. pose proof Hs as [(_ & _ & Hl & Hc & _) _ _ _]. pose proof Ht as Hr. unfold reclassify in Hr.
  apply raise_if_Ok in Hr as [_ Hr]. by apply (keep_later id i (OpReclassify sev) i' _ _ _ _ Hs Ht Hr Hl Hc).
Qed.
Lemma lineage_later id i l i' : sound_incident id i -> release_lineage_post_init l = Ok l ->
  bind_release_lineage i l = Ok i' -> incident_later id i i'.
Proof.
  intros Hs Hl Ht. pose proof Hs as [(_ & _ & _ & Hc & _) _ _ _]. pose proof Ht as Hr. unfold bind_release_lineage in Hr.
  apply raise_if_Ok in Hr as [_ Hr]. by apply (keep_later id i (OpBindLineage l) i' _ _ _ _ Hs Ht Hr Hl Hc).
Qed.
Lemma contain_later id i d r i' : sound_incident id i ->
  (action ← containment_action_post_init {| ca_description := d; ca_rationale := r |};
   apply_containment i action) = Ok i' -> incident_later id i i'.
Proof.
  intros Hs (a & Ha & Ht)%bind_Ok. pose proof Hs as [(_ & _ & Hl & _) _ _ _]. pose proof Ht as Hr.
  unfold apply_containment in Hr. apply raise_if_Ok in Hr as [_ Hr].
  apply (keep_later id i (OpContain a) i' _ _ _ _ Hs Ht Hr Hl).
  - cbn. unfold containment_action_post_init in Ha |- *. rewrite !raise_if_Ok in Ha.
    destruct Ha as (H1 & H2 & [= <-]). by rewrite H1, H2.
  - by vm_compute; set_solver.
Qed.
Lemma reproduction_later id i (check : () -> result ReproductionRecord) i' : sound_incident id i ->
  (forall r, check () = Ok r -> reproduction_record_post_init r = Ok r) ->
  (record ← check (); record_reproduction i record) = Ok i' -> incident_later id i i'.
Proof.
  intros [Hwf Hid Hwi Hre] Hck (r & Hr & H)%bind_Ok. specialize (Hck r Hr). pose proof Hwf as (_ & _ & Hl & Hc & _).
  assert (Ha : aggregate_step i i') by by exists (OpReproduce r).
  unfold record_reproduction in H. apply raise_if_Ok in H as [_ H]. apply bind_Ok in H as (? & _ & H).
  destruct (inc_replace_wf _ _ _ _ _ (Some r) _ H Hwf Hl Hc Hck) as (Hwf' & Hid' & Hwi' & Hs' & Hr').
  split; [|by apply rtc_once]. split; [done|congruence|congruence|].
  intros Hin. exists r. split; [done|]. rewrite Hs' in Hin.
  destruct (rr_outcome r); [done|exfalso; revert Hin..]; vm_compute; set_solver.
Qed.
Lemma classify_later id i sev i' : sound_incident id i -> classify_step sev i = Ok i' -> incident_later id i i'.
Proof.
  intros Hs (i1 & H1 & H)%bind_Ok.
  assert (Hl1 : incident_later id i i1).
  { destruct sev as [v|]; [|injection H1 as <-; by split].
    destruct (bool_decide _); [injection H1 as <-; by split|by eapply reclassify_later]. }
  destruct (bool_decide (inc_state i1 = INC_INTAKE)).
  - destruct Hl1 as [Hs1 Hr1]. destruct (transition_later id i1 _ i' Hs1 H) as [Hs2 Hr2]; [done|].
    split; [done|by etrans].
  - destruct (bool_decide _); [|done]. by injection H as <-.
Qed.

(** ** Stored incidents *)
Definition incident_ref (id : string) : ref := (INCIDENT_AGGREGATE_TYPE, id).
Definition work_item_ref (id : string) : ref := (WORK_ITEM_AGGREGATE_TYPE, bound_work_item_id id).
(** The aggregates of incidents and of their work items. *)
Definition incident_aggregates (r : ref) : Prop :=
  exists id, r = incident_ref id \/ r = work_item_ref id.

Lemma incident_post_init_same i i' : incident_post_init i = Ok i' -> i' = i /\ incident_post_init i = Ok i.
Proof. intros H. pose proof H as Hx. unfold incident_post_init in H. rewrite !raise_if_Ok in H. destruct H as (_ & _ & [= <-]). done. Qed.
Lemma work_item_post_init_same w w' : work_item_post_init w = Ok w' -> w' = w /\ work_item_post_init w = Ok w.
Proof.
  intros H. assert (w' = w) as ->; [|done]. unfold work_item_post_init in H. inv_ok. done.
Qed.

Section Stored.
Context `{rt : PyRuntime} `{iso : IsoCodec} `{pv : PyValues}.

Lemma incident_read_view id s s' : view_of (incident_ref id) s' = view_of (incident_ref id) s ->
  incident_read id s' = incident_read id s.
Proof.
  unfold incident_read, read_projection, view_of, projection_view, state_dict, incident_ref.
  destruct (lg_projections s !! _) as [p|], (lg_projections s' !! _) as [p'|]; try done.
  cbn [fmap option_fmap option_map]. intros H. injection H as _ _ _ ->. done.
Qed.
Lemma work_item_read_view id s s' : view_of (work_item_ref id) s' = view_of (work_item_ref id) s ->
  read_work_item (bound_work_item_id id) s' = read_work_item (bound_work_item_id id) s.
Proof.
  unfold read_work_item, read_projection, view_of, projection_view, state_dict, work_item_ref.
  destruct (lg_projections s !! _) as [p|], (lg_projections s' !! _) as [p'|]; try done.
  cbn [fmap option_fmap option_map]. intros H. injection H as _ _ _ ->. done.
Qed.
Lemma incident_read_raw id s v ety raw i : incident_from_dict raw = Ok i ->
  view_of (incident_ref id) s = Some (v, ety, 1%Z, JObj raw) -> incident_read id s = Ok (Some i).
Proof.
  intros Hr. unfold incident_read, read_projection, view_of, projection_view, state_dict, incident_ref.
  destruct (lg_projections s !! _) as [p|]; [|done]. cbn [fmap option_fmap option_map].
  intros H. injection H as _ _ _ ->. cbn [mbind result_bind]. by rewrite Hr.
Qed.
Lemma incident_read_stored id s v ety i : wf_incident i ->
  view_of (incident_ref id) s = Some (v, ety, 1%Z, canon (JObj (incident_to_dict i))) ->
  incident_read id s = Ok (Some i).
Proof. intros Hw. apply incident_read_raw. by apply incident_stored. Qed.
Lemma work_item_read_raw id s v ety raw w : work_item_from_dict raw = Ok w ->
  view_of (work_item_ref id) s = Some (v, ety, 1%Z, JObj raw) -> read_work_item (bound_work_item_id id) s = Ok (Some w).
Proof.
  intros Hr. unfold read_work_item, read_projection, view_of, projection_view, state_dict, work_item_ref.
  destruct (lg_projections s !! _) as [p|]; [|done]. cbn [fmap option_fmap option_map].
  intros H. injection H as _ _ _ ->. cbn [mbind result_bind]. by rewrite Hr.
Qed.
Lemma work_item_read_stored id s v ety w : wf_work_item w ->
  view_of (work_item_ref id) s = Some (v, ety, 1%Z, canon (JObj (work_item_to_dict w))) ->
  read_work_item (bound_work_item_id id) s = Ok (Some w).
Proof. intros Hw. apply work_item_read_raw. by apply work_item_stored. Qed.

(** The incident and its work item, never moved past [new]. *)
Definition bound_item (id : string) (w : WorkItem) : Prop :=
  wi_id w = bound_work_item_id id /\ wi_work_kind w = WK_INCIDENT /\ wi_state w = WI_NEW.
Record holds (id : string) (i : Incident) (w : WorkItem) (s : Ledger) : Prop := {
  hd_incident : incident_read id s = Ok (Some i);
  hd_sound : sound_incident id i;
  hd_work_item : read_work_item (bound_work_item_id id) s = Ok (Some w);
  hd_bound : bound_item id w;
}.
Definition absent (id : string) (s : Ledger) : Prop :=
  incident_read id s = Ok None /\ read_work_item (bound_work_item_id id) s = Ok None.
Definition incidents_ok (s : Ledger) : Prop :=
  wf_ledger s /\ forall id, absent id s \/ exists i w, holds id i w s.
Definition evolves (s s' : Ledger) : Prop := incidents_ok s -> incidents_ok s' /\
  forall id i w, holds id i w s -> exists i', holds id i' w s' /\ rtc aggregate_step i i'.
#[export] Instance evolves_preorder : PreOrder evolves.
Proof.
  split.
  - intros s Hs. split; [done|]. intros id i w Hh. by exists i.
  - intros s1 s2 s3 H1 H2 Hs. destruct (H1 Hs) as [Hs2 Hp2]. destruct (H2 Hs2) as [Hs3 Hp3].
    split; [done|]. intros id i w (i' & Hi' & L1)%Hp2. apply Hp3 in Hi' as (i'' & Hi'' & L2).
    exists i''. split; [done|by etrans].
Qed.

Lemma holds_same id i w s s' : holds id i w s -> incident_read id s' = incident_read id s ->
  read_work_item (bound_work_item_id id) s' = read_work_item (bound_work_item_id id) s -> holds id i w s'.
Proof. intros [H1 H2 H3 H4] E1 E2. split; [by rewrite E1|done|by rewrite E2|done]. Qed.
(** Writes elsewhere leave every incident as it was. *)
Lemma incident_aside_evolves P s s' : frame P s s' -> (forall r, incident_aggregates r -> P r) -> evolves s s'.
Proof.
  intros [_ W V] HP [Hs Hall]. specialize (V Hs).
  assert (E1 : forall id, incident_read id s' = incident_read id s).
  { intros id. apply incident_read_view, V, HP. exists id. by left. }
  assert (E2 : forall id, read_work_item (bound_work_item_id id) s' = read_work_item (bound_work_item_id id) s).
  { intros id. apply work_item_read_view, V, HP. exists id. by right. }
  split.
  - split; [by apply W|]. intros id. destruct (Hall id) as [[Ha Hb]|(i & w & Hh)].
    + left. split; [by rewrite E1|by rewrite E2].
    + right. exists i, w. by eapply holds_same.
  - intros id i w Hh. exists i. split; [by eapply holds_same|done].
Qed.
Lemma ensures_evolves_err {A} (m : tx A) s e : m s = (s, Err e) -> evolves s (m s).1.
Proof. intros ->. reflexivity. Qed.

(** A later value of one incident is stored; the others stay. *)
Lemma update_evolves id i w i' s s' ety : incidents_ok s -> holds id i w s -> incident_later id i i' ->
  frame (fun r => r <> incident_ref id) s s' ->
  view_of (incident_ref id) s' =
    Some ((version_of (incident_ref id) s + 1)%Z, ety, 1%Z, canon (JObj (incident_to_dict i'))) ->
  holds id i' w s' /\ evolves s s'.
Proof.
  intros [Hs Hall] Hh [Hl Hr] [_ W V] Hv. specialize (V Hs).
  assert (E1 : forall k, k <> id -> incident_read k s' = incident_read k s).
  { intros k Hk. apply incident_read_view, V. intros [= He]. done. }
  assert (E2 : forall k, read_work_item (bound_work_item_id k) s' = read_work_item (bound_work_item_id k) s).
  { intros k. by apply work_item_read_view, V. }
  assert (Hh' : holds id i' w s').
  { destruct Hh as [H1 H2 H3 H4]. split; [|done|by rewrite E2|done].
    eapply incident_read_stored; [apply Hl|exact Hv]. }
  split; [done|]. intros _. split.
  - split; [by apply W|]. intros k. destruct (decide (k = id)) as [->|Hk]; [right; by exists i', w|].
    destruct (Hall k) as [[Ha Hb]|(j & v & Hj)]; [left; split; [by rewrite E1|by rewrite E2]|].
    right. exists j, v. eapply holds_same; [done|by apply E1|by apply E2].
  - intros k j v Hj. destruct (decide (k = id)) as [->|Hk].
    + exists i'. pose proof (hd_incident _ _ _ _ Hj) as Ha. pose proof (hd_work_item _ _ _ _ Hj) as Hb.
      rewrite (hd_incident _ _ _ _ Hh) in Ha. rewrite (hd_work_item _ _ _ _ Hh) in Hb.
      injection Ha as <-. injection Hb as <-. done.
    + exists j. split; [|done]. eapply holds_same; [done|by apply E1|by apply E2].
Qed.

(** ** Appending *)
Lemma append_incident_spec clock i ety s :
  match append_incident clock i ety s with
  | (s', Ok _) => frame (fun r => r <> incident_ref (inc_id i)) s s' /\
      (wf_ledger s -> view_of (incident_ref (inc_id i)) s' =
         Some ((version_of (incident_ref (inc_id i)) s + 1)%Z, ety, 1%Z, canon (JObj (incident_to_dict i))))
  | (s', Err _) => s' = s
  end.
Proof.
  unfold append_incident, gets. rewrite read_tx.
  match goal with |- context [append_events clock ?c ?w s] =>
    pose proof (append_events_spec clock c w s) as H; destruct (append_events clock c w s) as [s' [r|e]] end; [|done].
  destruct H as ([|ev [|]] & Hw & Hf & Hv); try done. injection Hw as Hw. apply mk_event_write_Ok in Hw as ->.
  split.
  - eapply frame_weaken; [|exact Hf]. intros x Hx Hin. apply list_elem_of_singleton in Hin. by subst.
  - intros Hs. destruct (Hv Hs (NoDup_singleton _) _ (list_elem_of_here _ _)) as [Hver Hview]. unfold ew_ref in Hver, Hview.
    cbn [ew_aggregate_type ew_aggregate_id ew_expected_version ew_event_type ew_schema_version ew_payload] in Hver, Hview.
    unfold incident_ref. by rewrite Hver, <- Hview.
Qed.
Lemma append_later clock id i w i' ety s : incidents_ok s -> holds id i w s -> incident_later id i i' ->
  match append_incident clock i' ety s with
  | (s', Ok _) => holds id i' w s' /\ evolves s s'
  | (s', Err _) => s' = s
  end.
Proof.
  intros Hs Hh Hl. pose proof (append_incident_spec clock i' ety s) as Ha.
  destruct (append_incident clock i' ety s) as [s' [r|e]]; [|done].
  rewrite (si_id _ _ (proj1 Hl)) in Ha. destruct Ha as [Hf Hv].
  by eapply update_evolves; [..|apply Hv, Hs].
Qed.
(** Every lookup by identity finds the sound incident or raises. *)
Lemma require_cases id s : incidents_ok s ->
  incident_require id s = Err InvalidInputError \/ exists i w, holds id i w s /\ incident_require id s = Ok i.
Proof.
  intros [_ Hall]. unfold incident_require. destruct (Hall id) as [[-> _]|(i & w & Hh)]; [by left|].
  right. exists i, w. by rewrite (hd_incident _ _ _ _ Hh).
Qed.
Lemma update_incident_spec clock id step ety s :
  (forall i i', sound_incident id i -> step i = Ok i' -> incident_later id i i') -> incidents_ok s ->
  match update_incident clock id step ety s with
  | (s', Ok i') => evolves s s' /\ exists i w, holds id i w s /\ step i = Ok i' /\ holds id i' w s'
  | (s', Err _) => s' = s
  end.
Proof.
  intros Hstep Hs. unfold update_incident. rewrite asks_tx.
  destruct (require_cases id s Hs) as [->|(i & w & Hh & ->)]; [done|]. rewrite lift_tx.
  destruct (step i) as [i'|] eqn:Hi; [|done]. pose proof (Hstep i i' (hd_sound _ _ _ _ Hh) Hi) as Hl.
  rewrite bind_tx. pose proof (append_later clock id i w i' ety s Hs Hh Hl) as Ha.
  destruct (append_incident clock i' ety s) as [s' [r|e]]; [|done]. cbn [mret tx_ret].
  split; [apply Ha|]. exists i, w. by destruct Ha.
Qed.
Lemma update_evolves_call clock id step ety s :
  (forall i i', sound_incident id i -> step i = Ok i' -> incident_later id i i') ->
  evolves s (update_incident clock id step ety s).1.
Proof.
  intros Hstep Hs. pose proof (update_incident_spec clock id step ety s Hstep Hs) as H.
  destruct (update_incident clock id step ety s) as [s' [i'|e]]; cbn [fst]; [by apply H|].
  subst s'. by apply (reflexivity (R := evolves)).
Qed.

(** ** Intake *)
Lemma append_intake_spec clock i w s : NoDup [(INCIDENT_AGGREGATE_TYPE, inc_id i); (WORK_ITEM_AGGREGATE_TYPE, wi_id w)] ->
  match append_intake clock i w s with
  | (s', Ok _) => frame (fun r => r <> incident_ref (inc_id i) /\ r <> (WORK_ITEM_AGGREGATE_TYPE, wi_id w)) s s' /\
      (wf_ledger s ->
        view_of (incident_ref (inc_id i)) s' =
          Some (1%Z, "incident.ingested", 1%Z, canon (JObj (incident_to_dict i))) /\
        view_of (WORK_ITEM_AGGREGATE_TYPE, wi_id w) s' =
          Some (1%Z, "work_item.created", 1%Z, canon (JObj (work_item_to_dict w))))
  | (s', Err _) => s' = s
  end.
Proof.
  intros Hnd. unfold append_intake.
  match goal with |- context [append_events clock ?c ?w s] =>
    pose proof (append_events_spec clock c w s) as H; destruct (append_events clock c w s) as [s' [r|e]] end; [|done].
  destruct H as ([|e1 [|e2 [|]]] & Hw & Hf & Hv); try done. injection Hw as H1 H2.
  apply mk_event_write_Ok in H1 as ->. apply mk_event_write_Ok in H2 as ->. split.
  - eapply frame_weaken; [|exact Hf]. intros x [Hx1 Hx2] Hin.
    apply elem_of_cons in Hin as [->|Hin]; [by apply Hx1|]. by apply list_elem_of_singleton in Hin as ->.
  - intros Hs. specialize (Hv Hs Hnd).
    split; [exact (proj2 (Hv _ (list_elem_of_here _ _)))|].
    exact (proj2 (Hv _ (list_elem_of_further _ _ _ (list_elem_of_here _ _)))).
Qed.
Lemma bound_work_item_inj : Inj (=) (=) bound_work_item_id.
Proof. intros x y H. exact (inj (String.append "incident:") _ _ H). Qed.
Lemma intake_evolves id i w s s' : absent id s -> sound_incident id i -> wf_work_item w ->
  bound_item id w ->
  frame (fun r => r <> incident_ref id /\ r <> work_item_ref id) s s' ->
  (wf_ledger s ->
     view_of (incident_ref id) s' = Some (1%Z, "incident.ingested", 1%Z, canon (JObj (incident_to_dict i))) /\
     view_of (work_item_ref id) s' = Some (1%Z, "work_item.created", 1%Z, canon (JObj (work_item_to_dict w)))) ->
  incidents_ok s -> evolves s s' /\ holds id i w s'.
Proof.
  intros Hno Hi Hw Hb [_ W V] Hviews [Hs Hall]. specialize (V Hs). destruct (Hviews Hs) as [H1 H2].
  assert (Hh : holds id i w s').
  { split; [|done| |done].
    - eapply incident_read_stored; [apply Hi|exact H1].
    - eapply work_item_read_stored; [done|exact H2]. }
  assert (E1 : forall k, k <> id -> incident_read k s' = incident_read k s).
  { intros k Hk. apply incident_read_view, V. split; [by intros [= He]|done]. }
  assert (E2 : forall k, k <> id -> read_work_item (bound_work_item_id k) s' = read_work_item (bound_work_item_id k) s).
  { intros k Hk. apply work_item_read_view, V. split; [done|].
    intros [= He]. by apply Hk. }
  split; [|done]. intros _. split.
  - split; [by apply W|]. intros k. destruct (decide (k = id)) as [->|Hk]; [right; by exists i, w|].
    destruct (Hall k) as [[Ha Hb']|(j & v & Hj)]; [left; split; [by rewrite E1|by rewrite E2]|].
    right. exists j, v. by eapply holds_same; [|apply E1|apply E2].
  - intros k j v Hj. destruct (decide (k = id)) as [->|Hk].
    + pose proof (hd_incident _ _ _ _ Hj) as Hr. rewrite (proj1 Hno) in Hr. done.
    + exists j. split; [|done]. by eapply holds_same; [|apply E1|apply E2].
Qed.
Lemma ingest_spec clock p r snapshot title objective criteria targets severity summary constraints s :
  incidents_ok s ->
  match ingest clock p r snapshot title objective criteria targets severity summary constraints s with
  | (s', Ok i) => evolves s s' /\ exists id w, incident_id_for p r = Ok id /\ holds id i w s'
  | (s', Err _) => s' = s
  end.
Proof.
  intros Hs. unfold ingest. rewrite lift_tx. destruct (incident_id_for p r) as [id|] eqn:Hid; [|done].
  rewrite asks_tx. destruct (proj2 Hs id) as [Hno|(i & w & Hh)].
  2: { rewrite (hd_incident _ _ _ _ Hh). cbn [mret tx_ret]. split; [reflexivity|]. by exists id, w. }
  rewrite (proj1 Hno), lift_tx. change ("incident:" +:+ id) with (bound_work_item_id id).
  destruct (mk_identifier (bound_work_item_id id)) as [wid|] eqn:Hwid; [|done].
  apply mk_identifier_Ok in Hwid as [-> Hwid]. rewrite lift_tx.
  destruct (work_item_post_init _) as [w|] eqn:Hw; [|done]. rewrite lift_tx.
  destruct (incident_post_init _) as [i|] eqn:Hi; [|done].
  assert (Hvalid : valid_identifier id) by (pose proof Hid as [-> ?]%mk_identifier_Ok; done).
  pose proof (incident_post_init_same _ _ Hi) as [-> Hi']. pose proof (work_item_post_init_same _ _ Hw) as [-> Hw'].
  match goal with |- context [append_intake clock ?i ?w] => set (inc := i) in *; set (item := w) in * end.
  assert (Hsound : sound_incident id inc).
  { split; [by split_and!|done|done|]. intros Hin. exfalso. revert Hin. vm_compute. set_solver. }
  assert (Hwf : wf_work_item item) by by split_and!.
  assert (Hb : bound_item id item) by done.
  assert (Hnd : NoDup [(INCIDENT_AGGREGATE_TYPE, inc_id inc); (WORK_ITEM_AGGREGATE_TYPE, wi_id item)])
    by (repeat constructor; set_solver).
  unfold on_conflict. rewrite bind_tx. pose proof (append_intake_spec clock inc item s Hnd) as Ha.
  destruct (append_intake clock inc item s) as [s' [res|e]].
  - destruct Ha as [Hf Hv]. destruct (intake_evolves id inc item s s' Hno Hsound Hwf Hb Hf Hv Hs) as [He Hh].
    split; [done|]. by exists id, item.
  - subst s'. destruct e; try done. rewrite asks_tx, (proj1 Hno). done.
Qed.
End Stored.
