(* ===== verification/IncidentHistory.v ===== *)
(** * The deployment broker's authority, and incidents over any history

    What the broker is consulted for and what must stand behind it; every operation of
    the service and any other ledger call, composed. *)
From S2P Require Import Prelude PyText Json JsonCanon Identity IdentityProofs StateMachine Lifecycles Aggregates LifecycleProofs.
From S2P Require Import Evidence Policy PolicyProofs Approvals Redaction Ledger LedgerProofs LedgerTheorems.
From S2P Require Import Coordinator CoordinatorProofs Runtime LedgerCalls Serialization Records RecordProofs Incidents IncidentProofs.

(** ** What an allowed request rests on *)
Section Authority.
Context `{rt : PyRuntime} `{iso : IsoCodec}.

Lemma deployment_schema_post_init action risk target digest principal s :
  approval_schema_post_init (deployment_request_schema action risk target digest principal) = Ok s ->
  s = deployment_request_schema action risk target digest principal.
Proof. unfold approval_schema_post_init. rewrite !raise_if_Ok. naive_solver. Qed.
(** Two requests with one digest are one request. *)
Lemma deployment_schema_binds a r t d p a' r' t' d' p' x :
  schema_digest (deployment_request_schema a r t d p) = Ok x ->
  schema_digest (deployment_request_schema a' r' t' d' p') = Ok x ->
  (a' = a /\ t' = t /\ d' = d /\ p' = p) \/ sha256_collision.
Proof.
  intros Hx Hx'. unfold schema_digest in Hx, Hx'.
  destruct (digest_of_json_inj (JObj (canonical_inputs (deployment_request_schema a r t d p)))
    (JObj (canonical_inputs (deployment_request_schema a' r' t' d' p'))) _ eq_refl eq_refl Hx Hx') as [Hc|]; [left|by right].
  assert (Hnd : forall a r t d p, NoDup (canonical_inputs (deployment_request_schema a r t d p)).*1).
  { intros. apply (bool_decide_eq_true_1 _). vm_compute. reflexivity. }
  pose proof (fun k => canon_obj_get _ _ k (Hnd a r t d p) (Hnd a' r' t' d' p') Hc) as Hk.
  pose proof (Hk "action") as H1. pose proof (Hk "target_resource") as H2.
  pose proof (Hk "diff_or_artifact_digest") as H3. pose proof (Hk "requesting_principal_id") as H4.
  cbn -[enum_value] in H1, H2, H3, H4. injection H1 as H1. injection H2 as H2. injection H3 as H3. injection H4 as H4.
  assert (He : enum_value a = enum_value a') by exact H1. apply enum_value_inj in He. by subst.
Qed.

(** A recorded human approval of exactly this action on this target and artifact,
    current when the policy decided, by registered people other than the requester; no
    other request has its digest. *)
Definition human_approved (history : list RegistryOp) (decided_at : datetime) (action : PolicyAction)
    (risk : RiskClass) (target digest principal : string) : Prop :=
  exists a us, a ∈ (registry_run history).2 /\ ar_outcome a = APPROVED /\ decided_at = Aware us /\
    (forall t, ar_expires_at a = Some t -> (us <= micros t)%Z) /\ ar_approvers a <> [] /\
    (forall x, x ∈ ar_approvers a -> ap_principal_type x = HUMAN /\ ap_id x <> principal /\
       ap_id x ∈ registered_human_ids (registry_run history).1) /\
    schema_digest (deployment_request_schema action risk target digest principal) = Ok (ar_schema_digest a) /\
    forall action' risk' target' digest' principal',
      schema_digest (deployment_request_schema action' risk' target' digest' principal') = Ok (ar_schema_digest a) ->
      (action' = action /\ target' = target /\ digest' = digest /\ principal' = principal) \/ sha256_collision.
(** The evaluator's registry is one that recorded decisions built, or there is none. *)
Definition registry_from (svc : IncidentService) (history : list RegistryOp) : Prop :=
  forall e g, is_policy svc = Some e -> pe_approval_registry e = Some g -> g = (registry_run history).1.
Lemma require_allowed_rests svc history dw action risk target digest principal d :
  registry_from svc history -> action ∈ DEPLOYMENT_ACTIONS ->
  require_allowed svc dw action risk target digest principal = Ok d ->
  human_approved history (dw_decided_at dw) action risk target digest principal.
Proof.
  intros Hreg Hact H. unfold require_allowed in H.
  apply bind_Ok in H as (e & He & H). apply bind_Ok in H as (s & Hs & H).
  apply deployment_schema_post_init in Hs as ->. apply bind_Ok in H as (d' & Hd & H).
  rewrite !raise_if_Ok in H. destruct H as (_ & Hallow%negb_false_iff%bool_decide_eq_true_1 & [= ->]).
  assert (Hh : requires_human (deployment_request_schema action risk target digest principal) = true).
  { unfold requires_human, is_action. cbn [ps_action deployment_request_schema].
    destruct action; try done; exfalso; revert Hact; vm_compute; set_solver. }
  destruct (allowed_by_human _ _ _ _ _ Hd Hallow Hh) as (g & a & Hg & Ha & Hne & Hall & _).
  destruct (is_policy svc) as [e'|] eqn:Hp; [|done]. injection He as ->.
  rewrite (Hreg e g Hp Hg) in Ha, Hall. apply approval_recorded in Ha as (Hrec & Ho & Hsd & us & Ht & Hexp).
  exists a, us. split_and!; try done.
  - intros x Hx. destruct (Hall x Hx) as [Hpr Hhu]. destruct (Hhu Hh) as [? ?]. split_and!; try done.
    intros Heq. apply Hpr. rewrite Heq. unfold producer_ids. cbn. left.
  - intros a' r' t' d1 p' Hx. exact (deployment_schema_binds _ _ _ _ _ _ _ _ _ _ _ Hsd Hx).
Qed.

(** A grant is checked before it is used. *)
Lemma grant_live grant_id action target principal now ttl ref g :
  issue_grant grant_id action target principal now ttl = Ok g -> require_not_expired g ref = Ok () ->
  tz_aware ref = tz_aware now /\ (micros ref < micros now + ttl)%Z /\
  g = {| dg_grant_id := grant_id; dg_action := action; dg_target := target; dg_principal_id := principal;
         dg_issued_at := now; dg_expires_at := dt_add now ttl |}.
Proof.
  intros Hg Hl. unfold issue_grant, deployment_grant_post_init in Hg. inv_ok.
  unfold require_not_expired, dt_lt in Hl. cbn [dg_expires_at] in Hl.
  destruct (Bool.eqb _ _) eqn:He; [|done]. apply eqb_prop in He. cbn [mbind result_bind] in Hl.
  apply raise_if_Ok in Hl as [Hl%negb_false_iff%Z.ltb_lt _].
  split_and!; [destruct now; exact He|destruct now; exact Hl|done].
Qed.
End Authority.

(** ** The broker *)
Section Broker.
Context `{rt : PyRuntime} `{iso : IsoCodec} `{pv : PyValues}.

Definition with_port (p : option DeploymentPort) (svc : IncidentService) : IncidentService :=
  {| is_deployment := p; is_policy := is_policy svc |}.
Definition authority_ref (grant_id : string) : ref := (AUTHORITY_AGGREGATE_TYPE, grant_id).
(** The record of one authorised action is stored. *)
Definition authority_stored (r : DeploymentAuthorityRecord) (s : Ledger) : Prop :=
  view_of (authority_ref (dg_grant_id (au_grant r))) s =
    Some (1%Z, "deployment_authority." +:+ au_outcome r, 1%Z, canon (JObj (authority_record_to_dict r))).
Definition authority_of (id : string) (g : DeploymentGrant) (d : PolicyDecision) (outcome detail : string)
    : DeploymentAuthorityRecord := {|
  au_incident_id := id; au_grant := g; au_policy_decision_id := pd_id d; au_outcome := outcome;
  au_detail := detail |}.
Lemma append_authority_spec clock id g d outcome detail s :
  match append_authority_record clock id g (pd_id d) outcome detail s with
  | (s', Ok _) => frame (fun r => r <> authority_ref (dg_grant_id g)) s s' /\
      (wf_ledger s -> authority_stored (authority_of id g d outcome detail) s')
  | (s', Err _) => s' = s
  end.
Proof.
  unfold append_authority_record. fold (authority_of id g d outcome detail). rewrite lift_tx.
  destruct (authority_record_post_init _) as [r|] eqn:Hr; [|done].
  assert (r = authority_of id g d outcome detail) as ->.
  { unfold authority_record_post_init in Hr. rewrite !raise_if_Ok in Hr. naive_solver. }
  match goal with |- context [append_events clock ?c ?w s] =>
    pose proof (append_events_spec clock c w s) as H; destruct (append_events clock c w s) as [s' [r|e]] end; [|done].
  destruct H as ([|ev [|]] & Hw & Hf & Hv); try done. injection Hw as Hw. apply mk_event_write_Ok in Hw as ->.
  split.
  - eapply frame_weaken; [|exact Hf]. intros x Hx Hin. apply list_elem_of_singleton in Hin. by subst.
  - intros Hs. exact (proj2 (Hv Hs (NoDup_singleton _) _ (list_elem_of_here _ _))).
Qed.
Lemma authority_aside grant_id r : incident_aggregates r -> r <> authority_ref grant_id.
Proof. by intros (id & [->| ->]). Qed.

(** What the operations check before the broker: the policy's decision and a live grant. *)
Definition granted (svc : IncidentService) (dw : Drawn) (action : PolicyAction) (risk : RiskClass)
    (target digest principal : string) (now : datetime) (reference_time : option datetime)
    : result (PolicyDecision * DeploymentGrant) :=
  decision ← require_allowed svc dw action risk target digest principal;
  grant ← issue_grant (dw_grant_id dw) action target principal now DEFAULT_GRANT_TTL;
  _ ← require_not_expired grant (default now reference_time);
  Ok (decision, grant).
(** The request a deployment makes. *)
Definition deployment_request (id : string) (artifact : ReleaseArtifact) (target : string)
    : result DeploymentRequest :=
  run_id ← incident_run_id id;
  operation_id ← authority_operation_id id "deploy" (digest_str (ra_digest artifact));
  deployment_request_post_init {|
    dq_run_id := run_id; dq_artifact := artifact; dq_target := target; dq_operation_id := operation_id |}.
Definition deployed_detail (artifact : ReleaseArtifact) (target : string) : string :=
  "deployed " +:+ ra_version artifact +:+ " to " +:+ target.

(** Everything a deployment settles before the broker is called. *)
Definition deployment_plan (svc : IncidentService) (dw : Drawn) (id : string) (artifact : ReleaseArtifact)
    (principal : string) (now : datetime) (ref : option datetime) (s : Ledger)
    : result (Incident * ReleaseLineage * PolicyDecision * DeploymentGrant * DeploymentRequest) :=
  i ← incident_require id s;
  raise_when negb (bool_decide (inc_state i = INC_DEPLOYING)) as InvalidInputError ;;
  l ← from_option_err MissingPrerequisiteError (inc_release_lineage i);
  dg ← granted svc dw DEPLOYMENT_EXECUTE (incident_risk_class i) (rl_service l)
         (digest_str (ra_digest artifact)) principal now ref;
  req ← deployment_request id artifact (rl_service l);
  Ok (i, l, dg.1, dg.2, req).
Lemma execute_deployment_spec svc dw clock id artifact principal now ref p s :
  execute_deployment (with_port (Some p) svc) dw clock id artifact principal now ref s =
  match deployment_plan svc dw id artifact principal now ref s with
  | Err e => (s, Err e)
  | Ok (i, l, d, g, req) =>
      match dp_deploy p req with
      | Err e => (s, Err e)
      | Ok receipt =>
          match append_authority_record clock id g (pd_id d) "succeeded" (deployed_detail artifact (rl_service l)) s with
          | (s', Ok _) => (s', Ok receipt)
          | (s', Err e) => (s', Err e)
          end
      end
  end.
Proof.
  unfold execute_deployment, deployment_plan, granted, deployment_request. rewrite asks_tx.
  change (require_allowed (with_port (Some p) svc)) with (require_allowed svc).
  destruct (incident_require id s) as [i|]; [|done]. cbn [mbind result_bind]. rewrite lift_tx.
  destruct (raise_if _ _); [|done]. cbn [mbind result_bind]. rewrite lift_tx.
  destruct (from_option_err _ _) as [l|]; [|done]. cbn [mbind result_bind]. rewrite lift_tx.
  destruct (require_allowed _ _ _ _ _ _ _) as [d|]; [|done]. cbn [mbind result_bind]. rewrite lift_tx.
  destruct (issue_grant _ _ _ _ _ _) as [g|]; [|done]. cbn [mbind result_bind]. rewrite lift_tx.
  destruct (require_not_expired _ _); [|done]. cbn [mbind result_bind is_deployment with_port from_option_err from_option].
  rewrite lift_tx. rewrite lift_tx. destruct (incident_run_id id) as [rid|]; [|done]. cbn [mbind result_bind].
  rewrite lift_tx. destruct (authority_operation_id _ _ _) as [oid|]; [|done]. cbn [mbind result_bind].
  rewrite lift_tx. cbn [fst snd]. destruct (deployment_request_post_init _) as [req|]; [|done]. cbn [mbind result_bind].
  rewrite lift_tx. destruct (dp_deploy p req) as [receipt|]; [|done]. by rewrite bind_tx.
Qed.

(** The broker's answer to a rollback, put on the ledger. *)
Definition settle_rollback (clock id : string) (i : Incident) (target : string) (d : PolicyDecision)
    (g : DeploymentGrant) (found : ReconciliationResult) : tx Incident :=
  let matching := bool_decide (found = REC_FOUND_MATCHING) in
  incident ← lift (incident_transition i (if matching then INC_ROLLED_BACK else INC_FAILED));
  _ ← append_incident clock incident (if matching then "incident.rolled_back" else "incident.rollback_failed");
  _ ← append_authority_record clock id g (pd_id d) (if matching then "succeeded" else "failed")
        ("rollback for target " +:+ target +:+ ": " +:+ enum_value found);
  mret incident.
Definition rollback_plan (svc : IncidentService) (dw : Drawn) (id : string) (receipt : DeploymentReceipt)
    (principal : string) (now : datetime) (ref : option datetime) (s : Ledger)
    : result (Incident * PolicyDecision * DeploymentGrant * string) :=
  i ← incident_require id s;
  raise_when negb (bool_decide (inc_state i = INC_ROLLING_BACK)) as InvalidInputError ;;
  dg ← granted svc dw DEPLOYMENT_ROLLBACK (incident_risk_class i) (dt_target receipt)
         (digest_str (dt_artifact_digest receipt)) principal now ref;
  operation_id ← authority_operation_id id "rollback" (digest_str (dt_artifact_digest receipt));
  Ok (i, dg.1, dg.2, operation_id).
Lemma execute_rollback_spec svc dw clock id receipt principal now ref p s :
  execute_rollback (with_port (Some p) svc) dw clock id receipt principal now ref s =
  match rollback_plan svc dw id receipt principal now ref s with
  | Err e => (s, Err e)
  | Ok (i, d, g, operation_id) =>
      match dp_rollback p receipt operation_id with
      | Err e => (s, Err e)
      | Ok found => settle_rollback clock id i (dt_target receipt) d g found s
      end
  end.
Proof.
  unfold execute_rollback, rollback_plan, granted. rewrite asks_tx.
  change (require_allowed (with_port (Some p) svc)) with (require_allowed svc).
  destruct (incident_require id s) as [i|]; [|done]. cbn [mbind result_bind]. rewrite lift_tx.
  destruct (raise_if _ _); [|done]. cbn [mbind result_bind]. rewrite lift_tx.
  destruct (require_allowed _ _ _ _ _ _ _) as [d|]; [|done]. cbn [mbind result_bind]. rewrite lift_tx.
  destruct (issue_grant _ _ _ _ _ _) as [g|]; [|done]. cbn [mbind result_bind]. rewrite lift_tx.
  destruct (require_not_expired _ _); [|done]. cbn [mbind result_bind]. rewrite lift_tx.
  destruct (authority_operation_id _ _ _) as [oid|]; [|done]. cbn [mbind result_bind is_deployment with_port from_option_err from_option].
  rewrite lift_tx, lift_tx. by destruct (dp_rollback p receipt oid).
Qed.
Lemma settle_rollback_spec clock id i w target d g found s : incidents_ok s -> holds id i w s ->
  evolves s (settle_rollback clock id i target d g found s).1 /\
  match settle_rollback clock id i target d g found s with
  | (s', Ok i') => holds id i' w s' /\
      inc_state i' = (if bool_decide (found = REC_FOUND_MATCHING) then INC_ROLLED_BACK else INC_FAILED) /\
      authority_stored (authority_of id g d (if bool_decide (found = REC_FOUND_MATCHING) then "succeeded" else "failed")
        ("rollback for target " +:+ target +:+ ": " +:+ enum_value found)) s'
  | (s', Err _) => True
  end.
Proof.
  intros Hs Hh. unfold settle_rollback. set (m := bool_decide (found = REC_FOUND_MATCHING)).
  rewrite lift_tx. destruct (incident_transition i _) as [i'|] eqn:Hi; [|by split].
  assert (Hst : inc_state i' = if m then INC_ROLLED_BACK else INC_FAILED).
  { pose proof Hi as Hq. unfold incident_transition in Hq. apply bind_Ok in Hq as (? & _ & Hq%inc_replace_Ok). apply Hq. }
  assert (Hl : incident_later id i i') by (eapply transition_later; [apply Hh|exact Hi|by destruct m]).
  rewrite bind_tx. pose proof (append_later clock id i w i' (if m then "incident.rolled_back" else "incident.rollback_failed") s Hs Hh Hl) as Ha.
  destruct (append_incident clock i' _ s) as [s1 [r|e]]; [|by subst s1]. destruct Ha as [Hh1 Ev1].
  rewrite bind_tx. set (outcome := if m then _ else _). set (detail := "rollback for target " +:+ _).
  pose proof (append_authority_spec clock id g d outcome detail s1) as Hr.
  destruct (append_authority_record clock id g (pd_id d) outcome detail s1) as [s2 [r2|e]]; [|by subst s2].
  destruct Hr as [Hf Hv]. pose proof (proj1 (proj1 (Ev1 Hs))) as Hs1.
  pose proof (incident_aside_evolves _ _ _ Hf (authority_aside _)) as Ev2. cbn [fst mret tx_ret].
  split; [by etrans|]. split_and!; [|done|by apply Hv].
  destruct (Ev1 Hs) as [Hok1 _].
  eapply holds_same; [done|apply incident_read_view|apply work_item_read_view];
    apply (fr_view _ _ _ Hf Hs1), authority_aside; exists id; auto.
Qed.

Lemma granted_rests svc history dw action risk target digest principal now ref d g :
  registry_from svc history -> action ∈ DEPLOYMENT_ACTIONS ->
  granted svc dw action risk target digest principal now ref = Ok (d, g) ->
  human_approved history (dw_decided_at dw) action risk target digest principal /\
  (micros (default now ref) < micros now + DEFAULT_GRANT_TTL)%Z /\
  dg_target g = target /\ dg_action g = action.
Proof.
  intros Hreg Hact H. unfold granted in H. apply bind_Ok in H as (d0 & Hd & H).
  apply bind_Ok in H as (g0 & Hg & H). apply bind_Ok in H as ([] & Hl & H). injection H as -> ->.
  destruct (grant_live _ _ _ _ _ _ _ _ Hg Hl) as (_ & Hlive & ->).
  split_and!; [by eapply require_allowed_rests|done..].
Qed.
Lemma deployment_request_Ok id artifact target req : deployment_request id artifact target = Ok req ->
  dq_target req = target /\ dq_artifact req = artifact.
Proof.
  intros (rid & _ & (oid & _ & H)%bind_Ok)%bind_Ok. unfold deployment_request_post_init in H.
  apply raise_if_Ok in H as [_ [= <-]]. done.
Qed.

Lemma incident_require_holds id s i : incidents_ok s -> incident_require id s = Ok i -> exists w, holds id i w s.
Proof.
  intros Hs Hi. destruct (require_cases id s Hs) as [Hq|(j & w & Hh & Hq)]; rewrite Hq in Hi; [done|].
  injection Hi as <-. by exists w.
Qed.
Lemma deployment_plan_Ok svc history dw id artifact principal now ref s i l d g req :
  registry_from svc history -> incidents_ok s ->
  deployment_plan svc dw id artifact principal now ref s = Ok (i, l, d, g, req) ->
  exists w, holds id i w s /\ inc_state i = INC_DEPLOYING /\ inc_release_lineage i = Some l /\
    human_approved history (dw_decided_at dw) DEPLOYMENT_EXECUTE (incident_risk_class i) (rl_service l)
      (digest_str (ra_digest artifact)) principal /\
    (micros (default now ref) < micros now + DEFAULT_GRANT_TTL)%Z /\
    dg_target g = rl_service l /\ dg_action g = DEPLOYMENT_EXECUTE /\
    dq_target req = rl_service l /\ dq_artifact req = artifact.
Proof.
  intros Hreg Hs H. unfold deployment_plan in H. apply bind_Ok in H as (i0 & Hi & H).
  apply raise_if_Ok in H as [Hst%negb_false_iff%bool_decide_eq_true_1 H]. apply bind_Ok in H as (l0 & Hl & H).
  apply bind_Ok in H as ([d0 g0] & Hg & H). apply bind_Ok in H as (r0 & Hr & H). injection H as -> -> -> -> ->.
  apply (incident_require_holds _ _ _ Hs) in Hi as [w Hh]. exists w.
  destruct (granted_rests _ _ _ _ _ _ _ _ _ _ _ _ Hreg (list_elem_of_here _ _) Hg) as (Ha & Hlive & Ht & Hac).
  destruct (deployment_request_Ok _ _ _ _ Hr) as [Hrt Hra].
  destruct (inc_release_lineage i); [|done]. injection Hl as ->. by split_and!.
Qed.
Lemma rollback_plan_Ok svc history dw id receipt principal now ref s i d g oid :
  registry_from svc history -> incidents_ok s ->
  rollback_plan svc dw id receipt principal now ref s = Ok (i, d, g, oid) ->
  exists w, holds id i w s /\ inc_state i = INC_ROLLING_BACK /\
    human_approved history (dw_decided_at dw) DEPLOYMENT_ROLLBACK (incident_risk_class i) (dt_target receipt)
      (digest_str (dt_artifact_digest receipt)) principal /\
    (micros (default now ref) < micros now + DEFAULT_GRANT_TTL)%Z /\
    dg_target g = dt_target receipt /\ dg_action g = DEPLOYMENT_ROLLBACK.
Proof.
  intros Hreg Hs H. unfold rollback_plan in H. apply bind_Ok in H as (i0 & Hi & H).
  apply raise_if_Ok in H as [Hst%negb_false_iff%bool_decide_eq_true_1 H].
  apply bind_Ok in H as ([d0 g0] & Hg & H). apply bind_Ok in H as (r0 & Hr & H). injection H as -> -> -> ->.
  apply (incident_require_holds _ _ _ Hs) in Hi as [w Hh]. exists w.
  assert (Hact : DEPLOYMENT_ROLLBACK ∈ DEPLOYMENT_ACTIONS) by (vm_compute; set_solver).
  destruct (granted_rests _ _ _ _ _ _ _ _ _ _ _ _ Hreg Hact Hg) as (Ha & Hlive & Ht & Hac). by split_and!.
Qed.

(** C8: the deployment broker is consulted only on recorded human authority.  For any
    broker, a deployment of an incident either raises the same error and writes nothing,
    or the incident is [deploying], was reproduced, names the target in its bound release
    lineage, a human other than the requester approved exactly this action, target and
    artifact (an approval of anything else has another digest), the approval was current,
    the grant is under five minutes old, and the broker is asked for exactly that target
    and artifact; when the call returns, the broker's receipt is the result and the
    authority record is stored, and when it raises nothing is written.  A rollback
    rests the same way on an approval of its own and of the receipt's target and
    artifact; the incident it returns is stored, [rolled_back] exactly when the
    broker found a matching state and [failed] otherwise, with the record saying which. *)
Theorem broker_rests_on_approval svc history dw clock id principal now ref s
    (Hreg : registry_from svc history) (Hs : incidents_ok s) :
  (forall artifact,
     let deploy p := execute_deployment (with_port (Some p) svc) dw clock id artifact principal now ref s in
     (exists e, forall p, deploy p = (s, Err e)) \/
     exists i l req, incident_read id s = Ok (Some i) /\ inc_state i = INC_DEPLOYING /\
       (exists r, inc_reproduction i = Some r /\ rr_outcome r = REPRO_REPRODUCED) /\
       inc_release_lineage i = Some l /\ dq_target req = rl_service l /\ dq_artifact req = artifact /\
       human_approved history (dw_decided_at dw) DEPLOYMENT_EXECUTE (incident_risk_class i) (rl_service l)
         (digest_str (ra_digest artifact)) principal /\
       (micros (default now ref) < micros now + DEFAULT_GRANT_TTL)%Z /\
       forall p, match deploy p with
         | (s', Ok receipt) => dp_deploy p req = Ok receipt /\ evolves s s' /\
             exists g d, dg_target g = rl_service l /\ dg_action g = DEPLOYMENT_EXECUTE /\
               authority_stored (authority_of id g d "succeeded" (deployed_detail artifact (rl_service l))) s'
         | (s', Err e) => s' = s
         end) /\
  (forall receipt,
     let rollback p := execute_rollback (with_port (Some p) svc) dw clock id receipt principal now ref s in
     (exists e, forall p, rollback p = (s, Err e)) \/
     exists i operation_id, incident_read id s = Ok (Some i) /\ inc_state i = INC_ROLLING_BACK /\
       human_approved history (dw_decided_at dw) DEPLOYMENT_ROLLBACK (incident_risk_class i) (dt_target receipt)
         (digest_str (dt_artifact_digest receipt)) principal /\
       (micros (default now ref) < micros now + DEFAULT_GRANT_TTL)%Z /\
       forall p, match dp_rollback p receipt operation_id with
         | Err e => rollback p = (s, Err e)
         | Ok found =>
             let matching := bool_decide (found = REC_FOUND_MATCHING) in
             evolves s (rollback p).1 /\
             match rollback p with
             | (s', Ok i') => incident_read id s' = Ok (Some i') /\
                 inc_state i' = (if matching then INC_ROLLED_BACK else INC_FAILED) /\
                 exists g d, dg_target g = dt_target receipt /\ dg_action g = DEPLOYMENT_ROLLBACK /\
                   authority_stored (authority_of id g d (if matching then "succeeded" else "failed")
                     ("rollback for target " +:+ dt_target receipt +:+ ": " +:+ enum_value found)) s'
             | (s', Err _) => True
             end
         end).
Proof.
  split; [intros artifact deploy|intros receipt rollback].
  - pose proof (fun p => execute_deployment_spec svc dw clock id artifact principal now ref p s) as He.
    destruct (deployment_plan _ _ _ _ _ _ _ s) as [[[[[i l] d] g] req]|e] eqn:Hp; [right|by left; exists e].
    apply (deployment_plan_Ok _ history) in Hp as (w & Hh & Hst & Hl & Ha & Hlive & Ht & Hac & Hrt & Hra); [|done..].
    exists i, l, req. split_and!; try done; [apply Hh| |].
    + apply (si_reproduced _ _ (hd_sound _ _ _ _ Hh)). rewrite Hst. vm_compute. set_solver.
    + intros p. unfold deploy. rewrite He. destruct (dp_deploy p req) as [receipt|e] eqn:Hdp; [|done].
      pose proof (append_authority_spec clock id g d "succeeded" (deployed_detail artifact (rl_service l)) s) as Hap.
      destruct (append_authority_record _ _ _ _ _ _ s) as [s' [res|e]]; [|done]. destruct Hap as [Hf Hv].
      split_and!; [done|by eapply incident_aside_evolves; [exact Hf|apply authority_aside]|].
      exists g, d. split_and!; [done|done|by apply Hv, (proj1 Hs)].
  - pose proof (fun p => execute_rollback_spec svc dw clock id receipt principal now ref p s) as He.
    destruct (rollback_plan _ _ _ _ _ _ _ s) as [[[[i d] g] oid]|e] eqn:Hp; [right|by left; exists e].
    apply (rollback_plan_Ok _ history) in Hp as (w & Hh & Hst & Ha & Hlive & Ht & Hac); [|done..].
    exists i, oid. split_and!; [apply Hh|done|done|done|]. intros p. unfold rollback. rewrite He.
    destruct (dp_rollback p receipt oid) as [found|e]; [|done]. cbv zeta.
    destruct (settle_rollback_spec clock id i w (dt_target receipt) d g found s Hs Hh) as [Hev Hset].
    split; [done|]. destruct (settle_rollback _ _ _ _ _ _ _ s) as [s' [i'|e]]; [|done].
    destruct Hset as (Hh' & Hs' & Hau). split_and!; [apply Hh'|done|]. exists g, d. by split_and!.
Qed.
End Broker.

(** ** The remaining calls *)
Section Calls.
Context `{rt : PyRuntime} `{iso : IsoCodec} `{pv : PyValues}.

Lemma deployment_evolves svc dw clock id artifact principal now ref s :
  evolves s (execute_deployment svc dw clock id artifact principal now ref s).1.
Proof.
  destruct svc as [[p|] pol].
  - change {| is_deployment := Some p; is_policy := pol |}
      with (with_port (Some p) {| is_deployment := Some p; is_policy := pol |}).
    rewrite execute_deployment_spec. destruct (deployment_plan _ _ _ _ _ _ _ s) as [[[[[i l] d] g] req]|e]; [|apply (reflexivity (R := evolves))].
    destruct (dp_deploy p req) as [receipt|e]; [|apply (reflexivity (R := evolves))].
    pose proof (append_authority_spec clock id g d "succeeded" (deployed_detail artifact (rl_service l)) s) as Hap.
    destruct (append_authority_record _ _ _ _ _ _ s) as [s' [res|e]]; cbn [fst]; [|subst s'; apply (reflexivity (R := evolves))].
    eapply incident_aside_evolves; [apply Hap|apply authority_aside].
  - assert (Hr : reads (execute_deployment {| is_deployment := None; is_policy := pol |} dw clock id artifact principal now ref)).
    { intros x. unfold execute_deployment. rewrite asks_tx. destruct (incident_require id x) as [i|]; [|done].
      do 5 (rewrite lift_tx; match goal with |- context [match ?r with Ok _ => _ | Err _ => _ end] => destruct r end; [|done]).
      by rewrite lift_tx. }
    exact (ensures_reads evolves _ Hr s).
Qed.
Lemma rollback_evolves svc dw clock id receipt principal now ref s :
  evolves s (execute_rollback svc dw clock id receipt principal now ref s).1.
Proof.
  destruct svc as [[p|] pol].
  - change {| is_deployment := Some p; is_policy := pol |}
      with (with_port (Some p) {| is_deployment := Some p; is_policy := pol |}).
    rewrite execute_rollback_spec. destruct (rollback_plan _ _ _ _ _ _ _ s) as [[[[i d] g] oid]|e] eqn:Hp; [|apply (reflexivity (R := evolves))].
    destruct (dp_rollback p receipt oid) as [found|e]; [|apply (reflexivity (R := evolves))].
    unfold rollback_plan in Hp. apply bind_Ok in Hp as (i0 & Hi & Hp). apply raise_if_Ok in Hp as [_ Hp].
    apply bind_Ok in Hp as ([] & _ & Hp). apply bind_Ok in Hp as (? & _ & Hp). injection Hp as -> _ _ _.
    intros Hs. pose proof (incident_require_holds _ _ _ Hs Hi) as [w Hh].
    exact (proj1 (settle_rollback_spec clock id i w (dt_target receipt) d g found s Hs Hh) Hs).
  - assert (Hr : reads (execute_rollback {| is_deployment := None; is_policy := pol |} dw clock id receipt principal now ref)).
    { intros x. unfold execute_rollback. rewrite asks_tx. destruct (incident_require id x) as [i|]; [|done].
      do 5 (rewrite lift_tx; match goal with |- context [match ?r with Ok _ => _ | Err _ => _ end] => destruct r end; [|done]).
      by rewrite lift_tx. }
    exact (ensures_reads evolves _ Hr s).
Qed.
Lemma follow_up_evolves clock fresh id title objective criteria targets constraints s :
  evolves s (record_follow_up clock fresh id title objective criteria targets constraints s).1.
Proof.
  unfold record_follow_up. rewrite asks_tx. destruct (incident_require id s) as [i|]; [|reflexivity].
  rewrite lift_tx. destruct (mk_identifier _) as [fid|] eqn:Hf; [|reflexivity].
  apply mk_identifier_Ok in Hf as [-> _]. rewrite lift_tx.
  destruct (work_item_post_init _) as [w|]; [|reflexivity]. rewrite bind_tx.
  match goal with |- context [append_events clock ?c ?w s] =>
    pose proof (append_events_spec clock c w s) as H; destruct (append_events clock c w s) as [s' [r|e]] end;
    cbn [fst mret tx_ret]; [|by subst s'].
  destruct H as ([|e1 [|e2 [|]]] & Hw & Hfr & _); try done. injection Hw as H1 H2.
  apply mk_event_write_Ok in H1 as ->. apply mk_event_write_Ok in H2 as ->.
  eapply incident_aside_evolves; [exact Hfr|]. intros x (k & [->| ->]) Hin; cbn in Hin;
    apply elem_of_cons in Hin as [Hin|Hin%list_elem_of_singleton]; discriminate.
Qed.
End Calls.

(** ** Histories *)
Inductive IncidentCall :=
| IcIngest (source_provider external_reference source_snapshot_reference title objective : string)
    (acceptance_criteria repository_targets : list string) (severity : IncidentSeverity) (summary : string)
    (constraints : list string)
| IcClassify (incident_id : string) (severity : option IncidentSeverity)
| IcBindLineage (incident_id : string) (lineage : ReleaseLineage)
| IcContain (incident_id description rationale : string)
| IcResolveContainment (incident_id : string) (mitigated : bool)
| IcBeginReproduction (incident_id : string)
| IcAttemptReproduction (incident_id : string) (check : () -> result ReproductionRecord)
| IcMarkHotfixReady (incident_id : string)
| IcBeginDeployment (incident_id : string)
| IcBeginObservation (incident_id : string)
| IcResolveObservation (incident_id : string) (healthy : bool)
| IcDeploy (svc : IncidentService) (dw : Drawn) (incident_id : string) (artifact : ReleaseArtifact)
    (requesting_principal_id : string) (now : datetime) (reference_time : option datetime)
| IcRollback (svc : IncidentService) (dw : Drawn) (incident_id : string) (receipt : DeploymentReceipt)
    (requesting_principal_id : string) (now : datetime) (reference_time : option datetime)
| IcFollowUp (fresh_id incident_id title objective : string)
    (acceptance_criteria repository_targets constraints : list string)
| IcLedger (op : LedgerOp).
(** The ledger after a call, whether it returned or raised, at clock text [clock]. *)
Definition incident_step `{PyRuntime} `{IsoCodec} `{PyValues} (s : Ledger) (call : string * IncidentCall) : Ledger :=
  let '(clock, c) := call in
  match c with
  | IcIngest p r snap title objective crit targets sev summary constraints =>
      (ingest clock p r snap title objective crit targets sev summary constraints s).1
  | IcClassify id sev => (classify clock id sev s).1
  | IcBindLineage id l => (bind_lineage clock id l s).1
  | IcContain id d r => (contain clock id d r s).1
  | IcResolveContainment id b => (resolve_containment clock id b s).1
  | IcBeginReproduction id => (begin_reproduction clock id s).1
  | IcAttemptReproduction id check => (attempt_reproduction clock id check s).1
  | IcMarkHotfixReady id => (mark_hotfix_ready clock id s).1
  | IcBeginDeployment id => (begin_deployment clock id s).1
  | IcBeginObservation id => (begin_observation clock id s).1
  | IcResolveObservation id b => (resolve_observation clock id b s).1
  | IcDeploy svc dw id a p now ref => (execute_deployment svc dw clock id a p now ref s).1
  | IcRollback svc dw id r p now ref => (execute_rollback svc dw clock id r p now ref s).1
  | IcFollowUp fresh id title objective crit targets constraints =>
      (record_follow_up clock fresh id title objective crit targets constraints s).1
  | IcLedger op => ledger_step s (clock, op)
  end.
Definition incident_run `{PyRuntime} `{IsoCodec} `{PyValues} (history : list (string * IncidentCall))
    (s : Ledger) : Ledger := foldl incident_step s history.
(** Typed arguments were constructed, and nothing else appends to incidents or their
    work items. *)
Definition incident_call_ok (call : string * IncidentCall) : Prop :=
  match call.2 with
  | IcBindLineage _ l => release_lineage_post_init l = Ok l
  | IcAttemptReproduction _ check => forall r, check () = Ok r -> reproduction_record_post_init r = Ok r
  | IcLedger op => op_avoids incident_aggregates op
  | _ => True
  end.

Section History.
Context `{rt : PyRuntime} `{iso : IsoCodec} `{pv : PyValues}.

Lemma incident_step_evolves s call : incident_call_ok call -> evolves s (incident_step s call).
Proof.
  intros Hok. destruct call as [clock c]. destruct c; cbn [incident_step incident_call_ok snd] in *.
  - intros Hs. pose proof (ingest_spec clock source_provider external_reference source_snapshot_reference title
      objective acceptance_criteria repository_targets severity summary constraints s Hs) as H. revert Hs.
    destruct (ingest _ _ _ _ _ _ _ _ _ _ _ s) as [s' [i|e]]; cbn [fst]; [apply H|].
    subst s'. apply (reflexivity (R := evolves)).
  - apply update_evolves_call. intros i i'. apply classify_later.
  - apply update_evolves_call. intros i i' Hi. by apply lineage_later.
  - apply update_evolves_call. intros i i'. apply contain_later.
  - apply update_evolves_call. intros i i' Hi Ht. eapply transition_later; [done..|by destruct mitigated].
  - apply update_evolves_call. intros i i' Hi Ht. by eapply transition_later.
  - apply update_evolves_call. intros i i' Hi. by apply reproduction_later.
  - apply update_evolves_call. intros i i' Hi Ht. by eapply transition_later.
  - apply update_evolves_call. intros i i' Hi Ht. by eapply transition_later.
  - apply update_evolves_call. intros i i' Hi Ht. by eapply transition_later.
  - apply update_evolves_call. intros i i' Hi Ht. eapply transition_later; [done..|by destruct healthy].
  - apply deployment_evolves.
  - apply rollback_evolves.
  - apply follow_up_evolves.
  - eapply incident_aside_evolves; [by apply (ledger_step_frame incident_aggregates)|done].
Qed.
Lemma incident_run_evolves history s : Forall incident_call_ok history -> evolves s (incident_run history s).
Proof.
  intros Hf. unfold incident_run. revert s. induction Hf as [|call history Hok _ IH]; intros s; [reflexivity|].
  cbn [foldl]. etrans; [by apply incident_step_evolves|apply IH].
Qed.

(** C9: whatever calls are made on the incident service (with any broker, check and
    policy) and on the ledger besides, returning or raising: an incident and its work
    item both exist or neither does; the incident can always be read back, is
    constructed, keeps its identity, and has a record of a successful reproduction
    behind every state from [remediating] on; its work item is never moved past [new]
    nor changed at all; and the incident read later has come from the earlier one by
    operations of the aggregate only. *)
Theorem incident_history_sound s h1 h2 id
    (Hs : wf_ledger s) (Hno : forall k, absent k s)
    (H1 : Forall incident_call_ok h1) (H2 : Forall incident_call_ok h2) :
  let s1 := incident_run h1 s in
  let s2 := incident_run h2 s1 in
  match incident_read id s1 with
  | Err _ => False
  | Ok None => read_work_item (bound_work_item_id id) s1 = Ok None
  | Ok (Some i) => sound_incident id i /\ exists w i',
      read_work_item (inc_work_item_id i) s1 = Ok (Some w) /\ bound_item id w /\
      read_work_item (inc_work_item_id i) s2 = Ok (Some w) /\
      incident_read id s2 = Ok (Some i') /\ sound_incident id i' /\ rtc aggregate_step i i'
  end.
Proof.
  intros s1 s2. destruct (incident_run_evolves h1 s H1) as [Hok1 _]; [by split; [|left]|].
  fold s1 in Hok1. destruct (incident_run_evolves h2 s1 H2 Hok1) as [_ Hev]. fold s2 in Hev.
  destruct (proj2 Hok1 id) as [[-> Hn]|(i & w & Hh)]; [done|].
  destruct (Hev id i w Hh) as (i' & [A1 A2 A3 A4] & Hr). destruct Hh as [B1 B2 B3 B4].
  rewrite B1. split; [done|]. exists w, i'. rewrite (si_work_item _ _ B2). by split_and!.
Qed.
End History.

(** ** Witnesses *)
Module Demo.
#[local] Existing Instance IdentityProofs.toy_runtime.
#[local] Existing Instance toy_iso.
#[local] Existing Instance RecordProofs.Demo.toy_values.
Definition incident_1 : string := Eval vm_compute in match incident_id_for "pager" "page-1" with Ok id => id | Err _ => "" end.
Definition lineage : ReleaseLineage := {|
  rl_service := "checkout"; rl_affected_revision := "r2"; rl_known_good_revision := Some "r1" |}.
Definition intake_calls : list (string * IncidentCall) := [
  ("t0", IcIngest "pager" "page-1" "snapshot-1" "checkout fails" "restore checkout" ["orders pass"] ["shop"]
     SEV_HIGH "orders fail" []);
  ("t1", IcClassify incident_1 (Some SEV_CRITICAL));
  ("t2", IcBindLineage incident_1 lineage);
  ("t3", IcBeginReproduction incident_1);
  ("t4", IcAttemptReproduction incident_1 (fun _ => Ok {| rr_outcome := REPRO_REPRODUCED; rr_detail := "fails" |}))].
Definition artifact : ReleaseArtifact := {|
  ra_version := "r3"; ra_digest := {| algorithm := "sha256"; hex_value := sha256_hex [] |};
  ra_media_type := "application/gzip" |}.
Definition history : list RegistryOp := [
  RRegister PolicyProofs.Demo.alice;
  RApprove "approval-1" (deployment_request_schema DEPLOYMENT_EXECUTE RISK_HIGH "checkout"
      (digest_str (ra_digest artifact)) "agent-1")
    [PolicyProofs.Demo.alice] None None (Aware 0)].
Definition port : DeploymentPort := {|
  dp_deploy := fun req => Ok {| dt_target := dq_target req; dt_artifact_digest := ra_digest (dq_artifact req);
                                dt_deployment_id := "deployment-1" |};
  dp_rollback := fun _ _ => Ok REC_FOUND_MATCHING |}.
Definition evaluator : PolicyEvaluator := {|
  pe_policy_version := "v1"; pe_rules := []; pe_approval_registry := Some (registry_run history).1 |}.
Definition service : IncidentService := {|
  is_deployment := Some port;
  is_policy := Some evaluator |}.
Lemma registry_ok : registry_from service history.
Proof.
  intros e g He Hg. change (Some evaluator = Some e) in He. apply (inj Some) in He as <-.
  change (Some (registry_run history).1 = Some g) in Hg. by apply (inj Some) in Hg as <-.
Qed.
Definition drawn : Drawn := {| dw_decision_id := "decision-1"; dw_decided_at := Aware 5; dw_grant_id := "grant-1" |}.
Definition later_calls : list (string * IncidentCall) := [
  ("t5", IcBeginDeployment incident_1);
  ("t6", IcDeploy service drawn incident_1 artifact "agent-1" (Aware 10) None);
  ("t7", IcBeginObservation incident_1)].
Lemma empty_absent k : absent k empty_ledger.
Proof. split; unfold incident_read, read_work_item, read_projection; cbn; by rewrite lookup_empty. Qed.
Definition s1 : Ledger := incident_run intake_calls empty_ledger.
Definition s2 : Ledger := incident_run later_calls s1.
Lemma intake_ok : Forall incident_call_ok intake_calls.
Proof. repeat constructor. cbn. by intros r [= <-]. Qed.
Lemma later_ok : Forall incident_call_ok later_calls.
Proof. repeat constructor. Qed.
Lemma incident_history_sound_witness : exists i i',
  incident_read incident_1 s1 = Ok (Some i) /\ incident_read incident_1 s2 = Ok (Some i') /\
  inc_state i = INC_REMEDIATING /\ inc_state i' = INC_OBSERVING /\ rtc aggregate_step i i'.
Proof.
  pose proof (incident_history_sound empty_ledger intake_calls later_calls incident_1 wf_empty_ledger
    empty_absent intake_ok later_ok) as H. cbv zeta in H.
  change (incident_run intake_calls empty_ledger) with s1 in H. change (incident_run later_calls s1) with s2 in H.
  assert (Hr : exists i, incident_read incident_1 s1 = Ok (Some i) /\ inc_state i = INC_REMEDIATING)
    by (eexists; split; vm_compute; reflexivity).
  assert (Hr' : exists i', incident_read incident_1 s2 = Ok (Some i') /\ inc_state i' = INC_OBSERVING)
    by (eexists; split; vm_compute; reflexivity).
  destruct Hr as (i & Hr & Hi). destruct Hr' as (i' & Hr' & Hi'). rewrite Hr in H.
  destruct H as (_ & w & i2 & _ & _ & _ & Hi2 & _ & Hlater). rewrite Hr' in Hi2. injection Hi2 as <-.
  exists i, i'. split_and!; [exact Hr|exact Hr'|exact Hi|exact Hi'|exact Hlater].
Defined.
(** The state in which the deployment is executed. *)
Definition deploying : Ledger := incident_run [("t5", IcBeginDeployment incident_1)] s1.
Lemma deploying_ok : incidents_ok deploying.
Proof.
  apply (incident_run_evolves [("t5", IcBeginDeployment incident_1)] s1); [by repeat constructor|].
  apply (incident_run_evolves intake_calls empty_ledger intake_ok). split; [exact wf_empty_ledger|].
  intros k. left. apply empty_absent.
Qed.
Lemma broker_rests_on_approval_witness : exists receipt,
  (execute_deployment service drawn "t6" incident_1 artifact "agent-1" (Aware 10) None deploying).2 = Ok receipt /\
  dt_target receipt = "checkout" /\
  human_approved history (Aware 5) DEPLOYMENT_EXECUTE RISK_HIGH "checkout" (digest_str (ra_digest artifact)) "agent-1".
Proof.
  destruct (broker_rests_on_approval service history drawn "t6" incident_1 "agent-1" (Aware 10) None deploying
    registry_ok deploying_ok) as [Hd _]. specialize (Hd artifact). cbv zeta in Hd.
  assert (Hrun : exists receipt, (execute_deployment service drawn "t6" incident_1 artifact "agent-1" (Aware 10) None deploying).2
    = Ok receipt /\ dt_target receipt = "checkout") by (eexists; split; vm_compute; reflexivity).
  assert (Hread : exists i, incident_read incident_1 deploying = Ok (Some i) /\ inc_severity i = SEV_CRITICAL /\
    inc_release_lineage i = Some lineage) by (eexists; split_and!; vm_compute; reflexivity).
  destruct Hrun as (receipt & Hrun & Ht). destruct Hread as (i & Hi & Hsev & Hl). exists receipt.
  split; [exact Hrun|]. split; [exact Ht|]. destruct Hd as [[e He]|(i2 & l & req & Hi2 & _ & _ & Hl2 & _ & _ & Ha & _)].
  - specialize (He port). change (with_port (Some port) service) with service in He. rewrite He in Hrun. discriminate Hrun.
  - rewrite Hi in Hi2. injection Hi2 as <-. rewrite Hl in Hl2. injection Hl2 as <-.
    unfold incident_risk_class in Ha. rewrite Hsev in Ha. exact Ha.
Defined.
End Demo.
