(* ===== verification/Outcomes.v ===== *)
(** * Outcome capture ([evaluation/outcomes.py])

    Registration, capture, sweeping and expiry of observations on the ledger, and the
    completeness they report.  The pull-request port answers through a function. *)
From S2P Require Import Prelude PyText Json Identity StateMachine Lifecycles Aggregates Redaction.
From S2P Require Import Ledger Coordinator Runtime LedgerCalls Serialization Records.
From Stdlib Require Import SpecFloat.

Definition OBSERVATION_AGGREGATE_TYPE : string := "observation".
Definition OUTCOME_AGGREGATE_TYPE : string := "outcome".
Definition days (n : Z) : timedelta := (n * 86400 * 1000000)%Z.
Definition DEFAULT_WINDOWS (kind : OutcomeKind) : option timedelta :=
  match kind with
  | OUT_MERGE_RESULT => Some (days 14)
  | OUT_REOPENED_ISSUE | OUT_ESCAPED_DEFECT => Some (days 90)
  | _ => None
  end.
Definition DEFAULT_WINDOW : timedelta := days 30.
Definition AUTO_SWEEPABLE_KINDS : list OutcomeKind := [OUT_MERGE_RESULT].

(** ** Completeness *)
Definition COMPLETENESS_DERIVATION_VERSION : Z := 1.
Record CompletenessReport := {
  cr_derivation_version : Z; cr_captured : nat; cr_indeterminate : nat; cr_pending : nat;
  cr_completeness : spec_float }.
(** [a / b] of two counts: both are doubles, below 2 ** 53. *)
Definition count_ratio (a b : nat) : spec_float :=
  SFdiv 53 1024 (binary_normalize 53 1024 (Z.of_nat a) 0 false) (binary_normalize 53 1024 (Z.of_nat b) 0 false).
Definition tally (acc : nat * nat * nat) (o : ObservationRequest) : nat * nat * nat :=
  let '(captured, indeterminate, pending) := acc in
  match obs_state o with
  | OBS_CAPTURED => (S captured, indeterminate, pending)
  | OBS_INDETERMINATE => (captured, S indeterminate, pending)
  | OBS_PENDING => (captured, indeterminate, S pending)
  end.
Definition compute_completeness (observations : list ObservationRequest) : CompletenessReport :=
  let '(captured, indeterminate, pending) := foldl tally (0, 0, 0)%nat observations in
  let denominator := (captured + indeterminate)%nat in
  {| cr_derivation_version := COMPLETENESS_DERIVATION_VERSION; cr_captured := captured;
     cr_indeterminate := indeterminate; cr_pending := pending;
     cr_completeness := if Nat.eqb denominator 0 then binary_normalize 53 1024 1 0 false
                        else count_ratio captured denominator |}.

(** ** Pull requests ([application/work_ports.py]) *)
Record PullRequestSnapshot := {
  prs_number : Z; prs_url : string; prs_state : string; prs_head_branch : string; prs_head_revision : string;
  prs_base_branch : string; prs_base_revision : string; prs_merged : bool }.
Definition pull_request_snapshot_post_init (p : PullRequestSnapshot) : result PullRequestSnapshot :=
  raise_when (prs_number p <? 1)%Z as PyValueError ;;
  raise_when existsb blank [prs_url p; prs_state p; prs_head_branch p; prs_head_revision p;
                            prs_base_branch p; prs_base_revision p] as PyValueError ;;
  Ok p.
Definition classify_pull_request_outcome (snapshot : PullRequestSnapshot) : option OutcomeKind :=
  if prs_merged snapshot then Some OUT_PR_ACCEPTED
  else if String.eqb (prs_state snapshot) "closed" then Some OUT_PR_ABANDONED
  else None.

(** [str.isdigit()]: ASCII digits and the superscripts one, two and three are the digits
    of Latin-1. *)
Definition py_isdigit_char (c : Ascii.ascii) : bool :=
  ((48 <=? code c)%N && (code c <=? 57)%N) || bool_decide (code c ∈ [178; 179; 185]%N).
Definition py_isdigit (s : string) : bool :=
  negb (String.eqb s "") && forallb py_isdigit_char (chars s).

Definition observation_id_for (run_id : string) (kind : OutcomeKind) : result string :=
  mk_identifier (run_id +:+ ":" +:+ enum_value kind).

Section Outcomes.
Context `{rt : PyRuntime} `{iso : IsoCodec} `{pv : PyValues}.

(** ** Reads *)
Definition read_observation (observation_id : string) (s : Ledger) : result (option ObservationRequest) :=
  match read_projection OBSERVATION_AGGREGATE_TYPE observation_id s with
  | None => Ok None
  | Some p => raw ← state_dict p; o ← observation_from_dict raw; Ok (Some o)
  end.
Definition read_outcome (outcome_id : string) (s : Ledger) : result (option Outcome) :=
  match read_projection OUTCOME_AGGREGATE_TYPE outcome_id s with
  | None => Ok None
  | Some p => raw ← state_dict p; o ← outcome_from_dict raw; Ok (Some o)
  end.
Definition require_observation (observation_id : string) (s : Ledger) : result ObservationRequest :=
  observation ← read_observation observation_id s;
  from_option_err InvalidInputError observation.
Definition list_observations (state : option ObservationState) (s : Ledger) : result (list ObservationRequest) :=
  observations ← mapM_result (fun kp => raw ← state_dict kp.2; observation_from_dict raw)
                   (list_projections OBSERVATION_AGGREGATE_TYPE s);
  Ok (match state with
      | None => observations
      | Some st => List.filter (fun o => bool_decide (obs_state o = st)) observations
      end).
Definition list_outcomes (s : Ledger) : result (list Outcome) :=
  mapM_result (fun kp => raw ← state_dict kp.2; outcome_from_dict raw) (list_projections OUTCOME_AGGREGATE_TYPE s).
Definition completeness (s : Ledger) : result CompletenessReport :=
  observations ← list_observations None s; Ok (compute_completeness observations).

(** ** Appends *)
Definition append_observation (clock : string) (observation : ObservationRequest) (expected_version : Z)
    : tx AppendResult :=
  append_events clock ("observation-register:" +:+ obs_id observation)
    [mk_versioned_write OBSERVATION_AGGREGATE_TYPE (obs_id observation) expected_version
       "observation.registered" (obs_schema_version observation) (observation_to_dict observation)].
Definition append_capture (clock : string) (resolved : ObservationRequest) (outcome : Outcome) : tx AppendResult :=
  append_events clock ("observation-capture:" +:+ obs_id resolved)
    [mk_versioned_write OBSERVATION_AGGREGATE_TYPE (obs_id resolved) 1 "observation.captured"
       (obs_schema_version resolved) (observation_to_dict resolved);
     mk_versioned_write OUTCOME_AGGREGATE_TYPE (oc_id outcome) 0 "outcome.recorded"
       (oc_schema_version outcome) (outcome_to_dict outcome)].
Definition append_expiry (clock : string) (resolved : ObservationRequest) : tx AppendResult :=
  append_events clock ("observation-expire:" +:+ obs_id resolved)
    [mk_versioned_write OBSERVATION_AGGREGATE_TYPE (obs_id resolved) 1 "observation.expired"
       (obs_schema_version resolved) (observation_to_dict resolved)].

(** ** Operations *)
Definition register_pending (clock work_item_id run_id : string) (kind : OutcomeKind) (subject_reference : string)
    (opened_at : datetime) (window : option timedelta) : tx ObservationRequest :=
  observation_id ← lift (observation_id_for run_id kind);
  existing ← asks (read_observation observation_id);
  match existing with
  | Some existing => mret existing
  | None =>
      observation ← lift (observation_post_init {|
        obs_id := observation_id; obs_work_item_id := work_item_id; obs_run_id := run_id; obs_kind := kind;
        obs_opened_at := opened_at;
        obs_window := default (default DEFAULT_WINDOW (DEFAULT_WINDOWS kind)) window;
        obs_state := OBS_PENDING; obs_resolved_at := None; obs_outcome_id := None;
        obs_detail := [("subject_reference", JStr subject_reference)]; obs_schema_version := 1 |});
      on_conflict (_ ← append_observation clock observation 0; mret observation)
        (resolved ← asks (read_observation observation_id);
         lift (from_option_err ExpectedVersionConflictError resolved))
  end.
Definition capture (clock observation_id outcome_id : string) (kind : OutcomeKind) (observed_at : datetime)
    (detail : list (string * json)) (linked_work_item_id : option string) : tx Outcome :=
  observation ← asks (require_observation observation_id);
  outcome ← lift (outcome_post_init {|
    oc_id := outcome_id; oc_work_item_id := obs_work_item_id observation; oc_kind := kind;
    oc_observed_at := observed_at; oc_run_id := Some (obs_run_id observation);
    oc_linked_work_item_id := linked_work_item_id; oc_detail := detail; oc_schema_version := 1 |});
  resolved ← lift (resolve_captured observation outcome_id observed_at);
  _ ← append_capture clock resolved outcome;
  mret outcome.

(** [_sweep_merge_result]; the port answers a number with a snapshot, or raises. *)
Definition sweep_merge_result (clock : string) (pull_requests : option (Z -> result PullRequestSnapshot))
    (observation : ObservationRequest) (reference_time : datetime) : tx (option Outcome) :=
  let subject_reference := str_of (default (JStr "") (dict_get "subject_reference" (obs_detail observation))) in
  match pull_requests with
  | None => mret None
  | Some get =>
      if negb (py_isdigit subject_reference) then mret None
      else
        number ← lift (int_of_text subject_reference);
        snapshot ← lift (get number);
        match classify_pull_request_outcome snapshot with
        | None => mret None
        | Some resolved_kind =>
            outcome_id ← lift (mk_identifier (obs_run_id observation +:+ ":" +:+ enum_value resolved_kind));
            outcome ← capture clock (obs_id observation) outcome_id resolved_kind reference_time
              [("pull_request_number", JInt (prs_number snapshot)); ("pull_request_state", JStr (prs_state snapshot))]
              None;
            mret (Some outcome)
        end
  end.
Definition sweep_one (clock : string) (pull_requests : option (Z -> result PullRequestSnapshot))
    (reference_time : datetime) (captured : list Outcome) (observation : ObservationRequest) : tx (list Outcome) :=
  if negb (bool_decide (obs_kind observation ∈ AUTO_SWEEPABLE_KINDS)) then mret captured
  else
    outcome ← sweep_merge_result clock pull_requests observation reference_time;
    mret (match outcome with Some o => captured ++ [o] | None => captured end).
Definition sweep (clock : string) (pull_requests : option (Z -> result PullRequestSnapshot))
    (reference_time : datetime) : tx (list Outcome) :=
  pending ← asks (list_observations (Some OBS_PENDING));
  foldM_tx (sweep_one clock pull_requests reference_time) pending [].
Definition expire_one (clock : string) (reference_time : datetime) (expired : list ObservationRequest)
    (observation : ObservationRequest) : tx (list ObservationRequest) :=
  overdue ← lift (is_overdue observation reference_time);
  if negb (overdue : bool) then mret expired
  else
    resolved ← lift (resolve_indeterminate observation reference_time);
    _ ← append_expiry clock resolved;
    mret (expired ++ [resolved]).
Definition expire_overdue (clock : string) (reference_time : datetime) : tx (list ObservationRequest) :=
  pending ← asks (list_observations (Some OBS_PENDING));
  foldM_tx (expire_one clock reference_time) pending [].
End Outcomes.
