(* ===== verification/OutcomeProofs.v ===== *)
(** * Observations and outcomes, over any history

    An observation is pending at its first version or resolved at its second and never
    changes after that; a captured one and its outcome are stored together. *)
From S2P Require Import Prelude PyText Json Identity IdentityProofs JsonCanon StateMachine.
From S2P Require Import Lifecycles Aggregates LifecycleProofs Redaction Ledger LedgerProofs.
From S2P Require Import LedgerTheorems Coordinator CoordinatorProofs Serialization.
From S2P Require Import Runtime LedgerCalls Records RecordProofs.
From S2P Require Import Outcomes.

Definition observation_ref (id : string) : ref := (OBSERVATION_AGGREGATE_TYPE, id).
Definition outcome_ref (id : string) : ref := (OUTCOME_AGGREGATE_TYPE, id).
Definition outcome_aggregates (r : ref) : Prop :=
  r.1 = OBSERVATION_AGGREGATE_TYPE \/ r.1 = OUTCOME_AGGREGATE_TYPE.

(** ** Resolution *)
Definition resolves (o o' : ObservationRequest) : Prop :=
  obs_state o = OBS_PENDING /\
  ((exists outcome_id t, resolve_captured o outcome_id t = Ok o') \/
   (exists t, resolve_indeterminate o t = Ok o')).
(** A later value: the same, or the pending one's only resolution. *)
Definition observation_later (o o' : ObservationRequest) : Prop := o' = o \/ resolves o o'.
Lemma obs_resolve_Ok o st t oc o' : obs_resolve o st t oc = Ok o' ->
  o' = {| obs_id := obs_id o; obs_work_item_id := obs_work_item_id o; obs_run_id := obs_run_id o;
          obs_kind := obs_kind o; obs_opened_at := obs_opened_at o; obs_window := obs_window o;
          obs_state := st; obs_resolved_at := Some t; obs_outcome_id := oc; obs_detail := obs_detail o;
          obs_schema_version := obs_schema_version o |} /\ observation_post_init o' = Ok o'.
Proof.
  unfold obs_resolve. set (x := Build_ObservationRequest _ _ _ _ _ _ _ _ _ _ _). intros H.
  assert (o' = x) as ->; [|done]. clearbody x. unfold observation_post_init in H.
  rewrite !raise_if_Ok in H. destruct H as (_ & _ & H). apply bind_Ok in H as (? & _ & H).
  rewrite !raise_if_Ok in H. naive_solver.
Qed.
(** What a resolution keeps and sets. *)
Lemma resolve_facts o o' : resolves o o' -> exists st t oc, obs_resolve o st t oc = Ok o' /\
  ((st = OBS_CAPTURED /\ exists id, oc = Some id) \/ (st = OBS_INDETERMINATE /\ oc = obs_outcome_id o)).
Proof.
  intros [Hp [(id & t & H)|(t & H)]].
  - unfold resolve_captured in H. apply raise_if_Ok in H as [_ H]. exists OBS_CAPTURED, t, (Some id).
    split; [done|]. left. split; [done|by exists id].
  - unfold resolve_indeterminate in H. apply raise_if_Ok in H as [_ H]. apply bind_Ok in H as (? & _ & H).
    apply raise_if_Ok in H as [_ H]. exists OBS_INDETERMINATE, t, (obs_outcome_id o). split; [done|by right].
Qed.
Lemma resolved_not_pending o o' : resolves o o' -> obs_state o' <> OBS_PENDING.
Proof.
  intros (st & t & oc & [-> _]%obs_resolve_Ok & Hst)%resolve_facts. cbn.
  by destruct Hst as [[-> _]|[-> _]].
Qed.
#[export] Instance observation_later_preorder : PreOrder observation_later.
Proof.
  split; [by intros o; left|]. intros o1 o2 o3 [->|H1] [->|H2]; [by left|by right|by right|].
  exfalso. by eapply resolved_not_pending, H2.
Qed.

(** Constructed, under its identity, its details in canonical form. *)
Record sound_observation (id : string) (o : ObservationRequest) : Prop := {
  so_wf : wf_observation o;
  so_id : obs_id o = id;
  so_canon : observation_canon o = o;
}.
Lemma resolves_sound id o o' : sound_observation id o -> resolves o o' ->
  from_option valid_identifier True (obs_outcome_id o') -> sound_observation id o'.
Proof.
  intros [(Hids & _ & Hw & _) Hid Hc] Hr Hoc. apply resolve_facts in Hr as (st & t & oc & Hr & _).
  apply obs_resolve_Ok in Hr as [-> Hp]. split; cbn in *; [by split_and!|done|].
  unfold observation_canon. cbn. f_equal. exact (f_equal obs_detail Hc).
Qed.
(** The version at which a value is stored. *)
Definition phase (o : ObservationRequest) : Z := if bool_decide (obs_state o = OBS_PENDING) then 1%Z else 2%Z.
(** A captured observation and the outcome it names. *)
Record linked (o : ObservationRequest) (oc : Outcome) : Prop := {
  ln_state : obs_state o = OBS_CAPTURED;
  ln_outcome : obs_outcome_id o = Some (oc_id oc);
  ln_run : oc_run_id oc = Some (obs_run_id o);
  ln_work_item : oc_work_item_id oc = obs_work_item_id o;
  ln_time : obs_resolved_at o = Some (oc_observed_at oc);
}.

Section Stored.
Context `{rt : PyRuntime} `{iso : IsoCodec} `{pv : PyValues}.

Definition observation_holds (id : string) (o : ObservationRequest) (s : Ledger) : Prop :=
  sound_observation id o /\ exists ety sv,
    view_of (observation_ref id) s = Some (phase o, ety, sv, canon (JObj (observation_to_dict o))).
Definition outcome_holds (id : string) (oc : Outcome) (s : Ledger) : Prop :=
  (wf_outcome oc /\ oc_id oc = id) /\ exists ety sv,
    view_of (outcome_ref id) s = Some (1%Z, ety, sv, canon (JObj (outcome_to_dict oc))).
Record outcomes_ok (s : Ledger) : Prop := {
  ok_ledger : wf_ledger s;
  ok_observations : forall id, view_of (observation_ref id) s = None \/ exists o, observation_holds id o s;
  ok_outcomes : forall id, view_of (outcome_ref id) s = None \/ exists oc, outcome_holds id oc s;
  ok_captured : forall id o, observation_holds id o s -> obs_state o = OBS_CAPTURED ->
    exists oc, outcome_holds (oc_id oc) oc s /\ linked o oc;
  ok_recorded : forall id oc, outcome_holds id oc s -> exists k o, observation_holds k o s /\ linked o oc;
}.

(** ** Reads *)
Lemma observation_read_raw id s v ety sv raw o : observation_from_dict raw = Ok o ->
  view_of (observation_ref id) s = Some (v, ety, sv, JObj raw) -> read_observation id s = Ok (Some o).
Proof.
  intros Hr. unfold read_observation, read_projection, view_of, projection_view, state_dict, observation_ref.
  destruct (lg_projections s !! _) as [p|]; [|done]. cbn [fmap option_fmap option_map].
  intros H. injection H as _ _ _ ->. cbn [mbind result_bind]. by rewrite Hr.
Qed.
Lemma outcome_read_raw id s v ety sv raw o : outcome_from_dict raw = Ok o ->
  view_of (outcome_ref id) s = Some (v, ety, sv, JObj raw) -> read_outcome id s = Ok (Some o).
Proof.
  intros Hr. unfold read_outcome, read_projection, view_of, projection_view, state_dict, outcome_ref.
  destruct (lg_projections s !! _) as [p|]; [|done]. cbn [fmap option_fmap option_map].
  intros H. injection H as _ _ _ ->. cbn [mbind result_bind]. by rewrite Hr.
Qed.
Lemma observation_holds_read id o s : observation_holds id o s -> read_observation id s = Ok (Some o).
Proof.
  intros [[Hwf _ Hc] (ety & sv & Hv)]. rewrite <- Hc at 1.
  eapply observation_read_raw; [by apply observation_stored|exact Hv].
Qed.
Lemma outcome_holds_read id oc s : outcome_holds id oc s -> read_outcome id s = Ok (Some (outcome_canon oc)).
Proof.
  intros [[Hwf _] (ety & sv & Hv)]. eapply outcome_read_raw; [by apply outcome_stored|exact Hv].
Qed.
Lemma observation_absent id s : view_of (observation_ref id) s = None -> read_observation id s = Ok None.
Proof.
  unfold read_observation, read_projection, view_of, observation_ref. by destruct (lg_projections s !! _).
Qed.
Lemma outcome_absent id s : view_of (outcome_ref id) s = None -> read_outcome id s = Ok None.
Proof.
  unfold read_outcome, read_projection, view_of, outcome_ref. by destruct (lg_projections s !! _).
Qed.
Lemma observation_holds_unique id o o' s : observation_holds id o s -> observation_holds id o' s -> o' = o.
Proof. intros H%observation_holds_read H'%observation_holds_read. rewrite H in H'. by injection H'. Qed.
Lemma observation_read_holds id o s : outcomes_ok s -> read_observation id s = Ok (Some o) -> observation_holds id o s.
Proof.
  intros Hs Hr. destruct (ok_observations s Hs id) as [Hn|(o' & Hh)]; [by rewrite (observation_absent _ _ Hn) in Hr|].
  pose proof Hh as Hr'%observation_holds_read. rewrite Hr in Hr'. injection Hr' as ->. done.
Qed.

(** ** Evolution *)
Definition captures_evolve (s s' : Ledger) : Prop := outcomes_ok s -> outcomes_ok s' /\
  (forall id o, observation_holds id o s -> exists o', observation_holds id o' s' /\ observation_later o o') /\
  (forall id oc, outcome_holds id oc s -> outcome_holds id oc s').
#[export] Instance captures_evolve_preorder : PreOrder captures_evolve.
Proof.
  split.
  - intros s Hs. split_and!; [done| |done]. intros id o Ho. exists o. split; [done|reflexivity].
  - intros s1 s2 s3 H1 H2 Hs. destruct (H1 Hs) as (Hs2 & Ho2 & Hc2). destruct (H2 Hs2) as (Hs3 & Ho3 & Hc3).
    split_and!; [done| |auto]. intros id o (o2 & H & L)%Ho2. apply Ho3 in H as (o3 & H & L').
    exists o3. split; [done|by etrans].
Qed.
Lemma captures_aside P s s' : frame P s s' -> (forall r, outcome_aggregates r -> P r) -> captures_evolve s s'.
Proof.
  intros [_ W V] HP Hs. specialize (V (ok_ledger s Hs)).
  assert (E1 : forall id, view_of (observation_ref id) s' = view_of (observation_ref id) s)
    by (intros id; apply V, HP; by left).
  assert (E2 : forall id, view_of (outcome_ref id) s' = view_of (outcome_ref id) s)
    by (intros id; apply V, HP; by right).
  assert (T1 : forall id o, observation_holds id o s' <-> observation_holds id o s)
    by (intros; unfold observation_holds; by rewrite E1).
  assert (T2 : forall id oc, outcome_holds id oc s' <-> outcome_holds id oc s)
    by (intros; unfold outcome_holds; by rewrite E2).
  destruct Hs as [K1 K2 K3 K4 K5]. split_and!; [split| |].
  - by apply W.
  - intros id. rewrite E1. setoid_rewrite T1. apply K2.
  - intros id. rewrite E2. setoid_rewrite T2. apply K3.
  - intros id o. rewrite T1. setoid_rewrite T2. apply K4.
  - intros id oc. rewrite T2. setoid_rewrite T1. apply K5.
  - intros id o Ho. exists o. rewrite T1. split; [done|reflexivity].
  - intros id oc. by rewrite T2.
Qed.

(** One observation takes a new value, with the outcome of a capture beside it. *)
Definition written_refs (id : string) (oc : option Outcome) (r : ref) : Prop :=
  r <> observation_ref id /\ from_option (fun x => r <> outcome_ref (oc_id x)) True oc.
Lemma captures_step s s' id o' (oc : option Outcome) : outcomes_ok s -> frame (written_refs id oc) s s' ->
  observation_holds id o' s' ->
  (view_of (observation_ref id) s = None \/ exists o, observation_holds id o s /\ observation_later o o') ->
  match oc with
  | None => obs_state o' <> OBS_CAPTURED
  | Some x => view_of (outcome_ref (oc_id x)) s = None /\ outcome_holds (oc_id x) x s' /\ linked o' x
  end -> captures_evolve s s'.
Proof.
  intros Hs [_ W V] Ho' Hbefore Hoc _. pose proof (V (ok_ledger s Hs)) as Hv.
  assert (E1 : forall k, k <> id -> view_of (observation_ref k) s' = view_of (observation_ref k) s).
  { intros k Hk. apply Hv. split; [by intros [= ?]|by destruct oc]. }
  assert (E2 : forall k, from_option (fun x => oc_id x <> k) True oc ->
    view_of (outcome_ref k) s' = view_of (outcome_ref k) s).
  { intros k Hk. apply Hv. split; [done|]. destruct oc as [x|]; [|done]. cbn in *. intros [= ?]. congruence. }
  assert (T1 : forall k o, k <> id -> observation_holds k o s' <-> observation_holds k o s).
  { intros k o Hk. unfold observation_holds. by rewrite E1. }
  assert (T2 : forall k x, outcome_holds k x s -> outcome_holds k x s').
  { intros k x [Hx (ety & sv & Hview)]. split; [done|]. exists ety, sv. rewrite E2; [done|].
    destruct oc as [y|]; [|done]. cbn. intros Hy. destruct Hoc as (Hn & _). rewrite Hy, Hview in Hn. done. }
  assert (Hobs : forall k o, observation_holds k o s -> exists o2, observation_holds k o2 s' /\ observation_later o o2).
  { intros k o Ho. destruct (decide (k = id)) as [->|Hk].
    - exists o'. split; [done|]. destruct Hbefore as [Hn|(o1 & Ho1 & Hl)].
      + destruct Ho as [_ (? & ? & Hx)]. by rewrite Hn in Hx.
      + by rewrite (observation_holds_unique _ _ _ _ Ho1 Ho).
    - exists o. split; [by apply T1|reflexivity]. }
  split_and!; [|exact Hobs|exact T2].
  split; [by apply W, ok_ledger|..].
  - intros k. destruct (decide (k = id)) as [->|Hk]; [right; by exists o'|].
    destruct (ok_observations s Hs k) as [Hn|(o & Ho)]; [left; by rewrite E1|right; exists o; by apply T1].
  - intros k. destruct oc as [x|].
    + destruct (decide (oc_id x = k)) as [<-|Hk]; [right; exists x; apply Hoc|].
      destruct (ok_outcomes s Hs k) as [Hn|(y & Hy)]; [left; by rewrite E2|right; exists y; by apply T2].
    + destruct (ok_outcomes s Hs k) as [Hn|(y & Hy)]; [left; by rewrite E2|right; exists y; by apply T2].
  - intros k o Ho Hc. destruct (decide (k = id)) as [->|Hk].
    + pose proof (observation_holds_unique _ _ _ _ Ho' Ho) as ->.
      destruct oc as [x|]; [exists x; split; apply Hoc|done].
    + apply T1 in Ho; [|done]. destruct (ok_captured s Hs k o Ho Hc) as (y & Hy & Hl).
      exists y. split; [by apply T2|done].
  - intros k x Hx.
    assert (Hcase : (exists y, oc = Some y /\ oc_id y = k) \/ outcome_holds k x s).
    { destruct oc as [y|]; [destruct (decide (oc_id y = k)) as [Hy|Hy]; [left; by exists y|right]|right];
        destruct Hx as [Hx1 (ety & sv & Hview)]; (split; [done|]); exists ety, sv; by rewrite <- E2. }
    destruct Hcase as [(y & -> & <-)|Hold].
    + destruct Hoc as (_ & Hy & Hl). exists id, o'. split; [done|].
      pose proof (outcome_holds_read _ _ _ Hx) as R1. pose proof (outcome_holds_read _ _ _ Hy) as R2.
      assert (Hr : outcome_canon x = outcome_canon y) by congruence.
      pose proof (f_equal oc_id Hr) as F1. pose proof (f_equal oc_run_id Hr) as F2.
      pose proof (f_equal oc_work_item_id Hr) as F3. pose proof (f_equal oc_observed_at Hr) as F4.
      cbn in F1, F2, F3, F4. destruct Hl as [L1 L2 L3 L4 L5]. split; congruence.
    + destruct (ok_recorded s Hs k x Hold) as (k' & o & Ho & Hl).
      destruct (Hobs k' o Ho) as (o2 & Ho2 & [->|[Hp _]]); [by exists k', o|].
      rewrite (ln_state _ _ Hl) in Hp. done.
Qed.

(** ** Appending *)
Lemma append_one_spec clock corr ty id version ety sv payload s :
  match append_events clock corr [mk_versioned_write ty id version ety sv payload] s with
  | (s', Ok _) => frame (fun r => r <> (ty, id)) s s' /\
      (wf_ledger s -> version_of (ty, id) s = version /\
         view_of (ty, id) s' = Some ((version + 1)%Z, ety, sv, canon (JObj payload)))
  | (s', Err _) => s' = s
  end.
Proof.
  match goal with |- context [append_events clock ?c ?w s] =>
    pose proof (append_events_spec clock c w s) as H; destruct (append_events clock c w s) as [s' [r|e]] end; [|done].
  destruct H as ([|ev [|]] & Hw & Hf & Hv); try done. injection Hw as Hw. apply mk_versioned_write_Ok in Hw as ->.
  split.
  - eapply frame_weaken; [|exact Hf]. intros x Hx Hin. apply list_elem_of_singleton in Hin. by subst.
  - intros Hs. exact (Hv Hs (NoDup_singleton _) _ (list_elem_of_here _ _)).
Qed.
Lemma append_capture_spec clock o oc s :
  match append_capture clock o oc s with
  | (s', Ok _) => frame (written_refs (obs_id o) (Some oc)) s s' /\
      (wf_ledger s -> version_of (observation_ref (obs_id o)) s = 1%Z /\ version_of (outcome_ref (oc_id oc)) s = 0%Z /\
         view_of (observation_ref (obs_id o)) s' =
           Some (2%Z, "observation.captured", obs_schema_version o, canon (JObj (observation_to_dict o))) /\
         view_of (outcome_ref (oc_id oc)) s' =
           Some (1%Z, "outcome.recorded", oc_schema_version oc, canon (JObj (outcome_to_dict oc))))
  | (s', Err _) => s' = s
  end.
Proof.
  unfold append_capture.
  match goal with |- context [append_events clock ?c ?w s] =>
    pose proof (append_events_spec clock c w s) as H; destruct (append_events clock c w s) as [s' [r|e]] end; [|done].
  destruct H as ([|e1 [|e2 [|]]] & Hw & Hf & Hv); try done. injection Hw as H1 H2.
  apply mk_versioned_write_Ok in H1 as ->. apply mk_versioned_write_Ok in H2 as ->. split.
  - eapply frame_weaken; [|exact Hf]. intros x [Hx1 Hx2] Hin.
    apply elem_of_cons in Hin as [->|Hin]; [by apply Hx1|]. by apply list_elem_of_singleton in Hin as ->.
  - intros Hs. assert (Hnd : NoDup (map ew_ref [
      {| ew_aggregate_type := OBSERVATION_AGGREGATE_TYPE; ew_aggregate_id := obs_id o; ew_expected_version := 1;
         ew_event_type := "observation.captured"; ew_schema_version := obs_schema_version o;
         ew_payload := observation_to_dict o; ew_causation_id := None |};
      {| ew_aggregate_type := OUTCOME_AGGREGATE_TYPE; ew_aggregate_id := oc_id oc; ew_expected_version := 0;
         ew_event_type := "outcome.recorded"; ew_schema_version := oc_schema_version oc;
         ew_payload := outcome_to_dict oc; ew_causation_id := None |}])) by (repeat constructor; set_solver).
    specialize (Hv Hs Hnd). destruct (Hv _ (list_elem_of_here _ _)) as [A1 A2].
    destruct (Hv _ (list_elem_of_further _ _ _ (list_elem_of_here _ _))) as [B1 B2]. by split_and!.
Qed.

(** An aggregate at version 0 has never been written. *)
Lemma view_of_unwritten r s : wf_ledger s -> version_of r s = 0%Z -> view_of r s = None.
Proof.
  intros Hs Hv. destruct (view_of r s) as [v|] eqn:He; [|done].
  pose proof (view_version_pos s r v Hs He). lia.
Qed.
(** The value at version 1 is pending. *)
Lemma holds_version id o s : wf_ledger s -> observation_holds id o s -> version_of (observation_ref id) s = phase o.
Proof. intros Hs [_ (ety & sv & Hv)]. by rewrite (view_version s _ Hs), Hv. Qed.
Lemma phase_pending o : phase o = 1%Z -> obs_state o = OBS_PENDING.
Proof. unfold phase. by case_bool_decide. Qed.
Lemma phase_resolved o o' : resolves o o' -> phase o' = 2%Z.
Proof. intros H%resolved_not_pending. unfold phase. by rewrite bool_decide_eq_false_2. Qed.

(** ** Operations *)
Lemma outcome_post_init_same o o' : outcome_post_init o = Ok o' -> o' = o /\ outcome_post_init o = Ok o.
Proof.
  intros H. assert (o' = o) as ->; [|done]. unfold outcome_post_init in H. rewrite !raise_if_Ok in H. naive_solver.
Qed.
Lemma observation_post_init_same o o' : observation_post_init o = Ok o' -> o' = o /\ observation_post_init o = Ok o.
Proof.
  intros H. assert (o' = o) as ->; [|done]. unfold observation_post_init in H.
  rewrite !raise_if_Ok in H. destruct H as (_ & _ & H). apply bind_Ok in H as (? & _ & H).
  rewrite !raise_if_Ok in H. naive_solver.
Qed.
Lemma evolve_intro s s' : (outcomes_ok s -> captures_evolve s s') -> captures_evolve s s'.
Proof. intros H Hs. by apply H. Qed.
Lemma register_pending_evolves clock work_item run kind subject opened window s :
  valid_identifier work_item -> valid_identifier run ->
  (default (default DEFAULT_WINDOW (DEFAULT_WINDOWS kind)) window <= EXACT_SECONDS)%Z ->
  captures_evolve s (register_pending clock work_item run kind subject opened window s).1.
Proof.
  intros Hwi Hrun Hw. apply evolve_intro. intros Hs. unfold register_pending. rewrite lift_tx.
  destruct (observation_id_for run kind) as [id|] eqn:Hid; [|reflexivity].
  assert (Hvalid : valid_identifier id) by (unfold observation_id_for in Hid; pose proof Hid as [-> ?]%mk_identifier_Ok; done).
  rewrite asks_tx. destruct (read_observation id s) as [[o|]|] eqn:Hr; [reflexivity| |reflexivity].
  rewrite lift_tx. destruct (observation_post_init _) as [o|] eqn:Ho; [|reflexivity].
  apply observation_post_init_same in Ho as [-> Ho].
  match type of Ho with observation_post_init ?x = _ => set (o := x) in * end.
  unfold on_conflict. rewrite bind_tx. unfold append_observation.
  match goal with |- context [append_events clock ?c [mk_versioned_write ?ty ?i ?v ?e ?sv ?p] s] =>
    pose proof (append_one_spec clock c ty i v e sv p s) as H; destruct (append_events clock c _ s) as [s' [r|e']] end.
  2: { subst s'. destruct e'; try reflexivity. rewrite asks_tx, Hr. reflexivity. }
  destruct H as [Hf Hv]. destruct (Hv (ok_ledger s Hs)) as [Hver Hview]. cbn [fst mret tx_ret].
  assert (Hso : sound_observation id o) by (split; [by split_and!; [repeat constructor|..]|done|done]).
  apply (captures_step s s' id o None Hs); [|split; [done|by eexists _, _]| |done].
  - eapply frame_weaken; [|exact Hf]. by intros x [Hx _].
  - left. apply view_of_unwritten; [apply Hs|exact Hver].
Qed.

Lemma capture_evolves clock id oid kind t detail link s : valid_identifier oid -> from_option valid_identifier True link ->
  captures_evolve s (capture clock id oid kind t detail link s).1.
Proof.
  intros Hoid Hlink. apply evolve_intro. intros Hs. unfold capture. rewrite asks_tx. unfold require_observation.
  destruct (read_observation id s) as [[o|]|] eqn:Hr; [|reflexivity..]. cbn [mbind result_bind from_option_err from_option].
  apply (observation_read_holds _ _ _ Hs) in Hr. rewrite lift_tx.
  destruct (outcome_post_init _) as [oc|] eqn:Hoc; [|reflexivity]. rewrite lift_tx.
  apply outcome_post_init_same in Hoc as [-> Hoc].
  match type of Hoc with outcome_post_init ?x = _ => set (oc := x) in * end.
  destruct (resolve_captured o oid t) as [o'|] eqn:Hres; [|reflexivity]. rewrite bind_tx.
  pose proof (append_capture_spec clock o' oc s) as H.
  destruct (append_capture clock o' oc s) as [s' [r|e]]; cbn [fst mret tx_ret]; [|subst s'; reflexivity].
  destruct H as [Hf Hv]. destruct (Hv (ok_ledger s Hs)) as (Hv1 & Hv2 & Hview1 & Hview2).
  destruct Hr as [Hso Hvo].
  assert (Hpend : obs_state o = OBS_PENDING).
  { unfold resolve_captured in Hres. apply raise_if_Ok in Hres as [Hp _]. by apply negb_false_iff, bool_decide_eq_true_1 in Hp. }
  assert (Hrs : resolves o o') by (split; [done|left; by exists oid, t]).
  assert (Ho' : o' = {| obs_id := obs_id o; obs_work_item_id := obs_work_item_id o; obs_run_id := obs_run_id o;
    obs_kind := obs_kind o; obs_opened_at := obs_opened_at o; obs_window := obs_window o; obs_state := OBS_CAPTURED;
    obs_resolved_at := Some t; obs_outcome_id := Some oid; obs_detail := obs_detail o;
    obs_schema_version := obs_schema_version o |}).
  { unfold resolve_captured in Hres. apply raise_if_Ok in Hres as [_ Hres]. by apply obs_resolve_Ok in Hres as [-> _]. }
  assert (Hid' : obs_id o' = id) by (rewrite Ho'; apply Hso).
  assert (Hso' : sound_observation id o') by (eapply resolves_sound; [done..|by rewrite Ho']).
  rewrite Hid' in *. apply (captures_step s s' id o' (Some oc) Hs); [exact Hf| | |].
  - split; [done|]. rewrite (phase_resolved _ _ Hrs). by eexists _, _.
  - right. exists o. split; [done|by right].
  - split_and!.
    + apply view_of_unwritten; [apply Hs|exact Hv2].
    + split; [|by eexists _, _]. split; [|done]. destruct Hso as [(Hids & _) _ _].
      rewrite !Forall_cons in Hids. destruct Hids as (_ & Hwi & Hru & _). by split_and!.
    + rewrite Ho'. by split.
Qed.

(** Expiring a pending value read earlier: the ledger's version says it is still there. *)
Lemma append_expiry_evolves clock s0 s id o t o' : outcomes_ok s0 -> captures_evolve s0 s ->
  observation_holds id o s0 -> resolve_indeterminate o t = Ok o' ->
  captures_evolve s (append_expiry clock o' s).1.
Proof.
  intros Hs0 Hev Ho Hres. apply evolve_intro. intros Hs.
  assert (Hpend : obs_state o = OBS_PENDING).
  { unfold resolve_indeterminate in Hres. apply raise_if_Ok in Hres as [Hp _]. by apply negb_false_iff, bool_decide_eq_true_1 in Hp. }
  assert (Hrs : resolves o o') by (split; [done|right; by exists t]).
  assert (Ho' : obs_id o' = id /\ obs_state o' = OBS_INDETERMINATE /\ obs_outcome_id o' = obs_outcome_id o).
  { unfold resolve_indeterminate in Hres. apply raise_if_Ok in Hres as [_ Hres]. apply bind_Ok in Hres as (? & _ & Hres).
    apply raise_if_Ok in Hres as [_ Hres]. apply obs_resolve_Ok in Hres as [-> _]. split_and!; [apply Ho|done..]. }
  destruct Ho' as (Hid & Hst & Hoid). unfold append_expiry.
  match goal with |- context [append_events clock ?c [mk_versioned_write ?ty ?i ?v ?e ?sv ?p] s] =>
    pose proof (append_one_spec clock c ty i v e sv p s) as H; destruct (append_events clock c _ s) as [s' [r|e']] end;
    cbn [fst]; [|subst s'; reflexivity].
  destruct H as [Hf Hv]. destruct (Hv (ok_ledger s Hs)) as [Hver Hview]. rewrite Hid in *.
  destruct (Hev Hs0) as (_ & Hobs & _). destruct (Hobs id o Ho) as (o1 & Ho1 & Hl).
  pose proof (holds_version id o1 s (ok_ledger s Hs) Ho1) as Hph. unfold observation_ref in Hph. rewrite Hver in Hph.
  symmetry in Hph. apply phase_pending in Hph.
  assert (o1 = o) as ->. { destruct Hl as [->|Hl]; [done|]. by apply resolved_not_pending in Hl. }
  assert (Hso' : sound_observation id o').
  { eapply resolves_sound; [apply Ho|done|]. rewrite Hoid. destruct Ho as [[(_ & Hx & _) _ _] _]. exact Hx. }
  apply (captures_step s s' id o' None Hs); [|split; [done|rewrite (phase_resolved _ _ Hrs); by eexists _, _]| |by rewrite Hst].
  - eapply frame_weaken; [|exact Hf]. by intros x [Hx _].
  - right. exists o. split; [done|by right].
Qed.
End Stored.

(** ** Outcome capture over any history

    Registration, capture, sweeps and expiry composed with any other ledger calls, and
    what an expiry does to every observation. *)

Section Loops.
Context `{rt : PyRuntime} `{iso : IsoCodec} `{pv : PyValues}.

Lemma foldM_evolves {A S} (f : S -> A -> tx S) l s0 s acc : captures_evolve s0 s ->
  (forall x s acc, x ∈ l -> captures_evolve s0 s -> captures_evolve s (f acc x s).1) ->
  captures_evolve s (foldM_tx f l acc s).1.
Proof.
  revert s acc. induction l as [|x l IH]; intros s acc Hs Hf; [reflexivity|]. cbn [foldM_tx]. rewrite bind_tx.
  pose proof (Hf x s acc (list_elem_of_here _ _) Hs) as Hx.
  destruct (f acc x s) as [s1 [a|e]]; cbn [fst] in *; [|done]. etrans; [exact Hx|].
  apply IH; [by etrans|]. intros y s2 acc2 Hy. apply Hf. by right.
Qed.
(** The rows of the observations, read back. *)
Lemma row_observation s id p : outcomes_ok s -> (id, p) ∈ list_projections OBSERVATION_AGGREGATE_TYPE s ->
  exists o, observation_holds id o s /\ (raw ← state_dict p; observation_from_dict raw) = Ok o.
Proof.
  intros Hs Hin%elem_of_list_by_first. destruct (ok_observations s Hs id) as [Hn|(o & Ho)].
  { unfold view_of, observation_ref in Hn. by rewrite Hin in Hn. }
  exists o. split; [done|]. apply observation_holds_read in Ho. unfold read_observation, read_projection in Ho.
  rewrite Hin in Ho. destruct (state_dict p) as [raw|]; [|done]. cbn [mbind result_bind] in *.
  destruct (observation_from_dict raw); [|done]. by injection Ho as ->.
Qed.
Lemma list_all s : outcomes_ok s -> exists l, list_observations None s = Ok l /\
  forall o, o ∈ l <-> observation_holds (obs_id o) o s.
Proof.
  intros Hs. unfold list_observations.
  assert (Hm : exists l, mapM_result (fun kp => raw ← state_dict kp.2; observation_from_dict raw)
      (list_projections OBSERVATION_AGGREGATE_TYPE s) = Ok l).
  { pose proof (row_observation s) as Hrow. revert Hrow. generalize (list_projections OBSERVATION_AGGREGATE_TYPE s).
    induction l as [|[id p] rows IH]; intros Hrow; [by exists []|].
    destruct (Hrow id p Hs (list_elem_of_here _ _)) as (o & _ & Ho). cbn [mapM_result snd].
    destruct IH as [l ->]; [intros id' p' Hs' Hin; apply Hrow; [done|by right]|].
    unfold mbind at 1, result_bind at 1. rewrite Ho. by exists (o :: l). }
  destruct Hm as [l Hm]. rewrite Hm. exists l. split; [done|]. apply mapM_result_Ok in Hm. intros o. split.
  - intros Ho. apply list_elem_of_lookup in Ho as [i Hi].
    destruct (Forall2_lookup_r _ _ _ _ _ Hm Hi) as ([id p] & Hp & Hd). apply list_elem_of_lookup_2 in Hp.
    destruct (row_observation s id p Hs Hp) as (o' & Ho' & Hd'). cbn [snd] in Hd. rewrite Hd in Hd'. injection Hd' as <-.
    by rewrite (so_id _ _ (proj1 Ho')).
  - intros Ho. pose proof Ho as Hr%observation_holds_read. unfold read_observation, read_projection in Hr.
    destruct (lg_projections s !! _) as [p|] eqn:Hp; [|done].
    assert (Hin : (obs_id o, p) ∈ list_projections OBSERVATION_AGGREGATE_TYPE s) by by apply elem_of_list_by_first.
    apply list_elem_of_lookup in Hin as [i Hi]. destruct (Forall2_lookup_l _ _ _ _ _ Hm Hi) as (o' & Hi' & Hd).
    cbn [snd] in Hd. destruct (state_dict p) as [raw|]; [|done]. cbn [mbind result_bind] in *. rewrite Hd in Hr.
    injection Hr as ->. by apply list_elem_of_lookup_2 in Hi'.
Qed.
Lemma pending_listed s : outcomes_ok s -> exists l, list_observations (Some OBS_PENDING) s = Ok l /\
  forall o, o ∈ l <-> observation_holds (obs_id o) o s /\ obs_state o = OBS_PENDING.
Proof.
  intros Hs. destruct (list_all s Hs) as (l & Hl & Hin). unfold list_observations in *.
  destruct (mapM_result _ _) as [l'|]; [|done]. cbn [mbind result_bind] in *. injection Hl as ->.
  eexists. split; [done|]. intros o. rewrite elem_of_bfilter, bool_decide_eq_true. by rewrite Hin.
Qed.

Lemma sweep_evolves clock port t s : captures_evolve s (sweep clock port t s).1.
Proof.
  apply evolve_intro. intros Hs. unfold sweep. rewrite asks_tx.
  destruct (pending_listed s Hs) as (l & -> & _). apply (foldM_evolves _ _ s); [reflexivity|].
  intros o s1 acc _ _. unfold sweep_one. destruct (negb _); [reflexivity|]. unfold sweep_merge_result.
  destruct port as [get|]; [|reflexivity]. destruct (negb _); [reflexivity|].
  rewrite bind_tx, lift_tx. destruct (int_of_text _) as [n|]; [|reflexivity]. rewrite lift_tx.
  destruct (get n) as [snapshot|]; [|reflexivity]. destruct (classify_pull_request_outcome snapshot) as [k|]; [|reflexivity].
  rewrite lift_tx. destruct (mk_identifier _) as [oid|] eqn:Hoid; [|reflexivity].
  apply mk_identifier_Ok in Hoid as [-> Hoid]. rewrite bind_tx.
  match goal with |- context [capture clock ?i ?o ?k ?t ?d ?l s1] =>
    pose proof (capture_evolves clock i o k t d l s1 Hoid I) as Hc; destruct (capture clock i o k t d l s1) as [s2 [oc|e]] end;
    exact Hc.
Qed.
Lemma expire_evolves clock t s : captures_evolve s (expire_overdue clock t s).1.
Proof.
  apply evolve_intro. intros Hs. unfold expire_overdue. rewrite asks_tx.
  destruct (pending_listed s Hs) as (l & -> & Hl). apply (foldM_evolves _ _ s); [reflexivity|].
  intros o s1 acc [Ho _]%Hl Hev. unfold expire_one. rewrite lift_tx.
  destruct (is_overdue o t) as [[]|]; [|reflexivity..]. cbn [negb]. rewrite lift_tx.
  destruct (resolve_indeterminate o t) as [o'|] eqn:Hr; [|reflexivity]. rewrite bind_tx.
  pose proof (append_expiry_evolves clock s s1 (obs_id o) o t o' Hs Hev Ho Hr) as Ha.
  by destruct (append_expiry clock o' s1) as [s2 [r|e]].
Qed.
End Loops.

(** ** Histories *)
Inductive OutcomeCall :=
| OcRegister (work_item_id run_id : string) (kind : OutcomeKind) (subject_reference : string)
    (opened_at : datetime) (window : option timedelta)
| OcCapture (observation_id outcome_id : string) (kind : OutcomeKind) (observed_at : datetime)
    (detail : list (string * json)) (linked_work_item_id : option string)
| OcSweep (pull_requests : option (Z -> result PullRequestSnapshot)) (reference_time : datetime)
| OcExpire (reference_time : datetime)
| OcLedger (op : LedgerOp).
(** The ledger after a call, whether it returned or raised, at clock text [clock]. *)
Definition outcome_step `{PyRuntime} `{IsoCodec} `{PyValues} (s : Ledger) (call : string * OutcomeCall) : Ledger :=
  let '(clock, c) := call in
  match c with
  | OcRegister w r k subject t window => (register_pending clock w r k subject t window s).1
  | OcCapture id oid k t d l => (capture clock id oid k t d l s).1
  | OcSweep port t => (sweep clock port t s).1
  | OcExpire t => (expire_overdue clock t s).1
  | OcLedger op => ledger_step s (clock, op)
  end.
Definition outcome_run `{PyRuntime} `{IsoCodec} `{PyValues} (history : list (string * OutcomeCall)) (s : Ledger)
    : Ledger := foldl outcome_step s history.
(** Typed arguments were constructed, windows are within 270 years, and nothing else
    appends to observations and outcomes. *)
Definition outcome_call_ok (call : string * OutcomeCall) : Prop :=
  match call.2 with
  | OcRegister w r k _ _ window => valid_identifier w /\ valid_identifier r /\
      from_option (fun x => x <= EXACT_SECONDS)%Z True window
  | OcCapture _ oid _ _ _ l => valid_identifier oid /\ from_option valid_identifier True l
  | OcLedger op => op_avoids outcome_aggregates op
  | _ => True
  end.

Section History.
Context `{rt : PyRuntime} `{iso : IsoCodec} `{pv : PyValues}.
Lemma outcome_step_evolves s call : outcome_call_ok call -> captures_evolve s (outcome_step s call).
Proof.
  intros Hok. destruct call as [clock c]. destruct c; cbn [outcome_step outcome_call_ok snd] in *.
  - destruct Hok as (Hw & Hr & Hx). apply register_pending_evolves; [done..|].
    destruct window as [x|]; [exact Hx|]. by destruct kind.
  - destruct Hok. by apply capture_evolves.
  - apply sweep_evolves.
  - apply expire_evolves.
  - eapply captures_aside; [by apply (ledger_step_frame outcome_aggregates)|done].
Qed.
Lemma outcome_run_evolves history s : Forall outcome_call_ok history -> captures_evolve s (outcome_run history s).
Proof.
  intros Hf. unfold outcome_run. revert s. induction Hf as [|call history Hok _ IH]; intros s; [reflexivity|].
  cbn [foldl]. etrans; [by apply outcome_step_evolves|apply IH].
Qed.
Lemma unwritten_ok s : wf_ledger s -> (forall r, outcome_aggregates r -> view_of r s = None) -> outcomes_ok s.
Proof.
  intros Hs Hno.
  assert (Ho : forall id o, ~ observation_holds id o s).
  { intros id o [_ (? & ? & Hv)]. rewrite Hno in Hv; [done|by left]. }
  assert (Hc : forall id oc, ~ outcome_holds id oc s).
  { intros id oc [_ (? & ? & Hv)]. rewrite Hno in Hv; [done|by right]. }
  split; [done| | | |].
  - intros id. left. apply Hno. by left.
  - intros id. left. apply Hno. by right.
  - intros id o H. by apply Ho in H.
  - intros id oc H. by apply Hc in H.
Qed.

(** C10: from a ledger that stores no observation or outcome, over any calls that register,
    capture, sweep and expire observations (with any pull request port), as long as the
    identifiers given are ones the identifier classes accept and no window given is longer
    than 270 years (a longer one is stored as seconds in a float that no longer determine it,
    and close to the largest one cannot be read back at all), and whatever else other clients
    record in the ledger besides observations and outcomes, returning or raising: every
    observation can be read back, constructed and under its identity; it is pending at
    its first version or resolved at its second; the one read later is the same or its
    only resolution, so a resolved one never changes; a captured one names an outcome
    that is stored, with its run, its work item and its instant; an outcome never
    changes and belongs to a captured observation. *)
Theorem outcome_history_sound s h1 h2 (Hs : wf_ledger s)
    (Hno : forall r, outcome_aggregates r -> view_of r s = None)
    (H1 : Forall outcome_call_ok h1) (H2 : Forall outcome_call_ok h2) :
  let s1 := outcome_run h1 s in
  let s2 := outcome_run h2 s1 in
  (forall id, match read_observation id s1 with
     | Err _ => False
     | Ok None => True
     | Ok (Some o) => sound_observation id o /\ version_of (observation_ref id) s1 = phase o /\
         (exists o', read_observation id s2 = Ok (Some o') /\ observation_later o o') /\
         (obs_state o = OBS_CAPTURED -> exists oc, read_outcome (oc_id oc) s1 = Ok (Some oc) /\ linked o oc)
     end) /\
  (forall id, match read_outcome id s1 with
     | Err _ => False
     | Ok None => True
     | Ok (Some oc) => oc_id oc = id /\ read_outcome id s2 = Ok (Some oc) /\
         exists k o, read_observation k s1 = Ok (Some o) /\ linked o oc
     end).
Proof.
  intros s1 s2. destruct (outcome_run_evolves h1 s H1 (unwritten_ok s Hs Hno)) as [Hok _]. fold s1 in Hok.
  destruct (outcome_run_evolves h2 s1 H2 Hok) as (_ & Hobs & Hout). fold s2 in Hobs, Hout. split; intros id.
  - destruct (ok_observations s1 Hok id) as [Hn|(o & Ho)]; [by rewrite (observation_absent _ _ Hn)|].
    rewrite (observation_holds_read _ _ _ Ho). split_and!; [apply Ho|by apply holds_version; [apply Hok|]| |].
    + destruct (Hobs id o Ho) as (o' & Ho' & Hl). exists o'. split; [by apply observation_holds_read|done].
    + intros Hc. destruct (ok_captured s1 Hok id o Ho Hc) as (oc & Hoc & [L1 L2 L3 L4 L5]).
      exists (outcome_canon oc). split; [by apply outcome_holds_read|by split].
  - destruct (ok_outcomes s1 Hok id) as [Hn|(oc & Hoc)]; [by rewrite (outcome_absent _ _ Hn)|].
    rewrite (outcome_holds_read _ _ _ Hoc). split_and!; [apply Hoc|by apply outcome_holds_read, Hout|].
    destruct (ok_recorded s1 Hok id oc Hoc) as (k & o & Ho & [L1 L2 L3 L4 L5]). exists k, o.
    split; [by apply observation_holds_read|by split].
Qed.
End History.

(** ** Witnesses *)
Module Demo.
#[local] Existing Instance IdentityProofs.toy_runtime.
#[local] Existing Instance toy_iso.
#[local] Existing Instance RecordProofs.Demo.toy_values.
Definition merged (n : Z) : result PullRequestSnapshot := Ok {|
  prs_number := n; prs_url := "u"; prs_state := "closed"; prs_head_branch := "b"; prs_head_revision := "r";
  prs_base_branch := "main"; prs_base_revision := "r0"; prs_merged := true |}.
Definition registered : list (string * OutcomeCall) := [
  ("t0", OcRegister "item-1" "run-1" OUT_MERGE_RESULT "12" (Aware 0) None);
  ("t1", OcRegister "item-1" "run-1" OUT_REOPENED_ISSUE "12" (Aware 0) (Some 50%Z));
  ("t2", OcSweep (Some merged) (Aware 10))].
Definition expired : list (string * OutcomeCall) := [("t3", OcExpire (Aware 60)); ("t4", OcSweep (Some merged) (Aware 70))].
Lemma registered_ok : Forall outcome_call_ok registered.
Proof. repeat constructor; vm_compute; discriminate. Qed.
Definition s1 : Ledger := outcome_run registered empty_ledger.
Definition s2 : Ledger := outcome_run expired s1.
(** A superscript is a digit to [isdigit] and no number to [int]: the sweep raises. *)
Example superscript_subject : (sweep "t" (Some merged) (Aware 10)
  (outcome_run [("t0", OcRegister "item-1" "run-1" OUT_MERGE_RESULT (String (Ascii.ascii_of_N 178) "") (Aware 0) None)]
     empty_ledger)).2 = Err PyValueError.
Proof. vm_compute. reflexivity. Qed.
Lemma outcome_history_sound_witness : exists o o' oc,
  read_observation "run-1:merge_result" s1 = Ok (Some o) /\ read_observation "run-1:merge_result" s2 = Ok (Some o') /\
  o' = o /\ read_outcome (oc_id oc) s1 = Ok (Some oc) /\ linked o oc /\ oc_kind oc = OUT_PR_ACCEPTED.
Proof.
  assert (Hno : forall r, outcome_aggregates r -> view_of r empty_ledger = None)
    by (intros r _; unfold view_of; cbn; rewrite lookup_empty; reflexivity).
  destruct (outcome_history_sound empty_ledger registered expired wf_empty_ledger Hno
    registered_ok ltac:(repeat constructor)) as [Ho _].
  change (outcome_run registered empty_ledger) with s1 in Ho. change (outcome_run expired s1) with s2 in Ho.
  specialize (Ho "run-1:merge_result").
  assert (Hr : exists o, read_observation "run-1:merge_result" s1 = Ok (Some o) /\ obs_state o = OBS_CAPTURED /\
    obs_outcome_id o = Some "run-1:pr_accepted") by (eexists; split_and!; vm_compute; reflexivity).
  assert (Hk : exists oc, read_outcome "run-1:pr_accepted" s1 = Ok (Some oc) /\ oc_kind oc = OUT_PR_ACCEPTED)
    by (eexists; split; vm_compute; reflexivity).
  destruct Hr as (o & Hr & Hst & Hoid). destruct Hk as (oc' & Hk & Hkind). rewrite Hr in Ho.
  destruct Ho as (_ & _ & (o' & Hr' & Hl) & Hc). destruct (Hc Hst) as (oc & Hoc & Hlink).
  exists o, o', oc. split; [exact Hr|]. split; [exact Hr'|]. split.
  { destruct Hl as [Hl|[Hp _]]; [exact Hl|]. rewrite Hst in Hp. discriminate Hp. }
  split; [exact Hoc|]. split; [exact Hlink|].
  pose proof (ln_outcome _ _ Hlink) as Hn. rewrite Hoid in Hn. injection Hn as Hn. rewrite <- Hn, Hk in Hoc.
  injection Hoc as <-. exact Hkind.
Defined.
End Demo.
