(* ===== verification/PullRequests.v ===== *)
(** * Pull-request evidence ([application/work_ports.py], [workflows/pull_request.py],
      [workflows/review.py], [workflows/evidence.py])

    What a source host reports about one pull-request head, the readiness the evidence
    supports, the routing of a review, and the terminal evidence bundle. *)
From S2P Require Import Prelude PyText Json Identity Lifecycles Aggregates Regex Workers Closures Outcomes.

(** ** Observations ([application/work_ports.py]) *)
Record PullRequestReview := {
  rv_reviewer : string; rv_state : string; rv_head_revision : string;
  rv_review_id : option Z; rv_submitted_at : option string }.
Definition pr_review_post_init (r : PullRequestReview) : result PullRequestReview :=
  raise_when existsb blank [rv_reviewer r; rv_state r; rv_head_revision r] as PyValueError ;; Ok r.
Record PullRequestCheck := {
  ck_name : string; ck_status : string; ck_conclusion : option string;
  ck_head_revision : string; ck_app_id : option Z }.
Definition pr_check_post_init (c : PullRequestCheck) : result PullRequestCheck :=
  raise_when existsb blank [ck_name c; ck_status c; ck_head_revision c] as PyValueError ;;
  raise_when from_option blank false (ck_conclusion c) as PyValueError ;;
  Ok c.
Record PullRequestStatus := {
  su_context : string; su_state : string; su_head_revision : string; su_status_id : Z;
  su_created_at : string; su_creator_id : option Z }.
Definition pr_status_post_init (s : PullRequestStatus) : result PullRequestStatus :=
  raise_when existsb blank [su_context s; su_state s; su_head_revision s; su_created_at s] ||
             (su_status_id s <? 1)%Z as PyValueError ;;
  Ok s.
Record EvidenceCompleteness := {
  cp_collection : string; cp_page_count : Z; cp_page_cap : Z; cp_record_count : Z;
  cp_total_count : option Z; cp_complete : bool; cp_raw_artifact_digests : list Digest }.
Definition completeness_post_init (c : EvidenceCompleteness) : result EvidenceCompleteness :=
  raise_when String.eqb (cp_collection c) "" || (cp_page_count c <? 1)%Z || (cp_page_cap c <? 2)%Z ||
             (cp_record_count c <? 0)%Z || from_option (fun n => n <? 0)%Z false (cp_total_count c)
    as PyValueError ;;
  Ok c.
(** [EvidenceCompleteness.proven] *)
Definition proven (c : EvidenceCompleteness) : bool :=
  cp_complete c && (cp_page_count c <? cp_page_cap c)%Z &&
  (Z.of_nat (length (cp_raw_artifact_digests c)) =? cp_page_count c)%Z &&
  from_option (fun n => n =? cp_record_count c)%Z true (cp_total_count c).
Record PullRequestEvidence := {
  pe_pull_request : PullRequestSnapshot; pe_reviews : list PullRequestReview;
  pe_checks : list PullRequestCheck; pe_mergeable : option bool;
  pe_statuses : list PullRequestStatus; pe_combined_status : option string;
  pe_completeness : option (list EvidenceCompleteness); pe_raw_artifact_digests : list Digest }.
Definition pr_evidence_post_init (e : PullRequestEvidence) : result PullRequestEvidence :=
  let head := prs_head_revision (pe_pull_request e) in
  raise_when existsb (fun c => negb (String.eqb (ck_head_revision c) head)) (pe_checks e) as PyValueError ;;
  raise_when existsb (fun s => negb (String.eqb (su_head_revision s) head)) (pe_statuses e) as PyValueError ;;
  Ok e.
Definition REQUIRED_COLLECTIONS : list string := ["reviews"; "check_runs"; "combined_status"; "statuses"].
Definition is_empty {A} (l : list A) : bool := match l with [] => true | _ => false end.
(** [PullRequestEvidence.complete] *)
Definition evidence_complete (e : PullRequestEvidence) : bool :=
  match pe_completeness e with
  | None => is_empty (pe_raw_artifact_digests e) && is_empty (pe_statuses e) &&
            bool_decide (pe_combined_status e = None)
  | Some proofs =>
      bool_decide ((list_to_set (map cp_collection proofs) : gset string) = list_to_set REQUIRED_COLLECTIONS) &&
      Nat.eqb (length proofs) (length REQUIRED_COLLECTIONS) && forallb proven proofs &&
      negb (is_empty (pe_raw_artifact_digests e)) &&
      forallb (fun p => forallb (fun d => bool_decide (d ∈ pe_raw_artifact_digests e))
                          (cp_raw_artifact_digests p)) proofs
  end.

(** [dataclasses.asdict] of each observation, and [to_state]. *)
Definition opt_int_json (o : option Z) : json := from_option JInt JNull o.
Definition opt_str_json (o : option string) : json := from_option JStr JNull o.
Definition pull_request_state (p : PullRequestSnapshot) : json := JObj [
  ("number", JInt (prs_number p)); ("url", JStr (prs_url p)); ("state", JStr (prs_state p));
  ("head_branch", JStr (prs_head_branch p)); ("head_revision", JStr (prs_head_revision p));
  ("base_branch", JStr (prs_base_branch p)); ("base_revision", JStr (prs_base_revision p));
  ("merged", JBool (prs_merged p))].
Definition pr_review_state (r : PullRequestReview) : json := JObj [
  ("reviewer", JStr (rv_reviewer r)); ("state", JStr (rv_state r));
  ("head_revision", JStr (rv_head_revision r)); ("review_id", opt_int_json (rv_review_id r));
  ("submitted_at", opt_str_json (rv_submitted_at r))].
Definition pr_check_state (c : PullRequestCheck) : json := JObj [
  ("name", JStr (ck_name c)); ("status", JStr (ck_status c));
  ("conclusion", opt_str_json (ck_conclusion c)); ("head_revision", JStr (ck_head_revision c));
  ("app_id", opt_int_json (ck_app_id c))].
Definition pr_status_state (s : PullRequestStatus) : json := JObj [
  ("context", JStr (su_context s)); ("state", JStr (su_state s));
  ("head_revision", JStr (su_head_revision s)); ("status_id", JInt (su_status_id s));
  ("created_at", JStr (su_created_at s)); ("creator_id", opt_int_json (su_creator_id s))].
Definition digests_json (l : list Digest) : json := JList (map (fun d => JStr (digest_str d)) l).
Definition completeness_state (c : EvidenceCompleteness) : json := JObj [
  ("collection", JStr (cp_collection c)); ("page_count", JInt (cp_page_count c));
  ("page_cap", JInt (cp_page_cap c)); ("record_count", JInt (cp_record_count c));
  ("total_count", opt_int_json (cp_total_count c)); ("complete", JBool (cp_complete c));
  ("raw_artifact_digests", digests_json (cp_raw_artifact_digests c))].
Definition pr_evidence_state (e : PullRequestEvidence) : json := JObj [
  ("pull_request", pull_request_state (pe_pull_request e));
  ("reviews", JList (map pr_review_state (pe_reviews e)));
  ("checks", JList (map pr_check_state (pe_checks e)));
  ("statuses", JList (map pr_status_state (pe_statuses e)));
  ("mergeable", from_option JBool JNull (pe_mergeable e));
  ("combined_status", opt_str_json (pe_combined_status e));
  ("complete", JBool (evidence_complete e));
  ("raw_artifact_digests", digests_json (pe_raw_artifact_digests e));
  ("completeness", from_option (fun l => JList (map completeness_state l)) JNull (pe_completeness e))].

(** ** Work snapshots ([application/work_ports.py]) *)
Record DeclaredWorkClassification := {
  dc_source_provider : string; dc_source_url : string; dc_canonical_labels : list string }.
Definition classification_post_init (c : DeclaredWorkClassification) : result DeclaredWorkClassification :=
  raise_when blank (dc_source_provider c) || blank (dc_source_url c) as PyValueError ;;
  raise_when is_empty (dc_canonical_labels c) || existsb blank (dc_canonical_labels c) ||
             negb (bool_decide (NoDup (dc_canonical_labels c))) as PyValueError ;;
  Ok c.
Definition classification_state (c : DeclaredWorkClassification) : json := JObj [
  ("source_provider", JStr (dc_source_provider c)); ("source_url", JStr (dc_source_url c));
  ("canonical_labels", json_strs (dc_canonical_labels c))].
Record WorkLedgerSnapshot := {
  ws_work_item : WorkItem; ws_source_revision : string;
  ws_classification_provenance : option DeclaredWorkClassification }.
Definition work_snapshot_post_init (s : WorkLedgerSnapshot) : result WorkLedgerSnapshot :=
  raise_when blank (ws_source_revision s) as PyValueError ;;
  match ws_classification_provenance s with
  | None => Ok s
  | Some p =>
      let w := ws_work_item s in
      raise_when negb (String.eqb (dc_source_provider p) (wi_source_provider w)) ||
                 negb (String.eqb (dc_source_url p) (wi_source_snapshot_reference w)) as PyValueError ;;
      raise_when String.eqb (dc_source_provider p) "github-issues" &&
                 negb (bool_decide (dc_canonical_labels p =
                   ["enginery/work-kind/" +:+ enum_value (wi_work_kind w);
                    "enginery/risk/" +:+ enum_value (wi_risk_class w)])) as PyValueError ;;
      Ok s
  end.
Definition bound_digest `{PyRuntime} (s : WorkLedgerSnapshot) : result Digest :=
  match ws_classification_provenance s with
  | None => bound_field_digest (ws_work_item s)
  | Some p =>
      work ← bound_field_digest (ws_work_item s);
      declared ← digest_of_json (classification_state p);
      digest_of_json (JObj [("work_item_digest", JStr (digest_str work));
                            ("source_revision", JStr (ws_source_revision s));
                            ("classification_digest", JStr (digest_str declared))])
  end.
Record LifecycleProjection := {
  lp_run_id : string; lp_external_reference : string; lp_state : string;
  lp_evidence_digest : option Digest }.
Definition lifecycle_projection_post_init (l : LifecycleProjection) : result LifecycleProjection :=
  raise_when blank (lp_external_reference l) as PyValueError ;;
  raise_when blank (lp_state l) as PyValueError ;;
  Ok l.

(** ** Readiness ([workflows/pull_request.py]) *)
Inductive PullRequestOutcome := PO_MERGE_READY | PO_WAITING | PO_BLOCKED | PO_SUPERSEDED.
#[export] Instance PullRequestOutcome_eq_dec : EqDecision PullRequestOutcome.
Proof. solve_decision. Defined.
#[export] Program Instance PullRequestOutcome_enum : PyEnum PullRequestOutcome := {|
  members := [PO_MERGE_READY; PO_WAITING; PO_BLOCKED; PO_SUPERSEDED];
  enum_value o := match o with
    | PO_MERGE_READY => "merge_ready" | PO_WAITING => "waiting" | PO_BLOCKED => "blocked"
    | PO_SUPERSEDED => "superseded" end |}.
Next Obligation. solve_enum. Qed.
Next Obligation. solve_enum. Qed.
Record PullRequestRequirements := {
  rq_expected_head_revision : string; rq_required_checks : list string;
  rq_require_approved_review : bool }.
Definition requirements_post_init (r : PullRequestRequirements) : result PullRequestRequirements :=
  raise_when blank (rq_expected_head_revision r) as InvalidInputError ;;
  raise_when is_empty (rq_required_checks r) || existsb blank (rq_required_checks r) as InvalidInputError ;;
  raise_when negb (bool_decide (NoDup (rq_required_checks r))) as InvalidInputError ;;
  Ok r.

(** [text.replace("Z", "+00:00")] *)
Definition replace_zulu (s : string) : string :=
  of_chars (concat (map (fun c => if decide (c = chr 90) then chars "+00:00" else [c]) (chars s))).
(** [datetime.min.replace(tzinfo=UTC)], in microseconds from 1970. *)
Definition DATETIME_MIN : datetime := Aware (-62135596800000000).
Definition reviewer_key (r : PullRequestReview) : list N := casefold (map code (chars (rv_reviewer r))).
Definition DECISIVE_STATES : list string := ["APPROVED"; "CHANGES_REQUESTED"; "DISMISSED"].
Definition decisive (r : PullRequestReview) : bool := bool_decide (py_upper (rv_state r) ∈ DECISIVE_STATES).
(** The comparison of two [(timestamp, id)] pairs of aware timestamps. *)
Abbreviation review_order := (Z * Z)%type.
Definition order_gt (a b : review_order) : bool := ((b.1 <? a.1) || (a.1 =? b.1) && (b.2 <? a.2))%Z.
(** [latest_reviews] and [checks_by_name] as dictionaries. *)
Abbreviation LatestReviews := (gmap (list N) (review_order * PullRequestReview)).
Abbreviation ChecksByName := (list (string * list (string * option string))).

Section Evaluation.
Context `{iso : IsoCodec}.
(** The key of a review; [None] where the loop returns BLOCKED. *)
Definition review_key (index : nat) (r : PullRequestReview) : option review_order :=
  let stamp := match rv_submitted_at r with
    | None | Some "" => Some DATETIME_MIN
    | Some text => fromisoformat (replace_zulu text)
    end in
  match stamp with
  | Some (Aware us) => Some (us, default (Z.of_nat index) (rv_review_id r))
  | _ => None
  end.
(** The loop over [enumerate(evidence.reviews)]. *)
Fixpoint latest_reviews (index : nat) (reviews : list PullRequestReview) (latest : LatestReviews)
    : option LatestReviews :=
  match reviews with
  | [] => Some latest
  | r :: reviews =>
      if negb (decisive r) then latest_reviews (S index) reviews latest
      else
        key ← review_key index r;
        latest_reviews (S index) reviews
          (if match latest !! reviewer_key r with Some (previous, _) => order_gt key previous | None => true end
           then <[reviewer_key r := (key, r)]> latest else latest)
  end.
Definition any_latest (P : PullRequestReview -> bool) (latest : LatestReviews) : bool :=
  existsb (fun kv => P kv.2.2) (map_to_list latest).

(** [checks_by_name]: [setdefault(name, []).append(...)] over checks, then statuses. *)
Definition add_check (name : string) (entry : string * option string) (d : ChecksByName) : ChecksByName :=
  dict_set name (default [] (dict_get name d) ++ [entry]) d.
Definition status_entry (s : PullRequestStatus) : string * option string :=
  (if String.eqb (py_lower (su_state s)) "success" then "completed" else su_state s, Some (su_state s)).
Definition checks_by_name (e : PullRequestEvidence) : ChecksByName :=
  let checks := foldl (fun d c => add_check (ck_name c) (ck_status c, ck_conclusion c) d) [] (pe_checks e) in
  foldl (fun d s => add_check (su_context s) (status_entry s) d) checks (pe_statuses e).
Definition completed (entry : string * option string) : bool := String.eqb (py_lower entry.1) "completed".
Definition entry_succeeded (entry : string * option string) : bool :=
  from_option (fun conclusion => String.eqb (py_lower conclusion) "success") false entry.2.
(** The loop over the required checks: [None] when every one has passed. *)
Fixpoint required_verdict (names : list string) (d : ChecksByName) : option PullRequestOutcome :=
  match names with
  | [] => None
  | name :: names =>
      let entries := default [] (dict_get name d) in
      if existsb (fun entry => negb (completed entry)) entries then Some PO_WAITING
      else if existsb (fun entry => negb (entry_succeeded entry)) entries then Some PO_BLOCKED
      else required_verdict names d
  end.
Definition FAILED_CONCLUSIONS : list string :=
  ["failure"; "cancelled"; "timed_out"; "action_required"; "stale"; "startup_failure"].
Definition status_failed (s : PullRequestStatus) : bool :=
  bool_decide (py_lower (su_state s) ∈ ["failure"; "error"]).
(** What the reviews leave open: the tests after the required checks. *)
Definition review_verdict (e : PullRequestEvidence) (q : PullRequestRequirements) (latest : LatestReviews)
    : PullRequestOutcome :=
  if rq_require_approved_review q &&
     negb (any_latest (fun r => String.eqb (py_upper (rv_state r)) "APPROVED" &&
                                String.eqb (rv_head_revision r) (rq_expected_head_revision q)) latest)
  then PO_WAITING
  else match pe_mergeable e with None => PO_WAITING | Some _ => PO_MERGE_READY end.
Definition evaluate_pull_request (e : PullRequestEvidence) (q : PullRequestRequirements) : PullRequestOutcome :=
  let pull_request := pe_pull_request e in
  if negb (String.eqb (prs_head_revision pull_request) (rq_expected_head_revision q)) then PO_SUPERSEDED
  else if negb (String.eqb (py_lower (prs_state pull_request)) "open") || bool_decide (pe_mergeable e = Some false)
  then PO_BLOCKED
  else if negb (evidence_complete e) then PO_BLOCKED
  else if bool_decide (pe_combined_status e ∈ [Some "failure"; Some "error"]) ||
          existsb status_failed (pe_statuses e) then PO_BLOCKED
  else match latest_reviews 0 (pe_reviews e) ∅ with
  | None => PO_BLOCKED
  | Some latest =>
      if any_latest (fun r => String.eqb (py_upper (rv_state r)) "CHANGES_REQUESTED") latest then PO_BLOCKED
      else if existsb (fun c => from_option (fun text => bool_decide (text ∈ FAILED_CONCLUSIONS)) false
                                  (ck_conclusion c)) (pe_checks e) then PO_BLOCKED
      else if negb (is_empty (pe_statuses e)) &&
              negb (bool_decide (pe_combined_status e ∈ [None; Some "success"])) ||
              existsb (fun s => negb (String.eqb (py_lower (su_state s)) "success")) (pe_statuses e)
      then PO_WAITING
      else
        let d := checks_by_name e in
        if existsb (fun name => bool_decide (dict_get name d = None)) (rq_required_checks q) then PO_WAITING
        else match required_verdict (rq_required_checks q) d with
             | Some outcome => outcome
             | None => review_verdict e q latest
             end
  end.
End Evaluation.

(** ** Reviews ([workflows/review.py]) *)
Inductive ReviewOutcome := RO_APPROVED | RO_REPAIR_REQUESTED | RO_REJECTED | RO_REPAIR_EXHAUSTED.
#[export] Instance ReviewOutcome_eq_dec : EqDecision ReviewOutcome.
Proof. solve_decision. Defined.
#[export] Program Instance ReviewOutcome_enum : PyEnum ReviewOutcome := {|
  members := [RO_APPROVED; RO_REPAIR_REQUESTED; RO_REJECTED; RO_REPAIR_EXHAUSTED];
  enum_value o := match o with
    | RO_APPROVED => "approved" | RO_REPAIR_REQUESTED => "repair_requested"
    | RO_REJECTED => "rejected" | RO_REPAIR_EXHAUSTED => "repair_exhausted" end |}.
Next Obligation. solve_enum. Qed.
Next Obligation. solve_enum. Qed.
Record ReviewFinding := { rf_finding_id : string; rf_actionable : bool; rf_blocking : bool }.
Definition finding_post_init (f : ReviewFinding) : result ReviewFinding :=
  raise_when blank (rf_finding_id f) as InvalidInputError ;;
  raise_when rf_blocking f && negb (rf_actionable f) as InvalidInputError ;;
  Ok f.
Record ReviewReport := { rp_producer : string; rp_reviewer : string; rp_findings : list ReviewFinding }.
Definition report_post_init (r : ReviewReport) : result ReviewReport :=
  raise_when blank (rp_producer r) || blank (rp_reviewer r) as InvalidInputError ;;
  raise_when String.eqb (rp_producer r) (rp_reviewer r) as InvalidInputError ;;
  raise_when negb (bool_decide (NoDup (map rf_finding_id (rp_findings r)))) as InvalidInputError ;;
  Ok r.
Definition route_review (r : ReviewReport) (repair_attempt repair_limit : Z) : result ReviewOutcome :=
  raise_when (repair_attempt <? 0)%Z || (repair_limit <? 0)%Z as InvalidInputError ;;
  raise_when (repair_limit <? repair_attempt)%Z as InvalidInputError ;;
  Ok (if existsb rf_blocking (rp_findings r) then RO_REJECTED
      else if negb (existsb rf_actionable (rp_findings r)) then RO_APPROVED
      else if (repair_attempt =? repair_limit)%Z then RO_REPAIR_EXHAUSTED
      else RO_REPAIR_REQUESTED).

(** ** What the evaluation rests on *)
Section Readiness.
Context `{iso : IsoCodec}.
Lemma order_gt_spec (a b : review_order) : order_gt a b = true <-> (b.1 < a.1 \/ b.1 = a.1 /\ b.2 < a.2)%Z.
Proof. unfold order_gt. rewrite orb_true_iff, andb_true_iff, Z.ltb_lt, Z.eqb_eq, Z.ltb_lt. intuition lia. Qed.
Lemma order_gt_false (a b : review_order) : order_gt a b = false <-> (a.1 < b.1 \/ a.1 = b.1 /\ a.2 <= b.2)%Z.
Proof. rewrite <- not_true_iff_false, order_gt_spec. lia. Qed.

(** The review at [i] is the one that counts for its reviewer: none is newer, and an equally
    old one comes later in the list. *)
Definition current_review (reviews : list PullRequestReview) (i : nat) (r : PullRequestReview)
    (k : review_order) : Prop :=
  reviews !! i = Some r /\ decisive r = true /\ review_key i r = Some k /\
  forall j r' k', reviews !! j = Some r' -> decisive r' = true -> reviewer_key r' = reviewer_key r ->
    review_key j r' = Some k' ->
    ((j < i)%nat -> order_gt k k' = true) /\ ((i < j)%nat -> order_gt k' k = false).
Definition all_dated (reviews : list PullRequestReview) : Prop :=
  forall i r, reviews !! i = Some r -> decisive r = true -> is_Some (review_key i r).
Record latest_of (reviews : list PullRequestReview) (latest : LatestReviews) : Prop := {
  lo_dated : all_dated reviews;
  lo_some : forall key k r, latest !! key = Some (k, r) <->
    reviewer_key r = key /\ exists i, current_review reviews i r k;
  lo_none : forall key, latest !! key = None ->
    forall i r, reviews !! i = Some r -> decisive r = true -> reviewer_key r <> key }.

Lemma lookup_snoc_inv {A} (l : list A) x i y : (l ++ [x]) !! i = Some y ->
  (l !! i = Some y /\ (i < length l)%nat) \/ (i = length l /\ y = x).
Proof.
  intros [H|[Hl H]]%lookup_app_Some; [left; split; [done|by eapply lookup_lt_Some]|right].
  destruct (i - length l)%nat eqn:E; [|done]. injection H as <-. split; [lia|done].
Qed.
Lemma all_dated_snoc l x : all_dated (l ++ [x]) <->
  all_dated l /\ (decisive x = true -> is_Some (review_key (length l) x)).
Proof.
  split.
  - intros H. split; [|by intros; apply (H (length l) x); [apply list_lookup_middle|]].
    intros i r Hi. apply H. by apply lookup_app_l_Some.
  - intros [Hl Hx] i r [[Hi _]|[-> ->]]%lookup_snoc_inv; [by apply Hl|done].
Qed.
(** A review that another one does not outdate stays current. *)
Lemma current_snoc_l l x i r k : current_review l i r k ->
  (decisive x = true -> reviewer_key x = reviewer_key r -> forall kx,
     review_key (length l) x = Some kx -> order_gt kx k = false) ->
  current_review (l ++ [x]) i r k.
Proof.
  intros (Hi & Hd & Hk & Hmax) Hx. pose proof (lookup_lt_Some _ _ _ Hi) as Hlt.
  split_and!; [by apply lookup_app_l_Some|done|done|].
  intros j r' k' [[Hj Hjl]|[-> ->]]%lookup_snoc_inv Hd' Hr Hk'; [by eapply Hmax|].
  split; [lia|]. intros _. by apply Hx.
Qed.
Lemma current_snoc_inv l x i r k : current_review (l ++ [x]) i r k ->
  (current_review l i r k /\ (decisive x = true -> reviewer_key x = reviewer_key r -> forall kx,
     review_key (length l) x = Some kx -> order_gt kx k = false)) \/
  (i = length l /\ r = x).
Proof.
  intros (Hi & Hd & Hk & Hmax). apply lookup_snoc_inv in Hi as [[Hi Hlt]|Hi]; [left|by right].
  split.
  - split_and!; [done..|]. intros j r' k' Hj. apply Hmax. by apply lookup_app_l_Some.
  - intros Hdx Hr kx Hkx. apply (Hmax (length l) x kx); [by apply list_lookup_middle|done..].
Qed.

Lemma latest_skip l x m : latest_of l m -> decisive x = false -> latest_of (l ++ [x]) m.
Proof.
  intros [Hd Hs Hn] Hx. split.
  - apply all_dated_snoc. rewrite Hx. done.
  - intros key k r. rewrite Hs. split; intros [Hr (i & Hc)]; (split; [done|]).
    + exists i. apply current_snoc_l; [done|]. by rewrite Hx.
    + exists i. pose proof Hc as (_ & Hdr & _).
      apply current_snoc_inv in Hc as [[Hc _]|[-> ->]]; [done|congruence].
  - intros key Hk i r [[Hi _]|[-> ->]]%lookup_snoc_inv Hdec; [by eapply Hn|congruence].
Qed.
(** The newest review of [x]'s reviewer so far is older than [x], if there is one. *)
Lemma latest_replace l x kx m : latest_of l m -> decisive x = true -> review_key (length l) x = Some kx ->
  (forall k r, m !! reviewer_key x = Some (k, r) -> order_gt kx k = true) ->
  latest_of (l ++ [x]) (<[reviewer_key x := (kx, x)]> m).
Proof.
  intros [Hd Hs Hn] Hx Hk Hnew.
  assert (Hold : forall i r k, current_review l i r k -> reviewer_key r = reviewer_key x ->
    order_gt kx k = true) by (intros i r k Hc Hr; apply (Hnew k r), Hs; eauto).
  assert (Hcur : current_review (l ++ [x]) (length l) x kx).
  { split_and!; [by apply list_lookup_middle|done|done|].
    intros j r' k' [[Hj Hjl]|[-> ->]]%lookup_snoc_inv Hd' Hr Hk'; [|split; intros; lia].
    split; [|lia]. intros _. destruct (m !! reviewer_key x) as [[k r]|] eqn:E.
    - pose proof (Hnew k r eq_refl) as Hgt. apply Hs in E as [Hrr (i & Hi & _ & Hki & Hmax)].
      destruct (Hmax j r' k' Hj Hd' (eq_trans Hr (eq_sym Hrr)) Hk') as [H1 H2].
      rewrite order_gt_spec, order_gt_false in *. destruct (Nat.lt_trichotomy j i) as [Hji|[->|Hij]].
      + specialize (H1 Hji). lia.
      + rewrite Hi in Hj. injection Hj as <-. rewrite Hki in Hk'. by injection Hk' as <-.
      + specialize (H2 Hij). lia.
    - by destruct (Hn _ E j r' Hj Hd'). }
  split.
  - apply all_dated_snoc. rewrite Hk. done.
  - intros key k r. destruct (decide (key = reviewer_key x)) as [->|Hne].
    + rewrite lookup_insert_eq. split.
      * intros [= <- <-]. split; [done|by exists (length l)].
      * intros [Hr (i & Hc)]. pose proof Hc as (_ & _ & Hk' & _).
        apply current_snoc_inv in Hc as [[Hc Hno]|[-> ->]].
        -- specialize (Hno Hx (eq_sym Hr) kx Hk). rewrite (Hold i r k Hc Hr) in Hno. done.
        -- congruence.
    + rewrite lookup_insert_ne by done. rewrite Hs. split; intros [Hr (i & Hc)]; (split; [done|]); exists i.
      * apply current_snoc_l; [done|]. intros _ Hr'. congruence.
      * apply current_snoc_inv in Hc as [[Hc _]|[-> ->]]; [done|congruence].
  - intros key Hnone i r Hi Hdec. destruct (decide (key = reviewer_key x)) as [->|Hne];
      [by rewrite lookup_insert_eq in Hnone|]. rewrite lookup_insert_ne in Hnone by done.
    apply lookup_snoc_inv in Hi as [[Hi _]|[_ ->]]; [by eapply Hn|done].
Qed.
Lemma latest_keep l x kx k r m : latest_of l m -> decisive x = true -> review_key (length l) x = Some kx ->
  m !! reviewer_key x = Some (k, r) -> order_gt kx k = false -> latest_of (l ++ [x]) m.
Proof.
  intros [Hd Hs Hn] Hx Hk Hm Hold. split.
  - apply all_dated_snoc. rewrite Hk. done.
  - intros key k' r'. rewrite Hs. split; intros [Hr (i & Hc)]; (split; [done|]); exists i.
    + apply current_snoc_l; [done|]. intros _ Hr' kx' Hkx'. rewrite Hk in Hkx'. injection Hkx' as <-.
      assert (Hm' : m !! reviewer_key x = Some (k', r')) by (rewrite Hr'; apply Hs; eauto). congruence.
    + pose proof Hc as (_ & _ & Hk' & Hmax).
      apply current_snoc_inv in Hc as [[Hc _]|[-> ->]]; [done|]. exfalso.
      pose proof (proj1 (Hs _ _ _) Hm) as [Hrr (i & Hi & Hdi & Hki & _)].
      destruct (Hmax i r k (lookup_app_l_Some _ _ _ _ Hi) Hdi Hrr Hki) as [Hgt _].
      apply lookup_lt_Some in Hi. specialize (Hgt Hi).
      rewrite Hk in Hk'. injection Hk' as <-. congruence.
  - intros key Hnone i r' Hi Hdec. apply lookup_snoc_inv in Hi as [[Hi _]|[_ ->]]; [by eapply Hn|]. congruence.
Qed.
Lemma latest_reviews_spec pre rest m : latest_of pre m ->
  match latest_reviews (length pre) rest m with
  | Some latest => latest_of (pre ++ rest) latest
  | None => ~ all_dated (pre ++ rest)
  end.
Proof.
  revert pre m. induction rest as [|x rest IH]; intros pre m Hm; cbn [latest_reviews].
  { by rewrite app_nil_r. }
  assert (Hstep : forall m', latest_of (pre ++ [x]) m' ->
    match latest_reviews (S (length pre)) rest m' with
    | Some latest => latest_of (pre ++ x :: rest) latest | None => ~ all_dated (pre ++ x :: rest) end).
  { intros m' Hm'. specialize (IH (pre ++ [x]) m' Hm'). rewrite length_app, Nat.add_1_r in IH.
    by rewrite <- app_assoc in IH. }
  destruct (decisive x) eqn:Hx; cbn [negb]; [|by apply Hstep, latest_skip].
  destruct (review_key (length pre) x) as [kx|] eqn:Hk; cbn [mbind option_bind].
  2: { intros Hd. destruct (Hd (length pre) x) as [k Hk']; [by apply list_lookup_middle|done|congruence]. }
  apply Hstep. destruct (m !! reviewer_key x) as [[k r]|] eqn:E.
  - destruct (order_gt kx k) eqn:Hgt.
    + apply latest_replace; [done..|]. intros k' r'. rewrite E. by intros [= <- <-].
    + by apply (latest_keep _ _ kx k r).
  - apply latest_replace; [done..|]. intros k' r'. by rewrite E.
Qed.
Lemma latest_of_nil : latest_of [] ∅.
Proof.
  split; [by intros i r|intros key k r; rewrite lookup_empty; split; [done|]|by intros key _ i r].
  intros [_ (i & Hi & _)]. done.
Qed.
Lemma any_latest_spec P l m : latest_of l m ->
  any_latest P m = true <-> exists i r k, current_review l i r k /\ P r = true.
Proof.
  intros [_ Hs _]. unfold any_latest. rewrite existsb_exists. split.
  - intros ([key [k r]] & Hin & HP). apply list_elem_of_In, elem_of_map_to_list, Hs in Hin as [_ (i & Hc)].
    eauto.
  - intros (i & r & k & Hc & HP). exists (reviewer_key r, (k, r)). split; [|done].
    apply list_elem_of_In, elem_of_map_to_list, Hs. eauto.
Qed.

(** [checks_by_name] maps a name to the entries of its checks, then of its statuses. *)
Definition named_entries (e : PullRequestEvidence) (name : string) : list (string * option string) :=
  map (fun c => (ck_status c, ck_conclusion c)) (List.filter (fun c => String.eqb (ck_name c) name) (pe_checks e)) ++
  map status_entry (List.filter (fun s => String.eqb (su_context s) name) (pe_statuses e)).
Lemma fold_add {A} (key : A -> string) (value : A -> string * option string) l d name :
  dict_get name (foldl (fun d a => add_check (key a) (value a) d) d l) =
  match List.filter (fun a => String.eqb (key a) name) l with
  | [] => dict_get name d
  | here => Some (default [] (dict_get name d) ++ map value here)
  end.
Proof.
  revert d. induction l as [|a l IH]; intros d; [done|]. cbn [foldl List.filter]. rewrite IH. unfold add_check.
  destruct (String.eqb_spec (key a) name) as [<-|Hne].
  - rewrite dict_get_set. rewrite decide_True by done. cbn [default from_option id].
    destruct (List.filter _ l); cbn [map]; [done|by rewrite <- app_assoc].
  - rewrite dict_get_set, decide_False by done. done.
Qed.
Lemma checks_by_name_spec e name :
  dict_get name (checks_by_name e) = match named_entries e name with [] => None | l => Some l end.
Proof.
  unfold checks_by_name, named_entries. rewrite (fold_add su_context status_entry).
  rewrite (fold_add ck_name (fun c => (ck_status c, ck_conclusion c))).
  destruct (List.filter _ (pe_checks e)) as [|c cs], (List.filter _ (pe_statuses e)) as [|s ss]; cbn; try done.
  by rewrite app_nil_r.
Qed.
Definition passed (entry : string * option string) : Prop := completed entry = true /\ entry_succeeded entry = true.
Lemma required_verdict_none names d : required_verdict names d = None <->
  forall name, name ∈ names -> Forall passed (default [] (dict_get name d)).
Proof.
  induction names as [|name names IH]; cbn [required_verdict]; [split; [by intros _ name []%not_elem_of_nil|done]|].
  assert (Hp : Forall passed (default [] (dict_get name d)) <->
    existsb (fun entry => negb (completed entry)) (default [] (dict_get name d)) = false /\
    existsb (fun entry => negb (entry_succeeded entry)) (default [] (dict_get name d)) = false).
  { rewrite !existsb_false, Forall_forall. unfold passed. setoid_rewrite negb_false_iff. naive_solver. }
  assert (Hall : (forall n, n ∈ name :: names -> Forall passed (default [] (dict_get n d))) <->
    Forall passed (default [] (dict_get name d)) /\ required_verdict names d = None).
  { rewrite IH. setoid_rewrite elem_of_cons. naive_solver. }
  rewrite Hall, Hp. destruct (existsb _ _), (existsb _ _); naive_solver.
Qed.
Lemma required_verdict_some names d outcome : required_verdict names d = Some outcome ->
  outcome = PO_WAITING \/ outcome = PO_BLOCKED.
Proof.
  induction names as [|name names IH]; cbn [required_verdict]; [done|].
  destruct (existsb _ _); [intros [= <-]; by left|]. destruct (existsb _ _); [intros [= <-]; by right|done].
Qed.

(** What makes a head merge-ready. *)
Record merge_ready (e : PullRequestEvidence) (q : PullRequestRequirements) : Prop := {
  mr_head : prs_head_revision (pe_pull_request e) = rq_expected_head_revision q;
  mr_open : py_lower (prs_state (pe_pull_request e)) = "open";
  mr_mergeable : pe_mergeable e = Some true;
  mr_complete : evidence_complete e = true;
  mr_combined : pe_combined_status e <> Some "failure" /\ pe_combined_status e <> Some "error" /\
    (pe_statuses e <> [] -> pe_combined_status e = None \/ pe_combined_status e = Some "success");
  mr_statuses : forall s, s ∈ pe_statuses e -> py_lower (su_state s) = "success";
  mr_dated : all_dated (pe_reviews e);
  mr_reviews : forall i r k, current_review (pe_reviews e) i r k -> py_upper (rv_state r) <> "CHANGES_REQUESTED";
  mr_conclusions : forall c text, c ∈ pe_checks e -> ck_conclusion c = Some text -> text ∉ FAILED_CONCLUSIONS;
  mr_checks : forall name, name ∈ rq_required_checks q -> named_entries e name <> [] /\
    Forall passed (named_entries e name);
  mr_approval : rq_require_approved_review q = true -> exists i r k, current_review (pe_reviews e) i r k /\
    py_upper (rv_state r) = "APPROVED" /\ rv_head_revision r = rq_expected_head_revision q }.
Lemma is_empty_spec {A} (l : list A) : is_empty l = true <-> l = [].
Proof. by destruct l. Qed.

(** The tests of the evaluation, each one negative for a merge-ready head. *)
Definition withheld_before (e : PullRequestEvidence) (q : PullRequestRequirements) : bool :=
  negb (String.eqb (py_lower (prs_state (pe_pull_request e))) "open") || bool_decide (pe_mergeable e = Some false)
  || negb (evidence_complete e)
  || (bool_decide (pe_combined_status e ∈ [Some "failure"; Some "error"]) || existsb status_failed (pe_statuses e)).
Definition withheld_after (e : PullRequestEvidence) (q : PullRequestRequirements) (latest : LatestReviews) : bool :=
  any_latest (fun r => String.eqb (py_upper (rv_state r)) "CHANGES_REQUESTED") latest
  || existsb (fun c => from_option (fun text => bool_decide (text ∈ FAILED_CONCLUSIONS)) false (ck_conclusion c))
       (pe_checks e)
  || (negb (is_empty (pe_statuses e)) && negb (bool_decide (pe_combined_status e ∈ [None; Some "success"])) ||
      existsb (fun s => negb (String.eqb (py_lower (su_state s)) "success")) (pe_statuses e))
  || existsb (fun name => bool_decide (dict_get name (checks_by_name e) = None)) (rq_required_checks q).
Lemma evaluate_cases e q :
  let outcome := evaluate_pull_request e q in
  if negb (String.eqb (prs_head_revision (pe_pull_request e)) (rq_expected_head_revision q))
  then outcome = PO_SUPERSEDED
  else if withheld_before e q then outcome = PO_BLOCKED
  else match latest_reviews 0 (pe_reviews e) ∅ with
  | None => outcome = PO_BLOCKED
  | Some latest =>
      if withheld_after e q latest then outcome = PO_BLOCKED \/ outcome = PO_WAITING
      else outcome = default (review_verdict e q latest) (required_verdict (rq_required_checks q) (checks_by_name e))
  end.
Proof.
  cbv zeta. unfold evaluate_pull_request, withheld_before, withheld_after.
  destruct (negb (String.eqb (prs_head_revision _) _)); [done|].
  destruct (negb (String.eqb (py_lower _) _) || _); cbn [orb]; [done|].
  destruct (negb (evidence_complete e)); cbn [orb]; [done|].
  destruct (_ || existsb status_failed _); [done|].
  destruct (latest_reviews 0 _ _) as [latest|]; [|done].
  destruct (any_latest (fun r => String.eqb (py_upper (rv_state r)) "CHANGES_REQUESTED") latest); cbn [orb]; [by left|].
  destruct (existsb _ (pe_checks e)); cbn [orb]; [by left|].
  destruct (_ || existsb _ (pe_statuses e)); cbn [orb]; [by right|].
  destruct (existsb _ (rq_required_checks q)); [by right|].
  by destruct (required_verdict _ _).
Qed.
Lemma withheld_before_spec e q : withheld_before e q = false <->
  py_lower (prs_state (pe_pull_request e)) = "open" /\ pe_mergeable e <> Some false /\ evidence_complete e = true /\
  pe_combined_status e <> Some "failure" /\ pe_combined_status e <> Some "error" /\
  (forall s, s ∈ pe_statuses e -> status_failed s = false).
Proof.
  unfold withheld_before. rewrite !orb_false_iff, !negb_false_iff, String.eqb_eq, !bool_decide_eq_false, existsb_false.
  rewrite !not_elem_of_cons. pose proof (not_elem_of_nil (pe_combined_status e)). naive_solver.
Qed.
Lemma withheld_after_spec e q latest : latest_of (pe_reviews e) latest -> withheld_after e q latest = false <->
  (forall i r k, current_review (pe_reviews e) i r k -> py_upper (rv_state r) <> "CHANGES_REQUESTED") /\
  (forall c text, c ∈ pe_checks e -> ck_conclusion c = Some text -> text ∉ FAILED_CONCLUSIONS) /\
  (pe_statuses e <> [] -> pe_combined_status e = None \/ pe_combined_status e = Some "success") /\
  (forall s, s ∈ pe_statuses e -> py_lower (su_state s) = "success") /\
  (forall name, name ∈ rq_required_checks q -> named_entries e name <> []).
Proof.
  intros Hl. unfold withheld_after. rewrite !orb_false_iff, !existsb_false, <- (not_true_iff_false (any_latest _ _)).
  rewrite (any_latest_spec _ _ _ Hl). split.
  - intros [[[Hr Hc] [Hm Hs]] Hn]. split_and!.
    + intros i r k Hcur Hu. apply Hr. exists i, r, k. by rewrite Hu.
    + intros c text Hc' Ht. specialize (Hc _ Hc'). rewrite Ht in Hc. by apply bool_decide_eq_false in Hc.
    + intros Hne. apply andb_false_iff in Hm as [Hm|Hm].
      * apply negb_false_iff, is_empty_spec in Hm. done.
      * apply negb_false_iff, bool_decide_eq_true in Hm. rewrite !elem_of_cons in Hm.
        pose proof (not_elem_of_nil (pe_combined_status e)). naive_solver.
    + intros s Hs'. apply String.eqb_eq, negb_false_iff. by apply Hs.
    + intros name Hname Hnil. specialize (Hn _ Hname). apply bool_decide_eq_false in Hn. apply Hn.
      by rewrite checks_by_name_spec, Hnil.
  - intros (Hr & Hc & Hm & Hs & Hn). split_and!.
    + intros (i & r & k & Hcur & Hu%String.eqb_eq). by eapply Hr.
    + intros c Hc'. destruct (ck_conclusion c) as [text|] eqn:Ht; [|done]. by apply bool_decide_eq_false, (Hc c).
    + destruct (pe_statuses e) as [|s l] eqn:E; [done|]. cbn [is_empty negb andb].
      apply negb_false_iff, bool_decide_eq_true. rewrite !elem_of_cons. destruct (Hm ltac:(done)); tauto.
    + intros s Hs'. apply negb_false_iff, String.eqb_eq. by apply Hs.
    + intros name Hname. apply bool_decide_eq_false. rewrite checks_by_name_spec. specialize (Hn _ Hname).
      by destruct (named_entries e name).
Qed.
Lemma review_verdict_spec e q latest : latest_of (pe_reviews e) latest ->
  review_verdict e q latest = PO_MERGE_READY <-> pe_mergeable e <> None /\
  (rq_require_approved_review q = true -> exists i r k, current_review (pe_reviews e) i r k /\
    py_upper (rv_state r) = "APPROVED" /\ rv_head_revision r = rq_expected_head_revision q).
Proof.
  intros Hl. unfold review_verdict.
  assert (Ha : any_latest (fun r => String.eqb (py_upper (rv_state r)) "APPROVED" &&
      String.eqb (rv_head_revision r) (rq_expected_head_revision q)) latest = true <->
    exists i r k, current_review (pe_reviews e) i r k /\
      py_upper (rv_state r) = "APPROVED" /\ rv_head_revision r = rq_expected_head_revision q).
  { rewrite (any_latest_spec _ _ _ Hl). by setoid_rewrite andb_true_iff; setoid_rewrite String.eqb_eq. }
  rewrite <- Ha. destruct (rq_require_approved_review q), (any_latest _ latest), (pe_mergeable e); cbn; naive_solver.
Qed.

Lemma evaluate_outcomes e q :
  (evaluate_pull_request e q = PO_MERGE_READY <-> merge_ready e q) /\
  (evaluate_pull_request e q = PO_SUPERSEDED <->
     prs_head_revision (pe_pull_request e) <> rq_expected_head_revision q).
Proof.
  pose proof (evaluate_cases e q) as H. cbv zeta in H.
  destruct (String.eqb_spec (prs_head_revision (pe_pull_request e)) (rq_expected_head_revision q)) as [Hh|Hh];
    cbn [negb] in H.
  2: { rewrite H. split; [|done]. split; [done|]. by intros []. }
  pose proof (latest_reviews_spec [] (pe_reviews e) ∅ latest_of_nil) as Hl. cbn [length app] in Hl.
  destruct (withheld_before e q) eqn:Hb.
  { rewrite H. split; [|done]. split; [done|]. intros [_ Ho Hm Hc (H1 & H2 & _) Hs _ _ _ _ _].
    apply not_false_iff_true in Hb. destruct Hb. apply withheld_before_spec.
    split_and!; try done; [congruence|]. intros s Hs'. unfold status_failed. by rewrite (Hs s Hs'). }
  apply withheld_before_spec in Hb as (Ho & Hm & Hc & H1 & H2 & Hs).
  destruct (latest_reviews 0 (pe_reviews e) ∅) as [latest|].
  2: { rewrite H. split; [|done]. split; [done|]. intros [_ _ _ _ _ _ Hd _ _ _ _]. done. }
  destruct (withheld_after e q latest) eqn:Ha.
  { split; [|by destruct H as [-> | ->]]. split; [by destruct H as [-> | ->]|].
    intros [_ _ _ _ (_ & _ & H3) Hss _ Hr Hcc Hk _]. apply not_false_iff_true in Ha. destruct Ha.
    apply withheld_after_spec; [done|]. split_and!; try done. intros name Hn. apply (Hk name Hn). }
  apply (withheld_after_spec _ _ _ Hl) in Ha as (Hr & Hcc & H3 & Hss & Hn). rewrite H.
  assert (Hk : required_verdict (rq_required_checks q) (checks_by_name e) = None <->
    forall name, name ∈ rq_required_checks q -> Forall passed (named_entries e name)).
  { rewrite required_verdict_none. apply forall_proper. intros name. rewrite checks_by_name_spec.
    by destruct (named_entries e name). }
  destruct (required_verdict _ _) as [outcome|] eqn:Hv; cbn [default from_option id].
  - apply required_verdict_some in Hv. split; [|by destruct Hv as [-> | ->]].
    split; [by destruct Hv as [-> | ->]|]. intros [_ _ _ _ _ _ _ _ _ Hp _].
    enough (Some outcome = None) by done. apply Hk. intros name Hname. apply (Hp name Hname).
  - split; [|by unfold review_verdict; destruct (_ && _), (pe_mergeable e)].
    rewrite (review_verdict_spec e q latest Hl). pose proof (proj1 Hk eq_refl) as Hp. split.
    + intros [Hmg Hap]. split; try done.
      * by destruct (pe_mergeable e) as [[]|].
      * apply Hl.
      * intros name Hname. split; [by apply Hn|by apply Hp].
    + intros [_ _ Hmg _ _ _ _ _ _ _ Hap]. rewrite Hmg. done.
Qed.
(** C20: a pull request is classified merge-ready exactly when the evidence is about the
    expected head of an open pull request reported mergeable and complete, the combined
    status is neither a failure nor an error and, where there are commit statuses, absent or
    a success, every commit status is a success, no check of any name, required or not,
    concluded in a failure, every required check has an entry and every entry of that name
    completed and succeeded, every decisive review carries a readable time, no reviewer's
    newest decisive review asks for changes, and, if approval is required, some reviewer's
    newest one approves this head; and it is superseded exactly when the head is another. *)
Theorem evaluate_pull_request_spec e q :
  (evaluate_pull_request e q = PO_MERGE_READY <-> merge_ready e q) /\
  (evaluate_pull_request e q = PO_SUPERSEDED <->
     prs_head_revision (pe_pull_request e) <> rq_expected_head_revision q).
Proof. apply evaluate_outcomes. Qed.
End Readiness.
