(* ===== verification/MergeReady.v ===== *)
(** * Merging and verifying ([workflows/evidence.py], [workflows/verification.py],
      [workflows/merge_policy.py], [workflows/plan_to_release.py])

    The workflow services that ask the hosts: the double-read verification of a run, the
    policy-gated merge of a stack and the gates of a release.  What a host answers is a
    function of the calls made before ([Ports]); the calls are recorded. *)
From S2P Require Import Prelude PyText Json Identity IdentityProofs StateMachine Lifecycles Aggregates Evidence Policy.
From S2P Require Import Plans PlanExecutions Stacks StackProofs PolicyProofs Regex Workers Closures Redaction Ledger LedgerProofs LedgerTheorems Coordinator CoordinatorProofs.
From S2P Require Import Runtime Serialization StackCoordinator Approvals Incidents Outcomes PullRequests.

(** ** Ports *)
Record PublicationRequest := {
  pq_run_id : string; pq_artifact : ReleaseArtifact; pq_destination : string; pq_operation_id : string }.
Definition publication_request_post_init (q : PublicationRequest) : result PublicationRequest :=
  raise_when blank (pq_destination q) as PyValueError ;; Ok q.
Record PublicationReceipt := {
  pc_destination : string; pc_version : string; pc_artifact_digest : Digest }.
Definition publication_receipt_post_init (c : PublicationReceipt) : result PublicationReceipt :=
  raise_when blank (pc_destination c) || blank (pc_version c) as PyValueError ;; Ok c.
Record GitHubReleaseRequest := {
  gr_tag_name : string; gr_target_commitish : string; gr_name : string; gr_body : string;
  gr_prerelease : bool }.
Definition release_request_post_init (q : GitHubReleaseRequest) : result GitHubReleaseRequest :=
  raise_when existsb blank [gr_tag_name q; gr_target_commitish q; gr_name q] as InvalidInputError ;;
  raise_when blank (gr_body q) as InvalidInputError ;;
  Ok q.
Record BuiltFixtureArtifacts := {
  ba_wheel : ReleaseArtifact; ba_wheel_path : string; ba_sdist : ReleaseArtifact; ba_sdist_path : string }.
(** The calls the workflows make on [WorkLedgerPort], [PullRequestPort] and the release ports. *)
Inductive PortCall :=
| FetchWork (external_reference : string)
| PublishLifecycle (projection : LifecycleProjection) (operation_id : string)
| ReadEvidence (number : Z)
| MergePullRequest (number : Z) (expected_head_revision operation_id : string)
| StagePyPi (wheel_path sdist_path : string)
| StageRelease (artifact : Digest) (request : GitHubReleaseRequest)
| PublishPyPi (request : PublicationRequest)
| PublishRelease (request : PublicationRequest).
Record Ports := {
  port_fetch : list PortCall -> string -> result WorkLedgerSnapshot;
  port_publish_lifecycle : list PortCall -> LifecycleProjection -> string -> result ReconciliationResult;
  port_evidence : list PortCall -> Z -> result PullRequestEvidence;
  port_merge : list PortCall -> Z -> string -> string -> result PullRequestSnapshot;
  port_stage : list PortCall -> result ();
  port_publish : list PortCall -> PublicationRequest -> result PublicationReceipt }.

(** ** Computations over the ledger and the hosts *)
Record World := { w_ledger : Ledger; w_calls : list PortCall }.
Definition io (A : Type) : Type := World -> World * result A.
#[export] Instance io_ret : MRet io := fun A a w => (w, Ok a).
#[export] Instance io_bind : MBind io := fun A B f m w =>
  match m w with (w', Ok a) => f a w' | (w', Err e) => (w', Err e) end.
Definition io_lift {A} (r : result A) : io A := fun w => (w, r).
Definition on_ledger {A} (m : tx A) : io A := fun w =>
  let '(s, r) := m (w_ledger w) in ({| w_ledger := s; w_calls := w_calls w |}, r).
(** One call: recorded, then answered. *)
Definition ask {A} (c : PortCall) (answer : list PortCall -> result A) : io A := fun w =>
  ({| w_ledger := w_ledger w; w_calls := w_calls w ++ [c] |}, answer (w_calls w)).
Definition fetch_work (p : Ports) (reference : string) : io WorkLedgerSnapshot :=
  ask (FetchWork reference) (fun calls => port_fetch p calls reference).
Definition read_evidence (p : Ports) (number : Z) : io PullRequestEvidence :=
  ask (ReadEvidence number) (fun calls => port_evidence p calls number).

(** ** Terminal evidence ([workflows/evidence.py]) *)
(** [json.loads] of a text; [None] stands for the exception it raises. *)
Class JsonReader := { json_loads : string -> option json }.
Record Stage1EvidenceBundle := {
  eb_issue_revision : string; eb_base_revision : string; eb_head_revision : string;
  eb_pull_request_number : Z; eb_implementation_artifacts : list Digest;
  eb_verification_artifacts : list Digest; eb_outcome : PullRequestOutcome; eb_observed_at : datetime;
  eb_execution_selection_digest : option Digest; eb_github_evidence_json : list string }.
Section Bundle.
Context `{rt : PyRuntime} `{iso : IsoCodec} `{rd : JsonReader}.
Definition document_complete (document : string) : result () :=
  value ← from_option_err PyValueError (json_loads document);
  raise_when negb match value with
                  | JObj m => match dict_get "complete" m with Some (JBool true) => true | _ => false end
                  | _ => false end as InvalidInputError ;; Ok ().
Definition bundle_post_init (b : Stage1EvidenceBundle) : result Stage1EvidenceBundle :=
  raise_when existsb blank [eb_issue_revision b; eb_base_revision b; eb_head_revision b] as InvalidInputError ;;
  raise_when (eb_pull_request_number b <? 1)%Z as InvalidInputError ;;
  raise_when bool_decide (eb_outcome b = PO_MERGE_READY) &&
             (is_empty (eb_implementation_artifacts b) || is_empty (eb_verification_artifacts b))
    as InvalidInputError ;;
  raise_when negb (tz_aware (eb_observed_at b)) as InvalidInputError ;;
  _ ← each_result document_complete (eb_github_evidence_json b);
  Ok b.
(** [_subject_fields] *)
Definition subject_fields (b : Stage1EvidenceBundle) : result (list (string * json)) :=
  documents ← mapM_result (fun document => from_option_err PyValueError (json_loads document))
                (eb_github_evidence_json b);
  Ok ([("base_revision", JStr (eb_base_revision b)); ("head_revision", JStr (eb_head_revision b));
       ("implementation_artifacts", digests_json (eb_implementation_artifacts b));
       ("issue_revision", JStr (eb_issue_revision b)); ("outcome", JStr (enum_value (eb_outcome b)));
       ("pull_request_number", JInt (eb_pull_request_number b));
       ("verification_artifacts", digests_json (eb_verification_artifacts b))] ++
      match eb_execution_selection_digest b with
      | Some d => [("execution_selection_digest", JStr (digest_str d))] | None => [] end ++
      if is_empty (eb_github_evidence_json b) then [] else [("github_evidence", JList documents)]).
Definition bundle_digest (b : Stage1EvidenceBundle) : result Digest :=
  fields ← subject_fields b; digest_of_json (JObj fields).
Definition bundle_state (b : Stage1EvidenceBundle) : result json :=
  fields ← subject_fields b; digest ← bundle_digest b;
  Ok (JObj (fields ++ [("observed_at", JStr (isoformat (eb_observed_at b)));
                       ("evidence_digest", JStr (digest_str digest));
                       ("github_evidence_json", json_strs (eb_github_evidence_json b))])).
(** [current_for] *)
Definition bundle_current_for (b : Stage1EvidenceBundle) (issue_revision base_revision head_revision : string)
    (execution_selection_digest : option Digest) : bool :=
  String.eqb issue_revision (eb_issue_revision b) && String.eqb base_revision (eb_base_revision b) &&
  String.eqb head_revision (eb_head_revision b) &&
  bool_decide (execution_selection_digest = eb_execution_selection_digest b).

(** ** Verification ([workflows/verification.py]) *)
Record Stage1VerificationRequest := {
  vr_run_id : string; vr_lifecycle_operation_id : string; vr_external_reference : string;
  vr_issue_revision : string; vr_issue_digest : string; vr_base_revision : string;
  vr_pull_request_number : Z; vr_requirements : PullRequestRequirements;
  vr_implementation_artifacts : list Digest; vr_verification_artifacts : list Digest;
  vr_execution_selection_digest : option Digest }.
Definition verification_request_post_init (q : Stage1VerificationRequest) : result Stage1VerificationRequest :=
  raise_when existsb blank [vr_external_reference q; vr_issue_revision q; vr_issue_digest q; vr_base_revision q]
    as InvalidInputError ;;
  raise_when (vr_pull_request_number q <? 1)%Z as InvalidInputError ;;
  Ok q.
Record Stage1VerificationResult := {
  vs_outcome : PullRequestOutcome; vs_evidence : option Stage1EvidenceBundle;
  vs_github_evidence : list PullRequestEvidence }.
Definition verification_result_post_init (r : Stage1VerificationResult) : result Stage1VerificationResult :=
  raise_when bool_decide (vs_outcome r = PO_MERGE_READY) && is_none (vs_evidence r)
    as InvalidInputError ;;
  raise_when negb (bool_decide (vs_outcome r = PO_MERGE_READY)) && negb (is_none (vs_evidence r))
    as InvalidInputError ;;
  Ok r.
Definition mk_verification (outcome : PullRequestOutcome) (evidence : option Stage1EvidenceBundle)
    (seen : list PullRequestEvidence) : result Stage1VerificationResult :=
  verification_result_post_init {| vs_outcome := outcome; vs_evidence := evidence; vs_github_evidence := seen |}.
(** [_matches_request] *)
Definition matches_request (q : Stage1VerificationRequest) (issue : WorkLedgerSnapshot) (base_revision : string)
    : result bool :=
  if negb (String.eqb (ws_source_revision issue) (vr_issue_revision q)) then Ok false
  else
    digest ← bound_digest issue;
    Ok (String.eqb (digest_str digest) (vr_issue_digest q) && String.eqb base_revision (vr_base_revision q)).
(** One of the two reads: the outcome it stops with, if any. *)
Definition observe (p : Ports) (q : Stage1VerificationRequest)
    : io (option PullRequestOutcome * PullRequestEvidence) :=
  issue ← fetch_work p (vr_external_reference q);
  evidence ← read_evidence p (vr_pull_request_number q);
  same ← io_lift (matches_request q issue (prs_base_revision (pe_pull_request evidence)));
  mret (if negb (same : bool) then (Some PO_SUPERSEDED, evidence)
        else match evaluate_pull_request evidence (vr_requirements q) with
             | PO_MERGE_READY => (None, evidence)
             | outcome => (Some outcome, evidence)
             end).
Definition evidence_document (e : PullRequestEvidence) : option string :=
  match pe_completeness e with Some _ => Some (json_dumps (pr_evidence_state e)) | None => None end.
(** [Stage1EvidenceBundle(...)] of [verify]. *)
Definition terminal_bundle (q : Stage1VerificationRequest) (observed_at : datetime)
    (first terminal : PullRequestEvidence) : Stage1EvidenceBundle := {|
  eb_issue_revision := vr_issue_revision q; eb_base_revision := vr_base_revision q;
  eb_head_revision := rq_expected_head_revision (vr_requirements q);
  eb_pull_request_number := vr_pull_request_number q;
  eb_implementation_artifacts := vr_implementation_artifacts q;
  eb_verification_artifacts := vr_verification_artifacts q; eb_outcome := PO_MERGE_READY;
  eb_observed_at := observed_at; eb_execution_selection_digest := vr_execution_selection_digest q;
  eb_github_evidence_json := omap evidence_document [first; terminal] |}.
Definition verify_pull_request (p : Ports) (q : Stage1VerificationRequest) (observed_at : datetime)
    : io Stage1VerificationResult :=
  '(stop, first) ← observe p q;
  match stop with
  | Some outcome => io_lift (mk_verification outcome None [first])
  | None =>
      '(stop, terminal) ← observe p q;
      match stop with
      | Some outcome => io_lift (mk_verification outcome None [first; terminal])
      | None =>
          bundle ← io_lift (bundle_post_init (terminal_bundle q observed_at first terminal));
          digest ← io_lift (bundle_digest bundle);
          projection ← io_lift (lifecycle_projection_post_init {|
            lp_run_id := vr_run_id q; lp_external_reference := vr_external_reference q;
            lp_state := enum_value PO_MERGE_READY; lp_evidence_digest := Some digest |});
          published ← ask (PublishLifecycle projection (vr_lifecycle_operation_id q))
            (fun calls => port_publish_lifecycle p calls projection (vr_lifecycle_operation_id q));
          _ ← io_lift (raise_when negb (bool_decide (published = REC_FOUND_MATCHING)) as ExternalConflictError ;; Ok ());
          io_lift (mk_verification PO_MERGE_READY (Some bundle) [first; terminal])
      end
  end.
End Bundle.

(** ** Merging a stack ([workflows/merge_policy.py]) *)
Record MergeAttemptOutcome := {
  mo_stack : Stack; mo_milestone_id : option string; mo_merged : bool; mo_detail : string }.
(** Who evaluates policy and owns the coordinator, and when: one value per attempt. *)
Record Attempt := {
  at_clock : string; at_owner : string; at_now : datetime; at_window : timedelta;
  at_fresh_id : string; at_decided_at : datetime }.
(** [ApprovalSchema(action=..., risk_class=..., target_resource=...,
    requesting_principal_id=...)] and a digest when the caller gives one. *)
Definition workflow_schema (action : PolicyAction) (risk_class : RiskClass) (target_resource : string)
    (digest : option string) (requesting_principal_id : string) : result ApprovalSchema :=
  approval_schema_post_init {|
    ps_action := action; ps_work_kind := None; ps_risk_class := Some risk_class; ps_repository := None;
    ps_changed_paths := None; ps_requested_capability := None; ps_workflow_version := None;
    ps_policy_version := None; ps_evidence_status := None; ps_retry_consumption := None;
    ps_budget_consumption := None; ps_validation_profile := None; ps_release_type := None;
    ps_credential_request := None; ps_prior_interventions := None; ps_external_protection_state := None;
    ps_work_snapshot := None; ps_effective_configuration := None; ps_adapter_locks := None;
    ps_capability_locks := None; ps_target_resource := Some target_resource;
    ps_diff_or_artifact_digest := digest; ps_acceptance_criteria_snapshot := None;
    ps_evidence_bundle_digest := None; ps_requesting_principal_id := Some requesting_principal_id;
    ps_producer_principal_ids := None; ps_credential_delivery_target := None;
    ps_agent_authored_executable := None; ps_retry_after_ambiguous_effect := None;
    ps_reconciliation_complete := None; ps_mutates_active_factory_asset := None;
    ps_candidate_received_held_out_input := None; ps_candidate_affects_protected_control := None;
    ps_canary_target := None; ps_override_reason := None; ps_override_scope := None;
    ps_override_expires_at := None; ps_capability_introduced_by_run := None |}.

Section Merging.
Context `{rt : PyRuntime} `{iso : IsoCodec}.
(** [_merge_operation_id] *)
Definition merge_operation_id (stack_id milestone_id : string) : result string :=
  mk_identifier (sha256_hex (utf8 (py_join (String unit_sep "") ["stack-merge"; stack_id; milestone_id]))).
(** Not allowed: the exception is raised. *)
Definition require_policy_allow (e : PolicyEvaluator) (a : Attempt) (schema : ApprovalSchema) (refused : exn)
    : result () :=
  decision ← policy_evaluate e (at_fresh_id a) (at_decided_at a) schema;
  raise_when negb (bool_decide (pd_result decision = ALLOW)) as refused ;; Ok ().
Definition merge_next (p : Ports) (e : PolicyEvaluator) (a : Attempt) (stack_id : string)
    (pull_request_number : Z) (required_checks : list string) (require_approved_review : bool)
    (risk_class : RiskClass) (requesting_principal_id : string) : io MergeAttemptOutcome :=
  current ← on_ledger (asks (stack_read stack_id));
  stack ← io_lift (from_option_err MissingPrerequisiteError current);
  match next_mergeable stack with
  | None => mret {| mo_stack := stack; mo_milestone_id := None; mo_merged := false;
                    mo_detail := "no slice is currently eligible for a root-to-leaf merge" |}
  | Some milestone_id =>
      slice ← io_lift (stack_slice stack milestone_id);
      head ← io_lift (from_option_err InternalInvariantViolationError (sl_head_revision slice));
      schema ← io_lift (workflow_schema PULL_REQUEST_MERGE risk_class (sl_branch_ref slice)
                 (Some (from_option digest_str "None" (sl_ci_evidence_digest slice))) requesting_principal_id);
      _ ← io_lift (require_policy_allow e a schema PolicyDenialError);
      evidence ← read_evidence p pull_request_number;
      requirements ← io_lift (requirements_post_init {|
        rq_expected_head_revision := head; rq_required_checks := required_checks;
        rq_require_approved_review := require_approved_review |});
      let outcome := evaluate_pull_request evidence requirements in
      if negb (bool_decide (outcome = PO_MERGE_READY))
      then mret {| mo_stack := stack; mo_milestone_id := Some milestone_id; mo_merged := false;
                   mo_detail := "pull request is not currently merge-ready: " +:+ enum_value outcome |}
      else
        operation_id ← io_lift (merge_operation_id stack_id milestone_id);
        merged ← ask (MergePullRequest pull_request_number head operation_id)
                   (fun calls => port_merge p calls pull_request_number head operation_id);
        updated ← on_ledger (stack_merged (at_clock a) (at_owner a) (at_now a) (at_window a) stack_id milestone_id);
        mret {| mo_stack := updated; mo_milestone_id := Some milestone_id; mo_merged := true;
                mo_detail := "merged at " +:+ prs_head_revision merged |}
  end.

(** ** Releasing a plan ([workflows/plan_to_release.py]) *)
(** [merge_all]: the [n]th round of the loop is made as [attempts n] says; [None] when the
    fuel ran out. *)
Fixpoint merge_loop (fuel : nat) (p : Ports) (e : PolicyEvaluator) (attempts : nat -> Attempt) (n : nat)
    (stack_id : string) (pull_request_numbers : list (string * Z)) (required_checks : list string)
    (require_approved_review : bool) (risk_class : RiskClass) (requesting_principal_id : string)
    : io (option Stack) :=
  match fuel with
  | O => mret None
  | S fuel =>
      current ← on_ledger (asks (stack_read stack_id));
      stack ← io_lift (from_option_err MissingPrerequisiteError current);
      match next_mergeable stack with
      | None => mret (Some stack)
      | Some milestone_id =>
          number ← io_lift (from_option_err InvalidInputError (dict_get milestone_id pull_request_numbers));
          outcome ← merge_next p e (attempts n) stack_id number required_checks require_approved_review
                      risk_class requesting_principal_id;
          if negb (mo_merged outcome) then io_lift (Err ExternalConflictError)
          else merge_loop fuel p e attempts (S n) stack_id pull_request_numbers required_checks
                 require_approved_review risk_class requesting_principal_id
      end
  end.
(** One round per slice and a last one that finds none. *)
Definition merge_fuel (stack_id : string) (s : Ledger) : nat :=
  match stack_read stack_id s with Ok (Some stack) => S (length (st_slices stack)) | _ => 1 end.
Definition merge_all (p : Ports) (e : PolicyEvaluator) (attempts : nat -> Attempt)
    (stack_id : string) (pull_request_numbers : list (string * Z)) (required_checks : list string)
    (require_approved_review : bool) (risk_class : RiskClass) (requesting_principal_id : string)
    : io (option Stack) := fun w =>
  merge_loop (merge_fuel stack_id (w_ledger w)) p e attempts 0 stack_id pull_request_numbers required_checks
    require_approved_review risk_class requesting_principal_id w.
(** [_publish_operation_id] *)
Definition publish_operation_id (run_id destination version : string) : result string :=
  mk_identifier (sha256_hex (utf8 (py_join (String unit_sep "") ["stage2-publish"; run_id; destination; version]))).
Definition publication (run_id : string) (artifact : ReleaseArtifact) (destination : string)
    : result PublicationRequest :=
  operation_id ← publish_operation_id run_id destination (ra_version artifact);
  publication_request_post_init {| pq_run_id := run_id; pq_artifact := artifact;
    pq_destination := destination; pq_operation_id := operation_id |}.
(** [publish] *)
Definition publish_release (p : Ports) (e : PolicyEvaluator) (a : Attempt) (artifacts : BuiltFixtureArtifacts)
    (run_id : string) (request : GitHubReleaseRequest) (risk_class : RiskClass)
    (requesting_principal_id : string) : io (PublicationReceipt * PublicationReceipt) :=
  let wheel := ba_wheel artifacts in
  schema ← io_lift (workflow_schema RELEASE_PUBLISH risk_class (gr_tag_name request)
             (Some (digest_str (ra_digest wheel))) requesting_principal_id);
  _ ← io_lift (require_policy_allow e a schema HumanActionRequiredError);
  _ ← ask (StagePyPi (ba_wheel_path artifacts) (ba_sdist_path artifacts)) (port_stage p);
  pypi_request ← io_lift (publication run_id wheel "pypi");
  pypi_receipt ← ask (PublishPyPi pypi_request) (fun calls => port_publish p calls pypi_request);
  _ ← ask (StageRelease (ra_digest wheel) request) (port_stage p);
  github_request ← io_lift (publication run_id wheel "github-release");
  github_receipt ← ask (PublishRelease github_request) (fun calls => port_publish p calls github_request);
  mret (pypi_receipt, github_receipt).
End Merging.

(** ** Weakest preconditions of computations with the hosts *)
Section Wp.
Definition wp {A} (m : io A) (w : World) (Q : World -> result A -> Prop) : Prop :=
  let '(w', r) := m w in Q w' r.
Lemma wp_bind {A B} (f : A -> io B) (m : io A) w Q :
  wp (mbind f m) w Q <->
  wp m w (fun w' r => match r with Ok a => wp (f a) w' Q | Err e => Q w' (Err e) end).
Proof. unfold wp, mbind, io_bind. by destruct (m w) as [w' [a|e]]. Qed.
Lemma wp_ret {A} (a : A) w Q : wp (mret a : io A) w Q <-> Q w (Ok a).
Proof. done. Qed.
Lemma wp_lift {A} (r : result A) w Q : wp (io_lift r) w Q <-> Q w r.
Proof. done. Qed.
Lemma wp_ledger {A} (m : tx A) w Q :
  wp (on_ledger m) w Q <-> Q {| w_ledger := (m (w_ledger w)).1; w_calls := w_calls w |} (m (w_ledger w)).2.
Proof. unfold wp, on_ledger. by destruct (m (w_ledger w)). Qed.
Lemma wp_ask {A} c (answer : list PortCall -> result A) w Q :
  wp (ask c answer) w Q <->
  Q {| w_ledger := w_ledger w; w_calls := w_calls w ++ [c] |} (answer (w_calls w)).
Proof. done. Qed.
Lemma wp_mono {A} (m : io A) w (Q R : World -> result A -> Prop) :
  wp m w Q -> (forall w' r, Q w' r -> R w' r) -> wp m w R.
Proof. unfold wp. destruct (m w). auto. Qed.
End Wp.
(** Runs the computation up to its next branch. *)
Ltac wp_step :=
  repeat (progress (rewrite ?wp_bind, ?wp_ret, ?wp_lift, ?wp_ledger, ?wp_ask; cbn beta iota zeta; cbn [w_ledger w_calls])).

(** ** Merging the next slice *)
Section MergeNext.
Context `{rt : PyRuntime} `{iso : IsoCodec} (id : string).
Hypothesis Hid : valid_identifier id.

(** What a merge asked of the host rests on: the stored stack's next mergeable slice, an
    allow decision about its branch and CI evidence, and evidence, read just before, that
    this very head is merge-ready. *)
Record merge_justified (p : Ports) (e : PolicyEvaluator) (a : Attempt) (number : Z) (checks : list string)
    (approve : bool) (risk : RiskClass) (principal : string) (w : World) (m head operation_id : string) : Prop := {
  mj_slice : exists st x, stack_read id (w_ledger w) = Ok (Some st) /\ mergeable st m x /\
    sl_head_revision x = Some head /\ exists schema d,
    workflow_schema PULL_REQUEST_MERGE risk (sl_branch_ref x)
      (Some (from_option digest_str "None" (sl_ci_evidence_digest x))) principal = Ok schema /\
    policy_evaluate e (at_fresh_id a) (at_decided_at a) schema = Ok d /\ pd_result d = ALLOW;
  mj_evidence : exists evidence, port_evidence p (w_calls w) number = Ok evidence /\
    merge_ready evidence {| rq_expected_head_revision := head; rq_required_checks := checks;
                            rq_require_approved_review := approve |};
  mj_operation : merge_operation_id id m = Ok operation_id }.
Lemma require_allowed_Ok e a schema x : require_policy_allow e a schema x = Ok () ->
  exists d, policy_evaluate e (at_fresh_id a) (at_decided_at a) schema = Ok d /\ pd_result d = ALLOW.
Proof.
  unfold require_policy_allow. intros (d & Hd & H)%bind_Ok. rewrite raise_if_Ok, negb_false_iff, bool_decide_eq_true in H.
  exists d. naive_solver.
Qed.
(** The slice of the stack after it merged. *)
Definition merged_slice (x : StackSlice) : StackSlice :=
  sl_with x SL_MERGED (sl_head_revision x) (sl_ci_evidence_digest x).
Lemma stack_merged_spec clock owner now window st m x s : stack_holds id st s -> mergeable st m x ->
  match stack_merged clock owner now window id m s with
  | (s', Ok st') => st' = st_with_version (st_set st (merged_slice x)) (st_aggregate_version st + 1) /\
      stack_holds id st' s' /\ stack_evolves id s s'
  | (s', Err _) => stack_evolves id s s'
  end.
Proof.
  intros Hh Hm. unfold stack_merged. pose proof Hh as (_ & Hr & [Hwf _ _ _ _]). rewrite asks_tx.
  unfold stack_require. rewrite Hr. cbn [mbind result_bind from_option_err]. rewrite lift_tx.
  pose proof Hm as (Hx & _). rewrite (proj1 (stack_mark_merged_eq st m x Hwf Hx) Hm).
  apply (persist_holds id clock owner now window st s (StMerged m)); [done|done|].
  exact (proj1 (stack_mark_merged_eq st m x Hwf Hx) Hm).
Qed.

(** Everything an attempt does, by what it asked of the host. *)
Definition merge_attempt_post (p : Ports) (e : PolicyEvaluator) (a : Attempt) (number : Z) (checks : list string)
    (approve : bool) (risk : RiskClass) (principal : string) (w w' : World) (r : result MergeAttemptOutcome) : Prop :=
  (w_ledger w' = w_ledger w /\ w_calls w' ∈ [w_calls w; w_calls w ++ [ReadEvidence number]] /\
   forall o, r = Ok o -> mo_merged o = false /\ stack_read id (w_ledger w) = Ok (Some (mo_stack o)) /\
     mo_milestone_id o = next_mergeable (mo_stack o)) \/
  (exists m head operation_id, merge_justified p e a number checks approve risk principal w m head operation_id /\
   w_calls w' = w_calls w ++ [ReadEvidence number; MergePullRequest number head operation_id] /\
   stack_evolves id (w_ledger w) (w_ledger w') /\
   forall o, r = Ok o -> mo_merged o = true /\ mo_milestone_id o = Some m /\
     exists st x, stack_read id (w_ledger w) = Ok (Some st) /\ mergeable st m x /\
       mo_stack o = st_with_version (st_set st (merged_slice x)) (st_aggregate_version st + 1) /\
       stack_holds id (mo_stack o) (w_ledger w')).
Lemma merge_next_post p e a number checks approve risk principal w : stack_stored_ok id (w_ledger w) ->
  wp (merge_next p e a id number checks approve risk principal) w
     (merge_attempt_post p e a number checks approve risk principal w).
Proof.
  intros Hok. unfold merge_next. wp_step. cbn [asks fst snd].
  assert (Hnone : forall c r, c ∈ [w_calls w; w_calls w ++ [ReadEvidence number]] ->
    (forall o : MergeAttemptOutcome, r = Ok o -> False) ->
    merge_attempt_post p e a number checks approve risk principal w {| w_ledger := w_ledger w; w_calls := c |} r).
  { intros c r Hc Hr. left. split_and!; [done|done|]. intros o Ho. by destruct (Hr o). }
  assert (H0 : w_calls w ∈ [w_calls w; w_calls w ++ [ReadEvidence number]]) by apply list_elem_of_here.
  assert (H1 : w_calls w ++ [ReadEvidence number] ∈ [w_calls w; w_calls w ++ [ReadEvidence number]])
    by by apply list_elem_of_further, list_elem_of_here.
  destruct (stack_read id (w_ledger w)) as [[st|]|x] eqn:Hread; cbn [from_option_err]; [|by apply Hnone..].
  assert (Hh : stack_holds id st (w_ledger w)).
  { destruct Hok as [Hs [Hn|(st' & Hst')]]; [congruence|]. pose proof Hst' as (_ & Hr & _).
    rewrite Hread in Hr. by injection Hr as <-. }
  wp_step. destruct (next_mergeable st) as [m|] eqn:Hm.
  2: { wp_step. left. split_and!; [done|done|]. by intros o [= <-]. }
  pose proof Hh as (_ & _ & [Hwf _ _ _ _]). destruct (proj1 (next_mergeable_iff st m Hwf) Hm) as (x & Hx).
  pose proof Hx as (Hget & _). wp_step. unfold stack_slice. rewrite Hget. cbn [from_option_err].
  destruct (sl_head_revision x) as [head|] eqn:Hhead; cbn [from_option_err]; [|by apply Hnone].
  destruct (workflow_schema _ _ _ _ _) as [schema|] eqn:Hschema; [|by apply Hnone]. wp_step.
  destruct (require_policy_allow _ _ _ _) as [[]|] eqn:Hallow; [|by apply Hnone]. unfold read_evidence. wp_step.
  destruct (port_evidence p (w_calls w) number) as [evidence|] eqn:Hev; [|by apply Hnone]. cbn [w_calls w_ledger].
  destruct (requirements_post_init _) as [q|] eqn:Hq; [|by apply Hnone].
  assert (q = {| rq_expected_head_revision := head; rq_required_checks := checks;
                 rq_require_approved_review := approve |}) as ->.
  { unfold requirements_post_init in Hq. rewrite !raise_if_Ok in Hq. naive_solver. }
  wp_step. case_bool_decide as Hready; cbn [negb].
  2: { wp_step. left. split_and!; [done|done|]. intros o [= <-]. cbn. by rewrite Hread. }
  wp_step. destruct (merge_operation_id id m) as [op|] eqn:Hop; [|by apply Hnone]. wp_step.
  cbn [w_calls w_ledger]. rewrite <- app_assoc. cbn [app].
  assert (Hj : merge_justified p e a number checks approve risk principal w m head op).
  { split; [|by exists evidence; split; [|by apply evaluate_outcomes]|done].
    exists st, x. split_and!; [done..|]. destruct (require_allowed_Ok _ _ _ _ Hallow) as (d & Hd & Hr).
    by exists schema, d. }
  pose proof (stack_merged_spec (at_clock a) (at_owner a) (at_now a) (at_window a) st m x _ Hh Hx) as Hs.
  pose proof (stack_evolves_preorder id) as Hpre.
  destruct (port_merge p _ number head op) as [merged|].
  2: { right. exists m, head, op. split_and!; [done|done|reflexivity|done]. }
  wp_step. cbn [w_calls w_ledger].
  destruct (stack_merged _ _ _ _ _ _ _) as [s' [st'|]]; cbn [fst snd].
  - destruct Hs as (-> & Hh' & Hev'). wp_step. right. exists m, head, op. split_and!; [done|done|done|].
    intros o [= <-]. split_and!; [done|done|]. by exists st, x.
  - right. exists m, head, op. by split_and!.
Qed.

(** ** Merging a whole stack *)
Definition not_merged (s : StackSlice) : bool := negb (bool_decide (sl_state s = SL_MERGED)).
Definition unmerged (st : Stack) : nat := length (List.filter (fun kv => not_merged kv.2) (st_slices st)).
Lemma dict_set_filter {V} (f : V -> bool) k v v' (d : list (string * V)) : dict_get k d = Some v ->
  f v = true -> f v' = false ->
  S (length (List.filter (fun kv => f kv.2) (dict_set k v' d))) = length (List.filter (fun kv => f kv.2) d).
Proof.
  intros Hg Hv Hv'. induction d as [|[k2 v2] d IH]; [done|]. rewrite dict_get_cons in Hg. cbn [dict_set].
  destruct (String.eqb_spec k k2) as [->|Hn].
  - rewrite decide_True in Hg by done. injection Hg as ->. cbn. by rewrite Hv, Hv'.
  - rewrite decide_False in Hg by done. specialize (IH Hg). cbn. destruct (f v2); cbn; lia.
Qed.
Lemma merged_get st m x v : wf_stack st -> dict_get m (st_slices st) = Some x ->
  forall k, dict_get k (st_slices (st_with_version (st_set st (merged_slice x)) v)) =
    if decide (k = m) then Some (merged_slice x) else dict_get k (st_slices st).
Proof.
  intros Hwf Hx k. destruct (wf_get _ _ _ Hwf Hx) as (Hm & _). cbn. rewrite dict_get_set.
  cbn. rewrite Hm. by repeat case_decide.
Qed.
Lemma merged_fewer st m x v : wf_stack st -> mergeable st m x ->
  S (unmerged (st_with_version (st_set st (merged_slice x)) v)) = unmerged st.
Proof.
  intros Hwf (Hx & Hs & _). destruct (wf_get _ _ _ Hwf Hx) as (Hm & _). unfold unmerged. cbn. rewrite Hm.
  apply (dict_set_filter not_merged m x); [done| |done]. unfold not_merged. by rewrite Hs.
Qed.
Lemma same_position st m x m' x' : wf_stack st -> dict_get m (st_slices st) = Some x ->
  dict_get m' (st_slices st) = Some x' -> sl_position x = sl_position x' -> m = m'.
Proof.
  intros Hwf Hx Hx' Hp. destruct (wf_get _ _ _ Hwf Hx) as (Hm & _). destruct (wf_get _ _ _ Hwf Hx') as (Hm' & _).
  assert (x ∈ ordered_slices st) as Hin by (apply elem_of_ordered; [done|by rewrite Hm]).
  assert (x' ∈ ordered_slices st) as Hin' by (apply elem_of_ordered; [done|by rewrite Hm']).
  enough (x = x') by congruence. revert Hin Hin'. pose proof (ordered_strict st Hwf) as Hs.
  induction Hs as [|y l _ IH Hall]; [by intros Hin%elem_of_nil|]. rewrite Forall_forall in Hall.
  intros [->|Hi]%elem_of_cons [->|Hi']%elem_of_cons; [done| | |by apply IH].
  - apply Hall in Hi'. lia.
  - apply Hall in Hi. lia.
Qed.

(** The merges asked of the host, in order: each for its own milestone, at the head its
    slice carried when the loop began, in stack order. *)
Definition merge_call (c : PortCall) : bool := match c with MergePullRequest _ _ _ => true | _ => false end.
Definition merge_turn (st : Stack) (numbers : list (string * Z)) (m : string) (c : PortCall) : Prop :=
  exists number head operation_id x, c = MergePullRequest number head operation_id /\
    dict_get m numbers = Some number /\ merge_operation_id id m = Ok operation_id /\
    dict_get m (st_slices st) = Some x /\ sl_state x = SL_MERGE_READY /\ sl_head_revision x = Some head.
Definition beneath (st : Stack) (m m' : string) : Prop := forall x x', dict_get m (st_slices st) = Some x ->
  dict_get m' (st_slices st) = Some x' -> (sl_position x < sl_position x')%Z.
Definition merged_in_order (st : Stack) (numbers : list (string * Z)) (calls : list PortCall) : Prop :=
  exists ms, Forall2 (merge_turn st numbers) ms (List.filter merge_call calls) /\ StronglySorted (beneath st) ms.
Definition merge_loop_post (st : Stack) (numbers : list (string * Z)) (w w' : World)
    (r : result (option Stack)) : Prop :=
  stack_evolves id (w_ledger w) (w_ledger w') /\
  (exists calls, w_calls w' = w_calls w ++ calls /\ merged_in_order st numbers calls) /\
  match r with
  | Ok (Some st') => stack_holds id st' (w_ledger w') /\ next_mergeable st' = None
  | Ok None => False
  | Err _ => True
  end.
Lemma strongly_sorted_impl {A} (R S : A -> A -> Prop) l :
  (forall x y, x ∈ l -> y ∈ l -> R x y -> S x y) -> StronglySorted R l -> StronglySorted S l.
Proof.
  intros HRS Hs. induction Hs as [|x l _ IH Hall]; constructor.
  - apply IH. intros. apply HRS; [by right..|done].
  - rewrite Forall_forall in Hall |- *. intros y Hy. apply HRS; [left|by right|by apply Hall].
Qed.
Lemma merged_in_order_nil st numbers calls : List.filter merge_call calls = [] -> merged_in_order st numbers calls.
Proof. intros H. exists []. rewrite H. split; constructor. Qed.
Lemma merged_in_order_cons st m x v numbers number head op calls : wf_stack st -> mergeable st m x ->
  dict_get m numbers = Some number -> sl_head_revision x = Some head -> merge_operation_id id m = Ok op ->
  merged_in_order (st_with_version (st_set st (merged_slice x)) v) numbers calls ->
  merged_in_order st numbers ([ReadEvidence number; MergePullRequest number head op] ++ calls).
Proof.
  intros Hwf Hm Hnum Hhead Hop (ms & Hf & Hs). pose proof Hm as (Hx & Hst & Hlow).
  pose proof (merged_get st m x v Hwf Hx) as Hget.
  assert (Hne : forall m' c, merge_turn (st_with_version (st_set st (merged_slice x)) v) numbers m' c ->
    m' <> m /\ merge_turn st numbers m' c).
  { intros m' c (n' & h' & o' & x' & -> & Hn' & Ho' & Hx' & Hs' & Hh'). rewrite Hget in Hx'.
    case_decide; [by injection Hx' as <-|]. split; [done|]. by exists n', h', o', x'. }
  assert (Hin : forall m', m' ∈ ms -> m' <> m /\ exists c, merge_turn st numbers m' c).
  { intros m' (i & Hi)%list_elem_of_lookup. destruct (Forall2_lookup_l _ _ _ _ _ Hf Hi) as (c & _ & Ht).
    destruct (Hne _ _ Ht). eauto. }
  exists (m :: ms). cbn [app List.filter merge_call]. split.
  - constructor; [by exists number, head, op, x|]. eapply Forall2_impl; [exact Hf|]. intros m' c Ht. by apply Hne.
  - constructor.
    + eapply strongly_sorted_impl; [|exact Hs]. intros m1 m2 H1 H2 Hb y y' Hy Hy'.
      destruct (Hin _ H1) as [Hn1 _], (Hin _ H2) as [Hn2 _].
      by apply Hb; rewrite Hget, decide_False.
    + apply Forall_forall. intros m' Hm'. destruct (Hin _ Hm') as [Hmm (c & n' & h' & o' & x' & _ & _ & _ & Hx' & Hs' & _)].
      intros y y' Hy Hy'. rewrite Hx in Hy. rewrite Hx' in Hy'. injection Hy as <-. injection Hy' as <-.
      destruct (Z.lt_trichotomy (sl_position x) (sl_position x')) as [|[He|Hlt]]; [done| |].
      * destruct Hmm. by apply (same_position st m' x' m x).
      * rewrite (Hlow _ _ Hx' Hlt) in Hs'. done.
Qed.
Lemma merge_loop_spec fuel p e attempts n numbers checks approve risk principal st w :
  stack_holds id st (w_ledger w) -> (unmerged st < fuel)%nat ->
  wp (merge_loop fuel p e attempts n id numbers checks approve risk principal) w (merge_loop_post st numbers w).
Proof.
  pose proof (stack_evolves_preorder id) as Hpre.
  revert st n w. induction fuel as [|fuel IH]; intros st n w Hh Hlt; [lia|]. cbn [merge_loop].
  pose proof Hh as (Hs & Hr & [Hwf _ _ _ _]). wp_step. cbn [asks fst snd]. rewrite Hr. cbn [from_option_err].
  wp_step. destruct (next_mergeable st) as [m|] eqn:Hm.
  2: { wp_step. split_and!; [reflexivity| |done|done]. exists []. rewrite app_nil_r.
       split; [done|by apply merged_in_order_nil]. }
  destruct w as [s cs]. cbn [w_ledger w_calls] in *. wp_step.
  destruct (dict_get m numbers) as [number|] eqn:Hnum; cbn [from_option_err].
  2: { split_and!; [reflexivity| |done]. exists []. rewrite app_nil_r. split; [done|by apply merged_in_order_nil]. }
  wp_step. eapply wp_mono; [apply merge_next_post; split; [done|right; by exists st]|].
  intros w1 r [(Hl & Hcs & Ho)|(m1 & head & op & Hj & Hcs & Hev & Ho)]; cbn [w_ledger w_calls] in *.
  - assert (Hdone : forall r, (forall o, r <> Ok o) -> merge_loop_post st numbers {| w_ledger := s; w_calls := cs |} w1 r).
    { intros r' Hr'. split; [rewrite Hl; reflexivity|]. split; [|by destruct r' as [o|]; [destruct (Hr' o)|]].
      cbn [w_calls]. apply elem_of_cons in Hcs as [->|[->|[]%not_elem_of_nil]%elem_of_cons].
      - exists []. rewrite app_nil_r. split; [done|by apply merged_in_order_nil].
      - eexists. split; [done|by apply merged_in_order_nil]. }
    destruct r as [o|]; [|by apply Hdone]. destruct (Ho o eq_refl) as (-> & _). cbn [negb]. wp_step. by apply Hdone.
  - destruct Hj as [(st0 & x & Hr0 & Hx & Hhead & _) _ Hop]. cbn [w_ledger w_calls] in *.
    rewrite Hr in Hr0. injection Hr0 as <-.
    assert (m1 = m) as -> by (apply (Some_inj m1 m); rewrite <- Hm; symmetry; apply next_mergeable_iff; eauto).
    assert (Hcons : forall st' calls, st' = st_with_version (st_set st (merged_slice x)) (st_aggregate_version st + 1) ->
      merged_in_order st' numbers calls ->
      merged_in_order st numbers ([ReadEvidence number; MergePullRequest number head op] ++ calls)).
    { intros st' calls -> Hcalls. by eapply merged_in_order_cons. }
    destruct r as [o|e0].
    2: { split_and!; [done| |done]. eexists. split; [exact Hcs|]. rewrite <- (app_nil_r [_; _]).
         eapply Hcons; [done|by apply merged_in_order_nil]. }
    destruct (Ho o eq_refl) as (-> & _ & st0 & x0 & Hr0 & Hx0 & Hst' & Hh'). cbn [negb].
    rewrite Hr in Hr0. injection Hr0 as <-. destruct Hx as (Hx & Hsx), Hx0 as (Hx0 & Hsx0).
    rewrite Hx in Hx0. injection Hx0 as <-.
    eapply wp_mono; [apply (IH (mo_stack o)); [done|]|].
    { rewrite Hst'. pose proof (merged_fewer st m x (st_aggregate_version st + 1) Hwf (conj Hx Hsx)). lia. }
    intros w2 r2 (Hev2 & (calls & Hcs2 & Hord) & Hres). split_and!; [by etrans| |done].
    eexists. split; [rewrite Hcs2, Hcs, <- app_assoc; done|]. by eapply Hcons.
Qed.
End MergeNext.

(** ** Verification *)
Section Verification.
Context `{rt : PyRuntime} `{iso : IsoCodec} `{rd : JsonReader}.
(** The calls of one read, and what a read that does not stop has seen. *)
Definition read_calls (q : Stage1VerificationRequest) : list PortCall :=
  [FetchWork (vr_external_reference q); ReadEvidence (vr_pull_request_number q)].
Record current_subject (p : Ports) (q : Stage1VerificationRequest) (calls : list PortCall)
    (evidence : PullRequestEvidence) : Prop := {
  cs_issue : exists issue digest, port_fetch p calls (vr_external_reference q) = Ok issue /\
    ws_source_revision issue = vr_issue_revision q /\ bound_digest issue = Ok digest /\
    digest_str digest = vr_issue_digest q;
  cs_evidence : port_evidence p (calls ++ [FetchWork (vr_external_reference q)]) (vr_pull_request_number q) = Ok evidence;
  cs_base : prs_base_revision (pe_pull_request evidence) = vr_base_revision q;
  cs_ready : merge_ready evidence (vr_requirements q) }.
Lemma matches_request_true q issue base : matches_request q issue base = Ok true ->
  ws_source_revision issue = vr_issue_revision q /\ base = vr_base_revision q /\
  exists digest, bound_digest issue = Ok digest /\ digest_str digest = vr_issue_digest q.
Proof.
  unfold matches_request. destruct (String.eqb_spec (ws_source_revision issue) (vr_issue_revision q)); [|done].
  intros (d & Hd & [= [H1%String.eqb_eq H2%String.eqb_eq]%andb_prop])%bind_Ok. eauto.
Qed.
Definition observe_post (p : Ports) (q : Stage1VerificationRequest) (w w' : World)
    (r : result (option PullRequestOutcome * PullRequestEvidence)) : Prop :=
  w_ledger w' = w_ledger w /\
  (w_calls w' = w_calls w ++ [FetchWork (vr_external_reference q)] \/ w_calls w' = w_calls w ++ read_calls q) /\
  match r with
  | Ok (None, evidence) => w_calls w' = w_calls w ++ read_calls q /\ current_subject p q (w_calls w) evidence
  | Ok (Some outcome, _) => outcome <> PO_MERGE_READY
  | Err _ => True
  end.
Lemma observe_spec p q w : wp (observe p q) w (observe_post p q w).
Proof.
  unfold observe, fetch_work, read_evidence. wp_step.
  destruct (port_fetch p (w_calls w) _) as [issue|] eqn:Hf; [|by split_and!; [|left|]].
  wp_step. assert (Hc : (w_calls w ++ [FetchWork (vr_external_reference q)]) ++ [ReadEvidence (vr_pull_request_number q)]
    = w_calls w ++ read_calls q) by (by rewrite <- app_assoc).
  destruct (port_evidence p _ _) as [evidence|] eqn:He; [|by split_and!; [|right|]].
  wp_step. destruct (matches_request q issue _) as [same|] eqn:Hm; [|by split_and!; [|right|]].
  wp_step. split_and!; [done|by right|]. destruct same; [|done]. cbn [negb].
  apply matches_request_true in Hm as (Hr & Hb & d & Hd & Hdd).
  pose proof (evaluate_outcomes evidence (vr_requirements q)) as [Hready _].
  destruct (evaluate_pull_request evidence (vr_requirements q)); try done.
  split; [done|]. split; [by exists issue, d|done|done|by apply Hready].
Qed.
(** Both reads found the same current subject, ready to merge. *)
Definition twice_ready (p : Ports) (q : Stage1VerificationRequest) (calls : list PortCall)
    (first terminal : PullRequestEvidence) : Prop :=
  current_subject p q calls first /\ current_subject p q (calls ++ read_calls q) terminal.
Definition lifecycle_call (c : PortCall) : bool := match c with PublishLifecycle _ _ => true | _ => false end.
(** The announcement of a merge-ready run. *)
Definition ready_projection (q : Stage1VerificationRequest) (digest : Digest) : LifecycleProjection := {|
  lp_run_id := vr_run_id q; lp_external_reference := vr_external_reference q;
  lp_state := "merge_ready"; lp_evidence_digest := Some digest |}.
Definition announcement (q : Stage1VerificationRequest) (digest : Digest) : PortCall :=
  PublishLifecycle (ready_projection q digest) (vr_lifecycle_operation_id q).
Definition verify_post (p : Ports) (q : Stage1VerificationRequest) (observed_at : datetime) (w w' : World)
    (r : result Stage1VerificationResult) : Prop :=
  w_ledger w' = w_ledger w /\
  exists calls, w_calls w' = w_calls w ++ calls /\
  ((List.filter lifecycle_call calls = [] /\ forall v, r = Ok v -> vs_outcome v <> PO_MERGE_READY /\ vs_evidence v = None) \/
   exists first terminal digest, let bundle := terminal_bundle q observed_at first terminal in
     twice_ready p q (w_calls w) first terminal /\
     bundle_digest bundle = Ok digest /\
     calls = read_calls q ++ read_calls q ++ [announcement q digest] /\
     forall v, r = Ok v ->
       port_publish_lifecycle p ((w_calls w ++ read_calls q) ++ read_calls q) (ready_projection q digest)
         (vr_lifecycle_operation_id q) = Ok REC_FOUND_MATCHING /\
       vs_outcome v = PO_MERGE_READY /\ vs_evidence v = Some bundle /\ vs_github_evidence v = [first; terminal]).
Lemma mk_verification_Ok outcome evidence seen v : mk_verification outcome evidence seen = Ok v ->
  v = {| vs_outcome := outcome; vs_evidence := evidence; vs_github_evidence := seen |}.
Proof. unfold mk_verification, verification_result_post_init. rewrite !raise_if_Ok. naive_solver. Qed.
Lemma bundle_post_init_Ok b b' : bundle_post_init b = Ok b' -> b' = b.
Proof.
  unfold bundle_post_init. rewrite !raise_if_Ok. intros (_ & _ & _ & _ & H).
  by apply bind_Ok in H as (_ & _ & [= <-]).
Qed.
Lemma reads_no_lifecycle q calls : calls = [FetchWork (vr_external_reference q)] \/ calls = read_calls q ->
  List.filter lifecycle_call calls = [].
Proof. by intros [-> | ->]. Qed.
(** What remains once both reads agree. *)
Lemma verify_announced p q t w first terminal digest w' r : twice_ready p q (w_calls w) first terminal ->
  bundle_digest (terminal_bundle q t first terminal) = Ok digest -> w_ledger w' = w_ledger w ->
  w_calls w' = ((w_calls w ++ read_calls q) ++ read_calls q) ++ [announcement q digest] ->
  (forall v, r = Ok v ->
     port_publish_lifecycle p ((w_calls w ++ read_calls q) ++ read_calls q) (ready_projection q digest)
       (vr_lifecycle_operation_id q) = Ok REC_FOUND_MATCHING /\
     vs_outcome v = PO_MERGE_READY /\
     vs_evidence v = Some (terminal_bundle q t first terminal) /\ vs_github_evidence v = [first; terminal]) ->
  verify_post p q t w w' r.
Proof.
  intros Ht Hd Hl Hc Hv. split; [done|]. eexists. split; [by rewrite Hc, <- !app_assoc|].
  right. exists first, terminal, digest. by split_and!.
Qed.
Lemma verify_stopped p q t w w' calls r : w_ledger w' = w_ledger w -> w_calls w' = w_calls w ++ calls ->
  List.filter lifecycle_call calls = [] ->
  (forall v, r = Ok v -> vs_outcome v <> PO_MERGE_READY /\ vs_evidence v = None) -> verify_post p q t w w' r.
Proof. intros Hl Hc Hn Hv. split; [done|]. exists calls. split; [done|by left]. Qed.
Lemma mk_verification_stops outcome seen v : outcome <> PO_MERGE_READY -> mk_verification outcome None seen = Ok v ->
  vs_outcome v <> PO_MERGE_READY /\ vs_evidence v = None.
Proof. by intros Hne ->%mk_verification_Ok. Qed.
Lemma verify_spec p q t w : wp (verify_pull_request p q t) w (verify_post p q t w).
Proof.
  unfold verify_pull_request. wp_step. eapply wp_mono; [apply observe_spec|]. intros w1 r1 (Hl1 & Hc1 & Hr1).
  assert (Hstop1 : forall r, (forall v, r = Ok v -> vs_outcome v <> PO_MERGE_READY /\ vs_evidence v = None) ->
    verify_post p q t w w1 r).
  { intros r Hr. destruct Hc1 as [Hc1|Hc1]; (eapply verify_stopped; [done|exact Hc1|done|done]). }
  destruct r1 as [[[outcome|] first]|e]; [|clear Hstop1|by apply Hstop1].
  { wp_step. apply Hstop1. intros v. by apply mk_verification_stops. }
  destruct Hr1 as [Hcalls1 Hfirst]. wp_step. eapply wp_mono; [apply observe_spec|].
  intros w2 r2 (Hl2 & Hc2 & Hr2). rewrite Hl1 in Hl2. rewrite Hcalls1 in Hc2, Hr2.
  assert (Hstop2 : forall r, (forall v, r = Ok v -> vs_outcome v <> PO_MERGE_READY /\ vs_evidence v = None) ->
    verify_post p q t w w2 r).
  { intros r Hr. destruct Hc2 as [Hc2|Hc2]; rewrite <- app_assoc in Hc2;
      (eapply verify_stopped; [done|exact Hc2|done|done]). }
  destruct r2 as [[[outcome|] terminal]|e]; [| |by apply Hstop2].
  { wp_step. apply Hstop2. intros v. by apply mk_verification_stops. }
  destruct Hr2 as [Hcalls Hterminal]. wp_step.
  destruct (bundle_post_init _) as [bundle|] eqn:Hb; [|by apply Hstop2]. wp_step.
  apply bundle_post_init_Ok in Hb as ->.
  destruct (bundle_digest _) as [digest|] eqn:Hd; [|by apply Hstop2]. wp_step.
  destruct (lifecycle_projection_post_init _) as [projection|] eqn:Hp; [|by apply Hstop2]. wp_step.
  unfold lifecycle_projection_post_init in Hp. rewrite !raise_if_Ok in Hp. destruct Hp as (_ & _ & [= <-]).
  destruct (port_publish_lifecycle _ _ _ _) as [published|] eqn:Hpub; rewrite Hcalls in Hpub.
  - wp_step. destruct (bool_decide (published = REC_FOUND_MATCHING)) eqn:Hm; cbn [negb raise_if mbind result_bind]; wp_step;
      (apply (verify_announced _ _ _ _ first terminal digest);
        [by split|done|done|cbn [w_calls]; by rewrite Hcalls|try done]).
    apply bool_decide_eq_true in Hm. subst published. by intros v ->%mk_verification_Ok.
  - by apply (verify_announced _ _ _ _ first terminal digest); [by split|done|done|cbn [w_calls]; by rewrite Hcalls|].
Qed.
End Verification.

(** ** Publishing a release *)
Section Publishing.
Context `{rt : PyRuntime} `{iso : IsoCodec}.
(** A recorded, current approval of this very request by independent registered humans. *)
Definition human_approved (history : list RegistryOp) (now : datetime) (schema : ApprovalSchema) : Prop :=
  exists approval, approval ∈ (registry_run history).2 /\ ar_outcome approval = APPROVED /\
    schema_digest schema = Ok (ar_schema_digest approval) /\
    separated schema (ar_approvers approval) (registered_human_ids (registry_run history).1) /\
    exists us, now = Aware us /\ forall t, ar_expires_at approval = Some t -> (us <= micros t)%Z.
Lemma allowed_rests_on_human history e a schema x : pe_approval_registry e = Some (registry_run history).1 ->
  requires_human schema = true -> require_policy_allow e a schema x = Ok () ->
  human_approved history (at_decided_at a) schema.
Proof.
  intros Hg Hh (d & Hd & Hr)%require_allowed_Ok.
  destruct (allowed_by_human _ _ _ _ _ Hd Hr Hh) as (g & approval & Hg' & Ha & Hs).
  rewrite Hg in Hg'. injection Hg' as <-. apply approval_recorded in Ha as (Hin & Ho & Hdg & Ht).
  by exists approval.
Qed.
Definition publish_calls (artifacts : BuiltFixtureArtifacts) (request : GitHubReleaseRequest)
    (pypi github : PublicationRequest) : list PortCall :=
  [StagePyPi (ba_wheel_path artifacts) (ba_sdist_path artifacts); PublishPyPi pypi;
   StageRelease (ra_digest (ba_wheel artifacts)) request; PublishRelease github].
Definition publish_post (history : list RegistryOp) (a : Attempt) (artifacts : BuiltFixtureArtifacts)
    (run_id : string) (request : GitHubReleaseRequest) (risk : RiskClass) (principal : string)
    (w w' : World) (r : result (PublicationReceipt * PublicationReceipt)) : Prop :=
  w_ledger w' = w_ledger w /\ exists calls pypi github, w_calls w' = w_calls w ++ calls /\
  calls `prefix_of` publish_calls artifacts request pypi github /\
  (PublishPyPi pypi ∈ calls -> publication run_id (ba_wheel artifacts) "pypi" = Ok pypi) /\
  (PublishRelease github ∈ calls -> publication run_id (ba_wheel artifacts) "github-release" = Ok github) /\
  (forall receipts, r = Ok receipts -> calls = publish_calls artifacts request pypi github) /\
  (calls <> [] -> exists schema, workflow_schema RELEASE_PUBLISH risk (gr_tag_name request)
       (Some (digest_str (ra_digest (ba_wheel artifacts)))) principal = Ok schema /\
     human_approved history (at_decided_at a) schema).
Lemma workflow_schema_Ok action risk target digest principal schema :
  workflow_schema action risk target digest principal = Ok schema -> ps_action schema = action.
Proof.
  unfold workflow_schema, approval_schema_post_init. intros H. repeat (apply bind_Ok in H as (? & _ & H)).
  by injection H as <-.
Qed.
Lemma publish_release_spec history p e a artifacts run_id request risk principal w :
  pe_approval_registry e = Some (registry_run history).1 ->
  wp (publish_release p e a artifacts run_id request risk principal) w
     (publish_post history a artifacts run_id request risk principal w).
Proof.
  intros Hreg. unfold publish_release. wp_step.
  set (none := {| pq_run_id := ""; pq_artifact := ba_wheel artifacts; pq_destination := ""; pq_operation_id := "" |}).
  assert (Hnone : forall e0, publish_post history a artifacts run_id request risk principal w w (Err e0)).
  { intros e0. split; [done|]. exists [], none, none. rewrite app_nil_r.
    split_and!; [done|apply prefix_nil|by intros []%not_elem_of_nil..|done|done]. }
  destruct (workflow_schema _ _ _ _ _) as [schema|] eqn:Hschema; [|apply Hnone]. wp_step.
  destruct (require_policy_allow _ _ _ _) as [[]|] eqn:Hallow; [|apply Hnone]. wp_step.
  assert (Hhuman : human_approved history (at_decided_at a) schema).
  { eapply allowed_rests_on_human; [done| |done]. apply workflow_schema_Ok in Hschema.
    unfold requires_human, is_action. by rewrite Hschema. }
  assert (Hsome : forall calls pypi github (r : result (PublicationReceipt * PublicationReceipt)),
    calls `prefix_of` publish_calls artifacts request pypi github ->
    (PublishPyPi pypi ∈ calls -> publication run_id (ba_wheel artifacts) "pypi" = Ok pypi) ->
    (PublishRelease github ∈ calls -> publication run_id (ba_wheel artifacts) "github-release" = Ok github) ->
    (forall receipts, r = Ok receipts -> calls = publish_calls artifacts request pypi github) ->
    publish_post history a artifacts run_id request risk principal w
      {| w_ledger := w_ledger w; w_calls := w_calls w ++ calls |} r).
  { intros calls pypi github r H1 H2 H3 H4. split; [done|]. exists calls, pypi, github. split_and!; try done. eauto. }
  destruct (port_stage p _) as [[]|]; [|apply (Hsome _ none none); [by eexists [_; _; _]|set_solver|set_solver|done]].
  wp_step. destruct (publication run_id _ "pypi") as [pypi|] eqn:Hp;
    [|apply (Hsome _ none none); [by eexists [_; _; _]|set_solver|set_solver|done]].
  wp_step. rewrite <- app_assoc. cbn [app].
  destruct (port_publish p _ pypi) as [r1|]; [|apply (Hsome _ pypi none); [by eexists [_; _]|done|set_solver|done]].
  wp_step. rewrite <- app_assoc. cbn [app].
  destruct (port_stage p _) as [[]|]; [|apply (Hsome _ pypi none); [by eexists [_]|done|set_solver|done]].
  wp_step. destruct (publication run_id _ "github-release") as [github|] eqn:Hg;
    [|apply (Hsome _ pypi none); [by eexists [_]|done|set_solver|done]].
  wp_step. rewrite <- app_assoc. cbn [app].
  destruct (port_publish p _ github) as [r2|]; wp_step; (apply (Hsome _ pypi github); [by exists []|done..]).
Qed.
End Publishing.

(** ** Theorems *)
Section Claims.
Context `{rt : PyRuntime} `{iso : IsoCodec} `{rd : JsonReader}.
(** C11: an attempt to merge asks the host to merge at most once, and only the stored
    stack's next mergeable slice at its recorded head, after policy allowed it and
    evidence read just before showed that head merge-ready; it reports a merge exactly
    when the stack it returns is the durable one with that slice, and no other, merged.
    Otherwise the ledger is untouched; in particular when the host no longer reports the
    pull request open, whether or not it merged it. *)
Theorem merge_next_sound id p e a number checks approve risk principal w :
  stack_stored_ok id (w_ledger w) ->
  let '(w', r) := merge_next p e a id number checks approve risk principal w in
  merge_attempt_post id p e a number checks approve risk principal w w' r /\
  (forall evidence, port_evidence p (w_calls w) number = Ok evidence ->
     py_lower (prs_state (pe_pull_request evidence)) <> "open" -> w_ledger w' = w_ledger w).
Proof.
  intros Hok. pose proof (merge_next_post id p e a number checks approve risk principal w Hok) as H.
  unfold wp in H. destruct (merge_next _ _ _ _ _ _ _ _ _ w) as [w' r]. split; [done|].
  intros evidence He Hne. destruct H as [(Hl & _)|(m & head & op & [_ (e' & He' & Hr) _] & _)]; [done|].
  rewrite He in He'. injection He' as <-. destruct (Hne (mr_open _ _ Hr)).
Qed.

(** C12: merging a whole stack ends: within one round per slice and one more, it has
    raised or returned the durable stack with no slice left to merge.  However it ends,
    the merges it asked of the host were for distinct slices, merge-ready when it began,
    each at its recorded head, in stack order. *)
Theorem merge_all_sound id p e attempts numbers checks approve risk principal st w :
  stack_holds id st (w_ledger w) ->
  let '(w', r) := merge_all p e attempts id numbers checks approve risk principal w in
  merge_loop_post id st numbers w w' r.
Proof.
  intros Hh. unfold merge_all, merge_fuel. pose proof Hh as (_ & Hr & _). rewrite Hr.
  apply (merge_loop_spec id (S (length (st_slices st)))); [done|].
  unfold unmerged. pose proof (bfilter_sublist (fun kv => not_merged kv.2) (st_slices st)) as Hs%sublist_length. lia.
Qed.

(** C13: the terminal bundle of a run exists and is announced only if two reads in a row
    found the same issue revision and digest, the same base and a merge-ready head; the
    announcement carries the bundle's digest and is made once, and the verification reports
    merge-ready, with that bundle and both reads, only if the work ledger answered that
    announcement with what it found already matching. *)
Theorem verify_sound p q observed_at w :
  let '(w', r) := verify_pull_request p q observed_at w in verify_post p q observed_at w w' r.
Proof. apply (verify_spec p q observed_at w). Qed.

(** C19: whatever happens, nothing is staged or published for a release unless the
    registry holds a recorded approval, not expired at the decision, by independent
    registered humans, of the request that names this tag and this wheel's digest; the
    index comes first, the release page second, each under its own operation identity. *)
Theorem publish_rests_on_human history p e a artifacts run_id request risk principal w :
  pe_approval_registry e = Some (registry_run history).1 ->
  let '(w', r) := publish_release p e a artifacts run_id request risk principal w in
  publish_post history a artifacts run_id request risk principal w w' r.
Proof. apply publish_release_spec. Qed.
End Claims.

(** ** Concrete merges and a release *)
Module Demo.
#[local] Existing Instance toy_runtime.
#[local] Existing Instance toy_iso.
Definition calls : list (CallSite * StackCall) :=
  [(StackCoordinator.Demo.at_time 0, ScStart "plan-1" "main" [("m2", "b1"); ("m1", "b2")]);
   (StackCoordinator.Demo.at_time 1, ScPublish "m2" "h1");
   (StackCoordinator.Demo.at_time 2, ScMergeReady "m2" "h1" sample_ci);
   (StackCoordinator.Demo.at_time 3, ScPublish "m1" "h2");
   (StackCoordinator.Demo.at_time 4, ScMergeReady "m1" "h2" sample_ci)].
Definition s : Ledger := stack_run "stack-1" calls empty_ledger.
Definition snapshot (number : Z) (state : string) : PullRequestSnapshot := {|
  prs_number := number; prs_url := "url"; prs_state := state; prs_head_branch := "b";
  prs_head_revision := if (number =? 1)%Z then "h1" else "h2"; prs_base_branch := "main";
  prs_base_revision := "base"; prs_merged := false |}.
Definition evidence (number : Z) (state : string) : PullRequestEvidence := {|
  pe_pull_request := snapshot number state; pe_reviews := [];
  pe_checks := [{| ck_name := "ci"; ck_status := "COMPLETED"; ck_conclusion := Some "success";
                   ck_head_revision := prs_head_revision (snapshot number state); ck_app_id := None |}];
  pe_mergeable := Some true; pe_statuses := []; pe_combined_status := None; pe_completeness := None;
  pe_raw_artifact_digests := [] |}.
Definition wheel : ReleaseArtifact := {| ra_version := "1.0.0"; ra_digest := sample_ci; ra_media_type := "wheel" |}.
(** A host that answers every question and merges what it is asked to. *)
Definition hosts (state : string) : Ports := {|
  port_fetch := fun _ _ => Err MissingPrerequisiteError;
  port_publish_lifecycle := fun _ _ _ => Ok REC_FOUND_MATCHING;
  port_evidence := fun _ number => Ok (evidence number state);
  port_merge := fun _ number _ _ => Ok (snapshot number "closed"); port_stage := fun _ => Ok ();
  port_publish := fun _ q => Ok {| pc_destination := pq_destination q; pc_version := ra_version (pq_artifact q);
                                   pc_artifact_digest := ra_digest (pq_artifact q) |} |}.
Definition rules : PolicyEvaluator := {|
  pe_policy_version := "v1"; pe_rules := stage2_policy_rules; pe_approval_registry := None |}.
Definition attempt (us : Z) : Attempt := {|
  at_clock := "t"; at_owner := "alice"; at_now := Aware us; at_window := 100; at_fresh_id := "decision-1";
  at_decided_at := Aware us |}.
Definition w : World := {| w_ledger := s; w_calls := [] |}.
Lemma s_stored : stack_stored_ok "stack-1" s.
Proof.
  apply (stack_run_evolves "stack-1" calls empty_ledger); [reflexivity|repeat constructor|].
  split; [exact wf_empty_ledger|by left].
Qed.
Definition merge (state : string) : World * result MergeAttemptOutcome :=
  merge_next (hosts state) rules (attempt 10) "stack-1" 1 ["ci"] false RISK_LOW "operator" w.
Lemma merge_next_sound_witness :
  (exists o, (merge "OPEN").2 = Ok o /\ mo_merged o = true /\ mo_milestone_id o = Some "m2") /\
  merge_attempt_post "stack-1" (hosts "OPEN") rules (attempt 10) 1 ["ci"] false RISK_LOW "operator" w
    (merge "OPEN").1 (merge "OPEN").2 /\
  w_ledger (merge "MERGED").1 = s.
Proof.
  split; [eexists; split; [vm_compute; reflexivity|split; reflexivity]|].
  pose proof (merge_next_sound "stack-1" (hosts "OPEN") rules (attempt 10) 1 ["ci"] false RISK_LOW "operator" w
    s_stored) as H1.
  pose proof (merge_next_sound "stack-1" (hosts "MERGED") rules (attempt 10) 1 ["ci"] false RISK_LOW "operator" w
    s_stored) as H2.
  unfold merge. destruct (merge_next (hosts "OPEN") _ _ _ _ _ _ _ _ _) as [w1 r1].
  destruct (merge_next (hosts "MERGED") _ _ _ _ _ _ _ _ _) as [w2 r2].
  split; [exact (proj1 H1)|]. exact (proj2 H2 (evidence 1 "MERGED") eq_refl ltac:(discriminate)).
Defined.

Definition merge_both : World * result (option Stack) :=
  merge_all (hosts "open") rules (fun n => attempt (10 + Z.of_nat n)) "stack-1" [("m1", 2%Z); ("m2", 1%Z)] ["ci"] false
    RISK_LOW "operator" w.
Lemma merge_all_sound_witness : exists st st', stack_read "stack-1" s = Ok (Some st) /\
  merge_loop_post "stack-1" st [("m1", 2%Z); ("m2", 1%Z)] w merge_both.1 (Ok (Some st')) /\
  length (List.filter merge_call (w_calls merge_both.1)) = 2%nat.
Proof.
  destruct s_stored as [_ [Hn|(st & Hh)]]; [vm_compute in Hn; discriminate|]. exists st.
  assert (exists st', merge_both.2 = Ok (Some st')) as (st' & Hr) by (eexists; vm_compute; reflexivity).
  exists st'. split; [exact (proj1 (proj2 Hh))|]. split; [|vm_compute; reflexivity].
  pose proof (merge_all_sound "stack-1" (hosts "open") rules (fun n => attempt (10 + Z.of_nat n))
    [("m1", 2%Z); ("m2", 1%Z)] ["ci"] false RISK_LOW "operator" st w Hh) as H.
  rewrite <- Hr. unfold merge_both. destruct (merge_all _ _ _ _ _ _ _ _ _ w) as [w1 r1]. exact H.
Defined.

Definition release : GitHubReleaseRequest := {|
  gr_tag_name := "v1.0.0"; gr_target_commitish := "h2"; gr_name := "1.0.0"; gr_body := "notes"; gr_prerelease := false |}.
Definition built : BuiltFixtureArtifacts := {|
  ba_wheel := wheel; ba_wheel_path := "/w.whl"; ba_sdist := wheel; ba_sdist_path := "/s.tar.gz" |}.
Definition request : ApprovalSchema :=
  match workflow_schema RELEASE_PUBLISH RISK_LOW "v1.0.0" (Some (digest_str sample_ci)) "operator" with
  | Ok schema => schema | Err _ => PolicyProofs.Demo.publish end.
Definition history : list RegistryOp := [
  RRegister PolicyProofs.Demo.alice;
  RApprove "approval-1" request [PolicyProofs.Demo.alice] None None (Aware 0)].
Definition approved : PolicyEvaluator := {|
  pe_policy_version := "v1"; pe_rules := []; pe_approval_registry := Some (registry_run history).1 |}.
Definition publish : World * result (PublicationReceipt * PublicationReceipt) :=
  publish_release (hosts "open") approved (attempt 5) built "run-1" release RISK_LOW "operator" w.
Lemma publish_rests_on_human_witness : length (w_calls publish.1) = 4%nat /\
  publish_post history (attempt 5) built "run-1" release RISK_LOW "operator" w publish.1 publish.2.
Proof.
  split; [vm_compute; reflexivity|].
  pose proof (publish_rests_on_human history (hosts "open") approved (attempt 5) built "run-1" release RISK_LOW
    "operator" w eq_refl) as H.
  unfold publish. destruct (publish_release _ _ _ _ _ _ _ _ w) as [w1 r1]. exact H.
Defined.
End Demo.
