(* ===== verification/Selections.v ===== *)
(** * Execution selections ([domain/execution_catalog.py], [domain/execution_selection.py])

    The catalog of the controls each harness supports, the selection a run is bound to,
    its resolution from configuration layers, its persisted form and the holds that keep a
    drifted run from advancing.  A pin pattern is a text the standard library's [re]
    interprets: [PatternEngine]. *)
From S2P Require Import Prelude PyText Json Identity Regex VersionRange.

(** [re.fullmatch(pattern, text) is not None]; [None] where [re.compile] raises. *)
Class PatternEngine := { pattern_fullmatch : string -> string -> option bool }.
Definition is_nil {A} (l : list A) : bool := match l with [] => true | _ => false end.

(** ** The catalog ([domain/execution_catalog.py]) *)
Inductive SupportTier := QUALIFIED | EXPERIMENTAL | UNSUPPORTED.
#[export] Instance SupportTier_eq_dec : EqDecision SupportTier.
Proof. solve_decision. Defined.
#[export] Program Instance SupportTier_enum : PyEnum SupportTier := {|
  members := [QUALIFIED; EXPERIMENTAL; UNSUPPORTED];
  enum_value t := match t with
    | QUALIFIED => "qualified" | EXPERIMENTAL => "experimental" | UNSUPPORTED => "unsupported" end |}.
Next Obligation. solve_enum. Qed.
Next Obligation. solve_enum. Qed.
Record ModelControl := {
  mc_flag : string; mc_pin_form : string; mc_pin_pattern : string; mc_effective_evidence : string }.
Definition model_control_post_init `{PatternEngine} (c : ModelControl) : result ModelControl :=
  raise_when existsb blank [mc_flag c; mc_pin_form c; mc_pin_pattern c] as InvalidInputError ;;
  raise_when bool_decide (pattern_fullmatch (mc_pin_pattern c) "" = None) as InvalidInputError ;;
  Ok c.
Definition model_accepts `{PatternEngine} (c : ModelControl) (value : string) : bool :=
  default false (pattern_fullmatch (mc_pin_pattern c) value).
Record EffortControl := {
  ec_flag : string; ec_levels : list string; ec_unpinnable : list string; ec_effective_evidence : string }.
Definition effort_control_post_init (c : EffortControl) : result EffortControl :=
  raise_when blank (ec_flag c) as InvalidInputError ;;
  raise_when is_nil (ec_levels c) || existsb blank (ec_levels c) as InvalidInputError ;;
  raise_when existsb (fun level => bool_decide (level ∈ ec_unpinnable c)) (ec_levels c) as InvalidInputError ;;
  Ok c.
Record InstalledHost := { ih_executable_version : string; ih_protocol_fingerprint : string }.
Definition installed_host_post_init (h : InstalledHost) : result InstalledHost :=
  raise_when blank (ih_executable_version h) || blank (ih_protocol_fingerprint h) as InvalidInputError ;; Ok h.
#[export] Instance VersionRange_eq_dec : EqDecision VersionRange.
Proof. solve_decision. Defined.
(** [ExactHostVersion | RangedHostVersion] *)
Inductive HostVersion := ExactHostVersion (version : string) | RangedHostVersion (accepted : VersionRange) (tested : Version).
#[export] Instance HostVersion_eq_dec : EqDecision HostVersion.
Proof. solve_decision. Defined.
Definition host_version_post_init (v : HostVersion) : result HostVersion :=
  match v with
  | ExactHostVersion version => raise_when blank version as InvalidInputError ;; Ok v
  | RangedHostVersion accepted tested =>
      raise_when negb (range_contains accepted tested) as InvalidInputError ;; Ok v
  end.
Definition ranged (v : HostVersion) : bool := match v with RangedHostVersion _ _ => true | _ => false end.
(** [expectation], [accepts], [details], [bound_details] *)
Definition expectation (v : HostVersion) : string :=
  match v with
  | ExactHostVersion version => "the tested " +:+ version
  | RangedHostVersion accepted tested =>
      "the accepted range " +:+ version_range_str accepted +:+ " (tested " +:+ version_str tested +:+ ")"
  end.
Definition version_accepts_host (v : HostVersion) (observed : string) : result bool :=
  match v with
  | ExactHostVersion version => Ok (String.eqb observed version)
  | RangedHostVersion accepted _ => range_accepts accepted observed
  end.
Definition bound_details (v : HostVersion) : list (string * string) :=
  match v with
  | ExactHostVersion version => [("bound_executable_version", version)]
  | RangedHostVersion accepted tested =>
      [("bound_executable_versions", version_range_str accepted);
       ("bound_tested_executable_version", version_str tested)]
  end.
Record HostCapability := {
  hc_harness : string; hc_version : HostVersion; hc_protocol_fingerprint : string;
  hc_support_tier : SupportTier; hc_model : ModelControl; hc_effort : EffortControl }.
Definition host_capability_post_init (h : HostCapability) : result HostCapability :=
  raise_when blank (hc_harness h) || blank (hc_protocol_fingerprint h) as InvalidInputError ;; Ok h.
(** [HostCapability]'s methods *)
Definition host_matches (h : HostCapability) (i : InstalledHost) : result bool :=
  if negb (String.eqb (ih_protocol_fingerprint i) (hc_protocol_fingerprint h)) then Ok false
  else version_accepts_host (hc_version h) (ih_executable_version i).
Definition tested_executable_version (h : HostCapability) : string :=
  match hc_version h with
  | RangedHostVersion _ tested => version_str tested | ExactHostVersion version => version end.
Definition matches_tested (h : HostCapability) (i : InstalledHost) : result bool :=
  accepted ← host_matches h i;
  Ok (accepted && String.eqb (ih_executable_version i) (tested_executable_version h)).
Definition require_installed (h : HostCapability) (installed : option InstalledHost) : result () :=
  match installed with
  | None => Err MissingPrerequisiteError
  | Some i => accepted ← host_matches h i; raise_when negb accepted as MissingPrerequisiteError ;; Ok ()
  end.
Definition require_model_pin `{PatternEngine} (h : HostCapability) (value : string) : result () :=
  raise_when negb (model_accepts (hc_model h) value) as InvalidInputError ;; Ok ().
Definition require_effort_level (h : HostCapability) (value : string) : result () :=
  raise_when bool_decide (value ∈ ec_unpinnable (hc_effort h)) as InvalidInputError ;;
  raise_when negb (bool_decide (value ∈ ec_levels (hc_effort h))) as InvalidInputError ;; Ok ().
Definition require_usable (h : HostCapability) : result () :=
  raise_when bool_decide (hc_support_tier h = UNSUPPORTED) as MissingPrerequisiteError ;; Ok ().
Record ExecutionCatalog := { xc_version : string; xc_digest : Digest; xc_hosts : list HostCapability }.
Definition catalog_post_init (c : ExecutionCatalog) : result ExecutionCatalog :=
  raise_when blank (xc_version c) as InvalidInputError ;;
  raise_when negb (bool_decide (NoDup (map hc_harness (xc_hosts c)))) as InvalidInputError ;; Ok c.
Definition catalog_host (c : ExecutionCatalog) (harness : string) : result HostCapability :=
  from_option_err InvalidInputError (List.find (fun h => String.eqb (hc_harness h) harness) (xc_hosts c)).

(** Decoding a parsed catalog: [_table], [_text], [_texts]. *)
Definition has_entry (entry : list (string * json)) (key : string) : bool :=
  match dict_get key entry with Some _ => true | None => false end.
Definition catalog_table (entry : list (string * json)) (key : string) : result (list (string * json)) :=
  match dict_get key entry with Some (JObj m) => Ok m | _ => Err InvalidInputError end.
Definition catalog_text (allow_blank : bool) (entry : list (string * json)) (key : string) : result string :=
  match dict_get key entry with
  | Some (JStr s) => raise_when negb allow_blank && blank s as InvalidInputError ;; Ok s
  | _ => Err InvalidInputError
  end.
Definition str_item (j : json) : option string := match j with JStr s => Some s | _ => None end.
Definition str_items (l : list json) : result (list string) :=
  mapM_result (fun j => from_option_err InvalidInputError (str_item j)) l.
Definition catalog_texts (entry : list (string * json)) (key : string) : result (list string) :=
  match dict_get key entry with Some (JList l) => str_items l | _ => Err InvalidInputError end.
(** [_host_version_from_mapping] *)
Definition host_version_from_mapping (entry : list (string * json)) : result HostVersion :=
  let exact := has_entry entry "executable_version" in
  let ranged := has_entry entry "executable_versions" || has_entry entry "tested_executable_version" in
  raise_when Bool.eqb exact ranged as InvalidInputError ;;
  if exact then version ← catalog_text false entry "executable_version"; host_version_post_init (ExactHostVersion version)
  else
    range_text ← catalog_text false entry "executable_versions"; accepted ← version_range_parse range_text;
    tested_text ← catalog_text false entry "tested_executable_version"; tested ← version_parse tested_text;
    host_version_post_init (RangedHostVersion accepted tested).
(** An enumeration's member, or the exception of an unknown one. *)
Definition known_member {A} `{PyEnum A} (value : json) : result A :=
  match value with
  | JStr s => match enum_of_value s with Ok x => Ok x | Err _ => Err InvalidInputError end
  | _ => Err InvalidInputError
  end.
Definition host_from_mapping `{PatternEngine} (entry : json) : result HostCapability :=
  match entry with
  | JObj entry =>
      tier_text ← catalog_text false entry "support_tier"; tier ← known_member (JStr tier_text);
      model ← catalog_table entry "model"; effort ← catalog_table entry "effort";
      harness ← catalog_text false entry "harness"; version ← host_version_from_mapping entry;
      protocol ← catalog_text false entry "protocol_fingerprint";
      model_flag ← catalog_text false model "flag"; form ← catalog_text false model "pin_form";
      pattern ← catalog_text false model "pin_pattern"; evidence ← catalog_text true model "effective_evidence";
      control ← model_control_post_init {| mc_flag := model_flag; mc_pin_form := form;
                                           mc_pin_pattern := pattern; mc_effective_evidence := evidence |};
      effort_flag ← catalog_text false effort "flag"; levels ← catalog_texts effort "levels";
      unpinnable ← catalog_texts effort "unpinnable";
      effort_evidence ← catalog_text true effort "effective_evidence";
      effort_control ← effort_control_post_init {| ec_flag := effort_flag; ec_levels := levels;
        ec_unpinnable := unpinnable; ec_effective_evidence := effort_evidence |};
      host_capability_post_init {| hc_harness := harness; hc_version := version;
        hc_protocol_fingerprint := protocol; hc_support_tier := tier; hc_model := control;
        hc_effort := effort_control |}
  | _ => Err InvalidInputError
  end.
Definition catalog_from_mapping `{PatternEngine} (data : list (string * json)) (digest : Digest)
    : result ExecutionCatalog :=
  match dict_get "catalog_version" data, dict_get "hosts" data with
  | Some (JStr version), Some (JList hosts) =>
      hosts ← mapM_result host_from_mapping hosts;
      catalog_post_init {| xc_version := version; xc_digest := digest; xc_hosts := hosts |}
  | _, _ => Err InvalidInputError
  end.

(** ** Selections ([domain/execution_selection.py]) *)
Inductive SelectionLayer := LAYER_RUN | LAYER_PROJECT | LAYER_USER | LAYER_WORKFLOW | LAYER_FACTORY.
#[export] Instance SelectionLayer_eq_dec : EqDecision SelectionLayer.
Proof. solve_decision. Defined.
#[export] Program Instance SelectionLayer_enum : PyEnum SelectionLayer := {|
  members := [LAYER_RUN; LAYER_PROJECT; LAYER_USER; LAYER_WORKFLOW; LAYER_FACTORY];
  enum_value l := match l with
    | LAYER_RUN => "run" | LAYER_PROJECT => "project" | LAYER_USER => "user"
    | LAYER_WORKFLOW => "workflow" | LAYER_FACTORY => "factory" end |}.
Next Obligation. solve_enum. Qed.
Next Obligation. solve_enum. Qed.
(** [PRECEDENCE.index] *)
Definition layer_rank (l : SelectionLayer) : nat :=
  match l with
  | LAYER_RUN => 0 | LAYER_PROJECT => 1 | LAYER_USER => 2 | LAYER_WORKFLOW => 3 | LAYER_FACTORY => 4 end.
Inductive SelectionMode := MANUAL_PIN | CONFIGURED_DEFAULT | HOST_DEFAULT.
#[export] Instance SelectionMode_eq_dec : EqDecision SelectionMode.
Proof. solve_decision. Defined.
#[export] Program Instance SelectionMode_enum : PyEnum SelectionMode := {|
  members := [MANUAL_PIN; CONFIGURED_DEFAULT; HOST_DEFAULT];
  enum_value m := match m with
    | MANUAL_PIN => "manual_pin" | CONFIGURED_DEFAULT => "configured_default" | HOST_DEFAULT => "host_default" end |}.
Next Obligation. solve_enum. Qed.
Next Obligation. solve_enum. Qed.
Inductive HoldReason :=
| CATALOG_DRIFT | HOST_FINGERPRINT_DRIFT | EFFECTIVE_CONTROL_UNVERIFIED | EFFECTIVE_CONTROL_MISMATCH
| SUBMITTED_CONTROLS_MISMATCH | WORKER_IDENTITY_UNPROVABLE | RUNNER_UNQUALIFIED
| RUNNER_FINGERPRINT_DRIFT | NO_BEHAVIORAL_CHECKS.
#[export] Instance HoldReason_eq_dec : EqDecision HoldReason.
Proof. solve_decision. Defined.
#[export] Program Instance HoldReason_enum : PyEnum HoldReason := {|
  members := [CATALOG_DRIFT; HOST_FINGERPRINT_DRIFT; EFFECTIVE_CONTROL_UNVERIFIED;
    EFFECTIVE_CONTROL_MISMATCH; SUBMITTED_CONTROLS_MISMATCH; WORKER_IDENTITY_UNPROVABLE;
    RUNNER_UNQUALIFIED; RUNNER_FINGERPRINT_DRIFT; NO_BEHAVIORAL_CHECKS];
  enum_value r := match r with
    | CATALOG_DRIFT => "catalog_drift" | HOST_FINGERPRINT_DRIFT => "host_fingerprint_drift"
    | EFFECTIVE_CONTROL_UNVERIFIED => "effective_control_unverified"
    | EFFECTIVE_CONTROL_MISMATCH => "effective_control_mismatch"
    | SUBMITTED_CONTROLS_MISMATCH => "submitted_controls_mismatch"
    | WORKER_IDENTITY_UNPROVABLE => "worker_identity_unprovable"
    | RUNNER_UNQUALIFIED => "runner_unqualified" | RUNNER_FINGERPRINT_DRIFT => "runner_fingerprint_drift"
    | NO_BEHAVIORAL_CHECKS => "no_behavioral_checks" end |}.
Next Obligation. solve_enum. Qed.
Next Obligation. solve_enum. Qed.

(** [str(value)] of a decoded JSON value: [repr] below the top. *)
Definition single_quote : Ascii.ascii := chr 39.
Definition hex2 (n : N) : string := String (hex_digit (n / 16)) (String (hex_digit (n mod 16)) "").
Definition repr_char (q c : Ascii.ascii) : string :=
  let n := code c in
  if bool_decide (c = q) || (n =? 92)%N then backslash +:+ String c ""
  else if (n =? 10)%N then backslash +:+ "n" else if (n =? 13)%N then backslash +:+ "r"
  else if (n =? 9)%N then backslash +:+ "t"
  else if py_isprintable c then String c "" else backslash +:+ "x" +:+ hex2 n.
Definition py_repr_str (s : string) : string :=
  let q := if bool_decide (single_quote ∈ chars s) && negb (bool_decide (chr 34 ∈ chars s)) then chr 34 else single_quote in
  String q "" +:+ foldr (fun c acc => repr_char q c +:+ acc) (String q "") (chars s).
Fixpoint py_repr `{PyRuntime} (j : json) : string :=
  match j with
  | JNull => "None" | JBool true => "True" | JBool false => "False"
  | JInt z => pretty z | JFloat f => float_repr f | JStr s => py_repr_str s
  | JList l => "[" +:+ py_join ", " (map py_repr l) +:+ "]"
  | JObj m => "{" +:+ py_join ", " (map (fun kv => py_repr_str kv.1 +:+ ": " +:+ py_repr kv.2) m) +:+ "}"
  end.
Definition py_str `{PyRuntime} (j : json) : string := match j with JStr s => s | j => py_repr j end.
Definition str_optional (o : option string) : string := default "None" o.

(** ** Holds *)
Record ExecutionHold := { eh_reason : HoldReason; eh_message : string; eh_details : list (string * string) }.
Definition hold_post_init (h : ExecutionHold) : result ExecutionHold :=
  raise_when blank (eh_message h) as InvalidInputError ;; Ok h.
Definition hold_to_state (h : ExecutionHold) : json := JObj [
  ("reason", JStr (enum_value (eh_reason h))); ("message", JStr (eh_message h));
  ("details", JObj (map (fun kv => (kv.1, JStr kv.2)) (eh_details h)))].
Definition hold_from_state `{PyRuntime} (state : json) : result ExecutionHold :=
  match state with
  | JObj state =>
      match dict_get "details" state, dict_get "message" state with
      | Some (JObj details), Some (JStr message) =>
          reason ← known_member (default JNull (dict_get "reason" state));
          hold_post_init {| eh_reason := reason; eh_message := message;
                            eh_details := map (fun kv => (kv.1, py_str kv.2)) details |}
      | _, _ => Err InvalidInputError
      end
  | _ => Err InvalidInputError
  end.

(** ** Requested controls *)
Record RequestedControl := { rc_value : option string; rc_source : option SelectionLayer; rc_pinned : bool }.
#[export] Instance RequestedControl_eq_dec : EqDecision RequestedControl.
Proof. solve_decision. Defined.
Definition none {A} (o : option A) : bool := match o with None => true | Some _ => false end.
Definition requested_post_init (c : RequestedControl) : result RequestedControl :=
  match rc_value c with
  | None => raise_when negb (none (rc_source c)) || rc_pinned c as InvalidInputError ;; Ok c
  | Some value =>
      raise_when blank value as InvalidInputError ;;
      raise_when none (rc_source c) as InvalidInputError ;; Ok c
  end.
Definition control_value (o : option string) : json := from_option JStr JNull o.
Definition control_source (o : option SelectionLayer) : json := from_option (fun l => JStr (enum_value l)) JNull o.
Definition requested_to_state (c : RequestedControl) : list (string * json) := [
  ("value", control_value (rc_value c)); ("source", control_source (rc_source c)); ("pinned", JBool (rc_pinned c))].
Definition selection_optional_text (state : list (string * json)) (key : string) : result (option string) :=
  match dict_get key state with
  | None | Some JNull => Ok None | Some (JStr s) => Ok (Some s) | _ => Err InvalidInputError end.
Definition requested_from_state (state : list (string * json)) : result RequestedControl :=
  value ← selection_optional_text state "value";
  pinned ← match dict_get "pinned" state with Some (JBool b) => Ok b | _ => Err InvalidInputError end;
  source ← match dict_get "source" state with
           | None | Some JNull => Ok None
           | Some v => layer ← known_member v; Ok (Some layer) end;
  requested_post_init {| rc_value := value; rc_source := source; rc_pinned := pinned |}.
Definition UNSPECIFIED : RequestedControl := {| rc_value := None; rc_source := None; rc_pinned := false |}.

(** ** The bound selection *)
Record ExecutionSelection := {
  se_harness : string; se_harness_source : option SelectionLayer; se_model : RequestedControl;
  se_effort : RequestedControl; se_selected_model : option string; se_selected_effort : option string;
  se_mode : SelectionMode; se_strict_effective : bool; se_catalog_version : option string;
  se_catalog_digest : option Digest; se_host_version : option HostVersion;
  se_host_protocol_fingerprint : option string; se_support_tier : option SupportTier;
  se_observed_host_version : option string; se_legacy : bool }.
Definition requires_native_controls (s : ExecutionSelection) : bool :=
  negb (none (se_selected_model s)) || negb (none (se_selected_effort s)).
Definition derived_mode (s : ExecutionSelection) : SelectionMode :=
  if rc_pinned (se_model s) || rc_pinned (se_effort s) then MANUAL_PIN
  else if requires_native_controls s then CONFIGURED_DEFAULT else HOST_DEFAULT.
(** [_require_legacy_shape] *)
Definition require_legacy_shape (s : ExecutionSelection) : result () :=
  raise_when requires_native_controls s || negb (bool_decide (se_mode s = HOST_DEFAULT)) || se_strict_effective s ||
             negb (none (se_catalog_digest s)) || negb (none (se_support_tier s)) ||
             negb (none (se_host_version s)) || negb (none (se_observed_host_version s))
    as InvalidInputError ;; Ok ().
(** Whether the recorded observation belongs to a range-bound selection, inside the range. *)
Definition observation_bound (s : ExecutionSelection) : result bool :=
  match se_observed_host_version s, se_host_version s with
  | None, _ => Ok true
  | Some observed, Some (RangedHostVersion accepted tested) => range_accepts accepted observed
  | Some _, _ => Ok false
  end.
Definition selection_post_init (s : ExecutionSelection) : result ExecutionSelection :=
  raise_when blank (se_harness s) as InvalidInputError ;;
  raise_when negb (bool_decide (se_selected_model s = rc_value (se_model s))) as InvalidInputError ;;
  raise_when negb (bool_decide (se_selected_effort s = rc_value (se_effort s))) as InvalidInputError ;;
  if se_legacy s then _ ← require_legacy_shape s; Ok s
  else
    raise_when none (se_harness_source s) || none (se_catalog_version s) || none (se_catalog_digest s) ||
               none (se_host_version s) || none (se_host_protocol_fingerprint s) || none (se_support_tier s)
      as InvalidInputError ;;
    bound ← observation_bound s;
    raise_when negb bound as InvalidInputError ;;
    raise_when negb (bool_decide (se_mode s = derived_mode s)) as InvalidInputError ;;
    raise_when se_strict_effective s && negb (requires_native_controls s) as InvalidInputError ;;
    Ok s.
Definition legacy_host_default (harness : string) : result ExecutionSelection :=
  selection_post_init {|
    se_harness := harness; se_harness_source := None; se_model := UNSPECIFIED; se_effort := UNSPECIFIED;
    se_selected_model := None; se_selected_effort := None; se_mode := HOST_DEFAULT;
    se_strict_effective := false; se_catalog_version := None; se_catalog_digest := None;
    se_host_version := None; se_host_protocol_fingerprint := None; se_support_tier := None;
    se_observed_host_version := None; se_legacy := true |}.

(** *** The persisted form *)
Definition bind_versions (s : ExecutionSelection) : bool :=
  match se_host_version s with Some v => ranged v | None => false end.
Definition schema_version (s : ExecutionSelection) : Z := if bind_versions s then 2 else 1.
Definition host_state (s : ExecutionSelection) : list (string * json) :=
  match se_host_version s with
  | Some (RangedHostVersion accepted tested) => [
      ("executable_versions", JStr (version_range_str accepted));
      ("tested_executable_version", JStr (version_str tested));
      ("observed_executable_version", control_value (se_observed_host_version s))]
  | Some (ExactHostVersion version) => [("executable_version", JStr version)]
  | None => [("executable_version", JNull)]
  end ++ [("protocol_fingerprint", control_value (se_host_protocol_fingerprint s));
          ("support_tier", from_option (fun t => JStr (enum_value t)) JNull (se_support_tier s))].
Definition selection_to_state (s : ExecutionSelection) : json := JObj [
  ("schema_version", JInt (schema_version s));
  ("harness", JObj [("value", JStr (se_harness s)); ("source", control_source (se_harness_source s))]);
  ("model", JObj (requested_to_state (se_model s) ++ [("selected", control_value (se_selected_model s))]));
  ("effort", JObj (requested_to_state (se_effort s) ++ [("selected", control_value (se_selected_effort s))]));
  ("mode", JStr (enum_value (se_mode s))); ("strict_effective", JBool (se_strict_effective s));
  ("catalog", JObj [("version", control_value (se_catalog_version s));
                    ("digest", control_value (digest_str <$> se_catalog_digest s))]);
  ("host", JObj (host_state s))].
Definition selection_digest `{PyRuntime} (s : ExecutionSelection) : result Digest :=
  digest_of_json (selection_to_state s).

Definition selection_mapping (state : list (string * json)) (key : string) : result (list (string * json)) :=
  match dict_get key state with Some (JObj m) => Ok m | _ => Err InvalidInputError end.
Definition selection_text (state : list (string * json)) (key : string) : result string :=
  match dict_get key state with
  | Some (JStr s) => raise_when blank s as InvalidInputError ;; Ok s | _ => Err InvalidInputError end.
Definition selection_boolean (state : list (string * json)) (key : string) : result bool :=
  match dict_get key state with Some (JBool b) => Ok b | _ => Err InvalidInputError end.
(** [_strip_selected] *)
Definition strip_selected (state : list (string * json)) : list (string * json) :=
  List.filter (fun kv => negb (String.eqb kv.1 "selected")) state.
Definition host_version_from_state (host : list (string * json)) (version : json) : result HostVersion :=
  if json_eqb version (JInt 1) then
    raise_when has_entry host "executable_versions" as InvalidInputError ;;
    text ← selection_text host "executable_version"; host_version_post_init (ExactHostVersion text)
  else
    raise_when has_entry host "executable_version" as InvalidInputError ;;
    range_text ← selection_text host "executable_versions"; accepted ← version_range_parse range_text;
    tested_text ← selection_text host "tested_executable_version"; tested ← version_parse tested_text;
    host_version_post_init (RangedHostVersion accepted tested).
Definition selection_from_state (state : json) : result ExecutionSelection :=
  match state with
  | JObj state =>
      let version := default JNull (dict_get "schema_version" state) in
      raise_when negb (json_eqb version (JInt 1) || json_eqb version (JInt 2)) as InvalidInputError ;;
      harness ← selection_mapping state "harness"; model ← selection_mapping state "model";
      effort ← selection_mapping state "effort"; catalog ← selection_mapping state "catalog";
      host ← selection_mapping state "host";
      match dict_get "value" harness, dict_get "source" harness, dict_get "digest" catalog with
      | Some (JStr harness_value), Some (JStr source_text), Some (JStr digest_text) =>
          source ← known_member (JStr source_text);
          requested_model ← requested_from_state (strip_selected model);
          requested_effort ← requested_from_state (strip_selected effort);
          selected_model ← selection_optional_text model "selected";
          selected_effort ← selection_optional_text effort "selected";
          mode ← known_member (default JNull (dict_get "mode" state));
          strict ← selection_boolean state "strict_effective";
          catalog_version ← selection_text catalog "version";
          catalog_digest ← (let '(algorithm, hex) := py_partition colon digest_text in mk_digest algorithm (default "" hex));
          host_version ← host_version_from_state host version;
          observed ← selection_optional_text host "observed_executable_version";
          protocol ← selection_text host "protocol_fingerprint";
          tier ← known_member (default JNull (dict_get "support_tier" host));
          selection_post_init {|
            se_harness := harness_value; se_harness_source := Some source; se_model := requested_model;
            se_effort := requested_effort; se_selected_model := selected_model;
            se_selected_effort := selected_effort; se_mode := mode; se_strict_effective := strict;
            se_catalog_version := Some catalog_version; se_catalog_digest := Some catalog_digest;
            se_host_version := Some host_version; se_host_protocol_fingerprint := Some protocol;
            se_support_tier := Some tier; se_observed_host_version := observed; se_legacy := false |}
      | _, _, _ => Err InvalidInputError
      end
  | _ => Err InvalidInputError
  end.

(** ** Resolution *)
Record LayerControls := {
  lc_layer : SelectionLayer; lc_harness : option string; lc_model : option string; lc_effort : option string;
  lc_model_pinned : bool; lc_effort_pinned : bool; lc_strict_effective : option bool;
  lc_allowed_harnesses : option (list string); lc_allowed_models : option (list string);
  lc_allowed_efforts : option (list string) }.
#[export] Instance LayerControls_eq_dec : EqDecision LayerControls.
Proof. solve_decision. Defined.
Definition layer_post_init (l : LayerControls) : result LayerControls :=
  raise_when from_option blank false (lc_harness l) || from_option blank false (lc_model l) ||
             from_option blank false (lc_effort l) as InvalidInputError ;;
  raise_when lc_model_pinned l && none (lc_model l) as InvalidInputError ;;
  raise_when lc_effort_pinned l && none (lc_effort l) as InvalidInputError ;; Ok l.
(** Sorting key of the layers. *)
Definition layer_le (a b : LayerControls) : Prop := layer_rank (lc_layer a) <= layer_rank (lc_layer b).
#[export] Instance layer_le_dec a b : Decision (layer_le a b).
Proof. unfold layer_le. apply _. Defined.
(** The highest layer that names a harness. *)
Fixpoint first_harness (ordered : list LayerControls) : option (string * SelectionLayer) :=
  match ordered with
  | [] => None
  | item :: rest =>
      match lc_harness item with
      | Some h => if String.eqb h "" then first_harness rest else Some (h, lc_layer item)
      | None => first_harness rest
      end
  end.
Definition names_host (harness : string) (item : LayerControls) : bool :=
  match lc_harness item with None => true | Some h => String.eqb h harness end.
Fixpoint candidates (value : LayerControls -> option string) (pinned : LayerControls -> bool)
    (eligible : list LayerControls) : list (SelectionLayer * string * bool) :=
  match eligible with
  | [] => []
  | item :: rest =>
      match value item with
      | Some v => (lc_layer item, v, pinned item) :: candidates value pinned rest
      | None => candidates value pinned rest
      end
  end.
(** The loop of [_pick] over the lower candidates. *)
Fixpoint confirm_pins (value : string) (pinned : bool) (lower : list (SelectionLayer * string * bool)) : result bool :=
  match lower with
  | [] => Ok pinned
  | (_, v, p) :: rest =>
      if negb p then confirm_pins value pinned rest
      else if negb (String.eqb v value) then Err InvalidInputError else confirm_pins value true rest
  end.
Definition pick (value : LayerControls -> option string) (pinned : LayerControls -> bool)
    (eligible : list LayerControls) : result RequestedControl :=
  match candidates value pinned eligible with
  | [] => Ok UNSPECIFIED
  | (layer, v, p) :: lower =>
      p ← confirm_pins v p lower;
      requested_post_init {| rc_value := Some v; rc_source := Some layer; rc_pinned := p |}
  end.
(** One of the three constraints a layer can carry. *)
Definition satisfies (allowed : option (list string)) (value : option string) : bool :=
  match allowed, value with
  | None, _ => true | Some _, None => false | Some allowed, Some v => bool_decide (v ∈ allowed) end.
Definition enforce_constraints (item : LayerControls) (harness : string) (model effort : option string)
    (applies : bool) : result () :=
  raise_when negb (satisfies (lc_allowed_harnesses item) (Some harness)) as InvalidInputError ;;
  raise_when negb (satisfies (if applies then lc_allowed_models item else None) model) as InvalidInputError ;;
  raise_when negb (satisfies (if applies then lc_allowed_efforts item else None) effort) as InvalidInputError ;;
  Ok ().
Definition observe_host (h : HostCapability) (installed : option InstalledHost) : result (option string) :=
  match hc_version h, installed with
  | RangedHostVersion _ _, Some i => _ ← require_installed h installed; Ok (Some (ih_executable_version i))
  | _, _ => Ok None
  end.
Definition require_strict_satisfiable (h : HostCapability) (effort : option string) (strict : bool) : result () :=
  raise_when strict && negb (none effort) && String.eqb (ec_effective_evidence (hc_effort h)) "" as InvalidInputError ;;
  Ok ().
Definition require_pins `{PatternEngine} (h : HostCapability) (model effort : option string) : result () :=
  _ ← from_option (require_model_pin h) (Ok ()) model; from_option (require_effort_level h) (Ok ()) effort.
(** The checks of a layer that names another harness. *)
Definition foreign_layer_check (item : LayerControls) : result () :=
  raise_when lc_model_pinned item || lc_effort_pinned item as InvalidInputError ;;
  raise_when bool_decide (lc_strict_effective item = Some true) as InvalidInputError ;; Ok ().
Definition resolve_execution_selection `{PatternEngine} (layers : list LayerControls) (catalog : ExecutionCatalog)
    (probe_host : option (string -> result (option InstalledHost))) : result ExecutionSelection :=
  raise_when negb (bool_decide (NoDup (map lc_layer layers))) as InvalidInputError ;;
  let ordered := py_sort layer_le layers in
  chosen ← from_option_err InvalidInputError (first_harness ordered);
  let '(harness_name, harness_layer) := chosen in
  host ← catalog_host catalog harness_name;
  _ ← require_usable host;
  let eligible := List.filter (names_host harness_name) ordered in
  _ ← each_result (fun item => if bool_decide (item ∈ eligible) then Ok () else foreign_layer_check item) ordered;
  model ← pick lc_model lc_model_pinned eligible;
  effort ← pick lc_effort lc_effort_pinned eligible;
  _ ← require_pins host (rc_value model) (rc_value effort);
  _ ← each_result (fun item => enforce_constraints item harness_name (rc_value model) (rc_value effort)
                                 (bool_decide (item ∈ eligible))) ordered;
  let strict := existsb (fun item => bool_decide (lc_strict_effective item = Some true)) eligible in
  _ ← require_strict_satisfiable host (rc_value effort) strict;
  let specified := negb (none (rc_value model)) || negb (none (rc_value effort)) in
  let mode := if rc_pinned model || rc_pinned effort then MANUAL_PIN
              else if specified then CONFIGURED_DEFAULT else HOST_DEFAULT in
  observed ← match probe_host with
             | Some probe => if specified then installed ← probe harness_name; observe_host host installed else Ok None
             | None => Ok None end;
  selection_post_init {|
    se_harness := harness_name; se_harness_source := Some harness_layer; se_model := model; se_effort := effort;
    se_selected_model := rc_value model; se_selected_effort := rc_value effort; se_mode := mode;
    se_strict_effective := strict; se_catalog_version := Some (xc_version catalog);
    se_catalog_digest := Some (xc_digest catalog); se_host_version := Some (hc_version host);
    se_host_protocol_fingerprint := Some (hc_protocol_fingerprint host);
    se_support_tier := Some (hc_support_tier host); se_observed_host_version := observed; se_legacy := false |}.

(** ** Drift *)
Definition drift_hold (reason : HoldReason) (message : string) (details : list (string * string))
    : result (option ExecutionHold) :=
  hold ← hold_post_init {| eh_reason := reason; eh_message := message; eh_details := details |}; Ok (Some hold).
Definition detect_catalog_drift (s : ExecutionSelection) (current : ExecutionCatalog) : result (option ExecutionHold) :=
  if se_legacy s || bool_decide (se_catalog_digest s = Some (xc_digest current)) then Ok None
  else drift_hold CATALOG_DRIFT
    "the execution catalog changed since this run was bound; the run is held and its original binding is retained. Restore the catalog it was bound to, or start a new run from a rebuilt request"
    [("bound_catalog_version", str_optional (se_catalog_version s));
     ("bound_catalog_digest", str_optional (digest_str <$> se_catalog_digest s));
     ("current_catalog_version", xc_version current); ("current_catalog_digest", digest_str (xc_digest current))].
Definition host_accepted (s : ExecutionSelection) (bound : HostVersion) (installed : option InstalledHost) : result bool :=
  match installed with
  | Some i =>
      if String.eqb (ih_protocol_fingerprint i) (str_optional (se_host_protocol_fingerprint s))
      then version_accepts_host bound (ih_executable_version i) else Ok false
  | None => Ok false
  end.
Definition detect_host_drift (s : ExecutionSelection) (installed : option InstalledHost) : result (option ExecutionHold) :=
  if se_legacy s || negb (requires_native_controls s) then Ok None
  else
    bound ← from_option_err InternalInvariantViolationError (se_host_version s);
    accepted ← host_accepted s bound installed;
    if accepted : bool then Ok None
    else drift_hold HOST_FINGERPRINT_DRIFT
      ("the installed " +:+ se_harness s +:+ " is not a host this run's controls were bound to (" +:+ expectation bound
       +:+ "); the run is held and its original binding is retained. Restore a bound host version, or start a new run from a rebuilt request")
      (("harness", se_harness s) :: bound_details bound ++
       [("bound_protocol_fingerprint", str_optional (se_host_protocol_fingerprint s));
        ("installed_executable_version", from_option ih_executable_version "unobservable" installed);
        ("installed_protocol_fingerprint", from_option ih_protocol_fingerprint "unobservable" installed)]).
Definition validate_against_catalog `{PatternEngine} (s : ExecutionSelection) (catalog : ExecutionCatalog)
    : result HostCapability :=
  raise_when se_legacy s as InvalidInputError ;;
  raise_when negb (bool_decide (se_catalog_digest s = Some (xc_digest catalog))) ||
             negb (bool_decide (se_catalog_version s = Some (xc_version catalog))) as InvalidInputError ;;
  host ← catalog_host catalog (se_harness s);
  _ ← require_usable host;
  raise_when negb (bool_decide (se_host_version s = Some (hc_version host))) ||
             negb (bool_decide (se_host_protocol_fingerprint s = Some (hc_protocol_fingerprint host))) ||
             negb (bool_decide (se_support_tier s = Some (hc_support_tier host))) as InvalidInputError ;;
  _ ← require_pins host (se_selected_model s) (se_selected_effort s);
  _ ← require_strict_satisfiable host (se_selected_effort s) (se_strict_effective s);
  Ok host.
