(* ===== verification/SelectionProofs.v ===== *)
(** * Properties of execution selections

    A resolved selection obeys every layer and its catalog, reads back from the ledger as
    it was bound, and holds exactly when its catalog or its host drifts. *)
From S2P Require Import Prelude PyText Json JsonCanon Identity Regex VersionRange Selections.

(** ** The persisted form *)
Definition wf_host_version (v : HostVersion) : Prop :=
  host_version_post_init v = Ok v /\
  match v with
  | ExactHostVersion _ => True
  | RangedHostVersion r t => wf_version t /\ wf_version (vr_lower r) /\ wf_version (vr_upper r) /\
      version_lt (vr_lower r) (vr_upper r) = true end.
Record persistable (s : ExecutionSelection) : Prop := {
  ps_post : selection_post_init s = Ok s;
  ps_bound : se_legacy s = false;
  ps_model : requested_post_init (se_model s) = Ok (se_model s);
  ps_effort : requested_post_init (se_effort s) = Ok (se_effort s);
  ps_catalog : from_option blank false (se_catalog_version s) = false;
  ps_digest : from_option wf_digest True (se_catalog_digest s);
  ps_protocol : from_option blank false (se_host_protocol_fingerprint s) = false;
  ps_version : from_option wf_host_version True (se_host_version s) }.
Lemma known_member_value {A} `{PyEnum A} (x : A) : known_member (JStr (enum_value x)) = Ok x.
Proof. unfold known_member. by rewrite enum_of_value_of. Qed.
Definition requested_items (c : RequestedControl) (selected : json) : list (string * json) := [
  ("pinned", JBool (rc_pinned c)); ("selected", selected); ("source", control_source (rc_source c));
  ("value", control_value (rc_value c))].
Lemma canon_requested c selected : canon (JObj (requested_to_state c ++ [("selected", control_value selected)])) =
  JObj (requested_items c (control_value selected)).
Proof. destruct c as [[v|] [l|] p], selected; reflexivity. Qed.
Lemma requested_reads c selected : requested_post_init c = Ok c ->
  requested_from_state (strip_selected (requested_items c selected)) = Ok c.
Proof.
  intros Hc. destruct c as [[v|] [l|] p]; unfold requested_from_state, strip_selected, requested_items;
    cbn -[requested_post_init known_member enum_value]; [by rewrite known_member_value| |done|done].
  unfold requested_post_init in Hc. cbn in Hc. by inv_ok.
Qed.
Lemma selected_reads c (o : option string) : selection_optional_text (requested_items c (control_value o)) "selected" = Ok o.
Proof. by destruct o. Qed.
Lemma digest_pieces d : wf_digest d ->
  (let '(algorithm, hex) := py_partition colon (digest_str d) in mk_digest algorithm (default "" hex)) = Ok d.
Proof.
  intros Hd%digest_of_str_str. unfold digest_of_str in Hd. by destruct (py_partition _ _) as [a [h|]].
Qed.

(** The stored items of a bound selection. *)
Definition stored_items (s : ExecutionSelection) (l : SelectionLayer) (cv : string) (cd : Digest)
    (host : list (string * json)) : list (string * json) := [
  ("catalog", JObj [("digest", JStr (digest_str cd)); ("version", JStr cv)]);
  ("effort", JObj (requested_items (se_effort s) (control_value (se_selected_effort s))));
  ("harness", JObj [("source", JStr (enum_value l)); ("value", JStr (se_harness s))]);
  ("host", JObj host); ("mode", JStr (enum_value (se_mode s)));
  ("model", JObj (requested_items (se_model s) (control_value (se_selected_model s))));
  ("schema_version", JInt (schema_version s)); ("strict_effective", JBool (se_strict_effective s))].
Definition host_items (v : HostVersion) (observed : option string) (protocol : string) (t : SupportTier)
    : list (string * json) :=
  match v with
  | ExactHostVersion version => [("executable_version", JStr version); ("protocol_fingerprint", JStr protocol);
      ("support_tier", JStr (enum_value t))]
  | RangedHostVersion r tested => [("executable_versions", JStr (version_range_str r));
      ("observed_executable_version", control_value observed); ("protocol_fingerprint", JStr protocol);
      ("support_tier", JStr (enum_value t)); ("tested_executable_version", JStr (version_str tested))]
  end.
Lemma version_nonblank v : wf_version v -> blank (version_str v) = false.
Proof.
  intros [[Hf Hn]%version_str_bound _]. apply not_true_iff_false. rewrite blank_spec.
  destruct (chars (version_str v)) as [|c l]; [done|]. intros [Hc _]%Forall_cons.
  apply Forall_cons in Hf as [Hb _]. unfold bound_char, is_bound_char in Hb.
  by rewrite Hc, andb_false_r in Hb.
Qed.
Lemma text_reads m k s : dict_get k m = Some (JStr s) -> blank s = false -> selection_text m k = Ok s.
Proof. intros Hg Hb. unfold selection_text. by rewrite Hg, Hb. Qed.
Lemma host_items_version v observed protocol t : wf_host_version v ->
  host_version_from_state (host_items v observed protocol t) (JInt (if ranged v then 2 else 1)) = Ok v.
Proof.
  intros [Hp Hw]. destruct v as [version|r tested]; cbn [ranged host_items].
  - assert (Hb : blank version = false) by (cbn in Hp; by inv_ok).
    unfold host_version_from_state. by rewrite (text_reads _ _ version) by done.
  - destruct Hw as (Ht & Hl & Hu & Hlt). unfold host_version_from_state.
    rewrite (text_reads _ "executable_versions" (version_range_str r)) by (done || by apply nonblank_cons).
    rewrite (text_reads _ "tested_executable_version" (version_str tested)) by (done || by apply version_nonblank).
    cbn [json_eqb int_of Z.eqb Pos.eqb has_entry dict_get String.eqb Ascii.eqb Bool.eqb raise_if mbind result_bind].
    rewrite (proj2 (version_range_parse_Ok _ r)) by done. cbn [mbind result_bind].
    by rewrite (proj2 (version_parse_Ok _ tested)).
Qed.
(** A bound selection names everything its stored form needs. *)
Lemma bound_shape s : persistable s -> exists l cv cd v p t,
  se_harness_source s = Some l /\ se_catalog_version s = Some cv /\ se_catalog_digest s = Some cd /\
  se_host_version s = Some v /\ se_host_protocol_fingerprint s = Some p /\ se_support_tier s = Some t /\
  blank cv = false /\ wf_digest cd /\ wf_host_version v /\ blank p = false /\
  (ranged v = false -> se_observed_host_version s = None).
Proof.
  intros [Hp Hb _ _ Hc Hd Hf Hv]. destruct s as [h hs m e sm sef mode st cvo cdo hv fp tier obs leg]; cbn in Hb; subst leg. unfold selection_post_init in Hp.
  cbn -[observation_bound derived_mode] in *. inv_ok. match goal with H : _ || none _ = false |- _ => rename H into Hn end.
  rewrite !orb_false_iff in Hn. destruct Hn as (((((K1 & K2) & K3) & K4) & K5) & K6).
  destruct hs, cvo, cdo, hv as [v|], fp, tier; try done.
  do 6 eexists. split_and!; [done..|]. intros Hr.
  match goal with H : observation_bound _ = Ok ?b, Hn : negb ?b = false |- _ =>
    apply negb_false_iff in Hn; subst b; unfold observation_bound in H; cbn in H end.
  destruct obs; [|done]. by destruct v.
Qed.
Definition host_fields (v : HostVersion) (observed : option string) (protocol : string) (t : SupportTier)
    : list (string * json) :=
  match v with
  | RangedHostVersion accepted tested => [
      ("executable_versions", JStr (version_range_str accepted));
      ("tested_executable_version", JStr (version_str tested));
      ("observed_executable_version", control_value observed)]
  | ExactHostVersion version => [("executable_version", JStr version)]
  end ++ [("protocol_fingerprint", JStr protocol); ("support_tier", JStr (enum_value t))].
Lemma canon_host v observed protocol t :
  canon (JObj (host_fields v observed protocol t)) = JObj (host_items v observed protocol t).
Proof. destruct v, observed; reflexivity. Qed.
Lemma canon_selection z h l m ms e es mode strict cv cd host :
  canon (JObj [("schema_version", JInt z); ("harness", JObj [("value", JStr h); ("source", JStr l)]);
    ("model", JObj (requested_to_state m ++ [("selected", control_value ms)]));
    ("effort", JObj (requested_to_state e ++ [("selected", control_value es)]));
    ("mode", JStr mode); ("strict_effective", JBool strict);
    ("catalog", JObj [("version", JStr cv); ("digest", JStr cd)]); ("host", JObj host)]) =
  JObj [("catalog", JObj [("digest", JStr cd); ("version", JStr cv)]);
    ("effort", JObj (requested_items e (control_value es)));
    ("harness", JObj [("source", JStr l); ("value", JStr h)]); ("host", canon (JObj host)); ("mode", JStr mode);
    ("model", JObj (requested_items m (control_value ms)));
    ("schema_version", JInt z); ("strict_effective", JBool strict)].
Proof. rewrite <- !canon_requested. reflexivity. Qed.
Lemma host_state_fields s v p t : se_host_version s = Some v -> se_host_protocol_fingerprint s = Some p ->
  se_support_tier s = Some t -> host_state s = host_fields v (se_observed_host_version s) p t.
Proof. unfold host_state, host_fields. intros -> -> ->. by destruct v. Qed.
Lemma canon_stored s l cv cd v p t :
  se_harness_source s = Some l -> se_catalog_version s = Some cv -> se_catalog_digest s = Some cd ->
  se_host_version s = Some v -> se_host_protocol_fingerprint s = Some p -> se_support_tier s = Some t ->
  canon (selection_to_state s) = JObj (stored_items s l cv cd (host_items v (se_observed_host_version s) p t)).
Proof.
  intros Hl Hcv Hcd Hv Hp Ht. unfold selection_to_state. rewrite (host_state_fields s v p t) by done.
  rewrite Hl, Hcv, Hcd. cbn [control_source control_value from_option fmap option_fmap option_map].
  by rewrite canon_selection, canon_host.
Qed.
Lemma host_item_reads v observed p t : (ranged v = false -> observed = None) -> blank p = false ->
  selection_optional_text (host_items v observed p t) "observed_executable_version" = Ok observed /\
  selection_text (host_items v observed p t) "protocol_fingerprint" = Ok p /\
  dict_get "support_tier" (host_items v observed p t) = Some (JStr (enum_value t)).
Proof.
  intros Ho Hp. split_and!; [|apply text_reads; [by destruct v|done]|by destruct v].
  destruct v as [version|r tested]; [by rewrite Ho|]. by destruct observed.
Qed.
Lemma selection_reads s : persistable s -> selection_from_state (canon (selection_to_state s)) = Ok s.
Proof.
  intros Hs.
  destruct (bound_shape s Hs) as (l & cv & cd & v & p & t & Hl & Hcvo & Hcdo & Hvo & Hpo & Ht &
    Hcv & Hcd & Hv & Hp & Ho).
  rewrite (canon_stored s l cv cd v p t) by done.
  destruct Hs as [Hpost Hb Hm He _ _ _ _]. destruct (host_item_reads v _ p t Ho Hp) as (Ro & Rp & Rt).
  pose proof (host_items_version v (se_observed_host_version s) p t Hv) as Rv.
  revert Ro Rp Rt Rv. generalize (host_items v (se_observed_host_version s) p t). intros host Ro Rp Rt Rv.
  assert (Hz : schema_version s = (if ranged v then 2 else 1)%Z).
  { unfold schema_version, bind_versions. by rewrite Hvo. }
  unfold selection_from_state, stored_items.
  cbn -[canon requested_items strip_selected requested_from_state known_member enum_value digest_str
    selection_optional_text selection_text selection_boolean host_version_from_state selection_post_init mk_digest
    py_partition json_eqb].
  change (selection_boolean _ _) with (Ok (se_strict_effective s)).
  rewrite Hz, !known_member_value, !requested_reads, !selected_reads, Rt, Rv, Ro, Rp by done.
  rewrite (text_reads _ _ cv) by done. pose proof (digest_pieces cd Hcd) as Hd.
  change colon with (Ascii.Ascii false true false true true true false false) in Hd. rewrite Hd.
  cbn [default from_option]. unfold id. rewrite ?known_member_value.
  assert (Hg : negb (json_eqb (JInt (if ranged v then 2%Z else 1%Z)) (JInt 1)
    || json_eqb (JInt (if ranged v then 2%Z else 1%Z)) (JInt 2)) = false) by by destruct (ranged v).
  rewrite Hg. cbn [mbind result_bind raise_if]. rewrite <- Hpost. f_equal.
  destruct s; cbn in *. by subst.
Qed.

(** ** Resolution *)
Lemma candidates_spec value pinned l : candidates value pinned l =
  omap (fun item => v ← value item; Some (lc_layer item, v, pinned item)) l.
Proof. induction l as [|x l IH]; [done|]. cbn. by destruct (value x); cbn; rewrite IH. Qed.
Lemma confirm_pins_Ok v p l q : confirm_pins v p l = Ok q ->
  Forall (fun c => c.2 = true -> c.1.2 = v) l /\ (q = true <-> p = true \/ Exists (fun c => c.2 = true) l).
Proof.
  revert p. induction l as [|[[k w] b] l IH]; intros p; cbn.
  - intros [= ->]. split; [constructor|]. rewrite Exists_nil. tauto.
  - rewrite Exists_cons. destruct b; cbn.
    + destruct (String.eqb_spec w v) as [->|]; [|done]. cbn. intros [Hl Hq]%IH.
      split; [by constructor|]. rewrite Hq. tauto.
    + intros [Hl Hq]%IH. split; [by constructor|]. rewrite Hq. naive_solver.
Qed.
#[export] Instance layer_le_total : Total layer_le.
Proof. intros x y. unfold layer_le. lia. Qed.
#[export] Instance layer_le_trans : Transitive layer_le.
Proof. intros x y z. unfold layer_le. lia. Qed.
Definition outranks (k l : LayerControls) : Prop := layer_rank (lc_layer k) < layer_rank (lc_layer l).
Lemma bfilter_sorted (p : LayerControls -> bool) l : StronglySorted layer_le l -> StronglySorted layer_le (List.filter p l).
Proof.
  induction 1 as [|x l Hl IH Hx]; cbn; [constructor|]. destruct (p x); [|done]. constructor; [done|].
  rewrite Forall_forall in Hx |- *. intros y [Hy _]%elem_of_bfilter. by apply Hx.
Qed.
(** The highest layer that supplies something. *)
Lemma omap_highest {B} (f : LayerControls -> option B) l y rest : StronglySorted layer_le l ->
  omap f l = y :: rest ->
  exists x, x ∈ l /\ f x = Some y /\ forall k, k ∈ l -> outranks k x -> f k = None.
Proof.
  induction 1 as [|x l Hl IH Hx]; cbn; [done|]. destruct (f x) as [z|] eqn:Ef; cbn.
  - intros [= -> _]. exists x. split; [left|]. split; [done|]. intros k Hk Ho. exfalso.
    apply elem_of_cons in Hk as [->|Hk]; [unfold outranks in Ho; lia|].
    rewrite Forall_forall in Hx. specialize (Hx k Hk). unfold outranks in Ho. unfold layer_le in Hx. lia.
  - intros (w & Hw & Hy & Ho)%IH. exists w. split; [by right|]. split; [done|].
    intros k [->|Hk]%elem_of_cons Hr; [done|]. by apply Ho.
Qed.
Definition named_harness (item : LayerControls) : option (string * SelectionLayer) :=
  h ← lc_harness item; if String.eqb h "" then None else Some (h, lc_layer item).
Lemma first_harness_spec l : first_harness l = List.head (omap named_harness l).
Proof.
  induction l as [|x l IH]; [done|]. cbn. unfold named_harness at 1.
  destruct (lc_harness x) as [h|]; cbn; [|done]. by destruct (String.eqb h "").
Qed.
(** A control comes from the highest layer that specifies it, with that layer as its source;
    every layer that pins it pins that value, and it is pinned exactly when some layer pins it. *)
Definition supplied (value : LayerControls -> option string) (layers : list LayerControls) (c : RequestedControl) : Prop :=
  match rc_value c with
  | Some v => exists l, l ∈ layers /\ value l = Some v /\ rc_source c = Some (lc_layer l) /\
                forall k, k ∈ layers -> outranks k l -> value k = None
  | None => c = UNSPECIFIED /\ forall l, l ∈ layers -> value l = None
  end.
Lemma requested_post_init_id c d : requested_post_init c = Ok d -> d = c.
Proof. unfold requested_post_init. destruct (rc_value c); intros; inv_ok; done. Qed.
Lemma requested_post_idem c d : requested_post_init c = Ok d -> requested_post_init d = Ok d.
Proof. intros H. pose proof (requested_post_init_id _ _ H) as ->. done. Qed.
Lemma pick_Ok value pinned l c : StronglySorted layer_le l -> pick value pinned l = Ok c ->
  requested_post_init c = Ok c /\ supplied value l c /\
  (forall k v, k ∈ l -> pinned k = true -> value k = Some v -> rc_value c = Some v) /\
  (rc_pinned c = true <-> exists k, k ∈ l /\ pinned k = true /\ value k <> None).
Proof.
  intros Hs. unfold pick. rewrite candidates_spec.
  set (f := fun item => v ← value item; Some (lc_layer item, v, pinned item)).
  assert (Hin : forall a v b, (a, v, b) ∈ omap f l <-> exists k, k ∈ l /\ value k = Some v /\ lc_layer k = a /\ pinned k = b).
  { intros a v b. rewrite list_elem_of_omap. unfold f. split.
    - intros (k & Hk & He). exists k. destruct (value k); [|done]. cbn in He. by injection He as <- <- <-.
    - intros (k & Hk & Hv & <- & <-). exists k. by rewrite Hv. }
  assert (Hno : forall k, f k = None -> value k = None) by (intros k; unfold f; by destruct (value k)).
  pose proof (omap_highest f l) as Hhigh. destruct (omap f l) as [|[[a v] b] lower] eqn:El.
  - intros [= <-]. assert (Hall : forall k, k ∈ l -> value k = None).
    { intros k Hk. destruct (value k) as [v|] eqn:Ev; [|done].
      exfalso. assert (H0 : (lc_layer k, v, pinned k) ∈ []) by (apply Hin; by exists k). set_solver. }
    split; [done|]. split; [by split|]. split.
    + intros k v Hk _ Hv. by rewrite (Hall k Hk) in Hv.
    + split; [done|]. intros (k & Hk & _ & Hv). by rewrite (Hall k Hk) in Hv.
  - intros H. inv_ok. match goal with H : confirm_pins _ _ _ = Ok _ |- _ => apply confirm_pins_Ok in H as [Hp Hq] end.
    pose proof (requested_post_idem _ _ H) as Hi. apply requested_post_init_id in H as ->. split; [done|].
    destruct (Hhigh _ _ Hs eq_refl) as (top & Hx & Hfx & Hr).
    assert (Hxv : value top = Some v /\ lc_layer top = a /\ pinned top = b).
    { unfold f in Hfx. destruct (value top); [|done]. cbn in Hfx. by injection Hfx as <- <- <-. }
    destruct Hxv as (Hxv & <- & <-).
    split. { exists top. split_and!; try done. intros k Hk Ho. by apply Hno, Hr. }
    cbn [rc_value rc_pinned]. rewrite Forall_forall in Hp. split.
    + intros k w Hk Hpk Hw. f_equal. assert (Hkin : (lc_layer k, w, pinned k) ∈ (lc_layer top, v, pinned top) :: lower)
        by (apply Hin; by exists k).
      apply elem_of_cons in Hkin as [[= _ -> _]|Hkin]; [done|]. symmetry. by apply (Hp _ Hkin).
    + rewrite Hq, Exists_exists. split.
      * intros [Hb|([[a w] b] & Hc & Hb)]; [exists top; by rewrite Hxv|]. cbn in Hb. subst b.
        destruct (proj1 (Hin a w true)) as (k & Hk & Hw & _ & Hpk); [by right|]. exists k. by rewrite Hw.
      * intros (k & Hk & Hpk & Hw). destruct (value k) as [w|] eqn:Ew; [|done].
        assert (Hkin : (lc_layer k, w, pinned k) ∈ (lc_layer top, v, pinned top) :: lower) by (apply Hin; by exists k).
        rewrite Hpk in Hkin. apply elem_of_cons in Hkin as [[= _ _ <-]|Hkin]; [by left|right]. by eexists.
Qed.

Section Resolution.
Context `{PatternEngine}.
Definition eligible_layers (harness : string) (layers : list LayerControls) : list LayerControls :=
  List.filter (names_host harness) (py_sort layer_le layers).
Lemma elem_of_eligible h layers l : l ∈ eligible_layers h layers <-> l ∈ layers /\ names_host h l = true.
Proof. unfold eligible_layers. by rewrite elem_of_bfilter, elem_of_py_sort. Qed.
Lemma selection_post_init_id s t : selection_post_init s = Ok t -> t = s.
Proof. unfold selection_post_init. intros. inv_ok. destruct (se_legacy s); inv_ok; done. Qed.
(** What resolving established. *)
Record resolution (layers : list LayerControls) (catalog : ExecutionCatalog) (host : HostCapability)
    (s : ExecutionSelection) : Prop := {
  rs_nodup : NoDup (map lc_layer layers);
  rs_harness : exists l, first_harness (py_sort layer_le layers) = Some (se_harness s, l) /\ se_harness_source s = Some l;
  rs_host : catalog_host catalog (se_harness s) = Ok host;
  rs_usable : require_usable host = Ok ();
  rs_foreign : Forall (fun item => (if bool_decide (item ∈ eligible_layers (se_harness s) layers) then Ok ()
                                    else foreign_layer_check item) = Ok ()) (py_sort layer_le layers);
  rs_model : pick lc_model lc_model_pinned (eligible_layers (se_harness s) layers) = Ok (se_model s);
  rs_effort : pick lc_effort lc_effort_pinned (eligible_layers (se_harness s) layers) = Ok (se_effort s);
  rs_selected : se_selected_model s = rc_value (se_model s) /\ se_selected_effort s = rc_value (se_effort s);
  rs_pins : require_pins host (se_selected_model s) (se_selected_effort s) = Ok ();
  rs_constraints : Forall (fun item => enforce_constraints item (se_harness s) (se_selected_model s) (se_selected_effort s)
      (bool_decide (item ∈ eligible_layers (se_harness s) layers)) = Ok ()) (py_sort layer_le layers);
  rs_strict : se_strict_effective s =
    existsb (fun item => bool_decide (lc_strict_effective item = Some true)) (eligible_layers (se_harness s) layers);
  rs_satisfiable : require_strict_satisfiable host (se_selected_effort s) (se_strict_effective s) = Ok ();
  rs_catalog : se_catalog_version s = Some (xc_version catalog) /\ se_catalog_digest s = Some (xc_digest catalog) /\
    se_host_version s = Some (hc_version host) /\
    se_host_protocol_fingerprint s = Some (hc_protocol_fingerprint host) /\
    se_support_tier s = Some (hc_support_tier host);
  rs_post : selection_post_init s = Ok s;
  rs_bound : se_legacy s = false }.
Lemma resolve_inv layers catalog probe s : resolve_execution_selection layers catalog probe = Ok s ->
  exists host, resolution layers catalog host s.
Proof.
  unfold resolve_execution_selection. intros Hr. apply raise_if_Ok in Hr as [Hn Hr].
  apply bind_Ok in Hr as ([h l] & Hf & Hr). cbn beta iota zeta in Hr.
  apply bind_Ok in Hr as (host & Hh & Hr). apply bind_Ok in Hr as ([] & Hu & Hr).
  apply bind_Ok in Hr as ([] & Hfo & Hr). apply bind_Ok in Hr as (model & Hm & Hr).
  apply bind_Ok in Hr as (effort & He & Hr). apply bind_Ok in Hr as ([] & Hp & Hr).
  apply bind_Ok in Hr as ([] & Hc & Hr). apply bind_Ok in Hr as ([] & Hs & Hr).
  apply bind_Ok in Hr as (observed & _ & Hr). apply each_result_Ok in Hfo, Hc.
  apply negb_false_iff, bool_decide_eq_true in Hn.
  pose proof (selection_post_init_id _ _ Hr) as ->. exists host.
  split; cbn; try done. exists l. split; [|done]. by destruct (first_harness _); [injection Hf as ->|].
Qed.
Lemma resolve_permutation layers layers' catalog probe : layers ≡ₚ layers' ->
  resolve_execution_selection layers catalog probe = resolve_execution_selection layers' catalog probe.
Proof.
  intros Hp. unfold resolve_execution_selection.
  assert (Hd : bool_decide (NoDup (map lc_layer layers)) = bool_decide (NoDup (map lc_layer layers')))
    by (apply bool_decide_ext; by rewrite Hp).
  rewrite <- Hd. case_bool_decide as Hn; [|done].
  rewrite (py_sort_unique layer_le layers layers'); [done| |done].
  intros x y Hx Hy Hxy Hyx. apply (NoDup_map_inj lc_layer layers); try done.
  unfold layer_le in *. assert (He : layer_rank (lc_layer x) = layer_rank (lc_layer y)) by lia.
  revert He. by destruct (lc_layer x), (lc_layer y).
Qed.
Lemma foreign_refused item : foreign_layer_check item = Ok () ->
  lc_model_pinned item = false /\ lc_effort_pinned item = false /\ lc_strict_effective item <> Some true.
Proof.
  unfold foreign_layer_check. intros. inv_ok. rewrite orb_false_iff, bool_decide_eq_false in *. tauto.
Qed.
Lemma constraints_hold item h m e b : enforce_constraints item h m e b = Ok () ->
  satisfies (lc_allowed_harnesses item) (Some h) = true /\
  (b = true -> satisfies (lc_allowed_models item) m = true /\ satisfies (lc_allowed_efforts item) e = true).
Proof.
  unfold enforce_constraints. intros. inv_ok. rewrite !negb_false_iff in *. split; [done|]. by intros ->.
Qed.
Lemma catalog_host_Ok c h host : catalog_host c h = Ok host -> host ∈ xc_hosts c /\ hc_harness host = h.
Proof.
  unfold catalog_host. destruct (List.find _ _) as [k|] eqn:Ef; [|done]. intros [= ->].
  apply List.find_some in Ef as [Hi He%String.eqb_eq]. by apply list_elem_of_In in Hi.
Qed.
Lemma resolved_validates layers catalog host s : resolution layers catalog host s ->
  validate_against_catalog s catalog = Ok host.
Proof.
  intros [_ _ Hh Hu _ _ _ [Hm He] Hp _ _ Hs (Hv & Hd & Hhv & Hf & Ht) _ Hb].
  unfold validate_against_catalog. rewrite Hb, Hd, Hv, Hh, Hhv, Hf, Ht, !bool_decide_true by done. cbn.
  rewrite Hu. cbn. rewrite !bool_decide_true by done. cbn. rewrite Hp. cbn. by rewrite Hs.
Qed.
(** Every layer of a resolved selection either speaks for its harness or asks nothing exact. *)
Lemma resolved_layer layers catalog host s l : resolution layers catalog host s -> l ∈ layers ->
  (lc_model_pinned l = true \/ lc_effort_pinned l = true \/ lc_strict_effective l = Some true) ->
  l ∈ eligible_layers (se_harness s) layers.
Proof.
  intros Hr Hl Hask. pose proof (rs_foreign _ _ _ _ Hr) as Hf. rewrite Forall_forall in Hf.
  specialize (Hf l (proj2 (elem_of_py_sort layer_le l layers) Hl)). cbn in Hf.
  case_bool_decide; [done|]. apply foreign_refused in Hf as (E1 & E2 & E3). destruct Hask as [Ha|[Ha|Ha]]; congruence.
Qed.
Lemma layer_pins l : layer_post_init l = Ok l ->
  (lc_model_pinned l = true -> lc_model l <> None) /\ (lc_effort_pinned l = true -> lc_effort l <> None) /\
  (forall h, lc_harness l = Some h -> h <> "").
Proof.
  unfold layer_post_init. intros H0. inv_ok. rewrite !orb_false_iff in *. repeat match goal with H : _ /\ _ |- _ => destruct H end.
  destruct (lc_model l), (lc_effort l), (lc_harness l), (lc_model_pinned l), (lc_effort_pinned l); try done;
    (split_and!; try done; intros ? [= <-] ->; done).
Qed.
Lemma supplied_same value l k c : (forall x, x ∈ l <-> x ∈ k) -> supplied value l c -> supplied value k c.
Proof.
  intros Hi. unfold supplied. destruct (rc_value c).
  - intros (x & Hx & Hv & Hs & Ho). exists x. rewrite <- Hi. split_and!; try done. intros y Hy. apply Ho. by apply Hi.
  - intros [Hc Ha]. split; [done|]. intros y Hy. apply Ha. by apply Hi.
Qed.
Lemma control_resolved value pinned h layers c :
  pick value pinned (eligible_layers h layers) = Ok c ->
  (forall l, l ∈ layers -> pinned l = true -> l ∈ eligible_layers h layers /\ value l <> None) ->
  supplied value (List.filter (names_host h) layers) c /\
  (forall l, l ∈ layers -> pinned l = true -> names_host h l = true /\ value l = rc_value c) /\
  (rc_pinned c = true <-> exists l, l ∈ layers /\ pinned l = true).
Proof.
  intros Hp Ha. apply pick_Ok in Hp as (_ & Hs & Hv & Hq); [|apply bfilter_sorted, py_sort_strongly; apply _]. split_and!.
  - eapply supplied_same, Hs. intros x. by rewrite elem_of_eligible, elem_of_bfilter.
  - intros l Hl Hpl. destruct (Ha l Hl Hpl) as [He Hn]. split; [by apply elem_of_eligible in He as [_ ?]|].
    destruct (value l) as [v|] eqn:Ev; [|done]. symmetry. by apply (Hv l v).
  - rewrite Hq. split.
    + intros (k & [Hk _]%elem_of_eligible & Hpk & _). by exists k.
    + intros (l & Hl & Hpl). exists l. destruct (Ha l Hl Hpl). done.
Qed.
Lemma harness_highest layers h source : Forall (fun l => layer_post_init l = Ok l) layers ->
  first_harness (py_sort layer_le layers) = Some (h, source) ->
  exists l, l ∈ layers /\ lc_harness l = Some h /\ source = lc_layer l /\
    forall k, k ∈ layers -> outranks k l -> lc_harness k = None.
Proof.
  intros Hl. rewrite first_harness_spec.
  pose proof (omap_highest named_harness (py_sort layer_le layers)) as Ho.
  destruct (omap named_harness _) as [|y rest]; [done|]. intros [= ->].
  destruct (Ho _ _ (py_sort_strongly layer_le _) eq_refl) as (x & Hx & Hy & Hk).
  exists x. rewrite elem_of_py_sort in Hx. unfold named_harness in Hy, Hk.
  destruct (lc_harness x) as [h'|]; [|done]. cbn in Hy. destruct (String.eqb h' ""); [done|]. injection Hy as -> ->.
  split_and!; try done. intros k Hkin Hr. specialize (Hk k (proj2 (elem_of_py_sort _ _ _) Hkin) Hr).
  rewrite Forall_forall in Hl. destruct (layer_pins k (Hl k Hkin)) as (_ & _ & Hn).
  destruct (lc_harness k) as [hk|] eqn:Ek; [|done]. cbn in Hk. destruct (String.eqb_spec hk "") as [->|]; [|done].
  by destruct (Hn "").
Qed.

(** C21: a resolved selection names the harness of the highest layer that names one and
    validates against the catalog it was resolved from; its model and effort come from the
    highest layer that speaks for that harness and specifies them, with that layer as
    source, and stay unspecified when no such layer does; no pin of any layer is
    overridden or dropped, and a control is marked exact only when some layer pins it; the
    harness is allowed by every layer, and the model and the effort by every layer that
    names this harness or none: what a layer allows of another harness's models and efforts
    is not applied; it is strict exactly when some layer requires it;
    and the order in which the layers are supplied makes no difference. *)
Theorem resolution_honours_layers layers layers' catalog probe s :
  Forall (fun l => layer_post_init l = Ok l) layers -> layers ≡ₚ layers' ->
  resolve_execution_selection layers catalog probe = Ok s ->
  resolve_execution_selection layers' catalog probe = Ok s /\
  (exists host, host ∈ xc_hosts catalog /\ validate_against_catalog s catalog = Ok host) /\
  (exists l, l ∈ layers /\ lc_harness l = Some (se_harness s) /\ se_harness_source s = Some (lc_layer l) /\
     forall k, k ∈ layers -> outranks k l -> lc_harness k = None) /\
  (let speaking := List.filter (names_host (se_harness s)) layers in
   supplied lc_model speaking (se_model s) /\ supplied lc_effort speaking (se_effort s)) /\
  se_selected_model s = rc_value (se_model s) /\ se_selected_effort s = rc_value (se_effort s) /\
  (forall l, l ∈ layers ->
     (lc_model_pinned l = true -> names_host (se_harness s) l = true /\ lc_model l = se_selected_model s) /\
     (lc_effort_pinned l = true -> names_host (se_harness s) l = true /\ lc_effort l = se_selected_effort s) /\
     satisfies (lc_allowed_harnesses l) (Some (se_harness s)) = true /\
     (names_host (se_harness s) l = true -> satisfies (lc_allowed_models l) (se_selected_model s) = true /\
        satisfies (lc_allowed_efforts l) (se_selected_effort s) = true)) /\
  (rc_pinned (se_model s) = true <-> exists l, l ∈ layers /\ lc_model_pinned l = true) /\
  (rc_pinned (se_effort s) = true <-> exists l, l ∈ layers /\ lc_effort_pinned l = true) /\
  (se_strict_effective s = true <-> exists l, l ∈ layers /\ lc_strict_effective l = Some true).
Proof.
  intros Hl Hp Hr. split; [by rewrite <- (resolve_permutation layers)|].
  destruct (resolve_inv _ _ _ _ Hr) as [host Hs].
  pose proof Hs as [_ (src & Hh & Hsrc) Hho _ _ Hm He [Esm Ese] _ Hc Hst _ _ _ _]. rewrite Forall_forall in Hl, Hc.
  pose proof (fun l Hin => layer_pins l (Hl l Hin)) as Hpins.
  pose proof (fun l => resolved_layer layers catalog host s l Hs) as Hspeak.
  apply control_resolved in Hm as (Sm & Pm & Qm), He as (Se & Pe & Qe);
    [|intros l Hin Hpl; split; [apply Hspeak; auto|by apply Hpins]..].
  split; [exists host; split; [by apply catalog_host_Ok in Hho as [? _]|by eapply resolved_validates]|].
  split. { apply harness_highest in Hh as (l & Hin & El & -> & Ho); [by exists l|by apply Forall_forall]. }
  split_and!; try done.
  - intros l Hin. specialize (Hc l (proj2 (elem_of_py_sort _ _ _) Hin)). cbn in Hc.
    apply constraints_hold in Hc as [Hch Hce]. rewrite Esm, Ese in *. split_and!; [by apply Pm|by apply Pe|done|].
    intros Hn. apply Hce. apply bool_decide_eq_true. by apply elem_of_eligible.
  - rewrite Hst, existsb_exists. split.
    + intros (l & Hin%list_elem_of_In & Hb%bool_decide_eq_true). apply elem_of_eligible in Hin as [? _]. by exists l.
    + intros (l & Hin & Hb). exists l. rewrite <- list_elem_of_In. split; [apply Hspeak; auto|by apply bool_decide_eq_true].
Qed.

(** ** What a parsed catalog guarantees, and drift *)
Definition wf_host (h : HostCapability) : Prop :=
  blank (hc_protocol_fingerprint h) = false /\ wf_host_version (hc_version h).
Lemma host_version_wf entry v : host_version_from_mapping entry = Ok v -> wf_host_version v.
Proof.
  unfold host_version_from_mapping. intros Hv. apply raise_if_Ok in Hv as [_ Hv]. destruct (has_entry _ _).
  - apply bind_Ok in Hv as (x & _ & Hv). cbn in Hv. apply raise_if_Ok in Hv as [Hb [= <-]].
    split; [|done]. cbn. by rewrite Hb.
  - apply bind_Ok in Hv as (a & _ & Hv). apply bind_Ok in Hv as (r & Hr & Hv).
    apply bind_Ok in Hv as (b & _ & Hv). apply bind_Ok in Hv as (t & Ht & Hv).
    cbn in Hv. apply raise_if_Ok in Hv as [Hc [= <-]].
    apply version_range_parse_Ok in Hr as (_ & ? & ? & ?). apply version_parse_Ok in Ht as [_ ?].
    split; [|done]. cbn. by rewrite Hc.
Qed.
Lemma host_from_mapping_wf j h : host_from_mapping j = Ok h -> wf_host h.
Proof.
  unfold host_from_mapping. destruct j; try done. intros Hh.
  do 5 (apply bind_Ok in Hh as (? & _ & Hh)). apply bind_Ok in Hh as (v & Hv & Hh).
  do 11 (apply bind_Ok in Hh as (? & _ & Hh)).
  unfold host_capability_post_init in Hh. apply raise_if_Ok in Hh as [Hb [= <-]]. cbn in Hb |- *.
  apply orb_false_iff in Hb as [_ Hb]. split; [done|]. by eapply host_version_wf.
Qed.
Lemma catalog_wf data digest c : catalog_from_mapping data digest = Ok c ->
  blank (xc_version c) = false /\ xc_digest c = digest /\ Forall wf_host (xc_hosts c).
Proof.
  unfold catalog_from_mapping. destruct (dict_get "catalog_version" data) as [[]|]; try done.
  destruct (dict_get "hosts" data) as [[]|]; try done. intros Hc. apply bind_Ok in Hc as (hosts & Hh & Hc).
  unfold catalog_post_init in Hc. apply raise_if_Ok in Hc as [Hb Hc]. apply raise_if_Ok in Hc as [_ [= <-]].
  split_and!; [done..|]. cbn. apply mapM_result_Ok in Hh.
  eapply Forall2_Forall_r; [exact Hh|]. apply Forall_true. intros j h. apply host_from_mapping_wf.
Qed.
Lemma resolved_persistable layers catalog host s : resolution layers catalog host s ->
  blank (xc_version catalog) = false -> wf_digest (xc_digest catalog) -> wf_host host -> persistable s.
Proof.
  intros [_ _ _ _ _ Hm He _ _ _ _ _ (Hv & Hd & Hh & Hf & _) Hp Hb] Hcv Hcd [Hpr Hwv].
  apply pick_Ok in Hm as [Hm _]; [|apply bfilter_sorted, py_sort_strongly; apply _].
  apply pick_Ok in He as [He _]; [|apply bfilter_sorted, py_sort_strongly; apply _].
  split; try done; by rewrite ?Hv, ?Hd, ?Hh, ?Hf.
Qed.
Lemma drift_hold_made reason message details : blank message = false ->
  exists hold, drift_hold reason message details = Ok (Some hold) /\ eh_reason hold = reason.
Proof. intros Hb. unfold drift_hold, hold_post_init. cbn [eh_message]. rewrite Hb. by eexists. Qed.
(** Only a version too long for [int] makes the comparison raise. *)
Lemma accepts_Err v t e : version_accepts_host v t = Err e -> e = PyValueError.
Proof. destruct v; [done|]. by intros [-> _]%range_accepts_Err. Qed.
(** The launch prerequisite of the catalog and the drift check of a selection bound to it
    ask the same of an installed host. *)
Lemma accepted_installed layers catalog host s installed : resolution layers catalog host s ->
  match host_accepted s (hc_version host) installed with
  | Ok true => require_installed host installed = Ok ()
  | Ok false => require_installed host installed = Err MissingPrerequisiteError
  | Err e => e = PyValueError /\ require_installed host installed = Err PyValueError
  end.
Proof.
  intros Hr. destruct (rs_catalog _ _ _ _ Hr) as (_ & _ & _ & Hf & _).
  unfold host_accepted, require_installed, host_matches. rewrite Hf. destruct installed as [i|]; [|done].
  cbn. destruct (String.eqb _ _); cbn; [|done].
  destruct (version_accepts_host _ _) as [[]|e] eqn:E; [done..|]. by apply accepts_Err in E as ->.
Qed.
Lemma host_drift_exact layers catalog host s installed : resolution layers catalog host s ->
  (requires_native_controls s = false \/ require_installed host installed = Ok () ->
   detect_host_drift s installed = Ok None) /\
  (requires_native_controls s = true -> forall e, require_installed host installed = Err e ->
   e = MissingPrerequisiteError /\
     (exists hold, detect_host_drift s installed = Ok (Some hold) /\ eh_reason hold = HOST_FINGERPRINT_DRIFT) \/
   e = PyValueError /\ detect_host_drift s installed = Err PyValueError).
Proof.
  intros Hr. destruct (rs_catalog _ _ _ _ Hr) as (_ & _ & Hv & _). pose proof (rs_bound _ _ _ _ Hr) as Hb.
  pose proof (accepted_installed _ _ _ _ installed Hr) as Ha.
  unfold detect_host_drift. rewrite Hb, Hv. cbn [orb from_option_err mbind result_bind].
  destruct (host_accepted s (hc_version host) installed) as [[]|e']; cbn [mbind result_bind]; split.
  - by destruct (negb _).
  - intros _ e He. congruence.
  - intros [->|Hok]; [done|congruence].
  - intros -> e He. left. rewrite Ha in He. injection He as <-. split; [done|]. apply drift_hold_made. by apply nonblank_cons.
  - intros [->|Hok]; [done|]. destruct Ha. congruence.
  - intros -> e He. right. destruct Ha as [-> Ha]. rewrite Ha in He. injection He as <-. done.
Qed.
Lemma catalog_drift_exact s current : se_legacy s = false ->
  (se_catalog_digest s = Some (xc_digest current) -> detect_catalog_drift s current = Ok None) /\
  (se_catalog_digest s <> Some (xc_digest current) ->
   exists hold, detect_catalog_drift s current = Ok (Some hold) /\ eh_reason hold = CATALOG_DRIFT).
Proof.
  intros Hb. unfold detect_catalog_drift. rewrite Hb. split.
  - intros ->. by rewrite bool_decide_true.
  - intros Hn. rewrite bool_decide_false by done. cbn [orb]. apply drift_hold_made. by apply nonblank_cons.
Qed.

(** C22: a selection resolved from a parsed catalog and written to the ledger's canonical
    JSON reads back as it was bound; as long as the catalog's digest is the bound one there
    is no catalog hold, and under any other digest there is one; and the installed host
    is no reason to hold the run exactly when the selection needs no native controls or that
    host meets the launch prerequisite of its catalog entry; it holds the run when the
    selection needs them and the prerequisite is missing, and the only other outcome, of a
    host whose version has a number too long for [int], is that both raise [ValueError]. *)
Theorem bound_selection_durable data digest catalog layers probe s current installed :
  catalog_from_mapping data digest = Ok catalog -> wf_digest digest ->
  resolve_execution_selection layers catalog probe = Ok s ->
  selection_from_state (canon (selection_to_state s)) = Ok s /\
  (detect_catalog_drift s current = Ok None <-> xc_digest current = digest) /\
  (xc_digest current <> digest -> exists hold,
     detect_catalog_drift s current = Ok (Some hold) /\ eh_reason hold = CATALOG_DRIFT) /\
  exists host, catalog_host catalog (se_harness s) = Ok host /\
    (detect_host_drift s installed = Ok None <->
       requires_native_controls s = false \/ require_installed host installed = Ok ()) /\
    (requires_native_controls s = true -> forall e, require_installed host installed = Err e ->
       e = MissingPrerequisiteError /\ (exists hold,
         detect_host_drift s installed = Ok (Some hold) /\ eh_reason hold = HOST_FINGERPRINT_DRIFT) \/
       e = PyValueError /\ detect_host_drift s installed = Err PyValueError).
Proof.
  intros Hc Hd Hr. apply catalog_wf in Hc as (Hv & <- & Hh). apply resolve_inv in Hr as [host Hr].
  pose proof (rs_host _ _ _ _ Hr) as Hho. destruct (catalog_host_Ok _ _ _ Hho) as [Hin _].
  rewrite Forall_forall in Hh. split; [by eapply selection_reads, resolved_persistable; [|..|apply Hh]|].
  destruct (rs_catalog _ _ _ _ Hr) as (_ & Hcd & _).
  destruct (catalog_drift_exact s current (rs_bound _ _ _ _ Hr)) as [K1 K2]. rewrite Hcd in K1, K2.
  destruct (host_drift_exact _ _ _ _ installed Hr) as [D1 D2]. split; [|split].
  - split; [|intros He; apply K1; by rewrite He].
    intros Hn. destruct (decide (xc_digest current = xc_digest catalog)) as [|Hne]; [done|].
    destruct K2 as (hold & E & _); congruence.
  - intros Hne. apply K2. congruence.
  - exists host. split; [done|]. split; [|done]. split; [|done]. intros Hn.
    destruct (requires_native_controls s); [right|by left].
    destruct (require_installed host installed) as [[]|e]; [done|].
    destruct (D2 eq_refl e eq_refl) as [[_ (hold & E & _)]|[_ E]]; congruence.
Qed.
End Resolution.

(** A catalog of two hosts, and layers that pin a model and confirm it below. *)
Module Demo.
#[local] Instance demo_patterns : PatternEngine := {
  pattern_fullmatch p v := Some (if String.eqb p "any" then negb (String.eqb v "") else String.eqb p v) }.
Definition demo_host (name : string) (version : list (string * json)) : json := JObj (version ++ [
  ("harness", JStr name); ("protocol_fingerprint", JStr "p1"); ("support_tier", JStr "qualified");
  ("model", JObj [("flag", JStr "--model"); ("pin_form", JStr "exact"); ("pin_pattern", JStr "any");
                  ("effective_evidence", JStr "events")]);
  ("effort", JObj [("flag", JStr "--effort"); ("levels", JList [JStr "low"; JStr "high"]);
                   ("unpinnable", JList [JStr "auto"]); ("effective_evidence", JStr "")])]).
Definition demo_data : list (string * json) := [("catalog_version", JStr "1"); ("hosts", JList [
  demo_host "codex" [("executable_versions", JStr ">=1.2.0,<2.0.0"); ("tested_executable_version", JStr "1.2.3")];
  demo_host "claude" [("executable_version", JStr "4.0.1")]])].
Definition demo_digest (c : Ascii.ascii) : Digest :=
  {| algorithm := "sha256"; hex_value := of_chars (repeat c 64) |}.
Definition demo_catalog (d : Digest) : ExecutionCatalog :=
  match catalog_from_mapping demo_data d with
  | Ok c => c | Err _ => {| xc_version := ""; xc_digest := d; xc_hosts := [] |} end.
Definition demo_layer (l : SelectionLayer) (harness model effort : option string) (pinned : bool) : LayerControls := {|
  lc_layer := l; lc_harness := harness; lc_model := model; lc_effort := effort; lc_model_pinned := pinned;
  lc_effort_pinned := false; lc_strict_effective := None; lc_allowed_harnesses := Some ["codex"];
  lc_allowed_models := None; lc_allowed_efforts := None |}.
Definition demo_layers : list LayerControls := [
  demo_layer LAYER_FACTORY None (Some "m1") None true; demo_layer LAYER_RUN (Some "codex") (Some "m1") None false;
  demo_layer LAYER_USER (Some "claude") (Some "m9") (Some "low") false; demo_layer LAYER_PROJECT None None (Some "high") false].
Definition demo_selection : result ExecutionSelection :=
  resolve_execution_selection demo_layers (demo_catalog (demo_digest (chr 97))) None.
Definition demo_selected : ExecutionSelection :=
  match demo_selection with Ok s => s | Err _ => {|
    se_harness := ""; se_harness_source := None; se_model := UNSPECIFIED; se_effort := UNSPECIFIED;
    se_selected_model := None; se_selected_effort := None; se_mode := HOST_DEFAULT;
    se_strict_effective := false; se_catalog_version := None; se_catalog_digest := None;
    se_host_version := None; se_host_protocol_fingerprint := None; se_support_tier := None;
    se_observed_host_version := None; se_legacy := true |} end.
Example demo_controls : (rc_source (se_model demo_selected), rc_pinned (se_model demo_selected),
  se_selected_effort demo_selected, rc_source (se_effort demo_selected), se_mode demo_selected) =
  (Some LAYER_RUN, true, Some "high", Some LAYER_PROJECT, MANUAL_PIN).
Proof. by vm_compute. Qed.
(** A lower pin that disagrees is a conflict, whatever the order. *)
Example demo_conflict : resolve_execution_selection
  (demo_layer LAYER_WORKFLOW None (Some "m2") None true :: demo_layers) (demo_catalog (demo_digest (chr 97))) None =
  Err InvalidInputError.
Proof. by vm_compute. Qed.
Lemma resolution_honours_layers_witness :
  resolve_execution_selection (rev demo_layers) (demo_catalog (demo_digest (chr 97))) None = Ok demo_selected.
Proof.
  destruct (resolution_honours_layers demo_layers (rev demo_layers) (demo_catalog (demo_digest (chr 97))) None
    demo_selected) as [Hr _].
  - repeat constructor.
  - apply Permutation_rev.
  - vm_compute. reflexivity.
  - exact Hr.
Defined.
Lemma bound_selection_durable_witness :
  selection_from_state (canon (selection_to_state demo_selected)) = Ok demo_selected /\
  exists hold, detect_catalog_drift demo_selected (demo_catalog (demo_digest (chr 98))) = Ok (Some hold) /\
    eh_reason hold = CATALOG_DRIFT.
Proof.
  destruct (bound_selection_durable demo_data (demo_digest (chr 97)) (demo_catalog (demo_digest (chr 97))) demo_layers None
    demo_selected (demo_catalog (demo_digest (chr 98))) None) as (Hr & _ & Hd & _);
    [by vm_compute..|]. split; [exact Hr|]. apply Hd. by vm_compute.
Defined.
End Demo.
