(* ===== verification/ProtectedPaths.v ===== *)
(** * Publishing a branch ([application/branch_publication.py])

    The paths a published branch may not change without an operator's decision: the
    compilation of a pattern to a regular expression and, component by component, what the
    compiled pattern matches; and the checks of a publication request.  NFC normalisation is
    the identity on the code points the strings hold. *)
From S2P Require Import Prelude PyText Identity Regex Manifests Closures ShellGuard.

(** ** The patterns *)
Definition DEFAULT_PROTECTED_PATH_PATTERNS : list string := [
  ".github/**"; ".gitlab-ci.yml"; ".gitlab/**"; ".circleci/**"; ".buildkite/**"; ".azuredevops/**";
  ".azure-pipelines/**"; "azure-pipelines.yml"; "azure-pipelines.yaml"; "Jenkinsfile"; ".travis.yml";
  ".appveyor.yml"; "appveyor.yml"; ".drone.yml"; "bitbucket-pipelines.yml"; "cloudbuild.yaml";
  "cloudbuild.yml"; "CODEOWNERS"; ".gitmodules"; ".enginery/**"; "holdouts/**"].
Definition star : Ascii.ascii := chr 42.
Definition question : Ascii.ascii := chr 63.
Definition is_star (c : Ascii.ascii) : bool := bool_decide (c = star).
Definition any_char (c : Ascii.ascii) : bool := true.
Definition not_slash (c : Ascii.ascii) : bool := negb (is_slash c).
(** Under [re.DOTALL]: any text, an optional run of directories, optionally anything below. *)
Definition any_text : regex := RRep any_char 0 None.
Definition opt_directories : regex := RAlt (RSeq any_text (RLit "/")) (RLit "").
Definition opt_below : regex := RAlt (RSeq (RLit "/") any_text) (RLit "").
(** One character under [re.IGNORECASE]; one of the loop's later cases. *)
Definition same_letter (a b : Ascii.ascii) : bool := bool_decide (lower_char a = lower_char b).
Definition letter (c : Ascii.ascii) : regex := RRep (same_letter c) 1 (Some 1).
Definition piece (c : Ascii.ascii) : regex :=
  if is_star c then RRep not_slash 0 None
  else if bool_decide (c = question) then RRep not_slash 1 (Some 1) else letter c.
(** The loop of [_compile_pattern]. *)
Fixpoint glob_pieces (body : list Ascii.ascii) : list regex :=
  match body with
  | [] => []
  | a :: rest =>
      match rest with
      | b :: rest' =>
          if is_star a && is_star b then
            match rest' with
            | c :: rest'' => if is_slash c then opt_directories :: glob_pieces rest'' else any_text :: glob_pieces rest'
            | [] => any_text :: glob_pieces rest'
            end
          else piece a :: glob_pieces rest
      | [] => piece a :: glob_pieces rest
      end
  end.
Definition compile_pattern (pattern : string) : regex :=
  let anchored := bool_decide (slash ∈ chars pattern) in
  let below := py_endswith "/**" pattern in
  rseq ((if anchored then [] else [opt_directories]) ++
        glob_pieces (chars (py_removesuffix "/**" pattern)) ++ if below then [opt_below] else []).
(** [rule.match(path)] of [^...$]: the end, or before a last line break. *)
Definition line_break : Ascii.ascii := chr 10.
Definition pattern_matches (pattern path : string) : bool :=
  regex_fullmatch (compile_pattern pattern) path ||
  match reverse (chars path) with
  | c :: front => bool_decide (c = line_break) && regex_fullmatch (compile_pattern pattern) (of_chars (reverse front))
  | [] => false
  end.
Definition normalized (path : string) : string := path.
Definition require_protected_pattern (pattern : string) : result () :=
  raise_when blank pattern || negb (String.eqb pattern (py_strip pattern)) || starts_with_slash pattern ||
             bool_decide (chr 0 ∈ chars pattern) || bool_decide (chr 92 ∈ chars pattern) ||
             existsb bad_segment (path_parts (py_removesuffix "/**" pattern)) as InvalidInputError ;;
  Ok ().
(** [ProtectedPathPolicy]: its extra patterns. *)
Record ProtectedPathPolicy := { pp_extra : list string }.
Definition policy_post_init (p : ProtectedPathPolicy) : result ProtectedPathPolicy :=
  _ ← each_result require_protected_pattern (pp_extra p); Ok p.
(** [dict.fromkeys] *)
Definition fromkeys (l : list string) : list string :=
  foldl (fun seen x => if bool_decide (x ∈ seen) then seen else seen ++ [x]) [] l.
Definition protected_patterns (p : ProtectedPathPolicy) : list string :=
  fromkeys (DEFAULT_PROTECTED_PATH_PATTERNS ++ pp_extra p).
Definition matched (p : ProtectedPathPolicy) (paths : list string) : list string :=
  sorted_set (List.filter (fun path =>
    existsb (fun pattern => pattern_matches (normalized pattern) (normalized path)) (protected_patterns p)) paths).

(** ** Publication requests *)
Definition MAX_BRANCH_LENGTH : Z := 200.
Definition branch_forbidden (c : Ascii.ascii) : bool :=
  ((code c <=? 32) || (code c =? 127))%N || is_one_of "~^:?*[" c || bool_decide (c = chr 92).
(** [part in text] *)
Fixpoint has_text (part l : list Ascii.ascii) : bool :=
  bool_decide (part `prefix_of` l) || match l with [] => false | _ :: l => has_text part l end.
Definition require_branch_name (branch : string) : result () :=
  raise_when String.eqb branch "" || (MAX_BRANCH_LENGTH <? py_len branch)%Z ||
             existsb (fun p => py_startswith p branch) ["-"; "/"; "refs/"] ||
             existsb (fun p => py_endswith p branch) ["/"; "."; ".lock"] ||
             existsb (fun p => has_text (chars p) (chars branch)) [".."; "//"; "@{"] || String.eqb branch "@" ||
             existsb branch_forbidden (chars branch) ||
             existsb (fun part => py_startswith "." part || py_endswith ".lock" part) (path_parts branch)
    as InvalidInputError ;;
  Ok ().
Definition is_hex_lower (c : Ascii.ascii) : bool := is_digit c || in_range c 97 102.
Definition OBJECT_ID : regex := RAlt (RRep is_hex_lower 40 (Some 40)) (RRep is_hex_lower 64 (Some 64)).
Record BranchPublicationRequest := {
  bp_repository_id : string; bp_branch : string; bp_head_revision : string;
  bp_expected_remote_revision : option string; bp_operation_id : string }.
Definition branch_publication_post_init (r : BranchPublicationRequest) : result BranchPublicationRequest :=
  raise_when blank (bp_repository_id r) as InvalidInputError ;;
  _ ← require_branch_name (bp_branch r);
  raise_when negb (regex_fullmatch OBJECT_ID (bp_head_revision r)) as InvalidInputError ;;
  raise_when from_option (fun v => negb (regex_fullmatch OBJECT_ID v)) false (bp_expected_remote_revision r)
    as InvalidInputError ;;
  Ok r.
Record PublishedBranch := { pb_branch : string; pb_revision : string }.
Definition published_branch_post_init (b : PublishedBranch) : result PublishedBranch :=
  _ ← require_branch_name (pb_branch b);
  raise_when negb (regex_fullmatch OBJECT_ID (pb_revision b)) as InvalidInputError ;; Ok b.

(** ** What a pattern reads, character by character

    [**] with a separator after it is nothing or any text that ends in a separator, [**]
    alone is any text, [*] any text of one component, [?] one character of it, and a letter
    is itself in either case. *)
Definition directories (x : list Ascii.ascii) : Prop := x = [] \/ exists y, x = y ++ [slash].
Definition one_matches (c : Ascii.ascii) (x : list Ascii.ascii) : Prop :=
  if is_star c then slash ∉ x
  else exists d, x = [d] /\ if bool_decide (c = question) then d <> slash else lower_char c = lower_char d.
Definition followed (P Q : list Ascii.ascii -> Prop) (x : list Ascii.ascii) : Prop := exists a b, x = a ++ b /\ P a /\ Q b.
Definition anything (x : list Ascii.ascii) : Prop := True.
Fixpoint text_match (body : list Ascii.ascii) : list Ascii.ascii -> Prop :=
  match body with
  | [] => fun x => x = []
  | a :: rest =>
      match rest with
      | b :: rest' =>
          if is_star a && is_star b then
            match rest' with
            | c :: rest'' => if is_slash c then followed directories (text_match rest'') else followed anything (text_match rest')
            | [] => followed anything (text_match rest')
            end
          else followed (one_matches a) (text_match rest)
      | [] => followed (one_matches a) (text_match rest)
      end
  end.
(** A pattern of one component is read at any depth, one that ends in [/**] also below what it reads. *)
Definition reads (pattern path : string) : Prop := exists front middle below,
  chars path = front ++ middle ++ below /\
  (if decide (slash ∈ chars pattern) then front = [] else directories front) /\
  text_match (chars (py_removesuffix "/**" pattern)) middle /\
  (below = [] \/ py_endswith "/**" pattern = true /\ exists y, below = slash :: y).

(** ** What a pattern denotes

    Component by component: [**] stands for any run of components, also none; every other
    component matches one component, where [*] is any run of its characters, [?] is one and
    a letter is itself in either case.  A pattern of one component matches at any depth. *)
Fixpoint name_match (p c : list Ascii.ascii) : Prop :=
  match p with
  | [] => c = []
  | x :: p =>
      if is_star x then exists a b, c = a ++ b /\ slash ∉ a /\ name_match p b
      else exists d b, c = d :: b /\ name_match p b /\
        if bool_decide (x = question) then d <> slash else lower_char x = lower_char d
  end.
Fixpoint segments_match (ps cs : list (list Ascii.ascii)) : Prop :=
  match ps with
  | [] => cs = []
  | p :: ps =>
      if decide (p = [star; star]) then exists skipped rest, cs = skipped ++ rest /\ segments_match ps rest
      else exists c rest, cs = c :: rest /\ name_match p c /\ segments_match ps rest
  end.
Definition components (text : string) : list (list Ascii.ascii) := split_on is_slash (chars text).
Definition denotes (pattern path : string) : Prop :=
  segments_match (if decide (slash ∈ chars pattern) then components pattern else [star; star] :: components pattern)
    (components path).
(** [**] stands alone, and is not the last component before a trailing one. *)
Fixpoint double_star (l : list Ascii.ascii) : bool :=
  match l with
  | a :: rest => match rest with b :: _ => is_star a && is_star b | [] => false end || double_star rest
  | [] => false
  end.
Definition plain_pattern (pattern : string) : Prop :=
  let body := components (py_removesuffix "/**" pattern) in
  Forall (fun p => p = [star; star] \/ double_star p = false) body /\ last body <> Some [star; star].

(** ** The compiled pattern *)
Fixpoint rlangs (l : list regex) (x : list Ascii.ascii) : Prop :=
  match l with [] => x = [] | r :: l => exists a b, x = a ++ b /\ rlang r a /\ rlangs l b end.
Lemma rlang_rseq l x : rlang (rseq l) x <-> rlangs l x.
Proof.
  revert x. induction l as [|r l IH]; intros x; [done|]. cbn [rseq rlangs]. destruct l as [|r' l].
  - cbn. split; [intros Hr; exists x, []; by rewrite app_nil_r|]. intros (a & b & -> & Ha & ->). by rewrite app_nil_r.
  - cbn [rlang]. by setoid_rewrite IH.
Qed.
Lemma rlangs_app l k x : rlangs (l ++ k) x <-> exists a b, x = a ++ b /\ rlangs l a /\ rlangs k b.
Proof.
  revert x. induction l as [|r l IH]; intros x; cbn.
  - split; [intros Hk; by exists [], x|]. by intros (a & b & -> & -> & Hk).
  - setoid_rewrite IH. split.
    + intros (a & ? & -> & Hr & b & c & -> & Hl & Hk). exists (a ++ b), c. rewrite <- (assoc_L (++)).
      split_and!; [done|by exists a, b|done].
    + intros (? & c & -> & (a & b & -> & Hr & Hl) & Hk). exists a. eexists. rewrite <- (assoc_L (++)).
      split_and!; [done..|]. by exists b, c.
Qed.
Lemma any_text_lang x : rlang any_text x.
Proof. cbn. split_and!; [by apply Forall_true|lia|done]. Qed.
Lemma opt_directories_lang x : rlang opt_directories x <-> x = [] \/ exists y, x = y ++ [slash].
Proof.
  split.
  - intros [(a & b & -> & _ & Hb) | Hb]; cbn in Hb; subst; [right; by exists a|by left].
  - intros [->|[y ->]]; [by right|left]. exists y, [slash]. split_and!; [done|apply any_text_lang|done].
Qed.
Lemma opt_below_lang x : rlang opt_below x <-> x = [] \/ exists y, x = slash :: y.
Proof.
  split.
  - intros [(a & b & -> & Ha & _) | Ha]; cbn in Ha; subst; [right; by exists b|by left].
  - intros [->|[y ->]]; [by right|left]. exists [slash], y. split_and!; [done|done|apply any_text_lang].
Qed.
Lemma Forall_not_slash x : Forall (fun c => not_slash c = true) x <-> slash ∉ x.
Proof.
  unfold not_slash, is_slash. rewrite Forall_forall. setoid_rewrite negb_true_iff.
  setoid_rewrite bool_decide_eq_false. split; [intros H Hs; by apply (H slash)|intros H c Hc ->; done].
Qed.
Lemma piece_lang c x : rlang (piece c) x <->
  if is_star c then slash ∉ x
  else exists d, x = [d] /\ if bool_decide (c = question) then d <> slash else lower_char c = lower_char d.
Proof.
  unfold piece. destruct (is_star c); [|destruct (bool_decide (c = question))]; cbn.
  - rewrite Forall_not_slash. naive_solver lia.
  - rewrite Forall_not_slash. split.
    + intros (Hs & Hl & Hu). destruct x as [|d [|e x]]; cbn in *; [lia| |lia]. exists d. split; [done|set_solver].
    + intros (d & -> & Hd). cbn. split_and!; [set_solver|lia..].
  - unfold same_letter. split.
    + intros (Hf & Hl & Hu). destruct x as [|d [|e x]]; cbn in *; [lia| |lia]. exists d. split; [done|].
      apply Forall_cons in Hf as [Hd%bool_decide_eq_true _]. done.
    + intros (d & -> & Hd). cbn. split_and!; [|lia..]. repeat constructor. by apply bool_decide_eq_true.
Qed.
Lemma pieces_name p x : rlangs (map piece p) x <-> name_match p x.
Proof.
  revert x. induction p as [|c p IH]; intros x; [done|]. cbn [map rlangs name_match].
  setoid_rewrite piece_lang. setoid_rewrite IH. destruct (is_star c); [done|]. split.
  - intros (? & b & -> & (d & -> & Hd) & Hb). by exists d, b.
  - intros (d & b & -> & Hb & Hd). exists [d], b. split_and!; [done|by exists d|done].
Qed.
Lemma lower_slash c : lower_char c = lower_char slash -> c = slash.
Proof. by destruct c as [[] [] [] [] [] [] [] []]; vm_compute. Qed.
Lemma name_no_slash p x : slash ∉ p -> name_match p x -> slash ∉ x.
Proof.
  revert x. induction p as [|c p IH]; intros x Hp; cbn; [by intros ->; set_solver|].
  assert (Hc : c <> slash) by set_solver. assert (Hr : slash ∉ p) by set_solver.
  destruct (is_star c).
  - intros (a & b & -> & Ha & Hb%IH); [|done]. set_solver.
  - intros (d & b & -> & Hb%IH & Hd); [|done]. assert (d <> slash); [|set_solver].
    case_bool_decide; [done|]. intros ->. by apply lower_slash in Hd.
Qed.
(** The loop over a component, and over the separator after it. *)
Lemma pieces_component p : double_star p = false -> glob_pieces p = map piece p.
Proof.
  induction p as [|a p IH]; [done|]. cbn [double_star]. intros [Ha Hp]%orb_false_iff.
  cbn [glob_pieces map]. destruct p as [|b p]; [done|]. rewrite Ha. by rewrite IH.
Qed.
Lemma pieces_separated p rest : double_star p = false ->
  glob_pieces (p ++ slash :: rest) = map piece p ++ letter slash :: glob_pieces rest.
Proof.
  induction p as [|a p IH]; intros Hp.
  - cbn [app glob_pieces map]. by destruct rest.
  - cbn [double_star] in Hp. apply orb_false_iff in Hp as [Ha Hp]. cbn [app map].
    destruct p as [|b p].
    + cbn [app glob_pieces]. rewrite andb_false_r. by destruct rest.
    + cbn [app] in IH |- *. rewrite <- IH by done. cbn [glob_pieces]. by rewrite Ha.
Qed.
Lemma letter_slash x : rlang (letter slash) x <-> x = [slash].
Proof.
  destruct (piece_lang slash x) as [H1 H2]. split.
  - intros Hx. destruct (H1 Hx) as (d & -> & Hd). f_equal. by apply lower_slash, (eq_sym (x := lower_char slash)).
  - intros ->. apply H2. by exists slash.
Qed.

(** ** Components *)
Lemma split_nonempty x : split_on is_slash x <> [].
Proof. destruct x as [|c x]; [done|]. cbn. destruct (is_slash c); [done|]. by destruct (split_on is_slash x). Qed.
Lemma split_slash x y : split_on is_slash (x ++ slash :: y) = split_on is_slash x ++ split_on is_slash y.
Proof.
  induction x as [|c x IH]; [done|]. cbn [app split_on]. rewrite IH. destruct (is_slash c); [done|].
  pose proof (split_nonempty x). by destruct (split_on is_slash x).
Qed.
Lemma split_clean x : slash ∉ x -> split_on is_slash x = [x].
Proof.
  induction x as [|c x IH]; [done|]. intros Hx. cbn. unfold is_slash at 1.
  rewrite bool_decide_false by set_solver. by rewrite IH by set_solver.
Qed.
Fixpoint join (cs : list (list Ascii.ascii)) : list Ascii.ascii :=
  match cs with [] => [] | c :: rest => match rest with [] => c | _ => c ++ slash :: join rest end end.
Lemma join_cons c rest : rest <> [] -> join (c :: rest) = c ++ slash :: join rest.
Proof. by destruct rest. Qed.
Lemma join_app cs ds : cs <> [] -> ds <> [] -> join (cs ++ ds) = join cs ++ slash :: join ds.
Proof.
  intros Hc Hd. induction cs as [|c cs IH]; [done|]. destruct cs as [|c' cs].
  - cbn [app]. by rewrite join_cons.
  - change ((c :: c' :: cs) ++ ds) with (c :: (c' :: cs) ++ ds).
    rewrite join_cons, IH, (join_cons c) by done. by rewrite <- (assoc_L (++)).
Qed.
Lemma join_split x : join (split_on is_slash x) = x.
Proof.
  induction x as [|c x IH]; [done|]. cbn [split_on]. unfold is_slash at 1. pose proof (split_nonempty x) as Hn.
  case_bool_decide as Hc.
  - rewrite join_cons, IH by done. by subst.
  - destruct (split_on is_slash x) as [|w ws]; [done|]. destruct ws; cbn in *; [by rewrite IH|by rewrite <- IH].
Qed.
Lemma split_clean_parts x : Forall (fun c => slash ∉ c) (split_on is_slash x).
Proof.
  induction x as [|c x IH]; [repeat constructor; set_solver|]. cbn [split_on]. unfold is_slash at 1.
  pose proof (split_nonempty x). case_bool_decide; [constructor; [set_solver|done]|].
  destruct (split_on is_slash x); [done|]. apply Forall_cons in IH as [Ha Hb]. constructor; [set_solver|done].
Qed.
Lemma split_join cs : cs <> [] -> Forall (fun c => slash ∉ c) cs -> split_on is_slash (join cs) = cs.
Proof.
  intros Hn Hf. induction Hf as [|c cs Hc Hf IH]; [done|]. destruct cs as [|d cs]; [by apply split_clean|].
  rewrite join_cons, split_slash, split_clean, IH by done. done.
Qed.
(** What is split in two lists of components comes from two texts. *)
Lemma split_parts x front back : split_on is_slash x = front ++ back -> front <> [] -> back <> [] ->
  x = join front ++ slash :: join back /\ split_on is_slash (join front) = front /\ split_on is_slash (join back) = back.
Proof.
  intros Hs Hf Hb. pose proof (split_clean_parts x) as Hc. rewrite Hs in Hc. apply Forall_app in Hc as [H1 H2].
  split_and!; [|by apply split_join..]. by rewrite <- join_app, <- Hs, join_split.
Qed.
Lemma segments_match_app ps qs cs : segments_match (ps ++ qs) cs <->
  exists front back, cs = front ++ back /\ segments_match ps front /\ segments_match qs back.
Proof.
  revert cs. induction ps as [|p ps IH]; intros cs; cbn.
  - split; [intros H; by exists [], cs|]. by intros (f & b & -> & -> & H).
  - case_decide; setoid_rewrite IH; split.
    + intros (sk & ? & -> & f & b & -> & Hf & Hb). exists (sk ++ f), b. rewrite <- (assoc_L (++)).
      split_and!; [done|by exists sk, f|done].
    + intros (? & b & -> & (sk & f & -> & Hf) & Hb). exists sk, (f ++ b). rewrite <- (assoc_L (++)).
      split_and!; [done|]. by exists f, b.
    + intros (c & ? & -> & Hc & f & b & -> & Hf & Hb). exists (c :: f), b. split_and!; [done|by exists c, f|done].
    + intros (? & b & -> & (c & f & -> & Hc & Hf) & Hb). exists c, (f ++ b). split_and!; [done..|]. by exists f, b.
Qed.
Lemma segments_rest cs : segments_match [[star; star]] cs.
Proof. cbn. exists cs, []. by rewrite app_nil_r. Qed.
Lemma segments_nonempty ps cs : ps <> [] -> last ps <> Some [star; star] -> segments_match ps cs -> cs <> [].
Proof.
  revert cs. induction ps as [|p ps IH]; intros cs Hn Hl; [done|]. cbn. case_decide as Hp.
  - destruct ps as [|q ps]; [by subst|]. intros (sk & rest & -> & Hr). apply IH in Hr; [|done..].
    by destruct sk, rest.
  - by intros (c & rest & -> & _).
Qed.

(** The loop over a body matches it component by component. *)
Definition stands_alone (p : list Ascii.ascii) : Prop := p = [star; star] \/ double_star p = false.
Lemma stands_no_double p : stands_alone p -> p <> [star; star] -> double_star p = false.
Proof. by intros [->|Hd]. Qed.
Lemma body_matches ps x : ps <> [] -> Forall (fun p => slash ∉ p) ps -> Forall stands_alone ps ->
  last ps <> Some [star; star] ->
  rlangs (glob_pieces (join ps)) x <-> segments_match ps (split_on is_slash x).
Proof.
  intros Hn Hc Hs. revert x. induction ps as [|p ps IH]; [done|]. intros x Hl.
  apply Forall_cons in Hc as [Hp Hc]. apply Forall_cons in Hs as [Hsp Hs]. cbn [segments_match].
  destruct ps as [|q ps].
  - rewrite decide_False by (intros ->; by destruct Hl). cbn [join]. rewrite pieces_component, pieces_name;
      [|apply stands_no_double; [done|intros ->; by destruct Hl]]. split.
    + intros Hx. exists x, []. split_and!; [|done..]. apply split_clean. by eapply name_no_slash.
    + intros (c & rest & Hx & Hm & ->). rewrite <- (join_split x), Hx. done.
  - rewrite join_cons by done. assert (Hl' : last (q :: ps) <> Some [star; star]) by done.
    specialize (IH ltac:(done) Hc Hs). case_decide as Hd.
    + subst p. cbn [app]. change (glob_pieces _) with (opt_directories :: glob_pieces (join (q :: ps))).
      cbn [rlangs]. setoid_rewrite opt_directories_lang. split.
      * intros (a & b & -> & Ha & Hb%IH); [|done]. destruct Ha as [->|[y ->]]; [by exists [], (split_on is_slash b)|].
        rewrite <- (assoc_L (++)). cbn [app]. rewrite split_slash.
        by exists (split_on is_slash y), (split_on is_slash b).
      * intros (front & back & Hx & Hm). assert (Hb : back <> []) by by eapply (segments_nonempty (q :: ps)).
        destruct front as [|f front].
        -- exists [], x. split_and!; [done|by left|]. apply IH; [done|]. by rewrite Hx.
        -- apply split_parts in Hx as (-> & _ & Hsb); [|done..].
           exists (join (f :: front) ++ [slash]), (join back).
           split_and!; [by rewrite <- (assoc_L (++))|right; by eexists|]. apply IH; [done|]. by rewrite Hsb.
    + assert (Hdp : double_star p = false) by by apply stands_no_double.
      rewrite pieces_separated, rlangs_app by done. setoid_rewrite pieces_name.
      cbn [rlangs]. setoid_rewrite letter_slash. split.
      * intros (c & ? & -> & Hm & ? & b & -> & -> & Hb%IH); [|done]. cbn [app].
        rewrite split_slash, split_clean by by eapply name_no_slash. by exists c, (split_on is_slash b).
      * intros (c & rest & Hx & Hm & Hr). assert (Hb : rest <> []) by by eapply (segments_nonempty (q :: ps)).
        apply (split_parts _ [c] rest) in Hx as (-> & _ & Hsb); [|done..].
        exists c, (slash :: join rest). split_and!; [done..|]. exists [slash], (join rest).
        split_and!; [done..|]. apply IH; [done|]. by rewrite Hsb.
Qed.

Lemma regular_rseq l : forallb regular l = true -> regular (rseq l) = true.
Proof.
  induction l as [|r l IH]; [done|]. cbn. intros [Hr Hl]%andb_true_iff.
  destruct l as [|r' l]; [done|]. cbn [regular]. by rewrite Hr, IH.
Qed.
Lemma piece_regular c : regular (piece c) = true.
Proof. unfold piece. by repeat case_match. Qed.
Lemma glob_pieces_step a b l : is_star a && is_star b = false -> glob_pieces (a :: b :: l) = piece a :: glob_pieces (b :: l).
Proof. intros H. cbn [glob_pieces]. by rewrite H. Qed.
Lemma pieces_regular n l : length l <= n -> forallb regular (glob_pieces l) = true.
Proof.
  revert l. induction n as [|n IH]; intros l Hl; [by destruct l; cbn in Hl; [|lia]|].
  destruct l as [|a [|b l]]; [done|cbn; by rewrite piece_regular|]. cbn in Hl.
  destruct (is_star a && is_star b) eqn:Hab.
  - cbn [glob_pieces]. rewrite Hab. destruct l as [|c l]; [done|]. cbn in Hl.
    destruct (is_slash c); cbn [forallb]; apply IH; cbn; lia.
  - rewrite glob_pieces_step by done. cbn [forallb]. rewrite piece_regular. apply IH. cbn. lia.
Qed.
Lemma compile_regular pattern : regular (compile_pattern pattern) = true.
Proof.
  apply regular_rseq. rewrite !forallb_app, (pieces_regular _ _ (le_n _)).
  by destruct (bool_decide _), (py_endswith _ _).
Qed.
Lemma removesuffix_below pattern : py_endswith "/**" pattern = true ->
  chars pattern = chars (py_removesuffix "/**" pattern) ++ slash :: [star; star].
Proof.
  unfold py_endswith, py_removesuffix. rewrite bool_decide_eq_true. intros [k Hk]. rewrite bool_decide_true by (by exists k).
  rewrite chars_of_chars, Hk, length_app, Nat.add_sub, take_app_length. done.
Qed.
Lemma removesuffix_none pattern : py_endswith "/**" pattern = false -> py_removesuffix "/**" pattern = pattern.
Proof. unfold py_endswith, py_removesuffix. by intros ->. Qed.
Lemma clean_components text : Forall (fun p => slash ∉ p) (components text).
Proof. apply split_clean_parts. Qed.
Lemma body_pieces text x : Forall stands_alone (components text) -> last (components text) <> Some [star; star] ->
  rlangs (glob_pieces (chars text)) x <-> segments_match (components text) (split_on is_slash x).
Proof.
  intros Hs Hl. rewrite <- (join_split (chars text)) at 1.
  apply body_matches; [apply split_nonempty|apply split_clean_parts|done..].
Qed.
(** The compiled pattern is the pattern's denotation. *)
Lemma compile_denotes pattern path : plain_pattern pattern ->
  regex_fullmatch (compile_pattern pattern) path = true <-> denotes pattern path.
Proof.
  intros [Hs Hl]. rewrite regex_fullmatch_spec by apply compile_regular.
  unfold compile_pattern. rewrite rlang_rseq. unfold denotes. fold stands_alone in Hs.
  destruct (py_endswith "/**" pattern) eqn:He.
  - pose proof (removesuffix_below _ He) as Hc. set (body := py_removesuffix "/**" pattern) in *.
    rewrite bool_decide_true, decide_True by (rewrite Hc; set_solver).
    assert (Hcs : components pattern = components body ++ [[star; star]]) by (unfold components; by rewrite Hc, split_slash).
    rewrite Hcs, segments_match_app. cbn [app]. rewrite rlangs_app. setoid_rewrite (body_pieces body) ; [|done..].
    cbn [rlangs]. setoid_rewrite opt_below_lang. unfold components at 2. split.
    + intros (a & ? & Hx & Ha & b & ? & -> & Hb & ->). rewrite app_nil_r in Hx. rewrite Hx.
      exists (split_on is_slash a). destruct Hb as [->|[y ->]].
      * exists []. rewrite !app_nil_r. split_and!; [done..|apply segments_rest].
      * exists (split_on is_slash y). rewrite split_slash. split_and!; [done..|apply segments_rest].
    + intros (front & back & Hx & Hf & _).
      assert (Hn : front <> []) by (eapply segments_nonempty; [apply split_nonempty|exact Hl|exact Hf]).
      destruct back as [|c back].
      * rewrite app_nil_r in Hx. exists (chars path), []. rewrite app_nil_r, Hx. split_and!; [done..|].
        exists [], []. split_and!; [done|by left|done].
      * apply split_parts in Hx as (-> & Hsf & _); [|done..]. exists (join front), (slash :: join (c :: back)).
        rewrite Hsf. split_and!; [done..|]. eexists _, []. rewrite app_nil_r. split_and!; [done|right; by eexists|done].
  - rewrite removesuffix_none in * by done. rewrite app_nil_r. case_bool_decide as Hsl.
    + rewrite decide_True by done. by apply body_pieces.
    + rewrite decide_False by done. unfold components in *. rewrite split_clean in * by done.
      apply Forall_cons in Hs as [Hs _]. cbn in Hl.
      apply (body_matches [[star; star]; chars pattern] (chars path)); [done| | |done].
      * apply Forall_cons; split; [set_solver|]. by apply Forall_singleton.
      * apply Forall_cons; split; [by left|]. by apply Forall_singleton.
Qed.

(** The compiled pattern is what the pattern reads, whatever the pattern. *)
Lemma rlangs_followed r l x : rlangs (r :: l) x <-> followed (rlang r) (rlangs l) x.
Proof. done. Qed.
Lemma followed_iff (P P' Q Q' : list Ascii.ascii -> Prop) x : (forall y, P y <-> P' y) -> (forall y, Q y <-> Q' y) ->
  followed P Q x <-> followed P' Q' x.
Proof. intros HP HQ. unfold followed. by setoid_rewrite HP; setoid_rewrite HQ. Qed.
Lemma anything_lang x : rlang any_text x <-> anything x.
Proof. split; [done|]. intros _. apply any_text_lang. Qed.
Lemma pieces_text n body x : length body <= n -> rlangs (glob_pieces body) x <-> text_match body x.
Proof.
  revert body x. induction n as [|n IH]; intros [|a rest] x Hn; cbn [length] in Hn; try done; [lia|].
  assert (Hone : rlangs (piece a :: glob_pieces rest) x <-> followed (one_matches a) (text_match rest) x)
    by (apply followed_iff; [intros y; apply piece_lang|intros y; apply IH; lia]).
  cbn [glob_pieces text_match]. destruct rest as [|b rest']; [exact Hone|]. destruct (is_star a && is_star b); [|exact Hone].
  cbn [length] in Hn. destruct rest' as [|c rest'']; cbn [length] in Hn; [|destruct (is_slash c)];
    (apply followed_iff; [intros y; first [apply opt_directories_lang|apply anything_lang]|intros y; apply IH; cbn; lia]).
Qed.
Lemma compile_reads pattern path : regex_fullmatch (compile_pattern pattern) path = true <-> reads pattern path.
Proof.
  rewrite regex_fullmatch_spec by apply compile_regular. unfold compile_pattern, reads. rewrite rlang_rseq, rlangs_app.
  setoid_rewrite rlangs_app. setoid_rewrite pieces_text; [|done].
  assert (Hf : forall x, rlangs (if bool_decide (slash ∈ chars pattern) then [] else [opt_directories]) x <->
    if decide (slash ∈ chars pattern) then x = [] else directories x).
  { intros x. case_bool_decide; [by rewrite decide_True|]. rewrite decide_False by done. cbn [rlangs].
    setoid_rewrite opt_directories_lang. split; [intros (a & b & -> & Ha & ->); by rewrite app_nil_r|].
    intros Hx. exists x, []. by rewrite app_nil_r. }
  assert (Hb : forall x, rlangs (if py_endswith "/**" pattern then [opt_below] else []) x <->
    x = [] \/ py_endswith "/**" pattern = true /\ exists y, x = slash :: y).
  { intros x. destruct (py_endswith _ _); cbn [rlangs]; [setoid_rewrite opt_below_lang|naive_solver]. split.
    - intros (a & b & -> & Ha & ->). rewrite app_nil_r. naive_solver.
    - intros Hx. exists x, []. rewrite app_nil_r. naive_solver. }
  setoid_rewrite Hf. setoid_rewrite Hb. split.
  - intros (a & ? & -> & Ha & b & c & -> & Hm & Hc). by exists a, b, c.
  - intros (a & b & c & -> & Ha & Hm & Hc). exists a, (b ++ c). split_and!; [done..|]. by exists b, c.
Qed.
Lemma reads_denotes pattern path : plain_pattern pattern -> reads pattern path <-> denotes pattern path.
Proof. intros Hp. by rewrite <- compile_reads, compile_denotes. Qed.

(** ** The policy *)
Lemma fromkeys_app l k : fromkeys (l ++ k) =
  foldl (fun seen x => if bool_decide (x ∈ seen) then seen else seen ++ [x]) (fromkeys l) k.
Proof. unfold fromkeys. by rewrite foldl_app. Qed.
Lemma elem_of_fromkeys l x : x ∈ fromkeys l <-> x ∈ l.
Proof.
  induction l as [|y l IH] using rev_ind; [done|]. rewrite fromkeys_app, elem_of_app. cbn.
  case_bool_decide as Hy; rewrite ?elem_of_app, IH; set_solver.
Qed.
(** Held: the pattern reads the path, or the path without its last line break. *)
Definition holds_path (pattern path : string) : Prop :=
  reads pattern path \/ exists front, chars path = front ++ [line_break] /\ reads pattern (of_chars front).
Lemma rule_matches_exact pattern path :
  pattern_matches pattern path = true <-> holds_path pattern path.
Proof.
  unfold pattern_matches, holds_path. rewrite orb_true_iff, compile_reads. f_equiv.
  destruct (reverse (chars path)) as [|c front] eqn:Hr.
  - split; [done|]. intros (front & Hc & _). rewrite Hc, reverse_app in Hr. done.
  - assert (Hc : chars path = reverse front ++ [c]) by (rewrite <- (reverse_involutive (chars path)), Hr; apply reverse_cons).
    rewrite andb_true_iff, bool_decide_eq_true, compile_reads. split.
    + intros [-> Hd]. by exists (reverse front).
    + intros (front' & Hf & Hd). rewrite Hc in Hf. apply app_inj_tail in Hf as [<- <-]. done.
Qed.
Definition all_plain (patterns : list string) : bool :=
  forallb (fun pattern => let body := components (py_removesuffix "/**" pattern) in
    forallb (fun p => bool_decide (p = [star; star]) || negb (double_star p)) body &&
    negb (bool_decide (last body = Some [star; star]))) patterns.
Lemma all_plain_spec patterns : all_plain patterns = true <-> Forall plain_pattern patterns.
Proof.
  unfold all_plain, plain_pattern. rewrite forallb_forall, Forall_forall. setoid_rewrite <- list_elem_of_In.
  split; intros H x Hx; specialize (H x Hx); cbn zeta in *;
    rewrite ?andb_true_iff, ?forallb_forall, ?Forall_forall, ?negb_true_iff, ?bool_decide_eq_false in *;
    (split; [|by apply H]); intros p Hp; destruct H as [H _]; specialize (H p);
    rewrite <- ?list_elem_of_In, ?orb_true_iff, ?negb_true_iff, ?bool_decide_eq_true in *; by apply H.
Qed.
Lemma defaults_plain : Forall plain_pattern DEFAULT_PROTECTED_PATH_PATTERNS.
Proof. apply all_plain_spec. by vm_compute. Qed.
Lemma held_exact patterns paths path :
  path ∈ sorted_set (List.filter (fun path => existsb (fun pattern => pattern_matches pattern path) patterns) paths) <->
  path ∈ paths /\ exists pattern, pattern ∈ patterns /\ holds_path pattern path.
Proof.
  unfold sorted_set. rewrite merge_sort_Permutation, elem_of_remove_dups, elem_of_bfilter, existsb_exists.
  by setoid_rewrite <- list_elem_of_In; setoid_rewrite rule_matches_exact.
Qed.
Lemma elem_of_protected p pattern : pattern ∈ protected_patterns p <->
  pattern ∈ DEFAULT_PROTECTED_PATH_PATTERNS \/ pattern ∈ pp_extra p.
Proof. unfold protected_patterns. by rewrite elem_of_fromkeys, elem_of_app. Qed.
(** A directory without wildcards, and what is below it. *)
Definition literal (text : string) : Prop := Forall (fun c => c <> star /\ c <> question) (chars text).
Definition same_text (a b : list Ascii.ascii) : Prop := map lower_char a = map lower_char b.
Lemma literal_name p c : Forall (fun c => c <> star /\ c <> question) p -> same_text p c ->
  double_star p = false /\ name_match p c.
Proof.
  intros Hf. revert c. unfold same_text. induction Hf as [|x p [Hs Hq] Hf IH]; intros [|d c]; try done.
  cbn [map]. intros [= Hx Hc]. destruct (IH c Hc) as [Hd Hm]. cbn [double_star name_match].
  assert (Es : is_star x = false) by by apply bool_decide_eq_false. rewrite Es, Hd. cbn [andb].
  split; [by destruct p|]. exists d, c. split_and!; [done..|]. by rewrite bool_decide_false.
Qed.
Lemma components_chars text part c : part ∈ components text -> c ∈ part -> c ∈ chars text.
Proof.
  unfold components. generalize (chars text). clear. intros l. revert part.
  induction l as [|x l IH]; intros part; cbn [split_on]; [intros ->%list_elem_of_singleton; set_solver|].
  destruct (is_slash x); [intros [->|Hp]%elem_of_cons Hc; [set_solver|right; by eapply IH]|].
  pose proof (split_nonempty l). destruct (split_on is_slash l) as [|w ws]; [done|].
  intros [->|Hp]%elem_of_cons Hc; [|right; eapply IH; [by right|done]].
  apply elem_of_cons in Hc as [->|Hc]; [left|right]. eapply IH; [by left|done].
Qed.
Lemma starless p : star ∉ p -> p <> [star; star] /\ double_star p = false.
Proof.
  intros Hs. split; [intros ->; set_solver|]. induction p as [|x p IH]; [done|]. cbn [double_star].
  rewrite IH by set_solver. destruct p as [|y p]; [done|]. unfold is_star at 1. by rewrite bool_decide_false by set_solver.
Qed.
Lemma literal_plain text : literal text ->
  Forall stands_alone (components text) /\ last (components text) <> Some [star; star].
Proof.
  unfold literal. rewrite Forall_forall. intros Hf.
  assert (Hp : forall p, p ∈ components text -> p <> [star; star] /\ double_star p = false).
  { intros p Hp. apply starless. intros Hs. destruct (Hf star) as [? _]; [by eapply components_chars|done]. }
  split.
  - apply Forall_forall. intros p Hin. right. by apply Hp.
  - intros Hl. apply last_Some_elem_of, Hp in Hl as [? _]. done.
Qed.
Lemma literal_segments text front : literal text -> same_text (chars text) front ->
  segments_match (components text) (split_on is_slash front).
Proof.
  intros Hl Ht. destruct (literal_plain _ Hl). apply body_pieces; [done..|].
  destruct (literal_name _ _ Hl Ht). rewrite pieces_component by done. by apply pieces_name.
Qed.
Lemma below_plain directory : literal directory -> plain_pattern (directory +:+ "/**").
Proof.
  intros Hl. unfold plain_pattern. assert (He : py_endswith "/**" (directory +:+ "/**") = true)
    by (apply bool_decide_eq_true; exists (chars directory); by rewrite chars_app).
  apply removesuffix_below in He. rewrite chars_app in He. apply app_inv_tail in He.
  apply (f_equal of_chars) in He. rewrite !of_chars_chars in He. rewrite <- He. by apply literal_plain.
Qed.
Lemma name_plain name : literal name -> slash ∉ chars name -> plain_pattern name.
Proof.
  intros Hl Hn. unfold plain_pattern. rewrite removesuffix_none; [by apply literal_plain|].
  apply not_true_is_false. intros He%removesuffix_below. rewrite He in Hn. set_solver.
Qed.
Lemma below_denoted directory path front below : literal directory -> same_text (chars directory) front ->
  chars path = front \/ chars path = front ++ slash :: below -> denotes (directory +:+ "/**") path.
Proof.
  intros Hl Ht Hp. pose proof (literal_segments _ _ Hl Ht) as Hs.
  unfold denotes, components. rewrite chars_app. change (chars "/**") with (slash :: [star; star]).
  rewrite decide_True by set_solver. rewrite split_slash. apply segments_match_app.
  destruct Hp as [-> | ->].
  - exists (split_on is_slash front), []. rewrite app_nil_r. split_and!; [done..|apply segments_rest].
  - rewrite split_slash. eexists _, _. split_and!; [done..|apply segments_rest].
Qed.
Lemma name_denoted name path leaf directories : literal name -> slash ∉ chars name -> same_text (chars name) leaf ->
  chars path = leaf \/ chars path = directories ++ slash :: leaf -> denotes name path.
Proof.
  intros Hl Hn Ht Hp. pose proof (literal_segments _ _ Hl Ht) as Hs.
  unfold denotes. rewrite decide_False by done. unfold components at 2. cbn [segments_match]. rewrite decide_True by done.
  destruct Hp as [-> | ->]; [by exists [], (split_on is_slash leaf)|]. rewrite split_slash. by eexists _, _.
Qed.

(** C16: of the changed paths exactly those are held, each once and in order, that some
    default or extra pattern reads, without regard to case (or that become so without a last
    line break, which only widens what is held).  What a pattern reads is given for every
    pattern character by character, where a double star next to other characters crosses
    components; a pattern whose double stars stand alone between separators, as every default
    does, is read component by component.  Extra patterns never narrow the set, a directory
    followed by [**] holds the directory's own entry and everything below it, and a plain
    name is held at any depth. *)
Theorem protected_paths_exact (p : ProtectedPathPolicy) (paths : list string) :
  (forall path, path ∈ matched p paths <-> path ∈ paths /\
     exists pattern, (pattern ∈ DEFAULT_PROTECTED_PATH_PATTERNS \/ pattern ∈ pp_extra p) /\ holds_path pattern path) /\
  (forall pattern path, plain_pattern pattern -> reads pattern path <-> denotes pattern path) /\
  Forall plain_pattern DEFAULT_PROTECTED_PATH_PATTERNS /\
  NoDup (matched p paths) /\ Sorted String.le (matched p paths) /\
  (forall path, path ∈ matched {| pp_extra := [] |} paths -> path ∈ matched p paths) /\
  (forall directory path front below, (directory +:+ "/**") ∈ protected_patterns p -> literal directory -> path ∈ paths ->
     same_text (chars directory) front -> chars path = front \/ chars path = front ++ slash :: below ->
     path ∈ matched p paths) /\
  (forall name path leaf directories, name ∈ protected_patterns p -> literal name -> slash ∉ chars name ->
     path ∈ paths -> same_text (chars name) leaf -> chars path = leaf \/ chars path = directories ++ slash :: leaf ->
     path ∈ matched p paths).
Proof.
  pose proof (fun q path => held_exact (protected_patterns q) paths path) as Hx. pose proof (Hx p) as Hm.
  split_and!.
  - intros path. rewrite Hm. by setoid_rewrite elem_of_protected.
  - intros pattern path. apply reads_denotes.
  - exact defaults_plain.
  - unfold matched, sorted_set. rewrite merge_sort_Permutation. apply NoDup_remove_dups.
  - unfold matched, sorted_set. apply Sorted_merge_sort, _.
  - intros path Hin. apply Hm. apply (Hx {| pp_extra := [] |}) in Hin as (? & pattern & Hp & Hh).
    split; [done|]. exists pattern. split; [|done].
    apply elem_of_protected in Hp as [?|Hp]; [apply elem_of_protected; by left|by apply elem_of_nil in Hp].
  - intros directory path front below Hp Hl Hin Ht Hc. apply Hm. split; [done|]. eexists. split; [exact Hp|].
    left. apply reads_denotes; [by apply below_plain|by eapply below_denoted].
  - intros name path leaf directories Hp Hl Hn Hin Ht Hc. apply Hm. split; [done|]. eexists. split; [exact Hp|].
    left. apply reads_denotes; [by apply name_plain|by eapply name_denoted].
Qed.

Module Demo.
Definition demo_policy : ProtectedPathPolicy := {| pp_extra := ["docs/*.md"; "src/**/secret"; "gen**"] |}.
Definition demo_paths : list string :=
  ["src/a/b/Secret"; "README"; ".GitHub/workflows/ci.yml"; "docs/a.md"; "docs/x/a.md"; "sub/codeowners"; ".github"; "src/secret"; "gen/out/x"].
Example demo_matched : matched demo_policy demo_paths =
  [".GitHub/workflows/ci.yml"; ".github"; "docs/a.md"; "gen/out/x"; "src/a/b/Secret"; "src/secret"; "sub/codeowners"].
Proof. by vm_compute. Qed.
Example demo_policy_accepted : policy_post_init demo_policy = Ok demo_policy.
Proof. by vm_compute. Qed.
Example demo_branches : require_branch_name "enginery/run-1" = Ok () /\
  require_branch_name "refs/heads/x" = Err InvalidInputError /\ require_branch_name "a..b" = Err InvalidInputError.
Proof. by vm_compute. Qed.
Lemma protected_paths_exact_witness : NoDup (matched demo_policy demo_paths) /\ ".GitHub/workflows/ci.yml" ∈ matched demo_policy demo_paths.
Proof.
  destruct (protected_paths_exact demo_policy demo_paths) as (_ & _ & _ & Hn & _ & _ & Hd & _).
  split; [exact Hn|].
  apply (Hd ".github" _ (chars ".GitHub") (chars "workflows/ci.yml")).
  - apply elem_of_protected. left. apply (bool_decide_unpack _). by vm_compute.
  - apply (bool_decide_unpack _). by vm_compute.
  - apply (bool_decide_unpack _). by vm_compute.
  - by vm_compute.
  - right. by vm_compute.
Defined.
End Demo.
