(* ===== verification/Runners.v ===== *)
(** * Isolated runners ([domain/runner.py])

    The trust modes, the hardening profile of an isolated worker, the comparison of the
    container the engine reports with it, and the records a launch leaves: permission
    mappings, launch specifications, outcomes and receipts with their stored forms.  The
    sources keep the container engine behind these values; so does this file. *)
From S2P Require Import Prelude PyText Json JsonCanon Identity IdentityProofs PlanExecutionProofs Regex Records Manifests Closures Selections SelectionProofs ProtectedPaths.
From Stdlib Require Import SpecFloat.

Definition RUNNER_RECEIPT_SCHEMA_VERSION : Z := 1.
Definition RUNNER_SELECTION_SCHEMA_VERSION : Z := 1.
Definition WORKSPACE_MOUNT : string := "/workspace".
Definition OUT_MOUNT : string := "/out".
Definition WORKER_HOME : string := "/home/worker".
Definition WORKER_TMP : string := "/tmp".
Definition ISOLATED_PROFILE_NAME : string := "enginery-isolated-oci-v1".
Definition TRUSTED_LOCAL_PROFILE_NAME : string := "enginery-trusted-local-v1".
Definition MODEL_ACCESS_NONE : string := "none".
Definition MODEL_ACCESS_RELAY : string := "relay".
Definition MODEL_ACCESS_MODES : list string := [MODEL_ACCESS_NONE; MODEL_ACCESS_RELAY].
Definition RELAY_HOSTNAME : string := "enginery-relay".
Definition RELAY_PORT : Z := 8080.
Definition RELAY_DUMMY_CREDENTIAL : string := "enginery-relay".
Definition NO_NETWORK : string := "none".
Definition ATTEMPT_NETWORK_DIGEST_CHARS : nat := 24.
Definition host_char (c : Ascii.ascii) : bool := is_alnum c || is_one_of ".-" c.
Definition RELAY_URL_PATTERN : regex :=
  RSeq (RLit "http://") (RSeq (RRep is_alnum 1 (Some 1)) (RSeq (RRep host_char 0 None)
    (RSeq (RLit ":") (RRep is_digit 1 (Some 5))))).
Definition IMAGE_ID_PATTERN : regex := RSeq (RLit "sha256:") (RRep is_hex_lower 64 (Some 64)).
Definition name_char (c : Ascii.ascii) : bool := is_alnum c || is_one_of "_.-" c.
Definition CONTAINER_NAME_PATTERN : regex := RSeq (RRep is_alnum 1 (Some 1)) (RRep name_char 0 (Some 127)).
Inductive TrustMode := TRUSTED_LOCAL | ISOLATED_OCI.
#[export] Instance TrustMode_eq_dec : EqDecision TrustMode.
Proof. solve_decision. Defined.
#[export] Program Instance TrustMode_enum : PyEnum TrustMode := {|
  members := [TRUSTED_LOCAL; ISOLATED_OCI];
  enum_value m := match m with TRUSTED_LOCAL => "trusted-local" | ISOLATED_OCI => "isolated-oci" end |}.
Next Obligation. solve_enum. Qed.
Next Obligation. solve_enum. Qed.

(** ** Reading a stored field *)
Definition require_nonblank_text (value : string) : result () := raise_when blank value as InvalidInputError ;; Ok ().
Definition state_mapping (state : option json) : result (list (string * json)) :=
  match state with Some (JObj m) => Ok m | _ => Err InvalidInputError end.
Definition runner_text (data : list (string * json)) (key : string) : result string :=
  match dict_get key data with
  | Some (JStr s) => raise_when blank s as InvalidInputError ;; Ok s | _ => Err InvalidInputError end.
Definition runner_optional_text (data : list (string * json)) (key : string) : result (option string) :=
  match dict_get key data with
  | None | Some JNull => Ok None
  | Some (JStr s) => raise_when blank s as InvalidInputError ;; Ok (Some s) | _ => Err InvalidInputError end.
Definition runner_integer (data : list (string * json)) (key : string) : result Z :=
  match dict_get key data with Some (JInt z) => Ok z | _ => Err InvalidInputError end.
Definition runner_texts (data : list (string * json)) (key : string) : result (list string) :=
  match dict_get key data with Some (JList l) => str_items l | _ => Err InvalidInputError end.
Definition runner_flag (data : list (string * json)) (key : string) : result bool :=
  match dict_get key data with Some (JBool b) => Ok b | _ => Err InvalidInputError end.
Definition runner_enum {A} `{PyEnum A} (data : list (string * json)) (key : string) : result A :=
  text ← runner_text data key;
  match enum_of_value text with Ok a => Ok a | Err _ => Err InvalidInputError end.
Definition runner_version (data : list (string * json)) (version : Z) : result () :=
  raise_when negb (json_eqb (default JNull (dict_get "schema_version" data)) (JInt version)) as InvalidInputError ;; Ok ().
Definition pinned_digest (text : string) : result Digest :=
  let '(algorithm, hex) := py_partition colon text in mk_digest algorithm (default "" hex).
Definition json_texts (l : list string) : json := JList (map JStr l).

(** ** Permission mappings *)
Record PermissionMapping := {
  pm_harness : string; pm_name : string; pm_arguments : list string; pm_unconditional_bypass : bool; pm_rationale : string }.
#[export] Instance PermissionMapping_eq_dec : EqDecision PermissionMapping.
Proof. solve_decision. Defined.
Definition permission_post_init (m : PermissionMapping) : result PermissionMapping :=
  _ ← require_nonblank_text (pm_harness m); _ ← require_nonblank_text (pm_name m); _ ← require_nonblank_text (pm_rationale m);
  raise_when existsb blank (pm_arguments m) as InvalidInputError ;; Ok m.
Definition permission_state (m : PermissionMapping) : json := JObj [
  ("harness", JStr (pm_harness m)); ("name", JStr (pm_name m)); ("arguments", json_texts (pm_arguments m));
  ("unconditional_bypass", JBool (pm_unconditional_bypass m)); ("rationale", JStr (pm_rationale m))].
Definition permission_from_state (state : option json) : result PermissionMapping :=
  data ← state_mapping state;
  bypass ← runner_flag data "unconditional_bypass";
  harness ← runner_text data "harness"; name ← runner_text data "name";
  arguments ← runner_texts data "arguments"; rationale ← runner_text data "rationale";
  permission_post_init {| pm_harness := harness; pm_name := name; pm_arguments := arguments;
    pm_unconditional_bypass := bypass; pm_rationale := rationale |}.

(** ** Resource limits *)
Record ResourceLimits := {
  rl_memory_mib : Z; rl_cpus : spec_float; rl_pids : Z; rl_tmp_mib : Z; rl_home_mib : Z; rl_stop_grace_seconds : Z;
  rl_workspace_mib : Z; rl_out_mib : Z; rl_workspace_inodes : Z; rl_out_inodes : Z }.
#[export] Instance spec_float_eq_dec : EqDecision spec_float.
Proof. solve_decision. Defined.
#[export] Instance ResourceLimits_eq_dec : EqDecision ResourceLimits.
Proof. solve_decision. Defined.
Definition default_workspace_mib : Z := 4096.
Definition default_out_mib : Z := 1024.
Definition default_workspace_inodes : Z := 500000.
Definition default_out_inodes : Z := 100000.
Definition limits_post_init (l : ResourceLimits) : result ResourceLimits :=
  raise_when (rl_memory_mib l <? 64)%Z || (rl_pids l <? 8)%Z || SFleb (rl_cpus l) (S754_zero false) as InvalidInputError ;;
  raise_when (rl_tmp_mib l <? 1)%Z || (rl_home_mib l <? 1)%Z || (rl_stop_grace_seconds l <? 1)%Z as InvalidInputError ;;
  raise_when (Z.min (Z.min (Z.min (rl_workspace_mib l) (rl_out_mib l)) (rl_workspace_inodes l)) (rl_out_inodes l) <? 1)%Z
    as InvalidInputError ;;
  Ok l.
Definition memory_bytes (l : ResourceLimits) : Z := (rl_memory_mib l * 1024 * 1024)%Z.
(** [round(x)]: to the nearest integer, ties to even. *)
Definition py_round (f : spec_float) : result Z :=
  match f with
  | S754_zero _ => Ok 0%Z
  | S754_infinity _ => Err PyOverflowError
  | S754_nan => Err PyValueError
  | S754_finite s m e =>
      let v := if (0 <=? e)%Z then (Zpos m * 2 ^ e)%Z else
        let unit := (2 ^ (- e))%Z in
        let low := (Zpos m / unit)%Z in
        let twice := (2 * (Zpos m mod unit))%Z in
        if (twice <? unit)%Z || (twice =? unit)%Z && Z.even low then low else (low + 1)%Z in
      Ok (if s then (- v)%Z else v)
  end.
Definition nano_cpus (l : ResourceLimits) : result Z :=
  billion ← float_of_int 1000000000; py_round (SFmul 53 1024 (rl_cpus l) billion).
Definition disk_bound_item (key : string) (value fallback : Z) : list (string * json) :=
  if (value =? fallback)%Z then [] else [(key, JInt value)].
Definition limits_state (l : ResourceLimits) : json := JObj ([
  ("memory_mib", JInt (rl_memory_mib l)); ("cpus", JFloat (rl_cpus l)); ("pids", JInt (rl_pids l));
  ("tmp_mib", JInt (rl_tmp_mib l)); ("home_mib", JInt (rl_home_mib l));
  ("stop_grace_seconds", JInt (rl_stop_grace_seconds l))] ++
  disk_bound_item "workspace_mib" (rl_workspace_mib l) default_workspace_mib ++
  disk_bound_item "out_mib" (rl_out_mib l) default_out_mib ++
  disk_bound_item "workspace_inodes" (rl_workspace_inodes l) default_workspace_inodes ++
  disk_bound_item "out_inodes" (rl_out_inodes l) default_out_inodes).
Definition limits_cpus (data : list (string * json)) : result spec_float :=
  match dict_get "cpus" data with
  | Some (JInt z) => float_of_int z | Some (JFloat f) => Ok f | _ => Err InvalidInputError end.
(** Anything that is no number is refused before the bounds are read. *)
Definition limits_number (data : list (string * json)) : result () :=
  match dict_get "cpus" data with Some (JInt _) | Some (JFloat _) => Ok () | _ => Err InvalidInputError end.
Definition limits_bound (data : list (string * json)) (key : string) (fallback : Z) : result Z :=
  if has_entry data key then runner_integer data key else Ok fallback.
Definition limits_from_state (state : option json) : result ResourceLimits :=
  data ← state_mapping state;
  _ ← limits_number data;
  workspace ← limits_bound data "workspace_mib" default_workspace_mib; out ← limits_bound data "out_mib" default_out_mib;
  workspace_inodes ← limits_bound data "workspace_inodes" default_workspace_inodes;
  out_inodes ← limits_bound data "out_inodes" default_out_inodes;
  memory ← runner_integer data "memory_mib"; cpus ← limits_cpus data; pids ← runner_integer data "pids";
  tmp ← runner_integer data "tmp_mib"; home ← runner_integer data "home_mib"; grace ← runner_integer data "stop_grace_seconds";
  limits_post_init {| rl_memory_mib := memory; rl_cpus := cpus; rl_pids := pids; rl_tmp_mib := tmp; rl_home_mib := home;
    rl_stop_grace_seconds := grace; rl_workspace_mib := workspace; rl_out_mib := out;
    rl_workspace_inodes := workspace_inodes; rl_out_inodes := out_inodes |}.

(** ** The hardening profile *)
Definition DEFAULT_ENV_ALLOWLIST : list string := [
  "HOME"; "PATH"; "LANG"; "TMPDIR"; "TERM"; "GIT_AUTHOR_NAME"; "GIT_AUTHOR_EMAIL"; "GIT_COMMITTER_NAME";
  "GIT_COMMITTER_EMAIL"; "GIT_TERMINAL_PROMPT"; "GIT_CONFIG_COUNT"; "GIT_CONFIG_KEY_0"; "GIT_CONFIG_VALUE_0";
  "CLAUDE_CONFIG_DIR"; "ANTHROPIC_BASE_URL"; "ANTHROPIC_AUTH_TOKEN"; "DISABLE_TELEMETRY"; "DISABLE_AUTOUPDATER";
  "CLAUDE_CODE_DISABLE_NONESSENTIAL_TRAFFIC"; "PI_CODING_AGENT_DIR"; "PI_CONFIG_DIR"].
Record RunnerProfile := {
  rp_name : string; rp_uid : Z; rp_gid : Z; rp_resources : ResourceLimits; rp_cap_drop : list string;
  rp_security_options : list string; rp_read_only_rootfs : bool; rp_network : string; rp_env_allowlist : list string }.
#[export] Instance RunnerProfile_eq_dec : EqDecision RunnerProfile.
Proof. solve_decision. Defined.
Definition profile_validate (p : RunnerProfile) : result RunnerProfile :=
  _ ← require_nonblank_text (rp_name p); _ ← require_nonblank_text (rp_network p);
  raise_when (rp_uid p <? 1000)%Z || (rp_gid p <? 1000)%Z as InvalidInputError ;;
  raise_when negb (bool_decide (rp_cap_drop p = ["ALL"])) as InvalidInputError ;;
  raise_when negb (bool_decide ("no-new-privileges" ∈ rp_security_options p)) as InvalidInputError ;;
  raise_when negb (rp_read_only_rootfs p) as InvalidInputError ;; Ok p.
Definition profile_post_init (p : RunnerProfile) : result RunnerProfile :=
  profile_validate {| rp_name := rp_name p; rp_uid := rp_uid p; rp_gid := rp_gid p; rp_resources := rp_resources p;
    rp_cap_drop := rp_cap_drop p; rp_security_options := rp_security_options p;
    rp_read_only_rootfs := rp_read_only_rootfs p; rp_network := rp_network p;
    rp_env_allowlist := sorted_set (rp_env_allowlist p) |}.
Definition profile_state (p : RunnerProfile) : json := JObj [
  ("name", JStr (rp_name p)); ("uid", JInt (rp_uid p)); ("gid", JInt (rp_gid p)); ("resources", limits_state (rp_resources p));
  ("cap_drop", json_texts (rp_cap_drop p)); ("security_options", json_texts (rp_security_options p));
  ("read_only_rootfs", JBool (rp_read_only_rootfs p)); ("network", JStr (rp_network p));
  ("env_allowlist", json_texts (merge_sort String.le (rp_env_allowlist p)));
  ("mounts", JObj [("workspace", JStr WORKSPACE_MOUNT); ("out", JStr OUT_MOUNT)])].
Definition profile_from_state (state : option json) : result RunnerProfile :=
  data ← state_mapping state;
  read_only ← runner_flag data "read_only_rootfs";
  name ← runner_text data "name"; uid ← runner_integer data "uid"; gid ← runner_integer data "gid";
  resources ← limits_from_state (dict_get "resources" data);
  cap_drop ← runner_texts data "cap_drop"; security ← runner_texts data "security_options";
  network ← runner_text data "network"; allowlist ← runner_texts data "env_allowlist";
  profile_post_init {| rp_name := name; rp_uid := uid; rp_gid := gid; rp_resources := resources; rp_cap_drop := cap_drop;
    rp_security_options := security; rp_read_only_rootfs := read_only; rp_network := network; rp_env_allowlist := allowlist |}.
Section Networks.
Context `{PyRuntime}.
Definition profile_digest (p : RunnerProfile) : result Digest := digest_of_json (profile_state p).
Definition attempt_network_name (p : RunnerProfile) (operation_id : string) : result string :=
  _ ← require_nonblank_text operation_id;
  Ok (rp_network p +:+ "-" +:+ of_chars (take ATTEMPT_NETWORK_DIGEST_CHARS (chars (sha256_hex (utf8 operation_id))))).
Definition expected_network (p : RunnerProfile) (operation_id : string) (relay : bool) : result string :=
  if relay then attempt_network_name p operation_id else Ok NO_NETWORK.
End Networks.

(** ** The engine, the image and the container it reports *)
Record EngineIdentity := {
  en_kind : string; en_server_version : string; en_operating_system : string; en_kernel_version : string;
  en_cgroup_version : string; en_security_options : list string; en_rootless : bool; en_context : option string }.
#[export] Instance EngineIdentity_eq_dec : EqDecision EngineIdentity.
Proof. solve_decision. Defined.
Definition engine_post_init (e : EngineIdentity) : result EngineIdentity :=
  _ ← require_nonblank_text (en_kind e); _ ← require_nonblank_text (en_server_version e); _ ← require_nonblank_text (en_operating_system e);
  _ ← require_nonblank_text (en_kernel_version e); _ ← require_nonblank_text (en_cgroup_version e); Ok e.
Definition engine_state (e : EngineIdentity) : json := JObj [
  ("kind", JStr (en_kind e)); ("server_version", JStr (en_server_version e));
  ("operating_system", JStr (en_operating_system e)); ("kernel_version", JStr (en_kernel_version e));
  ("cgroup_version", JStr (en_cgroup_version e)); ("security_options", json_texts (en_security_options e));
  ("rootless", JBool (en_rootless e)); ("context", control_value (en_context e))].
Definition engine_from_state (state : option json) : result EngineIdentity :=
  data ← state_mapping state;
  rootless ← runner_flag data "rootless";
  kind ← runner_text data "kind"; server ← runner_text data "server_version"; system ← runner_text data "operating_system";
  kernel ← runner_text data "kernel_version"; cgroup ← runner_text data "cgroup_version";
  security ← runner_texts data "security_options"; context ← runner_optional_text data "context";
  engine_post_init {| en_kind := kind; en_server_version := server; en_operating_system := system;
    en_kernel_version := kernel; en_cgroup_version := cgroup; en_security_options := security;
    en_rootless := rootless; en_context := context |}.
Record ImageIdentity := { ig_image_id : string; ig_recipe_digest : string; ig_harness_versions : list (string * string) }.
#[export] Instance ImageIdentity_eq_dec : EqDecision ImageIdentity.
Proof. solve_decision. Defined.
Definition image_post_init (i : ImageIdentity) : result ImageIdentity :=
  raise_when negb (regex_fullmatch IMAGE_ID_PATTERN (ig_image_id i)) as InvalidInputError ;;
  _ ← require_nonblank_text (ig_recipe_digest i); Ok i.
(** [dict(pairs)] *)
Definition dict_of_pairs (l : list (string * string)) : list (string * string) :=
  foldl (fun d '(k, v) => dict_set k v d) [] l.
Definition text_mapping (l : list (string * string)) : json := JObj (map (fun kv => (kv.1, JStr kv.2)) l).
Definition image_state (i : ImageIdentity) : json := JObj [
  ("image_id", JStr (ig_image_id i)); ("recipe_digest", JStr (ig_recipe_digest i));
  ("harness_versions", text_mapping (dict_of_pairs (ig_harness_versions i)))].
Definition text_pair (kv : string * json) : option (string * string) :=
  match kv.2 with JStr s => Some (kv.1, s) | _ => None end.
(** The pairs sort by key: the keys of a mapping are distinct. *)
Definition image_from_state (state : option json) : result ImageIdentity :=
  data ← state_mapping state;
  versions ← state_mapping (dict_get "harness_versions" data);
  items ← from_option_err InvalidInputError (mapM text_pair versions);
  image_id ← runner_text data "image_id"; recipe ← runner_text data "recipe_digest";
  image_post_init {| ig_image_id := image_id; ig_recipe_digest := recipe; ig_harness_versions := merge_sort key_le items |}.
Record EffectiveContainer := {
  ef_user : string; ef_cap_drop : list string; ef_cap_add : list string; ef_security_options : list string;
  ef_privileged : bool; ef_read_only_rootfs : bool; ef_memory_bytes : Z; ef_memory_swap_bytes : Z; ef_nano_cpus : Z;
  ef_pids_limit : Z; ef_network_mode : string; ef_networks : list string; ef_mounts : list (string * string * bool);
  ef_devices : list string; ef_env_keys : list string }.
#[export] Instance EffectiveContainer_eq_dec : EqDecision EffectiveContainer.
Proof. solve_decision. Defined.
Definition mount_state (m : string * string * bool) : json := JObj [
  ("kind", JStr m.1.1); ("destination", JStr m.1.2); ("writable", JBool m.2)].
Definition effective_state (e : EffectiveContainer) : json := JObj [
  ("user", JStr (ef_user e)); ("cap_drop", json_texts (ef_cap_drop e)); ("cap_add", json_texts (ef_cap_add e));
  ("security_options", json_texts (ef_security_options e)); ("privileged", JBool (ef_privileged e));
  ("read_only_rootfs", JBool (ef_read_only_rootfs e)); ("memory_bytes", JInt (ef_memory_bytes e));
  ("memory_swap_bytes", JInt (ef_memory_swap_bytes e)); ("nano_cpus", JInt (ef_nano_cpus e));
  ("pids_limit", JInt (ef_pids_limit e)); ("network_mode", JStr (ef_network_mode e));
  ("networks", json_texts (ef_networks e)); ("mounts", JList (map mount_state (ef_mounts e)));
  ("devices", json_texts (ef_devices e)); ("env_keys", json_texts (merge_sort String.le (ef_env_keys e)))].
Definition mount_from_state (item : json) : result (string * string * bool) :=
  entry ← state_mapping (Some item);
  writable ← runner_flag entry "writable";
  kind ← runner_text entry "kind"; destination ← runner_text entry "destination";
  Ok (kind, destination, writable).
Definition effective_mounts (data : list (string * json)) : result (list (string * string * bool)) :=
  match dict_get "mounts" data with Some (JList l) => mapM_result mount_from_state l | _ => Err InvalidInputError end.
Definition effective_from_state (state : option json) : result EffectiveContainer :=
  data ← state_mapping state;
  mounts ← effective_mounts data;
  privileged ← runner_flag data "privileged"; read_only ← runner_flag data "read_only_rootfs";
  user ← runner_text data "user"; cap_drop ← runner_texts data "cap_drop"; cap_add ← runner_texts data "cap_add";
  security ← runner_texts data "security_options"; memory ← runner_integer data "memory_bytes";
  swap ← runner_integer data "memory_swap_bytes"; cpus ← runner_integer data "nano_cpus";
  pids ← runner_integer data "pids_limit"; mode ← runner_text data "network_mode";
  networks ← runner_texts data "networks"; devices ← runner_texts data "devices"; env ← runner_texts data "env_keys";
  Ok {| ef_user := user; ef_cap_drop := cap_drop; ef_cap_add := cap_add; ef_security_options := security;
    ef_privileged := privileged; ef_read_only_rootfs := read_only; ef_memory_bytes := memory;
    ef_memory_swap_bytes := swap; ef_nano_cpus := cpus; ef_pids_limit := pids; ef_network_mode := mode;
    ef_networks := networks; ef_mounts := mounts; ef_devices := devices; ef_env_keys := env |}.

(** *** The comparison with the profile *)
Definition IMAGE_ENV_KEYS : list string := ["HOSTNAME"; "NODE_VERSION"; "YARN_VERSION"; "BUN_INSTALL"; "PWD"].
Definition allowed_mounts : list (string * string * bool) := [
  ("volume", WORKSPACE_MOUNT, true); ("volume", OUT_MOUNT, true); ("tmpfs", WORKER_TMP, true); ("tmpfs", WORKER_HOME, true)].
(** [set(a) == set(b)] *)
Definition same_set (a b : list string) : bool :=
  forallb (fun x => bool_decide (x ∈ b)) a && forallb (fun x => bool_decide (x ∈ a)) b.
Definition problem (found : bool) (text : string) : list string := if found then [text] else [].
Definition problems {A} (found : A -> bool) (text : A -> string) (l : list A) : list string :=
  concat (map (fun x => problem (found x) (text x)) l).
Definition user_of (p : RunnerProfile) : string := pretty (rp_uid p) +:+ ":" +:+ pretty (rp_gid p).
Definition stray_env (p : RunnerProfile) (e : EffectiveContainer) : list string :=
  sorted_set (List.filter (fun k => negb (bool_decide (k ∈ rp_env_allowlist p)) && negb (bool_decide (k ∈ IMAGE_ENV_KEYS)))
    (ef_env_keys e)).
Definition stored_volumes (e : EffectiveContainer) : list string :=
  map (fun m => m.1.2) (List.filter (fun m => String.eqb m.1.1 "volume") (ef_mounts e)).
Definition profile_violations `{PyRuntime} (p : RunnerProfile) (e : EffectiveContainer) (network : string) : result (list string) :=
  let limits := rp_resources p in
  cpus ← nano_cpus limits;
  Ok (problem (negb (String.eqb (ef_user e) (user_of p)))
        ("user is " +:+ py_repr_str (ef_user e) +:+ ", expected " +:+ py_repr_str (user_of p)) ++
      problem (ef_privileged e) "container is privileged" ++
      problem (negb (same_set (ef_cap_drop e) (rp_cap_drop p))) "capabilities are not all dropped" ++
      problem (negb (is_nil (ef_cap_add e))) "container adds capabilities" ++
      problems (fun o => negb (bool_decide (o ∈ ef_security_options e)))
        (fun o => "security option " +:+ py_repr_str o +:+ " is not set") (rp_security_options p) ++
      problems (fun o => negb (bool_decide (o ∈ rp_security_options p)))
        (fun o => "security option " +:+ py_repr_str o +:+ " is outside the profile") (ef_security_options e) ++
      problem (negb (ef_read_only_rootfs e)) "root filesystem is writable" ++
      problem (negb (ef_memory_bytes e =? memory_bytes limits)%Z) "memory limit is not the profile limit" ++
      problem (negb (ef_memory_swap_bytes e =? memory_bytes limits)%Z) "swap is not disabled (memory-swap differs from memory)" ++
      problem (negb (ef_nano_cpus e =? cpus)%Z) "cpu limit is not the profile limit" ++
      problem (negb (ef_pids_limit e =? rl_pids limits)%Z) "pids limit is not the profile limit" ++
      problem (negb (String.eqb (ef_network_mode e) network) || negb (bool_decide (ef_networks e = [network])))
        ("container is not attached only to the network " +:+ py_repr_str network) ++
      problem (negb (is_nil (ef_devices e))) "container has host devices" ++
      problems (fun m => negb (bool_decide (m ∈ allowed_mounts)))
        (fun m => "unadmitted mount " +:+ m.1.1 +:+ " at " +:+ m.1.2) (ef_mounts e) ++
      problem (negb (same_set (stored_volumes e) [WORKSPACE_MOUNT; OUT_MOUNT]))
        "the workspace and result mounts are not exactly the admitted volumes" ++
      problem (negb (is_nil (stray_env p e)))
        ("environment keys outside the allowlist: " +:+ py_repr (json_texts (stray_env p e)))).

(** ** What a launch leaves *)
Definition DISK_BOUND_KERNEL_VOLUME : string := "kernel-capped-volume".
Record ResourceBounds := {
  bo_disk_mechanism : string; bo_workspace_bytes : Z; bo_out_bytes : Z; bo_workspace_inodes : Z; bo_out_inodes : Z;
  bo_max_file_bytes : Z; bo_log_driver : string; bo_log_max_size : string; bo_log_max_file : Z }.
#[export] Instance ResourceBounds_eq_dec : EqDecision ResourceBounds.
Proof. solve_decision. Defined.
Definition bounds_post_init (b : ResourceBounds) : result ResourceBounds :=
  _ ← require_nonblank_text (bo_disk_mechanism b); _ ← require_nonblank_text (bo_log_driver b); _ ← require_nonblank_text (bo_log_max_size b); Ok b.
Definition bounds_state (b : ResourceBounds) : json := JObj [
  ("disk_mechanism", JStr (bo_disk_mechanism b)); ("workspace_bytes", JInt (bo_workspace_bytes b));
  ("out_bytes", JInt (bo_out_bytes b)); ("workspace_inodes", JInt (bo_workspace_inodes b));
  ("out_inodes", JInt (bo_out_inodes b)); ("max_file_bytes", JInt (bo_max_file_bytes b));
  ("log_driver", JStr (bo_log_driver b)); ("log_max_size", JStr (bo_log_max_size b)); ("log_max_file", JInt (bo_log_max_file b))].
Definition bounds_from_state (state : option json) : result ResourceBounds :=
  data ← state_mapping state;
  mechanism ← runner_text data "disk_mechanism"; workspace ← runner_integer data "workspace_bytes";
  out ← runner_integer data "out_bytes"; workspace_inodes ← runner_integer data "workspace_inodes";
  out_inodes ← runner_integer data "out_inodes"; max_file ← runner_integer data "max_file_bytes";
  driver ← runner_text data "log_driver"; size ← runner_text data "log_max_size"; file ← runner_integer data "log_max_file";
  bounds_post_init {| bo_disk_mechanism := mechanism; bo_workspace_bytes := workspace; bo_out_bytes := out;
    bo_workspace_inodes := workspace_inodes; bo_out_inodes := out_inodes; bo_max_file_bytes := max_file;
    bo_log_driver := driver; bo_log_max_size := size; bo_log_max_file := file |}.
Record RunnerReceipt := {
  rcp_operation_id : string; rcp_trust_mode : TrustMode; rcp_profile_name : string; rcp_profile_digest : Digest;
  rcp_engine : EngineIdentity; rcp_image : ImageIdentity; rcp_container_name : string; rcp_host : list (string * string);
  rcp_effective : EffectiveContainer; rcp_permissions : PermissionMapping; rcp_harness_version : option string;
  rcp_harness_protocol : option string; rcp_started_at : string; rcp_bounds : option ResourceBounds }.
Definition runner_receipt_post_init (r : RunnerReceipt) : result RunnerReceipt :=
  raise_when bool_decide (rcp_trust_mode r = ISOLATED_OCI) && pm_unconditional_bypass (rcp_permissions r) as InvalidInputError ;;
  Ok r.
Definition receipt_state (r : RunnerReceipt) : json := JObj ([
  ("schema_version", JInt RUNNER_RECEIPT_SCHEMA_VERSION); ("operation_id", JStr (rcp_operation_id r));
  ("trust_mode", JStr (enum_value (rcp_trust_mode r))); ("profile", JStr (rcp_profile_name r));
  ("profile_digest", JStr (digest_str (rcp_profile_digest r))); ("engine", engine_state (rcp_engine r));
  ("image", image_state (rcp_image r)); ("container_name", JStr (rcp_container_name r)); ("host", text_mapping (rcp_host r));
  ("effective", effective_state (rcp_effective r)); ("permissions", permission_state (rcp_permissions r));
  ("harness_version", control_value (rcp_harness_version r)); ("harness_protocol", control_value (rcp_harness_protocol r));
  ("started_at", JStr (rcp_started_at r))] ++
  match rcp_bounds r with Some b => [("bounds", bounds_state b)] | None => [] end).
Definition receipt_from_state `{PyRuntime} (state : json) : result RunnerReceipt :=
  data ← state_mapping (Some state);
  _ ← runner_version data RUNNER_RECEIPT_SCHEMA_VERSION;
  host ← state_mapping (dict_get "host" data);
  raw_digest ← runner_text data "profile_digest";
  mode ← runner_enum data "trust_mode";
  operation_id ← runner_text data "operation_id"; profile ← runner_text data "profile"; digest ← pinned_digest raw_digest;
  engine ← engine_from_state (dict_get "engine" data); image ← image_from_state (dict_get "image" data);
  container ← runner_text data "container_name"; effective ← effective_from_state (dict_get "effective" data);
  permissions ← permission_from_state (dict_get "permissions" data);
  version ← runner_optional_text data "harness_version"; protocol ← runner_optional_text data "harness_protocol";
  started ← runner_text data "started_at";
  bounds ← match dict_get "bounds" data with
    | None | Some JNull => Ok None | Some b => b ← bounds_from_state (Some b); Ok (Some b) end;
  runner_receipt_post_init {| rcp_operation_id := operation_id; rcp_trust_mode := mode; rcp_profile_name := profile;
    rcp_profile_digest := digest; rcp_engine := engine; rcp_image := image; rcp_container_name := container;
    rcp_host := map (fun kv => (kv.1, py_str kv.2)) host; rcp_effective := effective; rcp_permissions := permissions;
    rcp_harness_version := version; rcp_harness_protocol := protocol; rcp_started_at := started; rcp_bounds := bounds |}.
Definition receipt_digest `{PyRuntime} (r : RunnerReceipt) : result Digest := digest_of_json (receipt_state r).
Definition LAUNCH_OUTCOME_SCHEMA_VERSION : Z := 1.
Definition outcome_path_for (receipt_path : string) : string := receipt_path +:+ ".outcome.json".
Inductive OutcomeState := OS_LAUNCHING | OS_RUNNING | OS_EXITED | OS_REFUSED | OS_DEADLINE | OS_INTERRUPTED | OS_FAULTED.
#[export] Instance OutcomeState_eq_dec : EqDecision OutcomeState.
Proof. solve_decision. Defined.
#[export] Program Instance OutcomeState_enum : PyEnum OutcomeState := {|
  members := [OS_LAUNCHING; OS_RUNNING; OS_EXITED; OS_REFUSED; OS_DEADLINE; OS_INTERRUPTED; OS_FAULTED];
  enum_value s := match s with
    | OS_LAUNCHING => "launching" | OS_RUNNING => "running" | OS_EXITED => "exited" | OS_REFUSED => "refused"
    | OS_DEADLINE => "deadline" | OS_INTERRUPTED => "interrupted" | OS_FAULTED => "faulted" end |}.
Next Obligation. solve_enum. Qed.
Next Obligation. solve_enum. Qed.
Record LaunchOutcome := {
  lo_operation_id : string; lo_nonce : string; lo_state : OutcomeState; lo_exit_code : option Z; lo_detail : string;
  lo_violations : list string }.
Definition launch_outcome_post_init (o : LaunchOutcome) : result LaunchOutcome :=
  _ ← require_nonblank_text (lo_operation_id o); _ ← require_nonblank_text (lo_nonce o);
  raise_when negb (Bool.eqb (bool_decide (lo_state o = OS_EXITED)) (negb (none (lo_exit_code o)))) as InvalidInputError ;; Ok o.
Definition launch_final (o : LaunchOutcome) : bool := negb (bool_decide (lo_state o ∈ [OS_LAUNCHING; OS_RUNNING])).
Definition launch_outcome_state (o : LaunchOutcome) : json := JObj [
  ("schema_version", JInt LAUNCH_OUTCOME_SCHEMA_VERSION); ("operation_id", JStr (lo_operation_id o)); ("nonce", JStr (lo_nonce o));
  ("state", JStr (enum_value (lo_state o))); ("exit_code", from_option JInt JNull (lo_exit_code o));
  ("detail", JStr (lo_detail o)); ("violations", json_texts (lo_violations o))].
Definition launch_exit_code (data : list (string * json)) : result (option Z) :=
  match dict_get "exit_code" data with
  | None | Some JNull => Ok None | Some (JInt z) => Ok (Some z) | _ => Err InvalidInputError end.
Definition launch_detail (data : list (string * json)) : result string :=
  match dict_get "detail" data with None => Ok "" | Some (JStr s) => Ok s | _ => Err InvalidInputError end.
Definition launch_outcome_from_state (state : json) : result LaunchOutcome :=
  data ← state_mapping (Some state);
  _ ← runner_version data LAUNCH_OUTCOME_SCHEMA_VERSION;
  outcome ← runner_enum data "state";
  exit_code ← launch_exit_code data; detail ← launch_detail data;
  operation_id ← runner_text data "operation_id"; nonce ← runner_text data "nonce"; violations ← runner_texts data "violations";
  launch_outcome_post_init {| lo_operation_id := operation_id; lo_nonce := nonce; lo_state := outcome;
    lo_exit_code := exit_code; lo_detail := detail; lo_violations := violations |}.
Record LaunchSpec := {
  sp_operation_id : string; sp_container_name : string; sp_image : string; sp_profile : RunnerProfile; sp_harness : string;
  sp_workspace_path : string; sp_out_path : string; sp_receipt_path : string; sp_result_name : string;
  sp_time_budget_seconds : Z; sp_permissions : PermissionMapping; sp_env : list (string * string);
  sp_seed_files : list (string * string); sp_bundle_branch : option string; sp_bundle_base : option string;
  sp_docker_context : option string; sp_harness_version : option string; sp_harness_protocol : option string;
  sp_relay_container : option string }.
#[export] Instance LaunchSpec_eq_dec : EqDecision LaunchSpec.
Proof. solve_decision. Defined.
Definition spec_stray_env (s : LaunchSpec) : list string :=
  sorted_set (List.filter (fun k => negb (bool_decide (k ∈ rp_env_allowlist (sp_profile s)))) (map fst (sp_env s))).
Definition spec_post_init (s : LaunchSpec) : result LaunchSpec :=
  raise_when existsb blank [sp_operation_id s; sp_container_name s; sp_harness s; sp_result_name s] as InvalidInputError ;;
  raise_when negb (regex_fullmatch IMAGE_ID_PATTERN (sp_image s)) as InvalidInputError ;;
  raise_when negb (forallb (py_startswith "/") [sp_workspace_path s; sp_out_path s; sp_receipt_path s]) as InvalidInputError ;;
  raise_when (sp_time_budget_seconds s <? 1)%Z as InvalidInputError ;;
  raise_when bool_decide (slash ∈ chars (sp_result_name s)) || py_startswith "." (sp_result_name s) as InvalidInputError ;;
  raise_when negb (Bool.eqb (none (sp_bundle_branch s)) (none (sp_bundle_base s))) as InvalidInputError ;;
  raise_when negb (is_nil (spec_stray_env s)) as InvalidInputError ;;
  raise_when negb (from_option (regex_fullmatch CONTAINER_NAME_PATTERN) true (sp_relay_container s)) as InvalidInputError ;;
  Ok s.
Definition attempt_network `{PyRuntime} (s : LaunchSpec) : result string :=
  expected_network (sp_profile s) (sp_operation_id s) (negb (none (sp_relay_container s))).
Definition json_pairs (l : list (string * string)) : json := JList (map (fun kv => JList [JStr kv.1; JStr kv.2]) l).
Definition optional_item (key : string) (value : option string) : list (string * json) :=
  match value with Some v => [(key, JStr v)] | None => [] end.
Definition spec_state (s : LaunchSpec) : json := JObj ([
  ("operation_id", JStr (sp_operation_id s)); ("container_name", JStr (sp_container_name s)); ("image", JStr (sp_image s));
  ("profile", profile_state (sp_profile s)); ("harness", JStr (sp_harness s)); ("workspace_path", JStr (sp_workspace_path s));
  ("out_path", JStr (sp_out_path s)); ("receipt_path", JStr (sp_receipt_path s)); ("result_name", JStr (sp_result_name s));
  ("time_budget_seconds", JInt (sp_time_budget_seconds s)); ("permissions", permission_state (sp_permissions s));
  ("env", json_pairs (sp_env s)); ("seed_files", json_pairs (sp_seed_files s));
  ("bundle_branch", control_value (sp_bundle_branch s)); ("bundle_base", control_value (sp_bundle_base s));
  ("docker_context", control_value (sp_docker_context s))] ++
  optional_item "harness_version" (sp_harness_version s) ++ optional_item "harness_protocol" (sp_harness_protocol s) ++
  optional_item "relay_container" (sp_relay_container s)).
Definition spec_pair (item : json) : result (string * string) :=
  match item with JList [JStr key; JStr value] => Ok (key, value) | _ => Err InvalidInputError end.
Definition spec_pairs (data : list (string * json)) (key : string) : result (list (string * string)) :=
  match dict_get key data with Some (JList l) => mapM_result spec_pair l | _ => Err InvalidInputError end.
Definition spec_from_state (state : json) : result LaunchSpec :=
  data ← state_mapping (Some state);
  operation_id ← runner_text data "operation_id"; container ← runner_text data "container_name";
  image ← runner_text data "image"; profile ← profile_from_state (dict_get "profile" data);
  harness ← runner_text data "harness"; workspace ← runner_text data "workspace_path"; out ← runner_text data "out_path";
  receipt ← runner_text data "receipt_path"; result_name ← runner_text data "result_name";
  budget ← runner_integer data "time_budget_seconds"; permissions ← permission_from_state (dict_get "permissions" data);
  env ← spec_pairs data "env"; seeds ← spec_pairs data "seed_files";
  branch ← runner_optional_text data "bundle_branch"; base ← runner_optional_text data "bundle_base";
  context ← runner_optional_text data "docker_context"; version ← runner_optional_text data "harness_version";
  protocol ← runner_optional_text data "harness_protocol"; relay ← runner_optional_text data "relay_container";
  spec_post_init {| sp_operation_id := operation_id; sp_container_name := container; sp_image := image; sp_profile := profile;
    sp_harness := harness; sp_workspace_path := workspace; sp_out_path := out; sp_receipt_path := receipt;
    sp_result_name := result_name; sp_time_budget_seconds := budget; sp_permissions := permissions; sp_env := env;
    sp_seed_files := seeds; sp_bundle_branch := branch; sp_bundle_base := base; sp_docker_context := context;
    sp_harness_version := version; sp_harness_protocol := protocol; sp_relay_container := relay |}.

(** ** The runner a run is bound to *)
Record RunnerSelection := {
  ru_trust_mode : TrustMode; ru_profile_name : string; ru_profile_digest : option Digest; ru_image : option string;
  ru_docker_context : option string; ru_legacy : bool; ru_model_access : string }.
#[export] Instance RunnerSelection_eq_dec : EqDecision RunnerSelection.
Proof. solve_decision. Defined.
Definition isolated_mode (r : RunnerSelection) : bool := bool_decide (ru_trust_mode r = ISOLATED_OCI).
Definition runner_post_init (r : RunnerSelection) : result RunnerSelection :=
  _ ← require_nonblank_text (ru_profile_name r);
  _ ← (if isolated_mode r then
         raise_when ru_legacy r as InvalidInputError ;;
         raise_when none (ru_profile_digest r) as InvalidInputError ;;
         raise_when negb (from_option (regex_fullmatch IMAGE_ID_PATTERN) false (ru_image r)) as InvalidInputError ;; Ok ()
       else raise_when negb (none (ru_image r)) || negb (none (ru_profile_digest r)) ||
                       from_option (fun c => negb (String.eqb c "")) false (ru_docker_context r) as InvalidInputError ;; Ok ());
  raise_when from_option blank false (ru_docker_context r) as InvalidInputError ;;
  raise_when negb (bool_decide (ru_model_access r ∈ MODEL_ACCESS_MODES)) as InvalidInputError ;;
  raise_when negb (String.eqb (ru_model_access r) MODEL_ACCESS_NONE) && negb (isolated_mode r) as InvalidInputError ;;
  Ok r.
Definition trusted_local (legacy : bool) : result RunnerSelection := runner_post_init {|
  ru_trust_mode := TRUSTED_LOCAL; ru_profile_name := TRUSTED_LOCAL_PROFILE_NAME; ru_profile_digest := None;
  ru_image := None; ru_docker_context := None; ru_legacy := legacy; ru_model_access := MODEL_ACCESS_NONE |}.
Definition isolated `{PyRuntime} (image : string) (profile : RunnerProfile) (docker_context : option string)
    (model_access : string) : result RunnerSelection :=
  digest ← profile_digest profile;
  runner_post_init {| ru_trust_mode := ISOLATED_OCI; ru_profile_name := rp_name profile; ru_profile_digest := Some digest;
    ru_image := Some image; ru_docker_context := docker_context; ru_legacy := false; ru_model_access := model_access |}.
Definition runner_selection_state (r : RunnerSelection) : json := JObj ([
  ("schema_version", JInt RUNNER_SELECTION_SCHEMA_VERSION); ("trust_mode", JStr (enum_value (ru_trust_mode r)));
  ("profile", JStr (ru_profile_name r)); ("profile_digest", control_value (digest_str <$> ru_profile_digest r));
  ("image", control_value (ru_image r)); ("docker_context", control_value (ru_docker_context r))] ++
  if String.eqb (ru_model_access r) MODEL_ACCESS_NONE then [] else [("model_access", JStr (ru_model_access r))]).
Definition runner_selection_from_state (state : json) : result RunnerSelection :=
  data ← state_mapping (Some state);
  _ ← runner_version data RUNNER_SELECTION_SCHEMA_VERSION;
  mode ← runner_enum data "trust_mode";
  raw_digest ← runner_optional_text data "profile_digest";
  digest ← match raw_digest with Some text => d ← pinned_digest text; Ok (Some d) | None => Ok None end;
  profile ← runner_text data "profile"; image ← runner_optional_text data "image";
  context ← runner_optional_text data "docker_context"; access ← runner_optional_text data "model_access";
  runner_post_init {| ru_trust_mode := mode; ru_profile_name := profile; ru_profile_digest := digest; ru_image := image;
    ru_docker_context := context; ru_legacy := false; ru_model_access := default MODEL_ACCESS_NONE access |}.
Record RelayEndpoint := { re_url : string; re_dummy_credential : string }.
Definition py_isascii (s : string) : bool := forallb (fun c => code c <? 128)%N (chars s).
Definition relay_post_init (r : RelayEndpoint) : result RelayEndpoint :=
  raise_when negb (regex_fullmatch RELAY_URL_PATTERN (re_url r)) as InvalidInputError ;;
  raise_when String.eqb (re_dummy_credential r) "" || negb (py_isascii (re_dummy_credential r)) as InvalidInputError ;;
  raise_when negb (String.eqb (re_dummy_credential r) RELAY_DUMMY_CREDENTIAL) as InvalidInputError ;; Ok r.
Definition default_relay : result RelayEndpoint := relay_post_init {|
  re_url := "http://" +:+ RELAY_HOSTNAME +:+ ":" +:+ pretty RELAY_PORT; re_dummy_credential := RELAY_DUMMY_CREDENTIAL |}.
Record RunnerContext := {
  cx_selection : RunnerSelection; cx_profile : RunnerProfile; cx_receipt_root : string; cx_relay : option RelayEndpoint }.
Definition context_post_init `{PyRuntime} (c : RunnerContext) : result RunnerContext :=
  raise_when negb (isolated_mode (cx_selection c)) as InvalidInputError ;;
  digest ← profile_digest (cx_profile c);
  raise_when negb (bool_decide (ru_profile_digest (cx_selection c) = Some digest)) as InvalidInputError ;;
  raise_when negb (py_startswith "/" (cx_receipt_root c)) as InvalidInputError ;;
  raise_when negb (Bool.eqb (negb (none (cx_relay c))) (String.eqb (ru_model_access (cx_selection c)) MODEL_ACCESS_RELAY))
    as InvalidInputError ;;
  Ok c.

(** ** The permissions of the supported harnesses *)
Definition ISOLATED_SHELL_COMMANDS : list string := [
  "git status"; "git add"; "git commit"; "git diff"; "git log"; "git show"; "git switch"; "git checkout -b"; "git branch";
  "git rev-parse"; "git ls-files"].
Definition TRUSTED_LOCAL_PERMISSIONS : list (string * PermissionMapping) := [
  ("claude-code", {| pm_harness := "claude-code"; pm_name := "claude-trusted-local-bypass";
    pm_arguments := ["--permission-mode"; "bypassPermissions"]; pm_unconditional_bypass := true;
    pm_rationale := "trusted-local is explicitly weaker: the worker runs as the operator and is not " +:+
      "contained, so Claude Code runs with permission checks off" |});
  ("omp", {| pm_harness := "omp"; pm_name := "omp-trusted-local-yolo"; pm_arguments := []; pm_unconditional_bypass := true;
    pm_rationale := "trusted-local is explicitly weaker: omp's headless default approval mode is yolo " +:+
      "and no approval flag is passed" |})].
Definition ISOLATED_PERMISSIONS : list (string * PermissionMapping) := [
  ("claude-code", {| pm_harness := "claude-code"; pm_name := "claude-isolated-restricted-allowlist";
    pm_arguments := ["--restricted"; "--tools"; "Read"; "Edit"; "Write"; "Glob"; "Grep"; "Bash"; "--permission-mode"; "dontAsk";
        "--permission-prompts"; "none"; "--allowedTools"; "Read"; "Edit"; "Write"; "Glob"; "Grep"] ++
      map (fun command => "Bash(" +:+ command +:+ ":*)") ISOLATED_SHELL_COMMANDS ++
      ["--disallowedTools"; "Bash(git push:*)"; "Bash(git remote:*)"; "Bash(git config:*)"; "Bash(git fetch:*)";
       "Bash(git pull:*)"; "Bash(git clone:*)"; "Bash(git bundle:*)"; "Bash(curl:*)"; "Bash(wget:*)"; "Bash(ssh:*)";
       "WebFetch"; "WebSearch"];
    pm_unconditional_bypass := false;
    pm_rationale := "restricted mode confines file tools to the workspace and ignores repository " +:+
      "settings; dontAsk with no prompts denies everything not in the allow list; shell " +:+
      "access is limited to local git commands and publishing and network tools are " +:+
      "denied. This narrows the worker's tool surface (defence in depth); it is not the " +:+
      "boundary: an allowed git command can still run code that the repository's own " +:+
      "configuration names, and the file tools can write it. Containment is the " +:+
      "container, which holds no credentials, no remote and no route out" |});
  ("omp", {| pm_harness := "omp"; pm_name := "omp-isolated-write-allowlist";
    pm_arguments := ["--approval-mode"; "write"; "--config"; "/opt/enginery/omp-isolated-policy.yml"; "--tools";
      "read,edit,write,bash,glob,grep"];
    pm_unconditional_bypass := false;
    pm_rationale := "write approval mode refuses every tool call above workspace writes because a " +:+
      "headless run cannot ask, and the read-only image overlay allows only local git " +:+
      "commands and denies publishing and network commands. This narrows the worker's " +:+
      "tool surface (defence in depth); it is not the boundary: an allowed git command " +:+
      "can still run code that the repository's own configuration names, and the file " +:+
      "tools can write it. Containment is the container, which holds no credentials, no " +:+
      "remote and no route out" |})].
Definition isolated_permission_mapping (harness : string) : result PermissionMapping :=
  from_option_err InvalidInputError (dict_get harness ISOLATED_PERMISSIONS).
Definition trusted_local_permission_mapping (harness : string) : result PermissionMapping :=
  from_option_err InvalidInputError (dict_get harness TRUSTED_LOCAL_PERMISSIONS).

(** ** The comparison is exact *)
(** What a container is that is no weaker than the profile, joined to one network. *)
Record conforms (p : RunnerProfile) (e : EffectiveContainer) (network : string) : Prop := {
  cf_user : ef_user e = user_of p;
  cf_privileged : ef_privileged e = false;
  cf_cap_drop : forall c, c ∈ ef_cap_drop e <-> c ∈ rp_cap_drop p;
  cf_cap_add : ef_cap_add e = [];
  cf_security : forall o, o ∈ ef_security_options e <-> o ∈ rp_security_options p;
  cf_rootfs : ef_read_only_rootfs e = true;
  cf_memory : ef_memory_bytes e = memory_bytes (rp_resources p) /\ ef_memory_swap_bytes e = memory_bytes (rp_resources p);
  cf_cpus : nano_cpus (rp_resources p) = Ok (ef_nano_cpus e);
  cf_pids : ef_pids_limit e = rl_pids (rp_resources p);
  cf_network : ef_network_mode e = network /\ ef_networks e = [network];
  cf_devices : ef_devices e = [];
  cf_mounts : forall m, m ∈ ef_mounts e -> m ∈ allowed_mounts;
  cf_volumes : ("volume", WORKSPACE_MOUNT, true) ∈ ef_mounts e /\ ("volume", OUT_MOUNT, true) ∈ ef_mounts e;
  cf_env : forall k, k ∈ ef_env_keys e -> k ∈ rp_env_allowlist p \/ k ∈ IMAGE_ENV_KEYS }.
Lemma problem_nil b t : problem b t = [] <-> b = false.
Proof. by destruct b. Qed.
Lemma problems_nil {A} (f : A -> bool) (text : A -> string) l :
  problems f text l = [] <-> forall x, x ∈ l -> f x = false.
Proof.
  unfold problems. induction l as [|x l IH]; cbn; [set_solver|]. rewrite app_nil, problem_nil, IH. split; [set_solver|].
  intros H. split; [apply H; set_solver|]. intros y Hy. apply H. set_solver.
Qed.
Lemma negb_decide_false P `{Decision P} : negb (bool_decide P) = false <-> P.
Proof. rewrite negb_false_iff. apply bool_decide_eq_true. Qed.
Lemma is_nil_true {A} (l : list A) : is_nil l = true <-> l = [].
Proof. by destruct l. Qed.
Lemma same_set_spec a b : same_set a b = true <-> forall x, x ∈ a <-> x ∈ b.
Proof.
  unfold same_set. rewrite andb_true_iff, !forallb_forall. split.
  - intros [H1 H2] x. split; intros Hx%list_elem_of_In; eapply bool_decide_eq_true; eauto.
  - intros H. split; intros x Hx%list_elem_of_In; by apply bool_decide_eq_true, H.
Qed.
Lemma sorted_set_nil l : sorted_set l = [] <-> l = [].
Proof.
  unfold sorted_set. split; [|by intros ->]. intros H.
  assert (Hr : remove_dups l = []) by (apply Permutation_nil; rewrite <- H; by apply merge_sort_Permutation).
  destruct l as [|x l]; [done|]. assert (Hx : x ∈ remove_dups (x :: l)) by (apply elem_of_remove_dups; set_solver).
  rewrite Hr in Hx. by apply not_elem_of_nil in Hx.
Qed.
Lemma filter_nil {A} (f : A -> bool) l : List.filter f l = [] <-> forall x, x ∈ l -> f x = false.
Proof.
  induction l as [|x l IH]; cbn; [set_solver|]. destruct (f x) eqn:E.
  - split; [done|]. intros H. exfalso. assert (f x = false) by (apply H; set_solver). congruence.
  - rewrite IH. split; [|set_solver]. intros H y [->|Hy]%elem_of_cons; auto.
Qed.
Lemma stored_volumes_elem e d : d ∈ stored_volumes e <-> exists w, ("volume", d, w) ∈ ef_mounts e.
Proof.
  unfold stored_volumes. rewrite list_elem_of_In, in_map_iff. split.
  - intros ([[k d'] w] & <- & [Hm Hk%String.eqb_eq]%filter_In). cbn in Hk. subst k. exists w. by apply list_elem_of_In.
  - intros (w & Hw%list_elem_of_In). exists ("volume", d, w). split; [done|]. by apply filter_In.
Qed.
(** Only the two volumes are admitted, and both are writable. *)
Lemma admitted_volume d w : ("volume", d, w) ∈ allowed_mounts <-> (d = WORKSPACE_MOUNT \/ d = OUT_MOUNT) /\ w = true.
Proof.
  unfold allowed_mounts. rewrite !elem_of_cons, elem_of_nil. split.
  - intros H. repeat destruct H as [H|H]; try done; injection H as -> ->; auto.
  - intros [[->| ->] ->]; auto.
Qed.
Lemma volumes_exact e : (forall m, m ∈ ef_mounts e -> m ∈ allowed_mounts) ->
  same_set (stored_volumes e) [WORKSPACE_MOUNT; OUT_MOUNT] = true <->
  ("volume", WORKSPACE_MOUNT, true) ∈ ef_mounts e /\ ("volume", OUT_MOUNT, true) ∈ ef_mounts e.
Proof.
  intros Hm. rewrite same_set_spec. split.
  - intros H. assert (Hd : forall d, d ∈ [WORKSPACE_MOUNT; OUT_MOUNT] -> ("volume", d, true) ∈ ef_mounts e).
    { intros d [w Hw]%H%stored_volumes_elem. pose proof (Hm _ Hw) as Ha. by apply admitted_volume in Ha as [_ ->]. }
    split; apply Hd; set_solver.
  - intros [Hw Ho] d. rewrite stored_volumes_elem. split.
    + intros (w & Hd%Hm%admitted_volume). set_solver.
    + intros [->|[->|[]%not_elem_of_nil]%elem_of_cons]%elem_of_cons; by exists true.
Qed.
Lemma stray_env_nil p e : stray_env p e = [] <-> forall k, k ∈ ef_env_keys e -> k ∈ rp_env_allowlist p \/ k ∈ IMAGE_ENV_KEYS.
Proof.
  unfold stray_env. rewrite sorted_set_nil, filter_nil. apply forall_proper. intros k.
  rewrite andb_false_iff, !negb_decide_false. done.
Qed.
Lemma violations_exact `{PyRuntime} p e network : profile_violations p e network = Ok [] <-> conforms p e network.
Proof.
  unfold profile_violations. cbv zeta. split.
  - intros (cpus & Hc & Hv)%bind_Ok. injection Hv as Hv.
    repeat (apply app_nil in Hv as [?Hx Hv]).
    repeat match goal with
    | H : problem _ _ = [] |- _ => apply problem_nil in H
    | H : problems _ _ _ = [] |- _ => pose proof (proj1 (problems_nil _ _ _) H); clear H
    | H : negb _ = false |- _ => apply negb_false_iff in H
    | H : _ || _ = false |- _ => apply orb_false_iff in H as [? ?]
    | H : is_nil _ = true |- _ => apply is_nil_true in H
    | H : String.eqb _ _ = true |- _ => apply String.eqb_eq in H
    | H : Z.eqb _ _ = true |- _ => apply Z.eqb_eq in H
    | H : bool_decide _ = true |- _ => apply bool_decide_eq_true in H
    end.
    match goal with H : forall x, x ∈ ef_mounts e -> _ |- _ =>
      assert (Hm : forall m, m ∈ ef_mounts e -> m ∈ allowed_mounts) by (intros m Hm; eapply negb_decide_false; by apply H) end.
    constructor; try done.
    + by apply same_set_spec.
    + intros o. split; intros Ho; eapply negb_decide_false; eauto.
    + by subst.
    + by apply volumes_exact.
    + by apply stray_env_nil.
  - intros []. rewrite cf_cpus0. cbn [mbind result_bind]. f_equal.
    destruct cf_memory0, cf_network0.
    repeat (apply app_nil; split); try apply problem_nil; try apply problems_nil; try done;
      try (apply negb_false_iff; first [by apply String.eqb_eq|by apply Z.eqb_eq|by apply is_nil_true|done|by apply same_set_spec]).
    + intros o Ho. by apply negb_decide_false, cf_security0.
    + intros o Ho. by apply negb_decide_false, cf_security0.
    + apply orb_false_iff. split; [by apply negb_false_iff, String.eqb_eq|by apply negb_decide_false].
    + intros m Hm. by apply negb_decide_false, cf_mounts0.
    + by apply negb_false_iff, volumes_exact.
    + by apply negb_false_iff, is_nil_true, stray_env_nil.
Qed.

(** ** Stored forms read back *)
Section Reading.
Variable m : list (string * json).
Hypothesis Hd : NoDup m.*1.
Lemma text_canon k : runner_text (canon_items m) k = runner_text m k.
Proof. unfold runner_text. rewrite canon_items_get by done. by destruct (dict_get k m) as [[]|]. Qed.
Lemma optional_text_canon k : runner_optional_text (canon_items m) k = runner_optional_text m k.
Proof. unfold runner_optional_text. rewrite canon_items_get by done. by destruct (dict_get k m) as [[]|]. Qed.
Lemma integer_canon k : runner_integer (canon_items m) k = runner_integer m k.
Proof. unfold runner_integer. rewrite canon_items_get by done. by destruct (dict_get k m) as [[]|]. Qed.
Lemma flag_canon k : runner_flag (canon_items m) k = runner_flag m k.
Proof. unfold runner_flag. rewrite canon_items_get by done. by destruct (dict_get k m) as [[]|]. Qed.
Lemma str_items_canon l : str_items (map canon l) = str_items l.
Proof. unfold str_items. induction l as [|j l IH]; [done|]. cbn. rewrite IH. by destruct j. Qed.
Lemma texts_canon k : runner_texts (canon_items m) k = runner_texts m k.
Proof.
  unfold runner_texts. rewrite canon_items_get by done. destruct (dict_get k m) as [[]|]; try done.
  apply str_items_canon.
Qed.
Lemma version_canon z : runner_version (canon_items m) z = runner_version m z.
Proof. unfold runner_version. rewrite canon_items_get by done. by destruct (dict_get _ m) as [[]|]. Qed.
Lemma enum_canon {A} `{PyEnum A} k : runner_enum (A:=A) (canon_items m) k = runner_enum m k.
Proof. unfold runner_enum. by rewrite text_canon. Qed.
Lemma bound_canon k z : limits_bound (canon_items m) k z = limits_bound m k z.
Proof. unfold limits_bound, has_entry. rewrite integer_canon, canon_items_get by done. by destruct (dict_get k m). Qed.
Lemma spec_pair_canon j : spec_pair (canon j) = spec_pair j.
Proof.
  destruct j as [| | | | |[|a [|b [|c l]]]|]; try done; destruct a; try done; by destruct b.
Qed.
Lemma spec_pairs_canon k : spec_pairs (canon_items m) k = spec_pairs m k.
Proof.
  unfold spec_pairs. rewrite canon_items_get by done. destruct (dict_get k m) as [[]|]; try done. cbn.
  induction l as [|j l IH]; [done|]. cbn. by rewrite spec_pair_canon, IH.
Qed.
Lemma get_canon k : dict_get k (canon_items m) = canon <$> dict_get k m.
Proof. by apply canon_items_get. Qed.
End Reading.
Ltac distinct_keys := lazymatch goal with |- NoDup _ => apply (bool_decide_unpack _); by vm_compute end.
(** Names the stored items and reads them instead of their canonical form. *)
Ltac read_canon := rewrite canon_obj; cbn [state_mapping mbind result_bind];
  match goal with |- context [canon_items ?l] =>
    let m := fresh "stored" in let Hd := fresh "Hd" in
    set (m := l); assert (Hd : NoDup m.*1) by (unfold m; distinct_keys);
    rewrite ?(text_canon m Hd), ?(optional_text_canon m Hd), ?(integer_canon m Hd), ?(flag_canon m Hd), ?(texts_canon m Hd),
      ?(version_canon m Hd), ?(enum_canon m Hd), ?(bound_canon m Hd), ?(spec_pairs_canon m Hd), ?(get_canon m Hd) end.
Lemma str_items_map l : str_items (map JStr l) = Ok l.
Proof. unfold str_items. apply mapM_result_map. by apply Forall_true. Qed.
Lemma text_get m k s : dict_get k m = Some (JStr s) -> blank s = false -> runner_text m k = Ok s.
Proof. intros Hg Hb. unfold runner_text. by rewrite Hg, Hb. Qed.
Lemma texts_get m k l : dict_get k m = Some (json_texts l) -> runner_texts m k = Ok l.
Proof. intros Hg. unfold runner_texts. rewrite Hg. apply str_items_map. Qed.
Lemma optional_get m k o : dict_get k m = Some (control_value o) -> from_option blank false o = false ->
  runner_optional_text m k = Ok o.
Proof. intros Hg Hb. unfold runner_optional_text. rewrite Hg. destruct o as [s|]; [|done]. cbn in *. by rewrite Hb. Qed.
Lemma optional_absent m k : dict_get k m = None -> runner_optional_text m k = Ok None.
Proof. intros Hg. unfold runner_optional_text. by rewrite Hg. Qed.
Lemma enum_get {A} `{PyEnum A} m k (a : A) : dict_get k m = Some (JStr (enum_value a)) -> blank (enum_value a) = false ->
  runner_enum m k = Ok a.
Proof. intros Hg Hb. unfold runner_enum. rewrite (text_get _ _ _ Hg Hb). cbn. by rewrite enum_of_value_of. Qed.
Lemma require_nonblank_text_Ok s u : require_nonblank_text s = Ok u <-> blank s = false.
Proof. unfold require_nonblank_text. rewrite raise_if_Ok. destruct u. tauto. Qed.
Lemma pairs_get m k l : dict_get k m = Some (json_pairs l) -> spec_pairs m k = Ok l.
Proof.
  intros Hg. unfold spec_pairs. rewrite Hg. apply mapM_result_map, Forall_true. by intros [a b].
Qed.
(** Reads one field after the other. *)
Ltac body m := match goal with H := ?l |- _ => let _ := match goal with _ => constr_eq H m end in l | _ => m end.
Ltac found m k := let l := body m in eval cbn [dict_get String.eqb Ascii.eqb Bool.eqb] in (dict_get k l).
Ltac read_field := match goal with
  | |- context [runner_text ?m ?k] => match found m k with Some (JStr ?s) => rewrite (text_get m k s eq_refl) by (cbn; done) end
  | |- context [runner_texts ?m ?k] => match found m k with Some (json_texts ?l) => rewrite (texts_get m k l eq_refl) end
  | |- context [spec_pairs ?m ?k] => match found m k with Some (json_pairs ?l) => rewrite (pairs_get m k l eq_refl) end
  | |- context [runner_optional_text ?m ?k] => match found m k with
      | Some (control_value ?o) => rewrite (optional_get m k o eq_refl) by (cbn; done)
      | Some (JStr ?s) => rewrite (optional_get m k (Some s) eq_refl) by (cbn; done)
      | None => rewrite (optional_absent m k eq_refl) end
  | |- context [runner_enum ?m ?k] => match found m k with
      | Some (JStr (enum_value ?a)) => rewrite (enum_get m k a eq_refl) by (by destruct a) end
  | |- context [runner_integer ?m ?k] => match found m k with Some (JInt ?z) => change (runner_integer m k) with (Ok z) end
  | |- context [runner_flag ?m ?k] => match found m k with Some (JBool ?b) => change (runner_flag m k) with (Ok b) end
  | |- context [dict_get ?k ?m] => match found m k with ?v => progress change (dict_get k m) with v; cbn [fmap option_fmap option_map] end
  | |- context [runner_version ?m ?z] => change (runner_version m z) with (Ok ())
  end.
Ltac read_fields := repeat (read_field; cbn [mbind result_bind]).
Ltac required := repeat match goal with H : require_nonblank_text _ = Ok _ |- _ => apply require_nonblank_text_Ok in H end.

Lemma permission_reads m : permission_post_init m = Ok m -> permission_from_state (Some (canon (permission_state m))) = Ok m.
Proof.
  intros Hm. pose proof Hm as Hp. unfold permission_post_init in Hp. inv_ok. required.
  unfold permission_from_state, permission_state. read_canon.
  read_fields. by destruct m.
Qed.
(** A check that accepts a value returns it. *)
Definition returns_same {A} (check : A -> result A) : Prop := forall x y, check x = Ok y -> y = x.
Ltac same := let H := fresh in intros ? ? H; repeat match type of H with
  | Ok _ = Ok _ => by injection H
  | mbind (fun _ => _) (raise_if _ _) = Ok _ => apply raise_if_Ok in H as [_ H]
  | mbind _ _ = Ok _ => apply bind_Ok in H as (? & _ & H) end.
Lemma permission_same : returns_same permission_post_init.
Proof. unfold permission_post_init. same. Qed.
Lemma limits_same : returns_same limits_post_init.
Proof. unfold limits_post_init. same. Qed.
Lemma engine_same : returns_same engine_post_init.
Proof. unfold engine_post_init. same. Qed.
Lemma image_same : returns_same image_post_init.
Proof. unfold image_post_init. same. Qed.
Lemma bounds_same : returns_same bounds_post_init.
Proof. unfold bounds_post_init. same. Qed.
Lemma receipt_same : returns_same runner_receipt_post_init.
Proof. unfold runner_receipt_post_init. same. Qed.
Lemma launch_outcome_same : returns_same launch_outcome_post_init.
Proof. unfold launch_outcome_post_init. same. Qed.
Lemma spec_same : returns_same spec_post_init.
Proof. unfold spec_post_init. same. Qed.
Lemma profile_same : returns_same profile_validate.
Proof. unfold profile_validate. same. Qed.
Lemma runner_same : returns_same runner_post_init.
Proof. unfold runner_post_init. same. Qed.
(** What a decoder ends with passed the check. *)
Lemma accepted {A} (check : A -> result A) x y : returns_same check -> check x = Ok y -> check y = Ok y.
Proof. intros Hs H. pose proof (Hs _ _ H) as ->. exact H. Qed.
Lemma permission_accepted state m : permission_from_state state = Ok m -> permission_post_init m = Ok m.
Proof.
  unfold permission_from_state. intros H. inv_ok.
  by match goal with H : permission_post_init _ = Ok _ |- _ => apply accepted in H; [|exact permission_same] end.
Qed.

Lemma sort_unique (l k : list string) : Sorted String.le l -> Sorted String.le k -> l ≡ₚ k -> l = k.
Proof. apply (Sorted_unique String.le). Qed.
Lemma sort_texts_perm l : merge_sort String.le l ≡ₚ l.
Proof. apply merge_sort_Permutation. Qed.
Lemma sort_texts_idem l : merge_sort String.le (merge_sort String.le l) = merge_sort String.le l.
Proof. apply sort_unique; [apply (Sorted_merge_sort _)..|]. apply sort_texts_perm. Qed.
Lemma sorted_set_sort l : merge_sort String.le (sorted_set l) = sorted_set l.
Proof. apply sort_texts_idem. Qed.
Lemma sorted_set_elem x l : x ∈ sorted_set l <-> x ∈ l.
Proof. unfold sorted_set. rewrite sort_texts_perm. apply elem_of_remove_dups. Qed.
Lemma remove_dups_same (l : list string) : NoDup l -> remove_dups l = l.
Proof. induction 1 as [|x l Hx Hl IH]; [done|]. cbn. case_match; [contradiction|]. by rewrite IH. Qed.
Lemma sorted_set_idem l : sorted_set (sorted_set l) = sorted_set l.
Proof.
  unfold sorted_set at 1. rewrite remove_dups_same; [apply sorted_set_sort|].
  unfold sorted_set. rewrite sort_texts_perm. apply NoDup_remove_dups.
Qed.

Lemma limits_canon m : NoDup m.*1 -> limits_number (canon_items m) = limits_number m /\ limits_cpus (canon_items m) = limits_cpus m.
Proof.
  intros Hd. unfold limits_number, limits_cpus. rewrite !canon_items_get by done. by destruct (dict_get "cpus" m) as [[]|].
Qed.
Lemma limits_reads l : limits_post_init l = Ok l -> limits_from_state (Some (canon (limits_state l))) = Ok l.
Proof.
  intros Hl. destruct l as [mem cpus pids tmp home grace ws out wsi outi].
  unfold limits_from_state, limits_state, disk_bound_item.
  cbn [rl_memory_mib rl_cpus rl_pids rl_tmp_mib rl_home_mib rl_stop_grace_seconds rl_workspace_mib rl_out_mib
    rl_workspace_inodes rl_out_inodes].
  destruct (Z.eqb_spec ws default_workspace_mib) as [->|], (Z.eqb_spec out default_out_mib) as [->|],
    (Z.eqb_spec wsi default_workspace_inodes) as [->|], (Z.eqb_spec outi default_out_inodes) as [->|];
    cbn [app]; read_canon;
    (match goal with |- context [limits_number (canon_items ?m)] =>
      destruct (limits_canon m ltac:(distinct_keys)) as [-> ->] end);
    exact Hl.
Qed.
Lemma limits_accepted state l : limits_from_state state = Ok l -> limits_post_init l = Ok l.
Proof.
  unfold limits_from_state. intros H. inv_ok.
  by match goal with H : limits_post_init _ = Ok _ |- _ => apply accepted in H; [|exact limits_same] end.
Qed.

Record wf_profile (p : RunnerProfile) : Prop := {
  wp_check : profile_validate p = Ok p;
  wp_resources : limits_post_init (rp_resources p) = Ok (rp_resources p);
  wp_sorted : sorted_set (rp_env_allowlist p) = rp_env_allowlist p }.
Lemma profile_made p q : limits_post_init (rp_resources p) = Ok (rp_resources p) -> profile_post_init p = Ok q -> wf_profile q.
Proof.
  intros Hr Hp. unfold profile_post_init in Hp. pose proof (accepted _ _ _ profile_same Hp) as Hc.
  apply profile_same in Hp as ->. split; [done|done|]. apply sorted_set_idem.
Qed.
Lemma profile_again p : wf_profile p -> profile_post_init p = Ok p.
Proof. intros [Hc _ Hs]. unfold profile_post_init. rewrite Hs. by destruct p. Qed.
Lemma profile_accepted state p : profile_from_state state = Ok p -> wf_profile p.
Proof.
  unfold profile_from_state. intros H. inv_ok. match goal with H : profile_post_init _ = Ok _ |- _ => eapply profile_made, H end.
  cbn. eapply limits_accepted. eassumption.
Qed.
Lemma profile_reads p : wf_profile p -> profile_from_state (Some (canon (profile_state p))) = Ok p.
Proof.
  intros Hp. pose proof (profile_again _ Hp) as Ha. destruct Hp as [Hc Hr Hs]. unfold profile_validate in Hc. inv_ok. required.
  unfold profile_from_state, profile_state. read_canon.
  read_fields.
  rewrite limits_reads by done. read_fields. rewrite <- Hs, sorted_set_sort, Hs. by destruct p.
Qed.
Lemma optional_read data k o : runner_optional_text data k = Ok o -> from_option blank false o = false.
Proof.
  unfold runner_optional_text. destruct (dict_get _ _) as [[]|]; intros Ho; try done; [by injection Ho as <-| |by injection Ho as <-].
  by apply raise_if_Ok in Ho as [Hb [= <-]].
Qed.
Lemma text_read data k s : runner_text data k = Ok s -> blank s = false.
Proof. unfold runner_text. destruct (dict_get _ _) as [[]|]; try done. by intros [Hb [= <-]]%raise_if_Ok. Qed.
Lemma engine_accepted state e : engine_from_state state = Ok e ->
  engine_post_init e = Ok e /\ from_option blank false (en_context e) = false.
Proof.
  unfold engine_from_state. intros H. inv_ok.
  match goal with H : engine_post_init _ = Ok _ |- _ => pose proof (engine_same _ _ H) as ->; split; [exact H|] end.
  cbn. eapply optional_read. eassumption.
Qed.
Lemma engine_reads e : engine_post_init e = Ok e -> from_option blank false (en_context e) = false ->
  engine_from_state (Some (canon (engine_state e))) = Ok e.
Proof.
  intros He Hc. pose proof He as Hp. unfold engine_post_init in Hp. inv_ok. required.
  unfold engine_from_state, engine_state. read_canon.
  read_fields. by destruct e.
Qed.

Record wf_image (i : ImageIdentity) : Prop := {
  wi_check : image_post_init i = Ok i;
  wi_keys : NoDup (ig_harness_versions i).*1 }.
Definition image_sorted (i : ImageIdentity) : ImageIdentity := {|
  ig_image_id := ig_image_id i; ig_recipe_digest := ig_recipe_digest i;
  ig_harness_versions := merge_sort key_le (ig_harness_versions i) |}.
Lemma dict_of_pairs_onto (l d : list (string * string)) : NoDup (d ++ l).*1 ->
  foldl (fun d '(k, v) => dict_set k v d) d l = d ++ l.
Proof.
  revert d. induction l as [|[k v] l IH]; intros d Hd; [by rewrite app_nil_r|]. cbn [foldl].
  rewrite dict_set_fresh.
  - rewrite IH; rewrite <- (assoc_L (++)); [done|]. exact Hd.
  - rewrite fmap_app, fmap_cons in Hd. apply NoDup_app in Hd as (_ & Hd & _). intros Hk. apply (Hd k Hk). set_solver.
Qed.
Lemma dict_of_pairs_same l : NoDup l.*1 -> dict_of_pairs l = l.
Proof. apply (dict_of_pairs_onto l []). Qed.
Lemma text_item_items l : mapM text_pair (map (fun kv => (kv.1, JStr kv.2)) l) = Some l.
Proof. induction l as [|[k v] l IH]; [done|]. cbn. by rewrite IH. Qed.
Lemma text_item_keys l items : mapM text_pair l = Some items -> items.*1 = l.*1.
Proof.
  revert items. induction l as [|[k j] l IH]; intros items; cbn; [by intros [= <-]|].
  destruct j; try done. cbn. destruct (mapM text_pair l) as [items'|] eqn:E; [|done]. cbn. intros [= <-]. cbn. f_equal. by apply IH.
Qed.
Lemma canon_text_items l : NoDup l.*1 -> canon (text_mapping l) = text_mapping (merge_sort key_le l).
Proof. intros Hd. unfold text_mapping. by rewrite (canon_dict JStr). Qed.
Lemma image_accepted state i : from_option wf_json true state = true -> image_from_state state = Ok i -> wf_image i.
Proof.
  unfold image_from_state. intros Hw H. inv_ok.
  match goal with H : image_post_init _ = Ok _ |- _ => pose proof (image_same _ _ H) as -> end. split; [done|]; cbn.
  destruct state as [[| | | | | |m]|]; try done. cbn in Hw. apply andb_true_iff in Hw as [_ Hw].
  match goal with H : state_mapping (Some (JObj m)) = Ok ?d |- _ => injection H as <- end.
  destruct (dict_get "harness_versions" m) as [[| | | | | |v]|] eqn:E; try done.
  match goal with H : state_mapping (Some (JObj v)) = Ok ?d |- _ => injection H as <- end.
  apply dict_get_Some_elem in E. rewrite forallb_forall in Hw. apply list_elem_of_In, Hw in E. cbn in E.
  apply andb_true_iff in E as [E%bool_decide_eq_true _]. apply sort_keys_nodup.
  destruct (mapM text_pair v) as [items|] eqn:Ei; [|done].
  match goal with H : from_option_err _ (Some _) = Ok _ |- _ => injection H as <- end. by rewrite (text_item_keys _ _ Ei).
Qed.
Lemma image_id_nonblank s : negb (regex_fullmatch IMAGE_ID_PATTERN s) = false -> blank s = false.
Proof.
  intros H%negb_false_iff. apply regex_fullmatch_spec in H; [|done]. apply not_true_iff_false. rewrite blank_spec. intros Hb.
  destruct H as (x & y & E & Hx & _). cbn in Hx. rewrite E, Hx in Hb. inversion Hb; discriminate.
Qed.
Lemma image_reads i : wf_image i -> image_from_state (Some (canon (image_state i))) = Ok (image_sorted i).
Proof.
  intros [Hi Hk]. pose proof Hi as Hp. unfold image_post_init in Hp. inv_ok. required.
  match goal with H : negb _ = false |- _ => apply image_id_nonblank in H end.
  unfold image_from_state, image_state. rewrite dict_of_pairs_same by done.
  read_canon.
  read_fields. rewrite canon_text_items by done. cbn [text_mapping state_mapping mbind result_bind].
  rewrite text_item_items. cbn [from_option_err mbind result_bind]. read_fields.
  rewrite sort_sorted; [|by rewrite sort_keys_perm|apply (Sorted_merge_sort _)].
  unfold image_post_init in *. cbn [ig_image_id ig_recipe_digest]. destruct (negb _); [done|]. cbn [raise_if mbind result_bind] in *.
  by destruct (require_nonblank_text _).
Qed.

(** The environment is stored sorted. *)
Definition effective_sorted (e : EffectiveContainer) : EffectiveContainer := {|
  ef_user := ef_user e; ef_cap_drop := ef_cap_drop e; ef_cap_add := ef_cap_add e;
  ef_security_options := ef_security_options e; ef_privileged := ef_privileged e;
  ef_read_only_rootfs := ef_read_only_rootfs e; ef_memory_bytes := ef_memory_bytes e;
  ef_memory_swap_bytes := ef_memory_swap_bytes e; ef_nano_cpus := ef_nano_cpus e; ef_pids_limit := ef_pids_limit e;
  ef_network_mode := ef_network_mode e; ef_networks := ef_networks e; ef_mounts := ef_mounts e;
  ef_devices := ef_devices e; ef_env_keys := merge_sort String.le (ef_env_keys e) |}.
Record wf_effective (e : EffectiveContainer) : Prop := {
  we_user : blank (ef_user e) = false;
  we_mode : blank (ef_network_mode e) = false;
  we_mounts : Forall (fun m => blank m.1.1 = false /\ blank m.1.2 = false) (ef_mounts e) }.
Lemma mount_accepted j m : mount_from_state j = Ok m -> blank m.1.1 = false /\ blank m.1.2 = false.
Proof. unfold mount_from_state. intros H. inv_ok. cbn. split; eapply text_read; eassumption. Qed.
Lemma mount_reads m : blank m.1.1 = false -> blank m.1.2 = false -> mount_from_state (canon (mount_state m)) = Ok m.
Proof.
  intros Hk Hd. unfold mount_from_state, mount_state. read_canon.
  read_fields. by destruct m as [[? ?] ?].
Qed.
Lemma effective_accepted state e : effective_from_state state = Ok e -> wf_effective e.
Proof.
  unfold effective_from_state. intros H. inv_ok. split; cbn; [eapply text_read; eassumption..|].
  match goal with H : effective_mounts _ = Ok _ |- _ => unfold effective_mounts in H; destruct (dict_get _ _) as [[]|]; try done;
    apply mapM_result_Ok in H; revert H end.
  intros Hl. induction Hl as [|j m l l' Hj _ IH]; constructor; [by eapply mount_accepted|done].
Qed.
Lemma effective_reads e : wf_effective e -> effective_from_state (Some (canon (effective_state e))) = Ok (effective_sorted e).
Proof.
  intros [Hu Hm Hms]. unfold effective_from_state, effective_state, effective_mounts. read_canon.
  read_fields. cbn [canon].
  rewrite map_map, mapM_result_map by (eapply Forall_impl; [exact Hms|]; intros m [? ?]; by apply mount_reads).
  cbn [mbind result_bind]. read_fields. done.
Qed.
Lemma bounds_accepted state b : bounds_from_state state = Ok b -> bounds_post_init b = Ok b.
Proof.
  unfold bounds_from_state. intros H. inv_ok.
  by match goal with H : bounds_post_init _ = Ok _ |- _ => apply accepted in H; [|exact bounds_same] end.
Qed.
Lemma bounds_reads b : bounds_post_init b = Ok b -> bounds_from_state (Some (canon (bounds_state b))) = Ok b.
Proof.
  intros Hb. pose proof Hb as Hp. unfold bounds_post_init in Hp. inv_ok. required.
  unfold bounds_from_state, bounds_state. read_canon.
  read_fields. by destruct b.
Qed.

Lemma sub_json m k : wf_json (JObj m) = true -> from_option wf_json true (dict_get k m) = true.
Proof.
  intros [_ Hm]%andb_true_iff. destruct (dict_get k m) as [j|] eqn:E; [|done]. apply dict_get_Some_elem, list_elem_of_In in E.
  rewrite forallb_forall in Hm. by apply Hm in E.
Qed.
Lemma pinned_accepted text d : pinned_digest text = Ok d -> wf_digest d.
Proof. unfold pinned_digest. destruct (py_partition _ _). apply mk_digest_wf. Qed.
Lemma pinned_reads d : wf_digest d -> pinned_digest (digest_str d) = Ok d.
Proof. apply digest_pieces. Qed.

Definition receipt_sorted (r : RunnerReceipt) : RunnerReceipt := {|
  rcp_operation_id := rcp_operation_id r; rcp_trust_mode := rcp_trust_mode r; rcp_profile_name := rcp_profile_name r;
  rcp_profile_digest := rcp_profile_digest r; rcp_engine := rcp_engine r; rcp_image := image_sorted (rcp_image r);
  rcp_container_name := rcp_container_name r; rcp_host := merge_sort key_le (rcp_host r);
  rcp_effective := effective_sorted (rcp_effective r); rcp_permissions := rcp_permissions r;
  rcp_harness_version := rcp_harness_version r; rcp_harness_protocol := rcp_harness_protocol r;
  rcp_started_at := rcp_started_at r; rcp_bounds := rcp_bounds r |}.
Record wf_receipt (r : RunnerReceipt) : Prop := {
  wr_check : runner_receipt_post_init r = Ok r;
  wr_texts : Forall (fun s => blank s = false)
    [rcp_operation_id r; rcp_profile_name r; rcp_container_name r; rcp_started_at r];
  wr_optional : Forall (fun o => from_option blank false o = false)
    [rcp_harness_version r; rcp_harness_protocol r; en_context (rcp_engine r)];
  wr_digest : wf_digest (rcp_profile_digest r);
  wr_engine : engine_post_init (rcp_engine r) = Ok (rcp_engine r);
  wr_image : wf_image (rcp_image r);
  wr_host : NoDup (rcp_host r).*1;
  wr_effective : wf_effective (rcp_effective r);
  wr_permissions : permission_post_init (rcp_permissions r) = Ok (rcp_permissions r);
  wr_bounds : from_option (fun b => bounds_post_init b = Ok b) True (rcp_bounds r) }.
Section Receipts.
Context `{PyRuntime}.
Lemma receipt_digest_sorted r : NoDup (rcp_host r).*1 -> NoDup (ig_harness_versions (rcp_image r)).*1 -> receipt_digest (receipt_sorted r) = receipt_digest r.
Proof.
  intros Hd Hk. unfold receipt_digest, digest_of_json, json_dumps. f_equal. f_equal. f_equal.
  assert (He : effective_state (effective_sorted (rcp_effective r)) = effective_state (rcp_effective r)).
  { unfold effective_state. cbn [effective_sorted ef_env_keys ef_user ef_cap_drop ef_cap_add ef_security_options ef_privileged
      ef_read_only_rootfs ef_memory_bytes ef_memory_swap_bytes ef_nano_cpus ef_pids_limit ef_network_mode ef_networks
      ef_mounts ef_devices]. by rewrite sort_texts_idem. }
  assert (Hm : forall l : list (string * string), NoDup l.*1 -> canon (text_mapping (merge_sort key_le l)) = canon (text_mapping l)).
  { intros l Hl. rewrite !canon_text_items by (done || by rewrite sort_keys_perm). f_equal.
    apply sort_sorted; [by rewrite sort_keys_perm|]. apply (Sorted_merge_sort _). }
  assert (Hh := Hm _ Hd).
  assert (Hi : canon (image_state (image_sorted (rcp_image r))) = canon (image_state (rcp_image r))).
  { unfold image_state, image_sorted. cbn [ig_image_id ig_recipe_digest ig_harness_versions].
    rewrite !dict_of_pairs_same by (done || by rewrite sort_keys_perm).
    rewrite !canon_obj. unfold canon_items. cbn [map fst snd]. by rewrite Hm. }
  unfold receipt_state. cbn [receipt_sorted rcp_operation_id rcp_trust_mode rcp_profile_name rcp_profile_digest rcp_engine
    rcp_image rcp_container_name rcp_host rcp_effective rcp_permissions rcp_harness_version rcp_harness_protocol
    rcp_started_at rcp_bounds]. rewrite He.
  rewrite !canon_obj. unfold canon_items. rewrite !map_app. cbn [map fst snd]. by rewrite Hh, Hi.
Qed.
Lemma receipt_host (l : list (string * string)) : map (fun kv => (kv.1, py_str kv.2)) (map (fun kv => (kv.1, JStr kv.2)) l) = l.
Proof. rewrite map_map. cbn. induction l as [|[k v] l IH]; [done|]. cbn. by rewrite IH. Qed.
Lemma receipt_reads r : wf_receipt r -> receipt_from_state (canon (receipt_state r)) = Ok (receipt_sorted r).
Proof.
  intros [Hc Ht Ho Hd Hen Him Hh Hef Hpe Hb]. repeat (apply Forall_cons in Ht as [? Ht]). repeat (apply Forall_cons in Ho as [? Ho]).
  pose proof (digest_str_nonblank _ Hd) as Hdb.
  assert (Hs : runner_receipt_post_init (receipt_sorted r) = Ok (receipt_sorted r)).
  { unfold runner_receipt_post_init in *. cbn. by destruct (_ && _). }
  unfold receipt_from_state, receipt_state.
  destruct (rcp_bounds r) as [b|] eqn:Eb; cbn [app]; read_canon;
    read_fields; rewrite canon_text_items by done; cbn [text_mapping state_mapping mbind result_bind];
    read_fields; rewrite pinned_reads by done; cbn [mbind result_bind];
    rewrite engine_reads, image_reads by done; cbn [mbind result_bind]; read_fields;
    rewrite effective_reads, permission_reads by done; cbn [mbind result_bind]; read_fields; rewrite receipt_host.
  - assert (Hj : exists m, canon (bounds_state b) = JObj m) by (by eexists). destruct Hj as [m Hj]. rewrite Hj.
    rewrite <- Hj, bounds_reads by exact Hb. cbn [mbind result_bind]. unfold receipt_sorted in *. by rewrite Eb in *.
  - unfold receipt_sorted in *. by rewrite Eb in *.
Qed.
Lemma receipt_accepted state r : wf_json state = true -> receipt_from_state state = Ok r -> wf_receipt r.
Proof.
  intros Hw. unfold receipt_from_state. destruct state as [| | | | | |m]; try done. cbn [state_mapping mbind result_bind].
  intros Hr. inv_ok. match goal with H : runner_receipt_post_init _ = Ok _ |- _ => pose proof (receipt_same _ _ H) as -> end.
  repeat match goal with
  | H : engine_from_state _ = Ok _ |- _ => apply engine_accepted in H as [? ?]
  | H : image_from_state _ = Ok _ |- _ => apply image_accepted in H; [|by apply sub_json]
  | H : effective_from_state _ = Ok _ |- _ => apply effective_accepted in H
  | H : permission_from_state _ = Ok _ |- _ => apply permission_accepted in H
  | H : pinned_digest _ = Ok _ |- _ => apply pinned_accepted in H
  | H : runner_text _ _ = Ok _ |- _ => apply text_read in H
  | H : runner_optional_text _ _ = Ok _ |- _ => apply optional_read in H end.
  split; cbn; try done; [by repeat constructor..| |].
  - match goal with H : state_mapping _ = Ok ?h |- _ => pose proof (sub_json m "host" Hw) as Hh;
      destruct (dict_get "host" m) as [[| | | | | |h']|]; try done; injection H as <- end.
    cbn in Hh. apply andb_true_iff in Hh as [Hh%bool_decide_eq_true _]. by rewrite map_values_keys.
  - match goal with H : match dict_get "bounds" m with _ => _ end = Ok ?b |- _ => revert H end.
    destruct (dict_get "bounds" m) as [[]|]; intros Hb; try (by injection Hb as <-); apply bind_Ok in Hb as (? & Hb & Hx);
      injection Hx as <-; by apply bounds_accepted in Hb.
Qed.
End Receipts.

Lemma launch_outcome_reads o : launch_outcome_post_init o = Ok o -> launch_outcome_from_state (canon (launch_outcome_state o)) = Ok o.
Proof.
  intros Ho. pose proof Ho as Hp. unfold launch_outcome_post_init in Hp. inv_ok. required.
  unfold launch_outcome_from_state, launch_outcome_state. unfold launch_exit_code, launch_detail. read_canon. read_fields.
  assert (Hx : (match Some (canon (from_option JInt JNull (lo_exit_code o))) with
    | None | Some JNull => Ok None | Some (JInt z) => Ok (Some z) | _ => Err InvalidInputError end) = Ok (lo_exit_code o))
    by (by destruct (lo_exit_code o)).
  rewrite Hx. cbn [mbind result_bind]. read_fields. by destruct o.
Qed.
Lemma launch_outcome_accepted state o : launch_outcome_from_state state = Ok o -> launch_outcome_post_init o = Ok o.
Proof.
  unfold launch_outcome_from_state. intros H. inv_ok.
  by match goal with H : launch_outcome_post_init _ = Ok _ |- _ => apply accepted in H; [|exact launch_outcome_same] end.
Qed.

Record wf_spec (s : LaunchSpec) : Prop := {
  ws_check : spec_post_init s = Ok s;
  ws_profile : wf_profile (sp_profile s);
  ws_permissions : permission_post_init (sp_permissions s) = Ok (sp_permissions s);
  ws_optional : Forall (fun o => from_option blank false o = false)
    [sp_bundle_branch s; sp_bundle_base s; sp_docker_context s; sp_harness_version s; sp_harness_protocol s;
     sp_relay_container s] }.
Lemma absolute_nonblank s : py_startswith "/" s = true -> blank s = false.
Proof.
  destruct s as [|c s]; intros [k Hk]%bool_decide_eq_true; [done|]. change (chars (String c s)) with (c :: chars s) in Hk.
  injection Hk as -> _. by apply nonblank_cons.
Qed.
Lemma spec_accepted state s : spec_from_state state = Ok s -> wf_spec s.
Proof.
  unfold spec_from_state. intros Hs. inv_ok.
  match goal with H : spec_post_init _ = Ok _ |- _ => pose proof (spec_same _ _ H) as -> end.
  split; cbn; [done|by eapply profile_accepted|by eapply permission_accepted|].
  repeat constructor; eapply optional_read; eassumption.
Qed.
Lemma spec_reads s : wf_spec s -> spec_from_state (canon (spec_state s)) = Ok s.
Proof.
  intros [Hc Hp Hm Ho]. repeat (apply Forall_cons in Ho as [? Ho]).
  pose proof Hc as Hx. unfold spec_post_init in Hx. inv_ok. clear Hx.
  match goal with H : existsb blank _ = false |- _ => cbn in H; rewrite !orb_false_iff in H; destruct H as (? & ? & ? & ? & _) end.
  match goal with H : negb (regex_fullmatch IMAGE_ID_PATTERN _) = false |- _ => apply image_id_nonblank in H end.
  match goal with H : negb (forallb _ _) = false |- _ => apply negb_false_iff in H; cbn in H;
    rewrite !andb_true_iff in H; destruct H as (?%absolute_nonblank & ?%absolute_nonblank & ?%absolute_nonblank & _) end.
  unfold spec_from_state, spec_state, optional_item.
  destruct (sp_harness_version s) eqn:E1, (sp_harness_protocol s) eqn:E2, (sp_relay_container s) eqn:E3; cbn [app];
    read_canon; read_fields; rewrite profile_reads by done; cbn [mbind result_bind]; read_fields;
    rewrite permission_reads by done; cbn [mbind result_bind]; read_fields;
    match goal with |- spec_post_init ?v = Ok s => replace v with s; [exact Hc|]; clear - E1 E2 E3;
      destruct s; cbn in E1, E2, E3 |- *; by subst end.
Qed.

Record wf_runner (r : RunnerSelection) : Prop := {
  wu_check : runner_post_init r = Ok r;
  wu_bound : ru_legacy r = false;
  wu_digest : from_option wf_digest True (ru_profile_digest r) }.
Lemma runner_accepted state r : runner_selection_from_state state = Ok r -> wf_runner r.
Proof.
  unfold runner_selection_from_state. intros Hr. inv_ok.
  match goal with H : runner_post_init _ = Ok _ |- _ => pose proof (runner_same _ _ H) as -> end.
  split; cbn; [done..|].
  match goal with H : match ?o with Some _ => _ | None => _ end = Ok ?d |- _ => destruct o; [|by injection H as <-] end.
  inv_ok. by eapply pinned_accepted.
Qed.
Lemma runner_image r : runner_post_init r = Ok r -> from_option blank false (ru_image r) = false.
Proof.
  unfold runner_post_init. intros (? & _ & Hr)%bind_Ok. apply bind_Ok in Hr as (? & Hm & _).
  destruct (isolated_mode r).
  - apply raise_if_Ok in Hm as [_ Hm]. apply raise_if_Ok in Hm as [_ Hm]. apply raise_if_Ok in Hm as [Hi _].
    destruct (ru_image r) as [i|]; [|done]. by apply image_id_nonblank.
  - apply raise_if_Ok in Hm as [Hn _]. by destruct (ru_image r).
Qed.
Lemma runner_reads r : wf_runner r -> runner_selection_from_state (canon (runner_selection_state r)) = Ok r.
Proof.
  intros [Hc Hb Hd]. pose proof (runner_image _ Hc) as Hi. pose proof Hc as Hx. unfold runner_post_init in Hx. inv_ok. required.
  destruct r as [mode name digest image context legacy access]. cbn in Hb, Hd, Hi. subst legacy.
  assert (Hdb : from_option blank false (digest_str <$> digest) = false) by (destruct digest; [by apply digest_str_nonblank|done]).
  assert (Hab : blank access = false).
  { match goal with H : negb (bool_decide (_ ∈ MODEL_ACCESS_MODES)) = false |- _ => apply negb_decide_false in H; cbn in H;
      unfold MODEL_ACCESS_MODES in H; rewrite !elem_of_cons, elem_of_nil in H; clear - H; destruct H as [->|[->|[]]]; done end. }
  unfold runner_selection_from_state, runner_selection_state. cbn [ru_trust_mode ru_profile_name ru_profile_digest ru_image
    ru_docker_context ru_model_access].
  destruct (String.eqb_spec access MODEL_ACCESS_NONE) as [->|Hn]; cbn [app]; read_canon; read_fields;
    (destruct digest as [d|]; cbn [fmap option_fmap option_map]; [rewrite pinned_reads by exact Hd|]); cbn [mbind result_bind];
    read_fields; exact Hc.
Qed.

(** ** What isolation rests on *)
Lemma spec_environment s : spec_post_init s = Ok s -> forall k v, (k, v) ∈ sp_env s -> k ∈ rp_env_allowlist (sp_profile s).
Proof.
  intros Hs k v Hk. unfold spec_post_init in Hs. inv_ok.
  match goal with H : negb (is_nil (spec_stray_env s)) = false |- _ => apply negb_false_iff, is_nil_true in H;
    unfold spec_stray_env in H; pose proof (proj1 (sorted_set_nil _) H) as Hn end.
  eapply negb_decide_false, (proj1 (filter_nil _ _) Hn). apply list_elem_of_In, in_map_iff. exists (k, v). split; [done|].
  by apply list_elem_of_In.
Qed.
Lemma attempt_name `{PyRuntime} p operation_id : blank operation_id = false -> exists suffix,
  attempt_network_name p operation_id = Ok (rp_network p +:+ "-" +:+ of_chars suffix) /\
  suffix = take ATTEMPT_NETWORK_DIGEST_CHARS (chars (sha256_hex (utf8 operation_id))).
Proof.
  intros Hb. unfold attempt_network_name. rewrite (proj2 (require_nonblank_text_Ok _ ()) Hb). cbn [mbind result_bind]. by eexists.
Qed.
Lemma spec_operation s : spec_post_init s = Ok s -> blank (sp_operation_id s) = false.
Proof.
  unfold spec_post_init. intros [Hs _]%raise_if_Ok. cbn in Hs. rewrite !orb_false_iff in Hs. by destruct Hs.
Qed.
(** A conforming container of an accepted profile holds none of the host's authority. *)
Record contained (s : LaunchSpec) (e : EffectiveContainer) : Prop := {
  ct_user : exists u g, (1000 <= u)%Z /\ (1000 <= g)%Z /\ ef_user e = pretty u +:+ ":" +:+ pretty g;
  ct_privileged : ef_privileged e = false;
  ct_capabilities : ef_cap_add e = [] /\ forall c, c ∈ ef_cap_drop e <-> c = "ALL";
  ct_escalation : "no-new-privileges" ∈ ef_security_options e;
  ct_rootfs : ef_read_only_rootfs e = true;
  ct_mounts : forall kind d w, (kind, d, w) ∈ ef_mounts e ->
    (kind = "volume" /\ d ∈ [WORKSPACE_MOUNT; OUT_MOUNT]) \/ (kind = "tmpfs" /\ d ∈ [WORKER_TMP; WORKER_HOME]);
  ct_devices : ef_devices e = [];
  ct_network : exists n, ef_networks e = [n] /\ (sp_relay_container s = None -> n = NO_NETWORK) }.
Lemma conforms_contained `{PyRuntime} s e n : wf_profile (sp_profile s) -> attempt_network s = Ok n ->
  conforms (sp_profile s) e n -> contained s e.
Proof.
  intros [Hp _ _] Hn []. unfold profile_validate in Hp. inv_ok. constructor; try done.
  - match goal with H : _ || _ = false |- _ => apply orb_false_iff in H as [?%Z.ltb_ge ?%Z.ltb_ge] end.
    by exists (rp_uid (sp_profile s)), (rp_gid (sp_profile s)).
  - match goal with H : negb (bool_decide (rp_cap_drop _ = _)) = false |- _ => apply negb_decide_false in H; rewrite H in * end.
    split; [done|]. intros c. rewrite cf_cap_drop0. apply list_elem_of_singleton.
  - match goal with H : negb (bool_decide (_ ∈ rp_security_options _)) = false |- _ => apply negb_decide_false in H end.
    by apply cf_security0.
  - intros kind d w Hm%cf_mounts0. unfold allowed_mounts in Hm. rewrite !elem_of_cons, elem_of_nil in Hm.
    repeat destruct Hm as [Hm|Hm]; try done; injection Hm as -> -> _; [left|left|right|right]; set_solver.
  - exists n. split; [apply cf_network0|]. intros Hr. unfold attempt_network, expected_network in Hn. rewrite Hr in Hn.
    by injection Hn as <-.
Qed.
(** Two attempts share their own networks only when their operations share a digest. *)
Lemma networks_apart `{PyRuntime} p a b n : attempt_network_name p a = Ok n -> attempt_network_name p b = Ok n ->
  take ATTEMPT_NETWORK_DIGEST_CHARS (chars (sha256_hex (utf8 a))) = take ATTEMPT_NETWORK_DIGEST_CHARS (chars (sha256_hex (utf8 b))).
Proof.
  unfold attempt_network_name. intros (? & _ & Ha)%bind_Ok (? & _ & Hb)%bind_Ok. injection Ha as <-. injection Hb as Hb.
  apply (f_equal chars) in Hb. rewrite !chars_app, !chars_of_chars in Hb. by do 2 apply app_inv_head in Hb.
Qed.

Section Claims.
Context `{PyRuntime}.
(** C17: the comparison of the container the engine reports with the profile of the launch is
    exact: a launch specification names one network, no violation is reported precisely for
    a container that conforms to the profile on that network, and every such container runs
    as an unprivileged user without capabilities, devices or a writable root, with the
    workspace and result volumes and scratch memory for its only mounts, and without any
    network unless the launch has model access; the variables of the launch are within the
    allow-list, and two launches share a network of their own only when the digests of their
    operations begin alike. *)
Theorem isolated_launch_contained state s : spec_from_state state = Ok s -> exists n,
  attempt_network s = Ok n /\
  (forall e, profile_violations (sp_profile s) e n = Ok [] <-> conforms (sp_profile s) e n) /\
  (forall e, profile_violations (sp_profile s) e n = Ok [] -> contained s e) /\
  (forall k v, (k, v) ∈ sp_env s -> k ∈ rp_env_allowlist (sp_profile s)) /\
  (forall state' s', spec_from_state state' = Ok s' -> sp_profile s' = sp_profile s -> attempt_network s' = Ok n ->
     sp_relay_container s <> None -> sp_relay_container s' <> None ->
     take ATTEMPT_NETWORK_DIGEST_CHARS (chars (sha256_hex (utf8 (sp_operation_id s)))) =
     take ATTEMPT_NETWORK_DIGEST_CHARS (chars (sha256_hex (utf8 (sp_operation_id s'))))).
Proof.
  intros Hs%spec_accepted. destruct Hs as [Hc Hp _ _].
  assert (Hn : exists n, attempt_network s = Ok n).
  { unfold attempt_network, expected_network. destruct (negb _); [|by eexists].
    destruct (attempt_name (sp_profile s) _ (spec_operation _ Hc)) as (x & -> & _). by eexists. }
  destruct Hn as [n Hn]. exists n. split_and!; [done|intros e; apply violations_exact| |by apply spec_environment|].
  - intros e He%violations_exact. by eapply conforms_contained.
  - intros state' s' _ Hsame Hn' Hr Hr'. unfold attempt_network, expected_network in Hn, Hn'. rewrite Hsame in Hn'.
    destruct (sp_relay_container s), (sp_relay_container s'); try done. exact (networks_apart _ _ _ _ Hn Hn').
Qed.
(** C18: what a launch records reads back from its stored canonical form.  A launch
    specification that its constructors accept and whose optional texts are not blank, every
    outcome of the launcher that its constructor accepts, and every accepted runner selection
    that is not the one of a run of before the trust modes read back as they were; a receipt
    whose parts their constructors accept, whose texts are not blank and whose host facts
    and harness versions have distinct keys reads back with these mappings and its
    environment keys sorted, and its digest is unchanged.  Whatever is decoded is such a
    record, and no receipt of an isolated run that the constructor accepts carries a
    permission bypass. *)
Theorem runner_records_durable :
  (forall s, wf_spec s -> spec_from_state (canon (spec_state s)) = Ok s) /\
  (forall o, launch_outcome_post_init o = Ok o -> launch_outcome_from_state (canon (launch_outcome_state o)) = Ok o) /\
  (forall r, wf_runner r -> runner_selection_from_state (canon (runner_selection_state r)) = Ok r) /\
  (forall r, wf_receipt r -> receipt_from_state (canon (receipt_state r)) = Ok (receipt_sorted r) /\
     receipt_digest (receipt_sorted r) = receipt_digest r) /\
  (forall state s, spec_from_state state = Ok s -> wf_spec s) /\
  (forall state o, launch_outcome_from_state state = Ok o -> launch_outcome_post_init o = Ok o) /\
  (forall state r, runner_selection_from_state state = Ok r -> wf_runner r) /\
  (forall state r, wf_json state = true -> receipt_from_state state = Ok r -> wf_receipt r) /\
  (forall r, runner_receipt_post_init r = Ok r -> rcp_trust_mode r = ISOLATED_OCI ->
     pm_unconditional_bypass (rcp_permissions r) = false).
Proof.
  split_and!; [exact spec_reads|exact launch_outcome_reads|exact runner_reads| |exact spec_accepted|
    exact launch_outcome_accepted|exact runner_accepted|exact receipt_accepted|].
  - intros r Hr. split; [by apply receipt_reads|]. destruct Hr as [_ _ _ _ _ [_ Hk] Hh _ _ _]. by apply receipt_digest_sorted.
  - intros r Hc Hm. unfold runner_receipt_post_init in Hc. apply raise_if_Ok in Hc as [Hc _].
    rewrite Hm in Hc. by rewrite bool_decide_true in Hc.
Qed.
End Claims.

Module Demo.
#[local] Existing Instance IdentityProofs.toy_runtime.
Definition two : spec_float := S754_finite false 4503599627370496 (-51).
Definition demo_limits (cpus : spec_float) : ResourceLimits := {|
  rl_memory_mib := 4096; rl_cpus := cpus; rl_pids := 512; rl_tmp_mib := 512; rl_home_mib := 512;
  rl_stop_grace_seconds := 10; rl_workspace_mib := 4096; rl_out_mib := 1024; rl_workspace_inodes := 500000;
  rl_out_inodes := 200000 |}.
Definition demo_profile : RunnerProfile := {|
  rp_name := ISOLATED_PROFILE_NAME; rp_uid := 65532; rp_gid := 65532; rp_resources := demo_limits two;
  rp_cap_drop := ["ALL"]; rp_security_options := ["no-new-privileges"]; rp_read_only_rootfs := true;
  rp_network := "enginery-runner-internal"; rp_env_allowlist := sorted_set DEFAULT_ENV_ALLOWLIST |}.
Definition omp_permissions : PermissionMapping :=
  match isolated_permission_mapping "omp" with Ok m => m | Err _ => {| pm_harness := ""; pm_name := "";
    pm_arguments := []; pm_unconditional_bypass := true; pm_rationale := "" |} end.
Definition demo_spec : LaunchSpec := {|
  sp_operation_id := "op-1"; sp_container_name := "worker-1"; sp_image := "sha256:" +:+ of_chars (repeat (chr 97) 64);
  sp_profile := demo_profile; sp_harness := "omp"; sp_workspace_path := "/work"; sp_out_path := "/work.out";
  sp_receipt_path := "/receipts/op-1.json"; sp_result_name := "result.json"; sp_time_budget_seconds := 60;
  sp_permissions := omp_permissions; sp_env := [("HOME", WORKER_HOME)]; sp_seed_files := []; sp_bundle_branch := None;
  sp_bundle_base := None; sp_docker_context := None; sp_harness_version := Some "1.0"; sp_harness_protocol := None;
  sp_relay_container := None |}.
Definition demo_container : EffectiveContainer := {|
  ef_user := "65532:65532"; ef_cap_drop := ["ALL"]; ef_cap_add := []; ef_security_options := ["no-new-privileges"];
  ef_privileged := false; ef_read_only_rootfs := true; ef_memory_bytes := 4294967296; ef_memory_swap_bytes := 4294967296;
  ef_nano_cpus := 2000000000; ef_pids_limit := 512; ef_network_mode := "none"; ef_networks := ["none"];
  ef_mounts := [("volume", "/workspace", true); ("volume", "/out", true); ("tmpfs", "/tmp", true); ("tmpfs", "/home/worker", true)];
  ef_devices := []; ef_env_keys := ["HOSTNAME"; "PATH"] |}.
(** The defaults of the sources are accepted, and so are the mappings of both modes. *)
Example defaults_accepted : profile_post_init demo_profile = Ok demo_profile /\ default_relay <> Err InvalidInputError /\
  Forall (fun kv => permission_post_init kv.2 = Ok kv.2) (ISOLATED_PERMISSIONS ++ TRUSTED_LOCAL_PERMISSIONS) /\
  existsb (fun kv => pm_unconditional_bypass kv.2) ISOLATED_PERMISSIONS = false.
Proof. split_and!; [by vm_compute|by vm_compute|repeat constructor; by vm_compute|by vm_compute]. Qed.
(** A limit of processors that is no number is accepted as a limit, and cannot be compared. *)
Example nan_limit_accepted :
  limits_from_state (Some (limits_state (demo_limits S754_nan))) = Ok (demo_limits S754_nan) /\
  nano_cpus (demo_limits S754_nan) = Err PyValueError.
Proof. split; by vm_compute. Qed.
Lemma demo_read : spec_from_state (spec_state demo_spec) = Ok demo_spec.
Proof. by vm_compute. Qed.
Lemma isolated_launch_contained_witness : contained demo_spec demo_container.
Proof.
  destruct (isolated_launch_contained _ _ demo_read) as (n & Hn & _ & Hc & _). apply Hc.
  change (attempt_network demo_spec) with (Ok NO_NETWORK) in Hn. injection Hn as <-. by vm_compute.
Defined.
Definition demo_receipt : RunnerReceipt := {|
  rcp_operation_id := "op-1"; rcp_trust_mode := ISOLATED_OCI; rcp_profile_name := ISOLATED_PROFILE_NAME;
  rcp_profile_digest := {| algorithm := "sha256"; hex_value := of_chars (repeat (chr 98) 64) |};
  rcp_engine := {| en_kind := "docker"; en_server_version := "27"; en_operating_system := "linux"; en_kernel_version := "6";
    en_cgroup_version := "2"; en_security_options := []; en_rootless := true; en_context := None |};
  rcp_image := {| ig_image_id := "sha256:" +:+ of_chars (repeat (chr 97) 64); ig_recipe_digest := "r";
    ig_harness_versions := [("omp", "1"); ("claude-code", "2")] |};
  rcp_container_name := "worker-1"; rcp_host := [("os", "linux"); ("arch", "arm64")]; rcp_effective := demo_container;
  rcp_permissions := omp_permissions; rcp_harness_version := Some "1"; rcp_harness_protocol := None;
  rcp_started_at := "2026-01-01T00:00:00Z"; rcp_bounds := None |}.
Lemma demo_spec_accepted : wf_spec demo_spec.
Proof. split; [by vm_compute|split; by vm_compute|by vm_compute|repeat constructor]. Qed.
Lemma demo_receipt_accepted : wf_receipt demo_receipt.
Proof.
  constructor; try (by vm_compute); try (by repeat (constructor; [by vm_compute|])).
  - split; [by vm_compute|]. apply (bool_decide_unpack _). by vm_compute.
  - apply (bool_decide_unpack _). by vm_compute.
  - by repeat constructor.
Qed.
Lemma runner_records_durable_witness :
  spec_from_state (canon (spec_state demo_spec)) = Ok demo_spec /\
  receipt_from_state (canon (receipt_state demo_receipt)) = Ok (receipt_sorted demo_receipt) /\
  rcp_host (receipt_sorted demo_receipt) = [("arch", "arm64"); ("os", "linux")].
Proof.
  destruct runner_records_durable as (Hs & _ & _ & Hr & _). split; [exact (Hs _ demo_spec_accepted)|].
  split; [exact (proj1 (Hr _ demo_receipt_accepted))|by vm_compute].
Defined.
End Demo.
