(* ===== verification/Behavior.v ===== *)
(** * Behavioural acceptance ([domain/behavioral_evidence.py], [application/behavioral_checks.py],
      [application/behavioral_calibration.py], [application/behavioral_observation.py],
      [evidence/behavioral.py])

    The declared checks, the provenance records of what was observed, the calibration of
    the observers by deliberate faults, and the evaluation that alone turns them into a
    result.  What the URL reader of the standard library answers is a parameter. *)
From S2P Require Import Prelude PyText Json Identity Regex Lifecycles Closures Checks Selections ProtectedPaths Runners.

(** ** Declared checks ([application/behavioral_checks.py]); an expected value is text, an
    integer or a boolean *)
Definition OBSERVER_KINDS : list string := ["command"; "service"; "browser"].
Definition ASSERTION_KINDS : list string := ["exit_status"; "stdout"; "stderr"; "produced_file"; "body"; "dom"].
Definition FAULT_CLASSES : list string := ["constant_result"; "skipped_persistence"; "wrong_build"].
Definition EVALUATOR_VERSION : string := "behavioral-evaluator-v1".
Definition name_char (c : Ascii.ascii) : bool := is_lower c || is_digit c || is_one_of "_.-" c.
Definition CHECK_NAME : regex := RSeq (RRep is_lower 1 (Some 1)) (RRep name_char 0 (Some 127)).
Record BehavioralAssertion := {
  ba_kind : string; ba_operator : string; ba_expected : json; ba_path : option string; ba_selector : option string }.
Record BehavioralCheck := {
  bc_name : string; bc_observer : string; bc_assertions : list BehavioralAssertion; bc_fault_classes : list string;
  bc_argv : list string; bc_url : option string }.
Definition assertion_state (a : BehavioralAssertion) : json := JObj (
  [("kind", JStr (ba_kind a)); (ba_operator a, ba_expected a)] ++ optional_item "path" (ba_path a) ++
  optional_item "selector" (ba_selector a)).
Definition check_state (c : BehavioralCheck) : json := JObj ([
  ("name", JStr (bc_name c)); ("observer", JStr (bc_observer c));
  ("assertions", JList (map assertion_state (bc_assertions c))); ("fault_classes", json_texts (bc_fault_classes c))] ++
  (if is_nil (bc_argv c) then [] else [("argv", json_texts (bc_argv c))]) ++ optional_item "url" (bc_url c)).

(** [_mapping], [_keys], [_text] and [_digest] of the declarations *)
Definition declared_mapping (value : json) : result (list (string * json)) :=
  match value with JObj m => Ok m | _ => Err InvalidInputError end.
Definition declared_keys (value : list (string * json)) (required optional : list string) : result () :=
  raise_when negb (forallb (fun k => bool_decide (k ∈ required ++ optional)) (map fst value)) ||
             negb (forallb (fun k => bool_decide (k ∈ map fst value)) required) as InvalidInputError ;; Ok ().
Definition nul : Ascii.ascii := chr 0.
Definition has_nul (s : string) : bool := bool_decide (nul ∈ chars s).
Definition declared_text (value : json) : result string :=
  match value with JStr s => raise_when blank s || has_nul s as InvalidInputError ;; Ok s | _ => Err InvalidInputError end.
Definition declared_digest (value : json) : result string :=
  text ← declared_text value;
  let '(algorithm, hex) := py_partition colon text in
  d ← mk_digest algorithm (default "" hex); Ok (digest_str d).
Definition require_base_revision (value : string) : result () :=
  raise_when negb (regex_fullmatch OBJECT_ID value) as InvalidInputError ;; Ok ().
(** What [urllib.parse.urlsplit] and its accessors say of a text, and what
    [ipaddress.ip_address] says of a host; [None] is their [ValueError]. *)
Record SplitUrl := {
  url_scheme : string; url_hostname : option string; url_port : option Z; url_username : option string;
  url_password : option string; url_fragment : string }.
Class UrlReader := { urlsplit : string -> option SplitUrl; is_loopback : string -> option bool }.
Definition host_loopback `{UrlReader} (host : option string) : option bool :=
  match host with None => Some false | Some h => if String.eqb h "localhost" then Some true else is_loopback h end.
Definition loopback_url `{UrlReader} (value : json) : result string :=
  text ← declared_text value;
  raise_when existsb (fun c => py_isspace c || (code c <? 32)%N) (chars text) as InvalidInputError ;;
  match urlsplit text with
  | None => Err InvalidInputError
  | Some parsed => match host_loopback (url_hostname parsed) with
      | None => Err InvalidInputError
      | Some loopback =>
          raise_when negb loopback || negb (bool_decide (url_scheme parsed ∈ ["http"; "https"])) ||
                     negb (none (url_username parsed)) || negb (none (url_password parsed)) ||
                     negb (String.eqb (url_fragment parsed) "") || bool_decide (url_port parsed = Some 0%Z)
            as InvalidInputError ;; Ok text
      end
  end.

Definition OPERATORS : list string := ["equals"; "contains"; "exists"].
(** A value given where one of these texts is meant. *)
Definition one_of (names : list string) (value : json) : result string :=
  match value with
  | JStr s => raise_when negb (bool_decide (s ∈ names)) as InvalidInputError ;; Ok s | _ => Err InvalidInputError end.
Definition expected_holds (kind operator : string) (expected : json) : bool :=
  if String.eqb kind "exit_status" then
    String.eqb operator "equals" && match expected with JInt _ => true | _ => false end
  else if String.eqb operator "exists" then
    bool_decide (kind ∈ ["produced_file"; "dom"]) && match expected with JBool _ => true | _ => false end
  else match expected with
    | JStr s => negb (has_nul s) && negb (String.eqb operator "contains" && String.eqb s "") | _ => false end.
(** [PurePosixPath(path).parts]: neither empty segments nor dots *)
Definition relative_path (path : string) : bool :=
  negb (py_startswith "/" path) && negb (bool_decide (".." ∈ path_parts path)) && negb (String.eqb path ".") &&
  negb (bool_decide (chr 92 ∈ chars path)).
Definition assertion_from_state (state : json) : result BehavioralAssertion :=
  raw ← declared_mapping state;
  kind ← one_of ASSERTION_KINDS (default JNull (dict_get "kind" raw));
  _ ← declared_keys raw ("kind" :: (if String.eqb kind "produced_file" then ["path"] else []) ++
                         (if String.eqb kind "dom" then ["selector"] else [])) OPERATORS;
  match List.filter (fun o => bool_decide (o ∈ map fst raw)) OPERATORS with
  | [operator] =>
      let expected := default JNull (dict_get operator raw) in
      raise_when negb (expected_holds kind operator expected) as InvalidInputError ;;
      path ← (if String.eqb kind "produced_file" then
                path ← declared_text (default JNull (dict_get "path" raw));
                raise_when negb (relative_path path) as InvalidInputError ;; Ok (Some path)
              else Ok None);
      selector ← (if String.eqb kind "dom" then
                    selector ← declared_text (default JNull (dict_get "selector" raw)); Ok (Some selector)
                  else Ok None);
      Ok {| ba_kind := kind; ba_operator := operator; ba_expected := expected; ba_path := path; ba_selector := selector |}
  | _ => Err InvalidInputError
  end.
Definition allowed_kinds (observer : string) : list string :=
  if String.eqb observer "command" then ["exit_status"; "stdout"; "stderr"; "produced_file"]
  else if String.eqb observer "service" then ["body"] else ["dom"].
Definition declared_argv (raw : list (string * json)) : result (list string) :=
  match dict_get "argv" raw with
  | None => Ok []
  | Some argv =>
      command ← command_contract_from_mapping (JObj [("source", JStr (enum_value SOURCE_DECLARED)); ("argv", argv)]);
      raise_when existsb has_nul (cc_argv command) as InvalidInputError ;; Ok (cc_argv command)
  end.
Definition check_from_state `{UrlReader} (state : json) : result BehavioralCheck :=
  raw ← declared_mapping state;
  _ ← declared_keys raw ["name"; "observer"; "assertions"; "fault_classes"] ["argv"; "url"];
  name ← declared_text (default JNull (dict_get "name" raw));
  raise_when negb (regex_fullmatch CHECK_NAME name) as InvalidInputError ;;
  observer ← one_of OBSERVER_KINDS (default JNull (dict_get "observer" raw));
  argv ← declared_argv raw;
  url ← match dict_get "url" raw with Some v => u ← loopback_url v; Ok (Some u) | None => Ok None end;
  raise_when String.eqb observer "command" && (is_nil argv || negb (none url)) as InvalidInputError ;;
  raise_when negb (String.eqb observer "command") && none url as InvalidInputError ;;
  items ← match dict_get "assertions" raw with Some (JList l) => Ok l | _ => Err InvalidInputError end;
  assertions ← mapM_result assertion_from_state items;
  raise_when existsb (fun a => negb (bool_decide (ba_kind a ∈ allowed_kinds observer))) assertions as InvalidInputError ;;
  fault_items ← match dict_get "fault_classes" raw with Some (JList l) => Ok l | _ => Err InvalidInputError end;
  raise_when is_nil fault_items as InvalidInputError ;;
  faults ← mapM_result (one_of FAULT_CLASSES) fault_items;
  raise_when negb (bool_decide (NoDup faults)) as InvalidInputError ;;
  Ok {| bc_name := name; bc_observer := observer; bc_assertions := assertions; bc_fault_classes := faults;
        bc_argv := argv; bc_url := url |}.
Definition checks_from_state `{UrlReader} (state : json) : result (list BehavioralCheck) :=
  match state with
  | JList l =>
      checks ← mapM_result check_from_state l;
      raise_when negb (bool_decide (NoDup (map bc_name checks))) as InvalidInputError ;; Ok checks
  | _ => Err InvalidInputError end.
Definition checks_state (checks : list BehavioralCheck) : json := JList (map check_state checks).
Definition checks_digest `{PyRuntime} (checks : list BehavioralCheck) : result Digest := digest_of_json (checks_state checks).
(** [BehavioralChecksBinding]: the private copy of the assertions *)
Record BehavioralChecksBinding := {
  cb_base_revision : string; cb_configuration_snapshot_digest : string; cb_checks : list BehavioralCheck;
  cb_evaluator_version : string }.
Definition binding_state `{PyRuntime} (b : BehavioralChecksBinding) : result json :=
  digest ← checks_digest (cb_checks b);
  Ok (JObj [("schema_version", JInt 1); ("base_revision", JStr (cb_base_revision b));
    ("configuration_snapshot_digest", JStr (cb_configuration_snapshot_digest b)); ("checks", checks_state (cb_checks b));
    ("assertion_set_digest", JStr (digest_str digest)); ("evaluator_version", JStr (cb_evaluator_version b))]).
Definition binding_digest `{PyRuntime} (b : BehavioralChecksBinding) : result Digest :=
  state ← binding_state b; digest_of_json state.
Definition BINDING_FIELDS : list string := ["schema_version"; "base_revision"; "configuration_snapshot_digest"; "checks";
  "assertion_set_digest"; "evaluator_version"].
Definition binding_from_state `{PyRuntime} `{UrlReader} (state : json) : result BehavioralChecksBinding :=
  raw ← declared_mapping state;
  _ ← declared_keys raw BINDING_FIELDS [];
  raise_when match dict_get "schema_version" raw with Some (JInt z) => negb (z =? 1)%Z | _ => true end as InvalidInputError ;;
  revision ← declared_text (default JNull (dict_get "base_revision" raw));
  _ ← require_base_revision revision;
  config ← declared_digest (default JNull (dict_get "configuration_snapshot_digest" raw));
  checks ← checks_from_state (default JNull (dict_get "checks" raw));
  version ← declared_text (default JNull (dict_get "evaluator_version" raw));
  digest ← checks_digest checks;
  raise_when match dict_get "assertion_set_digest" raw with Some (JStr s) => negb (String.eqb s (digest_str digest)) | _ => true end
    as InvalidInputError ;;
  Ok {| cb_base_revision := revision; cb_configuration_snapshot_digest := config; cb_checks := checks;
        cb_evaluator_version := version |}.
(** [OperatorExecutables]: the host programs an operator's preferences name *)
Record OperatorExecutables := {
  oe_browser : option string; oe_browser_digest : option string; oe_lavish : option string; oe_gh_axi : option string }.
Definition OPERATOR_EXECUTABLE_KEYS : list string := ["browser"; "browser_digest"; "lavish"; "gh_axi"].
Definition executables_state (e : OperatorExecutables) : json := JObj (
  optional_item "browser" (oe_browser e) ++ optional_item "browser_digest" (oe_browser_digest e) ++
  optional_item "lavish" (oe_lavish e) ++ optional_item "gh_axi" (oe_gh_axi e)).
Definition executables_from_state (state : json) : result OperatorExecutables :=
  raw ← declared_mapping state;
  _ ← declared_keys raw [] OPERATOR_EXECUTABLE_KEYS;
  values ← mapM_result (fun '(name, value) => text ← declared_text value; Ok ((name, text) : string * string)) raw;
  raise_when negb (Bool.eqb (none (dict_get "browser" values)) (none (dict_get "browser_digest" values)))
    as InvalidInputError ;;
  digest ← match dict_get "browser_digest" values with
           | Some d => d ← declared_digest (JStr d); Ok (Some d) | None => Ok None end;
  Ok {| oe_browser := dict_get "browser" values; oe_browser_digest := digest; oe_lavish := dict_get "lavish" values;
        oe_gh_axi := dict_get "gh_axi" values |}.

(** ** Evidence records ([domain/behavioral_evidence.py]) *)
Definition MAX_EVIDENCE_BYTES : Z := 1048576.
Definition RECEIPT_SCHEMA_VERSION : Z := 1.
Definition media_char (c : Ascii.ascii) : bool := is_lower c || is_digit c || is_one_of "!#$&^_.+-" c.
Definition MEDIA_TYPE : regex := RSeq (RRep media_char 1 None) (RSeq (RLit "/") (RRep media_char 1 None)).
Inductive ReceiptCategory := WORKER_CLAIM | INSTRUMENT_OBSERVATION | EVALUATED_VERDICT.
#[export] Instance ReceiptCategory_eq_dec : EqDecision ReceiptCategory.
Proof. solve_decision. Defined.
#[export] Program Instance ReceiptCategory_enum : PyEnum ReceiptCategory := {|
  members := [WORKER_CLAIM; INSTRUMENT_OBSERVATION; EVALUATED_VERDICT];
  enum_value c := match c with
    | WORKER_CLAIM => "worker_claim" | INSTRUMENT_OBSERVATION => "instrument_observation"
    | EVALUATED_VERDICT => "evaluated_verdict" end |}.
Next Obligation. solve_enum. Qed.
Next Obligation. solve_enum. Qed.
Inductive ObserverKind := BY_WORKER | BY_COMMAND | BY_SERVICE | BY_BROWSER | BY_EVALUATOR.
#[export] Instance ObserverKind_eq_dec : EqDecision ObserverKind.
Proof. solve_decision. Defined.
#[export] Program Instance ObserverKind_enum : PyEnum ObserverKind := {|
  members := [BY_WORKER; BY_COMMAND; BY_SERVICE; BY_BROWSER; BY_EVALUATOR];
  enum_value k := match k with
    | BY_WORKER => "worker" | BY_COMMAND => "command" | BY_SERVICE => "service" | BY_BROWSER => "browser"
    | BY_EVALUATOR => "evaluator" end |}.
Next Obligation. solve_enum. Qed.
Next Obligation. solve_enum. Qed.
Inductive BuildKind := CANDIDATE_ARTIFACT | SOURCE_TREE.
#[export] Instance BuildKind_eq_dec : EqDecision BuildKind.
Proof. solve_decision. Defined.
#[export] Program Instance BuildKind_enum : PyEnum BuildKind := {|
  members := [CANDIDATE_ARTIFACT; SOURCE_TREE];
  enum_value k := match k with CANDIDATE_ARTIFACT => "candidate_artifact" | SOURCE_TREE => "source_tree" end |}.
Next Obligation. solve_enum. Qed.
Next Obligation. solve_enum. Qed.
Inductive DecodeStatus := DECODABLE | DECODE_INVALID | NOT_DECODED.
#[export] Instance DecodeStatus_eq_dec : EqDecision DecodeStatus.
Proof. solve_decision. Defined.
#[export] Program Instance DecodeStatus_enum : PyEnum DecodeStatus := {|
  members := [DECODABLE; DECODE_INVALID; NOT_DECODED];
  enum_value s := match s with DECODABLE => "decodable" | DECODE_INVALID => "invalid" | NOT_DECODED => "not_applicable" end |}.
Next Obligation. solve_enum. Qed.
Next Obligation. solve_enum. Qed.
(** [_text] of a value that is text *)
Definition control_code (c : Ascii.ascii) : bool := (code c <? 32)%N || (127 <=? code c)%N && (code c <=? 159)%N.
Definition bounded_text (value : string) : result string :=
  raise_when String.eqb value "" || negb (String.eqb value (py_strip value)) || (4096 <? py_len value)%Z as InvalidInputError ;;
  raise_when existsb control_code (chars value) as InvalidInputError ;; Ok value.
Definition evidence_text (value : json) : result string :=
  match value with JStr s => bounded_text s | _ => Err InvalidInputError end.
(** [_state]: exactly these fields; the value of one of them. *)
Definition evidence_state (state : json) (fields : list string) : result (list (string * json)) :=
  match state with
  | JObj m => raise_when negb (same_set (map fst m) fields) as InvalidInputError ;; Ok m | _ => Err InvalidInputError end.
Definition item (data : list (string * json)) (key : string) : json := default JNull (dict_get key data).
Definition DIGEST_PATTERN : regex := RSeq (RLit "sha256:") (RRep is_hex_lower 64 (Some 64)).
Definition evidence_digest (value : json) : result Digest :=
  match value with
  | JStr s => raise_when negb (regex_fullmatch DIGEST_PATTERN s) as InvalidInputError ;;
              mk_digest "sha256" (of_chars (drop 7 (chars s)))
  | _ => Err InvalidInputError end.
Definition evidence_items (value : json) : result (list json) :=
  match value with JList l => Ok l | _ => Err InvalidInputError end.
Definition evidence_flag (value : json) : result bool :=
  match value with JBool b => Ok b | _ => Err InvalidInputError end.
Definition optional_integer (value : json) : result (option Z) :=
  match value with JNull => Ok None | JInt z => Ok (Some z) | _ => Err InvalidInputError end.
Definition evidence_time `{IsoCodec} (value : json) : result datetime :=
  match value with
  | JStr s => match fromisoformat s with
      | Some t => raise_when negb (tz_aware t) as InvalidInputError ;; Ok t | None => Err InvalidInputError end
  | _ => Err InvalidInputError end.
Record BuildIdentity := { bi_kind : BuildKind; bi_digest : Digest }.
#[export] Instance BuildIdentity_eq_dec : EqDecision BuildIdentity.
Proof. solve_decision. Defined.
Definition build_state (b : BuildIdentity) : json := JObj [
  ("kind", JStr (enum_value (bi_kind b))); ("digest", JStr (digest_str (bi_digest b)))].
Definition build_from_state (state : json) : result BuildIdentity :=
  data ← evidence_state state ["kind"; "digest"];
  kind ← known_member (item data "kind"); digest ← evidence_digest (item data "digest");
  Ok {| bi_kind := kind; bi_digest := digest |}.
Record EvaluatorIdentity := { ev_assertion_set_digest : Digest; ev_version : string }.
#[export] Instance EvaluatorIdentity_eq_dec : EqDecision EvaluatorIdentity.
Proof. solve_decision. Defined.
Definition evaluator_post_init (e : EvaluatorIdentity) : result EvaluatorIdentity := _ ← bounded_text (ev_version e); Ok e.
Definition evaluator_state (e : EvaluatorIdentity) : json := JObj [
  ("assertion_set_digest", JStr (digest_str (ev_assertion_set_digest e))); ("version", JStr (ev_version e))].
Definition evaluator_from_state (state : json) : result EvaluatorIdentity :=
  data ← evidence_state state ["assertion_set_digest"; "version"];
  digest ← evidence_digest (item data "assertion_set_digest"); version ← evidence_text (item data "version");
  evaluator_post_init {| ev_assertion_set_digest := digest; ev_version := version |}.
Record ToolVersion := { tv_name : string; tv_version : string }.
#[export] Instance ToolVersion_eq_dec : EqDecision ToolVersion.
Proof. solve_decision. Defined.
Definition tool_post_init (t : ToolVersion) : result ToolVersion :=
  _ ← bounded_text (tv_name t); _ ← bounded_text (tv_version t); Ok t.
Definition tool_state (t : ToolVersion) : json := JObj [("name", JStr (tv_name t)); ("version", JStr (tv_version t))].
Definition tool_from_state (state : json) : result ToolVersion :=
  data ← evidence_state state ["name"; "version"];
  name ← evidence_text (item data "name"); version ← evidence_text (item data "version");
  tool_post_init {| tv_name := name; tv_version := version |}.
Record EnvironmentFingerprint := { ef_host_receipt_digest : Digest; ef_tool_versions : list ToolVersion }.
#[export] Instance EnvironmentFingerprint_eq_dec : EqDecision EnvironmentFingerprint.
Proof. solve_decision. Defined.
Definition tool_le (a b : ToolVersion) : Prop := String.le (tv_name a) (tv_name b).
#[export] Instance tool_le_dec a b : Decision (tool_le a b).
Proof. unfold tool_le. apply _. Defined.
Definition environment_post_init (e : EnvironmentFingerprint) : result EnvironmentFingerprint :=
  raise_when is_nil (ef_tool_versions e) || negb (bool_decide (NoDup (map tv_name (ef_tool_versions e)))) as InvalidInputError ;;
  Ok {| ef_host_receipt_digest := ef_host_receipt_digest e; ef_tool_versions := py_sort tool_le (ef_tool_versions e) |}.
Definition environment_state (e : EnvironmentFingerprint) : json := JObj [
  ("host_receipt_digest", JStr (digest_str (ef_host_receipt_digest e)));
  ("tool_versions", JList (map tool_state (ef_tool_versions e)))].
Definition environment_from_state (state : json) : result EnvironmentFingerprint :=
  data ← evidence_state state ["host_receipt_digest"; "tool_versions"];
  digest ← evidence_digest (item data "host_receipt_digest");
  items ← evidence_items (item data "tool_versions"); tools ← mapM_result tool_from_state items;
  environment_post_init {| ef_host_receipt_digest := digest; ef_tool_versions := tools |}.
Record ObserverIdentity := { oi_identity : string; oi_kind : ObserverKind; oi_version : string; oi_mock : bool }.
#[export] Instance ObserverIdentity_eq_dec : EqDecision ObserverIdentity.
Proof. solve_decision. Defined.
Definition observer_post_init (o : ObserverIdentity) : result ObserverIdentity :=
  _ ← bounded_text (oi_identity o); _ ← bounded_text (oi_version o); Ok o.
Definition observer_state (o : ObserverIdentity) : json := JObj [
  ("identity", JStr (oi_identity o)); ("kind", JStr (enum_value (oi_kind o))); ("version", JStr (oi_version o));
  ("mock", JBool (oi_mock o))].
Definition observer_from_state (state : json) : result ObserverIdentity :=
  data ← evidence_state state ["identity"; "kind"; "version"; "mock"];
  mock ← evidence_flag (item data "mock");
  identity ← evidence_text (item data "identity"); kind ← known_member (item data "kind");
  version ← evidence_text (item data "version");
  observer_post_init {| oi_identity := identity; oi_kind := kind; oi_version := version; oi_mock := mock |}.
Record MediaDecodeResult := {
  md_status : DecodeStatus; md_decoder : string; md_width : option Z; md_height : option Z; md_reason : option string }.
#[export] Instance MediaDecodeResult_eq_dec : EqDecision MediaDecodeResult.
Proof. solve_decision. Defined.
Definition bad_dimension (d : option Z) : bool := from_option (fun z => z <=? 0)%Z false d.
Definition optional_bounded (o : option string) : result (option string) :=
  match o with Some s => s ← bounded_text s; Ok (Some s) | None => Ok None end.
Definition decode_post_init (d : MediaDecodeResult) : result MediaDecodeResult :=
  _ ← bounded_text (md_decoder d);
  raise_when negb (Bool.eqb (none (md_width d)) (none (md_height d))) as InvalidInputError ;;
  raise_when bad_dimension (md_width d) || bad_dimension (md_height d) as InvalidInputError ;;
  _ ← optional_bounded (md_reason d);
  raise_when bool_decide (md_status d = DECODE_INVALID) && none (md_reason d) as InvalidInputError ;;
  raise_when negb (bool_decide (md_status d = DECODE_INVALID)) && negb (none (md_reason d)) as InvalidInputError ;;
  raise_when bool_decide (md_status d = NOT_DECODED) && negb (none (md_width d)) as InvalidInputError ;;
  Ok d.
Definition decode_state (d : MediaDecodeResult) : json := JObj [
  ("status", JStr (enum_value (md_status d))); ("decoder", JStr (md_decoder d));
  ("width", from_option JInt JNull (md_width d)); ("height", from_option JInt JNull (md_height d));
  ("reason", control_value (md_reason d))].
Definition optional_evidence_text (value : json) : result (option string) :=
  match value with JNull => Ok None | v => s ← evidence_text v; Ok (Some s) end.
Definition decode_from_state (state : json) : result MediaDecodeResult :=
  data ← evidence_state state ["status"; "decoder"; "width"; "height"; "reason"];
  width ← optional_integer (item data "width"); height ← optional_integer (item data "height");
  status ← known_member (item data "status"); decoder ← evidence_text (item data "decoder");
  reason ← optional_evidence_text (item data "reason");
  decode_post_init {| md_status := status; md_decoder := decoder; md_width := width; md_height := height; md_reason := reason |}.
Record CaptureArtifact := { ca_digest : Digest; ca_media_type : string; ca_size_bytes : Z; ca_decode : MediaDecodeResult }.
#[export] Instance CaptureArtifact_eq_dec : EqDecision CaptureArtifact.
Proof. solve_decision. Defined.
Definition png (a : CaptureArtifact) : bool := String.eqb (ca_media_type a) "image/png".
Definition artifact_post_init (a : CaptureArtifact) : result CaptureArtifact :=
  raise_when negb (regex_fullmatch MEDIA_TYPE (ca_media_type a)) as InvalidInputError ;;
  raise_when negb ((0 <=? ca_size_bytes a)%Z && (ca_size_bytes a <=? MAX_EVIDENCE_BYTES)%Z) as InvalidInputError ;;
  raise_when png a && bool_decide (md_status (ca_decode a) = NOT_DECODED) as InvalidInputError ;;
  raise_when png a && bool_decide (md_status (ca_decode a) = DECODABLE) && none (md_width (ca_decode a)) as InvalidInputError ;;
  Ok a.
Definition artifact_state (a : CaptureArtifact) : json := JObj [
  ("digest", JStr (digest_str (ca_digest a))); ("media_type", JStr (ca_media_type a)); ("size_bytes", JInt (ca_size_bytes a));
  ("decode", decode_state (ca_decode a))].
Definition artifact_from_state (state : json) : result CaptureArtifact :=
  data ← evidence_state state ["digest"; "media_type"; "size_bytes"; "decode"];
  size ← match item data "size_bytes" with JInt z => Ok z | _ => Err InvalidInputError end;
  digest ← evidence_digest (item data "digest"); media ← evidence_text (item data "media_type");
  decode ← decode_from_state (item data "decode");
  artifact_post_init {| ca_digest := digest; ca_media_type := media; ca_size_bytes := size; ca_decode := decode |}.
(** [CaptureManifest]: its artifacts *)
Definition manifest_post_init (l : list CaptureArtifact) : result (list CaptureArtifact) :=
  raise_when is_nil l || (256 <? length l)%nat as InvalidInputError ;; Ok l.
Definition capture_manifest_state (l : list CaptureArtifact) : json := JObj [("artifacts", JList (map artifact_state l))].
Definition capture_manifest_from_state (state : json) : result (list CaptureArtifact) :=
  data ← evidence_state state ["artifacts"];
  items ← evidence_items (item data "artifacts"); artifacts ← mapM_result artifact_from_state items;
  manifest_post_init artifacts.
Record AssertionOutcome := { ao_assertion_id : string; ao_result : EvidenceResult; ao_ran : bool; ao_skipped : bool }.
#[export] Instance AssertionOutcome_eq_dec : EqDecision AssertionOutcome.
Proof. solve_decision. Defined.
Definition assertion_outcome_post_init (o : AssertionOutcome) : result AssertionOutcome :=
  _ ← bounded_text (ao_assertion_id o);
  raise_when bool_decide (ao_result o = EV_PASS) && (negb (ao_ran o) || ao_skipped o) as InvalidInputError ;; Ok o.
Definition assertion_outcome_state (o : AssertionOutcome) : json := JObj [
  ("assertion_id", JStr (ao_assertion_id o)); ("result", JStr (enum_value (ao_result o))); ("ran", JBool (ao_ran o));
  ("skipped", JBool (ao_skipped o))].
Definition assertion_outcome_from_state (state : json) : result AssertionOutcome :=
  data ← evidence_state state ["assertion_id"; "result"; "ran"; "skipped"];
  ran ← evidence_flag (item data "ran"); skipped ← evidence_flag (item data "skipped");
  id ← evidence_text (item data "assertion_id"); result ← known_member (item data "result");
  assertion_outcome_post_init {| ao_assertion_id := id; ao_result := result; ao_ran := ran; ao_skipped := skipped |}.
Record EvidenceReceipt := {
  er_source_revision : string; er_base_revision : string; er_head_revision : string; er_build : BuildIdentity;
  er_configuration_snapshot_digest : Digest; er_evaluator : EvaluatorIdentity; er_environment : EnvironmentFingerprint;
  er_observer : ObserverIdentity; er_artifacts : list CaptureArtifact; er_started_at : datetime; er_ended_at : datetime;
  er_category : ReceiptCategory; er_result : option EvidenceResult; er_input_receipt_digests : list Digest;
  er_assertion_outcomes : list AssertionOutcome }.
Definition evidence_receipt_post_init (r : EvidenceReceipt) : result EvidenceReceipt :=
  _ ← bounded_text (er_source_revision r); _ ← bounded_text (er_base_revision r); _ ← bounded_text (er_head_revision r);
  raise_when negb (tz_aware (er_started_at r)) || negb (tz_aware (er_ended_at r)) as InvalidInputError ;;
  early ← dt_lt (er_ended_at r) (er_started_at r);
  raise_when (early : bool) as InvalidInputError ;;
  raise_when negb (bool_decide (NoDup (map ao_assertion_id (er_assertion_outcomes r)))) as InvalidInputError ;;
  _ ← (if bool_decide (er_category r = EVALUATED_VERDICT) then
         raise_when none (er_result r) as InvalidInputError ;;
         raise_when negb (bool_decide (oi_kind (er_observer r) = BY_EVALUATOR)) || is_nil (er_input_receipt_digests r)
           as InvalidInputError ;;
         raise_when bool_decide (er_result r = Some EV_PASS) && (oi_mock (er_observer r) || is_nil (er_assertion_outcomes r) ||
                    existsb (fun o => negb (bool_decide (ao_result o = EV_PASS))) (er_assertion_outcomes r)) as InvalidInputError ;;
         Ok ()
       else raise_when negb (none (er_result r)) as InvalidInputError ;; Ok ());
  raise_when bool_decide (er_category r = WORKER_CLAIM) && negb (bool_decide (oi_kind (er_observer r) = BY_WORKER))
    as InvalidInputError ;;
  raise_when bool_decide (er_category r = INSTRUMENT_OBSERVATION) && bool_decide (oi_kind (er_observer r) ∈ [BY_WORKER; BY_EVALUATOR])
    as InvalidInputError ;;
  Ok r.
Section Receipts.
Context `{rt : PyRuntime} `{iso : IsoCodec}.
Definition evidence_receipt_state (r : EvidenceReceipt) : json := JObj [
  ("schema_version", JInt RECEIPT_SCHEMA_VERSION); ("source_revision", JStr (er_source_revision r));
  ("base_revision", JStr (er_base_revision r)); ("head_revision", JStr (er_head_revision r)); ("build", build_state (er_build r));
  ("configuration_snapshot_digest", JStr (digest_str (er_configuration_snapshot_digest r)));
  ("evaluator", evaluator_state (er_evaluator r)); ("environment", environment_state (er_environment r));
  ("observer", observer_state (er_observer r)); ("capture_manifest", capture_manifest_state (er_artifacts r));
  ("started_at", JStr (isoformat (er_started_at r))); ("ended_at", JStr (isoformat (er_ended_at r)));
  ("category", JStr (enum_value (er_category r)));
  ("result", control_value (enum_value <$> er_result r));
  ("input_receipt_digests", json_texts (map digest_str (er_input_receipt_digests r)));
  ("assertion_outcomes", JList (map assertion_outcome_state (er_assertion_outcomes r)))].
Definition evidence_receipt_digest (r : EvidenceReceipt) : result Digest := digest_of_json (evidence_receipt_state r).
Definition RECEIPT_FIELDS : list string := ["schema_version"; "source_revision"; "base_revision"; "head_revision"; "build";
  "configuration_snapshot_digest"; "evaluator"; "environment"; "observer"; "capture_manifest"; "started_at"; "ended_at"; "category";
  "result"; "input_receipt_digests"; "assertion_outcomes"].
Definition optional_result (value : json) : result (option EvidenceResult) :=
  match value with JNull => Ok None | v => r ← known_member v; Ok (Some r) end.
Definition evidence_receipt_from_state (state : json) : result EvidenceReceipt :=
  data ← evidence_state state RECEIPT_FIELDS;
  raise_when match item data "schema_version" with JInt z => negb (z =? RECEIPT_SCHEMA_VERSION)%Z | _ => true end
    as InvalidInputError ;;
  source ← evidence_text (item data "source_revision"); base ← evidence_text (item data "base_revision");
  head ← evidence_text (item data "head_revision"); build ← build_from_state (item data "build");
  config ← evidence_digest (item data "configuration_snapshot_digest");
  evaluator ← evaluator_from_state (item data "evaluator"); environment ← environment_from_state (item data "environment");
  observer ← observer_from_state (item data "observer"); artifacts ← capture_manifest_from_state (item data "capture_manifest");
  started ← evidence_time (item data "started_at"); ended ← evidence_time (item data "ended_at");
  category ← known_member (item data "category"); result ← optional_result (item data "result");
  input_items ← evidence_items (item data "input_receipt_digests"); inputs ← mapM_result evidence_digest input_items;
  outcome_items ← evidence_items (item data "assertion_outcomes");
  outcomes ← mapM_result assertion_outcome_from_state outcome_items;
  evidence_receipt_post_init {| er_source_revision := source; er_base_revision := base; er_head_revision := head;
    er_build := build; er_configuration_snapshot_digest := config; er_evaluator := evaluator; er_environment := environment;
    er_observer := observer; er_artifacts := artifacts; er_started_at := started; er_ended_at := ended; er_category := category;
    er_result := result; er_input_receipt_digests := inputs; er_assertion_outcomes := outcomes |}.

(** ** Calibration ([application/behavioral_calibration.py]) *)
Definition CALIBRATION_DRIVER : string := "enginery-protected-calibration".
Record AcceptanceInputs := {
  in_source_revision : string; in_base_revision : string; in_head_revision : string; in_build : BuildIdentity;
  in_configuration_snapshot_digest : Digest; in_evaluator : EvaluatorIdentity; in_environment : EnvironmentFingerprint }.
Definition inputs_state (i : AcceptanceInputs) : json := JObj [
  ("source_revision", JStr (in_source_revision i)); ("base_revision", JStr (in_base_revision i));
  ("head_revision", JStr (in_head_revision i)); ("build", build_state (in_build i));
  ("configuration_snapshot_digest", JStr (digest_str (in_configuration_snapshot_digest i)));
  ("evaluator", evaluator_state (in_evaluator i)); ("environment", environment_state (in_environment i))].
Definition inputs_match (i : AcceptanceInputs) (r : EvidenceReceipt) : bool :=
  String.eqb (er_source_revision r) (in_source_revision i) && String.eqb (er_base_revision r) (in_base_revision i) &&
  String.eqb (er_head_revision r) (in_head_revision i) && bool_decide (er_build r = in_build i) &&
  bool_decide (er_configuration_snapshot_digest r = in_configuration_snapshot_digest i) &&
  bool_decide (er_evaluator r = in_evaluator i) && bool_decide (er_environment r = in_environment i).
Definition CLASSIFICATIONS : list string := ["caught"; "escaped"; "not_injected"; "inconclusive"].
Record CalibrationOutcome := {
  co_assertion_id : string; co_fault_class : string; co_classification : string; co_rung : option string; co_applied : bool;
  co_baseline_result : option EvidenceResult; co_fault_result : option EvidenceResult;
  co_baseline_receipt_digest : option Digest; co_observation_receipt_digest : option Digest; co_reason : option string }.
Definition calibration_outcome_post_init (o : CalibrationOutcome) : result CalibrationOutcome :=
  raise_when String.eqb (co_assertion_id o) "" || (256 <? py_len (co_assertion_id o))%Z as InvalidInputError ;;
  raise_when negb (bool_decide (co_fault_class o ∈ FAULT_CLASSES)) as InvalidInputError ;;
  raise_when negb (bool_decide (co_classification o ∈ CLASSIFICATIONS)) as InvalidInputError ;;
  raise_when negb (bool_decide (co_rung o ∈ [None; Some "binding_identity"; Some "observer"; Some "evaluator"])) as InvalidInputError ;;
  raise_when bool_decide (co_classification o ∈ ["caught"; "escaped"]) && negb (co_applied o) as InvalidInputError ;;
  raise_when String.eqb (co_classification o) "not_injected" && co_applied o as InvalidInputError ;;
  raise_when negb (Bool.eqb (String.eqb (co_classification o) "caught") (negb (none (co_rung o)))) as InvalidInputError ;;
  raise_when from_option (fun s => (512 <? py_len s)%Z || String.eqb s "") false (co_reason o) as InvalidInputError ;;
  Ok o.
Definition calibration_outcome_state (o : CalibrationOutcome) : json := JObj [
  ("assertion_id", JStr (co_assertion_id o)); ("fault_class", JStr (co_fault_class o));
  ("classification", JStr (co_classification o)); ("rung", control_value (co_rung o)); ("applied", JBool (co_applied o));
  ("baseline_result", control_value (enum_value <$> co_baseline_result o));
  ("fault_result", control_value (enum_value <$> co_fault_result o));
  ("baseline_receipt_digest", control_value (digest_str <$> co_baseline_receipt_digest o));
  ("observation_receipt_digest", control_value (digest_str <$> co_observation_receipt_digest o));
  ("reason", control_value (co_reason o))].
Record CalibrationReceipt := {
  cr_receipt : EvidenceReceipt; cr_results : list CalibrationOutcome; cr_fixture_digest : Digest }.
Definition outcome_key (o : CalibrationOutcome) : string * string := (co_assertion_id o, co_fault_class o).
Definition calibration_post_init (c : CalibrationReceipt) : result CalibrationReceipt :=
  raise_when negb (bool_decide (NoDup (map outcome_key (cr_results c)))) as InvalidInputError ;; Ok c.
Definition calibration_payload (c : CalibrationReceipt) : json := JObj [
  ("schema_version", JInt 1); ("fixture_digest", JStr (digest_str (cr_fixture_digest c)));
  ("results", JList (map calibration_outcome_state (cr_results c)))].
Definition calibration_state (c : CalibrationReceipt) : json := JObj [
  ("schema_version", JInt 1); ("fixture_digest", JStr (digest_str (cr_fixture_digest c)));
  ("results", JList (map calibration_outcome_state (cr_results c))); ("receipt", evidence_receipt_state (cr_receipt c))].
Definition CALIBRATION_OUTCOME_FIELDS : list string := ["assertion_id"; "fault_class"; "classification"; "rung"; "applied";
  "baseline_result"; "fault_result"; "baseline_receipt_digest"; "observation_receipt_digest"; "reason"].
(** [_digest] of the calibration: any text after the prefix is given to [Digest]. *)
Definition calibration_digest (value : json) : result Digest :=
  match value with
  | JStr s => raise_when negb (py_startswith "sha256:" s) as InvalidInputError ;; mk_digest "sha256" (of_chars (drop 7 (chars s)))
  | _ => Err InvalidInputError end.
Definition optional_calibration_digest (value : json) : result (option Digest) :=
  match value with JNull => Ok None | v => d ← calibration_digest v; Ok (Some d) end.
(** A member of a set of texts: an unhashable value is a [TypeError], another is no member. *)
Definition literal_text (value : json) : result string :=
  match value with JStr s => Ok s | JList _ | JObj _ => Err PyTypeError | _ => Err InvalidInputError end.
Definition optional_literal (value : json) : result (option string) :=
  match value with JNull => Ok None | v => s ← literal_text v; Ok (Some s) end.
Definition optional_text_value (value : json) : result (option string) :=
  match value with JNull => Ok None | JStr s => Ok (Some s) | _ => Err InvalidInputError end.
Definition calibration_outcome_from_state (state : json) : result CalibrationOutcome :=
  data ← evidence_state state CALIBRATION_OUTCOME_FIELDS;
  id ← match item data "assertion_id" with JStr s => Ok s | _ => Err InvalidInputError end;
  applied ← evidence_flag (item data "applied");
  reason ← optional_text_value (item data "reason");
  baseline ← optional_result (item data "baseline_result"); fault_result ← optional_result (item data "fault_result");
  baseline_digest ← optional_calibration_digest (item data "baseline_receipt_digest");
  observation_digest ← optional_calibration_digest (item data "observation_receipt_digest");
  raise_when String.eqb id "" || (256 <? py_len id)%Z as InvalidInputError ;;
  fault ← literal_text (item data "fault_class");
  raise_when negb (bool_decide (fault ∈ FAULT_CLASSES)) as InvalidInputError ;;
  classification ← literal_text (item data "classification");
  raise_when negb (bool_decide (classification ∈ CLASSIFICATIONS)) as InvalidInputError ;;
  rung ← optional_literal (item data "rung");
  calibration_outcome_post_init {| co_assertion_id := id; co_fault_class := fault; co_classification := classification;
    co_rung := rung; co_applied := applied; co_baseline_result := baseline; co_fault_result := fault_result;
    co_baseline_receipt_digest := baseline_digest; co_observation_receipt_digest := observation_digest; co_reason := reason |}.
Definition calibration_from_state (state : json) : result CalibrationReceipt :=
  data ← evidence_state state ["schema_version"; "fixture_digest"; "results"; "receipt"];
  raise_when match item data "schema_version" with JInt z => negb (z =? 1)%Z | _ => true end as InvalidInputError ;;
  items ← evidence_items (item data "results");
  receipt ← evidence_receipt_from_state (item data "receipt");
  results ← mapM_result calibration_outcome_from_state items;
  fixture ← calibration_digest (item data "fixture_digest");
  calibration_post_init {| cr_receipt := receipt; cr_results := results; cr_fixture_digest := fixture |}.

(** ** Observations ([application/behavioral_observation.py]); bytes are lists of numbers *)
Record ObservationData := {
  od_observer : string; od_returncode : option Z; od_stdout : string; od_stderr : string; od_body : string;
  od_produced_files : list (string * string); od_dom_results : list (Z * bool); od_captures : list (string * list N);
  od_started_at : string; od_ended_at : string; od_infrastructure_error : option string; od_mock : bool; od_ran : bool;
  od_skipped : bool; od_runner_receipt_digest : option Digest }.

(** ** Evaluation ([evidence/behavioral.py]) *)
Record ObservedCheck := { oc_check_name : string; oc_data : ObservationData; oc_receipt : EvidenceReceipt }.
Record BehavioralEvaluation := {
  be_result : EvidenceResult; be_assertion_outcomes : list AssertionOutcome; be_holds : list string }.
Definition canonical_bytes (payload : json) : result (list N) :=
  let data := utf8 (json_dumps payload) in
  raise_when (MAX_EVIDENCE_BYTES <? Z.of_nat (length data))%Z as InvalidInputError ;; Ok data.
Definition capture_payload (c : string * list N) : result json :=
  digest ← digest_of_bytes c.2;
  Ok (JObj [("media_type", JStr c.1); ("digest", JStr (digest_str digest)); ("size_bytes", JInt (Z.of_nat (length c.2)))]).
Definition observation_payload (d : ObservationData) : result json :=
  captures ← mapM_result capture_payload (od_captures d);
  Ok (JObj [("observer", JStr (od_observer d)); ("returncode", from_option JInt JNull (od_returncode d));
    ("stdout", JStr (od_stdout d)); ("stderr", JStr (od_stderr d)); ("body", JStr (od_body d));
    ("produced_files", JList (map (fun '(path, content) => JList [JStr path; JStr content]) (od_produced_files d)));
    ("dom_results", JList (map (fun '(index, r) => JList [JInt index; JBool r]) (od_dom_results d)));
    ("captures", JList captures); ("started_at", JStr (od_started_at d)); ("ended_at", JStr (od_ended_at d));
    ("infrastructure_error", control_value (od_infrastructure_error d)); ("mock", JBool (od_mock d)); ("ran", JBool (od_ran d));
    ("skipped", JBool (od_skipped d));
    ("runner_receipt_digest", control_value (digest_str <$> od_runner_receipt_digest d))]).
Definition assertion_id (check : BehavioralCheck) (index : nat) : string := bc_name check +:+ ":" +:+ pretty index.
Definition fault_applies (a : BehavioralAssertion) (fault : string) : bool :=
  if String.eqb fault "wrong_build" then true
  else if String.eqb fault "skipped_persistence" then
    String.eqb (ba_kind a) "produced_file" && negb (String.eqb (ba_operator a) "exists" && match ba_expected a with JBool false => true | _ => false end)
  else bool_decide (ba_kind a ∈ ["exit_status"; "stdout"; "stderr"; "body"; "dom"]).
(** [dict(pairs).get(key)]: the last pair counts. *)
Definition last_of {K V} `{EqDecision K} (key : K) (pairs : list (K * V)) : option V :=
  snd <$> List.find (fun p => bool_decide (p.1 = key)) (rev pairs).
Definition available (check : BehavioralCheck) (d : ObservationData) : bool :=
  od_ran d && negb (od_skipped d) && negb (od_mock d) && none (od_infrastructure_error d) &&
  String.eqb (od_observer d) (bc_observer check) && bool_decide (NoDup (map fst (od_produced_files d))) &&
  bool_decide (NoDup (map fst (od_dom_results d))).
(** What was observed where an assertion looks, and whether anything was. *)
Definition observed_value (d : ObservationData) (index : nat) (a : BehavioralAssertion) : bool * json :=
  let k := ba_kind a in
  if String.eqb k "exit_status" then (negb (none (od_returncode d)), from_option JInt JNull (od_returncode d))
  else if String.eqb k "stdout" then (true, JStr (od_stdout d))
  else if String.eqb k "stderr" then (true, JStr (od_stderr d))
  else if String.eqb k "body" then (true, JStr (od_body d))
  else if String.eqb k "produced_file" then
    (from_option (fun p => negb (none (last_of p (od_produced_files d)))) false (ba_path a),
     from_option JStr JNull (last_of (default "" (ba_path a)) (od_produced_files d)))
  else if String.eqb k "dom" then
    (negb (none (last_of (Z.of_nat index) (od_dom_results d))), from_option JBool JNull (last_of (Z.of_nat index) (od_dom_results d)))
  else (true, JNull).
Definition verdict (holds : bool) : EvidenceResult := if holds then EV_PASS else EV_FAIL.
(** The result of one comparison and whether it ran. *)
Definition evaluate_assertion (d : ObservationData) (index : nat) (a : BehavioralAssertion) : EvidenceResult * bool :=
  let '(present, value) := observed_value d index a in
  if String.eqb (ba_kind a) "dom" then
    (if present then verdict match value with JBool true => true | _ => false end else EV_INDETERMINATE, present)
  else if String.eqb (ba_operator a) "exists" then (verdict (json_eqb (JBool present) (ba_expected a)), true)
  else if negb present then
    (if String.eqb (ba_kind a) "produced_file" then EV_FAIL else EV_INDETERMINATE, String.eqb (ba_kind a) "produced_file")
  else if String.eqb (ba_operator a) "equals" then (verdict (json_eqb value (ba_expected a)), true)
  else (verdict match value, ba_expected a with
                | JStr v, JStr e => has_text (chars e) (chars v) | _, _ => false end, true).
Definition assertion_outcome (check : BehavioralCheck) (d : ObservationData) (index : nat) (a : BehavioralAssertion)
    : result AssertionOutcome :=
  let '(r, ran) := if available check d then evaluate_assertion d index a else (EV_INDETERMINATE, false) in
  assertion_outcome_post_init {| ao_assertion_id := assertion_id check index; ao_result := r; ao_ran := ran;
                                 ao_skipped := od_skipped d |}.
Definition evaluate_assertions (check : BehavioralCheck) (d : ObservationData) : result (list AssertionOutcome) :=
  mapM_result (fun '(index, a) => assertion_outcome check d index a) (imap pair (bc_assertions check)).
Definition not_evaluated (check : BehavioralCheck) : result (list AssertionOutcome) :=
  mapM_result (fun '(index, _) => assertion_outcome_post_init {| ao_assertion_id := assertion_id check index;
    ao_result := EV_INDETERMINATE; ao_ran := false; ao_skipped := false |}) (imap pair (bc_assertions check)).
Definition classify_calibration (applied : bool) (baseline_result fault_result : option EvidenceResult)
    (infrastructure_error : option string) (binding_rejected binding_accepted observer_rejected : bool)
    : string * option string :=
  if negb applied then ("not_injected", None)
  else if negb (none infrastructure_error) || negb (bool_decide (baseline_result = Some EV_PASS)) then ("inconclusive", None)
  else if binding_rejected then ("caught", Some "binding_identity")
  else if binding_accepted then ("escaped", None)
  else if observer_rejected then ("caught", Some "observer")
  else if bool_decide (fault_result = Some EV_FAIL) then ("caught", Some "evaluator")
  else if bool_decide (fault_result = Some EV_PASS) then ("escaped", None)
  else ("inconclusive", None).
(** The outcome of a calibration recorded for an assertion and a fault. *)
Definition calibrated (results : list CalibrationOutcome) (id fault : string) : option CalibrationOutcome :=
  List.find (fun o => bool_decide (outcome_key o = (id, fault))) (rev results).
Definition required_rung (fault : string) : string := if String.eqb fault "wrong_build" then "binding_identity" else "evaluator".
Definition catches (references : list Digest) (fault : string) (o : CalibrationOutcome) : bool :=
  String.eqb (co_classification o) "caught" && co_applied o && bool_decide (co_rung o = Some (required_rung fault)) &&
  bool_decide (co_baseline_result o = Some EV_PASS) && from_option (fun d => bool_decide (d ∈ references)) false (co_baseline_receipt_digest o) &&
  from_option (fun d => bool_decide (d ∈ references)) false (co_observation_receipt_digest o) &&
  (String.eqb fault "wrong_build" || bool_decide (co_fault_result o = Some EV_FAIL)).
(** One assertion under one fault: what it holds back, and whether it catches the fault. *)
Definition assertion_catch (results : list CalibrationOutcome) (references : list Digest) (check : BehavioralCheck)
    (fault : string) (index : nat) (a : BehavioralAssertion) : result (list string * bool) :=
  outcome ← from_option_err PyKeyError (calibrated results (assertion_id check index) fault);
  Ok (if negb (fault_applies a fault) then
        (if negb (String.eqb (co_classification outcome) "not_injected") || co_applied outcome
         then ["behavioral_calibration_invalid_injection"] else [], false)
      else if catches references fault outcome then ([], true)
      else (["behavioral_calibration_" +:+ co_classification outcome], false)).
Definition fault_holds (results : list CalibrationOutcome) (references : list Digest) (check : BehavioralCheck) (fault : string)
    : result (list string) :=
  found ← mapM_result (fun '(index, a) => assertion_catch results references check fault index a) (imap pair (bc_assertions check));
  Ok (concat (map fst found) ++ (if existsb snd found then [] else ["behavioral_calibration_no_relevant_catch"])).
Definition semantic_catch (id : string) (o : CalibrationOutcome) : bool :=
  String.eqb (co_assertion_id o) id && bool_decide (co_fault_class o ∈ ["constant_result"; "skipped_persistence"]) &&
  String.eqb (co_classification o) "caught" && bool_decide (co_rung o = Some "evaluator") && co_applied o &&
  bool_decide (co_baseline_result o = Some EV_PASS) && bool_decide (co_fault_result o = Some EV_FAIL).
Definition check_catches (results : list CalibrationOutcome) (references : list Digest) (check : BehavioralCheck)
    : result (list string) :=
  holds ← mapM_result (fault_holds results references check) (bc_fault_classes check);
  Ok (concat holds ++ concat (imap (fun index _ =>
    if existsb (semantic_catch (assertion_id check index)) results then []
    else ["behavioral_calibration_semantic_catch_required"]) (bc_assertions check))).
Definition expected_keys (checks : list BehavioralCheck) : list (string * string) :=
  concat (map (fun check => concat (imap (fun index _ => map (fun fault => (assertion_id check index, fault))
    (bc_fault_classes check)) (bc_assertions check))) checks).
Definition same_keys (a b : list (string * string)) : bool :=
  forallb (fun x => bool_decide (x ∈ b)) a && forallb (fun x => bool_decide (x ∈ a)) b.
Definition calibration_holds (checks : list BehavioralCheck) (inputs : AcceptanceInputs) (calibration : option CalibrationReceipt)
    : result (list string) :=
  match calibration with
  | None => Ok ["behavioral_calibration_required"]
  | Some c =>
      let receipt := cr_receipt c in
      if negb (inputs_match inputs receipt) || negb (bool_decide (er_category receipt = INSTRUMENT_OBSERVATION)) ||
         negb (String.eqb (oi_identity (er_observer receipt)) CALIBRATION_DRIVER) ||
         negb (bool_decide (oi_kind (er_observer receipt) = BY_COMMAND)) || oi_mock (er_observer receipt) ||
         negb (String.eqb (oi_version (er_observer receipt)) (ev_version (in_evaluator inputs)))
      then Ok ["behavioral_calibration_stale"]
      else
        let captures := map ca_digest (er_artifacts receipt) in
        payload ← digest_of_json (calibration_payload c);
        if negb (bool_decide (payload ∈ captures)) || negb (bool_decide (cr_fixture_digest c ∈ captures))
        then Ok ["behavioral_calibration_capture_mismatch"]
        else if negb (same_keys (map outcome_key (cr_results c)) (expected_keys checks)) ||
                negb (bool_decide (NoDup (map outcome_key (cr_results c))))
        then Ok ["behavioral_calibration_incomplete"]
        else
          holds ← mapM_result (check_catches (cr_results c) (er_input_receipt_digests receipt)) checks;
          Ok (fromkeys (concat holds))
  end.
(** Each cause contributes its reason. *)
Definition cause (found : bool) (reason : string) : list string := if found then [reason] else [].
Definition observation_times (d : ObservationData) (r : EvidenceReceipt) : bool :=
  match fromisoformat (od_started_at d), fromisoformat (od_ended_at d) with
  | Some s, Some e => bool_decide (s = er_started_at r) && bool_decide (e = er_ended_at r) | _, _ => false end.
Definition captured_payload (d : ObservationData) (artifacts : list CaptureArtifact) : result (list string) :=
  match payload ← observation_payload d; bytes ← canonical_bytes payload; digest_of_bytes bytes with
  | Ok captured => Ok (cause (negb (bool_decide (captured ∈ map ca_digest artifacts))) "behavioral_observation_capture_mismatch")
  | Err InvalidInputError => Ok ["behavioral_capture_exceeds_bound"]
  | Err e => Err e
  end.
Definition capture_kept (artifacts : list CaptureArtifact) (c : string * list N) : bool :=
  existsb (fun a => match digest_of_bytes c.2 with Ok digest => bool_decide (digest = ca_digest a) | Err _ => false end && String.eqb (ca_media_type a) c.1 &&
                    (ca_size_bytes a =? Z.of_nat (length c.2))%Z) artifacts.
Definition observation_holds (check : BehavioralCheck) (observed : ObservedCheck) (inputs : AcceptanceInputs)
    : result (list string) :=
  let r := oc_receipt observed in let d := oc_data observed in let artifacts := er_artifacts r in
  captured ← captured_payload d artifacts;
  Ok (cause (negb (bool_decide (er_category r = INSTRUMENT_OBSERVATION))) "behavioral_worker_claim_not_evidence" ++
      cause (negb (inputs_match inputs r)) "behavioral_observation_stale" ++
      cause (negb (String.eqb (enum_value (oi_kind (er_observer r))) (bc_observer check)) ||
             negb (String.eqb (od_observer d) (bc_observer check)) || oi_mock (er_observer r) || od_mock d)
        "behavioral_observer_untrusted" ++
      cause (negb (od_ran d) || od_skipped d) "behavioral_assertion_not_run" ++
      from_option (fun e => [(py_partition colon e).1]) [] (od_infrastructure_error d) ++
      cause (negb (String.eqb (oi_identity (er_observer r)) ("enginery-" +:+ bc_observer check +:+ "-observer")) ||
             negb (String.eqb (oi_version (er_observer r)) EVALUATOR_VERSION)) "behavioral_observer_untrusted" ++
      cause (negb (observation_times d r)) "behavioral_observation_time_mismatch" ++
      captured ++
      cause (existsb (fun a => bool_decide (md_status (ca_decode a) = DECODE_INVALID)) artifacts)
        "behavioral_capture_not_decodable" ++
      cause (negb (forallb (capture_kept artifacts) (od_captures d))) "behavioral_capture_missing" ++
      cause (String.eqb (bc_observer check) "browser" && negb (existsb (fun a => png a &&
             bool_decide (md_status (ca_decode a) = DECODABLE)) artifacts)) "behavioral_browser_capture_missing" ++
      cause (negb (bool_decide (NoDup (map fst (od_produced_files d)))) || negb (bool_decide (NoDup (map fst (od_dom_results d)))))
        "behavioral_observation_ambiguous").
Definition has_result (r : EvidenceResult) (l : list AssertionOutcome) : bool :=
  existsb (fun o => bool_decide (ao_result o = r)) l.
(** The result the reasons and the outcomes of the assertions leave. *)
Definition overall (holds : list string) (outcomes : list AssertionOutcome) : EvidenceResult :=
  if negb (is_nil holds) || is_nil outcomes || has_result EV_INDETERMINATE outcomes then EV_INDETERMINATE
  else if has_result EV_FAIL outcomes then EV_FAIL else EV_PASS.
Definition evaluate_observation (check : BehavioralCheck) (observed : ObservedCheck) (inputs : AcceptanceInputs)
    : result BehavioralEvaluation :=
  holds ← observation_holds check observed inputs;
  outcomes ← (if is_nil holds then evaluate_assertions check (oc_data observed) else not_evaluated check);
  Ok {| be_result := overall holds outcomes; be_assertion_outcomes := outcomes; be_holds := holds |}.
Definition observed_for (observations : list ObservedCheck) (name : string) : option ObservedCheck :=
  List.find (fun o => String.eqb (oc_check_name o) name) (rev observations).
Definition evaluate_check (inputs : AcceptanceInputs) (observations : list ObservedCheck) (check : BehavioralCheck)
    : result (list string * list AssertionOutcome) :=
  match observed_for observations (bc_name check) with
  | None => outcomes ← not_evaluated check; Ok (["behavioral_observation_missing"], outcomes)
  | Some observed => e ← evaluate_observation check observed inputs; Ok (be_holds e, be_assertion_outcomes e)
  end.
Definition declared_holds (checks : list BehavioralCheck) (inputs : AcceptanceInputs) (observations : list ObservedCheck)
    : result (list string) :=
  digest ← checks_digest checks;
  Ok (cause (is_nil checks || negb (existsb (fun c => negb (is_nil (bc_assertions c))) checks)) "no_behavioral_checks" ++
      cause (existsb (fun c => is_nil (bc_assertions c)) checks) "behavioral_zero_assertions" ++
      cause (existsb (fun c => is_nil (bc_fault_classes c)) checks) "behavioral_calibration_faults_missing" ++
      cause (negb (bool_decide (NoDup (map bc_name checks)))) "behavioral_check_identity_ambiguous" ++
      cause (negb (String.eqb (ev_version (in_evaluator inputs)) EVALUATOR_VERSION) ||
             negb (bool_decide (ev_assertion_set_digest (in_evaluator inputs) = digest))) "behavioral_evaluator_identity_mismatch" ++
      cause (negb (bool_decide (NoDup (map oc_check_name observations))) ||
             negb (same_set (map oc_check_name observations) (map bc_name checks))) "behavioral_observations_incomplete").
Definition failed_reasons (outcomes : list AssertionOutcome) : list string :=
  map (fun o => "behavioral_assertion_failed:" +:+ ao_assertion_id o)
    (List.filter (fun o => bool_decide (ao_result o = EV_FAIL)) outcomes).
Definition evaluate_behavioral (checks : list BehavioralCheck) (inputs : AcceptanceInputs) (observations : list ObservedCheck)
    (calibration : option CalibrationReceipt) : result BehavioralEvaluation :=
  declared ← declared_holds checks inputs observations;
  evaluated ← mapM_result (evaluate_check inputs observations) checks;
  let outcomes := concat (map snd evaluated) in
  let holds := declared ++ concat (map fst evaluated) ++
    cause (existsb (fun o => negb (ao_ran o) || ao_skipped o) outcomes) "behavioral_assertion_not_run" in
  let first := overall holds outcomes in
  if bool_decide (first = EV_FAIL) then
    Ok {| be_result := EV_FAIL; be_assertion_outcomes := outcomes; be_holds := failed_reasons outcomes |}
  else
    calibrating ← calibration_holds checks inputs calibration;
    let holds := holds ++ calibrating in
    Ok {| be_result := if is_nil holds then first else EV_INDETERMINATE; be_assertion_outcomes := outcomes;
          be_holds := fromkeys holds |}.
End Receipts.
