(* ===== verification/BehaviorProofs.v ===== *)
(** * What a behavioural evaluation rests on, and the stored forms of its records

    A passing result: every declared assertion holds on what a trusted, current
    observation shows, and the calibration caught the declared faults.  A failing result
    names assertions that do not hold, whatever the calibration.  The declared checks, the
    evidence receipts and the calibration receipts read back as they were stored. *)
From S2P Require Import Prelude PyText Json Identity IdentityProofs JsonCanon Lifecycles Regex Closures Checks Selections.
From S2P Require Import ProtectedPaths Runners Behavior.

(** ** Assertions and what they look at *)

(** The value an assertion compares. *)
Inductive at_assertion (d : ObservationData) (a : BehavioralAssertion) : json -> Prop :=
| At_exit z : ba_kind a = "exit_status" -> od_returncode d = Some z -> at_assertion d a (JInt z)
| At_stdout : ba_kind a = "stdout" -> at_assertion d a (JStr (od_stdout d))
| At_stderr : ba_kind a = "stderr" -> at_assertion d a (JStr (od_stderr d))
| At_body : ba_kind a = "body" -> at_assertion d a (JStr (od_body d))
| At_file path content : ba_kind a = "produced_file" -> ba_path a = Some path ->
    (path, content) ∈ od_produced_files d -> at_assertion d a (JStr content).
(** The assertion holds on the data. *)
Definition produced (d : ObservationData) (a : BehavioralAssertion) : Prop :=
  exists path content, ba_path a = Some path /\ (path, content) ∈ od_produced_files d.
Inductive shows (d : ObservationData) (index : nat) (a : BehavioralAssertion) : Prop :=
| Shows_dom : ba_kind a = "dom" -> (Z.of_nat index, true) ∈ od_dom_results d -> shows d index a
| Shows_exists b : ba_kind a = "produced_file" -> ba_operator a = "exists" -> ba_expected a = JBool b ->
    (b = true <-> produced d a) -> shows d index a
| Shows_equals : ba_operator a = "equals" -> at_assertion d a (ba_expected a) -> shows d index a
| Shows_contains before part after : ba_operator a = "contains" -> ba_expected a = JStr part ->
    at_assertion d a (JStr (before +:+ part +:+ after)) -> shows d index a.

(** What decoding a declared assertion guarantees. *)
Record declared_assertion (a : BehavioralAssertion) : Prop := {
  da_kind : ba_kind a ∈ ASSERTION_KINDS;
  da_operator : ba_operator a ∈ OPERATORS;
  da_expected : expected_holds (ba_kind a) (ba_operator a) (ba_expected a) = true;
  da_path : ba_kind a = "produced_file" -> exists p, ba_path a = Some p /\ declared_text (JStr p) = Ok p /\ relative_path p = true;
  da_no_path : ba_kind a <> "produced_file" -> ba_path a = None;
  da_selector : ba_kind a = "dom" -> exists p, ba_selector a = Some p /\ declared_text (JStr p) = Ok p;
  da_no_selector : ba_kind a <> "dom" -> ba_selector a = None;
}.
Lemma declared_text_Ok j s : declared_text j = Ok s -> j = JStr s.
Proof. destruct j; try done. intros H. unfold declared_text in H. inv_ok. done. Qed.
Lemma one_of_Ok names v s : one_of names v = Ok s -> v = JStr s /\ s ∈ names.
Proof.
  unfold one_of. intros H. destruct v; try discriminate H. inv_ok. split; [done|].
  match goal with H : negb _ = false |- _ => apply negb_false_iff, bool_decide_eq_true in H end. done.
Qed.
Lemma declared_assertion_of j a : assertion_from_state j = Ok a -> declared_assertion a.
Proof.
  unfold assertion_from_state. intros H. apply bind_Ok in H as (raw & _ & H). apply bind_Ok in H as (kind & Hk & H).
  apply bind_Ok in H as (u & _ & H). apply one_of_Ok in Hk as [_ Hk].
  destruct (List.filter _ OPERATORS) as [|o [|]] eqn:Ef; try discriminate H.
  apply raise_if_Ok in H as [He H]. apply bind_Ok in H as (path & Hp & H). apply bind_Ok in H as (sel & Hs & H).
  injection H as <-. split; cbn; [done| |by apply negb_false_iff| | | |].
  - assert (Hin : In o (List.filter (fun o => bool_decide (o ∈ map fst raw)) OPERATORS)) by (rewrite Ef; by left).
    apply filter_In in Hin as [Hin _]. by apply list_elem_of_In.
  - intros ->. cbn in Hp. apply bind_Ok in Hp as (p & Ht & Hp). apply raise_if_Ok in Hp as [Hr [= <-]]. exists p.
    apply negb_false_iff in Hr. pose proof (declared_text_Ok _ _ Ht) as Hd. by rewrite Hd in Ht.
  - intros Hn. apply String.eqb_neq in Hn. rewrite Hn in Hp. by injection Hp as <-.
  - intros ->. cbn in Hs. apply bind_Ok in Hs as (p & Ht & [= <-]). exists p.
    pose proof (declared_text_Ok _ _ Ht) as Hd. by rewrite Hd in Ht.
  - intros Hn. apply String.eqb_neq in Hn. rewrite Hn in Hs. by injection Hs as <-.
Qed.

(** ** Pairs *)
Lemma last_of_elem {K V} `{EqDecision K} (k : K) (v : V) l : last_of k l = Some v -> (k, v) ∈ l.
Proof.
  unfold last_of. destruct (List.find _ _) as [[k' v']|] eqn:E; [|done]. intros [= ->].
  apply find_some in E as [Hin Hk]. apply bool_decide_eq_true in Hk. cbn in Hk. subst.
  apply list_elem_of_In. by apply in_rev.
Qed.
Lemma last_of_unique {K V} `{EqDecision K} (k : K) (v : V) l : NoDup (map fst l) -> (k, v) ∈ l -> last_of k l = Some v.
Proof.
  intros Hd Hin. unfold last_of. destruct (List.find _ _) as [[k' v']|] eqn:E.
  - apply find_some in E as [Hin' Hk]. apply bool_decide_eq_true in Hk. cbn in Hk. subst k'. cbn. f_equal.
    apply in_rev, list_elem_of_In in Hin'. clear -Hd Hin Hin'.
    induction l as [|[k0 v0] l IH]; [by apply not_elem_of_nil in Hin|]. cbn in Hd. apply NoDup_cons in Hd as [Hn Hd].
    apply elem_of_cons in Hin, Hin'. destruct Hin as [Hin|Hin], Hin' as [Hin'|Hin']; simplify_eq/=; try done.
    + destruct Hn. apply list_elem_of_fmap. by exists (k0, v').
    + destruct Hn. apply list_elem_of_fmap. by exists (k0, v).
    + by apply IH.
  - eapply find_none in E; [|apply in_rev; rewrite rev_involutive; by apply list_elem_of_In].
    by apply bool_decide_eq_false in E.
Qed.
Lemma last_of_None {K V} `{EqDecision K} (k : K) (l : list (K * V)) v : last_of k l = None -> (k, v) ∉ l.
Proof.
  unfold last_of. destruct (List.find _ _) eqn:E; [done|]. intros _ Hin.
  eapply find_none in E; [|apply in_rev; rewrite rev_involutive; by apply list_elem_of_In].
  by apply bool_decide_eq_false in E.
Qed.

(** ** One comparison *)
Lemma has_text_iff part l : has_text part l = true <-> exists before after, l = before ++ part ++ after.
Proof.
  assert (Hp : forall l, bool_decide (part `prefix_of` l) = true <-> exists after, l = part ++ after) by
    (intros k; apply bool_decide_eq_true).
  induction l as [|c l IH]; cbn [has_text]; rewrite orb_true_iff, Hp.
  - split; [intros [[k ->]|]; [by exists [], k|done]|]. intros (b & k & H). left. exists k.
    symmetry in H. apply app_nil in H as [-> H]. by rewrite H.
  - rewrite IH. split.
    + intros [[k ->]|(b & k & ->)]; [by exists [], k|by exists (c :: b), k].
    + intros ([|x b] & k & H); [left; by exists k|]. right. injection H as -> ->. by exists b, k.
Qed.
Lemma text_contains part s : has_text (chars part) (chars s) = true <->
  exists before after, s = before +:+ part +:+ after.
Proof.
  rewrite has_text_iff. split.
  - intros (b & k & H). exists (of_chars b), (of_chars k). rewrite <- (of_chars_chars s), H.
    apply chars_inj. by rewrite !chars_app, !chars_of_chars.
  - intros (b & k & ->). exists (chars b), (chars k). by rewrite !chars_app.
Qed.
Definition unambiguous (d : ObservationData) : Prop :=
  NoDup (map fst (od_produced_files d)) /\ NoDup (map fst (od_dom_results d)).
Lemma file_at d path : NoDup (map fst (od_produced_files d)) ->
  match last_of path (od_produced_files d) with
  | Some content => forall c, (path, c) ∈ od_produced_files d <-> c = content
  | None => forall c, (path, c) ∉ od_produced_files d
  end.
Proof.
  intros Hd. destruct (last_of path _) eqn:E; intros c; [|by apply last_of_None]. split; [|by intros ->; apply last_of_elem].
  intros Hc. apply last_of_unique in Hc; [|done]. by simplify_eq.
Qed.
Ltac kinds Hk := unfold ASSERTION_KINDS, OPERATORS in Hk; rewrite ?elem_of_cons, ?elem_of_nil in Hk; destruct_or! Hk; subst; try done.
(** A comparison with text, given what the assertion looks at. *)
Lemma compare_text d i a v e : ba_expected a = JStr e -> (forall x, at_assertion d a x <-> x = JStr v) ->
  ba_kind a <> "dom" -> ba_operator a ∈ ["equals"; "contains"] ->
  (if String.eqb (ba_operator a) "equals" then String.eqb v e else has_text (chars e) (chars v)) = true <-> shows d i a.
Proof.
  intros He Ha Hk Ho. assert (Hc : ba_operator a = "equals" \/ ba_operator a = "contains") by set_solver.
  destruct Hc as [Hc|Hc]; rewrite Hc; cbn.
  - rewrite String.eqb_eq. split.
    + intros ->. apply Shows_equals; [done|]. by rewrite He, Ha.
    + intros []; try congruence. rewrite He, Ha in *. congruence.
  - rewrite text_contains. split.
    + intros (b & k & ->). eapply Shows_contains; [done..|]. by apply Ha.
    + intros [| | |b part k _ Hp Hat]; try congruence. apply Ha in Hat. exists b, k. congruence.
Qed.
(** The result of a comparison says whether the assertion holds; without one, it did not run. *)
Definition judged (d : ObservationData) (i : nat) (a : BehavioralAssertion) (r : EvidenceResult * bool) : Prop :=
  match r with
  | (EV_PASS, ran) => ran = true /\ shows d i a
  | (EV_FAIL, ran) => ran = true /\ ~ shows d i a
  | (EV_INDETERMINATE, ran) => ran = false
  end.
Lemma judged_verdict d i a b : (b = true <-> shows d i a) -> judged d i a (verdict b, true).
Proof. intros Hb. destruct b; cbn; (split; [done|]); [by apply Hb|]. by intros H%Hb. Qed.
Lemma file_content d a path content : ba_kind a = "produced_file" -> ba_path a = Some path ->
  (forall c, (path, c) ∈ od_produced_files d <-> c = content) -> forall x, at_assertion d a x <-> x = JStr content.
Proof.
  intros Hk Hp Hc x. split.
  - intros []; try congruence. f_equal. apply Hc. congruence.
  - intros ->. eapply At_file; [done..|]. by apply Hc.
Qed.
Lemma evaluate_file d i op e path sel : NoDup (map fst (od_produced_files d)) -> op ∈ OPERATORS ->
  expected_holds "produced_file" op e = true ->
  let a := {| ba_kind := "produced_file"; ba_operator := op; ba_expected := e; ba_path := Some path; ba_selector := sel |} in
  judged d i a (evaluate_assertion d i a).
Proof.
  intros Hf Ho He a. pose proof (file_at d path Hf) as Hat.
  assert (Hprod : produced d a <-> is_Some (last_of path (od_produced_files d))).
  { unfold produced. cbn. destruct (last_of path _) as [c|].
    - split; [by eexists|]. intros _. exists path, c. split; [done|]. by apply Hat.
    - split; [|by intros []]. intros (p & c & [= <-] & Hin). by destruct (Hat c). }
  unfold evaluate_assertion, observed_value, a. kinds Ho; destruct e as [| b | | | s | |]; try done; cbn in *.
  1, 2: destruct (last_of path _) as [c|] eqn:E; cbn;
    [refine (judged_verdict d i a _ (compare_text d i a c s eq_refl _ _ _)); [by eapply file_content|done|set_solver]|];
    (split; [done|]); intros []; try done; match goal with H : at_assertion _ _ _ |- _ => inversion H; simplify_eq/= end;
    by eapply Hat.
  apply judged_verdict. rewrite Z.eqb_eq. assert (Hb : produced d a <-> negb (none (last_of path (od_produced_files d))) = true).
  { rewrite Hprod. destruct (last_of path _); cbn; split; [done|by eexists|by intros []|done]. }
  split.
  - intros Hz. eapply Shows_exists; [done..|]. fold a. rewrite Hb. by destruct (none _), b.
  - intros [| b0 _ _ [= <-] Hiff | |]; try done. fold a in Hiff. rewrite Hb in Hiff. destruct (negb (none _)), b; cbn; naive_solver.
Qed.
Lemma evaluate_text d i kind op e path sel v : op ∈ OPERATORS -> expected_holds kind op e = true ->
  let a := {| ba_kind := kind; ba_operator := op; ba_expected := e; ba_path := path; ba_selector := sel |} in
  kind ∈ ["stdout"; "stderr"; "body"] -> observed_value d i a = (true, JStr v) -> at_assertion d a (JStr v) ->
  judged d i a (evaluate_assertion d i a).
Proof.
  intros Ho He a Hk Hv Hat. unfold evaluate_assertion. rewrite Hv.
  assert (Hall : forall x, at_assertion d a x <-> x = JStr v).
  { intros x. split; [|by intros ->]. intros []; inversion Hat; kinds Hk; simplify_eq/=; congruence. }
  assert (Hd : ba_kind a <> "dom") by (kinds Hk).
  pose proof (fun s He => compare_text d i a v s He Hall Hd) as Hc. unfold a in *.
  kinds Hk; kinds Ho; destruct e as [| | | | s | |]; try done; cbn in *;
    apply judged_verdict, (Hc s eq_refl); set_solver.
Qed.
Lemma evaluate_assertion_spec d i a : declared_assertion a -> unambiguous d -> judged d i a (evaluate_assertion d i a).
Proof.
  destruct a as [kind op e path sel]. intros [Hk Ho He Hp _ _ _] [Hf Hd]; cbn in *. kinds Hk.
  - kinds Ho; destruct e as [| | z | | | |]; try done. unfold evaluate_assertion. cbn.
    destruct (od_returncode d) as [c|] eqn:Ec; cbn; [|done]. apply judged_verdict. rewrite Z.eqb_eq. split.
    + intros ->. apply Shows_equals; [done|]. by apply At_exit.
    + intros [| | _ Hat |]; try done. inversion Hat; simplify_eq/=. done.
  - eapply evaluate_text; [done..|set_solver|done|by apply At_stdout].
  - eapply evaluate_text; [done..|set_solver|done|by apply At_stderr].
  - destruct (Hp eq_refl) as (p & -> & _). by apply evaluate_file.
  - eapply evaluate_text; [done..|set_solver|done|by apply At_body].
  - unfold evaluate_assertion. cbn. destruct (last_of (Z.of_nat i) (od_dom_results d)) as [b|] eqn:E; cbn; [|done].
    apply judged_verdict. split.
    + destruct b; [|done]. intros _. apply Shows_dom; [done|]. by apply last_of_elem.
    + intros [_ Hin| | |]; try done; [by apply last_of_unique in Hin; simplify_eq/=| |];
      match goal with H : at_assertion _ _ _ |- _ => inversion H; simplify_eq/= end.
Qed.

(** ** Observations that can be trusted *)
(** A receipt about the current inputs. *)
Record about (inputs : AcceptanceInputs) (r : EvidenceReceipt) : Prop := {
  ab_source : er_source_revision r = in_source_revision inputs;
  ab_base : er_base_revision r = in_base_revision inputs;
  ab_head : er_head_revision r = in_head_revision inputs;
  ab_build : er_build r = in_build inputs;
  ab_configuration : er_configuration_snapshot_digest r = in_configuration_snapshot_digest inputs;
  ab_evaluator : er_evaluator r = in_evaluator inputs;
  ab_environment : er_environment r = in_environment inputs;
}.
Lemma none_true {A} (o : option A) : none o = true -> o = None.
Proof. by destruct o. Qed.
Lemma existsb_none {A} (f : A -> bool) l : existsb f l = false <-> forall x, x ∈ l -> f x = false.
Proof.
  rewrite <- not_true_iff_false, existsb_exists. setoid_rewrite <- not_true_iff_false. setoid_rewrite list_elem_of_In.
  naive_solver.
Qed.
Lemma existsb_some {A} (f : A -> bool) l : existsb f l = true <-> exists x, x ∈ l /\ f x = true.
Proof. rewrite existsb_exists. by setoid_rewrite list_elem_of_In. Qed.
Lemma forallb_all {A} (f : A -> bool) l : forallb f l = true <-> forall x, x ∈ l -> f x = true.
Proof. rewrite forallb_forall. by setoid_rewrite list_elem_of_In. Qed.
Ltac flags := repeat match goal with
  | H : _ && _ = true |- _ => apply andb_true_iff in H as [? H]
  | H : _ || _ = false |- _ => apply orb_false_iff in H as [? H]
  | H : negb _ = false |- _ => apply negb_false_iff in H
  | H : negb _ = true |- _ => apply negb_true_iff in H
  | H : bool_decide _ = true |- _ => apply bool_decide_eq_true in H
  | H : bool_decide _ = false |- _ => apply bool_decide_eq_false in H
  | H : String.eqb _ _ = true |- _ => apply String.eqb_eq in H
  | H : none _ = true |- _ => apply none_true in H
  | H : is_nil _ = true |- _ => apply is_nil_true in H
  | H : existsb _ _ = false |- _ => rewrite existsb_none in H
  end.
Lemma inputs_match_about i r : inputs_match i r = true -> about i r.
Proof. unfold inputs_match. intros H. flags. by split. Qed.
Lemma cause_nil b reason : cause b reason = [] -> b = false.
Proof. by destruct b. Qed.

Section Evaluation.
Context `{rt : PyRuntime} `{iso : IsoCodec}.

Record trusted (check : BehavioralCheck) (o : ObservedCheck) (inputs : AcceptanceInputs) : Prop := {
  tr_instrument : er_category (oc_receipt o) = INSTRUMENT_OBSERVATION;
  tr_current : about inputs (oc_receipt o);
  tr_kind : enum_value (oi_kind (er_observer (oc_receipt o))) = bc_observer check;
  tr_data : od_observer (oc_data o) = bc_observer check;
  tr_real : oi_mock (er_observer (oc_receipt o)) = false /\ od_mock (oc_data o) = false;
  tr_identity : oi_identity (er_observer (oc_receipt o)) = "enginery-" +:+ bc_observer check +:+ "-observer";
  tr_version : oi_version (er_observer (oc_receipt o)) = EVALUATOR_VERSION;
  tr_ran : od_ran (oc_data o) = true /\ od_skipped (oc_data o) = false;
  tr_undisturbed : od_infrastructure_error (oc_data o) = None;
  tr_start : fromisoformat (od_started_at (oc_data o)) = Some (er_started_at (oc_receipt o));
  tr_end : fromisoformat (od_ended_at (oc_data o)) = Some (er_ended_at (oc_receipt o));
  tr_captured : exists payload bytes d, observation_payload (oc_data o) = Ok payload /\ canonical_bytes payload = Ok bytes /\
    digest_of_bytes bytes = Ok d /\ d ∈ map ca_digest (er_artifacts (oc_receipt o));
  tr_decodable : forall a, a ∈ er_artifacts (oc_receipt o) -> md_status (ca_decode a) <> DECODE_INVALID;
  tr_media : forall c, c ∈ od_captures (oc_data o) -> exists a, a ∈ er_artifacts (oc_receipt o) /\
    digest_of_bytes c.2 = Ok (ca_digest a) /\ ca_media_type a = c.1 /\ ca_size_bytes a = Z.of_nat (length c.2);
  tr_picture : bc_observer check = "browser" -> exists a, a ∈ er_artifacts (oc_receipt o) /\ ca_media_type a = "image/png" /\
    md_status (ca_decode a) = DECODABLE;
  tr_unambiguous : unambiguous (oc_data o);
}.
Lemma captured_nil d artifacts : captured_payload d artifacts = Ok [] ->
  exists payload bytes digest, observation_payload d = Ok payload /\ canonical_bytes payload = Ok bytes /\
    digest_of_bytes bytes = Ok digest /\ digest ∈ map ca_digest artifacts.
Proof.
  unfold captured_payload. destruct (mbind _ _) as [digest|e] eqn:E; [|by destruct e].
  intros [= H]. apply cause_nil in H. flags. apply bind_Ok in E as (payload & Hp & E). apply bind_Ok in E as (bytes & Hb & E).
  by exists payload, bytes, digest.
Qed.
Lemma observation_trusted check o inputs : observation_holds check o inputs = Ok [] -> trusted check o inputs.
Proof.
  unfold observation_holds. intros H. apply bind_Ok in H as (cap & Hcap & H). injection H as H.
  repeat match goal with H : _ ++ _ = [] |- _ => apply app_nil in H as [? H] end.
  repeat match goal with H : cause _ _ = [] |- _ => apply cause_nil in H end. subst cap. flags.
  assert (He : od_infrastructure_error (oc_data o) = None) by (by destruct (od_infrastructure_error _)).
  unfold observation_times in *.
  destruct (fromisoformat (od_started_at _)) as [st|] eqn:Est; [|done].
  destruct (fromisoformat (od_ended_at _)) as [en|] eqn:Een; [|done]. flags. subst.
  split; try done; [by apply inputs_match_about|by apply captured_nil| | |].
  - intros a Ha Hs. specialize (H8 a Ha). by apply bool_decide_eq_false in H8.
  - intros c Hc. rewrite forallb_all in H9. apply H9 in Hc. unfold capture_kept in Hc.
    apply existsb_some in Hc as (a & Ha & Hk). exists a. split; [done|]. flags. apply Z.eqb_eq in Hk.
    destruct (digest_of_bytes c.2); [|done]. flags. subst. done.
  - intros Hb. rewrite Hb in H10. cbn in H10. flags. apply existsb_some in H10 as (a & Ha & Hk). flags.
    exists a. split_and!; [done| |done]. by apply String.eqb_eq.
Qed.

(** ** One check *)
Lemma elem_of_indexed {A} i (a : A) l : (i, a) ∈ imap pair l <-> l !! i = Some a.
Proof.
  rewrite elem_of_lookup_imap. split; [intros (j & b & [= -> ->] & H); done|]. intros H. by exists i, a.
Qed.
Lemma trusted_available check o inputs : trusted check o inputs -> available check (oc_data o) = true.
Proof.
  intros H. unfold available. destruct (tr_ran _ _ _ H) as [-> ->], (tr_real _ _ _ H) as [_ ->], (tr_unambiguous _ _ _ H).
  rewrite (tr_undisturbed _ _ _ H), (tr_data _ _ _ H), String.eqb_refl, !bool_decide_true; done.
Qed.
(** The outcome an assertion of the check gets from data that can be used. *)
Definition outcome_of (check : BehavioralCheck) (d : ObservationData) (ia : nat * BehavioralAssertion) (o : AssertionOutcome) : Prop :=
  ao_assertion_id o = assertion_id check ia.1 /\ judged d ia.1 ia.2 (ao_result o, ao_ran o).
Lemma outcome_made o o' : assertion_outcome_post_init o = Ok o' -> o' = o.
Proof. unfold assertion_outcome_post_init. intros H. inv_ok. done. Qed.
Lemma evaluated check d outcomes : Forall declared_assertion (bc_assertions check) -> available check d = true ->
  evaluate_assertions check d = Ok outcomes -> Forall2 (outcome_of check d) (imap pair (bc_assertions check)) outcomes.
Proof.
  intros Hd Ha H. apply mapM_result_Ok in H. rewrite Forall2_lookup in *. intros n. specialize (H n).
  destruct (imap pair (bc_assertions check) !! n) as [[i a]|] eqn:E; inversion H as [? o Ho|]; subst; constructor.
  apply list_elem_of_lookup_2, elem_of_indexed in E. unfold assertion_outcome in Ho. rewrite Ha in Ho.
  assert (Hu : unambiguous d) by (unfold available in Ha; flags; done).
  assert (Hda : declared_assertion a) by (rewrite Forall_lookup in Hd; by eapply Hd).
  pose proof (evaluate_assertion_spec d i a Hda Hu) as Hj. destruct (evaluate_assertion d i a) as [r ran].
  apply outcome_made in Ho. subst o. done.
Qed.
Lemma not_evaluated_idle check outcomes : not_evaluated check = Ok outcomes -> Forall (fun o => ao_ran o = false) outcomes.
Proof.
  intros H. apply mapM_result_Ok in H. induction H as [|[i a] o l k Ho _ IH]; constructor; [|done].
  apply outcome_made in Ho. by subst o.
Qed.
Lemma overall_clean holds outcomes : overall holds outcomes <> EV_INDETERMINATE -> holds = [] /\ outcomes <> [] /\
  forall o, o ∈ outcomes -> ao_result o <> EV_INDETERMINATE.
Proof.
  unfold overall, has_result. destruct (negb (is_nil holds) || is_nil outcomes || _) eqn:E; [done|]. intros _. flags.
  subst. split_and!; [done|by intros ->|]. intros o Ho Hr. specialize (E o Ho). rewrite Hr in E. done.
Qed.
Lemma overall_pass holds outcomes : overall holds outcomes = EV_PASS -> forall o, o ∈ outcomes -> ao_result o = EV_PASS.
Proof.
  intros H o Ho. destruct (overall_clean holds outcomes) as (_ & _ & Hi); [by rewrite H|]. specialize (Hi o Ho).
  unfold overall, has_result in H. destruct (_ || _ || _); [done|]. destruct (existsb _ outcomes) eqn:E; [done|]. flags.
  specialize (E o Ho). flags. by destruct (ao_result o).
Qed.
Lemma overall_fail holds outcomes : overall holds outcomes = EV_FAIL -> exists o, o ∈ outcomes /\ ao_result o = EV_FAIL.
Proof.
  unfold overall, has_result. destruct (_ || _ || _); [done|]. destruct (existsb _ outcomes) eqn:E; [|done]. intros _.
  apply existsb_some in E as (o & Ho & E). flags. by exists o.
Qed.
Lemma observed_for_Ok observations name o : observed_for observations name = Some o -> o ∈ observations /\ oc_check_name o = name.
Proof.
  intros [Hin Hn]%find_some. apply String.eqb_eq in Hn. split; [|done]. apply list_elem_of_In. by apply in_rev.
Qed.
Lemma evaluate_check_clean inputs observations check outcomes : Forall declared_assertion (bc_assertions check) ->
  evaluate_check inputs observations check = Ok ([], outcomes) ->
  exists o, o ∈ observations /\ oc_check_name o = bc_name check /\ trusted check o inputs /\
    Forall2 (outcome_of check (oc_data o)) (imap pair (bc_assertions check)) outcomes.
Proof.
  intros Hd H. unfold evaluate_check in H. destruct (observed_for _ _) as [o|] eqn:E; [|by inv_ok].
  apply observed_for_Ok in E as [Ho Hn]. exists o. apply bind_Ok in H as (e & He & [= Hh Hout]).
  unfold evaluate_observation in He. apply bind_Ok in He as (holds & Hholds & He).
  apply bind_Ok in He as (outs & Houts & [= <-]). cbn in Hh, Hout. subst holds outs.
  apply observation_trusted in Hholds. split_and!; [done..|].
  apply evaluated; [done|by eapply trusted_available|done].
Qed.

(** ** Calibration *)
Record caught_by (references : list Digest) (fault : string) (o : CalibrationOutcome) : Prop := {
  cb_caught : co_classification o = "caught" /\ co_applied o = true;
  cb_rung : co_rung o = Some (required_rung fault);
  cb_baseline : co_baseline_result o = Some EV_PASS;
  cb_receipts : exists b f, co_baseline_receipt_digest o = Some b /\ co_observation_receipt_digest o = Some f /\
    b ∈ references /\ f ∈ references;
  cb_fault : fault <> "wrong_build" -> co_fault_result o = Some EV_FAIL;
}.
Record calibrates (checks : list BehavioralCheck) (inputs : AcceptanceInputs) (c : CalibrationReceipt) : Prop := {
  cl_current : about inputs (cr_receipt c);
  cl_instrument : er_category (cr_receipt c) = INSTRUMENT_OBSERVATION;
  cl_driver : oi_identity (er_observer (cr_receipt c)) = CALIBRATION_DRIVER /\
    oi_kind (er_observer (cr_receipt c)) = BY_COMMAND /\ oi_mock (er_observer (cr_receipt c)) = false /\
    oi_version (er_observer (cr_receipt c)) = ev_version (in_evaluator inputs);
  cl_captured : exists d, digest_of_json (calibration_payload c) = Ok d /\ d ∈ map ca_digest (er_artifacts (cr_receipt c));
  cl_fixture : cr_fixture_digest c ∈ map ca_digest (er_artifacts (cr_receipt c));
  cl_once : NoDup (map outcome_key (cr_results c));
  cl_exact : forall id fault, (id, fault) ∈ map outcome_key (cr_results c) <-> exists check i a, check ∈ checks /\
    bc_assertions check !! i = Some a /\ fault ∈ bc_fault_classes check /\ id = assertion_id check i;
  cl_relevant : forall check fault, check ∈ checks -> fault ∈ bc_fault_classes check -> exists i a,
    bc_assertions check !! i = Some a /\ fault_applies a fault = true;
  cl_each : forall check fault i a, check ∈ checks -> fault ∈ bc_fault_classes check -> bc_assertions check !! i = Some a ->
    exists o, o ∈ cr_results c /\ outcome_key o = (assertion_id check i, fault) /\
      if fault_applies a fault then caught_by (er_input_receipt_digests (cr_receipt c)) fault o
      else co_classification o = "not_injected" /\ co_applied o = false;
  cl_semantic : forall check i a, check ∈ checks -> bc_assertions check !! i = Some a -> exists o, o ∈ cr_results c /\
    co_assertion_id o = assertion_id check i /\ co_fault_class o ∈ ["constant_result"; "skipped_persistence"] /\
    co_classification o = "caught" /\ co_rung o = Some "evaluator" /\ co_applied o = true /\
    co_baseline_result o = Some EV_PASS /\ co_fault_result o = Some EV_FAIL;
}.
Lemma elem_of_concat {A} (x : A) ls : x ∈ concat ls <-> exists l, x ∈ l /\ l ∈ ls.
Proof. induction ls as [|l ls IH]; cbn; [|rewrite elem_of_app, IH]; set_solver. Qed.
Lemma concat_nil {A} (l : list (list A)) : concat l = [] <-> forall x, x ∈ l -> x = [].
Proof.
  induction l as [|x l IH]; cbn; [split; [|done]; intros _ x Hx; by apply not_elem_of_nil in Hx|]. split.
  - intros [-> H]%app_nil y [->|Hy]%elem_of_cons; [done|]. by apply IH.
  - intros H. rewrite (H x) by left. apply IH. intros y Hy. apply H. by right.
Qed.
Lemma mapM_elem {A B} (f : A -> result B) l k x : mapM_result f l = Ok k -> x ∈ l -> exists y, y ∈ k /\ f x = Ok y.
Proof.
  rewrite mapM_result_Ok. intros H. revert x. induction H as [|a b l k Hab _ IH]; intros x Hx; [by apply not_elem_of_nil in Hx|].
  apply elem_of_cons in Hx as [->|Hx]; [exists b; split; [left|done]|]. destruct (IH x Hx) as (y & Hy & ?).
  exists y. split; [by right|done].
Qed.
Lemma mapM_elem_inv {A B} (f : A -> result B) l k y : mapM_result f l = Ok k -> y ∈ k -> exists x, x ∈ l /\ f x = Ok y.
Proof.
  rewrite mapM_result_Ok. intros H. revert y. induction H as [|a b l k Hab _ IH]; intros y Hy; [by apply not_elem_of_nil in Hy|].
  apply elem_of_cons in Hy as [->|Hy]; [exists a; split; [left|done]|]. destruct (IH y Hy) as (x & Hx & ?).
  exists x. split; [by right|done].
Qed.
Lemma calibrated_Ok results id fault o : calibrated results id fault = Some o -> o ∈ results /\ outcome_key o = (id, fault).
Proof.
  intros [Hin Hk]%find_some. flags. split; [|done]. apply list_elem_of_In. by apply in_rev.
Qed.
Lemma catches_caught references fault o : catches references fault o = true -> caught_by references fault o.
Proof.
  unfold catches. intros H. repeat (apply andb_true_iff in H as [H ?]). flags.
  destruct (co_baseline_receipt_digest o) as [b|] eqn:Eb, (co_observation_receipt_digest o) as [f|] eqn:Ef; try done. cbn in *.
  flags. split; try done; [by eauto 10|]. intros Hw. apply orb_true_iff in H0 as [H0|H0]; flags; done.
Qed.
Lemma assertion_catch_clean results references check fault i a :
  forall held caught, assertion_catch results references check fault i a = Ok (held, caught) ->
  held = [] -> (exists o, o ∈ results /\ outcome_key o = (assertion_id check i, fault) /\
    if fault_applies a fault then caught_by references fault o else co_classification o = "not_injected" /\ co_applied o = false) /\
  (caught = true -> fault_applies a fault = true).
Proof.
  intros held caught H ->. unfold assertion_catch in H. apply bind_Ok in H as (o & Ho & H).
  destruct (calibrated _ _ _) as [o'|] eqn:E; [|done]. injection Ho as ->. apply calibrated_Ok in E as [Hin Hk].
  destruct (fault_applies a fault) eqn:Ef; cbn in H.
  - destruct (catches _ _ _) eqn:Ec; [|by inv_ok]. split; [|done]. exists o. split_and!; [done..|by apply catches_caught].
  - destruct (_ || _) eqn:Ec; [by inv_ok|]. flags. split; [by eauto|]. by intros ->; inv_ok.
Qed.
Lemma fault_clean results references check fault : fault_holds results references check fault = Ok [] ->
  (exists i a, bc_assertions check !! i = Some a /\ fault_applies a fault = true) /\
  forall i a, bc_assertions check !! i = Some a -> exists o, o ∈ results /\ outcome_key o = (assertion_id check i, fault) /\
    if fault_applies a fault then caught_by references fault o else co_classification o = "not_injected" /\ co_applied o = false.
Proof.
  intros H. unfold fault_holds in H. apply bind_Ok in H as (found & Hf & [= H]). apply app_nil in H as [Hc Hs].
  destruct (existsb snd found) eqn:E; [|done]. rewrite concat_nil in Hc.
  assert (Hheld : forall held caught, (held, caught) ∈ found -> held = []).
  { intros held caught Hin. apply Hc, list_elem_of_fmap. by exists (held, caught). }
  split.
  - apply existsb_some in E as ([held caught] & Hin & Hs'). cbn in Hs'. subst caught.
    apply (mapM_elem_inv _ _ _ _ Hf) in Hin as Hin'. destruct Hin' as ([i a] & Hia & Hcatch).
    apply elem_of_indexed in Hia. exists i, a. split; [done|].
    eapply assertion_catch_clean in Hcatch as [_ Hcatch]; [|by eapply Hheld]. by apply Hcatch.
  - intros i a Hia. apply elem_of_indexed in Hia. destruct (mapM_elem _ _ _ _ Hf Hia) as ([held caught] & Hin & Hcatch).
    eapply assertion_catch_clean in Hcatch as [Hcatch _]; [done|by eapply Hheld].
Qed.
Lemma fromkeys_nil l : fromkeys l = [] -> l = [].
Proof.
  intros H. destruct l as [|x l]; [done|]. assert (Hx : x ∈ fromkeys (x :: l)) by (apply elem_of_fromkeys; left).
  rewrite H in Hx. by apply not_elem_of_nil in Hx.
Qed.
Lemma expected_keys_elem checks id fault : (id, fault) ∈ expected_keys checks <-> exists check i a, check ∈ checks /\
  bc_assertions check !! i = Some a /\ fault ∈ bc_fault_classes check /\ id = assertion_id check i.
Proof.
  unfold expected_keys. rewrite elem_of_concat. setoid_rewrite list_elem_of_fmap. split.
  - intros (l & Hl & (check & -> & Hc)). apply elem_of_concat in Hl as (k & Hk & Hi).
    apply elem_of_lookup_imap in Hi as (i & a & -> & Hia). apply list_elem_of_fmap in Hk as (f & [= -> ->] & Hf).
    by exists check, i, a.
  - intros (check & i & a & Hc & Hia & Hf & ->). eexists. split; [|by exists check]. apply elem_of_concat.
    eexists. split; [|apply elem_of_lookup_imap; by exists i, a]. apply list_elem_of_fmap. by exists fault.
Qed.
Lemma same_keys_iff a b : same_keys a b = true -> forall x, x ∈ a <-> x ∈ b.
Proof.
  unfold same_keys. intros [Ha Hb]%andb_true_iff. rewrite forallb_all in Ha, Hb. intros x.
  split; [intros Hx; specialize (Ha x Hx)|intros Hx; specialize (Hb x Hx)]; by flags.
Qed.
Lemma check_clean results references check : check_catches results references check = Ok [] ->
  (forall fault, fault ∈ bc_fault_classes check -> fault_holds results references check fault = Ok []) /\
  forall i a, bc_assertions check !! i = Some a -> existsb (semantic_catch (assertion_id check i)) results = true.
Proof.
  intros H. unfold check_catches in H. apply bind_Ok in H as (holds & Hf & [= H]). apply app_nil in H as [Hc Hs].
  rewrite concat_nil in Hc, Hs. split.
  - intros fault Hin. destruct (mapM_elem _ _ _ _ Hf Hin) as (held & Hheld & Hfault). by rewrite Hfault, (Hc held).
  - intros i a Hia. specialize (Hs (if existsb (semantic_catch (assertion_id check i)) results then []
      else ["behavioral_calibration_semantic_catch_required"])).
    rewrite elem_of_lookup_imap in Hs. specialize (Hs (ex_intro _ i (ex_intro _ a (conj eq_refl Hia)))).
    by destruct (existsb _ _).
Qed.
Lemma calibration_clean checks inputs calibration : calibration_holds checks inputs calibration = Ok [] ->
  exists c, calibration = Some c /\ calibrates checks inputs c.
Proof.
  unfold calibration_holds. destruct calibration as [c|]; [|done]. intros H. exists c. split; [done|].
  destruct (_ || _) eqn:Estale in H; [done|]. apply bind_Ok in H as (payload & Hp & H).
  destruct (_ || _) eqn:Ecap in H; [done|]. destruct (_ || _) eqn:Ekeys in H; [done|].
  apply bind_Ok in H as (holds & Hh & [= H]). apply fromkeys_nil in H. rewrite concat_nil in H. flags.
  assert (Hclean : forall check, check ∈ checks ->
    check_catches (cr_results c) (er_input_receipt_digests (cr_receipt c)) check = Ok []).
  { intros check Hc. destruct (mapM_elem _ _ _ _ Hh Hc) as (held & Hin & Hcheck). by rewrite Hcheck, (H held). }
  match goal with H : same_keys _ _ = true |- _ => pose proof (same_keys_iff _ _ H) as Hkeys end.
  split; try done; [by apply inputs_match_about|by exists payload| | | |].
  - intros id fault. rewrite Hkeys. apply expected_keys_elem.
  - intros check fault Hc Hf. apply Hclean, check_clean in Hc as [Hc _]. by apply Hc, fault_clean in Hf as [? _].
  - intros check fault i a Hc Hf. apply Hclean, check_clean in Hc as [Hc _]. apply Hc, fault_clean in Hf as [_ Hf]. apply Hf.
  - intros check i a Hc Hia. apply Hclean, check_clean in Hc as [_ Hc]. apply Hc, existsb_some in Hia as (o & Ho & Hs).
    unfold semantic_catch in Hs. repeat (apply andb_true_iff in Hs as [Hs ?]). flags. by exists o.
Qed.

(** ** The evaluation *)
(** The declarations and the observations the evaluation is about. *)
Record declared_for (checks : list BehavioralCheck) (inputs : AcceptanceInputs) (observations : list ObservedCheck) : Prop := {
  df_some : checks <> [];
  df_assertions : forall check, check ∈ checks -> bc_assertions check <> [] /\ bc_fault_classes check <> [];
  df_names : NoDup (map bc_name checks);
  df_version : ev_version (in_evaluator inputs) = EVALUATOR_VERSION;
  df_digest : checks_digest checks = Ok (ev_assertion_set_digest (in_evaluator inputs));
  df_observed : NoDup (map oc_check_name observations);
  df_each : forall name, name ∈ map oc_check_name observations <-> name ∈ map bc_name checks;
}.
Lemma declared_clean checks inputs observations : declared_holds checks inputs observations = Ok [] ->
  declared_for checks inputs observations.
Proof.
  unfold declared_holds. intros H. apply bind_Ok in H as (digest & Hd & [= H]).
  repeat match goal with H : _ ++ _ = [] |- _ => apply app_nil in H as [? H] end.
  repeat match goal with H : cause _ _ = [] |- _ => apply cause_nil in H end. flags. subst digest.
  split; try done.
  - by intros ->.
  - intros check Hc. split; intros Hn.
    + match goal with H : forall c, c ∈ checks -> is_nil (bc_assertions c) = false |- _ => specialize (H _ Hc) end.
      by rewrite Hn in *.
    + match goal with H : forall c, c ∈ checks -> is_nil (bc_fault_classes c) = false |- _ => specialize (H _ Hc) end.
      by rewrite Hn in *.
  - unfold same_set in *. intros name. flags. split; intros Hn.
    + match goal with H : forallb _ (map oc_check_name _) = true |- _ => rewrite forallb_all in H; specialize (H _ Hn) end. by flags.
    + match goal with H : forallb _ (map bc_name _) = true |- _ => rewrite forallb_all in H; specialize (H _ Hn) end. by flags.
Qed.
(** What one check contributes when nothing holds it back, and where an outcome comes from. *)
Definition clean_check (inputs : AcceptanceInputs) (observations : list ObservedCheck) (outcomes : list AssertionOutcome)
    (check : BehavioralCheck) : Prop :=
  exists observed outs, observed ∈ observations /\ oc_check_name observed = bc_name check /\ trusted check observed inputs /\
    Forall2 (outcome_of check (oc_data observed)) (imap pair (bc_assertions check)) outs /\ forall o, o ∈ outs -> o ∈ outcomes.
Lemma clean_evaluations checks inputs observations evaluations : Forall (fun c => Forall declared_assertion (bc_assertions c)) checks ->
  mapM_result (evaluate_check inputs observations) checks = Ok evaluations -> concat (map fst evaluations) = [] ->
  (forall check, check ∈ checks -> clean_check inputs observations (concat (map snd evaluations)) check) /\
  forall o, o ∈ concat (map snd evaluations) -> exists check observed i a, check ∈ checks /\ observed ∈ observations /\
    trusted check observed inputs /\ bc_assertions check !! i = Some a /\ outcome_of check (oc_data observed) (i, a) o.
Proof.
  intros Hd He Hc. rewrite concat_nil in Hc. rewrite Forall_forall in Hd.
  assert (Hnil : forall holds outs, (holds, outs) ∈ evaluations -> holds = []).
  { intros holds outs Hin. apply Hc, list_elem_of_fmap. by exists (holds, outs). }
  assert (Hall : forall check holds outs, check ∈ checks -> (holds, outs) ∈ evaluations ->
      evaluate_check inputs observations check = Ok (holds, outs) -> exists o, o ∈ observations /\
      oc_check_name o = bc_name check /\ trusted check o inputs /\
      Forall2 (outcome_of check (oc_data o)) (imap pair (bc_assertions check)) outs).
  { intros check holds outs Hin Hev H. rewrite (Hnil _ _ Hev) in H. apply evaluate_check_clean in H; [done|by apply Hd]. }
  split.
  - intros check Hin. destruct (mapM_elem _ _ _ _ He Hin) as ([holds outs] & Hev & H).
    destruct (Hall _ _ _ Hin Hev H) as (o & ? & ? & ? & ?). exists o, outs. split_and!; [done..|].
    intros x Hx. apply elem_of_concat. exists outs. split; [done|]. apply list_elem_of_fmap. by exists (holds, outs).
  - intros x Hx. apply elem_of_concat in Hx as (outs & Hx & Hin). apply list_elem_of_fmap in Hin as ([holds outs'] & -> & Hev).
    destruct (mapM_elem_inv _ _ _ _ He Hev) as (check & Hin & H). destruct (Hall _ _ _ Hin Hev H) as (o & ? & ? & ? & Hf).
    apply list_elem_of_lookup in Hx as (n & Hn). destruct (Forall2_lookup_r _ _ _ _ _ Hf Hn) as ([i a] & Hia & Hout).
    apply list_elem_of_lookup_2, elem_of_indexed in Hia. by exists check, o, i, a.
Qed.
(** An evaluation before the calibration is asked. *)
Lemma overall_sound checks inputs observations declared evaluations : Forall (fun c => Forall declared_assertion (bc_assertions c)) checks ->
  declared_holds checks inputs observations = Ok declared ->
  mapM_result (evaluate_check inputs observations) checks = Ok evaluations ->
  let outcomes := concat (map snd evaluations) in
  let holds := declared ++ concat (map fst evaluations) ++
    cause (existsb (fun o => negb (ao_ran o) || ao_skipped o) outcomes) "behavioral_assertion_not_run" in
  match overall holds outcomes with
  | EV_INDETERMINATE => holds <> []
  | EV_PASS => holds = [] /\ declared_for checks inputs observations /\
      forall check, check ∈ checks -> exists observed, observed ∈ observations /\ oc_check_name observed = bc_name check /\
        trusted check observed inputs /\ forall i a, bc_assertions check !! i = Some a -> shows (oc_data observed) i a
  | EV_FAIL => exists check observed i a, check ∈ checks /\ observed ∈ observations /\ trusted check observed inputs /\
      bc_assertions check !! i = Some a /\ ~ shows (oc_data observed) i a /\
      ("behavioral_assertion_failed:" +:+ assertion_id check i) ∈ failed_reasons outcomes
  end.
Proof.
  intros Hd Hdecl He outcomes holds.
  assert (Hclean : holds = [] -> declared = [] /\ concat (map fst evaluations) = [] /\
    existsb (fun o => negb (ao_ran o) || ao_skipped o) outcomes = false).
  { intros Hh. unfold holds in Hh. apply app_nil in Hh as [-> Hh]. apply app_nil in Hh as [-> Hh]. by apply cause_nil in Hh. }
  destruct (overall holds outcomes) eqn:Eo.
  - destruct (overall_clean holds outcomes) as (Hh & _ & _); [by rewrite Eo|]. destruct (Hclean Hh) as (-> & Hf & _).
    split_and!; [done|by apply declared_clean|]. intros check Hin.
    destruct (clean_evaluations _ _ _ _ Hd He Hf) as [Hc _]. destruct (Hc check Hin) as (o & outs & ? & ? & ? & Hfor & Hsub).
    exists o. split_and!; [done..|]. intros i a Hia. apply elem_of_indexed, list_elem_of_lookup in Hia as (n & Hn).
    destruct (Forall2_lookup_l _ _ _ _ _ Hfor Hn) as (out & Hout & [_ Hj]).
    apply list_elem_of_lookup_2, Hsub in Hout. apply (overall_pass _ _ Eo) in Hout. cbn in Hj. rewrite Hout in Hj. apply Hj.
  - destruct (overall_clean holds outcomes) as (Hh & _ & _); [by rewrite Eo|]. destruct (Hclean Hh) as (-> & Hf & _).
    apply overall_fail in Eo as (out & Hout & Hr). destruct (clean_evaluations _ _ _ _ Hd He Hf) as [_ Hc].
    destruct (Hc out Hout) as (check & o & i & a & ? & ? & ? & ? & Hid & Hj). cbn in Hid, Hj. rewrite Hr in Hj.
    exists check, o, i, a. split_and!; [done..|by apply Hj|]. rewrite <- Hid. unfold failed_reasons.
    apply list_elem_of_fmap. exists out. split; [done|]. apply list_elem_of_In, filter_In. split; [by apply list_elem_of_In|].
    by apply bool_decide_eq_true.
  - intros Hh. destruct (Hclean Hh) as (-> & Hf & Hran). destruct (clean_evaluations _ _ _ _ Hd He Hf) as [Hc Ho].
    apply declared_clean in Hdecl. unfold overall in Eo. rewrite Hh in Eo. cbn in Eo.
    destruct (is_nil outcomes || has_result EV_INDETERMINATE outcomes) eqn:E; [|by destruct (has_result EV_FAIL outcomes)].
    apply orb_true_iff in E as [E|E].
    + flags. destruct checks as [|check checks]; [by destruct (df_some _ _ _ Hdecl)|].
      destruct (Hc check ltac:(left)) as (o & outs & _ & _ & _ & Hfor & Hsub). fold outcomes in Hsub. rewrite E in Hsub.
      destruct (df_assertions _ _ _ Hdecl check ltac:(left)) as [Hn _].
      destruct (bc_assertions check); [done|]. inversion Hfor; subst. eapply not_elem_of_nil, Hsub. left.
    + apply existsb_some in E as (out & Hin & Hr). apply bool_decide_eq_true in Hr.
      destruct (Ho out Hin) as (? & ? & ? & ? & _ & _ & _ & _ & _ & Hj). cbn in Hj. rewrite Hr in Hj. cbn in Hj.
      rewrite existsb_none in Hran. specialize (Hran out Hin). by rewrite Hj in Hran.
Qed.
Lemma checks_declared `{UrlReader} state checks : checks_from_state state = Ok checks ->
  Forall (fun c => Forall declared_assertion (bc_assertions c)) checks.
Proof.
  unfold checks_from_state. destruct state; try done. intros H'. apply bind_Ok in H' as (cs & Hc & H').
  apply raise_if_Ok in H' as [_ [= <-]]. rewrite Forall_forall. intros c Hin.
  destruct (mapM_elem_inv _ _ _ _ Hc Hin) as (j & _ & Hj). unfold check_from_state in Hj.
  repeat (first [apply raise_if_Ok in Hj as [_ Hj]|apply bind_Ok in Hj as (? & ? & Hj)]). injection Hj as <-. cbn.
  match goal with H : mapM_result assertion_from_state _ = Ok _ |- _ => rename H into Ha end.
  rewrite Forall_forall. intros a Hin'. destruct (mapM_elem_inv _ _ _ _ Ha Hin') as (ja & _ & Hja). by eapply declared_assertion_of.
Qed.
(** ** The evaluation always answers *)
Lemma returns_digest j : returns (digest_of_json j).
Proof. eexists. apply digest_of_bytes_Ok. Qed.
(** Fewer than the most a Python list holds. *)
Definition listable {A} (l : list A) : Prop := (Z.of_nat (length l) < 2 ^ 63)%Z.
Lemma pretty_N_go_length k x s : (x < 2 ^ N.of_nat k)%N -> length (chars (pretty_N_go x s)) <= length (chars s) + k.
Proof.
  revert x s. induction k as [|k IH]; intros x s Hx.
  - replace x with 0%N by (cbn in Hx; lia). rewrite pretty_N_go_0. lia.
  - destruct (decide (x = 0%N)) as [->|Hn]; [rewrite pretty_N_go_0; lia|]. rewrite pretty_N_go_step by lia.
    etransitivity; [apply IH|cbn [chars String.list_ascii_of_string length]; lia]. apply N.Div0.div_lt_upper_bound. rewrite Nat2N.inj_succ, N.pow_succ_r' in Hx. lia.
Qed.
Lemma index_text (i : nat) : (Z.of_nat i < 2 ^ 63)%Z ->
  length (chars (pretty i)) <= 64 /\ Forall (fun c => is_decimal c = true) (chars (pretty i)).
Proof.
  intros Hi. split.
  - unfold pretty, pretty_nat, pretty, pretty_N. case_decide; [cbn; lia|]. etransitivity; [apply (pretty_N_go_length 63)|cbn; lia].
    change (2 ^ N.of_nat 63)%N with (Z.to_N (2 ^ 63)). lia.
  - pose proof (pretty_Z_decimal (Z.of_nat i)) as H. by destruct i.
Qed.
(** A check's name, and so the identities of its assertions, are such texts. *)
Definition plain_char (c : Ascii.ascii) : Prop := py_isspace c = false /\ control_code c = false.
Lemma plain_text s : s <> "" -> Forall plain_char (chars s) -> (py_len s <= 4096)%Z -> bounded_text s = Ok s.
Proof.
  intros Hn Hp Hl. unfold bounded_text. apply String.eqb_neq in Hn. rewrite Hn.
  assert (Hs : py_strip s = s).
  { rewrite <- (of_chars_chars s). apply strip_spaceless. eapply Forall_impl; [exact Hp|]. by intros c []. }
  rewrite Hs, String.eqb_refl, (proj2 (Z.ltb_ge 4096 _)) by lia. cbn.
  destruct (existsb control_code (chars s)) eqn:E; [|done]. apply existsb_some in E as (c & Hc & E).
  rewrite Forall_forall in Hp. destruct (Hp c Hc) as [_ Hq]. congruence.
Qed.
Definition named (check : BehavioralCheck) : Prop := regex_fullmatch CHECK_NAME (bc_name check) = true.
Lemma name_text check : named check -> bc_name check <> "" /\ Forall plain_char (chars (bc_name check)) /\
  length (chars (bc_name check)) <= 128.
Proof.
  intros H. apply regex_fullmatch_spec in H as (x & y & Hs & (Hx1 & Hx2 & Hx) & (Hy1 & _ & Hy)); [|done].
  assert (Hc : Forall (fun c => name_char c = true) (x ++ y)).
  { apply Forall_app_2; [|done]. eapply Forall_impl; [exact Hx1|]. intros c Hc. unfold name_char. by rewrite Hc. }
  rewrite Hs. split_and!.
  - intros Hn. rewrite Hn in Hs. destruct x; [cbn in Hx2; lia|done].
  - eapply Forall_impl; [exact Hc|]. clear. intros c. revert c. intros [[] [] [] [] [] [] [] []]; done.
  - rewrite length_app. cbn in Hx, Hy. lia.
Qed.
Lemma identity_text check i : named check -> (Z.of_nat i < 2 ^ 63)%Z -> bounded_text (assertion_id check i) = Ok (assertion_id check i).
Proof.
  intros (Hn & Hp & Hl)%name_text (Hk & Hd)%index_text. apply plain_text; unfold assertion_id.
  - by destruct (bc_name check).
  - rewrite !chars_app. repeat apply Forall_app_2; [done|by repeat constructor|]. eapply Forall_impl; [exact Hd|].
    intros [[] [] [] [] [] [] [] []]; done.
  - unfold py_len. rewrite <- length_chars, !chars_app, !length_app. cbn [length chars String.list_ascii_of_string]. lia.
Qed.
Lemma outcome_returns check i r ran skipped : named check -> (Z.of_nat i < 2 ^ 63)%Z ->
  (r = EV_PASS -> ran = true /\ skipped = false) ->
  returns (assertion_outcome_post_init {| ao_assertion_id := assertion_id check i; ao_result := r; ao_ran := ran; ao_skipped := skipped |}).
Proof.
  intros Hn Hi Hr. unfold assertion_outcome_post_init. cbn. rewrite identity_text by done. cbn [mbind result_bind].
  destruct r; cbn; [destruct Hr as [-> ->]; [done|]| |]; by eexists.
Qed.
Lemma indexed_bound {A} (l : list A) i a : listable l -> (i, a) ∈ imap pair l -> (Z.of_nat i < 2 ^ 63)%Z.
Proof. unfold listable. intros Hl Hi%elem_of_indexed%lookup_lt_Some. lia. Qed.
Lemma not_evaluated_returns check : named check -> listable (bc_assertions check) -> returns (not_evaluated check).
Proof.
  intros Hn Hl. apply returns_mapM. intros [i a] Hi. apply outcome_returns; [done|by eapply indexed_bound|done].
Qed.
Lemma evaluated_returns check d : named check -> listable (bc_assertions check) -> Forall declared_assertion (bc_assertions check) ->
  returns (evaluate_assertions check d).
Proof.
  intros Hn Hl Hd. apply returns_mapM. intros [i a] Hi. pose proof (indexed_bound _ _ _ Hl Hi) as Hb.
  unfold assertion_outcome. destruct (available check d) eqn:Ea; [|by apply outcome_returns].
  apply elem_of_indexed in Hi. rewrite Forall_lookup in Hd. apply Hd in Hi.
  assert (Hu : unambiguous d /\ od_skipped d = false) by (unfold available in Ea; flags; done). destruct Hu as [Hu Hs].
  pose proof (evaluate_assertion_spec d i a Hi Hu) as Hj. destruct (evaluate_assertion d i a) as [r ran].
  apply outcome_returns; [done..|]. intros ->. by destruct Hj.
Qed.
Lemma captured_returns d artifacts : returns (captured_payload d artifacts).
Proof.
  unfold captured_payload. assert (Hp : returns (observation_payload d)).
  { unfold observation_payload. apply returns_bind; [|by eexists]. apply returns_mapM. intros c _.
    unfold capture_payload. rewrite digest_of_bytes_Ok. by eexists. }
  destruct Hp as [payload ->]. cbn [mbind result_bind]. unfold canonical_bytes.
  destruct (_ <? _)%Z; cbn; [by eexists|]. rewrite digest_of_bytes_Ok. by eexists.
Qed.
Lemma observation_returns check o inputs : named check -> listable (bc_assertions check) ->
  Forall declared_assertion (bc_assertions check) -> returns (evaluate_observation check o inputs).
Proof.
  intros Hn Hl Hd. unfold evaluate_observation. apply returns_bind.
  - unfold observation_holds. apply returns_bind; [apply captured_returns|by eexists].
  - intros holds _. apply returns_bind; [|by eexists]. destruct (is_nil holds); [by apply evaluated_returns|by apply not_evaluated_returns].
Qed.
Lemma check_returns inputs observations check : named check -> listable (bc_assertions check) ->
  Forall declared_assertion (bc_assertions check) -> returns (evaluate_check inputs observations check).
Proof.
  intros Hn Hl Hd. unfold evaluate_check. destruct (observed_for _ _); apply returns_bind; try by eexists.
  - by apply observation_returns.
  - by apply not_evaluated_returns.
Qed.
Lemma calibrated_found results id fault : (id, fault) ∈ map outcome_key results -> is_Some (calibrated results id fault).
Proof.
  intros (o & Ho & Hin)%list_elem_of_fmap. unfold calibrated. destruct (List.find _ _) as [o'|] eqn:E; [by eexists|].
  eapply find_none in E; [|apply in_rev; rewrite rev_involutive; by apply list_elem_of_In].
  by apply bool_decide_eq_false in E.
Qed.
Lemma calibration_returns checks inputs calibration : returns (calibration_holds checks inputs calibration).
Proof.
  unfold calibration_holds. destruct calibration as [c|]; [|by eexists]. destruct (_ || _); [by eexists|].
  apply returns_bind; [apply returns_digest|]. intros payload _. destruct (_ || _); [by eexists|].
  destruct (_ || _) eqn:Ek; [by eexists|]. apply orb_false_iff in Ek as [Ek _]. apply negb_false_iff in Ek.
  pose proof (same_keys_iff _ _ Ek) as Hk. apply returns_bind; [|by eexists]. apply returns_mapM. intros check Hc.
  unfold check_catches. apply returns_bind; [|by eexists]. apply returns_mapM. intros fault Hf.
  unfold fault_holds. apply returns_bind; [|by eexists]. apply returns_mapM. intros [i a] Hi.
  unfold assertion_catch. apply elem_of_indexed in Hi.
  destruct (calibrated_found (cr_results c) (assertion_id check i) fault) as [o Ho].
  - apply Hk, expected_keys_elem. by exists check, i, a.
  - rewrite Ho. by eexists.
Qed.
Lemma evaluation_returns checks inputs observations calibration :
  Forall (fun c => named c /\ listable (bc_assertions c) /\ Forall declared_assertion (bc_assertions c)) checks ->
  returns (evaluate_behavioral checks inputs observations calibration).
Proof.
  intros Hc. rewrite Forall_forall in Hc. unfold evaluate_behavioral. apply returns_bind.
  { unfold declared_holds. apply returns_bind; [apply returns_digest|by eexists]. }
  intros declared _. apply returns_bind.
  { apply returns_mapM. intros check (Hn & Hl & Hd)%Hc. by apply check_returns. }
  intros evaluations _. case_bool_decide; [by eexists|]. apply returns_bind; [apply calibration_returns|by eexists].
Qed.
Lemma checks_named `{UrlReader} state checks : checks_from_state state = Ok checks -> Forall named checks.
Proof.
  unfold checks_from_state. destruct state; try done. intros H'. apply bind_Ok in H' as (cs & Hc & H').
  apply raise_if_Ok in H' as [_ [= <-]]. rewrite Forall_forall. intros c Hin.
  destruct (mapM_elem_inv _ _ _ _ Hc Hin) as (j & _ & Hj). unfold check_from_state in Hj.
  apply bind_Ok in Hj as (? & _ & Hj). apply bind_Ok in Hj as (? & _ & Hj). apply bind_Ok in Hj as (name & _ & Hj).
  apply raise_if_Ok in Hj as [Hn Hj]. apply negb_false_iff in Hn.
  repeat (first [apply raise_if_Ok in Hj as [_ Hj]|apply bind_Ok in Hj as (? & ? & Hj)]). injection Hj as <-. done.
Qed.
(** C28: A behavioural result can be relied on.  The evaluation of declared checks always
    returns (the assertions of a check being fewer than a Python list holds at most, 2^63): it
    passes only if nothing is held back, the observations are exactly those of the checks, each
    check's observation is a current, real, undisturbed instrument observation whose data and
    media are the ones its receipt captured, every one of its assertions holds on that data, and
    a current calibration caught the declared faults: each relevant (assertion, fault) once, with
    both receipts, and each assertion at least once by its meaning.  It fails only on such an
    observation, for an assertion that does not hold on it and is named in the reasons, and no
    calibration would change that.  It is indeterminate only with a reason. *)
Theorem evaluate_behavioral_sound `{UrlReader} state checks inputs observations calibration
    (Hs : checks_from_state state = Ok checks) (Hl : Forall (fun c => listable (bc_assertions c)) checks) :
  exists e, evaluate_behavioral checks inputs observations calibration = Ok e /\
  match be_result e with
  | EV_PASS => be_holds e = [] /\ declared_for checks inputs observations /\
      (forall check, check ∈ checks -> exists observed, observed ∈ observations /\ oc_check_name observed = bc_name check /\
        trusted check observed inputs /\ forall i a, bc_assertions check !! i = Some a -> shows (oc_data observed) i a) /\
      exists c, calibration = Some c /\ calibrates checks inputs c
  | EV_FAIL => (forall calibration', evaluate_behavioral checks inputs observations calibration' = Ok e) /\
      exists check observed i a, check ∈ checks /\ observed ∈ observations /\ trusted check observed inputs /\
        bc_assertions check !! i = Some a /\ ~ shows (oc_data observed) i a /\
        ("behavioral_assertion_failed:" +:+ assertion_id check i) ∈ be_holds e
  | EV_INDETERMINATE => be_holds e <> []
  end.
Proof.
  pose proof (checks_declared _ _ Hs) as Hd. pose proof (checks_named _ _ Hs) as Hn.
  destruct (evaluation_returns checks inputs observations calibration) as [e He].
  { rewrite Forall_forall in *. intros c Hc. split_and!; [by apply Hn|by apply Hl|by apply Hd]. }
  exists e. split; [done|]. unfold evaluate_behavioral in *.
  apply bind_Ok in He as (declared & Hdecl & He). apply bind_Ok in He as (evaluations & Hev & He).
  rewrite Hdecl. cbn [mbind result_bind]. rewrite Hev. cbn [mbind result_bind].
  pose proof (overall_sound _ _ _ _ _ Hd Hdecl Hev) as Ho. cbv zeta in Ho, He |- *.
  match type of Ho with context [overall ?h _] => set (holds := h) in * end.
  destruct (overall holds _) eqn:E; cbn [bool_decide decide decide_rel] in He.
  - apply bind_Ok in He as (cal & Hcal & [= <-]). cbn. destruct Ho as (Hh & Hdf & Hall). rewrite Hh. cbn [app].
    destruct cal as [|x cal]; cbn [is_nil]; [|by intros Hk%fromkeys_nil].
    split_and!; [done..|]. by apply calibration_clean.
  - injection He as <-. cbn [be_result be_holds]. split; [done|]. exact Ho.
  - apply bind_Ok in He as (cal & Hcal & [= <-]). cbn [be_result be_holds].
    destruct (is_nil (holds ++ cal)) eqn:En; intros Hk%fromkeys_nil; apply app_nil in Hk as [Hk _]; done.
Qed.
End Evaluation.

(** ** Stored forms *)
(** What was read reads back from its stored form, in any order of the keys. *)
Class ReadsBack {A} (from : json -> result A) (to : A -> json) : Prop :=
  reads_back : forall j x, from j = Ok x -> from (canon (to x)) = Ok x.
(** A scalar is read only from the value it is written as. *)
Definition reads_only {A} (from : json -> result A) (to : A -> json) : Prop := forall j x, from j = Ok x -> j = to x.
Lemma only_back {A} (from : json -> result A) to : (forall x, canon (to x) = to x) -> reads_only from to -> ReadsBack from to.
Proof. intros Hc H j x Hx. pose proof Hx as Hj. apply H in Hj. by rewrite Hc, <- Hj. Qed.
Lemma bounded_text_Ok s t : bounded_text s = Ok t -> t = s.
Proof. unfold bounded_text. intros H. inv_ok. done. Qed.
Lemma text_only : reads_only evidence_text JStr.
Proof. intros [] x H; try done. apply bounded_text_Ok in H. by subst. Qed.
#[export] Instance text_back : ReadsBack evidence_text JStr.
Proof. apply only_back; [done|apply text_only]. Qed.
#[export] Instance flag_back : ReadsBack evidence_flag JBool.
Proof. apply only_back; [done|]. intros [] x H; try done. by injection H as <-. Qed.
Lemma member_only {A} `{PyEnum A} : reads_only (known_member (A:=A)) (fun x => JStr (enum_value x)).
Proof.
  intros [| | | |s | |] x Hx; try done. unfold known_member in Hx.
  destruct (enum_of_value s) as [y|] eqn:E; [|done]. injection Hx as <-. apply enum_of_value_Ok in E. by subst.
Qed.
#[export] Instance member_back {A} `{PyEnum A} : ReadsBack (known_member (A:=A)) (fun x => JStr (enum_value x)).
Proof. apply only_back; [done|apply member_only]. Qed.
#[export] Instance digest_back : ReadsBack evidence_digest (fun d => JStr (digest_str d)).
Proof.
  apply only_back; [done|]. intros [| | | |s | |] d H; try done. apply raise_if_Ok in H as [Hr H]. apply negb_false_iff in Hr.
  apply regex_fullmatch_spec in Hr as (x & y & Hs & Hx & Hy); [|done]. cbn in Hx, Hy. subst x.
  assert (Hd : drop 7 (chars s) = y) by (rewrite Hs; done). rewrite Hd in H. apply mk_digest_Ok in H as [-> _].
  f_equal. apply chars_inj. unfold digest_str. cbn [algorithm hex_value]. by rewrite !chars_app, chars_of_chars, Hs.
Qed.
Lemma calibration_digest_only : reads_only calibration_digest (fun d => JStr (digest_str d)).
Proof.
  intros [| | | |s | |] d H; try done. apply raise_if_Ok in H as [Hr H]. apply negb_false_iff in Hr.
  apply bool_decide_eq_true in Hr as [y Hs].
  assert (Hd : drop 7 (chars s) = y) by (rewrite Hs; done). rewrite Hd in H. apply mk_digest_Ok in H as [-> _].
  f_equal. apply chars_inj. unfold digest_str. cbn [algorithm hex_value]. by rewrite !chars_app, chars_of_chars, Hs.
Qed.
#[export] Instance calibration_digest_back : ReadsBack calibration_digest (fun d => JStr (digest_str d)).
Proof. apply only_back; [done|apply calibration_digest_only]. Qed.
#[export] Instance time_back `{IsoCodec} : ReadsBack evidence_time (fun t => JStr (isoformat t)).
Proof.
  intros [| | | |s | |] t H'; try done. unfold evidence_time in H'. destruct (fromisoformat s) as [u|]; [|done].
  apply raise_if_Ok in H' as [Ht [= ->]]. destruct t as [z|z]; [|done]. cbn. by rewrite fromisoformat_isoformat.
Qed.
#[export] Instance integer_back : ReadsBack optional_integer (from_option JInt JNull).
Proof. apply only_back; [by intros []|]. intros [] x H; try done; by injection H as <-. Qed.
Lemma option_back {A} (from : json -> result A) to : (forall x, to x <> JNull) -> (forall x, canon (to x) = to x) ->
  reads_only from to ->
  ReadsBack (fun v => match v with JNull => Ok None | v => x ← from v; Ok (Some x) end) (from_option to JNull).
Proof.
  intros Hn Hc Hf. apply only_back; [by intros [y|]; [apply Hc|]|]. intros j x H.
  destruct j; try (apply bind_Ok in H as (y & Hy & [= <-]); by apply Hf in Hy). by injection H as <-.
Qed.

(** *** Objects *)
Lemma evidence_state_canon m fields : same_set (map fst m) fields = true -> evidence_state (canon (JObj m)) fields = Ok (canon_items m).
Proof.
  intros Hs. rewrite canon_obj. unfold evidence_state. apply raise_if_Ok. split; [|done]. apply negb_false_iff.
  unfold same_set in *. apply andb_true_iff in Hs as [Ha Hb]. apply andb_true_iff. rewrite !forallb_all in *.
  split; intros x Hx.
  - apply Ha. change (x ∈ (canon_items m).*1) in Hx. by rewrite canon_items_keys in Hx.
  - specialize (Hb x Hx). apply bool_decide_eq_true in Hb. apply bool_decide_eq_true.
    change (x ∈ (canon_items m).*1). by rewrite canon_items_keys.
Qed.
Lemma item_canon m k : NoDup m.*1 -> item (canon_items m) k = canon (item m k).
Proof. intros Hd. unfold item. rewrite canon_items_get by done. by destruct (dict_get k m). Qed.
Lemma items_canon l : evidence_items (canon (JList l)) = Ok (map canon l).
Proof. done. Qed.
Lemma mapM_reads {A} (from : json -> result A) to l : (forall x, x ∈ l -> from (canon (to x)) = Ok x) ->
  mapM_result from (map canon (map to l)) = Ok l.
Proof. intros Hl. rewrite map_map. apply mapM_result_map. by rewrite Forall_forall. Qed.
Lemma mapM_was_read {A} (from : json -> result A) to items l `{!ReadsBack from to} : mapM_result from items = Ok l ->
  forall x, x ∈ l -> from (canon (to x)) = Ok x.
Proof. intros H x Hx. destruct (mapM_elem_inv _ _ _ _ H Hx) as (j & _ & Hj). by eapply reads_back. Qed.
Lemma mapM_back {A} (from : json -> result A) to items l `{!ReadsBack from to} :
  mapM_result from items = Ok l -> mapM_result from (map canon (map to l)) = Ok l.
Proof. intros H. apply mapM_reads. exact (mapM_was_read from to items l H). Qed.
Ltac opens := repeat match goal with
  | H : mbind (fun _ => _) (raise_if _ _) = Ok _ |- _ => apply raise_if_Ok in H as [? H]
  | H : mbind _ _ = Ok _ |- _ => apply bind_Ok in H as (? & ? & H)
  end.
Ltac stored := rewrite evidence_state_canon by (vm_compute; reflexivity); cbn [mbind result_bind];
  rewrite !item_canon by distinct_keys; unfold item; cbn [dict_get String.eqb Ascii.eqb Bool.eqb default from_option id].
(** Reads the fields one after the other. *)
Ltac back := repeat match goal with
  | H : ?f ?j = Ok ?x |- context [?f (canon ?v)] =>
      let E := fresh in assert (E : f (canon v) = Ok x) by exact (reads_back (from:=f) j x H); rewrite E; clear E; cbn [mbind result_bind]
  end.
#[export] Instance build_back : ReadsBack build_from_state build_state.
Proof.
  intros j x H. unfold build_from_state in H. opens. injection H as <-.
  unfold build_from_state, build_state. cbn [bi_kind bi_digest]. stored. back. done.
Qed.
Lemma evaluator_same : returns_same evaluator_post_init.
Proof. unfold evaluator_post_init. same. Qed.
Lemma tool_same : returns_same tool_post_init.
Proof. unfold tool_post_init. same. Qed.
Lemma observer_same : returns_same observer_post_init.
Proof. unfold observer_post_init. same. Qed.
Lemma decode_same : returns_same decode_post_init.
Proof. unfold decode_post_init. same. Qed.
Lemma artifact_same : returns_same artifact_post_init.
Proof. unfold artifact_post_init. same. Qed.
Lemma manifest_same : returns_same manifest_post_init.
Proof. unfold manifest_post_init. same. Qed.
Lemma assertion_outcome_same : returns_same assertion_outcome_post_init.
Proof. unfold assertion_outcome_post_init. same. Qed.
Lemma evidence_receipt_same : returns_same evidence_receipt_post_init.
Proof. unfold evidence_receipt_post_init. same. Qed.
Lemma calibration_outcome_same : returns_same calibration_outcome_post_init.
Proof. unfold calibration_outcome_post_init. same. Qed.
Lemma calibration_same : returns_same calibration_post_init.
Proof. unfold calibration_post_init. same. Qed.
Ltac integers := repeat match goal with |- context [canon (JInt ?z)] => change (canon (JInt z)) with (JInt z); cbn [mbind result_bind] end.
(** A codec whose constructor keeps what it accepts. *)
Ltac reread from to keep := intros j x H; unfold from in H; opens; pose proof H as Hkept; apply keep in H; subst x;
  unfold from, to; stored; integers; back; cbn; exact Hkept.
#[export] Instance evaluator_back : ReadsBack evaluator_from_state evaluator_state.
Proof. reread evaluator_from_state evaluator_state evaluator_same. Qed.
#[export] Instance tool_back : ReadsBack tool_from_state tool_state.
Proof. reread tool_from_state tool_state tool_same. Qed.
#[export] Instance observer_back : ReadsBack observer_from_state observer_state.
Proof. reread observer_from_state observer_state observer_same. Qed.
#[export] Instance assertion_outcome_back : ReadsBack assertion_outcome_from_state assertion_outcome_state.
Proof. reread assertion_outcome_from_state assertion_outcome_state assertion_outcome_same. Qed.
#[export] Instance optional_text_back : ReadsBack optional_evidence_text control_value.
Proof. intros j x. apply (option_back evidence_text JStr); [done|done|apply text_only]. Qed.
#[export] Instance decode_back : ReadsBack decode_from_state decode_state.
Proof. reread decode_from_state decode_state decode_same. Qed.
#[export] Instance artifact_back : ReadsBack artifact_from_state artifact_state.
Proof. reread artifact_from_state artifact_state artifact_same. Qed.
#[export] Instance manifest_back : ReadsBack capture_manifest_from_state capture_manifest_state.
Proof.
  intros j x H. unfold capture_manifest_from_state in H. opens. pose proof H as Hkept. apply manifest_same in H. subst x.
  unfold capture_manifest_from_state, capture_manifest_state. stored. rewrite items_canon. cbn [mbind result_bind].
  match goal with H : mapM_result _ _ = Ok _ |- _ => by rewrite (mapM_back _ _ _ _ H) end.
Qed.
#[export] Instance tool_le_total : Total tool_le.
Proof. intros x y. apply (total String.le). Qed.
#[export] Instance tool_le_trans : Transitive tool_le.
Proof. intros x y z. apply (transitivity (R:=String.le)). Qed.
#[export] Instance environment_back : ReadsBack environment_from_state environment_state.
Proof.
  intros j x H. unfold environment_from_state in H. opens. unfold environment_post_init in H. opens. injection H as <-.
  unfold environment_from_state, environment_state. cbn [ef_host_receipt_digest ef_tool_versions]. stored. back.
  rewrite items_canon. cbn [mbind result_bind].
  match goal with H : mapM_result _ _ = Ok ?l |- _ => rename H into Hm; rename l into tools end.
  rewrite mapM_reads by (intros t Ht; apply elem_of_py_sort in Ht; exact (mapM_was_read tool_from_state tool_state _ _ Hm t Ht)).
  cbn [mbind result_bind]. unfold environment_post_init. cbn [ef_tool_versions ef_host_receipt_digest] in *.
  apply raise_if_Ok. split; [|by rewrite (py_sort_idempotent tool_le)]. flags.
  apply orb_false_iff. split.
  - destruct (py_sort tool_le tools) eqn:E; [|done]. by rewrite (proj1 (py_sort_nil _ _) E) in *.
  - apply negb_false_iff, bool_decide_eq_true. by rewrite py_sort_perm.
Qed.
#[export] Instance optional_result_back : ReadsBack optional_result (fun r => control_value (enum_value <$> r)).
Proof.
  intros j x H. assert (Hx : control_value (enum_value <$> x) = from_option (fun r => JStr (enum_value r)) JNull x) by (by destruct x).
  rewrite Hx. revert H. by apply (option_back known_member); [..|apply member_only].
Qed.
(** A list of documents among the fields *)
Ltac back_list := match goal with
  | H : mapM_result ?f ?items = Ok ?l |- context [evidence_items (canon (JList (map ?g ?l)))] =>
      rewrite (items_canon (map g l)); cbn [mbind result_bind]; rewrite (mapM_back f g items l H); cbn [mbind result_bind] end.
Lemma digests_state l : json_texts (map digest_str l) = JList (map (fun d => JStr (digest_str d)) l).
Proof. unfold json_texts. by rewrite map_map. Qed.
Section Stored.
Context `{rt : PyRuntime} `{iso : IsoCodec}.
#[export] Instance evidence_receipt_back : ReadsBack evidence_receipt_from_state evidence_receipt_state.
Proof.
  intros j x H. unfold evidence_receipt_from_state in H. opens. pose proof H as Hkept. apply evidence_receipt_same in H. subst x.
  unfold evidence_receipt_from_state, evidence_receipt_state. cbn [er_input_receipt_digests er_assertion_outcomes].
  rewrite digests_state. stored.
  integers. back. repeat (back_list; back). exact Hkept.
Qed.
#[export] Instance optional_calibration_digest_back :
  ReadsBack optional_calibration_digest (fun d => control_value (digest_str <$> d)).
Proof.
  intros j x H. assert (Hx : control_value (digest_str <$> x) = from_option (fun r => JStr (digest_str r)) JNull x) by (by destruct x).
  rewrite Hx. revert H. by apply (option_back calibration_digest); [..|apply calibration_digest_only].
Qed.
#[export] Instance optional_value_back : ReadsBack optional_text_value control_value.
Proof. apply only_back; [by intros []|]. intros [] x H; try done; by injection H as <-. Qed.
#[export] Instance literal_back : ReadsBack literal_text JStr.
Proof. apply only_back; [done|]. intros [] x H; try done; by injection H as <-. Qed.
#[export] Instance optional_literal_back : ReadsBack optional_literal control_value.
Proof.
  intros j x. apply (option_back literal_text JStr); [done|done|]. intros [] y H; try done; by injection H as <-.
Qed.
#[export] Instance calibration_outcome_back : ReadsBack calibration_outcome_from_state calibration_outcome_state.
Proof.
  intros j x H. unfold calibration_outcome_from_state in H. opens. pose proof H as Hkept. apply calibration_outcome_same in H. subst x.
  unfold calibration_outcome_from_state, calibration_outcome_state. stored. back.
  cbn [canon co_assertion_id mbind result_bind].
  repeat match goal with H : ?b = false |- context [raise_if ?b _] => rewrite H; cbn [raise_if mbind result_bind] end. exact Hkept.
Qed.
#[export] Instance calibration_back : ReadsBack calibration_from_state calibration_state.
Proof.
  intros j x H. unfold calibration_from_state in H. opens. pose proof H as Hkept. apply calibration_same in H. subst x.
  unfold calibration_from_state, calibration_state. cbn [cr_results cr_receipt cr_fixture_digest]. stored. integers. cbn [raise_if negb Z.eqb Pos.eqb mbind result_bind].
  rewrite items_canon. cbn [mbind result_bind]. back.
  match goal with H : mapM_result _ _ = Ok _ |- _ => rewrite (mapM_back _ _ _ _ H) end. cbn [mbind result_bind]. back. exact Hkept.
Qed.
End Stored.

(** *** Declarations *)
Lemma canon_keys m k : k ∈ map fst (canon_items m) <-> k ∈ map fst m.
Proof. change (map fst (canon_items m)) with (canon_items m).*1. by rewrite canon_items_keys. Qed.
Lemma declared_keys_canon m required optional : declared_keys (canon_items m) required optional = declared_keys m required optional.
Proof.
  unfold declared_keys. f_equal. f_equal; f_equal; f_equal; apply eq_true_iff_eq; rewrite !forallb_all.
  - by setoid_rewrite canon_keys.
  - split; intros H x Hx; specialize (H x Hx); apply bool_decide_eq_true in H; by apply bool_decide_eq_true, canon_keys.
Qed.
Lemma operators_canon m : List.filter (fun o => bool_decide (o ∈ map fst (canon_items m))) OPERATORS =
  List.filter (fun o => bool_decide (o ∈ map fst m)) OPERATORS.
Proof. apply filter_ext. intros o. apply bool_decide_ext, canon_keys. Qed.
Lemma expected_canon kind op e : expected_holds kind op e = true -> canon e = e.
Proof.
  unfold expected_holds. intros H. destruct e; try done; destruct (String.eqb kind _); rewrite ?andb_false_r in H; try done;
    destruct (String.eqb op _); rewrite ?andb_false_r in H; done.
Qed.
(** A declared assertion reads back. *)
Lemma assertion_reads a : declared_assertion a -> assertion_from_state (canon (assertion_state a)) = Ok a.
Proof.
  destruct a as [kind op e path sel]. intros [Hk Ho He Hp Hnp Hs Hns]. unfold assertion_state.
  cbn [ba_kind ba_operator ba_expected ba_path ba_selector] in *.
  assert (Hsel : kind <> "dom" -> sel = None) by done. assert (Hpath : kind <> "produced_file" -> path = None) by done.
  set (m := [("kind", JStr kind); (op, e)] ++ optional_item "path" path ++ optional_item "selector" sel).
  assert (Hd : NoDup m.*1).
  { unfold m. kinds Ho; destruct path, sel; distinct_keys. }
  unfold assertion_from_state. rewrite canon_obj. cbn [declared_mapping mbind result_bind].
  assert (Hkind : one_of ASSERTION_KINDS (default JNull (dict_get "kind" (canon_items m))) = Ok kind).
  { rewrite canon_items_get by done. cbn. apply raise_if_Ok. split; [|done]. apply negb_false_iff. by apply bool_decide_eq_true. }
  rewrite Hkind. cbn [mbind result_bind]. rewrite declared_keys_canon, operators_canon.
  assert (Hops : List.filter (fun o => bool_decide (o ∈ map fst m)) OPERATORS = [op]).
  { unfold m. kinds Ho; destruct path, sel; vm_compute; reflexivity. }
  rewrite Hops, canon_items_get by done.
  assert (Hexp : dict_get op m = Some e) by (unfold m; kinds Ho; done).
  rewrite Hexp. cbn [fmap option_fmap option_map default from_option id]. rewrite (expected_canon _ _ _ He), He.
  clear Hkind Hops Hexp. destruct (decide (kind = "produced_file")) as [->|Hf].
  - destruct (Hp eq_refl) as (p & -> & Ht & Hr). assert (sel = None) as -> by auto. cbn [String.eqb Ascii.eqb Bool.eqb app].
    assert (Hkeys : declared_keys m ["kind"; "path"] OPERATORS = Ok ()) by (unfold m; kinds Ho; vm_compute; reflexivity).
    assert (Hget : dict_get "path" m = Some (JStr p)) by (unfold m; kinds Ho; done).
    rewrite Hkeys, canon_items_get, Hget by done. cbn [mbind result_bind raise_if negb fmap option_fmap option_map default from_option id canon].
    by rewrite Ht; cbn [mbind result_bind]; rewrite Hr.
  - pose proof Hf as Hf'. apply String.eqb_neq in Hf'. rewrite Hf'. assert (path = None) as -> by auto. destruct (decide (kind = "dom")) as [->|Hdom].
    + destruct (Hs eq_refl) as (p & -> & Ht). cbn [String.eqb Ascii.eqb Bool.eqb app].
      assert (Hkeys : declared_keys m ["kind"; "selector"] OPERATORS = Ok ()) by (unfold m; kinds Ho; vm_compute; reflexivity).
      assert (Hget : dict_get "selector" m = Some (JStr p)) by (unfold m; kinds Ho; done).
      rewrite Hkeys, canon_items_get, Hget by done. cbn [mbind result_bind raise_if negb fmap option_fmap option_map default from_option id canon].
      by rewrite Ht.
    + pose proof Hdom as Hdom'. apply String.eqb_neq in Hdom'. rewrite Hdom'. assert (sel = None) as -> by auto. cbn [app].
      assert (Hkeys : declared_keys m ["kind"] OPERATORS = Ok ()) by (unfold m; kinds Ho; vm_compute; reflexivity).
      by rewrite Hkeys.
Qed.
#[export] Instance assertion_back : ReadsBack assertion_from_state assertion_state.
Proof. intros j a H. apply assertion_reads. by eapply declared_assertion_of. Qed.
Lemma declared_text_back : reads_only declared_text JStr.
Proof. intros j s. apply declared_text_Ok. Qed.
Lemma one_of_only names : reads_only (one_of names) JStr.
Proof. intros j s H. by apply one_of_Ok in H as [-> _]. Qed.
Lemma loopback_only `{UrlReader} : reads_only loopback_url JStr.
Proof.
  intros j s H'. unfold loopback_url in H'. apply bind_Ok in H' as (t & Ht & H'). apply declared_text_Ok in Ht. subst j.
  apply raise_if_Ok in H' as [_ H']. destruct (urlsplit t); [|done]. destruct (host_loopback _); [|done].
  by apply raise_if_Ok in H' as [_ [= ->]].
Qed.
Lemma str_list_only l v : str_list (Some v) = Ok l -> v = json_texts l.
Proof.
  destruct v as [| | | | |items|]; try done. cbn. intros H. unfold json_texts. f_equal. apply mapM_result_Ok in H.
  induction H as [|j s items l Hj _ IH]; [done|]. cbn. destruct j; try discriminate Hj. injection Hj as ->. by rewrite <- IH.
Qed.
Lemma declared_argv_reads raw argv : declared_argv raw = Ok argv ->
  declared_argv (if is_nil argv then [] else [("argv", json_texts argv)]) = Ok argv.
Proof.
  unfold declared_argv. destruct (dict_get "argv" raw) as [v|]; [|by intros [= <-]]. intros H.
  apply bind_Ok in H as (c & Hc & H). apply raise_if_Ok in H as [Hn [= <-]].
  assert (Hv : v = json_texts (cc_argv c) /\ cc_argv c <> []).
  { unfold command_contract_from_mapping in Hc. apply bind_Ok in Hc as (u & _ & Hc). apply bind_Ok in Hc as (src & Hsrc & Hc).
    apply bind_Ok in Hc as (l & Hl & Hc). cbn in Hsrc, Hl. injection Hsrc as <-. apply str_list_only in Hl.
    cbn in Hc. apply raise_if_Ok in Hc as [Hne Hc]. repeat (first [apply raise_if_Ok in Hc as [_ Hc]|apply bind_Ok in Hc as (? & _ & Hc)]).
    injection Hc as <-. cbn. split; [done|]. by apply bool_decide_eq_false in Hne. }
  destruct Hv as [-> Hne]. destruct (is_nil (cc_argv c)) eqn:E; [by apply is_nil_true in E|]. cbn [dict_get String.eqb Ascii.eqb Bool.eqb].
  rewrite Hc. cbn [mbind result_bind]. by rewrite Hn.
Qed.
Lemma only_read {A} (from : json -> result A) to j x : reads_only from to -> from j = Ok x -> from (to x) = Ok x.
Proof. intros Hf H. pose proof H as Hj. apply Hf in Hj. by rewrite <- Hj. Qed.
Lemma optional_read_only {A} (from : json -> result A) to v o : reads_only from to ->
  match v with Some v => u ← from v; Ok (Some u) | None => Ok None end = Ok o ->
  match to <$> o with Some v => u ← from v; Ok (Some u) | None => Ok None end = Ok o.
Proof.
  intros Hf H. destruct v as [v|]; [|by injection H as <-]. apply bind_Ok in H as (u & Hu & [= <-]). cbn.
  by rewrite (only_read _ _ _ _ Hf Hu).
Qed.
Lemma texts_left (from : json -> result string) items l : mapM_result from items = Ok l -> is_nil (map JStr l) = is_nil items.
Proof. intros H. apply mapM_result_Ok in H. by destruct H. Qed.
Lemma canon_texts l : canon (json_texts l) = json_texts l.
Proof. unfold json_texts. cbn. by rewrite map_map. Qed.
Lemma texts_read (from : json -> result string) items l : reads_only from JStr -> mapM_result from items = Ok l ->
  mapM_result from (map JStr l) = Ok l.
Proof.
  intros Hf H. apply mapM_result_map. rewrite Forall_forall. intros s Hs. destruct (mapM_elem_inv _ _ _ _ H Hs) as (j & _ & Hj).
  pose proof Hj as Hj'. apply Hf in Hj'. by subst.
Qed.
(** What the reader of a check finds in its stored form. *)
Record stored_check (c : BehavioralCheck) (m : list (string * json)) : Prop := {
  sc_keys : declared_keys m ["name"; "observer"; "assertions"; "fault_classes"] ["argv"; "url"] = Ok ();
  sc_name : dict_get "name" m = Some (JStr (bc_name c));
  sc_observer : dict_get "observer" m = Some (JStr (bc_observer c));
  sc_assertions : dict_get "assertions" m = Some (JList (map canon (map assertion_state (bc_assertions c))));
  sc_faults : dict_get "fault_classes" m = Some (json_texts (bc_fault_classes c));
  sc_argv : dict_get "argv" m = if is_nil (bc_argv c) then None else Some (json_texts (bc_argv c));
  sc_url : dict_get "url" m = JStr <$> bc_url c;
}.
Lemma check_stored c : exists m, canon (check_state c) = JObj m /\ stored_check c m.
Proof.
  unfold check_state. rewrite canon_obj. eexists. split; [done|].
  match goal with |- stored_check _ (canon_items ?l) => set (m := l) end.
  assert (Hd : NoDup m.*1) by (unfold m; destruct (is_nil (bc_argv c)), (bc_url c); distinct_keys).
  split; rewrite ?declared_keys_canon, ?canon_items_get by done.
  1: unfold m; destruct (is_nil (bc_argv c)), (bc_url c); vm_compute; reflexivity.
  1, 2, 3: done.
  - unfold m. cbn [app dict_get String.eqb Ascii.eqb Bool.eqb fmap option_fmap option_map]. by rewrite canon_texts.
  - unfold m. cbn [app dict_get String.eqb Ascii.eqb Bool.eqb].
    destruct (is_nil (bc_argv c)), (bc_url c); cbn [app dict_get optional_item String.eqb Ascii.eqb Bool.eqb fmap option_fmap option_map];
      by rewrite ?canon_texts.
  - unfold m. destruct (is_nil (bc_argv c)), (bc_url c); done.
Qed.
#[export] Instance check_back `{UrlReader} : ReadsBack check_from_state check_state.
Proof.
  intros j c H'. unfold check_from_state in H'. opens. injection H' as Hc.
  match type of Hc with ?c' = c => destruct (check_stored c') as (m & Hm & Hst) end. rewrite Hc in Hm, Hst. subst c.
  rewrite Hm. unfold check_from_state. cbn [declared_mapping mbind result_bind].
  destruct Hst as [Hk Hn Ho Ha Hf Hv Hu]. cbn [bc_name bc_observer bc_assertions bc_fault_classes bc_argv bc_url] in *.
  assert (Hargv : declared_argv m = Ok x3).
  { match goal with H : declared_argv _ = Ok _ |- _ => rewrite <- (declared_argv_reads _ _ H) end. unfold declared_argv.
    rewrite Hv. by destruct (is_nil x3). }
  rewrite Hk, Hn, Ho, Ha, Hf, Hargv, Hu. cbn [mbind result_bind default from_option id].
  repeat match goal with
  | H : declared_text _ = Ok ?s |- context [declared_text (JStr ?s)] => rewrite (only_read _ _ _ _ declared_text_back H)
  | H : one_of ?n _ = Ok ?s |- context [one_of ?n (JStr ?s)] => rewrite (only_read _ _ _ _ (one_of_only n) H)
  | H : match dict_get "url" _ with _ => _ end = Ok ?o |- context [match JStr <$> ?o with _ => _ end] =>
      rewrite (optional_read_only _ _ _ _ loopback_only H)
  | H : ?b = false |- context [raise_if ?b _] => rewrite H
  | H : mapM_result assertion_from_state _ = Ok ?l |- context [mapM_result assertion_from_state (map canon (map _ ?l))] =>
      rewrite (mapM_back _ _ _ _ H)
  | H : mapM_result (one_of ?n) _ = Ok ?l |- context [is_nil (map JStr ?l)] => rewrite (texts_left _ _ _ H)
  | H : mapM_result (one_of ?n) _ = Ok ?l |- context [mapM_result (one_of ?n) (map JStr ?l)] =>
      rewrite (texts_read _ _ _ (one_of_only n) H)
  | |- _ => progress cbn [raise_if json_texts mbind result_bind]
  end. done.
Qed.
Lemma partition_chars_Some sep l x y : partition_chars sep l = (x, Some y) -> l = x ++ sep :: y.
Proof.
  revert x y. induction l as [|c l IH]; intros x y E; [done|]. cbn in E. case_decide; [by simplify_eq/=|].
  destruct (partition_chars sep l) as [x' y']. simplify_eq/=. by rewrite (IH _ _ eq_refl).
Qed.
Lemma partition_joined s a h : py_partition colon s = (a, Some h) -> s = a +:+ ":" +:+ h.
Proof.
  unfold py_partition. destruct (partition_chars colon (chars s)) as [x [y|]] eqn:E; [|done]. intros [= <- <-].
  apply chars_inj. rewrite !chars_app, !chars_of_chars. by apply partition_chars_Some in E.
Qed.
Lemma declared_digest_only : reads_only declared_digest JStr.
Proof.
  intros j t H. unfold declared_digest in H. apply bind_Ok in H as (s & Hs & H). apply declared_text_Ok in Hs. subst j.
  destruct (py_partition colon s) as [a [h|]] eqn:E; apply bind_Ok in H as (d & Hd & [= <-]); apply mk_digest_Ok in Hd as (-> & _ & Hh).
  - f_equal. by apply partition_joined in E.
  - done.
Qed.
Lemma checks_back `{UrlReader} state checks : checks_from_state state = Ok checks ->
  checks_from_state (canon (checks_state checks)) = Ok checks.
Proof.
  unfold checks_from_state, checks_state. destruct state; try done. intros H'. opens. injection H' as <-.
  cbn [canon]. rewrite (mapM_back check_from_state check_state _ _ H0). cbn [mbind result_bind]. by rewrite H1.
Qed.
Lemma binding_back `{PyRuntime} `{UrlReader} state b s : binding_from_state state = Ok b -> binding_state b = Ok s ->
  binding_from_state (canon s) = Ok b.
Proof.
  intros Hb Hs. unfold binding_from_state in Hb. opens. injection Hb as <-. unfold binding_state in Hs. cbn [cb_checks] in Hs.
  match goal with H : checks_digest _ = Ok ?d |- _ => rewrite H in Hs; rename H into Hdig end. injection Hs as <-.
  unfold binding_from_state. rewrite canon_obj. cbn [declared_mapping mbind result_bind cb_base_revision cb_configuration_snapshot_digest cb_checks cb_evaluator_version].
  rewrite declared_keys_canon, !canon_items_get by distinct_keys.
  change (declared_keys _ BINDING_FIELDS []) with (Ok ()).
  cbn [dict_get String.eqb Ascii.eqb Bool.eqb fmap option_fmap option_map default from_option id mbind result_bind].
  integers. cbn [raise_if negb Z.eqb Pos.eqb mbind result_bind].
  repeat match goal with
  | |- context [canon (JStr ?s)] => change (canon (JStr s)) with (JStr s)
  | H : declared_text _ = Ok ?s |- context [declared_text (JStr ?s)] => rewrite (only_read _ _ _ _ declared_text_back H)
  | H : declared_digest _ = Ok ?s |- context [declared_digest (JStr ?s)] => rewrite (only_read _ _ _ _ declared_digest_only H)
  | H : require_base_revision ?r = Ok _ |- context [require_base_revision ?r] => rewrite H
  | H : checks_from_state _ = Ok ?c |- context [checks_from_state (canon (checks_state ?c))] => rewrite (checks_back _ _ H)
  | |- _ => progress cbn [mbind result_bind]
  end.
  rewrite Hdig. cbn [mbind result_bind]. by rewrite String.eqb_refl.
Qed.

(** Whatever the custody documents, the evidence receipts and the calibration receipts were
    read from, they read back as they are from the canonical form of what they store, and a
    binding keeps the digest of its assertions. *)
Theorem behavioral_records_read_back `{PyRuntime} `{IsoCodec} `{UrlReader} :
  (forall state b s, binding_from_state state = Ok b -> binding_state b = Ok s -> binding_from_state (canon s) = Ok b) /\
  (forall state r, evidence_receipt_from_state state = Ok r -> evidence_receipt_from_state (canon (evidence_receipt_state r)) = Ok r) /\
  (forall state c, calibration_from_state state = Ok c -> calibration_from_state (canon (calibration_state c)) = Ok c).
Proof. split_and!; [apply binding_back|apply reads_back|apply reads_back]. Qed.

(** ** A passing evaluation *)
Module Demo.
#[local] Existing Instance IdentityProofs.toy_runtime.
#[local] Existing Instance IdentityProofs.toy_iso.
#[local] Instance demo_urls : UrlReader := {| urlsplit _ := None; is_loopback _ := None |}.
Definition demo_state : json := JList [JObj [
  ("name", JStr "api"); ("observer", JStr "command"); ("argv", json_texts ["tool"; "run"]);
  ("assertions", JList [JObj [("kind", JStr "stdout"); ("contains", JStr "ok")]]);
  ("fault_classes", json_texts ["constant_result"; "wrong_build"])]].
Definition demo_checks : list BehavioralCheck := match checks_from_state demo_state with Ok l => l | Err _ => [] end.
Definition ok_digest (d : result Digest) : Digest := match d with Ok d => d | Err _ => {| algorithm := ""; hex_value := "" |} end.
Definition some_digest : Digest := ok_digest (digest_of_bytes [1%N]).
Definition demo_inputs : AcceptanceInputs := {|
  in_source_revision := "s"; in_base_revision := "b"; in_head_revision := "h";
  in_build := {| bi_kind := SOURCE_TREE; bi_digest := some_digest |}; in_configuration_snapshot_digest := some_digest;
  in_evaluator := {| ev_assertion_set_digest := ok_digest (checks_digest demo_checks); ev_version := EVALUATOR_VERSION |};
  in_environment := {| ef_host_receipt_digest := some_digest; ef_tool_versions := [{| tv_name := "t"; tv_version := "1" |}] |} |}.
Definition demo_artifact (d : Digest) : CaptureArtifact := {|
  ca_digest := d; ca_media_type := "application/json"; ca_size_bytes := 10;
  ca_decode := {| md_status := NOT_DECODED; md_decoder := "none"; md_width := None; md_height := None; md_reason := None |} |}.
Definition demo_observed (identity version : string) (artifacts inputs : list Digest) : EvidenceReceipt := {|
  er_source_revision := "s"; er_base_revision := "b"; er_head_revision := "h"; er_build := in_build demo_inputs;
  er_configuration_snapshot_digest := some_digest; er_evaluator := in_evaluator demo_inputs;
  er_environment := in_environment demo_inputs;
  er_observer := {| oi_identity := identity; oi_kind := BY_COMMAND; oi_version := version; oi_mock := false |};
  er_artifacts := map demo_artifact artifacts; er_started_at := Aware 1; er_ended_at := Aware 2;
  er_category := INSTRUMENT_OBSERVATION; er_result := None; er_input_receipt_digests := inputs; er_assertion_outcomes := [] |}.
Definition demo_data : ObservationData := {|
  od_observer := "command"; od_returncode := Some 0%Z; od_stdout := "all ok"; od_stderr := ""; od_body := "";
  od_produced_files := []; od_dom_results := []; od_captures := []; od_started_at := isoformat (Aware 1);
  od_ended_at := isoformat (Aware 2); od_infrastructure_error := None; od_mock := false; od_ran := true; od_skipped := false;
  od_runner_receipt_digest := None |}.
Definition demo_payload : Digest := ok_digest (p ← observation_payload demo_data; digest_of_json p).
Definition demo_observation : ObservedCheck := {|
  oc_check_name := "api"; oc_data := demo_data;
  oc_receipt := demo_observed "enginery-command-observer" EVALUATOR_VERSION [demo_payload] [] |}.
Definition demo_outcome (fault rung : string) : CalibrationOutcome := {|
  co_assertion_id := "api:0"; co_fault_class := fault; co_classification := "caught"; co_rung := Some rung; co_applied := true;
  co_baseline_result := Some EV_PASS; co_fault_result := Some EV_FAIL; co_baseline_receipt_digest := Some some_digest;
  co_observation_receipt_digest := Some some_digest; co_reason := None |}.
Definition demo_calibration (captures : list Digest) : CalibrationReceipt := {|
  cr_receipt := demo_observed CALIBRATION_DRIVER EVALUATOR_VERSION captures [some_digest];
  cr_results := [demo_outcome "constant_result" "evaluator"; demo_outcome "wrong_build" "binding_identity"];
  cr_fixture_digest := some_digest |}.
Definition demo_calibrated : CalibrationReceipt :=
  demo_calibration [some_digest; ok_digest (digest_of_json (calibration_payload (demo_calibration [])))].
Definition demo_evaluation : BehavioralEvaluation := {|
  be_result := EV_PASS;
  be_assertion_outcomes := [{| ao_assertion_id := "api:0"; ao_result := EV_PASS; ao_ran := true; ao_skipped := false |}];
  be_holds := [] |}.
Lemma evaluate_behavioral_sound_witness :
  evaluate_behavioral demo_checks demo_inputs [demo_observation] (Some demo_calibrated) = Ok demo_evaluation /\
  declared_for demo_checks demo_inputs [demo_observation].
Proof.
  destruct (evaluate_behavioral_sound demo_state demo_checks demo_inputs [demo_observation] (Some demo_calibrated))
    as (e & He & Hsound); [reflexivity|by repeat constructor|].
  assert (Hv : evaluate_behavioral demo_checks demo_inputs [demo_observation] (Some demo_calibrated) = Ok demo_evaluation)
    by (vm_compute; reflexivity).
  split; [exact Hv|]. rewrite Hv in He. injection He as <-. destruct Hsound as (_ & Hd & _). exact Hd.
Defined.
(** The same evidence without its calibration is held back. *)
Example uncalibrated_held : (be_result <$> evaluate_behavioral demo_checks demo_inputs [demo_observation] None) = Ok EV_INDETERMINATE.
Proof. vm_compute. reflexivity. Qed.
End Demo.
