(* ===== verification/RunProgress.v ===== *)
(** * The progression of a run ([workflows/run_lifecycle.py], [workflows/run_intent.py])

    A Stage 1 run keeps no state of its own: its next action is derived from the node
    projections of the ledger, the supervised worker and the bound selection.  The data of a
    request, the derivation, the holds of a drifted binding, and the identity of the next
    implementation attempt.  The decoding of a stored request is not modelled: the run read
    from the ledger is an argument. *)
From S2P Require Import Prelude PyText Json Identity IdentityProofs StateMachine Lifecycles Aggregates Regex VersionRange.
From S2P Require Import Redaction Ledger LedgerProofs Coordinator NodeLeases Runtime Workers Workflows Checks Records RuntimeNodes.
From S2P Require Import RecordProofs WorkflowProofs Outcomes PullRequests Selections SelectionProofs ProtectedPaths Runners Behavior.

(** ** Requests ([workflows/run_intent.py]); paths are kept as their text *)
Inductive Decimal := DecimalFinite (negative : bool) (coefficient : N) (exponent : Z) | DecimalInfinite (negative : bool) | DecimalNaN.
Record Stage1ImplementationRequest := {
  ir_attempt_id : string; ir_operation_id : string; ir_time_budget_seconds : Z; ir_cost_budget : option Decimal;
  ir_permitted_capabilities : list string; ir_evidence_requirements : list string }.
Definition decimal_budget (d : Decimal) : bool :=
  match d with DecimalFinite negative coefficient _ => negb negative || (coefficient =? 0)%N | _ => false end.
Definition implementation_post_init (r : Stage1ImplementationRequest) : result Stage1ImplementationRequest :=
  raise_when blank (ir_attempt_id r) || blank (ir_operation_id r) as InvalidInputError ;;
  raise_when (ir_time_budget_seconds r <? 1)%Z as InvalidInputError ;;
  raise_when negb (from_option decimal_budget true (ir_cost_budget r)) as InvalidInputError ;;
  raise_when existsb blank (ir_permitted_capabilities r) as InvalidInputError ;;
  raise_when existsb blank (ir_evidence_requirements r) as InvalidInputError ;;
  Ok r.
Record Stage1ExecutionConfiguration := {
  ex_github_repository : string; ex_github_credential_reference : string; ex_github_executable : string;
  ex_harness_provider : string; ex_harness_credential_reference : string; ex_harness_executable : string;
  ex_artifact_root : string }.
Definition execution_configuration_post_init (c : Stage1ExecutionConfiguration) : result Stage1ExecutionConfiguration :=
  raise_when existsb blank [ex_github_repository c; ex_github_credential_reference c; ex_github_executable c;
    ex_harness_provider c; ex_harness_credential_reference c; ex_harness_executable c] as InvalidInputError ;;
  raise_when negb (py_startswith "/" (ex_artifact_root c)) as InvalidInputError ;; Ok c.
Record Stage1RunRequest := {
  rr_run : Run; rr_work_snapshot : WorkLedgerSnapshot; rr_manifest : WorkflowManifest; rr_repository_id : string;
  rr_repository_path : string; rr_workspace_path : string; rr_base_branch : string; rr_head_branch : string;
  rr_validation_commands : list (list string); rr_applicable_criteria : list bool; rr_required_checks : list string;
  rr_repair_limit : Z; rr_implementation : Stage1ImplementationRequest;
  rr_execution_configuration : Stage1ExecutionConfiguration; rr_execution_selection : ExecutionSelection;
  rr_runner : RunnerSelection; rr_protected_paths : list string; rr_behavioral_checks : option (list BehavioralCheck) }.
Definition rr_id (r : Stage1RunRequest) : string := run_id (rr_run r).
Definition first_attempt (r : Stage1RunRequest) : string := ir_attempt_id (rr_implementation r).
(** [Decimal.__str__]: the coefficient with its point, or with an exponent when it is far from it. *)
Definition signed_exponent (e : Z) : string := (if (e <? 0)%Z then "-" else "+") +:+ pretty (Z.abs e).
Definition decimal_text (d : Decimal) : string :=
  match d with
  | DecimalFinite negative coefficient exponent =>
      let digits := chars (pretty coefficient) in
      let size := Z.of_nat (length digits) in
      let left := (exponent + size)%Z in
      let place := if (exponent <=? 0)%Z && (-6 <? left)%Z then left else 1%Z in
      let body :=
        if (place <=? 0)%Z then chars "0." ++ repeat (chr 48) (Z.to_nat (- place)) ++ digits
        else if (size <=? place)%Z then digits ++ repeat (chr 48) (Z.to_nat (place - size))
        else take (Z.to_nat place) digits ++ chr 46 :: drop (Z.to_nat place) digits in
      (if negative then "-" else "") +:+ of_chars body +:+
      (if (left =? place)%Z then "" else "E" +:+ signed_exponent (left - place))
  | DecimalInfinite negative => (if negative then "-" else "") +:+ "Infinity"
  | DecimalNaN => "NaN"
  end.
(** [Stage1RunRequest._state], [digest] *)
Definition implementation_state (i : Stage1ImplementationRequest) : json := JObj [
  ("attempt_id", JStr (ir_attempt_id i)); ("operation_id", JStr (ir_operation_id i));
  ("time_budget_seconds", JInt (ir_time_budget_seconds i));
  ("cost_budget", from_option (fun d => JStr (decimal_text d)) JNull (ir_cost_budget i));
  ("permitted_capabilities", json_strs (ir_permitted_capabilities i));
  ("evidence_requirements", json_strs (ir_evidence_requirements i))].
Definition configuration_state (c : Stage1ExecutionConfiguration) : json := JObj [
  ("github_repository", JStr (ex_github_repository c));
  ("github_credential_reference", JStr (ex_github_credential_reference c));
  ("github_executable", JStr (ex_github_executable c)); ("harness_provider", JStr (ex_harness_provider c));
  ("harness_credential_reference", JStr (ex_harness_credential_reference c));
  ("harness_executable", JStr (ex_harness_executable c)); ("artifact_root", JStr (ex_artifact_root c))].
Definition optional_field (key : string) (value : option json) : list (string * json) :=
  from_option (fun v => [(key, v)]) [] value.
Definition run_request_state (r : Stage1RunRequest) : result (list (string * json)) :=
  run ← run_to_dict (rr_run r);
  let snapshot := rr_work_snapshot r in
  Ok ([("run_id", JStr (rr_id r)); ("run", JObj run);
       ("work_item", JObj (work_item_to_dict (ws_work_item snapshot)));
       ("source_revision", JStr (ws_source_revision snapshot));
       ("manifest", JObj (workflow_manifest_to_dict (rr_manifest r)));
       ("repository_id", JStr (rr_repository_id r)); ("repository_path", JStr (rr_repository_path r));
       ("workspace_path", JStr (rr_workspace_path r)); ("base_branch", JStr (rr_base_branch r));
       ("head_branch", JStr (rr_head_branch r));
       ("validation_commands", JList (map json_strs (rr_validation_commands r)));
       ("applicable_criteria", JList (map JBool (rr_applicable_criteria r)));
       ("required_checks", json_strs (rr_required_checks r)); ("repair_limit", JInt (rr_repair_limit r));
       ("implementation", implementation_state (rr_implementation r));
       ("execution_configuration", configuration_state (rr_execution_configuration r))] ++
    optional_field "classification_provenance" (classification_state <$> ws_classification_provenance snapshot) ++
    (if se_legacy (rr_execution_selection r) then []
     else [("execution_selection", selection_to_state (rr_execution_selection r))]) ++
    (if ru_legacy (rr_runner r) then [] else [("runner", runner_selection_state (rr_runner r))]) ++
    (if is_empty (rr_protected_paths r) then [] else [("protected_paths", json_strs (rr_protected_paths r))]) ++
    optional_field "behavioral_checks" (checks_state <$> rr_behavioral_checks r)).
Definition run_request_digest `{PyRuntime} (r : Stage1RunRequest) : result Digest :=
  state ← run_request_state r; digest_of_json (JObj state).
(** [_string] *)
Definition state_text (state : list (string * json)) (key : string) : result string :=
  match dict_get key state with
  | Some (JStr s) => raise_when blank s as InvalidInputError ;; Ok s | _ => Err InvalidInputError end.

(** ** Attempt identities *)
Definition dash : Ascii.ascii := chr 45.
(** [text.rsplit("-", 1)[-1]] *)
Definition last_segment (s : string) : string :=
  of_chars (default [] (last (split_on (fun c => bool_decide (c = dash)) (chars s)))).
Definition generation (attempt_id : string) : result Z :=
  raise_when negb (py_isdigit (last_segment attempt_id)) as InternalInvariantViolationError ;;
  int_of_text (last_segment attempt_id).
Definition first_attempt_generation (attempt_id : string) : result Z :=
  raise_when negb (py_isdigit (last_segment attempt_id)) as InvalidInputError ;;
  int_of_text (last_segment attempt_id).
Definition derived_attempt (run_id : string) (generation : Z) : string :=
  run_id +:+ "-implement-" +:+ pretty generation.
Definition implementation_attempt_id (run_id : string) (generation : Z) : result string :=
  mk_identifier (derived_attempt run_id generation).
(** [_implementation_attempt_for] *)
Definition implementation_attempt_for (r : Stage1RunRequest) (n : Z) : result string :=
  first ← generation (first_attempt r);
  if (n =? first)%Z then Ok (first_attempt r)
  else raise_when (n <? first)%Z as InternalInvariantViolationError ;; implementation_attempt_id (rr_id r) n.

(** ** What the ledger says of a run ([workflows/run_lifecycle.py]) *)
Inductive Stage1ProgressionAction :=
| A_QUALIFY | A_IMPLEMENT | A_DISPATCH_QUEUED | A_RECONCILE_WORKER | A_COLLECT_IMPLEMENTATION | A_VALIDATE
| A_AWAIT_HUMAN_REVIEW | A_BLOCKED | A_OPEN_PR | A_WAIT_FOR_CI | A_VERIFY | A_REGISTER_OUTCOME_OBSERVATION
| A_WAIT | A_HOLD.
#[export] Instance Stage1ProgressionAction_eq_dec : EqDecision Stage1ProgressionAction.
Proof. solve_decision. Defined.
#[export] Program Instance Stage1ProgressionAction_enum : PyEnum Stage1ProgressionAction := {|
  members := [A_QUALIFY; A_IMPLEMENT; A_DISPATCH_QUEUED; A_RECONCILE_WORKER; A_COLLECT_IMPLEMENTATION; A_VALIDATE;
    A_AWAIT_HUMAN_REVIEW; A_BLOCKED; A_OPEN_PR; A_WAIT_FOR_CI; A_VERIFY; A_REGISTER_OUTCOME_OBSERVATION; A_WAIT; A_HOLD];
  enum_value a := match a with
    | A_QUALIFY => "qualify" | A_IMPLEMENT => "implement" | A_DISPATCH_QUEUED => "dispatch_queued"
    | A_RECONCILE_WORKER => "reconcile_worker" | A_COLLECT_IMPLEMENTATION => "collect_implementation"
    | A_VALIDATE => "validate" | A_AWAIT_HUMAN_REVIEW => "await_human_review" | A_BLOCKED => "blocked"
    | A_OPEN_PR => "open_pr" | A_WAIT_FOR_CI => "wait_for_ci" | A_VERIFY => "verify"
    | A_REGISTER_OUTCOME_OBSERVATION => "register_outcome_observation" | A_WAIT => "wait" | A_HOLD => "hold" end |}.
Next Obligation. solve_enum. Qed.
Next Obligation. solve_enum. Qed.
Record Stage1Progression := {
  sp_action : Stage1ProgressionAction; sp_hold : option ExecutionHold; sp_observed_host_version : option string }.
Definition progress (a : Stage1ProgressionAction) : result Stage1Progression :=
  Ok {| sp_action := a; sp_hold := None; sp_observed_host_version := None |}.
Definition progress_hold (hold : ExecutionHold) : result Stage1Progression :=
  Ok {| sp_action := A_HOLD; sp_hold := Some hold; sp_observed_host_version := None |}.
Abbreviation NodeState := (list (string * json)).
Definition node_projection (run_id node_id : string) (s : Ledger) : option ProjectionRow :=
  read_projection RUNTIME_NODE_AGGREGATE_TYPE (run_id +:+ ":" +:+ node_id) s.
Definition node_status (run_id node_id : string) (s : Ledger) : result (option string) :=
  match node_projection run_id node_id s with
  | None => Ok None
  | Some p => state ← state_dict p; status ← from_option_err InternalInvariantViolationError (text_field "status" state);
              Ok (Some status)
  end.
Definition node_state_optional (run_id node_id : string) (s : Ledger) : result (option NodeState) :=
  match node_projection run_id node_id s with None => Ok None | Some p => state ← state_dict p; Ok (Some state) end.
Definition node_state (run_id node_id : string) (s : Ledger) : result NodeState :=
  match node_projection run_id node_id s with None => Err MissingPrerequisiteError | Some p => state_dict p end.
Definition node_generation (state : NodeState) : result Z := attempt ← state_text state "attempt_id"; generation attempt.
Definition require_passed_node (run_id node_id : string) (s : Ledger) : result () :=
  match node_projection run_id node_id s with
  | None => Err MissingPrerequisiteError
  | Some p => state ← state_dict p; raise_when negb (field_is "status" "passed" state) as MissingPrerequisiteError ;; Ok ()
  end.
Definition has_field (key : string) (state : NodeState) : bool :=
  match dict_get key state with Some _ => true | None => false end.
Definition require_validation_artifact (r : Stage1RunRequest) (s : Ledger) : result () :=
  if ru_legacy (rr_runner r) then Ok ()
  else state ← node_state (rr_id r) "validate" s;
       raise_when negb (has_field "validation_artifact_digest" state) as MissingPrerequisiteError ;; Ok ().
(** [_published] *)
Definition published (run_id : string) (n : Z) (s : Ledger) : result bool :=
  state ← node_state_optional run_id "open_pr" s;
  match state with None => Ok false | Some state => g ← node_generation state; Ok (g =? n)%Z end.
(** [_review_outcome] *)
Definition review_outcome (run_id : string) (s : Ledger) : result (option ReviewOutcome) :=
  state ← node_state_optional run_id "review" s;
  match state ≫= dict_get "review_outcome" with
  | None | Some JNull => Ok None
  | Some (JStr value) =>
      match enum_of_value value with Ok outcome => Ok (Some outcome) | Err _ => Err InternalInvariantViolationError end
  | Some _ => Err InternalInvariantViolationError
  end.
Definition attempt_result (attempt_id : string) (s : Ledger) : result (option NodeState) :=
  match read_projection "node_attempt" attempt_id s with
  | None => Ok None
  | Some p => state ← state_dict p; Ok (match dict_get "result" state with Some (JObj m) => Some m | _ => None end)
  end.
Definition verified_head_revision (attempt_id : string) (s : Ledger) : result string :=
  result ← attempt_result attempt_id s;
  match result ≫= dict_get "head_revision" with
  | Some (JStr head) => raise_when blank head as MissingPrerequisiteError ;; Ok head
  | _ => Err MissingPrerequisiteError
  end.
(** [_open_pr_binding] *)
Definition open_pr_binding (run_id : string) (n : Z) (s : Ledger) : result string :=
  state ← node_state_optional run_id "open_pr" s;
  let state := default [] state in
  let attempt := match dict_get "decision_id" state with
    | Some (JStr decision_id) =>
        if field_is "status" "passed" state then Some ("open-pr-" +:+ decision_id +:+ "-" +:+ pretty n)
        else text_field "attempt_id" state
    | _ => text_field "attempt_id" state end in
  let fresh := "open-pr-" +:+ pretty n in
  match attempt with
  | None => Ok fresh
  | Some attempt => g ← generation attempt; Ok (if (g =? n)%Z then attempt else fresh)
  end.
(** [_digest_from_string], [_digest_tuple], [_failed_checks] *)
Definition digest_tuple (state : NodeState) (field : string) : result (list Digest) :=
  match dict_get field state with
  | Some (JList (v :: l)) =>
      texts ← from_option_err InternalInvariantViolationError (mapM str_item (v :: l));
      mapM_result digest_of_str texts
  | _ => Err MissingPrerequisiteError
  end.
Definition failed_checks (e : PullRequestEvidence) (required_checks : list string) : list (string * string * option string) :=
  omap (fun c => if bool_decide (ck_name c ∈ required_checks) && String.eqb (py_lower (ck_status c)) "completed" &&
                    from_option (fun k => negb (String.eqb (py_lower k) "success")) true (ck_conclusion c)
                 then Some (ck_name c, ck_status c, ck_conclusion c) else None) (pe_checks e).

(** ** Terminal runs *)
Definition behavioral_findings (state : NodeState) : bool := truthy (default JNull (dict_get "behavioral_findings" state)).
Definition repairs_used (r : Stage1RunRequest) (n : Z) : result Z :=
  first ← first_attempt_generation (first_attempt r); Ok (n - first)%Z.
Definition behavioral_repair_exhausted (r : Stage1RunRequest) (implementation verification : NodeState) : result bool :=
  if negb (field_is "status" "failed" verification) || negb (behavioral_findings verification) then Ok false
  else match dict_get "attempt_id" implementation, dict_get "attempt_id" verification with
  | Some (JStr current), Some (JStr verified) =>
      n ← first_attempt_generation current; v ← first_attempt_generation verified;
      if negb (v =? n)%Z then Ok false else used ← repairs_used r n; Ok (rr_repair_limit r <=? used)%Z
  | _, _ => Ok false
  end.
Definition github_outcome_terminal (r : Stage1RunRequest) (implementation observation : NodeState) : result bool :=
  if negb (field_is "status" "failed" observation) || behavioral_findings observation then Ok false
  else match default (JStr (first_attempt r)) (dict_get "attempt_id" implementation), dict_get "attempt_id" observation with
  | JStr current, Some (JStr observed) =>
      n ← first_attempt_generation current; v ← first_attempt_generation observed;
      if negb (v =? n)%Z then Ok false
      else if field_is "reason" "github_pull_request_merged" observation then Ok true
      else if negb (field_is "reason" "github_evidence_blocked" observation) then Ok false
      else if field_is "node_id" "verify" observation then Ok true
      else used ← repairs_used r n; Ok (rr_repair_limit r <=? used)%Z
  | _, _ => Ok false
  end.

(** ** The services a run is progressed with *)
(** What probing a host answered: the installed host, or the exception and its text. *)
Definition HostProbe : Type := result (option InstalledHost) * string.
Record Stage1RunService := {
  sv_host : Host; sv_is_file : string -> bool; sv_outcomes : bool; sv_current_catalog : ExecutionCatalog;
  sv_host_probe : option HostProbe; sv_harness_probe : option HostProbe;
  sv_runner_admission : option (RunnerSelection -> option ExecutionHold) }.
(** [directory / name] *)
Definition path_join (directory name : string) : string :=
  if String.eqb directory "/" then "/" +:+ name else directory +:+ "/" +:+ name.
(** [shlex.quote] *)
Definition shell_safe (c : Ascii.ascii) : bool := is_alnum c || is_one_of "@%_-+=:,./" c.
Definition quote_char (c : Ascii.ascii) : list Ascii.ascii :=
  if bool_decide (c = chr 39) then [chr 39; chr 34; chr 39; chr 34; chr 39] else [c].
Definition shlex_quote (s : string) : string :=
  if String.eqb s "" then of_chars [chr 39; chr 39]
  else if forallb shell_safe (chars s) then s
  else of_chars (chr 39 :: concat (map quote_char (chars s)) ++ [chr 39]).

Section Progress.
Context `{rt : PyRuntime} `{iso : IsoCodec} `{pv : PyValues} `{pe : PatternEngine} (sv : Stage1RunService).
(** [_implementation_result_path], [out_path_for] *)
Definition implementation_result_path (r : Stage1RunRequest) (operation_id : string) : result string :=
  digest ← digest_of_bytes (utf8 operation_id);
  let name := "enginery-omp-" +:+ digest_str digest +:+ ".json" in
  if isolated_mode (rr_runner r)
  then raise_when String.eqb (rr_workspace_path r) "/" as PyValueError ;; Ok (path_join (rr_workspace_path r +:+ ".out") name)
  else Ok (path_join (rr_workspace_path r) ("." +:+ name)).
Definition supervisor_record (run_id : string) (s : Ledger) : option PmRow :=
  read_process_manager_state SUPERVISOR_MANAGER (run_id +:+ ":implement") s.
Definition cancel_in_progress (run_id : string) (s : Ledger) : result bool :=
  match supervisor_record run_id s with
  | None => Ok false
  | Some record => state ← record_state record; Ok (field_is "status" "termination_requested" state)
  end.
Definition worker_hold (liveness : WorkerLiveness) : result ExecutionHold := hold_post_init {|
  eh_reason := WORKER_IDENTITY_UNPROVABLE;
  eh_message := "the implementation worker's liveness cannot be proven from this host (" +:+ liveness_value liveness +:+
    "). There is no supported release for this in this release: the node keeps its slot until the worker is dealt with on the machine that launched it";
  eh_details := [("liveness", liveness_value liveness)] |}.
Definition running_worker_progression (run_id : string) (s : Ledger) : result Stage1Progression :=
  match supervisor_record run_id s with
  | None => progress A_WAIT
  | Some record =>
      state ← record_state record;
      '(liveness, _) ← assess_worker (sv_host sv) state;
      if bool_decide (liveness ∈ GONE) then progress A_RECONCILE_WORKER
      else if bool_decide (liveness = LV_ALIVE) then
        progress (if field_is "status" "termination_requested" state then A_RECONCILE_WORKER else A_WAIT)
      else hold ← worker_hold liveness; progress_hold hold
  end.
Definition worker_still_exiting (run_id : string) (s : Ledger) : result bool :=
  match supervisor_record run_id s with
  | None => Ok false
  | Some record =>
      state ← record_state record;
      '(liveness, identity) ← assess_worker (sv_host sv) state;
      match liveness, identity with
      | LV_ALIVE, Some identity => Ok (negb (host_reaps (sv_host sv) (pi_pid identity)))
      | _, _ => Ok false
      end
  end.
Definition recorded_execution_hold (implement : NodeState) (s : Ledger) : result (option ExecutionHold) :=
  attempt_id ← state_text implement "attempt_id";
  result ← attempt_result attempt_id s;
  match result ≫= dict_get "execution_hold" with
  | None | Some JNull => Ok None
  | Some raw => hold ← hold_from_state raw; Ok (Some hold)
  end.
Definition outcome_observation_registered (run_id : string) (s : Ledger) : result bool :=
  id ← observation_id_for run_id OUT_MERGE_RESULT; registered ← read_observation id s; Ok (negb (none registered)).

(** *** [_derive_progression], from the last stage to the first *)
Definition can_repair (r : Stage1RunRequest) (n : Z) : result bool :=
  first ← generation (first_attempt r); Ok (n - first <? rr_repair_limit r)%Z.
Definition repair_or_review (r : Stage1RunRequest) (n : Z) : result Stage1Progression :=
  repair ← can_repair r n; progress (if repair : bool then A_IMPLEMENT else A_AWAIT_HUMAN_REVIEW).
(** A stage that has no node of this generation. *)
Definition at_generation (state : option NodeState) (n : Z) : result bool :=
  match state with None => Ok false | Some state => g ← node_generation state; Ok (g =? n)%Z end.
Definition after_verify (r : Stage1RunRequest) (s : Ledger) : result Stage1Progression :=
  if sv_outcomes sv then
    registered ← outcome_observation_registered (rr_id r) s;
    progress (if registered : bool then A_WAIT else A_REGISTER_OUTCOME_OBSERVATION)
  else progress A_WAIT.
Definition after_ci (r : Stage1RunRequest) (n : Z) (s : Ledger) : result Stage1Progression :=
  state ← node_state_optional (rr_id r) "verify" s;
  current ← at_generation state n;
  if negb current then progress A_VERIFY
  else
    let state := default [] state in
    if field_is "status" "queued" state then progress A_VERIFY
    else if field_is "status" "failed" state && behavioral_findings state then repair_or_review r n
    else if negb (field_is "status" "passed" state) then progress A_AWAIT_HUMAN_REVIEW
    else after_verify r s.
Definition ci_failed (state : NodeState) : bool :=
  field_is "status" "failed" state && field_is "pull_request_outcome" (enum_value PO_BLOCKED) state.
Definition after_open_pr (r : Stage1RunRequest) (n : Z) (s : Ledger) : result Stage1Progression :=
  state ← node_state_optional (rr_id r) "wait_for_ci" s;
  current ← at_generation state n;
  if negb current then progress A_WAIT_FOR_CI
  else
    let state := default [] state in
    if field_is "status" "queued" state then progress A_WAIT_FOR_CI
    else if ci_failed state && negb (field_is "reason" "github_pull_request_merged" state) then repair_or_review r n
    else if negb (field_is "status" "passed" state) then progress A_AWAIT_HUMAN_REVIEW
    else after_ci r n s.
(** An approved hold of the publication, which published nothing yet. *)
Definition unpublished_approval (state : NodeState) : bool :=
  field_is "status" "passed" state && negb (none (text_field "decision_id" state)) && negb (has_field "pull_request_number" state).
Definition after_review (r : Stage1RunRequest) (n : Z) (s : Ledger) : result Stage1Progression :=
  state ← node_state_optional (rr_id r) "open_pr" s;
  current ← at_generation state n;
  if negb current then progress A_OPEN_PR
  else
    let state := default [] state in
    if field_is "status" "queued" state then progress A_OPEN_PR
    else if unpublished_approval state then progress A_OPEN_PR
    else if negb (field_is "status" "passed" state) then progress A_AWAIT_HUMAN_REVIEW
    else after_open_pr r n s.
Definition after_validate (r : Stage1RunRequest) (n : Z) (s : Ledger) : result Stage1Progression :=
  state ← node_state_optional (rr_id r) "review" s;
  current ← at_generation state n;
  if negb current then progress A_AWAIT_HUMAN_REVIEW
  else
    outcome ← review_outcome (rr_id r) s;
    repair ← (if bool_decide (outcome = Some RO_REPAIR_REQUESTED) then
                within ← can_repair r n;
                if within : bool then is_published ← published (rr_id r) n s; Ok (negb is_published) else Ok false
              else Ok false);
    if repair : bool then progress A_IMPLEMENT
    else if negb (bool_decide (outcome = Some RO_APPROVED)) then progress A_AWAIT_HUMAN_REVIEW
    else after_review r n s.
Definition after_implement (r : Stage1RunRequest) (n : Z) (s : Ledger) : result Stage1Progression :=
  state ← node_state_optional (rr_id r) "validate" s;
  current ← at_generation state n;
  if negb current then progress A_VALIDATE
  else
    let state := default [] state in
    if field_is "status" "blocked" state then progress A_BLOCKED
    else if negb (field_is "status" "passed" state) ||
            negb (ru_legacy (rr_runner r)) && negb (has_field "validation_artifact_digest" state)
    then progress A_AWAIT_HUMAN_REVIEW
    else after_validate r n s.
(** The implementation has not passed: its worker, its result, its end. *)
Definition unfinished_implement (r : Stage1RunRequest) (implement : NodeState) (s : Ledger) : result Stage1Progression :=
  raw ← state_text implement "operation_id"; operation_id ← mk_identifier raw;
  path ← implementation_result_path r operation_id;
  let running := field_is "status" "running" implement in
  if sv_is_file sv path then
    exiting ← (if running then worker_still_exiting (rr_id r) s else Ok false);
    progress (if exiting : bool then A_WAIT else A_COLLECT_IMPLEMENTATION)
  else if running then running_worker_progression (rr_id r) s else progress A_WAIT.
Definition after_qualify (r : Stage1RunRequest) (s : Ledger) : result Stage1Progression :=
  state ← node_state_optional (rr_id r) "implement" s;
  match state with
  | None => progress A_IMPLEMENT
  | Some implement =>
      ended ← has_status implement ["failed"; "cancelled"; "blocked"];
      if ended : bool then
        recorded ← recorded_execution_hold implement s;
        match recorded with Some hold => progress_hold hold | None => progress A_AWAIT_HUMAN_REVIEW end
      else if field_is "status" "queued" implement then progress A_DISPATCH_QUEUED
      else
        cancelling ← (if field_is "status" "running" implement then cancel_in_progress (rr_id r) s else Ok false);
        if cancelling : bool then running_worker_progression (rr_id r) s
        else if negb (field_is "status" "passed" implement) then unfinished_implement r implement s
        else n ← node_generation implement; after_implement r n s
  end.
Definition derive_progression (r : Stage1RunRequest) (s : Ledger) : result Stage1Progression :=
  status ← node_status (rr_id r) "qualify" s;
  match status with
  | None => progress A_QUALIFY
  | Some status =>
      if negb (String.eqb status "passed")
      then progress (if bool_decide (status ∈ ["failed"; "cancelled"; "blocked"]) then A_AWAIT_HUMAN_REVIEW else A_WAIT)
      else after_qualify r s
  end.

(** ** Binding holds *)
Record BindingCheck := { bk_hold : option ExecutionHold; bk_observed_host_version : option string }.
Definition held_binding (observed : option string) (reason : HoldReason) (message : string) (details : list (string * string))
    : result BindingCheck :=
  hold ← hold_post_init {| eh_reason := reason; eh_message := message; eh_details := details |};
  Ok {| bk_hold := Some hold; bk_observed_host_version := observed |}.
Definition check_of_hold (hold : option ExecutionHold) : BindingCheck :=
  {| bk_hold := hold; bk_observed_host_version := None |}.
(** [HostVersion.details] *)
Definition version_details (v : HostVersion) : list (string * string) :=
  match v with
  | ExactHostVersion version => [("tested_executable_version", version)]
  | RangedHostVersion accepted tested =>
      [("accepted_executable_versions", version_range_str accepted); ("tested_executable_version", version_str tested)]
  end.
Definition runner_hold (r : Stage1RunRequest) : result (option ExecutionHold) :=
  if negb (isolated_mode (rr_runner r)) then Ok None
  else match sv_runner_admission sv with
  | None => drift_hold RUNNER_UNQUALIFIED
      "the run requires the isolated runner but no runner admission is configured; it is held, not run in trusted-local mode"
      [("trust_mode", enum_value (ru_trust_mode (rr_runner r)))]
  | Some admission => Ok (admission (rr_runner r))
  end.
Definition image_harness_check (selection : ExecutionSelection) (probe : option HostProbe) : result BindingCheck :=
  match probe with
  | None => held_binding None RUNNER_UNQUALIFIED
      "the run requires the isolated runner but the harness inside its image cannot be probed; it is held, not run unverified"
      [("harness", se_harness selection)]
  | Some (answer, text) =>
      host ← catalog_host (sv_current_catalog sv) (se_harness selection);
      match answer with
      | Err MissingPrerequisiteError | Err ArtifactMissingError | Err OperationTimeoutError => held_binding None RUNNER_UNQUALIFIED
          ("the harness inside the pinned runner image could not be probed: " +:+ text +:+ "; the run is held, not run unverified")
          [("harness", se_harness selection)]
      | Err e => Err e
      | Ok installed =>
          let observed := ih_executable_version <$> installed in
          tested ← match installed with Some i => matches_tested host i | None => Ok false end;
          if tested : bool then Ok {| bk_hold := None; bk_observed_host_version := observed |}
          else held_binding observed RUNNER_FINGERPRINT_DRIFT
            ("the " +:+ se_harness selection +:+ " inside the pinned runner image is not the tested executable and protocol the execution catalog names; the run is held and its original binding is retained. Rebuild the runner image from the current recipe or restore the catalog it was bound to")
            (("harness", se_harness selection) :: version_details (hc_version host) ++
             [("catalog_protocol_fingerprint", hc_protocol_fingerprint host);
              ("image_executable_version", default "unobservable" observed);
              ("image_protocol_fingerprint", from_option ih_protocol_fingerprint "unobservable" installed)])
      end
  end.
Definition no_checks_message (r : Stage1RunRequest) : string :=
  "run " +:+ rr_id r +:+ " has no behavioral checks and cannot be rebound; add [acceptance] checks to " +:+
  shlex_quote (path_join (rr_repository_path r) ".enginery/project.toml") +:+ ", commit on " +:+
  shlex_quote (rr_base_branch r) +:+
  ", then supersede this run with enginery engine build-request using a new --run-id and start the resulting request".
Definition chosen_probe : option HostProbe :=
  match sv_host_probe sv with Some p => Some p | None => sv_harness_probe sv end.
(** [_binding_check] *)
Definition binding_check (r : Stage1RunRequest) : result BindingCheck :=
  let selection := rr_execution_selection r in
  match rr_behavioral_checks r with
  | Some [] => held_binding None NO_BEHAVIORAL_CHECKS (no_checks_message r) []
  | _ =>
      drifted ← detect_catalog_drift selection (sv_current_catalog sv);
      match drifted with
      | Some hold => Ok (check_of_hold (Some hold))
      | None =>
          runner ← runner_hold r;
          match runner with
          | Some hold => Ok (check_of_hold (Some hold))
          | None =>
              if se_legacy selection then Ok (check_of_hold None)
              else
                if isolated_mode (rr_runner r) then image_harness_check selection chosen_probe
                else match chosen_probe with
                | Some (answer, _) =>
                    if negb (requires_native_controls selection) then Ok (check_of_hold None)
                    else
                      installed ← answer;
                      hold ← detect_host_drift selection installed;
                      Ok {| bk_hold := hold; bk_observed_host_version := ih_executable_version <$> installed |}
                | None => Ok (check_of_hold None)
                end
          end
      end
  end.
Definition observing (a : Stage1ProgressionAction) : bool := bool_decide (a ∈ [A_WAIT; A_AWAIT_HUMAN_REVIEW; A_BLOCKED]).
(** [next_action] *)
Definition next_action (r : Stage1RunRequest) (s : Ledger) : result Stage1Progression :=
  progression ← derive_progression r s;
  check ← binding_check r;
  match bk_hold check with
  | None => Ok {| sp_action := sp_action progression; sp_hold := sp_hold progression;
                  sp_observed_host_version := bk_observed_host_version check |}
  | Some hold => Ok {| sp_action := if observing (sp_action progression) then sp_action progression else A_HOLD;
                       sp_hold := Some hold; sp_observed_host_version := bk_observed_host_version check |}
  end.

(** ** The identity of the next implementation ([dispatch_implementation], before the tick) *)
Record ImplementationChoice := { im_attempt_id : string; im_operation_id : string; im_repairs : option NodeState }.
(** Which recorded outcome the repair answers. *)
Definition repair_cause (r : Stage1RunRequest) (n : Z) (s : Ledger) : result NodeState :=
  review ← node_state_optional (rr_id r) "review" s;
  wait ← node_state_optional (rr_id r) "wait_for_ci" s;
  verify ← node_state_optional (rr_id r) "verify" s;
  by_review ← match review with
    | Some state =>
        if field_is "review_outcome" (enum_value RO_REPAIR_REQUESTED) state then
          g ← node_generation state;
          if (g =? n)%Z then is_published ← published (rr_id r) n s; Ok (if is_published : bool then None else Some state)
          else Ok None
        else Ok None
    | None => Ok None end;
  match by_review with
  | Some state => Ok state
  | None =>
      by_verify ← match verify with
        | Some state =>
            if field_is "status" "failed" state && behavioral_findings state then
              g ← node_generation state; Ok (if (g =? n)%Z then Some state else None)
            else Ok None
        | None => Ok None end;
      match by_verify, wait with
      | Some state, _ => Ok state
      | None, Some state => raise_when negb (ci_failed state) as ExternalConflictError ;; Ok state
      | None, None => Err ExternalConflictError
      end
  end.
(** [_require_executable]: the request is the one the run is bound to, and its binding is not held. *)
Definition require_executable (durable request : Stage1RunRequest) : result () :=
  bound ← run_request_digest durable;
  supplied ← run_request_digest request;
  raise_when negb (bool_decide (bound = supplied)) as StaleEvidenceError ;;
  check ← binding_check durable;
  match bk_hold check with
  | Some _ => Err HumanActionRequiredError
  | None =>
      if se_legacy (rr_execution_selection durable) then Ok ()
      else _ ← validate_against_catalog (rr_execution_selection durable) (sv_current_catalog sv); Ok ()
  end.
(** [_require_no_opaque_budget] *)
Definition opaque_budget (r : Stage1RunRequest) : bool := negb (ru_legacy (rr_runner r)) && negb (none (ir_cost_budget (rr_implementation r))).
Definition require_no_opaque_budget (r : Stage1RunRequest) : result () :=
  raise_when opaque_budget r as InvalidInputError ;; Ok ().
(** The repair is told its cause; the text of the task is not modelled. *)
Definition choose_implementation (durable r : Stage1RunRequest) (s : Ledger) : result ImplementationChoice :=
  _ ← require_executable durable r;
  _ ← require_no_opaque_budget r;
  _ ← require_passed_node (rr_id r) "qualify" s;
  existing ← node_state_optional (rr_id r) "implement" s;
  match existing with
  | None => Ok {| im_attempt_id := first_attempt r; im_operation_id := ir_operation_id (rr_implementation r); im_repairs := None |}
  | Some state =>
      terminal ← has_status state TERMINAL_STATUSES;
      raise_when negb terminal as ExternalConflictError ;;
      n ← node_generation state;
      cause ← repair_cause r n s;
      first ← generation (first_attempt r);
      raise_when (rr_repair_limit r <? n + 1 - first)%Z as ExternalConflictError ;;
      attempt_id ← implementation_attempt_id (rr_id r) (n + 1);
      operation_id ← operation_id_derive (rr_id r) "implement" "repair_implementation" (rr_repository_id r) (n + 1);
      Ok {| im_attempt_id := attempt_id; im_operation_id := operation_id; im_repairs := Some cause |}
  end.
End Progress.

(** ** Attempt identities round-trip *)
Lemma int_digits_value b l a count : Forall (fun c => is_digit c = true) l -> b = true \/ l <> [] ->
  int_digits b l (Z.of_N a) count =
    Some (Z.of_N (foldl (fun n c => 10 * n + VersionRange.digit_value c)%N a l), count + length l).
Proof.
  intros Hl. revert b a count. induction Hl as [|c l Hc Hl IH]; intros b a count Hb.
  - destruct Hb as [->|]; [|done]. cbn. by rewrite Nat.add_0_r.
  - cbn [int_digits foldl length]. pose proof Hc as Hd. apply is_digit_bounds in Hd.
    unfold digit_value. rewrite (proj2 (N.leb_le 48 _)), (proj2 (N.leb_le _ 57)) by lia. cbn [andb].
    replace (10 * Z.of_N a + (Z.of_N (code c) - 48))%Z with (Z.of_N (10 * a + VersionRange.digit_value c)%N)
      by (unfold VersionRange.digit_value; lia).
    rewrite IH by by left. by rewrite Nat.add_succ_comm.
Qed.
Lemma digit_no_space c : is_digit c = true -> py_isspace c = false /\ c <> dash /\ py_isdigit_char c = true.
Proof. by destruct c as [[] [] [] [] [] [] [] []]. Qed.
Lemma strip_digits l : Forall (fun c => is_digit c = true) l -> py_strip (of_chars l) = of_chars l.
Proof.
  intros Hl. apply strip_spaceless. eapply Forall_impl; [exact Hl|]. intros c Hc. by apply digit_no_space in Hc as (? & _).
Qed.
Lemma int_of_pretty z : (0 <= z)%Z -> length (chars (pretty z)) <= MAX_INT_DIGITS -> int_of_text (pretty z) = Ok z.
Proof.
  intros Hz Hlen. destruct (numeric_of_pretty z Hz) as [Hn Hv]. pose proof (numeric_digits _ Hn) as Hd.
  unfold int_of_text. rewrite <- (of_chars_chars (pretty z)), strip_digits, chars_of_chars by done.
  assert (Hne : chars (pretty z) <> []) by (apply numeric_significant in Hn as [->|[? _]]; done).
  assert (Hcase : (let '(sign, l) := match chars (pretty z) with
    | c :: l => if (code c =? 43)%N then (1%Z, l) else if (code c =? 45)%N then ((-1)%Z, l) else (1%Z, c :: l)
    | [] => (1%Z, []) end in (sign, l)) = (1%Z, chars (pretty z))).
  { destruct (chars (pretty z)) as [|c l]; [done|]. apply Forall_cons in Hd as [Hc%is_digit_bounds _].
    rewrite (proj2 (N.eqb_neq _ 43)), (proj2 (N.eqb_neq _ 45)) by lia. done. }
  destruct (match chars (pretty z) with [] => _ | _ => _ end) as [sign l]. injection Hcase as -> ->.
  rewrite (int_digits_value false _ 0%N) by (done || by right). cbn [plus].
  rewrite (proj2 (Nat.ltb_ge _ _)) by done. cbn [raise_if mbind result_bind]. f_equal.
  rewrite Z.mul_1_l. exact Hv.
Qed.
Lemma split_on_clean {A} (sep : A -> bool) l : Forall (fun c => sep c = false) l -> split_on sep l = [l].
Proof. induction 1 as [|c l Hc _ IH]; [done|]. cbn. by rewrite Hc, IH. Qed.
Lemma split_on_last {A} (sep : A -> bool) x c l : sep c = true -> Forall (fun c => sep c = false) l ->
  last (split_on sep (x ++ c :: l)) = Some l.
Proof.
  intros Hc Hl. induction x as [|y x IH]; cbn [app split_on].
  - by rewrite Hc, split_on_clean.
  - destruct (sep y); [by destruct (split_on sep (x ++ c :: l))|].
    destruct (split_on sep (x ++ c :: l)) as [|w ws] eqn:E; [done|]. destruct ws; [|done].
    exfalso. clear IH. revert w E. induction x as [|z x IH]; intros w; cbn [app split_on].
    + rewrite Hc. by destruct (split_on sep l) eqn:E; [destruct l; cbn in E; repeat case_match|].
    + destruct (sep z); [by destruct (split_on sep (x ++ c :: l)) eqn:E; [destruct x; cbn in E; repeat case_match|]|].
      destruct (split_on sep (x ++ c :: l)) as [|w' ws'] eqn:E; [|intros [= _ ->]; by eapply IH].
      destruct x; cbn in E; repeat case_match; done.
Qed.
Lemma derived_last run_id z : (0 <= z)%Z -> last_segment (derived_attempt run_id z) = pretty z.
Proof.
  intros Hz. destruct (numeric_of_pretty z Hz) as [Hn%numeric_digits _]. unfold last_segment, derived_attempt.
  rewrite !chars_app. change (chars "-implement-") with (chars "-implement" ++ [dash]).
  rewrite <- (assoc_L (++)), (assoc_L (++) (chars run_id)). cbn [app].
  rewrite split_on_last; [cbn; apply of_chars_chars|by apply bool_decide_eq_true|].
  eapply Forall_impl; [exact Hn|]. intros c Hc. apply bool_decide_eq_false. by apply digit_no_space in Hc as (_ & ? & _).
Qed.
Lemma pretty_isdigit z : (0 <= z)%Z -> py_isdigit (pretty z) = true.
Proof.
  intros Hz. destruct (numeric_of_pretty z Hz) as [Hn _]. unfold py_isdigit.
  assert (Hne : chars (pretty z) <> []) by (apply numeric_significant in Hn as [->|[? _]]; done).
  apply andb_true_iff. split.
  - apply negb_true_iff, String.eqb_neq. intros He. by rewrite He in Hne.
  - apply forallb_forall. intros c Hc%list_elem_of_In. apply numeric_digits in Hn. rewrite Forall_forall in Hn.
    by apply digit_no_space, Hn.
Qed.
Lemma derived_generation run_id z a : (0 <= z)%Z -> implementation_attempt_id run_id z = Ok a ->
  generation a = Ok z.
Proof.
  intros Hz Ha. apply mk_identifier_Ok in Ha as [-> Hv]. unfold generation.
  rewrite derived_last, pretty_isdigit by done. cbn [negb raise_if mbind result_bind]. apply int_of_pretty; [done|].
  unfold valid_identifier, mk_identifier in Hv. rewrite !raise_if_Ok in Hv. destruct Hv as (_ & Hl & _).
  apply Z.ltb_ge in Hl. unfold py_len in Hl. rewrite <- length_chars in Hl. unfold derived_attempt in Hl.
  rewrite !chars_app, !length_app in Hl.
  unfold MAX_INT_DIGITS. lia.
Qed.
Lemma int_digits_nonneg b l a c v n : (0 <= a)%Z -> int_digits b l a c = Some (v, n) -> (0 <= v)%Z.
Proof.
  revert b a c. induction l as [|x l IH]; intros b a c Ha; cbn.
  - destruct b; [|done]. by intros [= <- _].
  - destruct (digit_value x) as [d|] eqn:E; [|destruct (b && _); [by apply IH|done]].
    apply IH. unfold digit_value in E. destruct (_ && _)%bool eqn:Eb; [|done]. injection E as <-.
    apply andb_true_iff in Eb as [Eb%N.leb_le _]. lia.
Qed.
Lemma isdigit_char c : py_isdigit_char c = true -> py_isspace c = false /\ code c <> 43%N /\ code c <> 45%N.
Proof. by destruct c as [[] [] [] [] [] [] [] []]. Qed.
Lemma int_of_text_nonneg s z : py_isdigit s = true -> int_of_text s = Ok z -> (0 <= z)%Z.
Proof.
  intros [Hne Hd]%andb_true_iff. unfold int_of_text.
  assert (Hf : Forall (fun c => py_isdigit_char c = true) (chars s))
    by (apply Forall_forall; intros c Hc%list_elem_of_In; by apply (proj1 (forallb_forall _ _) Hd)).
  rewrite <- (of_chars_chars s), strip_spaceless, chars_of_chars
    by (eapply Forall_impl; [exact Hf|]; intros c Hc; by apply isdigit_char in Hc as (? & _)).
  destruct (chars s) as [|c l]; [done|]. apply Forall_cons in Hf as [(_ & H1 & H2)%isdigit_char _].
  rewrite (proj2 (N.eqb_neq _ 43)), (proj2 (N.eqb_neq _ 45)) by done.
  destruct (int_digits _ _ _ _) as [[v n]|] eqn:E; [|done]. intros H. apply raise_if_Ok in H as [_ [= <-]].
  apply int_digits_nonneg in E; lia.
Qed.
Lemma generation_nonneg a z : generation a = Ok z -> (0 <= z)%Z.
Proof. unfold generation. intros [Hd%negb_false_iff Hz]%raise_if_Ok. by eapply int_of_text_nonneg. Qed.
(** The attempt of a generation is found again from the generation, and carries it. *)
Lemma attempt_for_generation r n a : (0 <= n)%Z -> implementation_attempt_for r n = Ok a -> generation a = Ok n.
Proof.
  intros Hn. unfold implementation_attempt_for. intros (first & Hf & Ha)%bind_Ok.
  destruct (Z.eqb_spec n first) as [->|]; [by injection Ha as <-|]. apply raise_if_Ok in Ha as [_ Ha].
  by eapply derived_generation.
Qed.

(** ** What an action rests on *)
Definition recorded (r : Stage1RunRequest) (node : string) (s : Ledger) (st : NodeState) : Prop :=
  node_state_optional (rr_id r) node s = Ok (Some st).
(** The node has a state of generation [n] with a property. *)
Definition stage (r : Stage1RunRequest) (node : string) (n : Z) (s : Ledger) (P : NodeState -> Prop) : Prop :=
  exists st, recorded r node s st /\ node_generation st = Ok n /\ P st.
Definition stage_passed (st : NodeState) : Prop := field_is "status" "passed" st = true.
Definition qualified (r : Stage1RunRequest) (s : Ledger) : Prop := node_status (rr_id r) "qualify" s = Ok (Some "passed").
Definition implemented (r : Stage1RunRequest) (n : Z) (s : Ledger) : Prop :=
  qualified r s /\ stage r "implement" n s stage_passed.
Definition validated (r : Stage1RunRequest) (n : Z) (s : Ledger) : Prop :=
  implemented r n s /\ stage r "validate" n s (fun st => stage_passed st /\
    (ru_legacy (rr_runner r) = true \/ has_field "validation_artifact_digest" st = true)).
Definition reviewed (r : Stage1RunRequest) (n : Z) (s : Ledger) (outcome : ReviewOutcome) : Prop :=
  validated r n s /\ stage r "review" n s (fun _ => True) /\ review_outcome (rr_id r) s = Ok (Some outcome).
Definition opened (r : Stage1RunRequest) (n : Z) (s : Ledger) : Prop :=
  reviewed r n s RO_APPROVED /\ stage r "open_pr" n s (fun st => stage_passed st /\ unpublished_approval st = false).
Definition ci_passed (r : Stage1RunRequest) (n : Z) (s : Ledger) : Prop :=
  opened r n s /\ stage r "wait_for_ci" n s stage_passed.
Definition verified (r : Stage1RunRequest) (n : Z) (s : Ledger) : Prop :=
  ci_passed r n s /\ stage r "verify" n s stage_passed.
(** Generation [n] may be repaired: the limit leaves room, and a recorded outcome of that
    generation asks for it. *)
Definition repair_due (r : Stage1RunRequest) (n : Z) (s : Ledger) : Prop :=
  (exists first, generation (first_attempt r) = Ok first /\ (n - first < rr_repair_limit r)%Z) /\
  (reviewed r n s RO_REPAIR_REQUESTED /\ published (rr_id r) n s = Ok false \/
   opened r n s /\ stage r "wait_for_ci" n s (fun st => ci_failed st = true /\
     field_is "reason" "github_pull_request_merged" st = false) \/
   ci_passed r n s /\ stage r "verify" n s (fun st => field_is "status" "failed" st = true /\ behavioral_findings st = true)).
Definition justified (sv : Stage1RunService) (r : Stage1RunRequest) (s : Ledger) (a : Stage1ProgressionAction) : Prop :=
  match a with
  | A_QUALIFY => node_projection (rr_id r) "qualify" s = None
  | A_IMPLEMENT => qualified r s /\ (node_state_optional (rr_id r) "implement" s = Ok None \/ exists n, repair_due r n s)
  | A_DISPATCH_QUEUED => qualified r s /\ exists st, recorded r "implement" s st /\ field_is "status" "queued" st = true
  | A_VALIDATE => exists n, implemented r n s /\ ~ stage r "validate" n s (fun _ => True)
  | A_OPEN_PR => exists n, reviewed r n s RO_APPROVED /\
      ~ stage r "open_pr" n s (fun st => stage_passed st /\ unpublished_approval st = false)
  | A_WAIT_FOR_CI => exists n, opened r n s /\ ~ stage r "wait_for_ci" n s stage_passed
  | A_VERIFY => exists n, ci_passed r n s /\ ~ stage r "verify" n s stage_passed
  | A_REGISTER_OUTCOME_OBSERVATION => sv_outcomes sv = true /\ exists n, verified r n s
  | A_BLOCKED => exists n, implemented r n s /\ stage r "validate" n s (fun st => field_is "status" "blocked" st = true)
  | A_RECONCILE_WORKER | A_COLLECT_IMPLEMENTATION =>
      qualified r s /\ exists st, recorded r "implement" s st /\ field_is "status" "passed" st = false
  | A_WAIT | A_AWAIT_HUMAN_REVIEW | A_HOLD => True
  end.
Section Justified.
Context `{rt : PyRuntime} `{iso : IsoCodec} `{pv : PyValues} (sv : Stage1RunService) (r : Stage1RunRequest) (s : Ledger).
Implicit Types (p : Stage1Progression) (n : Z) (st : NodeState).
Lemma field_is_one key a b st : field_is key a st = true -> field_is key b st = true -> a = b.
Proof.
  unfold field_is. destruct (dict_get key st) as [v|]; cbn; [|done].
  destruct v; cbn; try done. intros ->%String.eqb_eq. apply String.eqb_eq.
Qed.
Lemma at_generation_true node o n : node_state_optional (rr_id r) node s = Ok o -> at_generation o n = Ok true ->
  exists st, o = Some st /\ recorded r node s st /\ node_generation st = Ok n.
Proof.
  intros Ho. destruct o as [st|]; cbn; [|done]. intros (g & Hg & Hn)%bind_Ok. injection Hn as ->%Z.eqb_eq. by exists st.
Qed.
Lemma at_generation_false node o n P : node_state_optional (rr_id r) node s = Ok o -> at_generation o n = Ok false ->
  ~ stage r node n s P.
Proof.
  intros Ho Hf (st & Hr & Hg & _). unfold recorded in Hr. rewrite Ho in Hr. injection Hr as ->. cbn in Hf.
  rewrite Hg in Hf. cbn in Hf. by rewrite Z.eqb_refl in Hf.
Qed.
(** Reading a stage: it has no node of this generation, or its state is there. *)
Lemma stage_cases node n o c : node_state_optional (rr_id r) node s = Ok o -> at_generation o n = Ok c ->
  (c = false /\ forall P, ~ stage r node n s P) \/
  (c = true /\ exists st, o = Some st /\ forall P : NodeState -> Prop, P st <-> stage r node n s P).
Proof.
  intros Ho Hc. destruct c; [right|left; split; [done|intros P; by eapply at_generation_false]]. split; [done|].
  destruct (at_generation_true _ _ _ Ho Hc) as (st & -> & Hr & Hg). exists st. split; [done|]. intros P. split.
  - intros HP. by exists st.
  - intros (st' & Hr' & _ & HP). unfold recorded in *. congruence.
Qed.
Lemma progress_Ok a p : progress a = Ok p -> sp_action p = a.
Proof. by intros [= <-]. Qed.
Lemma repair_or_review_Ok n p : repair_or_review r n = Ok p -> justified sv r s A_IMPLEMENT -> justified sv r s (sp_action p).
Proof. unfold repair_or_review. intros (b & _ & Hp)%bind_Ok Hj. apply progress_Ok in Hp as ->. by destruct b. Qed.
Lemma can_repair_Ok n : can_repair r n = Ok true ->
  exists first, generation (first_attempt r) = Ok first /\ (n - first < rr_repair_limit r)%Z.
Proof. intros (first & Hf & Hl)%bind_Ok. injection Hl as Hl%Z.ltb_lt. by exists first. Qed.
Lemma repair_or_review_justified n p : qualified r s ->
  ((exists first, generation (first_attempt r) = Ok first /\ (n - first < rr_repair_limit r)%Z) -> repair_due r n s) ->
  repair_or_review r n = Ok p -> justified sv r s (sp_action p).
Proof.
  intros Hq Hd. unfold repair_or_review. intros (b & Hb & Hp)%bind_Ok. apply progress_Ok in Hp as ->.
  destruct b; [|done]. split; [done|]. right. exists n. by apply Hd, can_repair_Ok.
Qed.
Lemma after_verify_justified n p : verified r n s -> after_verify sv r s = Ok p -> justified sv r s (sp_action p).
Proof.
  intros Hv. unfold after_verify. destruct (sv_outcomes sv) eqn:Ho; [|by intros ->%progress_Ok].
  intros (b & _ & ->%progress_Ok)%bind_Ok. destruct b; [done|]. split; [done|]. by exists n.
Qed.
Lemma qualified_of n : implemented r n s -> qualified r s.
Proof. by intros [? _]. Qed.
(** What was read, in the rest of the stage. *)
Ltac read_state Hp :=
  cbn [negb] in Hp; cbn zeta in Hp;
  repeat match type of Hp with context [default [] (Some ?st)] => change (default [] (Some st)) with st in Hp end.
Lemma ci_qualified n : ci_passed r n s -> qualified r s.
Proof. by intros [[[[[? _] _] _] _] _]. Qed.
Lemma not_passed st : field_is "status" "queued" st = true \/ field_is "status" "failed" st = true -> ~ stage_passed st.
Proof. intros [H|H] Hp; pose proof (field_is_one _ _ _ _ H Hp); done. Qed.
Lemma after_ci_justified n p : ci_passed r n s -> after_ci sv r n s = Ok p -> justified sv r s (sp_action p).
Proof.
  intros Hc. unfold after_ci. intros (o & Ho & (c & Hcur & Hp)%bind_Ok)%bind_Ok.
  destruct (stage_cases _ _ _ _ Ho Hcur) as [[-> Hno]|[-> (st & -> & Hst)]]; read_state Hp.
  { apply progress_Ok in Hp as ->. by exists n. }
  destruct (field_is "status" "queued" st) eqn:Eq.
  { apply progress_Ok in Hp as ->. exists n. split; [done|]. rewrite <- Hst. apply not_passed. by left. }
  destruct (field_is "status" "failed" st && behavioral_findings st) eqn:Ef.
  { apply andb_true_iff in Ef as [Ef Eb]. eapply repair_or_review_justified; [by eapply ci_qualified| |exact Hp].
    intros Hl. split; [done|]. right; right. split; [done|]. by apply Hst. }
  destruct (field_is "status" "passed" st) eqn:Ep; cbn [negb] in Hp; [|by apply progress_Ok in Hp as ->].
  eapply after_verify_justified; [|exact Hp]. split; [done|]. by apply Hst.
Qed.
Lemma after_open_pr_justified n p : opened r n s -> after_open_pr sv r n s = Ok p -> justified sv r s (sp_action p).
Proof.
  intros Hc. unfold after_open_pr. intros (o & Ho & (c & Hcur & Hp)%bind_Ok)%bind_Ok.
  destruct (stage_cases _ _ _ _ Ho Hcur) as [[-> Hno]|[-> (st & -> & Hst)]]; read_state Hp.
  { apply progress_Ok in Hp as ->. by exists n. }
  destruct (field_is "status" "queued" st) eqn:Eq.
  { apply progress_Ok in Hp as ->. exists n. split; [done|]. rewrite <- Hst. apply not_passed. by left. }
  destruct (ci_failed st && negb (field_is "reason" "github_pull_request_merged" st)) eqn:Ef.
  { apply andb_true_iff in Ef as [Ef Eb%negb_true_iff].
    eapply repair_or_review_justified; [by destruct Hc as [[[[? _] _] _] _]| |exact Hp].
    intros Hl. split; [done|]. right; left. split; [done|]. by apply Hst. }
  destruct (field_is "status" "passed" st) eqn:Ep; cbn [negb] in Hp; [|by apply progress_Ok in Hp as ->].
  eapply after_ci_justified; [|exact Hp]. split; [done|]. by apply Hst.
Qed.
Lemma after_review_justified n p : reviewed r n s RO_APPROVED -> after_review sv r n s = Ok p -> justified sv r s (sp_action p).
Proof.
  intros Hc. unfold after_review. intros (o & Ho & (c & Hcur & Hp)%bind_Ok)%bind_Ok.
  destruct (stage_cases _ _ _ _ Ho Hcur) as [[-> Hno]|[-> (st & -> & Hst)]]; read_state Hp.
  { apply progress_Ok in Hp as ->. by exists n. }
  destruct (field_is "status" "queued" st) eqn:Eq.
  { apply progress_Ok in Hp as ->. exists n. split; [done|]. rewrite <- Hst. intros [Hpp _]. revert Hpp. apply not_passed. by left. }
  destruct (unpublished_approval st) eqn:Eu.
  { apply progress_Ok in Hp as ->. exists n. split; [done|]. rewrite <- Hst, Eu. by intros [_ ?]. }
  destruct (field_is "status" "passed" st) eqn:Ep; cbn [negb] in Hp; [|by apply progress_Ok in Hp as ->].
  eapply after_open_pr_justified; [|exact Hp]. split; [done|]. by apply Hst.
Qed.
Lemma after_validate_justified n p : validated r n s -> after_validate sv r n s = Ok p -> justified sv r s (sp_action p).
Proof.
  intros Hc. unfold after_validate. intros (o & Ho & (c & Hcur & Hp)%bind_Ok)%bind_Ok.
  destruct (stage_cases _ _ _ _ Ho Hcur) as [[-> Hno]|[-> (st & -> & Hst)]]; read_state Hp.
  { by apply progress_Ok in Hp as ->. }
  apply bind_Ok in Hp as (outcome & Hout & Hp). apply bind_Ok in Hp as (repair & Hrep & Hp).
  destruct repair.
  - apply progress_Ok in Hp as ->. case_bool_decide as Hr; [|by injection Hrep]. subst outcome.
    apply bind_Ok in Hrep as (within & Hw & Hrep). destruct within; [|by injection Hrep].
    apply bind_Ok in Hrep as (pub & Hpub & Hrep). injection Hrep as Hrep. apply negb_true_iff in Hrep as ->.
    split; [by destruct Hc as [[? _] _]|]. right. exists n. split; [by apply can_repair_Ok|]. left.
    split; [|done]. split; [done|]. split; [by apply Hst|done].
  - destruct (bool_decide (outcome = Some RO_APPROVED)) eqn:Ea; cbn [negb] in Hp; [|by apply progress_Ok in Hp as ->].
    apply bool_decide_eq_true in Ea as ->. eapply after_review_justified; [|exact Hp].
    split; [done|]. split; [by apply Hst|done].
Qed.
Lemma after_implement_justified n p : implemented r n s -> after_implement sv r n s = Ok p -> justified sv r s (sp_action p).
Proof.
  intros Hc. unfold after_implement. intros (o & Ho & (c & Hcur & Hp)%bind_Ok)%bind_Ok.
  destruct (stage_cases _ _ _ _ Ho Hcur) as [[-> Hno]|[-> (st & -> & Hst)]]; read_state Hp.
  { apply progress_Ok in Hp as ->. by exists n. }
  destruct (field_is "status" "blocked" st) eqn:Eb.
  { apply progress_Ok in Hp as ->. exists n. split; [done|]. by apply Hst. }
  destruct (field_is "status" "passed" st) eqn:Ep; cbn [negb] in Hp; [|by apply progress_Ok in Hp as ->].
  destruct (_ && _) eqn:Ev; [by apply progress_Ok in Hp as ->|].
  eapply after_validate_justified; [|exact Hp]. split; [done|]. apply Hst. split; [done|].
  apply andb_false_iff in Ev as [Ev|Ev]; apply negb_false_iff in Ev; [by left|by right].
Qed.
Lemma progress_hold_Ok hold p : progress_hold hold = Ok p -> sp_action p = A_HOLD.
Proof. by intros [= <-]. Qed.
Lemma running_justified p st : qualified r s -> recorded r "implement" s st -> field_is "status" "passed" st = false ->
  running_worker_progression sv (rr_id r) s = Ok p -> justified sv r s (sp_action p).
Proof.
  intros Hq Hr Hn. unfold running_worker_progression. destruct (supervisor_record _ _); [|by intros ->%progress_Ok].
  intros (state & _ & Hp)%bind_Ok. apply bind_Ok in Hp as ([liveness i] & _ & Hp).
  destruct (bool_decide (liveness ∈ GONE)); [apply progress_Ok in Hp as ->; split; [done|by exists st]|].
  destruct (bool_decide (liveness = LV_ALIVE)); [apply progress_Ok in Hp as ->|].
  - destruct (field_is "status" "termination_requested" state); [split; [done|by exists st]|exact I].
  - apply bind_Ok in Hp as (hold & _ & Hp). by apply progress_hold_Ok in Hp as ->.
Qed.
Lemma unfinished_justified p st : qualified r s -> recorded r "implement" s st -> field_is "status" "passed" st = false ->
  unfinished_implement sv r st s = Ok p -> justified sv r s (sp_action p).
Proof.
  intros Hq Hr Hn. unfold unfinished_implement. intros (raw & _ & Hp)%bind_Ok. apply bind_Ok in Hp as (op & _ & Hp).
  apply bind_Ok in Hp as (path & _ & Hp). cbn zeta in Hp. destruct (sv_is_file sv path).
  - apply bind_Ok in Hp as (b & _ & Hp). apply progress_Ok in Hp as ->. destruct b; [done|]. split; [done|by exists st].
  - destruct (field_is "status" "running" st); [by eapply running_justified|by apply progress_Ok in Hp as ->].
Qed.
Lemma derive_justified p : derive_progression sv r s = Ok p -> justified sv r s (sp_action p).
Proof.
  unfold derive_progression. intros (status & Hs & Hp)%bind_Ok. destruct status as [status|].
  2: { apply progress_Ok in Hp as ->. unfold node_status in Hs. cbn. destruct (node_projection _ _ _); [|done].
       by inv_ok. }
  destruct (String.eqb_spec status "passed") as [->|]; cbn [negb] in Hp;
    [|apply progress_Ok in Hp as ->; by case_bool_decide].
  assert (Hq : qualified r s) by done. unfold after_qualify in Hp. apply bind_Ok in Hp as (o & Ho & Hp).
  destruct o as [st|]; [|apply progress_Ok in Hp as ->; split; [done|by left]].
  apply bind_Ok in Hp as (ended & Hend & Hp). destruct ended.
  { apply bind_Ok in Hp as (recd & _ & Hp). destruct recd; [by apply progress_hold_Ok in Hp as ->|by apply progress_Ok in Hp as ->]. }
  destruct (field_is "status" "queued" st) eqn:Eq; [apply progress_Ok in Hp as ->; split; [done|by exists st]|].
  apply bind_Ok in Hp as (cancelling & Hcan & Hp). destruct cancelling.
  { destruct (field_is "status" "running" st) eqn:Er; [|done]. eapply running_justified; [done|exact Ho| |exact Hp].
    destruct (field_is "status" "passed" st) eqn:Ep; [|done]. by pose proof (field_is_one _ _ _ _ Er Ep). }
  destruct (field_is "status" "passed" st) eqn:Ep; cbn [negb] in Hp; [|by eapply unfinished_justified].
  apply bind_Ok in Hp as (n & Hn & Hp). eapply after_implement_justified; [|exact Hp]. split; [done|by exists st].
Qed.
(** What the absence of a binding hold establishes. *)
Record unheld (r : Stage1RunRequest) : Prop := {
  uh_checks : rr_behavioral_checks r <> Some [];
  uh_catalog : se_legacy (rr_execution_selection r) = true \/
               se_catalog_digest (rr_execution_selection r) = Some (xc_digest (sv_current_catalog sv));
  uh_runner : isolated_mode (rr_runner r) = true -> exists admission, sv_runner_admission sv = Some admission /\ admission (rr_runner r) = None;
  uh_image : isolated_mode (rr_runner r) = true -> se_legacy (rr_execution_selection r) = false ->
             exists i text host, chosen_probe sv = Some (Ok (Some i), text) /\
               catalog_host (sv_current_catalog sv) (se_harness (rr_execution_selection r)) = Ok host /\
               matches_tested host i = Ok true;
  uh_host : isolated_mode (rr_runner r) = false -> requires_native_controls (rr_execution_selection r) = true ->
            forall installed text, se_legacy (rr_execution_selection r) = false ->
            chosen_probe sv = Some (Ok installed, text) -> detect_host_drift (rr_execution_selection r) installed = Ok None }.
Lemma held_binding_some o reason m d c : held_binding o reason m d = Ok c -> bk_hold c <> None.
Proof. unfold held_binding. intros (h & _ & Hc)%bind_Ok. by injection Hc as <-. Qed.
Lemma drift_hold_some reason m d o : drift_hold reason m d = Ok o -> o <> None.
Proof. unfold drift_hold. intros (h & _ & Hc)%bind_Ok. by injection Hc as <-. Qed.
Lemma catalog_drift_none sel c : detect_catalog_drift sel c = Ok None ->
  se_legacy sel = true \/ se_catalog_digest sel = Some (xc_digest c).
Proof.
  unfold detect_catalog_drift. destruct (se_legacy sel); [by left|]. cbn [orb]. case_bool_decide; [by right|].
  by intros ?%drift_hold_some.
Qed.
Lemma image_check_none c probe : image_harness_check sv (rr_execution_selection r) probe = Ok c -> bk_hold c = None ->
  exists i text host, probe = Some (Ok (Some i), text) /\
    catalog_host (sv_current_catalog sv) (se_harness (rr_execution_selection r)) = Ok host /\ matches_tested host i = Ok true.
Proof.
  unfold image_harness_check. intros Hi Hn. destruct probe as [[answer text]|]; [|by apply held_binding_some in Hi].
  apply bind_Ok in Hi as (host & Hh & Hi). destruct answer as [installed|e].
  - apply bind_Ok in Hi as (tested & Ht & Hi). destruct tested; [|by apply held_binding_some in Hi].
    destruct installed as [i|]; [|done]. by exists i, text, host.
  - destruct e; (by apply held_binding_some in Hi) || done.
Qed.
Lemma runner_hold_none : runner_hold sv r = Ok None -> isolated_mode (rr_runner r) = true ->
  exists admission, sv_runner_admission sv = Some admission /\ admission (rr_runner r) = None.
Proof.
  unfold runner_hold. intros Hr Hi. rewrite Hi in Hr. cbn [negb] in Hr. destruct (sv_runner_admission sv) as [admission|].
  - injection Hr as Hr. by exists admission.
  - by apply drift_hold_some in Hr.
Qed.
Lemma binding_unheld c : binding_check sv r = Ok c -> bk_hold c = None -> unheld r.
Proof.
  unfold binding_check. intros Hb Hn.
  assert (Hchecks : rr_behavioral_checks r <> Some []).
  { intros He. rewrite He in Hb. by apply held_binding_some in Hb. }
  assert (Hb' : exists drifted, detect_catalog_drift (rr_execution_selection r) (sv_current_catalog sv) = Ok drifted /\
    match drifted with Some hold => Ok (check_of_hold (Some hold)) | None =>
      runner ← runner_hold sv r;
      match runner with Some hold => Ok (check_of_hold (Some hold)) | None =>
        if se_legacy (rr_execution_selection r) then Ok (check_of_hold None)
        else if isolated_mode (rr_runner r) then image_harness_check sv (rr_execution_selection r) (chosen_probe sv)
        else match chosen_probe sv with
        | Some (answer, _) =>
            if negb (requires_native_controls (rr_execution_selection r)) then Ok (check_of_hold None)
            else installed ← answer; hold ← detect_host_drift (rr_execution_selection r) installed;
                 Ok {| bk_hold := hold; bk_observed_host_version := ih_executable_version <$> installed |}
        | None => Ok (check_of_hold None) end end end = Ok c).
  { destruct (rr_behavioral_checks r) as [[|]|]; [done|..]; apply bind_Ok in Hb as (drifted & Hd & Hb);
      exists drifted; by destruct drifted. }
  clear Hb. destruct Hb' as (drifted & Hd & Hb). destruct drifted; [by injection Hb as <-|].
  apply bind_Ok in Hb as (runner & Hr & Hb). destruct runner; [by injection Hb as <-|].
  pose proof (catalog_drift_none _ _ Hd) as Hcat. pose proof (runner_hold_none Hr) as Hrun.
  split; try done.
  - intros Hi Hl. rewrite Hl, Hi in Hb. by eapply image_check_none.
  - intros Hi Hnat installed text Hl Hp. rewrite Hl, Hi, Hp, Hnat in Hb. cbn [negb mbind result_bind] in Hb.
    apply bind_Ok in Hb as (hold & Hh & Hb). injection Hb as <-. cbn in Hn. by subst hold.
Qed.
End Justified.

(** ** Holds are shown *)
Section Held.
Context `{rt : PyRuntime} `{iso : IsoCodec} `{pv : PyValues} (sv : Stage1RunService) (r : Stage1RunRequest) (s : Ledger).
Definition on_ok {A} (P : A -> Prop) (m : result A) : Prop := forall a, m = Ok a -> P a.
Lemma on_ok_bind {A B} (P : B -> Prop) (m : result A) (f : A -> result B) :
  (forall a, on_ok P (f a)) -> on_ok P (mbind f m).
Proof. intros Hf b (a & _ & Hb)%bind_Ok. by apply (Hf a). Qed.
(** A derived hold carries its diagnostic, any other action carries none. *)
Definition shows_hold (p : Stage1Progression) : Prop := sp_action p = A_HOLD <-> sp_hold p <> None.
Lemma on_ok_progress a : a <> A_HOLD -> on_ok shows_hold (progress a).
Proof. intros Ha p [= <-]. unfold shows_hold. cbn. by split. Qed.
Lemma on_ok_hold hold : on_ok shows_hold (progress_hold hold).
Proof. by intros p [= <-]. Qed.
Lemma derive_shows_hold : on_ok shows_hold (derive_progression sv r s).
Proof.
  unfold derive_progression, after_qualify, unfinished_implement, after_implement, after_validate, after_review,
    after_open_pr, after_ci, after_verify, repair_or_review, running_worker_progression.
  repeat (cbn zeta; match goal with
  | |- forall _, _ => intro
  | |- on_ok _ (mbind _ _) => apply on_ok_bind
  | |- on_ok _ (progress_hold _) => apply on_ok_hold
  | |- on_ok _ (progress (if ?b then _ else _)) => destruct b
  | |- on_ok _ (progress _) => by apply on_ok_progress
  | |- on_ok _ (if ?b then _ else _) => destruct b
  | |- on_ok _ (match ?x with _ => _ end) => destruct x
  end).
Qed.
End Held.

(** ** Repairs *)
Section Repairs.
Context `{rt : PyRuntime} `{iso : IsoCodec} `{pv : PyValues} `{pe : PatternEngine} (sv : Stage1RunService) (r : Stage1RunRequest) (s : Ledger).
Lemma field_is_text key text st : field_is key text st = true -> dict_get key st = Some (JStr text).
Proof.
  unfold field_is. destruct (dict_get key st) as [v|]; [|done]. destruct v; cbn; try done. by intros ->%String.eqb_eq.
Qed.
Lemma passed_terminal st : stage_passed st -> has_status st TERMINAL_STATUSES = Ok true.
Proof. intros Hp%field_is_text. unfold has_status. by rewrite Hp. Qed.
Lemma qualified_required : qualified r s -> require_passed_node (rr_id r) "qualify" s = Ok ().
Proof.
  unfold qualified, node_status, require_passed_node. destruct (node_projection _ _ _); [|done].
  intros (st & -> & Hs)%bind_Ok. apply bind_Ok in Hs as (status & Ht & Hs). injection Hs as ->. cbn.
  unfold text_field in Ht. unfold field_is. destruct (dict_get "status" st) as [[]|]; try done.
  cbn in Ht. by injection Ht as ->.
Qed.
Lemma generations_agree a n : generation a = Ok n -> first_attempt_generation a = Ok n.
Proof. unfold generation, first_attempt_generation. intros [H1 H2]%raise_if_Ok. by rewrite H1. Qed.
Lemma node_generation_attempt st a n : node_generation st = Ok n -> dict_get "attempt_id" st = Some (JStr a) -> generation a = Ok n.
Proof.
  unfold node_generation, state_text. intros (t & Ht & Hn)%bind_Ok Ha. rewrite Ha in Ht.
  apply raise_if_Ok in Ht as [_ [= <-]]. done.
Qed.
(** No repair is due once the recorded verification has used them up. *)
Lemma exhausted_not_due n st v : recorded r "implement" s st -> node_generation st = Ok n ->
  behavioral_repair_exhausted r st v = Ok true -> ~ repair_due r n s.
Proof.
  intros Hr Hn He [(first & Hf & Hlt) _]. unfold behavioral_repair_exhausted in He.
  destruct (_ || _); [done|]. destruct (dict_get "attempt_id" st) as [[]|] eqn:Ha; try done.
  destruct (dict_get "attempt_id" v) as [[]|]; try done.
  pose proof (node_generation_attempt _ _ _ Hn Ha) as Hg%generations_agree.
  apply bind_Ok in He as (n' & Hn' & He). rewrite Hg in Hn'. injection Hn' as <-.
  apply bind_Ok in He as (w & _ & He). destruct (negb _); [done|]. apply bind_Ok in He as (used & Hu & He).
  unfold repairs_used in Hu. rewrite (generations_agree _ _ Hf) in Hu. cbn in Hu. injection Hu as <-.
  injection He as He%Z.leb_le. lia.
Qed.
Lemma due_implemented n : repair_due r n s -> implemented r n s.
Proof. intros [_ [[[[? _] _] _]|[[[[[? _] _] _] _]|[[[[[? _] _] _] _] _]]]]; done. Qed.
Lemma stage_unique node n m P Q : stage r node n s P -> stage r node m s Q -> n = m.
Proof. intros (st & Hr & Hg & _) (st' & Hr' & Hg' & _). unfold recorded in *. congruence. Qed.
(** The nodes are mappings, and their attempts carry a generation. *)
Definition readable_nodes : Prop := forall node, exists o, node_state_optional (rr_id r) node s = Ok o /\
  match o with Some st => exists g, node_generation st = Ok g | None => True end.
Lemma review_outcome_is outcome st : recorded r "review" s st -> review_outcome (rr_id r) s = Ok (Some outcome) ->
  dict_get "review_outcome" st = Some (JStr (enum_value outcome)).
Proof.
  unfold recorded, review_outcome. intros ->. cbn [mbind result_bind option_bind].
  destruct (dict_get "review_outcome" st) as [[]|]; try done. destruct (enum_of_value _) as [o|] eqn:E; [|done].
  intros [= <-]. by rewrite (enum_of_value_Ok _ _ E).
Qed.
(** Some recorded outcome of the generation is found. *)
Lemma repair_cause_found n : readable_nodes -> repair_due r n s -> exists st, repair_cause r n s = Ok st.
Proof.
  intros Hr [_ Hd]. unfold repair_cause.
  destruct (Hr "review") as (ro & Hro & Gro), (Hr "wait_for_ci") as (wo & Hwo & Gwo), (Hr "verify") as (vo & Hvo & Gvo).
  rewrite Hro, Hwo, Hvo. cbn [mbind result_bind].
  assert (Hver : exists bv, match vo with
      | Some state => if field_is "status" "failed" state && behavioral_findings state then
          g ← node_generation state; Ok (if (g =? n)%Z then Some state else None) else Ok None
      | None => Ok None end = Ok bv /\
      (stage r "verify" n s (fun st => field_is "status" "failed" st = true /\ behavioral_findings st = true) -> bv <> None)).
  { destruct vo as [v|]; [|exists None; split; [done|]; intros (st & Hs & _); unfold recorded in Hs; congruence].
    destruct Gvo as [g Hg]. destruct (field_is "status" "failed" v && behavioral_findings v) eqn:Ef.
    - rewrite Hg. eexists. split; [reflexivity|]. intros (st & Hs & Hgs & _). unfold recorded in Hs.
      rewrite Hvo in Hs. injection Hs as ->. rewrite Hg in Hgs. injection Hgs as ->. by rewrite Z.eqb_refl.
    - exists None. split; [done|]. intros (st & Hs & _ & H1 & H2). unfold recorded in Hs.
      rewrite Hvo in Hs. injection Hs as ->. by rewrite H1, H2 in Ef. }
  destruct Hver as (bv & Hbv & Hbvn).
  assert (Hrest : (bv <> None \/ exists w, wo = Some w /\ ci_failed w = true) -> exists st,
    (match bv, wo with Some state, _ => Ok state
     | None, Some state => raise_when negb (ci_failed state) as ExternalConflictError ;; Ok state
     | None, None => Err ExternalConflictError end) = Ok st).
  { intros [Hb|(w & -> & Hw)]; destruct bv; eauto; [done|]. rewrite Hw. by exists w. }
  assert (Happ : forall st, recorded r "review" s st -> review_outcome (rr_id r) s = Ok (Some RO_APPROVED) ->
    field_is "review_outcome" (enum_value RO_REPAIR_REQUESTED) st = false).
  { intros st Hs Ho. pose proof (review_outcome_is _ _ Hs Ho) as Hg. unfold field_is. by rewrite Hg. }
  assert (Hwait : stage r "wait_for_ci" n s (fun st => ci_failed st = true /\ field_is "reason" "github_pull_request_merged" st = false) ->
    exists w, wo = Some w /\ ci_failed w = true).
  { intros (st & Hs & _ & Hc & _). unfold recorded in Hs. rewrite Hwo in Hs. injection Hs as ->. by exists st. }
  destruct Hd as [[[_ [(st & Hs & Hg & _) Ho]] Hpub]|Hd].
  - pose proof (review_outcome_is _ _ Hs Ho) as Hf. unfold recorded in Hs. rewrite Hro in Hs. injection Hs as ->.
    assert (Hfi : field_is "review_outcome" (enum_value RO_REPAIR_REQUESTED) st = true) by (unfold field_is; by rewrite Hf).
    rewrite Hfi, Hg. cbn [mbind result_bind]. rewrite Z.eqb_refl, Hpub. by exists st.
  - assert (Hap : reviewed r n s RO_APPROVED) by (destruct Hd as [[[? _] _]|[[[? _] _] _]]; done).
    destruct Hap as (_ & (st & Hs & _) & Ho). pose proof (Happ _ Hs Ho) as Hfi. unfold recorded in Hs.
    rewrite Hro in Hs. injection Hs as ->. rewrite Hfi. cbn [mbind result_bind]. rewrite Hbv. cbn [mbind result_bind].
    apply Hrest. destruct Hd as [[_ Hw]|[_ Hv]]; [right; by apply Hwait|left; by apply Hbvn].
Qed.
(** What a chosen identity is. *)
Definition chosen_repair (c : ImplementationChoice) : Prop := exists n first st cause,
  recorded r "implement" s st /\ node_generation st = Ok n /\ has_status st TERMINAL_STATUSES = Ok true /\
  generation (first_attempt r) = Ok first /\ (n + 1 - first <= rr_repair_limit r)%Z /\
  repair_cause r n s = Ok cause /\ im_repairs c = Some cause /\ generation (im_attempt_id c) = Ok (n + 1)%Z.
Lemma choose_sound durable c : choose_implementation sv durable r s = Ok c ->
  node_state_optional (rr_id r) "implement" s = Ok None /\ im_attempt_id c = first_attempt r /\ im_repairs c = None \/
  chosen_repair c.
Proof.
  unfold choose_implementation. intros (? & _ & Hc)%bind_Ok. apply bind_Ok in Hc as (? & _ & Hc).
  apply bind_Ok in Hc as (? & _ & Hc). apply bind_Ok in Hc as (o & Ho & Hc).
  destruct o as [st|]; [|injection Hc as <-; by left]. right.
  apply bind_Ok in Hc as (terminal & Ht & Hc). apply raise_if_Ok in Hc as [->%negb_false_iff Hc].
  apply bind_Ok in Hc as (n & Hn & Hc). apply bind_Ok in Hc as (cause & Hcause & Hc).
  apply bind_Ok in Hc as (first & Hf & Hc). apply raise_if_Ok in Hc as [Hl%Z.ltb_ge Hc].
  apply bind_Ok in Hc as (a & Ha & Hc). apply bind_Ok in Hc as (op & _ & Hc). injection Hc as <-.
  exists n, first, st, cause. split_and!; try done. cbn.
  assert (Hn0 : (0 <= n)%Z) by (unfold node_generation in Hn; apply bind_Ok in Hn as (? & _ & Hn); by eapply generation_nonneg).
  eapply derived_generation; [lia|exact Ha].
Qed.
Lemma choose_complete durable n : require_executable sv durable r = Ok () -> opaque_budget r = false ->
  readable_nodes -> blank (rr_repository_id r) = false -> repair_due r n s ->
  (exists c, choose_implementation sv durable r s = Ok c) \/ implementation_attempt_id (rr_id r) (n + 1) = Err InvalidInputError.
Proof.
  intros Hx Ho Hr Hb Hd. destruct (implementation_attempt_id (rr_id r) (n + 1)) as [a|e] eqn:Ha;
    [left|right; f_equal; by apply mk_identifier_Err in Ha].
  destruct (due_implemented _ Hd) as [Hq (st & Hst & Hg & Hp)]. destruct (repair_cause_found _ Hr Hd) as [cause Hc].
  destruct Hd as [(first & Hf & Hlt) _]. unfold choose_implementation, require_no_opaque_budget.
  rewrite Hx, Ho. cbn [mbind result_bind raise_if]. rewrite (qualified_required Hq). unfold recorded in Hst. rewrite Hst. cbn [mbind result_bind].
  rewrite (passed_terminal _ Hp). cbn [mbind result_bind negb raise_if]. rewrite Hg. cbn [mbind result_bind].
  rewrite Hc. cbn [mbind result_bind]. rewrite Hf. cbn [mbind result_bind].
  rewrite (proj2 (Z.ltb_ge _ _)) by lia. cbn [raise_if mbind result_bind]. rewrite Ha. cbn [mbind result_bind].
  assert (Hn0 : (0 <= n)%Z) by (unfold node_generation in Hg; apply bind_Ok in Hg as (? & _ & Hg); by eapply generation_nonneg).
  unfold operation_id_derive. rewrite Hb, (proj2 (Z.ltb_ge _ _)) by lia. cbn [raise_if mbind result_bind].
  change (blank "repair_implementation") with false. cbn [raise_if mbind result_bind].
  rewrite (hex64_valid_identifier _ (sha256_hex_shape _)). by eexists.
Qed.
End Repairs.

(** A request may be dispatched: it is the bound one, and its binding is neither held nor refused. *)
Section Executable.
Context `{rt : PyRuntime} `{iso : IsoCodec} `{pv : PyValues} `{pe : PatternEngine} (sv : Stage1RunService).
Lemma require_executable_Ok durable r : require_executable sv durable r = Ok () ->
  (exists d, run_request_digest durable = Ok d /\ run_request_digest r = Ok d) /\ unheld sv durable /\
  (se_legacy (rr_execution_selection durable) = false -> exists host,
     validate_against_catalog (rr_execution_selection durable) (sv_current_catalog sv) = Ok host).
Proof.
  unfold require_executable. intros (d & Hd & Hx)%bind_Ok. apply bind_Ok in Hx as (d' & Hd' & Hx).
  apply raise_if_Ok in Hx as [->%negb_false_iff%bool_decide_eq_true Hx]. apply bind_Ok in Hx as (check & Hc & Hx).
  destruct (bk_hold check) eqn:Hh; [done|]. split_and!; [by exists d'|by eapply binding_unheld|].
  intros Hl. rewrite Hl in Hx. apply bind_Ok in Hx as (host & Hv & _). by exists host.
Qed.
Lemma executable_or_refused r check : same_adapters (rr_run r) = true -> binding_check sv r = Ok check -> bk_hold check = None ->
  require_executable sv r r = Ok () \/
  se_legacy (rr_execution_selection r) = false /\
    exists e, validate_against_catalog (rr_execution_selection r) (sv_current_catalog sv) = Err e.
Proof.
  intros Ha Hc Hn. unfold require_executable, run_request_digest, run_request_state, run_to_dict, digest_of_json.
  rewrite Ha. cbn [negb raise_if mbind result_bind]. rewrite digest_of_bytes_Ok. cbn [mbind result_bind].
  rewrite bool_decide_eq_true_2, Hc by done. cbn [negb raise_if mbind result_bind]. rewrite Hn.
  destruct (se_legacy _); [by left|]. destruct (validate_against_catalog _ _) as [host|e] eqn:Ev; [by left|].
  right. split; [done|by exists e].
Qed.
End Executable.

Section Claims.
Context `{rt : PyRuntime} `{iso : IsoCodec} `{pv : PyValues} `{pe : PatternEngine} (sv : Stage1RunService) (r : Stage1RunRequest) (s : Ledger).
(** C14: an action that advances a run is derived only from what the ledger records for it:
    validation from the passed implementation, publication from a validation that ran and an
    approved review of the same generation, waiting for the checks from the publication,
    verification from the passed checks, the outcome from the passed verification, and
    never a stage that has passed; another implementation is derived only while the repair
    limit leaves room and from findings, failed checks or failed behaviour of that very
    generation, so never once the recorded verification has exhausted the repairs; no
    advancing action is derived while the catalog, the runner or the host of the binding
    is held, and what is held shows its diagnostic. *)
Theorem progression_rests_on_record p : next_action sv r s = Ok p ->
  (observing (sp_action p) = true \/ sp_action p = A_HOLD \/
   justified sv r s (sp_action p) /\ unheld sv r /\ sp_hold p = None) /\
  (sp_action p = A_HOLD -> sp_hold p <> None) /\
  (forall st v, recorded r "implement" s st -> recorded r "verify" s v ->
     behavioral_repair_exhausted r st v = Ok true -> sp_action p <> A_IMPLEMENT).
Proof.
  unfold next_action. intros (d & Hd & Hp)%bind_Ok. apply bind_Ok in Hp as (check & Hc & Hp).
  pose proof (derive_justified _ _ _ _ Hd) as Hj. pose proof (derive_shows_hold _ _ _ _ Hd) as Hs.
  assert (Hcase : sp_action p = A_IMPLEMENT -> sp_action d = A_IMPLEMENT).
  { destruct (bk_hold check); injection Hp as <-; cbn; [|done]. by destruct (observing (sp_action d)). }
  split_and!.
  - destruct (bk_hold check) eqn:Hh; injection Hp as <-; cbn; [destruct (observing _) eqn:Ho; auto|].
    destruct (decide (sp_action d = A_HOLD)) as [|Hn]; [auto|]. right; right. split; [done|].
    split; [by eapply binding_unheld|]. destruct (sp_hold d) eqn:Eh; [|done]. destruct Hn. by apply Hs; rewrite Eh.
  - destruct (bk_hold check) eqn:Hh; injection Hp as <-; cbn; [done|]. apply Hs.
  - intros st v Hst _ He Ha. apply Hcase in Ha. rewrite Ha in Hj. destruct Hj as [_ [Hno|[n Hdue]]].
    + unfold recorded in Hst. congruence.
    + destruct (due_implemented _ _ _ Hdue) as [_ (st' & Hst' & Hg & _)].
      unfold recorded in Hst, Hst'. rewrite Hst in Hst'. injection Hst' as <-. by eapply exhausted_not_due.
Qed.
(** C15: the dispatch of an implementation and the derivation agree.  A dispatch is made only
    of a request with the digest of the one the run is bound to, whose binding is held by no
    catalog, runner or host and is accepted by the current catalog, and which, unless it is
    a run of before the trust modes, sets no cost budget; it uses the run's first attempt
    only while no implementation is recorded, and otherwise an attempt of exactly the next
    generation, found again from that generation, within the repair limit, after an ended
    attempt and for a recorded cause.  And whenever the next action of a run is to implement,
    its own dispatch finds the attempt, provided that the recorded nodes are mappings whose
    attempts carry a generation, that the repository is not blank and that the adapter
    versions and fingerprints of the run name the same adapters; unless the run sets such a
    budget, the current catalog refuses a selection that it does not hold, or the run's
    identity is too long to carry the generation. *)
Theorem repair_dispatch_agrees :
  (forall durable c, choose_implementation sv durable r s = Ok c ->
     (exists d, run_request_digest durable = Ok d /\ run_request_digest r = Ok d) /\ unheld sv durable /\
     (se_legacy (rr_execution_selection durable) = false -> exists host,
        validate_against_catalog (rr_execution_selection durable) (sv_current_catalog sv) = Ok host) /\
     (ru_legacy (rr_runner r) = false -> ir_cost_budget (rr_implementation r) = None) /\
     (node_state_optional (rr_id r) "implement" s = Ok None /\ im_attempt_id c = first_attempt r /\ im_repairs c = None \/
      chosen_repair r s c)) /\
  (forall p, readable_nodes r s -> blank (rr_repository_id r) = false -> same_adapters (rr_run r) = true ->
     next_action sv r s = Ok p -> sp_action p = A_IMPLEMENT ->
     (exists c, choose_implementation sv r r s = Ok c) \/
     ru_legacy (rr_runner r) = false /\ ir_cost_budget (rr_implementation r) <> None \/
     se_legacy (rr_execution_selection r) = false /\
       (exists e, validate_against_catalog (rr_execution_selection r) (sv_current_catalog sv) = Err e) \/
     exists n, stage r "implement" n s stage_passed /\ implementation_attempt_id (rr_id r) (n + 1) = Err InvalidInputError).
Proof.
  split.
  - intros durable c Hc. pose proof Hc as Hs. apply choose_sound in Hs. unfold choose_implementation in Hc.
    apply bind_Ok in Hc as ([] & Hx & Hc). apply bind_Ok in Hc as (? & Hbudget & _).
    apply require_executable_Ok in Hx as (Hd & Hu & Hv). apply raise_if_Ok in Hbudget as [Hbudget _].
    split_and!; try done. intros Hl. unfold opaque_budget in Hbudget. rewrite Hl in Hbudget.
    by destruct (ir_cost_budget _).
  - intros p Hr Hb Ha Hp Hi. unfold next_action in Hp. apply bind_Ok in Hp as (d & Hd & Hp).
    apply bind_Ok in Hp as (check & Hcheck & Hp).
    assert (Hn : bk_hold check = None /\ sp_action d = A_IMPLEMENT).
    { destruct (bk_hold check); injection Hp as <-; cbn in Hi; [|done]. by destruct (observing (sp_action d)) eqn:Ho; rewrite ?Hi in Ho. }
    destruct Hn as [Hn Hi']. destruct (opaque_budget r) eqn:Hbudget.
    { right; left. apply andb_true_iff in Hbudget as [Hl%negb_true_iff Hc]. split; [done|]. by destruct (ir_cost_budget _). }
    destruct (executable_or_refused _ _ _ Ha Hcheck Hn) as [Hx|Hx]; [|by right; right; left].
    pose proof (derive_justified _ _ _ _ Hd) as Hj. rewrite Hi' in Hj. destruct Hj as [Hq [Hno|[n Hdue]]].
    + left. unfold choose_implementation, require_no_opaque_budget. rewrite Hx, Hbudget. cbn [mbind result_bind raise_if].
      rewrite (qualified_required _ _ Hq), Hno. cbn. by eexists.
    + destruct (choose_complete sv _ _ _ _ Hx Hbudget Hr Hb Hdue) as [Hc|He]; [by left|right; right; right].
      exists n. split; [|done]. by apply due_implemented in Hdue as [_ ?].
Qed.
End Claims.

(** A run whose first implementation was sent back by its review. *)
Module Demo.
#[local] Existing Instance IdentityProofs.toy_runtime.
#[local] Existing Instance toy_iso.
#[local] Existing Instance RecordProofs.Demo.toy_values.
#[local] Existing Instance SelectionProofs.Demo.demo_patterns.
Definition demo_digest : Digest := {| algorithm := "sha256"; hex_value := of_chars (repeat (chr 48) 64) |}.
Definition demo_run : Run := {|
  run_id := "run-1"; run_work_item_id := "item-1"; run_work_item_snapshot_digest := demo_digest;
  run_workflow_definition_id := "stage1"; run_workflow_definition_digest := demo_digest; run_repository := "owner/repo";
  run_base_revision := "abc"; run_policy_set_version := "1"; run_adapter_versions := [("git", "1")];
  run_adapter_fingerprints := [("git", demo_digest)]; run_capability_lock_digest := demo_digest; run_environment_manifest_digest := demo_digest;
  run_configuration_snapshot_digest := demo_digest; run_state := RUN_RUNNING; run_aggregate_version := 3 |}.
Definition demo_item : WorkItem := {|
  wi_id := "item-1"; wi_work_kind := WK_ISSUE; wi_source_provider := "github"; wi_external_reference := "#1";
  wi_source_snapshot_reference := "s"; wi_title := "t"; wi_objective := "o"; wi_acceptance_criteria := ["a"];
  wi_constraints := []; wi_risk_class := RISK_LOW; wi_repository_targets := ["owner/repo"]; wi_dependencies := [];
  wi_state := WI_ACTIVE; wi_aggregate_version := 0 |}.
Definition demo_selection : ExecutionSelection := {|
  se_harness := "codex"; se_harness_source := None; se_model := UNSPECIFIED; se_effort := UNSPECIFIED;
  se_selected_model := None; se_selected_effort := None; se_mode := HOST_DEFAULT;
  se_strict_effective := false; se_catalog_version := None; se_catalog_digest := None;
  se_host_version := None; se_host_protocol_fingerprint := None; se_support_tier := None;
  se_observed_host_version := None; se_legacy := true |}.
Definition demo_runner : RunnerSelection := {|
  ru_trust_mode := TRUSTED_LOCAL; ru_profile_name := TRUSTED_LOCAL_PROFILE_NAME; ru_profile_digest := None;
  ru_image := None; ru_docker_context := None; ru_legacy := false; ru_model_access := MODEL_ACCESS_NONE |}.
Example demo_runner_ok : trusted_local false = Ok demo_runner.
Proof. by vm_compute. Qed.
Definition demo_request (limit : Z) : Stage1RunRequest := {|
  rr_run := demo_run; rr_work_snapshot := {| ws_work_item := demo_item; ws_source_revision := "r1";
    ws_classification_provenance := None |};
  rr_manifest := WorkflowProofs.Demo.manifest; rr_repository_id := "repo"; rr_repository_path := "/repo";
  rr_workspace_path := "/work/run-1"; rr_base_branch := "main"; rr_head_branch := "topic";
  rr_validation_commands := [["make"; "test"]]; rr_applicable_criteria := [true]; rr_required_checks := ["ci"];
  rr_repair_limit := limit; rr_implementation := {| ir_attempt_id := "run-1-implement-1"; ir_operation_id := "op";
    ir_time_budget_seconds := 60; ir_cost_budget := None; ir_permitted_capabilities := []; ir_evidence_requirements := [] |};
  rr_execution_configuration := {| ex_github_repository := "owner/repo"; ex_github_credential_reference := "c";
    ex_github_executable := "gh"; ex_harness_provider := "codex"; ex_harness_credential_reference := "c";
    ex_harness_executable := "codex"; ex_artifact_root := "/artifacts" |};
  rr_execution_selection := demo_selection; rr_runner := demo_runner; rr_protected_paths := []; rr_behavioral_checks := None |}.
Definition demo_service : Stage1RunService := {|
  sv_host := sample_host true; sv_is_file := fun _ => false; sv_outcomes := true;
  sv_current_catalog := {| xc_version := "1"; xc_digest := demo_digest; xc_hosts := [] |};
  sv_host_probe := None; sv_harness_probe := None; sv_runner_admission := None |}.
Definition node_row (node : string) (status : string) (more : list (string * json)) : ref * ProjectionRow :=
  ((RUNTIME_NODE_AGGREGATE_TYPE, "run-1:" +:+ node), {|
    pj_aggregate_version := 1; pj_event_type := "completed"; pj_schema_version := 1; pj_updated_at := "t";
    pj_state := JObj (("status", JStr status) :: ("attempt_id", JStr ("run-1-" +:+ node +:+ "-1")) :: more) |}).
Definition rows : list (ref * ProjectionRow) := [
  node_row "qualify" "passed" []; node_row "implement" "passed" [];
  node_row "validate" "passed" [("validation_artifact_digest", JStr "d")];
  node_row "review" "passed" [("review_outcome", JStr "repair_requested")]].
Definition sent_back : Ledger := set_projections empty_ledger (list_to_map rows).
Definition row_readable (row : ref * ProjectionRow) : bool :=
  match pj_state row.2 with JObj st => match node_generation st with Ok _ => true | Err _ => false end | _ => false end.
Lemma rows_readable limit : readable_nodes (demo_request limit) sent_back.
Proof.
  assert (Hall : Forall (fun row => row_readable row = true) rows) by (repeat constructor; by vm_compute).
  intros node. unfold node_state_optional. destruct (node_projection _ _ _) as [p|] eqn:Ep; [|by exists None].
  unfold node_projection, read_projection in Ep. cbn [sent_back set_projections lg_projections] in Ep.
  apply (elem_of_list_to_map_2 rows) in Ep. rewrite Forall_forall in Hall. apply Hall in Ep. cbv beta in Ep. unfold row_readable in Ep. cbn [snd] in Ep.
  unfold state_dict. destruct (pj_state p) as [| | | | | |m]; try discriminate Ep. exists (Some m). split; [reflexivity|].
  destruct (node_generation m) as [g|] eqn:Eg; [by exists g|discriminate Ep].
Qed.
Example sent_back_implements :
  next_action demo_service (demo_request 1) sent_back = progress A_IMPLEMENT /\
  next_action demo_service (demo_request 0) sent_back = progress A_AWAIT_HUMAN_REVIEW.
Proof. split; by vm_compute. Qed.
Lemma progression_rests_on_record_witness : exists n, repair_due (demo_request 1) n sent_back.
Proof.
  destruct (progression_rests_on_record demo_service (demo_request 1) sent_back
    {| sp_action := A_IMPLEMENT; sp_hold := None; sp_observed_host_version := None |}) as ([Ho|[Ho|[Hj _]]] & _ & _);
    [vm_compute; reflexivity|discriminate Ho|discriminate Ho|].
  destruct Hj as [_ [Hn|Hd]]; [|exact Hd]. exfalso. vm_compute in Hn. discriminate Hn.
Defined.
Example limits_text : map decimal_text [DecimalFinite false 1250 (-2); DecimalFinite false 0 (-2);
  DecimalFinite true 5 (-9); DecimalFinite false 12 3; DecimalFinite false 7 0] = ["12.50"; "0.00"; "-5E-9"; "1.2E+4"; "7"].
Proof. by vm_compute. Qed.
Lemma repair_dispatch_agrees_witness :
  (exists c, choose_implementation demo_service (demo_request 1) (demo_request 1) sent_back = Ok c /\
     chosen_repair (demo_request 1) sent_back c) /\
  forall c, choose_implementation demo_service (demo_request 1) (demo_request 2) sent_back <> Ok c.
Proof.
  split.
  - destruct (repair_dispatch_agrees demo_service (demo_request 1) sent_back) as [Hsound Hfound].
    destruct (Hfound {| sp_action := A_IMPLEMENT; sp_hold := None; sp_observed_host_version := None |}
      (rows_readable 1)) as [(c & Hc)|[[_ Hn]|[[Hl _]|(n & Hs & He)]]]; try (vm_compute; reflexivity).
    + exists c. split; [exact Hc|]. destruct (Hsound _ c Hc) as (_ & _ & _ & _ & [(Hn & _)|Hr]); [|exact Hr].
      exfalso. vm_compute in Hn. discriminate Hn.
    + exfalso. apply Hn. vm_compute. reflexivity.
    + discriminate Hl.
    + destruct Hs as (st & Hst & Hg & _). unfold recorded in Hst. vm_compute in Hst. injection Hst as <-.
      vm_compute in Hg. injection Hg as <-. vm_compute in He. discriminate He.
  - intros c Hc. vm_compute in Hc. discriminate Hc.
Defined.
End Demo.
